(* ===== verification/_CoqProject ===== *)
-Q . S2P
Prelude.v
PyData.v
Json.v
Base64.v
Sha256.v
PyNum.v
PyRegex.v
Logging.v
Artifacts.v
CoverageGate.v
RunTypes.v
RunRepo.v
MemoryRepo.v
PostgresRepo.v
RepoSim.v
RunOutcome.v
Meter.v
Metrics.v
Observability.v
ConvStore.v
ConvSpec.v
RedisStore.v
PostgresStore.v
ConvSim.v
Schemas.v
Grounding.v
Context.v
Evidence.v
Settings.v
ChatSchema.v
RequestExamples.v
Identity.v
Tokens.v
Gate.v
Registry.v
Inventory.v
StateRuntime.v
Lifespan.v
Health.v
Startup.v
InventoryApi.v
ResourceManager.v
Routing.v
ToolPolicy.v
Ollama.v
OllamaShared.v
McpProtocol.v
McpClient.v
Dates.v
Queries.v
Decompose.v
SessionMemory.v
PromptFormat.v
GraphState.v
GraphNodes.v
GraphRun.v
GraphBalance.v
Prompts.v
Agents.v
GraphLogic.v
GraphCorrect.v
McpProps.v
AgentHost.v
ChatRuntime.v
ChatProps.v
ChatSample.v
Service.v
Api.v
BaseAgent.v
