(* ===== verification/Prelude.v ===== *)
(** * A chat agent service, modelled and verified

    The program is a FastAPI service that answers chat requests with a
    plan-work-verify agent graph over local models (Ollama) and tools (MCP),
    with durable runs.  A request passes through

      - request identity ([app/orchestration/run_identity.py]): the request is
        hashed, named, and, when it resumes a run, authenticated by a token;
      - the chat runtime ([app/orchestration/chat_runtime.py]): one turn per
        conversation, a durable record per run, a lease with a fencing token,
        a heartbeat, the stored outcome and the conversation history;
      - the run repository ([app/state/run_repository.py]), in memory or in
        PostgreSQL, which is the correctness boundary between workers;
      - the agent graph ([app/graph.py], [app/graphs]): plan, research, work,
        verify, revise, replan, finalize, verify the final answer;
      - the services the graph calls: routing and inventory, evidence,
        grounding, context, the tool executor, all metered by the request's
        execution meter ([app/orchestration/execution_meter.py]);
      - the role agents ([app/agents]), which ask the models for structured
        output through the Ollama client ([app/llm]) and its admission control,
        and the MCP client ([app/mcp]), through which the executor calls tools.

    ** How the development is laid out

    Foundations.  [Prelude] (this file): exceptions, the state-and-error monad
    [M S A] of a Python call (state mutated before a raise stays mutated),
    record update, the [preserve] hints.  [PyData]: strings, JSON-like values
    and dictionaries.  [Json], [Base64], [Sha256], [PyNum]: what the program
    uses of the standard library's [json], [base64], [hashlib], [hmac], [int]
    and [uuid], with their round trips.  [PyRegex]: the backtracking matcher of
    [re], equivalent to the declared meaning of an expression ([runs_derives],
    [search_spec], [finditer_pieces]).

    Durable runs.  [RunTypes] (records, leases, [app/schemas/run.py]),
    [RunRepo] (the abstract base class as a type class [RunRepository], what a
    backend promises as [RunRepositoryLaws], and the theorems a client can rely
    on: [fencing], [single_writer], [run_binding]), [MemoryRepo] and
    [PostgresRepo] (the two backends, operation by operation, and their
    instances of the laws), [RepoSim] (a simulation between them:
    [backends_agree], and where they part: [reconcile_divergence], and
    [acquire_divergence], why a client of the laws ties a lease to the conversation
    of its run, [bound]),
    [RunOutcome] (what the writes of an outcome store, for both backends).

    Request identity.  [ChatSchema] ([app/schemas/chat.py]), [Identity] (the
    service), [Tokens] (what its tokens and hashes guarantee:
    [resume_round_trip], [resume_sound], [hash_binds_request] of two requests whose
    texts do not collide, [thread_injective]), [Gate] (the conversation gate and its mutual
    exclusion), [Registry] (the process-local run registry kept for
    compatibility: [registry_exclusive], [registry_replays]).

    Chat runtime.  [ChatRuntime] (admission, replay, lease, heartbeat,
    execution, outcome, history, with a cancellation possible at every await),
    [ChatProps] (what it guarantees: [gate_restored], [admission_sound],
    [outcome_durable], [replay_exact]), [ChatSample] (two runs that lose an
    outcome, and the witnesses).

    Conversation stores.  [ConvStore] (in memory), [ConvSpec] (the abstract log
    a store implements, as a class with laws), [RedisStore] and [PostgresStore]
    (over the commands of Redis and the two tables), [ConvSim] (all three
    answer as the log: [stores_agree], and where they part).

    Services.  [Meter] (budgets), [Metrics], [Observability] (redaction, spans,
    timers and the snapshot of the metrics: [redact_exact]), [Logging] (the text
    of a log line: [log_lines_intact]), [Artifacts] (objects in MinIO:
    [artifact_round_trip], [get_bytes_releases], [cancelled_get_leaks]), [Schemas] (the structured
    outputs), [Grounding], [Context], [Evidence] (with canonical URIs:
    [evidence_trust], [canonical_uri_ignores], [unreadable_port_raises]),
    [Settings], [Inventory], [InventoryApi] (the dictionary the graph's state
    carries the inventory as, which is why [GraphState] keeps the record itself:
    [inventory_round_trip]; the report of the roles and its endpoint), [Routing],
    [ToolPolicy] (policies and the executor), [Dates].

    Query services, which the graph does not call.  [Queries] (extraction and
    rewriting), [Decompose] (splitting a request: [decompose_spec]),
    [SessionMemory] ([session_memory_bounded]), [PromptFormat]
    ([references_spec], [evidence_within_budget], [nested_think_survives]).

    Models and tools.  [ResourceManager] (admission to Ollama: the coroutines of
    [acquire] as a step system over the two semaphores of [asyncio];
    [admission_bounds], [admission_drains]), [Ollama] (the client, its caches,
    [chat], [stream_chat] and [embed] with their metering:
    [model_calls_accounted], [chat_errors]), [OllamaShared] (the runtimes that
    clients of one configuration share: [clients_share_runtimes]), [McpProtocol] (messages, events and
    tool results as pure functions: [select_response_spec], [sse_round_trip]),
    [McpClient] (transport, session, tool list, tool calls), [McpProps]
    ([call_tool_contained], [tool_call_sent_once], [recovery_single_flight]),
    [Prompts], [Agents] (payload compaction and bounded structured output:
    [compact_payload_spec], [structured_output_bounded]).

    Agent graph.  [GraphState] (the state), [GraphNodes] (one definition per
    node), [GraphRun] (routes, edges, the run), [GraphLogic] (a program logic
    for node bodies), [GraphCorrect] ([graph_terminates],
    [completed_is_verified], [routes_are_mapped]), [GraphBalance] (every node
    closes the model attempts it begins, over any host that does), [AgentHost]
    (the role agents over Ollama and the executor over MCP are such a host:
    [service_implements_graph] composes the program).

    The service.  [Service] (the chat runtime over the program's own graph, as the
    metered agent of [app/factory.py] runs it: [answers_are_verified], the
    end-to-end theorem -- what a request is answered is verified, says that it is
    not, or is the stored answer of the finished run it names -- and
    [silent_termination], where only the text says so), [BaseAgent] (the agent the
    chat runtime extends, without durable runs: [base_answers_are_committed]).

    The build.  [CoverageGate] (the script that compares the coverage report with
    the policy: [gate_passes], [gate_names_failures]).

    Life cycle and API.  [StateRuntime] (the backends a process builds, starts,
    falls back from and closes, [ChatAgent]'s start and shutdown, the life span,
    with a log of every call to a service), [Lifespan] ([lifespan_releases],
    [startup_degrades]), [Health] (the health of every backend and the readiness
    endpoint: [ready_redacted], a noninterference theorem, and where readiness
    says too much and too little), [Startup] (the checks of the settings, and
    [workers_share_tokens], what the check on signing keys is for, and
    [padded_namespace_refused], what it misses), [Api] (the
    chat endpoints, from a request whose body passed its schema -- the framework
    answers any other with 422 -- and the event stream: [chat_reply_typed],
    [chat_stream_protocol], [stream_decodes]), [RequestExamples] (the examples of
    the API documentation: [examples_confined], [examples_loaded_once]).

    ** Parameters

    Code outside the repository is a parameter: the host of the graph
    ([GraphHost]: models, tools, clock), of the executor ([ToolHost]), of the
    two clients ([OllamaHost], [McpHost]: requests, locks, clocks; a host
    operation may change the client's own state, as other requests do while the
    caller is suspended), of the chat runtime ([ChatHost]: checkpointer,
    conversation store, graph, clocks, [uuid4], the deliveries of cancellations
    and the acts of other workers at each await), of an event stream
    ([StreamHost]: the client), of the state runtime ([ServiceHost]: every call
    to a backend), the client of MinIO ([MinioHost]), the commands of Redis
    ([RedisServer]), the files and the parser of TOML ([read_text],
    [toml_loads]), what pydantic takes for a boolean ([lax_bool]), the conversions of the
    interpreter and of [urllib] ([IdentityEnv], [EvidenceEnv], [str] and [repr] of
    containers and floats), LangChain's prompt template, JSONB and UUID columns.  What the
    code relies on is a hypothesis of the theorem ([GraphLaws], [OllamaLaws],
    [QuietMcp], [CountsCalls], [Journal], [RedisLaws], [host_keeps] -- of [leaves_run]
    where other workers must leave one run alone --, [calm], [calm_closes], [calm_calls],
    [AlikeHosts], [uuids_nonempty], [MinioLaws]), with a concrete host that satisfies it in
    the witness.

    ** Bounds and fuel

    The graph runs with [graph_fuel], four super-steps per verifier round left
    plus two per final revision plus seven; [graph_terminates] proves that this
    is enough for every host.  [loads] scans with twice the length of the text
    as fuel, which [loads_text] shows to be enough for what [dumps] prints;
    [splitlines] and the semaphore's wake-up loop run with the length of the
    text and the number of free slots.
    Strings are bytes (UTF-8).  The compaction of a model's payload counts and cuts
    characters, as the code does ([ulen], [take_chars]); the other bounds on lengths
    count bytes.  A float is carried as its [repr].

    ** What is not modelled

    The HTTP server and the rest of [factory.py], which hands objects to FastAPI;
    the configuration of the HTTP clients and of the loggers; the places where log
    lines are written (their text is modelled); the environment the settings are
    read from; the arguments of the coverage script. *)

From stdpp Require Export base tactics numbers option list gmap strings fin_maps.
From Stdlib Require Export ZArith Lia.

#[global] Open Scope Z_scope.

(** ** Python exceptions

    One constructor per family of exception classes the modelled code raises or
    catches; the class of a family member is data, so that an [except] clause is
    a boolean test ([is_...] below). *)

(** Builtin exception classes. *)
Inductive py_class : Type :=
  | ValueError | TypeError | KeyError | RuntimeError | PermissionError
  | IndexError | OSError | TimeoutError | JSONDecodeError | UnicodeError | AttributeError | OtherError.

(** The subclasses of [RequestIdentityError] ([app/orchestration/run_identity.py]). *)
Inductive identity_class : Type :=
  | RequestIdentityError | ConversationBusyError | RunConflictError
  | StaleLeaseError | RunNotResumableError | ResumeTokenInvalidError
  | ResumeTokenRevokedError | ResumeTokenExpiredError | ResumeRunNotFoundError
  | IncompatibleRunStateError.

(** The subclasses of [MCPError] ([app/mcp/errors.py], [app/mcp/client.py]). *)
Inductive mcp_class : Type :=
  | MCPError | MCPTransportError | MCPHTTPStatusError | MCPProtocolError
  | MCPSessionError | MCPSessionExpiredError | MCPToolError
  | MCPResponseMismatchError | MCPClientError.

Inductive exn : Type :=
  | PyExn (c : py_class) (msg : string)
  | CancelledError
  | BudgetExceeded (msg : string)
  | IdentityExn (c : identity_class) (msg : string)
  | StructuredOutputError (schema_name : string) (attempted_models failures : list string)
  | OllamaError (msg : string)
  | HttpError (msg : string)
  | McpExn (c : mcp_class) (status_code : option Z) (msg : string)
  | ToolExecutionDenied (msg : string)
  | ToolApprovalRequired (msg : string).

#[export] Instance py_class_eq_dec : EqDecision py_class.
Proof. solve_decision. Defined.
#[export] Instance identity_class_eq_dec : EqDecision identity_class.
Proof. solve_decision. Defined.
#[export] Instance mcp_class_eq_dec : EqDecision mcp_class.
Proof. solve_decision. Defined.
#[export] Instance exn_eq_dec : EqDecision exn.
Proof. solve_decision. Defined.

(** ** Outcomes and the state-and-error monad

    A Python call either returns or raises; state mutated before a raise stays
    mutated, so the state is threaded through both cases. *)

Inductive outcome (A : Type) : Type :=
  | Ret (a : A)
  | Raise (e : exn).
Arguments Ret {A} a.
Arguments Raise {A} e.

#[export] Instance outcome_eq_dec {A} `{EqDecision A} : EqDecision (outcome A).
Proof. solve_decision. Defined.

Definition is_ret {A} (o : outcome A) : bool :=
  match o with Ret _ => true | Raise _ => false end.

Lemma Ret_eq {A} (a b : A) : Ret a = Ret b → a = b.
Proof. by intros [=]. Qed.

Definition M (S A : Type) : Type := S → outcome A * S.

Section monad.
Context {S : Type}.

Definition ret {A} (a : A) : M S A := λ s, (Ret a, s).
Definition raise {A} (e : exn) : M S A := λ s, (Raise e, s).

Definition bind {A B} (m : M S A) (k : A → M S B) : M S B := λ s,
  match m s with
  | (Ret a, s') => k a s'
  | (Raise e, s') => (Raise e, s')
  end.

Definition gets {A} (f : S → A) : M S A := λ s, (Ret (f s), s).
Definition modify (f : S → S) : M S unit := λ s, (Ret tt, f s).

(** [try: m except ...: h e]; [h e = None] when no clause matches [e]. *)
Definition try_except {A} (m : M S A) (h : exn → option (M S A)) : M S A := λ s,
  match m s with
  | (Ret a, s') => (Ret a, s')
  | (Raise e, s') =>
    match h e with
    | Some m' => m' s'
    | None => (Raise e, s')
    end
  end.

(** [try: m finally: f]; an exception of [f] replaces the outcome of [m]. *)
Definition try_finally {A} (m : M S A) (f : M S unit) : M S A := λ s,
  let '(o, s') := m s in
  match f s' with
  | (Ret _, s'') => (o, s'')
  | (Raise e, s'') => (Raise e, s'')
  end.

Definition of_outcome {A} (o : outcome A) : M S A := λ s, (o, s).
End monad.

(** What a cancellation does at an [await]: nothing, or it is delivered before the
    awaited operation has an effect, or after. *)
Inductive delivery : Type := Proceed | CancelBefore | CancelAfter.

(** Run an action of a sub-state inside the enclosing state. *)
Definition zoom {S T A} (get : S → T) (set : T → S → S) (m : M T A) : M S A :=
  λ s, let '(o, t) := m (get s) in (o, set t s).

Declare Scope py_scope.
Delimit Scope py_scope with py.
Notation "'let!' x := m 'in' k" := (bind m (λ x, k))
  (at level 10, x name, m at level 100, k at level 200)
  : py_scope.
Notation "'let*' p := m 'in' k" := (bind m (λ x, match x with p => k end))
  (at level 10, p strict pattern, m at level 100, k at level 200)
  : py_scope.
Notation "m ';;;' k" := (bind m (λ _, k))
  (at level 199, right associativity) : py_scope.
#[global] Open Scope py_scope.

Lemma bind_run {S A B} (m : M S A) (k : A → M S B) s a s1 : m s = (Ret a, s1) → bind m k s = k a s1.
Proof. intros E. unfold bind. by rewrite E. Qed.

Lemma bind_Ret_inv {S A B} (m : M S A) (k : A → M S B) s b s' :
  bind m k s = (Ret b, s') →
  ∃ a s1, m s = (Ret a, s1) ∧ k a s1 = (Ret b, s').
Proof. unfold bind. destruct (m s) as [[a|e] s1]; naive_solver. Qed.

Lemma bind_Raise_inv {S A B} (m : M S A) (k : A → M S B) s e s' :
  bind m k s = (Raise e, s') →
  m s = (Raise e, s') ∨ ∃ a s1, m s = (Ret a, s1) ∧ k a s1 = (Raise e, s').
Proof. unfold bind. destruct (m s) as [[a|e'] s1]; naive_solver. Qed.

Lemma bind_assoc {S A B C} (m : M S A) (f : A → M S B) (g : B → M S C) s :
  bind (bind m f) g s = bind m (λ a, bind (f a) g) s.
Proof. unfold bind. by destruct (m s) as [[a|e] s1]. Qed.

(** A state predicate or relation kept by an action whatever its outcome. *)
Definition preserves {S A} (R : S → S → Prop) (m : M S A) : Prop :=
  ∀ s, R s (m s).2.

Lemma preserves_ret {S A} (R : S → S → Prop) `{!Reflexive R} (a : A) :
  preserves R (ret (S:=S) a).
Proof. by intros s. Qed.

Lemma preserves_raise {S A} (R : S → S → Prop) `{!Reflexive R} e :
  preserves R (raise (S:=S) (A:=A) e).
Proof. by intros s. Qed.

Lemma preserves_gets {S A} (R : S → S → Prop) `{!Reflexive R} (f : S → A) :
  preserves R (gets f).
Proof. by intros s. Qed.

Lemma preserves_of_outcome {S A} (R : S → S → Prop) `{!Reflexive R} (o : outcome A) :
  preserves R (of_outcome (S:=S) o).
Proof. by intros s. Qed.

Lemma preserves_bind {S A B} (R : S → S → Prop) `{!Transitive R}
    (m : M S A) (k : A → M S B) :
  preserves R m → (∀ a, preserves R (k a)) → preserves R (bind m k).
Proof.
  intros Hm Hk s. unfold bind. specialize (Hm s).
  destruct (m s) as [[a|e] s1]; [|done].
  etrans; [exact Hm|apply Hk].
Qed.

Lemma preserves_try_except {S A} (R : S → S → Prop) `{!Transitive R}
    (m : M S A) (h : exn → option (M S A)) :
  preserves R m → (∀ e m', h e = Some m' → preserves R m') →
  preserves R (try_except m h).
Proof.
  intros Hm Hh s. unfold try_except. specialize (Hm s).
  destruct (m s) as [[a|e] s1]; [done|].
  destruct (h e) as [m'|] eqn:He; [|done].
  etrans; [exact Hm|by apply (Hh e)].
Qed.

Lemma preserves_try_finally {S A} (R : S → S → Prop) `{!Transitive R}
    (m : M S A) (f : M S unit) :
  preserves R m → preserves R f → preserves R (try_finally m f).
Proof.
  intros Hm Hf s. unfold try_finally. specialize (Hm s).
  destruct (m s) as [o s1]. specialize (Hf s1).
  destruct (f s1) as [[?|?] s2]; simpl in *; by etrans.
Qed.

Create HintDb preserve.
#[export] Hint Resolve preserves_ret preserves_raise preserves_gets
  preserves_of_outcome preserves_bind preserves_try_except
  preserves_try_finally : preserve.

(** ** Triples over an action's outcome *)

Definition triple {S A} (P : S → Prop) (m : M S A) (Q : outcome A → S → Prop) : Prop :=
  ∀ s, P s → Q (m s).1 (m s).2.

Lemma triple_bind {S A B} (P : S → Prop) (m : M S A) (k : A → M S B) Q1 Q :
  triple P m Q1 →
  (∀ a, triple (Q1 (Ret a)) (k a) Q) →
  (∀ e s, Q1 (Raise e) s → Q (Raise e) s) →
  triple P (bind m k) Q.
Proof.
  intros Hm Hk He s Hs. unfold bind. specialize (Hm s Hs).
  destruct (m s) as [[a|e] s1]; [by apply Hk|by apply He].
Qed.

Lemma triple_try {S A} (P : S → Prop) (m : M S A) h Q1 Q :
  triple P m Q1 →
  (∀ a s, Q1 (Ret a) s → Q (Ret a) s) →
  (∀ e, match h e with
        | Some m' => triple (Q1 (Raise e)) m' Q
        | None => ∀ s, Q1 (Raise e) s → Q (Raise e) s
        end) →
  triple P (try_except m h) Q.
Proof.
  intros Hm Ha He s Hs. unfold try_except. specialize (Hm s Hs).
  destruct (m s) as [[a|e] s1]; [by apply Ha|]. specialize (He e).
  destruct (h e); by apply He.
Qed.

Lemma triple_finally {S A} (P : S → Prop) (m : M S A) (f : M S unit) (R Q : S → Prop) :
  triple P m (λ _, R) → triple R f (λ _, Q) → triple P (try_finally m f) (λ _, Q).
Proof.
  intros Hm Hf s Hs. unfold try_finally. specialize (Hm s Hs).
  destruct (m s) as [o s1]. specialize (Hf s1 Hm). by destruct (f s1) as [[]].
Qed.

Lemma triple_weaken {S A} (P P' : S → Prop) (m : M S A) (Q Q' : outcome A → S → Prop) :
  triple P m Q → (∀ s, P' s → P s) → (∀ o s, Q o s → Q' o s) → triple P' m Q'.
Proof. intros Hm HP HQ s Hs. by apply HQ, Hm, HP. Qed.

(** What is known of the value alone goes to the context. *)
Lemma triple_pure {S A} (φ : Prop) (P : S → Prop) (m : M S A) Q :
  (φ → triple P m Q) → triple (λ s, P s ∧ φ) m Q.
Proof. intros H s [Hs Hφ]. by apply H. Qed.

(** ** Record update

    [r <| f := v |>] is [dataclasses.replace(r, f=v)] for a record whose
    [Eta] instance spells its constructor out. *)

Class Eta (R : Type) : Type := eta_expand : R → R.
Class Over {R F : Type} (proj : R → F) : Type := MkOver { over : (F → F) → R → R }.
#[global] Arguments over {R F} proj {Over} f r.

Ltac derive_over proj :=
  lazymatch type of proj with
  | ?R → ?F =>
      let inst := constr:(_ : Eta R) in
      let body := eval hnf in inst in
      lazymatch eval pattern proj in body with
      | ?g _ =>
          let t := eval cbv beta in
            (MkOver R F proj (λ (f : F → F) (r : R), g (λ x, f (proj x)) r)) in
          exact t
      end
  end.
#[export] Hint Extern 0 (Over ?p) => derive_over p : typeclass_instances.

Notation "r <| p := v |>" := (over p (λ _, v) r)
  (at level 1, p at level 9, v at level 100, left associativity,
   format "r  <| p  :=  v |>") : py_scope.
