(* ===== verification/PyData.v ===== *)
(** * Python strings and JSON-like values

    The string methods and the dynamically typed values the modelled code uses.
    A Python [str] is a Rocq [string] (a list of bytes): the methods below agree
    with Python's on ASCII text, and lengths are counted in bytes.  A JSON-like
    value ([dict[str, Any]], tool results, model payloads) is a [pyval]; a float
    is carried as its [repr], since the code only passes floats through. *)

From S2P Require Import Prelude.
From Stdlib Require Import DecimalString.

(** ** Characters *)

Definition code (c : Ascii.ascii) : N := Ascii.N_of_ascii c.

Definition is_upper (c : Ascii.ascii) : bool :=
  ((65 <=? code c) && (code c <=? 90))%N.
Definition is_lower_or_digit (c : Ascii.ascii) : bool :=
  (((97 <=? code c) && (code c <=? 122)) || ((48 <=? code c) && (code c <=? 57)))%N.
Definition lower_char (c : Ascii.ascii) : Ascii.ascii :=
  if is_upper c then Ascii.ascii_of_N (code c + 32)%N else c.

(** [str.isspace] on ASCII: 9-13, 28-32. *)
Definition is_space (c : Ascii.ascii) : bool :=
  (((9 <=? code c) && (code c <=? 13)) || ((28 <=? code c) && (code c <=? 32)))%N.

Lemma forallb_Forall {A} (f : A → bool) l : forallb f l = true ↔ Forall (λ x, f x = true) l.
Proof. by rewrite forallb_forall, Forall_forall; setoid_rewrite list_elem_of_In. Qed.

(** ** String methods *)

Fixpoint smap (f : Ascii.ascii → Ascii.ascii) (s : string) : string :=
  match s with
  | EmptyString => EmptyString
  | String c s' => String (f c) (smap f s')
  end.

Definition lower (s : string) : string := smap lower_char s.

Definition nonempty (s : string) : bool :=
  match s with EmptyString => false | _ => true end.

(** [needle in haystack]. *)
Fixpoint contains (needle haystack : string) : bool :=
  String.prefix needle haystack ||
  match haystack with
  | EmptyString => false
  | String _ rest => contains needle rest
  end.

Definition startswith (p s : string) : bool := String.prefix p s.

Fixpoint srev_app (s acc : string) : string :=
  match s with
  | EmptyString => acc
  | String c s' => srev_app s' (String c acc)
  end.
Definition srev (s : string) : string := srev_app s EmptyString.

Definition endswith (p s : string) : bool := String.prefix (srev p) (srev s).

Fixpoint drop_while (p : Ascii.ascii → bool) (s : string) : string :=
  match s with
  | EmptyString => EmptyString
  | String c s' => if p c then drop_while p s' else s
  end.

Definition lstrip_by (p : Ascii.ascii → bool) (s : string) : string := drop_while p s.
Definition rstrip_by (p : Ascii.ascii → bool) (s : string) : string :=
  srev (drop_while p (srev s)).
Definition strip_by (p : Ascii.ascii → bool) (s : string) : string :=
  rstrip_by p (lstrip_by p s).
(** [s.strip()], [s.rstrip()]. *)
Definition strip (s : string) : string := strip_by is_space s.
Definition rstrip (s : string) : string := rstrip_by is_space s.

Fixpoint mem_char (c : Ascii.ascii) (s : string) : bool :=
  match s with
  | EmptyString => false
  | String d s' => Ascii.eqb c d || mem_char c s'
  end.
(** [s.strip(chars)]. *)
Definition strip_chars (chars s : string) : string := strip_by (λ c, mem_char c chars) s.

(** [s.split(c)] for a one-character separator. *)
Fixpoint split_on (sep : Ascii.ascii) (s : string) : list string :=
  match s with
  | EmptyString => [EmptyString]
  | String c s' =>
      if Ascii.eqb c sep then EmptyString :: split_on sep s'
      else match split_on sep s' with
           | w :: ws => String c w :: ws
           | [] => [String c EmptyString]
           end
  end.

(** Maximal runs of characters satisfying [p]: [split()] with
    [p = negb ∘ is_space], [re.split] on a negated class otherwise. *)
Fixpoint words_by (p : Ascii.ascii → bool) (cur : string) (s : string) : list string :=
  match s with
  | EmptyString => if nonempty cur then [srev cur] else []
  | String c s' =>
      if p c then words_by p (String c cur) s'
      else if nonempty cur then srev cur :: words_by p EmptyString s'
      else words_by p EmptyString s'
  end.
(** [s.split()]. *)
Definition split_ws (s : string) : list string :=
  words_by (λ c, negb (is_space c)) EmptyString s.

(** [sep.join(ws)]. *)
Definition join (sep : string) (ws : list string) : string := String.concat sep ws.

(** [s[:n]]. *)
Fixpoint stake (n : nat) (s : string) : string :=
  match n, s with
  | S n', String c s' => String c (stake n' s')
  | _, _ => EmptyString
  end.
Definition slen (s : string) : Z := Z.of_nat (String.length s).
Definition stake_Z (n : Z) (s : string) : string := stake (Z.to_nat n) s.

(** [s.replace(a, b)] for one-character [a] and [b]. *)
Definition replace_char (a b : Ascii.ascii) (s : string) : string :=
  smap (λ c, if Ascii.eqb c a then b else c) s.

(** [s.count(sub)] of non-overlapping occurrences; [len(s) + 1] for an empty
    [sub].  [fuel] bounds the scan; [String.length s] is enough. *)
Fixpoint sdrop (n : nat) (s : string) : string :=
  match n, s with
  | S n', String _ s' => sdrop n' s'
  | _, _ => s
  end.
Fixpoint count_from (fuel : nat) (sub s : string) : nat :=
  match fuel with
  | O => O
  | S fuel' =>
      match s with
      | EmptyString => O
      | String _ rest =>
          if String.prefix sub s then S (count_from fuel' sub (sdrop (String.length sub) s))
          else count_from fuel' sub rest
      end
  end.
Definition scount (sub s : string) : nat :=
  if nonempty sub then count_from (String.length s) sub s else S (String.length s).

(** [a or b] on strings and optional strings. *)
Definition str_or (a b : string) : string := if nonempty a then a else b.
Definition opt_str_or (a : option string) (b : string) : string :=
  match a with Some s => str_or s b | None => b end.
Definition opt_truthy (a : option string) : bool :=
  match a with Some s => nonempty s | None => false end.
Definition opt_or (a b : option string) : option string :=
  if opt_truthy a then a else b.

Definition nl : string := String (Ascii.ascii_of_N 10) EmptyString.
Definition quote_char : Ascii.ascii := Ascii.ascii_of_N 34.
Definition quote : string := String quote_char EmptyString.

(** [str(n)] for an integer. *)
Definition Z_to_string (z : Z) : string := NilZero.string_of_int (Z.to_int z).
Definition nat_to_string (n : nat) : string := Z_to_string (Z.of_nat n).

(** [str(exc)]. *)
Definition exn_text (e : exn) : string :=
  match e with
  | HttpError m | OllamaError m | PyExn _ m | McpExn _ _ m | BudgetExceeded m | IdentityExn _ m
  | ToolExecutionDenied m | ToolApprovalRequired m => m
  | CancelledError => ""
  | StructuredOutputError schema_name _ failures =>
      "Models returned invalid structured output for " +:+ schema_name +:+ ": "
      +:+ str_or (join " | " failures) "no structured response attempts"
  end.

(** ** JSON-like values *)

#[warnings="-register-all"]
Inductive pyval : Type :=
  | VNone
  | VBool (b : bool)
  | VInt (z : Z)
  | VFloat (repr : string)
  | VStr (s : string)
  | VList (l : list pyval)
  | VDict (d : list (string * pyval)).

Section pyval_ind_strong.
Variable P : pyval → Prop.
Hypothesis HNone : P VNone.
Hypothesis HBool : ∀ b, P (VBool b).
Hypothesis HInt : ∀ z, P (VInt z).
Hypothesis HFloat : ∀ r, P (VFloat r).
Hypothesis HStr : ∀ s, P (VStr s).
Hypothesis HList : ∀ l, Forall P l → P (VList l).
Hypothesis HDict : ∀ d, Forall (λ kv, P kv.2) d → P (VDict d).

Fixpoint pyval_strong_ind (v : pyval) : P v :=
  match v with
  | VNone => HNone
  | VBool b => HBool b
  | VInt z => HInt z
  | VFloat r => HFloat r
  | VStr s => HStr s
  | VList l =>
    HList l ((fix go l : Forall P l :=
      match l with
      | [] => Forall_nil_2 _
      | x :: l' => Forall_cons_2 _ _ _ (pyval_strong_ind x) (go l')
      end) l)
  | VDict d =>
    HDict d ((fix go d : Forall (λ kv, P kv.2) d :=
      match d with
      | [] => Forall_nil_2 _
      | (k, x) :: d' => Forall_cons_2 (λ kv, P kv.2) (k, x) d' (pyval_strong_ind x) (go d')
      end) d)
  end.
End pyval_ind_strong.

Fixpoint pyval_eqb (v w : pyval) : bool :=
  match v, w with
  | VNone, VNone => true
  | VBool a, VBool b => Bool.eqb a b
  | VInt a, VInt b => Z.eqb a b
  | VFloat a, VFloat b => String.eqb a b
  | VStr a, VStr b => String.eqb a b
  | VList l, VList l' =>
      (fix go l l' :=
         match l, l' with
         | [], [] => true
         | x :: l, y :: l' => pyval_eqb x y && go l l'
         | _, _ => false
         end) l l'
  | VDict d, VDict d' =>
      (fix go d d' :=
         match d, d' with
         | [], [] => true
         | (k, x) :: d, (k', y) :: d' => String.eqb k k' && pyval_eqb x y && go d d'
         | _, _ => false
         end) d d'
  | _, _ => false
  end.

Lemma pyval_eqb_eq v w : pyval_eqb v w = true ↔ v = w.
Proof.
  revert w. induction v as [| | | | |l IH|d IH] using pyval_strong_ind; intros [];
    simpl; try (split; congruence).
  - rewrite Bool.eqb_true_iff. split; congruence.
  - rewrite Z.eqb_eq. split; congruence.
  - rewrite String.eqb_eq. split; congruence.
  - rewrite String.eqb_eq. split; congruence.
  - match goal with |- _ ↔ VList _ = VList ?l' => revert l' end.
    induction IH as [|x l Hx _ IHl]; intros [|y l']; try (split; congruence).
    rewrite andb_true_iff, Hx, IHl. split; [intros [-> [= ->]]; done|].
    by intros [= -> ->].
  - match goal with |- _ ↔ VDict _ = VDict ?l' => revert l' end.
    induction IH as [|[k x] l Hx _ IHl]; intros [|[k' y] l']; try (split; congruence).
    simpl in Hx.
    rewrite !andb_true_iff, String.eqb_eq, Hx, IHl.
    split; [intros [[-> ->] [= ->]]; done|]. by intros [= -> -> ->].
Qed.

#[export] Instance pyval_eq_dec : EqDecision pyval.
Proof.
  intros v w. destruct (pyval_eqb v w) eqn:E.
  - left. by apply pyval_eqb_eq.
  - right. intros H%pyval_eqb_eq. congruence.
Defined.

(** A Python dict with string keys, in insertion order. *)
Abbreviation pydict := (list (string * pyval)) (only parsing).

Fixpoint dict_get {A} (k : string) (d : list (string * A)) : option A :=
  match d with
  | [] => None
  | (k', v) :: d' => if String.eqb k k' then Some v else dict_get k d'
  end.

(** [d[k] = v]: in place for a present key, appended otherwise. *)
Fixpoint dict_set {A} (k : string) (v : A) (d : list (string * A)) : list (string * A) :=
  match d with
  | [] => [(k, v)]
  | (k', v') :: d' =>
      if String.eqb k k' then (k', v) :: d' else (k', v') :: dict_set k v d'
  end.

Definition dict_has {A} (k : string) (d : list (string * A)) : bool :=
  match dict_get k d with Some _ => true | None => false end.

(** [{**d, **e}]. *)
Definition dict_merge {A} (d e : list (string * A)) : list (string * A) :=
  foldl (λ acc kv, dict_set kv.1 kv.2 acc) d e.

(** [collections.OrderedDict] is the same list; [od_touch] is an assignment
    followed by [move_to_end], [od_pop] a [pop(k, None)]. *)
Definition od_pop {A} (k : string) (d : list (string * A)) : list (string * A) :=
  filter (λ kv, kv.1 ≠ k) d.
Definition od_touch {A} (k : string) (v : A) (d : list (string * A)) : list (string * A) :=
  od_pop k d ++ [(k, v)].
#[global] Arguments od_pop : simpl never.
#[global] Arguments od_touch : simpl never.

(** [bool(v)]. *)
Definition truthy (v : pyval) : bool :=
  match v with
  | VNone => false
  | VBool b => b
  | VInt z => negb (z =? 0)
  | VFloat r => negb (String.eqb r "0.0" || String.eqb r "-0.0")
  | VStr s => nonempty s
  | VList l => match l with [] => false | _ => true end
  | VDict d => match d with [] => false | _ => true end
  end.

(** [v or {}] and [v.get(k, dflt)]. *)
Definition or_empty (v : pyval) : pyval := if truthy v then v else VDict [].
Definition get_key (k : string) (dflt v : pyval) : outcome pyval :=
  match v with
  | VDict d => Ret (default dflt (dict_get k d))
  | _ => Raise (PyExn AttributeError "object has no attribute 'get'")
  end.

Definition opt_val_truthy (o : option pyval) : bool :=
  match o with Some v => truthy v | None => false end.

(** [v.get(k)] with [None] for a missing key, as a value. *)
Definition get_or_none (k : string) (d : pydict) : pyval := default VNone (dict_get k d).

Lemma dict_get_set {A} k k' (v : A) d :
  dict_get k (dict_set k' v d) = if String.eqb k k' then Some v else dict_get k d.
Proof.
  induction d as [|[k1 v1] d IH]; simpl; [done|].
  destruct (String.eqb_spec k' k1) as [->|Hne]; simpl.
  - by destruct (String.eqb k k1).
  - rewrite IH. destruct (String.eqb_spec k k1) as [->|]; [|done].
    destruct (String.eqb_spec k1 k'); congruence.
Qed.

Lemma dict_get_set_eq {A} k (v : A) d : dict_get k (dict_set k v d) = Some v.
Proof. by rewrite dict_get_set, String.eqb_refl. Qed.

Lemma dict_get_set_ne {A} k k' (v : A) d :
  k ≠ k' → dict_get k (dict_set k' v d) = dict_get k d.
Proof. intros Hne. rewrite dict_get_set. by destruct (String.eqb_spec k k'). Qed.

Lemma dict_set_same {A} k (v : A) d : dict_get k d = Some v → dict_set k v d = d.
Proof.
  induction d as [|[k1 v1] d IH]; simpl; [done|].
  destruct (String.eqb_spec k k1) as [->|]; [by intros [= ->]|]. intros E. by rewrite IH.
Qed.

Lemma dict_get_elem_of {A} k (v : A) d : dict_get k d = Some v → (k, v) ∈ d.
Proof.
  induction d as [|[k1 v1] d IH]; simpl; [done|].
  destruct (String.eqb_spec k k1) as [->|]; [intros [= ->]; left|].
  right. auto.
Qed.

Lemma elem_of_dict_get {A} k (v : A) d : NoDup d.*1 → (k, v) ∈ d → dict_get k d = Some v.
Proof.
  induction d as [|[k1 v1] d IH]; simpl; [by intros _ ?%not_elem_of_nil|].
  intros [Hk Hd]%NoDup_cons [[= <- <-]|Hin]%elem_of_cons; [by rewrite String.eqb_refl|].
  destruct (String.eqb_spec k k1) as [->|]; [|by apply IH].
  destruct Hk. apply list_elem_of_fmap. by exists (k1, v).
Qed.

Lemma dict_get_None {A} k (d : list (string * A)) : dict_get k d = None ↔ k ∉ d.*1.
Proof.
  induction d as [|[k1 v1] d IH]; simpl; [split; [intros _ []%not_elem_of_nil|done]|].
  rewrite not_elem_of_cons. destruct (String.eqb_spec k k1); [naive_solver|]. tauto.
Qed.

Lemma dict_get_merge {A} k (d e : list (string * A)) :
  NoDup e.*1 →
  dict_get k (dict_merge d e) = match dict_get k e with Some v => Some v | None => dict_get k d end.
Proof.
  revert d. induction e as [|[k1 v1] e IH]; intros d Hnd; simpl; [done|].
  apply NoDup_cons in Hnd as [Hk1 Hnd]. unfold dict_merge in *. simpl. rewrite IH by done.
  rewrite dict_get_set. destruct (String.eqb_spec k k1) as [->|]; [|done].
  apply dict_get_None in Hk1. simpl in Hk1. by rewrite Hk1.
Qed.

Lemma dict_get_app {A} k (d e : list (string * A)) :
  dict_get k (d ++ e) = match dict_get k d with Some v => Some v | None => dict_get k e end.
Proof.
  induction d as [|[k1 v1] d IH]; simpl; [done|]. by destruct (String.eqb k k1).
Qed.

Lemma dict_get_pop {A} k k' (d : list (string * A)) :
  dict_get k (od_pop k' d) = if String.eqb k k' then None else dict_get k d.
Proof.
  unfold od_pop. induction d as [|[k1 v1] d IH]; simpl; [by destruct (String.eqb k k')|].
  rewrite filter_cons. destruct (decide _) as [Hne|He]; simpl in *.
  - rewrite IH. destruct (String.eqb_spec k k1), (String.eqb_spec k k'); try done. congruence.
  - rewrite IH. destruct (String.eqb_spec k k'), (String.eqb_spec k k1); try done.
    subst. by destruct He.
Qed.

Lemma dict_get_touch {A} k k' (v : A) d :
  dict_get k (od_touch k' v d) = if String.eqb k k' then Some v else dict_get k d.
Proof.
  unfold od_touch. rewrite dict_get_app, dict_get_pop. simpl.
  destruct (String.eqb k k'); [done|]. by destruct (dict_get k d).
Qed.

Lemma od_pop_keys {A} k (d : list (string * A)) : (od_pop k d).*1 = filter (.≠ k) d.*1.
Proof.
  unfold od_pop. induction d as [|[k1 v1] d IH]; [done|].
  rewrite fmap_cons, !filter_cons. simpl.
  destruct (decide (k1 ≠ k)); [rewrite fmap_cons; simpl; f_equal|]; exact IH.
Qed.

Lemma od_pop_NoDup {A} k (d : list (string * A)) : NoDup d.*1 → NoDup (od_pop k d).*1.
Proof. rewrite od_pop_keys. apply NoDup_filter. Qed.

Lemma od_touch_NoDup {A} k (v : A) d : NoDup d.*1 → NoDup (od_touch k v d).*1.
Proof.
  intros H. unfold od_touch. rewrite fmap_app, NoDup_app. split; [by apply od_pop_NoDup|].
  split; [|apply NoDup_singleton]. intros x Hx. rewrite od_pop_keys, list_elem_of_filter in Hx.
  simpl. intros ->%list_elem_of_singleton. by destruct Hx.
Qed.

(** ** Lengths *)

Lemma stake_length n s : String.length (stake n s) = Nat.min n (String.length s).
Proof. revert s; induction n as [|n IH]; intros [|c s]; simpl; auto. Qed.

Lemma stake_Z_length n s : 0 ≤ n → slen (stake_Z n s) ≤ n.
Proof. intros Hn. unfold slen, stake_Z. rewrite stake_length. lia. Qed.

Lemma stake_all n s : (String.length s ≤ n)%nat → stake n s = s.
Proof.
  revert s; induction n as [|n IH]; intros [|c s] Hs; simpl in *; try lia; [done..|].
  f_equal. apply IH. lia.
Qed.

Lemma slen_app a b : slen (a +:+ b) = slen a + slen b.
Proof.
  unfold slen. enough (String.length (a +:+ b) = (String.length a + String.length b)%nat) by lia.
  induction a as [|c a IH]; simpl; [done|]. f_equal. exact IH.
Qed.

Lemma slen_nonneg s : 0 ≤ slen s.
Proof. unfold slen. lia. Qed.

Create Rewrite HintDb pystr.
#[export] Hint Rewrite @slen_app @stake_length : pystr.
