(* ===== verification/Json.v ===== *)
(** * JSON

    [json.dumps] with [ensure_ascii=False] and [json.loads] of the standard
    library, on the values the program serializes.  A string is its UTF-8
    bytes, so text outside ASCII passes through unescaped; a float keeps its
    [repr].  The interpreter's limits on recursion depth and on the digits of
    an integer are not modelled.  [loads_dumps] is the round trip the resume
    tokens rely on. *)

From Stdlib Require Import DecimalString.
From Stdlib Require DecimalFacts DecimalPos DecimalN DecimalZ.
From S2P Require Import Prelude.
From S2P Require Import PyData.

(** ** Serialization *)

Definition hex_digit (n : N) : Ascii.ascii :=
  Ascii.ascii_of_N (if (n <? 10)%N then 48 + n else 87 + n)%N.

(** The characters a backslash and one more character stand for. *)
Definition escape_code (n : N) : option N :=
  if (n =? 34)%N then Some 34%N
  else if (n =? 92)%N then Some 92%N
  else if (n =? 10)%N then Some 110%N
  else if (n =? 13)%N then Some 114%N
  else if (n =? 9)%N then Some 116%N
  else if (n =? 8)%N then Some 98%N
  else if (n =? 12)%N then Some 102%N
  else None.

Definition chr (n : N) : string := String (Ascii.ascii_of_N n) EmptyString.

Definition escape_char (c : Ascii.ascii) : string :=
  match escape_code (code c) with
  | Some e => chr 92 +:+ chr e
  | None =>
      if (code c <? 32)%N then
        chr 92 +:+ "u00" +:+ String (hex_digit (code c / 16)) (String (hex_digit (code c mod 16)) "")
      else String c ""
  end.

Fixpoint escape (s : string) : string :=
  match s with
  | EmptyString => EmptyString
  | String c s' => escape_char c +:+ escape s'
  end.

Definition string_lit (s : string) : string := quote +:+ escape s +:+ quote.

(** The literal of a float from its [repr]. *)
Definition float_lit (r : string) : string :=
  if String.eqb r "nan" then "NaN"
  else if String.eqb r "inf" then "Infinity"
  else if String.eqb r "-inf" then "-Infinity" else r.

(** [separators=(item_sep, key_sep)]. *)
Record Separators : Type := MkSeparators { item_sep : string; key_sep : string }.
Definition default_separators : Separators := MkSeparators ", " ": ".
Definition compact_separators : Separators := MkSeparators "," ":".

(** [json.dumps(v, ensure_ascii=False, separators=sep)]. *)
Fixpoint dumps (sep : Separators) (v : pyval) : string :=
  match v with
  | VNone => "null"
  | VBool b => if b then "true" else "false"
  | VInt z => Z_to_string z
  | VFloat r => float_lit r
  | VStr s => string_lit s
  | VList l => "[" +:+ join (item_sep sep) (map (dumps sep) l) +:+ "]"
  | VDict d =>
      "{" +:+ join (item_sep sep)
        (map (λ kv, string_lit kv.1 +:+ key_sep sep +:+ dumps sep kv.2) d) +:+ "}"
  end.

(** [sort_keys=True]: every dictionary in the order of its keys. *)
Fixpoint insert_key (k : string) (v : pyval) (d : pydict) : pydict :=
  match d with
  | [] => [(k, v)]
  | (k', v') :: d' => if String.leb k k' then (k, v) :: d else (k', v') :: insert_key k v d'
  end.

Fixpoint sort_keys (v : pyval) : pyval :=
  match v with
  | VList l => VList (map sort_keys l)
  | VDict d =>
      VDict (foldr (λ kv acc, insert_key kv.1 kv.2 acc) [] (map (λ kv, (kv.1, sort_keys kv.2)) d))
  | _ => v
  end.

Definition dumps_sorted (sep : Separators) (v : pyval) : string := dumps sep (sort_keys v).

(** ** UTF-8 *)

(** The bytes of a code point; a lone surrogate keeps its three bytes. *)
Definition utf8 (n : N) : string :=
  (if n <? 128 then chr n
   else if n <? 2048 then chr (192 + n / 64) +:+ chr (128 + n mod 64)
   else if n <? 65536 then
     chr (224 + n / 4096) +:+ chr (128 + n / 64 mod 64) +:+ chr (128 + n mod 64)
   else chr (240 + n / 262144) +:+ chr (128 + n / 4096 mod 64) +:+
        chr (128 + n / 64 mod 64) +:+ chr (128 + n mod 64))%N.

(** The length of a string in characters: its bytes that do not continue one. *)
Definition continues (c : Ascii.ascii) : bool := ((128 <=? code c) && (code c <? 192))%N.

Fixpoint chars (s : string) : nat :=
  match s with
  | EmptyString => 0
  | String c s => if continues c then chars s else S (chars s)
  end.

Definition ulen (s : string) : Z := Z.of_nat (chars s).

(** [s[:n]]: the first [n] characters. *)
Fixpoint take_chars (n : nat) (s : string) : string :=
  match s with
  | EmptyString => EmptyString
  | String c s' =>
      if continues c then String c (take_chars n s')
      else match n with O => EmptyString | S n' => String c (take_chars n' s') end
  end.

(** A text that starts with a character, or is empty. *)
Definition at_boundary (s : string) : bool :=
  match s with EmptyString => true | String c _ => negb (continues c) end.

Definition in_range (lo hi n : N) : bool := ((lo <=? n) && (n <=? hi))%N.

(** [bytes.decode('utf-8')] succeeds. *)
Fixpoint utf8_valid (s : string) : bool :=
  match s with
  | EmptyString => true
  | String c s1 =>
      let n := code c in
      if (n <? 128)%N then utf8_valid s1
      else match s1 with
      | EmptyString => false
      | String c1 s2 =>
          if in_range 194 223 n then in_range 128 191 (code c1) && utf8_valid s2
          else match s2 with
          | EmptyString => false
          | String c2 s3 =>
              if in_range 224 239 n then
                in_range (if (n =? 224)%N then 160 else 128) (if (n =? 237)%N then 159 else 191) (code c1) &&
                in_range 128 191 (code c2) && utf8_valid s3
              else match s3 with
              | EmptyString => false
              | String c3 s4 =>
                  in_range 240 244 n &&
                  in_range (if (n =? 240)%N then 144 else 128) (if (n =? 244)%N then 143 else 191) (code c1) &&
                  in_range 128 191 (code c2) && in_range 128 191 (code c3) && utf8_valid s4
              end
          end
      end
  end.

(** ** Parsing

    A scanner returns the value and the text after it, or [None] where
    [json.loads] raises [JSONDecodeError]. *)

Definition is_json_ws (c : Ascii.ascii) : bool :=
  (code c =? 32)%N || (code c =? 9)%N || (code c =? 10)%N || (code c =? 13)%N.
Definition skip_ws (s : string) : string := drop_while is_json_ws s.

Definition unescape_code (n : N) : option N :=
  if (n =? 34)%N then Some 34%N
  else if (n =? 92)%N then Some 92%N
  else if (n =? 47)%N then Some 47%N
  else if (n =? 110)%N then Some 10%N
  else if (n =? 114)%N then Some 13%N
  else if (n =? 116)%N then Some 9%N
  else if (n =? 98)%N then Some 8%N
  else if (n =? 102)%N then Some 12%N
  else None.

Definition hex_value (c : Ascii.ascii) : option N :=
  let n := code c in
  if in_range 48 57 n then Some (n - 48)%N
  else if in_range 97 102 n then Some (n - 87)%N
  else if in_range 65 70 n then Some (n - 55)%N
  else None.

Definition hex4 (a b c d : Ascii.ascii) : option N :=
  match hex_value a, hex_value b, hex_value c, hex_value d with
  | Some x, Some y, Some z, Some w => Some (4096 * x + 256 * y + 16 * z + w)%N
  | _, _, _, _ => None
  end.

Definition prepend (p : string) (r : option (string * string)) : option (string * string) :=
  match r with Some (v, rest) => Some (p +:+ v, rest) | None => None end.

(** The text after the opening quote of a string, in strict mode. *)
Fixpoint scan_string (s : string) : option (string * string) :=
  match s with
  | EmptyString => None
  | String c s1 =>
      if (code c =? 34)%N then Some (EmptyString, s1)
      else if (code c <? 32)%N then None
      else if (code c =? 92)%N then
        match s1 with
        | EmptyString => None
        | String e s2 =>
            match unescape_code (code e) with
            | Some n => prepend (chr n) (scan_string s2)
            | None =>
                match s2 with
                | String h1 (String h2 (String h3 (String h4 s3))) =>
                    if (code e =? 117)%N then
                      match hex4 h1 h2 h3 h4 with
                      | None => None
                      | Some hi =>
                          match s3 with
                          | String b (String u (String g1 (String g2 (String g3 (String g4 s4))))) =>
                              if in_range 55296 56319 hi && (code b =? 92)%N && (code u =? 117)%N then
                                match hex4 g1 g2 g3 g4 with
                                | None => None
                                | Some lo =>
                                    if in_range 56320 57343 lo then
                                      prepend (utf8 (65536 + 1024 * (hi - 55296) + (lo - 56320))) (scan_string s4)
                                    else prepend (utf8 hi) (scan_string s3)
                                end
                              else prepend (utf8 hi) (scan_string s3)
                          | _ => prepend (utf8 hi) (scan_string s3)
                          end
                      end
                    else None
                | _ => None
                end
            end
        end
      else prepend (String c EmptyString) (scan_string s1)
  end.

Definition is_digit (c : Ascii.ascii) : bool := in_range 48 57 (code c).

Fixpoint span_digits (s : string) : string * string :=
  match s with
  | EmptyString => (EmptyString, EmptyString)
  | String c s' =>
      if is_digit c then let '(ds, rest) := span_digits s' in (String c ds, rest)
      else (EmptyString, s)
  end.

Definition scan_fraction (s : string) : string * string :=
  match s with
  | String c s' =>
      if (code c =? 46)%N then
        let '(ds, rest) := span_digits s' in
        if nonempty ds then (String c ds, rest) else (EmptyString, s)
      else (EmptyString, s)
  | EmptyString => (EmptyString, s)
  end.

Definition scan_exponent (s : string) : string * string :=
  match s with
  | String c s1 =>
      if (code c =? 101)%N || (code c =? 69)%N then
        let '(sign, s2) :=
          match s1 with
          | String g s2 =>
              if (code g =? 43)%N || (code g =? 45)%N then (String g EmptyString, s2) else (EmptyString, s1)
          | EmptyString => (EmptyString, s1)
          end in
        let '(ds, rest) := span_digits s2 in
        if nonempty ds then (String c (sign +:+ ds), rest) else (EmptyString, s)
      else (EmptyString, s)
  | EmptyString => (EmptyString, s)
  end.

(** [int(literal)] of a JSON integer literal. *)
Definition int_literal (s : string) : Z :=
  match NilZero.int_of_string s with Some i => Z.of_int i | None => 0 end.

Section loads.
(** [repr(float(literal))] of a float literal. *)
Variable float_repr : string → string.

Definition scan_number (s : string) : option (pyval * string) :=
  let '(sign, s1) :=
  match s with
  | String c s1 => if (code c =? 45)%N then (chr 45, s1) else (EmptyString, s)
  | EmptyString => (EmptyString, s)
  end in
  match s1 with
  | EmptyString => None
  | String c s2 =>
    if is_digit c then
      let '(ds, s3) := if (code c =? 48)%N then (chr 48, s2) else span_digits s1 in
      let '(frac, s4) := scan_fraction s3 in
      let '(exponent, s5) := scan_exponent s4 in
      if nonempty frac || nonempty exponent then
        Some (VFloat (float_repr (sign +:+ ds +:+ frac +:+ exponent)), s5)
      else Some (VInt (int_literal (sign +:+ ds)), s5)
    else None
  end.

Definition literals : list (string * pyval) :=
  [("null", VNone); ("true", VBool true); ("false", VBool false); ("NaN", VFloat "nan");
   ("Infinity", VFloat "inf"); ("-Infinity", VFloat "-inf")].

(** The first literal [s] starts with. *)
Fixpoint scan_literal (ls : list (string * pyval)) (s : string) : option (pyval * string) :=
  match ls with
  | [] => None
  | (w, v) :: ls' =>
    if String.prefix w s then Some (v, sdrop (String.length w) s) else scan_literal ls' s
  end.

(** [scan_once], the items of an array after its bracket and the pairs of an
object after its brace.  [fuel] bounds the depth of calls. *)
Fixpoint scan_once (fuel : nat) (s : string) : option (pyval * string) :=
  match fuel with
  | O => None
  | S fuel' =>
    match s with
    | EmptyString => None
    | String c s1 =>
        if (code c =? 34)%N then
          match scan_string s1 with Some (v, rest) => Some (VStr v, rest) | None => None end
        else if (code c =? 91)%N then
          match skip_ws s1 with
          | String c' s2 =>
              if (code c' =? 93)%N then Some (VList [], s2)
              else match scan_items fuel' (String c' s2) with
                   | Some (l, rest) => Some (VList l, rest)
                   | None => None
                   end
          | EmptyString => None
          end
        else if (code c =? 123)%N then
          match skip_ws s1 with
          | String c' s2 =>
              if (code c' =? 125)%N then Some (VDict [], s2)
              else match scan_pairs fuel' [] (String c' s2) with
                   | Some (d, rest) => Some (VDict d, rest)
                   | None => None
                   end
          | EmptyString => None
          end
        else match scan_literal literals s with
             | Some r => Some r
             | None => scan_number s
             end
    end
  end
  with scan_items (fuel : nat) (s : string) : option (list pyval * string) :=
  match fuel with
  | O => None
  | S fuel' =>
    match scan_once fuel' s with
    | None => None
    | Some (v, rest) =>
        match skip_ws rest with
        | String c s1 =>
            if (code c =? 93)%N then Some ([v], s1)
            else if (code c =? 44)%N then
              match scan_items fuel' (skip_ws s1) with
              | Some (l, s2) => Some (v :: l, s2)
              | None => None
              end
            else None
        | EmptyString => None
        end
    end
  end
  with scan_pairs (fuel : nat) (acc : pydict) (s : string) : option (pydict * string) :=
  match fuel, s with
  | S fuel', String q s1 =>
    if (code q =? 34)%N then
      match scan_string s1 with
      | None => None
      | Some (k, s2) =>
          match skip_ws s2 with
          | String c s3 =>
              if (code c =? 58)%N then
                match scan_once fuel' (skip_ws s3) with
                | None => None
                | Some (v, s4) =>
                    match skip_ws s4 with
                    | String c' s5 =>
                        if (code c' =? 125)%N then Some (dict_set k v acc, s5)
                        else if (code c' =? 44)%N then
                          scan_pairs fuel' (dict_set k v acc) (skip_ws s5)
                        else None
                    | EmptyString => None
                    end
                end
              else None
          | EmptyString => None
          end
      end
    else None
  | _, _ => None
  end.

(** [json.loads(s)]: one value, with white space around it only. *)
Definition loads (s : string) : option pyval :=
  match scan_once (2 * S (String.length s)) (skip_ws s) with
  | Some (v, rest) => if nonempty (skip_ws rest) then None else Some v
  | None => None
  end.
End loads.

#[local] Definition js (s : string) : string := replace_char (Ascii.ascii_of_N 39) quote_char s.
#[local] Definition test_loads (s : string) := loads (λ r, r) (js s).
Example loads_object :
  test_loads " {'a': [1, -20, {}], 'b':'x\u00e9\ud83d\ude00\n' , 'a' : 1.50e+3} " =
  Some (VDict [("a", VFloat "1.50e+3"); ("b", VStr ("xé😀" +:+ nl))]).
Proof. vm_compute. reflexivity. Qed.
Example loads_rejects :
  map test_loads ["[1,]"; "01"; "{'a':1"; "nul"; "1 2"; "'\x'"; "-"; "" ] = replicate 8 None.
Proof. vm_compute. reflexivity. Qed.

(** ** Round trip *)

Lemma sapp_cons x a b : String x a +:+ b = String x (a +:+ b).
Proof. done. Qed.

Lemma sapp_nil b : EmptyString +:+ b = b.
Proof. done. Qed.

Lemma sapp_assoc a b c : (a +:+ b) +:+ c = a +:+ (b +:+ c).
Proof. induction a as [|x a IH]; [done|]. by rewrite !sapp_cons, IH. Qed.

Lemma sapp_nil_r a : a +:+ "" = a.
Proof. induction a as [|x a IH]; [done|]. by rewrite sapp_cons, IH. Qed.

Lemma prefix_app n b : String.prefix n (n +:+ b) = true.
Proof.
  induction n as [|c n IH]; simpl; [by destruct b|]. by destruct (Ascii.ascii_dec c c).
Qed.

Lemma contains_app_r n a b : contains n b = true → contains n (a +:+ b) = true.
Proof.
  intros H. induction a as [|c a IH]; [done|]. rewrite sapp_cons. cbn [contains].
  by rewrite IH, orb_true_r.
Qed.

Lemma contains_self n : contains n n = true.
Proof. pose proof (prefix_app n "") as H. rewrite sapp_nil_r in H. destruct n; simpl in *; by rewrite ?H. Qed.

Lemma contains_here n b : contains n (n +:+ b) = true.
Proof. pose proof (prefix_app n b) as H. destruct (n +:+ b) eqn:E; simpl in *; by rewrite H. Qed.

(** A text that a concatenation shows. *)
Ltac find_text :=
  lazymatch goal with
  | |- contains ?n ?n = true => apply contains_self
  | |- contains ?n (?n +:+ _) = true => apply contains_here
  | |- contains _ (_ +:+ _) = true => apply contains_app_r; find_text
  end.

Lemma sapp_inj a b c : a +:+ b = a +:+ c → b = c.
Proof. induction a as [|x a IH]; [done|]. rewrite !sapp_cons. intros [= ?]. by apply IH. Qed.

(** A value without floats whose dictionaries have distinct keys. *)
Fixpoint json_plain (v : pyval) : bool :=
  match v with
  | VFloat _ => false
  | VList l => forallb json_plain l
  | VDict d => bool_decide (NoDup d.*1) && forallb (λ kv, json_plain kv.2) d
  | _ => true
  end.

Definition sep_ok (sep : Separators) : Prop :=
  sep = default_separators ∨ sep = compact_separators.

Lemma prepend_Some p v rest : prepend p (Some (v, rest)) = Some (p +:+ v, rest).
Proof. done. Qed.

Lemma scan_escape_char c rest :
  scan_string (escape_char c +:+ rest) = prepend (String c EmptyString) (scan_string rest).
Proof.
  destruct c as [[] [] [] [] [] [] [] []]; try reflexivity;
  destruct rest as [|? [|? [|? [|? [|? [|? ?]]]]]]; reflexivity.
Qed.

Lemma scan_escape s rest : scan_string (escape s +:+ String quote_char rest) = Some (s, rest).
Proof.
  induction s as [|c s IH]; [done|].
  simpl escape. by rewrite sapp_assoc, scan_escape_char, IH.
Qed.

Lemma string_lit_app s rest :
  string_lit s +:+ rest = String quote_char (escape s +:+ String quote_char rest).
Proof. unfold string_lit, quote. by rewrite sapp_cons, sapp_nil, sapp_cons, sapp_assoc. Qed.

(** The text after a number must not continue it. *)
Definition ends_number (s : string) : bool :=
  match s with
  | EmptyString => true
  | String c _ =>
      negb (is_digit c || (code c =? 46)%N || (code c =? 101)%N || (code c =? 69)%N)
  end.

Lemma ends_number_digit c s : ends_number (String c s) = true → is_digit c = false.
Proof. simpl. by destruct (is_digit c). Qed.

Lemma span_digits_uint d rest :
  ends_number rest = true →
  span_digits (NilEmpty.string_of_uint d +:+ rest) = (NilEmpty.string_of_uint d, rest).
Proof.
  intros Hr. induction d as [|d IH|d IH|d IH|d IH|d IH|d IH|d IH|d IH|d IH|d IH]; simpl;
    rewrite ?sapp_cons; simpl; try (by rewrite IH).
  destruct rest as [|c rest]; [done|]. simpl. by rewrite (ends_number_digit c rest).
Qed.

Lemma fraction_end rest : ends_number rest = true → scan_fraction rest = (EmptyString, rest).
Proof.
  destruct rest as [|c rest]; [done|]. simpl.
  by destruct (is_digit c), (code c =? 46)%N.
Qed.

Lemma exponent_end rest : ends_number rest = true → scan_exponent rest = (EmptyString, rest).
Proof.
  destruct rest as [|c rest]; [done|]. simpl.
  by destruct (is_digit c), (code c =? 46)%N, (code c =? 101)%N, (code c =? 69)%N.
Qed.

Lemma to_uint_head p u : Pos.to_uint p ≠ Decimal.D0 u.
Proof.
  intros H. pose proof (DecimalPos.Unsigned.to_of (Pos.to_uint p)) as E.
  rewrite DecimalPos.Unsigned.of_to in E. simpl in E. unfold Decimal.unorm in E.
  pose proof (DecimalFacts.nzhead_nonzero (Pos.to_uint p)) as Hn.
  pose proof (DecimalPos.Unsigned.to_uint_nonzero p) as Hz.
  destruct (Decimal.nzhead (Pos.to_uint p)) eqn:Eh; try congruence; by eapply Hn.
Qed.

Lemma int_literal_of_Z z : int_literal (Z_to_string z) = z.
Proof.
  unfold int_literal, Z_to_string. rewrite NilZero.isi; [apply DecimalZ.of_to| |];
  destruct z as [|p|p]; simpl; try done; intros [= H];
    by apply (DecimalPos.Unsigned.to_uint_nonnil p).
Qed.

(** A nonempty digit string without a leading zero is scanned whole. *)
Lemma scan_digits p rest :
  ends_number rest = true →
  ∃ c s, NilZero.string_of_uint (Pos.to_uint p) = String c s ∧ is_digit c = true ∧
    (code c =? 48)%N = false ∧ (code c =? 45)%N = false ∧
    span_digits (String c s +:+ rest) = (String c s, rest).
Proof.
  intros Hr. pose proof (to_uint_head p) as H0.
  pose proof (DecimalPos.Unsigned.to_uint_nonnil p) as Hnil.
  pose proof (span_digits_uint (Pos.to_uint p) rest Hr) as Hs.
  destruct (Pos.to_uint p) as [|d|d|d|d|d|d|d|d|d|d]; try done;
    [by destruct (H0 d)| | | | | | | | |]; by eexists _, _.
Qed.

Lemma scan_Z float_repr z rest :
  ends_number rest = true →
  scan_number float_repr (Z_to_string z +:+ rest) = Some (VInt z, rest).
Proof.
  intros Hr. rewrite <-(int_literal_of_Z z) at 2. unfold Z_to_string.
  pose proof (fraction_end _ Hr) as Hf. pose proof (exponent_end _ Hr) as He.
  destruct z as [|p|p]; simpl Z.to_int; simpl NilZero.string_of_int.
  - change ("0" +:+ rest) with (String (Ascii.ascii_of_N 48) rest).
    unfold scan_number. simpl. by rewrite Hf, He.
  - destruct (scan_digits p rest Hr) as (c&s&->&Hd&H0&Hm&Hs).
    rewrite !sapp_cons in *. unfold scan_number. rewrite Hm, Hd, H0, Hs, Hf, He. done.
  - destruct (scan_digits p rest Hr) as (c&s&->&Hd&H0&Hm&Hs).
    rewrite !sapp_cons in *. unfold scan_number. simpl in *. rewrite Hd in *. by rewrite H0, Hs, Hf, He.
Qed.

(** The first character of an encoded value is no white space and no closing
    bracket. *)
Definition opens_value (s : string) : bool :=
  match s with
  | EmptyString => false
  | String c _ => negb (is_json_ws c || (code c =? 93)%N || (code c =? 125)%N)
  end.

Lemma Z_to_string_head z :
  ∃ c s, Z_to_string z = String c s ∧ ((is_digit c = true) ∨ c = Ascii.ascii_of_N 45).
Proof.
  unfold Z_to_string. destruct z as [|p|p]; simpl; [eexists _, _; eauto; by left| |].
  - destruct (scan_digits p "" eq_refl) as (c&s&->&Hd&_). eexists _, _; eauto.
  - eexists _, _. split; [done|by right].
Qed.

Lemma digit_opens c s : is_digit c = true → opens_value (String c s) = true.
Proof. destruct c as [[] [] [] [] [] [] [] []]; vm_compute; done. Qed.

Lemma opens_skip s : opens_value s = true → skip_ws s = s.
Proof. destruct s as [|c s]; [done|]. unfold skip_ws. simpl. by destruct (is_json_ws c). Qed.

(** A digit, or a minus sign and a digit, starts no other production. *)
Lemma scan_once_number float_repr fuel c s :
  is_digit c = true ∨ (c = Ascii.ascii_of_N 45 ∧ ∃ c' s', s = String c' s' ∧ is_digit c' = true) →
  scan_once float_repr (S fuel) (String c s) = scan_number float_repr (String c s).
Proof.
  intros [Hd|(->&c'&s'&->&Hd)].
  - destruct c as [[] [] [] [] [] [] [] []]; try discriminate Hd; reflexivity.
  - destruct c' as [[] [] [] [] [] [] [] []]; try discriminate Hd; reflexivity.
Qed.

Lemma scan_once_Z float_repr fuel z rest :
  ends_number rest = true →
  scan_once float_repr (S fuel) (Z_to_string z +:+ rest) = Some (VInt z, rest).
Proof.
  intros Hr. rewrite <-(scan_Z float_repr z rest Hr). unfold Z_to_string.
  destruct z as [|p|p]; simpl Z.to_int; simpl NilZero.string_of_int.
  - by apply scan_once_number; left.
  - destruct (scan_digits p rest Hr) as (c&s&->&Hd&_). rewrite sapp_cons.
    apply scan_once_number; by left.
  - destruct (scan_digits p rest Hr) as (c&s&->&Hd&_). rewrite !sapp_cons.
    apply scan_once_number; right. eauto.
Qed.

(** A scan of a number that reads its text whole reads it before any text that
does not continue it. *)
Lemma span_digits_app s ds s1 rest :
  ends_number rest = true → span_digits s = (ds, s1) →
  span_digits (s +:+ rest) = (ds, s1 +:+ rest).
Proof.
  intros Hr. revert ds s1. induction s as [|c s IH]; intros ds s1.
  - intros [= <- <-]. rewrite !sapp_nil. destruct rest as [|c rest]; [done|]. simpl.
    by rewrite (ends_number_digit c rest).
  - rewrite sapp_cons. simpl. destruct (is_digit c); [|by intros [= <- <-]].
    destruct (span_digits s) as [ds' s1'] eqn:E. intros [= <- <-]. by rewrite (IH _ _ eq_refl).
Qed.

Lemma scan_fraction_app s f s1 rest :
  ends_number rest = true → scan_fraction s = (f, s1) →
  scan_fraction (s +:+ rest) = (f, s1 +:+ rest).
Proof.
  intros Hr. destruct s as [|c s].
  { intros [= <- <-]. rewrite !sapp_nil. by apply fraction_end. }
  rewrite sapp_cons. simpl. destruct (code c =? 46)%N; [|by intros [= <- <-]].
  destruct (span_digits s) as [ds s'] eqn:E. rewrite (span_digits_app _ _ _ _ Hr E).
  destruct (nonempty ds); by intros [= <- <-].
Qed.

Lemma scan_exponent_app s e rest :
  ends_number rest = true → scan_exponent s = (e, EmptyString) →
  scan_exponent (s +:+ rest) = (e, rest).
Proof.
  intros Hr. destruct s as [|c s].
  { intros [= <-]. rewrite !sapp_nil. by apply exponent_end. }
  rewrite sapp_cons. simpl. destruct ((code c =? 101)%N || (code c =? 69)%N); [|done].
  destruct s as [|g s]; [done|]. rewrite sapp_cons.
  destruct ((code g =? 43)%N || (code g =? 45)%N).
  - destruct (span_digits s) as [ds s'] eqn:E. rewrite (span_digits_app _ _ _ _ Hr E).
    destruct (nonempty ds); [|done]. by intros [= <- ->].
  - destruct (span_digits (String g s)) as [ds s'] eqn:E.
    pose proof (span_digits_app _ _ _ _ Hr E) as E'. rewrite sapp_cons in E'. rewrite E'.
    destruct (nonempty ds); [|done]. by intros [= <- ->].
Qed.

Lemma scan_number_app float_repr s v rest :
  ends_number rest = true → scan_number float_repr s = Some (v, EmptyString) →
  scan_number float_repr (s +:+ rest) = Some (v, rest).
Proof.
  intros Hr. destruct s as [|c s]; [done|]. rewrite sapp_cons. unfold scan_number.
  assert (∀ sign c s,
    (if is_digit c then
      let '(ds, s3) := if (code c =? 48)%N then (chr 48, s) else span_digits (String c s) in
      let '(frac, s4) := scan_fraction s3 in
      let '(exponent, s5) := scan_exponent s4 in
      if nonempty frac || nonempty exponent then
        Some (VFloat (float_repr (sign +:+ ds +:+ frac +:+ exponent)), s5)
      else Some (VInt (int_literal (sign +:+ ds)), s5)
    else None) = Some (v, EmptyString) →
    (if is_digit c then
      let '(ds, s3) := if (code c =? 48)%N then (chr 48, s +:+ rest) else span_digits (String c (s +:+ rest)) in
      let '(frac, s4) := scan_fraction s3 in
      let '(exponent, s5) := scan_exponent s4 in
      if nonempty frac || nonempty exponent then
        Some (VFloat (float_repr (sign +:+ ds +:+ frac +:+ exponent)), s5)
      else Some (VInt (int_literal (sign +:+ ds)), s5)
    else None) = Some (v, rest)) as Hgo.
  { clear c s. intros sign c s. destruct (is_digit c); [|done].
    assert (∀ ds s3, (if (code c =? 48)%N then (chr 48, s) else span_digits (String c s)) = (ds, s3) →
      (if (code c =? 48)%N then (chr 48, s +:+ rest) else span_digits (String c (s +:+ rest))) = (ds, s3 +:+ rest)) as Hds.
    { intros ds s3. destruct (code c =? 48)%N; [by intros [= <- <-]|]. intros E.
      pose proof (span_digits_app _ _ _ _ Hr E) as E'. by rewrite sapp_cons in E'. }
    destruct (if (code c =? 48)%N then _ else _) as [ds s3]. rewrite (Hds _ _ eq_refl).
    destruct (scan_fraction s3) as [f s4] eqn:Ef. rewrite (scan_fraction_app _ _ _ _ Hr Ef).
    destruct (scan_exponent s4) as [e s5] eqn:Ee. intros H.
    assert (s5 = EmptyString) as -> by (destruct (nonempty f || nonempty e); by injection H).
    rewrite (scan_exponent_app _ _ _ Hr Ee).
    destruct (nonempty f || nonempty e); by injection H as <-. }
  destruct (code c =? 45)%N; [|by apply Hgo].
  destruct s as [|c' s]; [done|]. rewrite sapp_cons. by apply Hgo.
Qed.

Lemma scan_number_head float_repr s v rest :
  scan_number float_repr s = Some (v, rest) →
  ∃ c s1, s = String c s1 ∧
    (is_digit c = true ∨ (c = Ascii.ascii_of_N 45 ∧ ∃ c' s', s1 = String c' s' ∧ is_digit c' = true)).
Proof.
  destruct s as [|c s]; [done|]. unfold scan_number. intros H. exists c, s. split; [done|].
  destruct (code c =? 45)%N eqn:Em.
  - right. split; [by destruct c as [[] [] [] [] [] [] [] []]|].
    destruct s as [|c' s]; [done|]. exists c', s. split; [done|]. by destruct (is_digit c').
  - left. by destruct (is_digit c).
Qed.

Section json_text.
Variable float_repr : string → string.

(** The [repr] of a float: one that [float_repr] reads back as itself.  This is
what Python promises of [repr(float)]; [nan] and the infinities have literals. *)
Definition float_text (r : string) : bool :=
  String.eqb r "nan" || String.eqb r "inf" || String.eqb r "-inf" ||
  match scan_number float_repr r with
  | Some (VFloat r', EmptyString) => String.eqb r' r
  | _ => false
  end.

(** A value whose floats are spelled as their [repr] and whose dictionaries
have distinct keys. *)
Fixpoint json_text (v : pyval) : bool :=
  match v with
  | VFloat r => float_text r
  | VList l => forallb json_text l
  | VDict d => bool_decide (NoDup d.*1) && forallb (λ kv, json_text kv.2) d
  | _ => true
  end.

Lemma json_plain_text v : json_plain v = true → json_text v = true.
Proof.
  induction v as [| | | | |l IH|d IH] using pyval_strong_ind; try done; simpl.
  - induction IH as [|v l Hv _ IHl]; [done|]. simpl. intros [? ?]%andb_prop.
    rewrite Hv, IHl by done. done.
  - intros [-> H]%andb_prop. simpl. revert H.
    induction IH as [|[k v] d Hv _ IHd]; [done|]. simpl in *. intros [? ?]%andb_prop.
    rewrite Hv, IHd by done. done.
Qed.

Lemma float_text_cases r : float_text r = true →
  (r = "nan" ∨ r = "inf" ∨ r = "-inf") ∨
  (float_lit r = r ∧ scan_number float_repr r = Some (VFloat r, EmptyString)).
Proof.
  unfold float_text, float_lit. destruct (String.eqb_spec r "nan") as [->|]; [by do 2 left|].
  destruct (String.eqb_spec r "inf") as [->|]; [by left; right; left|].
  destruct (String.eqb_spec r "-inf") as [->|]; [by left; right; right|]. simpl.
  destruct (scan_number float_repr r) as [[[| | |r'| | |] [|? ?]]|]; try done.
  intros ->%String.eqb_eq. by right.
Qed.

Lemma scan_float fuel r rest :
  ends_number rest = true → float_text r = true →
  scan_once float_repr (S fuel) (float_lit r +:+ rest) = Some (VFloat r, rest).
Proof.
  intros Hr [[->|[->| ->]]|[-> E]]%float_text_cases; try (by destruct rest).
  destruct (scan_number_head _ _ _ _ E) as (c&s&->&Hc). rewrite sapp_cons.
  rewrite scan_once_number, <-sapp_cons; [by apply scan_number_app|].
  destruct Hc as [?|(->&c'&s'&->&?)]; [by left|]. right. split; [done|].
  rewrite sapp_cons. eauto.
Qed.
End json_text.

Lemma dumps_opens float_repr sep v rest :
  json_text float_repr v = true → opens_value (dumps sep v +:+ rest) = true.
Proof.
  destruct v as [|[]|z|r|s|l|d]; try done; simpl; intros H.
  - destruct (Z_to_string_head z) as (c&s&->&[Hd| ->]); [by apply digit_opens|done].
  - apply float_text_cases in H as [[->|[->| ->]]|[-> E]]; [done..|].
    destruct (scan_number_head _ _ _ _ E) as (c&s&->&[Hd|[-> _]]); [by apply digit_opens|done].
Qed.

Section scan_dumps.
Context (float_repr : string → string) (sep : Separators) (Hsep : sep_ok sep).

Lemma item_sep_scan s :
  ∃ s', item_sep sep +:+ s = String (Ascii.ascii_of_N 44) s' ∧ skip_ws s' = skip_ws s.
Proof. by destruct Hsep as [-> | ->]; eexists _. Qed.

Lemma key_sep_scan s :
  ∃ s', key_sep sep +:+ s = String (Ascii.ascii_of_N 58) s' ∧ skip_ws s' = skip_ws s.
Proof. by destruct Hsep as [-> | ->]; eexists _. Qed.

(** [v] is scanned back from any text it is followed by. *)
Definition scans (v : pyval) : Prop := ∀ fuel rest,
  ends_number rest = true → (2 * String.length (dumps sep v) ≤ fuel)%nat →
  scan_once float_repr fuel (dumps sep v +:+ rest) = Some (v, rest).

Lemma concat_cons x y l : join (item_sep sep) (x :: y :: l) = x +:+ item_sep sep +:+ join (item_sep sep) (y :: l).
Proof. done. Qed.

Lemma sapp_length a b : String.length (a +:+ b) = (String.length a + String.length b)%nat.
Proof. induction a as [|x a IH]; [done|]. rewrite sapp_cons. simpl. by rewrite IH. Qed.

Lemma item_sep_ends s : ends_number (item_sep sep +:+ s) = true ∧ (1 ≤ String.length (item_sep sep))%nat.
Proof. destruct Hsep as [-> | ->]; split; simpl; done || lia. Qed.

Lemma skip_sep c s : is_json_ws c = false → skip_ws (String c s) = String c s.
Proof. unfold skip_ws. simpl. by intros ->. Qed.

Lemma scan_items_dumps l : Forall scans l → l ≠ [] → forallb (json_text float_repr) l = true →
  ∀ fuel rest, (2 * String.length (join (item_sep sep) (map (dumps sep) l)) < fuel)%nat →
  scan_items float_repr fuel
  (join (item_sep sep) (map (dumps sep) l) +:+ String (Ascii.ascii_of_N 93) rest) = Some (l, rest).
Proof.
  induction l as [|v [|w l] IH]; [done| |]; intros HF _ Hp [|fuel] rest Hfuel; try lia.
  - apply Forall_cons in HF as [Hv _]. change (join (item_sep sep) (map (dumps sep) [v])) with (dumps sep v) in *. simpl.
  by rewrite Hv by (done || lia).
  - apply Forall_cons in HF as [Hv HF]. simpl in Hp. apply andb_prop in Hp as [_ Hp].
  simpl map in *. rewrite concat_cons, !sapp_length in Hfuel.
  rewrite concat_cons, !sapp_assoc.
  set (tl := join (item_sep sep) (dumps sep w :: map (dumps sep) l) +:+ _).
  assert (Htl : skip_ws tl = tl).
  { apply opens_skip. apply andb_prop in Hp as [Hw _]. subst tl.
    destruct l as [|x l]; [|simpl map; rewrite concat_cons, sapp_assoc]; by eapply dumps_opens. }
  simpl. destruct (item_sep_ends tl) as [He Hl].
  rewrite Hv by (done || lia).
  destruct (item_sep_scan tl) as (s'&->&Hs').
  rewrite skip_sep by done. simpl. rewrite Hs', Htl. subst tl.
  rewrite (IH HF ltac:(done) Hp fuel rest) by (cbn [map]; lia). done.
Qed.

(** The text of one pair of an object. *)
Definition pair_text (kv : string * pyval) : string :=
  string_lit kv.1 +:+ key_sep sep +:+ dumps sep kv.2.

Lemma dict_set_fresh {A} k (v : A) d : k ∉ d.*1 → dict_set k v d = d ++ [(k, v)].
Proof.
  induction d as [|[k1 v1] d IH]; simpl; [done|]. rewrite not_elem_of_cons. intros [Hk Hd].
  destruct (String.eqb_spec k k1); [done|]. by rewrite IH.
Qed.

Lemma scan_pair_value fuel kv rest s :
  scans kv.2 → json_text float_repr kv.2 = true → ends_number rest = true →
  (2 * String.length (pair_text kv) ≤ fuel)%nat →
  s = pair_text kv +:+ rest →
  ∃ s1 s2 s3, s = String quote_char s1 ∧ scan_string s1 = Some (kv.1, s2) ∧
  skip_ws s2 = String (Ascii.ascii_of_N 58) s3 ∧
  scan_once float_repr fuel (skip_ws s3) = Some (kv.2, rest).
Proof.
  intros Hv Hp Hr Hf ->. unfold pair_text in *. rewrite !sapp_length in Hf.
  rewrite sapp_assoc, string_lit_app, sapp_assoc.
  eexists _, _. destruct (key_sep_scan (dumps sep kv.2 +:+ rest)) as (s'&E&Hs').
  exists s'. split; [done|]. split; [apply scan_escape|]. rewrite E. split; [done|].
  rewrite Hs', opens_skip by (by eapply dumps_opens). apply Hv; [done|lia].
Qed.

Lemma scan_pairs_dumps d : Forall (λ kv, scans kv.2) d → d ≠ [] →
  forallb (λ kv, json_text float_repr kv.2) d = true →
  ∀ acc fuel rest, NoDup (acc ++ d).*1 →
  (2 * String.length (join (item_sep sep) (map pair_text d)) < fuel)%nat →
  scan_pairs float_repr fuel acc
  (join (item_sep sep) (map pair_text d) +:+ String (Ascii.ascii_of_N 125) rest) = Some (acc ++ d, rest).
Proof.
  induction d as [|kv [|kv' d] IH]; [done| |]; intros HF _ Hp acc [|fuel] rest Hnd Hfuel; try lia.
  - apply Forall_cons in HF as [Hv _]. simpl in Hp. apply andb_prop in Hp as [Hp _].
  change (join (item_sep sep) (map pair_text [kv])) with (pair_text kv) in *.
  destruct (scan_pair_value fuel kv (String (Ascii.ascii_of_N 125) rest) _ Hv Hp eq_refl ltac:(lia) eq_refl)
    as (s1&s2&s3&->&E1&E2&E3).
  simpl. rewrite E1, E2. simpl. rewrite E3. simpl. rewrite dict_set_fresh; [by destruct kv|].
  rewrite fmap_app in Hnd. apply NoDup_app in Hnd as (_&Hnd&_).
  intros Hin. apply (Hnd _ Hin). simpl. left.
  - apply Forall_cons in HF as [Hv HF]. simpl in Hp. apply andb_prop in Hp as [Hp Hp'].
  simpl map in *. rewrite concat_cons, !sapp_length in Hfuel.
  rewrite concat_cons, !sapp_assoc.
  set (tl := join (item_sep sep) (pair_text kv' :: map pair_text d) +:+ _).
  assert (Htl : skip_ws tl = tl).
  { apply opens_skip. subst tl. by destruct d. }
  destruct (item_sep_ends tl) as [He Hl].
  destruct (scan_pair_value fuel kv _ _ Hv Hp He ltac:(lia) eq_refl) as (s1&s2&s3&->&E1&E2&E3).
  simpl. rewrite E1, E2. simpl. rewrite E3.
  destruct (item_sep_scan tl) as (s'&->&Hs').
  rewrite skip_sep by done. simpl. rewrite Hs', Htl. subst tl.
  assert (Hfresh : dict_set kv.1 kv.2 acc = acc ++ [kv]).
  { rewrite dict_set_fresh; [by destruct kv|]. rewrite fmap_app in Hnd.
    apply NoDup_app in Hnd as (_&Hnd&_). intros Hin. apply (Hnd _ Hin). simpl. left. }
  rewrite Hfresh. change (acc ++ kv :: kv' :: d) with (acc ++ ([kv] ++ kv' :: d)) in *.
  rewrite assoc in * by apply _. by apply (IH HF ltac:(done) Hp'); [|cbn [map]; lia].
Qed.

Lemma dumps_length v : json_text float_repr v = true → (1 ≤ String.length (dumps sep v))%nat.
Proof.
  intros Hp%(dumps_opens float_repr sep v EmptyString). rewrite sapp_nil_r in Hp.
  destruct (dumps sep v); [done|simpl; lia].
Qed.

Lemma Forall_forallb_impl {A} (f : A → bool) (P : A → Prop) l :
  Forall (λ x, f x = true → P x) l → forallb f l = true → Forall P l.
Proof. induction 1 as [|x l Hx _ IH]; simpl; [done|]. intros [? ?]%andb_prop. auto. Qed.

Lemma scan_bracket fuel s :
  opens_value s = true →
  scan_once float_repr (S fuel) (String (Ascii.ascii_of_N 91) s) =
  match scan_items float_repr fuel s with Some (l, rest) => Some (VList l, rest) | None => None end.
Proof.
  intros Ho. cbn -[scan_items]. rewrite opens_skip by done. destruct s as [|c s]; [done|].
  simpl in Ho. by destruct (is_json_ws c), (code c =? 93)%N.
Qed.

Lemma scan_brace fuel s :
  scan_once float_repr (S fuel) (String (Ascii.ascii_of_N 123) (String quote_char s)) =
  match scan_pairs float_repr fuel [] (String quote_char s) with
  | Some (d, rest) => Some (VDict d, rest)
  | None => None
  end.
Proof. done. Qed.

Lemma scan_dumps v : json_text float_repr v = true → scans v.
Proof.
  induction v as [|[]|z|r|s|l IH|d IH] using pyval_strong_ind; intros Hp fuel rest Hr Hf;
  pose proof (dumps_length _ Hp); (destruct fuel as [|fuel]; [lia|]); try (by destruct rest).
  - by apply scan_once_Z.
  - by apply scan_float.
  - cbn [dumps]. rewrite string_lit_app. simpl. by rewrite scan_escape.
  - cbn [dumps] in *. rewrite !sapp_assoc, sapp_cons, sapp_nil.
  rewrite !sapp_length in Hf. simpl String.length in Hf. simpl in Hp.
  pose proof (Forall_forallb_impl _ _ _ IH Hp) as HF.
  destruct l as [|v l]; [reflexivity|].
  change ("]" +:+ rest) with (String (Ascii.ascii_of_N 93) rest).
  rewrite scan_bracket, scan_items_dumps; [done..|lia|].
  simpl in Hp. apply andb_prop in Hp as [Hv _].
  destruct l as [|w l]; [|simpl map; rewrite concat_cons, sapp_assoc]; by eapply dumps_opens.
  - cbn [dumps] in *. rewrite !sapp_assoc, sapp_cons, sapp_nil. change (map _ d) with (map pair_text d) in *.
  rewrite !sapp_length in Hf. simpl String.length in Hf. simpl in Hp.
  apply andb_prop in Hp as [Hnd%bool_decide_eq_true Hp].
  pose proof (Forall_forallb_impl _ _ _ IH Hp) as HF.
  destruct d as [|kv d]; [reflexivity|].
  change ("}" +:+ rest) with (String (Ascii.ascii_of_N 125) rest).
  pose proof (scan_pairs_dumps _ HF ltac:(done) Hp [] fuel rest Hnd ltac:(lia)) as E.
  assert (∃ t, join (item_sep sep) (map pair_text (kv :: d)) +:+ String (Ascii.ascii_of_N 125) rest =
    String quote_char t) as [t Ht].
  { destruct d; [|simpl map; rewrite concat_cons]; by eexists. }
  rewrite Ht in E |- *. by rewrite scan_brace, E.
Qed.
End scan_dumps.

(** [json.loads(json.dumps(v))] is [v], for any value whose floats are spelled
as their [repr] and whose dictionaries have distinct keys. *)
Lemma loads_text float_repr sep v :
  sep_ok sep → json_text float_repr v = true → loads float_repr (dumps sep v) = Some v.
Proof.
  intros Hsep Hp. unfold loads.
  pose proof (dumps_opens float_repr sep v EmptyString Hp) as Ho. rewrite sapp_nil_r in Ho.
  pose proof (scan_dumps float_repr sep Hsep v Hp (2 * S (String.length (dumps sep v)))%nat EmptyString
    eq_refl ltac:(lia)) as E.
  rewrite sapp_nil_r in E. rewrite (opens_skip _ Ho), E. done.
Qed.

Lemma loads_dumps float_repr sep v :
  sep_ok sep → json_plain v = true → loads float_repr (dumps sep v) = Some v.
Proof. intros Hsep Hv. by apply loads_text, json_plain_text. Qed.

(** ** Characters *)

Lemma chars_app a b : chars (a +:+ b) = (chars a + chars b)%nat.
Proof.
  induction a as [|c a IH]; [done|]. rewrite sapp_cons. simpl. rewrite IH. by destruct (continues c).
Qed.

Lemma take_chars_split n s :
  ∃ rest, s = take_chars n s +:+ rest ∧ at_boundary rest = true ∧
    (chars (take_chars n s) ≤ n)%nat ∧ ((n < chars s)%nat → chars (take_chars n s) = n).
Proof.
  revert n. induction s as [|c s IH]; intros n.
  { exists EmptyString. simpl. split_and!; [done|done|lia|lia]. }
  simpl. destruct (continues c) eqn:E.
  - destruct (IH n) as (rest & Hs & Hb & Hl & Hn). exists rest. simpl. rewrite E, sapp_cons, <- Hs. done.
  - destruct n as [|n].
    + exists (String c s). simpl. rewrite E. split_and!; [done..|lia|lia].
    + destruct (IH n) as (rest & Hs & Hb & Hl & Hn). exists rest. simpl. rewrite E, sapp_cons, <- Hs.
      split_and!; [done|done|lia|]. intros. by rewrite Hn by lia.
Qed.

(** The first characters, found by their number. *)
Lemma take_chars_unique n a rest :
  chars a = n → at_boundary rest = true → take_chars n (a +:+ rest) = a.
Proof.
  revert n. induction a as [|c a IH]; intros n; simpl.
  - intros <- Hb. rewrite sapp_nil. destruct rest as [|c rest]; [done|]. simpl in *. by destruct (continues c).
  - destruct (continues c); intros <- Hb; by rewrite IH.
Qed.

(** Sorting the keys changes neither the keys nor what a key is bound to. *)
Lemma insert_key_perm k v d : insert_key k v d ≡ₚ (k, v) :: d.
Proof.
  induction d as [|[k' v'] d IH]; simpl; [done|]. destruct (String.leb k k'); [done|].
  rewrite IH. apply perm_swap.
Qed.

Definition sort_dict (d : pydict) : pydict := foldr (λ kv acc, insert_key kv.1 kv.2 acc) [] d.

Lemma sort_dict_perm d : sort_dict d ≡ₚ d.
Proof.
  induction d as [|[k v] d IH]; simpl; [done|]. by rewrite insert_key_perm, IH.
Qed.

Lemma dict_get_perm {A} k (d e : list (string * A)) :
  NoDup d.*1 → d ≡ₚ e → dict_get k e = dict_get k d.
Proof.
  intros Hnd Hp. assert (NoDup e.*1) as Hne by (by rewrite <-Hp).
  destruct (dict_get k d) as [v|] eqn:E.
  - apply elem_of_dict_get; [done|]. rewrite <-Hp. by apply dict_get_elem_of.
  - apply dict_get_None. rewrite <-Hp. by apply dict_get_None.
Qed.

Lemma dict_get_sorted k d : NoDup d.*1 → dict_get k (sort_dict d) = dict_get k d.
Proof. intros Hnd. apply dict_get_perm; [done|]. by rewrite sort_dict_perm. Qed.

Lemma sort_keys_flat d :
  Forall (λ kv, sort_keys kv.2 = kv.2) d → sort_keys (VDict d) = VDict (sort_dict d).
Proof.
  intros HF. cbn [sort_keys]. f_equal. unfold sort_dict. f_equal.
  induction HF as [|[k v] d E _ IH]; simpl in *; [done|]. by rewrite E, IH.
Qed.

Lemma forallb_perm {A} (f : A → bool) l l' : l ≡ₚ l' → forallb f l = forallb f l'.
Proof.
  induction 1 as [|x l l' _ IH|x y l|l1 l2 l3 _ IH1 _ IH2]; simpl; try congruence.
  by destruct (f x), (f y).
Qed.

Lemma json_text_sort_dict float_repr d :
  json_text float_repr (VDict (sort_dict d)) = json_text float_repr (VDict d).
Proof.
  cbn [json_text]. rewrite (forallb_perm _ _ _ (sort_dict_perm d)). f_equal.
  apply bool_decide_ext. by rewrite sort_dict_perm.
Qed.
