(* ===== verification/Base64.v ===== *)
(** * URL-safe base64

    [base64.urlsafe_b64encode] and [urlsafe_b64decode] of the standard library,
    the latter in its default, non-strict mode: characters outside the alphabet
    are skipped, and decoding stops at the padding that completes a group.
    [b64_round_trip] is the round trip of the unpadded form the resume tokens
    use. *)

From S2P Require Import Prelude.
From S2P Require Import PyData.
From S2P Require Import Json.

Definition byte_of (n : N) : Ascii.ascii := Ascii.ascii_of_N n.

(** The character of a six-bit group in the URL-safe alphabet. *)
Definition b64_char (n : N) : Ascii.ascii :=
  byte_of (if n <? 26 then 65 + n
           else if n <? 52 then 71 + n
           else if n <? 62 then n - 4
           else if n =? 62 then 45 else 95)%N.

(** Its inverse, on both alphabets. *)
Definition b64_value (c : Ascii.ascii) : option N :=
  let n := code c in
  if in_range 65 90 n then Some (n - 65)%N
  else if in_range 97 122 n then Some (n - 71)%N
  else if in_range 48 57 n then Some (n + 4)%N
  else if (n =? 45)%N || (n =? 43)%N then Some 62%N
  else if (n =? 95)%N || (n =? 47)%N then Some 63%N
  else None.

Fixpoint urlsafe_b64encode (s : string) : string :=
  match s with
  | EmptyString => EmptyString
  | String a EmptyString =>
      String (b64_char (code a / 4)) (String (b64_char (code a mod 4 * 16)) "==")
  | String a (String b EmptyString) =>
      String (b64_char (code a / 4)) (String (b64_char (code a mod 4 * 16 + code b / 16))
        (String (b64_char (code b mod 16 * 4)) "="))
  | String a (String b (String c s')) =>
      String (b64_char (code a / 4)) (String (b64_char (code a mod 4 * 16 + code b / 16))
        (String (b64_char (code b mod 16 * 4 + code c / 64))
          (String (b64_char (code c mod 64)) (urlsafe_b64encode s'))))
  end%N.

Definition cons_byte (n : N) (r : option string) : option string :=
  match r with Some s => Some (String (byte_of n) s) | None => None end.

(** [binascii.a2b_base64]: [quad] is the position in the group of four, [left]
    the bits not yet written, [pads] the padding seen; [None] is
    [binascii.Error]. *)
Fixpoint a2b (quad left : N) (pads : N) (s : string) : option string :=
  match s with
  | EmptyString => if (quad =? 0)%N then Some EmptyString else None
  | String c s' =>
      if (code c =? 61)%N then
        if (2 <=? quad)%N then
          if (4 <=? quad + (pads + 1))%N then Some EmptyString else a2b quad left (pads + 1) s'
        else a2b quad left pads s'
      else match b64_value c with
      | None => a2b quad left pads s'
      | Some v =>
          if (quad =? 0)%N then a2b 1 v 0 s'
          else if (quad =? 1)%N then cons_byte (left * 4 + v / 16) (a2b 2 (v mod 16) 0 s')
          else if (quad =? 2)%N then cons_byte (left * 16 + v / 4) (a2b 3 (v mod 4) 0 s')
          else cons_byte (left * 64 + v) (a2b 0 0 0 s')
      end
  end%N.

Definition is_ascii (c : Ascii.ascii) : bool := (code c <? 128)%N.
Fixpoint sforall (p : Ascii.ascii → bool) (s : string) : bool :=
  match s with EmptyString => true | String c s' => p c && sforall p s' end.

(** [base64.urlsafe_b64decode(s.encode('ascii'))]; [None] is a [ValueError]. *)
Definition urlsafe_b64decode (s : string) : option string :=
  if sforall is_ascii s then a2b 0 0 0 s else None.

(** [s.rstrip('=')]. *)
Definition strip_padding (s : string) : string := rstrip_by (λ c, (code c =? 61)%N) s.

(** ['=' * (-len(s) % 4)]. *)
Fixpoint padding (n : nat) : string :=
  match n with O => EmptyString | S n' => String (byte_of 61) (padding n') end.
Definition missing_padding (s : string) : string := padding (Z.to_nat ((- slen s) mod 4)).

(** ** Round trip *)

Lemma code_lt c : (code c < 256)%N.
Proof. apply Ascii.N_ascii_bounded. Qed.

Lemma byte_of_code c : byte_of (code c) = c.
Proof. apply Ascii.ascii_N_embedding. Qed.

Lemma forall_below (P : N → bool) (n : nat) :
  forallb P (map N.of_nat (seq 0 n)) = true → ∀ v, (v < N.of_nat n)%N → P v = true.
Proof.
  intros H v Hv. rewrite forallb_forall in H. apply H. apply in_map_iff.
  exists (N.to_nat v). split; [lia|]. apply in_seq. lia.
Qed.

Lemma b64_char_value v : (v < 64)%N →
  b64_value (b64_char v) = Some v ∧ (code (b64_char v) =? 61)%N = false ∧
  is_ascii (b64_char v) = true ∧ (code (b64_char v) =? 46)%N = false.
Proof.
  intros Hv.
  pose proof (forall_below (λ v, bool_decide (b64_value (b64_char v) = Some v)
    && negb (code (b64_char v) =? 61)%N && is_ascii (b64_char v)
    && negb (code (b64_char v) =? 46)%N) 64 eq_refl v Hv) as H.
  simpl in H. repeat (apply andb_prop in H as [H ?]).
  apply bool_decide_eq_true in H.
  split; [done|]. by rewrite <-!negb_true_iff.
Qed.

Lemma a2b_char q l p v s : (v < 64)%N →
  a2b q l p (String (b64_char v) s) =
  (if q =? 0 then a2b 1 v 0 s
   else if q =? 1 then cons_byte (l * 4 + v / 16) (a2b 2 (v mod 16) 0 s)
   else if q =? 2 then cons_byte (l * 16 + v / 4) (a2b 3 (v mod 4) 0 s)
   else cons_byte (l * 64 + v) (a2b 0 0 0 s))%N.
Proof. intros Hv. destruct (b64_char_value v Hv) as (Hval&Hpad&_). simpl. by rewrite Hpad, Hval. Qed.

(** The encoding without its padding, and the number of padding characters. *)
Fixpoint b64_core (s : string) : string :=
  match s with
  | EmptyString => EmptyString
  | String a EmptyString =>
      String (b64_char (code a / 4)) (String (b64_char (code a mod 4 * 16)) EmptyString)
  | String a (String b EmptyString) =>
      String (b64_char (code a / 4)) (String (b64_char (code a mod 4 * 16 + code b / 16))
        (String (b64_char (code b mod 16 * 4)) EmptyString))
  | String a (String b (String c s')) =>
      String (b64_char (code a / 4)) (String (b64_char (code a mod 4 * 16 + code b / 16))
        (String (b64_char (code b mod 16 * 4 + code c / 64))
          (String (b64_char (code c mod 64)) (b64_core s'))))
  end%N.

Fixpoint b64_pads (s : string) : nat :=
  match s with
  | EmptyString => 0
  | String _ EmptyString => 2
  | String _ (String _ EmptyString) => 1
  | String _ (String _ (String _ s')) => b64_pads s'
  end.

(** Induction three characters at a time. *)
Lemma string_ind3 (P : string → Prop) :
  P EmptyString → (∀ a, P (String a EmptyString)) → (∀ a b, P (String a (String b EmptyString))) →
  (∀ a b c s, P s → P (String a (String b (String c s)))) → ∀ s, P s.
Proof.
  intros H0 H1 H2 H3. fix IH 1. intros [|a [|b [|c s]]]; [done..|]. apply H3, IH.
Qed.

Ltac Zify.zify_post_hook ::= Z.to_euclidean_division_equations.

Lemma groups_bounded a b c :
  (code a / 4 < 64)%N ∧ (code a mod 4 * 16 < 64)%N ∧ (code a mod 4 * 16 + code b / 16 < 64)%N ∧
  (code b mod 16 * 4 < 64)%N ∧ (code b mod 16 * 4 + code c / 64 < 64)%N ∧ (code c mod 64 < 64)%N.
Proof. pose proof (code_lt a); pose proof (code_lt b); pose proof (code_lt c). lia. Qed.

Lemma b64encode_core s : urlsafe_b64encode s = b64_core s +:+ padding (b64_pads s).
Proof.
  induction s as [|a|a b|a b c s IH] using string_ind3; [done..|].
  cbn [urlsafe_b64encode b64_core b64_pads]. by rewrite IH, !sapp_cons.
Qed.

Lemma b64_core_forall (p : Ascii.ascii → bool) s :
  (∀ v, (v < 64)%N → p (b64_char v) = true) → sforall p (b64_core s) = true.
Proof.
  intros Hp. induction s as [|a|a b|a b c s IH] using string_ind3; [done| | |];
    [pose proof (groups_bounded a a a)|pose proof (groups_bounded a b b)|pose proof (groups_bounded a b c)];
    cbn [b64_core sforall]; rewrite !Hp by tauto; try done.
Qed.

Lemma missing_padding_core s : missing_padding (b64_core s) = padding (b64_pads s).
Proof.
  unfold missing_padding. f_equal.
  induction s as [|a|a b|a b c s IH] using string_ind3; [done..|].
  cbn [b64_pads]. rewrite <-IH. unfold slen. cbn [b64_core String.length]. f_equal. lia.
Qed.

Lemma byte_of_eq a n : n = code a → byte_of n = a.
Proof. intros ->. apply byte_of_code. Qed.

Lemma sforall_app p a b : sforall p (a +:+ b) = sforall p a && sforall p b.
Proof.
  induction a as [|c a IH]; [done|]. rewrite sapp_cons. cbn [sforall]. by rewrite IH, andb_assoc.
Qed.

Lemma a2b_core s p : a2b 0 0 p (b64_core s +:+ padding (b64_pads s)) = Some s.
Proof.
  revert p. induction s as [|a|a b|a b c s IH] using string_ind3; intros p; [done| | |];
    [pose proof (groups_bounded a a a)|pose proof (groups_bounded a b b)|pose proof (groups_bounded a b c)];
    cbn [b64_core b64_pads]; rewrite !sapp_cons, ?sapp_nil; repeat (rewrite a2b_char by tauto; cbn [N.eqb Pos.eqb]).
  - simpl. by rewrite (byte_of_eq a) by lia.
  - simpl. pose proof (code_lt b). by rewrite (byte_of_eq a), (byte_of_eq b) by lia.
  - pose proof (code_lt b); pose proof (code_lt c). rewrite IH. cbn [cons_byte].
    by rewrite (byte_of_eq a), (byte_of_eq b), (byte_of_eq c) by lia.
Qed.

Lemma srev_app_app s acc acc' : srev_app s (acc +:+ acc') = srev_app s acc +:+ acc'.
Proof.
  revert acc. induction s as [|c s IH]; intros acc; [done|]. cbn [srev_app].
  by rewrite <-sapp_cons, IH.
Qed.

Lemma srev_cons c s : srev (String c s) = srev s +:+ String c EmptyString.
Proof. unfold srev. cbn [srev_app]. by rewrite <-srev_app_app. Qed.

Lemma srev_app_distr a b : srev (a +:+ b) = srev b +:+ srev a.
Proof.
  induction a as [|c a IH]; [by rewrite sapp_nil_r|].
  by rewrite sapp_cons, !srev_cons, IH, sapp_assoc.
Qed.

Lemma srev_involutive s : srev (srev s) = s.
Proof. induction s as [|c s IH]; [done|]. by rewrite srev_cons, srev_app_distr, IH. Qed.

Lemma sforall_srev p s : sforall p (srev s) = sforall p s.
Proof.
  induction s as [|c s IH]; [done|]. rewrite srev_cons, sforall_app, IH. simpl.
  by rewrite andb_true_r, andb_comm.
Qed.

Lemma sforall_weaken (p q : Ascii.ascii → bool) s :
  (∀ c, p c = true → q c = true) → sforall p s = true → sforall q s = true.
Proof. intros H. induction s as [|c s IH]; simpl; [done|]. intros [? ?]%andb_prop. by rewrite H, IH. Qed.

Lemma sforall_drop_while p q s : sforall q s = true → sforall q (drop_while p s) = true.
Proof. induction s as [|c s IH]; [done|]. simpl. intros [Hc Hs]%andb_prop. destruct (p c); [auto|]. simpl. by rewrite Hc, Hs. Qed.

Lemma sforall_strip q s : sforall q s = true → sforall q (strip s) = true.
Proof.
  intros H. unfold strip, strip_by, rstrip_by, lstrip_by. rewrite sforall_srev.
  apply sforall_drop_while. rewrite sforall_srev. by apply sforall_drop_while.
Qed.

Lemma sforall_stake q n s : sforall q s = true → sforall q (stake n s) = true.
Proof. revert n. induction s as [|c s IH]; intros [|n]; [done..|]. simpl. intros [-> ?]%andb_prop. simpl. auto. Qed.

Lemma drop_while_app p a b :
  sforall p a = true → sforall (λ c, negb (p c)) b = true → drop_while p (a +:+ b) = b.
Proof.
  intros Ha Hb. induction a as [|c a IH].
  - rewrite sapp_nil. destruct b as [|c b]; [done|]. simpl in *. by destruct (p c).
  - rewrite sapp_cons. simpl in *. destruct (p c); [by apply IH|done].
Qed.

Lemma rstrip_padding s n :
  sforall (λ c, negb (code c =? 61)%N) s = true → strip_padding (s +:+ padding n) = s.
Proof.
  intros Hs. unfold strip_padding, rstrip_by. rewrite srev_app_distr, drop_while_app.
  - apply srev_involutive.
  - rewrite sforall_srev. by induction n.
  - by rewrite sforall_srev.
Qed.

(** [_b64encode] then [_b64decode] with the padding restored. *)
Lemma b64_round_trip s :
  let t := strip_padding (urlsafe_b64encode s) in
  urlsafe_b64decode (t +:+ missing_padding t) = Some s.
Proof.
  rewrite b64encode_core. cbv zeta. rewrite rstrip_padding, missing_padding_core.
  - unfold urlsafe_b64decode. rewrite a2b_core.
    enough (sforall is_ascii (b64_core s +:+ padding (b64_pads s)) = true) as -> by done.
    rewrite sforall_app, b64_core_forall by (intros v Hv; apply b64_char_value; done).
    generalize (b64_pads s). by induction n.
  - apply b64_core_forall. intros v Hv. destruct (b64_char_value v Hv) as (_&->&_). done.
Qed.

(** The unpadded form is ASCII and holds no dot. *)
Lemma b64_alphabet s :
  sforall (λ c, is_ascii c && negb (code c =? 46)%N) (strip_padding (urlsafe_b64encode s)) = true.
Proof.
  rewrite b64encode_core, rstrip_padding.
  - apply b64_core_forall. intros v Hv. by destruct (b64_char_value v Hv) as (_&_&->&->).
  - apply b64_core_forall. intros v Hv. by destruct (b64_char_value v Hv) as (_&->&_).
Qed.

Example b64_skips_other_characters :
  urlsafe_b64decode "aGV sb-8=!" = urlsafe_b64decode "aGVsb+8=".
Proof. reflexivity. Qed.
