(* ===== verification/Sha256.v ===== *)
(** * SHA-256 and HMAC

    [hashlib.sha256] and [hmac.new(key, msg, hashlib.sha256)] of the standard
    library, as the standards define them (FIPS 180-4, RFC 2104), on strings of
    bytes.  Words are numbers below [2^32]. *)

From S2P Require Import Prelude.
From S2P Require Import PyData.

#[local] Open Scope N_scope.

Definition word_mod : N := 4294967296.
Definition add32 (a b : N) : N := (a + b) mod word_mod.
Definition rotr (n x : N) : N :=
  N.lor (N.shiftr x n) (N.shiftl x (32 - n) mod word_mod).
Definition not32 (x : N) : N := 4294967295 - x.

Definition sigma0 (x : N) : N := N.lxor (N.lxor (rotr 7 x) (rotr 18 x)) (N.shiftr x 3).
Definition sigma1 (x : N) : N := N.lxor (N.lxor (rotr 17 x) (rotr 19 x)) (N.shiftr x 10).
Definition Sigma0 (x : N) : N := N.lxor (N.lxor (rotr 2 x) (rotr 13 x)) (rotr 22 x).
Definition Sigma1 (x : N) : N := N.lxor (N.lxor (rotr 6 x) (rotr 11 x)) (rotr 25 x).
Definition Ch (x y z : N) : N := N.lxor (N.land x y) (N.land (not32 x) z).
Definition Maj (x y z : N) : N := N.lxor (N.lxor (N.land x y) (N.land x z)) (N.land y z).

(** The constants are the first 32 bits of the fractional parts of the cube
    roots and of the square roots of the first primes. *)
Definition is_prime (n : nat) : bool :=
  (1 <? n)%nat && forallb (λ d, negb (Nat.eqb (Nat.modulo n d) 0)) (seq 2 (n - 2)).
Definition primes (count : nat) : list N :=
  map N.of_nat (take count (List.filter is_prime (seq 2 400))).

(** The largest [r + d < r + 2 ^ bits] whose cube is at most [n]. *)
Fixpoint cube_root (bits : nat) (r n : N) : N :=
  match bits with
  | O => r
  | S bits' =>
      let r' := r + N.shiftl 1 (N.of_nat bits') in
      cube_root bits' (if r' * r' * r' <=? n then r' else r) n
  end.

Definition round_constants : list N := Eval vm_compute in
  map (λ p, cube_root 36 0 (N.shiftl p 96) mod word_mod) (primes 64).
Definition initial_hash : list N := Eval vm_compute in
  map (λ p, N.sqrt (N.shiftl p 64) mod word_mod) (primes 8).

(** The sixteen words of a block slide along the message schedule. *)
Definition next_word (w : list N) : N :=
  let at_ i := nth i w 0 in
  add32 (add32 (sigma1 (at_ 14%nat)) (at_ 9%nat)) (add32 (sigma0 (at_ 1%nat)) (at_ 0%nat)).

Definition round (k w : N) (h : list N) : list N :=
  match h with
  | [a; b; c; d; e; f; g; hh] =>
      let t1 := add32 (add32 (add32 hh (Sigma1 e)) (add32 (Ch e f g) k)) w in
      let t2 := add32 (Sigma0 a) (Maj a b c) in
      [add32 t1 t2; a; b; c; add32 d t1; e; f; g]
  | _ => h
  end.

Fixpoint rounds (ks : list N) (w : list N) (h : list N) : list N :=
  match ks with
  | [] => h
  | k :: ks' => rounds ks' (tl w ++ [next_word w]) (round k (hd 0 w) h)
  end.

Definition compress (h block : list N) : list N :=
  zip_with add32 h (rounds round_constants block h).

Fixpoint words_of (bytes : list N) : list N :=
  match bytes with
  | a :: b :: c :: d :: rest => (a * 16777216 + b * 65536 + c * 256 + d) :: words_of rest
  | _ => []
  end.

Definition big_endian (n : nat) (v : N) : list N :=
  map (λ i, N.shiftr v (8 * N.of_nat i) mod 256) (rev (seq 0 n)).

Definition pad_message (bytes : list N) : list N :=
  let len := length bytes in
  bytes ++ [128] ++ repeat 0 (Z.to_nat ((55 - Z.of_nat len) mod 64)) ++ big_endian 8 (8 * N.of_nat len).

(** [n] blocks of sixteen words. *)
Fixpoint hash_blocks (n : nat) (ws h : list N) : list N :=
  match n with
  | O => h
  | S n' => hash_blocks n' (drop 16 ws) (compress h (take 16 ws))
  end.

Definition bytes_of (s : string) : list N := map code (String.list_ascii_of_string s).
Definition string_of_bytes (l : list N) : string := String.string_of_list_ascii (map Ascii.ascii_of_N l).

(** [hashlib.sha256(s).digest()]. *)
Definition sha256 (s : string) : string :=
  let ws := words_of (pad_message (bytes_of s)) in
  string_of_bytes (flat_map (big_endian 4) (hash_blocks (length ws / 16) ws initial_hash)).

Definition hex_char (n : N) : Ascii.ascii :=
  Ascii.ascii_of_N (if n <? 10 then 48 + n else 87 + n).
Fixpoint hex (s : string) : string :=
  match s with
  | EmptyString => EmptyString
  | String c s' => String (hex_char (code c / 16)) (String (hex_char (code c mod 16)) (hex s'))
  end.

(** [hashlib.sha256(s).hexdigest()]. *)
Definition sha256_hex (s : string) : string := hex (sha256 s).

Definition xor_key (v : N) (key : list N) : string :=
  string_of_bytes (map (λ i, N.lxor v (nth i key 0)) (seq 0 64)).

(** [hmac.new(key, msg, hashlib.sha256).digest()]. *)
Definition hmac_sha256 (key msg : string) : string :=
  let k := bytes_of (if (64 <? String.length key)%nat then sha256 key else key) in
  sha256 (xor_key 92 k +:+ sha256 (xor_key 54 k +:+ msg)).

#[global] Arguments sha256 : simpl never.
#[global] Arguments hmac_sha256 : simpl never.

Example sha256_abc :
  sha256_hex "abc" = "ba7816bf8f01cfea414140de5dae2223b00361a396177a9cb410ff61f20015ad".
Proof. vm_compute. reflexivity. Qed.
Example hmac_test_case_2 :
  hex (hmac_sha256 "Jefe" "what do ya want for nothing?") =
  "5bdcc146bf60754e6a042426089575c75a003f089d2739839dec58b964ec3843".
Proof. vm_compute. reflexivity. Qed.

Lemma big_endian_length n v : length (big_endian n v) = n.
Proof. unfold big_endian. by rewrite length_map, length_rev, length_seq. Qed.

Lemma hex_length s : String.length (hex s) = (2 * String.length s)%nat.
Proof. induction s as [|c s IH]; simpl; [done|]. rewrite IH. lia. Qed.

Lemma rounds_length ks w h : length h = 8%nat → length (rounds ks w h) = 8%nat.
Proof.
  revert w h. induction ks as [|k ks IH]; intros w h Hh; [done|]. apply IH.
  by destruct h as [|? [|? [|? [|? [|? [|? [|? [|? [|]]]]]]]]].
Qed.

Lemma hash_blocks_length n ws h : length h = 8%nat → length (hash_blocks n ws h) = 8%nat.
Proof.
  revert ws h. induction n as [|n IH]; intros ws h Hh; [done|]. apply IH.
  unfold compress. by rewrite length_zip_with, rounds_length, Hh.
Qed.

Lemma flat_map_length {A B} (f : A → list B) n l :
  (∀ x, length (f x) = n) → length (flat_map f l) = (n * length l)%nat.
Proof.
  intros Hf. induction l as [|x l IH]; simpl; [lia|]. rewrite length_app, Hf, IH. lia.
Qed.

Lemma string_of_bytes_length l : String.length (string_of_bytes l) = length l.
Proof. unfold string_of_bytes. induction l as [|x l IH]; simpl; [done|]. by rewrite IH. Qed.

Lemma sha256_length s : String.length (sha256 s) = 32%nat.
Proof.
  unfold sha256. cbv zeta. rewrite string_of_bytes_length.
  rewrite (flat_map_length _ 4) by (intros; apply big_endian_length).
  by rewrite hash_blocks_length.
Qed.

Lemma sha256_hex_length s : slen (sha256_hex s) = 64%Z.
Proof. unfold slen, sha256_hex. by rewrite hex_length, sha256_length. Qed.
