(* ===== verification/PyNum.v ===== *)
(** * Conversions of values: [int], [str] and [uuid.UUID]

    [int(v)] and [str(v)] of a JSON value, [int(s, base)], [uuid.UUID(s)] and
    [str(UUID)], as the standard library defines them, on ASCII text. *)

From S2P Require Import Prelude.
From S2P Require Import PyData.
From S2P Require Import Json.
From S2P Require Import Sha256.

(** ** Calls that return or raise, without state *)

Definition obind {A B} (o : outcome A) (k : A → outcome B) : outcome B :=
  match o with Ret a => k a | Raise e => Raise e end.
Notation "'try!' x := o 'in' k" := (obind o (λ x, k))
  (at level 10, x name, o at level 100, k at level 200) : py_scope.

Definition of_option {A} (e : exn) (o : option A) : outcome A :=
  match o with Some a => Ret a | None => Raise e end.

Definition guard_py (b : bool) (e : exn) : outcome unit := if b then Ret tt else Raise e.

Lemma obind_Ret_inv {A B} (o : outcome A) (k : A → outcome B) b :
  obind o k = Ret b → ∃ a, o = Ret a ∧ k a = Ret b.
Proof. destruct o; simpl; [eauto|done]. Qed.

Lemma guard_py_Ret b e u : guard_py b e = Ret u → b = true.
Proof. by destruct b. Qed.

(** ** [int(s, base)] *)

Definition digit_value (c : Ascii.ascii) : option N :=
  let n := code c in
  if in_range 48 57 n then Some (n - 48)%N
  else if in_range 97 122 n then Some (n - 87)%N
  else if in_range 65 90 n then Some (n - 55)%N
  else None.

(** Digits with single underscores between them; [gap] holds at the start and
    after an underscore. *)
Fixpoint int_digits (base : N) (gap : bool) (acc : N) (s : string) : option N :=
  match s with
  | EmptyString => if gap then None else Some acc
  | String c s' =>
      if (code c =? 95)%N then (if gap then None else int_digits base true acc s')
      else match digit_value c with
           | Some d => if (d <? base)%N then int_digits base false (acc * base + d)%N s' else None
           | None => None
           end
  end.

(** The optional [0x] of base 16, with the underscore that may follow it. *)
Definition drop_hex_prefix (base : N) (s : string) : string :=
  match s with
  | String z (String x s') =>
      if (base =? 16)%N && (code z =? 48)%N && ((code x =? 120)%N || (code x =? 88)%N) then
        match s' with
        | String u s'' => if (code u =? 95)%N then s'' else s'
        | EmptyString => s'
        end
      else s
  | _ => s
  end.

Definition parse_int (base : N) (s : string) : option Z :=
  let t := strip s in
  let '(sign, u) :=
    match t with
    | String c t' =>
        if (code c =? 45)%N then (-1, t') else if (code c =? 43)%N then (1, t') else (1, t)
    | EmptyString => (1, t)
    end in
  match int_digits base true 0 (drop_hex_prefix base u) with
  | Some n => Some (sign * Z.of_N n)
  | None => None
  end.

(** ** [int(v)] and [str(v)] *)

Section conversions.
(** [int] of a float, [None] for an infinity or a NaN, and [str] of a list or a
dictionary. *)
Context (int_of_float : string → option Z) (str_container : pyval → string).

Definition py_int (v : pyval) : outcome Z :=
  match v with
  | VInt z => Ret z
  | VBool b => Ret (if b then 1 else 0)
  | VFloat r => of_option (PyExn ValueError "cannot convert float to integer") (int_of_float r)
  | VStr s => of_option (PyExn ValueError "invalid literal for int()") (parse_int 10 s)
  | VNone | VList _ | VDict _ => Raise (PyExn TypeError "int() argument must be a string or a number")
  end.

Definition str_value (v : pyval) : string :=
  match v with
  | VNone => "None"
  | VBool b => if b then "True" else "False"
  | VInt z => Z_to_string z
  | VFloat r => r
  | VStr s => s
  | VList _ | VDict _ => str_container v
  end.
End conversions.

(** ** [uuid.UUID] *)

(** [s.replace(sub, '')] for a nonempty [sub]. *)
Fixpoint remove_from (fuel : nat) (sub s : string) : string :=
  match fuel with
  | O => s
  | S fuel' =>
      match s with
      | EmptyString => EmptyString
      | String c s' =>
          if String.prefix sub s then remove_from fuel' sub (sdrop (String.length sub) s)
          else String c (remove_from fuel' sub s')
      end
  end.
Definition remove_sub (sub s : string) : string := remove_from (String.length s) sub s.

Definition uuid_max : Z := 2 ^ 128.

(** The value of [UUID(s)]; [None] is a [ValueError]. *)
Definition uuid_int (s : string) : option Z :=
  let h := remove_sub "-" (strip_chars "{}" (remove_sub "uuid:" (remove_sub "urn:" s))) in
  if slen h =? 32 then
    match parse_int 16 h with
    | Some z => if (0 <=? z) && (z <? uuid_max) then Some z else None
    | None => None
    end
  else None.

Definition uuid_ok (s : string) : bool := match uuid_int s with Some _ => true | None => false end.

(** [str(UUID(int=z))]. *)
Definition uuid_str (z : Z) : string :=
  let h := hex (string_of_bytes (big_endian 16 (Z.to_N z))) in
  let part a b := stake b (sdrop a h) in
  part 0%nat 8%nat +:+ "-" +:+ part 8%nat 4%nat +:+ "-" +:+ part 12%nat 4%nat +:+ "-" +:+
  part 16%nat 4%nat +:+ "-" +:+ part 20%nat 12%nat.

Example uuid_forms :
  map (λ s, match uuid_int s with Some z => Some (uuid_str z) | None => None end)
    ["{123E4567-e89b-12d3-a456-426614174000}"; "urn:uuid:123e4567e89b12d3a456426614174000";
     "123e4567-e89b-12d3-a456-42661417400"; "0x3e4567-e89b-12d3-a456-426614174000"] =
  [Some "123e4567-e89b-12d3-a456-426614174000"; Some "123e4567-e89b-12d3-a456-426614174000";
   None; Some "003e4567-e89b-12d3-a456-426614174000"].
Proof. vm_compute. reflexivity. Qed.

Lemma sdrop_length n s : String.length (sdrop n s) = (String.length s - n)%nat.
Proof. revert s. induction n as [|n IH]; intros [|c s]; simpl; auto. Qed.

Lemma uuid_str_length z : slen (uuid_str z) = 36.
Proof.
  unfold uuid_str. cbv zeta. rewrite !slen_app. unfold slen.
  rewrite !stake_length, !sdrop_length, hex_length, string_of_bytes_length, big_endian_length.
  reflexivity.
Qed.
