(* ===== verification/PyRegex.v ===== *)
(** * Regular expressions

    What the program uses of Python's [re]: the syntax of its patterns, matching
    by backtracking with Python's priorities (leftmost alternative, greedy and
    lazy repetition, groups, lookahead, anchors), and [search], [split], [sub]
    and [finditer].  [matchk_first] says the backtracking matcher returns the
    first success, in order of priority, of the reference definition [runs],
    which lists all of them, and [runs_derives] that these are the matches of
    the declarative semantics; [search_spec] that [search] finds the leftmost. *)

From S2P Require Import Prelude PyData Json.

Inductive regex : Type :=
  | RChar (p : Ascii.ascii → bool)          (** one character of a class *)
  | REps
  | RSeq (r1 r2 : regex)
  | RAlt (r1 r2 : regex)
  | RStar (greedy : bool) (r : regex)       (** [*] and [*?] *)
  | RGroup (n : nat) (r : regex)
  | RBoundary                               (** [\b] *)
  | RBegin                                  (** [^] *)
  | REnd                                    (** [$] *)
  | RAhead (r : regex).                     (** [(?=...)] *)

(** A position: the character before it, the text after it, and the groups matched
    so far, the last first. *)
Record position : Type := At {
  at_prev : option Ascii.ascii;
  at_rest : string;
  at_groups : list (nat * string)
}.

Definition is_digit_char (c : Ascii.ascii) : bool := ((48 <=? code c) && (code c <=? 57))%N.
Definition is_word (c : Ascii.ascii) : bool :=
  is_upper c || is_lower_or_digit c || (code c =? 95)%N.
Definition word_at (o : option Ascii.ascii) : bool := match o with Some c => is_word c | None => false end.
Definition first_char (s : string) : option Ascii.ascii :=
  match s with String c _ => Some c | EmptyString => None end.

Definition at_boundary (x : position) : bool :=
  negb (Bool.eqb (word_at (at_prev x)) (word_at (first_char (at_rest x)))).
Definition at_begin (x : position) : bool := match at_prev x with None => true | Some _ => false end.
(** [$] also matches before a newline that ends the text. *)
Definition at_end (x : position) : bool :=
  String.eqb (at_rest x) "" || String.eqb (at_rest x) nl.

Definition step_char (p : Ascii.ascii → bool) (x : position) : option position :=
  match at_rest x with
  | String c s => if p c then Some (At (Some c) s (at_groups x)) else None
  | EmptyString => None
  end.

(** The text between two positions. *)
Definition consumed (x y : position) : string :=
  stake (String.length (at_rest x) - String.length (at_rest y)) (at_rest x).

Definition record_group (n : nat) (x y : position) : position :=
  At (at_prev y) (at_rest y) ((n, consumed x y) :: at_groups y).

(** An iteration of a repetition has to consume something. *)
Definition advances (x y : position) : bool :=
  (String.length (at_rest y) <? String.length (at_rest x))%nat.

(** ** The matcher *)

(** [k] is what remains to be matched.  No lookahead of the program holds a group. *)
Fixpoint matchk (r : regex) {R : Type} (x : position) (k : position → option R) : option R :=
  match r with
  | RChar p => match step_char p x with Some y => k y | None => None end
  | REps => k x
  | RSeq r1 r2 => matchk r1 x (λ y, matchk r2 y k)
  | RAlt r1 r2 => match matchk r1 x k with Some v => Some v | None => matchk r2 x k end
  | RStar greedy r1 =>
      (fix loop (n : nat) (x : position) : option R :=
         match n with
         | O => k x
         | S n' =>
             let again _ := matchk r1 x (λ y, if advances x y then loop n' y else None) in
             if greedy then match again tt with Some v => Some v | None => k x end
             else match k x with Some v => Some v | None => again tt end
         end) (String.length (at_rest x)) x
  | RGroup n r1 => matchk r1 x (λ y, k (record_group n x y))
  | RBoundary => if at_boundary x then k x else None
  | RBegin => if at_begin x then k x else None
  | REnd => if at_end x then k x else None
  | RAhead r1 => match matchk r1 x Some with Some _ => k x | None => None end
  end.

Record re_match : Type := MkMatch {
  mt_before : string;
  mt_text : string;
  mt_end : position
}.

(** Matches at the position [x] and after it; [before] is the text scanned. *)
Fixpoint search_from (r : regex) (before : string) (prev : option Ascii.ascii) (s : string) :
    option re_match :=
  match matchk r (At prev s []) Some with
  | Some y => Some (MkMatch (srev before) (consumed (At prev s []) y) y)
  | None =>
      match s with
      | EmptyString => None
      | String c s' => search_from r (String c before) (Some c) s'
      end
  end.

(** [re.search(r, s)]. *)
Definition search (r : regex) (s : string) : option re_match := search_from r "" None s.

(** [m.group(n)], [None] for a group that took no part in the match. *)
Definition group (n : nat) (m : re_match) : option string :=
  snd <$> List.find (λ g, (g.1 =? n)%nat) (at_groups (mt_end m)).

(** The successive matches, each searched from the end of the last.  The patterns
    these are used with match no empty text, so [length s] rounds are enough. *)
Fixpoint matches_from (fuel : nat) (r : regex) (prev : option Ascii.ascii) (s : string) :
    list re_match * string :=
  match fuel with
  | O => ([], s)
  | S fuel' =>
      match search_from r "" prev s with
      | Some m =>
          if nonempty (mt_text m) then
            let '(ms, tail) := matches_from fuel' r (at_prev (mt_end m)) (at_rest (mt_end m)) in
            (m :: ms, tail)
          else ([], s)
      | None => ([], s)
      end
  end.

(** [list(re.finditer(r, s))], each match with the text since the last one, and
    the text after the last. *)
Definition finditer (r : regex) (s : string) : list re_match * string :=
  matches_from (String.length s) r None s.

(** [re.split(r, s)] and [re.sub(r, repl, s)], for a pattern without groups and a
    replacement without backslashes. *)
Definition split (r : regex) (s : string) : list string :=
  let '(ms, tail) := finditer r s in map mt_before ms ++ [tail].
Definition sub (r : regex) (repl s : string) : string :=
  let '(ms, tail) := finditer r s in
  foldr (λ m acc, mt_before m +:+ repl +:+ acc) tail ms.

(** ** Patterns *)

Definition RPlus (r : regex) : regex := RSeq r (RStar true r).
Definition ROpt (r : regex) : regex := RAlt r REps.
Fixpoint RUpTo (n : nat) (r : regex) : regex :=
  match n with O => REps | S n' => RAlt (RSeq r (RUpTo n' r)) REps end.
Definition RAlts (rs : list regex) : regex :=
  match rs with [] => REps | r :: rs' => foldl RAlt r rs' end.
Definition RSeqs (rs : list regex) : regex := foldr RSeq REps rs.

Definition one_of (chars : string) (c : Ascii.ascii) : bool := mem_char c chars.
Definition any_char (c : Ascii.ascii) : bool := true.
Definition is_letter (c : Ascii.ascii) : bool :=
  is_upper c || (is_lower_or_digit c && negb (is_digit_char c)).

(** A literal text, and one matched ignoring case ([text] in lower case). *)
Fixpoint RText (text : string) : regex :=
  match text with
  | EmptyString => REps
  | String c text' => RSeq (RChar (Ascii.eqb c)) (RText text')
  end.
Fixpoint RTextI (text : string) : regex :=
  match text with
  | EmptyString => REps
  | String c text' => RSeq (RChar (λ d, Ascii.eqb c (lower_char d))) (RTextI text')
  end.
Definition RSpaces : regex := RPlus (RChar is_space).     (** [\s+] *)
Definition RSpaces0 : regex := RStar true (RChar is_space).

(** ** The reference definition: every way to match, in order of priority *)

Fixpoint runs (r : regex) (x : position) : list position :=
  match r with
  | RChar p => match step_char p x with Some y => [y] | None => [] end
  | REps => [x]
  | RSeq r1 r2 => flat_map (runs r2) (runs r1 x)
  | RAlt r1 r2 => runs r1 x ++ runs r2 x
  | RStar greedy r1 =>
      (fix loop (n : nat) (x : position) : list position :=
         match n with
         | O => [x]
         | S n' =>
             let again := flat_map (λ y, if advances x y then loop n' y else []) (runs r1 x) in
             if greedy then again ++ [x] else x :: again
         end) (String.length (at_rest x)) x
  | RGroup n r1 => map (record_group n x) (runs r1 x)
  | RBoundary => if at_boundary x then [x] else []
  | RBegin => if at_begin x then [x] else []
  | REnd => if at_end x then [x] else []
  | RAhead r1 => match runs r1 x with [] => [] | _ => [x] end
  end.

Fixpoint first_success {A B} (k : A → option B) (l : list A) : option B :=
  match l with
  | [] => None
  | x :: l' => match k x with Some v => Some v | None => first_success k l' end
  end.

Lemma first_success_app {A B} (k : A → option B) l1 l2 :
  first_success k (l1 ++ l2) =
    match first_success k l1 with Some v => Some v | None => first_success k l2 end.
Proof. induction l1 as [|x l1 IH]; simpl; [done|]. by destruct (k x). Qed.

Lemma first_success_flat_map {A B C} (k : B → option C) (f : A → list B) l :
  first_success k (flat_map f l) = first_success (λ x, first_success k (f x)) l.
Proof. induction l as [|x l IH]; simpl; [done|]. by rewrite first_success_app, IH. Qed.

Lemma first_success_map {A B C} (k : B → option C) (f : A → B) l :
  first_success k (map f l) = first_success (λ x, k (f x)) l.
Proof. induction l as [|x l IH]; simpl; [done|]. by rewrite IH. Qed.

Lemma first_success_ext {A B} (k k' : A → option B) l :
  (∀ x, k x = k' x) → first_success k l = first_success k' l.
Proof. intros H. induction l as [|x l IH]; simpl; [done|]. by rewrite H, IH. Qed.

Lemma first_success_None {A B} (k : A → option B) l :
  first_success k l = None ↔ ∀ x, x ∈ l → k x = None.
Proof.
  induction l as [|y l IH]; simpl; [split; [by intros _ x ?%not_elem_of_nil|done]|].
  setoid_rewrite elem_of_cons. destruct (k y) eqn:E; [split; [done|]|].
  - intros H. rewrite (H y) in E; [done|by left].
  - rewrite IH. naive_solver.
Qed.

Lemma first_success_Some {A} (l : list A) : first_success Some l = head l.
Proof. by destruct l. Qed.

(** The matcher returns the first success of what remains, over all the ways to
    match, in Python's order of priority. *)
Theorem matchk_first r {R} x (k : position → option R) :
  matchk r x k = first_success k (runs r x).
Proof.
  revert R x k. induction r as [p| |r1 IH1 r2 IH2|r1 IH1 r2 IH2|greedy r IH|n r IH| | | |r IH];
    intros R x k; simpl.
  - destruct (step_char p x) as [y|]; simpl; [|done]. by destruct (k y).
  - by destruct (k x).
  - rewrite IH1, first_success_flat_map. apply first_success_ext. intros y. apply IH2.
  - by rewrite first_success_app, IH1, IH2.
  - generalize (String.length (at_rest x)) as n. intros n.
    match goal with |- ?L n x = first_success k (?L' n x) => set (loop := L); set (rloop := L') end.
    revert x. induction n as [|n IHn]; intros x; [simpl; by destruct (k x)|].
    set (again := flat_map (λ y, if advances x y then rloop n y else []) (runs r x)).
    assert (matchk r x (λ y, if advances x y then loop n y else None) = first_success k again) as Hagain.
    { rewrite IH. unfold again. rewrite first_success_flat_map. apply first_success_ext. intros y.
      destruct (advances x y); [apply IHn|done]. }
    change (rloop (S n) x) with (if greedy then again ++ [x] else x :: again).
    transitivity (if greedy
      then match matchk r x (λ y, if advances x y then loop n y else None) with Some v => Some v | None => k x end
      else match k x with Some v => Some v | None => matchk r x (λ y, if advances x y then loop n y else None) end);
      [done|]. rewrite Hagain.
    destruct greedy; [rewrite first_success_app; simpl; by destruct (k x)|done].
  - by rewrite IH, first_success_map.
  - destruct (at_boundary x); simpl; [by destruct (k x)|done].
  - destruct (at_begin x); simpl; [by destruct (k x)|done].
  - destruct (at_end x); simpl; [by destruct (k x)|done].
  - rewrite IH, first_success_Some. destruct (runs r x); simpl; [done|by destruct (k x)].
Qed.

(** ** The declarative semantics *)

Inductive derives : regex → position → position → Prop :=
  | D_char p x y : step_char p x = Some y → derives (RChar p) x y
  | D_eps x : derives REps x x
  | D_seq r1 r2 x y z : derives r1 x y → derives r2 y z → derives (RSeq r1 r2) x z
  | D_left r1 r2 x y : derives r1 x y → derives (RAlt r1 r2) x y
  | D_right r1 r2 x y : derives r2 x y → derives (RAlt r1 r2) x y
  | D_stop greedy r x : derives (RStar greedy r) x x
  | D_again greedy r x y z :
      derives r x y → advances x y = true → derives (RStar greedy r) y z →
      derives (RStar greedy r) x z
  | D_group n r x y : derives r x y → derives (RGroup n r) x (record_group n x y)
  | D_boundary x : at_boundary x = true → derives RBoundary x x
  | D_begin x : at_begin x = true → derives RBegin x x
  | D_end x : at_end x = true → derives REnd x x
  | D_ahead r x y : derives r x y → derives (RAhead r) x x.

Lemma elem_of_flat_map {A B} (f : A → list B) l y :
  y ∈ flat_map f l ↔ ∃ x, x ∈ l ∧ y ∈ f x.
Proof. setoid_rewrite list_elem_of_In. rewrite in_flat_map. naive_solver. Qed.

Theorem runs_derives r x y : y ∈ runs r x ↔ derives r x y.
Proof.
  revert x y. induction r as [p| |r1 IH1 r2 IH2|r1 IH1 r2 IH2|greedy r IH|n r IH| | | |r IH];
    intros x y; simpl.
  - destruct (step_char p x) as [z|] eqn:E; simpl.
    + rewrite list_elem_of_singleton. split; [intros ->; by constructor|]. by inversion 1; simplify_eq.
    + split; [by intros ?%not_elem_of_nil|]. by inversion 1; simplify_eq.
  - rewrite list_elem_of_singleton. split; [intros ->; constructor|]. by inversion 1.
  - rewrite elem_of_flat_map. split.
    + intros (z&Hz%IH1&Hy%IH2). by econstructor.
    + inversion 1; subst. eexists. by rewrite IH1, IH2.
  - rewrite elem_of_app, IH1, IH2. split; [intros [?|?]; by constructor|]. inversion 1; auto.
  - match goal with |- y ∈ ?L (String.length _) x ↔ _ => set (loop := L) end. enough (∀ n x, (String.length (at_rest x) ≤ n)%nat →
      y ∈ loop n x ↔ derives (RStar greedy r) x y) as H by (by apply H). clear x.
    induction n as [|n IHn]; intros x Hn.
    + simpl. rewrite list_elem_of_singleton. split; [intros ->; constructor|].
      inversion 1; subst; [done|]. unfold advances in *.
      match goal with H : (_ <? _)%nat = true |- _ => apply Nat.ltb_lt in H end. lia.
    + assert (y ∈ flat_map (λ z, if advances x z then loop n z else []) (runs r x) ↔
        ∃ z, derives r x z ∧ advances x z = true ∧ derives (RStar greedy r) z y) as Ha.
      { rewrite elem_of_flat_map. split.
        - intros (z&Hz%IH&Hy). exists z. split; [done|]. destruct (advances x z) eqn:E;
            [|by apply not_elem_of_nil in Hy]. split; [done|]. apply IHn; [|done].
          unfold advances in E. apply Nat.ltb_lt in E. lia.
        - intros (z&Hz&E&Hy). exists z. rewrite IH, E. split; [done|]. apply IHn; [|done].
          unfold advances in E. apply Nat.ltb_lt in E. lia. }
      transitivity (y = x ∨ y ∈ flat_map (λ z, if advances x z then loop n z else []) (runs r x)).
      { change (loop (S n) x) with (if greedy
          then flat_map (λ z, if advances x z then loop n z else []) (runs r x) ++ [x]
          else x :: flat_map (λ z, if advances x z then loop n z else []) (runs r x)).
        destruct greedy; [rewrite elem_of_app, list_elem_of_singleton|rewrite elem_of_cons]; tauto. }
      rewrite Ha. split.
      * intros [->|(z&?&?&?)]; [constructor|by econstructor].
      * inversion 1; subst; eauto.
  - rewrite list_elem_of_In, in_map_iff. setoid_rewrite <-list_elem_of_In. split.
    + intros (z&<-&Hz%IH). by constructor.
    + inversion 1; subst. eexists. by rewrite IH.
  - destruct (at_boundary x) eqn:E.
    + rewrite list_elem_of_singleton. split; [intros ->; by constructor|]. by inversion 1.
    + split; [by intros ?%not_elem_of_nil|]. inversion 1; congruence.
  - destruct (at_begin x) eqn:E.
    + rewrite list_elem_of_singleton. split; [intros ->; by constructor|]. by inversion 1.
    + split; [by intros ?%not_elem_of_nil|]. inversion 1; congruence.
  - destruct (at_end x) eqn:E.
    + rewrite list_elem_of_singleton. split; [intros ->; by constructor|]. by inversion 1.
    + split; [by intros ?%not_elem_of_nil|]. inversion 1; congruence.
  - destruct (runs r x) as [|z l] eqn:E.
    + split; [by intros ?%not_elem_of_nil|]. inversion 1; subst.
      match goal with H : derives r _ _ |- _ => apply IH in H; rewrite E in H; by apply not_elem_of_nil in H end.
    + rewrite list_elem_of_singleton. split; [|by inversion 1]. intros ->.
      apply (D_ahead r _ z), IH. rewrite E. left.
Qed.

(** ** [search] *)

Lemma srev_app_text a acc : srev_app a acc = srev a +:+ acc.
Proof.
  unfold srev. revert acc. induction a as [|x a IH]; intros acc; [done|]. simpl.
  rewrite IH, (IH (String x "")), sapp_assoc. done.
Qed.

Lemma stake_app_l a b : stake (String.length a) (a +:+ b) = a.
Proof. induction a as [|c a IH]; simpl; [by destruct b|]. f_equal. exact IH. Qed.

(** What follows a match is a suffix of what it started at. *)
Lemma derives_suffix r x y : derives r x y → at_rest x = consumed x y +:+ at_rest y.
Proof.
  intros H. enough (∃ t, at_rest x = t +:+ at_rest y) as [t Ht].
  { unfold consumed. rewrite Ht, sapp_length, Nat.add_sub, stake_app_l. done. }
  induction H; try (by exists ""); try done.
  - unfold step_char in H. destruct (at_rest x) as [|c s]; [done|]. destruct (p c); [|done].
    simplify_eq. by exists (String c "").
  - destruct IHderives1 as [t1 E1], IHderives2 as [t2 E2]. exists (t1 +:+ t2). by rewrite E1, E2, sapp_assoc.
  - destruct IHderives1 as [t1 E1], IHderives2 as [t2 E2]. exists (t1 +:+ t2). by rewrite E1, E2, sapp_assoc.
Qed.

(** The character before the position that follows [a]. *)
Fixpoint last_of (prev : option Ascii.ascii) (a : string) : option Ascii.ascii :=
  match a with EmptyString => prev | String c a' => last_of (Some c) a' end.

Lemma search_from_spec r before prev s :
  match search_from r before prev s with
  | Some m => ∃ skipped, mt_before m = srev before +:+ skipped ∧
      s = skipped +:+ (mt_text m +:+ at_rest (mt_end m)) ∧
      head (runs r (At (last_of prev skipped) (mt_text m +:+ at_rest (mt_end m)) [])) = Some (mt_end m) ∧
      ∀ a b, s = a +:+ b → (String.length a < String.length skipped)%nat →
        runs r (At (last_of prev a) b []) = []
  | None => ∀ a b, s = a +:+ b → runs r (At (last_of prev a) b []) = []
  end.
Proof.
  revert before prev. induction s as [|c s IH]; intros before prev; cbn [search_from];
    rewrite matchk_first, first_success_Some.
  - destruct (runs r (At prev "" [])) as [|y l] eqn:E; simpl.
    + by intros [|] [|].
    + assert (derives r (At prev "" []) y) as Hd by (apply runs_derives; rewrite E; left).
      exists "". apply derives_suffix in Hd. simpl in Hd. simpl. rewrite <-Hd, E.
      split; [|split; [done|split; [done|intros; simpl in *; lia]]].
      by rewrite sapp_nil_r.
  - destruct (runs r (At prev (String c s) [])) as [|y l] eqn:E; simpl.
    + specialize (IH (String c before) (Some c)). destruct (search_from _ _ _ _) as [m|].
      * destruct IH as (skipped&Hb&Hs&Hh&Hno). exists (String c skipped).
        split; [|split; [|split]]; [|exact (f_equal (String c) Hs)|done|].
        { rewrite Hb. unfold srev at 1. simpl. by rewrite srev_app_text, sapp_assoc. }
        intros [|a0 a] b Hab Hl; simpl in *; [change (String c s = b) in Hab; by rewrite <-Hab|].
        injection Hab as <- Hab. apply Hno; [done|lia].
      * intros [|a0 a] b Hab; simpl in *; [change (String c s = b) in Hab; by rewrite <-Hab|]. injection Hab as <- Hab. by apply IH.
    + assert (derives r (At prev (String c s) []) y) as Hd by (apply runs_derives; rewrite E; left).
      exists "". apply derives_suffix in Hd. simpl in Hd. simpl. rewrite <-Hd, E.
      split; [|split; [done|split; [done|intros; simpl in *; lia]]].
      by rewrite sapp_nil_r.
Qed.

(** [search] finds the leftmost match and, there, the one of highest priority;
    it finds none only when the pattern matches nowhere. *)
Theorem search_spec r s :
  match search r s with
  | Some m => s = mt_before m +:+ (mt_text m +:+ at_rest (mt_end m)) ∧
      head (runs r (At (last_of None (mt_before m)) (mt_text m +:+ at_rest (mt_end m)) [])) =
        Some (mt_end m) ∧
      ∀ a b y, s = a +:+ b → (String.length a < String.length (mt_before m))%nat →
        ¬ derives r (At (last_of None a) b []) y
  | None => ∀ a b y, s = a +:+ b → ¬ derives r (At (last_of None a) b []) y
  end.
Proof.
  unfold search. pose proof (search_from_spec r "" None s) as H.
  destruct (search_from r "" None s) as [m|].
  - destruct H as (skipped&Hb&Hs&Hh&Hno). simpl in Hb. rewrite Hb. split; [done|]. split; [done|].
    intros a b y Hab Hl Hd%runs_derives. rewrite (Hno a b Hab Hl) in Hd. by apply not_elem_of_nil in Hd.
  - intros a b y Hab Hd%runs_derives. rewrite (H a b Hab) in Hd. by apply not_elem_of_nil in Hd.
Qed.

(** ** [finditer] *)

(** The matches and the texts between them make up the text. *)
Fixpoint pieces (ms : list re_match) (tail : string) : string :=
  match ms with
  | [] => tail
  | m :: ms' => mt_before m +:+ (mt_text m +:+ pieces ms' tail)
  end.

Theorem finditer_pieces r s : pieces (finditer r s).1 (finditer r s).2 = s.
Proof.
  unfold finditer. enough (∀ fuel prev s,
    pieces (matches_from fuel r prev s).1 (matches_from fuel r prev s).2 = s) as H by apply H. clear s.
  intros fuel. induction fuel as [|fuel IH]; intros prev s; [done|]. cbn [matches_from].
  pose proof (search_from_spec r "" prev s) as H. destruct (search_from _ _ _ _) as [m|]; [|done].
  destruct (nonempty (mt_text m)); [|done]. destruct H as (skipped&Hb&Hs&_).
  specialize (IH (at_prev (mt_end m)) (at_rest (mt_end m))). destruct (matches_from _ _ _ _) as [ms tail].
  simpl in *. by rewrite IH, Hb.
Qed.
