(* ===== verification/Logging.v ===== *)
(** * Log lines

    [log_kv] and [_safe_value] of [app/logging_config.py].  [log_lines_intact]: no
    value can break a line or fill it. *)

From S2P Require Import Prelude PyData Json Base64 PyNum.

Section logging.
Context (str_container : pyval → string).

Definition newline : Ascii.ascii := Ascii.ascii_of_N 10.
Definition carriage_return : Ascii.ascii := Ascii.ascii_of_N 13.
Definition space : Ascii.ascii := Ascii.ascii_of_N 32.

Definition _safe_value (value : pyval) : string :=
  let text := str_value str_container value in
  let text := replace_char carriage_return space (replace_char newline space text) in
  if 500 <? slen text then stake_Z 497 text +:+ "..." else text.

(** [key=value] for every field that is not [None]. *)
Definition clean_fields (fields : pydict) : list (string * string) :=
  map (λ kv, (kv.1, _safe_value kv.2)) (filter (λ kv, kv.2 ≠ VNone) fields).

(** The message [logger.log] is given. *)
Definition log_kv (event : string) (fields : pydict) : string :=
  let suffix := join " " (map (λ kv, kv.1 +:+ "=" +:+ kv.2) (clean_fields fields)) in
  event +:+ (if nonempty suffix then " " +:+ suffix else "").

(** ** One line per event *)

Definition one_line (s : string) : Prop :=
  sforall (λ c, negb (Ascii.eqb c newline || Ascii.eqb c carriage_return)) s = true.

Lemma one_line_app a b : one_line (a +:+ b) ↔ one_line a ∧ one_line b.
Proof. unfold one_line. by rewrite sforall_app, andb_true_iff. Qed.

Lemma one_line_join sep l : one_line sep → Forall one_line l → one_line (join sep l).
Proof.
  intros Hs. induction l as [|x l IH]; [done|]. intros [Hx Hl]%Forall_cons. destruct l as [|y l]; [done|].
  change (join sep (x :: y :: l)) with (x +:+ (sep +:+ join sep (y :: l))).
  rewrite !one_line_app. auto.
Qed.

Lemma replaced_absent (a b : Ascii.ascii) s : a ≠ b → sforall (λ c, negb (Ascii.eqb c a)) (replace_char a b s) = true.
Proof.
  intros Hab. unfold replace_char. induction s as [|c s IH]; [done|]. simpl. destruct (Ascii.eqb_spec c a) as [->|Hc]; simpl.
  - by rewrite (proj2 (Ascii.eqb_neq b a)).
  - by rewrite (proj2 (Ascii.eqb_neq c a)).
Qed.

Lemma replaced_keeps p (a b : Ascii.ascii) s :
  p b = true → sforall p s = true → sforall p (replace_char a b s) = true.
Proof.
  intros Hb. unfold replace_char. induction s as [|c s IH]; [done|]. simpl. intros [Hc Hs]%andb_prop.
  rewrite IH by done. by destruct (Ascii.eqb c a); rewrite ?Hb, ?Hc.
Qed.

Lemma safe_value_spec v : one_line (_safe_value v) ∧ slen (_safe_value v) ≤ 500.
Proof.
  unfold _safe_value. set (text := replace_char carriage_return _ _).
  assert (one_line text) as Ht.
  { unfold one_line, text.
    assert (sforall (λ c, negb (Ascii.eqb c newline)) (replace_char carriage_return space
      (replace_char newline space (str_value str_container v))) = true) as H1
      by (apply replaced_keeps; [done|by apply replaced_absent]).
    pose proof (replaced_absent carriage_return space (replace_char newline space (str_value str_container v))
      ltac:(done)) as H2.
    revert H1 H2. generalize (replace_char carriage_return space (replace_char newline space
      (str_value str_container v))) as t.
    induction t as [|c t IH]; [done|]. simpl. intros [Ha ?]%andb_prop [Hb ?]%andb_prop.
    rewrite negb_orb, Ha, Hb. simpl. auto. }
  destruct (Z.ltb_spec 500 (slen text)); [|done]. rewrite one_line_app, slen_app.
  pose proof (stake_Z_length 497 text). split; [|unfold slen in *; simpl; lia].
  split; [|done]. by apply sforall_stake.
Qed.

(** An event is one line of the log.  Whatever the values of the fields hold
    -- messages of users, texts of exceptions, answers of models -- the line has no
    line break when the event's and the fields' names have none, and every value
    takes at most 500 characters of it. *)
Theorem log_lines_intact event fields :
  one_line event → Forall (λ kv, one_line kv.1) fields →
  one_line (log_kv event fields) ∧ Forall (λ kv, slen kv.2 ≤ 500) (clean_fields fields).
Proof.
  intros He Hf. unfold log_kv, clean_fields. split.
  - rewrite one_line_app. split; [done|]. destruct (nonempty _); [|done]. rewrite one_line_app. split; [done|].
    apply one_line_join; [done|]. rewrite map_map, Forall_map, Forall_forall.
    intros [k v] [_ Hk]%list_elem_of_filter. rewrite Forall_forall in Hf. apply Hf in Hk. simpl in *. rewrite !one_line_app. split; [done|]. split; [done|]. apply safe_value_spec.
  - rewrite Forall_map. apply Forall_forall. intros kv _. apply safe_value_spec.
Qed.
End logging.

Lemma log_lines_intact_witness : ∃ line,
  line = log_kv (λ _, "[]") "run_failed" [("error", VStr ("bad" +:+ nl +:+ "run_completed run_id=1")); ("model", VNone)] ∧
  line = "run_failed error=bad run_completed run_id=1" ∧ one_line line.
Proof.
  eexists. split; [reflexivity|]. split; [reflexivity|].
  apply (log_lines_intact (λ _, "[]") "run_failed"); [reflexivity|repeat constructor].
Defined.
