(* ===== verification/Artifacts.v ===== *)
(** * Artifacts

    [put_bytes] and [get_bytes] of [MinioArtifactStore] ([app/state/minio.py]); its
    life cycle and health are in [StateRuntime] and [Health].  A call runs in a
    thread ([asyncio.to_thread]): a cancellation that arrives while it runs does not
    stop it.  [get_bytes_releases] and [cancelled_get_leaks]: which responses are
    given back; [artifact_round_trip]: what was put is what is read. *)

From S2P Require Import Prelude PyData.

(** The client of MinIO and the deliveries of cancellations; a response is known by
    a number. *)
Class MinioHost (X : Type) : Type := {
  mh_delivery : X → delivery * X;
  mh_put_object : string → string → string → Z → string → X → outcome unit * X;
  mh_get_object : string → string → X → outcome nat * X;
  mh_read : nat → X → outcome string * X
}.

(** The responses opened and not released. *)
Record Storage (X : Type) : Type := MkStorage { sg_ext : X; sg_open : list nat }.
Arguments MkStorage {X} _ _.
Arguments sg_ext {X} _.
Arguments sg_open {X} _.

Fixpoint remove_first (r : nat) (l : list nat) : list nat :=
  match l with
  | [] => []
  | x :: l' => if decide (x = r) then l' else x :: remove_first r l'
  end.

Section artifacts.
Context {X : Type} `{!MinioHost X} (bucket : string).

Definition client_call {A} (m : X → outcome A * X) : M (Storage X) A := λ w,
  let '(o, x) := m (sg_ext w) in (o, MkStorage x (sg_open w)).

(** [await asyncio.to_thread(m)]. *)
Definition to_thread {A} (m : M (Storage X) A) : M (Storage X) A :=
  let! d := client_call (λ x, let '(d, x') := mh_delivery x in (Ret d, x')) in
  match d with
  | Proceed => m
  | CancelBefore => raise CancelledError
  | CancelAfter => m ;;; raise CancelledError
  end.

Definition open_response (object_name : string) : M (Storage X) nat :=
  let! r := client_call (mh_get_object bucket object_name) in
  modify (λ w, MkStorage (sg_ext w) (r :: sg_open w)) ;;; ret r.

(** [response.close()] and [response.release_conn()]. *)
Definition release_response (r : nat) : M (Storage X) unit :=
  modify (λ w, MkStorage (sg_ext w) (remove_first r (sg_open w))).

Definition put_bytes (object_name data content_type : string) : M (Storage X) string :=
  to_thread (client_call (mh_put_object bucket object_name data (slen data) content_type)) ;;;
  ret object_name.

(** The [finally] clause has no response to release when the first call raised. *)
Definition get_bytes (object_name : string) : M (Storage X) string :=
  let! response := to_thread (open_response object_name) in
  try_finally (to_thread (client_call (mh_read response))) (release_response response).

(** ** What is given back *)

Lemma client_call_open {A} (m : X → outcome A * X) w : sg_open (client_call m w).2 = sg_open w.
Proof. unfold client_call. by destruct (m (sg_ext w)). Qed.

Lemma to_thread_open {A} (m : M (Storage X) A) w :
  (∀ w', sg_open (m w').2 = sg_open w') → sg_open (to_thread m w).2 = sg_open w.
Proof.
  intros Hm. unfold to_thread, bind, client_call. destruct (mh_delivery (sg_ext w)) as [d x].
  destruct d; simpl; [by rewrite Hm|done|].
  pose proof (Hm (MkStorage x (sg_open w))) as H. by destruct (m _) as [[a|e] w'].
Qed.

Lemma client_call_result {A} (m : X → outcome A * X) w a w' :
  client_call m w = (Ret a, w') → m (sg_ext w) = (Ret a, sg_ext w').
Proof. unfold client_call. destruct (m (sg_ext w)) as [o x]. by intros [= -> <-]. Qed.

(** A call that returns was made, in the state after its delivery. *)
Lemma to_thread_Ret {A} (m : M (Storage X) A) w a w' :
  to_thread m w = (Ret a, w') →
  m (MkStorage (mh_delivery (sg_ext w)).2 (sg_open w)) = (Ret a, w').
Proof.
  unfold to_thread, bind, client_call. destruct (mh_delivery (sg_ext w)) as [[] x]; simpl; [done..|].
  by destruct (m _) as [[b|e] w1].
Qed.

(** [get_bytes] releases what it opens.  Whatever the client raises and wherever
    a cancellation arrives, save for one that arrives while the object is being
    opened, the responses open after the call are those open before it. *)
Theorem get_bytes_releases object_name w :
  (mh_delivery (sg_ext w)).1 ≠ CancelAfter → sg_open (get_bytes object_name w).2 = sg_open w.
Proof.
  intros Hd. unfold get_bytes. unfold bind at 1.
  destruct (to_thread (open_response object_name) w) as [[r|e] w1] eqn:E.
  - assert (sg_open w1 = r :: sg_open w) as Ho.
    { apply to_thread_Ret in E. unfold open_response in E. apply bind_Ret_inv in E as (r'&w2&Hc&E).
      injection E as -> <-. pose proof (client_call_open (mh_get_object bucket object_name)
        (MkStorage (mh_delivery (sg_ext w)).2 (sg_open w))) as Hk. rewrite Hc in Hk. simpl in *. by rewrite Hk. }
    unfold try_finally.
    pose proof (to_thread_open (client_call (mh_read r)) w1 (client_call_open _)) as Hr.
    destruct (to_thread (client_call (mh_read r)) w1) as [o w2]. simpl in *.
    rewrite Hr, Ho. simpl. by destruct (decide (r = r)).
  - unfold to_thread, bind, client_call in E. simpl.
    destruct (mh_delivery (sg_ext w)) as [[] x]; simpl in *; [|by injection E as <- <-|done].
    unfold open_response, bind, client_call in E. simpl in E.
    destruct (mh_get_object bucket object_name x) as [[r|e'] x']; simplify_eq; done.
Qed.

(** A cancellation that arrives while the object is being opened leaks the
    response: the thread opens it, and nobody is left to release it. *)
Theorem cancelled_get_leaks object_name w x r x' :
  mh_delivery (sg_ext w) = (CancelAfter, x) → mh_get_object bucket object_name x = (Ret r, x') →
  get_bytes object_name w = (Raise CancelledError, MkStorage x' (r :: sg_open w)).
Proof.
  intros Hd Hg. unfold get_bytes, to_thread, bind, client_call. rewrite Hd. simpl.
  unfold open_response, bind, client_call. simpl. by rewrite Hg.
Qed.

(** ** Round trip *)

(** A store of objects: [objects] is what it holds, [contents] what a response
    reads. *)
Class MinioLaws : Type := {
  ml_objects : X → string → option string;
  ml_contents : X → nat → option string;
  ml_delivery x : ml_objects (mh_delivery x).2 = ml_objects x ∧ ml_contents (mh_delivery x).2 = ml_contents x;
  ml_put name data content_type x x' :
    mh_put_object bucket name data (slen data) content_type x = (Ret tt, x') →
    ml_objects x' name = Some data;
  ml_get name r x x' : mh_get_object bucket name x = (Ret r, x') → ml_contents x' r = ml_objects x name;
  ml_read r data x x' : mh_read r x = (Ret data, x') → ml_contents x r = Some data
}.

(** What was put is what is read. *)
Theorem artifact_round_trip `{!MinioLaws} object_name data content_type w key w1 read w2
    (Hput : put_bytes object_name data content_type w = (Ret key, w1))
    (Hget : get_bytes key w1 = (Ret read, w2)) :
  read = data.
Proof.
  unfold put_bytes in Hput. apply bind_Ret_inv in Hput as ([]&w3&Hp&Hput). injection Hput as <- <-.
  apply to_thread_Ret, client_call_result, ml_put in Hp.
  unfold get_bytes in Hget. apply bind_Ret_inv in Hget as (r&w4&Ho&Hr).
  apply to_thread_Ret in Ho. unfold open_response in Ho. apply bind_Ret_inv in Ho as (r'&w5&Hc&Ho).
  injection Ho as -> <-. apply client_call_result, ml_get in Hc.
  unfold try_finally in Hr. destruct (to_thread _ _) as [o w6] eqn:E. simpl in Hr. injection Hr as -> _.
  apply to_thread_Ret, client_call_result, ml_read in E. simpl in *.
  rewrite (proj2 (ml_delivery _)), Hc, (proj1 (ml_delivery _)), Hp in E. congruence.
Qed.
End artifacts.

(** ** A store *)

Section sample.
Abbreviation bucket_state := (gmap string string * list string)%type (only parsing).

#[local] Instance sample_minio : MinioHost bucket_state := {
  mh_delivery x := (Proceed, x);
  mh_put_object _ name data _ _ x := (Ret tt, (<[name := data]> x.1, x.2));
  mh_get_object _ name x :=
    match x.1 !! name with
    | Some data => (Ret (length x.2), (x.1, x.2 ++ [data]))
    | None => (Raise (PyExn OtherError "NoSuchKey"), x)
    end;
  mh_read r x :=
    match x.2 !! r with
    | Some data => (Ret data, x)
    | None => (Raise (PyExn ValueError "I/O operation on closed response"), x)
    end
}.

#[local] Instance sample_minio_laws : MinioLaws "artifacts".
Proof.
  refine {| ml_objects x name := x.1 !! name; ml_contents x r := x.2 !! r |}.
  - done.
  - intros name data ct x x' H. simplify_eq/=. apply lookup_insert_eq.
  - intros name r x x' H. simpl in H. destruct (x.1 !! name) as [data|] eqn:E; simplify_eq. simpl.
    rewrite lookup_app_r by done. by rewrite Nat.sub_diag.
  - intros r data x x' H. simpl in H. destruct (x.2 !! r) eqn:E; by simplify_eq.
Defined.

Lemma artifact_round_trip_witness : ∃ w1 w2,
  put_bytes "artifacts" "report" "abc" "text/plain" (MkStorage (∅, []) []) = (Ret "report", w1) ∧
  get_bytes "artifacts" "report" w1 = (Ret "abc", w2) ∧ "abc" = "abc" ∧ sg_open w2 = [].
Proof.
  eexists _, _. split; [reflexivity|]. split; [reflexivity|]. split; [|reflexivity].
  eapply (artifact_round_trip "artifacts" "report" "abc" "text/plain" (MkStorage (∅, []) [])); reflexivity.
Defined.

Lemma get_bytes_releases_witness :
  (mh_delivery (X := bucket_state) (∅, [])).1 ≠ CancelAfter ∧
  sg_open (get_bytes "artifacts" "absent" (MkStorage (∅, []) [7%nat])).2 = [7%nat].
Proof. split; [discriminate|]. apply (get_bytes_releases "artifacts" "absent" (MkStorage (∅, []) [7%nat])). discriminate. Defined.
End sample.
