(* ===== verification/CoverageGate.v ===== *)
(** * Coverage gate

    [scripts/check_coverage_thresholds.py], which the build runs on the report of
    the test run: [main] reads the report and the policy, compares the total and
    every file with the minimum, prints what it found and returns an exit code.
    [gate_passes]: the code is 0 exactly when the report is complete and nothing in
    it is below the minimum, and nothing but the waivers is exempt;
    [gate_names_failures]: code 1 comes with an error line for each file below.
    Parsing the arguments is not modelled: the two paths are [main]'s arguments. *)

From stdpp Require Import gmap strings sorting.
From S2P Require Import Prelude PyData Json PyNum.

(** The two streams of the process. *)
Record Console : Type := MkConsole { stdout : list string; stderr : list string }.

Definition print (line : string) : M Console unit := modify (λ c, MkConsole (stdout c ++ [line]) (stderr c)).
Definition print_error (line : string) : M Console unit :=
  modify (λ c, MkConsole (stdout c) (stderr c ++ [line])).

Fixpoint print_all (lines : list string) : M Console unit :=
  match lines with
  | [] => ret tt
  | line :: lines' => print line ;;; print_all lines'
  end.

Definition runtime_error {A} (msg : string) : outcome A := Raise (PyExn RuntimeError msg).

(** [path.replace('\\', '/').lstrip('./')] *)
Definition normalize_path (path : string) : string :=
  lstrip_by (λ c, mem_char c "./") (replace_char (Ascii.ascii_of_N 92) (Ascii.ascii_of_N 47) path).

Definition string_le (a b : string) : Prop := String.leb a b = true.
#[export] Instance string_le_dec : RelDecision string_le.
Proof. intros a b. unfold string_le. apply _. Defined.

Definition sorted (s : gset string) : list string := merge_sort string_le (elements s).

Section gate.
(** The files, the parser of TOML, and Python's floats: conversions, the text
[repr] gives a literal of JSON, the test [x + 1e-9 < y] and the format [.2f]. *)
Context (read_text : string → outcome string) (toml_loads : string → outcome pydict).
Context {F : Type} (float_of_repr : string → F) (float_of_int : Z → outcome F).
Context (float_of_text : string → outcome F) (int_of_float : string → option Z).
Context (float_repr : string → string) (below : F → F → bool) (fmt2 : F → string).

Definition py_float (v : pyval) : outcome F :=
  match v with
  | VFloat r => Ret (float_of_repr r)
  | VInt z => float_of_int z
  | VBool b => float_of_int (if b then 1 else 0)
  | VStr s => float_of_text s
  | VNone | VList _ | VDict _ => Raise (PyExn TypeError "float() argument must be a string or a real number")
  end.

(** [except (OSError, json.JSONDecodeError)] and [except (OSError, TOMLDecodeError)]:
the parser of TOML raises its [TOMLDecodeError] as a [JSONDecodeError], both plain
subclasses of [ValueError]. *)
Definition unreadable (what path : string) {A} (o : outcome A) : outcome A :=
  match o with
  | Raise (PyExn (OSError | TimeoutError | PermissionError | JSONDecodeError) msg) =>
      runtime_error ("Unable to read coverage " +:+ what +:+ " " +:+ path +:+ ": " +:+ msg)
  | _ => o
  end.

Definition _load_json (path : string) : outcome pydict :=
  try! value := unreadable "JSON" path
    (try! text := read_text path in of_option (PyExn JSONDecodeError "Expecting value") (loads float_repr text)) in
  match value with
  | VDict d => Ret d
  | _ => runtime_error ("Coverage JSON " +:+ path +:+ " must contain an object.")
  end.

Fixpoint waiver_paths (l : list pyval) : option (list string) :=
  match l with
  | [] => Some []
  | VStr s :: l' => if nonempty (strip s) then cons s <$> waiver_paths l' else None
  | _ => None
  end.

Definition _load_policy (path : string) : outcome (F * gset string) :=
  try! payload := unreadable "policy" path (try! text := read_text path in toml_loads text) in
  try! coverage := get_key "project_coverage" VNone (or_empty (get_or_none "tool" payload)) in
  match or_empty coverage with
  | VDict policy =>
      try! minimum := py_float (default (VFloat "70.0") (dict_get "minimum" policy)) in
      match match default (VList []) (dict_get "per_file_waivers" policy) with
            | VList l => waiver_paths l
            | _ => None
            end with
      | None => runtime_error "tool.project_coverage.per_file_waivers must be a string list."
      | Some raw_waivers =>
          let normalized := normalize_path <$> raw_waivers in
          if bool_decide (length normalized = size (list_to_set normalized : gset string))
          then Ret (minimum, list_to_set normalized)
          else runtime_error "Duplicate paths exist in the per-file coverage waiver list."
      end
  | _ => Raise (PyExn AttributeError "object has no attribute 'get'")
  end.

Definition _percent (summary : pydict) (path : string) : outcome F :=
  match dict_get "percent_covered" summary with
  | Some ((VInt _ | VFloat _ | VBool _) as value) => py_float value
  | _ => runtime_error ("Coverage summary for " +:+ path +:+ " has no numeric percent_covered.")
  end.

(** [int(summary.get('num_statements', 0)) + int(summary.get('num_branches', 0))] *)
Definition opportunities (summary : pydict) : outcome Z :=
  try! statements := py_int int_of_float (default (VInt 0) (dict_get "num_statements" summary)) in
  try! branches := py_int int_of_float (default (VInt 0) (dict_get "num_branches" summary)) in
  Ret (statements + branches).

(** What one entry adds to [failures] and [evaluated]. *)
Definition check_file (waivers : gset string) (minimum : F) (path : string) (file_data : pyval) :
    outcome (list (string * F) * Z) :=
  if bool_decide (path ∈ waivers) then Ret ([], 0) else
  match file_data with
  | VDict file =>
      match dict_get "summary" file with
      | Some (VDict summary) =>
          try! n := opportunities summary in
          if n =? 0 then Ret ([], 0) else
          try! percent := _percent summary path in
          Ret (if below percent minimum then [(path, percent)] else [], 1)
      | _ => runtime_error ("Coverage entry for " +:+ path +:+ " is malformed.")
      end
  | _ => runtime_error ("Coverage entry for " +:+ path +:+ " is malformed.")
  end.

Fixpoint check_files (waivers : gset string) (minimum : F) (files : pydict) :
    outcome (list (string * F) * gset string * Z) :=
  match files with
  | [] => Ret ([], ∅, 0)
  | (raw_path, file_data) :: files' =>
      let path := normalize_path raw_path in
      try! r := check_file waivers minimum path file_data in
      try! rest := check_files waivers minimum files' in
      let '(failures, reported, evaluated) := rest in
      Ret (r.1 ++ failures, {[path]} ∪ reported, r.2 + evaluated)
  end.

(** The report and the policy: what is compared. *)
Definition load (coverage_json config : string) : outcome (pydict * pydict * F * gset string) :=
  try! coverage := _load_json coverage_json in
  try! policy := _load_policy config in
  let '(minimum, waivers) := policy in
  try! branch_coverage := get_key "branch_coverage" VNone (or_empty (get_or_none "meta" coverage)) in
  if negb (bool_decide (branch_coverage = VBool true))
  then runtime_error "Coverage data must be collected with branch coverage enabled." else
  match get_or_none "totals" coverage, get_or_none "files" coverage with
  | VDict totals, VDict files => Ret (totals, files, minimum, waivers)
  | _, _ => runtime_error "Coverage JSON is missing totals or files."
  end.

Definition below_line (percent minimum : F) : string :=
  fmt2 percent +:+ "% is below the required " +:+ fmt2 minimum +:+ "% threshold.".

Definition failure_line (minimum : F) (f : string * F) : string :=
  "::error file=" +:+ f.1 +:+ "::Coverage " +:+ below_line f.2 minimum.

Definition report (coverage_json config : string) : M Console Z :=
  let! loaded := of_outcome (load coverage_json config) in
  let '(totals, files, minimum, waivers) := loaded in
  let! total_percent := of_outcome (_percent totals "TOTAL") in
  let! checked := of_outcome (check_files waivers minimum (sort_dict files)) in
  let '(failures, reported_paths, evaluated) := checked in
  print ("Coverage threshold: " +:+ fmt2 minimum +:+ "%") ;;;
  print ("Total measured coverage: " +:+ fmt2 total_percent +:+ "%") ;;;
  print ("Files evaluated by the per-file gate: " +:+ Z_to_string evaluated) ;;;
  print ("Temporary per-file waivers: " +:+ nat_to_string (size (waivers ∩ reported_paths))) ;;;
  print_all ((λ path, "::warning file=" +:+ path +:+ "::Coverage waiver is not present in the report.")
    <$> sorted (waivers ∖ reported_paths)) ;;;
  (if below total_percent minimum
   then print ("::error::Total coverage " +:+ below_line total_percent minimum) else ret tt) ;;;
  print_all (failure_line minimum <$> failures) ;;;
  if below total_percent minimum || negb (bool_decide (failures = [])) then ret 1 else
  print "Total and per-file coverage thresholds passed." ;;; ret 0.

(** [except RuntimeError as exc: print(..., file=sys.stderr); return 2] *)
Definition main (coverage_json config : string) : M Console Z :=
  try_except (report coverage_json config) (λ e,
    match e with
    | PyExn RuntimeError msg => Some (print_error ("::error::" +:+ msg) ;;; ret 2)
    | _ => None
    end).

(** [raise SystemExit(main())]: an exception ends the process with code 1. *)
Definition exit_code (coverage_json config : string) : Z :=
  match (main coverage_json config (MkConsole [] [])).1 with
  | Ret n => n
  | Raise _ => 1
  end.

(** ** What passes *)

Definition file_ok (waivers : gset string) (minimum : F) (entry : string * pyval) : Prop :=
  normalize_path entry.1 ∈ waivers ∨
  ∃ file summary n, entry.2 = VDict file ∧ dict_get "summary" file = Some (VDict summary) ∧
    opportunities summary = Ret n ∧
    (n = 0 ∨ ∃ p, _percent summary (normalize_path entry.1) = Ret p ∧ below p minimum = false).

Definition file_below (waivers : gset string) (minimum : F) (entry : string * pyval) (p : F) : Prop :=
  normalize_path entry.1 ∉ waivers ∧
  ∃ file summary n, entry.2 = VDict file ∧ dict_get "summary" file = Some (VDict summary) ∧
    opportunities summary = Ret n ∧ n ≠ 0 ∧
    _percent summary (normalize_path entry.1) = Ret p ∧ below p minimum = true.

Lemma check_file_ok waivers minimum entry :
  file_ok waivers minimum entry ↔ ∃ n, check_file waivers minimum (normalize_path entry.1) entry.2 = Ret ([], n).
Proof.
  destruct entry as [raw data]. unfold file_ok, check_file. cbn [fst snd].
  case_bool_decide as Hw; [naive_solver|]. split.
  - intros [?|(file&summary&n&->&->&->&Hn)]; [done|]. cbn [obind].
    destruct Hn as [->|(p&Hp&Hb)]; [by eexists|].
    rewrite Hp. cbn [obind]. rewrite Hb. case_match; by eexists.
  - intros [n E]. right. destruct data as [| | | | | |file]; try done.
    destruct (dict_get "summary" file) as [[| | | | | |summary]|] eqn:Es; try done.
    exists file, summary. destruct (opportunities summary) as [k|e] eqn:Ek; [|done]. exists k.
    cbn [obind] in E. destruct (k =? 0) eqn:E0; [repeat split; try done; left; lia|].
    destruct (_percent summary _) as [p|] eqn:Ep; [|done]. cbn [obind] in E.
    destruct (below p minimum) eqn:Eb; naive_solver.
Qed.

Lemma check_file_below waivers minimum entry p : file_below waivers minimum entry p →
  check_file waivers minimum (normalize_path entry.1) entry.2 = Ret ([(normalize_path entry.1, p)], 1).
Proof.
  intros (Hw&file&summary&n&->&Es&En&Hn&Ep&Eb). unfold check_file.
  rewrite bool_decide_eq_false_2, Es, En by done. cbn [obind].
  rewrite (proj2 (Z.eqb_neq n 0)) by done. rewrite Ep. cbn [obind]. by rewrite Eb.
Qed.

(** The loop, an entry at a time. *)
Lemma check_files_cons waivers minimum entry files r :
  check_files waivers minimum (entry :: files) = Ret r ↔
  ∃ f n failures reported evaluated,
    check_file waivers minimum (normalize_path entry.1) entry.2 = Ret (f, n) ∧
    check_files waivers minimum files = Ret (failures, reported, evaluated) ∧
    r = (f ++ failures, {[normalize_path entry.1]} ∪ reported, n + evaluated).
Proof.
  destruct entry as [raw data]. cbn [check_files fst snd]. cbv zeta.
  destruct (check_file _ _ _ _) as [[f n]|e]; cbn [obind]; [|naive_solver].
  destruct (check_files _ _ files) as [[[failures reported] evaluated]|e]; cbn [obind]; naive_solver.
Qed.

Lemma check_files_ok waivers minimum files :
  Forall (file_ok waivers minimum) files ↔
  ∃ reported evaluated, check_files waivers minimum files = Ret ([], reported, evaluated).
Proof.
  induction files as [|entry files IH].
  - split; [intros _; by eexists _, _|by constructor].
  - rewrite Forall_cons, IH, check_file_ok. split.
    + intros [[n E] (reported&evaluated&E')]. eexists _, _. apply check_files_cons.
      by eexists [], n, [], reported, evaluated.
    + intros (reported&evaluated&E). apply check_files_cons in E as (f&n&fs&rep&ev&E&E'&Er).
      injection Er as Hf _ _. symmetry in Hf. apply app_nil in Hf as [-> ->]. naive_solver.
Qed.

Lemma check_files_below waivers minimum entry p files failures reported evaluated :
  check_files waivers minimum files = Ret (failures, reported, evaluated) →
  entry ∈ files → file_below waivers minimum entry p → (normalize_path entry.1, p) ∈ failures.
Proof.
  revert failures reported evaluated. induction files as [|e files IH]; intros fs rep ev E Hin Hb.
  - by apply not_elem_of_nil in Hin.
  - apply check_files_cons in E as (f&n&fs'&rep'&ev'&E&E'&[= -> -> ->]).
    apply elem_of_cons in Hin as [->|Hin]; apply elem_of_app; [left|right; by eapply IH].
    rewrite (check_file_below _ _ _ p) in E by done. injection E as <- _. by left.
Qed.

(** ** What is printed *)

Lemma print_all_run lines c : print_all lines c = (Ret tt, MkConsole (stdout c ++ lines) (stderr c)).
Proof.
  revert c. induction lines as [|l ls IH]; intros [o e]; [by rewrite app_nil_r|].
  cbn [print_all]. unfold bind, print, modify. rewrite IH. cbn. by rewrite <- app_assoc.
Qed.

Lemma print_bind {A} line (m : M Console A) o e :
  (print line ;;; m) (MkConsole o e) = m (MkConsole (o ++ [line]) e).
Proof. done. Qed.

Lemma print_all_bind {A} lines (m : M Console A) o e :
  (print_all lines ;;; m) (MkConsole o e) = m (MkConsole (o ++ lines) e).
Proof. unfold bind. by rewrite print_all_run. Qed.

Lemma unit_bind {A} (m : M Console A) c : (ret tt ;;; m) c = m c.
Proof. done. Qed.

Definition outcome_lines (total minimum : F) (failures : list (string * F)) : list string :=
  (if below total minimum then ["::error::Total coverage " +:+ below_line total minimum] else []) ++
  (failure_line minimum <$> failures).

Lemma report_run coverage_json config totals files minimum waivers total failures reported evaluated c :
  load coverage_json config = Ret (totals, files, minimum, waivers) →
  _percent totals "TOTAL" = Ret total →
  check_files waivers minimum (sort_dict files) = Ret (failures, reported, evaluated) →
  ∃ before after,
    report coverage_json config c =
    (Ret (if below total minimum || negb (bool_decide (failures = [])) then 1 else 0),
     MkConsole (stdout c ++ before ++ outcome_lines total minimum failures ++ after) (stderr c)).
Proof.
  intros El Et Ec. unfold report, outcome_lines, of_outcome. rewrite El, (bind_run _ _ c _ c) by done. cbn beta iota.
  rewrite Et, (bind_run _ _ c _ c) by done. rewrite Ec, (bind_run _ _ c _ c) by done. cbn beta iota.
  destruct c as [o e]. rewrite !print_bind, print_all_bind.
  generalize (failure_line minimum <$> failures). intros lines. destruct (below total minimum).
  - rewrite print_bind, print_all_bind. eexists (_ :: _ :: _ :: _ :: _), []. by rewrite app_nil_r, <- !app_assoc.
  - rewrite unit_bind, print_all_bind. cbn [orb]. destruct (bool_decide (failures = [])); cbn [negb].
    + rewrite print_bind. eexists (_ :: _ :: _ :: _ :: _), [_]. by rewrite <- !app_assoc.
    + eexists (_ :: _ :: _ :: _ :: _), []. by rewrite app_nil_r, <- !app_assoc.
Qed.

(** Either nothing is printed and an exception leaves [report], or the report, the
total and the files could all be read. *)
Lemma report_cases coverage_json config :
  (∃ e, ∀ c, report coverage_json config c = (Raise e, c)) ∨
  ∃ totals files minimum waivers total failures reported evaluated,
    load coverage_json config = Ret (totals, files, minimum, waivers) ∧
    _percent totals "TOTAL" = Ret total ∧
    check_files waivers minimum (sort_dict files) = Ret (failures, reported, evaluated).
Proof.
  unfold report, of_outcome.
  destruct (load coverage_json config) as [[[[totals files] minimum] waivers]|e] eqn:El; [|left; by exists e].
  destruct (_percent totals "TOTAL") as [total|e] eqn:Et.
  2: { left. exists e. intros c. rewrite (bind_run _ _ c _ c) by done. cbn beta iota. by rewrite Et. }
  destruct (check_files waivers minimum (sort_dict files)) as [[[failures reported] evaluated]|e] eqn:Ec.
  2: { left. exists e. intros c. rewrite (bind_run _ _ c _ c) by done. cbn beta iota.
       rewrite Et, (bind_run _ _ c _ c) by done. by rewrite Ec. }
  right. by exists totals, files, minimum, waivers, total, failures, reported, evaluated.
Qed.

(** [main] after [report]: an exception gives code 2 or goes on. *)
Lemma main_ret coverage_json config c n c' :
  report coverage_json config c = (Ret n, c') → main coverage_json config c = (Ret n, c').
Proof. intros E. unfold main, try_except. by rewrite E. Qed.

Lemma main_raised coverage_json config e c :
  report coverage_json config c = (Raise e, c) →
  (main coverage_json config c).1 = Raise e ∨ (main coverage_json config c).1 = Ret 2.
Proof. intros E. unfold main, try_except. rewrite E. destruct e as [[]| | | | | | | | |]; auto. Qed.

(** What a passing build needs, on the two files themselves.  A report with branch
coverage, its totals and its files. *)
Definition report_says (path : string) (totals files : pydict) : Prop :=
  ∃ text coverage meta,
    read_text path = Ret text ∧ loads float_repr text = Some (VDict coverage) ∧
    dict_get "meta" coverage = Some (VDict meta) ∧
    dict_get "branch_coverage" meta = Some (VBool true) ∧
    dict_get "totals" coverage = Some (VDict totals) ∧
    dict_get "files" coverage = Some (VDict files).

(** The table at a key: an empty one when there is nothing, or a falsy value. *)
Definition table_at (key : string) (d table : pydict) : Prop :=
  dict_get key d = Some (VDict table) ∨
  (table = [] ∧ ∀ v, dict_get key d = Some v → truthy v = false).

(** The path a report or a policy names: slashes, and none of ['./'] in front. *)
Definition slashed (path : string) : string :=
  lstrip_by (λ c, mem_char c "./") (replace_char (Ascii.ascii_of_N 92) (Ascii.ascii_of_N 47) path).

(** A policy: its minimum, 70 where it has none, and the distinct paths it waives. *)
Definition policy_says (path : string) (minimum : F) (waived : list string) : Prop :=
  ∃ text payload tool policy raw,
    read_text path = Ret text ∧ toml_loads text = Ret payload ∧
    table_at "tool" payload tool ∧ table_at "project_coverage" tool policy ∧
    py_float (default (VFloat "70.0") (dict_get "minimum" policy)) = Ret minimum ∧
    default (VList []) (dict_get "per_file_waivers" policy) = VList (VStr <$> raw) ∧
    Forall (λ s, strip s ≠ EmptyString) raw ∧ waived = slashed <$> raw ∧ NoDup waived.

(** [percent_covered], which has to be a number. *)
Definition covers (summary : pydict) (percent : F) : Prop :=
  ∃ v, dict_get "percent_covered" summary = Some v ∧
    match v with VInt _ | VFloat _ | VBool _ => True | _ => False end ∧ py_float v = Ret percent.

(** An entry that is waived, or well formed with nothing to cover or enough covered. *)
Definition entry_passes (waived : list string) (minimum : F) (entry : string * pyval) : Prop :=
  slashed entry.1 ∈ waived ∨
  ∃ file summary statements branches,
    entry.2 = VDict file ∧ dict_get "summary" file = Some (VDict summary) ∧
    py_int int_of_float (default (VInt 0) (dict_get "num_statements" summary)) = Ret statements ∧
    py_int int_of_float (default (VInt 0) (dict_get "num_branches" summary)) = Ret branches ∧
    (statements + branches = 0 ∨ ∃ p, covers summary p ∧ below p minimum = false).

Lemma percent_covers summary path p : _percent summary path = Ret p ↔ covers summary p.
Proof.
  unfold _percent, covers. destruct (dict_get "percent_covered" summary) as [[]|]; naive_solver.
Qed.

Lemma file_ok_passes waived waivers minimum entry :
  waivers = list_to_set waived → file_ok waivers minimum entry ↔ entry_passes waived minimum entry.
Proof.
  intros ->. unfold file_ok, entry_passes. rewrite elem_of_list_to_set.
  apply Morphisms_Prop.or_iff_morphism; [done|]. unfold opportunities. split.
  - intros (file&summary&n&He&Hs&Hn&Hp).
    apply obind_Ret_inv in Hn as (st&Hst&Hn). apply obind_Ret_inv in Hn as (br&Hbr&Hn%Ret_eq). subst n.
    exists file, summary, st, br. split_and!; [done..|]. destruct Hp as [?|(p&Hp&?)]; [by left|right].
    exists p. split; [by apply percent_covers in Hp|done].
  - intros (file&summary&st&br&He&Hs&Hst&Hbr&Hp). exists file, summary, (st + br).
    rewrite Hst. cbn [obind]. rewrite Hbr. split_and!; [done..|].
    destruct Hp as [?|(p&Hp&?)]; [by left|right]. exists p. by rewrite percent_covers.
Qed.

Lemma unreadable_Ret what path {A} (o : outcome A) a : unreadable what path o = Ret a ↔ o = Ret a.
Proof. unfold unreadable. destruct o as [|[[]| | | | | | | | |]]; done. Qed.

Lemma load_json_Ret path d :
  _load_json path = Ret d ↔ ∃ text, read_text path = Ret text ∧ loads float_repr text = Some (VDict d).
Proof.
  unfold _load_json. split.
  - intros (v&Hv&E)%obind_Ret_inv. apply unreadable_Ret in Hv.
    apply obind_Ret_inv in Hv as (text&Ht&Hl). exists text. split; [done|].
    destruct (loads float_repr text) as [w|]; [|done]. injection Hl as ->. destruct v; try done. by injection E as ->.
  - intros (text&Ht&Hl). rewrite Ht. cbn [obind]. rewrite Hl. done.
Qed.

(** [(d.get(key) or {})], which has to be a dictionary. *)
Lemma table_at_iff key d table : or_empty (get_or_none key d) = VDict table ↔ table_at key d table.
Proof.
  unfold table_at, or_empty, get_or_none. destruct (dict_get key d) as [v|] eqn:E; cbn [default from_option id].
  - destruct (truthy v) eqn:Et; split.
    + intros ->. by left.
    + by intros [[= ->]|[_ H]]; [|rewrite (H v eq_refl) in Et].
    + intros [= <-]. right. split; [done|]. by intros ? [= <-].
    + intros [[= ->]|[-> _]]; [by destruct table|done].
  - cbn. split; [intros [= <-]; by right|by intros [?|[-> _]]].
Qed.

Lemma waiver_paths_Some l raw :
  waiver_paths l = Some raw ↔ l = VStr <$> raw ∧ Forall (λ s, strip s ≠ EmptyString) raw.
Proof.
  revert raw. induction l as [|v l IH]; intros raw.
  - cbn. split; [by intros [= <-]|]. intros [H _]. by destruct raw.
  - destruct v as [| | | |s| |]; cbn [waiver_paths]; try (split; [done|]; intros [H _]; by destruct raw).
    destruct (nonempty (strip s)) eqn:Es.
    + split.
      * intros H. destruct (waiver_paths l) as [r|] eqn:Er; [|done]. injection H as <-.
        destruct (proj1 (IH r) eq_refl) as [-> Hr]. split; [done|]. constructor; [|done]. by destruct (strip s).
      * intros [H Hr]. destruct raw as [|s' raw]; [done|]. injection H as <- ->.
        apply Forall_cons in Hr as [_ Hr]. by rewrite (proj2 (IH raw)).
    + split; [done|]. intros [H Hr]. destruct raw as [|s' raw]; [done|]. injection H as <- ->.
      apply Forall_cons in Hr as [Hs _]. by destruct (strip s).
Qed.

Lemma size_to_set_le (l : list string) : (size (list_to_set l : gset string) ≤ length l)%nat.
Proof.
  induction l as [|x l IH]; [done|]. cbn [length list_to_set].
  rewrite size_union_alt, size_singleton.
  assert (size ((list_to_set l : gset string) ∖ {[x]}) ≤ size (list_to_set l : gset string))%nat
    by (apply subseteq_size; set_solver). lia.
Qed.

Lemma size_distinct (l : list string) : length l = size (list_to_set l : gset string) ↔ NoDup l.
Proof.
  split; [|intros; by rewrite size_list_to_set].
  induction l as [|x l IH]; [constructor|]. cbn [length list_to_set]. intros H.
  destruct (decide (x ∈ l)) as [Hx|Hx].
  - exfalso. rewrite subseteq_union_1_L in H by set_solver.
    pose proof (size_to_set_le l). lia.
  - constructor; [done|]. apply IH. rewrite size_union, size_singleton in H by set_solver. lia.
Qed.

Lemma load_policy_Ret path minimum waivers :
  _load_policy path = Ret (minimum, waivers) ↔
  ∃ waived, policy_says path minimum waived ∧ waivers = list_to_set waived.
Proof.
  unfold _load_policy, policy_says. split.
  - intros (payload&Hp&E)%obind_Ret_inv. apply unreadable_Ret, obind_Ret_inv in Hp as (text&Ht&Hp).
    apply obind_Ret_inv in E as (cov&Hc&E).
    destruct (or_empty (get_or_none "tool" payload)) as [| | | | | |tool] eqn:Etool; try done.
    injection Hc as <-. change (default VNone (dict_get "project_coverage" tool))
      with (get_or_none "project_coverage" tool) in E.
    destruct (or_empty (get_or_none "project_coverage" tool)) as [| | | | | |policy] eqn:Epol; try done.
    apply obind_Ret_inv in E as (m&Hm&E).
    destruct (default (VList []) (dict_get "per_file_waivers" policy)) as [| | | | |l|] eqn:El; try done.
    destruct (waiver_paths l) as [raw|] eqn:Er; [|done]. apply waiver_paths_Some in Er as [-> Hr].
    case_bool_decide as Hd; [|done]. injection E as <- <-. apply size_distinct in Hd.
    exists (slashed <$> raw). split; [|done]. exists text, payload, tool, policy, raw.
    rewrite <- !table_at_iff. done.
  - intros (waived&(text&payload&tool&policy&raw&Ht&Hp&Htool&Hpol&Hm&Hl&Hr&->&Hd)&->).
    apply table_at_iff in Htool, Hpol. rewrite Ht. cbn [obind]. rewrite Hp. cbn [unreadable obind].
    rewrite Htool. cbn [get_key obind]. unfold get_or_none in Hpol. rewrite Hpol. rewrite Hm. cbn [obind].
    rewrite Hl. rewrite (proj2 (waiver_paths_Some _ raw)) by done.
    rewrite bool_decide_eq_true_2; [done|]. by apply size_distinct.
Qed.

Lemma load_Ret coverage_json config totals files minimum waivers :
  load coverage_json config = Ret (totals, files, minimum, waivers) ↔
  report_says coverage_json totals files ∧
  ∃ waived, policy_says config minimum waived ∧ waivers = list_to_set waived.
Proof.
  rewrite <- load_policy_Ret. unfold load, report_says. split.
  - intros (coverage&Hc&E)%obind_Ret_inv. apply load_json_Ret in Hc as (text&Ht&Hl).
    apply obind_Ret_inv in E as ([m ws]&Hp&E). apply obind_Ret_inv in E as (bc&Hb&E).
    destruct (or_empty (get_or_none "meta" coverage)) as [| | | | | |meta] eqn:Em; try done.
    injection Hb as <-. case_bool_decide as Hbc; [|done]. cbn [negb] in E.
    unfold get_or_none in E. destruct (dict_get "totals" coverage) as [[| | | | | |t]|] eqn:Etot; try done.
    destruct (dict_get "files" coverage) as [[| | | | | |f]|] eqn:Efil; try done.
    injection E as -> -> -> ->. split; [|done]. exists text, coverage, meta. split_and!; try done.
    + apply table_at_iff in Em as [?|[-> _]]; [done|discriminate Hbc].
    + by destruct (dict_get "branch_coverage" meta); [f_equal|].
  - intros [(text&coverage&meta&Ht&Hl&Hm&Hb&Htot&Hfil) Hp].
    rewrite (proj2 (load_json_Ret _ coverage)) by eauto. cbn [obind]. rewrite Hp. cbn [obind].
    assert (or_empty (get_or_none "meta" coverage) = VDict meta) as ->
      by (apply table_at_iff; by left).
    cbn [get_key obind]. rewrite Hb. cbn. unfold get_or_none. by rewrite Htot, Hfil.
Qed.

Lemma gate_code coverage_json config :
  exit_code coverage_json config = 0 ↔
  ∃ totals files minimum waivers total,
    load coverage_json config = Ret (totals, files, minimum, waivers) ∧
    _percent totals "TOTAL" = Ret total ∧ below total minimum = false ∧
    Forall (file_ok waivers minimum) files.
Proof.
  unfold exit_code. destruct (report_cases coverage_json config) as [[e He]|
    (totals&files&minimum&waivers&total&failures&reported&evaluated&El&Et&Ec)].
  - destruct (main_raised _ _ _ _ (He (MkConsole [] []))) as [-> | ->]; (split; [done|]);
      intros (totals&files&minimum&waivers&total&El&Et&Eb&Hok); exfalso;
      rewrite <- (sort_dict_perm files) in Hok; apply check_files_ok in Hok as (reported&evaluated&Ec);
      destruct (report_run _ _ _ _ _ _ _ _ _ _ (MkConsole [] []) El Et Ec) as (before&after&Er);
      by rewrite He in Er.
  - destruct (report_run _ _ _ _ _ _ _ _ _ _ (MkConsole [] []) El Et Ec) as (before&after&Er).
    rewrite (main_ret _ _ _ _ _ Er). cbn [fst]. split.
    + destruct (below total minimum) eqn:Eb; [done|]. case_bool_decide as Hf; [|done]. intros _.
      exists totals, files, minimum, waivers, total. repeat split; try done.
      rewrite <- (sort_dict_perm files). apply check_files_ok. subst failures. by eexists _, _.
    + intros (totals'&files'&minimum'&waivers'&total'&El'&Et'&Eb&Hok). rewrite El in El'. injection El' as <- <- <- <-.
      rewrite Et in Et'. injection Et' as <-. rewrite <- (sort_dict_perm files) in Hok.
      apply check_files_ok in Hok as (reported'&evaluated'&Ec'). rewrite Ec in Ec'. injection Ec' as -> _ _.
      by rewrite Eb.
Qed.

(** C33. The gate lets a build pass exactly when it should: the process ends with
    code 0 if and only if the report can be read and parsed, was taken with branch
    coverage and has its totals and files; the policy can be read and parsed, with
    its minimum and its waivers, distinct and not blank; the percentage of the total
    is a number not below the minimum; and every file in the report is named by a
    waiver, or is well formed and either has neither statements nor branches or a
    percentage not below the minimum. *)
Theorem gate_passes coverage_json config :
  exit_code coverage_json config = 0 ↔
  ∃ totals files minimum waived total,
    report_says coverage_json totals files ∧ policy_says config minimum waived ∧
    covers totals total ∧ below total minimum = false ∧
    Forall (entry_passes waived minimum) files.
Proof.
  rewrite gate_code. split.
  - intros (totals&files&minimum&waivers&total&El&Et%percent_covers&Eb&Hf).
    apply load_Ret in El as (Hr&waived&Hp&Hw). exists totals, files, minimum, waived, total.
    split_and!; try done. eapply Forall_impl; [exact Hf|]. intros entry. by apply file_ok_passes.
  - intros (totals&files&minimum&waived&total&Hr&Hp&Ht&Eb&Hf).
    exists totals, files, minimum, (list_to_set waived), total. rewrite load_Ret, percent_covers.
    split_and!; eauto. eapply Forall_impl; [exact Hf|]. intros entry. by apply file_ok_passes.
Qed.

(** Code 1 with a message: the total, and each file below the minimum, is named on
    the output. *)
Theorem gate_names_failures coverage_json config c :
  main coverage_json config (MkConsole [] []) = (Ret 1, c) →
  ∃ totals files minimum waivers total,
    load coverage_json config = Ret (totals, files, minimum, waivers) ∧
    _percent totals "TOTAL" = Ret total ∧
    (below total minimum = true → ("::error::Total coverage " +:+ below_line total minimum) ∈ stdout c) ∧
    ∀ entry p, entry ∈ files → file_below waivers minimum entry p →
      failure_line minimum (normalize_path entry.1, p) ∈ stdout c.
Proof.
  intros Em. destruct (report_cases coverage_json config) as [[e He]|
    (totals&files&minimum&waivers&total&failures&reported&evaluated&El&Et&Ec)].
  { destruct (main_raised _ _ _ _ (He (MkConsole [] []))) as [H|H]; by rewrite Em in H. }
  destruct (report_run _ _ _ _ _ _ _ _ _ _ (MkConsole [] []) El Et Ec) as (before&after&Er).
  rewrite (main_ret _ _ _ _ _ Er) in Em. injection Em as _ <-. cbn [stdout].
  exists totals, files, minimum, waivers, total. split_and!; try done.
  - intros Eb. unfold outcome_lines. rewrite Eb, !elem_of_app. right. left. left. by left.
  - intros entry p Hin Hb. rewrite <- (sort_dict_perm files) in Hin. unfold outcome_lines.
    rewrite !elem_of_app. right. left. right. apply (list_elem_of_fmap_2 (failure_line minimum) _ (_, _)).
    by eapply check_files_below.
Qed.

End gate.

(** ** Samples

    Percentages without decimals; the policy waives [app/old.py]. *)

Section gate_sample.
Definition sample_summary (percent statements : Z) : pydict :=
  [("percent_covered", VInt percent); ("num_statements", VInt statements); ("num_branches", VInt 0)].

Definition sample_entry (name : string) (percent : Z) : string * pyval :=
  (name, VDict [("summary", VDict (sample_summary percent 10))]).

Definition sample_report (files : pydict) : string := dumps default_separators (VDict [
  ("meta", VDict [("branch_coverage", VBool true)]);
  ("totals", VDict (sample_summary 80 100)); ("files", VDict files)]).

Definition sample_policy (text : string) : outcome pydict :=
  Ret [("tool", VDict [("project_coverage", VDict [("per_file_waivers", VList [VStr text])])])].

Definition sample_text (coverage policy : string) (path : string) : outcome string :=
  if String.eqb path "coverage.json" then Ret coverage else Ret policy.

Abbreviation sample_main files waiver := (main (sample_text (sample_report files) waiver) sample_policy
  (λ _, 70) Ret (λ _, Ret 70) (λ _, None) (λ r, r) Z.ltb Z_to_string "coverage.json" "pyproject.toml"
  (MkConsole [] [])) (only parsing).

Example gate_passes_example :
  (sample_main [sample_entry "app/graph.py" 75; sample_entry "app/old.py" 10] "app/old.py").1 = Ret 0.
Proof. vm_compute. reflexivity. Qed.

Example gate_fails_example :
  sample_main [sample_entry "app/graph.py" 60; sample_entry "app/old.py" 10] "app/old.py" =
  (Ret 1, MkConsole [
    "Coverage threshold: 70%"; "Total measured coverage: 80%"; "Files evaluated by the per-file gate: 1";
    "Temporary per-file waivers: 1";
    "::error file=app/graph.py::Coverage 60% is below the required 70% threshold."] []).
Proof. vm_compute. reflexivity. Qed.

(** [lstrip('./')] takes characters, not a prefix: the waiver for one file exempts
    the file of the same name outside the project and the hidden one. *)
Theorem waiver_reaches_other_files :
  (sample_main [sample_entry "../app/old.py" 0; sample_entry "./.app/old.py" 0] "app/old.py").1 = Ret 0.
Proof. vm_compute. reflexivity. Qed.

(** A report that is no UTF-8 is an [UnicodeDecodeError], which is neither an
    [OSError] nor a [JSONDecodeError]: the process ends as it does for a build below
    its thresholds, with code 1 and nothing printed. *)
Theorem undecodable_report_uncaught msg :
  main (λ _, Raise (PyExn UnicodeError msg)) sample_policy (λ _, 70) Ret (λ _, Ret 70) (λ _, None) (λ r, r)
    Z.ltb Z_to_string "coverage.json" "pyproject.toml" (MkConsole [] []) =
  (Raise (PyExn UnicodeError msg), MkConsole [] []).
Proof. reflexivity. Qed.
End gate_sample.
