(* ===== verification/RunTypes.v ===== *)
(** * Run identities, records, leases and the errors of the API

    The data of [app/schemas/run.py], of [app/state/run_repository.py] and the
    exception classes of [app/orchestration/run_identity.py].  Instants are
    microseconds since the epoch ([datetime] has that resolution) and a
    duration in seconds is scaled to microseconds. *)

From S2P Require Import Prelude PyData.

(** ** Time *)

Abbreviation time := Z (only parsing).
Definition seconds (n : Z) : Z := n * 1000000.

(** The successive readings of the wall clock during one operation. *)
Abbreviation clock := (nat → Z) (only parsing).

(** ** Exceptions *)

Definition error_code (c : identity_class) : string :=
  match c with
  | RequestIdentityError => "request_identity_error"
  | ConversationBusyError => "conversation_busy"
  | RunConflictError => "run_conflict"
  | StaleLeaseError => "stale_lease"
  | RunNotResumableError => "run_not_resumable"
  | ResumeTokenInvalidError => "invalid_resume_token"
  | ResumeTokenRevokedError => "resume_revoked"
  | ResumeTokenExpiredError => "resume_expired"
  | ResumeRunNotFoundError => "resumable_run_not_found"
  | IncompatibleRunStateError => "incompatible_run_state"
  end.

Definition status_code (c : identity_class) : Z :=
  match c with
  | RequestIdentityError => 400
  | ConversationBusyError | RunConflictError | StaleLeaseError
  | RunNotResumableError | IncompatibleRunStateError => 409
  | ResumeTokenInvalidError | ResumeTokenRevokedError => 401
  | ResumeTokenExpiredError => 410
  | ResumeRunNotFoundError => 404
  end.

(** [request_error_to_http_exception]: the status and the detail object. *)
Definition request_error_to_http_exception (c : identity_class) (msg : string) : Z * pyval :=
  (status_code c, VDict [("code", VStr (error_code c)); ("message", VStr msg)]).

Definition busy (m : string) : exn := IdentityExn ConversationBusyError m.
Definition conflict (m : string) : exn := IdentityExn RunConflictError m.
Definition stale (m : string) : exn := IdentityExn StaleLeaseError m.

Definition is_stale (e : exn) : bool :=
  match e with IdentityExn StaleLeaseError _ => true | _ => false end.

(** ** Identity of one execution *)

Record RunIdentity : Type := MkRunIdentity {
  id_conversation_id : string;
  id_run_id : string;
  id_execution_thread_id : string;
  id_checkpoint_namespace : string;
  id_state_schema_version : Z;
  id_request_hash : string;
  id_request_hash_version : Z;
  id_resume_token_version : Z;
  id_resume_token_key_id : option string;
  id_resume_requested : bool;
  id_resumed : bool;
  id_client_supplied_run_id : bool
}.

Definition len_between (lo hi : Z) (s : string) : bool :=
  (lo <=? slen s) && (slen s <=? hi).

(** The field constraints of the pydantic model, checked when it is built. *)
Definition RunIdentity_valid (i : RunIdentity) : bool :=
  len_between 1 200 (id_conversation_id i)
  && len_between 36 36 (id_run_id i)
  && len_between 1 237 (id_execution_thread_id i)
  && len_between 1 100 (id_checkpoint_namespace i)
  && (1 <=? id_state_schema_version i)
  && len_between 64 64 (id_request_hash i)
  && ((1 <=? id_request_hash_version i) && (id_request_hash_version i <=? 1000))
  && (1 <=? id_resume_token_version i)
  && match id_resume_token_key_id i with
     | Some k => slen k <=? 100
     | None => true
     end.

Definition langgraph_config (i : RunIdentity) : pyval :=
  VDict [
    ("configurable", VDict [("thread_id", VStr (id_execution_thread_id i))]);
    ("metadata", VDict [
      ("conversation_id", VStr (id_conversation_id i));
      ("run_id", VStr (id_run_id i));
      ("execution_thread_id", VStr (id_execution_thread_id i));
      ("checkpoint_namespace", VStr (id_checkpoint_namespace i));
      ("state_schema_version", VInt (id_state_schema_version i));
      ("request_hash_version", VInt (id_request_hash_version i))])].

(** ** Run records and leases *)

Inductive RunStatus : Type :=
  | Pending | Running | Interrupted | Completed | Failed | Cancelled
  | Expired | Reconciling.

#[export] Instance RunStatus_eq_dec : EqDecision RunStatus.
Proof. solve_decision. Defined.

Definition status_name (s : RunStatus) : string :=
  match s with
  | Pending => "pending" | Running => "running" | Interrupted => "interrupted"
  | Completed => "completed" | Failed => "failed" | Cancelled => "cancelled"
  | Expired => "expired" | Reconciling => "reconciling"
  end.

(** [status in _TERMINAL_STATUSES]. *)
Definition terminal_status (s : RunStatus) : bool :=
  match s with
  | Completed | Failed | Cancelled | Expired => true
  | _ => false
  end.

Record RunRecord : Type := MkRunRecord {
  rec_run_id : string;
  rec_conversation_id : string;
  rec_execution_thread_id : string;
  rec_request_hash : string;
  rec_request_hash_version : Z;
  rec_state_schema_version : Z;
  rec_status : RunStatus;
  rec_fencing_token : option Z;
  rec_lease_owner : option string;
  rec_lease_expires_at : option Z;
  rec_checkpoint_id : option string;
  rec_response_payload : option (list (string * pyval));
  rec_termination_reason : option string;
  rec_error_code : option string;
  rec_created_at : option Z;
  rec_updated_at : option Z;
  rec_started_at : option Z;
  rec_completed_at : option Z;
  rec_history_committed_at : option Z;
  rec_resume_token_version : Z
}.

#[export] Instance eta_RunRecord : Eta RunRecord := λ r,
  MkRunRecord (rec_run_id r) (rec_conversation_id r) (rec_execution_thread_id r)
    (rec_request_hash r) (rec_request_hash_version r) (rec_state_schema_version r)
    (rec_status r) (rec_fencing_token r) (rec_lease_owner r) (rec_lease_expires_at r)
    (rec_checkpoint_id r) (rec_response_payload r) (rec_termination_reason r)
    (rec_error_code r) (rec_created_at r) (rec_updated_at r) (rec_started_at r)
    (rec_completed_at r) (rec_history_committed_at r) (rec_resume_token_version r).

#[export] Instance RunRecord_eq_dec : EqDecision RunRecord.
Proof. solve_decision. Defined.

Definition terminal (r : RunRecord) : bool := terminal_status (rec_status r).

Record RunLease : Type := MkRunLease {
  lease_conversation_id : string;
  lease_run_id : string;
  lease_owner_id : string;
  lease_fencing_token : Z;
  lease_expires_at : Z
}.

#[export] Instance eta_RunLease : Eta RunLease := λ l,
  MkRunLease (lease_conversation_id l) (lease_run_id l) (lease_owner_id l)
    (lease_fencing_token l) (lease_expires_at l).

#[export] Instance RunLease_eq_dec : EqDecision RunLease.
Proof. solve_decision. Defined.

(** [_same_owner]. *)
Definition same_owner (current supplied : RunLease) : bool :=
  String.eqb (lease_conversation_id current) (lease_conversation_id supplied)
  && String.eqb (lease_run_id current) (lease_run_id supplied)
  && String.eqb (lease_owner_id current) (lease_owner_id supplied)
  && (lease_fencing_token current =? lease_fencing_token supplied).

(** [_validate_record_identity]: the checks in order, as the exception raised. *)
Definition record_identity_error (record : RunRecord) (identity : RunIdentity) : option exn :=
  if negb (String.eqb (rec_conversation_id record) (id_conversation_id identity)) then
    Some (conflict "The run_id belongs to a different conversation")
  else if negb (String.eqb (rec_execution_thread_id record) (id_execution_thread_id identity)) then
    Some (conflict "The run_id has a different execution identity")
  else if negb (String.eqb (rec_request_hash record) (id_request_hash identity))
       || negb (rec_request_hash_version record =? id_request_hash_version identity) then
    Some (conflict "The supplied run_id is already bound to a different request payload")
  else if negb (rec_state_schema_version record =? id_state_schema_version identity) then
    Some (conflict "The run_id uses an incompatible state schema")
  else None.

Definition _validate_record_identity {S} (record : RunRecord) (identity : RunIdentity) : M S unit :=
  match record_identity_error record identity with
  | Some e => raise e
  | None => ret tt
  end.

(** The record [create_or_get] builds for a new run. *)
Definition new_record (identity : RunIdentity) (now : Z) : RunRecord := {|
  rec_run_id := id_run_id identity;
  rec_conversation_id := id_conversation_id identity;
  rec_execution_thread_id := id_execution_thread_id identity;
  rec_request_hash := id_request_hash identity;
  rec_request_hash_version := id_request_hash_version identity;
  rec_state_schema_version := id_state_schema_version identity;
  rec_status := Pending;
  rec_fencing_token := None;
  rec_lease_owner := None;
  rec_lease_expires_at := None;
  rec_checkpoint_id := None;
  rec_response_payload := None;
  rec_termination_reason := None;
  rec_error_code := None;
  rec_created_at := Some now;
  rec_updated_at := Some now;
  rec_started_at := None;
  rec_completed_at := None;
  rec_history_committed_at := None;
  rec_resume_token_version := id_resume_token_version identity
|}.

(** Two records of one run bound to one request: what no operation changes. *)
Definition same_binding (a b : RunRecord) : Prop :=
  rec_run_id a = rec_run_id b ∧
  rec_conversation_id a = rec_conversation_id b ∧
  rec_execution_thread_id a = rec_execution_thread_id b ∧
  rec_request_hash a = rec_request_hash b ∧
  rec_request_hash_version a = rec_request_hash_version b ∧
  rec_state_schema_version a = rec_state_schema_version b.

#[export] Instance same_binding_equiv : Equivalence same_binding.
Proof.
  unfold same_binding. split; red; [done|naive_solver|].
  intros x y z (->&->&->&->&->&->) (->&->&->&->&->&->). done.
Qed.

Lemma same_binding_refl r : same_binding r r.
Proof. reflexivity. Qed.
#[export] Hint Resolve same_binding_refl : core.

(** ** Lemmas *)

Lemma same_owner_spec a b :
  same_owner a b = true ↔
  lease_conversation_id a = lease_conversation_id b ∧ lease_run_id a = lease_run_id b ∧
  lease_owner_id a = lease_owner_id b ∧ lease_fencing_token a = lease_fencing_token b.
Proof.
  unfold same_owner. rewrite !andb_true_iff, !String.eqb_eq, Z.eqb_eq. tauto.
Qed.

Lemma same_owner_refl l : same_owner l l = true.
Proof. by apply same_owner_spec. Qed.

Lemma same_owner_token a b :
  same_owner a b = true → lease_fencing_token a = lease_fencing_token b.
Proof. rewrite same_owner_spec. tauto. Qed.

Lemma same_owner_expiry l e : same_owner (l <| lease_expires_at := e |>) l = true.
Proof. by apply same_owner_spec. Qed.

Lemma record_identity_ok record identity :
  record_identity_error record identity = None ↔
  rec_conversation_id record = id_conversation_id identity ∧
  rec_execution_thread_id record = id_execution_thread_id identity ∧
  rec_request_hash record = id_request_hash identity ∧
  rec_request_hash_version record = id_request_hash_version identity ∧
  rec_state_schema_version record = id_state_schema_version identity.
Proof.
  unfold record_identity_error.
  repeat match goal with
  | |- context [String.eqb ?a ?b] => destruct (String.eqb_spec a b); simpl
  | |- context [?a =? ?b] => destruct (Z.eqb_spec a b); simpl
  end; naive_solver.
Qed.

Lemma new_record_identity identity now :
  record_identity_error (new_record identity now) identity = None.
Proof. by apply record_identity_ok. Qed.

Lemma record_identity_binding a b identity :
  same_binding a b → record_identity_error a identity = record_identity_error b identity.
Proof.
  unfold same_binding, record_identity_error. intros (_ & -> & -> & -> & -> & ->). done.
Qed.

Lemma same_binding_conversation a b :
  same_binding a b → rec_conversation_id a = rec_conversation_id b.
Proof. unfold same_binding. tauto. Qed.

(** What a record and an identity have to agree on. *)
Lemma record_identity_error_spec record identity :
  (record_identity_error record identity = None ∧
   rec_conversation_id record = id_conversation_id identity ∧
   rec_execution_thread_id record = id_execution_thread_id identity ∧
   rec_request_hash record = id_request_hash identity ∧
   rec_request_hash_version record = id_request_hash_version identity ∧
   rec_state_schema_version record = id_state_schema_version identity) ∨
  (∃ msg, record_identity_error record identity = Some (IdentityExn RunConflictError msg)) ∧
  ¬ (rec_conversation_id record = id_conversation_id identity ∧
     rec_execution_thread_id record = id_execution_thread_id identity ∧
     rec_request_hash record = id_request_hash identity ∧
     rec_request_hash_version record = id_request_hash_version identity ∧
     rec_state_schema_version record = id_state_schema_version identity).
Proof.
  unfold record_identity_error, conflict.
  destruct (String.eqb_spec (rec_conversation_id record) (id_conversation_id identity)); cbn [negb]; [|naive_solver].
  destruct (String.eqb_spec (rec_execution_thread_id record) (id_execution_thread_id identity)); cbn [negb];
    [|naive_solver].
  destruct (String.eqb_spec (rec_request_hash record) (id_request_hash identity)); cbn [negb orb]; [|naive_solver].
  destruct (Z.eqb_spec (rec_request_hash_version record) (id_request_hash_version identity)); cbn [negb];
    [|naive_solver].
  destruct (Z.eqb_spec (rec_state_schema_version record) (id_state_schema_version identity)); cbn [negb];
    naive_solver.
Qed.

Lemma record_identity_error_conflict record identity e :
  record_identity_error record identity = Some e → is_stale e = false.
Proof.
  unfold record_identity_error. repeat case_match; naive_solver.
Qed.
