(* ===== verification/RunRepo.v ===== *)
(** * The run repository: interface, laws and fencing

    [RunRepository] is the abstract base class of
    [app/state/run_repository.py]: one member per abstract coroutine that reads
    or changes durable state.  [RunRepositoryLaws] states what a backend
    promises about conversation leases; [MemoryRepo.v] and [PostgresRepo.v]
    discharge it.  The theorems of this file use only the laws, so they hold of
    both backends: fencing tokens grow strictly, a superseded lease can never
    write again, two writers at one instant hold the same lease, and a [run_id] stays
    with the request it was first created for. *)

From stdpp Require Import relations.
From S2P Require Import Prelude PyData RunTypes.

(** The statuses [mark_terminal] accepts. *)
Inductive OutcomeStatus : Type := OutCompleted | OutFailed | OutCancelled | OutInterrupted.

Definition outcome_status (s : OutcomeStatus) : RunStatus :=
  match s with
  | OutCompleted => Completed
  | OutFailed => Failed
  | OutCancelled => Cancelled
  | OutInterrupted => Interrupted
  end.

#[export] Instance OutcomeStatus_eq_dec : EqDecision OutcomeStatus.
Proof. solve_decision. Defined.

(** The operations; each takes the successive readings of the clock it makes. *)
Class RunRepository (St : Type) : Type := {
  create_or_get : clock → RunIdentity → M St (RunRecord * bool);
  get : string → M St (option RunRecord);
  acquire : clock → RunIdentity → string → Z → M St RunLease;
  renew : clock → RunLease → Z → M St RunLease;
  release : clock → RunLease → M St unit;
  mark_terminal : clock → RunLease → OutcomeStatus → option pydict → option string →
    option string → option string → M St RunRecord;
  mark_history_committed : clock → RunLease → option pydict → M St RunRecord;
  reconcile_history_committed : clock → string → option pydict → M St RunRecord;
  revoke_resume_tokens : clock → string → M St Z
}.

(** ** The operations as data *)

Inductive repo_op : Type :=
  | OpCreate (i : RunIdentity)
  | OpGet (run_id : string)
  | OpAcquire (i : RunIdentity) (owner : string) (ttl : Z)
  | OpRenew (l : RunLease) (ttl : Z)
  | OpRelease (l : RunLease)
  | OpMarkTerminal (l : RunLease) (s : OutcomeStatus) (payload : option pydict)
      (reason code checkpoint : option string)
  | OpMarkHistory (l : RunLease) (payload : option pydict)
  | OpReconcile (run_id : string) (payload : option pydict)
  | OpRevoke (run_id : string).

Inductive repo_reply : Type :=
  | RepCreated (r : RunRecord) (created : bool)
  | RepMaybe (r : option RunRecord)
  | RepLease (l : RunLease)
  | RepUnit
  | RepRecord (r : RunRecord)
  | RepInt (z : Z).

Definition exec `{RunRepository St} (clk : clock) (op : repo_op) : M St repo_reply :=
  match op with
  | OpCreate i => let* (r, b) := create_or_get clk i in ret (RepCreated r b)
  | OpGet run_id => let! r := get run_id in ret (RepMaybe r)
  | OpAcquire i owner ttl => let! l := acquire clk i owner ttl in ret (RepLease l)
  | OpRenew l ttl => let! l' := renew clk l ttl in ret (RepLease l')
  | OpRelease l => release clk l ;;; ret RepUnit
  | OpMarkTerminal l s p r c k =>
      let! x := mark_terminal clk l s p r c k in ret (RepRecord x)
  | OpMarkHistory l p => let! x := mark_history_committed clk l p in ret (RepRecord x)
  | OpReconcile run_id p => let! x := reconcile_history_committed clk run_id p in ret (RepRecord x)
  | OpRevoke run_id => let! x := revoke_resume_tokens clk run_id in ret (RepInt x)
  end.

(** The operations a run performs under its lease: the writes that must be
    fenced.  [release] is not one: it never raises. *)
Definition guarded_by (op : repo_op) : option RunLease :=
  match op with
  | OpRenew l _ | OpMarkTerminal l _ _ _ _ _ | OpMarkHistory l _ => Some l
  | _ => None
  end.

(** ** What a backend promises *)

Class RunRepositoryLaws (St : Type) `{RunRepository St} : Type := {
  (** The views of the state the laws speak of: the last fencing token issued
      for a conversation (0 before the first), its lease, and the record of a
      run. *)
  fence : St → string → Z;
  holder : St → string → option RunLease;
  record_of : St → string → option RunRecord;

  repo_inv : St → Prop;
  exec_inv : ∀ clk op s, repo_inv s → repo_inv (exec clk op s).2;

  fence_nonneg : ∀ s c, repo_inv s → 0 ≤ fence s c;
  holder_token : ∀ s c h, repo_inv s → holder s c = Some h →
    lease_conversation_id h = c ∧ lease_fencing_token h = fence s c;

  (** A record is never dropped and stays bound to its request;
      [create_or_get] returns the record of the run or raises. *)
  exec_record : ∀ clk op s id r, repo_inv s → record_of s id = Some r →
    ∃ r', record_of (exec clk op s).2 id = Some r' ∧ same_binding r' r;
  create_existing : ∀ clk i s r, repo_inv s → record_of s (id_run_id i) = Some r →
    create_or_get clk i s =
      match record_identity_error r i with
      | Some e => (Raise e, s)
      | None => (Ret (r, false), s)
      end;
  create_fresh : ∀ clk i s r b s', repo_inv s → record_of s (id_run_id i) = None →
    create_or_get clk i s = (Ret (r, b), s') →
    b = true ∧ record_of s' (id_run_id i) = Some r ∧ record_identity_error r i = None ∧
    rec_status r = Pending;

  (** Only a successful [acquire] issues a token: the next one of its
      conversation, and never while another lease of it is live. *)
  acquire_lease : ∀ clk i owner ttl s l s', repo_inv s →
    acquire clk i owner ttl s = (Ret l, s') →
    lease_conversation_id l = id_conversation_id i ∧
    lease_run_id l = id_run_id i ∧ lease_owner_id l = owner ∧
    lease_fencing_token l = fence s (id_conversation_id i) + 1 ∧
    holder s' (id_conversation_id i) = Some l ∧
    (∀ h, holder s (id_conversation_id i) = Some h → lease_expires_at h ≤ clk 0%nat);
  acquire_frame : ∀ clk i owner ttl s l s' c, repo_inv s →
    acquire clk i owner ttl s = (Ret l, s') → c ≠ id_conversation_id i →
    fence s' c = fence s c ∧ holder s' c = holder s c;
  acquire_raise : ∀ clk i owner ttl s e s', repo_inv s →
    acquire clk i owner ttl s = (Raise e, s') → s' = s;
  other_fence : ∀ clk op s c, repo_inv s →
    (∀ i owner ttl, op ≠ OpAcquire i owner ttl) →
    fence (exec clk op s).2 c = fence s c;

  (** A guarded operation succeeds only for the live holder of the lease of
      the conversation the run record belongs to; otherwise nothing changes. *)
  guarded_ret : ∀ clk op l s a s', repo_inv s → guarded_by op = Some l →
    (∃ r, record_of s (lease_run_id l) = Some r ∧
      rec_conversation_id r = lease_conversation_id l) →
    exec clk op s = (Ret a, s') →
    ∃ h, holder s (lease_conversation_id l) = Some h ∧ same_owner h l = true ∧
      clk 0%nat < lease_expires_at h;
  guarded_raise : ∀ clk op l s e s', repo_inv s → guarded_by op = Some l →
    exec clk op s = (Raise e, s') → is_stale e = true ∧ s' = s
}.

(** ** Consequences of the laws *)

Section laws.
Context {St : Type} `{RunRepositoryLaws St}.

(** One operation at any instant, whoever calls it. *)
Definition repo_step (s s' : St) : Prop := ∃ clk op, s' = (exec clk op s).2.

(** The run record a lease was issued for belongs to its conversation. *)
Definition bound (s : St) (l : RunLease) : Prop :=
  ∃ r, record_of s (lease_run_id l) = Some r ∧
  rec_conversation_id r = lease_conversation_id l.

Definition superseded (s : St) (l : RunLease) : Prop :=
  lease_fencing_token l < fence s (lease_conversation_id l).

Lemma steps_inv s s' : rtc repo_step s s' → repo_inv s → repo_inv s'.
Proof. induction 1 as [|s s1 s' (clk & op & ->) _ IH]; auto using exec_inv. Qed.

Lemma step_bound s s' l : repo_inv s → repo_step s s' → bound s l → bound s' l.
Proof.
  intros Hi (clk & op & ->) (r & Hr & Hc).
  destruct (exec_record clk op s _ r Hi Hr) as (r' & Hr' & Hc').
  exists r'. split; [done|]. by rewrite (same_binding_conversation _ _ Hc').
Qed.

Lemma steps_bound s s' l : rtc repo_step s s' → repo_inv s → bound s l → bound s' l.
Proof.
  induction 1 as [|s s1 s' Hst _ IH]; [done|]. intros Hi Hb. apply IH.
  - destruct Hst as (clk & op & ->). by apply exec_inv.
  - by eapply step_bound.
Qed.

Lemma exec_acquire clk i owner ttl s :
  (exec clk (OpAcquire i owner ttl) s).2 = (acquire clk i owner ttl s).2.
Proof. simpl. unfold bind. by destruct (acquire _ _ _ _ s) as [[l|e] s1]. Qed.

Lemma step_fence s s' c : repo_inv s → repo_step s s' → fence s c ≤ fence s' c.
Proof.
  intros Hi (clk & op & ->).
  destruct op as [| |i owner ttl| | | | | |];
  try (rewrite other_fence by (try done; discriminate); lia).
  assert (Hi' := exec_inv clk (OpAcquire i owner ttl) s Hi).
  rewrite exec_acquire in *.
  destruct (acquire clk i owner ttl s) as [[l|e] s1] eqn:E; simpl in *.
  - destruct (decide (c = id_conversation_id i)) as [->|Hne].
  + destruct (acquire_lease _ _ _ _ _ _ _ Hi E) as (_ & _ & _ & Ht & Hh & _).
    destruct (holder_token _ _ _ Hi' Hh) as [_ Hf]. lia.
  + destruct (acquire_frame _ _ _ _ _ _ _ c Hi E Hne) as [-> _]. lia.
  - by rewrite (acquire_raise _ _ _ _ _ _ _ Hi E).
Qed.

Lemma steps_fence s s' c : rtc repo_step s s' → repo_inv s → fence s c ≤ fence s' c.
Proof.
  induction 1 as [|s s1 s' Hst _ IH]; intros Hi; [lia|].
  pose proof (step_fence _ _ c Hi Hst).
  destruct Hst as (clk & op & ->).
  specialize (IH (exec_inv _ _ _ Hi)). lia.
Qed.

Lemma acquire_fence clk i owner ttl s l s' :
  repo_inv s → acquire clk i owner ttl s = (Ret l, s') →
  fence s' (id_conversation_id i) = fence s (id_conversation_id i) + 1 ∧
  lease_fencing_token l = fence s' (id_conversation_id i) ∧
  lease_conversation_id l = id_conversation_id i.
Proof.
  intros Hi E. pose proof (exec_inv clk (OpAcquire i owner ttl) s Hi) as Hi'.
  rewrite exec_acquire, E in Hi'. simpl in Hi'.
  destruct (acquire_lease _ _ _ _ _ _ _ Hi E) as (Hc & _ & _ & Ht & Hh & _).
  destruct (holder_token _ _ _ Hi' Hh) as [_ Hf]. repeat split; [lia|lia|done].
Qed.

Lemma superseded_stale clk op l s :
  repo_inv s → guarded_by op = Some l → bound s l → superseded s l →
  ∃ e, exec clk op s = (Raise e, s) ∧ is_stale e = true.
Proof.
  intros Hi Hg Hb Hsup. destruct (exec clk op s) as [[a|e] s1] eqn:E.
  - destruct (guarded_ret _ _ _ _ _ _ Hi Hg Hb E) as (h & Hh & Hown & _).
  destruct (holder_token _ _ _ Hi Hh) as [_ Ht].
  apply same_owner_token in Hown. unfold superseded in Hsup. lia.
  - destruct (guarded_raise _ _ _ _ _ _ Hi Hg E) as [He ->]. eauto.
Qed.

(** C3. Fencing.  Once a later [acquire] of the same conversation has
returned, the operations a run performs under an earlier lease (renew,
mark_terminal, mark_history_committed) raise [StaleLeaseError] and change
nothing, however the two leases' other operations and those of every
other run are interleaved, at whatever clock readings. *)
Theorem fencing (s0 s1 s2 s3 s4 : St) clk1 clk2 i1 i2 owner1 owner2 ttl1 ttl2 l1 l2
  (Hinv : repo_inv s0)
  (Hacq1 : acquire clk1 i1 owner1 ttl1 s0 = (Ret l1, s1))
  (Hbound : bound s1 l1)
  (Hrun : rtc repo_step s1 s2)
  (Hacq2 : acquire clk2 i2 owner2 ttl2 s2 = (Ret l2, s3))
  (Hsame : id_conversation_id i2 = id_conversation_id i1)
  (Hrest : rtc repo_step s3 s4) :
  ∀ clk op, guarded_by op = Some l1 →
  ∃ e, exec clk op s4 = (Raise e, s4) ∧ is_stale e = true.
Proof.
  intros clk op Hg.
  assert (Hst1 : repo_step s0 s1).
  { exists clk1, (OpAcquire i1 owner1 ttl1). by rewrite exec_acquire, Hacq1. }
  assert (Hst2 : repo_step s2 s3).
  { exists clk2, (OpAcquire i2 owner2 ttl2). by rewrite exec_acquire, Hacq2. }
  assert (H1 : repo_inv s1) by (eapply steps_inv; [by apply rtc_once|done]).
  assert (H2 : repo_inv s2) by (by eapply steps_inv).
  assert (H3 : repo_inv s3) by (eapply steps_inv; [by apply rtc_once|done]).
  apply (superseded_stale clk op l1); [by eapply steps_inv|done|..].
  - eapply steps_bound; [|exact H1|exact Hbound].
  etrans; [exact Hrun|]. eapply rtc_l; [exact Hst2|done].
  - destruct (acquire_fence _ _ _ _ _ _ _ Hinv Hacq1) as (_ & Ht1 & Hc1).
  destruct (acquire_fence _ _ _ _ _ _ _ H2 Hacq2) as (Hf2 & _ & _).
  pose proof (steps_fence _ _ (id_conversation_id i1) Hrun H1).
  pose proof (steps_fence _ _ (id_conversation_id i1) Hrest H3).
  unfold superseded. rewrite Hc1. rewrite Hsame in *. lia.
Qed.

(** C16. Mutual exclusion.  Two guarded operations that both succeed in one
state on leases of one conversation are performed under the same lease:
same run, same owner, same fencing token. *)
Theorem single_writer (s : St) clk1 clk2 op1 op2 l1 l2 a1 a2 s1 s2
  (Hinv : repo_inv s)
  (Hg1 : guarded_by op1 = Some l1) (Hg2 : guarded_by op2 = Some l2)
  (Hb1 : bound s l1) (Hb2 : bound s l2)
  (Hconv : lease_conversation_id l1 = lease_conversation_id l2)
  (Hok1 : exec clk1 op1 s = (Ret a1, s1))
  (Hok2 : exec clk2 op2 s = (Ret a2, s2)) :
  same_owner l1 l2 = true.
Proof.
  destruct (guarded_ret _ _ _ _ _ _ Hinv Hg1 Hb1 Hok1) as (h1 & Hh1 & Ho1 & _).
  destruct (guarded_ret _ _ _ _ _ _ Hinv Hg2 Hb2 Hok2) as (h2 & Hh2 & Ho2 & _).
  rewrite <-Hconv, Hh1 in Hh2. simplify_eq.
  apply same_owner_spec in Ho1, Ho2. apply same_owner_spec. naive_solver congruence.
Qed.

Lemma steps_record s s' id r :
  rtc repo_step s s' → repo_inv s → record_of s id = Some r →
  ∃ r', record_of s' id = Some r' ∧ same_binding r' r.
Proof.
  intros Hst. revert r. induction Hst as [|s s1 s' (clk & op & ->) _ IH]; intros r Hi Hr; [by exists r|].
  destruct (exec_record clk op s _ r Hi Hr) as (r1 & Hr1 & H1).
  destruct (IH _ (exec_inv _ _ _ Hi) Hr1) as (r' & Hr' & H').
  exists r'. split; [done|]. by etrans.
Qed.

Lemma create_record clk i s r b s' :
  repo_inv s → create_or_get clk i s = (Ret (r, b), s') →
  record_of s' (id_run_id i) = Some r ∧ record_identity_error r i = None.
Proof.
  intros Hi E. destruct (record_of s (id_run_id i)) as [r0|] eqn:Hr.
  - rewrite (create_existing _ _ _ _ Hi Hr) in E.
  destruct (record_identity_error r0 i) eqn:?; by simplify_eq.
  - destruct (create_fresh _ _ _ _ _ _ Hi Hr E) as (_ & ? & ? & _). done.
Qed.

Lemma exec_create clk i s :
  (exec clk (OpCreate i) s).2 = (create_or_get clk i s).2.
Proof. simpl. unfold bind. by destruct (create_or_get _ _ s) as [[[r b]|e] s1]. Qed.

(** Two requests with the same content, as a repository sees it. *)
Definition same_request (i j : RunIdentity) : Prop :=
  id_conversation_id i = id_conversation_id j ∧
  id_execution_thread_id i = id_execution_thread_id j ∧
  id_request_hash i = id_request_hash j ∧
  id_request_hash_version i = id_request_hash_version j ∧
  id_state_schema_version i = id_state_schema_version j.

(** C17. A [run_id] is bound to its first request forever.  Once [create_or_get]
has returned for a request, then after any further operations of any workers a
later [create_or_get] with that [run_id] changes nothing.  If conversation,
execution thread, request hash and its version, and schema version are those of
the first request, it returns [False] and a record that names exactly them;
otherwise it raises [RunConflictError]. *)
Theorem run_binding (s0 s1 s2 : St) clk1 clk2 (i j : RunIdentity) r b
  (Hinv : repo_inv s0)
  (Hcreate : create_or_get clk1 i s0 = (Ret (r, b), s1))
  (Hrun : rtc repo_step s1 s2)
  (Hid : id_run_id j = id_run_id i) :
  (same_request i j ∧ ∃ r',
     create_or_get clk2 j s2 = (Ret (r', false), s2) ∧
     rec_conversation_id r' = id_conversation_id i ∧
     rec_execution_thread_id r' = id_execution_thread_id i ∧
     rec_request_hash r' = id_request_hash i ∧
     rec_request_hash_version r' = id_request_hash_version i ∧
     rec_state_schema_version r' = id_state_schema_version i) ∨
  (¬ same_request i j ∧ ∃ msg,
     create_or_get clk2 j s2 = (Raise (IdentityExn RunConflictError msg), s2)).
Proof.
  destruct (create_record _ _ _ _ _ _ Hinv Hcreate) as [Hr Hi].
  assert (H1 : repo_inv s1).
  { pose proof (exec_inv clk1 (OpCreate i) s0 Hinv) as H'. by rewrite exec_create, Hcreate in H'. }
  destruct (steps_record _ _ _ _ Hrun H1 Hr) as (r' & Hr' & Hb).
  rewrite <-Hid in Hr'. rewrite (create_existing _ _ _ _ (steps_inv _ _ Hrun H1) Hr').
  rewrite <-(record_identity_binding _ _ i Hb) in Hi. unfold same_request.
  destruct (record_identity_error_spec r' i) as [(_&E1&E2&E3&E4&E5)|[[msg E] _]]; [|by rewrite E in Hi].
  destruct (record_identity_error_spec r' j) as [(->&F1&F2&F3&F4&F5)|[[msg ->] Hne]].
  - left. split; [repeat split; congruence|]. by exists r'.
  - right. split; [|by exists msg]. rewrite <-E1, <-E2, <-E3, <-E4, <-E5. exact Hne.
Qed.

(** A lease that is still live excludes every other acquisition. *)
Lemma acquire_excluded clk i owner ttl s h :
  repo_inv s → holder s (id_conversation_id i) = Some h →
  clk 0%nat < lease_expires_at h →
  ∃ e, acquire clk i owner ttl s = (Raise e, s).
Proof.
  intros Hi Hh Hlive. destruct (acquire clk i owner ttl s) as [[l|e] s1] eqn:E.
  - destruct (acquire_lease _ _ _ _ _ _ _ Hi E) as (_ & _ & _ & _ & _ & Hexp).
  specialize (Hexp _ Hh). lia.
  - rewrite (acquire_raise _ _ _ _ _ _ _ Hi E). eauto.
Qed.
End laws.
