(* ===== verification/MemoryRepo.v ===== *)
(** * The process-local run repository

    [MemoryRunRepository] of [app/state/run_repository.py].  Its coroutines run
    under one [asyncio.Lock] and await nothing inside, so each is one atomic
    action on the three dictionaries.  [clk k] is the reading of the [k]-th call
    of [_utcnow()] made by the coroutine. *)

From S2P Require Import Prelude PyData RunTypes RunRepo.

Record MemoryRunRepository : Type := MkMemory {
  _records : gmap string RunRecord;
  _leases : gmap string RunLease;
  _fencing : gmap string Z;
  _started : bool
}.

#[export] Instance eta_MemoryRunRepository : Eta MemoryRunRepository := λ s,
  MkMemory (_records s) (_leases s) (_fencing s) (_started s).

(** [__init__]. *)
Definition memory_init : MemoryRunRepository := MkMemory ∅ ∅ ∅ false.

Definition memory_start : M MemoryRunRepository unit :=
  modify (λ s, s <| _started := true |>).
Definition memory_aclose : M MemoryRunRepository unit :=
  modify (λ s, s <| _started := false |>).

(** The leases live at [clk], each compared with a reading of its own. *)
Fixpoint active_leases (clk : clock) (n : nat) (ls : list (string * RunLease)) : Z :=
  match ls with
  | [] => 0
  | (_, l) :: ls' =>
      (if clk n <? lease_expires_at l then 1 else 0) + active_leases clk (S n) ls'
  end.

Definition memory_health (clk : clock) : M MemoryRunRepository pyval :=
  gets (λ s, VDict [
    ("status", VStr (if _started s then "available" else "unavailable"));
    ("backend", VStr "memory");
    ("runs", VInt (Z.of_nat (size (_records s))));
    ("active_leases", VInt (active_leases clk 0 (map_to_list (_leases s))))]).

(** The [replace(record, ...)] expressions of the operations. *)
Definition acquired_record (token : Z) (owner : string) (expires now : Z) (r : RunRecord) :=
  r <| rec_status := Running |>
    <| rec_fencing_token := Some token |>
    <| rec_lease_owner := Some owner |>
    <| rec_lease_expires_at := Some expires |>
    <| rec_started_at := Some (default now (rec_started_at r)) |>
    <| rec_updated_at := Some now |>.

Definition renewed_record (expires now : Z) (r : RunRecord) :=
  r <| rec_lease_expires_at := Some expires |> <| rec_updated_at := Some now |>.

Definition outcome_record (status : OutcomeStatus) (payload : option pydict)
    (reason code checkpoint : option string) (now : Z) (r : RunRecord) :=
  r <| rec_status := outcome_status status |>
    <| rec_response_payload := payload |>
    <| rec_termination_reason := reason |>
    <| rec_error_code := code |>
    <| rec_checkpoint_id := checkpoint |>
    <| rec_completed_at := if terminal_status (outcome_status status) then Some now else None |>
    <| rec_updated_at := Some now |>.

(** [dict(p) if p is not None else old]. *)
Definition payload_or (p old : option pydict) : option pydict :=
  match p with Some d => Some d | None => old end.

Definition history_record (payload : option pydict) (committed now : Z) (r : RunRecord) :=
  r <| rec_response_payload := payload_or payload (rec_response_payload r) |>
    <| rec_history_committed_at := Some committed |>
    <| rec_updated_at := Some now |>.

Definition revoked_record (now : Z) (r : RunRecord) :=
  r <| rec_resume_token_version := rec_resume_token_version r + 1 |>
    <| rec_updated_at := Some now |>.

Definition put_record (run_id : string) (r : RunRecord) : M MemoryRunRepository unit :=
  modify (λ s, s <| _records := <[run_id := r]> (_records s) |>).
Definition put_lease (c : string) (l : RunLease) : M MemoryRunRepository unit :=
  modify (λ s, s <| _leases := <[c := l]> (_leases s) |>).

Definition memory_create_or_get (clk : clock) (identity : RunIdentity) :
    M MemoryRunRepository (RunRecord * bool) :=
  let! found := gets (λ s, _records s !! id_run_id identity) in
  match found with
  | Some record => _validate_record_identity record identity ;;; ret (record, false)
  | None =>
      let record := new_record identity (clk 0%nat) in
      put_record (id_run_id identity) record ;;; ret (record, true)
  end.

Definition memory_get (run_id : string) : M MemoryRunRepository (option RunRecord) :=
  gets (λ s, _records s !! run_id).

(** [self._records[run_id]]. *)
Definition record_at (run_id : string) : M MemoryRunRepository RunRecord :=
  let! found := gets (λ s, _records s !! run_id) in
  match found with
  | Some record => ret record
  | None => raise (PyExn KeyError run_id)
  end.

(** [self._records.get(run_id)] followed by the check for [None]. *)
Definition existing_record (run_id : string) : M MemoryRunRepository RunRecord :=
  let! found := gets (λ s, _records s !! run_id) in
  match found with
  | Some record => ret record
  | None => raise (conflict "The run record does not exist")
  end.

Definition lease_live (o : option RunLease) (now : Z) : bool :=
  match o with Some current => now <? lease_expires_at current | None => false end.

Definition memory_acquire (clk : clock) (identity : RunIdentity) (owner_id : string)
    (ttl_seconds : Z) : M MemoryRunRepository RunLease :=
  let c := id_conversation_id identity in
  let! record := existing_record (id_run_id identity) in
  _validate_record_identity record identity ;;;
  let now := clk 0%nat in
  let! current := gets (λ s, _leases s !! c) in
  if lease_live current now then
    raise (busy "Another run is already active for this conversation")
  else
    let! token := gets (λ s, default 0 (_fencing s !! c) + 1) in
    modify (λ s, s <| _fencing := <[c := token]> (_fencing s) |>) ;;;
    let lease := MkRunLease c (id_run_id identity) owner_id token (now + seconds ttl_seconds) in
    put_lease c lease ;;;
    put_record (id_run_id identity)
      (acquired_record token owner_id (lease_expires_at lease) now record) ;;;
    ret lease.

(** The condition [_assert_lease] tests, at the reading [now]. *)
Definition lease_ok (s : MemoryRunRepository) (lease : RunLease) (now : Z) : bool :=
  match _leases s !! lease_conversation_id lease with
  | Some current => same_owner current lease && (now <? lease_expires_at current)
  | None => false
  end.

Definition _assert_lease (now : Z) (lease : RunLease) : M MemoryRunRepository unit :=
  let! ok := gets (λ s, lease_ok s lease now) in
  if ok then ret tt else raise (stale "The run no longer owns the conversation lease").

Definition memory_renew (clk : clock) (lease : RunLease) (ttl_seconds : Z) :
    M MemoryRunRepository RunLease :=
  _assert_lease (clk 0%nat) lease ;;;
  let renewed := lease <| lease_expires_at := clk 1%nat + seconds ttl_seconds |> in
  put_lease (lease_conversation_id lease) renewed ;;;
  let! record := record_at (lease_run_id lease) in
  put_record (lease_run_id lease)
    (renewed_record (lease_expires_at renewed) (clk 2%nat) record) ;;;
  ret renewed.

Definition memory_release (clk : clock) (lease : RunLease) : M MemoryRunRepository unit :=
  let c := lease_conversation_id lease in
  let! current := gets (λ s, _leases s !! c) in
  match current with
  | Some l =>
      if same_owner l lease then modify (λ s, s <| _leases := delete c (_leases s) |>)
      else ret tt
  | None => ret tt
  end.

(** [dict(response_payload) if response_payload else None]. *)
Definition nonempty_payload (p : option pydict) : option pydict :=
  match p with
  | Some [] | None => None
  | Some d => Some d
  end.

Definition memory_mark_terminal (clk : clock) (lease : RunLease) (status : OutcomeStatus)
    (response_payload : option pydict)
    (termination_reason error_code checkpoint_id : option string) :
    M MemoryRunRepository RunRecord :=
  _assert_lease (clk 0%nat) lease ;;;
  let! record := record_at (lease_run_id lease) in
  let updated :=
    outcome_record status (nonempty_payload response_payload) termination_reason error_code
      checkpoint_id (clk 1%nat) record in
  put_record (lease_run_id lease) updated ;;;
  ret updated.

Definition memory_mark_history_committed (clk : clock) (lease : RunLease)
    (response_payload : option pydict) : M MemoryRunRepository RunRecord :=
  _assert_lease (clk 0%nat) lease ;;;
  let! record := record_at (lease_run_id lease) in
  let updated := history_record response_payload (clk 1%nat) (clk 2%nat) record in
  put_record (lease_run_id lease) updated ;;;
  ret updated.

(** The first reading is made only when the history was not committed yet. *)
Definition memory_reconcile_history_committed (clk : clock) (run_id : string)
    (response_payload : option pydict) : M MemoryRunRepository RunRecord :=
  let! record := existing_record run_id in
  let '(committed, now) :=
    match rec_history_committed_at record with
    | Some t => (t, clk 0%nat)
    | None => (clk 0%nat, clk 1%nat)
    end in
  let updated := history_record response_payload committed now record in
  put_record run_id updated ;;;
  ret updated.

Definition memory_revoke_resume_tokens (clk : clock) (run_id : string) :
    M MemoryRunRepository Z :=
  let! record := existing_record run_id in
  let updated := revoked_record (clk 0%nat) record in
  put_record run_id updated ;;;
  ret (rec_resume_token_version updated).

#[export] Instance memory_repository : RunRepository MemoryRunRepository := {
  create_or_get := memory_create_or_get;
  get := memory_get;
  acquire := memory_acquire;
  renew := memory_renew;
  release := memory_release;
  mark_terminal := memory_mark_terminal;
  mark_history_committed := memory_mark_history_committed;
  reconcile_history_committed := memory_reconcile_history_committed;
  revoke_resume_tokens := memory_revoke_resume_tokens
}.

(** ** The invariant and the laws *)

(** Records are keyed by their run, a lease by its conversation; the token of a
    lease is the last one issued and its run has a record of that
    conversation. *)
Record memory_inv (s : MemoryRunRepository) : Prop := {
  mi_records : map_Forall (λ k r, rec_run_id r = k) (_records s);
  mi_leases : map_Forall (λ c l,
    lease_conversation_id l = c ∧ _fencing s !! c = Some (lease_fencing_token l) ∧
    ∃ r, _records s !! lease_run_id l = Some r ∧ rec_conversation_id r = c) (_leases s);
  mi_fencing : map_Forall (λ _ t, 1 ≤ t) (_fencing s)
}.

Lemma memory_inv_init : memory_inv memory_init.
Proof. split; apply map_Forall_empty. Qed.

(** What every operation but [acquire] does: no token is issued, no lease
    appears or changes hands, and no record is dropped or moved. *)
Definition keyed (s : MemoryRunRepository) : Prop :=
  map_Forall (λ k r, rec_run_id r = k) (_records s).

Record no_acquisition (s s' : MemoryRunRepository) : Prop := {
  na_fencing : _fencing s' = _fencing s;
  na_leases : ∀ c h', _leases s' !! c = Some h' →
    ∃ h, _leases s !! c = Some h ∧ same_owner h h' = true;
  na_records : ∀ id r, _records s !! id = Some r →
    ∃ r', _records s' !! id = Some r' ∧ same_binding r' r;
  na_keyed : keyed s → keyed s'
}.

Lemma no_acquisition_refl s : no_acquisition s s.
Proof. split; eauto using same_owner_refl. Qed.

Lemma no_acquisition_inv s s' : no_acquisition s s' → memory_inv s → memory_inv s'.
Proof.
  intros [Hf Hl Hr Hk] [H1 H2 H3]. split; [by apply Hk| |by rewrite Hf].
  intros c h' Hh'. destruct (Hl _ _ Hh') as (h & Hh & Ho).
  destruct (H2 _ _ Hh) as (Hc & Ht & r & Hrr & Hrc).
  apply same_owner_spec in Ho as (E1 & E2 & E3 & E4).
  destruct (Hr _ _ Hrr) as (r' & Hr' & Hc'%same_binding_conversation).
  rewrite <-E1, <-E2, <-E4, Hf. repeat split; [done..|]. exists r'. split; congruence.
Qed.

Lemma no_acquisition_put s id r0 r :
  _records s !! id = Some r0 → same_binding r r0 →
  no_acquisition s (s <| _records := <[id := r]> (_records s) |>).
Proof.
  intros Hid Hb. split; cbn; [done|eauto using same_owner_refl| |].
  - intros k r1 Hk. destruct (decide (id = k)) as [<-|]; simplify_map_eq; [eauto|].
    eexists; split; [done|reflexivity].
  - intros Hkeyed. apply map_Forall_insert_2; [|done].
    destruct Hb as [-> _]. by apply (Hkeyed id).
Qed.

Lemma no_acquisition_new s id r :
  _records s !! id = None → rec_run_id r = id →
  no_acquisition s (s <| _records := <[id := r]> (_records s) |>).
Proof.
  intros Hid Hrun. split; cbn; [done|eauto using same_owner_refl| |].
  - intros k r1 Hk. destruct (decide (id = k)) as [<-|]; simplify_map_eq.
    eexists; split; [done|reflexivity].
  - intros Hkeyed. by apply map_Forall_insert_2.
Qed.

(** Each operation, run symbolically: the branches of its code. *)
Ltac mem_run :=
  unfold memory_create_or_get, memory_get, memory_acquire, memory_renew, memory_release,
    memory_mark_terminal, memory_mark_history_committed,
    memory_reconcile_history_committed, memory_revoke_resume_tokens,
    _assert_lease, record_at, existing_record, _validate_record_identity,
    put_record, put_lease, lease_ok, bind, ret, raise, gets, modify in *;
  cbn in *.

Lemma memory_acquire_spec clk i owner ttl s :
  memory_acquire clk i owner ttl s =
  match _records s !! id_run_id i with
  | None => (Raise (conflict "The run record does not exist"), s)
  | Some record =>
      match record_identity_error record i with
      | Some e => (Raise e, s)
      | None =>
          let c := id_conversation_id i in
          let now := clk 0%nat in
          if lease_live (_leases s !! c) now then
            (Raise (busy "Another run is already active for this conversation"), s)
          else
            let token := default 0 (_fencing s !! c) + 1 in
            let lease := MkRunLease c (id_run_id i) owner token (now + seconds ttl) in
            (Ret lease,
             s <| _fencing := <[c := token]> (_fencing s) |>
               <| _leases := <[c := lease]> (_leases s) |>
               <| _records := <[id_run_id i :=
                    acquired_record token owner (lease_expires_at lease) now record]>
                    (_records s) |>)
      end
  end.
Proof.
  mem_run. destruct (_records s !! _) as [record|]; cbn; [|done].
  destruct (record_identity_error record i); cbn; [done|].
  by destruct (lease_live _ _).
Qed.

(** The guarded operations: [StaleLeaseError] and no change without the live
    lease; under it, the record of the run replaced. *)
Lemma assert_lease_spec now lease s :
  _assert_lease now lease s =
  if lease_ok s lease now then (Ret tt, s)
  else (Raise (stale "The run no longer owns the conversation lease"), s).
Proof. unfold _assert_lease, bind, gets. by destruct (lease_ok s lease now). Qed.

Lemma lease_ok_spec s lease now :
  lease_ok s lease now = true ↔
  ∃ current, _leases s !! lease_conversation_id lease = Some current ∧
    same_owner current lease = true ∧ now < lease_expires_at current.
Proof.
  unfold lease_ok. destruct (_leases s !! _) as [current|]; [|naive_solver].
  rewrite andb_true_iff, Z.ltb_lt. naive_solver.
Qed.

Lemma lease_ok_record s lease now :
  memory_inv s → lease_ok s lease now = true →
  ∃ r, _records s !! lease_run_id lease = Some r ∧ rec_run_id r = lease_run_id lease ∧
    rec_conversation_id r = lease_conversation_id lease.
Proof.
  intros [Hr Hl _] (h & Hh & Ho & _)%lease_ok_spec.
  destruct (Hl _ _ Hh) as (Hc & _ & r & Hrr & Hrc).
  apply same_owner_spec in Ho as (_ & Hrun & _ & _). rewrite Hrun in Hrr.
  exists r. split; [done|]. split; [by apply (Hr _ _ Hrr)|done].
Qed.


(** The fenced operations under the live lease, and without it. *)
Lemma memory_renew_spec clk lease ttl s r :
  _records s !! lease_run_id lease = Some r →
  memory_renew clk lease ttl s =
  if lease_ok s lease (clk 0%nat) then
    let renewed := lease <| lease_expires_at := clk 1%nat + seconds ttl |> in
    (Ret renewed,
     s <| _leases := <[lease_conversation_id lease := renewed]> (_leases s) |>
       <| _records := <[lease_run_id lease :=
            renewed_record (lease_expires_at renewed) (clk 2%nat) r]> (_records s) |>)
  else (Raise (stale "The run no longer owns the conversation lease"), s).
Proof.
  intros Hr. unfold memory_renew. unfold bind at 1. rewrite assert_lease_spec.
  destruct (lease_ok s lease _) eqn:Hok; [|done].
  unfold bind, put_lease, modify, record_at, gets, put_record, ret. cbn. by rewrite Hr.
Qed.

Lemma memory_mark_terminal_spec clk lease st p reason code cp s r :
  _records s !! lease_run_id lease = Some r →
  memory_mark_terminal clk lease st p reason code cp s =
  if lease_ok s lease (clk 0%nat) then
    let updated := outcome_record st (nonempty_payload p) reason code cp (clk 1%nat) r in
    (Ret updated, s <| _records := <[lease_run_id lease := updated]> (_records s) |>)
  else (Raise (stale "The run no longer owns the conversation lease"), s).
Proof.
  intros Hr. unfold memory_mark_terminal. unfold bind at 1. rewrite assert_lease_spec.
  destruct (lease_ok s lease _) eqn:Hok; [|done].
  unfold bind, modify, record_at, gets, put_record, ret. cbn. by rewrite Hr.
Qed.

Lemma memory_mark_history_spec clk lease p s r :
  _records s !! lease_run_id lease = Some r →
  memory_mark_history_committed clk lease p s =
  if lease_ok s lease (clk 0%nat) then
    let updated := history_record p (clk 1%nat) (clk 2%nat) r in
    (Ret updated, s <| _records := <[lease_run_id lease := updated]> (_records s) |>)
  else (Raise (stale "The run no longer owns the conversation lease"), s).
Proof.
  intros Hr. unfold memory_mark_history_committed. unfold bind at 1. rewrite assert_lease_spec.
  destruct (lease_ok s lease _) eqn:Hok; [|done].
  unfold bind, modify, record_at, gets, put_record, ret. cbn. by rewrite Hr.
Qed.

Lemma fenced_stale {A} (k : M MemoryRunRepository A) lease now s :
  lease_ok s lease now = false →
  (_assert_lease now lease ;;; k) s =
    (Raise (stale "The run no longer owns the conversation lease"), s).
Proof. intros Hok. unfold bind at 1. by rewrite assert_lease_spec, Hok. Qed.

(** Every guarded operation, on both branches of [_assert_lease]. *)
Lemma memory_guarded clk op l s :
  memory_inv s → guarded_by op = Some l →
  if lease_ok s l (clk 0%nat)
  then ∃ a s', exec clk op s = (Ret a, s') ∧ no_acquisition s s'
  else exec clk op s = (Raise (stale "The run no longer owns the conversation lease"), s).
Proof.
  intros Hi Hg. destruct (lease_ok s l _) eqn:Hok.
  - destruct (lease_ok_record _ _ _ Hi Hok) as (r & Hr & Hrun & Hconv).
    destruct op; simplify_eq/=; unfold bind; cbn.
    + rewrite (memory_renew_spec _ _ _ _ _ Hr), Hok. do 2 eexists. split; [done|].
      apply lease_ok_spec in Hok as (h & Hh & Ho & _).
      destruct (no_acquisition_put s (lease_run_id l)
        r (renewed_record (clk 1%nat + seconds ttl) (clk 2%nat) r) Hr ltac:(done))
        as [Hf _ Hrs Hk].
      split; [done| |exact Hrs|exact Hk]. cbn. intros c h' Hh'.
      destruct (decide (lease_conversation_id l = c)) as [<-|]; simplify_map_eq;
        eauto using same_owner_refl.
    + rewrite (memory_mark_terminal_spec _ _ _ _ _ _ _ _ _ Hr), Hok.
      do 2 eexists. split; [done|]. by eapply no_acquisition_put.
    + rewrite (memory_mark_history_spec _ _ _ _ _ Hr), Hok.
      do 2 eexists. split; [done|]. by eapply no_acquisition_put.
  - destruct op; simplify_eq/=; unfold bind at 1; cbn;
      unfold memory_renew, memory_mark_terminal, memory_mark_history_committed;
      by rewrite fenced_stale.
Qed.

Lemma memory_not_acquire clk op s :
  memory_inv s → (∀ i owner ttl, op ≠ OpAcquire i owner ttl) →
  no_acquisition s (exec clk op s).2.
Proof.
  intros Hi Hop. destruct (guarded_by op) as [l|] eqn:Hg.
  { pose proof (memory_guarded clk op l s Hi Hg) as H.
    destruct (lease_ok _ _ _); [destruct H as (a & s' & -> & ?); done|].
    rewrite H. apply no_acquisition_refl. }
  destruct op as [i| |i owner ttl| |l| | |id p|id]; simplify_eq/=.
  - mem_run. destruct (_records s !! id_run_id i) as [r|] eqn:E; cbn.
    + destruct (record_identity_error r i); cbn; apply no_acquisition_refl.
    + by apply no_acquisition_new.
  - apply no_acquisition_refl.
  - by destruct (Hop i owner ttl).
  - mem_run. destruct (_leases s !! lease_conversation_id l) as [h|]; cbn;
      [destruct (same_owner h l); cbn|]; try apply no_acquisition_refl.
    split; cbn; [done| |eauto|done]. intros c h' [_ Hh']%lookup_delete_Some.
    eauto using same_owner_refl.
  - mem_run. destruct (_records s !! id) as [r|] eqn:E; cbn; [|apply no_acquisition_refl].
    destruct (rec_history_committed_at r); cbn; by eapply no_acquisition_put.
  - mem_run. destruct (_records s !! id) as [r|] eqn:E; cbn; [|apply no_acquisition_refl].
    by eapply no_acquisition_put.
Qed.

Lemma lease_live_false o now :
  lease_live o now = false ↔ ∀ h, o = Some h → lease_expires_at h ≤ now.
Proof.
  destruct o as [l|]; simpl; [|naive_solver]. rewrite Z.ltb_ge. naive_solver.
Qed.

(** A returning [acquire], step by step. *)
Lemma memory_acquire_Ret clk i owner ttl s l s' :
  memory_acquire clk i owner ttl s = (Ret l, s') →
  let c := id_conversation_id i in
  let now := clk 0%nat in
  ∃ r, _records s !! id_run_id i = Some r ∧ record_identity_error r i = None ∧
    lease_live (_leases s !! c) now = false ∧
    l = MkRunLease c (id_run_id i) owner (default 0 (_fencing s !! c) + 1) (now + seconds ttl) ∧
    s' = s <| _fencing := <[c := lease_fencing_token l]> (_fencing s) |>
           <| _leases := <[c := l]> (_leases s) |>
           <| _records := <[id_run_id i :=
                acquired_record (lease_fencing_token l) owner (lease_expires_at l) now r]>
                (_records s) |>.
Proof.
  rewrite memory_acquire_spec.
  destruct (_records s !! _) as [r|]; [|done].
  destruct (record_identity_error r i) eqn:?; [done|]. cbv zeta.
  destruct (lease_live _ _) eqn:?; [done|]. intros [= <- <-]. eauto 10.
Qed.

Lemma memory_acquire_Raise clk i owner ttl s e s' :
  memory_acquire clk i owner ttl s = (Raise e, s') → s' = s.
Proof. rewrite memory_acquire_spec. cbv zeta. repeat case_match; naive_solver. Qed.

Lemma memory_acquire_inv clk i owner ttl s :
  memory_inv s → memory_inv (memory_acquire clk i owner ttl s).2.
Proof.
  intros Hi. destruct (memory_acquire clk i owner ttl s) as [[l|e] s'] eqn:E;
    [|by rewrite (memory_acquire_Raise _ _ _ _ _ _ _ E)].
  apply memory_acquire_Ret in E as (r & Hr & Hid & _ & Hl & ->).
  apply record_identity_ok in Hid as (Hconv & _).
  destruct Hi as [H1 H2 H3]. split; cbn.
  - apply map_Forall_insert_2; [|done]. by apply (H1 _ _ Hr).
  - intros c h Hh. destruct (decide (c = id_conversation_id i)) as [->|Hne].
    + rewrite lookup_insert_eq in Hh. simplify_eq. cbn. rewrite !lookup_insert_eq. eauto.
    + rewrite lookup_insert_ne in Hh by done.
      destruct (H2 _ _ Hh) as (Hc & Ht & r0 & Hr0 & Hrc).
      rewrite lookup_insert_ne by done. repeat split; [done..|].
      destruct (decide (lease_run_id h = id_run_id i)) as [He|]; simplify_map_eq; eauto.
      congruence.
  - apply map_Forall_insert_2; [|done]. subst l; cbn.
    destruct (_fencing s !! _) as [t|] eqn:Et; simpl; [|lia].
    specialize (H3 _ _ Et). simpl in H3. lia.
Qed.

Lemma memory_acquire_records clk i owner ttl s id r :
  _records s !! id = Some r →
  ∃ r', _records (memory_acquire clk i owner ttl s).2 !! id = Some r' ∧
    same_binding r' r.
Proof.
  intros Hr. destruct (memory_acquire clk i owner ttl s) as [[l|e] s'] eqn:E; simpl.
  - apply memory_acquire_Ret in E as (r0 & Hr0 & _ & _ & _ & ->). cbn.
    destruct (decide (id_run_id i = id)) as [<-|]; simplify_map_eq;
      eexists; (split; [done|by repeat split]).
  - rewrite (memory_acquire_Raise _ _ _ _ _ _ _ E). eexists; split; [done|reflexivity].
Qed.

#[export, refine] Instance memory_laws : RunRepositoryLaws MemoryRunRepository := {|
  fence s c := default 0 (_fencing s !! c);
  holder s c := _leases s !! c;
  record_of s id := _records s !! id;
  repo_inv := memory_inv
|}.
Proof.
  - intros clk op s Hi. destruct op as [| |i owner ttl| | | | | |];
      try (by eapply no_acquisition_inv; [apply memory_not_acquire|]).
    rewrite exec_acquire. by apply memory_acquire_inv.
  - intros s c [_ _ H]. destruct (_fencing s !! c) as [t|] eqn:E; simpl; [|done].
    specialize (H _ _ E). simpl in H. lia.
  - intros s c h [_ H _] Hh. destruct (H _ _ Hh) as (-> & -> & _). done.
  - intros clk op s id r Hi Hr. destruct op as [| |i owner ttl| | | | | |];
      try (by eapply na_records; [apply memory_not_acquire|]).
    rewrite exec_acquire. eapply memory_acquire_records. exact Hr.
  - intros clk i s r _ Hr. cbn [create_or_get memory_repository]. mem_run. rewrite Hr; cbn. by destruct (record_identity_error r i).
  - intros clk i s r b s' _ Hr E. cbn [create_or_get memory_repository] in E. mem_run. rewrite Hr in E. cbn in E. simplify_eq. cbn.
    rewrite lookup_insert_eq. by rewrite new_record_identity.
  - intros clk i owner ttl s l s' Hi (r & Hr & _ & Hlive & -> & ->)%memory_acquire_Ret.
    rewrite lease_live_false in Hlive. cbn. by rewrite lookup_insert_eq.
  - intros clk i owner ttl s l s' c Hi (r & Hr & _ & Hlive & -> & ->)%memory_acquire_Ret Hne.
    cbn. by rewrite !lookup_insert_ne.
  - intros. by eapply memory_acquire_Raise.
  - intros clk op s c Hi Hop. by rewrite (na_fencing _ _ (memory_not_acquire clk op s Hi Hop)).
  - intros clk op l s a s' Hi Hg _ E. pose proof (memory_guarded clk op l s Hi Hg) as H.
    destruct (lease_ok _ _ _) eqn:Hok; [by apply lease_ok_spec|congruence].
  - intros clk op l s e s' Hi Hg E. pose proof (memory_guarded clk op l s Hi Hg) as H.
    destruct (lease_ok _ _ _); [destruct H as (? & ? & ? & _); congruence|].
    rewrite E in H. by simplify_eq.
Defined.
