(* ===== verification/PostgresRepo.v ===== *)
(** * The PostgreSQL run repository

    [PostgresRunRepository] of [app/state/run_repository.py] over the tables of
    [migrations/0001_run_repository.sql].  A table is a finite map from its
    primary key to its row; one SQL statement is one atomic action; [NOW()] is
    the start of the transaction, [clk 0].  A block [async with
    connection.transaction()] undoes its statements when it raises.  A [uuid]
    column holds the canonical text the code passes.  [jsonb d] is what the
    [JSONB] column returns for a payload [d] stored in it (PostgreSQL normalises
    key order and number syntax): a parameter. *)

From S2P Require Import Prelude PyData RunTypes RunRepo.

Record RunRow : Type := MkRunRow {
  row_run_id : string;
  row_conversation_id : string;
  row_execution_thread_id : string;
  row_request_hash : string;
  row_request_hash_version : Z;
  row_state_schema_version : Z;
  row_status : RunStatus;
  row_lease_owner : option string;
  row_lease_expires_at : option Z;
  row_fencing_token : option Z;
  row_checkpoint_id : option string;
  row_response_payload : option pydict;
  row_termination_reason : option string;
  row_error_code : option string;
  row_created_at : Z;
  row_updated_at : Z;
  row_started_at : option Z;
  row_completed_at : option Z;
  row_history_committed_at : option Z;
  row_resume_token_version : Z
}.

#[export] Instance eta_RunRow : Eta RunRow := λ r,
  MkRunRow (row_run_id r) (row_conversation_id r) (row_execution_thread_id r)
    (row_request_hash r) (row_request_hash_version r) (row_state_schema_version r)
    (row_status r) (row_lease_owner r) (row_lease_expires_at r) (row_fencing_token r)
    (row_checkpoint_id r) (row_response_payload r) (row_termination_reason r)
    (row_error_code r) (row_created_at r) (row_updated_at r) (row_started_at r)
    (row_completed_at r) (row_history_committed_at r) (row_resume_token_version r).

(** A row of [app_conversation_leases], keyed by its conversation. *)
Record LeaseRow : Type := MkLeaseRow {
  lrow_run_id : string;
  lrow_lease_owner : string;
  lrow_fencing_token : Z;
  lrow_lease_expires_at : Z;
  lrow_updated_at : Z
}.

#[export] Instance eta_LeaseRow : Eta LeaseRow := λ r,
  MkLeaseRow (lrow_run_id r) (lrow_lease_owner r) (lrow_fencing_token r)
    (lrow_lease_expires_at r) (lrow_updated_at r).

Record PostgresRunRepository : Type := MkPostgres {
  app_runs : gmap string RunRow;
  app_conversation_leases : gmap string LeaseRow;
  pg_pool : bool;        (** [self._pool is not None] *)
  pg_owns_pool : bool;
  pg_started : bool
}.

#[export] Instance eta_Postgres : Eta PostgresRunRepository := λ s,
  MkPostgres (app_runs s) (app_conversation_leases s) (pg_pool s) (pg_owns_pool s)
    (pg_started s).

(** ** Pool life cycle

    [create], [migrate], [close] are the outcomes of [asyncpg.create_pool], of
    the migration block and of [pool.close()]. *)

Definition postgres_init (pool_given : bool) : PostgresRunRepository :=
  MkPostgres ∅ ∅ pool_given (negb pool_given) false.

Definition postgres_start (auto_setup : bool) (create migrate close : outcome unit) :
    M PostgresRunRepository unit :=
  let! started := gets pg_started in
  if started then ret tt
  else
    let! pool := gets pg_pool in
    (if pool then ret tt
     else of_outcome create ;;;
          modify (λ s, s <| pg_pool := true |> <| pg_owns_pool := true |>)) ;;;
    try_except (if auto_setup then of_outcome migrate else ret tt)
      (λ e, Some (
        let! owned := gets (λ s, pg_owns_pool s && pg_pool s) in
        (if owned then of_outcome close ;;; modify (λ s, s <| pg_pool := false |>)
         else ret tt) ;;;
        raise e)) ;;;
    modify (λ s, s <| pg_started := true |>).

Definition postgres_aclose (close : outcome unit) : M PostgresRunRepository unit :=
  let! owned := gets (λ s, pg_pool s && pg_owns_pool s) in
  (if owned then of_outcome close else ret tt) ;;;
  modify (λ s, s <| pg_pool := false |> <| pg_started := false |>).

Definition _require_pool : M PostgresRunRepository unit :=
  let! pool := gets pg_pool in
  if pool then ret tt
  else raise (PyExn RuntimeError "PostgreSQL run repository is not started").

(** [async with connection.transaction(): m]. *)
Definition transaction {A} (m : M PostgresRunRepository A) : M PostgresRunRepository A := λ s,
  match m s with
  | (Ret a, s') => (Ret a, s')
  | (Raise e, _) => (Raise e, s)
  end.

(** Arithmetic on [BIGINT] and [INTEGER] columns. *)
Definition bigint_max : Z := 2 ^ 63 - 1.
Definition integer_max : Z := 2 ^ 31 - 1.
Definition out_of_range (type_name : string) : exn :=
  PyExn OtherError (type_name +:+ " out of range").

Section operations.
Variable jsonb : pydict → pydict.

Definition _record_from_row (row : RunRow) : RunRecord := {|
  rec_run_id := row_run_id row;
  rec_conversation_id := row_conversation_id row;
  rec_execution_thread_id := row_execution_thread_id row;
  rec_request_hash := row_request_hash row;
  rec_request_hash_version := row_request_hash_version row;
  rec_state_schema_version := row_state_schema_version row;
  rec_status := row_status row;
  rec_fencing_token := row_fencing_token row;
  rec_lease_owner := row_lease_owner row;
  rec_lease_expires_at := row_lease_expires_at row;
  rec_checkpoint_id := row_checkpoint_id row;
  rec_response_payload := row_response_payload row;
  rec_termination_reason := row_termination_reason row;
  rec_error_code := row_error_code row;
  rec_created_at := Some (row_created_at row);
  rec_updated_at := Some (row_updated_at row);
  rec_started_at := row_started_at row;
  rec_completed_at := row_completed_at row;
  rec_history_committed_at := row_history_committed_at row;
  rec_resume_token_version := row_resume_token_version row
|}.

Definition set_row (run_id : string) (row : RunRow) : M PostgresRunRepository unit :=
  modify (λ s, s <| app_runs := <[run_id := row]> (app_runs s) |>).

(** The row the [INSERT] of [create_or_get] makes, with the column defaults. *)
Definition inserted_row (identity : RunIdentity) (now : Z) : RunRow := {|
  row_run_id := id_run_id identity;
  row_conversation_id := id_conversation_id identity;
  row_execution_thread_id := id_execution_thread_id identity;
  row_request_hash := id_request_hash identity;
  row_request_hash_version := id_request_hash_version identity;
  row_state_schema_version := id_state_schema_version identity;
  row_status := Pending;
  row_lease_owner := None;
  row_lease_expires_at := None;
  row_fencing_token := None;
  row_checkpoint_id := None;
  row_response_payload := None;
  row_termination_reason := None;
  row_error_code := None;
  row_created_at := now;
  row_updated_at := now;
  row_started_at := None;
  row_completed_at := None;
  row_history_committed_at := None;
  row_resume_token_version := id_resume_token_version identity
|}.

(** The [UNIQUE] constraint on [execution_thread_id]. *)
Definition thread_taken (s : PostgresRunRepository) (thread : string) : bool :=
  existsb (λ kv, String.eqb (row_execution_thread_id kv.2) thread)
  (map_to_list (app_runs s)).

(** [INSERT ... ON CONFLICT (run_id) DO NOTHING RETURNING *]. *)
Definition insert_run (now : Z) (identity : RunIdentity) :
  M PostgresRunRepository (option RunRow) :=
  let! found := gets (λ s, app_runs s !! id_run_id identity) in
  match found with
  | Some _ => ret None
  | None =>
    let! taken := gets (λ s, thread_taken s (id_execution_thread_id identity)) in
    if taken then raise (PyExn OtherError "UniqueViolationError")
    else
      let row := inserted_row identity now in
      set_row (id_run_id identity) row ;;; ret (Some row)
  end.

Definition select_run (run_id : string) : M PostgresRunRepository (option RunRow) :=
  gets (λ s, app_runs s !! run_id).

Definition postgres_create_or_get (clk : clock) (identity : RunIdentity) :
  M PostgresRunRepository (RunRecord * bool) :=
  _require_pool ;;;
  let! inserted := insert_run (clk 0%nat) identity in
  let! row := match inserted with
            | Some row => ret (Some row)
            | None => select_run (id_run_id identity)
            end in
  match row with
  | None => raise (PyExn RuntimeError "Run insertion did not return a record")
  | Some row =>
    let record := _record_from_row row in
    _validate_record_identity record identity ;;;
    ret (record, match inserted with Some _ => true | None => false end)
  end.

Definition postgres_get (run_id : string) : M PostgresRunRepository (option RunRecord) :=
  _require_pool ;;;
  let! row := select_run run_id in
  ret (_record_from_row <$> row).

Definition to_lease (c : string) (row : LeaseRow) : RunLease :=
  MkRunLease c (lrow_run_id row) (lrow_lease_owner row) (lrow_fencing_token row)
  (lrow_lease_expires_at row).

Definition set_lease (c : string) (row : LeaseRow) : M PostgresRunRepository unit :=
  modify (λ s, s <| app_conversation_leases := <[c := row]> (app_conversation_leases s) |>).

(** [INSERT INTO app_conversation_leases ... ON CONFLICT (conversation_id)
DO UPDATE ... WHERE lease_expires_at <= NOW() RETURNING ...]. *)
Definition upsert_lease (now : Z) (c run_id owner : string) (ttl : Z) :
  M PostgresRunRepository (option LeaseRow) :=
  let! found := gets (λ s, app_conversation_leases s !! c) in
  match found with
  | None =>
    let row := MkLeaseRow run_id owner 1 (now + seconds ttl) now in
    set_lease c row ;;; ret (Some row)
  | Some old =>
    if lrow_lease_expires_at old <=? now then
      if bigint_max <? lrow_fencing_token old + 1 then raise (out_of_range "bigint")
      else
        let row := MkLeaseRow run_id owner (lrow_fencing_token old + 1)
                     (now + seconds ttl) now in
        set_lease c row ;;; ret (Some row)
    else ret None
  end.

Definition running_row (owner : string) (token expires now : Z) (row : RunRow) : RunRow :=
  row <| row_status := Running |>
    <| row_lease_owner := Some owner |>
    <| row_fencing_token := Some token |>
    <| row_lease_expires_at := Some expires |>
    <| row_started_at := Some (default now (row_started_at row)) |>
    <| row_updated_at := now |>.

(** The [SET] clauses of the other statements. *)
Definition renewed_row (expires now : Z) (row : RunRow) : RunRow :=
  row <| row_lease_expires_at := Some expires |> <| row_updated_at := now |>.

Definition outcome_row (status : OutcomeStatus) (payload : option pydict)
  (reason code checkpoint : option string) (now : Z) (row : RunRow) : RunRow :=
  row <| row_status := outcome_status status |>
    <| row_response_payload := jsonb <$> payload |>
    <| row_termination_reason := reason |>
    <| row_error_code := code |>
    <| row_checkpoint_id := checkpoint |>
    <| row_completed_at :=
         match status with
         | OutCompleted | OutFailed | OutCancelled => Some now
         | OutInterrupted => None
         end |>
    <| row_updated_at := now |>.

Definition history_row (payload : option pydict) (now : Z) (row : RunRow) : RunRow :=
  row <| row_history_committed_at := Some (default now (row_history_committed_at row)) |>
    <| row_response_payload :=
         match payload with Some d => Some (jsonb d) | None => row_response_payload row end |>
    <| row_updated_at := now |>.

(** [UPDATE app_runs SET ... WHERE run_id = $1 AND cond RETURNING *]. *)
Definition update_run (run_id : string) (cond : PostgresRunRepository → RunRow → bool)
  (f : RunRow → RunRow) : M PostgresRunRepository (option RunRow) :=
  let! s := gets (λ s, s) in
  match app_runs s !! run_id with
  | Some row =>
    if cond s row then set_row run_id (f row) ;;; ret (Some (f row)) else ret None
  | None => ret None
  end.

Definition postgres_acquire (clk : clock) (identity : RunIdentity) (owner_id : string)
  (ttl_seconds : Z) : M PostgresRunRepository RunLease :=
  _require_pool ;;;
  let now := clk 0%nat in
  let c := id_conversation_id identity in
  transaction (
  let! row := upsert_lease now c (id_run_id identity) owner_id ttl_seconds in
  match row with
  | None => raise (busy "Another run is already active for this conversation")
  | Some row =>
      let! updated := update_run (id_run_id identity) (λ _ _, true)
        (running_row owner_id (lrow_fencing_token row) (lrow_lease_expires_at row) now) in
      match updated with
      | None => raise (conflict "The run record does not exist")
      | Some _ => ret (to_lease c row)
      end
  end).

(** [lease_owner = $2 AND fencing_token = $3] and the rest of the [WHERE]
clause on the lease row of a conversation. *)
Definition lease_matches (o : option LeaseRow) (lease : RunLease) : bool :=
  match o with
  | Some row =>
    String.eqb (lrow_run_id row) (lease_run_id lease)
    && String.eqb (lrow_lease_owner row) (lease_owner_id lease)
    && (lrow_fencing_token row =? lease_fencing_token lease)
  | None => false
  end.
Definition lease_unexpired (o : option LeaseRow) (now : Z) : bool :=
  match o with Some row => now <? lrow_lease_expires_at row | None => false end.

Definition postgres_renew (clk : clock) (lease : RunLease) (ttl_seconds : Z) :
  M PostgresRunRepository RunLease :=
  _require_pool ;;;
  let now := clk 0%nat in
  let c := lease_conversation_id lease in
  let expires := now + seconds ttl_seconds in
  transaction (
  let! found := gets (λ s, app_conversation_leases s !! c) in
  match found with
  | Some row =>
      if lease_matches found lease && lease_unexpired found now then
        set_lease c (row <| lrow_lease_expires_at := expires |> <| lrow_updated_at := now |>) ;;;
        update_run (lease_run_id lease)
          (λ _ r, bool_decide (row_fencing_token r = Some (lease_fencing_token lease)))
          (renewed_row expires now) ;;;
        ret tt
      else raise (stale "The run no longer owns the conversation lease")
  | None => raise (stale "The run no longer owns the conversation lease")
  end) ;;;
  ret (lease <| lease_expires_at := expires |>).

Definition postgres_release (clk : clock) (lease : RunLease) : M PostgresRunRepository unit :=
  _require_pool ;;;
  let now := clk 0%nat in
  let c := lease_conversation_id lease in
  let! found := gets (λ s, app_conversation_leases s !! c) in
  match found with
  | Some row =>
    if lease_matches found lease then
      set_lease c (row <| lrow_lease_expires_at := now |> <| lrow_updated_at := now |>)
    else ret tt
  | None => ret tt
  end.

(** The fencing condition of [mark_terminal] and [mark_history_committed]. *)
Definition fenced_row (lease : RunLease) (now : Z) (s : PostgresRunRepository) (r : RunRow) : bool :=
  let found := app_conversation_leases s !! row_conversation_id r in
  bool_decide (row_lease_owner r = Some (lease_owner_id lease))
  && bool_decide (row_fencing_token r = Some (lease_fencing_token lease))
  && lease_matches found lease && lease_unexpired found now.

Definition postgres_mark_terminal (clk : clock) (lease : RunLease) (status : OutcomeStatus)
  (response_payload : option pydict)
  (termination_reason error_code checkpoint_id : option string) :
  M PostgresRunRepository RunRecord :=
  _require_pool ;;;
  let now := clk 0%nat in
  let! row := update_run (lease_run_id lease) (fenced_row lease now)
  (outcome_row status response_payload termination_reason error_code checkpoint_id now) in
  match row with
  | None => raise (stale "A stale run owner cannot persist an outcome")
  | Some row => ret (_record_from_row row)
  end.

Definition postgres_mark_history_committed (clk : clock) (lease : RunLease)
  (response_payload : option pydict) : M PostgresRunRepository RunRecord :=
  _require_pool ;;;
  let now := clk 0%nat in
  let! row := update_run (lease_run_id lease) (fenced_row lease now)
  (history_row response_payload now) in
  match row with
  | None => raise (stale "A stale run owner cannot commit conversation history")
  | Some row => ret (_record_from_row row)
  end.

Definition postgres_reconcile_history_committed (clk : clock) (run_id : string)
  (response_payload : option pydict) : M PostgresRunRepository RunRecord :=
  _require_pool ;;;
  let! row := update_run run_id
  (λ _ r, match row_status r with Completed | Failed | Cancelled => true | _ => false end)
  (history_row response_payload (clk 0%nat)) in
  match row with
  | None => raise (conflict "The terminal run record does not exist")
  | Some row => ret (_record_from_row row)
  end.

Definition postgres_revoke_resume_tokens (clk : clock) (run_id : string) :
  M PostgresRunRepository Z :=
  _require_pool ;;;
  let! found := select_run run_id in
  match found with
  | None => raise (conflict "The run record does not exist")
  | Some row =>
    let version := row_resume_token_version row + 1 in
    if integer_max <? version then raise (out_of_range "integer")
    else
      set_row run_id (row <| row_resume_token_version := version |>
                          <| row_updated_at := clk 0%nat |>) ;;;
      ret version
  end.

Definition postgres_repository : RunRepository PostgresRunRepository := {|
  create_or_get := postgres_create_or_get;
  get := postgres_get;
  acquire := postgres_acquire;
  renew := postgres_renew;
  release := postgres_release;
  mark_terminal := postgres_mark_terminal;
  mark_history_committed := postgres_mark_history_committed;
  reconcile_history_committed := postgres_reconcile_history_committed;
  revoke_resume_tokens := postgres_revoke_resume_tokens
|}.
End operations.

(** ** The invariant and the laws *)

(** The pool is open, rows are keyed by their run, tokens are positive. *)
Record postgres_inv (s : PostgresRunRepository) : Prop := {
  pi_pool : pg_pool s = true;
  pi_runs : map_Forall (λ k r, row_run_id r = k) (app_runs s);
  pi_leases : map_Forall (λ _ r, 1 ≤ lrow_fencing_token r) (app_conversation_leases s)
}.

Definition pg_token (s : PostgresRunRepository) (c : string) : option Z :=
  lrow_fencing_token <$> app_conversation_leases s !! c.

(** The request a row is bound to, as [same_binding] of records. *)
Definition row_binding (a b : RunRow) : Prop :=
  same_binding (_record_from_row a) (_record_from_row b).

(** What every operation but [acquire] does. *)
Record pg_no_acquisition (s s' : PostgresRunRepository) : Prop := {
  pa_pool : pg_pool s' = pg_pool s;
  pa_token : ∀ c, pg_token s' c = pg_token s c;
  pa_runs : ∀ id r, app_runs s !! id = Some r →
    ∃ r', app_runs s' !! id = Some r' ∧ row_binding r' r;
  pa_keyed : map_Forall (λ k r, row_run_id r = k) (app_runs s) →
    map_Forall (λ k r, row_run_id r = k) (app_runs s')
}.

#[export] Instance pg_no_acquisition_preorder : PreOrder pg_no_acquisition.
Proof.
  split.
  - intros s. split; [done..| |done]. intros id r Hr. exists r. split; [done|]. apply same_binding_refl.
  - intros s1 s2 s3 [P1 T1 R1 K1] [P2 T2 R2 K2]. split; [congruence|congruence| |auto].
    intros id r Hr. destruct (R1 _ _ Hr) as (r2 & Hr2 & B1).
    destruct (R2 _ _ Hr2) as (r3 & Hr3 & B2). exists r3. split; [done|].
    unfold row_binding in *. by etrans.
Qed.

Lemma pg_no_acquisition_inv s s' :
  pg_no_acquisition s s' → postgres_inv s → postgres_inv s'.
Proof.
  intros [P T _ K] [I1 I2 I3]. split; [congruence|auto|].
  intros c r Hr. specialize (T c). unfold pg_token in T. rewrite Hr in T. simpl in T.
  destruct (app_conversation_leases s !! c) as [r0|] eqn:E; simplify_eq/=.
  match goal with H : lrow_fencing_token r = _ |- _ => rewrite H end. by apply (I3 c).
Qed.

Lemma pg_set_row s id r0 r :
  app_runs s !! id = Some r0 → row_binding r r0 →
  pg_no_acquisition s (s <| app_runs := <[id := r]> (app_runs s) |>).
Proof.
  intros Hid Hb. split; cbn; [done|done| |].
  - intros k r1 Hk. destruct (decide (id = k)) as [<-|]; simplify_map_eq; [by eauto|].
    exists r1. split; [done|apply same_binding_refl].
  - intros Hk. apply map_Forall_insert_2; [|done].
    destruct Hb as [Hb _]. simpl in Hb. rewrite Hb. by apply (Hk id).
Qed.

Lemma pg_new_row s id r :
  app_runs s !! id = None → row_run_id r = id →
  pg_no_acquisition s (s <| app_runs := <[id := r]> (app_runs s) |>).
Proof.
  intros Hid Hr. split; cbn; [done|done| |].
  - intros k r1 Hk. destruct (decide (id = k)) as [<-|]; simplify_map_eq.
    exists r1. split; [done|apply same_binding_refl].
  - intros Hk. by apply map_Forall_insert_2.
Qed.

Lemma pg_set_lease s c r0 r :
  app_conversation_leases s !! c = Some r0 → lrow_fencing_token r = lrow_fencing_token r0 →
  pg_no_acquisition s
    (s <| app_conversation_leases := <[c := r]> (app_conversation_leases s) |>).
Proof.
  intros Hc Ht. split; cbn; [done| | |done].
  - intros c'. unfold pg_token. cbn.
    destruct (decide (c = c')) as [<-|]; simplify_map_eq; congruence.
  - intros id r1 Hr1. exists r1. split; [done|apply same_binding_refl].
Qed.

#[local] Arguments update_run : simpl never.

(** [UPDATE app_runs] on each branch. *)
Lemma update_run_spec id cond f s :
  update_run id cond f s =
  match app_runs s !! id with
  | Some row =>
      if cond s row
      then (Ret (Some (f row)), s <| app_runs := <[id := f row]> (app_runs s) |>)
      else (Ret None, s)
  | None => (Ret None, s)
  end.
Proof.
  unfold update_run, bind, gets, set_row, modify, ret.
  destruct (app_runs s !! id); [by destruct (cond _ _)|done].
Qed.

Lemma update_run_no_acquisition id cond f s :
  (∀ row, row_binding (f row) row) →
  pg_no_acquisition s (update_run id cond f s).2.
Proof.
  intros Hf. rewrite update_run_spec.
  destruct (app_runs s !! id) as [row|] eqn:E; [destruct (cond s row)|]; try done.
  by eapply pg_set_row.
Qed.

Lemma require_pool_spec s : pg_pool s = true → _require_pool s = (Ret tt, s).
Proof. intros H. unfold _require_pool, bind, gets. by rewrite H. Qed.

Lemma require_pool_bind {A} (k : M PostgresRunRepository A) s :
  pg_pool s = true → (_require_pool ;;; k) s = k s.
Proof. intros H. unfold bind. by rewrite require_pool_spec. Qed.

Definition pg_fence (s : PostgresRunRepository) (c : string) : Z := default 0 (pg_token s c).
Definition pg_holder (s : PostgresRunRepository) (c : string) : option RunLease :=
  to_lease c <$> app_conversation_leases s !! c.

(** [acquire] on each branch. *)
Lemma postgres_acquire_spec clk i owner ttl s :
  pg_pool s = true →
  postgres_acquire clk i owner ttl s =
  let c := id_conversation_id i in
  let now := clk 0%nat in
  let token := pg_fence s c + 1 in
  if lease_unexpired (app_conversation_leases s !! c) now then
    (Raise (busy "Another run is already active for this conversation"), s)
  else if bigint_max <? token then (Raise (out_of_range "bigint"), s)
  else
    match app_runs s !! id_run_id i with
    | None => (Raise (conflict "The run record does not exist"), s)
    | Some row =>
        let expires := now + seconds ttl in
        (Ret (MkRunLease c (id_run_id i) owner token expires),
         s <| app_conversation_leases :=
                <[c := MkLeaseRow (id_run_id i) owner token expires now]>
                  (app_conversation_leases s) |>
           <| app_runs :=
                <[id_run_id i := running_row owner token expires now row]> (app_runs s) |>)
    end.
Proof.
  intros Hp. unfold postgres_acquire. rewrite require_pool_bind by done.
  unfold transaction, bind at 1, upsert_lease, pg_fence, pg_token.
  unfold bind at 1, gets at 1. cbv zeta.
  destruct (app_conversation_leases s !! id_conversation_id i) as [old|] eqn:E; cbn.
  - destruct (Z.leb_spec (lrow_lease_expires_at old) (clk 0%nat)) as [Hle|Hlt].
    + rewrite (proj2 (Z.ltb_ge _ _) Hle).
      destruct (bigint_max <? _); [done|]. unfold bind, set_lease, modify, ret. cbn.
      rewrite update_run_spec. cbn. by destruct (app_runs s !! id_run_id i).
    + by rewrite (proj2 (Z.ltb_lt _ _) Hlt).
  - unfold bind, set_lease, modify, ret. cbn. rewrite update_run_spec. cbn.
    by destruct (app_runs s !! id_run_id i).
Qed.

Lemma lease_unexpired_false c o now :
  lease_unexpired o now = false ↔ ∀ h, to_lease c <$> o = Some h → lease_expires_at h ≤ now.
Proof.
  destruct o as [row|]; simpl; [|by split]. rewrite Z.ltb_ge.
  split; [by intros Hle h [= <-]|]. intros Hh. exact (Hh _ eq_refl).
Qed.

(** A returning [acquire], statement by statement. *)
Lemma postgres_acquire_Ret clk i owner ttl s l s' :
  pg_pool s = true →
  postgres_acquire clk i owner ttl s = (Ret l, s') →
  let c := id_conversation_id i in
  let now := clk 0%nat in
  ∃ row, app_runs s !! id_run_id i = Some row ∧
    (∀ h, pg_holder s c = Some h → lease_expires_at h ≤ now) ∧
    l = MkRunLease c (id_run_id i) owner (pg_fence s c + 1) (now + seconds ttl) ∧
    s' = s <| app_conversation_leases := <[c :=
              MkLeaseRow (id_run_id i) owner (lease_fencing_token l) (lease_expires_at l) now]>
              (app_conversation_leases s) |>
           <| app_runs := <[id_run_id i :=
              running_row owner (lease_fencing_token l) (lease_expires_at l) now row]>
              (app_runs s) |>.
Proof.
  intros Hp. rewrite postgres_acquire_spec by done. cbv zeta.
  destruct (lease_unexpired _ _) eqn:Hl; [done|]. destruct (bigint_max <? _); [done|].
  destruct (app_runs s !! id_run_id i) as [row|] eqn:Er; [|done].
  intros [= <- <-]. exists row. repeat split; [|done..].
  by apply lease_unexpired_false.
Qed.

Lemma postgres_acquire_Raise clk i owner ttl s e s' :
  postgres_acquire clk i owner ttl s = (Raise e, s') → s' = s.
Proof.
  unfold postgres_acquire, bind at 1, _require_pool, bind at 1, gets at 1.
  destruct (pg_pool s); cbn; [|by intros [= _ <-]].
  unfold transaction. by case_match; case_match; intros [= _ <-].
Qed.

Lemma postgres_acquire_inv clk i owner ttl s :
  postgres_inv s → postgres_inv (postgres_acquire clk i owner ttl s).2.
Proof.
  intros Hi. destruct (postgres_acquire clk i owner ttl s) as [[l|e] s'] eqn:E;
    [|by rewrite (postgres_acquire_Raise _ _ _ _ _ _ _ E)].
  apply postgres_acquire_Ret in E as (row & Hr & _ & Hl & ->); [|apply Hi].
  destruct Hi as [H1 H2 H3]. split; cbn; [done|..].
  - apply map_Forall_insert_2; [|done]. by apply (H2 _ _ Hr).
  - apply map_Forall_insert_2; [|done]. subst l; cbn. unfold pg_fence, pg_token.
    destruct (app_conversation_leases s !! _) as [r|] eqn:Er; cbn; [|lia].
    specialize (H3 _ _ Er). simpl in H3. lia.
Qed.

Lemma postgres_acquire_runs clk i owner ttl s id r :
  pg_pool s = true → app_runs s !! id = Some r →
  ∃ r', app_runs (postgres_acquire clk i owner ttl s).2 !! id = Some r' ∧ row_binding r' r.
Proof.
  intros Hp Hr. destruct (postgres_acquire clk i owner ttl s) as [[l|e] s'] eqn:E; simpl.
  - apply postgres_acquire_Ret in E as (row & Hr0 & _ & _ & ->); [|done]. cbn.
    destruct (decide (id_run_id i = id)) as [<-|]; simplify_map_eq.
    + eexists. split; [done|]. by repeat split.
    + exists r. split; [done|apply same_binding_refl].
  - rewrite (postgres_acquire_Raise _ _ _ _ _ _ _ E).
    exists r. split; [done|apply same_binding_refl].
Qed.

(** The lease row [same_owner] of the holder. *)
Lemma lease_matches_owner c row lease :
  lease_conversation_id lease = c →
  lease_matches (Some row) lease = same_owner (to_lease c row) lease.
Proof.
  intros <-. unfold same_owner. cbn. by rewrite String.eqb_refl.
Qed.

Lemma lease_live_holder s c lease now :
  lease_conversation_id lease = c →
  let found := app_conversation_leases s !! c in
  lease_matches found lease && lease_unexpired found now = true →
  ∃ h, pg_holder s c = Some h ∧ same_owner h lease = true ∧ now < lease_expires_at h.
Proof.
  intros Hc. unfold pg_holder. destruct (app_conversation_leases s !! c) as [row|]; [|done].
  cbn [fmap option_fmap option_map]. rewrite (lease_matches_owner c) by done.
  intros [Ho Hl]%andb_true_iff. simpl in Hl. apply Z.ltb_lt in Hl. eauto.
Qed.

Section laws.
Variable jsonb : pydict → pydict.

Lemma outcome_row_binding st p reason code cp now row :
  row_binding (outcome_row jsonb st p reason code cp now row) row.
Proof. by repeat split. Qed.
Lemma history_row_binding p now row : row_binding (history_row jsonb p now row) row.
Proof. by repeat split. Qed.
Lemma renewed_row_binding e now row : row_binding (renewed_row e now row) row.
Proof. by repeat split. Qed.
Hint Resolve outcome_row_binding history_row_binding renewed_row_binding : core.

(** A fenced [UPDATE] followed by the check of the returned row. *)
Definition checked {A} (m : M PostgresRunRepository (option RunRow)) (e : exn)
  (k : RunRow → A) : M PostgresRunRepository A :=
  let! row := m in
  match row with None => raise e | Some row => ret (k row) end.

Lemma checked_no_acquisition {A} id cond f e (k : RunRow → A) s :
  (∀ row, row_binding (f row) row) →
  pg_no_acquisition s (checked (update_run id cond f) e k s).2.
Proof.
  intros Hf. pose proof (update_run_no_acquisition id cond f s Hf) as H.
  unfold checked, bind. destruct (update_run id cond f s) as [[[row|]|e'] s']; exact H.
Qed.

(** Its success means the condition held; its failure changes nothing. *)
Lemma checked_outcome {A} id cond f e (k : RunRow → A) s :
  match checked (update_run id cond f) e k s with
  | (Ret _, _) => ∃ row, app_runs s !! id = Some row ∧ cond s row = true
  | (Raise e', s') => e' = e ∧ s' = s
  end.
Proof.
  unfold checked, bind. rewrite update_run_spec.
  destruct (app_runs s !! id) as [row|] eqn:E; [|done].
  destruct (cond s row) eqn:Ec; cbn; [eauto|done].
Qed.

Lemma postgres_renew_shape clk l ttl s :
  pg_pool s = true →
  match postgres_renew clk l ttl s with
  | (Ret _, s') =>
    (∃ h, pg_holder s (lease_conversation_id l) = Some h ∧ same_owner h l = true ∧
      clk 0%nat < lease_expires_at h) ∧ pg_no_acquisition s s'
  | (Raise e, s') => is_stale e = true ∧ s' = s
  end.
Proof.
  intros Hp. unfold postgres_renew. rewrite require_pool_bind by done.
  unfold bind at 1, transaction, bind at 1, gets at 1.
  destruct (app_conversation_leases s !! lease_conversation_id l) as [row|] eqn:E; [|done].
  destruct (lease_matches _ _ && lease_unexpired _ _) eqn:Hok; [|done].
  unfold bind, set_lease, modify.
  pose proof (pg_set_lease s _ _ (row <| lrow_lease_expires_at := clk 0%nat + seconds ttl |>
  <| lrow_updated_at := clk 0%nat |>) E eq_refl) as H1.
  match goal with |- context [update_run ?id ?c ?f ?s1] =>
  pose proof (update_run_no_acquisition id c f s1 ltac:(eauto)) as H2;
  pose proof (update_run_spec id c f s1) as H3;
  destruct (update_run id c f s1) as [[o|e] s2]
  end.
  - split; [|by etrans]. apply lease_live_holder; [done|]. by rewrite E.
  - repeat case_match; simplify_eq.
Qed.

(** Every guarded operation: success only for the live holder, with no new
acquisition; failure is [StaleLeaseError] without change. *)
Lemma postgres_guarded clk op l s :
  postgres_inv s → guarded_by op = Some l →
  match @exec _ (postgres_repository jsonb) clk op s with
  | (Ret _, s') => pg_no_acquisition s s' ∧
    ((∃ r, app_runs s !! lease_run_id l = Some r ∧
        row_conversation_id r = lease_conversation_id l) →
     ∃ h, pg_holder s (lease_conversation_id l) = Some h ∧ same_owner h l = true ∧
       clk 0%nat < lease_expires_at h)
  | (Raise e, s') => is_stale e = true ∧ s' = s
  end.
Proof.
  intros [Hp _ _] Hg.
  assert (Hchk : ∀ A f e (k : RunRow → A), is_stale e = true →
  (∀ row, row_binding (f row) row) →
  match checked (update_run (lease_run_id l) (fenced_row l (clk 0%nat)) f) e k s with
  | (Ret _, s') => pg_no_acquisition s s' ∧
      ((∃ r, app_runs s !! lease_run_id l = Some r ∧
          row_conversation_id r = lease_conversation_id l) →
       ∃ h, pg_holder s (lease_conversation_id l) = Some h ∧ same_owner h l = true ∧
         clk 0%nat < lease_expires_at h)
  | (Raise e, s') => is_stale e = true ∧ s' = s
  end).
  { intros A f e k He Hf.
  pose proof (checked_outcome (lease_run_id l) (fenced_row l (clk 0%nat)) f e k s) as Ho.
  pose proof (checked_no_acquisition (lease_run_id l) (fenced_row l (clk 0%nat)) f e k s Hf).
  destruct (checked _ e k s) as [[a|e'] s']; [|destruct Ho as [-> ->]; done].
  split; [done|]. destruct Ho as (row & Hr & Hc). intros (r & Hr' & Hconv).
  rewrite Hr in Hr'. simplify_eq. apply lease_live_holder; [done|].
  unfold fenced_row in Hc. rewrite Hconv, !andb_true_iff in Hc. rewrite andb_true_iff. tauto. }
  destruct op as [| | |l' ttl| |l' st p reason code cp|l' p| |]; simplify_eq/=;
  unfold bind at 1.
  - pose proof (postgres_renew_shape clk l ttl s Hp) as H.
  destruct (postgres_renew clk l ttl s) as [[a|e] s']; [|done]. cbn. naive_solver.
  - specialize (Hchk _ (outcome_row jsonb st p reason code cp (clk 0%nat))
    (stale "A stale run owner cannot persist an outcome") _record_from_row eq_refl
    ltac:(eauto)).
  unfold postgres_mark_terminal. rewrite require_pool_bind by done. cbv zeta.
  fold (checked (A:=RunRecord)) in *. unfold checked in Hchk. revert Hchk.
  by destruct (bind _ _ s) as [[a|e] s'].
  - specialize (Hchk _ (history_row jsonb p (clk 0%nat))
    (stale "A stale run owner cannot commit conversation history") _record_from_row eq_refl
    ltac:(eauto)).
  unfold postgres_mark_history_committed. rewrite require_pool_bind by done. cbv zeta.
  unfold checked in Hchk. revert Hchk. by destruct (bind _ _ s) as [[a|e] s'].
Qed.

Lemma postgres_not_acquire clk op s :
  postgres_inv s → (∀ i owner ttl, op ≠ OpAcquire i owner ttl) →
  pg_no_acquisition s (@exec _ (postgres_repository jsonb) clk op s).2.
Proof.
  intros Hi Hop. destruct (guarded_by op) as [l|] eqn:Hg.
  { pose proof (postgres_guarded clk op l s Hi Hg) as H.
  destruct (exec clk op s) as [[a|e] s']; [by destruct H|by destruct H as [_ ->]]. }
  destruct Hi as [Hp Hrows _].
  destruct op as [i|id|i owner ttl| |l| | |id p|id]; simplify_eq/=; unfold bind at 1.
  - unfold postgres_create_or_get. rewrite require_pool_bind by done.
  unfold insert_run, bind, gets, set_row, modify, select_run, ret, raise, gets,
    _validate_record_identity.
  destruct (app_runs s !! id_run_id i) as [row|] eqn:E; cbn.
  + rewrite E. by destruct (record_identity_error _ _).
  + destruct (thread_taken _ _); cbn; [done|].
    destruct (record_identity_error _ _); cbn; by apply pg_new_row.
  - unfold postgres_get. by rewrite require_pool_bind.
  - by destruct (Hop i owner ttl).
  - unfold postgres_release. rewrite require_pool_bind by done.
  unfold bind, gets, set_lease, modify, ret. cbn.
  destruct (app_conversation_leases s !! lease_conversation_id l) as [row|] eqn:E; [|done].
  destruct (lease_matches _ _); [|done]. by eapply pg_set_lease.
  - unfold postgres_reconcile_history_committed. rewrite require_pool_bind by done.
  pose proof (checked_no_acquisition id
    (λ _ r, match row_status r with Completed | Failed | Cancelled => true | _ => false end)
    (history_row jsonb p (clk 0%nat)) (conflict "The terminal run record does not exist")
    _record_from_row s ltac:(eauto)) as H.
  unfold checked in H. revert H. by destruct (bind _ _ s) as [[a|e] s'].
  - unfold postgres_revoke_resume_tokens. rewrite require_pool_bind by done.
  unfold bind, select_run, gets, set_row, modify, ret, raise.
  destruct (app_runs s !! id) as [row|] eqn:E; [|done].
  destruct (integer_max <? _); cbn; [done|]. by eapply pg_set_row.
Qed.

#[refine] Instance postgres_laws : @RunRepositoryLaws _ (postgres_repository jsonb) := {|
  fence := pg_fence;
  holder := pg_holder;
  record_of s id := _record_from_row <$> app_runs s !! id;
  repo_inv := postgres_inv
|}.
Proof.
  - intros clk op s Hi. destruct op as [| |i owner ttl| | | | | |];
    try (by eapply pg_no_acquisition_inv; [apply postgres_not_acquire|]).
  rewrite exec_acquire. by apply postgres_acquire_inv.
  - intros s c [_ _ H]. unfold pg_fence, pg_token.
  destruct (app_conversation_leases s !! c) as [r|] eqn:E; simpl; [|done].
  specialize (H _ _ E). simpl in H. lia.
  - intros s c h _. unfold pg_holder, pg_fence, pg_token.
  destruct (app_conversation_leases s !! c); [|done]. by intros [= <-].
  - intros clk op s id r Hi. rewrite fmap_Some. intros (row & Hrow & ->).
  assert (∃ row', app_runs (@exec _ (postgres_repository jsonb) clk op s).2 !! id = Some row'
    ∧ row_binding row' row) as (row' & -> & Hb).
  { destruct op as [| |i owner ttl| | | | | |];
      try (by eapply pa_runs; [apply postgres_not_acquire|]).
    rewrite exec_acquire. apply postgres_acquire_runs; [apply Hi|done]. }
  by exists (_record_from_row row').
  - intros clk i s r Hi. rewrite fmap_Some. intros (row & Hrow & ->).
  cbn [create_or_get postgres_repository]. unfold postgres_create_or_get.
  rewrite require_pool_bind by apply Hi.
  unfold insert_run, select_run, bind, gets, ret, _validate_record_identity.
  rewrite Hrow. cbn. rewrite Hrow. by destruct (record_identity_error _ _).
  - intros clk i s r b s' Hi Hnone E. rewrite fmap_None in Hnone.
  cbn [create_or_get postgres_repository] in E. unfold postgres_create_or_get in E.
  rewrite require_pool_bind in E by apply Hi.
  unfold insert_run, select_run, set_row, modify, bind, gets, ret, raise,
    _validate_record_identity in E.
  rewrite Hnone in E. cbn in E. destruct (thread_taken _ _); cbn in E; [done|].
  destruct (record_identity_error _ _) eqn:Hid; cbn in E; simplify_eq. cbn.
  rewrite lookup_insert_eq. done.
  - intros clk i owner ttl s l s' Hi E.
  destruct (postgres_acquire_Ret _ _ _ _ _ _ _ (pi_pool _ Hi) E)
    as (row & Hr & Hlive & -> & ->).
  cbn. repeat split; [|done]. unfold pg_holder. cbn. by rewrite lookup_insert_eq.
  - intros clk i owner ttl s l s' c Hi E Hne.
  destruct (postgres_acquire_Ret _ _ _ _ _ _ _ (pi_pool _ Hi) E)
    as (row & Hr & Hlive & -> & ->).
  unfold pg_fence, pg_token, pg_holder. cbn. by rewrite !lookup_insert_ne.
  - intros clk i owner ttl s e s' _ E. by eapply postgres_acquire_Raise.
  - intros clk op s c Hi Hop. unfold pg_fence.
  by rewrite (pa_token _ _ (postgres_not_acquire clk op s Hi Hop)).
  - intros clk op l s a s' Hi Hg Hb E.
  pose proof (postgres_guarded clk op l s Hi Hg) as H. rewrite E in H.
  destruct H as [_ H]. apply H. destruct Hb as (r & Hr & Hc).
  rewrite fmap_Some in Hr. destruct Hr as (row & Hrow & ->). by exists row.
  - intros clk op l s e s' Hi Hg E.
  pose proof (postgres_guarded clk op l s Hi Hg) as H. by rewrite E in H.
Defined.
End laws.
