(* ===== verification/RepoSim.v ===== *)
(** * The two backends implement one contract

    A simulation between [MemoryRunRepository] and [PostgresRunRepository]:
    called with the same operations at the same instants, they give the same
    replies.  A record of the PostgreSQL backend may differ from the memory
    one in two ways only: its payload went through the [JSONB] column, and its
    history commit may carry an earlier instant.  [agrees] names the calls the
    contract covers; [reconcile_divergence] shows one of its restrictions to be
    needed. *)

From S2P Require Import Prelude PyData RunTypes RunRepo MemoryRepo PostgresRepo.

Section simulation.
Variable jsonb : pydict → pydict.

Definition rel_record (a b : RunRecord) : Prop :=
  ∃ h, (is_Some h ↔ is_Some (rec_history_committed_at a)) ∧
  b = a <| rec_response_payload := jsonb <$> rec_response_payload a |>
        <| rec_history_committed_at := h |>.

Inductive rel_reply : repo_reply → repo_reply → Prop :=
  | rel_created r r' b : rel_record r r' → rel_reply (RepCreated r b) (RepCreated r' b)
  | rel_maybe o o' : option_Forall2 rel_record o o' → rel_reply (RepMaybe o) (RepMaybe o')
  | rel_lease l : rel_reply (RepLease l) (RepLease l)
  | rel_unit : rel_reply RepUnit RepUnit
  | rel_rec r r' : rel_record r r' → rel_reply (RepRecord r) (RepRecord r')
  | rel_int z : rel_reply (RepInt z) (RepInt z).

(** The class of an exception decides what the caller does with it; its text
may differ between the backends. *)
Definition rel_exn (e e' : exn) : Prop :=
  match e, e' with
  | IdentityExn c _, IdentityExn c' _ => c = c'
  | _, _ => e = e'
  end.

Definition rel_outcome (o o' : outcome repo_reply) : Prop :=
  match o, o' with
  | Ret a, Ret a' => rel_reply a a'
  | Raise e, Raise e' => rel_exn e e'
  | _, _ => False
  end.

(** The states after operations at instants up to [T]. *)
Record rel_state (T : time) (m : MemoryRunRepository) (p : PostgresRunRepository) : Prop := {
  rs_memory : memory_inv m;
  rs_pool : pg_pool p = true;
  rs_records : ∀ id,
  option_Forall2 rel_record (_records m !! id) (_record_from_row <$> app_runs p !! id);
  rs_fence : ∀ c, pg_fence p c = default 0 (_fencing m !! c);
  rs_lease : ∀ c, match _leases m !! c with
  | Some l => pg_holder p c = Some l
  | None => ∀ h, pg_holder p c = Some h → lease_expires_at h ≤ T
  end;
  rs_owner : ∀ c l r, _leases m !! c = Some l → _records m !! lease_run_id l = Some r →
  rec_fencing_token r = Some (lease_fencing_token l) ∧
  rec_lease_owner r = Some (lease_owner_id l)
}.

(** The calls the common contract covers, in a state of the memory backend. *)
Definition agrees (m : MemoryRunRepository) (op : repo_op) : Prop :=
  match op with
  | OpCreate i =>
    _records m !! id_run_id i = None →
    ∀ id r, _records m !! id = Some r →
      rec_execution_thread_id r ≠ id_execution_thread_id i
  | OpAcquire i _ _ =>
    (∃ r, _records m !! id_run_id i = Some r ∧ record_identity_error r i = None) ∧
    default 0 (_fencing m !! id_conversation_id i) < bigint_max
  | OpMarkTerminal l _ p _ _ _ =>
    p ≠ Some [] ∧
    ∃ r, _records m !! lease_run_id l = Some r ∧
      rec_conversation_id r = lease_conversation_id l
  | OpMarkHistory l _ =>
    ∃ r, _records m !! lease_run_id l = Some r ∧
      rec_conversation_id r = lease_conversation_id l
  | OpReconcile id _ => ∀ r, _records m !! id = Some r →
    rec_status r = Completed ∨ rec_status r = Failed ∨ rec_status r = Cancelled
  | OpRevoke id => ∀ r, _records m !! id = Some r → rec_resume_token_version r < integer_max
  | OpGet _ | OpRenew _ _ | OpRelease _ => True
  end.

Definition at_instant (t : time) : clock := λ _, t.

(** ** Relating the updates *)

Ltac rel_fields r row E :=
  destruct r, row; unfold _record_from_row, running_row, renewed_row, outcome_row,
  history_row in *; cbn in *; injection E; clear E; intros; subst.

Lemma rel_acquired tok owner e now r row :
  rel_record r (_record_from_row row) →
  rel_record (acquired_record tok owner e now r)
  (_record_from_row (running_row owner tok e now row)).
Proof.
  intros (h & Hh & E). exists h. split; [done|]. by rel_fields r row E.
Qed.

Lemma rel_renewed e now r row :
  rel_record r (_record_from_row row) →
  rel_record (renewed_record e now r) (_record_from_row (renewed_row e now row)).
Proof.
  intros (h & Hh & E). exists h. split; [done|]. by rel_fields r row E.
Qed.

Lemma rel_outcome_record st p reason code cp now r row :
  p ≠ Some [] → rel_record r (_record_from_row row) →
  rel_record (outcome_record st (nonempty_payload p) reason code cp now r)
  (_record_from_row (outcome_row jsonb st p reason code cp now row)).
Proof.
  intros Hp (h & Hh & E). exists h. split; [done|]. rel_fields r row E.
  destruct p as [[|kv d]|], st; done.
Qed.

Lemma rel_history p t1 now r row :
  rel_record r (_record_from_row row) →
  rel_record (history_record p t1 now r) (_record_from_row (history_row jsonb p now row)).
Proof.
  intros (h & Hh & E). eexists. split; cycle 1.
  - rel_fields r row E. by destruct p.
  - cbn. done.
Qed.

Lemma rel_revoked now r row :
  rel_record r (_record_from_row row) →
  rel_record (revoked_record now r)
  (_record_from_row (row <| row_resume_token_version := row_resume_token_version row + 1 |>
                         <| row_updated_at := now |>)).
Proof.
  intros (h & Hh & E). exists h. split; [done|]. by rel_fields r row E.
Qed.

Lemma rel_new i now : rel_record (new_record i now) (_record_from_row (inserted_row i now)).
Proof. exists None. split; done. Qed.

Lemma rel_identity_error r row i :
  rel_record r (_record_from_row row) →
  record_identity_error (_record_from_row row) i = record_identity_error r i.
Proof. by intros (h & _ & ->). Qed.

(** ** Relating the states *)

Lemma rel_state_later T t m p : T ≤ t → rel_state T m p → rel_state t m p.
Proof.
  intros Ht [H1 H2 H3 H4 H5 H6]. split; try done. intros c. specialize (H5 c).
  destruct (_leases m !! c); [done|]. intros h Hh. specialize (H5 h Hh). lia.
Qed.

Lemma rel_state_row T m p id r :
  rel_state T m p → _records m !! id = Some r →
  ∃ row, app_runs p !! id = Some row ∧ rel_record r (_record_from_row row).
Proof.
  intros H Hr. pose proof (rs_records _ _ _ H id) as Hid. rewrite Hr in Hid.
  destruct (app_runs p !! id) as [row|]; inversion Hid; eauto.
Qed.

Lemma rel_state_no_row T m p id :
  rel_state T m p → _records m !! id = None → app_runs p !! id = None.
Proof.
  intros H Hr. pose proof (rs_records _ _ _ H id) as Hid. rewrite Hr in Hid.
  by destruct (app_runs p !! id) as [row|]; inversion Hid.
Qed.

(** Replacing the record of a run on both sides. *)
Lemma rel_state_put T m p id r0 r row :
  rel_state T m p → _records m !! id = Some r0 → same_binding r r0 →
  rec_fencing_token r = rec_fencing_token r0 → rec_lease_owner r = rec_lease_owner r0 →
  rel_record r (_record_from_row row) →
  rel_state T (m <| _records := <[id := r]> (_records m) |>)
            (p <| app_runs := <[id := row]> (app_runs p) |>).
Proof.
  intros [H1 H2 H3 H4 H5 H6] Hr Hb Ht Ho Hrel. split; cbn; try done.
  - eapply no_acquisition_inv; [by eapply no_acquisition_put|done].
  - intros k. destruct (decide (id = k)) as [<-|]; simplify_map_eq; [|apply H3].
  by constructor.
  - intros c l r1 Hl Hr1.
  destruct (decide (id = lease_run_id l)) as [->|]; simplify_map_eq; [|by eauto].
  rewrite Ht, Ho. eauto.
Qed.

(** The fencing conditions of the two backends agree. *)
Lemma lease_ok_agrees T m p l t :
  rel_state T m p → T ≤ t →
  let found := app_conversation_leases p !! lease_conversation_id l in
  lease_matches found l && lease_unexpired found t = lease_ok m l t.
Proof.
  intros H Ht. pose proof (rs_lease _ _ _ H (lease_conversation_id l)) as Hl.
  unfold lease_ok. destruct (_leases m !! _) as [h|]; unfold pg_holder in Hl.
  - destruct (app_conversation_leases p !! _) as [row|]; [|done]. simplify_eq/=.
  unfold same_owner. cbn. by rewrite String.eqb_refl.
  - destruct (app_conversation_leases p !! _) as [row|]; [|done].
  specialize (Hl _ eq_refl). cbn in *. apply andb_false_iff. right. lia.
Qed.

Lemma fenced_agrees T m p l t r row :
  rel_state T m p → T ≤ t → _records m !! lease_run_id l = Some r →
  rec_conversation_id r = lease_conversation_id l →
  rel_record r (_record_from_row row) →
  fenced_row l t p row = lease_ok m l t.
Proof.
  intros H Ht Hr Hc (h & Hh & E). unfold fenced_row.
  assert (row_conversation_id row = lease_conversation_id l) as ->.
  { rewrite <-Hc. by apply (f_equal rec_conversation_id) in E. }
  rewrite <-andb_assoc, (lease_ok_agrees T m) by done.
  destruct (lease_ok m l t) eqn:Hok; [|by rewrite andb_false_r].
  apply lease_ok_spec in Hok as (cur & Hcur & Hown & _).
  apply same_owner_spec in Hown as (_ & Hrun & Howner & Htok).
  rewrite <-Hrun in Hr.
  destruct (rs_owner _ _ _ H _ _ _ Hcur Hr) as [Htok' Hown'].
  apply (f_equal rec_fencing_token) in E as E1. apply (f_equal rec_lease_owner) in E as E2.
  cbn in E1, E2. rewrite Htok', Htok in E1. rewrite Hown', Howner in E2.
  by rewrite E1, E2, !bool_decide_true.
Qed.

Definition simulated (T : time) (op : repo_op)
  (m : MemoryRunRepository) (p : PostgresRunRepository) : Prop :=
  let '(o, m') := exec (at_instant T) op m in
  let '(o', p') := @exec _ (postgres_repository jsonb) (at_instant T) op p in
  rel_outcome o o' ∧ rel_state T m' p'.

Lemma sim_create T i m p :
  rel_state T m p → agrees m (OpCreate i) → simulated T (OpCreate i) m p.
Proof.
  intros H Hag. unfold simulated, at_instant. cbn.
  unfold memory_create_or_get, postgres_create_or_get, insert_run, select_run, set_row,
  put_record, _require_pool, modify, bind, gets, ret, raise, _validate_record_identity.
  rewrite (rs_pool _ _ _ H). cbn in *.
  destruct (_records m !! id_run_id i) as [r|] eqn:Hr.
  - destruct (rel_state_row _ _ _ _ _ H Hr) as (row & Hrow & Hrel).
  rewrite Hrow. cbn. rewrite Hrow. cbn. rewrite (rel_identity_error r) by done.
  destruct (record_identity_error r i) eqn:Ei; cbn; (split; [|done]).
  + unfold rel_exn. by destruct e.
  + by constructor.
  - pose proof (rel_state_no_row _ _ _ _ H Hr) as Hrow. rewrite Hrow.
  assert (thread_taken p (id_execution_thread_id i) = false) as ->.
  { apply not_true_is_false. unfold thread_taken. rewrite existsb_exists.
    intros ([id row] & Hin & Heq). apply String.eqb_eq in Heq.
    apply list_elem_of_In, elem_of_map_to_list in Hin. simpl in Heq.
    pose proof (rs_records _ _ _ H id) as Hid. rewrite Hin in Hid.
    inversion Hid as [r ? (h & _ & E) Hm|]. simplify_eq.
    apply (Hag eq_refl id r); [done|].
    apply (f_equal rec_execution_thread_id) in E. cbn in E. congruence. }
  pose proof (rel_new i T) as Hnew.
  pose proof (rel_identity_error _ _ i Hnew) as Hid.
  rewrite new_record_identity in Hid. cbn. rewrite Hid. cbn.
  split; [by constructor|].
  destruct H as [H1 H2 H3 H4 H5 H6]. split; cbn; try done.
  + by eapply no_acquisition_inv; [apply no_acquisition_new|].
  + intros k. destruct (decide (id_run_id i = k)) as [<-|]; simplify_map_eq; [|apply H3].
    by constructor.
  + intros c l r Hl Hlr. destruct (mi_leases _ H1 _ _ Hl) as (_ & _ & r0 & Hr0 & _).
    destruct (decide (id_run_id i = lease_run_id l)) as [E|]; simplify_map_eq; eauto.
    congruence.
Qed.

Lemma sim_get T id m p :
  rel_state T m p → simulated T (OpGet id) m p.
Proof.
  intros H. unfold simulated. cbn.
  unfold memory_get, postgres_get, select_run, _require_pool, bind, gets, ret.
  rewrite (rs_pool _ _ _ H). cbn. split; [|done]. constructor. apply H.
Qed.

Lemma sim_acquire T i owner ttl m p :
  rel_state T m p → agrees m (OpAcquire i owner ttl) →
  simulated T (OpAcquire i owner ttl) m p.
Proof.
  intros H [(r & Hr & Hid) Hbig].
  destruct (rel_state_row _ _ _ _ _ H Hr) as (row & Hrow & Hrel).
  pose proof (rs_lease _ _ _ H (id_conversation_id i)) as Hl.
  unfold simulated. cbn. unfold bind.
  rewrite memory_acquire_spec, Hr, Hid, postgres_acquire_spec by apply H. cbv zeta.
  rewrite (rs_fence _ _ _ H), Hrow.
  pose proof (memory_acquire_inv (at_instant T) i owner ttl m (rs_memory _ _ _ H)) as Hinv.
  rewrite memory_acquire_spec, Hr, Hid in Hinv. cbv zeta in Hinv. unfold at_instant in *.
  assert (lease_unexpired (app_conversation_leases p !! id_conversation_id i) T =
  lease_live (_leases m !! id_conversation_id i) T) as ->.
  { destruct (_leases m !! _) as [l|]; unfold pg_holder in Hl.
  - destruct (app_conversation_leases p !! _); by simplify_eq/=.
  - by apply (lease_unexpired_false (id_conversation_id i)). }
  destruct (lease_live _ _) eqn:Hlive; rewrite ?Hlive in Hinv; [done|].
  destruct (Z.ltb_spec bigint_max (default 0 (_fencing m !! id_conversation_id i) + 1)); [lia|].
  cbn. split; [constructor|].
  set (token := default 0 (_fencing m !! id_conversation_id i) + 1).
  destruct H as [H1 H2 H3 H4 H5 H6]. split; cbn; [exact Hinv|done|..].
  - intros k. destruct (decide (id_run_id i = k)) as [<-|]; simplify_map_eq; [|apply H3].
  constructor. by apply rel_acquired.
  - intros c. unfold pg_fence, pg_token. cbn.
  destruct (decide (id_conversation_id i = c)) as [<-|]; simplify_map_eq; [done|]. apply H4.
  - intros c. unfold pg_holder. cbn.
  destruct (decide (id_conversation_id i = c)) as [<-|]; simplify_map_eq; [done|]. apply H5.
  - intros c l r1 Hl1 Hr1. destruct (decide (id_conversation_id i = c)) as [<-|]; simplify_map_eq.
  + done.
  + destruct (decide (id_run_id i = lease_run_id l)) as [E|]; simplify_map_eq; [|by eauto].
    destruct (mi_leases _ H1 _ _ Hl1) as (_ & _ & r0 & Hr0 & Hc0).
    apply record_identity_ok in Hid as (Hconv & _). congruence.
Qed.

(** Replacing a lease by one of the same owner, on both sides. *)
Lemma rel_state_put_lease T m p c h l lrow :
  rel_state T m p → _leases m !! c = Some h → same_owner h l = true →
  to_lease c lrow = l →
  rel_state T (m <| _leases := <[c := l]> (_leases m) |>)
  (p <| app_conversation_leases := <[c := lrow]> (app_conversation_leases p) |>).
Proof.
  intros [H1 H2 H3 H4 H5 H6] Hh Hown Hlrow.
  apply same_owner_spec in Hown as Hown'. destruct Hown' as (E1 & E2 & E3 & E4).
  split; cbn; try done.
  - eapply no_acquisition_inv; [|done]. split; cbn; [done| |by eauto|done].
  intros c' h' Hh'. destruct (decide (c = c')) as [<-|]; simplify_map_eq; [by eauto|].
  exists h'. split; [done|apply same_owner_refl].
  - intros c'. specialize (H4 c'). unfold pg_fence, pg_token in *. cbn.
  destruct (decide (c = c')) as [<-|]; simplify_map_eq; [|done]. cbn.
  destruct (mi_leases _ H1 _ _ Hh) as (_ & -> & _). cbn. by rewrite E4.
  - intros c'. specialize (H5 c'). unfold pg_holder in *. cbn.
  destruct (decide (c = c')) as [<-|]; simplify_map_eq; done.
  - intros c' l' r' Hl' Hr'. destruct (decide (c = c')) as [<-|]; simplify_map_eq; [|by eauto].
  rewrite <-E3, <-E4. eapply H6; [exact Hh|]. by rewrite E2.
Qed.

Lemma sim_renew T l ttl m p :
  rel_state T m p → simulated T (OpRenew l ttl) m p.
Proof.
  intros H. pose proof (lease_ok_agrees T m p l T H ltac:(lia)) as Hok.
  pose proof (memory_guarded (at_instant T) (OpRenew l ttl) l m (rs_memory _ _ _ H) eq_refl) as Hg.
  unfold simulated, at_instant in *. cbn in *. unfold bind in *.
  destruct (lease_ok m l T) eqn:Hl.
  - destruct (lease_ok_record _ _ _ (rs_memory _ _ _ H) Hl) as (r & Hr & _ & _).
  destruct (rel_state_row _ _ _ _ _ H Hr) as (row & Hrow & Hrel).
  apply lease_ok_spec in Hl as Hl'. destruct Hl' as (h & Hh & Hown & _).
  apply same_owner_spec in Hown as Hown'. destruct Hown' as (_ & Hrun & Howner & Htok).
  rewrite <-Hrun in Hr. destruct (rs_owner _ _ _ H _ _ _ Hh Hr) as [Hft Hfo].
  rewrite Hrun in Hr.
  rewrite (memory_renew_spec _ _ _ _ _ Hr), Hl in *.
  destruct Hg as (a & m' & Hm & Hna). simplify_eq.
  assert (row_fencing_token row = Some (lease_fencing_token l)) as Hrt.
  { destruct Hrel as (? & _ & E). apply (f_equal rec_fencing_token) in E. cbn in E. congruence. }
  pose proof (rs_lease _ _ _ H (lease_conversation_id l)) as Hlr. rewrite Hh in Hlr.
  unfold pg_holder in Hlr.
  unfold postgres_renew, _require_pool, transaction, update_run, set_lease, set_row,
    bind, gets, modify, ret, raise.
  rewrite (rs_pool _ _ _ H).
  destruct (app_conversation_leases p !! lease_conversation_id l) as [lrow|]; [|done].
  rewrite Hok. cbn. rewrite Hrow.
  rewrite (bool_decide_true (row_fencing_token row = _)) by done. cbn.
  split; [constructor|].
  assert (to_lease (lease_conversation_id l)
    (lrow <| lrow_lease_expires_at := T + seconds ttl |> <| lrow_updated_at := T |>) =
    l <| lease_expires_at := T + seconds ttl |>) as Htl.
  { injection Hlr as <-. destruct l. unfold to_lease. cbn in *. congruence. }
  apply (rel_state_put _ _ _ _ r _ _
    (rel_state_put_lease _ _ _ (lease_conversation_id l) h
      (l <| lease_expires_at := T + seconds ttl |>)
      (lrow <| lrow_lease_expires_at := T + seconds ttl |> <| lrow_updated_at := T |>)
      H Hh ltac:(exact Hown) Htl)); try done.
  exact (rel_renewed (T + seconds ttl) T r row Hrel).
  - rewrite Hg. cbn. unfold postgres_renew, _require_pool, transaction, bind, gets, ret, raise.
  rewrite (rs_pool _ _ _ H).
  destruct (app_conversation_leases p !! lease_conversation_id l) as [lrow|]; [|done].
  by rewrite Hok.
Qed.

(** Releasing: the memory backend drops the lease, PostgreSQL expires it. *)
Lemma rel_state_drop_lease T m p c row row' :
  rel_state T m p → app_conversation_leases p !! c = Some row →
  lrow_fencing_token row' = lrow_fencing_token row → lrow_lease_expires_at row' ≤ T →
  rel_state T (m <| _leases := delete c (_leases m) |>)
  (p <| app_conversation_leases := <[c := row']> (app_conversation_leases p) |>).
Proof.
  intros [H1 H2 H3 H4 H5 H6] Hrow Ht Hexp. split; cbn; try done.
  - eapply no_acquisition_inv; [|done]. split; cbn; [done| |by eauto|done].
  intros c' h' [_ Hh']%lookup_delete_Some. exists h'. split; [done|apply same_owner_refl].
  - intros c'. rewrite <-H4. unfold pg_fence, pg_token. cbn.
  destruct (decide (c = c')) as [<-|]; simplify_map_eq; [|done]. cbn. by rewrite Ht.
  - intros c'. specialize (H5 c'). unfold pg_holder in *. cbn.
  destruct (decide (c = c')) as [<-|]; simplify_map_eq; [|done]. by intros h [= <-].
  - intros c' l' r' [_ Hl']%lookup_delete_Some. by apply (H6 c').
Qed.

Lemma sim_release T l m p :
  rel_state T m p → simulated T (OpRelease l) m p.
Proof.
  intros H. unfold simulated. cbn.
  unfold memory_release, postgres_release, _require_pool, set_lease, bind, gets, modify, ret.
  rewrite (rs_pool _ _ _ H).
  pose proof (rs_lease _ _ _ H (lease_conversation_id l)) as Hl. unfold pg_holder in Hl.
  destruct (_leases m !! lease_conversation_id l) as [h|] eqn:Hh;
  destruct (app_conversation_leases p !! lease_conversation_id l) as [lrow|] eqn:Hlrow.
  - cbn in Hl. injection Hl as <-. rewrite (lease_matches_owner (lease_conversation_id l)) by done.
  destruct (same_owner _ l); cbn; (split; [constructor|]); [|done].
  exact (rel_state_drop_lease _ _ _ _ _
    (lrow <| lrow_lease_expires_at := T |> <| lrow_updated_at := T |>) H Hlrow eq_refl
    (Z.le_refl T)).
  - done.
  - destruct (lease_matches _ _); cbn; (split; [constructor|]); [|done].
  pose proof (rel_state_drop_lease _ _ _ _ _
    (lrow <| lrow_lease_expires_at := T |> <| lrow_updated_at := T |>) H Hlrow eq_refl
    (Z.le_refl T)) as Hd.
  rewrite delete_id in Hd by done. by destruct m.
  - split; [constructor|done].
Qed.

Lemma sim_mark_terminal T l st q reason code cp m p :
  rel_state T m p → agrees m (OpMarkTerminal l st q reason code cp) →
  simulated T (OpMarkTerminal l st q reason code cp) m p.
Proof.
  intros H (Hq & r & Hr & Hc). destruct (rel_state_row _ _ _ _ _ H Hr) as (row & Hrow & Hrel).
  unfold simulated, at_instant. cbn. unfold bind. rewrite (memory_mark_terminal_spec _ _ _ _ _ _ _ _ _ Hr).
  unfold postgres_mark_terminal. rewrite require_pool_bind by apply H.
  unfold bind. rewrite update_run_spec, Hrow, (fenced_agrees T m p l T r row) by done.
  destruct (lease_ok m l T); [|done].
  pose proof (rel_outcome_record st q reason code cp T r row Hq Hrel) as Hrec.
  split; [by constructor|]. by apply (rel_state_put _ _ _ _ r).
Qed.

Lemma sim_mark_history T l q m p :
  rel_state T m p → agrees m (OpMarkHistory l q) → simulated T (OpMarkHistory l q) m p.
Proof.
  intros H (r & Hr & Hc). destruct (rel_state_row _ _ _ _ _ H Hr) as (row & Hrow & Hrel).
  unfold simulated, at_instant. cbn. unfold bind. rewrite (memory_mark_history_spec _ _ _ _ _ Hr).
  unfold postgres_mark_history_committed. rewrite require_pool_bind by apply H.
  unfold bind. rewrite update_run_spec, Hrow, (fenced_agrees T m p l T r row) by done.
  destruct (lease_ok m l T); [|done].
  pose proof (rel_history q T T r row Hrel) as Hrec.
  split; [by constructor|]. by apply (rel_state_put _ _ _ _ r).
Qed.

Lemma sim_reconcile T id q m p :
  rel_state T m p → agrees m (OpReconcile id q) → simulated T (OpReconcile id q) m p.
Proof.
  intros H Hag. unfold simulated. cbn in *. unfold bind.
  unfold memory_reconcile_history_committed, existing_record, put_record.
  unfold postgres_reconcile_history_committed. rewrite require_pool_bind by apply H.
  unfold bind, gets, modify. rewrite update_run_spec.
  destruct (_records m !! id) as [r|] eqn:Hr.
  - destruct (rel_state_row _ _ _ _ _ H Hr) as (row & Hrow & Hrel). rewrite Hrow.
  assert (row_status row = rec_status r) as Hst.
  { destruct Hrel as (? & _ & E). by apply (f_equal rec_status) in E. }
  assert (match row_status row with Completed | Failed | Cancelled => true | _ => false end
    = true) as ->.
  { rewrite Hst. by destruct (Hag r eq_refl) as [-> | [-> | ->]]. }
  unfold at_instant. cbn.
  destruct (rec_history_committed_at r) as [t|] eqn:Ht; cbn.
  + pose proof (rel_history q t T r row Hrel) as Hrec.
    split; [by constructor|]. by apply (rel_state_put _ _ _ _ r).
  + pose proof (rel_history q T T r row Hrel) as Hrec.
    split; [by constructor|]. by apply (rel_state_put _ _ _ _ r).
  - by rewrite (rel_state_no_row _ _ _ _ H Hr).
Qed.

Lemma sim_revoke T id m p :
  rel_state T m p → agrees m (OpRevoke id) → simulated T (OpRevoke id) m p.
Proof.
  intros H Hag. unfold simulated. cbn in *.
  unfold memory_revoke_resume_tokens, existing_record, put_record.
  unfold postgres_revoke_resume_tokens, _require_pool, select_run, set_row,
  bind, gets, modify, ret, raise.
  rewrite (rs_pool _ _ _ H).
  destruct (_records m !! id) as [r|] eqn:Hr.
  - destruct (rel_state_row _ _ _ _ _ H Hr) as (row & Hrow & Hrel). rewrite Hrow.
  assert (row_resume_token_version row = rec_resume_token_version r) as Hv.
  { destruct Hrel as (? & _ & E). by apply (f_equal rec_resume_token_version) in E. }
  pose proof (rel_revoked T r row Hrel) as Hrec.
  specialize (Hag r eq_refl). rewrite Hv in *. unfold at_instant.
  destruct (Z.ltb_spec integer_max (rec_resume_token_version r + 1)); [lia|]. cbn.
  split; [constructor|]. by apply (rel_state_put _ _ _ _ r).
  - by rewrite (rel_state_no_row _ _ _ _ H Hr).
Qed.

Lemma sim_step T t op m p :
  rel_state T m p → T ≤ t → agrees m op → simulated t op m p.
Proof.
  intros H Ht Hag. apply (rel_state_later _ t) in H; [|done].
  destruct op; eauto using sim_create, sim_get, sim_acquire, sim_renew, sim_release,
  sim_mark_terminal, sim_mark_history, sim_reconcile, sim_revoke.
Qed.

(** A sequence of calls at given instants, with their outcomes. *)
Fixpoint run_calls {St} `{RunRepository St} (calls : list (time * repo_op)) (s : St) :
  list (outcome repo_reply) * St :=
  match calls with
  | [] => ([], s)
  | (t, op) :: calls =>
    let '(o, s') := exec (at_instant t) op s in
    let '(os, s'') := run_calls calls s' in
    (o :: os, s'')
  end.

(** Non-decreasing instants, each call one the contract covers. *)
Fixpoint covered (T : time) (calls : list (time * repo_op)) (m : MemoryRunRepository) : Prop :=
  match calls with
  | [] => True
  | (t, op) :: calls =>
    T ≤ t ∧ agrees m op ∧ covered t calls (exec (at_instant t) op m).2
  end.

Lemma rel_state_init T : rel_state T memory_init (postgres_init true).
Proof.
  split; cbn; [exact memory_inv_init|done|..].
  - intros id. rewrite !lookup_empty. constructor.
  - intros c. unfold pg_fence, pg_token. cbn. by rewrite !lookup_empty.
  - intros c. unfold pg_holder. cbn. by rewrite !lookup_empty.
  - intros c l r Hl. by rewrite lookup_empty in Hl.
Qed.

Lemma sim_calls T calls m p :
  rel_state T m p → covered T calls m →
  Forall2 rel_outcome (run_calls calls m).1
  (@run_calls _ (postgres_repository jsonb) calls p).1.
Proof.
  revert T m p. induction calls as [|[t op] calls IH]; intros T m p H Hc; [constructor|].
  destruct Hc as (Ht & Hag & Hc). pose proof (sim_step T t op m p H Ht Hag) as Hs.
  unfold simulated in Hs. simpl.
  destruct (exec (at_instant t) op m) as [o m'].
  destruct (@exec _ (postgres_repository jsonb) (at_instant t) op p) as [o' p'].
  destruct Hs as [Ho Hs]. specialize (IH t m' p' Hs Hc).
  destruct (run_calls calls m') as [os m''].
  destruct (@run_calls _ (postgres_repository jsonb) calls p') as [os' p''].
  by constructor.
Qed.

(** C9. The two run repositories implement one contract: started empty and
given the same covered calls at the same non-decreasing instants, every
call has the same outcome on both, up to the JSONB form of a payload, the
instant of a repeated history commit and the text of an exception. *)
Theorem backends_agree calls T (Hcovered : covered T calls memory_init) :
  Forall2 rel_outcome (run_calls calls memory_init).1
  (@run_calls _ (postgres_repository jsonb) calls (postgres_init true)).1.
Proof. exact (sim_calls T calls _ _ (rel_state_init T) Hcovered). Qed.

(** Outside the contract the backends differ: on a run that has not
reached a terminal outcome, [reconcile_history_committed] commits the
history in memory and raises [RunConflictError] on PostgreSQL. *)
Theorem reconcile_divergence T m p id q r
  (Hrel : rel_state T m p) (Hr : _records m !! id = Some r)
  (Hst : rec_status r ∉ [Completed; Failed; Cancelled]) :
  is_ret (memory_reconcile_history_committed (at_instant T) id q m).1 = true ∧
  (postgres_reconcile_history_committed jsonb (at_instant T) id q p).1 =
  Raise (conflict "The terminal run record does not exist").
Proof.
  destruct (rel_state_row _ _ _ _ _ Hrel Hr) as (row & Hrow & h & _ & E).
  apply (f_equal rec_status) in E. cbn in E.
  unfold memory_reconcile_history_committed, existing_record, put_record,
  postgres_reconcile_history_committed.
  rewrite require_pool_bind by apply Hrel.
  unfold bind, gets, modify. rewrite update_run_spec, Hr, Hrow, E. split.
  - cbn. by destruct (rec_history_committed_at r).
  - destruct (rec_status r) eqn:Es; try done; exfalso; apply Hst; repeat constructor.
Qed.
End simulation.

(** ** Witnesses on concrete runs *)

Definition sample_identity (conversation run : string) : RunIdentity := {|
  id_conversation_id := conversation;
  id_run_id := run;
  id_execution_thread_id := "runtime-" +:+ run;
  id_checkpoint_namespace := "runtime";
  id_state_schema_version := 1;
  id_request_hash := "h";
  id_request_hash_version := 1;
  id_resume_token_version := 1;
  id_resume_token_key_id := None;
  id_resume_requested := false;
  id_resumed := false;
  id_client_supplied_run_id := false
|}.

Definition i1 : RunIdentity := sample_identity "c" "r1".
Definition i2 : RunIdentity := sample_identity "c" "r2".
(** Two runs of one conversation; the second takes the lease over at 100 s. *)
Definition l1 : RunLease := MkRunLease "c" "r1" "w1" 1 (seconds 30).
Definition l2 : RunLease := MkRunLease "c" "r2" "w2" 2 (seconds 130).

Definition after (calls : list (time * repo_op)) : MemoryRunRepository :=
  (run_calls calls memory_init).2.

Definition calls0 : list (time * repo_op) := [(0, OpCreate i1); (0, OpCreate i2)].
Definition calls1 := calls0 ++ [(0, OpAcquire i1 "w1" 30)].
Definition calls2 := calls1 ++ [(seconds 100, OpAcquire i2 "w2" 30)].

Lemma after_inv calls : memory_inv (after calls).
Proof.
  unfold after. generalize memory_inv_init. generalize memory_init.
  induction calls as [|[t op] calls IH]; intros s Hs; [done|]. simpl.
  pose proof (exec_inv (RunRepositoryLaws:=memory_laws) (at_instant t) op s Hs) as Hs'.
  destruct (exec (at_instant t) op s) as [o s']. specialize (IH s' Hs').
  by destruct (run_calls calls s').
Qed.

Lemma fencing_witness :
  ∃ e, exec (at_instant (seconds 101)) (OpMarkHistory l1 None) (after calls2) =
      (Raise e, after calls2) ∧ is_stale e = true.
Proof.
  refine (fencing (after calls0) (after calls1) (after calls1) (after calls2) (after calls2)
    (at_instant 0) (at_instant (seconds 100)) i1 i2 "w1" "w2" 30 30 l1 l2
    (after_inv calls0) _ _ _ _ _ _ (at_instant (seconds 101)) (OpMarkHistory l1 None) _).
  - vm_compute. reflexivity.
  - eexists. split; vm_compute; reflexivity.
  - apply rtc_refl.
  - vm_compute. reflexivity.
  - reflexivity.
  - apply rtc_refl.
  - reflexivity.
Defined.

Lemma single_writer_witness : same_owner l1 l1 = true.
Proof.
  refine (single_writer (after calls1) (at_instant 1) (at_instant 2)
    (OpMarkHistory l1 None) (OpRenew l1 30) l1 l1 _ _ _ _
    (after_inv calls1) eq_refl eq_refl _ _ eq_refl _ _).
  - eexists. split; vm_compute; reflexivity.
  - eexists. split; vm_compute; reflexivity.
  - vm_compute. reflexivity.
  - vm_compute. reflexivity.
Defined.

(** The run of [i1], named by a request with another content. *)
Definition other_request : RunIdentity :=
  MkRunIdentity (id_conversation_id i1) (id_run_id i1) (id_execution_thread_id i1) (id_checkpoint_namespace i1)
    (id_state_schema_version i1) "another hash" (id_request_hash_version i1) (id_resume_token_version i1)
    (id_resume_token_key_id i1) false false true.

Lemma run_binding_witness : ∃ msg,
  create_or_get (at_instant 5) other_request (after calls1) =
    (Raise (IdentityExn RunConflictError msg), after calls1).
Proof.
  assert (repo_inv memory_init) as Hinv by exact memory_inv_init.
  destruct (run_binding memory_init (after [(0, OpCreate i1)]) (after calls1)
    (at_instant 0) (at_instant 5) i1 other_request (new_record i1 0) true Hinv) as [[Hs _]|[_ H]].
  - vm_compute. reflexivity.
  - apply (rtc_l _ _ (after calls0)); [by exists (at_instant 0), (OpCreate i2)|].
    apply rtc_once. by exists (at_instant 0), (OpAcquire i1 "w1" 30).
  - reflexivity.
  - destruct Hs as (_&_&Hs&_). discriminate Hs.
  - exact H.
Defined.

Definition full_calls : list (time * repo_op) :=
  [(0, OpCreate i1); (0, OpAcquire i1 "w1" 30);
   (seconds 10, OpRenew l1 30);
   (seconds 20, OpMarkTerminal l1 OutCompleted (Some [("answer", VStr "ok")]) None None None);
   (seconds 21, OpMarkHistory l1 None);
   (seconds 22, OpRelease l1); (seconds 23, OpGet "r1")].

Lemma backends_agree_witness :
  Forall2 (rel_outcome (λ d, d)) (run_calls full_calls memory_init).1
    (@run_calls _ (postgres_repository (λ d, d)) full_calls (postgres_init true)).1.
Proof.
  apply (backends_agree (λ d, d) full_calls 0). simpl.
  split; [lia|]. split; [intros _ id r Hr; discriminate Hr|].
  split; [lia|]. split.
  { split; [eexists; split; vm_compute; reflexivity|by vm_compute]. }
  split; [by vm_compute|]. split; [done|].
  split; [by vm_compute|]. split.
  { split; [done|]. eexists. split; vm_compute; reflexivity. }
  split; [by vm_compute|]. split.
  { eexists. split; vm_compute; reflexivity. }
  split; [by vm_compute|]. split; [done|]. split; [by vm_compute|]. done.
Defined.

Lemma reconcile_divergence_witness :
  is_ret (memory_reconcile_history_committed (at_instant 1) "r1" None
    (after [(0, OpCreate i1)])).1 = true ∧
  (postgres_reconcile_history_committed (λ d, d) (at_instant 1) "r1" None
    (@run_calls _ (postgres_repository (λ d, d)) [(0, OpCreate i1)] (postgres_init true)).2).1 =
    Raise (conflict "The terminal run record does not exist").
Proof.
  refine (reconcile_divergence (λ d, d) 1 _ _ "r1" None (new_record i1 0) _ _ _).
  - apply (rel_state_later _ 0); [lia|].
    apply (sim_create _ 0 i1 memory_init (postgres_init true)); [apply rel_state_init|].
    intros _ id r Hr. discriminate Hr.
  - vm_compute. reflexivity.
  - cbn. intros H. repeat (apply elem_of_cons in H as [H|H]; [discriminate H|]).
    by apply not_elem_of_nil in H.
Defined.

(** Why [agrees] asks of [acquire] that the record is bound to the identity: the
process-local backend validates it, PostgreSQL hands out the lease of a run to a
request with another content. *)
Theorem acquire_divergence :
  let calls := [(0, OpCreate i1); (0, OpAcquire other_request "w1" 30)] in
  (∃ msg, (run_calls calls memory_init).1 !! 1%nat = Some (Raise (IdentityExn RunConflictError msg))) ∧
  (∃ l, (@run_calls _ (postgres_repository (λ d, d)) calls (postgres_init true)).1 !! 1%nat = Some (Ret (RepLease l)) ∧
     lease_run_id l = id_run_id i1).
Proof. split; [eexists; vm_compute; reflexivity|]. eexists. split; [vm_compute; reflexivity|reflexivity]. Qed.
