(* ===== verification/RunOutcome.v ===== *)
(** * What the repositories store of an outcome

    [RunOutcomeLaws] extends [RunRepositoryLaws] with what the writes of an
    outcome leave in the record; both backends discharge it.  The chat runtime's
    theorems use it. *)

From stdpp Require Import relations.
From S2P Require Import Prelude.
From S2P Require Import PyData.
From S2P Require Import RunTypes.
From S2P Require Import RunRepo.
From S2P Require Import MemoryRepo.
From S2P Require Import PostgresRepo.

Class RunOutcomeLaws (St : Type) `{RunRepositoryLaws St} : Type := {
  (** What a payload reads back as: JSONB changes the order of keys. *)
  stored : pydict → pydict;
  get_record : ∀ id s, repo_inv s → get id s = (Ret (record_of s id), s);
  mark_terminal_record : ∀ clk l st p reason code cp s r s',
    repo_inv s → p ≠ [] → mark_terminal clk l st (Some p) reason code cp s = (Ret r, s') →
    record_of s' (lease_run_id l) = Some r ∧ rec_status r = outcome_status st ∧
    rec_response_payload r = Some (stored p);
  mark_history_record : ∀ clk l p s r s',
    repo_inv s → p ≠ [] → mark_history_committed clk l (Some p) s = (Ret r, s') →
    record_of s' (lease_run_id l) = Some r ∧ rec_response_payload r = Some (stored p) ∧
    is_Some (rec_history_committed_at r) ∧
    ∃ r0, record_of s (lease_run_id l) = Some r0 ∧ rec_status r = rec_status r0;
  release_record : ∀ clk l s id, record_of (release clk l s).2 id = record_of s id
}.

#[export, refine] Instance memory_outcome_laws : RunOutcomeLaws MemoryRunRepository := {|
  stored p := p
|}.
Proof.
  - done.
  - intros clk l st p reason code cp s r s' Hi Hp E.
    cbn [mark_terminal memory_repository record_of memory_laws] in *.
    destruct (lease_ok s l (clk 0%nat)) eqn:Hok.
    + destruct (lease_ok_record _ _ _ Hi Hok) as (r0 & Hr & _).
      rewrite (memory_mark_terminal_spec _ _ _ _ _ _ _ _ r0 Hr), Hok in E. cbv zeta in E.
      injection E as <- <-. cbn. rewrite lookup_insert_eq. by destruct p.
    + unfold memory_mark_terminal in E. by rewrite fenced_stale in E.
  - intros clk l p s r s' Hi Hp E.
    cbn [mark_history_committed memory_repository record_of memory_laws] in *.
    destruct (lease_ok s l (clk 0%nat)) eqn:Hok.
    + destruct (lease_ok_record _ _ _ Hi Hok) as (r0 & Hr & _).
      rewrite (memory_mark_history_spec _ _ _ _ r0 Hr), Hok in E. cbv zeta in E.
      injection E as <- <-. cbn. rewrite lookup_insert_eq. eauto 10.
    + unfold memory_mark_history_committed in E. by rewrite fenced_stale in E.
  - intros clk l s id. cbn [release memory_repository record_of memory_laws]. mem_run.
    destruct (_leases s !! _) as [h|]; [|done]. by destruct (same_owner h l).
Defined.

Section postgres.
Variable jsonb : pydict → pydict.

(** A fenced update that succeeds stores [f row] for the row of the run. *)
Lemma checked_update id cond f e s a s' :
  checked (update_run id cond f) e _record_from_row s = (Ret a, s') →
  ∃ row, app_runs s !! id = Some row ∧ a = _record_from_row (f row) ∧
  app_runs s' !! id = Some (f row).
Proof.
  unfold checked, update_run, bind, gets, set_row, modify, ret, raise.
  destruct (app_runs s !! id) as [row|] eqn:E; [|done].
  destruct (cond s row); [|done]. cbn. intros [= <- <-]. exists row. cbn. by rewrite lookup_insert_eq.
Qed.

#[refine] Instance postgres_outcome_laws :
  @RunOutcomeLaws _ (postgres_repository jsonb) (postgres_laws jsonb) := {|
  stored := jsonb
|}.
Proof.
  - intros id s Hi. cbn [get postgres_repository]. unfold postgres_get.
  by rewrite require_pool_bind by apply Hi.
  - intros clk l st p reason code cp s r s' Hi _ E. cbn [mark_terminal postgres_repository] in E.
  unfold postgres_mark_terminal in E. rewrite require_pool_bind in E by apply Hi.
  apply checked_update in E as (row&_&->&Hr). cbn [record_of postgres_laws]. by rewrite Hr.
  - intros clk l p s r s' Hi _ E. cbn [mark_history_committed postgres_repository] in E.
  unfold postgres_mark_history_committed in E. rewrite require_pool_bind in E by apply Hi.
  apply checked_update in E as (row&Hrow&->&Hr). cbn [record_of postgres_laws]. rewrite Hr.
  split; [done|]. split; [done|]. split; [by eexists|].
  exists (_record_from_row row). by rewrite Hrow.
  - intros clk l s id. cbn [release postgres_repository record_of postgres_laws].
  unfold postgres_release, _require_pool, bind, gets, set_lease, modify, ret, raise.
  destruct (pg_pool s); [|done]. cbn. destruct (app_conversation_leases s !! _) as [row|]; [|done].
  by destruct (lease_matches _ _).
Defined.
End postgres.
