(* ===== verification/Meter.v ===== *)
(** * The execution meter

    [ExecutionBudget] of [app/orchestration/execution_meter.py]: the counters of
    one request, its deadline and its limits.  Durations and instants are in
    microseconds (the code's floats and datetimes).  The coroutines hold the
    meter's lock and await nothing inside it, so each is one atomic action; an
    action also sees the task's [_MODEL_OPERATION_ATTEMPTS] context variable.
    [now] is the wall-clock reading of the action. *)

From S2P Require Import Prelude PyData RunTypes.

Record ExecutionMeterState : Type := MkMeterState {
  ms_schema_version : Z;
  ms_logical_model_operations : Z;
  ms_physical_model_attempts : Z;
  ms_model_successes : Z;
  ms_model_failures : Z;
  ms_fallback_attempts : Z;
  ms_tool_attempts : Z;
  ms_tool_successes : Z;
  ms_tool_failures : Z;
  ms_tool_timeouts : Z;
  ms_verifier_rounds : Z;
  ms_revision_rounds : Z;
  ms_final_revision_rounds : Z;
  ms_research_rounds : Z;
  ms_replans : Z;
  ms_prompt_tokens : Z;
  ms_generated_tokens : Z;
  ms_context_utilization : option Z;
  ms_queue_wait_seconds : Z;
  ms_model_load_seconds : Z;
  ms_time_to_first_token : option Z;
  ms_checkpoint_reads : Z;
  ms_checkpoint_writes : Z;
  ms_checkpoint_bytes : Z;
  ms_artifact_reads : Z;
  ms_artifact_writes : Z;
  ms_started_at : Z;
  ms_deadline_at : Z;
  ms_elapsed_wall_seconds : Z;
  ms_active_execution_seconds : Z;
  ms_cancellation_count : Z
}.

#[export] Instance eta_MeterState : Eta ExecutionMeterState := λ m,
  MkMeterState
    (ms_schema_version m) (ms_logical_model_operations m) (ms_physical_model_attempts m)
    (ms_model_successes m) (ms_model_failures m) (ms_fallback_attempts m)
    (ms_tool_attempts m) (ms_tool_successes m) (ms_tool_failures m) (ms_tool_timeouts m)
    (ms_verifier_rounds m) (ms_revision_rounds m) (ms_final_revision_rounds m)
    (ms_research_rounds m) (ms_replans m) (ms_prompt_tokens m) (ms_generated_tokens m)
    (ms_context_utilization m) (ms_queue_wait_seconds m) (ms_model_load_seconds m)
    (ms_time_to_first_token m) (ms_checkpoint_reads m) (ms_checkpoint_writes m)
    (ms_checkpoint_bytes m) (ms_artifact_reads m) (ms_artifact_writes m) (ms_started_at m)
    (ms_deadline_at m) (ms_elapsed_wall_seconds m) (ms_active_execution_seconds m)
    (ms_cancellation_count m).

(** [ExecutionMeterState(started_at=now, deadline_at=now + max_duration)]. *)
Definition fresh_meter_state (now max_duration : Z) : ExecutionMeterState :=
  MkMeterState 2 0 0 0 0 0 0 0 0 0 0 0 0 0 0 0 0 None 0 0 None 0 0 0 0 0 now (now + max_duration) 0 0 0.

Record ExecutionBudget : Type := MkBudget {
  eb_max_duration_seconds : Z;
  eb_max_model_calls : Z;
  eb_max_tool_calls : Z;
  eb_max_verifier_rounds : Z;
  eb_state : ExecutionMeterState;
  eb_elapsed_before_resume : Z;
  eb_resume_clock_guard_seconds : Z;
  eb_started_monotonic : Z
}.

#[export] Instance eta_ExecutionBudget : Eta ExecutionBudget := λ b,
  MkBudget (eb_max_duration_seconds b) (eb_max_model_calls b) (eb_max_tool_calls b)
    (eb_max_verifier_rounds b) (eb_state b) (eb_elapsed_before_resume b)
    (eb_resume_clock_guard_seconds b) (eb_started_monotonic b).

(** [__init__], at the readings [now] and [mono]; [state] is the validated
    snapshot of a resumed run. *)
Definition init_budget (max_duration max_model max_tool max_rounds : Z)
    (state : option ExecutionMeterState) (now mono : Z) : ExecutionBudget :=
  let st := default (fresh_meter_state now max_duration) state in {|
    eb_max_duration_seconds := max_duration;
    eb_max_model_calls := max_model;
    eb_max_tool_calls := max_tool;
    eb_max_verifier_rounds := max_rounds;
    eb_state := st;
    eb_elapsed_before_resume := Z.max 0 (ms_active_execution_seconds st);
    eb_resume_clock_guard_seconds := if state then 1000 else 0;
    eb_started_monotonic := mono
  |}.

Definition elapsed_seconds (b : ExecutionBudget) (now mono : Z) : Z :=
  let active_elapsed :=
    eb_elapsed_before_resume b + eb_resume_clock_guard_seconds b
    + Z.max 0 (mono - eb_started_monotonic b) in
  let wall_elapsed := Z.max 0 (now - ms_started_at (eb_state b)) in
  Z.max (Z.max active_elapsed (ms_elapsed_wall_seconds (eb_state b))) wall_elapsed.

Definition remaining_seconds (b : ExecutionBudget) (now : Z) : Z :=
  Z.max 0 (ms_deadline_at (eb_state b) - now).

(** [check]: the exception it raises, if any. *)
Definition check_error (b : ExecutionBudget) (now : Z) : option exn :=
  if ms_deadline_at (eb_state b) <=? now then
    Some (BudgetExceeded "execution deadline exceeded")
  else if eb_max_model_calls b <? ms_physical_model_attempts (eb_state b) then
    Some (BudgetExceeded "model call budget exceeded")
  else if eb_max_tool_calls b <? ms_tool_attempts (eb_state b) then
    Some (BudgetExceeded "tool call budget exceeded")
  else if eb_max_verifier_rounds b <? ms_verifier_rounds (eb_state b) then
    Some (BudgetExceeded "maximum verifier rounds exceeded")
  else None.

(** [app/services/termination.py]. *)
Definition termination_reason (b : ExecutionBudget) (now : Z) : option string :=
  match check_error b now with
  | Some (BudgetExceeded msg) => Some msg
  | _ => None
  end.

(** ** The actions of one task

    The meter with the task's view of [_MODEL_OPERATION_ATTEMPTS]. *)

Record MeterTask : Type := MkMeterTask {
  mt_meter : ExecutionBudget;
  mt_operation_attempts : option Z
}.

#[export] Instance eta_MeterTask : Eta MeterTask := λ t,
  MkMeterTask (mt_meter t) (mt_operation_attempts t).

Definition upd_state (f : ExecutionMeterState → ExecutionMeterState) : M MeterTask unit :=
  modify (λ t, t <| mt_meter := (mt_meter t) <| eb_state := f (eb_state (mt_meter t)) |> |>).

Definition check (now : Z) : M MeterTask unit :=
  let! e := gets (λ t, check_error (mt_meter t) now) in
  match e with Some e => raise e | None => ret tt end.

Definition record_logical_model_operation (now : Z) : M MeterTask unit :=
  check now ;;;
  upd_state (λ m, m <| ms_logical_model_operations := ms_logical_model_operations m + 1 |>).

Definition begin_model_attempt (now : Z) (fallback : option bool) : M MeterTask unit :=
  check now ;;;
  let! full := gets (λ t,
    eb_max_model_calls (mt_meter t) <=? ms_physical_model_attempts (eb_state (mt_meter t))) in
  if full then raise (BudgetExceeded "model call budget exceeded")
  else
    let! operation_attempts := gets mt_operation_attempts in
    let inferred_fallback := match operation_attempts with Some n => 0 <? n | None => false end in
    upd_state (λ m, m <| ms_physical_model_attempts := ms_physical_model_attempts m + 1 |>) ;;;
    (if match fallback with Some f => f | None => inferred_fallback end
     then upd_state (λ m, m <| ms_fallback_attempts := ms_fallback_attempts m + 1 |>)
     else ret tt) ;;;
    match operation_attempts with
    | Some n => modify (λ t, t <| mt_operation_attempts := Some (n + 1) |>)
    | None => ret tt
    end.

Definition finish_model_attempt (success : bool) (prompt_tokens generated_tokens : Z)
    (model_load_seconds : Z) (time_to_first_token : option Z) : M MeterTask unit :=
  upd_state (λ m,
    let m := if success then m <| ms_model_successes := ms_model_successes m + 1 |>
             else m <| ms_model_failures := ms_model_failures m + 1 |> in
    m <| ms_prompt_tokens := ms_prompt_tokens m + Z.max 0 prompt_tokens |>
      <| ms_generated_tokens := ms_generated_tokens m + Z.max 0 generated_tokens |>
      <| ms_model_load_seconds := ms_model_load_seconds m + Z.max 0 model_load_seconds |>
      <| ms_time_to_first_token :=
           match time_to_first_token, ms_time_to_first_token m with
           | Some t, None => Some (Z.max 0 t)
           | _, old => old
           end |>).

Definition begin_tool_attempt (now : Z) : M MeterTask unit :=
  check now ;;;
  let! full := gets (λ t,
    eb_max_tool_calls (mt_meter t) <=? ms_tool_attempts (eb_state (mt_meter t))) in
  if full then raise (BudgetExceeded "tool call budget exceeded")
  else upd_state (λ m, m <| ms_tool_attempts := ms_tool_attempts m + 1 |>).

Definition finish_tool_attempt (success timed_out : bool) : M MeterTask unit :=
  upd_state (λ m,
    if success then m <| ms_tool_successes := ms_tool_successes m + 1 |>
    else m <| ms_tool_failures := ms_tool_failures m + 1 |>) ;;;
  (if timed_out then upd_state (λ m, m <| ms_tool_timeouts := ms_tool_timeouts m + 1 |>)
   else ret tt).

Definition add_queue_wait (d : Z) : M MeterTask unit :=
  upd_state (λ m, m <| ms_queue_wait_seconds := ms_queue_wait_seconds m + Z.max 0 d |>).

Definition record_cancellation : M MeterTask unit :=
  upd_state (λ m, m <| ms_cancellation_count := ms_cancellation_count m + 1 |>).

Definition snapshot (b : ExecutionBudget) (now now' mono : Z) : ExecutionMeterState :=
  (eb_state b)
    <| ms_elapsed_wall_seconds := Z.max 0 (now - ms_started_at (eb_state b)) |>
    <| ms_active_execution_seconds := elapsed_seconds b now' mono |>.

(** [with model_operation_scope(meter): body]. *)
Definition model_operation_scope {A} (now : Z) (body : M MeterTask A) : M MeterTask A :=
  record_logical_model_operation now ;;;
  let! saved := gets mt_operation_attempts in
  modify (λ t, t <| mt_operation_attempts := Some 0 |>) ;;;
  try_finally body (modify (λ t, t <| mt_operation_attempts := saved |>)).

(** ** Budgets are never exceeded

    The meter actions any task of the request may perform, in any order. *)

Inductive meter_action : Type :=
  | ActRecordLogical (now : Z)
  | ActBeginModel (now : Z) (fallback : option bool)
  | ActFinishModel (success : bool) (prompt generated load : Z) (ttft : option Z)
  | ActBeginTool (now : Z)
  | ActFinishTool (success timed_out : bool)
  | ActQueueWait (d : Z)
  | ActCancel.

Definition act (a : meter_action) : M MeterTask unit :=
  match a with
  | ActRecordLogical now => record_logical_model_operation now
  | ActBeginModel now fb => begin_model_attempt now fb
  | ActFinishModel s p g l t => finish_model_attempt s p g l t
  | ActBeginTool now => begin_tool_attempt now
  | ActFinishTool s t => finish_tool_attempt s t
  | ActQueueWait d => add_queue_wait d
  | ActCancel => record_cancellation
  end.

(** Tasks share the meter but each has its own context variable: an action of a
    task whose variable holds [attempts]. *)
Definition act_in (attempts : option Z) (a : meter_action) (b : ExecutionBudget) : ExecutionBudget :=
  mt_meter (act a (MkMeterTask b attempts)).2.

Definition run_actions (acts : list (option Z * meter_action)) (b : ExecutionBudget) :
    ExecutionBudget :=
  foldl (λ b '(attempts, a), act_in attempts a b) b acts.

Definition within_budget (b : ExecutionBudget) : Prop :=
  ms_physical_model_attempts (eb_state b) ≤ eb_max_model_calls b ∧
  ms_tool_attempts (eb_state b) ≤ eb_max_tool_calls b ∧
  0 ≤ ms_fallback_attempts (eb_state b) ≤ ms_physical_model_attempts (eb_state b).

Definition same_limits (b b' : ExecutionBudget) : Prop :=
  eb_max_model_calls b' = eb_max_model_calls b ∧
  eb_max_tool_calls b' = eb_max_tool_calls b ∧
  eb_max_verifier_rounds b' = eb_max_verifier_rounds b ∧
  ms_deadline_at (eb_state b') = ms_deadline_at (eb_state b) ∧
  ms_started_at (eb_state b') = ms_started_at (eb_state b).

Ltac meter_run :=
  unfold act_in, act, record_logical_model_operation, begin_model_attempt,
    finish_model_attempt, begin_tool_attempt, finish_tool_attempt, add_queue_wait,
    record_cancellation, check, upd_state, bind, gets, modify, ret, raise in *;
  cbn in *.

Lemma act_in_within attempts a b : within_budget b → within_budget (act_in attempts a b).
Proof.
  intros (H1 & H2 & H3). unfold within_budget.
  destruct a as [now|now fb|s p g l t|now|s t|d|]; meter_run;
    try (destruct (check_error b now); cbn; [lia|]).
  - lia.
  - destruct (Z.leb_spec (eb_max_model_calls b) (ms_physical_model_attempts (eb_state b)));
      cbn; [lia|].
    destruct (match fb with Some f => f | None => _ end), attempts; cbn; lia.
  - destruct s; cbn; lia.
  - destruct (Z.leb_spec (eb_max_tool_calls b) (ms_tool_attempts (eb_state b))); cbn; lia.
  - destruct s, t; cbn; lia.
  - lia.
  - lia.
Qed.

Lemma act_in_limits attempts a b : same_limits b (act_in attempts a b).
Proof.
  unfold same_limits.
  destruct a as [now|now fb|s p g l t|now|s t|d|]; meter_run;
    try (destruct (check_error b now); cbn; [done|]).
  - done.
  - destruct (_ <=? _); cbn; [done|].
    destruct (match fb with Some f => f | None => _ end), attempts; done.
  - by destruct s.
  - by destruct (_ <=? _).
  - by destruct s, t.
  - done.
  - done.
Qed.

Lemma same_limits_trans b1 b2 b3 : same_limits b1 b2 → same_limits b2 b3 → same_limits b1 b3.
Proof. unfold same_limits. intuition congruence. Qed.

Lemma run_actions_within acts b :
  within_budget b → within_budget (run_actions acts b) ∧ same_limits b (run_actions acts b).
Proof.
  revert b. induction acts as [|[attempts a] acts IH]; intros b Hw; [done|]. simpl.
  destruct (IH (act_in attempts a b)) as [? Hl]; [by apply act_in_within|].
  split; [done|]. eapply same_limits_trans; [apply act_in_limits|done].
Qed.

(** C10. Budgets hold under any interleaving.  Whatever the tasks of a request
    do with its meter, the physical model attempts and the tool attempts stay
    within the limits the request started with, every fallback attempt is one
    of the physical attempts, and the limits and the deadline are unchanged. *)
Theorem budgets_hold acts max_duration max_model max_tool max_rounds now mono
    (Hmodel : 0 ≤ max_model) (Htool : 0 ≤ max_tool) :
  let b0 := init_budget max_duration max_model max_tool max_rounds None now mono in
  let b := run_actions acts b0 in
  ms_physical_model_attempts (eb_state b) ≤ max_model ∧
  ms_tool_attempts (eb_state b) ≤ max_tool ∧
  0 ≤ ms_fallback_attempts (eb_state b) ≤ ms_physical_model_attempts (eb_state b) ∧
  ms_deadline_at (eb_state b) = now + max_duration.
Proof.
  intros b0 b. destruct (run_actions_within acts b0) as [(H1 & H2 & H3) (L1 & L2 & _ & L3 & _)].
  { unfold within_budget. cbn. lia. }
  fold b in H1, H2, H3, L1, L2, L3. cbn in *. lia.
Qed.

(** Every refused attempt leaves the meter as it was. *)
Lemma begin_model_refused now fb t e t' :
  begin_model_attempt now fb t = (Raise e, t') → t' = t ∧ ∃ msg, e = BudgetExceeded msg.
Proof.
  destruct t as [b attempts]. meter_run. destruct (check_error b now) as [e0|] eqn:Hc; cbn.
  - intros [= <- <-]. split; [done|]. unfold check_error in Hc.
    repeat case_match; simplify_eq; eauto.
  - destruct (_ <=? _); cbn; [intros [= <- <-]; eauto|].
    destruct (match fb with Some f => f | None => _ end), attempts; done.
Qed.

Lemma begin_model_admitted now t :
  check_error (mt_meter t) now = None →
  ms_physical_model_attempts (eb_state (mt_meter t)) < eb_max_model_calls (mt_meter t) →
  ∃ t', begin_model_attempt now None t = (Ret tt, t') ∧
    eb_max_model_calls (mt_meter t') = eb_max_model_calls (mt_meter t) ∧
    ms_physical_model_attempts (eb_state (mt_meter t')) =
      ms_physical_model_attempts (eb_state (mt_meter t)) + 1 ∧
    ms_fallback_attempts (eb_state (mt_meter t')) =
      ms_fallback_attempts (eb_state (mt_meter t)) +
      (match mt_operation_attempts t with Some n => if 0 <? n then 1 else 0 | None => 0 end) ∧
    mt_operation_attempts t' = (λ n, n + 1) <$> mt_operation_attempts t.
Proof.
  destruct t as [b attempts]. meter_run. intros Hc Hlt. rewrite Hc. cbn.
  destruct (Z.leb_spec (eb_max_model_calls b) (ms_physical_model_attempts (eb_state b))); [lia|].
  destruct attempts as [n|]; cbn; [destruct (0 <? n); cbn|]; eexists; (split; [reflexivity|]);
    cbn; repeat split; lia.
Qed.

(** ** Fallback accounting of one logical operation *)

(** A body of [model_operation_scope] making [n] attempts, each at its instant. *)
Fixpoint attempts_body (nows : list Z) : M MeterTask unit :=
  match nows with
  | [] => ret tt
  | now :: nows => begin_model_attempt now None ;;; attempts_body nows
  end.

Lemma begin_model_counts now t n o t' :
  begin_model_attempt now None t = (o, t') → mt_operation_attempts t = Some n →
  match o with
  | Ret _ =>
      mt_operation_attempts t' = Some (n + 1) ∧
      ms_logical_model_operations (eb_state (mt_meter t')) =
        ms_logical_model_operations (eb_state (mt_meter t)) ∧
      ms_physical_model_attempts (eb_state (mt_meter t')) =
        ms_physical_model_attempts (eb_state (mt_meter t)) + 1 ∧
      ms_fallback_attempts (eb_state (mt_meter t')) =
        ms_fallback_attempts (eb_state (mt_meter t)) + (if 0 <? n then 1 else 0)
  | Raise _ => t' = t
  end.
Proof.
  destruct t as [b attempts]. meter_run. intros E ->.
  destruct (check_error b now); cbn in E; [by simplify_eq|].
  destruct (_ <=? _); cbn in E; [by simplify_eq|].
  destruct (0 <? n); cbn in E; simplify_eq; cbn; repeat split; lia.
Qed.

(** [k] attempts of a task whose variable held [n]. *)
Definition attempts_counted (n k : Z) (t t' : MeterTask) : Prop :=
  0 ≤ k ∧ mt_operation_attempts t' = Some (n + k) ∧
  ms_logical_model_operations (eb_state (mt_meter t')) =
    ms_logical_model_operations (eb_state (mt_meter t)) ∧
  ms_physical_model_attempts (eb_state (mt_meter t')) =
    ms_physical_model_attempts (eb_state (mt_meter t)) + k ∧
  ms_fallback_attempts (eb_state (mt_meter t')) =
    ms_fallback_attempts (eb_state (mt_meter t)) + Z.max 0 (if n =? 0 then k - 1 else k).

Lemma attempts_body_counts nows t n o t' :
  attempts_body nows t = (o, t') → mt_operation_attempts t = Some n → 0 ≤ n →
  ∃ k, attempts_counted n k t t' ∧ (o = Ret tt → k = Z.of_nat (length nows)).
Proof.
  revert t n. induction nows as [|now nows IH]; intros t n E Hn Hpos.
  { injection E as <- <-. exists 0. split; [|done]. unfold attempts_counted.
    rewrite Hn, !Z.add_0_r. destruct (n =? 0); repeat split; lia. }
  simpl in E. unfold bind at 1 in E.
  destruct (begin_model_attempt now None t) as [o1 t1] eqn:E1.
  pose proof (begin_model_counts _ _ _ _ _ E1 Hn) as Hc.
  destruct o1 as [[]|e].
  - destruct Hc as (H1 & H2 & H3 & H4).
    destruct (IH t1 (n + 1) E H1 ltac:(lia)) as (k & (K0 & K1 & K2 & K3 & K4) & K5).
    exists (k + 1). unfold attempts_counted.
    rewrite K1, K2, K3, K4, H2, H3, H4.
    destruct (Z.eqb_spec (n + 1) 0), (Z.eqb_spec n 0), (Z.ltb_spec 0 n); try lia;
      (split; [repeat split; try lia; f_equal; lia|intros Ho; specialize (K5 Ho); simpl; lia]).
  - injection E as <- <-. subst t1. exists 0. split; [|done]. unfold attempts_counted.
    rewrite Hn, !Z.add_0_r. destruct (n =? 0); repeat split; lia.
Qed.

(** Fallback accounting.  One logical operation whose body makes [n]
    attempts inside [model_operation_scope] records one logical operation, its
    physical attempts, and as fallbacks all of these but the first; the task's
    attempt counter is restored, also when an attempt is refused. *)
Theorem scope_accounting now nows t o t'
    (Hcheck : check_error (mt_meter t) now = None)
    (Hrun : model_operation_scope now (attempts_body nows) t = (o, t')) :
  ∃ k, 0 ≤ k ∧ (o = Ret tt → k = Z.of_nat (length nows)) ∧
    mt_operation_attempts t' = mt_operation_attempts t ∧
    ms_logical_model_operations (eb_state (mt_meter t')) =
      ms_logical_model_operations (eb_state (mt_meter t)) + 1 ∧
    ms_physical_model_attempts (eb_state (mt_meter t')) =
      ms_physical_model_attempts (eb_state (mt_meter t)) + k ∧
    ms_fallback_attempts (eb_state (mt_meter t')) =
      ms_fallback_attempts (eb_state (mt_meter t)) + Z.max 0 (k - 1).
Proof.
  destruct t as [b attempts]. unfold model_operation_scope, record_logical_model_operation,
    check, upd_state, try_finally, bind, gets, modify, ret in Hrun. cbn in Hrun, Hcheck.
  rewrite Hcheck in Hrun. cbn in Hrun.
  destruct (attempts_body nows _) as [o1 t1] eqn:E in Hrun.
  destruct (attempts_body_counts _ _ 0 _ _ E eq_refl ltac:(lia)) as (k & (K0 & K1 & K2 & K3 & K4) & K5).
  injection Hrun as <- <-. exists k. cbn in *. repeat split; try done.
Qed.

Lemma scope_accounting_witness :
  let b := init_budget (seconds 60) 3 3 2 None 0 0 in
  let r := model_operation_scope 1 (attempts_body [2; 3; 4; 5]) (MkMeterTask b None) in
  ∃ k, 0 ≤ k ∧ (r.1 = Ret tt → k = 4) ∧
    mt_operation_attempts r.2 = None ∧
    ms_logical_model_operations (eb_state (mt_meter r.2)) = 0 + 1 ∧
    ms_physical_model_attempts (eb_state (mt_meter r.2)) = 0 + k ∧
    ms_fallback_attempts (eb_state (mt_meter r.2)) = 0 + Z.max 0 (k - 1).
Proof.
  intros b r.
  apply (scope_accounting 1 [2; 3; 4; 5] (MkMeterTask b None) r.1 r.2); vm_compute; reflexivity.
Defined.

Lemma budgets_hold_witness :
  let b := run_actions [(None, ActBeginModel 1 None); (Some 1, ActBeginModel 2 None);
    (None, ActBeginTool 3); (None, ActBeginModel 4 None)]
    (init_budget (seconds 60) 2 1 2 None 0 0) in
  ms_physical_model_attempts (eb_state b) ≤ 2 ∧
  ms_tool_attempts (eb_state b) ≤ 1 ∧
  0 ≤ ms_fallback_attempts (eb_state b) ≤ ms_physical_model_attempts (eb_state b) ∧
  ms_deadline_at (eb_state b) = 0 + seconds 60.
Proof. apply budgets_hold; lia. Defined.

(** ** Elapsed time over a resume *)

(** Elapsed time never moves backwards when a run resumes: the meter
    restored from a snapshot reports, at every later reading of whatever
    clocks, at least the elapsed time of the snapshot and the handoff guard, and
    keeps the deadline and the counters of the interrupted attempt. *)
Theorem resume_elapsed b now1 now2 mono1 max_duration max_model max_tool max_rounds now3 mono3
    now4 mono4 :
  let b' := init_budget max_duration max_model max_tool max_rounds
    (Some (snapshot b now1 now2 mono1)) now3 mono3 in
  elapsed_seconds b now2 mono1 + 1000 ≤ elapsed_seconds b' now4 mono4 ∧
  ms_deadline_at (eb_state b') = ms_deadline_at (eb_state b) ∧
  ms_physical_model_attempts (eb_state b') = ms_physical_model_attempts (eb_state b) ∧
  ms_tool_attempts (eb_state b') = ms_tool_attempts (eb_state b) ∧
  ms_verifier_rounds (eb_state b') = ms_verifier_rounds (eb_state b).
Proof.
  intros b'. split; [|done]. unfold b', elapsed_seconds at 2. cbn. lia.
Qed.
