(* ===== verification/Metrics.v ===== *)
(** * The in-process metrics registry

    [MetricsRegistry] of [app/observability/metrics.py]: counters and bounded
    timing samples.  Each method holds the registry's lock, so it is atomic.
    A timing is carried in microseconds.  [snapshot]'s averages are not
    modelled. *)

From S2P Require Import Prelude PyData.

Record MetricsRegistry : Type := MkMetrics {
  mx_max_timing_samples : nat;
  mx_counters : gmap string Z;
  mx_timings : gmap string (list Z)
}.

#[export] Instance eta_MetricsRegistry : Eta MetricsRegistry := λ m,
  MkMetrics (mx_max_timing_samples m) (mx_counters m) (mx_timings m).

Definition metrics_init (max_timing_samples : Z) : outcome MetricsRegistry :=
  if max_timing_samples <? 1 then
    Raise (PyExn ValueError "max_timing_samples must be at least 1")
  else Ret (MkMetrics (Z.to_nat max_timing_samples) ∅ ∅).

Definition empty_name : exn := PyExn ValueError "metric name must not be empty".

Definition inc (name : string) (amount : Z) : M MetricsRegistry unit :=
  if nonempty name then
    modify (λ m, m <| mx_counters :=
      <[name := default 0 (mx_counters m !! name) + amount]> (mx_counters m) |>)
  else raise empty_name.

(** [values.append(v); del values[:overflow]]. *)
Definition keep_last {A} (n : nat) (l : list A) : list A := drop (length l - n) l.

Definition observe (name : string) (value : Z) : M MetricsRegistry unit :=
  if nonempty name then
    modify (λ m, m <| mx_timings :=
      <[name := keep_last (mx_max_timing_samples m)
                  (default [] (mx_timings m !! name) ++ [value])]> (mx_timings m) |>)
  else raise empty_name.

Definition metrics_reset : M MetricsRegistry unit :=
  modify (λ m, m <| mx_counters := ∅ |> <| mx_timings := ∅ |>).

Lemma keep_last_length {A} n (l : list A) : (length (keep_last n l) ≤ n)%nat.
Proof. unfold keep_last. rewrite length_drop. lia. Qed.

Lemma keep_last_suffix {A} n (l : list A) : ∃ l', l = l' ++ keep_last n l.
Proof. exists (take (length l - n) l). symmetry. apply take_drop. Qed.

Lemma keep_last_map {A B} (f : A → B) n l : map f (keep_last n l) = keep_last n (map f l).
Proof. unfold keep_last. by rewrite <- skipn_map, length_map. Qed.

Lemma keep_last_short {A} n (l : list A) : (length l ≤ n)%nat → keep_last n l = l.
Proof. intros H. unfold keep_last. by replace (length l - n)%nat with 0%nat by lia. Qed.
