(* ===== verification/Observability.v ===== *)
(** * Redaction, spans and timers

    [redaction.py], [tracing.py] and [timing.py] of [app/observability], and
    [app/orchestration/run_context.py].  [redact_exact] is a noninterference
    theorem in both directions: what [redact] shows is the public part of a value,
    and nothing else. *)

From S2P Require Import Prelude PyData Metrics.

(** ** [redact] *)

Definition SENSITIVE : list string :=
  ["authorization"; "x-api-key"; "api_key"; "confirmation_token"; "password"; "secret"].

Definition sensitive (key : string) : bool := bool_decide (lower key ∈ SENSITIVE).

Fixpoint redact (value : pyval) : pyval :=
  match value with
  | VDict d => VDict (map (λ kv, (kv.1, if sensitive kv.1 then VStr "[REDACTED]" else redact kv.2)) d)
  | VList l => VList (map redact l)
  | _ => value
  end.

(** Two values that differ only under sensitive keys. *)
Inductive same_public : pyval → pyval → Prop :=
  | SP_scalar v : match v with VDict _ | VList _ => False | _ => True end → same_public v v
  | SP_list l l' : Forall2 same_public l l' → same_public (VList l) (VList l')
  | SP_dict d d' :
      Forall2 (λ a b, a.1 = b.1 ∧ (sensitive a.1 = true ∨ same_public a.2 b.2)) d d' →
      same_public (VDict d) (VDict d').

Lemma redact_public v w : redact v = redact w → same_public v w.
Proof.
  revert w. induction v as [| | | | |l IH|d IH] using pyval_strong_ind; intros w H;
    try (destruct w; simpl in H; simplify_eq; by constructor).
  - destruct w as [| | | | |l'|]; simpl in H; try done. constructor. injection H as H. revert l' H.
    induction IH as [|x l Hx _ IHl]; intros [|y l'] H; simpl in H; try discriminate H; [constructor|].
    injection H as Hxy Hl. constructor; auto.
  - destruct w as [| | | | | |d']; simpl in H; try done. constructor. injection H as H. revert d' H.
    induction IH as [|[k x] d Hx _ IHd]; intros [|[k' y] d'] H; simpl in H; try discriminate H; [constructor|].
    injection H as -> Hv Hd. constructor; [|auto]. simpl in *. split; [done|].
    destruct (sensitive k'); [by left|right; auto].
Qed.

Lemma public_redact v w : same_public v w → redact v = redact w.
Proof.
  revert w. induction v as [| | | | |l IH|d IH] using pyval_strong_ind; intros w H;
    try (by inversion H).
  - inversion H as [? Hs|? l' Hl|]; subst; [done|]. simpl. f_equal. clear H.
    induction Hl as [|x y l l' Hxy _ IHl]; [done|]. apply Forall_cons in IH as [Hx IH]. simpl. f_equal; auto.
  - inversion H as [? Hs| |? d' Hd]; subst; [done|]. simpl. f_equal. clear H.
    induction Hd as [|[k x] [k' y] d d' [Hk Hxy] _ IHd]; [done|]. simpl in *. subst k'.
    apply Forall_cons in IH as [Hx IH]. simpl. f_equal; [|auto]. f_equal.
    destruct (sensitive k); [done|]. destruct Hxy as [?|Hxy]; [done|]. auto.
Qed.

(** Redaction hides the values under sensitive keys, at any depth and whatever
    their case, and nothing else: two values have one redacted form exactly when
    they differ only there.  Redacting twice changes nothing. *)
Theorem redact_exact v w : (redact v = redact w ↔ same_public v w) ∧ redact (redact v) = redact v.
Proof.
  split; [split; [apply redact_public|apply public_redact]|].
  induction v as [| | | | |l IH|d IH] using pyval_strong_ind; simpl; try done; f_equal; rewrite map_map.
  - induction IH as [|x l Hx _ IHl]; simpl; [done|]. by f_equal.
  - induction IH as [|[k x] d Hx _ IHd]; simpl in *; [done|]. f_equal; [|done]. f_equal.
    destruct (sensitive k) eqn:E; simpl; rewrite ?E; [done|]. by rewrite Hx.
Qed.

(** ** [span] *)

Section span.
Context {S A : Type} (get : S → MetricsRegistry) (set : MetricsRegistry → S → S).

Definition on_metrics (m : M MetricsRegistry unit) : M S unit := zoom get set m.

(** [with span(name): body]; [elapsed] is [monotonic() - started].  A cancellation
    is not an [Exception]: it is neither counted as an error nor as a success. *)
Definition span (name : string) (elapsed : Z) (body : M S A) : M S A := λ s,
  let '(o, s1) := body s in
  let count :=
    match o with
    | Ret _ => on_metrics (inc (name +:+ ".ok") 1)
    | Raise CancelledError => ret tt
    | Raise _ => on_metrics (inc (name +:+ ".error") 1)
    end in
  match try_finally count (on_metrics (observe (name +:+ ".seconds") elapsed)) s1 with
  | (Ret _, s2) => (o, s2)
  | (Raise e, s2) => (Raise e, s2)
  end.
End span.

(** ** [measure]

    [with measure() as timer: body]: the timer the body is given stands at zero; the
    one left behind holds what the clock advanced, whatever became of the body. *)

Record Timer : Type := MkTimer { tm_started : Z; tm_elapsed_seconds : Z }.

Definition measure {S A} (perf_counter : S → Z * S) (body : Timer → M S A) (s : S) : outcome A * Timer * S :=
  let '(started, s1) := perf_counter s in
  let '(o, s2) := body (MkTimer started 0) s1 in
  let '(now, s3) := perf_counter s2 in
  (o, MkTimer started (now - started), s3).

(** ** The identity of a run context *)

Record ContextIdentity : Type := MkContextIdentity {
  ci_conversation_id : string;
  ci_run_id : string;
  ci_execution_thread_id : string
}.

(** [RunIdentity.resolve]; the [fresh_...] are what [uuid4] returns. *)
Definition resolve_identity (fresh_conversation fresh_run : string)
    (conversation_id run_id legacy_thread_id : option string) : ContextIdentity :=
  let c := opt_str_or conversation_id (opt_str_or legacy_thread_id fresh_conversation) in
  let r := opt_str_or run_id fresh_run in
  MkContextIdentity c r (c +:+ ":" +:+ r).

Lemma nonempty_append name suffix : nonempty name = true → nonempty (name +:+ suffix) = true.
Proof. by destruct name. Qed.

(** Nor does a timer; over a clock that does not go back while the body runs, what it
    shows is not negative. *)
Theorem measure_transparent {S A} perf_counter (body : Timer → M S A) s :
  let start := perf_counter s in
  let ran := body (MkTimer start.1 0) start.2 in
  (measure perf_counter body s).1.1 = ran.1 ∧
  (start.1 ≤ (perf_counter ran.2).1 → 0 ≤ tm_elapsed_seconds (measure perf_counter body s).1.2).
Proof.
  cbv zeta. unfold measure. destruct (perf_counter s) as [t0 s1]. simpl. destruct (body _ s1) as [o s2]. simpl.
  destruct (perf_counter s2) as [t1 s3]. simpl. split; [done|lia].
Qed.

(** A span never changes what its body does: with a non-empty name, the outcome is
    the body's, whether it returns, raises or is cancelled. *)
Theorem span_transparent {S A} get set name elapsed (body : M S A) s :
  nonempty name = true → (span get set name elapsed body s).1 = (body s).1.
Proof.
  intros Hn. unfold span. destruct (body s) as [o s1].
  assert (∀ s2, ∃ s3, on_metrics get set (observe (name +:+ ".seconds") elapsed) s2 = (Ret tt, s3)) as Hobs.
  { intros s2. unfold on_metrics, zoom, observe. rewrite nonempty_append by done. by eexists. }
  assert (∀ suffix s2, ∃ s3, on_metrics get set (inc (name +:+ suffix) 1) s2 = (Ret tt, s3)) as Hinc.
  { intros suffix s2. unfold on_metrics, zoom, inc. rewrite nonempty_append by done. by eexists. }
  set (count := match o with Ret _ => _ | Raise _ => _ end).
  assert (∃ s2, count s1 = (Ret tt, s2)) as [s2 Hc].
  { unfold count. destruct o as [a|[]]; try apply Hinc. by eexists. }
  unfold try_finally. rewrite Hc. by destruct (Hobs s2) as [s3 ->].
Qed.

(** ** [MetricsRegistry.snapshot] and its endpoint

    [to_seconds] is the float of a number of microseconds, [mean] that of
    [sum(values) / len(values)]. *)

Definition timing_entry (to_seconds : Z → pyval) (mean : list Z → pyval) (values : list Z) : pyval :=
  let zero := VFloat "0.0" in
  VDict [
    ("count", VInt (Z.of_nat (length values)));
    ("avg", match values with [] => zero | _ => mean values end);
    ("min", match values with [] => zero | v :: vs => to_seconds (foldl Z.min v vs) end);
    ("max", match values with [] => zero | v :: vs => to_seconds (foldl Z.max v vs) end)].

Definition metrics_snapshot (to_seconds : Z → pyval) (mean : list Z → pyval) (m : MetricsRegistry) : pydict := [
  ("counters", VDict (prod_map id VInt <$> map_to_list (mx_counters m)));
  ("timings", VDict (prod_map id (timing_entry to_seconds mean) <$> map_to_list (mx_timings m)))].

(** [GET /api/metrics], the API key checked. *)
Definition application_metrics (app_name version : string) (to_seconds : Z → pyval)
    (mean : list Z → pyval) (m : MetricsRegistry) : pydict :=
  [("service", VStr app_name); ("version", VStr version)] ++ metrics_snapshot to_seconds mean m.
