(* ===== verification/ConvStore.v ===== *)
(** * Process-local conversation history

    [BoundedInMemoryStore] of [app/state/in_memory.py]: histories with a
    time-to-live, an LRU bound on sessions, a bound on messages per session, and
    turns committed at most once per run.  The coroutines hold the store's lock
    and await nothing inside it; [now] is the reading of [monotonic()]. *)

From S2P Require Import Prelude PyData Metrics.

Record BoundedInMemoryStore : Type := MkStore {
  bs_ttl : Z;
  bs_max_sessions : Z;
  bs_max_messages : Z;
  bs_data : list (string * (Z * list pydict));
  bs_committed_runs : gmap string (gset string);
  bs_metrics : MetricsRegistry
}.

#[export] Instance eta_BoundedInMemoryStore : Eta BoundedInMemoryStore := λ s,
  MkStore (bs_ttl s) (bs_max_sessions s) (bs_max_messages s) (bs_data s)
    (bs_committed_runs s) (bs_metrics s).

Definition store_init (ttl max_sessions max_messages : Z) (m : MetricsRegistry) :
    outcome BoundedInMemoryStore :=
  if ttl <=? 0 then Raise (PyExn ValueError "ttl_seconds must be positive")
  else if max_sessions <=? 0 then Raise (PyExn ValueError "max_sessions must be positive")
  else if max_messages <=? 0 then Raise (PyExn ValueError "max_messages must be positive")
  else Ret (MkStore ttl max_sessions max_messages [] ∅ m).

(** [metrics.inc], on the shared registry. *)
Definition store_inc (name : string) (amount : Z) : M BoundedInMemoryStore unit :=
  zoom bs_metrics (λ m s, s <| bs_metrics := m |>) (inc name amount).

(** The keys [_purge] removes. *)
Definition expired_keys (cutoff : Z) (d : list (string * (Z * list pydict))) : list string :=
  (filter (λ kv, kv.2.1 < cutoff) d).*1.

Definition drop_session (k : string) (s : BoundedInMemoryStore) : BoundedInMemoryStore :=
  s <| bs_data := od_pop k (bs_data s) |>
    <| bs_committed_runs := delete k (bs_committed_runs s) |>.

Definition _purge (now : Z) : M BoundedInMemoryStore unit :=
  let! expired := gets (λ s, expired_keys (now - bs_ttl s) (bs_data s)) in
  modify (λ s, foldr drop_session s expired) ;;;
  match expired with
  | [] => ret tt
  | _ => store_inc "state.memory_ttl_evictions" (Z.of_nat (length expired))
  end.

(** [while len(data) > max: data.popitem(last=False); committed.pop(...)],
    with the number of evictions. *)
Fixpoint evict (max_sessions : Z) (d : list (string * (Z * list pydict)))
    (c : gmap string (gset string)) : list (string * (Z * list pydict)) * gmap string (gset string) * Z :=
  match d with
  | [] => (d, c, 0)
  | (k, _) :: d' =>
      if max_sessions <? Z.of_nat (length d) then
        let '(d'', c'', n) := evict max_sessions d' (delete k c) in (d'', c'', n + 1)
      else (d, c, 0)
  end.

Definition _append_locked (key : string) (messages : list pydict) (now : Z) (purge : bool) :
    M BoundedInMemoryStore unit :=
  (if purge then _purge now else ret tt) ;;;
  let! current := gets (λ s, match dict_get key (bs_data s) with Some v => v.2 | None => [] end) in
  modify (λ s, s <| bs_data :=
    od_touch key (now, keep_last (Z.to_nat (bs_max_messages s)) (current ++ messages))
      (bs_data s) |>) ;;;
  let! evicted := gets (λ s, evict (bs_max_sessions s) (bs_data s) (bs_committed_runs s)) in
  modify (λ s, s <| bs_data := evicted.1.1 |> <| bs_committed_runs := evicted.1.2 |>) ;;;
  (if 0 <? evicted.2 then store_inc "state.memory_lru_evictions" evicted.2 else ret tt) ;;;
  store_inc "state.memory_appends" (Z.of_nat (length messages)).

Definition store_get (key : string) (now : Z) : M BoundedInMemoryStore (list pydict) :=
  if nonempty key then
    _purge now ;;;
    let! item := gets (λ s, dict_get key (bs_data s)) in
    match item with
    | None => store_inc "state.memory_miss" 1 ;;; ret []
    | Some (_, messages) =>
        modify (λ s, s <| bs_data := od_touch key (now, messages) (bs_data s) |>) ;;;
        store_inc "state.memory_hit" 1 ;;;
        ret messages
    end
  else ret [].

Definition store_append (key : string) (messages : list pydict) (now : Z) :
    M BoundedInMemoryStore unit :=
  if nonempty key then
    match messages with
    | [] => ret tt
    | _ => _append_locked key messages now true
    end
  else raise (PyExn ValueError "conversation key must not be empty").

(** The set [committed] is shared with the dictionary: [committed.add] is seen
    by later calls as long as the entry of [key] was not removed meanwhile. *)
Definition store_append_turn (key run_id : string) (user_message assistant_message : pydict)
    (now : Z) : M BoundedInMemoryStore bool :=
  if nonempty key && nonempty run_id then
    _purge now ;;;
    let! committed := gets (λ s, default ∅ (bs_committed_runs s !! key)) in
    modify (λ s, s <| bs_committed_runs := <[key := committed]> (bs_committed_runs s) |>) ;;;
    if bool_decide (run_id ∈ committed) then
      store_inc "state.memory_turn_idempotent_skip" 1 ;;; ret false
    else
      _append_locked key [user_message; assistant_message] now false ;;;
      modify (λ s, s <| bs_committed_runs :=
        alter (λ c, {[run_id]} ∪ c) key (bs_committed_runs s) |>) ;;;
      ret true
  else raise (PyExn ValueError "conversation key and run_id must not be empty").

Definition store_clear (key : option string) : M BoundedInMemoryStore unit :=
  let! removed := gets (λ s,
    match key with
    | None => Z.of_nat (length (bs_data s))
    | Some k => if dict_has k (bs_data s) then 1 else 0
    end) in
  modify (λ s,
    match key with
    | None => s <| bs_data := [] |> <| bs_committed_runs := ∅ |>
    | Some k => drop_session k s
    end) ;;;
  if removed =? 0 then ret tt else store_inc "state.memory_cleared_sessions" removed.

Definition store_health (now : Z) : M BoundedInMemoryStore pyval :=
  _purge now ;;;
  gets (λ s, VDict [
    ("status", VStr "available"); ("backend", VStr "memory");
    ("sessions", VInt (Z.of_nat (length (bs_data s))));
    ("max_sessions", VInt (bs_max_sessions s));
    ("max_messages_per_session", VInt (bs_max_messages s));
    ("ttl_seconds", VInt (bs_ttl s))]).

#[local] Arguments store_inc : simpl never.

(** ** The invariant *)

Record store_inv (s : BoundedInMemoryStore) : Prop := {
  si_positive : 0 < bs_max_sessions s ∧ 0 < bs_max_messages s;
  si_keys : NoDup (bs_data s).*1;
  si_sessions : Z.of_nat (length (bs_data s)) ≤ bs_max_sessions s;
  si_messages : Forall (λ kv, Z.of_nat (length kv.2.2) ≤ bs_max_messages s) (bs_data s);
  si_committed : ∀ k, is_Some (bs_committed_runs s !! k) → k ∈ (bs_data s).*1
}.

Lemma store_inc_spec name amount s :
  nonempty name = true →
  ∃ m, store_inc name amount s = (Ret tt, s <| bs_metrics := m |>).
Proof. intros H. unfold store_inc, zoom, inc. rewrite H. by eexists. Qed.

(** The invariant with an entry of [committed] allowed for [extra], which the
    store sets up before the session itself. *)
Record store_inv_but (extra : string → Prop) (s : BoundedInMemoryStore) : Prop := {
  sb_positive : 0 < bs_max_sessions s ∧ 0 < bs_max_messages s;
  sb_keys : NoDup (bs_data s).*1;
  sb_sessions : Z.of_nat (length (bs_data s)) ≤ bs_max_sessions s;
  sb_messages : Forall (λ kv, Z.of_nat (length kv.2.2) ≤ bs_max_messages s) (bs_data s);
  sb_committed : ∀ k, is_Some (bs_committed_runs s !! k) → k ∈ (bs_data s).*1 ∨ extra k
}.

Lemma store_inv_but_none s : store_inv s ↔ store_inv_but (λ _, False) s.
Proof. split; intros []; split; naive_solver. Qed.

Lemma drop_session_inv k s : store_inv s → store_inv (drop_session k s).
Proof.
  intros [H1 H2 H3 H4 H5]. split; cbn; [done|by apply od_pop_NoDup|..].
  - pose proof (length_filter (λ kv : string * (Z * list pydict), kv.1 ≠ k) (bs_data s)).
    unfold od_pop. lia.
  - apply Forall_forall. intros kv [_ Hin]%list_elem_of_filter.
    rewrite Forall_forall in H4. by apply H4.
  - intros k' [c Hc]. apply lookup_delete_Some in Hc as [Hne Hc].
    rewrite od_pop_keys, list_elem_of_filter. split; [by intros <-|]. apply H5. by eexists.
Qed.

Definition purged (now : Z) (s : BoundedInMemoryStore) : BoundedInMemoryStore :=
  foldr drop_session s (expired_keys (now - bs_ttl s) (bs_data s)).

Lemma purged_inv now s : store_inv s → store_inv (purged now s).
Proof.
  intros H. unfold purged. induction (expired_keys _ _) as [|k ks IH]; simpl; [done|].
  by apply drop_session_inv.
Qed.

Lemma purge_spec now s :
  ∃ m, _purge now s = (Ret tt, (purged now s) <| bs_metrics := m |>).
Proof.
  unfold _purge, bind, gets, modify, purged, ret.
  destruct (expired_keys _ _) as [|k ks] eqn:E.
  - exists (bs_metrics s). by destruct s.
  - simpl. edestruct (store_inc_spec "state.memory_ttl_evictions") as [m Hm]; [done|].
    exists m. by rewrite Hm.
Qed.

Lemma store_inv_metrics m s : store_inv s → store_inv (s <| bs_metrics := m |>).
Proof. by intros []. Qed.

Lemma dict_get_purged now s k v :
  NoDup (bs_data s).*1 → dict_get k (bs_data s) = Some v → now - bs_ttl s ≤ v.1 →
  dict_get k (bs_data (purged now s)) = Some v ∧
  bs_committed_runs (purged now s) !! k = bs_committed_runs s !! k.
Proof.
  intros Hnd Hk Hv. unfold purged.
  assert (Hnot : k ∉ expired_keys (now - bs_ttl s) (bs_data s)).
  { unfold expired_keys. intros ([k' v'] & -> & [Hlt Hin]%list_elem_of_filter)%list_elem_of_fmap.
    apply (elem_of_dict_get _ _ _ Hnd) in Hin. cbn in *. simplify_eq. lia. }
  induction (expired_keys _ _) as [|k' ks IH]; simpl; [done|].
  rewrite not_elem_of_cons in Hnot. destruct Hnot as [Hne Hnot].
  destruct (IH Hnot) as [IH1 IH2]. rewrite dict_get_pop, lookup_delete_ne by done.
  by destruct (String.eqb_spec k k').
Qed.

Lemma evict_spec mx d c :
  0 ≤ mx →
  let '(d', c', n) := evict mx d c in
  0 ≤ n ∧ d' = drop (length d - Z.to_nat mx) d ∧
  (∀ k, c' !! k = if decide (k ∈ (take (length d - Z.to_nat mx) d).*1) then None else c !! k).
Proof.
  intros Hmx. revert c. induction d as [|[k v] d IH]; intros c; [done|].
  cbn [evict]. destruct (Z.ltb_spec mx (Z.of_nat (length ((k, v) :: d)))) as [Hlt|Hge].
  - specialize (IH (delete k c)). destruct (evict mx d (delete k c)) as [[d' c'] n].
    destruct IH as (Hn & Hd & Hc).
    replace (length ((k, v) :: d) - Z.to_nat mx)%nat with (S (length d - Z.to_nat mx))
      by (simpl in *; lia).
    simpl. split; [lia|]. split; [done|]. intros k'. rewrite Hc.
    destruct (decide (k' = k)) as [->|Hne].
    + rewrite lookup_delete_eq, (decide_True (P:=k ∈ k :: _)) by left. by case_decide.
    + rewrite lookup_delete_ne by done.
      destruct (decide (k' ∈ (take (length d - Z.to_nat mx) d).*1)) as [Hin|Hin].
      * by rewrite decide_True by by right.
      * rewrite decide_False; [done|]. by intros [->|]%elem_of_cons.
  - replace (length ((k, v) :: d) - Z.to_nat mx)%nat with 0%nat by lia.
    split; [lia|]. split; [done|]. intros k'.
    rewrite decide_False; [done|]. apply not_elem_of_nil.
Qed.

Definition history (key : string) (s : BoundedInMemoryStore) : list pydict :=
  match dict_get key (bs_data s) with Some v => v.2 | None => [] end.

Lemma append_locked_spec key messages now s :
  store_inv_but (.= key) s →
  ∃ s', _append_locked key messages now false s = (Ret tt, s') ∧ store_inv s' ∧
    bs_ttl s' = bs_ttl s ∧ bs_max_messages s' = bs_max_messages s ∧
    dict_get key (bs_data s') =
      Some (now, keep_last (Z.to_nat (bs_max_messages s)) (history key s ++ messages)) ∧
    bs_committed_runs s' !! key = bs_committed_runs s !! key.
Proof.
  intros [[Hp1 Hp2] Hk Hs Hm Hc].
  set (entry := (now, keep_last (Z.to_nat (bs_max_messages s)) (history key s ++ messages))).
  set (d1 := od_touch key entry (bs_data s)).
  assert (Hk1 : NoDup d1.*1) by (by apply od_touch_NoDup).
  assert (Hm1 : Forall (λ kv, Z.of_nat (length kv.2.2) ≤ bs_max_messages s) d1).
  { unfold d1, od_touch. apply Forall_app. split.
    - apply Forall_forall. intros kv [_ Hin]%list_elem_of_filter.
      rewrite Forall_forall in Hm. by apply Hm.
    - constructor; [|constructor]. unfold entry. cbn.
      pose proof (keep_last_length (Z.to_nat (bs_max_messages s)) (history key s ++ messages)). lia. }
  assert (Hlast : d1 = od_pop key (bs_data s) ++ [(key, entry)]) by done.
  pose proof (evict_spec (bs_max_sessions s) d1 (bs_committed_runs s) ltac:(lia)) as Hev.
  destruct (evict (bs_max_sessions s) d1 (bs_committed_runs s)) as [[d2 c2] n] eqn:Eev.
  destruct Hev as (Hn & Hd2 & Hc2).
  set (n1 := (length d1 - Z.to_nat (bs_max_sessions s))%nat) in *.
  assert (Hn1 : (n1 ≤ length (od_pop key (bs_data s)))%nat).
  { unfold n1. rewrite Hlast, length_app. simpl. lia. }
  assert (Hsplit : d1 = take n1 d1 ++ d2) by (by rewrite Hd2, take_drop).
  assert (Hkd2 : (key, entry) ∈ d2).
  { rewrite Hd2, Hlast, drop_app_le by done. apply elem_of_app. right. by left. }
  assert (Hnd2 : NoDup d2.*1).
  { rewrite Hsplit, fmap_app in Hk1. by apply NoDup_app in Hk1 as (_ & _ & ?). }
  assert (Hkey2 : key ∉ (take n1 d1).*1).
  { rewrite Hsplit, fmap_app, NoDup_app in Hk1. destruct Hk1 as (_ & Hdis & _).
    intros Hin. apply (Hdis _ Hin). apply list_elem_of_fmap. by exists (key, entry). }
  assert (Hfinal : ∃ m, _append_locked key messages now false s =
    (Ret tt, s <| bs_data := d2 |> <| bs_committed_runs := c2 |> <| bs_metrics := m |>)).
  { unfold _append_locked, bind, ret, gets, modify. cbn. fold (history key s).
    fold entry. fold d1. rewrite Eev. cbn.
    destruct (0 <? n).
    - edestruct (store_inc_spec "state.memory_lru_evictions") as [m1 ->]; [done|]. cbn.
      edestruct (store_inc_spec "state.memory_appends") as [m2 ->]; [done|]. by exists m2.
    - edestruct (store_inc_spec "state.memory_appends") as [m2 ->]; [done|]. by exists m2. }
  destruct Hfinal as [m ->]. eexists. split; [reflexivity|].
  split; [split; cbn|]; cbn; repeat split; try done.
  - apply (f_equal length) in Hd2. rewrite length_drop in Hd2. lia.
  - rewrite Hd2. by apply Forall_drop.
  - intros k. rewrite Hc2. case_decide as Hin; [by intros [? [=]]|]. intros Hk'.
    destruct (Hc k Hk') as [Hin'| ->].
    + assert (Hin1 : k ∈ d1.*1 ).
      { unfold d1, od_touch. rewrite fmap_app, od_pop_keys, elem_of_app, list_elem_of_filter.
        destruct (decide (k = key)) as [->|]; [right; by left|by left]. }
      rewrite Hsplit, fmap_app, elem_of_app in Hin1. by destruct Hin1.
    + apply list_elem_of_fmap. by exists (key, entry).
  - by apply elem_of_dict_get.
  - rewrite Hc2. by rewrite decide_False.
Qed.

(** Each operation returns (the guards apart) and keeps the invariant. *)
Lemma store_append_inv key messages now s :
  store_inv s → store_inv (store_append key messages now s).2.
Proof.
  intros H. unfold store_append. destruct (nonempty key); [|done].
  destruct messages as [|x l]; [done|].
  destruct (purge_spec now s) as [m Hp].
  unfold _append_locked. unfold bind at 1. rewrite Hp.
  pose proof (store_inv_metrics m _ (purged_inv now s H)) as H1.
  assert (H2 : store_inv_but (.= key) ((purged now s) <| bs_metrics := m |>))
    by (destruct H1; split; naive_solver).
  destruct (append_locked_spec key (x :: l) now _ H2) as (s' & E & Hs' & _).
  unfold _append_locked, bind at 1, ret at 1 in E. by rewrite E.
Qed.

Lemma append_turn_spec key run_id u a now s :
  store_inv s → nonempty key = true → nonempty run_id = true →
  let committed := default ∅ (bs_committed_runs (purged now s) !! key) in
  ∃ s', store_append_turn key run_id u a now s = (Ret (negb (bool_decide (run_id ∈ committed))), s') ∧
    store_inv s' ∧ bs_ttl s' = bs_ttl (purged now s) ∧
    if bool_decide (run_id ∈ committed) then bs_data s' = bs_data (purged now s)
    else
      dict_get key (bs_data s') = Some (now,
        keep_last (Z.to_nat (bs_max_messages s')) (history key (purged now s) ++ [u; a])) ∧
      ∃ c, bs_committed_runs s' !! key = Some c ∧ run_id ∈ c.
Proof.
  intros H Hkey Hrun committed. unfold store_append_turn. rewrite Hkey, Hrun. simpl.
  destruct (purge_spec now s) as [m Hp]. unfold bind at 1. rewrite Hp.
  pose proof (purged_inv now s H) as H1. set (p := purged now s) in *.
  unfold bind at 1, gets at 1. cbn [bs_committed_runs over]. fold committed.
  unfold bind at 1, modify at 1.
  match goal with |- context [(if _ then _ else _) ?x] => set (s1 := x) end.
  change (default ∅ (bs_committed_runs (p <| bs_metrics := m |>) !! key)) with committed in *.
  case_bool_decide as Hin; cbn [negb].
  - edestruct (store_inc_spec "state.memory_turn_idempotent_skip" 1 s1) as [m1 Hm1]; [done|].
    unfold bind. rewrite Hm1. eexists. split; [reflexivity|]. cbn.
    split; [|done]. destruct H1. split; cbn; try done.
    intros k [c Hc]. destruct (decide (k = key)) as [->|]; simplify_map_eq.
    + apply si_committed0. destruct (bs_committed_runs p !! key) eqn:E; [by eexists|].
      by apply not_elem_of_empty in Hin.
    + apply si_committed0. by eexists.
  - assert (H2 : store_inv_but (.= key) s1).
    { destruct H1. split; cbn; try done. intros k [c Hc].
      destruct (decide (k = key)) as [->|]; simplify_map_eq; [by right|].
      left. apply si_committed0. by eexists. }
    destruct (append_locked_spec key [u; a] now s1 H2) as (s' & E & Hs' & Httl & Hmx & Hget & Hcom).
    unfold bind. rewrite E. cbn. eexists. split; [reflexivity|].
    cbn in Hcom. rewrite lookup_insert_eq in Hcom.
    split.
    + destruct Hs'. split; cbn; try done. intros k [c Hc].
      destruct (decide (k = key)) as [->|].
      * apply si_committed0. by eexists.
      * rewrite lookup_alter_ne in Hc by done. apply si_committed0. by eexists.
    + cbn. split; [done|]. split; [rewrite Hmx; exact Hget|].
      rewrite lookup_alter_eq, Hcom. simpl. eexists. split; [done|]. set_solver.
Qed.

Lemma store_get_inv key now s : store_inv s → store_inv (store_get key now s).2.
Proof.
  intros H. unfold store_get. destruct (nonempty key); [|done].
  destruct (purge_spec now s) as [m Hp]. unfold bind at 1. rewrite Hp.
  pose proof (purged_inv now s H) as H1. set (p := purged now s) in *.
  unfold bind, gets. cbn. destruct (dict_get key (bs_data p)) as [[t ms]|] eqn:E.
  - unfold modify.
    match goal with |- context [store_inc ?n ?x ?y] =>
      edestruct (store_inc_spec n x y) as [m1 ->]; [done|] end.
    cbn. apply dict_get_elem_of in E. destruct H1. split; cbn; try done.
    + by apply od_touch_NoDup.
    + unfold od_touch. rewrite length_app. cbn [length].
      assert (length (od_pop key (bs_data p)) < length (bs_data p))%nat; [|lia].
      apply (length_filter_lt _ _ (key, (t, ms))); [done|]. simpl. tauto.
    + unfold od_touch. apply Forall_app. rewrite Forall_forall in si_messages0. split.
      * apply Forall_forall. intros kv [_ Hin]%list_elem_of_filter. by apply si_messages0.
      * constructor; [|done]. by apply (si_messages0 (key, (t, ms))).
    + intros k Hk. unfold od_touch. rewrite fmap_app, od_pop_keys, elem_of_app, list_elem_of_filter.
      destruct (decide (k = key)) as [->|]; [right; by left|]. left. split; [done|]. by apply si_committed0.
  - edestruct (store_inc_spec "state.memory_miss") as [m1 ->]; [done|]. cbn.
    by apply (store_inv_metrics m1 p).
Qed.

Lemma store_clear_inv key s : store_inv s → store_inv (store_clear key s).2.
Proof.
  intros H. unfold store_clear, bind, gets, modify, ret.
  assert (store_inv (match key with
    | None => s <| bs_data := [] |> <| bs_committed_runs := ∅ |>
    | Some k => drop_session k s end)) as H1.
  { destruct key as [k|]; [by apply drop_session_inv|]. destruct H. split; cbn; try done.
    - constructor.
    - lia.
    - intros k [c Hc]. by apply lookup_empty_Some in Hc. }
  cbn. destruct (_ =? 0); [exact H1|].
  match goal with |- context [store_inc ?n ?x ?y] =>
    edestruct (store_inc_spec n x y) as [m1 ->]; [done|] end.
  by apply (store_inv_metrics m1) in H1.
Qed.

(** The calls a client may make. *)
Inductive store_op : Type :=
  | StGet (key : string) (now : Z)
  | StAppend (key : string) (messages : list pydict) (now : Z)
  | StAppendTurn (key run_id : string) (u a : pydict) (now : Z)
  | StClear (key : option string)
  | StHealth (now : Z).

Definition store_step (s : BoundedInMemoryStore) (op : store_op) : BoundedInMemoryStore :=
  match op with
  | StGet k now => (store_get k now s).2
  | StAppend k ms now => (store_append k ms now s).2
  | StAppendTurn k r u a now => (store_append_turn k r u a now s).2
  | StClear k => (store_clear k s).2
  | StHealth now => (store_health now s).2
  end.

Lemma store_step_inv s op : store_inv s → store_inv (store_step s op).
Proof.
  intros H. destruct op as [k now|k ms now|k r u a now|k|now]; cbn.
  - by apply store_get_inv.
  - by apply store_append_inv.
  - destruct (nonempty k && nonempty r) eqn:E.
    + apply andb_true_iff in E as [E1 E2].
      destruct (append_turn_spec k r u a now s H E1 E2) as (s' & -> & ? & _). done.
    + unfold store_append_turn. by rewrite E.
  - by apply store_clear_inv.
  - unfold store_health, bind. destruct (purge_spec now s) as [m ->]. cbn.
    by apply store_inv_metrics, purged_inv.
Qed.

(** C38. The in-memory conversation store stays within its bounds.  After any
    calls, at most [max_sessions] sessions are kept, each under its own key
    with at most [max_messages] messages, and a set of committed runs is kept
    only for a session that is. *)
Theorem store_bounded ttl max_sessions max_messages m s0 ops
    (Hinit : store_init ttl max_sessions max_messages m = Ret s0) :
  let s := foldl store_step s0 ops in
  NoDup (bs_data s).*1 ∧
  Z.of_nat (length (bs_data s)) ≤ bs_max_sessions s ∧
  (∀ key v, dict_get key (bs_data s) = Some v → Z.of_nat (length v.2) ≤ bs_max_messages s) ∧
  (∀ key, is_Some (bs_committed_runs s !! key) → is_Some (dict_get key (bs_data s))).
Proof.
  assert (store_inv s0) as H0.
  { unfold store_init in Hinit. repeat case_match; simplify_eq. split; cbn; try done.
    - lia.
    - constructor.
    - lia.
    - intros k [c Hc]. by apply lookup_empty_Some in Hc. }
  clear Hinit. intros s.
  assert (store_inv s) as [_ H2 H3 H4 H5].
  { subst s. revert s0 H0. induction ops as [|op ops IH]; intros s0 H0; [done|].
    simpl. by apply IH, store_step_inv. }
  repeat split; [done|done|..].
  - intros key v Hv%dict_get_elem_of. rewrite Forall_forall in H4. by apply (H4 _ Hv).
  - intros key Hk%H5. destruct (dict_get key (bs_data s)) eqn:E; [by eexists|].
    by apply dict_get_None in E.
Qed.

(** A turn is committed once.  After [append_turn] of a run has returned [True],
    calling it again within the time-to-live, as a replay of the run does,
    returns [False] and leaves every history as the purge leaves it, whatever
    messages it carries. *)
Theorem turn_committed_once key run_id u a u2 a2 now now2 s s1
    (Hinv : store_inv s) (Hfirst : store_append_turn key run_id u a now s = (Ret true, s1))
    (Httl : now2 ≤ now + bs_ttl s1) :
  ∃ s2, store_append_turn key run_id u2 a2 now2 s1 = (Ret false, s2) ∧
    bs_data s2 = bs_data (purged now2 s1) ∧ history key s2 = history key s1 ∧
    history key s1 = keep_last (Z.to_nat (bs_max_messages s1))
      (history key (purged now s) ++ [u; a]).
Proof.
  destruct (nonempty key && nonempty run_id) eqn:E;
    [|unfold store_append_turn in Hfirst; by rewrite E in Hfirst].
  apply andb_true_iff in E as [E1 E2].
  destruct (append_turn_spec key run_id u a now s Hinv E1 E2) as (s' & Hs' & Hi & _ & Hd).
  rewrite Hs' in Hfirst. injection Hfirst as Hb ->.
  rewrite negb_true_iff in Hb. rewrite Hb in Hd. destruct Hd as (Hget & c & Hc & Hin).
  destruct (dict_get_purged now2 s1 key _ (si_keys _ Hi) Hget) as [Hg2 Hc2]; [simpl; lia|].
  destruct (append_turn_spec key run_id u2 a2 now2 s1 Hi E1 E2) as (s2 & Hs2 & _ & _ & Hd2).
  rewrite Hc2, Hc in Hs2, Hd2. simpl in Hs2, Hd2. rewrite bool_decide_true in Hs2, Hd2 by done.
  exists s2. split; [done|]. split; [done|]. unfold history. by rewrite Hd2, Hg2, Hget.
Qed.

Definition sample_store : BoundedInMemoryStore := MkStore 60 2 2 [] ∅ (MkMetrics 10 ∅ ∅).

Lemma store_bounded_witness :
  let s := foldl store_step sample_store
    [StAppend "a" [[]; []; []] 1; StAppendTurn "b" "r" [] [] 2; StAppend "c" [[]] 3] in
  NoDup (bs_data s).*1 ∧
  Z.of_nat (length (bs_data s)) ≤ bs_max_sessions s ∧
  (∀ key v, dict_get key (bs_data s) = Some v → Z.of_nat (length v.2) ≤ bs_max_messages s) ∧
  (∀ key, is_Some (bs_committed_runs s !! key) → is_Some (dict_get key (bs_data s))).
Proof. exact (store_bounded 60 2 2 (MkMetrics 10 ∅ ∅) sample_store _ eq_refl). Defined.

Lemma turn_committed_once_witness :
  let s1 := (store_append_turn "c" "r" [("role", VStr "user")] [] 1 sample_store).2 in
  ∃ s2, store_append_turn "c" "r" [] [] 30 s1 = (Ret false, s2) ∧
    bs_data s2 = bs_data (purged 30 s1) ∧ history "c" s2 = history "c" s1 ∧
    history "c" s1 = keep_last 2 (history "c" (purged 1 sample_store) ++ [[("role", VStr "user")]; []]).
Proof.
  refine (turn_committed_once "c" "r" [("role", VStr "user")] [] [] [] 1 30 sample_store _ _ _ _).
  - split; cbn; [lia|apply NoDup_nil_2|lia|apply Forall_nil_2|].
    intros k [c Hc]. by apply lookup_empty_Some in Hc.
  - vm_compute. reflexivity.
  - vm_compute. discriminate.
Defined.
