(* ===== verification/ConvSpec.v ===== *)
(** * Conversation stores

    The abstract base class [ConversationStore] of [app/state/base.py] as an
    interface, what every backend of it promises as a log of messages per
    conversation, and the calls on which all of them keep the promise. *)

From S2P Require Import Prelude PyData Json Metrics.

(** ** The promise

    Per conversation the last [max] messages, and the runs whose turn is in. *)

Record ConvLog : Type := MkConvLog {
  cl_messages : gmap string (list pydict);
  cl_committed : gmap string (gset string);
  cl_count : Z        (** messages appended so far *)
}.

Definition empty_log : ConvLog := MkConvLog ∅ ∅ 0.

Definition log_of (t : string) (c : ConvLog) : list pydict := default [] (cl_messages c !! t).
Definition committed_of (t : string) (c : ConvLog) : gset string := default ∅ (cl_committed c !! t).

Inductive conv_op : Type :=
  | CGet (thread_id : string)
  | CAppend (thread_id : string) (messages : list pydict)
  | CAppendTurn (thread_id run_id : string) (user_message assistant_message : pydict)
  | CClear (thread_id : string).

Inductive conv_reply : Type :=
  | RHistory (messages : list pydict)
  | RDone
  | RCommitted (appended : bool).

Definition extend (max : nat) (t : string) (messages : list pydict) (c : ConvLog) : ConvLog :=
  MkConvLog (<[t := keep_last max (log_of t c ++ messages)]> (cl_messages c)) (cl_committed c)
    (cl_count c + Z.of_nat (length messages)).

Definition commit (t run_id : string) (c : ConvLog) : ConvLog :=
  MkConvLog (cl_messages c) (<[t := {[run_id]} ∪ committed_of t c]> (cl_committed c)) (cl_count c).

Definition spec_step (max : nat) (op : conv_op) (c : ConvLog) : conv_reply * ConvLog :=
  match op with
  | CGet t => (RHistory (log_of t c), c)
  | CAppend t [] => (RDone, c)
  | CAppend t messages => (RDone, extend max t messages c)
  | CAppendTurn t r u a =>
      if bool_decide (r ∈ committed_of t c) then (RCommitted false, c)
      else (RCommitted true, commit t r (extend max t [u; a] c))
  | CClear t =>
      (RDone, MkConvLog (delete t (cl_messages c)) (delete t (cl_committed c)) (cl_count c))
  end.

Fixpoint spec_run (max : nat) (calls : list (Z * conv_op)) (c : ConvLog) : list conv_reply :=
  match calls with
  | [] => []
  | (_, op) :: calls => (spec_step max op c).1 :: spec_run max calls (spec_step max op c).2
  end.

(** ** The interface *)

Class ConversationStore (S : Type) : Type := {
  conv_get : string → Z → M S (list pydict);
  conv_append : string → list pydict → Z → M S unit;
  conv_append_turn : string → string → pydict → pydict → Z → M S bool;
  conv_clear : string → Z → M S unit
}.

Section interface.
Context {S : Type} `{!ConversationStore S}.

(** [append_turn] of the base class, for stores that do not override it. *)
Definition legacy_append_turn (t run_id : string) (u a : pydict) (now : Z) : M S bool :=
  conv_append t [u; a] now ;;; ret true.

Definition conv_exec (op : conv_op) (now : Z) : M S conv_reply :=
  match op with
  | CGet t => let! messages := conv_get t now in ret (RHistory messages)
  | CAppend t messages => conv_append t messages now ;;; ret RDone
  | CAppendTurn t r u a => let! b := conv_append_turn t r u a now in ret (RCommitted b)
  | CClear t => conv_clear t now ;;; ret RDone
  end.

Fixpoint conv_run (calls : list (Z * conv_op)) (s : S) : list (outcome conv_reply) :=
  match calls with
  | [] => []
  | (now, op) :: calls => let '(o, s') := conv_exec op now s in o :: conv_run calls s'
  end.
End interface.

(** ** The calls covered

    [jsonb] is what a [JSONB] column returns for a value, if it takes it, [uuid] the canonical
    text of a [UUID]; both are the identity on what the service writes. *)

Record ConvLimits : Type := MkLimits {
  lim_start : Z;              (** the calls fall in a window of one time-to-live *)
  lim_ttl : Z;
  lim_sessions : Z;           (** as many conversations as the process-local store keeps *)
  lim_jsonb : pyval → option pyval;
  lim_uuid : string → option string
}.

Definition bigint_top : Z := 2 ^ 63 - 1.

Definition has_nul_char (s : string) : bool := mem_char (Ascii.ascii_of_N 0) s.

(** No conversation is named like the bookkeeping keys of another one. *)
Definition thread_plain (t : string) : bool :=
  nonempty t && negb (has_nul_char t) && negb (startswith "turns:" t) && negb (startswith "turn:" t).

(** A message of role, content and metadata, as the chat runtime writes them. *)
Definition message_plain (L : ConvLimits) (m : pydict) : bool :=
  match m with
  | [(k1, VStr role); (k2, VStr content); (k3, VDict metadata)] =>
      String.eqb k1 "role" && String.eqb k2 "content" && String.eqb k3 "metadata"
      && negb (has_nul_char role) && negb (has_nul_char content)
      && bool_decide (lim_jsonb L (VDict metadata) = Some (VDict metadata)) && json_plain (VDict metadata)
  | _ => false
  end.

Definition op_plain (L : ConvLimits) (op : conv_op) : bool :=
  match op with
  | CGet t | CClear t => thread_plain t
  | CAppend t messages => thread_plain t && forallb (message_plain L) messages
  | CAppendTurn t r u a =>
      thread_plain t && nonempty r && bool_decide (lim_uuid L r = Some r)
      && message_plain L u && message_plain L a
  end.

Definition call_ok (L : ConvLimits) (max : nat) (now : Z) (op : conv_op) (c : ConvLog) : bool :=
  let c' := (spec_step max op c).2 in
  (lim_start L <=? now) && (now <? lim_start L + lim_ttl L) && op_plain L op
  && (Z.of_nat (size (cl_messages c')) <=? lim_sessions L) && (cl_count c' <=? bigint_top).

Fixpoint covered_calls (L : ConvLimits) (max : nat) (calls : list (Z * conv_op)) (c : ConvLog) : bool :=
  match calls with
  | [] => true
  | (now, op) :: calls =>
      call_ok L max now op c && covered_calls L max calls (spec_step max op c).2
  end.

(** ** Refinement, one call at a time *)

Class ConversationStoreLaws (S : Type) `{!ConversationStore S} (L : ConvLimits) (max : nat)
    (related : ConvLog → S → Prop) : Prop := {
  conv_step c s now op :
    related c s → call_ok L max now op c = true →
    ∃ s', conv_exec op now s = (Ret (spec_step max op c).1, s') ∧ related (spec_step max op c).2 s'
}.

Lemma store_refines {S} `{!ConversationStore S} L max related
    `{!ConversationStoreLaws S L max related} calls c s :
  related c s → covered_calls L max calls c = true →
  conv_run calls s = map Ret (spec_run max calls c).
Proof.
  revert c s. induction calls as [|[now op] calls IH]; intros c s Hr Hc; [done|].
  simpl in Hc. apply andb_true_iff in Hc as [Hop Hc].
  destruct (conv_step c s now op Hr Hop) as (s' & E & Hr'). cbn. rewrite E. cbn. f_equal.
  by apply IH.
Qed.

(** What a covered call gives the stores. *)
Record call_facts (L : ConvLimits) (max : nat) (now : Z) (op : conv_op) (c : ConvLog) : Prop := {
  cf_window : lim_start L ≤ now < lim_start L + lim_ttl L;
  cf_plain : op_plain L op = true;
  cf_sessions : Z.of_nat (size (cl_messages (spec_step max op c).2)) ≤ lim_sessions L;
  cf_count : cl_count (spec_step max op c).2 ≤ bigint_top
}.

Lemma call_ok_facts L max now op c : call_ok L max now op c = true → call_facts L max now op c.
Proof.
  unfold call_ok. rewrite !andb_true_iff, !Z.leb_le, Z.ltb_lt. intros [[[[? ?] ?] ?] ?]. by split.
Qed.

Lemma log_of_extend max t ms c t' :
  log_of t' (extend max t ms c) =
    if decide (t' = t) then keep_last max (log_of t c ++ ms) else log_of t' c.
Proof.
  unfold log_of, extend. cbn. case_decide as H; [subst; by rewrite lookup_insert_eq|].
  by rewrite lookup_insert_ne.
Qed.

Lemma committed_of_commit t r c t' :
  committed_of t' (commit t r c) =
    if decide (t' = t) then {[r]} ∪ committed_of t c else committed_of t' c.
Proof.
  unfold committed_of, commit. cbn. case_decide as H; [subst; by rewrite lookup_insert_eq|].
  by rewrite lookup_insert_ne.
Qed.

Lemma thread_plain_spec t : thread_plain t = true →
  nonempty t = true ∧ has_nul_char t = false ∧ startswith "turns:" t = false ∧ startswith "turn:" t = false.
Proof. unfold thread_plain. rewrite !andb_true_iff, !negb_true_iff. tauto. Qed.

(** A plain message is what its row or its text gives back. *)
Lemma message_plain_spec L m : message_plain L m = true →
  ∃ role content metadata,
    m = [("role", VStr role); ("content", VStr content); ("metadata", VDict metadata)] ∧
    has_nul_char role = false ∧ has_nul_char content = false ∧
    lim_jsonb L (VDict metadata) = Some (VDict metadata) ∧ json_plain (VDict metadata) = true.
Proof.
  destruct m as [|[k1 []] [|[k2 []] [|[k3 []] []]]]; try done. unfold message_plain.
  rewrite !andb_true_iff, !negb_true_iff.
  intros [[[[[[H1 H2] H3] H4] H5] H7] H8].
  apply String.eqb_eq in H1 as ->. apply String.eqb_eq in H2 as ->. apply String.eqb_eq in H3 as ->.
  apply bool_decide_eq_true in H7.
  do 3 eexists. split; [reflexivity|]. by split_and!.
Qed.
