(* ===== verification/RedisStore.v ===== *)
(** * The Redis conversation store

    [RedisConversationStore] of [app/state/redis.py].  Redis is a parameter: a
    class of servers with the commands the store sends, and, as [RedisLaws], what
    the documentation of each command promises of a keyspace whose keys may
    expire.  A script and a [MULTI] block run at one instant. *)

From S2P Require Import Prelude PyData Json Metrics ConvSpec.

(** ** Redis *)

Inductive RedisValue : Type :=
  | RList (l : list string)
  | RSet (x : gset string).

(** A key, its value and when it expires. *)
Abbreviation keyspace := (gmap string (RedisValue * option Z)) (only parsing).

Definition live (now : Z) (db : keyspace) (k : string) : option RedisValue :=
  match db !! k with
  | Some (v, Some expires) => if now <? expires then Some v else None
  | Some (v, None) => Some v
  | None => None
  end.

(** Writing a value keeps the expiry of a live key. *)
Definition put (now : Z) (k : string) (v : RedisValue) (db : keyspace) : keyspace :=
  <[k := (v, match live now db k with Some _ => db !! k ≫= snd | None => None end)]> db.

Definition list_at (now : Z) (db : keyspace) (k : string) : option (list string) :=
  match live now db k with
  | None => Some []
  | Some (RList l) => Some l
  | Some (RSet _) => None
  end.

Definition set_at (now : Z) (db : keyspace) (k : string) : option (gset string) :=
  match live now db k with
  | None => Some ∅
  | Some (RSet x) => Some x
  | Some (RList _) => None
  end.

(** Keys past their expiry may disappear at any time. *)
Definition collected (now : Z) (db db' : keyspace) : Prop :=
  ∀ k, db' !! k = db !! k ∨ (db' !! k = None ∧ live now db k = None).

(** The commands, at the server's clock; a negative range counts from the end. *)
Class RedisServer (R : Type) : Type := {
  rd_view : R → keyspace;
  rd_exists : Z → string → M R bool;
  rd_sismember : Z → string → string → M R bool;
  rd_sadd : Z → string → string → M R unit;
  rd_expire : Z → string → Z → M R unit;
  rd_rpush : Z → string → list string → M R unit;
  rd_ltrim_last : Z → string → Z → M R unit;                (** [LTRIM key -n -1] *)
  rd_lrange_last : Z → string → Z → M R (list string);      (** [LRANGE key -n -1] *)
  rd_delete : Z → list string → M R unit;
  rd_scan : Z → string → M R (list string)                  (** [SCAN], by a glob pattern *)
}.

(** A character that stands for itself in a glob pattern. *)
Definition literal_char (c : Ascii.ascii) : bool :=
  negb (bool_decide (code c ∈ [42; 63; 91; 92; 93; 94]))%N.

Definition literal (s : string) : bool := forallb literal_char (String.list_ascii_of_string s).

(** [m] answers [a] and leaves the keyspace [db], up to expired keys. *)
Definition answers {R A} `{RedisServer R} (now : Z) (m : M R A) (r : R) (a : A) (db : keyspace) : Prop :=
  ∃ r', m r = (Ret a, r') ∧ collected now db (rd_view r').

Class RedisLaws (R : Type) `{RedisServer R} : Prop := {
  rl_exists now k r :
    answers now (rd_exists now k) r (bool_decide (is_Some (live now (rd_view r) k))) (rd_view r);
  rl_sismember now k x r s : set_at now (rd_view r) k = Some s →
    answers now (rd_sismember now k x) r (bool_decide (x ∈ s)) (rd_view r);
  rl_sadd now k x r s : set_at now (rd_view r) k = Some s →
    answers now (rd_sadd now k x) r tt (put now k (RSet ({[x]} ∪ s)) (rd_view r));
  rl_expire now k ttl r v : live now (rd_view r) k = Some v → 0 < ttl →
    answers now (rd_expire now k ttl) r tt (<[k := (v, Some (now + ttl))]> (rd_view r));
  rl_rpush now k xs r l : list_at now (rd_view r) k = Some l → xs ≠ [] →
    answers now (rd_rpush now k xs) r tt (put now k (RList (l ++ xs)) (rd_view r));
  rl_ltrim now k n r l : live now (rd_view r) k = Some (RList l) → l ≠ [] → 0 < n →
    answers now (rd_ltrim_last now k n) r tt (put now k (RList (keep_last (Z.to_nat n) l)) (rd_view r));
  rl_lrange now k n r l : list_at now (rd_view r) k = Some l → 0 < n →
    answers now (rd_lrange_last now k n) r (keep_last (Z.to_nat n) l) (rd_view r);
  rl_delete now ks r : answers now (rd_delete now ks) r tt (foldr delete (rd_view r) ks);
  rl_scan now lit rest r : literal lit = true →
    ∃ ks, answers now (rd_scan now (lit +:+ rest)) r ks (rd_view r) ∧
      Forall (λ k, startswith lit k = true) ks
}.

(** ** The store *)

Record RedisConversationStore (R : Type) : Type := MkRedisStore {
  rc_key_prefix : string;
  rc_ttl_seconds : Z;
  rc_max_messages : Z;
  rc_client : bool;       (** [self._client is not None] *)
  rc_db : R
}.
Arguments MkRedisStore {R}. Arguments rc_key_prefix {R}. Arguments rc_ttl_seconds {R}.
Arguments rc_max_messages {R}. Arguments rc_client {R}. Arguments rc_db {R}.

#[export] Instance eta_RedisConversationStore {R} : Eta (RedisConversationStore R) := λ s,
  MkRedisStore (rc_key_prefix s) (rc_ttl_seconds s) (rc_max_messages s) (rc_client s) (rc_db s).

Definition redis_init {R} (key_prefix : string) (ttl_seconds max_messages : Z) (db : R) :
    RedisConversationStore R :=
  MkRedisStore (rstrip_by (λ c, code c =? 58)%N key_prefix) ttl_seconds max_messages false db.

Section store.
Context {R : Type} `{!RedisServer R} (float_repr : string → string).

Abbreviation RM := (M (RedisConversationStore R)) (only parsing).

(** [from_url], [ping] and [close] are the outcomes of the client's calls. *)
Definition redis_start (from_url ping close : outcome unit) : RM unit :=
  let! client := gets rc_client in
  if client then ret tt
  else
    of_outcome from_url ;;;
    modify (λ s, s <| rc_client := true |>) ;;;
    try_except (of_outcome ping) (λ e, Some (
      of_outcome close ;;; modify (λ s, s <| rc_client := false |>) ;;; raise e)).

Definition redis_aclose (close : outcome unit) : RM unit :=
  let! client := gets rc_client in
  if client then of_outcome close ;;; modify (λ s, s <| rc_client := false |>) else ret tt.

Definition _require_client : RM unit :=
  let! client := gets rc_client in
  if client then ret tt
  else raise (PyExn RuntimeError "Redis conversation store is not started").

(** [max_connections] is the setting of the client. *)
Definition redis_health (ping : outcome pyval) (max_connections : Z) : RM pyval :=
  _require_client ;;;
  let! value := of_outcome ping in
  ret (VDict [("status", VStr "available"); ("backend", VStr "redis");
    ("value", VBool (truthy value));
    ("pool", VDict [("application_scoped", VBool true); ("max_connections", VInt max_connections)])]).

Definition on_redis {A} (m : M R A) : RM A := zoom rc_db (λ db s, s <| rc_db := db |>) m.

Definition _key (prefix t : string) : string := prefix +:+ ":" +:+ t.
Definition _turns_key (prefix t : string) : string := prefix +:+ ":turns:" +:+ t.
Definition _turn_key (prefix t run_id : string) : string :=
  prefix +:+ ":turn:" +:+ t +:+ ":" +:+ run_id.

Definition encode_message (m : pydict) : string := dumps default_separators (VDict m).

Fixpoint decode_messages (values : list string) : outcome (list pydict) :=
  match values with
  | [] => Ret []
  | value :: values =>
      match loads float_repr value with
      | None => Raise (PyExn JSONDecodeError "Expecting value")
      | Some parsed =>
          match decode_messages values with
          | Raise e => Raise e
          | Ret messages => Ret (match parsed with VDict d => d :: messages | _ => messages end)
          end
      end
  end.

Definition redis_get (t : string) (now : Z) : RM (list pydict) :=
  _require_client ;;;
  let! s := gets id in
  let! values := on_redis (rd_lrange_last now (_key (rc_key_prefix s) t) (rc_max_messages s)) in
  of_outcome (decode_messages values).

(** [MULTI ... EXEC]: every command is executed, then the first error is raised. *)
Fixpoint pipeline_execute (commands : list (M R unit)) : M R unit :=
  match commands with
  | [] => ret tt
  | command :: commands => λ r,
      let '(o, r') := command r in
      let '(o', r'') := pipeline_execute commands r' in
      (match o with Raise e => Raise e | Ret _ => o' end, r'')
  end.

Definition redis_append (t : string) (messages : list pydict) (now : Z) : RM unit :=
  match messages with
  | [] => ret tt
  | _ =>
      _require_client ;;;
      let! s := gets id in
      let key := _key (rc_key_prefix s) t in
      on_redis (pipeline_execute [
        rd_rpush now key (map encode_message messages);
        rd_ltrim_last now key (rc_max_messages s);
        rd_expire now key (rc_ttl_seconds s)])
  end.

(** [_APPEND_TURN_SCRIPT]. *)
Definition append_turn_script (now : Z) (key turns_key turn_key : string) (ttl : Z) (run_id : string)
    (user assistant : string) (max_messages : Z) : M R Z :=
  let! member := rd_sismember now turns_key run_id in
  let! marked := (if member then ret true else rd_exists now turn_key) in
  if member || marked then
    rd_sadd now turns_key run_id ;;;
    rd_expire now turns_key ttl ;;;
    ret 0
  else
    rd_sadd now turns_key run_id ;;;
    rd_expire now turns_key ttl ;;;
    rd_rpush now key [user; assistant] ;;;
    rd_ltrim_last now key max_messages ;;;
    rd_expire now key ttl ;;;
    ret 1.

Definition redis_append_turn (t run_id : string) (user_message assistant_message : pydict) (now : Z) :
    RM bool :=
  _require_client ;;;
  let! s := gets id in
  let prefix := rc_key_prefix s in
  let! result := on_redis (append_turn_script now (_key prefix t) (_turns_key prefix t)
    (_turn_key prefix t run_id) (rc_ttl_seconds s) run_id (encode_message user_message)
    (encode_message assistant_message) (rc_max_messages s)) in
  ret (negb (result =? 0)).

Definition redis_clear (t : string) (now : Z) : RM unit :=
  _require_client ;;;
  let! s := gets id in
  let prefix := rc_key_prefix s in
  let! marker_keys := on_redis (rd_scan now (_turn_key prefix t "*")) in
  on_redis (rd_delete now (_key prefix t :: _turns_key prefix t :: marker_keys)).

#[export] Instance redis_conversation_store : ConversationStore (RedisConversationStore R) := {|
  conv_get := redis_get;
  conv_append := redis_append;
  conv_append_turn := redis_append_turn;
  conv_clear := redis_clear
|}.
End store.

(** ** Before anything expires *)

(** Every expiry of the keyspace is at [e] or later. *)
Definition fresh (e : Z) (db : keyspace) : Prop :=
  ∀ k v x, db !! k = Some (v, Some x) → e ≤ x.

Lemma live_fresh e now db k : fresh e db → now < e → live now db k = fst <$> db !! k.
Proof.
  intros Hf Hn. unfold live. destruct (db !! k) as [[v [x|]]|] eqn:E; [|done..].
  apply Hf in E. by rewrite (proj2 (Z.ltb_lt now x)) by lia.
Qed.

Lemma collected_fresh e now db db' : fresh e db → now < e → collected now db db' → db' = db.
Proof.
  intros Hf Hn Hc. apply map_eq. intros k. destruct (Hc k) as [?|[H1 H2]]; [done|].
  rewrite (live_fresh e) in H2 by done. rewrite H1. by destruct (db !! k).
Qed.

Lemma fresh_put e now k v db : fresh e db → fresh e (put now k v db).
Proof.
  intros Hf k' v' x. unfold put. rewrite lookup_insert. case_decide; [|apply Hf]. subst.
  destruct (live now db k'); [|done]. destruct (db !! k') as [[w y]|] eqn:E; [|done]. cbn.
  intros [= <- ->]. by eapply Hf.
Qed.

Lemma fresh_insert e k v x db : fresh e db → e ≤ x → fresh e (<[k := (v, Some x)]> db).
Proof.
  intros Hf Hx k' v' y. rewrite lookup_insert. case_decide; [|apply Hf]. intros [= <- <-]. done.
Qed.

Lemma fresh_delete e ks db : fresh e db → fresh e (foldr delete db ks).
Proof.
  intros Hf. induction ks as [|k ks IH]; simpl; [done|]. intros k' v x.
  rewrite lookup_delete. case_decide; [done|]. apply IH.
Qed.

(** Setting the expiry after a write hides whether there was one. *)
Lemma insert_put now k v w x db : <[k := (v, x)]> (put now k w db) = <[k := (v, x)]> db.
Proof. unfold put. by rewrite insert_insert_eq. Qed.

Section commands.
Context {R : Type} `{RedisServer R} `{!RedisLaws R}.

Lemma answers_fresh {A} e now (m : M R A) r a db :
  answers now m r a db → fresh e db → now < e → ∃ r', m r = (Ret a, r') ∧ rd_view r' = db.
Proof.
  intros (r' & E & Hc) Hf Hn. exists r'. split; [done|]. by eapply collected_fresh.
Qed.

Context (e now : Z) (Hnow : now < e).

Lemma run_exists k r : fresh e (rd_view r) →
  ∃ r', rd_exists now k r = (Ret (bool_decide (is_Some (rd_view r !! k))), r') ∧ rd_view r' = rd_view r.
Proof.
  intros Hf. pose proof (rl_exists now k r) as Ha. rewrite (live_fresh e) in Ha by done.
  eapply answers_fresh in Ha as (r' & E & ?); [|done..]. exists r'. split; [|done]. rewrite E.
  do 2 f_equal. apply bool_decide_ext. by rewrite fmap_is_Some.
Qed.

Definition set_entry (k : string) (db : keyspace) (s : gset string) : Prop :=
  match db !! k with None => s = ∅ | Some (RSet x, _) => s = x | Some (RList _, _) => False end.
Definition list_entry (k : string) (db : keyspace) (l : list string) : Prop :=
  match db !! k with None => l = [] | Some (RList x, _) => l = x | Some (RSet _, _) => False end.

Lemma set_entry_at k r s : fresh e (rd_view r) → set_entry k (rd_view r) s →
  set_at now (rd_view r) k = Some s.
Proof.
  intros Hf. unfold set_entry, set_at. rewrite (live_fresh e) by done.
  destruct (_ !! k) as [[[l|x] y]|]; cbn; [done|by intros ->..].
Qed.
Lemma list_entry_at k r l : fresh e (rd_view r) → list_entry k (rd_view r) l →
  list_at now (rd_view r) k = Some l.
Proof.
  intros Hf. unfold list_entry, list_at. rewrite (live_fresh e) by done.
  destruct (_ !! k) as [[[x|x] y]|]; cbn; [by intros ->|done|by intros ->].
Qed.

Lemma run_sismember k x r s : fresh e (rd_view r) → set_entry k (rd_view r) s →
  ∃ r', rd_sismember now k x r = (Ret (bool_decide (x ∈ s)), r') ∧ rd_view r' = rd_view r.
Proof.
  intros Hf Hs. eapply answers_fresh; [|done..]. by apply rl_sismember, set_entry_at.
Qed.

Lemma run_lrange k n r l : fresh e (rd_view r) → list_entry k (rd_view r) l → 0 < n →
  ∃ r', rd_lrange_last now k n r = (Ret (keep_last (Z.to_nat n) l), r') ∧ rd_view r' = rd_view r.
Proof.
  intros Hf Hl Hn. eapply answers_fresh; [|done..]. apply rl_lrange; [by apply list_entry_at|done].
Qed.

Lemma run_delete ks r : fresh e (rd_view r) →
  ∃ r', rd_delete now ks r = (Ret tt, r') ∧ rd_view r' = foldr delete (rd_view r) ks.
Proof. intros Hf. eapply answers_fresh; [apply rl_delete|by apply fresh_delete|done]. Qed.

Lemma run_scan lit rest r : literal lit = true → fresh e (rd_view r) →
  ∃ ks r', rd_scan now (lit +:+ rest) r = (Ret ks, r') ∧ rd_view r' = rd_view r ∧
    Forall (λ k, startswith lit k = true) ks.
Proof.
  intros Hl Hf. destruct (rl_scan now lit rest r Hl) as (ks & Ha & Hk).
  eapply answers_fresh in Ha as (r' & E & ?); [|done..]. by exists ks, r'.
Qed.

(** [SADD] and [EXPIRE]. *)
Lemma run_add_expire {B} k x ttl r s (rest : M R B) :
  fresh e (rd_view r) → set_entry k (rd_view r) s → 0 < ttl → e ≤ now + ttl →
  ∃ r', (rd_sadd now k x ;;; rd_expire now k ttl ;;; rest) r = rest r' ∧
    rd_view r' = <[k := (RSet ({[x]} ∪ s), Some (now + ttl))]> (rd_view r).
Proof.
  intros Hf Hs Ht He.
  eapply set_entry_at, (rl_sadd now k x) in Hs; [|done].
  eapply answers_fresh in Hs as (r1 & E1 & V1); [|by apply fresh_put|done].
  assert (fresh e (rd_view r1)) as Hf1 by (rewrite V1; by apply fresh_put).
  assert (live now (rd_view r1) k = Some (RSet ({[x]} ∪ s))) as Hl.
  { rewrite (live_fresh e), V1 by done. unfold put. by rewrite lookup_insert_eq. }
  eapply (rl_expire now k ttl), answers_fresh in Hl as (r2 & E2 & V2); [|by apply fresh_insert|done..].
  exists r2. rewrite (bind_run _ _ _ _ _ E1), (bind_run _ _ _ _ _ E2). split; [done|].
  by rewrite V2, V1, insert_put.
Qed.

(** [RPUSH], [LTRIM] and [EXPIRE]. *)
Lemma run_push_trim_expire k xs n ttl r l :
  fresh e (rd_view r) → list_entry k (rd_view r) l → xs ≠ [] → 0 < n → 0 < ttl → e ≤ now + ttl →
  ∃ r1 r2 r3, rd_rpush now k xs r = (Ret tt, r1) ∧ rd_ltrim_last now k n r1 = (Ret tt, r2) ∧
    rd_expire now k ttl r2 = (Ret tt, r3) ∧
    rd_view r3 = <[k := (RList (keep_last (Z.to_nat n) (l ++ xs)), Some (now + ttl))]> (rd_view r).
Proof.
  intros Hf Hl Hxs Hn Ht He.
  eapply list_entry_at, (rl_rpush now k xs) in Hl; [|done..].
  eapply answers_fresh in Hl as (r1 & E1 & V1); [|by apply fresh_put|done].
  assert (fresh e (rd_view r1)) as Hf1 by (rewrite V1; by apply fresh_put).
  assert (live now (rd_view r1) k = Some (RList (l ++ xs))) as Hl1.
  { rewrite (live_fresh e), V1 by done. unfold put. by rewrite lookup_insert_eq. }
  eapply (rl_ltrim now k n), answers_fresh in Hl1 as (r2 & E2 & V2);
    [|by apply fresh_put|done|by intros [_ ?]%app_eq_nil|done].
  assert (fresh e (rd_view r2)) as Hf2 by (rewrite V2; by apply fresh_put).
  assert (live now (rd_view r2) k = Some (RList (keep_last (Z.to_nat n) (l ++ xs)))) as Hl2.
  { rewrite (live_fresh e), V2 by done. unfold put at 1. by rewrite lookup_insert_eq. }
  eapply (rl_expire now k ttl), answers_fresh in Hl2 as (r3 & E3 & V3); [|by apply fresh_insert|done..].
  exists r1, r2, r3. split_and!; [done..|]. by rewrite V3, V2, insert_put, V1, insert_put.
Qed.
End commands.

(** ** Keys *)

Lemma startswith_app p s : startswith p (p +:+ s) = true.
Proof.
  unfold startswith. induction p as [|x p IH]; [by destruct s|]. rewrite sapp_cons. cbn.
  by destruct (Ascii.ascii_dec x x).
Qed.

Lemma startswith_app_l p q s : startswith (p +:+ q) (p +:+ s) = startswith q s.
Proof.
  unfold startswith. induction p as [|x p IH]; [by rewrite !sapp_nil|]. rewrite !sapp_cons. cbn.
  by destruct (Ascii.ascii_dec x x).
Qed.

Lemma _key_inj p t t' : _key p t = _key p t' ↔ t = t'.
Proof. split; [|by intros ->]. unfold _key. by intros ?%sapp_inj%(sapp_inj ":"). Qed.

Lemma _turns_key_inj p t t' : _turns_key p t = _turns_key p t' ↔ t = t'.
Proof. split; [|by intros ->]. unfold _turns_key. by intros ?%sapp_inj%(sapp_inj ":turns:"). Qed.

Lemma _key_turns p t t' : startswith "turns:" t = false → _key p t ≠ _turns_key p t'.
Proof.
  intros Ht H%sapp_inj. change (":" +:+ t = ":" +:+ ("turns:" +:+ t')) in H.
  apply sapp_inj in H as ->. by rewrite startswith_app in Ht.
Qed.

(** The keys of the earlier scheme: no other key is among them. *)
Definition marker_prefix (p : string) : string := p +:+ ":turn:".

Lemma _turn_key_marker p t r : _turn_key p t r = marker_prefix p +:+ (t +:+ ":" +:+ r).
Proof. unfold _turn_key, marker_prefix. by rewrite sapp_assoc. Qed.

Lemma _key_marker p t : startswith (marker_prefix p) (_key p t) = startswith "turn:" t.
Proof.
  unfold marker_prefix, _key. rewrite startswith_app_l. exact (startswith_app_l ":" "turn:" t).
Qed.

Lemma _turns_key_marker p t : startswith (marker_prefix p) (_turns_key p t) = false.
Proof. unfold marker_prefix, _turns_key. by rewrite startswith_app_l. Qed.

(** ** Refinement *)

Section refinement.
Context {R : Type} `{RedisServer R} `{!RedisLaws R} (float_repr : string → string).
Context (L : ConvLimits) (max : nat).

#[local] Existing Instance redis_conversation_store.

(** The keyspace holds the log [c] under the prefix [p], and nothing else. *)
Record view_rel (p : string) (c : ConvLog) (db : keyspace) : Prop := {
  vr_fresh : fresh (lim_start L + lim_ttl L) db;
  vr_lists t : thread_plain t = true →
    fst <$> db !! _key p t = RList ∘ map encode_message <$> cl_messages c !! t;
  vr_sets t : thread_plain t = true → fst <$> db !! _turns_key p t = RSet <$> cl_committed c !! t;
  vr_keys k : is_Some (db !! k) →
    ∃ t, thread_plain t = true ∧ (k = _key p t ∨ k = _turns_key p t);
  vr_logs t : (length (log_of t c) ≤ max)%nat ∧ Forall (λ m, json_plain (VDict m) = true) (log_of t c)
}.

Record redis_rel (c : ConvLog) (s : RedisConversationStore R) : Prop := {
  rr_client : rc_client s = true;
  rr_prefix : literal (marker_prefix (rc_key_prefix s)) = true;
  rr_max : rc_max_messages s = Z.of_nat max ∧ (0 < max)%nat;
  rr_ttl : rc_ttl_seconds s = lim_ttl L ∧ 0 < lim_ttl L;
  rr_view : view_rel (rc_key_prefix s) c (rd_view (rc_db s))
}.

Lemma rel_list p c db t : view_rel p c db → thread_plain t = true →
  list_entry (_key p t) db (map encode_message (log_of t c)).
Proof.
  intros Hr Ht. pose proof (vr_lists _ _ _ Hr t Ht) as E. unfold list_entry, log_of.
  destruct (db !! _) as [[v x]|], (cl_messages c !! t) as [l|]; try done.
  cbn in E. by injection E as ->.
Qed.

Lemma rel_set p c db t : view_rel p c db → thread_plain t = true →
  set_entry (_turns_key p t) db (committed_of t c).
Proof.
  intros Hr Ht. pose proof (vr_sets _ _ _ Hr t Ht) as E. unfold set_entry, committed_of.
  destruct (db !! _) as [[v x]|], (cl_committed c !! t) as [l|]; try done.
  cbn in E. by injection E as ->.
Qed.

Lemma rel_no_marker p c db k : view_rel p c db → startswith (marker_prefix p) k = true → db !! k = None.
Proof.
  intros Hr Hk. destruct (db !! k) eqn:E; [|done].
  destruct (vr_keys _ _ _ Hr k) as (t & Ht & [-> | ->]); [by eexists|..].
  - rewrite _key_marker in Hk. apply thread_plain_spec in Ht as (_ & _ & _ & Ht). congruence.
  - by rewrite _turns_key_marker in Hk.
Qed.

(** The server may change as long as its keyspace holds the log. *)
Lemma rel_db c c' s r : redis_rel c s → view_rel (rc_key_prefix s) c' (rd_view r) →
  redis_rel c' (s <| rc_db := r |>).
Proof. intros []. by split. Qed.

Lemma decode_encoded ms : Forall (λ m, json_plain (VDict m) = true) ms →
  decode_messages float_repr (map encode_message ms) = Ret ms.
Proof.
  induction 1 as [|m ms Hm _ IH]; simpl; [done|]. unfold encode_message at 1.
  rewrite loads_dumps by (first [done|by left]). by rewrite IH.
Qed.

(** Replacing the list of [t]. *)
Lemma rel_extend p c db t ms x n :
  view_rel p c db → thread_plain t = true → Forall (λ m, json_plain (VDict m) = true) ms →
  lim_start L + lim_ttl L ≤ x →
  view_rel p (MkConvLog (<[t := keep_last max (log_of t c ++ ms)]> (cl_messages c)) (cl_committed c) n)
    (<[_key p t :=
      (RList (keep_last max (map encode_message (log_of t c) ++ map encode_message ms)), Some x)]> db).
Proof.
  intros [H5 H6 H7 H8 H9] Ht Hms Hx. pose proof (thread_plain_spec t Ht) as (_ & _ & Hturns & _).
  split; cbn.
  - by apply fresh_insert.
  - intros t' Ht'. destruct (decide (t' = t)) as [->|Hne].
    + rewrite !lookup_insert_eq. cbn. do 2 f_equal. by rewrite keep_last_map, map_app.
    + rewrite !lookup_insert_ne; [by apply H6|done|by rewrite _key_inj].
  - intros t' Ht'. rewrite lookup_insert_ne by by apply _key_turns. by apply H7.
  - intros k. rewrite lookup_insert. case_decide; [intros _; exists t; split; [done|by left]|apply H8].
  - intros t'. unfold log_of. cbn. rewrite lookup_insert. case_decide; [|apply H9]. cbn.
    split; [apply keep_last_length|]. unfold keep_last. apply Forall_drop, Forall_app.
    split; [apply H9|done].
Qed.

(** Replacing the committed runs of [t]. *)
Lemma rel_commit p c db t X x :
  view_rel p c db → thread_plain t = true → lim_start L + lim_ttl L ≤ x →
  view_rel p (MkConvLog (cl_messages c) (<[t := X]> (cl_committed c)) (cl_count c))
    (<[_turns_key p t := (RSet X, Some x)]> db).
Proof.
  intros [H5 H6 H7 H8 H9] Ht Hx. split; cbn; [| | | |done].
  - by apply fresh_insert.
  - intros t' Ht'. apply thread_plain_spec in Ht' as Hs. rewrite lookup_insert_ne; [by apply H6|].
    intros Heq. symmetry in Heq. destruct Hs as (_ & _ & Hs & _). by eapply _key_turns in Hs.
  - intros t' Ht'. destruct (decide (t' = t)) as [->|Hne]; [by rewrite !lookup_insert_eq|].
    rewrite !lookup_insert_ne; [by apply H7|done|by rewrite _turns_key_inj].
  - intros k. rewrite lookup_insert. case_decide; [intros _; exists t; split; [done|by right]|apply H8].
Qed.

(** Dropping [t], and markers. *)
Lemma rel_clear p c db t ks : view_rel p c db → thread_plain t = true →
  Forall (λ k, startswith (marker_prefix p) k = true) ks →
  view_rel p (MkConvLog (delete t (cl_messages c)) (delete t (cl_committed c)) (cl_count c))
    (foldr delete db (_key p t :: _turns_key p t :: ks)).
Proof.
  intros Hr Ht Hks.
  assert (foldr delete db ks = db) as Hdb.
  { induction Hks as [|k ks Hk _ IH]; simpl; [done|]. rewrite IH.
    by apply delete_id, (rel_no_marker p c). }
  cbn [foldr]. rewrite Hdb. destruct Hr as [H5 H6 H7 H8 H9].
  pose proof (thread_plain_spec t Ht) as (_ & _ & Hturns & _). split; cbn.
  - apply (fresh_delete _ [_; _]), H5.
  - intros t' Ht'. pose proof (thread_plain_spec t' Ht') as (_ & _ & Hturns' & _).
    destruct (decide (t' = t)) as [->|Hne]; [by rewrite !lookup_delete_eq|].
    rewrite !lookup_delete_ne; [by apply H6|done| |by rewrite _key_inj].
    intros Heq. symmetry in Heq. by eapply _key_turns in Hturns'.
  - intros t' Ht'. rewrite lookup_delete_ne by by apply _key_turns.
    destruct (decide (t' = t)) as [->|Hne]; [by rewrite !lookup_delete_eq|].
    rewrite !lookup_delete_ne; [by apply H7|done|by rewrite _turns_key_inj].
  - intros k. rewrite !lookup_delete. repeat case_decide; try by intros []. apply H8.
  - intros t'. unfold log_of. cbn. rewrite lookup_delete. case_decide; [|apply H9]. cbn.
    split; [lia|constructor].
Qed.

Lemma run_on_redis {A B} (m : M R A) s a r' (k : A → M (RedisConversationStore R) B) :
  m (rc_db s) = (Ret a, r') → bind (on_redis m) k s = k a (s <| rc_db := r' |>).
Proof. intros E. unfold bind, on_redis, zoom. by rewrite E. Qed.

Lemma run_client {B} c s (k : M (RedisConversationStore R) B) :
  redis_rel c s → (_require_client ;;; k) s = k s.
Proof. intros Hr. unfold _require_client, bind, gets. by rewrite (rr_client _ _ Hr). Qed.

Context (now : Z) (Hnow : lim_start L ≤ now < lim_start L + lim_ttl L).

Lemma redis_get_ok c s t : redis_rel c s → thread_plain t = true →
  ∃ s', redis_get float_repr t now s = (Ret (log_of t c), s') ∧ redis_rel c s'.
Proof.
  intros Hr Ht. destruct (rr_max _ _ Hr) as [Hm Hm0]. pose proof (rr_view _ _ Hr) as Hv.
  destruct (run_lrange _ now (proj2 Hnow) (_key (rc_key_prefix s) t) (rc_max_messages s) (rc_db s)
    (map encode_message (log_of t c))) as (r & E & V); [apply Hv|by apply rel_list|lia|].
  exists (s <| rc_db := r |>). split; [|eapply rel_db; [done|by rewrite V]].
  unfold redis_get. rewrite (run_client c) by done. unfold bind at 1, gets.
  erewrite run_on_redis by exact E. rewrite Hm, Nat2Z.id, keep_last_short.
  - rewrite decode_encoded by apply Hv. done.
  - rewrite length_map. apply Hv.
Qed.

Lemma redis_append_ok c s t ms n : redis_rel c s → thread_plain t = true → ms ≠ [] →
  Forall (λ m, json_plain (VDict m) = true) ms →
  ∃ s', redis_append t ms now s = (Ret tt, s') ∧
    redis_rel (MkConvLog (<[t := keep_last max (log_of t c ++ ms)]> (cl_messages c)) (cl_committed c) n) s'.
Proof.
  intros Hr Ht Hms Hp. destruct (rr_max _ _ Hr) as [Hm Hm0]. destruct (rr_ttl _ _ Hr) as [Htt Htt0].
  pose proof (rr_view _ _ Hr) as Hv.
  destruct (run_push_trim_expire _ now (proj2 Hnow) (_key (rc_key_prefix s) t) (map encode_message ms)
    (rc_max_messages s) (rc_ttl_seconds s) (rc_db s) (map encode_message (log_of t c)))
    as (r1 & r2 & r3 & E1 & E2 & E3 & V); [apply Hv|by apply rel_list| |lia..|].
  { intros H0. by apply map_eq_nil in H0. }
  exists (s <| rc_db := r3 |>). split.
  - unfold redis_append. destruct ms as [|m ms]; [done|]. rewrite (run_client c) by done.
    unfold bind, gets, id, on_redis, zoom. cbn [pipeline_execute]. by rewrite E1, E2, E3.
  - rewrite Hm, Nat2Z.id in V. eapply rel_db; [done|]. rewrite V. eapply rel_extend; [done..|lia].
Qed.

(** The script on an uncommitted and on a committed run. *)
Lemma script_runs c s t run_id u a : redis_rel c s → thread_plain t = true →
  ∃ r', append_turn_script now (_key (rc_key_prefix s) t) (_turns_key (rc_key_prefix s) t)
      (_turn_key (rc_key_prefix s) t run_id) (rc_ttl_seconds s) run_id (encode_message u)
      (encode_message a) (rc_max_messages s) (rc_db s) =
      (Ret (if bool_decide (run_id ∈ committed_of t c) then 0 else 1), r') ∧
    let committed := <[_turns_key (rc_key_prefix s) t :=
      (RSet ({[run_id]} ∪ committed_of t c), Some (now + lim_ttl L))]> (rd_view (rc_db s)) in
    rd_view r' =
      if bool_decide (run_id ∈ committed_of t c) then committed
      else <[_key (rc_key_prefix s) t :=
        (RList (keep_last max (map encode_message (log_of t c) ++ map encode_message [u; a])),
         Some (now + lim_ttl L))]> committed.
Proof.
  intros Hr Ht. destruct (rr_max _ _ Hr) as [Hm Hm0]. destruct (rr_ttl _ _ Hr) as [-> Htt0].
  pose proof (rr_view _ _ Hr) as Hv. pose proof (vr_fresh _ _ _ Hv) as Hf.
  pose proof (rel_set _ c _ t Hv Ht) as Hs.
  destruct (run_sismember _ now (proj2 Hnow) (_turns_key (rc_key_prefix s) t) run_id (rc_db s) _ Hf Hs)
    as (r1 & E1 & V1).
  unfold append_turn_script. rewrite (bind_run _ _ _ _ _ E1).
  assert (∃ r2, (if bool_decide (run_id ∈ committed_of t c) then ret true
      else rd_exists now (_turn_key (rc_key_prefix s) t run_id)) r1 =
      (Ret (bool_decide (run_id ∈ committed_of t c)), r2) ∧ rd_view r2 = rd_view (rc_db s))
    as (r2 & E2 & V2).
  { case_bool_decide; [by exists r1|].
    destruct (run_exists _ now (proj2 Hnow) (_turn_key (rc_key_prefix s) t run_id) r1)
      as (r2 & E2 & V2); [by rewrite V1|]. exists r2. split; [|congruence].
    rewrite E2, V1, (rel_no_marker (rc_key_prefix s) c) by (first [done|by rewrite _turn_key_marker, startswith_app]).
    done. }
  rewrite (bind_run _ _ _ _ _ E2), orb_diag.
  destruct (run_add_expire (B:=Z) _ now (proj2 Hnow) (_turns_key (rc_key_prefix s) t) run_id (lim_ttl L) r2
    (committed_of t c)
    (if bool_decide (run_id ∈ committed_of t c) then ret 0
     else rd_rpush now (_key (rc_key_prefix s) t) [encode_message u; encode_message a] ;;;
       rd_ltrim_last now (_key (rc_key_prefix s) t) (rc_max_messages s) ;;;
       rd_expire now (_key (rc_key_prefix s) t) (lim_ttl L) ;;; ret 1))
    as (r3 & E3 & V3); [by rewrite V2|by rewrite V2|lia..|].
  rewrite V2 in V3. case_bool_decide as Hin.
  { exists r3. by rewrite E3. }
  destruct (run_push_trim_expire _ now (proj2 Hnow) (_key (rc_key_prefix s) t)
    [encode_message u; encode_message a] (rc_max_messages s) (lim_ttl L) r3
    (map encode_message (log_of t c))) as (r4 & r5 & r6 & E4 & E5 & E6 & V6); [| |done|lia..|].
  { rewrite V3. apply fresh_insert; [done|lia]. }
  { unfold list_entry. rewrite V3, lookup_insert_ne; [by apply rel_list|].
    intros Heq. symmetry in Heq. apply thread_plain_spec in Ht as (_ & _ & Ht & _).
    by eapply _key_turns in Ht. }
  exists r6. rewrite E3, (bind_run _ _ _ _ _ E4), (bind_run _ _ _ _ _ E5), (bind_run _ _ _ _ _ E6).
  split; [done|]. by rewrite V6, V3, Hm, Nat2Z.id.
Qed.

Lemma redis_append_turn_ok c s t run_id u a n : redis_rel c s → thread_plain t = true →
  Forall (λ m, json_plain (VDict m) = true) [u; a] →
  ∃ s', redis_append_turn t run_id u a now s =
      (Ret (negb (bool_decide (run_id ∈ committed_of t c))), s') ∧
    redis_rel (if bool_decide (run_id ∈ committed_of t c) then c
      else MkConvLog (<[t := keep_last max (log_of t c ++ [u; a])]> (cl_messages c))
        (<[t := {[run_id]} ∪ committed_of t c]> (cl_committed c)) n) s'.
Proof.
  intros Hr Ht Hp. destruct (script_runs c s t run_id u a Hr Ht) as (r & E & V).
  destruct (rr_ttl _ _ Hr) as [_ Htt0].
  exists (s <| rc_db := r |>). split.
  { unfold redis_append_turn. rewrite (run_client c) by done. unfold bind at 1, gets, id.
    erewrite run_on_redis by exact E. by case_bool_decide. }
  eapply rel_db; [done|]. rewrite V. cbv zeta.
  pose proof (rel_commit _ _ _ t ({[run_id]} ∪ committed_of t c) (now + lim_ttl L) (rr_view _ _ Hr) Ht
    ltac:(lia)) as Hc.
  case_bool_decide as Hin.
  - destruct c as [ms cs k]. unfold committed_of in *. cbn in *.
    destruct (cs !! t) as [X|] eqn:EX; [|set_solver]. cbn in *.
    replace ({[run_id]} ∪ X) with X in * by set_solver. by rewrite insert_id in Hc.
  - eapply (rel_extend _ _ _ t [u; a] (now + lim_ttl L) n) in Hc; [|done..|lia]. exact Hc.
Qed.

Lemma redis_clear_ok c s t : redis_rel c s → thread_plain t = true →
  ∃ s', redis_clear t now s = (Ret tt, s') ∧
    redis_rel (MkConvLog (delete t (cl_messages c)) (delete t (cl_committed c)) (cl_count c)) s'.
Proof.
  intros Hr Ht. pose proof (rr_view _ _ Hr) as Hv.
  destruct (run_scan _ now (proj2 Hnow) (marker_prefix (rc_key_prefix s)) (t +:+ ":" +:+ "*") (rc_db s))
    as (ks & r1 & E1 & V1 & Hks); [apply Hr|apply Hv|].
  destruct (run_delete _ now (proj2 Hnow) (_key (rc_key_prefix s) t :: _turns_key (rc_key_prefix s) t :: ks) r1)
    as (r2 & E2 & V2); [rewrite V1; apply Hv|].
  exists (s <| rc_db := r2 |>). split.
  - unfold redis_clear. rewrite (run_client c) by done. unfold bind at 1, gets, id.
    rewrite _turn_key_marker. erewrite run_on_redis by exact E1. unfold on_redis, zoom. cbn.
    by rewrite E2.
  - eapply rel_db; [done|]. rewrite V2, V1. by apply rel_clear.
Qed.
End refinement.

#[export] Instance redis_laws {R} `{RedisServer R} `{!RedisLaws R} float_repr L max :
  @ConversationStoreLaws _ (redis_conversation_store (R:=R) float_repr) L max (redis_rel L max).
Proof.
  split. intros c s now op Hr Hok. apply call_ok_facts in Hok as [Hnow Hplain _ _].
  assert (∀ m, message_plain L m = true → json_plain (VDict m) = true) as Hm.
  { intros m (role & content & metadata & -> & _ & _ & _ & Hp)%message_plain_spec. cbn in *.
    by rewrite Hp. }
  destruct op as [t|t ms|t r u a|t]; cbn in Hplain |- *.
  - destruct (redis_get_ok float_repr L max now Hnow c s t Hr Hplain) as (s' & E & ?).
    exists s'. by rewrite (bind_run _ _ _ _ _ E).
  - apply andb_true_iff in Hplain as [Ht Hms]. destruct ms as [|m ms].
    { exists s. by split. }
    destruct (redis_append_ok L max now Hnow c s t (m :: ms) (cl_count c + Z.of_nat (length (m :: ms))) Hr Ht)
      as (s' & E & ?); [done| |].
    { apply forallb_Forall in Hms. eapply Forall_impl; [exact Hms|exact Hm]. }
    exists s'. by rewrite (bind_run _ _ _ _ _ E).
  - rewrite !andb_true_iff in Hplain. destruct Hplain as [[[[Ht _] _] Hu] Ha].
    destruct (redis_append_turn_ok float_repr L max now Hnow c s t r u a (cl_count c + 2) Hr Ht)
      as (s' & E & ?); [by repeat constructor; apply Hm|].
    exists s'. rewrite (bind_run _ _ _ _ _ E). by case_bool_decide.
  - destruct (redis_clear_ok L max now Hnow c s t Hr Hplain) as (s' & E & ?).
    exists s'. by rewrite (bind_run _ _ _ _ _ E).
Qed.

(** ** A server

    A keyspace with the commands as documented: the laws can hold. *)

Definition wrong_type : exn :=
  PyExn OtherError "WRONGTYPE Operation against a key holding the wrong kind of value".

(** The literal start of a pattern. *)
Fixpoint literal_part (s : string) : string :=
  match s with
  | String c s => if literal_char c then String c (literal_part s) else EmptyString
  | EmptyString => EmptyString
  end.

#[export] Instance keyspace_server : RedisServer keyspace := {|
  rd_view db := db;
  rd_exists now k db := (Ret (bool_decide (is_Some (live now db k))), db);
  rd_sismember now k x db :=
    (match set_at now db k with Some s => Ret (bool_decide (x ∈ s)) | None => Raise wrong_type end, db);
  rd_sadd now k x db :=
    match set_at now db k with
    | Some s => (Ret tt, put now k (RSet ({[x]} ∪ s)) db)
    | None => (Raise wrong_type, db)
    end;
  rd_expire now k ttl db :=
    match live now db k with
    | Some v => (Ret tt, <[k := (v, Some (now + ttl))]> db)
    | None => (Ret tt, db)
    end;
  rd_rpush now k xs db :=
    match list_at now db k with
    | Some l => (Ret tt, put now k (RList (l ++ xs)) db)
    | None => (Raise wrong_type, db)
    end;
  rd_ltrim_last now k n db :=
    match list_at now db k with
    | Some [] => (Ret tt, db)
    | Some l => (Ret tt, put now k (RList (keep_last (Z.to_nat n) l)) db)
    | None => (Raise wrong_type, db)
    end;
  rd_lrange_last now k n db :=
    (match list_at now db k with
     | Some l => Ret (keep_last (Z.to_nat n) l)
     | None => Raise wrong_type
     end, db);
  rd_delete now ks db := (Ret tt, foldr delete db ks);
  rd_scan now pattern db :=
    (Ret (filter (λ k, startswith (literal_part pattern) k = true) (map_to_list db).*1), db)
|}.

Lemma literal_part_app lit rest : literal lit = true →
  literal_part (lit +:+ rest) = lit +:+ literal_part rest.
Proof.
  induction lit as [|c lit IH]; [done|]. unfold literal. cbn. intros [Hc Hl]%andb_true_iff.
  rewrite !sapp_cons. cbn. rewrite Hc. by rewrite IH.
Qed.

Lemma startswith_trans p q s : startswith (p +:+ q) s = true → startswith p s = true.
Proof.
  unfold startswith. revert s. induction p as [|c p IH]; intros s; [by destruct s|].
  rewrite sapp_cons. destruct s as [|d s]; [done|]. cbn. destruct (Ascii.ascii_dec c d); [apply IH|done].
Qed.

Lemma collected_refl now db : collected now db db.
Proof. intros k. by left. Qed.

#[export] Instance keyspace_laws : RedisLaws keyspace.
Proof.
  split; intros.
  - exists r. split; [done|apply collected_refl].
  - exists r. cbn in *. rewrite H. split; [done|apply collected_refl].
  - cbn in *. eexists. cbn. rewrite H. split; [done|apply collected_refl].
  - cbn in *. eexists. cbn. rewrite H. split; [done|apply collected_refl].
  - cbn in *. eexists. cbn. rewrite H. split; [done|apply collected_refl].
  - cbn in *. eexists. cbn. unfold list_at. rewrite H. destruct l as [|x l]; [done|].
    split; [done|apply collected_refl].
  - cbn in *. exists r. cbn. rewrite H. split; [done|apply collected_refl].
  - eexists. split; [done|apply collected_refl].
  - eexists. split; [exists r; split; [done|apply collected_refl]|].
    apply Forall_forall. intros k [Hk _]%list_elem_of_filter.
    rewrite literal_part_app in Hk by done. by eapply startswith_trans.
Qed.
