(* ===== verification/PostgresStore.v ===== *)
(** * The PostgreSQL conversation store

    [PostgresConversationStore] of [app/state/postgres.py].  A table is the list
    of its rows in the order of insertion; one statement is one action, and the
    advisory lock of a conversation makes its transaction one action too.  The
    [JSONB] and [UUID] columns are parameters: what is read back of a value, and
    the canonical text, [None] when the column refuses. *)

From stdpp Require Import sorting.
From S2P Require Import Prelude PyData Json PyNum Metrics ConvSpec.

(** A row of [app_conversation_messages]; its [id] and [created_at] are not read. *)
Record MessageRow : Type := MkMessageRow {
  mr_thread_id : string;
  mr_sequence_no : Z;
  mr_role : string;
  mr_content : string;
  mr_metadata : pyval;
  mr_run_id : option string;
  mr_message_kind : option string
}.

Record PostgresConversationStore : Type := MkPgStore {
  app_conversation_messages : list MessageRow;
  app_conversation_turn_commits : gset (string * string);
  ps_max_messages : Z;
  ps_pool : bool;          (** [self._pool is not None] *)
  ps_owns_pool : bool;
  ps_started : bool
}.

#[export] Instance eta_PostgresConversationStore : Eta PostgresConversationStore := λ s,
  MkPgStore (app_conversation_messages s) (app_conversation_turn_commits s) (ps_max_messages s)
    (ps_pool s) (ps_owns_pool s) (ps_started s).

Definition postgres_store_init (max_messages : Z) (pool_given : bool) : PostgresConversationStore :=
  MkPgStore [] ∅ max_messages pool_given (negb pool_given) false.

Abbreviation PM := (M PostgresConversationStore) (only parsing).

(** ** Life cycle

    [create], [migrate] and [close] are the outcomes of creating the pool, of the
    migration block under its lock, and of closing the pool. *)

Definition postgres_store_start (create migrate close : outcome unit) : PM unit :=
  let! started := gets ps_started in
  if started then ret tt
  else
    let! pool := gets ps_pool in
    (if pool then ret tt
     else of_outcome create ;;; modify (λ s, s <| ps_pool := true |> <| ps_owns_pool := true |>)) ;;;
    try_except (of_outcome migrate) (λ e, Some (
      let! owned := gets (λ s, ps_owns_pool s && ps_pool s) in
      (if owned then of_outcome close ;;; modify (λ s, s <| ps_pool := false |>) else ret tt) ;;;
      raise e)) ;;;
    modify (λ s, s <| ps_started := true |>).

Definition postgres_store_aclose (close : outcome unit) : PM unit :=
  let! owned := gets (λ s, ps_pool s && ps_owns_pool s) in
  (if owned then of_outcome close else ret tt) ;;;
  modify (λ s, s <| ps_pool := false |> <| ps_started := false |>).

Definition _require_conversation_pool : PM unit :=
  let! pool := gets ps_pool in
  if pool then ret tt
  else raise (PyExn RuntimeError "PostgreSQL conversation store is not started").

(** [size], [idle], [min_size], [max_size] of the pool. *)
Record PoolStats : Type := MkPoolStats {
  pool_size : Z; pool_idle : Z; pool_min_size : Z; pool_max_size : Z
}.

Definition _pool_snapshot (p : PoolStats) (shared : bool) : pyval :=
  VDict [("shared", VBool shared); ("size", VInt (pool_size p)); ("idle", VInt (pool_idle p));
    ("min_size", VInt (pool_min_size p)); ("max_size", VInt (pool_max_size p))].

Definition postgres_store_health (select_1 : outcome pyval) (p : PoolStats) : PM pyval :=
  _require_conversation_pool ;;;
  let! value := of_outcome select_1 in
  let! owns := gets ps_owns_pool in
  ret (VDict [("status", VStr "available"); ("backend", VStr "postgres"); ("value", value);
    ("pool", _pool_snapshot p (negb owns))]).

(** ** Statements *)

(** [async with connection.transaction(): m]. *)
Definition in_transaction {A} (m : PM A) : PM A := λ s,
  match m s with
  | (Ret a, s') => (Ret a, s')
  | (Raise e, _) => (Raise e, s)
  end.

Definition of_thread (t : string) (rows : list MessageRow) : list MessageRow :=
  filter (λ row, mr_thread_id row = t) rows.

Definition sequence_le (a b : MessageRow) : Prop := mr_sequence_no a ≤ mr_sequence_no b.
#[export] Instance sequence_le_dec a b : Decision (sequence_le a b).
Proof. unfold sequence_le. apply _. Defined.

(** [WHERE thread_id = t ORDER BY sequence_no DESC LIMIT n]. *)
Definition latest_rows (t : string) (n : Z) (rows : list MessageRow) : list MessageRow :=
  take (Z.to_nat n) (reverse (merge_sort sequence_le (of_thread t rows))).

(** [COALESCE(MAX(sequence_no), 0)]. *)
Definition max_sequence (rows : list MessageRow) : Z :=
  match rows with
  | [] => 0
  | row :: rows => foldr Z.max (mr_sequence_no row) (map mr_sequence_no rows)
  end.

Definition out_of_bigint : exn := PyExn OtherError "bigint out of range".

Definition _next_sequence (t : string) : PM Z :=
  let! rows := gets app_conversation_messages in
  let next := max_sequence (of_thread t rows) + 1 in
  if bigint_top <? next then raise out_of_bigint else ret next.

(** [UNIQUE (thread_id, sequence_no)], and the partial index on
    [(thread_id, run_id, message_kind)]. *)
Definition same_run_kind (a b : MessageRow) : bool :=
  match mr_run_id a, mr_run_id b, mr_message_kind a, mr_message_kind b with
  | Some r, Some r', Some k, Some k' => String.eqb r r' && String.eqb k k'
  | _, _, _, _ => false
  end.

Definition conflict (a b : MessageRow) : bool :=
  String.eqb (mr_thread_id a) (mr_thread_id b)
  && ((mr_sequence_no a =? mr_sequence_no b) || same_run_kind a b).

(** [INSERT INTO app_conversation_messages], with or without [ON CONFLICT DO NOTHING]. *)
Definition insert_message (do_nothing : bool) (row : MessageRow) : PM unit :=
  if has_nul_char (mr_thread_id row) || has_nul_char (mr_role row) || has_nul_char (mr_content row) then
    raise (PyExn OtherError "CharacterNotInRepertoireError")
  else if bigint_top <? mr_sequence_no row then raise out_of_bigint
  else
    let! rows := gets app_conversation_messages in
    if existsb (conflict row) rows then
      if do_nothing then ret tt else raise (PyExn OtherError "UniqueViolationError")
    else modify (λ s, s <| app_conversation_messages := rows ++ [row] |>).

Fixpoint executemany (do_nothing : bool) (rows : list MessageRow) : PM unit :=
  match rows with
  | [] => ret tt
  | row :: rows => insert_message do_nothing row ;;; executemany do_nothing rows
  end.

Definition _trim (t : string) : PM unit :=
  modify (λ s,
    let rows := app_conversation_messages s in
    let kept := map mr_sequence_no (latest_rows t (ps_max_messages s) rows) in
    s <| app_conversation_messages :=
      filter (λ row, ¬ (mr_thread_id row = t ∧ mr_sequence_no row ∉ kept)) rows |>).

(** ** Operations *)

Section operations.
Context (jsonb : pyval → option pyval) (uuid : string → option string) (str_container : pyval → string).

(** What [json.loads] made of the column's text. *)
Definition _decode_json_object (v : pyval) : pydict := match v with VDict d => d | _ => [] end.

(** The text of a [JSONB] value is never empty, so [metadata] is always there. *)
Definition row_message (row : MessageRow) : pydict :=
  [("role", VStr (mr_role row)); ("content", VStr (mr_content row));
   ("metadata", VDict (_decode_json_object (mr_metadata row)))].

Definition postgres_store_get (t : string) (now : Z) : PM (list pydict) :=
  _require_conversation_pool ;;;
  let! s := gets id in
  ret (map row_message (reverse (latest_rows t (ps_max_messages s) (app_conversation_messages s)))).

(** [str(message.get(key, default))]. *)
Definition text_field (key default_text : string) (message : pydict) : string :=
  str_value str_container (default (VStr default_text) (dict_get key message)).

Definition metadata_field (message : pydict) : outcome pyval :=
  let metadata := get_or_none "metadata" message in
  match jsonb (if truthy metadata then metadata else VDict []) with
  | Some v => Ret v
  | None => Raise (PyExn OtherError "UntranslatableCharacterError")
  end.

(** The records of [messages], numbered from [sequence_no], with a role to
    default to, a run and a kind. *)
Fixpoint message_records (t : string) (sequence_no : Z)
    (messages : list (string * option (string * string) * pydict)) : outcome (list MessageRow) :=
  match messages with
  | [] => Ret []
  | (role, turn, message) :: messages =>
      match metadata_field message with
      | Raise e => Raise e
      | Ret metadata =>
          match message_records t (sequence_no + 1) messages with
          | Raise e => Raise e
          | Ret records =>
              Ret (MkMessageRow t sequence_no (text_field "role" role message)
                     (text_field "content" "" message) metadata (fst <$> turn) (snd <$> turn)
                   :: records)
          end
      end
  end.

Definition postgres_store_append (t : string) (messages : list pydict) (now : Z) : PM unit :=
  match messages with
  | [] => ret tt
  | _ =>
      _require_conversation_pool ;;;
      in_transaction (
        let! next_sequence := _next_sequence t in
        let! records := of_outcome
          (message_records t next_sequence (map (λ m, ("assistant", None, m)) messages)) in
        executemany false records ;;;
        _trim t)
  end.

(** [INSERT INTO app_conversation_turn_commits ... ON CONFLICT DO NOTHING RETURNING run_id]. *)
Definition insert_commit (t run_id : string) : PM (option string) :=
  match uuid run_id with
  | None => raise (PyExn OtherError "DataError")
  | Some id =>
      let! commits := gets app_conversation_turn_commits in
      if bool_decide ((t, id) ∈ commits) then ret None
      else
        modify (λ s, s <| app_conversation_turn_commits := {[(t, id)]} ∪ commits |>) ;;;
        ret (Some id)
  end.

Definition postgres_store_append_turn (t run_id : string) (user_message assistant_message : pydict)
    (now : Z) : PM bool :=
  _require_conversation_pool ;;;
  in_transaction (
    let! committed := insert_commit t run_id in
    match committed with
    | None => ret false
    | Some id =>
        let! next_sequence := _next_sequence t in
        let! records := of_outcome (message_records t next_sequence
          [("user", Some (id, "user"), user_message);
           ("assistant", Some (id, "assistant"), assistant_message)]) in
        executemany true records ;;;
        _trim t ;;;
        ret true
    end).

Definition postgres_store_clear (t : string) (now : Z) : PM unit :=
  _require_conversation_pool ;;;
  in_transaction (
    modify (λ s, s <| app_conversation_messages :=
      filter (λ row, mr_thread_id row ≠ t) (app_conversation_messages s) |>) ;;;
    modify (λ s, s <| app_conversation_turn_commits :=
      filter (λ commit, commit.1 ≠ t) (app_conversation_turn_commits s) |>)).

#[export] Instance postgres_conversation_store : ConversationStore PostgresConversationStore := {|
  conv_get := postgres_store_get;
  conv_append := postgres_store_append;
  conv_append_turn := postgres_store_append_turn;
  conv_clear := postgres_store_clear
|}.
End operations.

(** ** Rows in order *)

Arguments of_thread : simpl never.

Definition sequence_lt (a b : MessageRow) : Prop := mr_sequence_no a < mr_sequence_no b.

Lemma sorted_merge_sort rows :
  StronglySorted sequence_lt rows → merge_sort sequence_le rows = rows.
Proof.
  intros Hs. apply (StronglySorted_unique_strong sequence_le).
  - intros a b Ha Hb H1 H2. rewrite merge_sort_Permutation in Ha. unfold sequence_le in *.
    apply list_elem_of_lookup in Ha as [i Hi], Hb as [j Hj].
    clear -Hs Hi Hj H1 H2. revert i j Hi Hj.
    induction Hs as [|x l Hl IH Hx]; intros i j Hi Hj; [done|].
    rewrite Forall_forall in Hx. unfold sequence_lt in Hx.
    destruct i as [|i], j as [|j]; cbn in Hi, Hj; simplify_eq; [done|..].
    + apply list_elem_of_lookup_2, Hx in Hj. lia.
    + apply list_elem_of_lookup_2, Hx in Hi. lia.
    + by eapply IH.
  - apply StronglySorted_merge_sort.
    + intros a b c ? ?. unfold sequence_le in *. lia.
    + intros a b. unfold sequence_le. lia.
  - clear -Hs. induction Hs as [|x l Hl IH Hx]; constructor; [done|].
    eapply Forall_impl; [done|]. unfold sequence_lt, sequence_le. intros; lia.
  - apply merge_sort_Permutation.
Qed.

Lemma latest_sorted t n rows : StronglySorted sequence_lt (of_thread t rows) →
  reverse (latest_rows t n rows) = keep_last (Z.to_nat n) (of_thread t rows).
Proof.
  intros Hs. unfold latest_rows. rewrite sorted_merge_sort, take_reverse, reverse_involutive by done.
  done.
Qed.

Lemma max_sequence_ge rows row : row ∈ rows → mr_sequence_no row ≤ max_sequence rows.
Proof.
  destruct rows as [|r0 rows]; [by intros ?%not_elem_of_nil|]. cbn. rewrite elem_of_cons.
  induction rows as [|r rows IH]; cbn; [intros [->|?%not_elem_of_nil]; [lia|done]|].
  rewrite elem_of_cons. intros [->|[->|H]]; [specialize (IH (or_introl eq_refl)); lia|lia|].
  specialize (IH (or_intror H)). lia.
Qed.

Lemma max_sequence_le rows b : 0 ≤ b → Forall (λ row, mr_sequence_no row ≤ b) rows → max_sequence rows ≤ b.
Proof.
  intros Hb. destruct rows as [|r0 rows]; [done|]. rewrite Forall_cons. intros [H0 H]. cbn.
  induction H; cbn; lia.
Qed.

Lemma of_thread_app t a b : of_thread t (a ++ b) = of_thread t a ++ of_thread t b.
Proof. apply filter_app. Qed.

Lemma of_thread_all t t' rows : Forall (λ row, mr_thread_id row = t) rows →
  of_thread t' rows = if decide (t' = t) then rows else [].
Proof.
  unfold of_thread. induction 1 as [|row rows Hrow _ IH]; [by case_decide|].
  rewrite filter_cons, IH. repeat case_decide; congruence.
Qed.

Lemma filter_all {A} (P : A → Prop) `{!∀ x, Decision (P x)} l : Forall P l → filter P l = l.
Proof. induction 1; [done|]. rewrite filter_cons_True by done. by f_equal. Qed.

(** The statement deletes everything but the last rows of its conversation. *)
Lemma trim_rows t n rows :
  StronglySorted sequence_lt (of_thread t rows) →
  let kept := map mr_sequence_no (latest_rows t n rows) in
  ∀ t', of_thread t' (filter (λ row, ¬ (mr_thread_id row = t ∧ mr_sequence_no row ∉ kept)) rows) =
    if decide (t' = t) then keep_last (Z.to_nat n) (of_thread t rows) else of_thread t' rows.
Proof.
  intros Hs kept t'. unfold of_thread at 1. rewrite list_filter_filter. case_decide as Ht; [subst t'|].
  - rewrite (list_filter_iff _ (λ row, mr_sequence_no row ∈ kept ∧ mr_thread_id row = t)).
    2:{ intros row. destruct (decide (mr_sequence_no row ∈ kept)); tauto. }
    rewrite <- (list_filter_filter (λ row, mr_sequence_no row ∈ kept)). fold (of_thread t rows).
    assert (∀ x, x ∈ kept ↔ x ∈ map mr_sequence_no (keep_last (Z.to_nat n) (of_thread t rows))) as Hk.
    { intros x. unfold kept. rewrite <- latest_sorted by done.
      rewrite !list_elem_of_fmap. by setoid_rewrite elem_of_reverse. }
    clearbody kept. unfold keep_last in *. set (k := (_ - _)%nat) in *. clearbody k.
    rewrite <- (take_drop k (of_thread t rows)) at 1. rewrite filter_app.
    rewrite <- (take_drop k (of_thread t rows)) in Hs at 1.
    set (pre := take k _) in *. set (post := drop k _) in *. clearbody pre post.
    apply StronglySorted_app in Hs as (Hlt & _ & _).
    assert (filter (λ row, mr_sequence_no row ∈ kept) pre = []) as ->.
    { apply elem_of_nil_inv. intros x [Hx Hin]%list_elem_of_filter. apply Hk in Hx.
      apply list_elem_of_fmap in Hx as (y & Hxy & Hy). specialize (Hlt x y Hin Hy).
      unfold sequence_lt in Hlt. lia. }
    apply filter_all, Forall_forall. intros x Hx. apply Hk, list_elem_of_fmap. exists x. split; [done|exact Hx].
  - apply list_filter_iff. intros row. split; [tauto|]. intros Hrow. split; [exact Hrow|].
    intros [H _]. apply Ht. by rewrite <- Hrow.
Qed.

(** ** Inserting *)

(** The record of a plain message. *)
Definition row_ok (t : string) (row : MessageRow) : Prop :=
  mr_thread_id row = t ∧ has_nul_char (mr_role row) = false ∧ has_nul_char (mr_content row) = false ∧
  mr_sequence_no row ≤ bigint_top.

Lemma executemany_ok do_nothing t new s :
  has_nul_char t = false → Forall (row_ok t) new →
  StronglySorted sequence_lt (of_thread t (app_conversation_messages s) ++ new) →
  (∀ a b, a ∈ new → b ∈ of_thread t (app_conversation_messages s) → same_run_kind a b = false) →
  StronglySorted (λ a b, same_run_kind b a = false) new →
  executemany do_nothing new s =
    (Ret tt, s <| app_conversation_messages := app_conversation_messages s ++ new |>).
Proof.
  intros Ht Hnew. revert s. induction Hnew as [|row new (Hrt & Hrole & Hcontent & Hseq) Hnew IH]; intros s Hs Hr Hk.
  - cbn. rewrite app_nil_r. by destruct s.
  - assert (existsb (conflict row) (app_conversation_messages s) = false) as Hconflict.
    { apply not_true_is_false. rewrite existsb_exists. intros (b & Hb & Hc).
      apply list_elem_of_In in Hb. unfold conflict in Hc.
      apply andb_true_iff in Hc as [Hbt%String.eqb_eq Hc].
      assert (b ∈ of_thread t (app_conversation_messages s)) as Hin.
      { apply list_elem_of_filter. split; [congruence|done]. }
      apply orb_true_iff in Hc as [Hc%Z.eqb_eq|Hc].
      - apply StronglySorted_app in Hs as (Hlt & _ & _). specialize (Hlt b row Hin ltac:(by left)).
        unfold sequence_lt in Hlt. lia.
      - rewrite Hr in Hc by (first [done|by left]). done. }
    set (s1 := s <| app_conversation_messages := app_conversation_messages s ++ [row] |>).
    assert (insert_message do_nothing row s = (Ret tt, s1)) as E.
    { unfold insert_message. rewrite Hrt, Ht, Hrole, Hcontent. cbn [orb].
      rewrite (proj2 (Z.ltb_ge _ _)) by done. unfold bind, gets. by rewrite Hconflict. }
    assert (of_thread t (app_conversation_messages s1) = of_thread t (app_conversation_messages s) ++ [row]) as Ef.
    { change (app_conversation_messages s1) with (app_conversation_messages s ++ [row]).
      rewrite of_thread_app. f_equal. unfold of_thread. by rewrite filter_cons_True. }
    apply StronglySorted_cons in Hk as [Hk1 Hk2].
    cbn [executemany]. rewrite (bind_run _ _ _ _ _ E), IH.
    + unfold s1. cbn. by rewrite <- app_assoc.
    + by rewrite Ef, <- app_assoc.
    + intros a b Ha. rewrite Ef, elem_of_app, list_elem_of_singleton. intros [Hb| ->].
      * apply Hr; [by right|done].
      * rewrite Forall_forall in Hk1. by apply Hk1.
    + done.
Qed.

Section refinement.
Context (L : ConvLimits) (max : nat) (str_container : pyval → string).

#[local] Existing Instance postgres_conversation_store.

(** The records of plain messages give the messages back. *)
Lemma records_ok t turns ms n :
  Forall (λ m, message_plain L m = true) ms → length turns = length ms →
  n + Z.of_nat (length ms) - 1 ≤ bigint_top →
  ∃ rows, message_records (lim_jsonb L) str_container t n (zip turns ms) = Ret rows ∧
    map row_message rows = ms ∧ Forall (row_ok t) rows ∧
    StronglySorted sequence_lt rows ∧
    Forall (λ row, n ≤ mr_sequence_no row < n + Z.of_nat (length ms)) rows ∧
    map (λ row, (mr_run_id row, mr_message_kind row)) rows =
      map (λ turn : string * option (string * string), (fst <$> turn.2, snd <$> turn.2)) turns.
Proof.
  intros Hms. revert turns n. induction Hms as [|m ms Hm Hms IH]; intros [|[role turn] turns] n Hlen Hn; try done.
  { exists []. cbn. repeat (split; [done|]). by repeat constructor. }
  injection Hlen as Hlen.
  apply message_plain_spec in Hm as (role' & content & metadata & -> & Hrole & Hcontent & Hj & _).
  cbn [length] in *. destruct (IH turns (n + 1) Hlen ltac:(lia)) as (rows & E & Hmap & Hok & Hsort & Hseq & Hrun).
  assert (metadata_field (lim_jsonb L)
    [("role", VStr role'); ("content", VStr content); ("metadata", VDict metadata)] = Ret (VDict metadata)) as Hmeta.
  { unfold metadata_field. cbn. destruct metadata as [|kv metadata]; cbn; by rewrite Hj. }
  eexists (_ :: rows). cbn [zip zip_with message_records]. rewrite Hmeta, E. split; [reflexivity|].
  cbn. split; [by f_equal|]. split.
  { constructor; [|done]. unfold row_ok. split_and!; [done..|]. change (n ≤ bigint_top). lia. }
  split. { apply StronglySorted_cons. split; [|done]. eapply Forall_impl; [exact Hseq|].
    intros row Hrow. unfold sequence_lt. cbn in *. lia. }
  split; [|by f_equal]. constructor; [cbn; lia|]. eapply Forall_impl; [exact Hseq|]. cbn. intros; lia.
Qed.

Record postgres_rel (c : ConvLog) (s : PostgresConversationStore) : Prop := {
  pr_pool : ps_pool s = true;
  pr_max : ps_max_messages s = Z.of_nat max ∧ (0 < max)%nat;
  pr_rows t : map row_message (of_thread t (app_conversation_messages s)) = log_of t c;
  pr_sorted t : StronglySorted sequence_lt (of_thread t (app_conversation_messages s));
  pr_count : 0 ≤ cl_count c ∧
    Forall (λ row, mr_sequence_no row ≤ cl_count c) (app_conversation_messages s);
  pr_commits t r : (t, r) ∈ app_conversation_turn_commits s ↔ r ∈ committed_of t c;
  pr_runs : Forall (λ row, ∀ r, mr_run_id row = Some r →
    (mr_thread_id row, r) ∈ app_conversation_turn_commits s) (app_conversation_messages s);
  pr_length t : (length (log_of t c) ≤ max)%nat
}.

Lemma next_sequence_run c s t : postgres_rel c s → cl_count c < bigint_top →
  let next := max_sequence (of_thread t (app_conversation_messages s)) + 1 in
  _next_sequence t s = (Ret next, s) ∧ next ≤ cl_count c + 1.
Proof.
  intros Hr Hc next. destruct (pr_count _ _ Hr) as [H0 Hn].
  assert (max_sequence (of_thread t (app_conversation_messages s)) ≤ cl_count c) as Hle.
  { apply max_sequence_le; [done|]. apply Forall_forall. intros row [_ Hin]%list_elem_of_filter.
    rewrite Forall_forall in Hn. by apply Hn. }
  unfold _next_sequence, bind, gets. fold next. rewrite (proj2 (Z.ltb_ge bigint_top next)); [|lia].
  by split; [|lia].
Qed.

Definition append_rows (do_nothing : bool) (t : string)
    (messages : list (string * option (string * string) * pydict)) : M PostgresConversationStore unit :=
  let! next_sequence := _next_sequence t in
  let! records := of_outcome (message_records (lim_jsonb L) str_container t next_sequence messages) in
  executemany do_nothing records ;;; _trim t.

(** The runs of new rows are new, and their kinds differ. *)
Definition turns_fresh (t : string) (c : ConvLog) (turns : list (string * option (string * string))) : Prop :=
  Forall (λ turn, match turn.2 with Some (r, _) => r ∉ committed_of t c | None => True end) turns ∧
  StronglySorted (λ a b, match a.2, b.2 with Some (_, k), Some (_, k') => k ≠ k' | _, _ => True end) turns.

Lemma sorted_map {A B} (f : A → B) (R : B → B → Prop) l :
  StronglySorted R (map f l) ↔ StronglySorted (λ a b, R (f a) (f b)) l.
Proof.
  induction l as [|x l IH]; cbn; [by split; constructor|].
  by rewrite !StronglySorted_cons, IH, Forall_map.
Qed.

Lemma sorted_impl {A} (R R' : A → A → Prop) l :
  (∀ a b, R a b → R' a b) → StronglySorted R l → StronglySorted R' l.
Proof. intros HR. induction 1; constructor; [done|]. eapply Forall_impl; [done|]. apply HR. Qed.

Lemma append_rows_ok do_nothing c s s1 t turns ms :
  postgres_rel c s → app_conversation_messages s1 = app_conversation_messages s →
  ps_max_messages s1 = ps_max_messages s → thread_plain t = true →
  Forall (λ m, message_plain L m = true) ms → ms ≠ [] → length turns = length ms →
  cl_count c + Z.of_nat (length ms) ≤ bigint_top → turns_fresh t c turns →
  ∃ rows, append_rows do_nothing t (zip turns ms) s1 = (Ret tt, s1 <| app_conversation_messages := rows |>) ∧
    (∀ t', map row_message (of_thread t' rows) = log_of t' (extend max t ms c)) ∧
    (∀ t', StronglySorted sequence_lt (of_thread t' rows)) ∧
    Forall (λ row, mr_sequence_no row ≤ cl_count c + Z.of_nat (length ms)) rows ∧
    Forall (λ row, row ∈ app_conversation_messages s ∨
      (mr_thread_id row = t ∧ ∀ r, mr_run_id row = Some r → ∃ role k, (role, Some (r, k)) ∈ turns)) rows.
Proof.
  intros Hr Hrows Hmax Ht Hms Hne Hlen Hcount [Hfresh Hkinds].
  assert (1 ≤ Z.of_nat (length ms)) as H1 by (destruct ms; [done|cbn; lia]).
  apply thread_plain_spec in Ht as (_ & Hnul & _ & _).
  set (old := app_conversation_messages s) in *.
  destruct (next_sequence_run c s t Hr ltac:(lia)) as [_ Hnext]. fold old in Hnext.
  set (next := max_sequence (of_thread t old) + 1) in *.
  assert (_next_sequence t s1 = (Ret next, s1)) as E1.
  { unfold _next_sequence, bind, gets. rewrite Hrows. fold next. by rewrite (proj2 (Z.ltb_ge bigint_top next)) by lia. }
  destruct (records_ok t turns ms next Hms Hlen ltac:(lia)) as (new & E2 & Hmap & Hok & Hsort & Hseq & Hruns).
  assert (StronglySorted sequence_lt (of_thread t old ++ new)) as Hall.
  { apply StronglySorted_app. split; [|split; [apply Hr|done]]. intros a b Ha Hb.
    apply max_sequence_ge in Ha. rewrite Forall_forall in Hseq. specialize (Hseq b Hb).
    unfold sequence_lt, next in *. lia. }
  assert (∀ a, a ∈ new → ∃ turn, turn ∈ turns ∧ (mr_run_id a, mr_message_kind a) = (fst <$> turn.2, snd <$> turn.2))
    as Hturn.
  { intros a Ha.
    assert ((mr_run_id a, mr_message_kind a) ∈ map (λ row, (mr_run_id row, mr_message_kind row)) new) as Hin
      by (apply list_elem_of_fmap; by exists a).
    rewrite Hruns in Hin. apply list_elem_of_fmap in Hin as (turn & Heq & Hin). by exists turn. }
  assert (executemany do_nothing new s1 = (Ret tt, s1 <| app_conversation_messages := old ++ new |>)) as E3.
  { rewrite <- Hrows. apply (executemany_ok do_nothing t); [done|done|by rewrite Hrows| |].
    - intros a b Ha Hb. rewrite Hrows in Hb. apply Hturn in Ha as (turn & Hin & [= Ha1 Ha2]).
      rewrite Forall_forall in Hfresh. apply Hfresh in Hin.
      apply list_elem_of_filter in Hb as [Hbt Hb]. pose proof (pr_runs _ _ Hr) as Hp.
      rewrite Forall_forall in Hp. specialize (Hp b Hb). unfold same_run_kind. rewrite Ha1, Ha2.
      destruct turn as [role [[r k]|]]; cbn; [|done]. destruct (mr_run_id b) as [r'|]; [|done].
      destruct (mr_message_kind b); [|done]. destruct (String.eqb_spec r r') as [<-|]; [|done].
      specialize (Hp r eq_refl). rewrite Hbt in Hp. by apply (pr_commits _ _ Hr) in Hp.
    - assert (StronglySorted (λ p q : option string * option string,
        match p.2, q.2 with Some k, Some k' => k ≠ k' | _, _ => True end)
        (map (λ row, (mr_run_id row, mr_message_kind row)) new)) as Hk.
      { rewrite Hruns. apply sorted_map. eapply sorted_impl; [|exact Hkinds].
        intros [ra [[r k]|]] [rb [[r' k']|]]; cbn; auto. }
      apply sorted_map in Hk. eapply sorted_impl; [|exact Hk]. intros a b. cbn.
      unfold same_run_kind. destruct (mr_run_id a), (mr_run_id b), (mr_message_kind a) as [k|],
        (mr_message_kind b) as [k'|]; try done.
      intros Hk'. destruct (String.eqb_spec k' k) as [->|]; [done|]. by rewrite andb_false_r. }
  assert (∀ t', of_thread t' (old ++ new) = of_thread t' old ++ (if decide (t' = t) then new else [])) as Happ.
  { intros t'. rewrite of_thread_app. f_equal. apply of_thread_all.
    eapply Forall_impl; [exact Hok|]. by intros row [? _]. }
  pose proof (Happ t) as Happt. rewrite decide_True in Happt by done.
  assert (StronglySorted sequence_lt (of_thread t (old ++ new))) as Hall' by by rewrite Happt.
  pose proof (trim_rows t (ps_max_messages s) (old ++ new) Hall') as Htrim. cbv zeta in Htrim.
  set (rows := filter _ (old ++ new)) in Htrim.
  destruct (pr_max _ _ Hr) as [Hm _].
  assert (∀ row, row ∈ rows → row ∈ old ∨ row ∈ new) as Hsub.
  { intros row [_ Hin]%list_elem_of_filter. by apply elem_of_app. }
  exists rows. split_and!.
  - unfold append_rows. rewrite (bind_run _ _ _ _ _ E1), E2.
    rewrite (bind_run _ _ s1 new s1 eq_refl), (bind_run _ _ _ _ _ E3). unfold rows.
    rewrite <- Hmax. reflexivity.
  - intros t'. rewrite Htrim, log_of_extend, Hm, Nat2Z.id. case_decide as Hd; [|rewrite Happ, decide_False by done].
    + subst t'. by rewrite keep_last_map, Happt, map_app, Hmap, <- (pr_rows _ _ Hr t).
    + rewrite app_nil_r. apply Hr.
  - intros t'. rewrite Htrim. case_decide as Hd.
    + unfold keep_last. eapply StronglySorted_app_1_r. by rewrite take_drop.
    + rewrite Happ, decide_False, app_nil_r by done. apply Hr.
  - apply Forall_forall. intros row [Hin|Hin]%Hsub.
    + pose proof (pr_count _ _ Hr) as [_ Hc]. rewrite Forall_forall in Hc. specialize (Hc row Hin). lia.
    + rewrite Forall_forall in Hseq. specialize (Hseq row Hin). lia.
  - apply Forall_forall. intros row [Hin|Hin]%Hsub; [by left|right].
    rewrite Forall_forall in Hok. split; [apply (Hok row Hin)|]. intros r Hrun.
    apply Hturn in Hin as ([role [[r' k]|]] & Hin & [= Ha1 Ha2]); rewrite Ha1 in Hrun; simplify_eq/=.
    by exists role, k.
Qed.

Lemma assistant_records ms :
  map (λ m : pydict, ("assistant", @None (string * string), m)) ms =
  zip (replicate (length ms) ("assistant", None)) ms.
Proof. induction ms as [|m ms IH]; cbn; [done|]. by rewrite IH. Qed.

Lemma run_pool {B} c s (k : M PostgresConversationStore B) :
  postgres_rel c s → (_require_conversation_pool ;;; k) s = k s.
Proof. intros Hr. unfold _require_conversation_pool, bind, gets. by rewrite (pr_pool _ _ Hr). Qed.

Lemma run_transaction {A} (m : M PostgresConversationStore A) s a s' :
  m s = (Ret a, s') → in_transaction m s = (Ret a, s').
Proof. unfold in_transaction. by intros ->. Qed.

(** The relation after rows were appended, with more commits. *)
Lemma rel_appended c s t ms rows commits committed :
  postgres_rel c s →
  (∀ t', map row_message (of_thread t' rows) = log_of t' (extend max t ms c)) →
  (∀ t', StronglySorted sequence_lt (of_thread t' rows)) →
  Forall (λ row, mr_sequence_no row ≤ cl_count c + Z.of_nat (length ms)) rows →
  app_conversation_turn_commits s ⊆ commits →
  (∀ t' r, (t', r) ∈ commits ↔ r ∈ default ∅ (committed !! t')) →
  Forall (λ row, row ∈ app_conversation_messages s ∨
    ∀ r, mr_run_id row = Some r → (mr_thread_id row, r) ∈ commits) rows →
  postgres_rel (MkConvLog (cl_messages (extend max t ms c)) committed (cl_count c + Z.of_nat (length ms)))
    (s <| app_conversation_turn_commits := commits |> <| app_conversation_messages := rows |>).
Proof.
  intros [H1 H2 H3 H4 [H5 H5'] H6 H7 H8] Hmap Hsort Hcount Hsub Hcom Hruns.
  split; cbn; [done|done|exact Hmap|done|split; [lia|done]|exact Hcom| |].
  - rewrite Forall_forall in H7, Hruns |- *. intros row Hin r Hrun.
    destruct (Hruns row Hin) as [Hold|Hnew]; [|by apply Hnew]. by eapply Hsub, H7.
  - intros t'. change (length (log_of t' (extend max t ms c)) ≤ max)%nat. rewrite log_of_extend.
    case_decide; [apply keep_last_length|done].
Qed.

Lemma postgres_append_ok c s t ms now : postgres_rel c s → thread_plain t = true →
  Forall (λ m, message_plain L m = true) ms → ms ≠ [] →
  cl_count c + Z.of_nat (length ms) ≤ bigint_top →
  ∃ s', postgres_store_append (lim_jsonb L) str_container t ms now s = (Ret tt, s') ∧
    postgres_rel (extend max t ms c) s'.
Proof.
  intros Hr Ht Hms Hne Hc.
  destruct (append_rows_ok false c s s t (replicate (length ms) ("assistant", None)) ms)
    as (rows & E & Hmap & Hsort & Hcount & Hruns); try done.
  { by rewrite length_replicate. }
  { split; [by apply Forall_replicate|]. generalize (length ms) as n. intros n.
    induction n; constructor; [done|]. by apply Forall_replicate. }
  exists (s <| app_conversation_messages := rows |>). split.
  - unfold postgres_store_append. destruct ms as [|m ms]; [done|]. rewrite (run_pool c) by done.
    rewrite assistant_records. apply run_transaction. exact E.
  - pose proof (rel_appended c s t ms rows (app_conversation_turn_commits s) (cl_committed c) Hr Hmap Hsort Hcount)
      as Hrel. destruct s. apply Hrel; [done|apply Hr|].
    eapply Forall_impl; [exact Hruns|]. intros row [?|[_ H]]; [by left|right].
    intros r Hrun. apply H in Hrun as (role & k & Hin). by apply elem_of_replicate in Hin as [[=] _].
Qed.

Lemma postgres_append_turn_ok c s t r u a now : postgres_rel c s → thread_plain t = true →
  lim_uuid L r = Some r → message_plain L u = true → message_plain L a = true →
  (r ∉ committed_of t c → cl_count c + 2 ≤ bigint_top) →
  ∃ s', postgres_store_append_turn (lim_jsonb L) (lim_uuid L) str_container t r u a now s =
      (Ret (negb (bool_decide (r ∈ committed_of t c))), s') ∧
    postgres_rel (spec_step max (CAppendTurn t r u a) c).2 s'.
Proof.
  intros Hr Ht Hu Hum Ham Hc. unfold postgres_store_append_turn. cbn [spec_step].
  pose proof (pr_commits _ _ Hr t r) as Hcom. case_bool_decide as Hin.
  - exists s. split; [|done]. rewrite (run_pool c) by done. apply run_transaction.
    unfold insert_commit. rewrite Hu. unfold bind, gets. by rewrite bool_decide_eq_true_2 by by apply Hcom.
  - set (commits := {[(t, r)]} ∪ app_conversation_turn_commits s).
    set (s1 := s <| app_conversation_turn_commits := commits |>).
    destruct (append_rows_ok true c s s1 t [("user", Some (r, "user")); ("assistant", Some (r, "assistant"))]
      [u; a]) as (rows & E & Hmap & Hsort & Hcount & Hruns); try done.
    { by repeat constructor. } { by apply Hc. }
    { split; [by repeat constructor|]. by repeat constructor. }
    exists (s1 <| app_conversation_messages := rows |>). split.
    + rewrite (run_pool c) by done. apply run_transaction.
      assert (insert_commit (lim_uuid L) t r s = (Ret (Some r), s1)) as E0.
      { unfold insert_commit. rewrite Hu. unfold bind, gets.
        by rewrite bool_decide_eq_false_2 by by rewrite Hcom. }
      rewrite (bind_run _ _ _ _ _ E0). unfold append_rows in E.
      apply bind_Ret_inv in E as (next & s2 & E1 & E). apply bind_Ret_inv in E as (new & s3 & E2 & E).
      apply bind_Ret_inv in E as ([] & s4 & E3 & E4). cbn [zip zip_with] in E2.
      by rewrite (bind_run _ _ _ _ _ E1), (bind_run _ _ _ _ _ E2), (bind_run _ _ _ _ _ E3),
        (bind_run _ _ _ _ _ E4).
    + eapply (rel_appended c s t [u; a] rows commits (<[t := {[r]} ∪ committed_of t c]> (cl_committed c)));
        [done..|set_solver| |].
      * intros t' r'. unfold commits. rewrite elem_of_union, elem_of_singleton, (pr_commits _ _ Hr t' r').
        rewrite lookup_insert. case_decide; [subst; cbn|]; set_solver.
      * eapply Forall_impl; [exact Hruns|]. intros row [?|[Hrow H]]; [by left|right].
        intros r' Hrun. apply H in Hrun as (role & k & Hk). rewrite Hrow. set_solver.
Qed.

Lemma postgres_clear_ok c s t now : postgres_rel c s →
  ∃ s', postgres_store_clear t now s = (Ret tt, s') ∧ postgres_rel (spec_step max (CClear t) c).2 s'.
Proof.
  intros Hr. eexists. split.
  { unfold postgres_store_clear. rewrite (run_pool c) by done. apply run_transaction. reflexivity. }
  destruct Hr as [H1 H2 H3 H4 [H5 H5'] H6 H7 H8].
  assert (∀ t', of_thread t' (filter (λ row, mr_thread_id row ≠ t) (app_conversation_messages s)) =
    if decide (t' = t) then [] else of_thread t' (app_conversation_messages s)) as Hrows.
  { intros t'. unfold of_thread. rewrite list_filter_filter. case_decide as Hd.
    - apply elem_of_nil_inv. intros row [[Ha Hb] _]%list_elem_of_filter. congruence.
    - apply list_filter_iff. intros row. split; [by intros []|]. intros Ha. split; congruence. }
  split; cbn [spec_step snd cl_messages cl_committed cl_count]; cbn; [done|done| | |split; [done|]| | |].
  - intros t'. rewrite Hrows. unfold log_of. cbn. rewrite lookup_delete.
    repeat case_decide; try congruence; [done|apply H3].
  - intros t'. rewrite Hrows. case_decide; [constructor|apply H4].
  - apply Forall_forall. intros row [_ Hin]%list_elem_of_filter. rewrite Forall_forall in H5'. by apply H5'.
  - intros t' r. rewrite elem_of_filter, H6. unfold committed_of. cbn. rewrite lookup_delete.
    case_decide; set_solver.
  - rewrite Forall_forall in H7 |- *. intros row [Hne Hin]%list_elem_of_filter r Hrun.
    apply elem_of_filter. split; [done|]. by apply H7.
  - intros t'. unfold log_of. cbn. rewrite lookup_delete. case_decide; [cbn; lia|apply H8].
Qed.
End refinement.

#[export] Instance postgres_store_laws L max str_container :
  @ConversationStoreLaws _ (postgres_conversation_store (lim_jsonb L) (lim_uuid L) str_container) L max
    (postgres_rel max).
Proof.
  split. intros c s now op Hr Hok. apply call_ok_facts in Hok as [_ Hplain _ Hcount].
  destruct op as [t|t ms|t r u a|t]; cbn [op_plain] in Hplain; cbn [conv_exec conv_get conv_append
    conv_append_turn conv_clear postgres_conversation_store].
  - exists s. split; [|done]. unfold postgres_store_get.
    rewrite (bind_run _ _ s (log_of t c) s); [done|]. rewrite (run_pool max c) by done.
    unfold bind, gets, id, ret. do 2 f_equal. rewrite (latest_sorted t) by apply Hr.
    destruct (pr_max _ _ _ Hr) as [-> _]. rewrite Nat2Z.id, keep_last_map, (pr_rows _ _ _ Hr t).
    apply keep_last_short, (pr_length _ _ _ Hr).
  - apply andb_true_iff in Hplain as [Ht Hms%forallb_Forall]. destruct ms as [|m ms].
    { exists s. by split. }
    destruct (postgres_append_ok L max str_container c s t (m :: ms) now Hr Ht Hms) as (s' & E & ?); [done..|].
    exists s'. by rewrite (bind_run _ _ _ _ _ E).
  - rewrite !andb_true_iff in Hplain. destruct Hplain as [[[[Ht _] Hu%bool_decide_eq_true] Hum] Ham].
    destruct (postgres_append_turn_ok L max str_container c s t r u a now Hr Ht Hu Hum Ham) as (s' & E & ?).
    { intros Hin. cbn in Hcount. rewrite bool_decide_eq_false_2 in Hcount by done. exact Hcount. }
    exists s'. rewrite (bind_run _ _ _ _ _ E). split; [|done]. cbn. by case_bool_decide.
  - destruct (postgres_clear_ok max c s t now Hr) as (s' & E & ?).
    exists s'. by rewrite (bind_run _ _ _ _ _ E).
Qed.
