(* ===== verification/ConvSim.v ===== *)
(** * The conversation stores agree

    The three stores keep the promise of [ConvSpec]: on calls that fall within
    one time-to-live, over no more conversations than the process-local store
    keeps, they give the same answers. *)

From S2P Require Import Prelude PyData Json PyNum Metrics ConvStore ConvSpec RedisStore PostgresStore.

#[export] Instance memory_conversation_store : ConversationStore BoundedInMemoryStore := {|
  conv_get := store_get;
  conv_append := store_append;
  conv_append_turn := store_append_turn;
  conv_clear := λ t _, store_clear (Some t)
|}.

(** ** The process-local store *)

Section memory.
Context (L : ConvLimits) (max : nat).

Record memory_rel (c : ConvLog) (s : BoundedInMemoryStore) : Prop := {
  mm_max : bs_max_messages s = Z.of_nat max ∧ (0 < max)%nat;
  mm_ttl : bs_ttl s = lim_ttl L;
  mm_sessions : lim_sessions L ≤ bs_max_sessions s;
  mm_keys : NoDup (bs_data s).*1;
  mm_data t : snd <$> dict_get t (bs_data s) = cl_messages c !! t;
  mm_stamps : Forall (λ kv : string * (Z * list pydict), lim_start L ≤ kv.2.1) (bs_data s);
  mm_committed t : default ∅ (bs_committed_runs s !! t) = committed_of t c
}.

Lemma rel_metrics c s m : memory_rel c s → memory_rel c (s <| bs_metrics := m |>).
Proof. by intros []. Qed.

Lemma rel_size c s : memory_rel c s → length (bs_data s) = size (cl_messages c).
Proof.
  intros Hr. pose proof (mm_keys _ _ Hr) as Hk.
  set (l := map (λ kv : string * (Z * list pydict), (kv.1, kv.2.2)) (bs_data s)).
  assert (l.*1 = (bs_data s).*1) as Hl.
  { unfold l. rewrite <- list_fmap_compose. by apply list_fmap_ext. }
  assert (cl_messages c = list_to_map l) as ->.
  { apply map_eq. intros t. rewrite <- (mm_data _ _ Hr t).
    destruct (dict_get t (bs_data s)) as [[x ms]|] eqn:E; symmetry.
    - apply elem_of_list_to_map_1; [by rewrite Hl|]. apply list_elem_of_fmap.
      exists (t, (x, ms)). split; [done|]. by apply dict_get_elem_of.
    - apply not_elem_of_list_to_map_1. rewrite Hl. by apply dict_get_None. }
  rewrite map_size_list_to_map by by rewrite Hl. unfold l. by rewrite length_map.
Qed.

Lemma inc_run name amount s : nonempty name = true →
  ∃ m, store_inc name amount s = (Ret tt, s <| bs_metrics := m |>).
Proof. apply store_inc_spec. Qed.

Context (now : Z) (Hnow : lim_start L ≤ now < lim_start L + lim_ttl L).

Lemma nothing_expired c s : memory_rel c s → _purge now s = (Ret tt, s).
Proof.
  intros Hr. unfold _purge, bind, gets, modify.
  assert (expired_keys (now - bs_ttl s) (bs_data s) = []) as ->; [|done].
  unfold expired_keys. rewrite (mm_ttl _ _ Hr). pose proof (mm_stamps _ _ Hr) as Hs.
  induction Hs as [|[k [x ms]] d Hx _ IH]; [done|]. rewrite filter_cons_False; [done|]. cbn in *. lia.
Qed.

Lemma nothing_evicted mx d c : Z.of_nat (length d) ≤ mx → evict mx d c = (d, c, 0).
Proof.
  destruct d as [|[k v] d]; [done|]. intros H. cbn [evict]. by rewrite (proj2 (Z.ltb_ge _ _)).
Qed.

Lemma rel_touch c s t ms n : memory_rel c s →
  memory_rel (MkConvLog (<[t := ms]> (cl_messages c)) (cl_committed c) n)
    (s <| bs_data := od_touch t (now, ms) (bs_data s) |>).
Proof.
  intros [H1 H2 H3 H4 H5 H6 H7]. split; cbn; [done..| | | |exact H7].
  - by apply od_touch_NoDup.
  - intros t'. rewrite dict_get_touch, lookup_insert. rewrite <- (H5 t').
    destruct (String.eqb_spec t' t) as [Ht|Ht], (decide (t = t')); done || congruence.
  - unfold od_touch, od_pop. apply Forall_app. split; [|by repeat constructor; cbn; lia].
    apply Forall_forall. intros kv [_ Hin]%list_elem_of_filter. rewrite Forall_forall in H6. by apply H6.
Qed.

Lemma log_in_data c s t : memory_rel c s →
  (match dict_get t (bs_data s) with Some v => v.2 | None => [] end) = log_of t c.
Proof.
  intros Hr. unfold log_of. rewrite <- (mm_data _ _ Hr t). by destruct (dict_get t (bs_data s)).
Qed.

Lemma store_get_ok c s t : memory_rel c s → nonempty t = true →
  ∃ s', store_get t now s = (Ret (log_of t c), s') ∧ memory_rel c s'.
Proof.
  intros Hr Ht. unfold store_get. rewrite Ht, (bind_run _ _ _ _ _ (nothing_expired c s Hr)).
  unfold bind at 1, gets. pose proof (log_in_data c s t Hr) as Hlog.
  pose proof (mm_data _ _ Hr t) as Hd. destruct (dict_get t (bs_data s)) as [[x ms]|] eqn:E; cbn in Hlog, Hd.
  - pose proof (rel_touch c s t ms (cl_count c) Hr) as Hr'.
    rewrite insert_id in Hr' by done.
    replace (MkConvLog (cl_messages c) (cl_committed c) (cl_count c)) with c in Hr' by by destruct c.
    destruct (inc_run "state.memory_hit" 1
      (s <| bs_data := od_touch t (now, ms) (bs_data s) |>) eq_refl) as [m Hm].
    eexists. split; [|eapply (rel_metrics _ _ m), Hr']. unfold bind at 1, modify.
    by rewrite (bind_run _ _ _ _ _ Hm), Hlog.
  - destruct (inc_run "state.memory_miss" 1 s eq_refl) as [m Hm].
    exists (s <| bs_metrics := m |>). split; [|by apply rel_metrics].
    by rewrite (bind_run _ _ _ _ _ Hm), Hlog.
Qed.

Lemma append_locked_ok c s t ms purge : memory_rel c s →
  Z.of_nat (size (cl_messages (extend max t ms c))) ≤ lim_sessions L →
  ∃ m, _append_locked t ms now purge s =
    (Ret tt, s <| bs_data := od_touch t (now, keep_last max (log_of t c ++ ms)) (bs_data s) |>
               <| bs_metrics := m |>).
Proof.
  intros Hr Hsize. destruct (mm_max _ _ Hr) as [Hm _].
  unfold _append_locked.
  assert ((if purge then _purge now else ret tt) s = (Ret tt, s)) as E1
    by (destruct purge; [by apply (nothing_expired c)|done]).
  rewrite (bind_run _ _ _ _ _ E1). unfold bind at 1, gets at 1. rewrite (log_in_data c) by done.
  unfold bind at 1, modify at 1. rewrite Hm, Nat2Z.id.
  set (s1 := s <| bs_data := _ |>).
  assert (Z.of_nat (length (bs_data s1)) ≤ bs_max_sessions s1) as Hlen.
  { pose proof (rel_touch c s t (keep_last max (log_of t c ++ ms)) (cl_count c) Hr) as Hr'.
    apply rel_size in Hr'. unfold s1. rewrite Hr'. pose proof (mm_sessions _ _ Hr) as Hmx. cbn in *. lia. }
  unfold bind at 1, gets at 1. rewrite nothing_evicted by done. cbn [fst snd].
  unfold bind at 1, modify at 1.
  replace (s1 <| bs_data := bs_data s1 |> <| bs_committed_runs := bs_committed_runs s1 |>) with s1
    by by destruct s1. cbn [Z.ltb Z.compare]. unfold bind at 1, ret at 1. by apply inc_run.
Qed.

Lemma store_append_ok c s t ms : memory_rel c s → nonempty t = true → ms ≠ [] →
  Z.of_nat (size (cl_messages (extend max t ms c))) ≤ lim_sessions L →
  ∃ s', store_append t ms now s = (Ret tt, s') ∧ memory_rel (extend max t ms c) s'.
Proof.
  intros Hr Ht Hne Hsize. destruct (append_locked_ok c s t ms true Hr Hsize) as [m E].
  eexists. split; [|eapply (rel_metrics _ _ m), rel_touch, Hr].
  unfold store_append. rewrite Ht. by destruct ms.
Qed.

Lemma rel_committed c s t X : memory_rel c s →
  memory_rel (MkConvLog (cl_messages c) (<[t := X]> (cl_committed c)) (cl_count c))
    (s <| bs_committed_runs := <[t := X]> (bs_committed_runs s) |>).
Proof.
  intros [H1 H2 H3 H4 H5 H6 H7]. split; cbn; [done..|]. intros t'. unfold committed_of in *. cbn.
  rewrite !lookup_insert. case_decide; [done|apply H7].
Qed.

Lemma store_append_turn_ok c s t r u a : memory_rel c s → nonempty t = true → nonempty r = true →
  Z.of_nat (size (cl_messages (spec_step max (CAppendTurn t r u a) c).2)) ≤ lim_sessions L →
  ∃ s', store_append_turn t r u a now s = (Ret (negb (bool_decide (r ∈ committed_of t c))), s') ∧
    memory_rel (spec_step max (CAppendTurn t r u a) c).2 s'.
Proof.
  intros Hr Ht Hrun. unfold store_append_turn. rewrite Ht, Hrun. cbn [andb spec_step].
  rewrite (bind_run _ _ _ _ _ (nothing_expired c s Hr)). unfold bind at 1, gets at 1.
  rewrite (mm_committed _ _ Hr t). unfold bind at 1, modify at 1.
  set (s1 := s <| bs_committed_runs := _ |>).
  case_bool_decide as Hin; intros Hsize; cbn [snd fst] in *.
  - destruct (inc_run "state.memory_turn_idempotent_skip" 1 s1 eq_refl) as [m Hm].
    exists (s1 <| bs_metrics := m |>). split; [by rewrite (bind_run _ _ _ _ _ Hm)|].
    apply rel_metrics. destruct Hr as [H1 H2 H3 H4 H5 H6 H7]. split; cbn; [done..|].
    intros t'. rewrite lookup_insert. case_decide; [by subst|apply H7].
  - assert (memory_rel c s1) as Hr1.
    { destruct Hr as [H1 H2 H3 H4 H5 H6 H7]. split; cbn; [done..|].
      intros t'. rewrite lookup_insert. case_decide; [by subst|apply H7]. }
    destruct (append_locked_ok c s1 t [u; a] false Hr1 Hsize) as [m E].
    rewrite (bind_run _ _ _ _ _ E). eexists. split; [reflexivity|].
    pose proof (rel_committed _ _ t ({[r]} ∪ committed_of t c)
      (rel_metrics _ _ m (rel_touch c s1 t (keep_last max (log_of t c ++ [u; a]))
        (cl_count c + Z.of_nat (length [u; a])) Hr1))) as Hfinal.
    assert (alter (λ c0, {[r]} ∪ c0) t (<[t := committed_of t c]> (bs_committed_runs s)) =
      <[t := {[r]} ∪ committed_of t c]> (<[t := committed_of t c]> (bs_committed_runs s))) as Ha.
    { by rewrite alter_insert_eq, insert_insert_eq. }
    unfold s1 in Hfinal |- *. cbn in Hfinal |- *. rewrite Ha. exact Hfinal.
Qed.

Lemma store_clear_ok c s t : memory_rel c s →
  ∃ s', store_clear (Some t) s = (Ret tt, s') ∧ memory_rel (spec_step max (CClear t) c).2 s'.
Proof.
  intros Hr.
  assert (memory_rel (spec_step max (CClear t) c).2 (drop_session t s)) as Hd.
  { destruct Hr as [H1 H2 H3 H4 H5 H6 H7]. split; cbn; [done..| | | |].
    - by apply od_pop_NoDup.
    - intros t'. rewrite dict_get_pop, lookup_delete, <- (H5 t').
      destruct (String.eqb_spec t' t) as [Ht|Ht], (decide (t = t')); done || congruence.
    - apply Forall_forall. intros kv [_ Hin]%list_elem_of_filter. rewrite Forall_forall in H6. by apply H6.
    - intros t'. unfold committed_of in *. cbn. rewrite !lookup_delete. case_decide; [done|apply H7]. }
  unfold store_clear, bind at 1, gets at 1. unfold bind at 1, modify at 1.
  destruct ((if dict_has t (bs_data s) then 1 else 0) =? 0); [by exists (drop_session t s)|].
  destruct (inc_run "state.memory_cleared_sessions" (if dict_has t (bs_data s) then 1 else 0)
    (drop_session t s) eq_refl) as [m Hm].
  exists ((drop_session t s) <| bs_metrics := m |>). split; [done|by apply rel_metrics].
Qed.
End memory.

#[export] Instance memory_store_laws L max : ConversationStoreLaws BoundedInMemoryStore L max (memory_rel L max).
Proof.
  split. intros c s now op Hr Hok. apply call_ok_facts in Hok as [Hnow Hplain Hsize _].
  destruct op as [t|t ms|t r u a|t]; cbn [op_plain] in Hplain; cbn [conv_exec conv_get conv_append
    conv_append_turn conv_clear memory_conversation_store].
  - apply thread_plain_spec in Hplain as (Ht & _).
    destruct (store_get_ok L max now Hnow c s t Hr Ht) as (s' & E & ?). exists s'.
    by rewrite (bind_run _ _ _ _ _ E).
  - apply andb_true_iff in Hplain as [(Ht & _)%thread_plain_spec _]. destruct ms as [|m ms].
    { exists s. split; [|done]. unfold store_append, bind. by rewrite Ht. }
    destruct (store_append_ok L max now Hnow c s t (m :: ms) Hr Ht) as (s' & E & ?); [done..|].
    exists s'. by rewrite (bind_run _ _ _ _ _ E).
  - rewrite !andb_true_iff in Hplain. destruct Hplain as [[[[(Ht & _)%thread_plain_spec Hrun] _] _] _].
    destruct (store_append_turn_ok L max now Hnow c s t r u a Hr Ht Hrun Hsize) as (s' & E & ?).
    exists s'. rewrite (bind_run _ _ _ _ _ E). split; [|done]. cbn. by case_bool_decide.
  - destruct (store_clear_ok L max c s t Hr) as (s' & E & ?). exists s'.
    by rewrite (bind_run _ _ _ _ _ E).
Qed.

(** ** Agreement *)

Definition started_redis {R} (key_prefix : string) (ttl max_messages : Z) (db : R) : RedisConversationStore R :=
  (redis_start (Ret tt) (Ret tt) (Ret tt) (redis_init key_prefix ttl max_messages db)).2.

(** C30. The conversation stores are interchangeable.  Started empty with the same
    limits and given the same calls at the same instants, within one time-to-live,
    over plain conversation names and messages and at most as many conversations
    as the process-local store keeps, the process-local store, Redis and
    PostgreSQL all answer as the log of [ConvSpec] does: every history is the last
    [max] messages of its conversation, and a turn of a run is appended once. *)
Theorem stores_agree {R} `{RedisServer R} `{!RedisLaws R} float_repr str_container
    (L : ConvLimits) (max : nat) max_sessions key_prefix m (db : R) memory calls
    (Hmax : (0 < max)%nat) (Httl : 0 < lim_ttl L) (Hsessions : lim_sessions L ≤ max_sessions)
    (Hprefix : literal (marker_prefix (rc_key_prefix (redis_init key_prefix 0 0 db))) = true)
    (Hempty : rd_view db = ∅)
    (Hmemory : store_init (lim_ttl L) max_sessions (Z.of_nat max) m = Ret memory)
    (Hcalls : covered_calls L max calls empty_log = true) :
  let expected := map Ret (spec_run max calls empty_log) in
  conv_run calls memory = expected ∧
  @conv_run _ (redis_conversation_store float_repr) calls
    (started_redis key_prefix (lim_ttl L) (Z.of_nat max) db) = expected ∧
  @conv_run _ (postgres_conversation_store (lim_jsonb L) (lim_uuid L) str_container) calls
    (postgres_store_init (Z.of_nat max) true) = expected.
Proof.
  assert (∀ t, log_of t empty_log = []) as Hlog by (intros t; unfold log_of; cbn; by rewrite lookup_empty).
  assert (∀ t, committed_of t empty_log = ∅) as Hcom by (intros t; unfold committed_of; cbn; by rewrite lookup_empty).
  split_and!.
  - apply (store_refines L max (memory_rel L max)); [|done].
    unfold store_init in Hmemory. repeat case_match; simplify_eq. split; cbn; try done.
    constructor.
  - apply (store_refines L max (redis_rel L max)); [|done].
    split; cbn; [done..|]. rewrite Hempty. split.
    + intros k v x. by rewrite lookup_empty.
    + intros t _. by rewrite !lookup_empty.
    + intros t _. by rewrite !lookup_empty.
    + intros k [v Hv]. by rewrite lookup_empty in Hv.
    + intros t. rewrite Hlog. split; [cbn; lia|constructor].
  - apply (store_refines L max (postgres_rel max)); [|done].
    split; cbn; try done.
    + intros t. constructor.
    + intros t. rewrite Hlog. cbn. lia.
Qed.

Section sample.

Definition sample_limits : ConvLimits := MkLimits 0 100 2 Some Some.

Definition sample_message (role text : string) : pydict :=
  [("role", VStr role); ("content", VStr text); ("metadata", VDict [("run_id", VStr text)])].

(** Two conversations, a repeated turn, a full history, a cleared one. *)
Definition sample_calls : list (Z * conv_op) := [
  (0, CAppendTurn "a" "r1" (sample_message "user" "hello") (sample_message "assistant" "hi"));
  (1, CAppend "b" [sample_message "user" "other"]);
  (2, CAppendTurn "a" "r1" (sample_message "user" "hello") (sample_message "assistant" "again"));
  (3, CAppendTurn "a" "r2" (sample_message "user" "more") (sample_message "assistant" "done"));
  (4, CGet "a"); (5, CClear "a"); (6, CGet "a"); (7, CGet "b")].

Definition sample_memory : outcome BoundedInMemoryStore := store_init 100 5 3 (MkMetrics 16 ∅ ∅).

Lemma stores_agree_witness :
  match sample_memory with
  | Ret memory =>
      conv_run sample_calls memory = map Ret (spec_run 3 sample_calls empty_log) ∧
      spec_run 3 sample_calls empty_log =
        [RCommitted true; RDone; RCommitted false; RCommitted true;
         RHistory [sample_message "assistant" "hi"; sample_message "user" "more"; sample_message "assistant" "done"];
         RDone; RHistory []; RHistory [sample_message "user" "other"]]
  | Raise _ => False
  end.
Proof.
  destruct sample_memory as [memory|] eqn:E; [|discriminate E].
  split; [|vm_compute; reflexivity].
  refine (proj1 (stores_agree (R:=gmap string (RedisValue * option Z)) (λ r, r) (λ _, "{}") sample_limits 3 5
    "langgraph:conversation" (MkMetrics 16 ∅ ∅) ∅ memory sample_calls _ _ _ _ _ E _));
    first [reflexivity|lia|discriminate|vm_compute; reflexivity].
Defined.

(** *** Where they part *)

(** [append] renews the history of Redis but not its committed runs: the turn is
    appended again, and the process-local store refuses it. *)
Definition outliving_calls : list (Z * conv_op) := [
  (0, CAppendTurn "a" "r1" (sample_message "user" "hello") (sample_message "assistant" "hi"));
  (90, CAppend "a" [sample_message "user" "later"]);
  (110, CAppendTurn "a" "r1" (sample_message "user" "hello") (sample_message "assistant" "hi"))].

Theorem history_outlives_commit :
  @conv_run _ (redis_conversation_store (λ r, r)) outliving_calls (started_redis "p" 100 9 (∅ : gmap _ _)) =
    map Ret [RCommitted true; RDone; RCommitted true] ∧
  match store_init 100 5 9 (MkMetrics 16 ∅ ∅) with
  | Ret memory => conv_run outliving_calls memory = map Ret [RCommitted true; RDone; RCommitted false]
  | Raise _ => False
  end.
Proof. split; vm_compute; reflexivity. Qed.

(** A message without metadata comes back from PostgreSQL with an empty one. *)
Theorem metadata_appears :
  let bare := [("role", VStr "user"); ("content", VStr "hello")] in
  let calls := [(0, CAppend "a" [bare]); (1, CGet "a")] in
  @conv_run _ (postgres_conversation_store Some Some (λ _, "{}")) calls (postgres_store_init 9 true) =
    map Ret [RDone; RHistory [bare ++ [("metadata", VDict [])]]] ∧
  @conv_run _ (redis_conversation_store (λ r, r)) calls (started_redis "p" 100 9 (∅ : gmap _ _)) =
    map Ret [RDone; RHistory [bare]].
Proof. split; vm_compute; reflexivity. Qed.
End sample.
