(* ===== verification/Schemas.v ===== *)
(** * The structured values of the agent graph

    [app/schemas/planning.py], [worker.py], [verification.py],
    [finalization.py], [evidence.py]: the fields of the pydantic models and the
    validators the repository writes itself.  The state of a graph run holds
    these values typed: a [model_dump] read back by [model_validate] is taken to
    be the same value.  A confidence is carried as its [repr]; nothing computes
    with it. *)

From S2P Require Import Prelude PyData RunTypes.

Definition validation_error (m : string) : exn := PyExn ValueError m.

(** ** Plans *)

(** [_ensure_list] of [planning.py]; a tuple does not occur in JSON input. *)
Definition _ensure_list (value : pyval) : pyval :=
  match value with
  | VNone => VList []
  | VStr _ => VList [value]
  | _ => value
  end.

(** [isinstance(value, int) and not isinstance(value, bool)], as [str]. *)
Definition stringify_int (value : pyval) : pyval :=
  match value with
  | VInt z => VStr (Z_to_string z)
  | _ => value
  end.

Definition normalize_task_id (value : pyval) : pyval := stringify_int value.

Definition normalize_dependencies (value : pyval) : pyval :=
  match _ensure_list value with
  | VList items => VList (map stringify_int items)
  | normalized => normalized
  end.

Record PlanTask : Type := MkPlanTask {
  pt_id : string;
  pt_objective : string;
  pt_required_evidence : list string;
  pt_completion_criteria : list string;
  pt_depends_on : list string
}.

(** [tasks] has [min_length=1]: [ep_valid]. *)
Record ExecutionPlan : Type := MkExecutionPlan {
  ep_goal : string;
  ep_tasks : list PlanTask
}.

Definition ep_valid (p : ExecutionPlan) : bool :=
  match ep_tasks p with [] => false | _ => true end.

Definition PlanTask_dump (t : PlanTask) : pyval := VDict [
  ("id", VStr (pt_id t)); ("objective", VStr (pt_objective t));
  ("required_evidence", VList (map VStr (pt_required_evidence t)));
  ("completion_criteria", VList (map VStr (pt_completion_criteria t)));
  ("depends_on", VList (map VStr (pt_depends_on t)))].

(** ** Worker results *)

Fixpoint strings_of (items : list pyval) : option (list string) :=
  match items with
  | [] => Some []
  | VStr s :: items' => cons s <$> strings_of items'
  | _ :: _ => None
  end.

Definition _normalize_string_list (value : pyval) (field_name : string) : outcome (list string) :=
  match value with
  | VNone => Ret []
  | VStr s => Ret [s]
  | VList items =>
      match strings_of items with
      | Some l => Ret l
      | None => Raise (validation_error (field_name +:+ " entries must be strings"))
      end
  | _ => Raise (validation_error (field_name +:+ " must be a string or a list of strings"))
  end.

Definition evidence_id_of (value : pyval) : option string :=
  match value with
  | VStr s => Some s
  | VInt z => Some (Z_to_string z)
  | _ => None
  end.

Definition _normalize_evidence_ids (value : pyval) : outcome (list string) :=
  match value with
  | VNone => Ret []
  | VBool _ => Raise (validation_error "evidence_ids cannot contain booleans")
  | VStr s => Ret [s]
  | VInt z => Ret [Z_to_string z]
  | VList items =>
      match mapM evidence_id_of items with
      | Some l => Ret l
      | None => Raise (validation_error
          "evidence_ids entries must be non-boolean strings or integers")
      end
  | _ => Raise (validation_error "evidence_ids must be an ID or a list of IDs")
  end.

Record Claim : Type := MkClaim {
  cl_claim_id : option string;
  cl_text : string;
  cl_evidence_ids : list string;
  cl_uncertainty : option string;
  cl_requires_current_evidence : bool
}.

Record WorkerResult : Type := MkWorkerResult {
  wr_answer : string;
  wr_claims : list Claim;
  wr_assumptions : list string;
  wr_missing_information : list string;
  wr_confidence : string
}.

Definition opt_str (o : option string) : pyval :=
  match o with Some s => VStr s | None => VNone end.

(** [model_dump] leaves out the fields that carry their defaults. *)
Definition Claim_dump (c : Claim) : pyval := VDict (
  match cl_claim_id c with Some i => [("claim_id", VStr i)] | None => [] end ++
  [("text", VStr (cl_text c)); ("evidence_ids", VList (map VStr (cl_evidence_ids c)))] ++
  match cl_uncertainty c with Some u => [("uncertainty", VStr u)] | None => [] end ++
  if cl_requires_current_evidence c then [("requires_current_evidence", VBool true)] else []).

Definition WorkerResult_dump (r : WorkerResult) : pyval := VDict [
  ("answer", VStr (wr_answer r)); ("claims", VList (map Claim_dump (wr_claims r)));
  ("assumptions", VList (map VStr (wr_assumptions r)));
  ("missing_information", VList (map VStr (wr_missing_information r)));
  ("confidence", VFloat (wr_confidence r))].

(** ** Verification reports *)

Inductive Verdict : Type := VPass | VRevise | VResearch | VReplan | VTerminate.
#[export] Instance Verdict_eq_dec : EqDecision Verdict.
Proof. solve_decision. Defined.

Definition verdict_name (v : Verdict) : string :=
  match v with
  | VPass => "pass" | VRevise => "revise" | VResearch => "research"
  | VReplan => "replan" | VTerminate => "terminate"
  end.

Record VerificationIssue : Type := MkIssue {
  vi_code : string;
  vi_description : string;
  vi_severity : string;
  vi_claim_id : option string;
  vi_evidence_ids : list string
}.

(** An issue with the defaults of the other fields. *)
Definition mk_issue (code description severity : string) : VerificationIssue :=
  MkIssue code description severity None [].

Record VerificationReport : Type := MkReport {
  vr_verdict : Verdict;
  vr_task_complete : bool;
  vr_issues : list VerificationIssue;
  vr_required_actions : list string;
  vr_confidence : string
}.

#[export] Instance eta_VerificationReport : Eta VerificationReport := λ r,
  MkReport (vr_verdict r) (vr_task_complete r) (vr_issues r) (vr_required_actions r)
    (vr_confidence r).

Inductive FinalVerdict : Type := FPass | FRevise.
#[export] Instance FinalVerdict_eq_dec : EqDecision FinalVerdict.
Proof. solve_decision. Defined.

Record FinalVerificationReport : Type := MkFinalReport {
  fr_verdict : FinalVerdict;
  fr_answer_complete : bool;
  fr_issues : list VerificationIssue;
  fr_required_actions : list string;
  fr_confidence : string
}.

(** The model validator [pass_requires_complete]. *)
Definition pass_requires_complete (r : FinalVerificationReport) : outcome FinalVerificationReport :=
  match fr_verdict r, fr_answer_complete r with
  | FPass, false => Raise (validation_error "pass verdict requires answer_complete=true")
  | _, _ => Ret r
  end.

Definition Issue_dump (i : VerificationIssue) : pyval := VDict [
  ("code", VStr (vi_code i)); ("description", VStr (vi_description i));
  ("severity", VStr (vi_severity i)); ("claim_id", opt_str (vi_claim_id i));
  ("evidence_ids", VList (map VStr (vi_evidence_ids i)))].

Definition Report_dump (r : VerificationReport) : pyval := VDict [
  ("verdict", VStr (verdict_name (vr_verdict r))); ("task_complete", VBool (vr_task_complete r));
  ("issues", VList (map Issue_dump (vr_issues r)));
  ("required_actions", VList (map VStr (vr_required_actions r)));
  ("confidence", VFloat (vr_confidence r))].

Definition FinalReport_dump (r : FinalVerificationReport) : pyval := VDict [
  ("verdict", VStr (match fr_verdict r with FPass => "pass" | FRevise => "revise" end));
  ("answer_complete", VBool (fr_answer_complete r));
  ("issues", VList (map Issue_dump (fr_issues r)));
  ("required_actions", VList (map VStr (fr_required_actions r)));
  ("confidence", VFloat (fr_confidence r))].

(** ** Evidence *)

Inductive TrustClass : Type :=
  | RetrievedExternal | UserSupplied | InternalSystem | DerivedSummary | ToolErrorTrust
  | UnknownLegacy.
Inductive FreshnessStatus : Type := Current | Stale | FreshUnknown | NotTimeSensitive.
Inductive SourceQuality : Type :=
  | PrimaryAuthoritative | PrimaryNonAuthoritative | SecondaryReputable
  | SecondaryUnknown | UserSuppliedQuality | Unverifiable | QualityUnknown.
Inductive InjectionScanStatus : Type := NotScanned | Clean | Suspicious | Blocked.
Inductive ToolStatus : Type := Success | ToolFailed | ToolTimeout | NotApplicable | ToolUnknown.

#[export] Instance FreshnessStatus_eq_dec : EqDecision FreshnessStatus.
Proof. solve_decision. Defined.
#[export] Instance ToolStatus_eq_dec : EqDecision ToolStatus.
Proof. solve_decision. Defined.

Record EvidenceItem : Type := MkEvidence {
  ev_evidence_id : string;
  ev_run_id : string;
  ev_task_id : string;
  ev_query_id : option string;
  ev_tool_name : option string;
  ev_source_uri : option string;
  ev_canonical_uri : option string;
  ev_source_title : option string;
  ev_retrieved_at : Z;
  ev_published_at : option Z;
  ev_content_type : string;
  ev_raw_artifact_uri : option string;
  ev_normalized_text : string;
  ev_summary : string;
  ev_content_hash : string;
  ev_trust_class : TrustClass;
  ev_freshness_status : FreshnessStatus;
  ev_source_quality : SourceQuality;
  ev_injection_scan_status : InjectionScanStatus;
  ev_truncated : bool;
  ev_tool_status : ToolStatus;
  ev_eligible_for_claim_support : bool;
  ev_metadata : pydict
}.

#[export] Instance eta_EvidenceItem : Eta EvidenceItem := λ e,
  MkEvidence (ev_evidence_id e) (ev_run_id e) (ev_task_id e) (ev_query_id e) (ev_tool_name e)
    (ev_source_uri e) (ev_canonical_uri e) (ev_source_title e) (ev_retrieved_at e)
    (ev_published_at e) (ev_content_type e) (ev_raw_artifact_uri e) (ev_normalized_text e)
    (ev_summary e) (ev_content_hash e) (ev_trust_class e) (ev_freshness_status e)
    (ev_source_quality e) (ev_injection_scan_status e) (ev_truncated e) (ev_tool_status e)
    (ev_eligible_for_claim_support e) (ev_metadata e).

(** The trust classes and tool outcomes that can never support a claim. *)
Definition untrusted (t : TrustClass) : bool :=
  match t with ToolErrorTrust | UserSupplied | UnknownLegacy => true | _ => false end.
Definition tool_did_fail (t : ToolStatus) : bool :=
  match t with ToolFailed | ToolTimeout => true | _ => false end.

(** The model validator [enforce_non_supporting_failures]; [sha256_hex] is
    [hashlib.sha256(text.encode()).hexdigest()]. *)
Definition enforce_non_supporting_failures (sha256_hex : string → string) (e : EvidenceItem) :
    EvidenceItem :=
  let e := if nonempty (ev_summary e) then e else e <| ev_summary := ev_normalized_text e |> in
  let e := if nonempty (ev_content_hash e) then e
           else e <| ev_content_hash := sha256_hex (ev_normalized_text e) |> in
  let e := if untrusted (ev_trust_class e) then e <| ev_eligible_for_claim_support := false |> else e in
  if tool_did_fail (ev_tool_status e) then e <| ev_eligible_for_claim_support := false |> else e.

(** What the validator guarantees of every [EvidenceItem]. *)
Definition EvidenceItem_ok (e : EvidenceItem) : Prop :=
  ev_eligible_for_claim_support e = true →
  untrusted (ev_trust_class e) = false ∧ tool_did_fail (ev_tool_status e) = false.

Definition ev_source (e : EvidenceItem) : string :=
  opt_str_or (ev_source_title e) (opt_str_or (ev_tool_name e) (opt_str_or (ev_source_uri e) "unknown")).

(** ** Lemmas *)

#[local] Arguments untrusted : simpl never.
#[local] Arguments tool_did_fail : simpl never.

Lemma enforce_eligible sha e :
  let e' := enforce_non_supporting_failures sha e in
  ev_eligible_for_claim_support e' =
    ev_eligible_for_claim_support e && negb (untrusted (ev_trust_class e))
      && negb (tool_did_fail (ev_tool_status e)) ∧
  ev_trust_class e' = ev_trust_class e ∧ ev_tool_status e' = ev_tool_status e ∧
  ev_freshness_status e' = ev_freshness_status e ∧ ev_run_id e' = ev_run_id e ∧
  ev_task_id e' = ev_task_id e ∧ ev_evidence_id e' = ev_evidence_id e ∧
  ev_canonical_uri e' = ev_canonical_uri e.
Proof.
  unfold enforce_non_supporting_failures.
  destruct (nonempty (ev_summary e)); cbn; destruct (nonempty (ev_content_hash e)); cbn;
    destruct (untrusted (ev_trust_class e)); cbn; destruct (tool_did_fail (ev_tool_status e)); cbn;
    rewrite ?andb_true_r, ?andb_false_r; done.
Qed.

Lemma enforce_ok sha e : EvidenceItem_ok (enforce_non_supporting_failures sha e).
Proof.
  unfold EvidenceItem_ok. destruct (enforce_eligible sha e) as (-> & -> & -> & _).
  rewrite !andb_true_iff, !negb_true_iff. tauto.
Qed.

Lemma normalize_string_list_strings l field :
  _normalize_string_list (VList (map VStr l)) field = Ret l.
Proof.
  simpl. assert (strings_of (map VStr l) = Some l) as ->; [|done].
  induction l as [|s l IH]; simpl; [done|]. by rewrite IH.
Qed.

Lemma normalize_evidence_ids_strings l : _normalize_evidence_ids (VList (map VStr l)) = Ret l.
Proof.
  simpl. assert (mapM evidence_id_of (map VStr l) = Some l) as ->; [|done].
  induction l as [|s l IH]; simpl; [done|]. by rewrite IH.
Qed.

Lemma stringify_int_idem v : stringify_int (stringify_int v) = stringify_int v.
Proof. by destruct v. Qed.

(** Normalisation is stable.  What the "before" validators of the plan and
    worker schemas make of a model's output, they accept unchanged when the
    value is validated again, as it is at every checkpoint of the run. *)
Theorem normalization_stable v l field :
  normalize_dependencies (normalize_dependencies v) = normalize_dependencies v ∧
  (_normalize_string_list v field = Ret l →
    _normalize_string_list (VList (map VStr l)) field = Ret l) ∧
  (_normalize_evidence_ids v = Ret l → _normalize_evidence_ids (VList (map VStr l)) = Ret l).
Proof.
  split; [|eauto using normalize_string_list_strings, normalize_evidence_ids_strings].
  unfold normalize_dependencies. destruct v as [| | | | |items|]; try done.
  simpl. f_equal. rewrite map_map. apply map_ext. apply stringify_int_idem.
Qed.
