(* ===== verification/Grounding.v ===== *)
(** * Claim grounding and deterministic answer checks

    [app/services/claim_grounding.py] and [app/services/answer_quality.py]. *)

From S2P Require Import Prelude PyData Schemas.

Inductive GroundingStatus : Type :=
  | Supported | PartiallySupported | Contradicted | StaleSupport | Unsupported.
#[export] Instance GroundingStatus_eq_dec : EqDecision GroundingStatus.
Proof. solve_decision. Defined.

Definition grounding_name (s : GroundingStatus) : string :=
  match s with
  | Supported => "supported" | PartiallySupported => "partially_supported"
  | Contradicted => "contradicted" | StaleSupport => "stale" | Unsupported => "unsupported"
  end.

Record ClaimGroundingResult : Type := MkGrounding {
  gr_claim_id : string;
  gr_status : GroundingStatus;
  gr_supporting_evidence_ids : list string;
  gr_contradictory_evidence_ids : list string;
  gr_explanation : string
}.

(** [{item.evidence_id: item for item in evidence}]: the last item of an id wins. *)
Definition by_id (evidence : list EvidenceItem) : list (string * EvidenceItem) :=
  foldl (λ d e, dict_set (ev_evidence_id e) e d) [] evidence.

(** The items that are not [None]. *)
Fixpoint somes {A} (l : list (option A)) : list A :=
  match l with
  | [] => []
  | Some x :: l' => x :: somes l'
  | None :: l' => somes l'
  end.

(** The conditions on a cited record, in two steps as in the code. *)
Definition valid_for (run_id task_id : string) (e : EvidenceItem) : bool :=
  String.eqb (ev_run_id e) run_id && String.eqb (ev_task_id e) task_id
  && ev_eligible_for_claim_support e && bool_decide (ev_tool_status e = Success).

Definition fresh_for (c : Claim) (e : EvidenceItem) : bool :=
  if cl_requires_current_evidence c then bool_decide (ev_freshness_status e = Current)
  else bool_decide (ev_freshness_status e ≠ Stale).

Definition is_empty {A} (l : list A) : bool := match l with [] => true | _ => false end.

(** The status and the explanation, from the stale and the acceptable records
    and the number of ids the claim cites. *)
Definition claim_status (requires_current : bool) (stale acceptable : list EvidenceItem)
    (cited : nat) : GroundingStatus * string :=
  if requires_current && negb (is_empty stale) && is_empty acceptable then
    (StaleSupport, "All otherwise valid supporting evidence is stale or not current.")
  else if negb (is_empty acceptable) && (length acceptable =? cited)%nat then
    (Supported, "Every referenced evidence record is valid for this run and task.")
  else if negb (is_empty acceptable) then
    (PartiallySupported, "Some referenced evidence is missing, ineligible, stale, or foreign.")
  else (Unsupported, "No eligible same-run, same-task evidence supports the claim.").

Definition acceptable_for (evidence : list EvidenceItem) (run_id task_id : string)
    (claim : Claim) : list EvidenceItem * list EvidenceItem :=
  let requested := map (λ i, dict_get i (by_id evidence)) (cl_evidence_ids claim) in
  let valid := List.filter (valid_for run_id task_id) (somes requested) in
  (List.filter (λ e, bool_decide (ev_freshness_status e = Stale)) valid,
   List.filter (fresh_for claim) valid).

Definition ground_claim (evidence : list EvidenceItem) (run_id task_id : string)
    (index : nat) (claim : Claim) : ClaimGroundingResult :=
  let '(stale, acceptable) := acceptable_for evidence run_id task_id claim in
  let status := claim_status (cl_requires_current_evidence claim) stale acceptable
    (length (cl_evidence_ids claim)) in
  MkGrounding (opt_str_or (cl_claim_id claim) ("claim-" +:+ nat_to_string index))
    status.1 (map ev_evidence_id acceptable) [] status.2.

(** [ground_claims]: claims are numbered from 1. *)
Definition ground_claims (claims : list Claim) (evidence : list EvidenceItem)
    (run_id task_id : string) : list ClaimGroundingResult :=
  imap (λ k c, ground_claim evidence run_id task_id (S k) c) claims.

(** [deterministic_output_issues]. *)
Definition deterministic_output_issues (text : string) (minimum_chars : Z) : list string :=
  let clean := strip text in
  (if slen clean <? minimum_chars then ["answer_too_short"] else []) ++
  (if (3 <? Z.of_nat (scount (stake 50 clean) clean)) && (100 <? slen clean)
   then ["possible_repetition"] else []).

(** The issue codes [_verify] derives from the grounding. *)
Definition grounding_issues (grounding : list ClaimGroundingResult) : list string :=
  map (λ g, "claim_grounding:" +:+ gr_claim_id g +:+ ":" +:+ grounding_name (gr_status g))
    (List.filter (λ g, negb (bool_decide (gr_status g = Supported))) grounding).

Definition Grounding_dump (g : ClaimGroundingResult) : pyval := VDict [
  ("claim_id", VStr (gr_claim_id g)); ("status", VStr (grounding_name (gr_status g)));
  ("supporting_evidence_ids", VList (map VStr (gr_supporting_evidence_ids g)));
  ("contradictory_evidence_ids", VList (map VStr (gr_contradictory_evidence_ids g)));
  ("explanation", VStr (gr_explanation g))].

(** ** Properties *)

Lemma by_id_app evidence e :
  by_id (evidence ++ [e]) = dict_set (ev_evidence_id e) e (by_id evidence).
Proof. unfold by_id. by rewrite foldl_app. Qed.

Lemma by_id_sound evidence i e :
  dict_get i (by_id evidence) = Some e → e ∈ evidence ∧ ev_evidence_id e = i.
Proof.
  induction evidence as [|x evidence IH] using rev_ind; [done|].
  rewrite by_id_app, dict_get_set, elem_of_app.
  destruct (String.eqb_spec i (ev_evidence_id x)) as [->|]; [intros [= ->]; split; [right; by left|done]|].
  intros H. destruct (IH H). auto.
Qed.

(** A record a claim may rest on. *)
Definition supports (run_id task_id : string) (c : Claim) (e : EvidenceItem) : bool :=
  valid_for run_id task_id e && fresh_for c e.

Lemma somes_In {A} (x : A) l : List.In x (somes l) → List.In (Some x) l.
Proof.
  induction l as [|[y|] l IH]; simpl; [done|intros [->|?]; auto|auto].
Qed.

Lemma filter_length_full {A} (f : A → bool) (l : list (option A)) :
  length (List.filter f (somes l)) = length l ↔ Forall (λ o, ∃ x, o = Some x ∧ f x = true) l.
Proof.
  assert (Hle : ∀ l', (length (List.filter f (somes l')) ≤ length l')%nat).
  { intros l'. induction l' as [|[x|] l' IH]; simpl; [lia|destruct (f x); simpl; lia|lia]. }
  induction l as [|[x|] l IH]; simpl.
  - split; [by constructor|done].
  - rewrite Forall_cons. destruct (f x) eqn:E; simpl.
    + rewrite <-IH. split; [intros [= ?]; eauto|intros [_ ->]; done].
    + specialize (Hle l). split; [lia|]. intros [(y & [= <-] & ?) _]. congruence.
  - rewrite Forall_cons. specialize (Hle l). split; [lia|]. by intros [(y & [=] & _) _].
Qed.

Lemma filter_filter_andb {A} (f g : A → bool) l :
  List.filter g (List.filter f l) = List.filter (λ x, f x && g x) l.
Proof.
  induction l as [|x l IH]; simpl; [done|].
  destruct (f x); simpl; [destruct (g x); by rewrite ?IH|done].
Qed.

Lemma claim_status_supported rc stale acceptable n :
  (claim_status rc stale acceptable n).1 = Supported ↔
  acceptable ≠ [] ∧ length acceptable = n.
Proof.
  unfold claim_status. destruct acceptable as [|a l]; cbn [is_empty negb andb].
  - destruct (rc && _ && _); naive_solver.
  - rewrite andb_false_r. destruct (Nat.eqb_spec (length (a :: l)) n); naive_solver.
Qed.

Lemma acceptable_for_eq evidence run_id task_id c :
  (acceptable_for evidence run_id task_id c).2 =
  List.filter (supports run_id task_id c)
    (somes (map (λ i, dict_get i (by_id evidence)) (cl_evidence_ids c))).
Proof. unfold acceptable_for. simpl. apply filter_filter_andb. Qed.

Lemma supported_records evidence run_id task_id k c :
  gr_status (ground_claim evidence run_id task_id k c) = Supported ↔
  cl_evidence_ids c ≠ [] ∧
  ∀ i, i ∈ cl_evidence_ids c →
    ∃ e, dict_get i (by_id evidence) = Some e ∧ supports run_id task_id c e = true.
Proof.
  unfold ground_claim. pose proof (acceptable_for_eq evidence run_id task_id c) as Ha.
  destruct (acceptable_for evidence run_id task_id c) as [stale acceptable]. simpl in *.
  rewrite claim_status_supported. subst acceptable.
  set (requested := map (λ i, dict_get i (by_id evidence)) (cl_evidence_ids c)).
  assert (Hlen : length requested = length (cl_evidence_ids c))
    by (subst requested; by rewrite length_map).
  rewrite <-Hlen, filter_length_full. unfold requested at 2. rewrite Forall_map, Forall_forall.
  split; intros [Hne Hall]; (split; [|exact Hall]).
  - intros E. apply Hne. unfold requested. by rewrite E.
  - intros E. destruct (cl_evidence_ids c) as [|i l] eqn:Ec; [done|].
    destruct (Hall i) as (e & He & Hs); [by left|].
    unfold requested in E. simpl in E. rewrite He in E. simpl in E. by rewrite Hs in E.
Qed.

(** The last record of an id is the one it names. *)
Lemma by_id_last evidence i e :
  dict_get i (by_id evidence) = Some e ↔
  ev_evidence_id e = i ∧
  ∃ before after, evidence = before ++ e :: after ∧ Forall (λ x, ev_evidence_id x ≠ i) after.
Proof.
  induction evidence as [|x evidence IH] using rev_ind.
  - split; [done|]. intros (_&before&after&H&_). by destruct before.
  - rewrite by_id_app, dict_get_set. destruct (String.eqb_spec i (ev_evidence_id x)) as [->|Hne].
    + split.
      * intros [= ->]. split; [done|]. by exists evidence, [].
      * intros (He&before&after&Heq&Hafter). destruct after as [|y after _] using rev_ind.
        { apply app_inj_tail in Heq as [_ ->]. done. }
        rewrite app_comm_cons, app_assoc in Heq. apply app_inj_tail in Heq as [_ <-].
        apply Forall_app in Hafter as [_ Hy%Forall_inv]. done.
    + rewrite IH. split; intros (He&before&after&Heq&Hafter); (split; [done|]).
      * exists before, (after ++ [x]). rewrite Heq, <- app_assoc. split; [done|].
        apply Forall_app. split; [done|]. by constructor.
      * destruct after as [|y after _] using rev_ind.
        { apply app_inj_tail in Heq as [_ <-]. by rewrite He in Hne. }
        rewrite app_comm_cons, app_assoc in Heq. apply app_inj_tail in Heq as [-> _].
        apply Forall_app in Hafter as [? _]. by exists before, after.
Qed.

(** [supports] on the fields of the record. *)
Lemma supports_fields run_id task_id c e :
  supports run_id task_id c e = true ↔
  ev_run_id e = run_id ∧ ev_task_id e = task_id ∧ ev_eligible_for_claim_support e = true ∧
  ev_tool_status e = Success ∧
  (if cl_requires_current_evidence c then ev_freshness_status e = Current
   else ev_freshness_status e ≠ Stale).
Proof.
  unfold supports, valid_for, fresh_for. rewrite !andb_true_iff, !String.eqb_eq, bool_decide_eq_true.
  destruct (cl_requires_current_evidence c); rewrite bool_decide_eq_true; tauto.
Qed.

(** C34. Grounding is exact.  A claim is reported supported precisely when it
    cites at least one record and every id it cites names a gathered record --
    the last one gathered under that id -- of this run and of this task, that is
    marked eligible, came from a successful tool call, and is marked current
    where the claim requires current evidence and not stale elsewhere. *)
Theorem supported_iff evidence run_id task_id k c :
  gr_status (ground_claim evidence run_id task_id k c) = Supported ↔
  cl_evidence_ids c ≠ [] ∧
  ∀ i, i ∈ cl_evidence_ids c →
    ∃ before e after, evidence = before ++ e :: after ∧
      ev_evidence_id e = i ∧ Forall (λ x, ev_evidence_id x ≠ i) after ∧
      ev_run_id e = run_id ∧ ev_task_id e = task_id ∧
      ev_eligible_for_claim_support e = true ∧ ev_tool_status e = Success ∧
      (if cl_requires_current_evidence c then ev_freshness_status e = Current
       else ev_freshness_status e ≠ Stale).
Proof.
  rewrite supported_records. split; intros [Hne H]; (split; [done|]); intros i Hi; destruct (H i Hi) as (e&He).
  - destruct He as [He Hs%supports_fields]. apply by_id_last in He as (?&before&after&?&?).
    by exists before, e, after.
  - destruct He as (e'&after&?&?&?&?). exists e'. rewrite by_id_last, supports_fields. eauto 10.
Qed.

(** Untrusted material never supports a claim.  If every gathered record
    passed its validator, each record behind a supported claim is one the run
    gathered for this task, with a trusted class and a successful tool call;
    user-supplied, legacy and tool-error records are never among them. *)
Theorem supported_is_trusted evidence run_id task_id k c i
    (Hok : Forall EvidenceItem_ok evidence)
    (Hsup : gr_status (ground_claim evidence run_id task_id k c) = Supported)
    (Hi : i ∈ gr_supporting_evidence_ids (ground_claim evidence run_id task_id k c)
      ∨ i ∈ cl_evidence_ids c) :
  ∃ e, e ∈ evidence ∧ ev_evidence_id e = i ∧ ev_run_id e = run_id ∧ ev_task_id e = task_id ∧
    untrusted (ev_trust_class e) = false ∧ ev_tool_status e = Success ∧
    ev_freshness_status e ≠ Stale.
Proof.
  assert (∃ e, e ∈ evidence ∧ ev_evidence_id e = i ∧ supports run_id task_id c e = true)
    as (e & He & Hid & Hs).
  { destruct Hi as [Hi|Hi].
    - assert (i ∈ map ev_evidence_id (acceptable_for evidence run_id task_id c).2) as Hi'.
      { unfold ground_claim in Hi. by destruct (acceptable_for _ _ _ _). }
      rewrite acceptable_for_eq in Hi'.
      apply list_elem_of_In, in_map_iff in Hi' as (e & <- & Hin).
      apply filter_In in Hin as [Hin Hs]. exists e. split; [|done].
      apply somes_In, in_map_iff in Hin as (j & E & _).
      by apply by_id_sound in E as [? _].
    - apply supported_records in Hsup as [_ Hsup]. destruct (Hsup i Hi) as (e & He & Hs).
      apply by_id_sound in He as [? ?]. eauto. }
  exists e. apply supports_fields in Hs as (Hr & Ht & Hel & Hts & Hf).
  rewrite Forall_forall in Hok. destruct (Hok e He Hel) as [Hu _].
  repeat split; try done. destruct (cl_requires_current_evidence c); congruence.
Qed.

(** ** A witness *)

Definition sample_evidence : EvidenceItem := {|
  ev_evidence_id := "e1"; ev_run_id := "r"; ev_task_id := "t"; ev_query_id := None;
  ev_tool_name := Some "web_search"; ev_source_uri := None; ev_canonical_uri := None;
  ev_source_title := Some "page"; ev_retrieved_at := 0; ev_published_at := None;
  ev_content_type := "text/plain"; ev_raw_artifact_uri := None;
  ev_normalized_text := "The sky is blue."; ev_summary := "The sky is blue.";
  ev_content_hash := "h"; ev_trust_class := RetrievedExternal;
  ev_freshness_status := NotTimeSensitive; ev_source_quality := SecondaryUnknown;
  ev_injection_scan_status := Clean; ev_truncated := false; ev_tool_status := Success;
  ev_eligible_for_claim_support := true; ev_metadata := []
|}.

Definition sample_claim : Claim := MkClaim None "The sky is blue." ["e1"] None false.

Lemma supported_is_trusted_witness :
  ∃ e, e ∈ [sample_evidence] ∧ ev_evidence_id e = "e1" ∧ ev_run_id e = "r" ∧
    ev_task_id e = "t" ∧ untrusted (ev_trust_class e) = false ∧ ev_tool_status e = Success ∧
    ev_freshness_status e ≠ Stale.
Proof.
  apply (supported_is_trusted [sample_evidence] "r" "t" 1 sample_claim "e1").
  - constructor; [|constructor]. by intros _.
  - vm_compute. reflexivity.
  - right. left.
Defined.
