(* ===== verification/Context.v ===== *)
(** * Bounded model context

    [app/services/context_builder.py]: the evidence placed into a model's
    prompt, deduplicated, wrapped in delimiters and bounded in size.  Lengths
    are counted in characters of the model's strings. *)

From S2P Require Import Prelude PyData Schemas.

Definition trust_name (t : TrustClass) : string :=
  match t with
  | RetrievedExternal => "retrieved_external" | UserSupplied => "user_supplied"
  | InternalSystem => "internal_system" | DerivedSummary => "derived_summary"
  | ToolErrorTrust => "tool_error" | UnknownLegacy => "unknown_legacy"
  end.
Definition freshness_name (f : FreshnessStatus) : string :=
  match f with
  | Current => "current" | Stale => "stale" | FreshUnknown => "unknown"
  | NotTimeSensitive => "not_time_sensitive"
  end.
Definition quality_name (q : SourceQuality) : string :=
  match q with
  | PrimaryAuthoritative => "primary_authoritative"
  | PrimaryNonAuthoritative => "primary_non_authoritative"
  | SecondaryReputable => "secondary_reputable" | SecondaryUnknown => "secondary_unknown"
  | UserSuppliedQuality => "user_supplied" | Unverifiable => "unverifiable"
  | QualityUnknown => "unknown"
  end.
Definition tool_status_name (t : ToolStatus) : string :=
  match t with
  | Success => "success" | ToolFailed => "failed" | ToolTimeout => "timeout"
  | NotApplicable => "not_applicable" | ToolUnknown => "unknown"
  end.

Definition evidence_prefix (evidence_id : string) : string :=
  "<untrusted_evidence evidence_id=" +:+ quote +:+ evidence_id +:+ quote +:+ ">".
Definition evidence_suffix : string := "</untrusted_evidence>".

(** The metadata of an entry. *)
Definition context_metadata (e : EvidenceItem) (body wrapped : string) : pydict :=
  let original := ev_normalized_text e in
  let context_truncated := ev_truncated e || (slen body <? slen original) in
  let metadata := ev_metadata e in
  let metadata := if dict_has "original_content_chars" metadata then metadata
                  else dict_set "original_content_chars" (VInt (slen original)) metadata in
  let metadata := dict_set "context_content_chars" (VInt (slen wrapped)) metadata in
  let metadata := dict_set "context_body_chars" (VInt (slen body)) metadata in
  dict_set "context_truncated" (VBool context_truncated) metadata.

(** The dictionary placed into the context for one item. *)
Definition context_entry (e : EvidenceItem) (body wrapped : string) : pydict :=
  [ ("id", VStr (ev_evidence_id e)); ("evidence_id", VStr (ev_evidence_id e));
    ("source", VStr (ev_source e)); ("source_uri", opt_str (ev_source_uri e));
    ("canonical_uri", opt_str (ev_canonical_uri e));
    ("source_title", opt_str (ev_source_title e));
    ("trust_class", VStr (trust_name (ev_trust_class e)));
    ("freshness_status", VStr (freshness_name (ev_freshness_status e)));
    ("source_quality", VStr (quality_name (ev_source_quality e)));
    ("tool_status", VStr (tool_status_name (ev_tool_status e)));
    ("eligible_for_claim_support", VBool (ev_eligible_for_claim_support e));
    ("content", VStr wrapped); ("metadata", VDict (context_metadata e body wrapped)) ].

(** The loop of [build_context]. *)
Fixpoint context_loop (per_item : Z) (items : list EvidenceItem) (remaining : Z)
    (seen : list (string * string)) : list pydict :=
  match items with
  | [] => []
  | e :: items' =>
      if remaining <=? 0 then []
      else
        let key := (ev_evidence_id e, ev_normalized_text e) in
        if bool_decide (key ∈ seen) then context_loop per_item items' remaining seen
        else
          let seen := key :: seen in
          let prefix := evidence_prefix (ev_evidence_id e) in
          let allowed := Z.min remaining per_item in
          let wrapper_chars := slen prefix + slen evidence_suffix in
          if allowed <=? wrapper_chars then []
          else
            let body := stake_Z (allowed - wrapper_chars) (ev_normalized_text e) in
            let wrapped := prefix +:+ body +:+ evidence_suffix in
            context_entry e body wrapped ::
              context_loop per_item items' (remaining - slen wrapped) seen
  end.

(** [max_item_chars or max_chars or 1]. *)
Definition per_item_chars (max_chars : Z) (max_item_chars : option Z) : Z :=
  Z.max 1 (match max_item_chars with
           | Some m => if m =? 0 then (if max_chars =? 0 then 1 else max_chars) else m
           | None => if max_chars =? 0 then 1 else max_chars
           end).

Definition build_context (items : list EvidenceItem) (max_chars : Z)
    (max_item_chars : option Z) : list pydict :=
  context_loop (per_item_chars max_chars max_item_chars) items (Z.max 0 max_chars) [].

(** [len(str(item.get("content") or ""))] of a string content. *)
Definition content_length (v : pyval) : Z := match v with VStr s => slen s | _ => 0 end.

Definition entry_chars (item : pydict) : Z :=
  match get_or_none "metadata" item with
  | VDict metadata =>
      match get_or_none "context_content_chars" metadata with
      | VInt m => if 0 <=? m then m else content_length (get_or_none "content" item)
      | _ => content_length (get_or_none "content" item)
      end
  | _ => content_length (get_or_none "content" item)
  end.

Definition context_character_count (items : list pydict) : Z :=
  foldr (λ item n, entry_chars item + n) 0 items.

(** ** Properties *)

Lemma entry_chars_context e body wrapped :
  entry_chars (context_entry e body wrapped) = slen wrapped.
Proof.
  unfold entry_chars.
  assert (get_or_none "metadata" (context_entry e body wrapped) =
    VDict (context_metadata e body wrapped)) as -> by reflexivity.
  assert (get_or_none "context_content_chars" (context_metadata e body wrapped) =
    VInt (slen wrapped)) as ->.
  { unfold get_or_none, context_metadata. cbv zeta.
    by rewrite !dict_get_set_ne, dict_get_set_eq by done. }
  destruct (Z.leb_spec 0 (slen wrapped)); [done|]. pose proof (slen_nonneg wrapped). lia.
Qed.

Lemma wrapped_length e allowed :
  slen (evidence_prefix (ev_evidence_id e)) + slen evidence_suffix < allowed →
  slen (evidence_prefix (ev_evidence_id e) +:+
    stake_Z (allowed - (slen (evidence_prefix (ev_evidence_id e)) + slen evidence_suffix))
      (ev_normalized_text e) +:+ evidence_suffix) ≤ allowed.
Proof.
  intros H. rewrite !slen_app.
  pose proof (stake_Z_length (allowed - (slen (evidence_prefix (ev_evidence_id e)) +
    slen evidence_suffix)) (ev_normalized_text e) ltac:(lia)). lia.
Qed.

(** The entries stand for distinct records, in order. *)
Inductive represents : list pydict → list EvidenceItem → Prop :=
  | rep_nil l : represents [] l
  | rep_skip ds e es : represents ds es → represents ds (e :: es)
  | rep_take ds e es n :
      represents ds es →
      represents (context_entry e (stake n (ev_normalized_text e))
        (evidence_prefix (ev_evidence_id e) +:+ stake n (ev_normalized_text e) +:+
          evidence_suffix) :: ds) (e :: es).

Lemma context_loop_bound per_item items remaining seen :
  0 ≤ remaining →
  context_character_count (context_loop per_item items remaining seen) ≤ remaining ∧
  Forall (λ d, entry_chars d ≤ per_item) (context_loop per_item items remaining seen) ∧
  represents (context_loop per_item items remaining seen) items.
Proof.
  revert remaining seen. induction items as [|e items IH]; intros remaining seen Hr; simpl.
  { repeat split; [lia|constructor|constructor]. }
  destruct (Z.leb_spec remaining 0); [simpl; repeat split; [lia|constructor|constructor]|].
  case_bool_decide.
  { destruct (IH remaining seen Hr) as (? & ? & ?). repeat split; [done|done|by constructor]. }
  set (allowed := Z.min remaining per_item).
  destruct (Z.leb_spec allowed (slen (evidence_prefix (ev_evidence_id e)) + slen evidence_suffix))
    as [|Hlt]; [simpl; repeat split; [lia|constructor|constructor]|].
  pose proof (wrapped_length e allowed Hlt) as Hw.
  set (wrapped := evidence_prefix (ev_evidence_id e) +:+ _) in *.
  destruct (IH (remaining - slen wrapped) ((ev_evidence_id e, ev_normalized_text e) :: seen))
    as (I1 & I2 & I3); [lia|].
  simpl. rewrite entry_chars_context. repeat split; [lia| |].
  - constructor; [rewrite entry_chars_context; lia|done].
  - by constructor.
Qed.

(** The model context is bounded.  Whatever evidence is gathered, the
    characters placed into the context, delimiters included, are at most
    [max_chars] in all and at most [max_item_chars] for one record, the count
    the entries carry is the real one, and the entries stand for gathered
    records in their order. *)
Theorem context_bounded items max_chars max_item_chars :
  let out := build_context items max_chars max_item_chars in
  context_character_count out ≤ Z.max 0 max_chars ∧
  Forall (λ d, entry_chars d ≤ per_item_chars max_chars max_item_chars) out ∧
  represents out items.
Proof. apply context_loop_bound. lia. Qed.
