(* ===== verification/Evidence.v ===== *)
(** * Evidence records

    [app/services/evidence.py]: reading caller-supplied context, turning tool
    results into records, and dropping duplicates.  [EvidenceEnv] holds what the
    functions take from the interpreter and this file does not define: hashing,
    [json.dumps] and [str] of containers, the functions of [urllib.parse] and
    [datetime.fromisoformat]. *)

From stdpp Require Import sorting.
From S2P Require Import Prelude PyData PyNum RunTypes Schemas.

(** What the code reads of [urlsplit]'s result; [port] is a property that raises
    on a port that is no number below 65536. *)
Record SplitResult : Type := MkSplit {
  sp_scheme : string;
  sp_netloc : string;
  sp_path : string;
  sp_query : string;
  sp_hostname : option string;
  sp_port : outcome (option Z)
}.

Record EvidenceEnv : Type := MkEvidenceEnv {
  env_sha256_hex : string → string;
  env_json_text : pyval → string;           (** [json.dumps(v, sort_keys=True, default=str)] *)
  env_repr : pyval → string;                (** [str] of a list or a dict *)
  env_urlsplit : string → option SplitResult;          (** [None] on [ValueError] *)
  env_parse_qsl : string → list (string * string);     (** with [keep_blank_values=True] *)
  env_urlencode : list (string * string) → string;
  env_urlunsplit : string → string → string → string → string;   (** with an empty fragment *)
  env_fromisoformat : string → option Z
    (** the instant, naive text read as UTC; [None] on [ValueError] *)
}.

Definition _TRACKING_PARAMETERS : list string :=
  ["fbclid"; "gclid"; "mc_cid"; "mc_eid"; "ref"; "source"; "utm_campaign"; "utm_content";
   "utm_medium"; "utm_source"; "utm_term"].

(** The order of Python on pairs of strings. *)
Definition pair_le (a b : string * string) : Prop :=
  if String.eqb a.1 b.1 then String.le a.2 b.2 else String.le a.1 b.1.
#[export] Instance pair_le_dec : RelDecision pair_le.
Proof. intros a b. unfold pair_le. destruct (String.eqb _ _); apply _. Defined.

(** [s.replace(c, r)] for a one-character [c]. *)
Fixpoint replace_by (c : Ascii.ascii) (r s : string) : string :=
  match s with
  | EmptyString => EmptyString
  | String d s' => if Ascii.eqb d c then r +:+ replace_by c r s' else String d (replace_by c r s')
  end.

Section evidence.
Context (env : EvidenceEnv).

(** [str(v)]. *)
Definition py_str (v : pyval) : string :=
  match v with
  | VNone => "None"
  | VBool b => if b then "True" else "False"
  | VInt z => Z_to_string z
  | VFloat r => r
  | VStr s => s
  | VList _ | VDict _ => env_repr env v
  end.

Definition untracked (kv : string * string) : Prop := lower kv.1 ∉ _TRACKING_PARAMETERS.
#[local] Instance untracked_dec kv : Decision (untracked kv).
Proof. unfold untracked. apply _. Defined.

Definition canonical_query (query : string) : string :=
  env_urlencode env (merge_sort pair_le (filter untracked (env_parse_qsl env query))).

Definition default_port (scheme : string) (port : Z) : bool :=
  (String.eqb scheme "http" && (port =? 80)) || (String.eqb scheme "https" && (port =? 443)).

Definition canonical_host (scheme : string) (hostname : option string) (port : option Z) : string :=
  let host := lower (default "" hostname) in
  match port with
  | Some p => if (p =? 0) || default_port scheme p then host else host +:+ ":" +:+ Z_to_string p
  | None => host
  end.

Definition stripped_or_None (s : string) : option string :=
  let t := strip s in if nonempty t then Some t else None.

Definition canonicalize_uri (uri : option string) : outcome (option string) :=
  match uri with
  | None | Some EmptyString => Ret None
  | Some u =>
    match env_urlsplit env (strip u) with
    | None => Ret (stripped_or_None u)
    | Some parsed =>
        if nonempty (sp_scheme parsed) && nonempty (sp_netloc parsed) then
          try! port := sp_port parsed in
          Ret (Some (env_urlunsplit env (lower (sp_scheme parsed))
            (canonical_host (sp_scheme parsed) (sp_hostname parsed) port)
            (str_or (sp_path parsed) "/") (canonical_query (sp_query parsed))))
        else Ret (stripped_or_None u)
    end
  end.

Definition _parse_datetime (value : pyval) : option Z :=
  match value with
  | VStr s =>
    if nonempty (strip s) then
      env_fromisoformat env (replace_by (Ascii.ascii_of_N 90) "+00:00" (strip s))
    else None
  | _ => None
  end.

Definition source_quality_for_uri (uri : option string) : SourceQuality :=
  match uri with
  | Some u =>
    if nonempty u then
      let host := match env_urlsplit env u with
                  | Some parsed => lower (default "" (sp_hostname parsed)) | None => "" end in
      if endswith ".gov" host || String.eqb host "who.int" || String.eqb host "un.org" then
        PrimaryAuthoritative
      else if endswith ".edu" host then PrimaryNonAuthoritative
      else SecondaryUnknown
    else SecondaryUnknown
  | None => SecondaryUnknown
  end.

Definition time_sensitive_tokens : list string :=
  ["current"; "latest"; "today"; "tomorrow"; "weather"; "news"; "score"; "schedule";
   "price"; "president"; "ceo"].

Definition freshness_for_result (published_at : option Z) (query : string)
  (retrieved_at : Z) : FreshnessStatus :=
  let lowered := lower query in
  if existsb (λ t, contains t lowered) time_sensitive_tokens then
  match published_at with
  | None => FreshUnknown
  | Some p =>
      let days := if contains "weather" lowered || contains "today" lowered then 1 else 7 in
      if retrieved_at - p <=? seconds (days * 86400) then Current else Stale
  end
  else NotTimeSensitive.

(** [normalize_text]: the text and whether it was cut. *)
Definition normalize_text (value : pyval) (max_chars : Z) : string * bool :=
  let text := match value with VStr s => s | _ => env_json_text env value end in
  let text := join " " (split_ws (replace_char Ascii.zero (Ascii.ascii_of_N 32) text)) in
  (stake_Z max_chars text, max_chars <? slen text).

(** The patterns of [scan_for_prompt_injection], searched ignoring case. *)
Definition injection_patterns : list string :=
  ["ignore previous instructions"; "ignore all previous instructions";
   "ignore any previous instructions"; "ignore the previous instructions";
   "ignore your previous instructions"; "system prompt"; "developer message";
   "you are now"; "call this tool"; "call the tool"].

Definition scan_for_prompt_injection (text : string) : InjectionScanStatus :=
  if existsb (λ p, contains p (lower text)) injection_patterns then Suspicious else Clean.

(** [candidate not in (None, "")]. *)
Definition informative (v : pyval) : bool :=
  match v with VNone => false | VStr s => nonempty s | _ => true end.

Fixpoint first_of {A B} (f : A → option B) (l : list A) : option B :=
  match l with
  | [] => None
  | x :: l' => match f x with Some y => Some y | None => first_of f l' end
  end.

(** [_first_named_value]: the keys of a dictionary first, then its values. *)
Fixpoint _first_named_value (keys : list string) (value : pyval) : option pyval :=
  match value with
  | VDict d =>
    match first_of (λ k, match dict_get k d with
                         | Some v => if informative v then Some v else None
                         | None => None
                         end) keys with
    | Some v => Some v
    | None => (fix go (d : list (string * pyval)) : option pyval :=
        match d with
        | [] => None
        | (_, x) :: d' =>
            match _first_named_value keys x with Some y => Some y | None => go d' end
        end) d
    end
  | VList l => (fix go (l : list pyval) : option pyval :=
    match l with
    | [] => None
    | x :: l' => match _first_named_value keys x with Some y => Some y | None => go l' end
    end) l
  | _ => None
  end.

Fixpoint _first_uri (value : pyval) : option string :=
  match value with
  | VDict d =>
    match first_of (λ k, match dict_get k d with
                         | Some (VStr s) => if nonempty (strip s) then Some s else None
                         | _ => None
                         end) ["url"; "uri"; "source_uri"; "link"] with
    | Some s => Some s
    | None => (fix go (d : list (string * pyval)) : option string :=
        match d with
        | [] => None
        | (_, x) :: d' => match _first_uri x with Some y => Some y | None => go d' end
        end) d
    end
  | VList l => (fix go (l : list pyval) : option string :=
    match l with
    | [] => None
    | x :: l' => match _first_uri x with Some y => Some y | None => go l' end
    end) l
  | _ => None
  end.

(** Constructing an [EvidenceItem] runs its validator. *)
Definition EvidenceItem_new (e : EvidenceItem) : EvidenceItem :=
  enforce_non_supporting_failures (env_sha256_hex env) e.

(** [str(payload.get("id") or payload.get("evidence_id") or f"user-{index}")]. *)
Definition user_evidence_id (payload : pydict) (index : nat) : string :=
  let a := get_or_none "id" payload in
  let b := get_or_none "evidence_id" payload in
  if truthy a then py_str a else if truthy b then py_str b
  else "user-" +:+ nat_to_string index.

Definition user_evidence (run_id task_id : string) (now : Z) (index : nat) (item : pyval) :
  EvidenceItem :=
  let payload := match item with
               | VDict d => d
               | _ => [("content", item)]
               end in
  let '(text, truncated) :=
  normalize_text (default (VDict payload) (dict_get "content" payload)) 12000 in
  EvidenceItem_new {|
  ev_evidence_id := user_evidence_id payload index;
  ev_run_id := run_id; ev_task_id := task_id; ev_query_id := None; ev_tool_name := None;
  ev_source_uri := None; ev_canonical_uri := None;
  ev_source_title := Some "request_metadata";
  ev_retrieved_at := now; ev_published_at := None; ev_content_type := "text/plain";
  ev_raw_artifact_uri := None; ev_normalized_text := text; ev_summary := text;
  ev_content_hash := env_sha256_hex env text;
  ev_trust_class := UserSupplied; ev_freshness_status := FreshUnknown;
  ev_source_quality := QualityUnknown;
  ev_injection_scan_status := scan_for_prompt_injection text;
  ev_truncated := truncated; ev_tool_status := NotApplicable;
  ev_eligible_for_claim_support := false;
  ev_metadata := filter (λ kv, kv.1 ∉ ["id"; "evidence_id"; "source"; "content"]) payload
|}.

Definition evidence_from_metadata (metadata : pydict) (run_id task_id : string) (now : Z) :
  list EvidenceItem :=
  match dict_get "evidence" metadata with
  | Some (VList raw) => imap (λ k item, user_evidence run_id task_id now (S k) item) raw
  | _ => []
  end.

(** What a tool call returned: [MCPToolResult]'s fields the code reads. *)
Record ToolResult : Type := MkToolResult {
  tr_ok : bool;
  tr_data : pyval;
  tr_error : option string
}.

Definition truthy_str (v : option pyval) : option string :=
  match v with Some x => if truthy x then Some (py_str x) else None | None => None end.

(** The text of the first informative value under one of [keys]. *)
Definition named_text (keys : list string) (value : pyval) : option string :=
  truthy_str (_first_named_value keys value).

Definition published (value : pyval) : option Z :=
  match _first_named_value ["published_at"; "published"; "date_published"; "date"] value with
  | Some v => _parse_datetime v
  | None => None
  end.

Definition evidence_from_tool_result (result : ToolResult) (evidence_id run_id task_id : string)
  (query_id : option string) (tool_name query : string) (now : Z) : outcome EvidenceItem :=
  let ok := tr_ok result in
  let data := tr_data result in
  let payload := if ok then data else VStr (opt_str_or (tr_error result) "tool request failed") in
  let '(text, truncated) := normalize_text payload 12000 in
  let source_uri := _first_uri data in
  try! canonical_uri := canonicalize_uri source_uri in
  let published_at := published data in
  Ret (EvidenceItem_new {|
  ev_evidence_id := evidence_id; ev_run_id := run_id; ev_task_id := task_id;
  ev_query_id := query_id; ev_tool_name := Some tool_name;
  ev_source_uri := source_uri; ev_canonical_uri := canonical_uri;
  ev_source_title := Some (default tool_name (named_text ["title"; "source_title"; "name"] data));
  ev_retrieved_at := now; ev_published_at := published_at; ev_content_type := "text/plain";
  ev_raw_artifact_uri := named_text ["raw_artifact_uri"; "artifact_uri"; "object_uri"] data;
  ev_normalized_text := text; ev_summary := text; ev_content_hash := env_sha256_hex env text;
  ev_trust_class := if ok then RetrievedExternal else ToolErrorTrust;
  ev_freshness_status := if ok then freshness_for_result published_at query now else FreshUnknown;
  ev_source_quality := if ok then source_quality_for_uri source_uri else Unverifiable;
  ev_injection_scan_status := scan_for_prompt_injection text;
  ev_truncated := truncated;
  ev_tool_status := if ok then Success else ToolFailed;
  ev_eligible_for_claim_support := ok;
  ev_metadata := [("query", VStr query)]
|}).

Definition retrieved_evidence (evidence_id tool_name : string) (raw_value content : pyval)
  (truncated : bool) (run_id task_id : string) (query_id : option string) (query : string)
  (now : Z) : outcome EvidenceItem :=
  let '(normalized, normalized_truncated) := normalize_text content 12000 in
  let source_uri := _first_uri raw_value in
  try! canonical_uri := canonicalize_uri source_uri in
  let published_at := published raw_value in
  Ret (EvidenceItem_new {|
  ev_evidence_id := evidence_id; ev_run_id := run_id; ev_task_id := task_id;
  ev_query_id := query_id; ev_tool_name := Some tool_name;
  ev_source_uri := source_uri; ev_canonical_uri := canonical_uri;
  ev_source_title := Some (default tool_name (named_text ["title"; "source_title"; "name"] raw_value));
  ev_retrieved_at := now; ev_published_at := published_at;
  ev_content_type := default "text/plain"
    (named_text ["content_type"; "mime_type"; "media_type"] raw_value);
  ev_raw_artifact_uri := named_text ["raw_artifact_uri"; "artifact_uri"; "object_uri"] raw_value;
  ev_normalized_text := normalized; ev_summary := normalized;
  ev_content_hash := env_sha256_hex env normalized;
  ev_trust_class := RetrievedExternal;
  ev_freshness_status := freshness_for_result published_at query now;
  ev_source_quality := source_quality_for_uri source_uri;
  ev_injection_scan_status := scan_for_prompt_injection normalized;
  ev_truncated := truncated || normalized_truncated;
  ev_tool_status := Success;
  ev_eligible_for_claim_support := true;
  ev_metadata := if nonempty query then [("query", VStr query)] else []
|}).

Definition evidence_key (e : EvidenceItem) : string * string :=
  (opt_str_or (ev_canonical_uri e) "", ev_content_hash e).

(** The loop of [deduplicate_evidence]. *)
Fixpoint dedup_loop (seen : list (string * string)) (items : list EvidenceItem) :
  list EvidenceItem :=
  match items with
  | [] => []
  | e :: items' =>
    if bool_decide (evidence_key e ∈ seen) then dedup_loop seen items'
    else e :: dedup_loop (evidence_key e :: seen) items'
  end.

Definition deduplicate_evidence (items : list EvidenceItem) : list EvidenceItem :=
  dedup_loop [] items.

(** ** Properties *)

Lemma user_evidence_ok run_id task_id now k item :
  ev_eligible_for_claim_support (user_evidence run_id task_id now k item) = false ∧
  ev_trust_class (user_evidence run_id task_id now k item) = UserSupplied ∧
  EvidenceItem_ok (user_evidence run_id task_id now k item).
Proof.
  unfold user_evidence, EvidenceItem_new.
  destruct (normalize_text _ _) as [text cut].
  match goal with |- context [enforce_non_supporting_failures ?sha ?e] =>
  destruct (enforce_eligible sha e) as (H1 & H2 & _); split; [|split];
  [rewrite H1; done|rewrite H2; done|apply enforce_ok] end.
Qed.

Lemma evidence_from_metadata_ok metadata run_id task_id now :
  Forall EvidenceItem_ok (evidence_from_metadata metadata run_id task_id now).
Proof.
  unfold evidence_from_metadata. destruct (dict_get _ _) as [[]|]; try constructor.
  apply Forall_lookup. intros k e. rewrite list_lookup_imap. intros (x & _ & ->)%fmap_Some.
  apply user_evidence_ok.
Qed.

Lemma tool_evidence_fields result i r t q tool query now e :
  evidence_from_tool_result result i r t q tool query now = Ret e →
  ev_eligible_for_claim_support e = tr_ok result ∧ EvidenceItem_ok e ∧
  ev_run_id e = r ∧ ev_task_id e = t ∧ ev_evidence_id e = i ∧
  ev_tool_status e = (if tr_ok result then Success else ToolFailed).
Proof.
  unfold evidence_from_tool_result, EvidenceItem_new. cbv zeta.
  destruct (normalize_text _ _) as [text cut]. intros (uri&_&H)%obind_Ret_inv. revert H.
  match goal with |- Ret (enforce_non_supporting_failures ?sha ?e) = _ → _ =>
  pose proof (enforce_ok sha e) as Hok;
  destruct (enforce_eligible sha e) as (H1 & _ & H3 & _ & H4 & H5 & H6 & _) end.
  intros [= <-]. rewrite H1, H3, H4, H5, H6. cbn. by destruct (tr_ok result).
Qed.

(** The only thing a record can fail on is the port of the source's URI. *)
Lemma tool_evidence_raises result i r t q tool query now exc :
  evidence_from_tool_result result i r t q tool query now = Raise exc →
  canonicalize_uri (_first_uri (tr_data result)) = Raise exc.
Proof.
  unfold evidence_from_tool_result. cbv zeta. destruct (normalize_text _ _) as [text cut].
  destruct (canonicalize_uri _); simpl; congruence.
Qed.

Lemma canonicalize_raises uri exc :
  canonicalize_uri uri = Raise exc →
  ∃ u parsed, uri = Some u ∧ env_urlsplit env (strip u) = Some parsed ∧ sp_port parsed = Raise exc.
Proof.
  unfold canonicalize_uri. destruct uri as [[|c u]|]; [done| |done].
  destruct (env_urlsplit _ _) as [parsed|] eqn:E; [|done]. destruct (_ && _); [|done].
  destruct (sp_port parsed) eqn:Ep; [done|]. intros [= ->]. eauto.
Qed.

(** C35. Trust comes from the server.  A record built from the caller's
metadata never supports a claim, whatever labels it carries; a record
built from a tool result does exactly when the tool call succeeded, and
names the run and task it was gathered for; there is no such record only
when the source's URI has an unreadable port. *)
Theorem evidence_trust metadata run_id task_id now result i q tool query :
  Forall (λ e, ev_eligible_for_claim_support e = false ∧ ev_trust_class e = UserSupplied)
  (evidence_from_metadata metadata run_id task_id now) ∧
  match evidence_from_tool_result result i run_id task_id q tool query now with
  | Ret e => ev_eligible_for_claim_support e = tr_ok result ∧ EvidenceItem_ok e ∧
      ev_run_id e = run_id ∧ ev_task_id e = task_id
  | Raise exc => ∃ u parsed, _first_uri (tr_data result) = Some u ∧
      env_urlsplit env (strip u) = Some parsed ∧ sp_port parsed = Raise exc
  end.
Proof.
  split.
  - unfold evidence_from_metadata. destruct (dict_get _ _) as [[]|]; try constructor.
  apply Forall_lookup. intros k e. rewrite list_lookup_imap. intros (x & _ & ->)%fmap_Some.
  destruct (user_evidence_ok run_id task_id now (S k) x) as (? & ? & _). done.
  - destruct (evidence_from_tool_result result i run_id task_id q tool query now) as [e|exc] eqn:E.
    + apply tool_evidence_fields in E as (? & ? & ? & ? & _). done.
    + by apply canonicalize_raises, (tool_evidence_raises _ _ _ _ _ _ _ _ _ E).
Qed.

(** A tool result whose first URI has an unreadable port yields no record: the
    exception of [port] reaches the caller of [evidence_from_tool_result]. *)
Theorem unreadable_port_raises result i r t q tool query now u parsed exc :
  _first_uri (tr_data result) = Some u → nonempty u = true →
  env_urlsplit env (strip u) = Some parsed →
  nonempty (sp_scheme parsed) = true → nonempty (sp_netloc parsed) = true →
  sp_port parsed = Raise exc →
  evidence_from_tool_result result i r t q tool query now = Raise exc.
Proof.
  intros Hu Hne Hs Hsc Hn Hp. unfold evidence_from_tool_result. cbv zeta.
  destruct (normalize_text _ _) as [text cut]. rewrite Hu. unfold canonicalize_uri.
  destruct u as [|c u]; [done|]. by rewrite Hs, Hsc, Hn, Hp.
Qed.

(** The compatibility helper builds the record of a successful tool call: with
    the result's value as its raw value and its content, and a query, the two
    agree but for the content type, which only the helper reads. *)
Theorem retrieved_evidence_agrees result i r t q tool query now :
  tr_ok result = true → nonempty query = true →
  named_text ["content_type"; "mime_type"; "media_type"] (tr_data result) = None →
  retrieved_evidence i tool (tr_data result) (tr_data result) false r t q query now =
    evidence_from_tool_result result i r t q tool query now.
Proof.
  intros Hok Hq Hct. unfold retrieved_evidence, evidence_from_tool_result. cbv zeta. rewrite Hok, Hq, Hct.
  by destruct (normalize_text _ _) as [text cut].
Qed.

(** ** Canonical URIs *)

#[local] Instance pair_le_trans : Transitive pair_le.
Proof.
  intros [a1 a2] [b1 b2] [c1 c2]. unfold pair_le. simpl.
  destruct (String.eqb_spec a1 b1), (String.eqb_spec b1 c1), (String.eqb_spec a1 c1); subst; try done; intros.
  - by etrans.
  - exfalso. match goal with H : _ ≠ _ |- _ => apply H end. by apply (anti_symm String.le).
  - by etrans.
Qed.
#[local] Instance pair_le_antisymm : AntiSymm (=) pair_le.
Proof.
  intros [a1 a2] [b1 b2]. unfold pair_le. simpl. rewrite (String.eqb_sym b1 a1).
  destruct (String.eqb_spec a1 b1) as [->|Hne]; intros H1 H2.
  - f_equal. by apply (anti_symm String.le).
  - destruct Hne. by apply (anti_symm String.le).
Qed.
#[local] Instance pair_le_total : Total pair_le.
Proof.
  intros [a1 a2] [b1 b2]. unfold pair_le. simpl. rewrite (String.eqb_sym b1 a1).
  destruct (String.eqb a1 b1); apply (total String.le).
Qed.

(** Tracking parameters, the order of the others, the case of the host, the
    default port, credentials and the fragment do not distinguish sources: two
    URIs that differ in nothing else have one canonical form, so
    [deduplicate_evidence] takes equal texts found at both for one record. *)
Theorem canonical_uri_ignores u v p q port :
  env_urlsplit env (strip u) = Some p → env_urlsplit env (strip v) = Some q →
  nonempty u = true → nonempty v = true →
  nonempty (sp_scheme p) = true → nonempty (sp_netloc p) = true → nonempty (sp_netloc q) = true →
  sp_scheme q = sp_scheme p → sp_path q = sp_path p →
  lower (default "" (sp_hostname q)) = lower (default "" (sp_hostname p)) →
  sp_port p = Ret None →
  sp_port q = Ret port → match port with Some n => default_port (sp_scheme p) n = true | None => True end →
  filter untracked (env_parse_qsl env (sp_query q)) ≡ₚ filter untracked (env_parse_qsl env (sp_query p)) →
  canonicalize_uri (Some v) = canonicalize_uri (Some u).
Proof.
  intros Hu Hv Hnu Hnv Hs Hnp Hnq Hsq Hpath Hhost Hp Hq Hport Hperm. unfold canonicalize_uri.
  destruct u as [|c u]; [done|]. destruct v as [|d v]; [done|]. rewrite Hu, Hv, Hsq, Hs, Hnp, Hnq, Hp, Hq.
  simpl. do 2 f_equal. rewrite Hpath. f_equal.
  - unfold canonical_host. rewrite Hhost. destruct port as [n|]; [|done].
    by rewrite Hport, orb_true_r.
  - unfold canonical_query. f_equal.
    apply (Sorted_unique pair_le); [apply Sorted_merge_sort, _..|]. by rewrite !merge_sort_Permutation.
Qed.

Lemma dedup_loop_spec seen items :
  (∀ e, e ∈ dedup_loop seen items → evidence_key e ∉ seen) ∧
  NoDup (evidence_key <$> dedup_loop seen items) ∧
  dedup_loop seen items `sublist_of` items ∧
  (∀ e, e ∈ items → evidence_key e ∈ seen ∨
  evidence_key e ∈ evidence_key <$> dedup_loop seen items).
Proof.
  revert seen. induction items as [|x items IH]; intros seen; cbn [dedup_loop].
  - split; [by intros e ?%not_elem_of_nil|]. split; [apply NoDup_nil_2|].
  split; [apply sublist_nil_l|]. by intros e ?%not_elem_of_nil.
  - case_bool_decide as Hin.
  + destruct (IH seen) as (H1 & H2 & H3 & H4). split; [done|]. split; [done|].
    split; [by apply sublist_cons|]. intros e [->|He]%elem_of_cons; auto.
  + destruct (IH (evidence_key x :: seen)) as (H1 & H2 & H3 & H4).
    split; [|split; [|split]].
    * intros e [->|He]%elem_of_cons; [done|]. intros Hs. apply (H1 e He). by right.
    * rewrite fmap_cons. apply NoDup_cons. split; [|done].
      intros (e & He & Hin')%list_elem_of_fmap. apply (H1 e Hin'). rewrite <-He. by left.
    * by apply sublist_skip.
    * intros e [->|He]%elem_of_cons; [right; rewrite fmap_cons; by left|].
      destruct (H4 e He) as [[->|?]%elem_of_cons|?]; [|by left|]; right; rewrite fmap_cons;
        [by left|by right].
Qed.

(** Deduplication keeps exactly one record per canonical URI and content
hash, the first, in the original order. *)
Theorem deduplicate_spec items :
  NoDup (evidence_key <$> deduplicate_evidence items) ∧
  deduplicate_evidence items `sublist_of` items ∧
  (∀ e, e ∈ items → evidence_key e ∈ evidence_key <$> deduplicate_evidence items).
Proof.
  destruct (dedup_loop_spec [] items) as (_ & H2 & H3 & H4). split; [done|]. split; [done|].
  intros e He. destruct (H4 e He) as [?%not_elem_of_nil|?]; done.
Qed.
End evidence.
