(* ===== verification/Settings.v ===== *)
(** * Settings

    The fields of [app/settings.py] the modelled components read, the
    cross-field checks on them, and the role catalog.  Durations keep the unit
    of their field (seconds). *)

From S2P Require Import Prelude PyData.

Inductive LlmBackend : Type := Echo | Ollama.
#[export] Instance LlmBackend_eq_dec : EqDecision LlmBackend.
Proof. solve_decision. Defined.

Definition backend_name (b : LlmBackend) : string :=
  match b with Echo => "echo" | Ollama => "ollama" end.

Record Settings : Type := MkSettings {
  llm_backend : LlmBackend;
  model_planner : string; model_simple : string; model_general : string;
  model_search : string; model_reasoning : string; model_fast_reasoning : string;
  model_heavy : string; model_synthesis : string; model_writer : string;
  model_classifier : string; model_vision : string; model_fallback : string;
  embedding_model : string;
  mcp_enabled : bool;
  mcp_session_enabled : bool;
  mcp_initialize_on_startup : bool;
  mcp_protocol_version : string;
  mcp_client_name : string;
  inventory_cache_ttl_seconds : Z;
  inventory_stale_if_error_seconds : Z;
  agent_max_research_rounds : Z;
  agent_max_replans : Z;
  agent_max_context_chars : Z;
  research_max_queries_per_task : Z;
  research_max_evidence_chars_per_query : Z;
  execution_max_duration_seconds : Z;
  execution_max_model_calls : Z;
  execution_max_tool_calls : Z;
  execution_max_verifier_rounds : Z;
  final_verification_enabled : bool;
  final_max_revision_rounds : Z;
  run_lease_ttl_seconds : Z;
  run_lease_heartbeat_seconds : Z;
  resume_token_ttl_seconds : Z;
  run_checkpoint_namespace : string;
  run_state_schema_version : Z;
  run_request_hash_version : Z;
  resume_token_active_key_id : string;
  resume_token_keys_json : string;
  resume_token_secret : string;
  api_key : string;
  state_backend : string;
  run_repository_backend : string;
  checkpoint_backend : string;
  artifact_backend : string;
  ollama_model : string;
  ollama_temperature : string;
  ollama_num_predict : Z;
  ollama_num_ctx : Z;
  structured_output_reserve_tokens : Z;
  ollama_think : bool;
  ollama_keep_alive : string
}.

#[export] Instance eta_Settings : Eta Settings := λ s,
  MkSettings (llm_backend s) (model_planner s) (model_simple s) (model_general s) (model_search s)
    (model_reasoning s) (model_fast_reasoning s) (model_heavy s) (model_synthesis s)
    (model_writer s) (model_classifier s) (model_vision s) (model_fallback s) (embedding_model s)
    (mcp_enabled s) (mcp_session_enabled s) (mcp_initialize_on_startup s) (mcp_protocol_version s)
    (mcp_client_name s) (inventory_cache_ttl_seconds s) (inventory_stale_if_error_seconds s)
    (agent_max_research_rounds s) (agent_max_replans s) (agent_max_context_chars s)
    (research_max_queries_per_task s) (research_max_evidence_chars_per_query s)
    (execution_max_duration_seconds s) (execution_max_model_calls s) (execution_max_tool_calls s)
    (execution_max_verifier_rounds s) (final_verification_enabled s) (final_max_revision_rounds s)
    (run_lease_ttl_seconds s) (run_lease_heartbeat_seconds s) (resume_token_ttl_seconds s)
    (run_checkpoint_namespace s) (run_state_schema_version s) (run_request_hash_version s)
    (resume_token_active_key_id s) (resume_token_keys_json s) (resume_token_secret s) (api_key s)
    (state_backend s) (run_repository_backend s) (checkpoint_backend s) (artifact_backend s)
    (ollama_model s) (ollama_temperature s) (ollama_num_predict s) (ollama_num_ctx s)
    (structured_output_reserve_tokens s) (ollama_think s) (ollama_keep_alive s).

Definition between (lo hi v : Z) : bool := (lo <=? v) && (v <=? hi).

(** The field bounds and the lease check of [validate_runtime_settings]. *)
Definition Settings_valid (s : Settings) : bool :=
  between 1 3600 (inventory_cache_ttl_seconds s)
  && between 0 86400 (inventory_stale_if_error_seconds s)
  && between 0 5 (agent_max_research_rounds s)
  && between 0 3 (agent_max_replans s)
  && between 2000 100000 (agent_max_context_chars s)
  && between 1 8 (research_max_queries_per_task s)
  && between 500 50000 (research_max_evidence_chars_per_query s)
  && between 5 1800 (execution_max_duration_seconds s)
  && between 1 50 (execution_max_model_calls s)
  && between 0 100 (execution_max_tool_calls s)
  && between 1 10 (execution_max_verifier_rounds s)
  && between 0 3 (final_max_revision_rounds s)
  && between 5 3600 (run_lease_ttl_seconds s)
  && between 1 1200 (run_lease_heartbeat_seconds s)
  && between 60 604800 (resume_token_ttl_seconds s)
  && between 1 1000 (run_state_schema_version s)
  && between 1 1000 (run_request_hash_version s)
  && between 1 100 (slen (resume_token_active_key_id s))
  && between 1 100 (slen (run_checkpoint_namespace s))
  && between (-1) 131072 (ollama_num_predict s)
  && between 2048 262144 (ollama_num_ctx s)
  && between 256 32768 (structured_output_reserve_tokens s)
  && (run_lease_heartbeat_seconds s <? run_lease_ttl_seconds s).

Definition model_role_catalog (s : Settings) : list (string * string) :=
  [("planner", model_planner s); ("simple", model_simple s); ("general", model_general s);
   ("search", model_search s); ("reasoning", model_reasoning s);
   ("fast_reasoning", model_fast_reasoning s); ("heavy", model_heavy s);
   ("synthesis", model_synthesis s); ("writer", model_writer s);
   ("classifier", model_classifier s); ("vision", model_vision s);
   ("fallback", model_fallback s); ("embedding", embedding_model s)].

Definition model_for_key (s : Settings) (key : option string) : string :=
  let role := lower (strip (opt_str_or key "general")) in
  default (model_general s) (dict_get role (model_role_catalog s)).

(** The defaults of the fields, but for the backend and MCP. *)
Definition settings_with (backend : LlmBackend) (mcp : bool) : Settings := {|
  llm_backend := backend;
  model_planner := "qwen3.5:4b"; model_simple := "qwen3.5:2b"; model_general := "qwen3.5:4b";
  model_search := "qwen3.5:9b"; model_reasoning := "deepseek-r1:8b";
  model_fast_reasoning := "phi4-mini-reasoning:latest";
  model_heavy := "gemma4:26b-a4b-it-qat"; model_synthesis := "gemma4:12b-it-qat";
  model_writer := "gemma4:e4b-it-qat"; model_classifier := "gemma4:e2b-it-qat";
  model_vision := "qwen3-vl:4b"; model_fallback := "granite3.3:8b";
  embedding_model := "qwen3-embedding:0.6b";
  mcp_enabled := mcp;
  mcp_session_enabled := true; mcp_initialize_on_startup := true;
  mcp_protocol_version := "2025-06-18"; mcp_client_name := "langchain-langraph-app";
  inventory_cache_ttl_seconds := 60; inventory_stale_if_error_seconds := 300;
  agent_max_research_rounds := 2; agent_max_replans := 1; agent_max_context_chars := 16000;
  research_max_queries_per_task := 3; research_max_evidence_chars_per_query := 6000;
  execution_max_duration_seconds := 180; execution_max_model_calls := 8;
  execution_max_tool_calls := 10; execution_max_verifier_rounds := 3;
  final_verification_enabled := true; final_max_revision_rounds := 1;
  run_lease_ttl_seconds := 30; run_lease_heartbeat_seconds := 10;
  resume_token_ttl_seconds := 3600; run_checkpoint_namespace := "execution-state-v1";
  run_state_schema_version := 1; run_request_hash_version := 1;
  resume_token_active_key_id := "primary"; resume_token_keys_json := "";
  resume_token_secret := ""; api_key := "";
  state_backend := "memory"; run_repository_backend := "memory";
  checkpoint_backend := "memory"; artifact_backend := "disabled";
  ollama_model := "qwen3.5:4b"; ollama_temperature := "0.2"; ollama_num_predict := 2048;
  ollama_num_ctx := 8192; structured_output_reserve_tokens := 1536; ollama_think := false;
  ollama_keep_alive := "10m"
|}.

Definition default_settings : Settings := settings_with Echo false.
(** The defaults with both backends switched on. *)
Definition sample_settings : Settings := settings_with Ollama true.

Example default_settings_valid : Settings_valid default_settings = true.
Proof. reflexivity. Qed.
