(* ===== verification/ChatSchema.v ===== *)
(** * Chat requests and responses

    [app/schemas/chat.py]: the public request with its validators and the
    response with the identity it fills in.  A request as it arrives and a
    validated request have the same fields. *)

From S2P Require Import Prelude.
From S2P Require Import PyData.
From S2P Require Import PyNum.

(** ** Requests *)

Record ChatRequest : Type := MkChatRequest {
  cr_message : string;
  cr_thread_id : option string;
  cr_conversation_id : option string;
  cr_run_id : option string;
  cr_resume : bool;
  cr_resume_token : option string;
  cr_system_prompt : option string;
  cr_metadata : pydict
}.

#[export] Instance eta_ChatRequest : Eta ChatRequest := λ r,
  MkChatRequest (cr_message r) (cr_thread_id r) (cr_conversation_id r) (cr_run_id r)
    (cr_resume r) (cr_resume_token r) (cr_system_prompt r) (cr_metadata r).

(** [pydantic.ValidationError] is a [ValueError]. *)
Definition validation_error (m : string) : exn := PyExn ValueError m.

Definition normalize_message (value : string) : outcome string :=
  let v := strip value in
  if nonempty v then Ret v else Raise (validation_error "message must not be blank").

(** [stripped or None]. *)
Definition normalize_optional_text (value : option string) : option string :=
  match value with
  | Some s => let t := strip s in if nonempty t then Some t else None
  | None => None
  end.

Definition max_length (n : Z) (value : option string) : outcome unit :=
  guard_py (match value with Some s => slen s <=? n | None => true end)
    (validation_error "String should have fewer characters").

Definition validate_run_id (value : option string) : outcome (option string) :=
  match value with
  | None => Ret None
  | Some s =>
      match uuid_int s with
      | Some z => Ret (Some (uuid_str z))
      | None => Raise (validation_error "run_id must be a valid UUID")
      end
  end.

Definition validate_identity_contract (r : ChatRequest) : outcome ChatRequest :=
  if opt_truthy (cr_thread_id r) && opt_truthy (cr_conversation_id r)
     && negb (bool_decide (cr_thread_id r = cr_conversation_id r)) then
    Raise (validation_error "thread_id and conversation_id must match when both are provided")
  else if cr_resume r && negb (opt_truthy (cr_resume_token r)) then
    Raise (validation_error "resume_token is required when resume=true")
  else if opt_truthy (cr_resume_token r) && negb (cr_resume r) then
    Raise (validation_error "resume must be true when resume_token is provided")
  else Ret r.

(** [ChatRequest(...)]. *)
Definition validate_request (raw : ChatRequest) : outcome ChatRequest :=
  try! _ := guard_py ((1 <=? slen (cr_message raw)) && (slen (cr_message raw) <=? 20000))
    (validation_error "message length") in
  try! message := normalize_message (cr_message raw) in
  let thread_id := normalize_optional_text (cr_thread_id raw) in
  try! _ := max_length 200 thread_id in
  let conversation_id := normalize_optional_text (cr_conversation_id raw) in
  try! _ := max_length 200 conversation_id in
  try! run_id := validate_run_id (normalize_optional_text (cr_run_id raw)) in
  let resume_token := normalize_optional_text (cr_resume_token raw) in
  try! _ := max_length 4096 resume_token in
  validate_identity_contract {|
    cr_message := message; cr_thread_id := thread_id; cr_conversation_id := conversation_id;
    cr_run_id := run_id; cr_resume := cr_resume raw; cr_resume_token := resume_token;
    cr_system_prompt := normalize_optional_text (cr_system_prompt raw);
    cr_metadata := cr_metadata raw |}.

(** ** Responses *)

Record ChatResponse : Type := MkChatResponse {
  resp_thread_id : string;
  resp_conversation_id : option string;
  resp_run_id : option string;
  resp_execution_thread_id : option string;
  resp_response : string;
  resp_backend : string;
  resp_model : option string;
  resp_metadata : pydict
}.

#[export] Instance eta_ChatResponse : Eta ChatResponse := λ r,
  MkChatResponse (resp_thread_id r) (resp_conversation_id r) (resp_run_id r)
    (resp_execution_thread_id r) (resp_response r) (resp_backend r) (resp_model r) (resp_metadata r).

(** [fresh] is what [str(uuid4())] returns. *)
Definition fill_compatibility_identity (fresh : string) (r : ChatResponse) : ChatResponse :=
  let conversation_id := opt_str_or (resp_conversation_id r) (resp_thread_id r) in
  let run_id := opt_str_or (resp_run_id r) fresh in
  let thread := opt_str_or (resp_execution_thread_id r) (conversation_id +:+ ":" +:+ run_id) in
  MkChatResponse (resp_thread_id r) (Some conversation_id) (Some run_id) (Some thread)
    (resp_response r) (resp_backend r) (resp_model r) (resp_metadata r).

Definition from_result (fresh_conversation fresh_run fresh : string)
    (thread_id conversation_id run_id execution_thread_id : option string)
    (response backend : string) (model : option string) (metadata : pydict) : ChatResponse :=
  let resolved_conversation_id :=
    opt_str_or conversation_id (opt_str_or thread_id fresh_conversation) in
  let resolved_run_id := opt_str_or run_id fresh_run in
  let resolved_thread := opt_str_or execution_thread_id (resolved_conversation_id +:+ ":" +:+ resolved_run_id) in
  fill_compatibility_identity fresh
    (MkChatResponse resolved_conversation_id (Some resolved_conversation_id) (Some resolved_run_id)
       (Some resolved_thread) response backend model metadata).

(** [response.model_dump(mode='json')]; the metadata holds JSON values only. *)
Definition opt_value (o : option string) : pyval := match o with Some s => VStr s | None => VNone end.

Definition response_dump (r : ChatResponse) : pydict := [
  ("thread_id", VStr (resp_thread_id r));
  ("conversation_id", opt_value (resp_conversation_id r));
  ("run_id", opt_value (resp_run_id r));
  ("execution_thread_id", opt_value (resp_execution_thread_id r));
  ("response", VStr (resp_response r));
  ("backend", VStr (resp_backend r));
  ("model", opt_value (resp_model r));
  ("metadata", VDict (resp_metadata r))].

Definition str_field (v : option pyval) : outcome string :=
  match v with Some (VStr s) => Ret s | _ => Raise (validation_error "Input should be a valid string") end.
Definition opt_str_field (v : option pyval) : outcome (option string) :=
  match v with
  | None | Some VNone => Ret None
  | Some (VStr s) => Ret (Some s)
  | Some _ => Raise (validation_error "Input should be a valid string")
  end.
Definition dict_field (v : option pyval) : outcome pydict :=
  match v with
  | None => Ret []
  | Some (VDict d) => Ret d
  | Some _ => Raise (validation_error "Input should be a valid dictionary")
  end.

(** [ChatResponse.model_validate(d)]. *)
Definition response_validate (fresh : string) (d : pydict) : outcome ChatResponse :=
  try! thread_id := str_field (dict_get "thread_id" d) in
  try! conversation_id := opt_str_field (dict_get "conversation_id" d) in
  try! run_id := opt_str_field (dict_get "run_id" d) in
  try! execution_thread_id := opt_str_field (dict_get "execution_thread_id" d) in
  try! response := str_field (dict_get "response" d) in
  try! backend := str_field (dict_get "backend" d) in
  try! model := opt_str_field (dict_get "model" d) in
  try! metadata := dict_field (dict_get "metadata" d) in
  Ret (fill_compatibility_identity fresh
    (MkChatResponse thread_id conversation_id run_id execution_thread_id response backend model metadata)).

(** A response every identity field of which is filled in. *)
Definition response_filled (r : ChatResponse) : Prop :=
  ∃ c u t, resp_conversation_id r = Some c ∧ nonempty c = true ∧
    resp_run_id r = Some u ∧ nonempty u = true ∧
    resp_execution_thread_id r = Some t ∧ nonempty t = true.

Lemma opt_str_or_nonempty o s : nonempty s = true → nonempty (opt_str_or o s) = true.
Proof. intros Hs. destruct o as [[|c t]|]; done. Qed.

Lemma opt_str_or_Some s t : nonempty s = true → opt_str_or (Some s) t = s.
Proof. by destruct s. Qed.

Lemma fill_filled fresh r : response_filled r → fill_compatibility_identity fresh r = r.
Proof.
  destruct r as [th c u t resp b m md]. intros (c'&u'&t'&Hc&Hc'&Hu&Hu'&Ht&Ht'). simpl in *.
  subst. unfold fill_compatibility_identity. cbn -[opt_str_or].
  by rewrite !opt_str_or_Some by done.
Qed.

(** Validating the dump of a filled response gives it back. *)
Lemma response_validate_dump fresh r :
  response_filled r → response_validate fresh (response_dump r) = Ret r.
Proof.
  intros Hf. rewrite <-(fill_filled fresh r Hf) at 2.
  destruct Hf as (c&u&t&Hc&_&Hu&_&Ht&_).
  destruct r as [th c' u' t' resp b [m|] md]; simpl in *; subst; reflexivity.
Qed.
