(* ===== verification/RequestExamples.v ===== *)
(** * Request examples of the API documentation

    The loaders of [app/schemas/chat.py] and [app/api/openapi.py]: an example is
    read from its directory, validated as a request, cached, and put into the
    OpenAPI schema the first time it is asked for.  [examples_confined]: no file
    name leads out of the directory; [example_is_a_request];
    [examples_loaded_once].  Every dictionary the code hands out is a deep copy, so
    dictionaries are values here; the schema, which FastAPI caches and this code
    changes in place, is part of the state. *)

From S2P Require Import Prelude PyData Json PyNum ChatSchema.

Definition CHAT_REQUEST_EXAMPLE_FILENAME : string := "chat.json".
Definition CHAT_STREAM_REQUEST_EXAMPLE_FILENAME : string := "chat-stream.json".

(** What the process holds: the files, the cache of [_load_request_example], the
    schema FastAPI keeps, and the two entries of [example_cache]. *)
Record DocState (F : Type) : Type := MkDoc {
  dc_files : F;
  dc_cache : list (string * option pydict);
  dc_schema : option pyval;
  dc_chat_examples : option (option pydict);
  dc_stream_examples : option (option pydict)
}.
Arguments MkDoc {F} _ _ _ _ _.
Arguments dc_files {F} _.
Arguments dc_cache {F} _.
Arguments dc_schema {F} _.
Arguments dc_chat_examples {F} _.
Arguments dc_stream_examples {F} _.
#[export] Instance eta_DocState F : Eta (DocState F) := λ s,
  MkDoc (dc_files s) (dc_cache s) (dc_schema s) (dc_chat_examples s) (dc_stream_examples s).

(** [except (OSError, ValueError, json.JSONDecodeError, ValidationError)]. *)
Definition unavailable_example (e : exn) : bool :=
  match e with
  | PyExn (OSError | TimeoutError | PermissionError | ValueError | JSONDecodeError | UnicodeError) _ => true
  | _ => false
  end.

(** [Path(s).name] of a POSIX path: its last part that is not a dot. *)
Definition path_name (s : string) : string :=
  List.last (filter (λ p, nonempty p = true ∧ p ≠ ".") (split_on (Ascii.ascii_of_N 47) s)) "".

Section examples.
Context {F : Type} (read_text : string → M F string) (directory : string).
Context (float_repr : string → string) (lax_bool : pyval → option bool).

Abbreviation DM := (M (DocState F)) (only parsing).

(** [ChatRequest.model_validate(d)]; [lax_bool] is what pydantic takes for a
    boolean. *)
Definition request_validate (d : pydict) : outcome ChatRequest :=
  try! message := str_field (dict_get "message" d) in
  try! thread_id := opt_str_field (dict_get "thread_id" d) in
  try! conversation_id := opt_str_field (dict_get "conversation_id" d) in
  try! run_id := opt_str_field (dict_get "run_id" d) in
  try! resume := match dict_get "resume" d with
    | None => Ret false
    | Some v => match lax_bool v with
                | Some b => Ret b
                | None => Raise (validation_error "Input should be a valid boolean")
                end
    end in
  try! resume_token := opt_str_field (dict_get "resume_token" d) in
  try! system_prompt := opt_str_field (dict_get "system_prompt" d) in
  try! metadata := dict_field (dict_get "metadata" d) in
  validate_request (MkChatRequest message thread_id conversation_id run_id resume resume_token
    system_prompt metadata).

Definition _validate_request_example (value : pydict) : outcome pydict :=
  try! _ := request_validate value in Ret value.

Definition parse_example (text : string) : outcome pydict :=
  match loads float_repr text with
  | Some (VDict raw) => _validate_request_example raw
  | Some _ => Raise (PyExn ValueError "request example must be a JSON object")
  | None => Raise (PyExn JSONDecodeError "invalid JSON")
  end.

Definition _read_request_example (filename : string) : DM (option pydict) :=
  let safe_name := path_name filename in
  if negb (String.eqb safe_name filename) || negb (endswith ".json" safe_name) then ret None
  else
    try_except
      (let! text := zoom dc_files (λ f s, s <| dc_files := f |>)
         (read_text (directory +:+ "/" +:+ safe_name)) in
       let! value := of_outcome (parse_example text) in
       ret (Some value))
      (λ e, if unavailable_example e then Some (ret None) else None).

(** [lru_cache]: an exception is not cached. *)
Definition _load_request_example (filename : string) : DM (option pydict) :=
  let! cached := gets (λ s, dict_get filename (dc_cache s)) in
  match cached with
  | Some value => ret value
  | None =>
      let! value := _read_request_example filename in
      modify (λ s, s <| dc_cache := dict_set filename value (dc_cache s) |>) ;;;
      ret value
  end.

Definition _build_openapi_examples (value : pydict) (summary description : string) : outcome pydict :=
  try! validated := _validate_request_example value in
  Ret [("default", VDict [("summary", VStr summary); ("description", VStr description);
    ("value", VDict validated)])].

Definition load_chat_openapi_examples (filename summary description : string) : DM (option pydict) :=
  let! value := _load_request_example filename in
  match value with
  | None => ret None
  | Some value => let! e := of_outcome (_build_openapi_examples value summary description) in ret (Some e)
  end.

Definition load_chat_request_example (filename : string) : DM (option pydict) :=
  _read_request_example filename.

Definition load_request_example (filename : string) : DM (option pydict) :=
  load_chat_request_example filename.

(** A mapping, a file name or nothing. *)
Inductive example_source : Type := Mapping (value : pydict) | Filename (name : string) | NoExample.

Definition build_examples_from (dflt : string) (example : example_source) (summary description : string) :
    DM (option pydict) :=
  match example with
  | Mapping value => let! e := of_outcome (_build_openapi_examples value summary description) in ret (Some e)
  | Filename name => load_chat_openapi_examples (str_or name dflt) summary description
  | NoExample => load_chat_openapi_examples dflt summary description
  end.

Definition build_chat_request_openapi_examples (example : example_source) : DM (option pydict) :=
  build_examples_from CHAT_REQUEST_EXAMPLE_FILENAME example "Complete chat request"
    "Default values for the chat request.".

Definition build_chat_stream_request_openapi_examples (example : example_source) : DM (option pydict) :=
  build_examples_from CHAT_STREAM_REQUEST_EXAMPLE_FILENAME example "Complete streaming chat request"
    "Default values for the streaming chat request.".

(** ** The schema *)

(** A loader and whether it takes a file name ([_accepts_filename] asks its
    signature). *)
Record RequestExampleLoader : Type := MkLoader {
  ld_accepts_filename : bool;
  ld_load : option string → DM (option pydict)
}.

Definition default_loader : RequestExampleLoader :=
  MkLoader true (λ name, load_chat_request_example (default CHAT_REQUEST_EXAMPLE_FILENAME name)).

Definition _load_request_examples (loader : RequestExampleLoader) : DM (option pydict * option pydict) :=
  if ld_accepts_filename loader then
    let! chat := ld_load loader (Some CHAT_REQUEST_EXAMPLE_FILENAME) in
    let! stream := ld_load loader (Some CHAT_STREAM_REQUEST_EXAMPLE_FILENAME) in
    ret (chat, stream)
  else
    let! shared := ld_load loader None in ret (shared, shared).

Definition _build_examples (value : option pydict) (builder : example_source → DM (option pydict)) :
    DM (option pydict) :=
  match value with None => ret None | Some v => builder (Mapping v) end.

(** The chain of [get]s: [None] without a body. *)
Definition json_body_of (path : string) (schema : pyval) : outcome pyval :=
  let empty := VDict [] in
  try! paths := get_key "paths" VNone schema in
  try! item := get_key path empty (or_empty paths) in
  try! operation := get_key "post" empty item in
  try! request_body := get_key "requestBody" VNone operation in
  try! content := get_key "content" empty (or_empty request_body) in
  get_key "application/json" VNone content.

(** The change of the value found under nested keys. *)
Fixpoint update_in (keys : list string) (f : pyval → pyval) (v : pyval) : pyval :=
  match keys with
  | [] => f v
  | k :: ks =>
      match v with
      | VDict d =>
          match dict_get k d with
          | Some x => VDict (dict_set k (update_in ks f x) d)
          | None => v
          end
      | _ => v
      end
  end.

Definition body_path (path : string) : list string :=
  ["paths"; path; "post"; "requestBody"; "content"; "application/json"].

(** [json_body["examples"] = examples]. *)
Definition with_examples (examples : pydict) (body : pyval) : pyval :=
  match body with VDict d => VDict (dict_set "examples" (VDict examples) d) | _ => body end.

Definition set_examples (path : string) (examples : option pydict) (schema : pyval) : outcome pyval :=
  try! body := json_body_of path schema in
  match body, examples with
  | VDict _, Some e => Ret (update_in (body_path path) (with_examples e) schema)
  | _, _ => Ret schema
  end.

(** [app.openapi()] of FastAPI generates the schema once and keeps it. *)
Definition generated_openapi (generated : pyval) : DM pyval :=
  let! kept := gets dc_schema in
  match kept with
  | Some schema => ret schema
  | None => modify (λ s, s <| dc_schema := Some generated |>) ;;; ret generated
  end.

Definition cached_examples (o : option (option pydict)) (key : string) : outcome (option pydict) :=
  match o with Some e => Ret e | None => Raise (PyExn KeyError key) end.

Definition fill_example_cache (loader : RequestExampleLoader) : DM unit :=
  let! present := gets dc_chat_examples in
  match present with
  | Some _ => ret tt
  | None =>
      let! values := _load_request_examples loader in
      let! chat := _build_examples values.1 build_chat_request_openapi_examples in
      modify (λ s, s <| dc_chat_examples := Some chat |>) ;;;
      let! stream := _build_examples values.2 build_chat_stream_request_openapi_examples in
      modify (λ s, s <| dc_stream_examples := Some stream |>)
  end.

(** The schema FastAPI keeps is changed as soon as a path's body is. *)
Definition inject (path : string) (examples : option pydict) (schema : pyval) : DM pyval :=
  let! schema' := of_outcome (set_examples path examples schema) in
  modify (λ s, s <| dc_schema := Some schema' |>) ;;; ret schema'.

Definition openapi_with_chat_request_example (generated : pyval) (loader : option RequestExampleLoader) :
    DM pyval :=
  let! schema := generated_openapi generated in
  fill_example_cache (default default_loader loader) ;;;
  let! chat := gets dc_chat_examples in
  let! chat := of_outcome (cached_examples chat "chat_examples") in
  let! stream := gets dc_stream_examples in
  let! stream := of_outcome (cached_examples stream "stream_examples") in
  let! schema := inject "/api/chat" chat schema in
  inject "/api/chat/stream" stream schema.

(** ** What is read, and what is shown *)

Lemma example_valid value e :
  _validate_request_example value = Ret e → e = value ∧ is_ret (request_validate value) = true.
Proof. unfold _validate_request_example. destruct (request_validate value); [|done]. by intros [= ->]. Qed.

(** An example that a loader returns is a request the API accepts. *)
Theorem example_is_a_request filename s value s' :
  load_chat_request_example filename s = (Ret (Some value), s') →
  is_ret (request_validate value) = true.
Proof.
  unfold load_chat_request_example, _read_request_example. cbv zeta.
  destruct (_ || _); [done|]. unfold try_except. destruct (bind _ _ s) as [[v|e] s1] eqn:E.
  - intros [= -> _]. apply bind_Ret_inv in E as (text&s2&_&E). apply bind_Ret_inv in E as (v&s3&E&Hv).
    injection Hv as -> _. injection E as E _. unfold parse_example in E.
    destruct (loads float_repr text) as [[| | | | | |raw]|]; try done. by apply example_valid in E as [-> ?].
  - by destruct (unavailable_example e).
Qed.

(** The value under nested keys. *)
Fixpoint lookup_in (keys : list string) (v : pyval) : option pyval :=
  match keys with
  | [] => Some v
  | k :: ks => match v with VDict d => dict_get k d ≫= lookup_in ks | _ => None end
  end.

Lemma lookup_update keys f v x : lookup_in keys v = Some x → lookup_in keys (update_in keys f v) = Some (f x).
Proof.
  revert v. induction keys as [|k ks IH]; intros v; simpl; [by intros [= ->]|].
  destruct v as [| | | | | |d]; try done. destruct (dict_get k d) as [y|]; [|done]. simpl. intros H.
  rewrite dict_get_set_eq. simpl. auto.
Qed.

Lemma update_unchanged keys f v x : lookup_in keys v = Some x → f x = x → update_in keys f v = v.
Proof.
  revert v. induction keys as [|k ks IH]; intros v; simpl; [by intros [= ->]|].
  destruct v as [| | | | | |d]; try done. destruct (dict_get k d) as [y|] eqn:E; [|done]. simpl. intros H Hf.
  rewrite IH by done. by rewrite dict_set_same.
Qed.

Lemma get_key_Ret k dflt v x :
  get_key k dflt v = Ret x → ∃ d, v = VDict d ∧ x = default dflt (dict_get k d).
Proof. destruct v as [| | | | | |d]; try done. intros [= <-]. eauto. Qed.

Lemma json_body_lookup path schema b :
  json_body_of path schema = Ret (VDict b) ↔ lookup_in (body_path path) schema = Some (VDict b).
Proof.
  unfold json_body_of, body_path, or_empty. cbv zeta. simpl lookup_in. split.
  - intros H. apply obind_Ret_inv in H as (paths&H1&H). apply obind_Ret_inv in H as (item&H2&H).
    apply obind_Ret_inv in H as (op&H3&H). apply obind_Ret_inv in H as (rb&H4&H). apply obind_Ret_inv in H as (ct&H5&H).
    apply get_key_Ret in H1 as (d1&->&->), H as (d6&->&H6).
    destruct (dict_get "paths" d1) as [v2|]; simpl in *; [|by simplify_eq/=].
    destruct (truthy v2) eqn:T2; [|by simplify_eq/=].
    apply get_key_Ret in H2 as (d2&->&->). simpl. destruct (dict_get path d2) as [v3|]; simpl in *; [|by simplify_eq/=].
    apply get_key_Ret in H3 as (d3&->&->). destruct (dict_get "post" d3) as [v4|]; simpl in *; [|by simplify_eq/=].
    apply get_key_Ret in H4 as (d4&->&->). destruct (dict_get "requestBody" d4) as [v5|]; simpl in *; [|by simplify_eq/=].
    destruct (truthy v5) eqn:T5; [|by simplify_eq/=].
    apply get_key_Ret in H5 as (d5&->&E5). simpl. destruct (dict_get "content" d5) as [v6|]; simpl in *; simplify_eq/=.
    destruct (dict_get "application/json" d6); by simplify_eq/=.
  - destruct schema as [| | | | | |d1]; try done. destruct (dict_get "paths" d1) as [v2|] eqn:E1; [|done]. simpl.
    destruct v2 as [| | | | | |d2]; try done. destruct (dict_get path d2) as [v3|] eqn:E2; [|done]. simpl.
    destruct v3 as [| | | | | |d3]; try done. destruct (dict_get "post" d3) as [v4|] eqn:E3; [|done]. simpl.
    destruct v4 as [| | | | | |d4]; try done. destruct (dict_get "requestBody" d4) as [v5|] eqn:E4; [|done]. simpl.
    destruct v5 as [| | | | | |d5]; try done. destruct (dict_get "content" d5) as [v6|] eqn:E5; [|done]. simpl.
    destruct v6 as [| | | | | |d6]; try done. simpl. destruct d2 as [|x2 d2]; [done|]. destruct d5 as [|x5 d5]; [done|].
    destruct (dict_get "application/json" d6) as [v7|] eqn:E6; [|done]. simpl. intros [= ->].
    rewrite E1. cbn [default id from_option obind truthy get_key]. rewrite E2.
    cbn [default id from_option obind get_key]. rewrite E3. cbn [default id from_option obind get_key]. rewrite E4.
    cbn [default id from_option obind truthy get_key]. rewrite E5. cbn [default id from_option obind get_key].
    by rewrite E6.
Qed.
(** Changing the body of one path leaves that of another. *)
Lemma json_body_other path path' f schema b :
  path ≠ path' → json_body_of path schema = Ret (VDict b) →
  json_body_of path' (update_in (body_path path) f schema) = json_body_of path' schema.
Proof.
  intros Hne H. apply json_body_lookup in H. unfold body_path in *. simpl in H.
  destruct schema as [| | | | | |d1]; try done. destruct (dict_get "paths" d1) as [v2|] eqn:E1; [|done]. simpl in H.
  destruct v2 as [| | | | | |d2]; try done. destruct (dict_get path d2) as [v3|] eqn:E2; [|done].
  cbn [update_in]. rewrite E1, E2. unfold json_body_of, or_empty. cbv zeta.
  cbn [get_key]. rewrite dict_get_set_eq, E1. cbn [default id from_option obind].
  assert (∀ v, truthy (VDict (dict_set path v d2)) = true) as ->
    by (intros v; destruct d2 as [|[k x] d2]; simpl; [done|by destruct (String.eqb _ _)]).
  assert (truthy (VDict d2) = true) as -> by by destruct d2.
  cbn [get_key]. by rewrite dict_get_set_ne.
Qed.

Lemma dict_set_twice {A} k (v : A) d : dict_set k v (dict_set k v d) = dict_set k v d.
Proof. apply dict_set_same, dict_get_set_eq. Qed.

#[local] Arguments update_in : simpl never.

(** The examples of a path are in the schema. *)
Definition settled (path : string) (examples : option pydict) (schema : pyval) : Prop :=
  set_examples path examples schema = Ret schema.

Lemma set_examples_settles path e schema schema' :
  set_examples path e schema = Ret schema' → settled path e schema'.
Proof.
  unfold settled, set_examples. intros H. apply obind_Ret_inv in H as (body&Hb&H).
  destruct body as [| | | | | |b]; [by injection H as <-; rewrite Hb..|].
  destruct e as [e|]; [|by injection H as <-; rewrite Hb]. apply Ret_eq in H as <-.
  pose proof Hb as Hl. apply json_body_lookup, (lookup_update _ (with_examples e)) in Hl.
  change (with_examples e (VDict b)) with (VDict (dict_set "examples" (VDict e) b)) in Hl.
  pose proof Hl as Hb'. apply json_body_lookup in Hb'. rewrite Hb'. simpl obind. f_equal.
  eapply update_unchanged; [exact Hl|]. simpl. by rewrite dict_set_twice.
Qed.

Lemma settled_other path path' e e' schema schema' :
  path ≠ path' → set_examples path e schema = Ret schema' → settled path' e' schema → settled path' e' schema'.
Proof.
  intros Hne H. unfold set_examples in H. apply obind_Ret_inv in H as (body&Hb&H).
  destruct body as [| | | | | |b]; [by injection H as <-..|]. destruct e as [e|]; [|by injection H as <-].
  apply Ret_eq in H as <-. unfold settled, set_examples. rewrite (json_body_other path path' _ _ b) by done.
  intros H. apply obind_Ret_inv in H as (body'&Hb'&H). rewrite Hb'. simpl.
  destruct body' as [| | | | | |b']; [done..|]. destruct e' as [e'|]; [|done]. f_equal.
  apply Ret_eq in H. symmetry in H.
  assert (lookup_in (body_path path') (update_in (body_path path) (with_examples e) schema) = Some (VDict b')) as Hl.
  { apply json_body_lookup. by rewrite (json_body_other path path' _ _ b). }
  eapply update_unchanged; [exact Hl|].
  apply json_body_lookup in Hb'. apply (lookup_update _ (with_examples e')) in Hb' as Hw.
  rewrite <-H, Hb' in Hw. congruence.
Qed.

Lemma inject_settled path e (s : DocState F) schema :
  settled path e schema → dc_schema s = Some schema → inject path e schema s = (Ret schema, s).
Proof.
  unfold settled, inject, bind, of_outcome. intros -> Hs. unfold modify, ret. simpl.
  destruct s; simpl in *. by subst.
Qed.

(** The examples are put into the schema once.  After a call that returned, every
    later call, whatever it is given, returns the same schema and does nothing: it
    reads no file, calls no loader and changes neither the caches nor the schema. *)
Theorem examples_loaded_once generated loader s schema s' generated' loader'
    (Hfirst : openapi_with_chat_request_example generated loader s = (Ret schema, s')) :
  openapi_with_chat_request_example generated' loader' s' = (Ret schema, s').
Proof.
  unfold openapi_with_chat_request_example in Hfirst.
  apply bind_Ret_inv in Hfirst as (g&s1&_&H). apply bind_Ret_inv in H as (u&s2&_&H).
  apply bind_Ret_inv in H as (c&s3&Hc&H). injection Hc as <- <-.
  apply bind_Ret_inv in H as (chat&s4&Hchat&H). injection Hchat as Hchat <-.
  apply bind_Ret_inv in H as (t&s5&Ht&H). injection Ht as <- <-.
  apply bind_Ret_inv in H as (stream&s6&Hstream&H). injection Hstream as Hstream <-.
  apply bind_Ret_inv in H as (schema1&s7&H1&H2).
  unfold inject in H1, H2. apply bind_Ret_inv in H1 as (x&s8&E1&H1). injection E1 as E1 <-.
  apply bind_Ret_inv in H1 as (x1&s9&E1'&H1). injection E1' as _ <-. injection H1 as -> <-.
  apply bind_Ret_inv in H2 as (y&s8'&E2&H2). injection E2 as E2 <-.
  apply bind_Ret_inv in H2 as (y1&s9'&E2'&H2). injection E2' as _ <-. injection H2 as -> <-.
  assert (settled "/api/chat" chat schema) as Hs1
    by (eapply settled_other; [|exact E2|by eapply set_examples_settles]; done).
  assert (settled "/api/chat/stream" stream schema) as Hs2 by by eapply set_examples_settles.
  match goal with |- _ = (Ret schema, ?x) => set (s' := x) end.
  assert (dc_schema s' = Some schema) as Hk by done.
  assert (dc_chat_examples s' = dc_chat_examples s2) as Hk1 by done.
  assert (dc_stream_examples s' = dc_stream_examples s2) as Hk2 by done.
  clearbody s'.
  destruct (dc_chat_examples s2) as [c|]; [|done]. injection Hchat as ->.
  destruct (dc_stream_examples s2) as [d|]; [|done]. injection Hstream as ->.
  unfold openapi_with_chat_request_example, generated_openapi, fill_example_cache, bind, gets, ret.
  rewrite Hk. cbn iota beta. rewrite Hk1. cbn iota beta. rewrite Hk1. unfold of_outcome.
  cbn [cached_examples]. rewrite Hk2. cbn [cached_examples].
  rewrite (inject_settled _ _ _ _ Hs1 Hk). by apply inject_settled.
Qed.
End examples.

(** ** Which files can be read *)

Lemma split_on_pieces sep s : Forall (λ p, mem_char sep p = false) (split_on sep s).
Proof.
  induction s as [|c s IH]; simpl; [by repeat constructor|].
  destruct (Ascii.eqb c sep) eqn:E; [by constructor|].
  rewrite Ascii.eqb_sym in E. destruct (split_on sep s) as [|p ps].
  - constructor; [|constructor]. simpl. by rewrite E.
  - apply Forall_cons in IH as [Hp Hps]. constructor; [|done]. simpl. by rewrite Hp, E.
Qed.

Lemma path_name_plain s : mem_char (Ascii.ascii_of_N 47) (path_name s) = false.
Proof.
  unfold path_name. set (l := filter _ _).
  assert (Forall (λ p, mem_char (Ascii.ascii_of_N 47) p = false) l) as H.
  { apply Forall_forall. intros p [_ Hp]%list_elem_of_filter.
    pose proof (split_on_pieces (Ascii.ascii_of_N 47) s) as Hs. rewrite Forall_forall in Hs. auto. }
  clearbody l. induction H as [|p l Hp Hl IH]; [done|]. destruct l; [done|]. exact IH.
Qed.

(** No file name leads out of the directory of examples.  Whatever name the
    loader is given -- absolute, with parent directories, without the extension --
    it sees of the file system nothing but the files whose path is the directory, a
    slash, and a name without one: two file systems that agree on those answer
    alike. *)
Theorem examples_confined {F} (read1 read2 : string → M F string) directory float_repr lax_bool filename s
    (Hsame : ∀ name f, mem_char (Ascii.ascii_of_N 47) name = false →
       read1 (directory +:+ "/" +:+ name) f = read2 (directory +:+ "/" +:+ name) f) :
  load_chat_request_example read1 directory float_repr lax_bool filename s =
  load_chat_request_example read2 directory float_repr lax_bool filename s.
Proof.
  unfold load_chat_request_example, _read_request_example. cbv zeta. destruct (_ || _); [done|].
  unfold try_except, bind, zoom. by rewrite (Hsame _ _ (path_name_plain filename)).
Qed.

(** ** Samples *)

Section sample.
Definition sample_files : gmap string string := {[
  "examples/chat.json" := "{" +:+ quote +:+ "message" +:+ quote +:+ ": " +:+ quote +:+ "hi" +:+ quote +:+ "}";
  "secret.json" := "{" +:+ quote +:+ "message" +:+ quote +:+ ": " +:+ quote +:+ "key" +:+ quote +:+ "}" ]}.

Definition sample_read (path : string) : M (gmap string string) string := λ f,
  match f !! path with Some t => (Ret t, f) | None => (Raise (PyExn OSError path), f) end.

Definition no_bool (v : pyval) : option bool := match v with VBool b => Some b | _ => None end.

Definition sample_doc : DocState (gmap string string) := MkDoc sample_files [] None None None.

(** A schema with the two bodies. *)
Definition sample_body : pyval :=
  VDict [("post", VDict [("requestBody", VDict [("content", VDict [("application/json", VDict [])])])])].
Definition sample_schema : pyval :=
  VDict [("paths", VDict [("/api/chat", sample_body); ("/api/chat/stream", sample_body); ("/health", VDict [])])].

Abbreviation sample_openapi g l :=
  (openapi_with_chat_request_example sample_read "examples" (λ r, r) no_bool g l) (only parsing).

Lemma examples_loaded_once_witness : ∃ schema s',
  sample_openapi sample_schema None sample_doc = (Ret schema, s') ∧ schema ≠ sample_schema ∧
  sample_openapi VNone (Some (MkLoader false (λ _, raise CancelledError))) s' = (Ret schema, s').
Proof.
  assert (∃ schema s', sample_openapi sample_schema None sample_doc = (Ret schema, s') ∧ schema ≠ sample_schema)
    as (schema&s'&E&Hne) by (eexists _, _; split; [vm_compute; reflexivity|discriminate]).
  exists schema, s'. split; [exact E|]. split; [exact Hne|]. exact (examples_loaded_once _ _ _ _ _ _ _ _ _ _ _ E).
Qed.

Lemma examples_confined_witness :
  load_chat_request_example sample_read "examples" (λ r, r) no_bool "../secret.json" sample_doc =
  load_chat_request_example (λ path, if startswith "examples/" path then sample_read path else raise CancelledError)
    "examples" (λ r, r) no_bool "../secret.json" sample_doc.
Proof. apply examples_confined. intros name f Hname. cbn. by destruct name. Defined.

(** A loader whose streaming example is no request breaks the documentation for
    good: the first call raises the validation error with one cache entry written,
    and every later call raises [KeyError]. *)
Theorem half_filled_cache :
  let loader := MkLoader true (λ name,
    ret (Some (if bool_decide (name = Some CHAT_REQUEST_EXAMPLE_FILENAME) then [("message", VStr "hi")] else []))) in
  let first := sample_openapi sample_schema (Some loader) sample_doc in
  first.1 = Raise (validation_error "Input should be a valid string") ∧
  (sample_openapi sample_schema (Some loader) first.2).1 = Raise (PyExn KeyError "stream_examples").
Proof. vm_compute. split; reflexivity. Qed.
End sample.
