(* ===== verification/Identity.v ===== *)
(** * Run identities and resume tokens

    [app/orchestration/run_identity.py], [RunIdentityService]: the request
    hash, the identity of a fresh run, and the signed resume token that binds
    a run to a request.  [IdentityEnv] holds what the code takes from the
    interpreter and this file does not define: Unicode normalization and the
    conversions of floats and containers to text and numbers.  The results of
    [time()] and of [uuid4()] are arguments. *)

From S2P Require Import Prelude.
From S2P Require Import PyData.
From S2P Require Import Json.
From S2P Require Import Base64.
From S2P Require Import Sha256.
From S2P Require Import PyNum.
From S2P Require Import RunTypes.
From S2P Require Import Settings.
From S2P Require Import ChatSchema.

Record IdentityEnv : Type := MkIdentityEnv {
  env_nfc : string → string;                 (** [unicodedata.normalize('NFC', s)] *)
  env_float_repr : string → string;          (** [repr(float(literal))] *)
  env_int_of_float : string → option Z;      (** [int(f)], [None] when it raises *)
  env_str_container : pyval → string         (** [str] of a list or a dictionary *)
}.

Definition _RESERVED_METADATA_KEYS : list string :=
  ["conversation_id"; "execution_thread_id"; "resume"; "resume_token"; "run_id"; "thread_id"].

(** The domain prefix ends in a zero byte. *)
Definition _REQUEST_HASH_DOMAIN : string := "langchain-langraph-chat-request-v1" +:+ chr 0.

Definition invalid_token (m : string) : exn := IdentityExn ResumeTokenInvalidError m.
Definition incompatible (m : string) : exn := IdentityExn IncompatibleRunStateError m.

Definition is_finite (repr : string) : bool :=
  negb (String.eqb repr "nan" || String.eqb repr "inf" || String.eqb repr "-inf").

Section identity.
Context (env : IdentityEnv).

Definition _normalize_text (value : string) : string := env_nfc env value.

(** [_canonical_json_value] on JSON values, the only ones a request body holds. *)
Fixpoint _canonical_json_value (value : pyval) : outcome pyval :=
  match value with
  | VNone | VBool _ | VInt _ => Ret value
  | VFloat r =>
    if is_finite r then Ret value
    else Raise (PyExn ValueError "request metadata must not contain NaN or infinity")
  | VStr s => Ret (VStr (_normalize_text s))
  | VList l =>
    try! l' := foldr (λ o acc, try! v := o in try! vs := acc in Ret (v :: vs)) (Ret [])
      (map _canonical_json_value l) in
    Ret (VList l')
  | VDict d =>
    try! items := foldr (λ o acc, try! kv := o in try! kvs := acc in Ret (kv :: kvs)) (Ret [])
      (map (λ kv, try! v := _canonical_json_value kv.2 in Ret (_normalize_text kv.1, v)) d) in
    Ret (VDict (dict_merge [] items))
  end.

(** ** The service *)

Record RunIdentityService : Type := MkRunIdentityService {
  _ttl_seconds : Z;
  _checkpoint_namespace : string;
  _state_schema_version : Z;
  _request_hash_version : Z;
  _active_key_id : string;
  _keys : list (string * string);
  _persistent_secret : bool
}.

Definition usable_keys (parsed : pydict) : list (string * string) :=
  foldl (λ keys kv,
  let key_id := strip kv.1 in
  let secret := str_value (env_str_container env) kv.2 in
  if nonempty key_id && nonempty secret then dict_set key_id secret keys else keys) [] parsed.

(** [generated] is what [secrets.token_urlsafe(48)] returns. *)
Definition _load_keys (generated active_key_id : string) (settings : Settings)
  : outcome (list (string * string) * bool) :=
  let raw_keyring := strip (resume_token_keys_json settings) in
  if nonempty raw_keyring then
  match loads (env_float_repr env) raw_keyring with
  | None => Raise (PyExn ValueError "RESUME_TOKEN_KEYS_JSON must be valid JSON")
  | Some (VDict ((_ :: _) as parsed)) =>
      match usable_keys parsed with
      | [] => Raise (PyExn ValueError "RESUME_TOKEN_KEYS_JSON contains no usable keys")
      | keys => Ret (keys, true)
      end
  | Some _ => Raise (PyExn ValueError "RESUME_TOKEN_KEYS_JSON must be a non-empty object")
  end
  else
  let configured_secret := strip (resume_token_secret settings) in
  let api_key_secret := strip (api_key settings) in
  let secret := str_or configured_secret api_key_secret in
  if nonempty secret then Ret ([(active_key_id, secret)], true)
  else Ret ([(active_key_id, generated)], false).

(** [RunIdentityService(settings)]. *)
Definition new_service (generated : string) (settings : Settings) : outcome RunIdentityService :=
  let active := str_or (strip (resume_token_active_key_id settings)) "primary" in
  try! loaded := _load_keys generated active settings in
  if dict_has active loaded.1 then
  Ret {| _ttl_seconds := resume_token_ttl_seconds settings;
         _checkpoint_namespace := run_checkpoint_namespace settings;
         _state_schema_version := run_state_schema_version settings;
         _request_hash_version := run_request_hash_version settings;
         _active_key_id := active; _keys := loaded.1; _persistent_secret := loaded.2 |}
  else Raise (PyExn ValueError "RESUME_TOKEN_ACTIVE_KEY_ID must identify a configured signing key").

(** ** Request hashes *)

Definition sanitized_metadata (request : ChatRequest) : pydict :=
  filter (λ kv, lower kv.1 ∉ _RESERVED_METADATA_KEYS) (cr_metadata request).

(** The object [request_hash] serializes. *)
Definition canonical_request (svc : RunIdentityService) (request : ChatRequest) : outcome pyval :=
  try! metadata := _canonical_json_value (VDict (sanitized_metadata request)) in
  Ret (VDict [
  ("version", VInt (_request_hash_version svc));
  ("message", VStr (_normalize_text (cr_message request)));
  ("system_prompt", opt_value (match cr_system_prompt request with
                               | Some p => Some (_normalize_text p) | None => None end));
  ("metadata", metadata)]).

(** The text it hashes. *)
Definition request_text (svc : RunIdentityService) (request : ChatRequest) : outcome string :=
  try! canonical := canonical_request svc request in
  Ret (_REQUEST_HASH_DOMAIN +:+ dumps_sorted compact_separators canonical).

Definition request_hash (svc : RunIdentityService) (request : ChatRequest) : outcome string :=
  try! text := request_text svc request in Ret (sha256_hex text).

Definition _legacy_request_hash (request : ChatRequest) : string :=
  sha256_hex (dumps_sorted compact_separators (VDict [
  ("message", VStr (cr_message request));
  ("system_prompt", opt_value (cr_system_prompt request));
  ("metadata", VDict (sanitized_metadata request))])).

(** ** Identities *)

Definition _validate_uuid (value field_name : string) : outcome unit :=
  guard_py (uuid_ok value) (invalid_token (field_name +:+ " must be a valid UUID")).

(** Building the pydantic model validates its fields. *)
Definition build_identity (i : RunIdentity) : outcome RunIdentity :=
  if RunIdentity_valid i then Ret i else Raise (validation_error "RunIdentity").

Definition thread_of (conversation_id run_id : string) : string :=
  conversation_id +:+ ":" +:+ run_id.

(** ** Tokens *)

Definition _b64encode (value : string) : string := strip_padding (urlsafe_b64encode value).
Definition _b64decode (value : string) : option string :=
  urlsafe_b64decode (value +:+ missing_padding value).

Definition token_payload (svc : RunIdentityService) (now : Z) (identity : RunIdentity) : pydict := [
  ("v", VInt 2);
  ("kid", VStr (_active_key_id svc));
  ("conversation_id", VStr (id_conversation_id identity));
  ("run_id", VStr (id_run_id identity));
  ("execution_thread_id", VStr (id_execution_thread_id identity));
  ("checkpoint_namespace", VStr (id_checkpoint_namespace identity));
  ("state_schema_version", VInt (id_state_schema_version identity));
  ("request_hash", VStr (id_request_hash identity));
  ("request_hash_version", VInt (id_request_hash_version identity));
  ("resume_token_version", VInt (id_resume_token_version identity));
  ("iat", VInt now);
  ("exp", VInt (now + _ttl_seconds svc))].

Definition signature_of (secret encoded_payload : string) : string := hmac_sha256 secret encoded_payload.

(** [self._keys[self._active_key_id]] is there: the constructor checks it. *)
Definition issue_resume_token (svc : RunIdentityService) (now : Z) (identity : RunIdentity)
  : outcome string :=
  let encoded_payload :=
  _b64encode (dumps_sorted compact_separators (VDict (token_payload svc now identity))) in
  match dict_get (_active_key_id svc) (_keys svc) with
  | None => Raise (PyExn KeyError (_active_key_id svc))
  | Some secret =>
    Ret (encoded_payload +:+ "." +:+ _b64encode (signature_of secret encoded_payload))
  end.

(** [s.split('.', 1)] into two parts. *)
Fixpoint split_once (sep : Ascii.ascii) (s : string) : option (string * string) :=
  match s with
  | EmptyString => None
  | String c s' =>
    if Ascii.eqb c sep then Some (EmptyString, s')
    else match split_once sep s' with
         | Some (a, b) => Some (String c a, b)
         | None => None
         end
  end.

Definition dot : Ascii.ascii := Ascii.ascii_of_N 46.

(** [str(payload.get(key) or '').strip()]. *)
Definition text_of (payload : pydict) (key : string) : string :=
  let v := get_or_none key payload in
  strip (if truthy v then str_value (env_str_container env) v else "").

(** [int(payload.get(key, default) or default')], [default = default']. *)
Definition int_or (payload : pydict) (key : string) (dflt : Z) : outcome Z :=
  match dict_get key payload with
  | Some v => if truthy v then py_int (env_int_of_float env) v else Ret dflt
  | None => Ret dflt
  end.

Definition signing_candidates (svc : RunIdentityService) (payload : pydict) : list (string * string) :=
  let candidate_key_id := text_of payload "kid" in
  match dict_get candidate_key_id (_keys svc) with
  | Some secret => [(candidate_key_id, secret)]
  | None => _keys svc
  end.

(** The first candidate whose signature is the supplied one. *)
Definition matching_key (candidates : list (string * string)) (encoded_payload supplied : string)
  : option string :=
  match find (λ kv, String.eqb (signature_of kv.2 encoded_payload) supplied) candidates with
  | Some kv => Some kv.1
  | None => None
  end.

Definition _decode_token (svc : RunIdentityService) (token : string) : outcome (pydict * string) :=
  match split_once dot token with
  | None => Raise (invalid_token "Malformed resume token")
  | Some (encoded_payload, encoded_signature) =>
    let malformed := Raise (invalid_token "Malformed resume token") in
    match _b64decode encoded_payload with
    | None => malformed
    | Some raw_payload =>
        if utf8_valid raw_payload then
          match loads (env_float_repr env) raw_payload, _b64decode encoded_signature with
          | Some payload, Some supplied_signature =>
              match payload with
              | VDict payload =>
                  match matching_key (signing_candidates svc payload) encoded_payload supplied_signature with
                  | Some key_id => Ret (payload, key_id)
                  | None => Raise (invalid_token "Resume token signature is invalid")
                  end
              | _ => Raise (invalid_token "Resume token payload must be an object")
              end
          | _, _ => malformed
          end
        else malformed
    end
  end.

(** [now] is [int(time())]. *)
Definition _identity_from_token (svc : RunIdentityService) (now : Z) (request : ChatRequest)
  (hash : string) : outcome RunIdentity :=
  try! decoded := _decode_token svc (opt_str_or (cr_resume_token request) "") in
  let payload := decoded.1 in
  try! token_format_version :=
  match dict_get "v" payload with Some v => py_int (env_int_of_float env) v | None => Ret 0 end in
  try! _ := guard_py ((token_format_version =? 1) || (token_format_version =? 2))
  (invalid_token "Unsupported resume token version") in
  try! expires := int_or payload "exp" 0 in
  try! _ := guard_py (now <? expires)
  (IdentityExn ResumeTokenExpiredError "The resume token has expired") in
  try! schema_version := int_or payload "state_schema_version" 0 in
  try! _ := guard_py (schema_version =? _state_schema_version svc)
  (incompatible "The resumable run uses an incompatible state schema version") in
  try! hash_version := int_or payload "request_hash_version" (_request_hash_version svc) in
  try! _ := guard_py (negb ((token_format_version =? 2) && negb (hash_version =? _request_hash_version svc)))
  (incompatible "The resumable run uses an incompatible request hash version") in
  let conversation_id := text_of payload "conversation_id" in
  let run_id := text_of payload "run_id" in
  let execution_thread_id := text_of payload "execution_thread_id" in
  let checkpoint_namespace := text_of payload "checkpoint_namespace" in
  let token_request_hash := text_of payload "request_hash" in
  try! _ := guard_py (forallb nonempty [conversation_id; run_id; execution_thread_id;
    checkpoint_namespace; token_request_hash])
  (invalid_token "Resume token is missing required identity data") in
  try! _ := _validate_uuid run_id "run_id" in
  try! _ := guard_py (String.eqb execution_thread_id (thread_of conversation_id run_id))
  (invalid_token "Resume token execution identity is invalid") in
  try! _ := guard_py (String.eqb checkpoint_namespace (_checkpoint_namespace svc))
  (incompatible "The resumable run uses an incompatible checkpoint namespace") in
  let expected_request_hash :=
  if token_format_version =? 1 then _legacy_request_hash request else hash in
  try! _ := guard_py (String.eqb token_request_hash expected_request_hash)
  (invalid_token "The resume token is not valid for this request payload") in
  let supplied_conversation_id := opt_or (cr_conversation_id request) (cr_thread_id request) in
  try! _ := guard_py (negb (opt_truthy supplied_conversation_id)
    || bool_decide (supplied_conversation_id = Some conversation_id))
  (invalid_token "The resume token does not match the supplied conversation ID") in
  try! _ := guard_py (negb (opt_truthy (cr_run_id request))
    || bool_decide (cr_run_id request = Some run_id))
  (invalid_token "The resume token does not match the supplied run ID") in
  try! resume_token_version := int_or payload "resume_token_version" 1 in
  build_identity {|
  id_conversation_id := conversation_id;
  id_run_id := run_id;
  id_execution_thread_id := execution_thread_id;
  id_checkpoint_namespace := checkpoint_namespace;
  id_state_schema_version := schema_version;
  id_request_hash := hash;
  id_request_hash_version := _request_hash_version svc;
  id_resume_token_version := resume_token_version;
  id_resume_token_key_id := Some decoded.2;
  id_resume_requested := true;
  id_resumed := true;
  id_client_supplied_run_id := opt_truthy (cr_run_id request) |}.

(** [fresh_conversation] and [fresh_run] are what the two calls of
[str(uuid4())] return. *)
Definition normalize (svc : RunIdentityService) (now : Z) (fresh_conversation fresh_run : string)
  (request : ChatRequest) : outcome RunIdentity :=
  try! hash := request_hash svc request in
  if cr_resume request then _identity_from_token svc now request hash
  else
  let conversation_id :=
    opt_str_or (cr_conversation_id request) (opt_str_or (cr_thread_id request) fresh_conversation) in
  let run_id := opt_str_or (cr_run_id request) fresh_run in
  try! _ := _validate_uuid run_id "run_id" in
  build_identity {|
    id_conversation_id := conversation_id;
    id_run_id := run_id;
    id_execution_thread_id := thread_of conversation_id run_id;
    id_checkpoint_namespace := _checkpoint_namespace svc;
    id_state_schema_version := _state_schema_version svc;
    id_request_hash := hash;
    id_request_hash_version := _request_hash_version svc;
    id_resume_token_version := 1;
    id_resume_token_key_id := Some (_active_key_id svc);
    id_resume_requested := false;
    id_resumed := false;
    id_client_supplied_run_id := opt_truthy (cr_run_id request) |}.
End identity.
