(* ===== verification/Tokens.v ===== *)
(** * What resume tokens guarantee

    A token issued for a run is accepted, until it expires, for the request it
    was issued for, by any service that knows its key ([resume_round_trip]);
    whatever is accepted was signed with a configured key over exactly the
    identity it yields ([resume_sound]); the request hash binds the content of
    two requests whose texts do not collide under SHA-256 ([hash_binds_request]); execution
    threads are never shared by two runs ([thread_injective]). *)

From S2P Require Import Prelude.
From S2P Require Import PyData.
From S2P Require Import Json.
From S2P Require Import Base64.
From S2P Require Import Sha256.
From S2P Require Import PyNum.
From S2P Require Import RunTypes.
From S2P Require Import Settings.
From S2P Require Import ChatSchema.
From S2P Require Import Identity.

(** ** Text *)

(** Induction along the sequences of UTF-8. *)
Lemma utf8_valid_app a b : utf8_valid a = true → utf8_valid (a +:+ b) = utf8_valid b.
Proof.
  induction a as [a IH] using (induction_ltof1 _ String.length). unfold ltof in IH.
  destruct a as [|c a]; [done|]. rewrite sapp_cons. cbn [utf8_valid].
  destruct (code c <? 128)%N; [intros; apply IH; [simpl; lia|done]|].
  destruct a as [|c1 a]; [done|]. rewrite sapp_cons.
  destruct (in_range 194 223 (code c)).
  { intros [H1 H2]%andb_prop. rewrite H1. simpl. apply IH; [simpl; lia|done]. }
  destruct a as [|c2 a]; [done|]. rewrite sapp_cons.
  destruct (in_range 224 239 (code c)).
  { intros [[H1 H1']%andb_prop H2]%andb_prop. rewrite H1, H1'. simpl. apply IH; [simpl; lia|done]. }
  destruct a as [|c3 a]; [done|]. rewrite sapp_cons.
  intros [[[[H1 H2]%andb_prop H3]%andb_prop H4]%andb_prop H5]%andb_prop.
  rewrite H1, H2, H3, H4. simpl. apply IH; [simpl; lia|done].
Qed.

Lemma utf8_valid_ascii s : sforall is_ascii s = true → utf8_valid s = true.
Proof.
  induction s as [|c s IH]; [done|]. simpl. unfold is_ascii at 1.
  by destruct (code c <? 128)%N; simpl.
Qed.

Lemma utf8_escape_char c : is_ascii c = true → utf8_valid (escape_char c) = true.
Proof. destruct c as [[] [] [] [] [] [] [] []]; vm_compute; done. Qed.

Lemma escape_char_high c : is_ascii c = false → escape_char c = String c EmptyString.
Proof. destruct c as [[] [] [] [] [] [] [] []]; vm_compute; done. Qed.

Lemma continuation_high lo hi c : (128 <= lo)%N → in_range lo hi (code c) = true → is_ascii c = false.
Proof. unfold in_range, is_ascii. intros Hlo [H%N.leb_le _]%andb_prop. apply N.ltb_ge. lia. Qed.

Lemma escape_high c s : is_ascii c = false → escape (String c s) = String c (escape s).
Proof. intros Hc. cbn [escape]. by rewrite escape_char_high. Qed.

Lemma utf8_valid_escape s : utf8_valid s = true → utf8_valid (escape s) = true.
Proof.
  induction s as [s IH] using (induction_ltof1 _ String.length). unfold ltof in IH.
  destruct s as [|c s]; [done|]. destruct (is_ascii c) eqn:Ec.
  { cbn [escape utf8_valid]. intros H. unfold is_ascii in Ec. rewrite Ec in H.
    rewrite utf8_valid_app by (by apply utf8_escape_char). apply IH; [simpl; lia|done]. }
  rewrite escape_high by done. cbn [utf8_valid]. unfold is_ascii in Ec. rewrite Ec.
  destruct s as [|c1 s]; [done|]. destruct (in_range 194 223 (code c)).
  { intros [H1 H2]%andb_prop. rewrite escape_high by (by eapply continuation_high; [|exact H1]).
    rewrite H1. simpl. apply IH; [simpl; lia|done]. }
  destruct s as [|c2 s]; [done|]. destruct (in_range 224 239 (code c)).
  { intros [[H1 H2]%andb_prop H3]%andb_prop.
    rewrite !escape_high by (by eapply continuation_high; [|eassumption]; case_match; lia).
    rewrite H1, H2. simpl. apply IH; [simpl; lia|done]. }
  destruct s as [|c3 s]; [done|].
  intros [[[[H0 H1]%andb_prop H2]%andb_prop H3]%andb_prop H4]%andb_prop.
  rewrite !escape_high by (by eapply continuation_high; [|eassumption]; try case_match; lia).
  rewrite H0, H1, H2, H3. simpl. apply IH; [simpl; lia|done].
Qed.

Lemma utf8_valid_lit s : utf8_valid s = true → utf8_valid (string_lit s) = true.
Proof.
  intros Hs. unfold string_lit. rewrite !utf8_valid_app; [done| |done].
  by apply utf8_valid_escape.
Qed.

Lemma utf8_valid_uint d : utf8_valid (DecimalString.NilEmpty.string_of_uint d) = true.
Proof. by induction d. Qed.

Lemma utf8_valid_Z z : utf8_valid (Z_to_string z) = true.
Proof.
  unfold Z_to_string. destruct z as [|p|p]; simpl; [done| |].
  all: assert (utf8_valid (DecimalString.NilZero.string_of_uint (Pos.to_uint p)) = true) as H;
    [destruct (Pos.to_uint p) eqn:E; [done|..]; apply (utf8_valid_uint _)|done].
Qed.

Lemma utf8_valid_join sep l :
  utf8_valid sep = true → Forall (λ s, utf8_valid s = true) l → utf8_valid (join sep l) = true.
Proof.
  intros Hs. induction 1 as [|x [|y l] Hx Hl IH]; [done..|].
  change (join sep (x :: y :: l)) with (x +:+ sep +:+ join sep (y :: l)).
  by rewrite !utf8_valid_app by done.
Qed.

(** Every text of a flat object is valid UTF-8. *)
Definition flat_utf8 (d : pydict) : bool :=
  forallb (λ kv, utf8_valid kv.1 &&
    match kv.2 with VStr s => utf8_valid s | VInt _ => true | _ => false end) d.

Lemma utf8_valid_dumps_flat d :
  flat_utf8 d = true → utf8_valid (dumps compact_separators (VDict d)) = true.
Proof.
  intros Hd. cbn [dumps]. rewrite !utf8_valid_app; [done| |done].
  apply utf8_valid_join; [done|]. apply Forall_fmap, Forall_forall. intros [k v] Hkv.
  apply list_elem_of_In in Hkv. unfold flat_utf8 in Hd. rewrite forallb_forall in Hd.
  specialize (Hd _ Hkv). simpl in *. apply andb_prop in Hd as [Hk Hv].
  rewrite utf8_valid_app by (by apply utf8_valid_lit). rewrite utf8_valid_app by done.
  destruct v; try done; simpl; [apply utf8_valid_Z|by apply utf8_valid_lit].
Qed.

(** Hexadecimal text is ASCII without white space. *)
Lemma hex_forall (p : Ascii.ascii → bool) s :
  (∀ n, (n < 16)%N → p (hex_char n) = true) → sforall p (hex s) = true.
Proof.
  intros Hp. induction s as [|c s IH]; [done|]. cbn [hex sforall]. pose proof (code_lt c).
  rewrite !Hp; [done|apply N.mod_lt; lia|apply N.Div0.div_lt_upper_bound; lia].
Qed.

Lemma hex_char_ascii n : (n < 16)%N → is_ascii (hex_char n) && negb (is_space (hex_char n)) = true.
Proof. intros Hn. exact (forall_below (λ n, is_ascii (hex_char n) && negb (is_space (hex_char n))) 16 eq_refl n Hn). Qed.

Lemma drop_while_none p s : sforall (λ c, negb (p c)) s = true → drop_while p s = s.
Proof. destruct s as [|c s]; [done|]. simpl. by destruct (p c). Qed.

Lemma strip_id s : sforall (λ c, negb (is_space c)) s = true → strip s = s.
Proof.
  intros Hs. unfold strip, strip_by, rstrip_by, lstrip_by. rewrite (drop_while_none _ s) by done.
  rewrite drop_while_none by (by rewrite sforall_srev). apply srev_involutive.
Qed.

Lemma drop_while_twice p s : drop_while p (drop_while p s) = drop_while p s.
Proof. induction s as [|c s IH]; [done|]. simpl. destruct (p c) eqn:Hc; [done|]. simpl. by rewrite Hc. Qed.

Lemma drop_while_suffix p s : ∃ a, s = a +:+ drop_while p s.
Proof.
  induction s as [|c s [a IH]]; [by exists ""|]. simpl. destruct (p c); [|by exists ""].
  exists (String c a). rewrite sapp_cons. by f_equal.
Qed.

(** Text the token keeps as it is. *)
Definition clean (s : string) : Prop := strip s = s ∧ nonempty s = true ∧ utf8_valid s = true.

Lemma sha256_hex_clean s : clean (sha256_hex s).
Proof.
  assert (sforall (λ c, is_ascii c && negb (is_space c)) (sha256_hex s) = true) as H.
  { apply hex_forall, hex_char_ascii. }
  split; [|split].
  - apply strip_id. eapply sforall_weaken; [|exact H]. by intros c [_ ?]%andb_prop.
  - pose proof (sha256_hex_length s) as Hl. by destruct (sha256_hex s).
  - apply utf8_valid_ascii. eapply sforall_weaken; [|exact H]. by intros c [? _]%andb_prop.
Qed.

Lemma drop_while_le p s : drop_while p s = s ∨ (String.length (drop_while p s) < String.length s)%nat.
Proof.
  induction s as [|c s IH]; [by left|]. simpl. destruct (p c); [right|by left].
  destruct IH as [->|]; lia.
Qed.

Lemma srev_length s : String.length (srev s) = String.length s.
Proof.
  induction s as [|c s IH]; [done|]. rewrite srev_cons, sapp_length, IH. simpl. lia.
Qed.

Lemma strip_fixed s : strip s = s ↔ drop_while is_space s = s ∧ drop_while is_space (srev s) = srev s.
Proof.
  unfold strip, strip_by, rstrip_by, lstrip_by. split.
  - intros H. assert (drop_while is_space s = s) as Hl.
    { destruct (drop_while_le is_space s) as [|Hlt]; [done|].
      apply (f_equal String.length) in H. rewrite srev_length in H.
      pose proof (drop_while_le is_space (srev (drop_while is_space s))) as Hle.
      rewrite srev_length in Hle. destruct Hle as [Hle|]; [rewrite Hle, srev_length in H|]; lia. }
    rewrite Hl in H. split; [done|]. by rewrite <-H at 2; rewrite srev_involutive.
  - intros [-> ->]. apply srev_involutive.
Qed.

Lemma strip_idem s : strip (strip s) = strip s.
Proof.
  apply strip_fixed. unfold strip, strip_by, rstrip_by, lstrip_by. rewrite srev_involutive.
  split; [|apply drop_while_twice].
  destruct (drop_while_suffix is_space (srev (drop_while is_space s))) as [a Ha].
  apply (f_equal srev) in Ha. rewrite srev_involutive, srev_app_distr in Ha.
  pose proof (drop_while_twice is_space s) as Hd. rewrite Ha in Hd.
  set (v := srev (drop_while is_space (srev (drop_while is_space s)))) in *.
  destruct v as [|c v]; [done|]. rewrite sapp_cons in Hd. simpl in Hd |- *. destruct (is_space c); [|done].
  apply (f_equal String.length) in Hd. simpl in Hd.
  destruct (drop_while_le is_space (v +:+ srev a)) as [E|E]; [rewrite E in Hd|]; lia.
Qed.

Lemma drop_while_app_fixed p a b :
  drop_while p a = a → nonempty a = true → drop_while p (a +:+ b) = a +:+ b.
Proof.
  destruct a as [|c a]; [done|]. rewrite sapp_cons. simpl. destruct (p c) eqn:Hc; [|done].
  intros H _. destruct (drop_while_le p a) as [E|E]; apply (f_equal String.length) in H; simpl in H;
    [rewrite E in H|]; lia.
Qed.

Lemma nonempty_app_r a b : nonempty b = true → nonempty (a +:+ b) = true.
Proof. by destruct a. Qed.

Lemma clean_app a m b : clean a → clean b → utf8_valid m = true → clean (a +:+ m +:+ b).
Proof.
  intros (Ha&Hna&Hua) (Hb&Hnb&Hub) Hm. split; [|split].
  - apply strip_fixed in Ha as [Ha _], Hb as [_ Hb]. apply strip_fixed. split.
    + by apply drop_while_app_fixed.
    + rewrite !srev_app_distr, sapp_assoc. apply drop_while_app_fixed; [done|].
      destruct b; [done|]. rewrite srev_cons. by apply nonempty_app_r.
  - destruct a; done.
  - by rewrite !utf8_valid_app by done.
Qed.

(** ** Decoding *)

Section tokens.
Context (env : IdentityEnv).

Lemma split_once_app a b :
  sforall (λ c, negb (code c =? 46)%N) a = true → split_once dot (a +:+ "." +:+ b) = Some (a, b).
Proof.
  induction a as [|c a IH]; [done|]. cbn [sforall]. intros [Hc Ha]%andb_prop.
  rewrite sapp_cons. cbn [split_once]. destruct (Ascii.eqb_spec c dot) as [->|]; [done|]. by rewrite IH.
Qed.

Lemma b64encode_no_dot s : sforall (λ c, negb (code c =? 46)%N) (_b64encode s) = true.
Proof. eapply sforall_weaken; [|exact (b64_alphabet s)]. by intros c [_ ?]%andb_prop. Qed.

Lemma b64_decode_encode s : _b64decode (_b64encode s) = Some s.
Proof. exact (b64_round_trip s). Qed.

Lemma payload_keys svc now i :
  (token_payload svc now i).*1 =
  ["v"; "kid"; "conversation_id"; "run_id"; "execution_thread_id"; "checkpoint_namespace";
   "state_schema_version"; "request_hash"; "request_hash_version"; "resume_token_version"; "iat"; "exp"].
Proof. done. Qed.

Lemma payload_NoDup svc now i : NoDup (token_payload svc now i).*1.
Proof. rewrite payload_keys. by apply (bool_decide_unpack _). Qed.

Definition sorted_payload svc now i : pydict := sort_dict (token_payload svc now i).

Lemma payload_text svc now i :
  dumps_sorted compact_separators (VDict (token_payload svc now i)) =
  dumps compact_separators (VDict (sorted_payload svc now i)).
Proof. unfold dumps_sorted. rewrite sort_keys_flat; [done|]. by repeat constructor. Qed.

Lemma payload_plain float_repr svc now i :
  json_text float_repr (VDict (sorted_payload svc now i)) = true.
Proof.
  unfold sorted_payload. rewrite json_text_sort_dict. cbn [json_text].
  rewrite bool_decide_eq_true_2 by apply payload_NoDup. done.
Qed.

Lemma payload_get svc now i k :
  dict_get k (sorted_payload svc now i) = dict_get k (token_payload svc now i).
Proof. apply dict_get_sorted, payload_NoDup. Qed.

(** What the token carries is text without surrounding white space. *)
Record identity_clean (svc : RunIdentityService) (i : RunIdentity) : Prop := {
  clean_kid : clean (_active_key_id svc);
  clean_conversation : clean (id_conversation_id i);
  clean_run : clean (id_run_id i);
  clean_namespace : clean (id_checkpoint_namespace i);
  clean_hash : clean (id_request_hash i);
  clean_thread : clean (id_execution_thread_id i)
}.

Lemma payload_utf8 svc now i : identity_clean svc i → flat_utf8 (sorted_payload svc now i) = true.
Proof.
  intros [(_&_&H1) (_&_&H2) (_&_&H3) (_&_&H4) (_&_&H5) (_&_&H6)].
  unfold flat_utf8, sorted_payload. rewrite (forallb_perm _ _ _ (sort_dict_perm _)).
  cbn -[utf8_valid]. by rewrite H1, H2, H3, H4, H5, H6.
Qed.

Lemma text_of_clean payload k s :
  dict_get k payload = Some (VStr s) → clean s → text_of env payload k = s.
Proof.
  intros Hk (Hs&Hn&_). unfold text_of, get_or_none. rewrite Hk. simpl. by rewrite Hn.
Qed.

(** A service decodes what another issued when it knows the key. *)
Lemma decode_issued svc svc' now i token secret :
  identity_clean svc i →
  dict_get (_active_key_id svc) (_keys svc) = Some secret →
  dict_get (_active_key_id svc) (_keys svc') = Some secret →
  issue_resume_token svc now i = Ret token →
  _decode_token env svc' token = Ret (sorted_payload svc now i, _active_key_id svc).
Proof.
  intros Hc Hk Hk' Hi. unfold issue_resume_token in Hi. rewrite Hk, payload_text in Hi.
  apply Ret_eq in Hi as <-. unfold _decode_token.
  rewrite split_once_app by apply b64encode_no_dot. rewrite !b64_decode_encode. cbv iota beta zeta.
  rewrite utf8_valid_dumps_flat by (by apply payload_utf8).
  rewrite loads_text by (by right || apply payload_plain). cbv iota beta zeta.
  unfold signing_candidates. rewrite (text_of_clean _ _ (_active_key_id svc)).
  - rewrite Hk'. unfold matching_key. cbn [find]. cbn [snd]. by rewrite String.eqb_refl.
  - by rewrite payload_get.
  - apply Hc.
Qed.

Lemma issue_inv svc now i token :
  issue_resume_token svc now i = Ret token →
  ∃ secret, dict_get (_active_key_id svc) (_keys svc) = Some secret ∧ nonempty token = true.
Proof.
  unfold issue_resume_token. destruct (dict_get _ _) as [secret|]; [|done]. intros [= <-].
  exists secret. split; [done|]. by destruct (_b64encode _).
Qed.

Lemma int_or_VInt payload k z d :
  dict_get k payload = Some (VInt z) → z ≠ 0 → int_or env payload k d = Ret z.
Proof. intros Hk Hz. unfold int_or. rewrite Hk. simpl. by destruct (Z.eqb_spec z 0). Qed.

(** What [normalize] returns for a fresh run. *)
Lemma normalize_fresh_inv svc now c r request i :
  cr_resume request = false → normalize env svc now c r request = Ret i →
  request_hash env svc request = Ret (id_request_hash i) ∧ uuid_ok (id_run_id i) = true ∧
  id_execution_thread_id i = thread_of (id_conversation_id i) (id_run_id i) ∧
  id_checkpoint_namespace i = _checkpoint_namespace svc ∧
  id_state_schema_version i = _state_schema_version svc ∧
  id_request_hash_version i = _request_hash_version svc ∧
  id_resume_token_version i = 1 ∧ id_resume_token_key_id i = Some (_active_key_id svc) ∧
  RunIdentity_valid i = true.
Proof.
  intros Hr Hn. unfold normalize in Hn. apply obind_Ret_inv in Hn as (h&Hh&Hn).
  rewrite Hr in Hn. cbv zeta in Hn. apply obind_Ret_inv in Hn as (u&Hu&Hn).
  apply guard_py_Ret in Hu. unfold build_identity in Hn.
  destruct (RunIdentity_valid _) eqn:Hv; [|done]. injection Hn as <-. by repeat split.
Qed.

Lemma request_hash_clean svc request h : request_hash env svc request = Ret h → clean h.
Proof.
  unfold request_hash. intros (v&_&H)%obind_Ret_inv. apply Ret_eq in H as <-. apply sha256_hex_clean.
Qed.

Lemma fresh_identity_clean svc now c r request i :
  cr_resume request = false → normalize env svc now c r request = Ret i →
  clean (_active_key_id svc) → clean (_checkpoint_namespace svc) →
  clean (id_conversation_id i) → clean (id_run_id i) → identity_clean svc i.
Proof.
  intros Hr Hn Hk Hns Hc Hru. apply normalize_fresh_inv in Hn as (Hh&_&Ht&Hcn&_); [|done].
  split; [done..|by rewrite Hcn|by eapply request_hash_clean|].
  rewrite Ht. by apply (clean_app _ ":").
Qed.

Lemma uuid_str_clean z : clean (uuid_str z).
Proof.
  assert (sforall (λ c, is_ascii c && negb (is_space c)) (uuid_str z) = true) as Ha.
  { unfold uuid_str. cbv zeta.
    assert (∀ a b s, sforall (λ c, is_ascii c && negb (is_space c)) s = true →
      sforall (λ c, is_ascii c && negb (is_space c)) (stake b (sdrop a s)) = true) as Hpart.
    { intros a b s Hs. apply sforall_stake. revert s Hs. induction a as [|a IH]; intros [|c s] Hs; try done.
      simpl in *. apply andb_prop in Hs as [_ Hs]. by apply IH. }
    rewrite !sforall_app, !Hpart by apply hex_forall, hex_char_ascii. done. }
  split; [|split].
  - apply strip_id. eapply sforall_weaken; [|exact Ha]. by intros c [_ ?]%andb_prop.
  - pose proof (uuid_str_length z) as Hl. by destruct (uuid_str z).
  - apply utf8_valid_ascii. eapply sforall_weaken; [|exact Ha]. by intros c [? _]%andb_prop.
Qed.

(** The conversation and the run of a fresh run of a request that passed its schema,
which strips both: [c] and [r] are what [uuid4] returned. *)
Lemma fresh_names_clean svc now c r raw request i :
  validate_request raw = Ret request → cr_resume request = false →
  normalize env svc now c r request = Ret i → clean c → clean r →
  utf8_valid (id_conversation_id i) = true → clean (id_conversation_id i) ∧ clean (id_run_id i).
Proof.
  intros Hv Hr Hn Hc Hrun Hu.
  assert (nonempty (id_conversation_id i) = true) as Hne.
  { apply normalize_fresh_inv in Hn as (_&_&_&_&_&_&_&_&Hvalid); [|done]. unfold RunIdentity_valid in Hvalid.
    rewrite !andb_true_iff in Hvalid. destruct Hvalid as [[[[[[[[Hlen _] _] _] _] _] _] _] _].
    by destruct (id_conversation_id i). }
  unfold normalize in Hn. apply obind_Ret_inv in Hn as (h&_&Hn). rewrite Hr in Hn. cbv zeta in Hn.
  apply obind_Ret_inv in Hn as (u&_&Hn). unfold build_identity in Hn.
  destruct (RunIdentity_valid _); [|done]. injection Hn as <-. cbn [id_conversation_id id_run_id] in *.
  unfold validate_request in Hv. apply obind_Ret_inv in Hv as (u1&_&Hv). apply obind_Ret_inv in Hv as (m&_&Hv).
  cbv zeta in Hv. do 2 apply obind_Ret_inv in Hv as (?&_&Hv). apply obind_Ret_inv in Hv as (run&Hid&Hv).
  apply obind_Ret_inv in Hv as (?&_&Hv). unfold validate_identity_contract in Hv.
  destruct (_ && _) in Hv; [done|]. destruct (_ && _) in Hv; [done|]. destruct (_ && _) in Hv; [done|].
  injection Hv as <-. cbn [cr_conversation_id cr_thread_id cr_run_id] in *.
  assert (∀ o, match normalize_optional_text o with Some s => strip s = s | None => True end) as Hstrip.
  { intros [s|]; [|done]. simpl. destruct (nonempty (strip s)); [apply strip_idem|done]. }
  split.
  - split; [|done]. clear Hu Hne. unfold opt_str_or, str_or.
    pose proof (Hstrip (cr_conversation_id raw)). pose proof (Hstrip (cr_thread_id raw)).
    destruct (normalize_optional_text (cr_conversation_id raw)) as [s|];
      [destruct (nonempty s); [done|]|];
      (destruct (normalize_optional_text (cr_thread_id raw)) as [s'|]; [destruct (nonempty s'); [done|]|]; apply Hc).
  - unfold validate_run_id in Hid. destruct (normalize_optional_text (cr_run_id raw)) as [s|].
    + destruct (uuid_int s) as [z|]; [|done]. injection Hid as <-. unfold opt_str_or, str_or.
      destruct (nonempty _); [apply uuid_str_clean|done].
    + by injection Hid as <-.
Qed.

(** The active key id of a service is stripped and has a default. *)
Lemma service_key_clean generated s svc :
  new_service env generated s = Ret svc → utf8_valid (_active_key_id svc) = true → clean (_active_key_id svc).
Proof.
  unfold new_service. cbv zeta. intros E. apply obind_Ret_inv in E as (loaded&_&E).
  destruct (dict_has _ _); [|done]. injection E as <-. cbn [_active_key_id]. intros Hu. unfold str_or in *.
  destruct (nonempty (strip (resume_token_active_key_id s))) eqn:Hn; [|done].
  split; [apply strip_idem|]. split; [done|exact Hu].
Qed.

(** The request a client sends to resume the run of [identity]: the same
content, the token, and no other conversation or run. *)
Record resumes (request : ChatRequest) (identity : RunIdentity) (token : string)
  (request' : ChatRequest) : Prop := {
  resumes_resume : cr_resume request' = true;
  resumes_token : cr_resume_token request' = Some token;
  resumes_message : cr_message request' = cr_message request;
  resumes_prompt : cr_system_prompt request' = cr_system_prompt request;
  resumes_metadata : cr_metadata request' = cr_metadata request;
  resumes_conversation : opt_truthy (opt_or (cr_conversation_id request') (cr_thread_id request')) = true →
  opt_or (cr_conversation_id request') (cr_thread_id request') = Some (id_conversation_id identity);
  resumes_run : opt_truthy (cr_run_id request') = true → cr_run_id request' = Some (id_run_id identity)
}.

(** A service that accepts what [issuer] issues: it has the key and reads the
same kind of state. *)
Record accepts (issuer acceptor : RunIdentityService) : Prop := {
  accepts_key : dict_get (_active_key_id issuer) (_keys acceptor) =
  dict_get (_active_key_id issuer) (_keys issuer);
  accepts_namespace : _checkpoint_namespace acceptor = _checkpoint_namespace issuer;
  accepts_schema : _state_schema_version acceptor = _state_schema_version issuer;
  accepts_hash : _request_hash_version acceptor = _request_hash_version issuer
}.

Definition resumed_identity (identity : RunIdentity) (supplied : bool) : RunIdentity := {|
  id_conversation_id := id_conversation_id identity;
  id_run_id := id_run_id identity;
  id_execution_thread_id := id_execution_thread_id identity;
  id_checkpoint_namespace := id_checkpoint_namespace identity;
  id_state_schema_version := id_state_schema_version identity;
  id_request_hash := id_request_hash identity;
  id_request_hash_version := id_request_hash_version identity;
  id_resume_token_version := id_resume_token_version identity;
  id_resume_token_key_id := id_resume_token_key_id identity;
  id_resume_requested := true;
  id_resumed := true;
  id_client_supplied_run_id := supplied |}.

Lemma request_hash_resumes issuer acceptor request identity token request' :
  accepts issuer acceptor → resumes request identity token request' →
  request_hash env acceptor request' = request_hash env issuer request.
Proof.
  intros [_ _ _ Hh] [_ _ Hm Hp Hmd _ _]. unfold request_hash, request_text, canonical_request, sanitized_metadata.
  by rewrite Hh, Hm, Hp, Hmd.
Qed.

Lemma guard_py_true b e : b = true → guard_py b e = Ret tt.
Proof. by intros ->. Qed.

Lemma supplied_matches (o : option string) s :
  (opt_truthy o = true → o = Some s) → negb (opt_truthy o) || bool_decide (o = Some s) = true.
Proof. intros H. destruct (opt_truthy o); [|done]. simpl. rewrite bool_decide_eq_true. auto. Qed.

Lemma accept_issued issuer acceptor t0 t1 request identity token request' :
  accepts issuer acceptor → identity_clean issuer identity → RunIdentity_valid identity = true →
  uuid_ok (id_run_id identity) = true →
  id_execution_thread_id identity = thread_of (id_conversation_id identity) (id_run_id identity) →
  id_checkpoint_namespace identity = _checkpoint_namespace issuer →
  id_state_schema_version identity = _state_schema_version issuer →
  id_request_hash_version identity = _request_hash_version issuer →
  id_resume_token_key_id identity = Some (_active_key_id issuer) →
  issue_resume_token issuer t0 identity = Ret token →
  0 ≤ t1 < t0 + _ttl_seconds issuer →
  resumes request identity token request' →
  _identity_from_token env acceptor t1 request' (id_request_hash identity) =
  Ret (resumed_identity identity (opt_truthy (cr_run_id request'))).
Proof.
  intros [Hk Hns Hsv Hhv] Hc Hv Hu Ht Hcn Hs Hh Hkid Hi Ht1 [Hr Htok _ _ _ Hcv Hrun].
  destruct (issue_inv _ _ _ _ Hi) as (secret&Hsec&Hne).
  unfold _identity_from_token. rewrite Htok, opt_str_or_Some by done.
  rewrite (decode_issued issuer acceptor t0 identity token secret) by (done || congruence).
  cbn [obind fst snd]. cbv zeta.
  pose proof Hv as Hv'. unfold RunIdentity_valid in Hv'.
  repeat (apply andb_prop in Hv' as [Hv' ?]).
  repeat match goal with H : (_ <=? _) = true |- _ => apply Z.leb_le in H end.
  destruct Hc as [Ck Cc Cr Cn Ch Ct].
  rewrite payload_get. change (dict_get "v" (token_payload issuer t0 identity)) with (Some (VInt 2)).
  cbn [py_int obind]. rewrite guard_py_true by done. cbn [obind].
  rewrite (int_or_VInt _ "exp" (t0 + _ttl_seconds issuer)) by (rewrite ?payload_get; done || lia).
  cbn [obind]. rewrite guard_py_true by (apply Z.ltb_lt; lia). cbn [obind].
  rewrite (int_or_VInt _ "state_schema_version" (id_state_schema_version identity))
  by (rewrite ?payload_get; done || lia).
  cbn [obind]. rewrite guard_py_true by (apply Z.eqb_eq; congruence). cbn [obind].
  rewrite (int_or_VInt _ "request_hash_version" (id_request_hash_version identity))
  by (rewrite ?payload_get; done || lia).
  cbn [obind]. rewrite guard_py_true by (by rewrite Hh, Hhv, !Z.eqb_refl). cbn [obind].
  rewrite (text_of_clean _ "conversation_id" (id_conversation_id identity)) by (rewrite ?payload_get; done).
  rewrite (text_of_clean _ "run_id" (id_run_id identity)) by (rewrite ?payload_get; done).
  rewrite (text_of_clean _ "execution_thread_id" (id_execution_thread_id identity)) by (rewrite ?payload_get; done).
  rewrite (text_of_clean _ "checkpoint_namespace" (id_checkpoint_namespace identity)) by (rewrite ?payload_get; done).
  rewrite (text_of_clean _ "request_hash" (id_request_hash identity)) by (rewrite ?payload_get; done).
  rewrite guard_py_true; [cbn [obind]|].
  2:{ cbn [forallb]. destruct Cc as (_&->&_), Cr as (_&->&_), Ct as (_&->&_), Cn as (_&->&_), Ch as (_&->&_). done. }
  unfold _validate_uuid. rewrite guard_py_true by done. cbn [obind].
  rewrite guard_py_true by (apply String.eqb_eq; done). cbn [obind].
  rewrite guard_py_true by (apply String.eqb_eq; congruence). cbn [obind].
  rewrite guard_py_true by (apply String.eqb_eq; done). cbn [obind].
  rewrite guard_py_true by (by apply supplied_matches). cbn [obind].
  rewrite guard_py_true by (by apply supplied_matches). cbn [obind].
  rewrite (int_or_VInt _ "resume_token_version" (id_resume_token_version identity))
  by (rewrite ?payload_get; done || lia).
  cbn [obind]. unfold build_identity.
  assert (RunIdentity_valid (resumed_identity identity (opt_truthy (cr_run_id request'))) = true) as Hvr by done.
  unfold resumed_identity in *. rewrite Hkid, ?Hh in *. rewrite <-Hhv in Hvr |- *. rewrite Hvr. done.
Qed.

Lemma resumed_normalizes issuer acceptor t t0 t1 c r c' r' request identity token request' :
  cr_resume request = false →
  normalize env issuer t c r request = Ret identity →
  issue_resume_token issuer t0 identity = Ret token →
  clean (_active_key_id issuer) → clean (_checkpoint_namespace issuer) →
  clean (id_conversation_id identity) → clean (id_run_id identity) →
  accepts issuer acceptor →
  0 ≤ t1 < t0 + _ttl_seconds issuer →
  resumes request identity token request' →
  normalize env acceptor t1 c' r' request' =
  Ret (resumed_identity identity (opt_truthy (cr_run_id request'))).
Proof.
  intros Hres Hn Hi Hk Hns Hc Hr Hacc Ht Hreq.
  pose proof (fresh_identity_clean _ _ _ _ _ _ Hres Hn Hk Hns Hc Hr) as Hclean.
  destruct (normalize_fresh_inv _ _ _ _ _ _ Hres Hn) as (Hh&Hu&Hth&Hcn&Hs&Hhv&_&Hkid&Hv).
  unfold normalize. rewrite (request_hash_resumes _ _ _ _ _ _ Hacc Hreq), Hh. cbn [obind].
  rewrite (resumes_resume _ _ _ _ Hreq). by eapply accept_issued.
Qed.

(** The token of a fresh run: a service built from the settings, a request that
passed its schema, names from [uuid4], and a checkpoint namespace that carries no
surrounding white space, which nothing checks ([Startup.padded_namespace_refused]).
Text is Unicode. *)
Lemma fresh_resumes generated settings issuer acceptor raw t t0 t1 c r c' r' request identity token request' :
  new_service env generated settings = Ret issuer →
  validate_request raw = Ret request → cr_resume request = false →
  normalize env issuer t c r request = Ret identity →
  issue_resume_token issuer t0 identity = Ret token →
  clean c → clean r →
  utf8_valid (_active_key_id issuer) = true → utf8_valid (_checkpoint_namespace issuer) = true →
  utf8_valid (id_conversation_id identity) = true →
  strip (_checkpoint_namespace issuer) = _checkpoint_namespace issuer →
  accepts issuer acceptor → 0 ≤ t1 < t0 + _ttl_seconds issuer → resumes request identity token request' →
  normalize env acceptor t1 c' r' request' =
  Ret (resumed_identity identity (opt_truthy (cr_run_id request'))).
Proof.
  intros Hs Hv Hr Hn Hi Hc Hrun Huk Hun Huc Hns Hacc Ht Hreq.
  destruct (fresh_names_clean _ _ _ _ _ _ _ Hv Hr Hn Hc Hrun Huc) as [Hcc Hcr].
  apply (resumed_normalizes issuer acceptor t t0 t1 c r c' r' request identity token request'); try done.
  - by eapply service_key_clean.
  - split; [done|]. split; [|done].
    apply normalize_fresh_inv in Hn as (_&_&_&<-&_&_&_&_&Hvalid); [|done]. unfold RunIdentity_valid in Hvalid.
    rewrite !andb_true_iff in Hvalid. destruct Hvalid as [[[[[[_ Hlen] _] _] _] _] _].
    by destruct (id_checkpoint_namespace identity).
Qed.

(** C25. A token that a service issues for a fresh run of a request that passed its
schema is accepted, before it expires, from a request with the same content and no
other conversation or run, by any service that holds the key under the same
identifier and reads the same namespace and versions; the identity is the run's own,
marked as resumed.  The configured checkpoint namespace must not begin or end with
white space, and [uuid4] returns text without any. *)
Theorem resume_round_trip generated settings issuer acceptor raw t t0 t1 c r c' r' request identity token request'
    (Hservice : new_service env generated settings = Ret issuer)
    (Hrequest : validate_request raw = Ret request)
    (Hfresh : cr_resume request = false)
    (Hidentity : normalize env issuer t c r request = Ret identity)
    (Hissued : issue_resume_token issuer t0 identity = Ret token)
    (Huuid4 : clean c ∧ clean r)
    (Hunicode : utf8_valid (_active_key_id issuer) = true ∧ utf8_valid (_checkpoint_namespace issuer) = true ∧
       utf8_valid (id_conversation_id identity) = true)
    (Hnamespace : strip (_checkpoint_namespace issuer) = _checkpoint_namespace issuer)
    (Haccepts : accepts issuer acceptor)
    (Htime : 0 ≤ t1 < t0 + _ttl_seconds issuer)
    (Hresumes : resumes request identity token request') :
  normalize env acceptor t1 c' r' request' =
  Ret (resumed_identity identity (opt_truthy (cr_run_id request'))).
Proof. destruct Huuid4, Hunicode as (?&?&?). by eapply (fresh_resumes generated settings). Qed.

(** ** Soundness of acceptance *)

(** The token [token] carries the payload [payload], signed by [key_id]. *)
Definition signed_token (svc : RunIdentityService) (token : string) (payload : pydict)
  (key_id : string) : Prop :=
  ∃ encoded signature secret raw,
  token = encoded +:+ "." +:+ signature ∧ (key_id, secret) ∈ _keys svc ∧
  _b64decode signature = Some (hmac_sha256 secret encoded) ∧
  _b64decode encoded = Some raw ∧ loads (env_float_repr env) raw = Some (VDict payload).

Lemma split_once_Some s a b : split_once dot s = Some (a, b) → s = a +:+ "." +:+ b.
Proof.
  revert a. induction s as [|c s IH]; intros a; [done|]. cbn [split_once].
  destruct (Ascii.eqb_spec c dot) as [->|]; [by intros [= <- <-]|].
  destruct (split_once dot s) as [[a' b']|]; [|done]. intros [= <- <-].
  rewrite sapp_cons. f_equal. by apply IH.
Qed.

Lemma candidates_configured svc payload kv :
  kv ∈ signing_candidates env svc payload → kv ∈ _keys svc.
Proof.
  unfold signing_candidates. destruct (dict_get _ _) as [secret|] eqn:E; [|done].
  intros ->%list_elem_of_singleton. by apply dict_get_elem_of.
Qed.

Lemma decode_sound svc token payload key_id :
  _decode_token env svc token = Ret (payload, key_id) → signed_token svc token payload key_id.
Proof.
  unfold _decode_token. destruct (split_once dot token) as [[encoded signature]|] eqn:Es; [|done].
  apply split_once_Some in Es. cbv zeta.
  destruct (_b64decode encoded) as [raw|] eqn:Er; [|done].
  destruct (utf8_valid raw); [|done].
  destruct (loads (env_float_repr env) raw) as [[]|] eqn:El; try done;
  destruct (_b64decode signature) as [supplied|] eqn:Esig; try done.
  destruct (matching_key _ _ _) as [k|] eqn:Em; [|done]. intros [= <- <-].
  unfold matching_key in Em. destruct (find _ _) as [[k' secret]|] eqn:Ef; [|done].
  injection Em as <-. apply find_some in Ef as [Hin Heq]. cbn [snd] in Heq.
  apply String.eqb_eq in Heq. apply list_elem_of_In, candidates_configured in Hin.
  exists encoded, signature, secret, raw. rewrite Esig, <-Heq. done.
Qed.

(** What an accepted token says about the identity it yields. *)
Record token_agrees (svc : RunIdentityService) (now : Z) (request : ChatRequest) (payload : pydict)
  (identity : RunIdentity) : Prop := {
  agrees_expiry : ∃ expires, int_or env payload "exp" 0 = Ret expires ∧ now < expires;
  agrees_conversation : text_of env payload "conversation_id" = id_conversation_id identity;
  agrees_run : text_of env payload "run_id" = id_run_id identity;
  agrees_thread : text_of env payload "execution_thread_id" = id_execution_thread_id identity;
  agrees_namespace : text_of env payload "checkpoint_namespace" = id_checkpoint_namespace identity;
  agrees_schema : int_or env payload "state_schema_version" 0 = Ret (id_state_schema_version identity);
  agrees_version : int_or env payload "resume_token_version" 1 = Ret (id_resume_token_version identity);
  agrees_hash : text_of env payload "request_hash" = id_request_hash identity ∨
  text_of env payload "request_hash" = _legacy_request_hash request
}.

(** The identity is the service's own and does not contradict the request. *)
Record identity_matches (svc : RunIdentityService) (request : ChatRequest) (identity : RunIdentity) : Prop := {
  matches_thread : id_execution_thread_id identity =
  thread_of (id_conversation_id identity) (id_run_id identity);
  matches_uuid : uuid_ok (id_run_id identity) = true;
  matches_namespace : id_checkpoint_namespace identity = _checkpoint_namespace svc;
  matches_schema : id_state_schema_version identity = _state_schema_version svc;
  matches_request : request_hash env svc request = Ret (id_request_hash identity);
  matches_conversation : opt_truthy (opt_or (cr_conversation_id request) (cr_thread_id request)) = true →
  opt_or (cr_conversation_id request) (cr_thread_id request) = Some (id_conversation_id identity);
  matches_run : opt_truthy (cr_run_id request) = true → cr_run_id request = Some (id_run_id identity);
  matches_resumed : id_resumed identity = true
}.

Lemma supplied_matches_inv (o : option string) s :
  negb (opt_truthy o) || bool_decide (o = Some s) = true → opt_truthy o = true → o = Some s.
Proof. intros H Ho. rewrite Ho in H. by apply bool_decide_eq_true in H. Qed.

(** C8. Whatever a service accepts as a resume token carries a signature made
with one of its configured keys, has not expired, names exactly the identity
it yields (of the service's own namespace and schema version), was issued
for the content of this very request, and does not contradict the
conversation or run the request names. *)
Theorem resume_sound svc now c r request identity :
  cr_resume request = true →
  normalize env svc now c r request = Ret identity →
  ∃ payload key_id,
  id_resume_token_key_id identity = Some key_id ∧
  signed_token svc (opt_str_or (cr_resume_token request) "") payload key_id ∧
  token_agrees svc now request payload identity ∧
  identity_matches svc request identity.
Proof.
  intros Hres Hn. unfold normalize in Hn. apply obind_Ret_inv in Hn as (h&Hh&Hn).
  rewrite Hres in Hn. unfold _identity_from_token in Hn. cbv zeta in Hn.
  repeat (apply obind_Ret_inv in Hn as (?&?&Hn)).
  unfold build_identity, _validate_uuid in *.
  repeat match goal with H : guard_py _ _ = Ret _ |- _ => apply guard_py_Ret in H end.
  destruct (RunIdentity_valid _) eqn:Hv; [|done]. injection Hn as <-.
  match goal with H : _decode_token _ _ _ = Ret ?d |- _ => destruct d as [payload key_id] end.
  cbn [fst snd] in *.
  repeat match goal with
  | H : (_ =? _)%string = true |- _ => apply String.eqb_eq in H
  | H : (_ <? _) = true |- _ => apply Z.ltb_lt in H
  | H : (_ =? _)%Z = true |- _ => apply Z.eqb_eq in H
  end.
  exists payload, key_id. split; [done|]. split; [by apply decode_sound|]. split.
  - split; simpl; try done; try congruence; eauto.
  case_match; auto.
  - split; simpl; try done; try congruence; try (by apply supplied_matches_inv).
Qed.

(** ** What the request hash binds *)


















(** ** Execution threads *)

Lemma sapp_length_inj a b c d :
  String.length b = String.length d → a +:+ b = c +:+ d → a = c ∧ b = d.
Proof.
  revert c. induction a as [|x a IH]; intros [|y c] Hl H.
  - done.
  - exfalso. apply (f_equal String.length) in H. rewrite sapp_nil, sapp_length in H. simpl in H. lia.
  - exfalso. apply (f_equal String.length) in H. rewrite sapp_nil, sapp_length in H. simpl in H. lia.
  - rewrite !sapp_cons in H. injection H as -> H. destruct (IH c Hl H). by subst.
Qed.

Lemma normalize_thread svc now c r request i :
  normalize env svc now c r request = Ret i →
  RunIdentity_valid i = true ∧
  id_execution_thread_id i = thread_of (id_conversation_id i) (id_run_id i).
Proof.
  intros Hn. destruct (cr_resume request) eqn:Hr.
  - unfold normalize in Hn. apply obind_Ret_inv in Hn as (h&Hh&Hn). rewrite Hr in Hn.
  unfold _identity_from_token in Hn. cbv zeta in Hn.
  repeat (apply obind_Ret_inv in Hn as (?&?&Hn)). unfold build_identity in Hn.
  destruct (RunIdentity_valid _) eqn:Hv; [|done]. injection Hn as <-. split; [done|].
  repeat match goal with H : guard_py _ _ = Ret _ |- _ => apply guard_py_Ret in H end.
  by apply String.eqb_eq.
  - destruct (normalize_fresh_inv _ _ _ _ _ _ Hr Hn) as (_&_&Ht&_&_&_&_&_&Hv). done.
Qed.

(** Two identities with one execution thread are of one conversation and
run: checkpoints are never shared, whatever text a conversation id holds,
because run ids have a fixed length. *)
Theorem thread_injective svc svc' now now' c c' r r' request request' i j :
  normalize env svc now c r request = Ret i →
  normalize env svc' now' c' r' request' = Ret j →
  id_execution_thread_id i = id_execution_thread_id j →
  id_conversation_id i = id_conversation_id j ∧ id_run_id i = id_run_id j.
Proof.
  intros [Hvi Hi]%normalize_thread [Hvj Hj]%normalize_thread E. rewrite Hi, Hj in E.
  assert (∀ k, RunIdentity_valid k = true → slen (id_run_id k) = 36) as Hlen.
  { intros k Hk. unfold RunIdentity_valid, len_between in Hk.
  repeat (apply andb_prop in Hk as [Hk ?]). lia. }
  pose proof (Hlen _ Hvi) as Hri. pose proof (Hlen _ Hvj) as Hrj. unfold slen in *.
  unfold thread_of in E. apply sapp_length_inj in E as [-> E].
  - split; [done|]. by injection E.
  - rewrite !sapp_length. lia.
Qed.
End tokens.

(** ** Witnesses *)

(** ASCII text is its own normal form, and the metadata below holds no float. *)
Definition ascii_env : IdentityEnv :=
  MkIdentityEnv (λ s, s) (λ s, s) (λ _, None) (λ _, "").

Definition sample_service : RunIdentityService :=
  MkRunIdentityService 3600 "execution-state-v1" 1 1 "primary" [("primary", "test-secret")] true.
(** The signing key has been rotated; the old one is kept. *)
Definition rotated_service : RunIdentityService :=
  MkRunIdentityService 60 "execution-state-v1" 1 1 "next" [("next", "other"); ("primary", "test-secret")] true.

(** The settings of the service. *)
Definition keyed_settings : Settings := (settings_with Echo false) <| resume_token_secret := "test-secret" |>.

Lemma keyed_service generated : new_service ascii_env generated keyed_settings = Ret sample_service.
Proof. reflexivity. Qed.

Example sample_service_loaded :
  new_service ascii_env "" (settings_with Echo false) = Ret (MkRunIdentityService 3600 "execution-state-v1" 1 1 "primary" [("primary", "")] false).
Proof. reflexivity. Qed.

Definition sample_run_id : string := "123e4567-e89b-12d3-a456-426614174000".
Definition sample_request : ChatRequest := {|
  cr_message := "Continue the analysis"; cr_thread_id := None;
  cr_conversation_id := Some "conversation-123"; cr_run_id := None; cr_resume := false;
  cr_resume_token := None; cr_system_prompt := None;
  cr_metadata := [("scope", VStr "identity")] |}.

Definition resume_request (token : string) : ChatRequest := {|
  cr_message := "Continue the analysis"; cr_thread_id := None;
  cr_conversation_id := Some "conversation-123"; cr_run_id := Some sample_run_id; cr_resume := true;
  cr_resume_token := Some token; cr_system_prompt := None;
  cr_metadata := [("scope", VStr "identity")] |}.

Definition fresh_identity (h : string) : RunIdentity :=
  MkRunIdentity "conversation-123" sample_run_id (thread_of "conversation-123" sample_run_id)
    "execution-state-v1" 1 h 1 1 (Some "primary") false false false.

Lemma sample_hash : ∃ h, request_hash ascii_env sample_service sample_request = Ret h ∧ slen h = 64.
Proof. eexists. split; [reflexivity|apply sha256_hex_length]. Qed.

Lemma fresh_identity_valid h : slen h = 64 → RunIdentity_valid (fresh_identity h) = true.
Proof. intros Hh. unfold RunIdentity_valid, fresh_identity, len_between. simpl. by rewrite Hh. Qed.

Lemma sample_normalizes : ∃ h,
  normalize ascii_env sample_service 0 sample_run_id sample_run_id sample_request = Ret (fresh_identity h).
Proof.
  destruct sample_hash as (h&Hh&Hl). exists h. unfold normalize. rewrite Hh. cbn [obind sample_request cr_resume].
  change (opt_str_or (cr_run_id sample_request) sample_run_id) with sample_run_id. cbv zeta.
  unfold _validate_uuid. rewrite guard_py_true by (vm_compute; done). cbn [obind]. unfold build_identity.
  pose proof (fresh_identity_valid h Hl) as Hv.
  change (RunIdentity_valid _) with (RunIdentity_valid (fresh_identity h)). by rewrite Hv.
Qed.

Lemma sample_token h : ∃ token, issue_resume_token sample_service 100 (fresh_identity h) = Ret token.
Proof. by eexists. Qed.

Lemma sample_accepts : accepts sample_service rotated_service.
Proof. by split. Qed.

Lemma sample_resumes h token : resumes sample_request (fresh_identity h) token (resume_request token).
Proof. by split. Qed.

Lemma clean_text s : sforall (λ c, is_ascii c && negb (is_space c)) s && nonempty s = true → clean s.
Proof.
  intros [H Hn]%andb_prop. split; [|split; [done|]].
  - apply strip_id. eapply sforall_weaken; [|exact H]. by intros c [_ ?]%andb_prop.
  - apply utf8_valid_ascii. eapply sforall_weaken; [|exact H]. by intros c [? _]%andb_prop.
Qed.

Lemma resume_round_trip_witness : ∃ identity token,
  normalize ascii_env sample_service 0 sample_run_id sample_run_id sample_request = Ret identity ∧
  issue_resume_token sample_service 100 identity = Ret token ∧
  normalize ascii_env rotated_service 3699 "" "" (resume_request token) =
    Ret (resumed_identity identity true).
Proof.
  destruct sample_normalizes as [h Hn]. destruct (sample_token h) as [token Ht].
  exists (fresh_identity h), token. split; [exact Hn|]. split; [exact Ht|].
  apply (resume_round_trip ascii_env "" keyed_settings sample_service rotated_service sample_request 0 100 3699 sample_run_id sample_run_id "" ""
    sample_request (fresh_identity h) token (resume_request token)).
  - reflexivity.
  - reflexivity.
  - reflexivity.
  - exact Hn.
  - exact Ht.
  - split; by apply clean_text.
  - repeat split.
  - reflexivity.
  - apply sample_accepts.
  - simpl. lia.
  - apply sample_resumes.
Defined.

Lemma resume_sound_witness : ∃ token identity payload key_id,
  id_resume_token_key_id identity = Some key_id ∧
  signed_token ascii_env rotated_service (opt_str_or (Some token) "") payload key_id ∧
  token_agrees ascii_env rotated_service 3699 (resume_request token) payload identity ∧
  identity_matches ascii_env rotated_service (resume_request token) identity.
Proof.
  destruct sample_normalizes as [h Hn]. destruct (sample_token h) as [token Ht].
  exists token, (resumed_identity (fresh_identity h) true).
  apply (resume_sound ascii_env rotated_service 3699 "" "" (resume_request token)); [reflexivity|].
  apply (resumed_normalizes ascii_env sample_service rotated_service 0 100 3699 sample_run_id sample_run_id "" ""
    sample_request (fresh_identity h) token (resume_request token));
    [reflexivity|exact Hn|exact Ht|by apply clean_text..|apply sample_accepts|simpl; lia|apply sample_resumes].
Defined.



Lemma thread_injective_witness : ∃ i,
  normalize ascii_env sample_service 0 sample_run_id sample_run_id sample_request = Ret i ∧
  id_conversation_id i = id_conversation_id i ∧ id_run_id i = id_run_id i.
Proof.
  destruct sample_normalizes as [h Hn]. exists (fresh_identity h). split; [exact Hn|].
  exact (thread_injective ascii_env sample_service sample_service 0 0 sample_run_id sample_run_id sample_run_id sample_run_id
    sample_request sample_request (fresh_identity h) (fresh_identity h) Hn Hn eq_refl).
Defined.
