(* ===== verification/Gate.v ===== *)
(** * The conversation gate

    [app/orchestration/run_identity.py], [ConversationGate]: one process admits
    one turn per conversation at a time.  Both critical sections run under the
    lock, so entering and leaving are atomic steps; [gate_exclusive] is mutual
    exclusion under any interleaving of the steps of any number of requests. *)

From stdpp Require Import relations.
From S2P Require Import Prelude.
From S2P Require Import PyData.
From S2P Require Import RunTypes.

(** [self._owners]: the run that holds each conversation. *)
Abbreviation owners := (list (string * string)) (only parsing).

(** Before the [yield] of [hold], and its [finally] clause. *)
Definition gate_enter (identity : RunIdentity) : M owners unit := λ o,
  if dict_has (id_conversation_id identity) o then
    (Raise (busy "Another run is already active for this conversation"), o)
  else (Ret tt, dict_set (id_conversation_id identity) (id_run_id identity) o).

Definition gate_exit (identity : RunIdentity) : M owners unit := λ o,
  match dict_get (id_conversation_id identity) o with
  | Some run =>
      (Ret tt, if String.eqb run (id_run_id identity) then od_pop (id_conversation_id identity) o else o)
  | None => (Ret tt, o)
  end.

Section hold.
Context {S A : Type} (get : S → owners) (set : owners → S → S).

(** [async with gate.hold(identity): body]. *)
Definition hold (identity : RunIdentity) (body : M S A) : M S A :=
  zoom get set (gate_enter identity) ;;;
  try_finally body (zoom get set (gate_exit identity)).

Lemma hold_busy identity body s :
  dict_has (id_conversation_id identity) (get s) = true → set (get s) s = s →
  hold identity body s = (Raise (busy "Another run is already active for this conversation"), s).
Proof.
  intros Hb Hs. unfold hold, bind, zoom, gate_enter. rewrite Hb. simpl. by rewrite Hs.
Qed.
End hold.

(** ** Interleavings *)

(** A state of the process: the owners, and the requests inside the gate. *)
Inductive gate_step : owners * list RunIdentity → owners * list RunIdentity → Prop :=
  | step_enter i o o' inside :
      gate_enter i o = (Ret tt, o') → gate_step (o, inside) (o', i :: inside)
  | step_refused i o e o' inside :
      gate_enter i o = (Raise e, o') → gate_step (o, inside) (o', inside)
  | step_exit i o o' before after_ :
      gate_exit i o = (Ret tt, o') → gate_step (o, before ++ i :: after_) (o', before ++ after_).

(** The owners are the requests inside, one per conversation. *)
Definition gate_inv (s : owners * list RunIdentity) : Prop :=
  NoDup (id_conversation_id <$> s.2) ∧
  ∀ c r, dict_get c s.1 = Some r ↔ ∃ i, i ∈ s.2 ∧ id_conversation_id i = c ∧ id_run_id i = r.

Lemma gate_inv_init : gate_inv ([], []).
Proof. split; [constructor|]. intros c r. split; [done|]. by intros (i&Hi%not_elem_of_nil&_). Qed.

Lemma gate_inv_step s s' : gate_inv s → gate_step s s' → gate_inv s'.
Proof.
  intros [Hnd Ho] Hstep. destruct Hstep as [i o o' inside H|i o e o' inside H|i o o' before after_ H];
    simpl in *.
  - unfold gate_enter in H. destruct (dict_has _ o) eqn:Hh; [done|]. injection H as <-.
    unfold dict_has in Hh. destruct (dict_get (id_conversation_id i) o) eqn:Hg; [done|].
    assert (id_conversation_id i ∉ id_conversation_id <$> inside) as Hni.
    { intros (j&Hij&Hj)%list_elem_of_fmap. rewrite Hij in Hg.
      assert (dict_get (id_conversation_id j) o = Some (id_run_id j)) by (apply Ho; eauto). congruence. }
    split; [by constructor|]. intros c r. simpl. rewrite dict_get_set.
    destruct (String.eqb_spec c (id_conversation_id i)) as [->|Hne].
    + split; [intros [= <-]; exists i; split; [left|done]|].
      intros (j&[->|Hj]%elem_of_cons&Hc&<-); [done|]. destruct Hni. rewrite <-Hc. by apply list_elem_of_fmap_2.
    + rewrite Ho. split; [intros (j&Hj&?); exists j; split; [by right|done]|].
      intros (j&[->|Hj]%elem_of_cons&Hc&?); [done|eauto].
  - unfold gate_enter in H. destruct (dict_has _ o); [|done]. by injection H as _ <-.
  - rewrite fmap_app, fmap_cons in Hnd.
    assert (dict_get (id_conversation_id i) o = Some (id_run_id i)) as Hg by (apply Ho; set_solver).
    unfold gate_exit in H. rewrite Hg, String.eqb_refl in H. injection H as <-.
    pose proof Hnd as (Hb&Hba&Hia)%NoDup_app. apply NoDup_cons in Hia as [Hni Hia].
    split; [simpl; rewrite fmap_app; apply NoDup_app; set_solver|].
    intros c r. simpl. rewrite dict_get_pop. destruct (String.eqb_spec c (id_conversation_id i)) as [->|Hne].
    + split; [done|]. intros (j&[Hj|Hj]%elem_of_app&Hc&<-); exfalso.
      * apply (Hba (id_conversation_id j)); [by apply list_elem_of_fmap_2|rewrite Hc; left].
      * apply Hni. rewrite <-Hc. by apply list_elem_of_fmap_2.
    + rewrite Ho. split; intros (j&Hj&Hc&?); exists j; (split; [|done]); set_solver.
Qed.

(** Whatever the interleaving of requests that enter, are refused and
    leave, at most one request is inside the gate for a conversation, a request
    is refused exactly while another is inside, and when all have left no owner
    remains. *)
Theorem gate_exclusive o inside :
  rtc gate_step ([], []) (o, inside) →
  NoDup (id_conversation_id <$> inside) ∧
  (∀ i, is_ret (gate_enter i o).1 = false ↔
    ∃ j, j ∈ inside ∧ id_conversation_id j = id_conversation_id i) ∧
  (inside = [] → o = []).
Proof.
  intros Hr. assert (gate_inv (o, inside)) as [Hnd Ho].
  { remember ([], []) as s0 eqn:E. assert (gate_inv s0) as H0 by (subst; apply gate_inv_init). clear E.
    induction Hr as [|s s1 s2 Hs _ IH]; [done|]. eapply IH, gate_inv_step; eauto. }
  simpl in *. split; [done|]. split.
  - intros i. unfold gate_enter, dict_has. destruct (dict_get _ o) as [r|] eqn:E; simpl.
    + apply Ho in E as (j&Hj&Hc&_). split; [eauto|done].
    + split; [done|]. intros (j&Hj&Hc). rewrite <-Hc in E.
      assert (dict_get (id_conversation_id j) o = Some (id_run_id j)) by (apply Ho; eauto). congruence.
  - intros ->. destruct o as [|[c r] o]; [done|].
    assert (∃ i : RunIdentity, i ∈ [] ∧ id_conversation_id i = c ∧ id_run_id i = r) as (j&Hj&_).
    { apply Ho. simpl. by rewrite String.eqb_refl. }
    by apply not_elem_of_nil in Hj.
Qed.

Definition sample_identity (conversation run : string) : RunIdentity :=
  MkRunIdentity conversation run (conversation +:+ ":" +:+ run) "ns" 1 "hash" 1 1 None false false false.

Lemma gate_exclusive_witness :
  let a := sample_identity "one" "run-a" in let b := sample_identity "two" "run-b" in
  NoDup (id_conversation_id <$> [b; a]) ∧
  (∀ i, is_ret (gate_enter i [("one", "run-a"); ("two", "run-b")]).1 = false ↔
    ∃ j, j ∈ [b; a] ∧ id_conversation_id j = id_conversation_id i) ∧
  ([b; a] = [] → [("one", "run-a"); ("two", "run-b")] = []).
Proof.
  apply (gate_exclusive [("one", "run-a"); ("two", "run-b")]
    [sample_identity "two" "run-b"; sample_identity "one" "run-a"]).
  eapply rtc_l; [apply (step_enter (sample_identity "one" "run-a")); reflexivity|].
  eapply rtc_l; [eapply (step_refused (sample_identity "one" "run-c")); reflexivity|].
  eapply rtc_l; [apply (step_enter (sample_identity "two" "run-b")); reflexivity|].
  apply rtc_refl.
Defined.
