(* ===== verification/Registry.v ===== *)
(** * The process-local run registry

    [RunRegistry] of [app/orchestration/run_identity.py], the idempotency
    registry kept for compatibility: an [OrderedDict] from a conversation and a
    run to a dated record, with a time-to-live and a bound.  Each coroutine runs
    under the registry's lock and awaits nothing inside, so it is one step;
    [purge_now] and [store_now] are its two readings of [monotonic()].
    [registry_exclusive]: whatever is purged or evicted, a run executes at most
    once at a time. *)

From stdpp Require Import relations.
From S2P Require Import Prelude PyData RunTypes ChatSchema.

Record _RunRecord : Type := Mk_RunRecord {
  rr_request_hash : string;
  rr_status : RunStatus;
  rr_response : option pydict
}.

Abbreviation run_key := (string * string)%type (only parsing).
Abbreviation run_dict := (list ((string * string) * (Z * _RunRecord))) (only parsing).

Record RunRegistry : Type := MkRegistry {
  rg_ttl_seconds : Z;
  rg_max_records : Z;
  rg_records : run_dict
}.

#[export] Instance eta_RunRegistry : Eta RunRegistry := λ s,
  MkRegistry (rg_ttl_seconds s) (rg_max_records s) (rg_records s).

Definition registry_init (ttl_seconds max_records : Z) : outcome RunRegistry :=
  if ttl_seconds <=? 0 then Raise (PyExn ValueError "ttl_seconds must be positive")
  else if max_records <=? 0 then Raise (PyExn ValueError "max_records must be positive")
  else Ret (MkRegistry ttl_seconds max_records []).

Definition key_of (identity : RunIdentity) : run_key :=
  (id_conversation_id identity, id_run_id identity).

Fixpoint run_get (k : run_key) (d : run_dict) : option (Z * _RunRecord) :=
  match d with
  | [] => None
  | (k', v) :: d' => if decide (k = k') then Some v else run_get k d'
  end.

(** [d.pop(k, None)]. *)
Definition run_pop (k : run_key) (d : run_dict) : run_dict := filter (λ kv, kv.1 ≠ k) d.

Definition is_running (r : _RunRecord) : bool := bool_decide (rr_status r = Running).

(** The first key whose record is not running. *)
Fixpoint removable (d : run_dict) : option run_key :=
  match d with
  | [] => None
  | (k, (_, r)) :: d' => if is_running r then removable d' else Some k
  end.

(** The loop of [_store]; [length d] rounds are enough ([evict_bound]). *)
Fixpoint evict_runs (fuel : nat) (max_records : Z) (d : run_dict) : run_dict :=
  match fuel with
  | O => d
  | S fuel' =>
      if max_records <? Z.of_nat (length d) then
        match removable d with
        | Some k => evict_runs fuel' max_records (run_pop k d)
        | None => d
        end
      else d
  end.

Definition _store (now : Z) (key : run_key) (record : _RunRecord) : M RunRegistry unit :=
  modify (λ s,
    let d := run_pop key (rg_records s) ++ [(key, (now, record))] in
    s <| rg_records := evict_runs (length d) (rg_max_records s) d |>).

(** The records [_purge] keeps. *)
Definition unexpired (cutoff : Z) (kv : run_key * (Z * _RunRecord)) : Prop :=
  ¬ (kv.2.1 < cutoff ∧ is_running kv.2.2 = false).
#[export] Instance unexpired_dec cutoff kv : Decision (unexpired cutoff kv).
Proof. unfold unexpired. apply _. Defined.

Definition _purge (now : Z) : M RunRegistry unit :=
  modify (λ s, s <| rg_records := filter (unexpired (now - seconds (rg_ttl_seconds s))) (rg_records s) |>).

Definition _assert_same_request (record : _RunRecord) (identity : RunIdentity) :
    M RunRegistry unit :=
  if String.eqb (rr_request_hash record) (id_request_hash identity) then ret tt
  else raise (conflict "The supplied run_id is already bound to a different request payload").

(** [fresh] is what [uuid4()] returns to the validator of the response. *)
Definition cached_response (fresh : string) (purge_now store_now : Z) (identity : RunIdentity) :
    M RunRegistry (option ChatResponse) :=
  _purge purge_now ;;;
  let! stored := gets (λ s, run_get (key_of identity) (rg_records s)) in
  match stored with
  | None => ret None
  | Some (_, record) =>
      _assert_same_request record identity ;;;
      _store store_now (key_of identity) record ;;;
      match rr_status record, rr_response record with
      | Completed, Some response =>
          let! r := of_outcome (response_validate fresh response) in ret (Some r)
      | _, _ => ret None
      end
  end.

(** The checks of [start] on a stored record. *)
Definition start_check (record : _RunRecord) (identity : RunIdentity) : M RunRegistry unit :=
  _assert_same_request record identity ;;;
  match rr_status record with
  | Completed => raise (conflict "The run is already completed")
  | Running => raise (busy "The run is already active")
  | _ =>
      if id_resumed identity then ret tt
      else raise (conflict "The run already exists; use its resume token to continue it")
  end.

Definition registry_start (purge_now store_now : Z) (identity : RunIdentity) :
    M RunRegistry unit :=
  _purge purge_now ;;;
  let! stored := gets (λ s, run_get (key_of identity) (rg_records s)) in
  match stored with
  | Some (_, record) => start_check record identity
  | None => ret tt
  end ;;;
  _store store_now (key_of identity) (Mk_RunRecord (id_request_hash identity) Running None).

Definition registry_complete (store_now : Z) (identity : RunIdentity) (response : ChatResponse) :
    M RunRegistry unit :=
  _store store_now (key_of identity)
    (Mk_RunRecord (id_request_hash identity) Completed (Some (response_dump response))).

Definition registry_interrupt (store_now : Z) (identity : RunIdentity) : M RunRegistry unit :=
  let! stored := gets (λ s, run_get (key_of identity) (rg_records s)) in
  match stored with
  | None => ret tt
  | Some (_, record) =>
      if bool_decide (rr_status record = Completed) then ret tt
      else _store store_now (key_of identity)
             (Mk_RunRecord (id_request_hash identity) Interrupted None)
  end.

(** ** The dictionary *)

Lemma run_get_elem k v d : NoDup d.*1 → run_get k d = Some v ↔ (k, v) ∈ d.
Proof.
  induction d as [|[k' v'] d IH]; simpl.
  { intros _. split; [done|]. by intros ?%not_elem_of_nil. }
  intros [Hk Hd]%NoDup_cons. rewrite elem_of_cons. destruct (decide (k = k')) as [->|Hne].
  - split; [intros [= ->]; by left|]. intros [[= ->]|Hin]; [done|]. destruct Hk.
    apply list_elem_of_fmap. by exists (k', v).
  - rewrite IH by done. split; [by right|]. intros [[= -> ->]|?]; done.
Qed.

Lemma run_filter_NoDup (P : run_key * (Z * _RunRecord) → Prop) `{∀ x, Decision (P x)} (d : run_dict) :
  NoDup d.*1 → NoDup (filter P d).*1.
Proof. intros Hd. eapply sublist_NoDup; [exact Hd|]. f_equiv. apply sublist_filter. Qed.

Lemma removable_spec d k :
  NoDup d.*1 → removable d = Some k → ∃ v, (k, v) ∈ d ∧ is_running v.2 = false.
Proof.
  induction d as [|[k' [t r]] d IH]; simpl; [done|]. intros [_ Hd]%NoDup_cons.
  destruct (is_running r) eqn:E.
  - intros Hk. destruct (IH Hd Hk) as (v&?&?). exists v. split; [by right|done].
  - intros [= <-]. exists (t, r). split; [left|done].
Qed.

Lemma removable_None d : removable d = None ↔ Forall (λ kv, is_running kv.2.2 = true) d.
Proof.
  induction d as [|[k [t r]] d IH]; simpl; [by split|].
  rewrite Forall_cons, <-IH. simpl. by destruct (is_running r); naive_solver.
Qed.

Lemma run_pop_length k d : k ∈ d.*1 → (length (run_pop k d) < length d)%nat.
Proof.
  unfold run_pop. induction d as [|[k' v] d IH]; [by intros ?%not_elem_of_nil|].
  rewrite filter_cons, fmap_cons, elem_of_cons. simpl. destruct (decide (k' ≠ k)) as [Hne|He]; simpl.
  - intros [->|Hin]; [done|]. specialize (IH Hin). lia.
  - intros _. pose proof (length_filter (λ kv : run_key * (Z * _RunRecord), kv.1 ≠ k) d). lia.
Qed.

(** ** Eviction *)

(** What eviction does to a dictionary: it keeps a part with every running
    record, and ends within the bound or with running records only. *)
Record evicted (d d' : run_dict) : Prop := {
  evd_sub : d'.*1 `sublist_of` d.*1;
  evd_kept kv : kv ∈ d' → kv ∈ d;
  evd_running kv : kv ∈ d → is_running kv.2.2 = true → kv ∈ d'
}.

Lemma evict_runs_kept fuel m d : NoDup d.*1 → evicted d (evict_runs fuel m d).
Proof.
  revert d. induction fuel as [|fuel IH]; intros d Hnd; simpl; [by split|].
  destruct (m <? _); [|by split]. destruct (removable d) as [k|] eqn:E; [|by split].
  destruct (removable_spec d k Hnd E) as (v&Hv&Hr).
  destruct (IH (run_pop k d)) as [Hs Hk Hrun]; [by apply run_filter_NoDup|]. split.
  - etrans; [exact Hs|]. f_equiv. apply sublist_filter.
  - intros kv Hkv%Hk. by apply list_elem_of_filter in Hkv as [_ ?].
  - intros [k' v'] Hin Hrun'. apply Hrun; [|done]. apply list_elem_of_filter. split; [|done].
    simpl. intros ->. apply run_get_elem in Hin, Hv; [|done..]. simplify_eq. simpl in *. congruence.
Qed.

Lemma evict_bound m d fuel :
  NoDup d.*1 → (length d ≤ fuel)%nat →
  Z.of_nat (length (evict_runs fuel m d)) ≤ m ∨
  Forall (λ kv, is_running kv.2.2 = true) (evict_runs fuel m d).
Proof.
  revert d. induction fuel as [|fuel IH]; intros d Hnd Hl; simpl.
  { destruct d; simpl in *; [right; constructor|lia]. }
  destruct (m <? _) eqn:Em; [|apply Z.ltb_ge in Em; by left].
  destruct (removable d) as [k|] eqn:E; [|right; by apply removable_None].
  apply IH; [by apply run_filter_NoDup|].
  destruct (removable_spec d k Hnd E) as (v&Hv&_).
  assert (k ∈ d.*1) as Hk%run_pop_length by (apply list_elem_of_fmap; by exists (k, v)). lia.
Qed.

(** ** Interleavings *)

(** A state of the process: the registry, and the requests that execute a run. *)
Inductive registry_step : RunRegistry * list RunIdentity → RunRegistry * list RunIdentity → Prop :=
  | rs_start i t1 t2 s s' executing :
      registry_start t1 t2 i s = (Ret tt, s') → registry_step (s, executing) (s', i :: executing)
  | rs_refused i t1 t2 e s s' executing :
      registry_start t1 t2 i s = (Raise e, s') → registry_step (s, executing) (s', executing)
  | rs_cached i fresh t1 t2 o s s' executing :
      cached_response fresh t1 t2 i s = (o, s') → registry_step (s, executing) (s', executing)
  | rs_complete i t response s s' before after_ :
      registry_complete t i response s = (Ret tt, s') →
      registry_step (s, before ++ i :: after_) (s', before ++ after_)
  | rs_interrupt i t s s' before after_ :
      registry_interrupt t i s = (Ret tt, s') →
      registry_step (s, before ++ i :: after_) (s', before ++ after_).

(** The running records are the keys [live]; the bound holds or nothing else is
    left. *)
Record registry_inv (live : list run_key) (s : RunRegistry) : Prop := {
  rgi_nodup : NoDup (rg_records s).*1;
  rgi_live k : k ∈ live ↔ ∃ v, (k, v) ∈ rg_records s ∧ is_running v.2 = true;
  rgi_bound : Z.of_nat (length (rg_records s)) ≤ rg_max_records s ∨
    Forall (λ kv, is_running kv.2.2 = true) (rg_records s)
}.

Lemma purge_inv live now s : registry_inv live s → registry_inv live (_purge now s).2.
Proof.
  intros [Hd Hl Hb]. split; simpl.
  - by apply run_filter_NoDup.
  - intros k. rewrite Hl. split; intros (v&Hv&Hr); exists v; (split; [|done]).
    + apply list_elem_of_filter. split; [|done]. unfold unexpired. simpl. rewrite Hr. naive_solver.
    + by apply list_elem_of_filter in Hv as [_ ?].
  - destruct Hb as [Hb|Hb]; [left|right].
    + pose proof (length_filter (unexpired (now - seconds (rg_ttl_seconds s))) (rg_records s)). lia.
    + rewrite Forall_forall in *. intros kv [_ Hkv]%list_elem_of_filter. auto.
Qed.

(** Storing makes [key] live exactly when the record is running. *)
Lemma store_inv live now key record s :
  registry_inv live s →
  registry_inv (if is_running record then key :: filter (.≠ key) live else filter (.≠ key) live)
    (_store now key record s).2.
Proof.
  intros [Hd Hl _]. unfold _store, modify. simpl.
  set (d := run_pop key (rg_records s) ++ [(key, (now, record))]).
  assert (NoDup d.*1) as Hnd.
  { unfold d. rewrite fmap_app. apply NoDup_app. split; [by apply run_filter_NoDup|].
    split; [|apply NoDup_singleton]. intros k (kv&->&Hkv)%list_elem_of_fmap.
    apply list_elem_of_filter in Hkv as [Hne _]. by intros ?%list_elem_of_singleton. }
  destruct (evict_runs_kept (length d) (rg_max_records s) d Hnd) as [Hs Hk Hrun].
  split; simpl.
  - by eapply sublist_NoDup.
  - assert (∀ k v, (k, v) ∈ d ↔ (k, v) ∈ rg_records s ∧ k ≠ key ∨ k = key ∧ v = (now, record)) as Hin.
    { intros k v. unfold d, run_pop. rewrite elem_of_app, list_elem_of_filter, list_elem_of_singleton.
      simpl. naive_solver. }
    intros k. transitivity (∃ v, (k, v) ∈ d ∧ is_running v.2 = true).
    + assert (k ∈ filter (.≠ key) live ↔ k ≠ key ∧ ∃ v, (k, v) ∈ rg_records s ∧ is_running v.2 = true)
        as Hf by (by rewrite list_elem_of_filter, Hl).
      transitivity ((k = key ∧ is_running record = true) ∨ k ∈ filter (.≠ key) live).
      { destruct (is_running record); [rewrite elem_of_cons|]; intuition congruence. }
      rewrite Hf. split.
      * intros [[-> Hr]|(Hne&v&Hv&Hr)]; eexists; (split; [apply Hin; eauto|done]).
      * intros (v&[[Hv Hne]|[-> ->]]%Hin&Hr); [right|left]; eauto.
    + split; intros (v&?&?); eauto.
  - by apply evict_bound.
Qed.

Lemma registry_inv_live live live' s :
  (∀ k, k ∈ live ↔ k ∈ live') → registry_inv live s → registry_inv live' s.
Proof. intros He [Hd Hl Hb]. split; [done| |done]. intros k. by rewrite <-He, Hl. Qed.

(** What [cached_response] leaves. *)
Lemma cached_inv live fresh t1 t2 i s :
  registry_inv live s → registry_inv live (cached_response fresh t1 t2 i s).2.
Proof.
  intros Hinv%(purge_inv _ t1). revert Hinv. unfold cached_response, bind, gets.
  destruct (_purge t1 s) as [[[]|e] s1]; intros Hinv; [|done]. simpl in Hinv.
  destruct (run_get _ _) as [[t record]|] eqn:Eg; [|done].
  unfold _assert_same_request. destruct (String.eqb _ _); [|done]. simpl.
  pose proof (store_inv _ t2 (key_of i) record _ Hinv) as H2.
  apply run_get_elem in Eg; [|by destruct Hinv].
  assert (registry_inv live (_store t2 (key_of i) record s1).2) as H3.
  { eapply registry_inv_live, H2. intros k. destruct (is_running record) eqn:Er.
    - assert (key_of i ∈ live) by (destruct Hinv as [_ -> _]; eauto).
      rewrite elem_of_cons, list_elem_of_filter.
      destruct (decide (k = key_of i)) as [->|]; naive_solver.
    - rewrite list_elem_of_filter. split; [by intros [_ ?]|]. intros Hk. split; [|done]. intros ->.
      destruct Hinv as [Hd Hl _]. apply Hl in Hk as (v&Hv&Hr).
      apply run_get_elem in Eg, Hv; [|done..]. simplify_eq. simpl in *. congruence. }
  simpl in H3. destruct (rr_status record), (rr_response record); try exact H3.
  by destruct (response_validate _ _).
Qed.

(** [start] makes its key live, and only when it was not. *)
Lemma start_inv live t1 t2 i s :
  registry_inv live s →
  match registry_start t1 t2 i s with
  | (Ret _, s') => key_of i ∉ live ∧ registry_inv (key_of i :: live) s'
  | (Raise _, s') => registry_inv live s'
  end.
Proof.
  intros Hinv%(purge_inv _ t1). revert Hinv. unfold registry_start, bind, gets.
  destruct (_purge t1 s) as [[[]|e] s1]; intros Hinv; [|done]. simpl in Hinv.
  assert (key_of i ∉ live → match _store t2 (key_of i)
      (Mk_RunRecord (id_request_hash i) Running None) s1 with
    | (Ret _, s') => key_of i ∉ live ∧ registry_inv (key_of i :: live) s'
    | (Raise _, s') => registry_inv live s' end) as Hstore.
  { intros Hni. split; [done|].
    eapply registry_inv_live, (store_inv _ t2 (key_of i) _ _ Hinv). intros k. simpl.
    rewrite !elem_of_cons, list_elem_of_filter. destruct (decide (k = key_of i)); naive_solver. }
  destruct (run_get _ _) as [[t record]|] eqn:Eg.
  - unfold start_check, _assert_same_request, bind. destruct (String.eqb _ _); [|done].
    assert (rr_status record ≠ Running → key_of i ∉ live) as Hni.
    { intros Hr Hl. destruct Hinv as [Hd Hlive _]. apply Hlive in Hl as (v&Hv&Hrun).
      apply run_get_elem in Hv; [|done]. simplify_eq. simpl in *.
      unfold is_running in Hrun. by apply bool_decide_eq_true in Hrun. }
    destruct (rr_status record); simpl; try done; destruct (id_resumed i); simpl; try done; by apply Hstore, Hni.
  - apply Hstore. intros Hl. destruct Hinv as [Hd Hlive _].
    apply Hlive in Hl as (v&Hv&_). apply run_get_elem in Hv; [|done]. congruence.
Qed.

Lemma finish_inv live now i record s :
  is_running record = false → key_of i ∉ live → registry_inv (key_of i :: live) s →
  registry_inv live (_store now (key_of i) record s).2.
Proof.
  intros Hr Hni Hinv%(store_inv _ now (key_of i) record). rewrite Hr in Hinv.
  eapply registry_inv_live, Hinv. intros k.
  rewrite list_elem_of_filter, elem_of_cons. destruct (decide (k = key_of i)) as [->|]; naive_solver.
Qed.

(** The keys of the requests that execute a run are distinct and live. *)
Definition exclusive (x : RunRegistry * list RunIdentity) : Prop :=
  NoDup (key_of <$> x.2) ∧ registry_inv (key_of <$> x.2) x.1.

Lemma exclusive_finish s before i after_ :
  exclusive (s, before ++ i :: after_) →
  NoDup (key_of <$> before ++ after_) ∧ key_of i ∉ key_of <$> before ++ after_ ∧
  registry_inv (key_of i :: (key_of <$> before ++ after_)) s.
Proof.
  intros [Hnd Hinv]. simpl in *. rewrite fmap_app, fmap_cons in *.
  rewrite (Permutation_app_comm), <-app_comm_cons in Hnd.
  apply NoDup_cons in Hnd as [Hni Hnd]. rewrite (Permutation_app_comm (key_of <$> after_)) in Hnd, Hni.
  split; [done|]. split; [done|]. eapply registry_inv_live, Hinv. set_solver.
Qed.

Lemma exclusive_step x x' : exclusive x → registry_step x x' → exclusive x'.
Proof.
  intros Hx Hstep. destruct Hstep as [i t1 t2 s s' ex H|i t1 t2 e s s' ex H|i fresh t1 t2 o s s' ex H
    |i t r s s' before after_ H|i t s s' before after_ H].
  - destruct Hx as [Hnd Hinv]. pose proof (start_inv _ t1 t2 i s Hinv) as Hs. rewrite H in Hs.
    destruct Hs as [Hni Hinv']. by split; [constructor|].
  - destruct Hx as [Hnd Hinv]. pose proof (start_inv _ t1 t2 i s Hinv) as Hs. by rewrite H in Hs.
  - destruct Hx as [Hnd Hinv]. pose proof (cached_inv _ fresh t1 t2 i s Hinv) as Hs. by rewrite H in Hs.
  - apply exclusive_finish in Hx as (Hnd&Hni&Hinv). split; [done|].
    unfold registry_complete in H.
    by match type of H with _ = (_, ?s') => change s' with (Ret (A:=unit) tt, s').2 end;
      rewrite <-H; apply finish_inv.
  - apply exclusive_finish in Hx as (Hnd&Hni&Hinv). split; [done|]. simpl.
    assert (∃ v, run_get (key_of i) (rg_records s) = Some v ∧ is_running v.2 = true) as ([t' record]&Hg&Hr).
    { destruct Hinv as [Hd Hl _]. destruct (proj1 (Hl (key_of i))) as (v&Hv&Hr); [left|].
      exists v. split; [by apply run_get_elem|done]. }
    unfold registry_interrupt, bind, gets in H. rewrite Hg in H. unfold is_running in Hr.
    apply bool_decide_eq_true in Hr. simpl in Hr. rewrite Hr in H. simpl in H.
    by match type of H with _ = (_, ?s') => change s' with (Ret (A:=unit) tt, s').2 end;
      rewrite <-H; apply finish_inv.
Qed.

(** Whatever the interleaving of requests that start, are refused, look for a
    stored response, complete and are interrupted, and whatever the clock makes
    the registry purge or evict: at most one request executes a run, a start of
    an executing run is refused, and the registry holds no more records than its
    bound, or than there are requests executing. *)
Theorem registry_exclusive ttl_seconds max_records s0 s executing
    (Hinit : registry_init ttl_seconds max_records = Ret s0)
    (Hsteps : rtc registry_step (s0, []) (s, executing)) :
  NoDup (key_of <$> executing) ∧
  (∀ i t1 t2, key_of i ∈ key_of <$> executing → is_ret (registry_start t1 t2 i s).1 = false) ∧
  Z.of_nat (length (rg_records s)) ≤ Z.max (rg_max_records s) (Z.of_nat (length executing)).
Proof.
  assert (exclusive (s, executing)) as [Hnd Hinv].
  { assert (exclusive (s0, [])) as H0.
    { unfold registry_init in Hinit. destruct (_ <=? _); [done|]. destruct (max_records <=? 0) eqn:E; [done|].
      simplify_eq. split; [constructor|]. split; simpl; [constructor| |left; apply Z.leb_gt in E; lia].
      intros k. split; [by intros ?%not_elem_of_nil|]. by intros (v&?%not_elem_of_nil&_). }
    revert H0. generalize (s0, @nil RunIdentity) Hsteps. clear. intros x Hsteps.
    induction Hsteps as [|x y z Hs _ IH]; [done|]. intros H0. eapply IH, exclusive_step; eauto. }
  simpl in *. split; [done|]. split.
  - intros i t1 t2 Hi. pose proof (start_inv _ t1 t2 i s Hinv) as Hs.
    destruct (registry_start t1 t2 i s) as [[[]|e] s']; [by destruct Hs|done].
  - destruct Hinv as [Hd Hl [Hb|Hb]]; [lia|]. enough (length (rg_records s) ≤ length executing)%nat by lia.
    rewrite <-(length_fmap fst), <-(length_fmap key_of). apply submseteq_length, NoDup_submseteq; [done|].
    intros k ([k' v]&->&Hin)%list_elem_of_fmap. apply Hl. exists v. split; [done|].
    rewrite Forall_forall in Hb. by apply (Hb _ Hin).
Qed.

(** A completed run is answered from its record: while there is room for the
    record and it has not expired, a retry with the same request gets the stored
    response back, field by field. *)
Theorem registry_replays fresh t t1 t2 live i j response s
    (Hinv : registry_inv live s)
    (Hroom : Z.of_nat (length (rg_records s)) < rg_max_records s)
    (Hfilled : response_filled response)
    (Hkey : key_of j = key_of i) (Hhash : id_request_hash j = id_request_hash i)
    (Hclock : t1 - seconds (rg_ttl_seconds s) ≤ t) :
  (cached_response fresh t1 t2 j (registry_complete t i response s).2).1 = Ret (Some response).
Proof.
  destruct Hinv as [Hd _ _].
  set (record := Mk_RunRecord (id_request_hash i) Completed (Some (response_dump response))).
  set (d := run_pop (key_of i) (rg_records s) ++ [(key_of i, (t, record))]).
  assert (rg_records (registry_complete t i response s).2 = d) as Hrec.
  { unfold registry_complete, _store, modify. simpl. fold record d.
    assert (Z.of_nat (length d) ≤ rg_max_records s).
    { unfold d, run_pop. rewrite length_app. simpl.
      pose proof (length_filter (λ kv : run_key * (Z * _RunRecord), kv.1 ≠ key_of i) (rg_records s)). lia. }
    destruct (length d) as [|n] eqn:El; [done|]. cbn [evict_runs]. rewrite El.
    by destruct (Z.ltb_spec (rg_max_records s) (Z.of_nat (S n))); [lia|]. }
  set (s' := (registry_complete t i response s).2) in *.
  assert (rg_ttl_seconds s' = rg_ttl_seconds s) as Ht by done. clearbody s'.
  assert (run_get (key_of j) (rg_records (_purge t1 s').2) = Some (t, record)) as Hget.
  { change (rg_records (_purge t1 s').2) with
      (filter (unexpired (t1 - seconds (rg_ttl_seconds s'))) (rg_records s')).
    rewrite Hrec, Ht, Hkey. apply run_get_elem.
    - apply run_filter_NoDup. unfold d. rewrite fmap_app. apply NoDup_app.
      split; [by apply run_filter_NoDup|]. split; [|apply NoDup_singleton].
      intros k (kv&->&Hkv)%list_elem_of_fmap. apply list_elem_of_filter in Hkv as [Hne _].
      by intros ?%list_elem_of_singleton.
    - apply list_elem_of_filter. split; [unfold unexpired; simpl; lia|].
      unfold d. rewrite elem_of_app, list_elem_of_singleton. by right. }
  unfold cached_response, bind, gets. change (_purge t1 s') with (Ret (A:=unit) tt, (_purge t1 s').2).
  cbv beta iota. rewrite Hget. unfold _assert_same_request. simpl. rewrite Hhash, String.eqb_refl.
  unfold of_outcome. simpl. by rewrite response_validate_dump.
Qed.
