(* ===== verification/Inventory.v ===== *)
(** * The runtime inventory and model selection

    [app/services/inventory.py] and [app/llm/model_registry.py]: the live model
    and tool lists with their two independent stale caches, and the resolution
    of a role to an installed, compatible model. *)

From S2P Require Import Prelude PyData RunTypes Settings.

Record RuntimeInventory : Type := MkInventory {
  ri_models : list pydict;
  ri_tools : list pydict;
  ri_errors : list (string * string);
  ri_cached : bool;
  ri_age_seconds : Z
}.

(** A name kept when it is a non-empty string not seen before. *)
Definition add_name (names : list string) (name : pyval) : list string :=
  match name with
  | VStr s => if nonempty s && negb (bool_decide (s ∈ names)) then names ++ [s] else names
  | _ => names
  end.

(** [item.get("name") or item.get("model")]. *)
Definition model_name_of (item : pydict) : pyval :=
  let name := get_or_none "name" item in
  if truthy name then name else get_or_none "model" item.

Definition model_names (inv : RuntimeInventory) : list string :=
  foldl (λ names item, add_name names (model_name_of item)) [] (ri_models inv).

Definition tool_names (inv : RuntimeInventory) : list string :=
  foldl (λ names item, add_name names (get_or_none "name" item)) [] (ri_tools inv).

Definition has_tool (inv : RuntimeInventory) (name : string) : bool :=
  bool_decide (name ∈ tool_names inv).

(** ** Model capabilities *)

Record ModelCapabilities : Type := MkCapabilities {
  mc_chat : bool; mc_vision : bool; mc_embedding : bool; mc_heavy : bool
}.

(** [_PARAMETER_PATTERN]: digits, optionally a dot and digits, and a [b] that no
    letter follows; not preceded by a letter or a digit.  A match is represented
    by the integer part of its size, which decides [size >= 20.0]. *)
Definition is_digit (c : Ascii.ascii) : bool := (48 <=? code c)%N && (code c <=? 57)%N.

Fixpoint digits_span (s : string) : string * string :=
  match s with
  | String c s' =>
      if is_digit c then let '(d, r) := digits_span s' in (String c d, r)
      else (EmptyString, s)
  | EmptyString => (EmptyString, EmptyString)
  end.

Fixpoint digits_value (acc : Z) (s : string) : Z :=
  match s with
  | String c s => digits_value (acc * 10 + (Z.of_N (code c) - 48)) s
  | EmptyString => acc
  end.

(** The [b] and its lookahead; the text left after it. *)
Definition match_b (s : string) : option string :=
  match s with
  | String c r =>
      if (code c =? 98)%N then
        match r with
        | String c' _ => if is_lower_or_digit c' && negb (is_digit c') then None else Some r
        | EmptyString => Some r
        end
      else None
  | EmptyString => None
  end.

Definition match_size (s : string) : option (Z * string) :=
  let '(d, r) := digits_span s in
  if nonempty d then
    let with_fraction :=
      match r with
      | String c r' =>
          if (code c =? 46)%N then
            let '(f, r'') := digits_span r' in
            if nonempty f then match_b r'' else None
          else None
      | EmptyString => None
      end in
    match with_fraction with
    | Some rest => Some (digits_value 0 d, rest)
    | None => rest ← match_b r; Some (digits_value 0 d, rest)
    end
  else None.

(** [finditer] on a lower-case name; [boundary]: the lookbehind holds here. *)
Fixpoint find_sizes (fuel : nat) (boundary : bool) (s : string) : list Z :=
  match fuel, s with
  | S fuel, String c s' =>
      match (if boundary then match_size s else None) with
      | Some (n, rest) => n :: find_sizes fuel false rest
      | None => find_sizes fuel (negb (is_lower_or_digit c)) s'
      end
  | _, _ => []
  end.

Definition parameter_sizes (name : string) : list Z :=
  find_sizes (String.length name) true name.

Definition capabilities_for (model : string) : ModelCapabilities :=
  let name := lower (strip model) in
  let embedding := contains "embedding" name || contains "embed" name in
  {| mc_chat := negb embedding;
     mc_vision := existsb (λ t, contains t name) ["-vl"; ":vl"; "vision"; "llava"];
     mc_embedding := embedding;
     mc_heavy := existsb (λ n, 20 <=? n) (parameter_sizes name)
                 || existsb (λ t, contains t name) ["70b"; "72b"; "405b"] |}.

(** ** [ModelSelector] *)

Definition _compatible (role model : string) : bool :=
  let caps := capabilities_for model in
  if String.eqb role "vision" then mc_vision caps
  else if String.eqb role "embedding" then mc_embedding caps
  else mc_chat caps && negb (mc_embedding caps).

Definition preferences (s : Settings) : list (string * list string) :=
  [("planner", [model_planner s; model_general s; model_classifier s; model_search s]);
   ("simple", [model_simple s; model_general s; model_fallback s]);
   ("general", [model_general s; model_simple s; model_search s; model_fallback s]);
   ("search", [model_search s; model_general s; model_fallback s]);
   ("reasoning", [model_reasoning s; model_fast_reasoning s; model_heavy s; model_search s]);
   ("fast_reasoning",
      [model_fast_reasoning s; model_reasoning s; model_general s; model_fallback s]);
   ("heavy", [model_heavy s; model_synthesis s; model_reasoning s; model_search s]);
   ("synthesis", [model_synthesis s; model_heavy s; model_reasoning s; model_search s]);
   ("writer", [model_writer s; model_general s; model_synthesis s; model_fallback s]);
   ("classifier", [model_classifier s; model_general s; model_simple s; model_fallback s]);
   ("vision", [model_vision s]);
   ("fallback", [model_fallback s; model_general s])].

(** The non-empty candidates without repetitions, in order. *)
Definition merge_candidates (l : list string) : list string :=
  foldl (λ merged c, add_name merged (VStr c)) [] l.

Definition _preferred_candidates (s : Settings) (key : string) : list string :=
  merge_candidates
    (default [model_for_key s (Some key); model_fallback s] (dict_get key (preferences s))).

Definition usable (available : list string) (role candidate : string) : bool :=
  bool_decide (candidate ∈ available) && _compatible role candidate.

(** [role!r] of a role without quotes, backslashes or control characters. *)
Definition no_compatible_model (role : string) : exn :=
  PyExn RuntimeError
    ("No compatible installed Ollama model is available for role '" +:+ role +:+ "'.").

Definition resolve (s : Settings) (key : option string) (inventory : option RuntimeInventory) :
    outcome string :=
  let role := opt_str_or key "general" in
  let available := match inventory with Some inv => model_names inv | None => [] end in
  match available with
  | [] => Ret (model_for_key s (Some role))
  | _ =>
      match List.find (usable available role) (_preferred_candidates s role) with
      | Some candidate => Ret candidate
      | None =>
          if usable available role (model_fallback s) then Ret (model_fallback s)
          else Raise (no_compatible_model role)
      end
  end.

(** A role resolves only to an installed, compatible model.  With a
    non-empty inventory, [resolve] returns a model that is in the inventory and
    has the capability of the role, and raises exactly when neither a preferred
    candidate nor the fallback is usable; with an empty inventory it returns
    the configured model. *)
Theorem resolve_sound s key inv :
  match model_names inv, resolve s key (Some inv) with
  | [], o => o = Ret (model_for_key s (Some (opt_str_or key "general")))
  | available, Ret m => m ∈ available ∧ _compatible (opt_str_or key "general") m = true
  | available, Raise e =>
      e = no_compatible_model (opt_str_or key "general") ∧
      ∀ m, m ∈ model_fallback s :: _preferred_candidates s (opt_str_or key "general") →
        usable available (opt_str_or key "general") m = false
  end.
Proof.
  unfold resolve. destruct (model_names inv) as [|a available] eqn:Ea; [done|].
  set (role := opt_str_or key "general"). rewrite <-Ea.
  destruct (List.find _ _) as [m|] eqn:Ef.
  - apply find_some in Ef as [_ Hu]. unfold usable in Hu.
    apply andb_true_iff in Hu as [Hm Hc]. by apply bool_decide_eq_true in Hm.
  - destruct (usable (model_names inv) role (model_fallback s)) eqn:Eu.
    + unfold usable in Eu. apply andb_true_iff in Eu as [Hm Hc].
      by apply bool_decide_eq_true in Hm.
    + split; [done|]. intros m [->|Hm]%elem_of_cons; [done|].
      apply list_elem_of_In in Hm. by apply (find_none _ _ Ef).
Qed.

(** ** [InventoryService]

    The two source caches.  A [load] holds the service's lock from its second
    freshness check on; the two sources touch disjoint caches, so the gathered
    loads are run in sequence.  [fetch_models] and [fetch_tools] are what the
    Ollama and MCP clients' list calls return, [describe] the text of
    [_format_exception]; the [clk_...] are the readings of [monotonic()].  The
    metrics the service records are not part of its state. *)

Record SourceCache : Type := MkSourceCache {
  sc_value : option (list pydict);
  sc_cached_at : Z
}.

Record InventoryService : Type := MkInventoryService {
  is_models : SourceCache;
  is_tools : SourceCache
}.

#[export] Instance eta_InventoryService : Eta InventoryService := λ s,
  MkInventoryService (is_models s) (is_tools s).

Definition inventory_service_init : InventoryService :=
  MkInventoryService (MkSourceCache None 0) (MkSourceCache None 0).

(** The items that are dictionaries. *)
Fixpoint dicts_of (l : list pyval) : list pydict :=
  match l with
  | [] => []
  | VDict d :: l' => d :: dicts_of l'
  | _ :: l' => dicts_of l'
  end.

Section service.
Variable s : Settings.
Variable describe : exn → string.

Definition _source_fresh (source : SourceCache) (now : Z) : bool :=
  match sc_value source with
  | Some _ => now - sc_cached_at source <=? seconds (inventory_cache_ttl_seconds s)
  | None => false
  end.

Definition _source_stale_usable (source : SourceCache) (now : Z) : bool :=
  match sc_value source with
  | Some _ => now - sc_cached_at source <=? seconds (inventory_stale_if_error_seconds s)
  | None => false
  end.

Definition _both_fresh (st : InventoryService) (now : Z) : bool :=
  _source_fresh (is_models st) now && _source_fresh (is_tools st) now.

Definition _source_age (source : SourceCache) (now : Z) : Z :=
  match sc_value source with
  | None => 0
  | Some _ => if sc_cached_at source <=? 0 then 0 else Z.max 0 (now - sc_cached_at source)
  end.

Definition _snapshot (st : InventoryService) (cached : bool) (now : Z) : RuntimeInventory := {|
  ri_models := default [] (sc_value (is_models st));
  ri_tools := default [] (sc_value (is_tools st));
  ri_errors := [];
  ri_cached := cached;
  ri_age_seconds := Z.max (_source_age (is_models st) now) (_source_age (is_tools st) now)
|}.

(** [_load_models] and [_load_tools] share this shape: [enabled] is the
backend test, [clk 0] stamps a new value, or dates a stale one.  The
result is the list, the error and whether it is stale; the state is the
cache. *)
Definition load_source (enabled : bool) (fetched : outcome (list pyval)) (now : Z) :
  M SourceCache (list pydict * option string * bool) :=
  if enabled then
  match fetched with
  | Ret values =>
      let items := dicts_of values in
      modify (λ _, MkSourceCache (Some items) now) ;;;
      ret (items, None, false)
  | Raise CancelledError => raise CancelledError
  | Raise e =>
      let error := describe e in
      let! source := gets (λ c, c) in
      if _source_stale_usable source now then
        ret (default [] (sc_value source), Some error, true)
      else ret ([], Some error, false)
  end
  else
  modify (λ _, MkSourceCache (Some []) now) ;;;
  ret ([], None, false).




Definition _load_models (fetched : outcome (list pyval)) (now : Z) :
  M InventoryService (list pydict * option string * bool) :=
  zoom is_models (λ c st, st <| is_models := c |>)
  (load_source (bool_decide (llm_backend s = Ollama)) fetched now).

Definition _load_tools (fetched : outcome (list pyval)) (now : Z) :
  M InventoryService (list pydict * option string * bool) :=
  zoom is_tools (λ c st, st <| is_tools := c |>)
  (load_source (mcp_enabled s) fetched now).

Definition error_items (model_error tool_error : option string) : list (string * string) :=
  match model_error with Some e => if nonempty e then [("ollama", e)] else [] | None => [] end ++
  match tool_error with Some e => if nonempty e then [("mcp", e)] else [] | None => [] end.

Definition load (force_refresh : bool) (fetched_models fetched_tools : outcome (list pyval))
  (now clk_models clk_tools clk_end : Z) : M InventoryService RuntimeInventory :=
  let! fresh := gets (λ st, negb force_refresh && _both_fresh st now) in
  if fresh then gets (λ st, _snapshot st true now)
  else
  let* (models, model_error, models_stale) := _load_models fetched_models clk_models in
  let* (tools, tool_error, tools_stale) := _load_tools fetched_tools clk_tools in
  gets (λ st, {|
    ri_models := models;
    ri_tools := tools;
    ri_errors := error_items model_error tool_error;
    ri_cached := models_stale || tools_stale;
    ri_age_seconds := Z.max (_source_age (is_models st) clk_end) (_source_age (is_tools st) clk_end)
|}).

Definition invalidate : M InventoryService unit := modify (λ _, inventory_service_init).

Lemma load_source_spec enabled fetched now c :
  load_source enabled fetched now c =
  if enabled then
  match fetched with
  | Ret values => (Ret (dicts_of values, None, false), MkSourceCache (Some (dicts_of values)) now)
  | Raise CancelledError => (Raise CancelledError, c)
  | Raise e =>
      if _source_stale_usable c now
      then (Ret (default [] (sc_value c), Some (describe e), true), c)
      else (Ret ([], Some (describe e), false), c)
  end
  else (Ret ([], None, false), MkSourceCache (Some []) now).
Proof.
  unfold load_source, bind, modify, gets, ret, raise. destruct enabled, fetched as [|[]]; try done;
  by destruct (_source_stale_usable c now).
Qed.
#[local] Arguments load_source : simpl never.

(** The two sources fail independently.  With both backends enabled, a
refresh in which MCP fails returns the models Ollama just reported,
together with the stale tools while they are within the stale window (and
none after it) and an error for MCP; the tool cache is kept as it was,
so a later refresh can still use it. *)
Theorem sources_fail_independently values e now cm ct ce st
  (Hllm : llm_backend s = Ollama) (Hmcp : mcp_enabled s = true)
  (Hdescribe : nonempty (describe e) = true) (Hcaught : e ≠ CancelledError) :
  ∃ inv, load true (Ret values) (Raise e) now cm ct ce st =
    (Ret inv, st <| is_models := MkSourceCache (Some (dicts_of values)) cm |>) ∧
  ri_models inv = dicts_of values ∧
  ri_tools inv = (if _source_stale_usable (is_tools st) ct
                  then default [] (sc_value (is_tools st)) else []) ∧
  ri_errors inv = [("mcp", describe e)] ∧
  ri_cached inv = _source_stale_usable (is_tools st) ct.
Proof.
  unfold load, bind, gets, _load_models, _load_tools, zoom.
  rewrite Hllm, Hmcp, bool_decide_true by done. cbn.
  rewrite load_source_spec. cbn. rewrite load_source_spec. cbn.
  destruct e; try done; destruct (_source_stale_usable (is_tools st) ct); (eexists; split; [by destruct st|]); cbn;
  by rewrite Hdescribe.
Qed.
End service.

Lemma sources_fail_independently_witness :
  let st := MkInventoryService (MkSourceCache None 0) (MkSourceCache (Some [[("name", VStr "web_search")]]) 5) in
  ∃ inv, load sample_settings (λ _, "MCPError: down") true
      (Ret [VDict [("name", VStr "qwen3.5:4b")]]) (Raise (McpExn MCPError None "down")) 10 11 12 13 st =
      (Ret inv, st <| is_models := MkSourceCache (Some [[("name", VStr "qwen3.5:4b")]]) 11 |>) ∧
    ri_models inv = [[("name", VStr "qwen3.5:4b")]] ∧
    ri_tools inv = [[("name", VStr "web_search")]] ∧
    ri_errors inv = [("mcp", "MCPError: down")] ∧ ri_cached inv = true.
Proof.
  exact (sources_fail_independently sample_settings (λ _, "MCPError: down")
    [VDict [("name", VStr "qwen3.5:4b")]] (McpExn MCPError None "down") 10 11 12 13
    (MkInventoryService (MkSourceCache None 0) (MkSourceCache (Some [[("name", VStr "web_search")]]) 5))
    eq_refl eq_refl eq_refl ltac:(discriminate)).
Defined.
