(* ===== verification/StateRuntime.v ===== *)
(** * The state runtime and the life cycle of the service

    [StateRuntime] of [app/state/runtime.py] (which backends are built, started
    and closed), [Neo4jConnectionManager], [ChatAgent.start] and [aclose] of
    [app/graph.py], and the life span of [app/core/lifespan.py].  Every call to a
    service is one action of the host and is recorded, so that a theorem can
    say what was opened and what was closed. *)

From S2P Require Import Prelude PyData Settings Metrics RunTypes RunRepo MemoryRepo PostgresRepo.
From S2P Require Import ConvStore ConvSpec RedisStore PostgresStore.

(** ** Settings of the persistence section *)

Record StateSettings : Type := MkStateSettings {
  st_settings : Settings;
  database_url : string;
  redis_url : string;
  redis_key_prefix : string;
  redis_max_connections : Z;
  state_ttl_seconds : Z;
  state_max_sessions : Z;
  state_max_history_messages : Z;
  postgres_pool_min_size : Z;
  postgres_pool_max_size : Z;
  postgres_auto_setup : bool;
  minio_bucket : string;
  neo4j_enabled : bool;
  neo4j_uri : string;
  neo4j_username : string;
  neo4j_password : string;
  neo4j_database : string;
  neo4j_max_connection_pool_size : Z;
  neo4j_connection_acquisition_timeout_seconds : string;   (** the [repr] of a float, as the next two *)
  neo4j_connection_timeout_seconds : string;
  neo4j_max_connection_lifetime_seconds : string;
  neo4j_keep_alive : bool;
  persistence_required : bool;
  artifact_storage_required : bool;
  ollama_required : bool;
  mcp_required : bool;
  expose_internal_health_details : bool;
  app_name : string;
  environment : string;
  cors_allow_origins : string;
  ollama_base_url : string;
  mcp_server_url : string
}.

#[export] Instance eta_StateSettings : Eta StateSettings := λ st,
  MkStateSettings (st_settings st) (database_url st) (redis_url st) (redis_key_prefix st)
    (redis_max_connections st) (state_ttl_seconds st) (state_max_sessions st) (state_max_history_messages
    st) (postgres_pool_min_size st) (postgres_pool_max_size st) (postgres_auto_setup st) (minio_bucket st)
    (neo4j_enabled st) (neo4j_uri st) (neo4j_username st) (neo4j_password st) (neo4j_database st)
    (neo4j_max_connection_pool_size st) (neo4j_connection_acquisition_timeout_seconds st)
    (neo4j_connection_timeout_seconds st) (neo4j_max_connection_lifetime_seconds st) (neo4j_keep_alive st)
    (persistence_required st) (artifact_storage_required st) (ollama_required st) (mcp_required st)
    (expose_internal_health_details st) (app_name st) (environment st) (cors_allow_origins st)
    (ollama_base_url st) (mcp_server_url st).


(** ** Services *)

Inductive service_call : Type :=
  | CreatePool | ClosePool | MigrateConversations | MigrateRuns | SelectOne
  | RedisFromUrl | RedisPing | RedisClose
  | OpenCheckpointPool | SetupCheckpoints | CloseCheckpointPool | ReadCheckpoint
  | BucketExists | MakeBucket
  | NewDriver | VerifyConnectivity | CloseDriver
  | StartOllama | CloseOllama | StartMcp | CloseMcp.

#[export] Instance service_call_eq_dec : EqDecision service_call.
Proof. solve_decision. Defined.

(** What a call answers, and the clock of the process. *)
Class ServiceHost (X : Type) : Type := {
  sh_call : service_call → X → outcome pyval * X;
  sh_now : X → Z;                   (** [monotonic()] *)
  sh_utcnow : X → clock;            (** the readings of [_utcnow()] a call makes *)
  sh_pool_stats : X → PoolStats;
  sh_type_name : exn → string       (** [type(exc).__name__] *)
}.

(** ** The runtime *)

(** The rows and the keyspace are the servers': these records hold the state of
    the client side. *)
Inductive ConversationBackend : Type :=
  | ConversationsMemory (s : BoundedInMemoryStore)
  | ConversationsRedis (s : RedisConversationStore unit)
  | ConversationsPostgres (s : PostgresConversationStore).

Inductive RunBackend : Type :=
  | RunsMemory (s : MemoryRunRepository)
  | RunsPostgres (s : PostgresRunRepository).

Inductive Checkpointer : Type := InMemorySaver | AsyncPostgresSaver.

(** [MinioArtifactStore] keeps nothing but its client.  A [Neo4jConnectionManager]
    is whether its driver is open. *)
Record StateRuntime : Type := MkStateRuntime {
  sr_conversations : ConversationBackend;
  sr_runs : RunBackend;
  sr_checkpointer : Checkpointer;
  sr_artifacts : bool;             (** [is not None] *)
  sr_neo4j : option bool;
  sr_checkpoint_pool : bool;       (** [is not None], as the next *)
  sr_postgres_pool : bool;
  sr_started : bool;
  sr_degraded_reason : option string;
  sr_neo4j_degraded_reason : option string
}.

#[export] Instance eta_StateRuntime : Eta StateRuntime := λ s,
  MkStateRuntime (sr_conversations s) (sr_runs s) (sr_checkpointer s) (sr_artifacts s) (sr_neo4j s)
    (sr_checkpoint_pool s) (sr_postgres_pool s) (sr_started s) (sr_degraded_reason s)
    (sr_neo4j_degraded_reason s).

Record AgentState (X : Type) : Type := MkAgentState {
  ag_runtime : StateRuntime;
  ag_startup_dependencies : list (string * pydict);
  ag_ext : X;
  ag_calls : list (service_call * bool)   (** the calls made, the last first, and whether they returned *)
}.
Arguments MkAgentState {X}. Arguments ag_runtime {X}. Arguments ag_startup_dependencies {X}.
Arguments ag_ext {X}. Arguments ag_calls {X}.

#[export] Instance eta_AgentState {X} : Eta (AgentState X) := λ s,
  MkAgentState (ag_runtime s) (ag_startup_dependencies s) (ag_ext s) (ag_calls s).

Section runtime.
Context {X : Type} `{!ServiceHost X} (st : StateSettings) (registry : MetricsRegistry).

Abbreviation AM := (M (AgentState X)) (only parsing).

Definition ext (c : service_call) : AM pyval := λ w,
  let '(o, x) := sh_call c (ag_ext w) in
  (o, w <| ag_ext := x |> <| ag_calls := (c, is_ret o) :: ag_calls w |>).

(** The outcome of an action, as a value. *)
Definition outcome_of {A} (m : AM A) : AM (outcome A) := λ w, let '(o, w') := m w in (Ret o, w').

(** A call made when [b] holds, for a backend that decides what to do with its
    outcome; the outcome of a call that is not made is not looked at. *)
Definition ext_when (b : bool) (c : service_call) : AM (outcome pyval) :=
  if b then outcome_of (ext c) else ret (Ret VNone).

Definition drop {A} (o : outcome A) : outcome unit :=
  match o with Ret _ => Ret tt | Raise e => Raise e end.

Definition runtime_gets {A} (f : StateRuntime → A) : AM A := gets (λ w, f (ag_runtime w)).
Definition on_runtime (f : StateRuntime → StateRuntime) : AM unit :=
  modify (λ w, w <| ag_runtime := f (ag_runtime w) |>).

(** [except Exception]: a cancellation is not one. *)
Definition except_exception {A} (h : exn → AM A) (e : exn) : option (AM A) :=
  if bool_decide (e = CancelledError) then None else Some (h e).

(** [try: m except Exception: logger.exception(...)]. *)
Definition best_effort {A} (m : AM A) : AM unit :=
  try_except (m ;;; ret tt) (except_exception (λ _, ret tt)).

(** *** Building *)

Definition _memory_store : outcome BoundedInMemoryStore :=
  store_init (state_ttl_seconds st) (state_max_sessions st) (state_max_history_messages st) registry.

(** [StateRuntime.__init__]. *)
Definition runtime_init : outcome StateRuntime :=
  match _memory_store with
  | Ret s => Ret (MkStateRuntime (ConversationsMemory s) (RunsMemory memory_init) InMemorySaver
      false None false false false None None)
  | Raise e => Raise e
  end.

Definition _build_conversation_store : AM ConversationBackend :=
  if String.eqb (state_backend (st_settings st)) "postgres" then
    if nonempty (database_url st) then
      let! pool := runtime_gets sr_postgres_pool in
      ret (ConversationsPostgres (postgres_store_init (state_max_history_messages st) pool))
    else raise (PyExn RuntimeError "DATABASE_URL is required for STATE_BACKEND=postgres")
  else if String.eqb (state_backend (st_settings st)) "redis" then
    if nonempty (redis_url st) then
      ret (ConversationsRedis (redis_init (redis_key_prefix st) (state_ttl_seconds st)
        (state_max_history_messages st) tt))
    else raise (PyExn RuntimeError "REDIS_URL is required for STATE_BACKEND=redis")
  else let! s := of_outcome _memory_store in ret (ConversationsMemory s).

Definition _build_run_repository : AM RunBackend :=
  if String.eqb (run_repository_backend (st_settings st)) "postgres" then
    if nonempty (database_url st) then
      let! pool := runtime_gets sr_postgres_pool in
      ret (RunsPostgres (postgres_init pool))
    else raise (PyExn RuntimeError "DATABASE_URL is required for RUN_REPOSITORY_BACKEND=postgres")
  else ret (RunsMemory memory_init).

(** *** The backends' own life cycles *)

Definition start_conversations : AM unit :=
  let! b := runtime_gets sr_conversations in
  match b with
  | ConversationsMemory _ => ret tt
  | ConversationsRedis s =>
      let! from_url := ext_when (negb (rc_client s)) RedisFromUrl in
      let! ping := ext_when (negb (rc_client s) && is_ret from_url) RedisPing in
      let! close := ext_when (negb (is_ret ping)) RedisClose in
      let '(o, s') := redis_start (drop from_url) (drop ping) (drop close) s in
      on_runtime (λ r, r <| sr_conversations := ConversationsRedis s' |>) ;;;
      of_outcome o
  | ConversationsPostgres s =>
      let! create := ext_when (negb (ps_started s) && negb (ps_pool s)) CreatePool in
      let! migrate := ext_when (negb (ps_started s) && is_ret create) MigrateConversations in
      let! close := ext_when (negb (is_ret migrate) && (ps_owns_pool s || negb (ps_pool s))) ClosePool in
      let '(o, s') := postgres_store_start (drop create) (drop migrate) (drop close) s in
      on_runtime (λ r, r <| sr_conversations := ConversationsPostgres s' |>) ;;;
      of_outcome o
  end.

Definition close_conversations : AM unit :=
  let! b := runtime_gets sr_conversations in
  match b with
  | ConversationsMemory _ => ret tt
  | ConversationsRedis s =>
      let! close := ext_when (rc_client s) RedisClose in
      let '(o, s') := redis_aclose (drop close) s in
      on_runtime (λ r, r <| sr_conversations := ConversationsRedis s' |>) ;;;
      of_outcome o
  | ConversationsPostgres s =>
      let! close := ext_when (ps_pool s && ps_owns_pool s) ClosePool in
      let '(o, s') := postgres_store_aclose (drop close) s in
      on_runtime (λ r, r <| sr_conversations := ConversationsPostgres s' |>) ;;;
      of_outcome o
  end.

Definition start_runs : AM unit :=
  let! b := runtime_gets sr_runs in
  match b with
  | RunsMemory s => on_runtime (λ r, r <| sr_runs := RunsMemory (memory_start s).2 |>)
  | RunsPostgres s =>
      let! create := ext_when (negb (pg_started s) && negb (pg_pool s)) CreatePool in
      let! migrate := ext_when (negb (pg_started s) && is_ret create && postgres_auto_setup st)
        MigrateRuns in
      let! close := ext_when (negb (is_ret migrate) && (pg_owns_pool s || negb (pg_pool s))) ClosePool in
      let '(o, s') := postgres_start (postgres_auto_setup st) (drop create) (drop migrate) (drop close) s in
      on_runtime (λ r, r <| sr_runs := RunsPostgres s' |>) ;;;
      of_outcome o
  end.

Definition close_runs : AM unit :=
  let! b := runtime_gets sr_runs in
  match b with
  | RunsMemory s => on_runtime (λ r, r <| sr_runs := RunsMemory (memory_aclose s).2 |>)
  | RunsPostgres s =>
      let! close := ext_when (pg_pool s && pg_owns_pool s) ClosePool in
      let '(o, s') := postgres_aclose (drop close) s in
      on_runtime (λ r, r <| sr_runs := RunsPostgres s' |>) ;;;
      of_outcome o
  end.

(** *** [MinioArtifactStore] and [Neo4jConnectionManager] *)

Definition artifacts_start : AM unit :=
  let! exists_ := ext BucketExists in
  if truthy exists_ then ret tt else ext MakeBucket ;;; ret tt.

Definition artifacts_aclose : AM unit := ret tt.

(** [start], with the driver the manager keeps after it. *)
Definition manager_start (driver : bool) : AM (outcome unit * bool) :=
  if driver then ret (Ret tt, true)
  else
    let! created := outcome_of (ext NewDriver) in
    match created with
    | Raise e => ret (Raise e, false)
    | Ret _ =>
        let! verified := outcome_of (ext VerifyConnectivity) in
        match verified with
        | Ret _ => ret (Ret tt, true)
        | Raise e =>
            let! closed := outcome_of (ext CloseDriver) in
            match closed with
            | Ret _ => ret (Raise e, false)
            | Raise e' => ret (Raise e', true)
            end
        end
    end.

(** The manager has let go of its driver when [close] raises. *)
Definition manager_aclose (driver : bool) : AM unit :=
  if driver then ext CloseDriver ;;; ret tt else ret tt.

(** *** Starting *)

Definition _start_postgres_pool : AM unit :=
  let! pool := runtime_gets sr_postgres_pool in
  if negb (String.eqb (state_backend (st_settings st)) "postgres"
           || String.eqb (run_repository_backend (st_settings st)) "postgres") || pool then ret tt
  else if nonempty (database_url st) then
    ext CreatePool ;;; on_runtime (λ r, r <| sr_postgres_pool := true |>)
  else raise (PyExn RuntimeError "DATABASE_URL is required for PostgreSQL conversation or run storage").

Definition start_checkpoints : AM unit :=
  if String.eqb (checkpoint_backend (st_settings st)) "postgres" then
    if nonempty (database_url st) then
      on_runtime (λ r, r <| sr_checkpoint_pool := true |>) ;;;
      ext OpenCheckpointPool ;;;
      on_runtime (λ r, r <| sr_checkpointer := AsyncPostgresSaver |>) ;;;
      (if postgres_auto_setup st then ext SetupCheckpoints ;;; ret tt else ret tt)
    else raise (PyExn RuntimeError "DATABASE_URL is required for PostgreSQL checkpoints")
  else ret tt.

Definition start_artifacts : AM unit :=
  if String.eqb (artifact_backend (st_settings st)) "minio" then
    on_runtime (λ r, r <| sr_artifacts := true |>) ;;; artifacts_start
  else ret tt.

(** [f"{type(exc).__name__}: {str(exc).strip()}"]. *)
Definition typed_text (e : exn) (text : string) : string := sh_type_name e +:+ ": " +:+ text.

Definition _start_neo4j : AM unit :=
  let! present := runtime_gets (λ r, bool_decide (is_Some (sr_neo4j r))) in
  if negb (neo4j_enabled st) || present then ret tt
  else
    let* (started, driver) := manager_start false in
    match started with
    | Ret _ => on_runtime (λ r, r <| sr_neo4j := Some driver |> <| sr_neo4j_degraded_reason := None |>)
    | Raise e =>
        if bool_decide (e = CancelledError) then raise e
        else
          manager_aclose driver ;;;
          if persistence_required st then raise e
          else on_runtime (λ r, r <| sr_neo4j_degraded_reason :=
            Some (typed_text e (str_or (strip (exn_text e)) "startup failed")) |>)
    end.

(** *** [aclose] *)

Definition close_neo4j : AM unit :=
  let! manager := runtime_gets sr_neo4j in
  match manager with
  | None => ret tt
  | Some driver =>
      try_finally (best_effort (manager_aclose driver)) (on_runtime (λ r, r <| sr_neo4j := None |>))
  end.

Definition close_artifacts : AM unit :=
  let! present := runtime_gets sr_artifacts in
  if present then try_finally artifacts_aclose (on_runtime (λ r, r <| sr_artifacts := false |>))
  else ret tt.

Definition close_checkpoint_pool : AM unit :=
  let! pool := runtime_gets sr_checkpoint_pool in
  if pool then
    try_finally (best_effort (ext CloseCheckpointPool)) (on_runtime (λ r, r <| sr_checkpoint_pool := false |>))
  else ret tt.

Definition close_postgres_pool : AM unit :=
  let! pool := runtime_gets sr_postgres_pool in
  if pool then
    try_finally (best_effort (ext ClosePool)) (on_runtime (λ r, r <| sr_postgres_pool := false |>))
  else ret tt.

Definition runtime_aclose : AM unit :=
  close_neo4j ;;;
  close_artifacts ;;;
  best_effort close_runs ;;;
  best_effort close_conversations ;;;
  close_checkpoint_pool ;;;
  close_postgres_pool ;;;
  on_runtime (λ r, r <| sr_started := false |>).

(** *** [start] and the fallback *)

Definition start_backends : AM unit :=
  _start_postgres_pool ;;;
  let! conversations := _build_conversation_store in
  on_runtime (λ r, r <| sr_conversations := conversations |>) ;;;
  start_conversations ;;;
  let! runs := _build_run_repository in
  on_runtime (λ r, r <| sr_runs := runs |>) ;;;
  start_runs ;;;
  start_checkpoints ;;;
  start_artifacts ;;;
  _start_neo4j ;;;
  on_runtime (λ r, r <| sr_started := true |> <| sr_degraded_reason := None |>).

Definition runtime_start : AM unit :=
  let! started := runtime_gets sr_started in
  if started then ret tt
  else try_except start_backends (except_exception (λ e, runtime_aclose ;;; raise e)).

Definition use_memory_fallback (reason : string) : AM unit :=
  runtime_aclose ;;;
  let! s := of_outcome _memory_store in
  on_runtime (λ r, r <| sr_conversations := ConversationsMemory s |>) ;;;
  on_runtime (λ r, r <| sr_runs := RunsMemory memory_init |>) ;;;
  start_runs ;;;
  on_runtime (λ r, r <| sr_checkpointer := InMemorySaver |> <| sr_artifacts := false |>
    <| sr_neo4j := None |> <| sr_checkpoint_pool := false |> <| sr_started := true |>
    <| sr_degraded_reason := Some reason |> <| sr_neo4j_degraded_reason := None |>).

(** *** [ChatAgent] and the life span *)

Definition set_dependency (name : string) (d : pydict) : AM unit :=
  modify (λ w, w <| ag_startup_dependencies := dict_set name d (ag_startup_dependencies w) |>).

Definition persistence_needed : bool :=
  persistence_required st
  || (String.eqb (artifact_backend (st_settings st)) "minio" && artifact_storage_required st).

Definition failed_dependency (required : bool) (e : exn) : pydict :=
  [("status", VStr "unavailable"); ("required", VBool required);
   ("error", VStr (typed_text e (strip (exn_text e))))].

Definition start_persistence : AM unit :=
  try_except (runtime_start ;;; set_dependency "persistence" [("status", VStr "available")])
    (except_exception (λ e,
      set_dependency "persistence" (failed_dependency persistence_needed e) ;;;
      if persistence_needed then raise e
      else
        use_memory_fallback (exn_text e) ;;;
        set_dependency "persistence"
          (dict_set "status" (VStr "degraded") (failed_dependency persistence_needed e)))).

(** [OllamaClient.start] and [MCPClient.start] are one call each here. *)
Definition start_client (name : string) (call : service_call) (required : bool) : AM unit :=
  try_except (ext call ;;; set_dependency name [("status", VStr "available")])
    (except_exception (λ e,
      set_dependency name (failed_dependency required e) ;;;
      if required then raise e else ret tt)).

(** [_build_graph] compiles the graph over the runtime's checkpointer. *)
Definition agent_start : AM unit :=
  modify (λ w, w <| ag_startup_dependencies := [] |>) ;;;
  start_persistence ;;;
  (if bool_decide (llm_backend (st_settings st) = Ollama)
   then start_client "ollama" StartOllama (ollama_required st) else ret tt) ;;;
  (if mcp_enabled (st_settings st)
   then start_client "mcp" StartMcp (mcp_required st) else ret tt).

(** [asyncio.gather(..., return_exceptions=True)]: the three closers share no
    state, and are run here one after the other. *)
Definition agent_aclose : AM unit :=
  outcome_of (ext CloseOllama) ;;; outcome_of (ext CloseMcp) ;;; outcome_of runtime_aclose ;;; ret tt.

(** [serve] is what the application does while it is up. *)
Definition lifespan (serve : AM unit) : AM unit := try_finally (agent_start ;;; serve) agent_aclose.

(** The agent [ChatAgent.__init__] builds, in a world that was not called yet. *)
Definition agent_init (x : X) : outcome (AgentState X) :=
  match runtime_init with
  | Ret r => Ret (MkAgentState r [] x [])
  | Raise e => Raise e
  end.
End runtime.
