(* ===== verification/Lifespan.v ===== *)
(** * What a life span opens, it closes

    The handles of [StateRuntime] (connection pools, the Redis client, the Neo4j
    driver) seen from the log of the calls made: [lifespan_releases] says that
    each is open at most once at a time and closed when the application stops,
    whatever fails on the way, and [startup_degrades] that optional dependencies
    never keep the service from starting. *)

From S2P Require Import Prelude PyData Settings Metrics RunTypes RunRepo MemoryRepo PostgresRepo.
From S2P Require Import ConvStore ConvSpec RedisStore PostgresStore StateRuntime.

(** ** Handles in a log *)

Inductive resource : Type := RPool | RRedis | RCheckpoints | RDriver.

#[export] Instance resource_eq_dec : EqDecision resource.
Proof. solve_decision. Defined.

(** A pool of checkpoints that failed to open still has to be closed. *)
Definition opens (r : resource) (c : service_call * bool) : bool :=
  match r, c.1 with
  | RPool, CreatePool | RRedis, RedisFromUrl | RDriver, NewDriver => c.2
  | RCheckpoints, OpenCheckpointPool => true
  | _, _ => false
  end.

Definition closes (r : resource) (c : service_call) : bool :=
  match r, c with
  | RPool, ClosePool | RRedis, RedisClose | RCheckpoints, CloseCheckpointPool
  | RDriver, CloseDriver => true
  | _, _ => false
  end.

(** Whether the handle is open after the calls of a log (the last first); [None]
    when a second one was opened over it. *)
Fixpoint handle (r : resource) (log : list (service_call * bool)) : option bool :=
  match log with
  | [] => Some false
  | c :: log =>
      if opens r c then match handle r log with Some false => Some true | _ => None end
      else if closes r c.1 then match handle r log with Some _ => Some false | None => None end
      else handle r log
  end.

(** What the runtime holds. *)
Definition held (r : resource) (s : StateRuntime) : bool :=
  match r with
  | RPool => sr_postgres_pool s
  | RRedis => match sr_conversations s with ConversationsRedis c => rc_client c | _ => false end
  | RCheckpoints => sr_checkpoint_pool s
  | RDriver => default false (sr_neo4j s)
  end.

(** The stores share the runtime's pool and never own one. *)
Definition shares_pool (s : StateRuntime) : bool :=
  match sr_conversations s with ConversationsPostgres c => negb (ps_owns_pool c) | _ => true end
  && match sr_runs s with RunsPostgres c => negb (pg_owns_pool c) | _ => true end.

(** Calls that neither open nor close anything. *)
Definition neutral (c : service_call * bool) : bool :=
  forallb (λ r, negb (opens r c) && negb (closes r c.1)) [RPool; RRedis; RCheckpoints; RDriver].

(** What serving requests does to the backends' handles: nothing. *)
Definition serving {X} (w w' : AgentState X) : Prop :=
  (∀ r, held r (ag_runtime w') = held r (ag_runtime w)) ∧
  shares_pool (ag_runtime w') = shares_pool (ag_runtime w) ∧
  ∃ l, ag_calls w' = l ++ ag_calls w ∧ forallb neutral l = true.

(** Closing a handle is not cancelled. *)
Definition calm_closes {X} `{!ServiceHost X} : Prop :=
  ∀ c x, existsb (λ r, closes r c) [RPool; RRedis; RCheckpoints; RDriver] = true →
    (sh_call c x).1 ≠ Raise CancelledError.

Definition calm_calls {X} `{!ServiceHost X} : Prop :=
  ∀ c x, (sh_call c x).1 ≠ Raise CancelledError.

(** ** The invariant *)

(** Every handle that is open is held, and those of [closed] are not open. *)
Definition inv {X} (closed : list resource) (w : AgentState X) : Prop :=
  (∀ r, handle r (ag_calls w) = Some false ∨
        handle r (ag_calls w) = Some true ∧ held r (ag_runtime w) = true ∧ r ∉ closed) ∧
  shares_pool (ag_runtime w) = true.

Definition all_closed : list resource := [RPool; RRedis; RCheckpoints; RDriver].

Section handles.
Context {X : Type} `{HX : !ServiceHost X} (st : StateSettings) (registry : MetricsRegistry).

Lemma inv_weaken (c c' : list resource) (w : AgentState X) : c' ⊆ c → inv c w → inv c' w.
Proof. intros Hc [H ?]. split; [|done]. intros r. destruct (H r) as [|(?&?&?)]; [by left|]. right. set_solver. Qed.

Lemma neutral_spec r c : neutral c = true → opens r c = false ∧ closes r c.1 = false.
Proof. by destruct c as [[] []], r. Qed.

Lemma handle_neutral r l log : forallb neutral l = true → handle r (l ++ log) = handle r log.
Proof.
  induction l as [|c l IH]; [done|]. cbn. intros [[-> ->]%(neutral_spec r) Hl]%andb_true_iff. by apply IH.
Qed.

Lemma inv_neutral c (w w' : AgentState X) : serving w w' → inv c w → inv c w'.
Proof.
  intros (Hh & Hs & l & El & Hl) [H Hsh]. split; [|congruence].
  intros r. rewrite El, Hh, handle_neutral by done. apply H.
Qed.

(** One call, by what it does to the handles. *)
Lemma ext_run c w :
  ∃ o x, ext c w = (o, w <| ag_ext := x |> <| ag_calls := (c, is_ret o) :: ag_calls w |>) ∧
    o = (sh_call c (ag_ext w)).1.
Proof. unfold ext. destruct (sh_call c (ag_ext w)) as [o x]. by eexists _, _. Qed.

Lemma inv_all_closed (w : AgentState X) : inv all_closed w ↔ (∀ r, handle r (ag_calls w) = Some false) ∧ shares_pool (ag_runtime w) = true.
Proof.
  split; intros [H ?]; (split; [|done]); intros r; [|by left].
  destruct (H r) as [|(_ & _ & Hn)]; [done|]. exfalso. apply Hn. destruct r; set_solver.
Qed.
End handles.

(** Run the calls of an action one by one. *)
Ltac run_ext :=
  match goal with
  | |- context [ext ?c ?w] =>
      let o := fresh "o" in let x := fresh "x" in let E := fresh "E" in let Eo := fresh "Eo" in
      destruct (ext_run c w) as (o & x & E & Eo); rewrite E; clear E; destruct o; cbn
  end.

(** A resource at a time, from the invariant [H] of the state before. *)
Ltac by_resource H :=
  let r := fresh "r" in
  split; [intros r; pose proof (proj1 H r) as []; destruct r; cbn in *; destruct_and?;
    repeat match goal with
    | E : handle _ _ = Some _ |- _ => rewrite ?E; clear E
    end; first [by left | right; split_and!; [done|done|set_solver] | left; set_solver | idtac] | ].

Section phases.
Context {X : Type} `{HX : !ServiceHost X} (st : StateSettings) (registry : MetricsRegistry).

Definition uses_pool : bool :=
  String.eqb (state_backend (st_settings st)) "postgres"
  || String.eqb (run_repository_backend (st_settings st)) "postgres".

Lemma start_pool_handles :
  triple (inv (X:=X) all_closed) (_start_postgres_pool st)
    (λ o w, inv [RRedis; RCheckpoints; RDriver] w ∧
      (is_ret o = true → uses_pool = true → sr_postgres_pool (ag_runtime w) = true)).
Proof.
  intros w H. unfold _start_postgres_pool, runtime_gets, bind, gets. fold uses_pool.
  destruct (negb uses_pool || sr_postgres_pool (ag_runtime w)) eqn:E; cbn.
  { split; [by eapply inv_weaken; [|exact H]; set_solver|]. intros _ Hp. by rewrite Hp in E. }
  case_match; cbn; [|split; [by eapply inv_weaken; [|exact H]; set_solver|done]].
  run_ext; (split; [by_resource H|done]).
  all: try apply H.
Qed.

(** A store that was built over the shared pool and not started. *)
Definition fresh_conversations (b : ConversationBackend) : bool :=
  match b with
  | ConversationsMemory _ => true
  | ConversationsRedis s => negb (rc_client s)
  | ConversationsPostgres s => ps_pool s && negb (ps_owns_pool s)
  end.

Definition fresh_runs (b : RunBackend) : bool :=
  match b with RunsMemory _ => true | RunsPostgres s => pg_pool s && negb (pg_owns_pool s) end.

(** The pool is there when a backend needs it. *)
Definition pooled (w : AgentState X) : Prop := uses_pool = true → sr_postgres_pool (ag_runtime w) = true.

Lemma build_conversations_fresh c :
  triple (λ w, inv c w ∧ pooled w) (_build_conversation_store st registry)
    (λ o w, (inv c w ∧ pooled w) ∧ ∀ b, o = Ret b → fresh_conversations b = true).
Proof.
  intros w [H Hp]. unfold _build_conversation_store, pooled, uses_pool in *.
  unfold runtime_gets, bind, gets, of_outcome.
  destruct (String.eqb (state_backend _) "postgres"); cbn in *.
  - case_match; cbn; split_and!; try done. intros b [= <-]. cbn. by rewrite Hp.
  - repeat case_match; cbn in *; simplify_eq; split_and!; naive_solver.
Qed.

Lemma build_runs_fresh c :
  triple (λ w, inv c w ∧ pooled w) (_build_run_repository st)
    (λ o w, inv c w ∧ ∀ b, o = Ret b → fresh_runs b = true).
Proof.
  intros w [H Hp]. unfold _build_run_repository, pooled, uses_pool in *.
  unfold runtime_gets, bind, gets, of_outcome.
  destruct (String.eqb (run_repository_backend _) "postgres"); cbn in *.
  - case_match; cbn; split_and!; try done. intros b [= <-]. cbn. rewrite Hp; [done|]. apply orb_true_r.
  - cbn. split; naive_solver.
Qed.

#[local] Notation rest := [RCheckpoints; RDriver] (only parsing).

Lemma set_conversations_handles b :
  fresh_conversations b = true →
  triple (λ w, inv (RRedis :: rest) w ∧ pooled w) (on_runtime (λ r, r <| sr_conversations := b |>))
    (λ _ w, inv (RRedis :: rest) w ∧ pooled w ∧ fresh_conversations (sr_conversations (ag_runtime w)) = true).
Proof.
  intros Hb w [H Hp]. cbn. split_and!; [|done|done]. by_resource H.
  destruct H as [_ H]. unfold shares_pool in *. cbn. apply andb_true_iff in H as [_ ->].
  destruct b; cbn in *; [done..|]. apply andb_true_iff in Hb as [_ ->]. done.
Qed.

Lemma start_conversations_handles :
  triple (λ w, inv (RRedis :: rest) w ∧ pooled w ∧ fresh_conversations (sr_conversations (ag_runtime w)) = true)
    start_conversations (λ _ w, inv rest w ∧ pooled w).
Proof.
  intros w (H & Hp & Hf). unfold start_conversations, runtime_gets, bind, gets, of_outcome.
  destruct (sr_conversations (ag_runtime w)) as [s|s|s] eqn:E; cbn in *.
  - split; [|done]. eapply inv_weaken; [|exact H]. set_solver.
  - unfold ext_when. apply negb_true_iff in Hf. rewrite Hf. cbn. unfold outcome_of.
    run_ext; [run_ext; [|run_ext]|]; unfold redis_start; cbn; rewrite ?Hf; cbn.
    all: split; [by_resource H|done].
    all: by destruct H as [_ H]; unfold shares_pool in *; cbn; rewrite E in H.
  - apply andb_true_iff in Hf as [Hpool Hown]. apply negb_true_iff in Hown.
    unfold ext_when. rewrite Hpool, Hown, !andb_false_r. cbn.
    destruct (ps_started s) eqn:Hst; cbn; unfold outcome_of; try run_ext; unfold postgres_store_start.
    all: unfold bind, gets, try_except, of_outcome; cbn; repeat progress (rewrite ?Hst, ?Hpool, ?Hown; cbn).
    all: split; [by_resource H|done].
    all: destruct H as [_ H]; unfold shares_pool in *; rewrite E in H; cbn in *; by rewrite ?Hown in *.
Qed.

Lemma set_runs_handles b :
  fresh_runs b = true →
  triple (inv (X:=X) rest) (on_runtime (λ r, r <| sr_runs := b |>))
    (λ _ w, inv rest w ∧ fresh_runs (sr_runs (ag_runtime w)) = true).
Proof.
  intros Hb w H. cbn. split; [|done]. by_resource H.
  destruct H as [_ H]. unfold shares_pool in *. cbn. apply andb_true_iff in H as [-> _].
  destruct b; cbn in *; [done|]. apply andb_true_iff in Hb as [_ ->]. done.
Qed.

Lemma start_runs_handles c :
  triple (λ w, inv c w ∧ fresh_runs (sr_runs (ag_runtime w)) = true) (start_runs st) (λ _ w, inv c w).
Proof.
  intros w (H & Hf). unfold start_runs, runtime_gets, bind, gets, of_outcome.
  destruct (sr_runs (ag_runtime w)) as [s|s] eqn:E; cbn in *.
  - by_resource H. by destruct H as [_ H]; unfold shares_pool in *; cbn; rewrite E in H.
  - apply andb_true_iff in Hf as [Hpool Hown]. apply negb_true_iff in Hown.
    unfold ext_when. rewrite Hpool, Hown, !andb_false_r. cbn.
    destruct (pg_started s) eqn:Hst, (postgres_auto_setup st); cbn; unfold outcome_of; try run_ext;
      unfold postgres_start.
    all: unfold bind, gets, try_except, of_outcome; cbn; repeat progress (rewrite ?Hst, ?Hpool, ?Hown; cbn).
    all: by_resource H.
    all: destruct H as [_ H]; unfold shares_pool in *; rewrite E in H; cbn in *; by rewrite ?Hown in *.
Qed.

Lemma start_checkpoints_handles : triple (inv (X:=X) rest) (start_checkpoints st) (λ _ w, inv [RDriver] w).
Proof.
  intros w H. assert (inv [RDriver] w) as H' by (eapply inv_weaken; [|exact H]; set_solver).
  unfold start_checkpoints. case_match; [|done]. case_match; [|done].
  unfold bind. cbn. run_ext; [|by_resource H; apply H].
  destruct (postgres_auto_setup st); unfold bind; cbn; try run_ext; by_resource H; apply H.
Qed.

Lemma start_artifacts_handles c : triple (inv (X:=X) c) (start_artifacts st) (λ _ w, inv c w).
Proof.
  intros w H. unfold start_artifacts, artifacts_start. case_match; [|done].
  unfold bind. cbn. run_ext; [destruct (truthy a)|]; unfold bind; cbn; try run_ext; by_resource H; apply H.
Qed.

Lemma start_neo4j_handles : triple (inv (X:=X) [RDriver]) (_start_neo4j st) (λ _ w, inv [] w).
Proof.
  intros w H. unfold _start_neo4j, runtime_gets, bind, gets.
  case_match; cbn; [by eapply inv_weaken; [|exact H]; set_solver|].
  unfold bind, outcome_of. run_ext; [run_ext; [|run_ext]|]; cbn.
  all: repeat (case_match; cbn; unfold bind; cbn; try run_ext).
  all: by_resource H.
  all: try apply H.
Qed.

Lemma start_backends_handles : triple (inv all_closed) (start_backends st registry) (λ _ w, inv [] w).
Proof.
  assert (∀ c (w : AgentState X), inv c w → inv [] w) as Hw.
  { intros c w H. eapply inv_weaken; [|exact H]. set_solver. }
  eapply triple_bind; [apply start_pool_handles| |naive_solver]. intros [].
  eapply triple_bind; [eapply triple_weaken; [apply (build_conversations_fresh (RRedis :: rest))| |done]| |naive_solver].
  { intros w [? Hp]. split; [done|]. intros Hu. by apply Hp. }
  intros b. apply triple_pure. intros Hb. specialize (Hb b eq_refl).
  eapply triple_bind; [by apply set_conversations_handles| |naive_solver]. intros [].
  eapply triple_bind; [apply start_conversations_handles| |naive_solver]. intros [].
  eapply triple_bind; [apply build_runs_fresh| |naive_solver].
  intros runs. apply triple_pure. intros Hr. specialize (Hr runs eq_refl).
  eapply triple_bind; [by apply set_runs_handles| |naive_solver]. intros [].
  eapply triple_bind; [apply start_runs_handles| |naive_solver]. intros [].
  eapply triple_bind; [apply start_checkpoints_handles| |naive_solver]. intros [].
  eapply triple_bind; [apply start_artifacts_handles| |naive_solver]. intros [].
  eapply triple_bind; [apply start_neo4j_handles| |naive_solver]. intros [].
  intros w H. cbn. by_resource H; apply H.
Qed.

(** *** Closing *)

Hypothesis Hcalm : calm_closes (X:=X).

Lemma close_neo4j_handles : triple (inv []) close_neo4j (λ o w, o = Ret tt ∧ inv [RDriver] w).
Proof.
  intros w H. unfold close_neo4j, runtime_gets, bind, gets.
  destruct (sr_neo4j (ag_runtime w)) as [[]|] eqn:E; cbn.
  - unfold manager_aclose, try_finally, best_effort, try_except, except_exception, bind. run_ext.
    + split; [done|]. by_resource H; apply H.
    + rewrite bool_decide_false.
      * cbn. split; [done|]. by_resource H; apply H.
      * intros ->. by apply (Hcalm CloseDriver (ag_ext w)).
  - split; [done|]. by_resource H; try apply H; rewrite E in *; done.
  - split; [done|]. by_resource H; try apply H; rewrite E in *; done.
Qed.

Lemma close_artifacts_handles c : triple (inv (X:=X) c) close_artifacts (λ o w, o = Ret tt ∧ inv c w).
Proof.
  intros w H. unfold close_artifacts, runtime_gets, bind, gets. case_match; [|done].
  cbn. split; [done|]. by_resource H; apply H.
Qed.

Lemma close_runs_handles c : triple (inv (X:=X) c) (best_effort close_runs) (λ o w, o = Ret tt ∧ inv c w).
Proof.
  intros w H. unfold close_runs, best_effort, try_except, runtime_gets, bind, gets, of_outcome.
  assert (Hs := proj2 H). unfold shares_pool in Hs.
  destruct (sr_runs (ag_runtime w)) as [s|s] eqn:E; cbn in *.
  - split; [done|]. by_resource H. unfold shares_pool. done.
  - apply andb_true_iff in Hs as [Hc Hown%negb_true_iff].
    unfold ext_when, postgres_aclose, bind, gets, of_outcome.
    destruct (pg_pool s) eqn:Hp; repeat progress (cbn; rewrite ?Hp, ?Hown).
    all: split; [done|]; by_resource H; unfold shares_pool; cbn; by rewrite Hc, ?Hown.
Qed.

Lemma close_conversations_handles :
  triple (inv (X:=X) [RDriver]) (best_effort close_conversations)
    (λ o w, o = Ret tt ∧ inv [RRedis; RDriver] w).
Proof.
  intros w H. unfold close_conversations, best_effort, try_except, runtime_gets, bind, gets, of_outcome.
  assert (Hs := proj2 H). unfold shares_pool in Hs.
  destruct (sr_conversations (ag_runtime w)) as [s|s|s] eqn:E; cbn in *.
  - split; [done|]. by_resource H; [by rewrite E in *|]. apply H.
  - unfold ext_when, outcome_of. destruct (rc_client s) eqn:Hc; [run_ext|];
      unfold redis_aclose, bind, gets, of_outcome; cbn; rewrite ?Hc; cbn.
    + split; [done|]. by_resource H. unfold shares_pool. done.
    + unfold except_exception. rewrite bool_decide_false; cbn.
      * split; [done|]. by_resource H. unfold shares_pool. done.
      * intros ->. by apply (Hcalm RedisClose (ag_ext w)).
    + split; [done|]. by_resource H; [by rewrite E in *; congruence|]. unfold shares_pool. done.
  - apply andb_true_iff in Hs as [Hown%negb_true_iff Hr].
    unfold ext_when, postgres_store_aclose, bind, gets, of_outcome.
    destruct (ps_pool s) eqn:Hp; repeat progress (cbn; rewrite ?Hp, ?Hown).
    all: split; [done|]; by_resource H; [by rewrite E in *|]; unfold shares_pool; cbn; by rewrite Hr, ?Hown.
Qed.

Lemma close_checkpoints_handles :
  triple (inv (X:=X) [RRedis; RDriver]) close_checkpoint_pool
    (λ o w, o = Ret tt ∧ inv [RCheckpoints; RRedis; RDriver] w).
Proof.
  intros w H. unfold close_checkpoint_pool, runtime_gets, bind, gets.
  destruct (sr_checkpoint_pool (ag_runtime w)) eqn:E; cbn.
  - unfold try_finally, best_effort, try_except, except_exception, bind. run_ext.
    + split; [done|]. by_resource H; apply H.
    + rewrite bool_decide_false.
      * cbn. split; [done|]. by_resource H; apply H.
      * intros ->. by apply (Hcalm CloseCheckpointPool (ag_ext w)).
  - split; [done|]. by_resource H; try apply H; rewrite E in *; done.
Qed.

Lemma close_pool_handles :
  triple (inv (X:=X) [RCheckpoints; RRedis; RDriver]) close_postgres_pool
    (λ o w, o = Ret tt ∧ inv all_closed w).
Proof.
  intros w H. unfold close_postgres_pool, runtime_gets, bind, gets.
  destruct (sr_postgres_pool (ag_runtime w)) eqn:E; cbn.
  - unfold try_finally, best_effort, try_except, except_exception, bind. run_ext.
    + split; [done|]. by_resource H; apply H.
    + rewrite bool_decide_false.
      * cbn. split; [done|]. by_resource H; apply H.
      * intros ->. by apply (Hcalm ClosePool (ag_ext w)).
  - split; [done|]. by_resource H; try apply H; rewrite E in *; done.
Qed.

Lemma runtime_aclose_handles :
  triple (inv (X:=X) []) runtime_aclose
    (λ o w, o = Ret tt ∧ inv all_closed w ∧ sr_started (ag_runtime w) = false).
Proof.
  unfold runtime_aclose.
  eapply triple_bind; [apply close_neo4j_handles|intros []|naive_solver].
  eapply triple_bind; [eapply triple_weaken; [apply (close_artifacts_handles [RDriver])|naive_solver|done]|intros []|naive_solver].
  eapply triple_bind; [eapply triple_weaken; [apply (close_runs_handles [RDriver])|naive_solver|done]|intros []|naive_solver].
  eapply triple_bind; [eapply triple_weaken; [apply close_conversations_handles|naive_solver|done]|intros []|naive_solver].
  eapply triple_bind; [eapply triple_weaken; [apply close_checkpoints_handles|naive_solver|done]|intros []|naive_solver].
  eapply triple_bind; [eapply triple_weaken; [apply close_pool_handles|naive_solver|done]|intros []|naive_solver].
  intros w [_ H]. cbn. split_and!; [done| |done]. by_resource H; apply H.
Qed.

Lemma runtime_start_handles : triple (inv (X:=X) all_closed) (runtime_start st registry) (λ _ w, inv [] w).
Proof.
  assert (∀ w : AgentState X, inv all_closed w → inv [] w) as Hw.
  { intros w H. eapply inv_weaken; [|exact H]. set_solver. }
  intros w H. unfold runtime_start. unfold bind at 1, runtime_gets, gets. cbn.
  case_match; [by apply Hw|].
  revert w H0 H. enough (triple (inv all_closed) (try_except (start_backends st registry)
    (except_exception (λ e, runtime_aclose ;;; raise e))) (λ _ w, inv [] w)) as Ht by (intros w _; apply Ht).
  eapply triple_try; [apply start_backends_handles|done|]. intros e. unfold except_exception. case_bool_decide; [done|].
  eapply triple_bind; [apply runtime_aclose_handles|intros []|naive_solver].
  intros w' (_ & H' & _). by apply Hw.
Qed.

Lemma use_memory_fallback_handles reason :
  triple (inv (X:=X) []) (use_memory_fallback st registry reason) (λ _ w, inv [] w).
Proof.
  unfold use_memory_fallback.
  eapply triple_bind; [apply runtime_aclose_handles|intros []|naive_solver].
  intros w (_ & H & _). unfold bind at 1, of_outcome. destruct (_memory_store st registry); cbn.
  all: by_resource H; first [done|apply H].
Qed.

(** What does not touch the backends. *)
Lemma set_dependency_handles c name d : triple (inv (X:=X) c) (set_dependency name d) (λ _ w, inv c w).
Proof. intros w H. exact H. Qed.

Lemma neutral_call_handles c call :
  (∀ ok, neutral (call, ok) = true) → triple (inv (X:=X) c) (ext call) (λ _ w, inv c w).
Proof.
  intros Hn w H. destruct (ext_run call w) as (o & x & -> & _). eapply inv_neutral; [|exact H].
  split_and!; [done|done|]. exists [(call, is_ret o)]. split; [done|]. apply andb_true_iff. by split; [apply Hn|].
Qed.

Lemma start_client_handles c name call required :
  (∀ ok, neutral (call, ok) = true) →
  triple (inv (X:=X) c) (start_client name call required) (λ _ w, inv c w).
Proof.
  intros Hn. eapply triple_try with (Q1 := λ _ w, inv c w); [|done|].
  - eapply triple_bind; [by apply neutral_call_handles|intros ?; apply set_dependency_handles|done].
  - intros e. unfold except_exception. case_bool_decide; [done|].
    eapply triple_bind; [apply set_dependency_handles|intros [] w Hw; by destruct required|done].
Qed.

Lemma start_persistence_handles :
  triple (inv (X:=X) all_closed) (start_persistence st registry) (λ _ w, inv [] w).
Proof.
  eapply triple_try with (Q1 := λ _ w, inv [] w); [|done|].
  - eapply triple_bind; [apply runtime_start_handles|intros ?; apply set_dependency_handles|done].
  - intros e. unfold except_exception. case_bool_decide; [done|].
    eapply triple_bind; [apply set_dependency_handles|intros []|done].
    destruct (persistence_needed st); [by intros w Hw|].
    eapply triple_bind; [apply use_memory_fallback_handles|intros ?; apply set_dependency_handles|done].
Qed.

Lemma agent_start_handles : triple (inv (X:=X) all_closed) (agent_start st registry) (λ _ w, inv [] w).
Proof.
  unfold agent_start. eapply triple_bind with (Q1 := λ _ w, inv all_closed w); [by intros w H|intros []|].
  2:{ intros e w H. eapply inv_weaken; [|exact H]. set_solver. }
  eapply triple_bind; [apply start_persistence_handles|intros []|done].
  eapply triple_bind with (Q1 := λ _ w, inv [] w); [case_bool_decide|intros []|done].
  - by apply start_client_handles.
  - by intros w Hw.
  - case_match; [by apply start_client_handles|by intros w Hw].
Qed.

Lemma outcome_of_handles {A} (m : M (AgentState X) A) P R :
  triple P m (λ _ w, R w) → triple P (outcome_of m) (λ o w, is_ret o = true ∧ R w).
Proof. intros Hm w H. specialize (Hm w H). unfold outcome_of. by destruct (m w). Qed.

Lemma agent_aclose_handles : triple (inv (X:=X) []) agent_aclose (λ _ w, inv all_closed w).
Proof.
  unfold agent_aclose. eapply triple_bind; [by apply outcome_of_handles, neutral_call_handles|intros ?|naive_solver].
  eapply triple_bind; [|intros ?|].
  - eapply triple_weaken; [by apply outcome_of_handles, neutral_call_handles|naive_solver|done].
  - eapply triple_bind with (Q1 := λ o w, is_ret o = true ∧ inv all_closed w); [|by intros ? ? []|naive_solver].
    apply (outcome_of_handles _ _ (inv all_closed)).
    eapply triple_weaken; [apply runtime_aclose_handles|naive_solver|naive_solver].
  - naive_solver.
Qed.
End phases.

(** C15. Every handle a life span opens is closed when it ends.  Over any
    services whose close calls are not cancelled, and whatever the application
    does while it serves without touching the backends' handles: in the log of
    the calls no pool, Redis client or Neo4j driver is opened while another of
    its kind is open, and at the end none is, whether startup succeeded, failed
    half-way, fell back to memory or was cancelled. *)
Theorem lifespan_releases {X} `{!ServiceHost X} st registry (x : X) w0 serve
    (Hinit : agent_init st registry x = Ret w0)
    (Hcalm : calm_closes (X:=X))
    (Hserve : ∀ w, serving w (serve w).2) (r : resource) :
  handle r (ag_calls (lifespan st registry serve w0).2) = Some false.
Proof.
  assert (inv all_closed w0) as H0.
  { unfold agent_init, runtime_init in Hinit. repeat case_match; simplify_eq.
    split; [by left|done]. }
  assert (triple (inv all_closed) (lifespan st registry serve) (λ _ w, inv all_closed w)) as H.
  { apply triple_finally with (R := inv []); [|by apply agent_aclose_handles].
    eapply triple_bind; [by apply agent_start_handles|intros []|done].
    intros w Hw. eapply inv_neutral; [apply Hserve|done]. }
  apply inv_all_closed. by apply H.
Qed.

(** ** Starting without what is optional *)

Definition uncancelled {S A} (m : M S A) : Prop := ∀ s, (m s).1 ≠ Raise CancelledError.

Lemma uncancelled_bind {S A B} (m : M S A) (k : A → M S B) :
  uncancelled m → (∀ a, uncancelled (k a)) → uncancelled (bind m k).
Proof.
  intros Hm Hk s. unfold bind. specialize (Hm s). destruct (m s) as [[a|e] s1]; [apply Hk|].
  cbn in *. congruence.
Qed.

Lemma uncancelled_ret {S A} (a : A) : uncancelled (ret (S:=S) a).
Proof. by intros s. Qed.
Lemma uncancelled_gets {S A} (f : S → A) : uncancelled (gets f).
Proof. by intros s. Qed.
Lemma uncancelled_modify {S} (f : S → S) : uncancelled (modify f).
Proof. by intros s. Qed.
Lemma uncancelled_raise {S A} e : e ≠ CancelledError → uncancelled (raise (S:=S) (A:=A) e).
Proof. intros He s. cbn. congruence. Qed.
Lemma uncancelled_of_outcome {S A} (o : outcome A) :
  o ≠ Raise CancelledError → uncancelled (of_outcome (S:=S) o).
Proof. by intros He s. Qed.

Lemma uncancelled_try {S A} (m : M S A) h :
  uncancelled m → (∀ e m', h e = Some m' → uncancelled m') → uncancelled (try_except m h).
Proof.
  intros Hm Hh s. unfold try_except. specialize (Hm s). destruct (m s) as [[a|e] s1]; [done|].
  destruct (h e) eqn:E; [by eapply Hh|done].
Qed.

Create HintDb calm.
#[local] Hint Resolve uncancelled_bind uncancelled_ret uncancelled_gets uncancelled_modify
  uncancelled_raise uncancelled_of_outcome : calm.

(** An outcome handed on as a value is not a cancellation either. *)
Definition hands_on {S A} (m : M S (outcome A)) : Prop :=
  ∀ s, ∃ o s', m s = (Ret o, s') ∧ o ≠ Raise CancelledError.

Lemma uncancelled_bind_outcome {S A B} (m : M S (outcome A)) (k : outcome A → M S B) :
  hands_on m → (∀ o, o ≠ Raise CancelledError → uncancelled (k o)) → uncancelled (bind m k).
Proof. intros Hm Hk s. unfold bind. destruct (Hm s) as (o & s' & -> & Ho). by apply Hk. Qed.

Lemma drop_uncancelled {A} (o : outcome A) : o ≠ Raise CancelledError → drop o ≠ Raise CancelledError.
Proof. by destruct o; [|intros H [= ->]]. Qed.

Ltac calm_step :=
  repeat first
    [ progress (eauto 2 with calm)
    | apply uncancelled_bind; [|intros ?]
    | apply uncancelled_try; [|by intros ? ? [= <-]; calm_step]
    | case_match ].

Lemma redis_start_uncancelled {R} (a b c : outcome unit) :
  a ≠ Raise CancelledError → b ≠ Raise CancelledError → c ≠ Raise CancelledError →
  uncancelled (redis_start (R:=R) a b c).
Proof.
  intros Ha Hb Hc s. unfold redis_start, bind, gets, try_except, of_outcome.
  destruct (rc_client s), a, b, c; cbn; congruence.
Qed.

Lemma store_start_uncancelled (a b c : outcome unit) :
  a ≠ Raise CancelledError → b ≠ Raise CancelledError → c ≠ Raise CancelledError →
  uncancelled (postgres_store_start a b c).
Proof.
  intros Ha Hb Hc s. unfold postgres_store_start, bind, gets, try_except, of_outcome.
  destruct s as [? ? ? pool owns started]. destruct started, pool, owns, a, b, c; cbn; congruence.
Qed.

Lemma runs_start_uncancelled setup (a b c : outcome unit) :
  a ≠ Raise CancelledError → b ≠ Raise CancelledError → c ≠ Raise CancelledError →
  uncancelled (postgres_start setup a b c).
Proof.
  intros Ha Hb Hc s. unfold postgres_start, bind, gets, try_except, of_outcome.
  destruct s as [? ? pool owns started]. destruct setup, started, pool, owns, a, b, c; cbn; congruence.
Qed.

(** ** The configured backends *)

Section configured.
Context {X : Type} `{!ServiceHost X} (st : StateSettings) (registry : MetricsRegistry).

(** The part [f] of the runtime stays as it is. *)
Definition same {T} (f : StateRuntime → T) (w w' : AgentState X) : Prop :=
  f (ag_runtime w') = f (ag_runtime w).

#[local] Instance same_refl {T} (f : StateRuntime → T) : Reflexive (same f).
Proof. by intros w. Qed.
#[local] Instance same_trans {T} (f : StateRuntime → T) : Transitive (same f).
Proof. intros w1 w2 w3. unfold same. congruence. Qed.

Lemma ext_same {T} (f : StateRuntime → T) c : preserves (same f) (ext (X:=X) c).
Proof. intros w. unfold ext. by destruct (sh_call c (ag_ext w)). Qed.
Lemma outcome_of_same {T A} (f : StateRuntime → T) (m : M (AgentState X) A) :
  preserves (same f) m → preserves (same f) (outcome_of m).
Proof. intros H w. specialize (H w). unfold outcome_of. by destruct (m w). Qed.
Lemma gets_same {T A} (f : StateRuntime → T) (g : StateRuntime → A) :
  preserves (same f) (runtime_gets (X:=X) g).
Proof. by intros w. Qed.
Lemma runtime_read_same {T} (f : StateRuntime → T) g :
  (∀ r, f (g r) = f r) → preserves (same f) (on_runtime (X:=X) g).
Proof. intros H w. apply H. Qed.
Lemma ext_when_same {T} (f : StateRuntime → T) b c : preserves (same f) (ext_when (X:=X) b c).
Proof. destruct b; [apply outcome_of_same, ext_same|by intros w]. Qed.

(** Follows the structure of an action that leaves [f] alone. *)
Ltac keep :=
  repeat first
    [ apply ext_same | apply gets_same | apply ext_when_same
    | apply preserves_ret, _ | apply preserves_raise, _ | apply preserves_of_outcome, _
    | apply runtime_read_same; reflexivity
    | apply outcome_of_same
    | match goal with
      | |- preserves _ (bind _ _) => apply preserves_bind; [apply _| |intros ?]
      | |- preserves _ (match ?x with _ => _ end) => destruct x
      end ].

Lemma preserved {A} (R : AgentState X → AgentState X → Prop) (m : M (AgentState X) A) w o w' :
  preserves R m → m w = (o, w') → R w w'.
Proof. intros H E. specialize (H w). by rewrite E in H. Qed.

(** *** The two stores *)

Lemma redis_start_client a b c (s s' : RedisConversationStore unit) :
  redis_start a b c s = (Ret tt, s') → rc_client s' = true.
Proof.
  unfold redis_start, bind, gets, of_outcome, try_except, modify. destruct s as [? ? ? [] ?]; cbn.
  - by intros [= <-].
  - destruct a as [[]|]; cbn; [|done]. destruct b as [[]|]; cbn; [by intros [= <-]|].
    by destruct c as [[]|].
Qed.

Lemma store_start_started a b c s s' : postgres_store_start a b c s = (Ret tt, s') → ps_started s' = true.
Proof.
  unfold postgres_store_start, bind, gets, of_outcome, try_except, modify.
  destruct s as [? ? ? pool owns started]; cbn. destruct started; [by intros [= <-]|].
  destruct pool, owns, a as [[]|], b as [[]|], c as [[]|]; cbn; by intros [= <-].
Qed.

Lemma runs_start_started setup a b c s s' : postgres_start setup a b c s = (Ret tt, s') → pg_started s' = true.
Proof.
  unfold postgres_start, bind, gets, of_outcome, try_except, modify.
  destruct s as [? ? pool owns started]; cbn. destruct started; [by intros [= <-]|].
  destruct setup, pool, owns, a as [[]|], b as [[]|], c as [[]|]; cbn; by intros [= <-].
Qed.

Lemma start_conversations_done w w' : start_conversations (X:=X) w = (Ret tt, w') →
  match sr_conversations (ag_runtime w) with
  | ConversationsMemory s => sr_conversations (ag_runtime w') = ConversationsMemory s
  | ConversationsRedis _ => ∃ s, sr_conversations (ag_runtime w') = ConversationsRedis s ∧ rc_client s = true
  | ConversationsPostgres _ => ∃ s, sr_conversations (ag_runtime w') = ConversationsPostgres s ∧ ps_started s = true
  end.
Proof.
  unfold start_conversations. intros E. apply bind_Ret_inv in E as (b & w1 & Eb & E).
  injection Eb as <- <-. destruct (sr_conversations (ag_runtime w)) as [s|s|s] eqn:Es.
  - injection E as <-. exact Es.
  - do 3 apply bind_Ret_inv in E as (? & ? & _ & E).
    destruct (redis_start _ _ _ s) as [o s'] eqn:Er. apply bind_Ret_inv in E as (? & ? & Eo & E).
    injection Eo as _ <-. injection E as -> <-. exists s'. split; [done|]. by eapply redis_start_client.
  - do 3 apply bind_Ret_inv in E as (? & ? & _ & E).
    destruct (postgres_store_start _ _ _ s) as [o s'] eqn:Er. apply bind_Ret_inv in E as (? & ? & Eo & E).
    injection Eo as _ <-. injection E as -> <-. exists s'. split; [done|]. by eapply store_start_started.
Qed.

Lemma start_runs_done w w' : start_runs (X:=X) st w = (Ret tt, w') →
  match sr_runs (ag_runtime w) with
  | RunsMemory _ => ∃ s, sr_runs (ag_runtime w') = RunsMemory s
  | RunsPostgres _ => ∃ s, sr_runs (ag_runtime w') = RunsPostgres s ∧ pg_started s = true
  end.
Proof.
  unfold start_runs. intros E. apply bind_Ret_inv in E as (b & w1 & Eb & E).
  injection Eb as <- <-. destruct (sr_runs (ag_runtime w)) as [s|s].
  - injection E as <-. by eexists.
  - do 3 apply bind_Ret_inv in E as (? & ? & _ & E).
    destruct (postgres_start _ _ _ _ s) as [o s'] eqn:Er. apply bind_Ret_inv in E as (? & ? & Eo & E).
    injection Eo as _ <-. injection E as -> <-. exists s'. split; [done|]. by eapply runs_start_started.
Qed.

Lemma start_pool_same {T} (f : StateRuntime → T) :
  (∀ r b, f (r <| sr_postgres_pool := b |>) = f r) → preserves (same f) (_start_postgres_pool (X:=X) st).
Proof.
  intros Hf. unfold _start_postgres_pool. apply preserves_bind; [apply _|keep|intros pool].
  destruct (_ || _); [keep|]. destruct (nonempty _); [|keep].
  apply preserves_bind; [apply _|keep|intros _ w]. apply Hf.
Qed.

Lemma start_runs_same {T} (f : StateRuntime → T) :
  (∀ r b, f (r <| sr_runs := b |>) = f r) → preserves (same f) (start_runs (X:=X) st).
Proof.
  intros Hf. unfold start_runs. apply preserves_bind; [apply _|keep|intros [s|s]].
  { intros w. apply Hf. }
  do 3 (apply preserves_bind; [apply _|keep|intros ?]). destruct (postgres_start _ _ _ _ _) as [o s'].
  apply preserves_bind; [apply _| |intros _; keep]. intros w. apply Hf.
Qed.

Lemma start_conversations_same {T} (f : StateRuntime → T) :
  (∀ r b, f (r <| sr_conversations := b |>) = f r) → preserves (same f) (start_conversations (X:=X)).
Proof.
  intros Hf. unfold start_conversations. apply preserves_bind; [apply _|keep|intros [s|s|s]]; [keep|..];
    do 3 (apply preserves_bind; [apply _|keep|intros ?]).
  - destruct (redis_start _ _ _ _) as [o s']. apply preserves_bind; [apply _| |intros _; keep].
    intros w. apply Hf.
  - destruct (postgres_store_start _ _ _ _) as [o s']. apply preserves_bind; [apply _| |intros _; keep].
    intros w. apply Hf.
Qed.

Lemma build_conversations_done (w : AgentState X) b w' : _build_conversation_store st registry w = (Ret b, w') → w' = w ∧
  match b with
  | ConversationsPostgres _ => state_backend (st_settings st) = "postgres"
  | ConversationsRedis _ => state_backend (st_settings st) = "redis"
  | ConversationsMemory s => state_backend (st_settings st) ≠ "postgres" ∧
      state_backend (st_settings st) ≠ "redis" ∧
      store_init (state_ttl_seconds st) (state_max_sessions st) (state_max_history_messages st) registry = Ret s
  end.
Proof.
  unfold _build_conversation_store, _memory_store.
  destruct (String.eqb_spec (state_backend (st_settings st)) "postgres") as [Hp|Hp].
  { destruct (nonempty (database_url st)); [|done]. by intros [= <- <-]. }
  destruct (String.eqb_spec (state_backend (st_settings st)) "redis") as [Hr|Hr].
  { destruct (nonempty (redis_url st)); [|done]. by intros [= <- <-]. }
  unfold bind, of_outcome. destruct (store_init _ _ _ _) as [s|e]; [|done]. by intros [= <- <-].
Qed.

Lemma build_runs_done (w : AgentState X) b w' : _build_run_repository st w = (Ret b, w') → w' = w ∧
  match b with
  | RunsPostgres _ => run_repository_backend (st_settings st) = "postgres"
  | RunsMemory _ => run_repository_backend (st_settings st) ≠ "postgres"
  end.
Proof.
  unfold _build_run_repository.
  destruct (String.eqb_spec (run_repository_backend (st_settings st)) "postgres") as [Hp|Hp];
    [|by intros [= <- <-]]. destruct (nonempty (database_url st)); [|done]. by intros [= <- <-].
Qed.

(** *** The other parts *)

Lemma checkpoints_same {T} (f : StateRuntime → T) :
  (∀ r b, f (r <| sr_checkpoint_pool := b |>) = f r) → (∀ r b, f (r <| sr_checkpointer := b |>) = f r) →
  preserves (same f) (start_checkpoints (X:=X) st).
Proof.
  intros Hp Hc. unfold start_checkpoints. case_match; [|keep]. case_match; [|keep].
  apply preserves_bind; [apply _|intros w; apply Hp|intros _].
  apply preserves_bind; [apply _|keep|intros _].
  apply preserves_bind; [apply _|intros w; apply Hc|intros _]. keep.
Qed.

Lemma artifacts_same {T} (f : StateRuntime → T) :
  (∀ r b, f (r <| sr_artifacts := b |>) = f r) → preserves (same f) (start_artifacts (X:=X) st).
Proof.
  intros Ha. unfold start_artifacts, artifacts_start. case_match; [|keep].
  apply preserves_bind; [apply _|intros w; apply Ha|intros _]. keep.
Qed.

Lemma neo4j_same {T} (f : StateRuntime → T) :
  (∀ r d, f (r <| sr_neo4j := d |>) = f r) → (∀ r d, f (r <| sr_neo4j_degraded_reason := d |>) = f r) →
  preserves (same f) (_start_neo4j (X:=X) st).
Proof.
  intros Hn Hd. unfold _start_neo4j. apply preserves_bind; [apply _|keep|intros b]. case_match; [keep|].
  apply preserves_bind; [apply _|unfold manager_start; keep|intros [[a|e] driver]].
  - intros w. exact (eq_trans (Hd _ _) (Hn _ _)).
  - case_bool_decide; [keep|]. unfold manager_aclose.
    apply preserves_bind; [apply _|keep|intros _]. destruct (persistence_required st); [keep|].
    intros w. apply Hd.
Qed.

Lemma checkpoints_done w w' : start_checkpoints (X:=X) st w = (Ret tt, w') →
  sr_checkpointer (ag_runtime w) = InMemorySaver →
  sr_checkpointer (ag_runtime w') =
    if bool_decide (checkpoint_backend (st_settings st) = "postgres") then AsyncPostgresSaver else InMemorySaver.
Proof.
  unfold start_checkpoints. intros E Hc.
  destruct (String.eqb_spec (checkpoint_backend (st_settings st)) "postgres") as [Hb|Hb].
  2:{ rewrite bool_decide_false by done. by injection E as <-. }
  rewrite bool_decide_true by done. destruct (nonempty (database_url st)); [|done].
  do 2 apply bind_Ret_inv in E as (? & ? & _ & E). apply bind_Ret_inv in E as (? & w1 & E1 & E).
  injection E1 as _ <-.
  assert (preserves (same sr_checkpointer)
    (if postgres_auto_setup st then ext (X:=X) SetupCheckpoints ;;; ret tt else ret tt)) as K by keep.
  pose proof (preserved _ _ _ _ _ K E) as Hk. unfold same in Hk. by rewrite Hk.
Qed.

Lemma artifacts_done w w' : start_artifacts (X:=X) st w = (Ret tt, w') →
  sr_artifacts (ag_runtime w) = false →
  sr_artifacts (ag_runtime w') = bool_decide (artifact_backend (st_settings st) = "minio").
Proof.
  unfold start_artifacts. intros E Ha.
  destruct (String.eqb_spec (artifact_backend (st_settings st)) "minio") as [Hb|Hb].
  2:{ rewrite bool_decide_false by done. by injection E as <-. }
  rewrite bool_decide_true by done. apply bind_Ret_inv in E as (? & w1 & E1 & E). injection E1 as _ <-.
  assert (preserves (same sr_artifacts) (artifacts_start (X:=X))) as K by (unfold artifacts_start; keep).
  pose proof (preserved _ _ _ _ _ K E) as Hk. unfold same in Hk. by rewrite Hk.
Qed.

Lemma manager_start_driver (w : AgentState X) a driver w' :
  manager_start false w = (Ret (Ret a, driver), w') → driver = true.
Proof.
  unfold manager_start. intros E. apply bind_Ret_inv in E as ([c|e] & w1 & _ & E); [|done].
  apply bind_Ret_inv in E as ([v|e] & w2 & _ & E); [by injection E|].
  by apply bind_Ret_inv in E as ([v|e'] & w3 & _ & E).
Qed.

(** Neo4j up, or the one part that may be missing without the others falling back. *)
Definition neo4j_settled (w : AgentState X) : Prop :=
  if neo4j_enabled st
  then sr_neo4j (ag_runtime w) = Some true ∨
    persistence_required st = false ∧ sr_neo4j (ag_runtime w) = None ∧
    is_Some (sr_neo4j_degraded_reason (ag_runtime w))
  else sr_neo4j (ag_runtime w) = None.

Lemma neo4j_done w w' : _start_neo4j (X:=X) st w = (Ret tt, w') →
  sr_neo4j (ag_runtime w) = None → neo4j_settled w'.
Proof.
  unfold _start_neo4j, neo4j_settled. intros E Hn.
  apply bind_Ret_inv in E as (b & w1 & Eb & E). injection Eb as <- <-. rewrite Hn in E.
  destruct (neo4j_enabled st); [|by injection E as <-]. cbn in E.
  apply bind_Ret_inv in E as ([started driver] & w2 & Em & E).
  assert (same sr_neo4j w w2) as K by (eapply (preserved (same sr_neo4j)); [|exact Em]; unfold manager_start; keep).
  destruct started as [a|e].
  - apply manager_start_driver in Em as ->. injection E as <-. by left.
  - case_bool_decide; [done|]. apply bind_Ret_inv in E as (? & w3 & Ec & E).
    assert (same sr_neo4j w2 w3) as K3
      by (eapply (preserved (same sr_neo4j)); [|exact Ec]; unfold manager_aclose; keep).
    destruct (persistence_required st); [done|]. injection E as <-. right. cbn.
    split; [done|]. unfold same in *. split; [congruence|by eexists].
Qed.

(** Each part of the runtime is the backend the settings name, and it was started: a
    conversation store and a run repository on PostgreSQL, Redis or the process' memory,
    a checkpointer on PostgreSQL or in memory, the artifact store, and Neo4j. *)
Record on_configured (w : AgentState X) : Prop := MkOnConfigured {
  oc_conversations :
    match sr_conversations (ag_runtime w) with
    | ConversationsPostgres s => state_backend (st_settings st) = "postgres" ∧ ps_started s = true
    | ConversationsRedis s => state_backend (st_settings st) = "redis" ∧ rc_client s = true
    | ConversationsMemory s => state_backend (st_settings st) ≠ "postgres" ∧
        state_backend (st_settings st) ≠ "redis" ∧
        store_init (state_ttl_seconds st) (state_max_sessions st) (state_max_history_messages st) registry = Ret s
    end;
  oc_runs :
    match sr_runs (ag_runtime w) with
    | RunsPostgres s => run_repository_backend (st_settings st) = "postgres" ∧ pg_started s = true
    | RunsMemory _ => run_repository_backend (st_settings st) ≠ "postgres"
    end;
  oc_checkpointer : sr_checkpointer (ag_runtime w) =
    if bool_decide (checkpoint_backend (st_settings st) = "postgres") then AsyncPostgresSaver else InMemorySaver;
  oc_artifacts : sr_artifacts (ag_runtime w) = bool_decide (artifact_backend (st_settings st) = "minio");
  oc_neo4j : neo4j_settled w
}.

Lemma start_backends_configured w w' : start_backends st registry w = (Ret tt, w') →
  sr_checkpointer (ag_runtime w) = InMemorySaver → sr_artifacts (ag_runtime w) = false →
  sr_neo4j (ag_runtime w) = None → on_configured w'.
Proof.
  unfold start_backends. intros E Hc Ha Hn.
  apply bind_Ret_inv in E as ([] & w1 & E1 & E). apply bind_Ret_inv in E as (conv & w2 & E2 & E).
  apply build_conversations_done in E2 as [-> Hconv].
  apply bind_Ret_inv in E as ([] & w3 & E3 & E). injection E3 as E3.
  apply bind_Ret_inv in E as ([] & w4 & E4 & E).
  apply bind_Ret_inv in E as (runs & w5 & E5 & E). apply build_runs_done in E5 as [-> Hruns].
  apply bind_Ret_inv in E as ([] & w6 & E6 & E). injection E6 as E6.
  apply bind_Ret_inv in E as ([] & w7 & E7 & E). apply bind_Ret_inv in E as ([] & w8 & E8 & E).
  apply bind_Ret_inv in E as ([] & w9 & E9 & E). apply bind_Ret_inv in E as ([] & w10 & E10 & E).
  injection E as <-.
  assert (∀ T (f : StateRuntime → T), (∀ r b, f (r <| sr_postgres_pool := b |>) = f r) →
    (∀ r b, f (r <| sr_conversations := b |>) = f r) → (∀ r b, f (r <| sr_runs := b |>) = f r) →
    f (ag_runtime w7) = f (ag_runtime w)) as Kbefore.
  { intros T f Hp Hcv Hr.
    apply (preserved _ _ _ _ _ (start_pool_same f Hp)) in E1. apply (preserved _ _ _ _ _ (start_conversations_same f Hcv)) in E4.
    apply (preserved _ _ _ _ _ (start_runs_same f Hr)) in E7. unfold same in *.
    subst w6 w3. etrans; [exact E7|]. etrans; [apply (Hr (ag_runtime w4))|].
    etrans; [exact E4|]. etrans; [apply (Hcv (ag_runtime w1))|exact E1]. }
  assert (∀ T (f : StateRuntime → T), (∀ r b, f (r <| sr_checkpoint_pool := b |>) = f r) →
    (∀ r b, f (r <| sr_checkpointer := b |>) = f r) → (∀ r b, f (r <| sr_artifacts := b |>) = f r) →
    (∀ r b, f (r <| sr_neo4j := b |>) = f r) → (∀ r b, f (r <| sr_neo4j_degraded_reason := b |>) = f r) →
    f (ag_runtime w10) = f (ag_runtime w7)) as Kafter.
  { intros T f H1 H2 H3 H4 H5. pose proof (preserved _ _ _ _ _ (checkpoints_same f H1 H2) E8) as K8.
    pose proof (preserved _ _ _ _ _ (artifacts_same f H3) E9) as K9.
    pose proof (preserved _ _ _ _ _ (neo4j_same f H4 H5) E10) as K10. unfold same in *. congruence. }
  rewrite <- (Kbefore _ sr_checkpointer) in Hc by done. rewrite <- (Kbefore _ sr_artifacts) in Ha by done.
  rewrite <- (Kbefore _ sr_neo4j) in Hn by done.
  apply start_conversations_done in E4. rewrite <- E3 in E4. cbn in E4.
  pose proof (preserved _ _ _ _ _ (start_runs_same sr_conversations ltac:(done)) E7) as K7. unfold same in K7.
  apply start_runs_done in E7. rewrite <- E6 in E7, K7. cbn in E7, K7.
  pose proof (preserved _ _ _ _ _ (checkpoints_same sr_artifacts ltac:(done) ltac:(done)) E8) as Ka8.
  pose proof (preserved _ _ _ _ _ (checkpoints_same sr_neo4j ltac:(done) ltac:(done)) E8) as Kn8.
  pose proof (preserved _ _ _ _ _ (artifacts_same sr_neo4j ltac:(done)) E9) as Kn9.
  pose proof (preserved _ _ _ _ _ (artifacts_same sr_checkpointer ltac:(done)) E9) as Kc9.
  pose proof (preserved _ _ _ _ _ (neo4j_same sr_checkpointer ltac:(done) ltac:(done)) E10) as Kc10.
  pose proof (preserved _ _ _ _ _ (neo4j_same sr_artifacts ltac:(done) ltac:(done)) E10) as Ka10.
  unfold same in *. apply checkpoints_done in E8; [|done]. apply artifacts_done in E9; [|by rewrite Ka8].
  apply neo4j_done in E10; [|by rewrite Kn9, Kn8].
  constructor; cbn.
  - rewrite (Kafter _ sr_conversations), K7 by done. destruct conv as [s|s|s].
    + by rewrite E4.
    + destruct E4 as (s' & -> & ?). done.
    + destruct E4 as (s' & -> & ?). done.
  - rewrite (Kafter _ sr_runs) by done. destruct runs as [s|s].
    + by destruct E7 as [s' ->].
    + destruct E7 as (s' & -> & ?). done.
  - by rewrite Kc10, Kc9.
  - by rewrite Ka10.
  - exact E10.
Qed.
End configured.

Section starting.
Context {X : Type} `{HX : !ServiceHost X} (st : StateSettings) (registry : MetricsRegistry).
Hypothesis Hcalm : calm_calls (X:=X).

Lemma ext_uncancelled c : uncancelled (ext (X:=X) c).
Proof. intros w. destruct (ext_run c w) as (o & x & -> & ->). apply Hcalm. Qed.

Lemma outcome_of_hands_on {A} (m : M (AgentState X) A) : uncancelled m → hands_on (outcome_of m).
Proof. intros H w. unfold outcome_of. specialize (H w). destruct (m w). by eexists _, _. Qed.

Lemma ext_when_hands_on b c : hands_on (ext_when (X:=X) b c).
Proof.
  destruct b; cbn; [apply outcome_of_hands_on, ext_uncancelled|]. intros w. by eexists _, _.
Qed.
#[local] Hint Resolve ext_uncancelled drop_uncancelled ext_when_hands_on : calm.

Ltac calm_call := apply uncancelled_bind_outcome; [by eauto using outcome_of_hands_on with calm|intros ? ?].

Lemma start_conversations_uncancelled : uncancelled (start_conversations (X:=X)).
Proof.
  apply uncancelled_bind; [by intros w|]. intros [|s|s]; [by intros w|..].
  all: do 3 calm_call.
  - pose proof (redis_start_uncancelled (drop o) (drop o0) (drop o1)
      (drop_uncancelled _ H) (drop_uncancelled _ H0) (drop_uncancelled _ H1) s) as H'.
    destruct (redis_start _ _ _ s). calm_step.
  - pose proof (store_start_uncancelled (drop o) (drop o0) (drop o1)
      (drop_uncancelled _ H) (drop_uncancelled _ H0) (drop_uncancelled _ H1) s) as H'.
    destruct (postgres_store_start _ _ _ s). calm_step.
Qed.

Lemma start_runs_uncancelled : uncancelled (start_runs (X:=X) st).
Proof.
  apply uncancelled_bind; [by intros w|]. intros [|s]; [by intros w|].
  do 3 calm_call.
  pose proof (runs_start_uncancelled (postgres_auto_setup st) (drop o) (drop o0) (drop o1)
    (drop_uncancelled _ H) (drop_uncancelled _ H0) (drop_uncancelled _ H1) s) as H'.
  destruct (postgres_start _ _ _ _ s). calm_step.
Qed.

Lemma manager_start_value :
  triple (λ _ : AgentState X, True) (manager_start false)
    (λ o _, ∃ started driver, o = Ret (started, driver) ∧ started ≠ Raise CancelledError).
Proof.
  intros w _. unfold manager_start, bind, outcome_of.
  run_ext; [run_ext; [|run_ext]|]; eexists _, _; (split; [done|]); try done; intros [= ->];
    match goal with E : Raise CancelledError = (sh_call ?c ?x).1 |- _ => by apply (Hcalm c x) end.
Qed.

Lemma start_neo4j_uncancelled : uncancelled (_start_neo4j (X:=X) st).
Proof.
  apply uncancelled_bind; [by intros w|]. intros b. case_match; [by intros w|].
  intros w. unfold bind at 1. destruct (manager_start_value w I) as (started & driver & E & Hs).
  destruct (manager_start false w) as [o w']. cbn in E. subst o. clear w. revert w'.
  match goal with |- ∀ w, (?m w).1 ≠ _ => enough (uncancelled m) by done end.
  destruct started as [[]|e]; [by intros w|].
  rewrite bool_decide_false by congruence.
  unfold manager_aclose. calm_step; apply uncancelled_raise; congruence.
Qed.

Lemma start_backends_uncancelled : uncancelled (start_backends (X:=X) st registry).
Proof.
  pose proof start_conversations_uncancelled. pose proof start_runs_uncancelled.
  pose proof start_neo4j_uncancelled.
  unfold start_backends, _start_postgres_pool, _build_conversation_store, _memory_store, store_init.
  unfold _build_run_repository, start_checkpoints, start_artifacts, artifacts_start.
  calm_step.
Qed.

Lemma calm_calls_closes : calm_closes (X:=X).
Proof. intros c x _. apply Hcalm. Qed.

Lemma start_backends_returns w w' :
  start_backends st registry w = (Ret tt, w') →
  sr_started (ag_runtime w') = true ∧ sr_degraded_reason (ag_runtime w') = None.
Proof.
  unfold start_backends. intros E.
  repeat match goal with
  | E : bind _ _ _ = (Ret tt, w') |- _ => apply bind_Ret_inv in E as (? & ? & _ & E)
  end.
  unfold on_runtime, modify in E. by simplify_eq.
Qed.

(** A runtime no part of which was started. *)
Definition unstarted (r : StateRuntime) : Prop :=
  sr_started r = false ∧ sr_checkpointer r = InMemorySaver ∧ sr_artifacts r = false ∧ sr_neo4j r = None.

(** Either everything started, or it was all closed again. *)
Lemma runtime_start_cases w :
  inv all_closed w → unstarted (ag_runtime w) →
  (∃ w', runtime_start st registry w = (Ret tt, w') ∧ sr_started (ag_runtime w') = true ∧
     sr_degraded_reason (ag_runtime w') = None ∧ on_configured st registry w') ∨
  (∃ e w', runtime_start st registry w = (Raise e, w') ∧ e ≠ CancelledError ∧ inv all_closed w').
Proof.
  intros H (Hs & Hc & Ha & Hn).
  assert (runtime_start st registry w = try_except (start_backends st registry)
    (except_exception (λ e, runtime_aclose ;;; raise e)) w) as ->.
  { unfold runtime_start, bind, runtime_gets, gets. by rewrite Hs. }
  unfold try_except.
  pose proof (start_backends_handles st registry w H) as H1.
  pose proof (start_backends_uncancelled w) as H2.
  destruct (start_backends st registry w) as [[[]|e] w1] eqn:E; cbn in H1, H2.
  - left. pose proof (start_backends_configured st registry w w1 E Hc Ha Hn).
    apply start_backends_returns in E as [? ?]. by eexists.
  - right. unfold except_exception. rewrite bool_decide_false by congruence.
    pose proof (runtime_aclose_handles calm_calls_closes w1 H1) as (H3 & H4 & _).
    destruct (runtime_aclose w1) as [o w2] eqn:Ec. cbn in H3, H4. subst o.
    rewrite (bind_run _ _ _ _ _ Ec). eexists _, _. split_and!; [done|congruence|done].
Qed.

(** Nothing is left but the process' own memory. *)
Definition on_memory (w : AgentState X) : Prop :=
  (∀ r, handle r (ag_calls w) = Some false) ∧
  (∃ s, sr_conversations (ag_runtime w) = ConversationsMemory s ∧ _memory_store st registry = Ret s) ∧
  (∃ s, sr_runs (ag_runtime w) = RunsMemory s) ∧
  sr_checkpointer (ag_runtime w) = InMemorySaver ∧
  sr_artifacts (ag_runtime w) = false ∧ sr_neo4j (ag_runtime w) = None.

Lemma fallback_returns reason w :
  inv [] w → is_ret (_memory_store st registry) = true →
  ∃ w', use_memory_fallback st registry reason w = (Ret tt, w') ∧ on_memory w' ∧
    sr_started (ag_runtime w') = true ∧ sr_degraded_reason (ag_runtime w') = Some reason.
Proof.
  intros H Hm. unfold use_memory_fallback.
  pose proof (runtime_aclose_handles calm_calls_closes w H) as (H3 & H4 & _).
  destruct (runtime_aclose w) as [o w2] eqn:E. cbn in H3, H4. subst o.
  rewrite (bind_run _ _ _ _ _ E). destruct (_memory_store st registry) as [s|] eqn:Es; [|done].
  eexists. split; [reflexivity|]. split; [|done]. cbn.
  split_and!; [apply inv_all_closed in H4 as [H4 _]; exact H4|by eexists|by eexists|done..].
Qed.

Lemma start_client_optional name call w : name ≠ "persistence" →
  ∃ w', start_client name call false w = (Ret tt, w') ∧ ag_runtime w' = ag_runtime w ∧
    dict_get "persistence" (ag_startup_dependencies w') =
    dict_get "persistence" (ag_startup_dependencies w) ∧
    ∃ ok, ag_calls w' = (call, ok) :: ag_calls w.
Proof.
  intros Hn. unfold start_client, try_except, bind. pose proof (ext_uncancelled call w) as Hu.
  destruct (ext_run call w) as (o & x & E & _). rewrite E in *. cbn in Hu.
  destruct o as [a|e]; cbn; [|unfold except_exception; rewrite bool_decide_false by congruence].
  all: eexists; split; [reflexivity|]; cbn; rewrite dict_get_set_ne by done; by eauto.
Qed.

(** How a service with optional dependencies starts: on the configured backends,
    or degraded, on its own memory, with the reason. *)
Definition started_or_degraded (w : AgentState X) : Prop :=
  sr_started (ag_runtime w) = true ∧
  ((dict_get "persistence" (ag_startup_dependencies w) = Some [("status", VStr "available")] ∧
    sr_degraded_reason (ag_runtime w) = None ∧ on_configured st registry w) ∨
   (∃ e, dict_get "persistence" (ag_startup_dependencies w) =
        Some (dict_set "status" (VStr "degraded") (failed_dependency false e)) ∧
      sr_degraded_reason (ag_runtime w) = Some (exn_text e) ∧ on_memory w)).

Lemma start_persistence_degrades w :
  inv all_closed w → unstarted (ag_runtime w) →
  is_ret (_memory_store st registry) = true → persistence_needed st = false →
  ∃ w', start_persistence st registry w = (Ret tt, w') ∧ started_or_degraded w'.
Proof.
  intros H Hs Hm Hp. unfold start_persistence, try_except, started_or_degraded.
  destruct (runtime_start_cases w H Hs) as [(w1 & E & Hs1 & Hd & Hoc)|(e & w1 & E & He & H1)].
  - rewrite (bind_run _ _ _ _ _ E). eexists. split; [reflexivity|]. cbn. split; [done|]. left.
    rewrite dict_get_set_eq. split; [done|]. split; [done|]. by destruct Hoc.
  - unfold bind at 1. rewrite E. unfold except_exception. rewrite bool_decide_false, Hp by done.
    unfold set_dependency at 1. unfold bind at 1, modify.
    edestruct (fallback_returns (exn_text e)) as (w2 & E2 & Hw2 & Hs2 & Hd2); [|done|].
    2:{ rewrite (bind_run _ _ _ _ _ E2). eexists. split; [reflexivity|]. cbn. split; [done|]. right.
        exists e. by rewrite dict_get_set_eq. }
    eapply inv_weaken; [|exact H1]. set_solver.
Qed.

Lemma start_client_keeps name call w :
  name ≠ "persistence" → (∀ ok, neutral (call, ok) = true) → started_or_degraded w →
  ∃ w', start_client name call false w = (Ret tt, w') ∧ started_or_degraded w'.
Proof.
  intros Hn Hc Hw. destruct (start_client_optional name call w Hn) as (w' & E & Hr & Hd & ok & Hl).
  exists w'. split; [done|]. unfold started_or_degraded, on_memory in *. rewrite Hr, Hd, Hl.
  destruct Hw as [? [(? & ? & [O1 O2 O3 O4 O5])|(e & ? & ? & Hh & Hm)]]; (split; [done|]).
  { left. split; [done|]. split; [done|]. unfold neo4j_settled in O5.
    by constructor; unfold neo4j_settled; rewrite Hr. }
  right. exists e.
  split; [done|]. split; [done|]. split; [|exact Hm]. intros r.
  etrans; [apply (handle_neutral r [(call, ok)])|done]. apply andb_true_iff. by split.
Qed.
End starting.

(** C31. Optional dependencies never keep the service from starting.  When the
    state services, the artifact store, Ollama and MCP are all optional and no
    call is cancelled, [start] returns with a started runtime, whatever their
    calls raise.  Either the status of the persistence is available and every part
    of the runtime is the started backend the settings name -- conversations, runs,
    checkpoints, artifacts, and Neo4j, which when it failed is left out with the
    reason kept -- or every handle opened on the way was closed again, the
    process runs on its own memory, and the status names the error that made it
    so. *)
Theorem startup_degrades {X} `{!ServiceHost X} st registry (x : X) w0
    (Hinit : agent_init st registry x = Ret w0)
    (Hcalm : calm_calls (X:=X))
    (Hpersistence : persistence_needed st = false)
    (Hollama : ollama_required st = false) (Hmcp : mcp_required st = false) :
  ∃ w, agent_start st registry w0 = (Ret tt, w) ∧ started_or_degraded st registry w.
Proof.
  assert (inv all_closed w0 ∧ unstarted (ag_runtime w0) ∧ is_ret (_memory_store st registry) = true)
    as (Hinv & Hstarted & Hstore).
  { unfold agent_init, runtime_init in Hinit. repeat case_match; simplify_eq.
    split_and!; [|by repeat split|done]. split; [by left|done]. }
  edestruct (start_persistence_degrades st registry Hcalm (w0 <| ag_startup_dependencies := [] |>))
    as (w1 & E1 & H1); [split; apply Hinv|done..|].
  unfold agent_start. rewrite Hollama, Hmcp. unfold bind at 1, modify. rewrite (bind_run _ _ _ _ _ E1).
  assert (∃ w2, (if bool_decide (llm_backend (st_settings st) = Ollama)
    then start_client "ollama" StartOllama false else ret tt) w1 = (Ret tt, w2) ∧
    started_or_degraded st registry w2) as (w2 & E2 & H2).
  { case_bool_decide; [by apply start_client_keeps|by eexists]. }
  rewrite (bind_run _ _ _ _ _ E2). destruct (mcp_enabled (st_settings st)); [|by eexists].
  by apply start_client_keeps.
Qed.
