(* ===== verification/Health.v ===== *)
(** * Health and readiness

    [StateRuntime.health] of [app/state/runtime.py] with the health of every
    backend, and [ready_health] of [app/api/routes/health.py].  The readiness
    endpoint is open, so what it may say about a failure depends on
    [expose_internal_health_details]: [ready_redacted] is the noninterference
    theorem, [startup_errors_exposed] and [silent_fallback] are where the
    endpoint says too much and too little. *)

From S2P Require Import Prelude PyData Settings Metrics RunTypes RunRepo MemoryRepo PostgresRepo.
From S2P Require Import ConvStore ConvSpec RedisStore PostgresStore Inventory StateRuntime Lifespan.

Section health.
Context {X : Type} `{!ServiceHost X} (st : StateSettings).

Abbreviation AM := (M (AgentState X)) (only parsing).

(** What a payload says of a failure. *)
Definition shown (details : string) : pyval :=
  VStr (if expose_internal_health_details st then details else "Dependency unavailable.").

Definition unavailable (backend details : string) : pyval :=
  VDict [("status", VStr "unavailable"); ("backend", VStr backend); ("error", shown details)].

(** *** The backends *)

Definition conversation_health : AM pyval :=
  let! b := runtime_gets sr_conversations in
  match b with
  | ConversationsMemory s =>
      let! now := gets (λ w, sh_now (ag_ext w)) in
      let '(o, s') := store_health now s in
      on_runtime (λ r, r <| sr_conversations := ConversationsMemory s' |>) ;;;
      of_outcome o
  | ConversationsRedis s =>
      let! ping := ext_when (rc_client s) RedisPing in
      of_outcome (redis_health ping (redis_max_connections st) s).1
  | ConversationsPostgres s =>
      let! select_1 := ext_when (ps_pool s) SelectOne in
      let! stats := gets (λ w, sh_pool_stats (ag_ext w)) in
      of_outcome (postgres_store_health select_1 stats s).1
  end.

(** [PostgresRunRepository.health]. *)
Definition postgres_runs_health (select_1 : outcome pyval) (p : PoolStats) :
    M PostgresRunRepository pyval :=
  _require_pool ;;;
  let! value := of_outcome select_1 in
  let! owns := gets pg_owns_pool in
  ret (VDict [("status", VStr "available"); ("backend", VStr "postgres"); ("value", value);
    ("pool", _pool_snapshot p (negb owns))]).

Definition runs_health : AM pyval :=
  let! b := runtime_gets sr_runs in
  match b with
  | RunsMemory s =>
      let! clk := gets (λ w, sh_utcnow (ag_ext w)) in
      of_outcome (memory_health clk s).1
  | RunsPostgres s =>
      let! select_1 := ext_when (pg_pool s) SelectOne in
      let! stats := gets (λ w, sh_pool_stats (ag_ext w)) in
      of_outcome (postgres_runs_health select_1 stats s).1
  end.

Definition artifacts_health : AM pyval :=
  let! exists_ := ext BucketExists in
  ret (VDict [("status", VStr (if truthy exists_ then "available" else "unavailable"));
    ("backend", VStr "minio"); ("bucket", VStr (minio_bucket st))]).

Definition connection_status (driver : bool) : pyval :=
  VDict [("application_scoped", VBool driver); ("pooled", VBool driver);
    ("max_connection_pool_size", VInt (neo4j_max_connection_pool_size st));
    ("connection_acquisition_timeout_seconds", VFloat (neo4j_connection_acquisition_timeout_seconds st));
    ("connection_timeout_seconds", VFloat (neo4j_connection_timeout_seconds st));
    ("max_connection_lifetime_seconds", VFloat (neo4j_max_connection_lifetime_seconds st));
    ("keep_alive", VBool (neo4j_keep_alive st))].

Definition manager_health (driver : bool) : AM pyval :=
  if driver then
    ext VerifyConnectivity ;;;
    ret (VDict [("status", VStr "available"); ("backend", VStr "neo4j");
      ("database", VStr (neo4j_database st)); ("pool", connection_status driver)])
  else raise (PyExn RuntimeError "Neo4j connection manager is not started").

(** *** [StateRuntime] *)

(** The reader is [aget_tuple] of the checkpointer, within the timeout. *)
Definition _checkpoint_health : AM pyval :=
  try_except
    (ext ReadCheckpoint ;;;
     ret (VDict [("status", VStr "available"); ("backend", VStr (checkpoint_backend (st_settings st)))]))
    (except_exception (λ e, ret (unavailable (checkpoint_backend (st_settings st))
      (typed_text e (str_or (strip (exn_text e)) "health check failed"))))).

Definition _connection_management_status : AM pyval :=
  let! r := runtime_gets (λ r, r) in
  let! stats := gets (λ w, sh_pool_stats (ag_ext w)) in
  let checkpoint_size n := VInt (if sr_checkpoint_pool r then n else 0) in
  ret (VDict [
    ("postgres",
      if sr_postgres_pool r then
        VDict [("status", VStr "available"); ("shared_asyncpg_pool", VBool true);
          ("size", VInt (pool_size stats)); ("idle", VInt (pool_idle stats));
          ("min_size", VInt (pool_min_size stats)); ("max_size", VInt (pool_max_size stats))]
      else VDict [("status", VStr "disabled"); ("shared_asyncpg_pool", VBool false)]);
    ("checkpoint", VDict [("driver", VStr "psycopg");
      ("application_scoped", VBool (sr_checkpoint_pool r)); ("pooled", VBool (sr_checkpoint_pool r));
      ("min_size", checkpoint_size (postgres_pool_min_size st));
      ("max_size", checkpoint_size (postgres_pool_max_size st))]);
    ("redis", VDict [("application_scoped", VBool (String.eqb (state_backend (st_settings st)) "redis"))]);
    ("minio", VDict [("application_scoped", VBool (String.eqb (artifact_backend (st_settings st)) "minio"))]);
    ("neo4j",
      match sr_neo4j r with
      | Some driver => connection_status driver
      | None => VDict [("application_scoped", VBool false); ("pooled", VBool false);
          ("max_connection_pool_size",
            VInt (if neo4j_enabled st then neo4j_max_connection_pool_size st else 0))]
      end)]).

Definition degraded_items (r : StateRuntime) : pydict :=
  match sr_degraded_reason r with
  | Some reason =>
      if nonempty reason then
        [("degraded_reason", VStr (if expose_internal_health_details st then reason
            else "Optional persistence dependency unavailable; using memory fallback."));
         ("effective_conversation_backend", VStr "memory");
         ("effective_run_repository_backend", VStr "memory");
         ("effective_checkpoint_backend", VStr "memory")]
      else []
  | None => []
  end.

Definition artifacts_item (r : StateRuntime) : AM pyval :=
  if sr_artifacts r then artifacts_health
  else if String.eqb (artifact_backend (st_settings st)) "minio" then
    ret (unavailable "minio" (opt_str_or (sr_degraded_reason r) "artifact backend not started"))
  else ret (VDict [("status", VStr "disabled"); ("backend", VStr "disabled")]).

Definition neo4j_item (r : StateRuntime) : AM pyval :=
  match sr_neo4j r with
  | Some driver =>
      try_except (manager_health driver)
        (except_exception (λ e, ret (unavailable "neo4j" (typed_text e (strip (exn_text e))))))
  | None =>
      ret (if neo4j_enabled st
           then unavailable "neo4j" (opt_str_or (sr_neo4j_degraded_reason r) "Neo4j driver not started")
           else VDict [("status", VStr "disabled"); ("backend", VStr "neo4j")])
  end.

Definition health : AM pydict :=
  let! r := runtime_gets (λ r, r) in
  let! management := _connection_management_status in
  let degraded := opt_truthy (sr_degraded_reason r) || opt_truthy (sr_neo4j_degraded_reason r) in
  let! conversation := conversation_health in
  let! runs := try_except runs_health (except_exception (λ e,
    ret (unavailable (run_repository_backend (st_settings st)) (typed_text e (strip (exn_text e)))))) in
  let! checkpoint := _checkpoint_health in
  let! artifacts := artifacts_item r in
  let! neo4j := neo4j_item r in
  ret ([("status", VStr (if degraded then "degraded" else "available"));
        ("conversation_backend", VStr (state_backend (st_settings st)));
        ("run_repository_backend", VStr (run_repository_backend (st_settings st)));
        ("checkpoint_backend", VStr (checkpoint_backend (st_settings st)));
        ("artifact_backend", VStr (artifact_backend (st_settings st)));
        ("connection_management", management)] ++ degraded_items r ++
       [("conversation", conversation); ("runs", runs); ("checkpoint", checkpoint);
        ("artifacts", artifacts); ("neo4j", neo4j)]).

(** *** [ready_health] *)

Definition version : string := "0.5.0".

(** The replies of the routes that ask nothing. *)
Definition root : pydict := [
  ("service", VStr (app_name st)); ("version", VStr version); ("status", VStr "running");
  ("liveness", VStr "/health"); ("readiness", VStr "/health/ready"); ("chat", VStr "/api/chat");
  ("stream", VStr "/api/chat/stream"); ("inventory", VStr "/api/inventory")].

Definition health_route : pydict :=
  [("status", VStr "ok"); ("service", VStr (app_name st)); ("version", VStr version)].

Definition live_health : Z * pydict :=
  (200, [("status", VStr "alive"); ("service", VStr (app_name st)); ("version", VStr version)]).

Definition safe_error (e : exn) : string :=
  if expose_internal_health_details st then
    let text := strip (exn_text e) in
    if nonempty text then sh_type_name e +:+ ": " +:+ text else sh_type_name e
  else "Dependency unavailable.".

(** [error if expose else ("Dependency unavailable." if error else None)]. *)
Definition shown_error (error : option string) : pyval :=
  if expose_internal_health_details st then match error with Some e => VStr e | None => VNone end
  else if opt_truthy error then VStr "Dependency unavailable." else VNone.

Definition availability (b : bool) : pyval := VStr (if b then "available" else "unavailable").

Definition ollama_available (inventory : RuntimeInventory) : bool :=
  negb (opt_truthy (dict_get "ollama" (ri_errors inventory)))
  && negb (bool_decide (model_names inventory = [])).

Definition mcp_available (inventory : RuntimeInventory) : bool :=
  negb (opt_truthy (dict_get "mcp" (ri_errors inventory))).

Definition inventory_item (count_key : string) (count : nat) (inventory : RuntimeInventory)
    (available : bool) (error : option string) : pyval :=
  VDict [("status", availability available); (count_key, VInt (Z.of_nat count));
    ("cached", VBool (ri_cached inventory)); ("error", shown_error error)].

Definition inventory_items (inventory : RuntimeInventory) : pydict :=
  (if bool_decide (llm_backend (st_settings st) = Ollama) then
     [("ollama", inventory_item "model_count" (length (model_names inventory)) inventory
        (ollama_available inventory) (dict_get "ollama" (ri_errors inventory)))] else []) ++
  (if mcp_enabled (st_settings st) then
     [("mcp", inventory_item "tool_count" (length (tool_names inventory)) inventory
        (mcp_available inventory) (dict_get "mcp" (ri_errors inventory)))] else []).

Definition inventory_ready (inventory : RuntimeInventory) : bool :=
  (if bool_decide (llm_backend (st_settings st) = Ollama) && ollama_required st
   then ollama_available inventory else true)
  && (if mcp_enabled (st_settings st) && mcp_required st then mcp_available inventory else true).

(** [(persistence.get(key) or {}).get("status")]. *)
Definition status_of (key : string) (persistence : pydict) : pyval :=
  match get_or_none key persistence with VDict d => get_or_none "status" d | _ => VNone end.

Definition is_status (key : string) (persistence : pydict) (status : string) : bool :=
  bool_decide (status_of key persistence = VStr status).

Definition persistence_ready (persistence : pydict) : bool :=
  (if persistence_required st then
     is_status "conversation" persistence "available" && is_status "runs" persistence "available"
     && is_status "checkpoint" persistence "available" else true)
  && (if artifact_storage_required st then
        is_status "artifacts" persistence "available" || is_status "artifacts" persistence "disabled"
      else true).

(** The persistence of the payload, and whether it lets the service be ready. *)
Definition persistence_item : AM (pyval * bool) :=
  try_except (let! persistence := health in ret (VDict persistence, persistence_ready persistence))
    (except_exception (λ e, ret
      (VDict [("status", VStr "unavailable"); ("error", VStr (safe_error e))],
       negb (persistence_required st || artifact_storage_required st)))).

Definition dependency_startup_status : AM pyval :=
  gets (λ w, VDict ((λ kd, (kd.1, VDict kd.2)) <$> ag_startup_dependencies w)).

(** The status code and the content; [inventory] is what [InventoryService.load]
    returned. *)
Definition ready_health (inventory : RuntimeInventory) : AM (Z * pydict) :=
  let* (persistence, persistent) := persistence_item in
  let! startup := dependency_startup_status in
  let ready := inventory_ready inventory && persistent in
  ret (if ready then 200 else 503,
    [("status", VStr (if ready then "ready" else "not_ready")); ("service", VStr (app_name st));
     ("version", VStr version);
     ("dependencies", VDict (inventory_items inventory ++ [("persistence", persistence)]));
     ("startup", startup)]).
End health.

(** ** What an error says stays inside

    Two services that differ only in what their errors say: the same calls
    return and raise, and what returns is the same. *)

Definition same_cancelled (e1 e2 : exn) : Prop := e1 = CancelledError ↔ e2 = CancelledError.

Definition alike {A1 A2} (R : A1 → A2 → Prop) (o1 : outcome A1) (o2 : outcome A2) : Prop :=
  match o1, o2 with
  | Ret a1, Ret a2 => R a1 a2
  | Raise e1, Raise e2 => same_cancelled e1 e2
  | _, _ => False
  end.

Class AlikeHosts (X1 X2 : Type) `{!ServiceHost X1} `{!ServiceHost X2} (RX : X1 → X2 → Prop) : Prop := {
  alike_call x1 x2 c : RX x1 x2 →
    alike eq (sh_call c x1).1 (sh_call c x2).1 ∧ RX (sh_call c x1).2 (sh_call c x2).2;
  alike_now x1 x2 : RX x1 x2 → sh_now x1 = sh_now x2;
  alike_utcnow x1 x2 : RX x1 x2 → sh_utcnow x1 = sh_utcnow x2;
  alike_pool_stats x1 x2 : RX x1 x2 → sh_pool_stats x1 = sh_pool_stats x2
}.

(** The runtimes agree but for the texts of the reasons they were degraded for. *)
Definition without_reasons (r : StateRuntime) : StateRuntime :=
  r <| sr_degraded_reason := None |> <| sr_neo4j_degraded_reason := None |>.

Definition alike_runtimes (r1 r2 : StateRuntime) : Prop :=
  without_reasons r1 = without_reasons r2 ∧
  opt_truthy (sr_degraded_reason r1) = opt_truthy (sr_degraded_reason r2) ∧
  opt_truthy (sr_neo4j_degraded_reason r1) = opt_truthy (sr_neo4j_degraded_reason r2).

Definition alike_inventories (i1 i2 : RuntimeInventory) : Prop :=
  model_names i1 = model_names i2 ∧ tool_names i1 = tool_names i2 ∧ ri_cached i1 = ri_cached i2 ∧
  ∀ k, opt_truthy (dict_get k (ri_errors i1)) = opt_truthy (dict_get k (ri_errors i2)).

Section redaction.
Context {X1 X2 : Type} `{H1 : !ServiceHost X1} `{H2 : !ServiceHost X2} (RX : X1 → X2 → Prop)
  `{Hhosts : !AlikeHosts X1 X2 RX} (st : StateSettings).
Hypothesis Hhidden : expose_internal_health_details st = false.

Definition alike_states (w1 : AgentState X1) (w2 : AgentState X2) : Prop :=
  alike_runtimes (ag_runtime w1) (ag_runtime w2) ∧ RX (ag_ext w1) (ag_ext w2).

(** From alike states, alike outcomes and states. *)
Definition mirrors {A1 A2} (R : A1 → A2 → Prop) (m1 : M (AgentState X1) A1) (m2 : M (AgentState X2) A2) : Prop :=
  ∀ w1 w2, alike_states w1 w2 →
    alike R (m1 w1).1 (m2 w2).1 ∧ alike_states (m1 w1).2 (m2 w2).2.

Lemma mirrors_ret {A1 A2} (R : A1 → A2 → Prop) a1 a2 : R a1 a2 → mirrors R (ret a1) (ret a2).
Proof. by intros HR w1 w2 Hw. Qed.

Lemma mirrors_raise {A1 A2} (R : A1 → A2 → Prop) e1 e2 : same_cancelled e1 e2 → mirrors R (raise e1) (raise e2).
Proof. by intros HR w1 w2 Hw. Qed.

Lemma mirrors_of_outcome {A1 A2} (R : A1 → A2 → Prop) o1 o2 :
  alike R o1 o2 → mirrors R (of_outcome o1) (of_outcome o2).
Proof. by intros HR w1 w2 Hw. Qed.

Lemma mirrors_gets {A1 A2} (R : A1 → A2 → Prop) f1 f2 :
  (∀ w1 w2, alike_states w1 w2 → R (f1 w1) (f2 w2)) → mirrors R (gets f1) (gets f2).
Proof. intros HR w1 w2 Hw. split; [by apply HR|done]. Qed.

Lemma mirrors_bind {A1 A2 B1 B2} (R : A1 → A2 → Prop) (Q : B1 → B2 → Prop) m1 m2 k1 k2 :
  mirrors R m1 m2 → (∀ a1 a2, R a1 a2 → mirrors Q (k1 a1) (k2 a2)) →
  mirrors Q (bind m1 k1) (bind m2 k2).
Proof.
  intros Hm Hk w1 w2 Hw. destruct (Hm w1 w2 Hw) as [Ho Hs]. unfold bind.
  destruct (m1 w1) as [[a1|e1] w1'], (m2 w2) as [[a2|e2] w2']; cbn in *; try done.
  by apply Hk.
Qed.

Lemma mirrors_handled {A1 A2} (R : A1 → A2 → Prop) m1 m2 (h1 : exn → M (AgentState X1) A1) h2 :
  mirrors R m1 m2 → (∀ e1 e2, mirrors R (h1 e1) (h2 e2)) →
  mirrors R (try_except m1 (except_exception h1)) (try_except m2 (except_exception h2)).
Proof.
  intros Hm Hh w1 w2 Hw. destruct (Hm w1 w2 Hw) as [Ho Hs]. unfold try_except, except_exception.
  destruct (m1 w1) as [[a1|e1] w1'], (m2 w2) as [[a2|e2] w2']; cbn in *; try done.
  unfold same_cancelled in Ho. destruct (decide (e1 = CancelledError)).
  - rewrite !bool_decide_true by naive_solver. done.
  - rewrite !bool_decide_false by naive_solver. by apply Hh.
Qed.

Lemma mirrors_ext c : mirrors eq (ext c) (ext c).
Proof.
  intros w1 w2 [Hr Hx]. destruct (alike_call _ _ c Hx) as [Ho Hx']. unfold ext.
  destruct (sh_call c (ag_ext w1)), (sh_call c (ag_ext w2)). done.
Qed.

Lemma mirrors_ext_when b c : mirrors (alike eq) (ext_when b c) (ext_when b c).
Proof.
  destruct b; [|by apply mirrors_ret]. intros w1 w2 Hw. pose proof (mirrors_ext c w1 w2 Hw) as H.
  cbn. unfold outcome_of. by destruct (ext c w1), (ext c w2).
Qed.

(** Every field but the reasons is the same. *)
Lemma alike_field {A} (f : StateRuntime → A) w1 w2 :
  alike_states w1 w2 → (∀ r, f (without_reasons r) = f r) → f (ag_runtime w1) = f (ag_runtime w2).
Proof. intros [[Hr _] _] Hf. by rewrite <- (Hf (ag_runtime w1)), <- (Hf (ag_runtime w2)), Hr. Qed.

Lemma mirrors_field {A} (f : StateRuntime → A) :
  (∀ r, f (without_reasons r) = f r) → mirrors eq (runtime_gets f) (runtime_gets f).
Proof. intros Hf. apply mirrors_gets. intros w1 w2 Hw. by apply alike_field. Qed.

(** An update that leaves the reasons alone. *)
Lemma mirrors_on_runtime f :
  (∀ r, without_reasons (f r) = f (without_reasons r)) →
  (∀ r, sr_degraded_reason (f r) = sr_degraded_reason r) →
  (∀ r, sr_neo4j_degraded_reason (f r) = sr_neo4j_degraded_reason r) →
  mirrors eq (on_runtime f) (on_runtime f).
Proof.
  intros H H' H'' w1 w2 [[Hr Hd] Hx]. split; [done|]. split; [|done]. cbn. split.
  - by rewrite !H, Hr.
  - by rewrite !H', !H''.
Qed.

Lemma mirrors_stats :
  mirrors eq (gets (λ w, sh_pool_stats (ag_ext w))) (gets (λ w, sh_pool_stats (ag_ext w))).
Proof. apply mirrors_gets. intros w1 w2 [_ Hx]. by apply (alike_pool_stats _ _ Hx). Qed.

Lemma mirrors_conversation : mirrors eq (conversation_health st) (conversation_health st).
Proof.
  eapply mirrors_bind; [by apply mirrors_field|]. intros b ? <-. destruct b as [s|s|s].
  - eapply mirrors_bind with (R := eq).
    { apply mirrors_gets. intros w1 w2 [_ Hx]. by apply (alike_now _ _ Hx). }
    intros now ? <-. destruct (store_health now s) as [o s'].
    eapply mirrors_bind; [by apply mirrors_on_runtime|]. intros ? ? _.
    apply mirrors_of_outcome. by destruct o.
  - eapply mirrors_bind; [apply mirrors_ext_when|]. intros o1 o2 Ho. apply mirrors_of_outcome.
    unfold redis_health, _require_client, bind, gets, of_outcome. destruct (rc_client s); cbn; [|done].
    destruct o1, o2; cbn in *; by simplify_eq.
  - eapply mirrors_bind; [apply mirrors_ext_when|]. intros o1 o2 Ho.
    eapply mirrors_bind; [apply mirrors_stats|]. intros stats ? <-. apply mirrors_of_outcome.
    unfold postgres_store_health, _require_conversation_pool, bind, gets, of_outcome.
    destruct (ps_pool s); cbn; [|done]. destruct o1, o2; cbn in *; by simplify_eq.
Qed.

Lemma mirrors_runs : mirrors eq runs_health runs_health.
Proof.
  eapply mirrors_bind; [by apply mirrors_field|]. intros b ? <-. destruct b as [s|s].
  - eapply mirrors_bind with (R := eq).
    { apply mirrors_gets. intros w1 w2 [_ Hx]. by apply (alike_utcnow _ _ Hx). }
    intros clk ? <-. by apply mirrors_of_outcome.
  - eapply mirrors_bind; [apply mirrors_ext_when|]. intros o1 o2 Ho.
    eapply mirrors_bind; [apply mirrors_stats|]. intros stats ? <-. apply mirrors_of_outcome.
    unfold postgres_runs_health, _require_pool, bind, gets, of_outcome.
    destruct (pg_pool s); cbn; [|done]. destruct o1, o2; cbn in *; by simplify_eq.
Qed.

Lemma unavailable_hidden backend d1 d2 : unavailable st backend d1 = unavailable st backend d2.
Proof. unfold unavailable, shown. by rewrite Hhidden. Qed.

Lemma mirrors_checkpoint : mirrors eq (_checkpoint_health st) (_checkpoint_health st).
Proof.
  apply mirrors_handled; [|intros; apply mirrors_ret, unavailable_hidden].
  eapply mirrors_bind; [apply mirrors_ext|]. intros ? ? _. by apply mirrors_ret.
Qed.

Lemma without_reasons_eq r1 r2 :
  without_reasons r1 = without_reasons r2 →
  r1 = r2 <| sr_degraded_reason := sr_degraded_reason r1 |>
    <| sr_neo4j_degraded_reason := sr_neo4j_degraded_reason r1 |>.
Proof. unfold without_reasons. destruct r1, r2. cbn. intros H. by injection H as -> -> -> -> -> -> -> ->. Qed.

Lemma mirrors_management :
  mirrors eq (_connection_management_status st) (_connection_management_status st).
Proof.
  eapply (mirrors_bind (λ r1 r2, without_reasons r1 = without_reasons r2)).
  { apply mirrors_gets. by intros w1 w2 [[Hr _] _]. }
  intros r1 r2 Hr. eapply mirrors_bind; [apply mirrors_stats|]. intros stats ? <-.
  apply mirrors_ret. by rewrite (without_reasons_eq _ _ Hr).
Qed.

Lemma mirrors_artifacts r1 r2 :
  without_reasons r1 = without_reasons r2 → mirrors eq (artifacts_item st r1) (artifacts_item st r2).
Proof.
  intros Hr. unfold artifacts_item. assert (sr_artifacts r1 = sr_artifacts r2) as ->.
  { by rewrite (without_reasons_eq _ _ Hr). }
  case_match; [|case_match; apply mirrors_ret; [apply unavailable_hidden|done]].
  eapply mirrors_bind; [apply mirrors_ext|]. intros ? ? <-. by apply mirrors_ret.
Qed.

Lemma mirrors_neo4j r1 r2 :
  without_reasons r1 = without_reasons r2 → mirrors eq (neo4j_item st r1) (neo4j_item st r2).
Proof.
  intros Hr. unfold neo4j_item. assert (sr_neo4j r1 = sr_neo4j r2) as ->.
  { by rewrite (without_reasons_eq _ _ Hr). }
  case_match; [|apply mirrors_ret; case_match; [apply unavailable_hidden|done]].
  apply mirrors_handled; [|intros; apply mirrors_ret, unavailable_hidden].
  unfold manager_health. case_match; [|by apply mirrors_raise].
  eapply mirrors_bind; [apply mirrors_ext|]. intros ? ? _. by apply mirrors_ret.
Qed.

Lemma degraded_items_hidden r1 r2 :
  opt_truthy (sr_degraded_reason r1) = opt_truthy (sr_degraded_reason r2) →
  degraded_items st r1 = degraded_items st r2.
Proof.
  unfold degraded_items, opt_truthy. rewrite Hhidden.
  destruct (sr_degraded_reason r1) as [a|], (sr_degraded_reason r2) as [b|]; cbn; [intros ->|..]; try done.
  - by intros ->.
  - by intros <-.
Qed.

Lemma mirrors_health : mirrors eq (health st) (health st).
Proof.
  eapply (mirrors_bind alike_runtimes); [apply mirrors_gets; by intros w1 w2 [Hr _]|].
  intros r1 r2 (Hr & Hd & Hn).
  eapply mirrors_bind; [apply mirrors_management|]. intros management ? <-.
  eapply mirrors_bind; [apply mirrors_conversation|]. intros conversation ? <-.
  eapply mirrors_bind.
  { apply mirrors_handled; [apply mirrors_runs|]. intros; apply mirrors_ret, unavailable_hidden. }
  intros runs ? <-.
  eapply mirrors_bind; [apply mirrors_checkpoint|]. intros checkpoint ? <-.
  eapply mirrors_bind; [by apply mirrors_artifacts|]. intros artifacts ? <-.
  eapply mirrors_bind; [by apply mirrors_neo4j|]. intros neo4j ? <-.
  apply mirrors_ret. by rewrite Hd, Hn, (degraded_items_hidden r1 r2 Hd).
Qed.

Lemma mirrors_persistence : mirrors eq (persistence_item st) (persistence_item st).
Proof.
  apply mirrors_handled.
  - eapply mirrors_bind; [apply mirrors_health|]. intros d ? <-. by apply mirrors_ret.
  - intros e1 e2. apply mirrors_ret. unfold safe_error. by rewrite Hhidden.
Qed.

Lemma inventory_hidden i1 i2 :
  alike_inventories i1 i2 →
  inventory_items st i1 = inventory_items st i2 ∧ inventory_ready st i1 = inventory_ready st i2.
Proof.
  intros (Hm & Ht & Hc & He).
  unfold inventory_items, inventory_item, inventory_ready, ollama_available, mcp_available, shown_error.
  by rewrite Hhidden, Hm, Ht, Hc, !He.
Qed.
End redaction.

(** C19. The open readiness endpoint says nothing of an error's text.  Take two
    services whose calls return and raise at the same points, with the same
    values returned but any two exceptions raised, over inventories whose errors
    differ in their texts, and degraded at startup for reasons that differ in
    theirs: each of these texts is empty in both services or in neither, since an
    error without a text counts as none ([silent_fallback]).  Unless
    [expose_internal_health_details] is set, [/health/ready] answers both with
    the same status code and the same content, its [startup] entry apart; and it
    raises for both or for neither. *)
Theorem ready_redacted {X1 X2} `{!ServiceHost X1} `{!ServiceHost X2} (RX : X1 → X2 → Prop)
    `{!AlikeHosts X1 X2 RX} st i1 i2 w1 w2
    (Hhidden : expose_internal_health_details st = false)
    (Hruntimes : alike_runtimes (ag_runtime w1) (ag_runtime w2)) (Hworlds : RX (ag_ext w1) (ag_ext w2))
    (Hinventories : alike_inventories i1 i2) :
  alike (λ r1 r2, r1.1 = r2.1 ∧ od_pop "startup" r1.2 = od_pop "startup" r2.2)
    (ready_health st i1 w1).1 (ready_health st i2 w2).1.
Proof.
  destruct (inventory_hidden st Hhidden i1 i2 Hinventories) as [Hitems Hready].
  refine (proj1 (mirrors_bind RX eq _ _ _ _ _ (mirrors_persistence RX st Hhidden) _ w1 w2 (conj Hruntimes Hworlds))).
  intros [persistence persistent] ? <-.
  eapply mirrors_bind with (R := λ _ _, True); [by apply mirrors_gets|]. intros startup1 startup2 _.
  apply mirrors_ret. cbn. by rewrite Hitems, Hready.
Qed.

(** ** Asking for the health opens and closes nothing *)

#[export] Instance serving_refl {X} : Reflexive (serving (X:=X)).
Proof. intros w. split_and!; [done|done|]. by exists []. Qed.

#[export] Instance serving_trans {X} : Transitive (serving (X:=X)).
Proof.
  intros w1 w2 w3 (H1 & H2 & l & El & Hl) (H1' & H2' & l' & El' & Hl'). split_and!; [congruence..|].
  exists (l' ++ l). split; [by rewrite El', El, app_assoc|]. by rewrite forallb_app, Hl, Hl'.
Qed.

Section asking.
Context {X : Type} `{!ServiceHost X} (st : StateSettings).

Lemma ext_serving c : (∀ ok, neutral (c, ok) = true) → preserves serving (ext (X:=X) c).
Proof.
  intros Hc w. destruct (ext_run c w) as (o & x & -> & _). split_and!; [done|done|].
  exists [(c, is_ret o)]. split; [done|]. apply andb_true_iff. by split; [apply Hc|].
Qed.

Lemma ext_when_serving b c :
  (∀ ok, neutral (c, ok) = true) → preserves serving (ext_when (X:=X) b c).
Proof.
  intros Hc. destruct b; [|by intros w]. intros w. pose proof (ext_serving c Hc w) as H.
  cbn. unfold outcome_of. by destruct (ext c w).
Qed.

Lemma conversation_serving : preserves serving (conversation_health (X:=X) st).
Proof.
  intros w. unfold conversation_health, runtime_gets, bind at 1, gets at 1.
  destruct (sr_conversations (ag_runtime w)) as [s|s|s] eqn:E.
  - unfold bind, gets. destruct (store_health _ s) as [o s']. cbn. split_and!; [|cbn; unfold shares_pool; by rewrite E|by exists []].
    intros []; cbn; by rewrite ?E.
  - eapply preserves_bind; [apply _|by apply ext_when_serving|intros o; by intros w'].
  - eapply preserves_bind; [apply _|by apply ext_when_serving|intros o; by intros w'].
Qed.

#[local] Hint Resolve ext_serving ext_when_serving conversation_serving : preserve.

Lemma health_serving : preserves serving (health (X:=X) st).
Proof.
  unfold health, runs_health, artifacts_item, artifacts_health, neo4j_item, manager_health.
  unfold _checkpoint_health, _connection_management_status, runtime_gets.
  repeat first
    [ progress (eauto 3 with preserve typeclass_instances)
    | apply preserves_bind; [apply _| |intros ?]
    | apply preserves_try_except; [apply _| |unfold except_exception; intros ? ? ?; case_bool_decide; simplify_eq]
    | case_match ].
Qed.
End asking.

(** ** A service whose calls fail as told *)

Definition scripted (fails : service_call → option exn) : ServiceHost unit := {|
  sh_call c x := (match fails c with Some e => Raise e | None => Ret (VBool true) end, x);
  sh_now _ := 0;
  sh_utcnow _ _ := 0;
  sh_pool_stats _ := MkPoolStats 1 1 1 10;
  sh_type_name _ := "RuntimeError"
|}.

Definition sample_state_settings : StateSettings := {|
  st_settings := (settings_with Ollama true) <| state_backend := "redis" |>
    <| run_repository_backend := "postgres" |> <| checkpoint_backend := "postgres" |>
    <| artifact_backend := "minio" |> <| resume_token_secret := "test-secret" |>;
  database_url := "postgresql://app@db/app"; redis_url := "redis://cache:6379";
  redis_key_prefix := "langgraph"; redis_max_connections := 20;
  state_ttl_seconds := 3600; state_max_sessions := 1000; state_max_history_messages := 30;
  postgres_pool_min_size := 1; postgres_pool_max_size := 10; postgres_auto_setup := true;
  minio_bucket := "langchain-langraph-app";
  neo4j_enabled := true; neo4j_uri := "bolt://graph:7687"; neo4j_username := "neo4j";
  neo4j_password := "secret"; neo4j_database := "neo4j"; neo4j_max_connection_pool_size := 20;
  neo4j_connection_acquisition_timeout_seconds := "30.0"; neo4j_connection_timeout_seconds := "10.0";
  neo4j_max_connection_lifetime_seconds := "3600.0"; neo4j_keep_alive := true;
  persistence_required := false; artifact_storage_required := false;
  ollama_required := false; mcp_required := false;
  expose_internal_health_details := false; app_name := "app";
  environment := "local"; cors_allow_origins := "*";
  ollama_base_url := "http://ollama:11434"; mcp_server_url := "http://mcp:8002/mcp"
|}.

Definition sample_registry : MetricsRegistry := MkMetrics 10 ∅ ∅.

Definition sample_agent : AgentState unit :=
  MkAgentState (MkStateRuntime
    (ConversationsMemory (MkStore 3600 1000 30 [] ∅ sample_registry)) (RunsMemory memory_init) InMemorySaver
    false None false false false None None) [] tt [].

Definition sample_inventory (error : string) : RuntimeInventory :=
  MkInventory [[("name", VStr "qwen3.5:4b")]] [] [("mcp", error)] false 0.

(** Neo4j is unreachable, and closing its driver fails too. *)
Definition driver_down (c : service_call) : option exn :=
  match c with
  | VerifyConnectivity => Some (PyExn OtherError "neo4j: connection refused")
  | CloseDriver => Some (PyExn OtherError "driver is closed")
  | _ => None
  end.

(** The bucket of the artifacts cannot be listed. *)
Definition bucket_down (text : string) (c : service_call) : option exn :=
  match c with BucketExists => Some (PyExn OtherError text) | _ => None end.

(** Opening the pool of the checkpoints times out: [str(TimeoutError())] is empty. *)
Definition checkpoints_time_out (c : service_call) : option exn :=
  match c with OpenCheckpointPool => Some (PyExn TimeoutError "") | _ => None end.

#[local] Notation started fails := (agent_start (ServiceHost0 := scripted fails) sample_state_settings
  sample_registry sample_agent).

(** What [/health/ready] says after a start in which the calls failed as told. *)
Definition ready_after (fails : service_call → option exn) (mcp_error : string) : outcome (Z * pydict) :=
  (ready_health (ServiceHost0 := scripted fails) sample_state_settings
    (sample_inventory mcp_error) (started fails).2).1.

(** The endpoint exposes the text of a startup error although
    [expose_internal_health_details] is off: the [startup] entry is the record
    of [ChatAgent.start] as it is. *)
Theorem startup_errors_exposed text :
  ∃ d, ready_after (bucket_down text) "" = Ret (200, d) ∧
    get_or_none "startup" d = VDict [
      ("persistence", VDict [("status", VStr "degraded"); ("required", VBool false);
        ("error", VStr ("RuntimeError: " +:+ strip text))]);
      ("ollama", VDict [("status", VStr "available")]); ("mcp", VDict [("status", VStr "available")])].
Proof. eexists. split; [vm_compute; reflexivity|]. vm_compute. reflexivity. Qed.

(** A fallback for an error without a text is not reported as degraded: every
    configured backend is named as the effective one while the process runs on
    its own memory. *)
Theorem silent_fallback :
  ∃ d, (health (ServiceHost0 := scripted checkpoints_time_out) sample_state_settings
      (started checkpoints_time_out).2).1 = Ret d ∧
    get_or_none "status" d = VStr "available" ∧
    get_or_none "conversation_backend" d = VStr "redis" ∧
    dict_get "effective_conversation_backend" d = None ∧
    sr_degraded_reason (ag_runtime (started checkpoints_time_out).2) = Some "" ∧
    match sr_conversations (ag_runtime (started checkpoints_time_out).2) with
    | ConversationsMemory _ => True
    | _ => False
    end.
Proof. eexists. split; [vm_compute; reflexivity|]. by vm_compute. Qed.

(** ** Witnesses *)

Lemma scripted_calm fails (Hf : ∀ c, fails c ≠ Some CancelledError) :
  calm_calls (ServiceHost0 := scripted fails).
Proof. intros c []. cbn. specialize (Hf c). destruct (fails c); congruence. Qed.

Lemma sample_init : agent_init sample_state_settings sample_registry tt = Ret sample_agent.
Proof. vm_compute. reflexivity. Qed.

(** The driver cannot be closed after it failed to connect. *)
Lemma driver_down_calm : calm_calls (ServiceHost0 := scripted driver_down).
Proof. apply scripted_calm. by intros []. Qed.

Lemma sample_serving fails w :
  serving w ((health (ServiceHost0 := scripted fails) sample_state_settings ;;; ret tt) w).2.
Proof. apply preserves_bind; [apply _|apply health_serving|]. intros d w'. reflexivity. Qed.

Lemma lifespan_releases_witness :
  handle RDriver (ag_calls (lifespan (ServiceHost0 := scripted driver_down) sample_state_settings
    sample_registry (health (ServiceHost0 := scripted driver_down) sample_state_settings ;;; ret tt)
    sample_agent).2) = Some false.
Proof.
  exact (lifespan_releases (ServiceHost0 := scripted driver_down) sample_state_settings sample_registry tt
    sample_agent _ sample_init (λ c x _, driver_down_calm c x) (sample_serving driver_down) RDriver).
Defined.

Lemma bucket_down_calm text : calm_calls (ServiceHost0 := scripted (bucket_down text)).
Proof. apply scripted_calm. by intros []. Qed.

Lemma startup_degrades_witness :
  ∃ w, agent_start (ServiceHost0 := scripted (bucket_down "no such host")) sample_state_settings
      sample_registry sample_agent = (Ret tt, w) ∧
    started_or_degraded (HX := scripted (bucket_down "no such host")) sample_state_settings
      sample_registry w.
Proof.
  exact (startup_degrades (ServiceHost0 := scripted (bucket_down "no such host")) sample_state_settings
    sample_registry tt sample_agent sample_init (bucket_down_calm _) eq_refl eq_refl eq_refl).
Defined.

#[export] Instance alike_scripted a b :
  AlikeHosts unit unit (ServiceHost0 := scripted (bucket_down a)) (ServiceHost1 := scripted (bucket_down b))
    (λ _ _, True).
Proof. split; [|done..]. intros [] [] [] _; by split. Qed.

Lemma ready_redacted_witness :
  alike (λ r1 r2, r1.1 = r2.1 ∧ od_pop "startup" r1.2 = od_pop "startup" r2.2)
    (ready_after (bucket_down "password=hunter2") "token expired") (ready_after (bucket_down "no route") "HTTP 500").
Proof.
  refine (ready_redacted (ServiceHost0 := scripted (bucket_down "password=hunter2"))
    (ServiceHost1 := scripted (bucket_down "no route")) (λ _ _, True) sample_state_settings
    (sample_inventory "token expired") (sample_inventory "HTTP 500") _ _ eq_refl _ I _).
  - vm_compute. done.
  - split_and!; [done..|]. intros k. cbn. by case_match.
Defined.
