(* ===== verification/Startup.v ===== *)
(** * The checks of the settings, and what they buy

    [validate_runtime_settings] and the derived properties of [app/settings.py].
    [workers_share_tokens]: the check on signing keys is what lets the workers of
    one deployment accept each other's resume tokens; without it every process
    signs with a key of its own ([processes_do_not_share_keys]). *)

From S2P Require Import Prelude PyData PyNum Base64 Json RunTypes Settings ChatSchema Identity Tokens.
From S2P Require Import StateRuntime Health.

Definition settings_error (m : string) : exn := PyExn ValueError m.

(** The names of the required Neo4j settings that are blank. *)
Definition missing_neo4j (st : StateSettings) : list string :=
  (filter (λ nv, nonempty (strip nv.2) = false) [
    ("NEO4J_URI", neo4j_uri st); ("NEO4J_USERNAME", neo4j_username st);
    ("NEO4J_PASSWORD", neo4j_password st); ("NEO4J_DATABASE", neo4j_database st)]).*1.

Definition signing_key_configured (s : Settings) : bool :=
  existsb (λ v, nonempty (strip v)) [resume_token_keys_json s; resume_token_secret s; api_key s].

Definition validate_runtime_settings (st : StateSettings) : outcome unit :=
  let s := st_settings st in
  try! _ := guard_py (negb (run_lease_ttl_seconds s <=? run_lease_heartbeat_seconds s))
    (settings_error "RUN_LEASE_HEARTBEAT_SECONDS must be less than RUN_LEASE_TTL_SECONDS") in
  try! _ := guard_py (negb (postgres_pool_max_size st <? postgres_pool_min_size st))
    (settings_error
       "POSTGRES_POOL_MIN_SIZE must be less than or equal to POSTGRES_POOL_MAX_SIZE") in
  try! _ := (if neo4j_enabled st then
      guard_py (bool_decide (missing_neo4j st = []))
        (settings_error ("Neo4j is enabled but required settings are empty: "
           +:+ join ", " (missing_neo4j st)))
    else Ret tt) in
  guard_py (negb (String.eqb (run_repository_backend s) "postgres" && negb (signing_key_configured s)))
    (settings_error
       "A persistent resume-token signing key is required when RUN_REPOSITORY_BACKEND=postgres").

Definition cors_origins (st : StateSettings) : list string :=
  let raw := strip (cors_allow_origins st) in
  if String.eqb raw "*" then ["*"]
  else filter (λ item, nonempty item = true) (map strip (split_on (Ascii.ascii_of_N 44) raw)).

Definition persistence_enabled (st : StateSettings) : bool :=
  let s := st_settings st in
  negb (String.eqb (state_backend s) "memory")
  || negb (String.eqb (checkpoint_backend s) "memory")
  || negb (String.eqb (artifact_backend s) "disabled")
  || negb (String.eqb (run_repository_backend s) "memory")
  || neo4j_enabled st.

Section startup.
Context (env : IdentityEnv).

Lemma validated_signing_key st :
  validate_runtime_settings st = Ret tt → run_repository_backend (st_settings st) = "postgres" →
  signing_key_configured (st_settings st) = true.
Proof.
  intros Hv Hb. unfold validate_runtime_settings in Hv. repeat apply obind_Ret_inv in Hv as (_&_&Hv).
  rewrite Hb in Hv. apply guard_py_Ret in Hv. by destruct (signing_key_configured _).
Qed.

(** With a signing key configured, what the process generates is not used. *)
Lemma load_keys_configured g1 g2 active s :
  signing_key_configured s = true →
  _load_keys env g1 active s = _load_keys env g2 active s ∧
  ∀ keys p, _load_keys env g1 active s = Ret (keys, p) → p = true.
Proof.
  unfold signing_key_configured, _load_keys, str_or. simpl.
  destruct (nonempty (strip (resume_token_keys_json s))).
  - intros _. split; [done|]. intros keys p.
    destruct (loads _ _) as [[]|]; try done. case_match; [done|]. by destruct (usable_keys _ _); intros; simplify_eq.
  - destruct (nonempty (strip (resume_token_secret s))) eqn:E; [rewrite E; by split; [|intros; simplify_eq]|].
    simpl. destruct (nonempty (strip (api_key s))); [by split; [|intros; simplify_eq]|done].
Qed.

Lemma new_service_configured g1 g2 s svc :
  signing_key_configured s = true → new_service env g1 s = Ret svc →
  new_service env g2 s = Ret svc ∧ _persistent_secret svc = true.
Proof.
  intros Hk. unfold new_service. cbv zeta.
  set (active := str_or _ _). destruct (load_keys_configured g1 g2 active s Hk) as [<- Hp].
  intros H. split; [done|]. apply obind_Ret_inv in H as ([keys p]&Hl&H). apply Hp in Hl. simpl in H.
  destruct (dict_has _ _); [|done]. by simplify_eq.
Qed.

Lemma service_namespace generated s svc :
  new_service env generated s = Ret svc → _checkpoint_namespace svc = run_checkpoint_namespace s.
Proof.
  unfold new_service. cbv zeta. intros E. apply obind_Ret_inv in E as (loaded&_&E).
  destruct (dict_has _ _); [|done]. by injection E as <-.
Qed.

(** C26. Workers that share a run repository accept each other's resume tokens.  When
    the settings pass their check and select the durable repository, whatever
    secret each process would generate for itself: a token one process issues
    for a fresh run of a request that passed its schema is accepted, before it
    expires, by every other process started from the same settings, and by this one
    after a restart -- provided that the configured checkpoint namespace neither
    begins nor ends with white space, which the check does not look at
    ([padded_namespace_refused]), and that [uuid4] returns text without any. *)
Theorem workers_share_tokens st g1 g2 issuer raw t t0 t1 c r c' r' request identity token request'
    (Hvalid : validate_runtime_settings st = Ret tt)
    (Hbackend : run_repository_backend (st_settings st) = "postgres")
    (Hissuer : new_service env g1 (st_settings st) = Ret issuer)
    (Hrequest : validate_request raw = Ret request)
    (Hfresh : cr_resume request = false)
    (Hidentity : normalize env issuer t c r request = Ret identity)
    (Hissued : issue_resume_token issuer t0 identity = Ret token)
    (Huuid4 : clean c ∧ clean r)
    (Hunicode : utf8_valid (_active_key_id issuer) = true ∧ utf8_valid (_checkpoint_namespace issuer) = true ∧
       utf8_valid (id_conversation_id identity) = true)
    (Hnamespace : strip (run_checkpoint_namespace (st_settings st)) = run_checkpoint_namespace (st_settings st))
    (Htime : 0 ≤ t1 < t0 + _ttl_seconds issuer)
    (Hresumes : resumes request identity token request') :
  ∃ acceptor, new_service env g2 (st_settings st) = Ret acceptor ∧
    _persistent_secret acceptor = true ∧
    normalize env acceptor t1 c' r' request' =
      Ret (resumed_identity identity (opt_truthy (cr_run_id request'))).
Proof.
  destruct Huuid4, Hunicode as (?&?&?).
  destruct (new_service_configured g1 g2 _ _ (validated_signing_key _ Hvalid Hbackend) Hissuer) as [Hs Hp].
  exists issuer. split; [done|]. split; [done|].
  eapply (fresh_resumes env g1 (st_settings st)); try done.
  by rewrite (service_namespace _ _ _ Hissuer).
Qed.

(** Without a configured key, two processes sign with different keys as soon as
    they generate different secrets. *)
Theorem processes_do_not_share_keys g1 g2 s svc1 svc2 :
  signing_key_configured s = false → g1 ≠ g2 →
  new_service env g1 s = Ret svc1 → new_service env g2 s = Ret svc2 →
  _persistent_secret svc1 = false ∧
  dict_get (_active_key_id svc1) (_keys svc1) ≠ dict_get (_active_key_id svc1) (_keys svc2).
Proof.
  intros Hk Hg. unfold signing_key_configured in Hk. simpl in Hk.
  apply orb_false_elim in Hk as [Hj Hk]. apply orb_false_elim in Hk as [Hs Hk]. rewrite orb_false_r in Hk.
  unfold new_service, _load_keys, str_or. cbv zeta. rewrite Hj, Hs, Hk. simpl.
  unfold dict_has. simpl. rewrite String.eqb_refl. intros. simplify_eq. simpl.
  rewrite String.eqb_refl. split; [done|]. congruence.
Qed.
End startup.

Lemma workers_share_tokens_witness : ∃ identity token acceptor,
  validate_runtime_settings sample_state_settings = Ret tt ∧
  new_service ascii_env "generated by the other worker" (st_settings sample_state_settings) = Ret acceptor ∧
  _persistent_secret acceptor = true ∧
  normalize ascii_env acceptor 3699 "" "" (resume_request token) = Ret (resumed_identity identity true).
Proof.
  destruct sample_normalizes as [h Hn]. destruct (sample_token h) as [token Ht].
  destruct (workers_share_tokens ascii_env sample_state_settings "generated here"
    "generated by the other worker" sample_service sample_request 0 100 3699 sample_run_id sample_run_id "" ""
    sample_request (fresh_identity h) token (resume_request token)) as (acceptor&Ha&Hp&Hr).
  - reflexivity.
  - reflexivity.
  - reflexivity.
  - reflexivity.
  - reflexivity.
  - exact Hn.
  - exact Ht.
  - split; by apply clean_text.
  - repeat split.
  - reflexivity.
  - simpl. lia.
  - apply sample_resumes.
  - exists (fresh_identity h), token, acceptor. split; [reflexivity|]. exact (conj Ha (conj Hp Hr)).
Defined.

(** ** A namespace with white space around it

    The settings take it, the tokens carry it, and [_identity_from_token] strips
    its copy before comparing: every resume is refused, the issuing process's own
    included. *)

Definition padded_settings : StateSettings :=
  sample_state_settings <| st_settings :=
    (st_settings sample_state_settings) <| run_checkpoint_namespace := "execution-state-v1 " |> |>.

(** Start, admit a fresh run, issue its token, and resume it in the same process. *)
Definition resume_own_token (st : StateSettings) : outcome RunIdentity :=
  try! _ := validate_runtime_settings st in
  try! issuer := new_service ascii_env "" (st_settings st) in
  try! identity := normalize ascii_env issuer 0 sample_run_id sample_run_id sample_request in
  try! token := issue_resume_token issuer 100 identity in
  normalize ascii_env issuer 200 sample_run_id sample_run_id (resume_request token).

Theorem padded_namespace_refused :
  is_ret (resume_own_token sample_state_settings) = true ∧
  resume_own_token padded_settings =
    Raise (incompatible "The resumable run uses an incompatible checkpoint namespace").
Proof. split; vm_compute; reflexivity. Qed.
