(* ===== verification/InventoryApi.v ===== *)
(** * The inventory as data, and its endpoint

    [RuntimeInventory.as_dict], [normalize_inventory], [configured_roles] and
    [build_inventory_payload] of [app/services/inventory.py], and the route of
    [app/api/routes/inventory.py].  The graph's state carries the inventory as a
    dictionary and reads it back with [normalize_inventory]:
    [inventory_round_trip].  Ages are in microseconds; [seconds_repr] is the
    [repr] of [round(age, 3)], [to_micros] what [float] makes of a value, and
    [str_container] the [str] of a list or a dictionary. *)

From S2P Require Import Prelude PyData Json PyNum Settings Inventory StateRuntime.

Section api.
Context (seconds_repr : Z → string) (to_micros : pyval → outcome Z).
Context (str_container : pyval → string).

Definition names_value (names : list string) : pyval := VList (map VStr names).

Definition errors_value (errors : list (string * string)) : pyval :=
  VDict (map (λ kv, (kv.1, VStr kv.2)) errors).

Definition as_dict (inv : RuntimeInventory) : pydict := [
  ("models", VList (map VDict (ri_models inv)));
  ("model_names", names_value (model_names inv));
  ("tools", VList (map VDict (ri_tools inv)));
  ("tool_names", names_value (tool_names inv));
  ("errors", errors_value (ri_errors inv));
  ("cached", VBool (ri_cached inv));
  ("age_seconds", VFloat (seconds_repr (ri_age_seconds inv)))].

(** [for item in value]: the characters of a string and the keys of a dictionary
    are strings, so no item of theirs is a dictionary. *)
Definition dict_items (value : pyval) : outcome (list pydict) :=
  match value with
  | VList l => Ret (dicts_of l)
  | VDict _ | VStr _ => Ret []
  | _ => Raise (PyExn TypeError "object is not iterable")
  end.

(** [{str(k): str(v) for k, v in value.items()}]. *)
Definition error_texts (value : pyval) : outcome (list (string * string)) :=
  match value with
  | VDict d => Ret (dict_merge [] (map (λ kv, (kv.1, str_value str_container kv.2)) d))
  | _ => Raise (PyExn AttributeError "object has no attribute 'items'")
  end.

(** [normalize_inventory] on a dictionary; on a [RuntimeInventory] it is the
    identity. *)
Definition normalize_inventory (value : pydict) : outcome RuntimeInventory :=
  let get k dflt := default dflt (dict_get k value) in
  try! models := dict_items (get "models" (VList [])) in
  try! tools := dict_items (get "tools" (VList [])) in
  try! errors := error_texts (get "errors" (VDict [])) in
  let cached := truthy (get "cached" (VBool false)) in
  let age := get "age_seconds" (VFloat "0.0") in
  try! age_seconds := to_micros (if truthy age then age else VFloat "0.0") in
  Ret (MkInventory models tools errors cached age_seconds).

(** ** The roles, as they would be resolved *)

Definition report_roles : list string :=
  ["planner"; "simple"; "general"; "search"; "reasoning"; "fast_reasoning"; "heavy"; "synthesis";
   "writer"; "classifier"; "vision"; "fallback"].

Definition opt_text (o : option string) : pyval := match o with Some t => VStr t | None => VNone end.

Definition role_entry (s : Settings) (role : string) (inventory : option RuntimeInventory) :
    outcome pydict :=
  let entry resolved error := [
    ("configured", VStr (model_for_key s (Some role))); ("resolved", opt_text resolved);
    ("available", VBool (match resolved with Some _ => true | None => false end));
    ("error", opt_text error)] in
  match resolve s (Some role) inventory with
  | Ret m => Ret (entry (Some m) None)
  | Raise (PyExn RuntimeError m) => Ret (entry None (Some m))
  | Raise e => Raise e
  end.

Definition embedding_entry (s : Settings) (inventory : option RuntimeInventory) : pydict :=
  let available := match inventory with Some inv => model_names inv | None => [] end in
  let usable := bool_decide (available = []) || bool_decide (embedding_model s ∈ available) in [
    ("configured", VStr (embedding_model s));
    ("resolved", if usable then VStr (embedding_model s) else VNone);
    ("available", VBool usable);
    ("chat_model", VBool false)].

Definition configured_roles (s : Settings) (inventory : option RuntimeInventory) : outcome pydict :=
  try! roles := foldr (λ role acc,
      try! entry := role_entry s role inventory in
      try! rest := acc in Ret ((role, VDict entry) :: rest)) (Ret []) report_roles in
  Ret (roles ++ [("embedding", VDict (embedding_entry s inventory))]).

(** The selector of the running agent has [configured_roles]. *)
Definition build_inventory_payload (st : StateSettings) (runtime : RuntimeInventory) :
    outcome pydict :=
  let s := st_settings st in
  try! roles := configured_roles s (Some runtime) in
  Ret [
    ("service", VDict [
       ("name", VStr (app_name st)); ("environment", VStr (environment st));
       ("backend", VStr (backend_name (llm_backend s)))]);
    ("ollama", VDict [
       ("base_url", VStr (ollama_base_url st));
       ("models", VList (map VDict (ri_models runtime)));
       ("model_names", names_value (model_names runtime));
       ("configured_roles", VDict roles);
       ("model_task_catalog", VDict (map (λ kv, (kv.1, VStr kv.2)) (model_role_catalog s)))]);
    ("mcp", VDict [
       ("enabled", VBool (mcp_enabled s)); ("server_url", VStr (mcp_server_url st));
       ("tools", VList (map VDict (ri_tools runtime)));
       ("tool_names", names_value (tool_names runtime))]);
    ("cache", VDict [
       ("cached", VBool (ri_cached runtime));
       ("age_seconds", VFloat (seconds_repr (ri_age_seconds runtime)))]);
    ("errors", errors_value (ri_errors runtime))].

(** [GET /api/inventory], the API key checked. *)
Definition inventory_route (st : StateSettings) (describe : exn → string)
    (fetched_models fetched_tools : outcome (list pyval)) (now clk_models clk_tools clk_end : Z) :
    M InventoryService pydict :=
  let! live := load (st_settings st) describe false fetched_models fetched_tools
    now clk_models clk_tools clk_end in
  of_outcome (build_inventory_payload st live).

(** ** Round trip *)

Lemma dicts_of_VDict l : dicts_of (map VDict l) = l.
Proof. induction l as [|d l IH]; simpl; by rewrite ?IH. Qed.

Lemma dict_merge_fresh {A} (d e : list (string * A)) :
  NoDup (d ++ e).*1 → dict_merge d e = d ++ e.
Proof.
  unfold dict_merge. revert d. induction e as [|[k v] e IH]; intros d Hnd; simpl; [by rewrite app_nil_r|].
  rewrite dict_set_fresh, IH; rewrite <-?app_assoc; [done..|].
  rewrite fmap_app in Hnd. apply NoDup_app in Hnd as (_&Hk&_). intros Hin. apply (Hk k Hin). left.
Qed.

Lemma error_texts_value errors :
  NoDup errors.*1 → error_texts (errors_value errors) = Ret errors.
Proof.
  intros Hnd. unfold error_texts, errors_value. f_equal. rewrite map_map. simpl.
  replace (map _ errors) with errors; [by apply (dict_merge_fresh [])|].
  clear Hnd. induction errors as [|[k v] errors IH]; simpl; by rewrite <-?IH.
Qed.

(** What the graph writes in its state is what it reads back.  An inventory
    serialized by [as_dict] and read with [normalize_inventory] has the same
    models, tools, errors and freshness, hence the same model and tool names; its
    age is the one [round] leaves. *)
Theorem inventory_round_trip (rounded : Z → Z) inv
    (Hround : ∀ n, to_micros (VFloat (seconds_repr n)) = Ret (rounded n))
    (Hzero : to_micros (VFloat "0.0") = Ret 0 ∧ to_micros (VFloat "-0.0") = Ret 0)
    (Herrors : NoDup (ri_errors inv).*1) :
  normalize_inventory (as_dict inv) =
    Ret (MkInventory (ri_models inv) (ri_tools inv) (ri_errors inv) (ri_cached inv)
      (rounded (ri_age_seconds inv))).
Proof.
  unfold normalize_inventory, as_dict. cbv zeta.
  cbn [dict_get default id from_option String.eqb Ascii.eqb Bool.eqb dict_items obind truthy].
  rewrite !dicts_of_VDict, error_texts_value by done. cbn [obind].
  destruct (negb _) eqn:E; [by rewrite Hround|].
  apply negb_false_iff, orb_true_iff in E. pose proof (Hround (ri_age_seconds inv)) as Hr.
  destruct Hzero as [H0 H1], E as [E|E]; apply String.eqb_eq in E; rewrite E in Hr; rewrite H0; simpl; congruence.
Qed.

(** ** What the report says *)

Lemma resolve_raises s key inv e :
  resolve s key inv = Raise e → e = no_compatible_model (opt_str_or key "general").
Proof.
  unfold resolve. destruct (match inv with Some i => model_names i | None => [] end); [done|].
  destruct (List.find _ _); [done|]. destruct (usable _ _ _); [done|]. congruence.
Qed.

Lemma role_entry_total s role inv : ∃ entry, role_entry s role inv = Ret entry.
Proof.
  unfold role_entry. destruct (resolve s (Some role) inv) as [m|e] eqn:E; [by eexists|].
  apply resolve_raises in E as ->. by eexists.
Qed.

Lemma entries_total s inv (roles : list string) :
  ∃ d, foldr (λ role acc,
      try! entry := role_entry s role inv in
      try! rest := acc in Ret ((role, VDict entry) :: rest)) (Ret []) roles = Ret d ∧
    d.*1 = roles ∧
    ∀ role, role ∈ roles → ∃ entry, role_entry s role inv = Ret entry ∧ dict_get role d = Some (VDict entry).
Proof.
  induction roles as [|r roles (d&Hd&Hk&Hget)]; simpl.
  { exists []. split; [done|]. split; [done|]. by intros ? ?%not_elem_of_nil. }
  destruct (role_entry_total s r inv) as [entry He]. rewrite He, Hd. simpl.
  eexists. split; [done|]. split; [by rewrite fmap_cons, Hk|]. intros role Hr. simpl.
  destruct (String.eqb_spec role r) as [->|Hne]; [by eauto|].
  apply elem_of_cons in Hr as [->|Hr]; [done|]. auto.
Qed.

(** The report of the inventory endpoint never fails, and tells what the graph
    would do: it lists every role once; a role is available exactly when
    [resolve] returns a model for it, the one reported, which, when any model is
    installed, is installed and has the capability of the role; otherwise the
    report carries the error the graph would raise. *)
Theorem inventory_report_sound s inv :
  ∃ roles, configured_roles s (Some inv) = Ret roles ∧
    roles.*1 = report_roles ++ ["embedding"] ∧
    ∀ role, role ∈ report_roles → ∃ entry, dict_get role roles = Some (VDict entry) ∧
      match resolve s (Some role) (Some inv) with
      | Ret m =>
          dict_get "resolved" entry = Some (VStr m) ∧ dict_get "available" entry = Some (VBool true) ∧
          (model_names inv ≠ [] → m ∈ model_names inv ∧ _compatible role m = true)
      | Raise e =>
          dict_get "resolved" entry = Some VNone ∧ dict_get "available" entry = Some (VBool false) ∧
          dict_get "error" entry = Some (VStr (exn_text e))
      end.
Proof.
  unfold configured_roles. destruct (entries_total s (Some inv) report_roles) as (d&->&Hk&Hget).
  simpl. eexists. split; [done|]. split; [by rewrite fmap_app, Hk|]. intros role Hr.
  destruct (Hget role Hr) as (entry&He&Hd). exists entry. rewrite dict_get_app, Hd. split; [done|].
  pose proof (resolve_sound s (Some role) inv) as Hs. unfold role_entry in He. cbv zeta in He.
  destruct (resolve s (Some role) (Some inv)) as [m|e] eqn:E.
  - simplify_eq. split; [done|]. split; [done|]. intros Hne.
    replace (opt_str_or (Some role) "general") with role in Hs; [by destruct (model_names inv)|].
    unfold report_roles in Hr. repeat (apply elem_of_cons in Hr as [->|Hr]; [done|]). inversion Hr.
  - apply resolve_raises in E as ->. injection He as <-. by split_and!.
Qed.
End api.

(** Ages that are whole milliseconds. *)
Lemma inventory_round_trip_witness :
  let inv := MkInventory [[("name", VStr "qwen3.5:4b")]] [] [("mcp", "MCPError: down")] true 0 in
  normalize_inventory (λ _, Ret 0) (λ _, "") (as_dict (λ _, "0.0") inv) = Ret inv.
Proof.
  exact (inventory_round_trip (λ _, "0.0") (λ _, Ret 0) (λ _, "") (λ _, 0)
    (MkInventory [[("name", VStr "qwen3.5:4b")]] [] [("mcp", "MCPError: down")] true 0)
    (λ _, eq_refl) (conj eq_refl eq_refl) (NoDup_singleton "mcp")).
Defined.
