(* ===== verification/ResourceManager.v ===== *)
(** * Ollama admission control

    [OllamaResourceManager] of [app/llm/resource_manager.py]: every request
    holds a slot of one semaphore, a request for a heavy model also one of a
    second semaphore, and three counters describe the load.

    The state lock is only ever held across straight-line code, so it is always
    free when a coroutine reaches it and taking it never suspends: a coroutine
    runs without interruption between two suspensions, which are the wait for a
    semaphore slot and the body of the context manager.  The model is the
    transition function [step] over such uninterrupted segments.  [asyncio]'s
    semaphore is translated with its futures: a released slot is handed to the
    first pending waiter, which takes it only when it is scheduled again, and
    may have been cancelled by then. *)

From S2P Require Import Prelude PyData Metrics Settings Inventory.

(** ** [asyncio.Semaphore] *)

Inductive fut : Type := FutPending | FutResult | FutCancelled.

#[export] Instance fut_eq_dec : EqDecision fut.
Proof. solve_decision. Defined.

Record Semaphore : Type := MkSem {
  sem_value : Z;
  sem_waiters : list (nat * fut)
}.

(** [self._value == 0 or any(not w.cancelled() for w in self._waiters)]. *)
Definition locked (s : Semaphore) : bool :=
  (sem_value s =? 0)
  || existsb (λ p, negb (bool_decide (p.2 = FutCancelled))) (sem_waiters s).

Fixpoint wake_first (ws : list (nat * fut)) : option (list (nat * fut)) :=
  match ws with
  | [] => None
  | (t, FutPending) :: ws => Some ((t, FutResult) :: ws)
  | p :: ws => cons p <$> wake_first ws
  end.

(** [_wake_up_next]. *)
Definition wake_up_next (s : Semaphore) : option Semaphore :=
  MkSem (sem_value s - 1) <$> wake_first (sem_waiters s).

(** [while self._value > 0: if not self._wake_up_next(): break]. *)
Fixpoint wake_loop (fuel : nat) (s : Semaphore) : Semaphore :=
  match fuel with
  | O => s
  | S fuel =>
      if 0 <? sem_value s then
        match wake_up_next s with Some s' => wake_loop fuel s' | None => s end
      else s
  end.

Definition wake_all (s : Semaphore) : Semaphore := wake_loop (Z.to_nat (sem_value s)) s.

(** The part of [acquire] before the suspension: [None] when it must wait. *)
Definition sem_try (s : Semaphore) : option Semaphore :=
  if locked s then None else Some (MkSem (sem_value s - 1) (sem_waiters s)).

Definition sem_enqueue (t : nat) (s : Semaphore) : Semaphore :=
  MkSem (sem_value s) (sem_waiters s ++ [(t, FutPending)]).

Definition sem_release (s : Semaphore) : Semaphore :=
  let s := MkSem (sem_value s + 1) (sem_waiters s) in
  default s (wake_up_next s).

Fixpoint fut_of (t : nat) (ws : list (nat * fut)) : option fut :=
  match ws with
  | [] => None
  | (u, f) :: ws => if Nat.eqb u t then Some f else fut_of t ws
  end.

Fixpoint set_fut (t : nat) (f : fut) (ws : list (nat * fut)) : list (nat * fut) :=
  match ws with
  | [] => []
  | (u, g) :: ws => if Nat.eqb u t then (u, f) :: ws else (u, g) :: set_fut t f ws
  end.

Fixpoint remove_fut (t : nat) (ws : list (nat * fut)) : list (nat * fut) :=
  match ws with
  | [] => []
  | (u, g) :: ws => if Nat.eqb u t then ws else (u, g) :: remove_fut t ws
  end.

(** The part of [acquire] after the suspension: the waiter leaves the queue,
    a slot it was given and does not take goes back, and others are woken. *)
Definition sem_settle (t : nat) (cancelled : bool) (s : Semaphore) : Semaphore :=
  let given := bool_decide (fut_of t (sem_waiters s) = Some FutResult) in
  wake_all (MkSem (if cancelled && given then sem_value s + 1 else sem_value s)
                  (remove_fut t (sem_waiters s))).

(** ** [OllamaResourceManager] *)

Record OllamaResourceManager : Type := MkManager {
  rm_max_concurrency : Z;
  rm_max_heavy_concurrency : Z;
  rm_all : Semaphore;
  rm_heavy : Semaphore;
  rm_active : Z;
  rm_active_heavy : Z;
  rm_queued : Z
}.

#[export] Instance eta_Manager : Eta OllamaResourceManager := λ m,
  MkManager (rm_max_concurrency m) (rm_max_heavy_concurrency m) (rm_all m) (rm_heavy m)
    (rm_active m) (rm_active_heavy m) (rm_queued m).

Definition manager_init (ollama_max_concurrency ollama_heavy_max_concurrency : Z) :
    OllamaResourceManager :=
  let max_concurrency := Z.max 1 ollama_max_concurrency in
  let max_heavy_concurrency := Z.max 1 ollama_heavy_max_concurrency in
  MkManager max_concurrency max_heavy_concurrency
    (MkSem max_concurrency []) (MkSem max_heavy_concurrency []) 0 0 0.

Record ResourceSnapshot : Type := MkSnapshot {
  rs_max_concurrency : Z;
  rs_max_heavy_concurrency : Z;
  rs_active : Z;
  rs_active_heavy : Z;
  rs_queued : Z
}.

Definition manager_snapshot (m : OllamaResourceManager) : ResourceSnapshot :=
  MkSnapshot (rm_max_concurrency m) (rm_max_heavy_concurrency m) (rm_active m)
    (rm_active_heavy m) (rm_queued m).

(** Where a coroutine inside [acquire] is suspended. *)
Inductive phase : Type := WaitAll | WaitHeavy | Running.

#[export] Instance phase_eq_dec : EqDecision phase.
Proof. solve_decision. Defined.

Record Task : Type := MkTask {
  tk_heavy : bool;
  tk_phase : phase;
  tk_must_cancel : bool;
  tk_started_waiting : Z
}.

Record ResourceWorld : Type := MkWorld {
  rw_manager : OllamaResourceManager;
  rw_tasks : gmap nat Task;
  rw_metrics : MetricsRegistry
}.

(** The [except BaseException] and [finally] clauses. *)
Definition unwind (error counted_as_queued acquired_all acquired_heavy : bool)
    (m : OllamaResourceManager) : OllamaResourceManager :=
  let m := if error && counted_as_queued then m <| rm_queued := rm_queued m - 1 |> else m in
  let m := if acquired_heavy then
             let m := m <| rm_active_heavy := rm_active_heavy m - 1 |> in
             m <| rm_heavy := sem_release (rm_heavy m) |>
           else m in
  if acquired_all then
    let m := if 0 <? rm_active m then m <| rm_active := rm_active m - 1 |> else m in
    m <| rm_all := sem_release (rm_all m) |>
  else m.

Definition granted_metrics (heavy : bool) (wait : Z) : M MetricsRegistry unit :=
  observe "ollama.resource_wait_seconds" wait ;;;
  inc "ollama.resource_acquired" 1 ;;;
  (if heavy then inc "ollama.resource_heavy_acquired" 1 else ret tt).

(** Both semaphores are held: count the request as active and enter the body. *)
Definition enter_body (t : nat) (heavy : bool) (started now : Z) (m : OllamaResourceManager)
    (w : ResourceWorld) : ResourceWorld :=
  let m := m <| rm_queued := rm_queued m - 1 |> in
  let m := m <| rm_active := rm_active m + 1 |> in
  let m := if heavy then m <| rm_active_heavy := rm_active_heavy m + 1 |> else m in
  MkWorld m (<[t := MkTask heavy Running false started]> (rw_tasks w))
    (granted_metrics heavy (now - started) (rw_metrics w)).2.

(** The total slot is held: go for the heavy one. *)
Definition want_heavy (t : nat) (heavy : bool) (started now : Z) (m : OllamaResourceManager)
    (w : ResourceWorld) : ResourceWorld :=
  if heavy then
    match sem_try (rm_heavy m) with
    | Some s => enter_body t heavy started now (m <| rm_heavy := s |>) w
    | None =>
        MkWorld (m <| rm_heavy := sem_enqueue t (rm_heavy m) |>)
          (<[t := MkTask heavy WaitHeavy false started]> (rw_tasks w)) (rw_metrics w)
    end
  else enter_body t heavy started now m w.

Definition acquire (t : nat) (model : string) (now : Z) (w : ResourceWorld) : ResourceWorld :=
  let heavy := mc_heavy (capabilities_for model) in
  let m := rw_manager w in
  let m := m <| rm_queued := rm_queued m + 1 |> in
  match sem_try (rm_all m) with
  | Some s => want_heavy t heavy now now (m <| rm_all := s |>) w
  | None =>
      MkWorld (m <| rm_all := sem_enqueue t (rm_all m) |>)
        (<[t := MkTask heavy WaitAll false now]> (rw_tasks w)) (rw_metrics w)
  end.

(** The coroutine is scheduled again after its future is done. *)
Definition resume (t : nat) (tk : Task) (now : Z) (w : ResourceWorld) : option ResourceWorld :=
  let m := rw_manager w in
  match tk_phase tk with
  | Running => None
  | WaitAll =>
      f ← fut_of t (sem_waiters (rm_all m));
      if bool_decide (f = FutPending) then None
      else
        let cancelled := bool_decide (f = FutCancelled) || tk_must_cancel tk in
        let m := m <| rm_all := sem_settle t cancelled (rm_all m) |> in
        if cancelled then
          Some (MkWorld (unwind true true false false m) (delete t (rw_tasks w)) (rw_metrics w))
        else Some (want_heavy t (tk_heavy tk) (tk_started_waiting tk) now m w)
  | WaitHeavy =>
      f ← fut_of t (sem_waiters (rm_heavy m));
      if bool_decide (f = FutPending) then None
      else
        let cancelled := bool_decide (f = FutCancelled) || tk_must_cancel tk in
        let m := m <| rm_heavy := sem_settle t cancelled (rm_heavy m) |> in
        if cancelled then
          Some (MkWorld (unwind true true true false m) (delete t (rw_tasks w)) (rw_metrics w))
        else Some (enter_body t (tk_heavy tk) (tk_started_waiting tk) now m w)
  end.

(** [Task.cancel]: the future waited for is cancelled, or, when it is done
    already, the error is raised when the coroutine is scheduled. *)
Definition cancel_in (t : nat) (s : Semaphore) : Semaphore * bool :=
  if bool_decide (fut_of t (sem_waiters s) = Some FutPending)
  then (MkSem (sem_value s) (set_fut t FutCancelled (sem_waiters s)), false)
  else (s, true).

Definition cancel (t : nat) (tk : Task) (w : ResourceWorld) : option ResourceWorld :=
  let m := rw_manager w in
  let mark (must : bool) :=
    <[t := MkTask (tk_heavy tk) (tk_phase tk) (tk_must_cancel tk || must)
             (tk_started_waiting tk)]> (rw_tasks w) in
  match tk_phase tk with
  | Running => None
  | WaitAll =>
      let '(s, must) := cancel_in t (rm_all m) in
      Some (MkWorld (m <| rm_all := s |>) (mark must) (rw_metrics w))
  | WaitHeavy =>
      let '(s, must) := cancel_in t (rm_heavy m) in
      Some (MkWorld (m <| rm_heavy := s |>) (mark must) (rw_metrics w))
  end.

(** The body ends, by returning or by an error (a cancellation included). *)
Definition leave (t : nat) (tk : Task) (error : bool) (w : ResourceWorld) :
    option ResourceWorld :=
  match tk_phase tk with
  | Running =>
      Some (MkWorld (unwind error false true (tk_heavy tk) (rw_manager w))
              (delete t (rw_tasks w)) (rw_metrics w))
  | _ => None
  end.

Inductive event : Type :=
  | Acquire (t : nat) (model : string) (now : Z)
  | Resume (t : nat) (now : Z)
  | Cancel (t : nat)
  | Leave (t : nat) (error : bool).

(** [None] when the event cannot happen. *)
Definition step (w : ResourceWorld) (e : event) : option ResourceWorld :=
  match e with
  | Acquire t model now =>
      match rw_tasks w !! t with
      | Some _ => None
      | None => Some (acquire t model now w)
      end
  | Resume t now => tk ← rw_tasks w !! t; resume t tk now w
  | Cancel t => tk ← rw_tasks w !! t; cancel t tk w
  | Leave t error => tk ← rw_tasks w !! t; leave t tk error w
  end.

Definition run (w : ResourceWorld) (es : list event) : option ResourceWorld :=
  foldl (λ ow e, w ← ow; step w e) (Some w) es.

Definition world_init (max_all max_heavy : Z) (mx : MetricsRegistry) : ResourceWorld :=
  MkWorld (manager_init max_all max_heavy) ∅ mx.

(** ** Sums over the requests *)

Definition msum (f : Task → Z) (m : gmap nat Task) : Z :=
  map_fold (λ _ x acc, f x + acc) 0 m.

Lemma msum_empty f : msum f ∅ = 0.
Proof. apply map_fold_empty. Qed.

Lemma msum_delete f m t x : m !! t = Some x → msum f m = f x + msum f (delete t m).
Proof.
  intros H. unfold msum. rewrite (map_fold_delete_L _ _ t x); [done| |done].
  intros. lia.
Qed.

Lemma msum_fresh f m t x : m !! t = None → msum f (<[t := x]> m) = f x + msum f m.
Proof. intros H. unfold msum. rewrite map_fold_insert_L; [done| |done]. intros. lia. Qed.

Lemma msum_update f m t x y :
  m !! t = Some x → msum f (<[t := y]> m) = f y + msum f (delete t m).
Proof.
  intros H. rewrite (msum_delete f _ t y) by apply lookup_insert_eq.
  by rewrite delete_insert_eq.
Qed.

Lemma msum_nonneg f m : (∀ x, 0 ≤ f x) → 0 ≤ msum f m.
Proof.
  intros Hf. induction m as [|t x m Hm IH] using map_ind; [by rewrite msum_empty|].
  rewrite msum_fresh by done. specialize (Hf x). lia.
Qed.

Lemma msum_ge f m t x : (∀ x, 0 ≤ f x) → m !! t = Some x → f x ≤ msum f m.
Proof.
  intros Hf H. rewrite (msum_delete f m t x H).
  pose proof (msum_nonneg f (delete t m) Hf). lia.
Qed.

Lemma msum_le f g m : (∀ x, f x ≤ g x) → msum f m ≤ msum g m.
Proof.
  intros Hf. induction m as [|t x m Hm IH] using map_ind; [by rewrite !msum_empty|].
  rewrite !msum_fresh by done. specialize (Hf x). lia.
Qed.

Lemma msum_zero f m : (∀ t x, m !! t = Some x → f x = 0) → msum f m = 0.
Proof.
  induction m as [|t x m Hm IH] using map_ind; intros Hf; [apply msum_empty|].
  rewrite msum_fresh by done. rewrite (Hf t x) by apply lookup_insert_eq.
  rewrite IH; [done|]. intros u y Hu. apply (Hf u y).
  rewrite lookup_insert_ne; [done|congruence].
Qed.

Lemma msum_const c m : msum (λ _, c) m = c * Z.of_nat (size m).
Proof.
  induction m as [|t x m Hm IH] using map_ind; [rewrite msum_empty, map_size_empty; lia|].
  rewrite msum_fresh, map_size_insert_None by done. lia.
Qed.

(** ** The queue of a semaphore *)

Definition is_granted (f : fut) : Z := match f with FutResult => 1 | _ => 0 end.

Fixpoint granted (ws : list (nat * fut)) : Z :=
  match ws with [] => 0 | (_, f) :: ws => is_granted f + granted ws end.

Definition none_pending (ws : list (nat * fut)) : Prop :=
  Forall (λ p, p.2 ≠ FutPending) ws.
Definition some_result (ws : list (nat * fut)) : Prop :=
  Exists (λ p, p.2 = FutResult) ws.

Lemma granted_nonneg ws : 0 ≤ granted ws.
Proof. induction ws as [|[t []] ws IH]; simpl; lia. Qed.

Lemma granted_app ws ws' : granted (ws ++ ws') = granted ws + granted ws'.
Proof. induction ws as [|[t f] ws IH]; simpl; lia. Qed.

Lemma granted_zero ws : ¬ some_result ws → granted ws = 0.
Proof.
  induction ws as [|[t f] ws IH]; [done|]. unfold some_result. rewrite Exists_cons. simpl.
  intros H. rewrite IH by tauto. destruct f; [done| |done]. by destruct H; left.
Qed.

Lemma wake_first_spec ws :
  match wake_first ws with
  | Some ws' => ws'.*1 = ws.*1 ∧ granted ws' = granted ws + 1 ∧ some_result ws'
  | None => none_pending ws
  end.
Proof.
  induction ws as [|[t f] ws IH]; simpl; [constructor|].
  destruct f; [split_and!; simpl; [done|lia|by left]| |];
    (destruct (wake_first ws) as [ws'|]; simpl;
     [destruct IH as (IH & ? & ?); split_and!; [by f_equal|lia|by right] | by constructor]).
Qed.

Lemma fut_of_elem t ws : is_Some (fut_of t ws) ↔ t ∈ ws.*1.
Proof.
  induction ws as [|[u f] ws IH]; simpl.
  - split; [by intros []|]. by intros ?%elem_of_nil.
  - rewrite elem_of_cons, <- IH. destruct (Nat.eqb_spec u t); naive_solver.
Qed.

Lemma fut_of_in t ws f : fut_of t ws = Some f → (t, f) ∈ ws.
Proof.
  induction ws as [|[u g] ws IH]; simpl; [done|].
  destruct (Nat.eqb_spec u t) as [->|]; [intros [= ->]; left|intros ?; right; auto].
Qed.

Lemma remove_fut_elem t u ws :
  NoDup ws.*1 → u ∈ (remove_fut t ws).*1 ↔ u ≠ t ∧ u ∈ ws.*1.
Proof.
  induction ws as [|[v f] ws IH]; simpl; intros Hnd.
  - split; [by intros ?%elem_of_nil|]. by intros [_ ?%elem_of_nil].
  - apply NoDup_cons in Hnd as [Hv Hnd]. destruct (Nat.eqb_spec v t) as [->|]; simpl;
      rewrite !elem_of_cons; [|rewrite IH by done]; naive_solver.
Qed.

Lemma remove_fut_NoDup t ws : NoDup ws.*1 → NoDup (remove_fut t ws).*1.
Proof.
  induction ws as [|[v f] ws IH]; simpl; intros Hnd; [constructor|].
  pose proof Hnd as [Hv Hnd']%NoDup_cons. destruct (Nat.eqb_spec v t); simpl; [done|].
  apply NoDup_cons. split; [|auto]. rewrite remove_fut_elem by done. tauto.
Qed.

Lemma remove_fut_granted t ws f :
  fut_of t ws = Some f → granted ws = is_granted f + granted (remove_fut t ws).
Proof.
  induction ws as [|[v g] ws IH]; simpl; [done|].
  destruct (Nat.eqb_spec v t); [by intros [= ->]|]. intros H. simpl. rewrite (IH H). lia.
Qed.

Lemma set_fut_keys t f ws : (set_fut t f ws).*1 = ws.*1.
Proof.
  induction ws as [|[v g] ws IH]; simpl; [done|].
  destruct (Nat.eqb v t); simpl; [done|by f_equal].
Qed.

Lemma set_cancelled t ws :
  fut_of t ws = Some FutPending →
  granted (set_fut t FutCancelled ws) = granted ws ∧
  (none_pending ws → none_pending (set_fut t FutCancelled ws)) ∧
  (some_result ws → some_result (set_fut t FutCancelled ws)).
Proof.
  unfold none_pending, some_result.
  induction ws as [|[v g] ws IH]; simpl; [done|].
  destruct (Nat.eqb_spec v t) as [->|]; simpl.
  - intros [= ->]. split; [done|]. rewrite !Forall_cons, !Exists_cons. naive_solver.
  - intros (-> & IH1 & IH2)%IH. rewrite !Forall_cons, !Exists_cons. naive_solver.
Qed.

(** ** The invariant of a semaphore

    [held] slots of [max] are out, and every waiter is a request that [waits]
    for this semaphore.  No wake-up is lost: while a slot is free, a pending
    waiter only exists when another one was already given a slot, and that one
    wakes the others when it is scheduled. *)
Record sem_ok (max held : Z) (waits : nat → Prop) (s : Semaphore) : Prop := MkSemOk {
  so_value : 0 ≤ sem_value s;
  so_count : sem_value s + granted (sem_waiters s) + held = max;
  so_keys : NoDup (sem_waiters s).*1;
  so_waits : ∀ t, t ∈ (sem_waiters s).*1 ↔ waits t;
  so_wake : 0 < sem_value s → none_pending (sem_waiters s) ∨ some_result (sem_waiters s)
}.

Lemma sem_ok_waits max held P Q s : (∀ t, P t ↔ Q t) → sem_ok max held P s → sem_ok max held Q s.
Proof. intros H [? ? ? Hw ?]. constructor; auto. intros t. by rewrite Hw. Qed.

Lemma sem_ok_eq max held held' P Q s :
  sem_ok max held P s → held = held' → (∀ t, P t ↔ Q t) → sem_ok max held' Q s.
Proof. intros H <- HPQ. by eapply sem_ok_waits. Qed.

Lemma locked_spec s :
  locked s = true → sem_value s = 0 ∨ ∃ p, p ∈ sem_waiters s ∧ p.2 ≠ FutCancelled.
Proof.
  unfold locked. intros [H|H]%orb_true_iff; [left; lia|right].
  apply existsb_exists in H as (p & Hp & H). exists p. split; [by apply list_elem_of_In|].
  by apply negb_true_iff, bool_decide_eq_false in H.
Qed.

Lemma sem_try_ok max held P s s' :
  sem_try s = Some s' → sem_ok max held P s → sem_ok max (held + 1) P s'.
Proof.
  unfold sem_try. destruct (locked s) eqn:Hl; [done|]. intros [= <-] [Hv Hc Hk Hw Hn].
  unfold locked in Hl. apply orb_false_iff in Hl as [Hz Hl].
  constructor; simpl; auto; try lia. intros _. apply Hn. lia.
Qed.

Lemma sem_enqueue_ok max held P s t :
  sem_try s = None → ¬ P t → sem_ok max held P s →
  sem_ok max held (λ u, u = t ∨ P u) (sem_enqueue t s).
Proof.
  unfold sem_try. destruct (locked s) eqn:Hl; [|done]. intros _ Ht [Hv Hc Hk Hw Hn].
  constructor; simpl; auto.
  - rewrite granted_app. simpl. lia.
  - rewrite fmap_app. apply NoDup_app. split_and!; [done| |repeat constructor; set_solver].
    intros u Hu. simpl. rewrite list_elem_of_singleton. intros ->. by apply Ht, Hw.
  - intros u. rewrite fmap_app, elem_of_app, Hw. simpl. rewrite list_elem_of_singleton. tauto.
  - intros Hv'. right. unfold some_result. rewrite Exists_app. left.
    destruct (locked_spec s Hl) as [?|(p & Hp & Hnc)]; [lia|].
    destruct (Hn Hv') as [Hno|?]; [|done].
    apply Exists_exists. exists p. split; [done|].
    unfold none_pending in Hno. rewrite Forall_forall in Hno. specialize (Hno p Hp).
    by destruct (p.2).
Qed.

(** All of [sem_ok] but the last clause, which waking re-establishes. *)
Definition sem_pre (max held : Z) (waits : nat → Prop) (s : Semaphore) : Prop :=
  0 ≤ sem_value s ∧ sem_value s + granted (sem_waiters s) + held = max ∧
  NoDup (sem_waiters s).*1 ∧ ∀ t, t ∈ (sem_waiters s).*1 ↔ waits t.

Lemma wake_up_pre max held P s s' :
  0 < sem_value s → wake_up_next s = Some s' → sem_pre max held P s →
  sem_pre max held P s' ∧ some_result (sem_waiters s') ∧ sem_value s' = sem_value s - 1.
Proof.
  unfold wake_up_next, sem_pre. pose proof (wake_first_spec (sem_waiters s)) as Hw.
  destruct (wake_first (sem_waiters s)) as [ws|]; [|done]. destruct Hw as (Hk & Hg & Hs).
  intros Hp [= <-] (Hv & Hc & Hn & Hi). simpl. rewrite Hk, Hg.
  split_and!; auto; lia.
Qed.

Lemma wake_up_none s : wake_up_next s = None → none_pending (sem_waiters s).
Proof.
  unfold wake_up_next. pose proof (wake_first_spec (sem_waiters s)) as Hw.
  by destruct (wake_first (sem_waiters s)).
Qed.

Lemma pre_ok max held P s :
  sem_pre max held P s →
  (0 < sem_value s → none_pending (sem_waiters s) ∨ some_result (sem_waiters s)) →
  sem_ok max held P s.
Proof. intros (? & ? & ? & ?) ?. by constructor. Qed.

Lemma wake_loop_ok fuel max held P s :
  (Z.to_nat (sem_value s) ≤ fuel)%nat → sem_pre max held P s →
  sem_ok max held P (wake_loop fuel s).
Proof.
  revert s. induction fuel as [|fuel IH]; intros s Hf Hp; simpl.
  - apply pre_ok; [done|intros; lia].
  - destruct (Z.ltb_spec 0 (sem_value s)); [|apply pre_ok; [done|intros; lia]].
    destruct (wake_up_next s) as [s'|] eqn:Hw.
    + destruct (wake_up_pre max held P s s') as (? & _ & ?); [done..|]. apply IH; [lia|done].
    + apply pre_ok; [done|]. intros _. left. by apply wake_up_none.
Qed.

Lemma sem_release_ok max held P s :
  sem_ok max held P s → sem_ok max (held - 1) P (sem_release s).
Proof.
  intros [Hv Hc Hk Hi Hn]. unfold sem_release.
  set (s1 := MkSem (sem_value s + 1) (sem_waiters s)).
  assert (sem_pre max (held - 1) P s1) as Hp by (split_and!; simpl; auto; lia).
  destruct (wake_up_next s1) as [s'|] eqn:Hw; simpl.
  - destruct (wake_up_pre max (held - 1) P s1 s' ltac:(simpl; lia) Hw Hp) as (? & ? & _).
    apply pre_ok; auto.
  - apply pre_ok; [done|]. intros _. left. by apply wake_up_none.
Qed.

Lemma sem_settle_ok max held P s t f cancelled :
  fut_of t (sem_waiters s) = Some f → f ≠ FutPending → (cancelled = false → f = FutResult) →
  sem_ok max held P s →
  sem_ok max (if cancelled then held else held + 1) (λ u, u ≠ t ∧ P u) (sem_settle t cancelled s).
Proof.
  intros Hf Hnp Hc [Hv Hcount Hk Hi Hn]. unfold sem_settle, wake_all.
  apply wake_loop_ok; [done|]. rewrite Hf.
  pose proof (remove_fut_granted t _ f Hf). split_and!; simpl.
  - destruct (_ && _); lia.
  - destruct f, cancelled; simpl in *; try done; try lia. by specialize (Hc eq_refl).
  - by apply remove_fut_NoDup.
  - intros u. rewrite remove_fut_elem, Hi by done. done.
Qed.

Lemma cancel_in_ok max held P s t :
  sem_ok max held P s → sem_ok max held P (cancel_in t s).1.
Proof.
  intros H. unfold cancel_in. case_bool_decide as Hf; [|done]. destruct H as [Hv Hc Hk Hi Hn].
  destruct (set_cancelled t (sem_waiters s) Hf) as (Hg & Hnp & Hr).
  constructor; simpl; rewrite ?Hg, ?set_fut_keys; auto. naive_solver.
Qed.

(** ** The invariant of the manager *)

Definition waiting (tk : Task) : bool := bool_decide (tk_phase tk ≠ Running).
Definition running (tk : Task) : bool := bool_decide (tk_phase tk = Running).
Definition b2z (b : bool) : Z := if b then 1 else 0.

Definition queued_w (tk : Task) : Z := b2z (waiting tk).
Definition running_w (tk : Task) : Z := b2z (running tk).
Definition running_heavy_w (tk : Task) : Z := b2z (running tk && tk_heavy tk).
(** A request past the first wait holds a total slot. *)
Definition holds_all_w (tk : Task) : Z := b2z (negb (bool_decide (tk_phase tk = WaitAll))).

Definition waits_at (p : phase) (tasks : gmap nat Task) (t : nat) : Prop :=
  ∃ tk, tasks !! t = Some tk ∧ tk_phase tk = p.

(** The manager agrees with the requests of [T], up to one request under way
    that is not in [T] and contributes the given amounts. *)
Record mgr_ok (max_all max_heavy d_all d_heavy d_queued d_active_heavy d_active : Z)
    (T : gmap nat Task) (m : OllamaResourceManager) : Prop := MkMgrOk {
  mo_all : sem_ok max_all (msum holds_all_w T + d_all) (waits_at WaitAll T) (rm_all m);
  mo_heavy : sem_ok max_heavy (msum running_heavy_w T + d_heavy) (waits_at WaitHeavy T)
               (rm_heavy m);
  mo_heavy_waits : ∀ t tk, T !! t = Some tk → tk_phase tk = WaitHeavy → tk_heavy tk = true;
  mo_queued : rm_queued m = msum queued_w T + d_queued;
  mo_active_heavy : rm_active_heavy m = msum running_heavy_w T + d_active_heavy;
  mo_active : 0 ≤ rm_active m ≤ msum running_w T + d_active
}.

Definition world_ok (max_all max_heavy : Z) (w : ResourceWorld) : Prop :=
  mgr_ok max_all max_heavy 0 0 0 0 0 (rw_tasks w) (rw_manager w).

Lemma waits_insert p T t x u :
  T !! t = None →
  waits_at p (<[t := x]> T) u ↔ (u = t ∧ tk_phase x = p) ∨ waits_at p T u.
Proof.
  intros Ht. unfold waits_at. destruct (decide (u = t)) as [->|].
  - rewrite lookup_insert_eq. naive_solver.
  - rewrite lookup_insert_ne by done. naive_solver.
Qed.

Lemma waits_delete p T t u : waits_at p (delete t T) u ↔ u ≠ t ∧ waits_at p T u.
Proof.
  unfold waits_at. setoid_rewrite lookup_delete_Some. naive_solver.
Qed.

Lemma waits_delete_other p T t x u :
  T !! t = Some x → tk_phase x ≠ p → waits_at p (delete t T) u ↔ waits_at p T u.
Proof.
  intros Ht Hx. rewrite waits_delete. split; [tauto|]. intros H. split; [|done].
  intros ->. unfold waits_at in H. naive_solver.
Qed.

(** The request under way joins the requests of [T]. *)
Lemma mgr_ok_insert A H da dh dq dah dr T t x m m' :
  mgr_ok A H da dh dq dah dr T m → T !! t = None →
  sem_ok A (msum holds_all_w T + da) (waits_at WaitAll (<[t := x]> T)) (rm_all m') →
  sem_ok H (msum running_heavy_w T + dh) (waits_at WaitHeavy (<[t := x]> T)) (rm_heavy m') →
  (tk_phase x = WaitHeavy → tk_heavy x = true) →
  rm_queued m' = rm_queued m → rm_active_heavy m' = rm_active_heavy m →
  rm_active m' = rm_active m →
  da = holds_all_w x → dh = running_heavy_w x → dq = queued_w x →
  dah = running_heavy_w x → dr = running_w x →
  mgr_ok A H 0 0 0 0 0 (<[t := x]> T) m'.
Proof.
  intros [_ _ Hw Hq Hah Ha] Ht H1 H2 Hx Eq1 Eq2 Eq3 -> -> -> -> ->.
  constructor; rewrite ?msum_fresh by done; try lia.
  - by eapply sem_ok_eq; [exact H1|lia|].
  - by eapply sem_ok_eq; [exact H2|lia|].
  - intros u y Hu Hy. apply lookup_insert_Some in Hu as [[<- <-]|[_ Hu]]; [auto|by eapply Hw].
Qed.

(** A request of [T] is taken out. *)
Lemma mgr_ok_delete A H T t x m :
  mgr_ok A H 0 0 0 0 0 T m → T !! t = Some x →
  sem_ok A (msum holds_all_w (delete t T) + holds_all_w x) (waits_at WaitAll T) (rm_all m) ∧
  sem_ok H (msum running_heavy_w (delete t T) + running_heavy_w x) (waits_at WaitHeavy T)
    (rm_heavy m) ∧
  (∀ u tk, delete t T !! u = Some tk → tk_phase tk = WaitHeavy → tk_heavy tk = true) ∧
  rm_queued m = msum queued_w (delete t T) + queued_w x ∧
  rm_active_heavy m = msum running_heavy_w (delete t T) + running_heavy_w x ∧
  0 ≤ rm_active m ≤ msum running_w (delete t T) + running_w x.
Proof.
  intros [H1 H2 Hw Hq Hah Ha] Ht.
  pose proof (λ f, msum_delete f T t x Ht) as E.
  rewrite E in H1. rewrite E in H2. rewrite E in Hq. rewrite E in Hah. rewrite E in Ha.
  split_and!; try lia.
  - eapply sem_ok_eq; [exact H1|lia|done].
  - eapply sem_ok_eq; [exact H2|lia|done].
  - intros u y Hu. apply (Hw u). by apply lookup_delete_Some in Hu as [_ ?].
Qed.

Lemma enter_body_ok A H t heavy started now m w :
  mgr_ok A H 1 (b2z heavy) 1 0 0 (delete t (rw_tasks w)) m →
  world_ok A H (enter_body t heavy started now m w).
Proof.
  intros Hm. unfold world_ok, enter_body. cbn [rw_tasks rw_manager].
  rewrite <- insert_delete_eq. set (T := delete t (rw_tasks w)) in *.
  assert (T !! t = None) as Ht by apply lookup_delete_eq.
  pose proof Hm as [H1 H2 Hw Hq Hah Ha].
  set (m' := if heavy then _ else _).
  eapply (mgr_ok_insert A H 1 (b2z heavy) 0 (b2z heavy) 1 T t _ m' m');
    try done; try (by destruct heavy); [| |].
  - subst m'. constructor; destruct heavy; cbn; auto; lia.
  - eapply sem_ok_eq; [subst m'; destruct heavy; exact H1|done|].
    intros u. rewrite waits_insert by done. naive_solver.
  - eapply sem_ok_eq; [subst m'; destruct heavy; exact H2|done|].
    intros u. rewrite waits_insert by done. naive_solver.
Qed.

Lemma want_heavy_ok A H t heavy started now m w :
  mgr_ok A H 1 0 1 0 0 (delete t (rw_tasks w)) m →
  world_ok A H (want_heavy t heavy started now m w).
Proof.
  intros Hm. unfold want_heavy. destruct heavy; [|by apply enter_body_ok].
  destruct Hm as [H1 H2 Hw Hq Hah Ha]. destruct (sem_try (rm_heavy m)) as [s|] eqn:Hs.
  - apply enter_body_ok. constructor; auto. cbn.
    eapply sem_ok_eq; [by eapply sem_try_ok|cbn; lia|done].
  - unfold world_ok. cbn [rw_tasks rw_manager]. rewrite <- insert_delete_eq.
    set (T := delete t (rw_tasks w)) in *.
    assert (T !! t = None) as Ht by apply lookup_delete_eq.
    eapply (mgr_ok_insert A H 1 0 1 0 0 T t _ m); try done.
    + eapply sem_ok_eq; [exact H1|done|]. intros u. rewrite waits_insert by done. naive_solver.
    + eapply sem_ok_eq; [eapply sem_enqueue_ok; [done| |exact H2]|done|].
      * intros (y & Hy & _). congruence.
      * intros u. rewrite waits_insert by done. naive_solver.
Qed.

Lemma acquire_ok A H t model now w :
  rw_tasks w !! t = None → world_ok A H w → world_ok A H (acquire t model now w).
Proof.
  intros Ht [H1 H2 Hw Hq Hah Ha]. unfold acquire. cbn zeta.
  destruct (sem_try _) as [s|] eqn:Hs; cbn in Hs.
  - apply want_heavy_ok. rewrite (delete_id _ _ Ht). constructor; cbn; auto; try lia.
    eapply sem_ok_eq; [by eapply sem_try_ok|lia|done].
  - unfold world_ok. cbn [rw_tasks rw_manager].
    eapply (mgr_ok_insert A H 0 0 1 0 0 (rw_tasks w) t _
              ((rw_manager w) <| rm_queued := rm_queued (rw_manager w) + 1 |>)); try done.
    + constructor; cbn; auto; lia.
    + eapply sem_ok_eq; [eapply sem_enqueue_ok; [done| |exact H1]|done|].
      * intros (y & Hy & _). congruence.
      * intros u. rewrite waits_insert by done. naive_solver.
    + eapply sem_ok_eq; [exact H2|done|]. intros u. rewrite waits_insert by done. naive_solver.
Qed.

Lemma weights x :
  match tk_phase x with
  | WaitAll => holds_all_w x = 0 ∧ queued_w x = 1 ∧ running_w x = 0 ∧ running_heavy_w x = 0
  | WaitHeavy => holds_all_w x = 1 ∧ queued_w x = 1 ∧ running_w x = 0 ∧ running_heavy_w x = 0
  | Running => holds_all_w x = 1 ∧ queued_w x = 0 ∧ running_w x = 1 ∧
               running_heavy_w x = b2z (tk_heavy x)
  end.
Proof.
  unfold holds_all_w, queued_w, running_w, running_heavy_w, waiting, running.
  by destruct (tk_phase x).
Qed.

Ltac use_weights tk Hp :=
  let W := fresh in
  pose proof (weights tk) as W; rewrite Hp in W;
  let Wa := fresh in let Wq := fresh in let Wr := fresh in let Wh := fresh in
  destruct W as (Wa & Wq & Wr & Wh); rewrite ?Wa, ?Wq, ?Wr, ?Wh in *;
  clear Wa Wq Wr Wh.

Lemma not_cancelled f must :
  f ≠ FutPending → bool_decide (f = FutCancelled) || must = false → f = FutResult.
Proof. intros Hf [Hd _]%orb_false_iff. apply bool_decide_eq_false in Hd. by destruct f. Qed.

Lemma resume_ok A H t tk now w w' :
  rw_tasks w !! t = Some tk → world_ok A H w → resume t tk now w = Some w' →
  world_ok A H w'.
Proof.
  intros Ht Hok. pose proof (mgr_ok_delete A H _ t tk _ Hok Ht) as (D1 & D2 & D3 & D4 & D5 & D6).
  assert (∀ p u, (u ≠ t ∧ waits_at p (rw_tasks w) u) ↔ waits_at p (delete t (rw_tasks w)) u)
    as Hin by (intros; symmetry; apply waits_delete).
  unfold resume. destruct (tk_phase tk) eqn:Hp; [| |done]; use_weights tk Hp.
  - destruct (fut_of t _) as [f|] eqn:Hf; cbn; [|done].
    case_bool_decide as Hnp; [done|].
    pose proof (not_cancelled f (tk_must_cancel tk) Hnp) as Hc. set (cancelled := _ || _) in *.
    pose proof (sem_settle_ok _ _ _ _ t f cancelled Hf Hnp Hc D1) as S1.
    destruct cancelled; intros [= <-].
    + constructor; cbn; auto; try lia.
      * eapply sem_ok_eq; [exact S1|lia|]. intros u. by apply Hin.
      * eapply sem_ok_eq; [exact D2|lia|]. intros u. symmetry.
        eapply waits_delete_other; [done|]. by rewrite Hp.
    + apply want_heavy_ok. constructor; cbn; auto; try lia.
      * eapply sem_ok_eq; [exact S1|lia|]. intros u. by apply Hin.
      * eapply sem_ok_eq; [exact D2|lia|]. intros u. symmetry.
        eapply waits_delete_other; [done|]. by rewrite Hp.
  - destruct (fut_of t _) as [f|] eqn:Hf; cbn; [|done].
    case_bool_decide as Hnp; [done|].
    pose proof (not_cancelled f (tk_must_cancel tk) Hnp) as Hc. set (cancelled := _ || _) in *.
    pose proof (sem_settle_ok _ _ _ _ t f cancelled Hf Hnp Hc D2) as S2.
    assert (sem_ok A (msum holds_all_w (delete t (rw_tasks w)) + 1)
              (waits_at WaitAll (delete t (rw_tasks w))) (rm_all (rw_manager w))) as S1.
    { eapply sem_ok_eq; [exact D1|done|]. intros u. symmetry.
      eapply waits_delete_other; [done|]. by rewrite Hp. }
    destruct cancelled; intros [= <-].
    + constructor; destruct (Z.ltb_spec 0 (rm_active (rw_manager w))); cbn; auto; try lia.
      * eapply sem_ok_eq; [apply (sem_release_ok _ _ _ _ S1)|lia|done].
      * eapply sem_ok_eq; [apply (sem_release_ok _ _ _ _ S1)|lia|done].
      * eapply sem_ok_eq; [exact S2|lia|]. intros u. by apply Hin.
      * eapply sem_ok_eq; [exact S2|lia|]. intros u. by apply Hin.
    + apply enter_body_ok.
      assert (tk_heavy tk = true) as Hh by (eapply (mo_heavy_waits _ _ _ _ _ _ _ _ _ Hok); eauto).
      rewrite Hh in *. constructor; cbn; auto; try lia.
      eapply sem_ok_eq; [exact S2|cbn; lia|]. intros u. by apply Hin.
Qed.

Lemma leave_ok A H t tk error w w' :
  rw_tasks w !! t = Some tk → world_ok A H w → leave t tk error w = Some w' →
  world_ok A H w'.
Proof.
  intros Ht Hok. pose proof (mgr_ok_delete A H _ t tk _ Hok Ht) as (D1 & D2 & D3 & D4 & D5 & D6).
  unfold leave. destruct (tk_phase tk) eqn:Hp; [done..|].
  use_weights tk Hp. intros [= <-].
  assert (0 ≤ msum running_w (delete t (rw_tasks w))) as Hpos.
  { apply msum_nonneg. intros x. unfold running_w. by destruct (running x). }
  assert (∀ p u, p ≠ Running → waits_at p (rw_tasks w) u
            ↔ waits_at p (delete t (rw_tasks w)) u) as Hout.
  { intros p u Hn. symmetry. eapply waits_delete_other; [done|]. by rewrite Hp. }
  unfold world_ok, unwind. cbn. rewrite andb_false_r.
  destruct (tk_heavy tk); cbn in *;
    (constructor; destruct (Z.ltb_spec 0 (rm_active (rw_manager w))); cbn; auto; try lia);
    try (eapply sem_ok_eq; [apply (sem_release_ok _ _ _ _ D1)|lia|intros u; by apply Hout]);
    try (eapply sem_ok_eq; [apply (sem_release_ok _ _ _ _ D2)|lia|intros u; by apply Hout]);
    (eapply sem_ok_eq; [exact D2|lia|intros u; by apply Hout]).
Qed.

(** Marking a request changes neither its phase nor its kind. *)
Lemma mgr_ok_mark A H T t x y m :
  T !! t = Some x → tk_phase y = tk_phase x → tk_heavy y = tk_heavy x →
  mgr_ok A H 0 0 0 0 0 T m → mgr_ok A H 0 0 0 0 0 (<[t := y]> T) m.
Proof.
  intros Ht Hp Hh [H1 H2 Hw Hq Hah Ha].
  assert (∀ f, f y = f x → msum f (<[t := y]> T) = msum f T) as Hsum.
  { intros f E. rewrite (msum_update f T t x y Ht), (msum_delete f T t x Ht). lia. }
  assert (∀ p u, waits_at p T u ↔ waits_at p (<[t := y]> T) u) as Hwait.
  { intros p u. unfold waits_at. destruct (decide (u = t)) as [->|].
    - rewrite lookup_insert_eq, Ht. split; intros (z & [= <-] & ?); eexists; split;
        try done; congruence.
    - by rewrite lookup_insert_ne. }
  assert (holds_all_w y = holds_all_w x ∧ queued_w y = queued_w x ∧ running_w y = running_w x ∧
          running_heavy_w y = running_heavy_w x) as (E1 & E2 & E3 & E4).
  { unfold holds_all_w, queued_w, running_w, running_heavy_w, waiting, running.
    by rewrite Hp, Hh. }
  constructor; rewrite ?(Hsum _ E1), ?(Hsum _ E2), ?(Hsum _ E3), ?(Hsum _ E4); try done;
    try (eapply sem_ok_waits; [apply Hwait|done]).
  intros u z Hu Hz. apply lookup_insert_Some in Hu as [[<- <-]|[_ Hu]]; [|by eapply Hw].
  rewrite Hh. apply (Hw t x); [done|congruence].
Qed.

Lemma cancel_ok A H t tk w w' :
  rw_tasks w !! t = Some tk → world_ok A H w → cancel t tk w = Some w' →
  world_ok A H w'.
Proof.
  intros Ht Hok. unfold cancel. destruct (tk_phase tk) eqn:Hp; [| |done].
  - destruct (cancel_in t (rm_all (rw_manager w))) as [s must] eqn:Hs. intros [= <-].
    eapply mgr_ok_mark; [done..|]. destruct Hok. constructor; auto.
    apply (f_equal fst) in Hs. cbn in Hs. subst s. by apply cancel_in_ok.
  - destruct (cancel_in t (rm_heavy (rw_manager w))) as [s must] eqn:Hs. intros [= <-].
    eapply mgr_ok_mark; [done..|]. destruct Hok. constructor; auto.
    apply (f_equal fst) in Hs. cbn in Hs. subst s. by apply cancel_in_ok.
Qed.

Lemma step_ok A H w e w' : world_ok A H w → step w e = Some w' → world_ok A H w'.
Proof.
  intros Hok. destruct e as [t model now|t now|t|t error]; cbn;
    destruct (rw_tasks w !! t) as [tk|] eqn:Ht; cbn; try done.
  - intros [= <-]. by apply acquire_ok.
  - by apply resume_ok.
  - by apply cancel_ok.
  - by apply leave_ok.
Qed.

Lemma run_cons w e es : run w (e :: es) = w' ← step w e; run w' es.
Proof.
  unfold run. cbn. destruct (step w e) as [w'|]; [done|]. cbn.
  induction es as [|e' es IH]; [done|apply IH].
Qed.

Lemma run_ok A H es w w' : world_ok A H w → run w es = Some w' → world_ok A H w'.
Proof.
  revert w. induction es as [|e es IH]; intros w Hok; [by intros [= <-]|].
  rewrite run_cons. destruct (step w e) as [w1|] eqn:He; [|done]. cbn.
  apply IH. by eapply step_ok.
Qed.

Lemma world_init_ok max_all max_heavy mx :
  world_ok (Z.max 1 max_all) (Z.max 1 max_heavy) (world_init max_all max_heavy mx).
Proof.
  assert (∀ p t, t ∈ @nil nat ↔ waits_at p ∅ t) as Hw.
  { intros p t. split; [by intros ?%elem_of_nil|]. intros (tk & Htk & _). by rewrite lookup_empty in Htk. }
  constructor; cbn; rewrite ?msum_empty; try lia; try done;
    (constructor; cbn; [lia|lia|constructor|apply Hw|by left; constructor]).
Qed.

(** ** The bounds *)

(** How many requests satisfy a predicate. *)
Definition count (p : Task → bool) (T : gmap nat Task) : Z := msum (λ tk, b2z (p tk)) T.

Lemma b2z_nonneg b : 0 ≤ b2z b.
Proof. by destruct b. Qed.

Lemma count_nonneg p T : 0 ≤ count p T.
Proof. apply msum_nonneg. intros x. apply b2z_nonneg. Qed.

(** C18. Admission keeps Ollama within its bounds.  In every state the manager
    can reach from its creation, by any interleaving of requests, wake-ups,
    cancellations and completed bodies: at most [max(1, ollama_max_concurrency)]
    bodies run at once, at most [max(1, ollama_heavy_max_concurrency)] of them
    for a heavy model, [queued] is the number of waiting requests and
    [active_heavy] the number of running heavy ones, and [active] never exceeds
    the number of running requests. *)
Theorem admission_bounds max_all max_heavy mx es w
    (Hrun : run (world_init max_all max_heavy mx) es = Some w) :
  let T := rw_tasks w in
  let s := manager_snapshot (rw_manager w) in
  count running T ≤ Z.max 1 max_all ∧
  count (λ tk, running tk && tk_heavy tk) T ≤ Z.max 1 max_heavy ∧
  rs_queued s = count waiting T ∧
  rs_active_heavy s = count (λ tk, running tk && tk_heavy tk) T ∧
  0 ≤ rs_active s ≤ count running T.
Proof.
  destruct (run_ok _ _ _ _ _ (world_init_ok max_all max_heavy mx) Hrun) as [[? ? _ _ _] [? ? _ _ _] _ Hq Hah Ha].
  pose proof (granted_nonneg (sem_waiters (rm_all (rw_manager w)))).
  pose proof (granted_nonneg (sem_waiters (rm_heavy (rw_manager w)))).
  assert (msum running_w (rw_tasks w) ≤ msum holds_all_w (rw_tasks w)).
  { apply msum_le. intros x. pose proof (weights x). destruct (tk_phase x); lia. }
  cbn. unfold count. fold queued_w running_w running_heavy_w.
  change (λ tk, b2z (running tk)) with running_w.
  change (λ tk, b2z (running tk && tk_heavy tk)) with running_heavy_w.
  change (λ tk, b2z (waiting tk)) with queued_w. lia.
Qed.

(** ** Draining *)

(** What is left to do for a request: at most three scheduled segments. *)
Definition work (tk : Task) : Z :=
  match tk_phase tk with WaitAll => 3 | WaitHeavy => 2 | Running => 1 end.

(** The events that are not new requests or cancellations. *)
Definition progress (e : event) : bool :=
  match e with Resume _ _ | Leave _ _ => true | _ => false end.

Lemma fut_of_in_iff t ws f : NoDup ws.*1 → fut_of t ws = Some f ↔ (t, f) ∈ ws.
Proof.
  intros Hnd. split; [apply fut_of_in|].
  induction ws as [|[u g] ws IH]; simpl in *; [by intros ?%elem_of_nil|].
  apply NoDup_cons in Hnd as [Hu Hnd]. intros [[= -> ->]|Hin]%elem_of_cons.
  - by rewrite Nat.eqb_refl.
  - destruct (Nat.eqb_spec u t) as [->|]; [|auto].
    destruct Hu. apply list_elem_of_fmap. by exists (t, f).
Qed.

Lemma work_delete t tk T : T !! t = Some tk → msum work (delete t T) = msum work T - work tk.
Proof. intros H. rewrite (msum_delete work T t tk H). lia. Qed.

Lemma work_insert t tk x T :
  T !! t = Some tk → msum work (<[t := x]> T) = msum work T - work tk + work x.
Proof.
  intros H. rewrite (msum_update work T t tk x H), (msum_delete work T t tk H). lia.
Qed.

(** Every such event uses up some of the work. *)
Lemma progress_decreases w e w' :
  progress e = true → step w e = Some w' → msum work (rw_tasks w') < msum work (rw_tasks w).
Proof.
  destruct e as [|t now| |t error]; try done; intros _; cbn;
    destruct (rw_tasks w !! t) as [tk|] eqn:Ht; cbn; try done.
  - unfold resume. destruct (tk_phase tk) eqn:Hp; [| |done].
    + destruct (fut_of t _) as [f|]; cbn; [|done]. case_bool_decide; [done|].
      destruct (_ || _); intros [= <-]; cbn;
        [rewrite (work_delete _ _ _ Ht); unfold work; rewrite Hp; lia|].
      unfold want_heavy. destruct (tk_heavy tk); [destruct (sem_try _)|]; cbn;
        rewrite (work_insert _ _ _ _ Ht); unfold work; rewrite Hp; cbn; lia.
    + destruct (fut_of t _) as [f|]; cbn; [|done]. case_bool_decide; [done|].
      destruct (_ || _); intros [= <-]; cbn;
        [rewrite (work_delete _ _ _ Ht)|rewrite (work_insert _ _ _ _ Ht)];
        unfold work; rewrite Hp; cbn; lia.
  - unfold leave. destruct (tk_phase tk) eqn:Hp; [done..|]. intros [= <-]. cbn.
    rewrite (work_delete _ _ _ Ht). unfold work. rewrite Hp. lia.
Qed.

Lemma work_bounds T : 0 ≤ msum work T ≤ 3 * Z.of_nat (size T).
Proof.
  split; [apply msum_nonneg|rewrite <- msum_const; apply msum_le];
    intros x; unfold work; destruct (tk_phase x); lia.
Qed.

Lemma run_work es w w' :
  forallb progress es = true → run w es = Some w' →
  Z.of_nat (length es) + msum work (rw_tasks w') ≤ msum work (rw_tasks w).
Proof.
  revert w. induction es as [|e es IH]; intros w; [intros _ [= <-]; cbn; lia|].
  cbn [forallb]. intros [He Hes]%andb_true_iff. rewrite run_cons.
  destruct (step w e) as [w1|] eqn:Hs; [|done]. cbn. intros Hr.
  pose proof (IH w1 Hes Hr). pose proof (progress_decreases _ _ _ He Hs). lia.
Qed.

(** A queue all of whose waiters are pending exists only when no slot is free. *)
Lemma all_pending_empty max P s :
  0 < max → sem_ok max 0 P s → (∀ t f, fut_of t (sem_waiters s) = Some f → f = FutPending) →
  sem_waiters s = [] ∧ sem_value s = max.
Proof.
  intros Hm [Hv Hc Hk Hi Hn] Hp.
  assert (∀ t f, (t, f) ∈ sem_waiters s → f = FutPending) as Hp'
    by (intros t f Hin; eapply Hp, fut_of_in_iff; eauto).
  assert (¬ some_result (sem_waiters s)) as Hr.
  { unfold some_result. rewrite Exists_exists. intros ([t f] & Hin & Hf). cbn in Hf. subst f.
    by specialize (Hp' _ _ Hin). }
  rewrite (granted_zero _ Hr) in Hc. split; [|lia].
  destruct (sem_waiters s) as [|[t f] ws]; [done|].
  destruct (Hn ltac:(lia)) as [Hno|?]; [|done].
  apply Forall_cons in Hno as [Hno _]. destruct Hno. apply (Hp' t). left.
Qed.

Lemma no_progress_empty A H w :
  0 < A → 0 < H → world_ok A H w → (∀ e, progress e = true → step w e = None) →
  rw_tasks w = ∅.
Proof.
  intros HA HH [H1 H2 Hw Hq Hah Ha] Hstuck.
  assert (∀ t tk, rw_tasks w !! t = Some tk → tk_phase tk ≠ Running) as Hnr.
  { intros t tk Ht Hr. specialize (Hstuck (Leave t false) eq_refl). cbn in Hstuck.
    rewrite Ht in Hstuck. cbn in Hstuck. unfold leave in Hstuck. by rewrite Hr in Hstuck. }
  assert (∀ t tk f, rw_tasks w !! t = Some tk →
    match tk_phase tk with
    | WaitAll => fut_of t (sem_waiters (rm_all (rw_manager w))) = Some f
    | WaitHeavy => fut_of t (sem_waiters (rm_heavy (rw_manager w))) = Some f
    | Running => False
    end → f = FutPending) as Hp.
  { intros t tk f Ht Hf. specialize (Hstuck (Resume t 0) eq_refl). cbn in Hstuck.
    rewrite Ht in Hstuck. cbn in Hstuck. unfold resume in Hstuck.
    destruct (tk_phase tk); [| |done]; rewrite Hf in Hstuck; cbn in Hstuck;
      (case_bool_decide; [done|]); by destruct (_ || _). }
  assert (msum running_heavy_w (rw_tasks w) = 0) as Hrh.
  { apply msum_zero. intros t x Ht. specialize (Hnr t x Ht). pose proof (weights x).
    destruct (tk_phase x); [lia|lia|done]. }
  rewrite Hrh in H2. destruct (all_pending_empty H _ _ HH H2) as [Hh _].
  { intros t f Hf. assert (is_Some (fut_of t (sem_waiters (rm_heavy (rw_manager w))))) as Hs by eauto.
    apply fut_of_elem, (so_waits _ _ _ _ H2) in Hs as (tk & Ht & Hph).
    apply (Hp t tk f Ht). by rewrite Hph. }
  assert (∀ t tk, rw_tasks w !! t = Some tk → tk_phase tk = WaitAll) as Hall.
  { intros t tk Ht. destruct (tk_phase tk) eqn:Hph; [done| |by destruct (Hnr t tk Ht)].
    assert (waits_at WaitHeavy (rw_tasks w) t) as Hwt by by eexists.
    apply (so_waits _ _ _ _ H2) in Hwt. rewrite Hh in Hwt. by apply elem_of_nil in Hwt. }
  assert (msum holds_all_w (rw_tasks w) = 0) as Hho.
  { apply msum_zero. intros t x Ht. pose proof (weights x). rewrite (Hall t x Ht) in *. lia. }
  rewrite Hho in H1. destruct (all_pending_empty A _ _ HA H1) as [Hal _].
  { intros t f Hf. assert (is_Some (fut_of t (sem_waiters (rm_all (rw_manager w))))) as Hs by eauto.
    apply fut_of_elem, (so_waits _ _ _ _ H1) in Hs as (tk & Ht & Hph).
    apply (Hp t tk f Ht). by rewrite Hph. }
  apply map_empty. intros t. destruct (rw_tasks w !! t) as [tk|] eqn:Ht; [|done].
  assert (waits_at WaitAll (rw_tasks w) t) as Hwt by (exists tk; split; [done|by eapply Hall]).
  apply (so_waits _ _ _ _ H1) in Hwt. rewrite Hal in Hwt. by apply elem_of_nil in Hwt.
Qed.

(** C12. No request starves and no slot leaks.  From any reachable state, however
    cancellations fell, the coroutines that are scheduled and the bodies that end
    use up at most three events per request; when none of them can go on, no
    request is left, every slot of both semaphores is free again and the three
    counters are back at zero. *)
Theorem admission_drains max_all max_heavy mx es w more w'
    (Hreach : run (world_init max_all max_heavy mx) es = Some w)
    (Hmore : forallb progress more = true)
    (Hrun : run w more = Some w') :
  Z.of_nat (length more) ≤ 3 * Z.of_nat (size (rw_tasks w)) ∧
  ((∀ e, progress e = true → step w' e = None) →
   rw_tasks w' = ∅ ∧
   sem_value (rm_all (rw_manager w')) = Z.max 1 max_all ∧
   sem_value (rm_heavy (rw_manager w')) = Z.max 1 max_heavy ∧
   rm_queued (rw_manager w') = 0 ∧ rm_active (rw_manager w') = 0 ∧
   rm_active_heavy (rw_manager w') = 0).
Proof.
  pose proof (run_ok _ _ _ _ _ (world_init_ok max_all max_heavy mx) Hreach) as Hok.
  pose proof (run_ok _ _ _ _ _ Hok Hrun) as Hok'. split.
  { pose proof (run_work _ _ _ Hmore Hrun). pose proof (work_bounds (rw_tasks w)).
    pose proof (work_bounds (rw_tasks w')). lia. }
  intros Hstuck.
  assert (rw_tasks w' = ∅) as E by (eapply no_progress_empty; [| |exact Hok'|done]; lia).
  destruct Hok' as [H1 H2 _ Hq Hah Ha]. rewrite E, !msum_empty in *.
  assert (∀ p t, waits_at p ∅ t → False) as Hno.
  { intros p t (tk & Htk & _). by rewrite lookup_empty in Htk. }
  split; [done|].
  assert (∀ max p s, 0 < max → sem_ok max 0 (waits_at p ∅) s → sem_value s = max) as Hfree.
  { intros max p s Hm Hs. apply (all_pending_empty max (waits_at p ∅)); [done..|].
    intros t f Hf. exfalso. apply (Hno p t), (so_waits _ _ _ _ Hs), fut_of_elem. eauto. }
  split_and!; [eapply Hfree|eapply Hfree|..]; eauto; lia.
Qed.

(** ** Concrete runs *)

Definition sample_metrics : MetricsRegistry := MkMetrics 16 ∅ ∅.

(** Two total slots, one heavy slot: a heavy request runs, a second one waits
    for the heavy slot, a third waits for a total slot. *)
Definition sample_world : ResourceWorld := world_init 2 1 sample_metrics.
Definition sample_events : list event :=
  [Acquire 0 "llama3:70b" 0; Acquire 1 "qwen2.5:32b" 1; Acquire 2 "qwen2.5:0.5b" 2].

Lemma sample_events_run :
  (w ← run sample_world sample_events; Some (manager_snapshot (rw_manager w)))
  = Some (MkSnapshot 2 1 1 1 2).
Proof. vm_compute. reflexivity. Qed.

(** The small request is let in when the cancelled heavy one is scheduled. *)
Definition sample_cancelled : list event :=
  sample_events ++ [Cancel 1; Resume 1 3; Resume 2 4].

(** A request cancelled while it waits for the heavy slot decrements [active],
    which it never incremented: with two bodies running, [active] is 1, and with
    one body running it is 0. *)
Theorem cancelled_wait_undercounts :
  (w ← run sample_world sample_cancelled;
   Some (rm_active (rw_manager w), count running (rw_tasks w))) = Some (1, 2) ∧
  (w ← run sample_world (sample_cancelled ++ [Leave 2 false]);
   Some (rm_active (rw_manager w), count running (rw_tasks w))) = Some (0, 1).
Proof. vm_compute. split; reflexivity. Qed.

Lemma admission_bounds_witness :
  match run sample_world sample_cancelled with
  | Some w => count running (rw_tasks w) ≤ 2
  | None => False
  end.
Proof.
  destruct (run sample_world sample_cancelled) as [w|] eqn:Hrun.
  - apply (admission_bounds 2 1 sample_metrics sample_cancelled w Hrun).
  - vm_compute in Hrun. discriminate Hrun.
Defined.

Definition sample_drain : list event := [Leave 0 true; Leave 2 false].

Lemma admission_drains_witness :
  match run sample_world sample_cancelled with
  | Some w =>
      match run w sample_drain with
      | Some w' => Z.of_nat (length sample_drain) ≤ 3 * Z.of_nat (size (rw_tasks w))
      | None => False
      end
  | None => False
  end.
Proof.
  destruct (run sample_world sample_cancelled) as [w|] eqn:Hreach.
  - destruct (run w sample_drain) as [w'|] eqn:Hrun.
    + apply (admission_drains 2 1 sample_metrics sample_cancelled w sample_drain w' Hreach
               eq_refl Hrun).
    + vm_compute in Hreach. injection Hreach as <-. vm_compute in Hrun. discriminate Hrun.
  - vm_compute in Hreach. discriminate Hreach.
Defined.
