(* ===== verification/Routing.v ===== *)
(** * The runtime router

    [RuntimeRouter] and the legacy [ModelRouter] of [app/services/routing.py]:
    task classification, system prompt, research queries, and the choice of
    read-only tools from the live inventory.  Parameters: the execution dates,
    [extract_location] (the regular expression of [_extract_location]),
    [int_of_float] ([int] of a float) and the URL test of the legacy router. *)

From Stdlib Require Import Sorted.
From S2P Require Import Prelude PyData RunTypes Settings Schemas Evidence Inventory.

Definition _CURRENT_TERMS : list string :=
  ["current"; "currently"; "latest"; "live"; "today"; "tonight"; "tomorrow"; "yesterday";
   "recent"; "recently"; "now"; "this week"; "last night"; "breaking"].
Definition _SEARCH_TERMS : list string :=
  ["find"; "search"; "look up"; "research"; "source"; "evidence"; "news"; "weather";
   "forecast"; "score"; "match"; "game"; "fifa"; "world cup"; "critic"; "criticism";
   "reaction"; "report"].
Definition _REASONING_TERMS : list string :=
  ["analyze"; "analysis"; "compare"; "comparison"; "critic"; "criticism"; "tradeoff"; "risk";
   "recommend"; "recommendation"; "why"; "evaluate"; "architecture"; "diagnostic"].
Definition _WRITE_MARKERS : list string :=
  ["send"; "create"; "delete"; "remove"; "update"; "modify"; "write"; "draft"; "post";
   "publish"; "book"; "purchase"; "order"; "cancel"; "forward"; "reply"].

Definition _normalize (value : string) : string := join " " (split_ws (lower value)).
Definition _contains_any (text : string) (terms : list string) : bool :=
  existsb (λ t, contains t text) terms.

Definition _domain_for_text (text : string) : string :=
  if _contains_any text
       ["fifa"; "football"; "soccer"; "match"; "game"; "red card"; "world cup"] then "sports"
  else if _contains_any text ["weather"; "forecast"; "temperature"; "rain"; "snow"] then "weather"
  else if _contains_any text
       ["python"; "fastapi"; "langgraph"; "langchain"; "ollama"; "mcp"; "api"; "code"]
       then "software"
  else if _contains_any text ["stock"; "market"; "investment"; "credit"; "apr"; "finance"]
       then "finance"
  else "general".

Record SystemPromptDecision : Type := MkSystemPrompt {
  sp_prompt : string; sp_source : string; sp_domain : string; sp_requires_external : bool
}.

Definition domain_role (domain : string) : string :=
  default "evidence-grounded research analyst" (dict_get domain
    [("sports", "sports research analyst"); ("weather", "weather analyst");
     ("software", "senior software and AI systems analyst");
     ("finance", "financial research analyst")]).

Definition derived_prompt (role : string) : string :=
  "Act as a " +:+ role +:+ ". Treat the current user message as authoritative. " +:+
  "Break compound requests into the smallest useful research or analysis " +:+
  "steps, choose only live compatible read-only tools, and choose models " +:+
  "according to each step's capability needs. For current or uncertain " +:+
  "claims, use external evidence instead of model memory. Preserve source " +:+
  "references, distinguish facts from inference, state unresolved " +:+
  "uncertainty, and do not perform write operations unless the user " +:+
  "explicitly requests and separately authorizes them.".

Definition prepare_system_prompt (message : string) (provided : option string) :
    SystemPromptDecision :=
  let supplied := strip (opt_str_or provided "") in
  let normalized := _normalize message in
  let domain := _domain_for_text normalized in
  let current := _contains_any normalized (_CURRENT_TERMS ++ _SEARCH_TERMS) in
  if nonempty supplied then MkSystemPrompt supplied "request" domain current
  else MkSystemPrompt (derived_prompt (domain_role domain)) "derived" domain current.

Record TaskRoutingDecision : Type := MkTaskRouting {
  tr_requires_external_evidence : bool;
  tr_worker_role : string;
  tr_verifier_role : string;
  tr_reason : string
}.

Definition classify_task (user_request : string) (task : PlanTask) : TaskRoutingDecision :=
  let required := pt_required_evidence task in
  let text := _normalize
    (user_request +:+ " " +:+ pt_objective task +:+ " " +:+ join " " required) in
  let current := _contains_any text _CURRENT_TERMS in
  let search := _contains_any text _SEARCH_TERMS in
  let explicitly := match required with [] => false | _ => true end in
  let requires_external := current || search || explicitly in
  let reasoning := _contains_any text _REASONING_TERMS in
  let '(worker_role, reason) :=
    if requires_external then ("search", "current/search/evidence-dependent task")
    else if reasoning then ("reasoning", "analysis/reasoning task")
    else if (length (split_ws text) <=? 18)%nat then ("simple", "short stable task")
    else ("general", "general task") in
  MkTaskRouting requires_external worker_role
    (if reasoning || requires_external then "reasoning" else "fast_reasoning") reason.

(** The model of a role, with [ModelRoutingDecision]'s role and reason dropped. *)
Definition select_model (s : Settings) (role : string) (inventory : RuntimeInventory) :
    outcome string := resolve s (Some role) (Some inventory).

(** ** Research queries *)

Section queries.
(** [execution_context()]: today's and yesterday's ISO dates. *)
Variables execution_date yesterday_date : string.

Definition date_hint (user_request : string) : string :=
  let normalized := _normalize user_request in
  if contains "yesterday" normalized then " event date " +:+ yesterday_date
  else if contains "today" normalized || contains "current" normalized
        || contains "latest" normalized then " as of " +:+ execution_date
  else "".

Definition query_candidates (user_request : string) (task : PlanTask)
  (required_actions : list string) : list string :=
  let objective := strip (pt_objective task) in
  let actions := List.filter nonempty (map strip required_actions) in
  let hint := date_hint user_request in
  let subject := str_or objective user_request in
  (if nonempty objective then [objective +:+ hint +:+ ". " +:+ user_request] else []) ++
  map (λ text, text +:+ hint +:+ ". " +:+ subject)
  (List.filter nonempty (map strip (pt_required_evidence task))) ++
  map (λ action, action +:+ hint +:+ ". " +:+ subject) actions ++
  [user_request +:+ hint].

(** The loop: compact, skip blanks and repetitions, stop at [maximum]. *)
Fixpoint take_queries (maximum : nat) (seen : list string) (candidates : list string) :
  list string :=
  match candidates with
  | [] => []
  | candidate :: candidates' =>
    let compact := strip_chars " ." (join " " (split_ws candidate)) in
    if nonempty compact then
      let compact := stake 800 compact in
      let key := lower compact in
      if bool_decide (key ∈ seen) then take_queries maximum seen candidates'
      else
        match maximum with
        | O | S O => [compact]
        | S maximum' => compact :: take_queries maximum' (key :: seen) candidates'
        end
    else take_queries maximum seen candidates'
  end.

(** [int(limit or research_max_queries_per_task)], at least 1. *)
Definition query_maximum (s : Settings) (limit : option Z) : nat :=
  Z.to_nat (Z.max 1 (match limit with
                   | Some l => if l =? 0 then research_max_queries_per_task s else l
                   | None => research_max_queries_per_task s
                   end)).

Definition build_research_queries (s : Settings) (user_request : string) (task : PlanTask)
  (required_actions : list string) (limit : option Z) : list string :=
  match take_queries (query_maximum s limit) []
        (query_candidates user_request task required_actions) with
  | [] => [stake 800 user_request]
  | output => output
  end.

Lemma take_queries_spec maximum seen candidates :
  (1 ≤ maximum)%nat →
  let out := take_queries maximum seen candidates in
  (length out ≤ maximum)%nat ∧ Forall (λ q, slen q ≤ 800) out ∧
  NoDup (lower <$> out) ∧ (∀ q, q ∈ out → lower q ∉ seen).
Proof.
  revert maximum seen. induction candidates as [|c cs IH]; intros maximum seen Hm; cbn zeta.
  { simpl. repeat split; [lia|constructor|constructor|by intros q ?%not_elem_of_nil]. }
  cbn [take_queries]. destruct (nonempty _); [|by apply IH].
  set (compact := stake 800 _).
  assert (Hc : slen compact ≤ 800).
  { subst compact. unfold slen. rewrite stake_length. lia. }
  case_bool_decide as Hin; [by apply IH|].
  destruct maximum as [|[|m]]; [lia|..].
  - simpl. repeat split; [lia|by repeat constructor|apply NoDup_singleton|].
  by intros q ->%list_elem_of_singleton.
  - destruct (IH (S m) (lower compact :: seen) ltac:(lia)) as (H1 & H2 & H3 & H4).
  set (rest := take_queries (S m) (lower compact :: seen) cs) in *.
  split; [simpl; lia|]. split; [by constructor|]. split.
  + rewrite fmap_cons. apply NoDup_cons. split; [|done].
    intros (q & Hq & Hin')%list_elem_of_fmap. apply (H4 q Hin'). rewrite <-Hq. by left.
  + intros q [->|Hq]%elem_of_cons; [done|]. intros Hs. apply (H4 q Hq). by right.
Qed.

(** Research queries are bounded: at least one and at most the configured
number per task, none longer than 800 characters, no two equal up to
case. *)
Theorem queries_bounded s user_request task required_actions limit :
  let out := build_research_queries s user_request task required_actions limit in
  (1 ≤ length out ≤ query_maximum s limit)%nat ∧ Forall (λ q, slen q ≤ 800) out ∧
  NoDup (lower <$> out).
Proof.
  assert (Hm : (1 ≤ query_maximum s limit)%nat) by (unfold query_maximum; lia).
  destruct (take_queries_spec (query_maximum s limit) []
  (query_candidates user_request task required_actions) Hm) as (H1 & H2 & H3 & _).
  assert (Hs : slen (stake 800 user_request) ≤ 800) by (unfold slen; rewrite stake_length; lia).
  unfold build_research_queries. cbv zeta. revert H1 H2 H3.
  destruct (take_queries _ _ _) as [|q qs]; intros H1 H2 H3.
  - split; [cbn [length]; lia|]. split; [by constructor|apply NoDup_singleton].
  - split; [cbn [length] in *; lia|done].
Qed.
End queries.

(** [hashlib.sha256(query.encode()).hexdigest()[:12]]. *)
Definition query_fingerprint (sha256_hex : string → string) (query : string) : string :=
  stake 12 (sha256_hex query).

(** ** Tool selection *)

Record ToolRoutingDecision : Type := MkToolRouting {
  td_name : string;
  td_arguments : pydict;
  td_score : Z;
  td_reason : string
}.

(** The parts of a name between characters outside [a-z0-9], with [-] read as [_]. *)
Definition _read_only_candidate (name : string) : bool :=
  let normalized := replace_char (Ascii.ascii_of_N 45) (Ascii.ascii_of_N 95) (lower name) in
  let parts := words_by is_lower_or_digit EmptyString normalized in
  forallb (λ marker, negb (bool_decide (marker ∈ parts))) _WRITE_MARKERS.

Definition _score_terms (haystack : string) (terms : list string) (weight : Z) : Z :=
  foldr (λ term acc, if contains term haystack then weight + acc else acc) 0 terms.

(** One [if] of [_tool_score]: the score and the reasons it adds. *)
Definition score_rule (applies : bool) (haystack : string) (terms : list string) (weight : Z)
    (reason_terms : list string) (reason : string) : Z * list string :=
  if applies then
    (_score_terms haystack terms weight,
     if existsb (λ t, contains t haystack) reason_terms then [reason] else [])
  else (0, []).

Definition _tool_score (name description query : string) : Z * list string :=
  let haystack := _normalize (name +:+ " " +:+ description) in
  let weather := score_rule (_contains_any query ["weather"; "forecast"]) haystack
    ["weather"; "forecast"; "climate"] 12 ["weather"; "forecast"] "weather capability" in
  let sports := score_rule
    (_contains_any query ["fifa"; "football"; "soccer"; "match"; "game"; "score"]) haystack
    ["sports"; "football"; "soccer"; "fifa"; "match"; "score"; "news"] 10
    ["sports"; "football"; "soccer"; "news"] "sports/news capability" in
  let fresh := score_rule (_contains_any query _CURRENT_TERMS || contains "news" query) haystack
    ["news"; "search"; "web"; "scrape"] 8 ["news"; "search"; "web"]
    "fresh-information capability" in
  let discovery := score_rule
    (_contains_any query ["critic"; "reaction"; "report"; "source"; "evidence"]) haystack
    ["news"; "search"; "web"; "scrape"; "article"] 7 ["news"; "search"; "scrape"]
    "source-discovery capability" in
  let fallback := _score_terms haystack ["search"; "web"; "news"; "scrape"; "fetch"] 3 in
  let known := bool_decide (name ∈ ["web_search_and_scrape"; "web_search"; "news_search"]) in
  (weather.1 + sports.1 + fresh.1 + discovery.1 + fallback + (if known then 4 else 0),
   weather.2 ++ sports.2 ++ fresh.2 ++ discovery.2 ++
   (if known then ["known read-only research fallback"] else [])).

(** *** [int(v)] *)

Definition digit_value (c : Ascii.ascii) : option Z :=
  if ((48 <=? code c) && (code c <=? 57))%N then Some (Z.of_N (code c - 48)) else None.

(** Digits with single underscores between them; [sep] says that a digit must
    follow. *)
Fixpoint int_digits (acc : Z) (sep : bool) (s : string) : option Z :=
  match s with
  | EmptyString => if sep then None else Some acc
  | String c s' =>
      match digit_value c with
      | Some d => int_digits (10 * acc + d) false s'
      | None => if (code c =? 95)%N && negb sep then int_digits acc true s' else None
      end
  end.

Definition int_of_string (s : string) : option Z :=
  match strip s with
  | String c s' =>
      if (code c =? 45)%N then Z.opp <$> int_digits 0 true s'
      else if (code c =? 43)%N then int_digits 0 true s'
      else int_digits 0 true (String c s')
  | EmptyString => None
  end.

(** *** The location of a query

    [\b(?:in|for|at|near)\s+([A-Z][A-Za-z .'-]+?)] followed by one of [?.!,], by
    blanks and a day word, or by the end. *)

Definition is_alpha (c : Ascii.ascii) : bool :=
  is_upper c || ((97 <=? code c) && (code c <=? 122))%N.
Definition is_word (c : Ascii.ascii) : bool :=
  is_alpha c || ((48 <=? code c) && (code c <=? 57))%N || (code c =? 95)%N.
Definition location_char (c : Ascii.ascii) : bool := is_alpha c || mem_char c " .'-".

(** The rest after [p], when [s] starts with [p]. *)
Fixpoint strip_prefix (p s : string) : option string :=
  match p, s with
  | EmptyString, _ => Some s
  | String a p', String b s' => if Ascii.eqb a b then strip_prefix p' s' else None
  | String _ _, EmptyString => None
  end.

Definition word_end (s : string) : bool :=
  match s with String c _ => negb (is_word c) | EmptyString => true end.

Definition location_stop (s : string) : bool :=
  match s with
  | EmptyString => true
  | String c s' =>
      String.eqb s nl || mem_char c "?.!," ||
      (is_space c &&
       existsb (λ day, match strip_prefix day (drop_while is_space s') with
                       | Some r => word_end r
                       | None => false
                       end) ["today"; "tomorrow"; "yesterday"; "now"])
  end.

(** The shortest non-empty run of location characters before a stop. *)
Fixpoint location_tail (acc s : string) : option string :=
  match s with
  | String c s' =>
      if location_char c then
        if location_stop s' then Some (srev (String c acc)) else location_tail (String c acc) s'
      else None
  | EmptyString => None
  end.

Definition location_after (s : string) : option string :=
  match s with
  | String c s' =>
      if is_space c then
        match drop_while is_space s' with
        | String d s'' => if is_upper d then location_tail (String d EmptyString) s'' else None
        | EmptyString => None
        end
      else None
  | EmptyString => None
  end.

Definition location_at (s : string) : option string :=
  foldr (λ word rest, match strip_prefix word s ≫= location_after with
                      | Some found => Some found
                      | None => rest
                      end) None ["in"; "for"; "at"; "near"].

(** [prev_word]: whether the character before [s] is a word character. *)
Fixpoint find_location (prev_word : bool) (s : string) : option string :=
  match (if prev_word then None else location_at s) with
  | Some found => Some found
  | None =>
      match s with
      | EmptyString => None
      | String c s' => find_location (is_word c) s'
      end
  end.

Definition _extract_location (query : string) : option string := strip <$> find_location false query.

Section tools.
Variable env : EvidenceEnv.
(** [int(v)] of a float, an error for infinities and NaN. *)
Variable int_of_float : string → outcome Z.

(** [int(value)], the outcome of the builtin. *)
Definition py_int (value : pyval) : outcome Z :=
  match value with
  | VInt z => Ret z
  | VBool b => Ret (if b then 1 else 0)
  | VFloat r => int_of_float r
  | VStr s =>
    match int_of_string s with
    | Some z => Ret z
    | None => Raise (PyExn ValueError "invalid literal for int() with base 10")
    end
  | VNone | VList _ | VDict _ => Raise (PyExn TypeError "int() argument")
  end.

Definition _safe_int (value : pyval) (dflt minimum maximum : Z) : outcome Z :=
  let clamp parsed := Z.max minimum (Z.min maximum parsed) in
  match py_int value with
  | Ret parsed => Ret (clamp parsed)
  | Raise (PyExn TypeError _) | Raise (PyExn ValueError _) => Ret (clamp dflt)
  | Raise e => Raise e
  end.

Definition _fallback_required_value (definition : pydict) (query : string) (pages : Z) :
  option pyval :=
  match get_or_none "type" definition with
  | VNone => Some (VStr query)
  | VStr t =>
    if String.eqb t "string" then Some (VStr query)
    else if String.eqb t "integer" then Some (VInt pages)
    else if String.eqb t "number" then Some (VFloat (Z_to_string pages +:+ ".0"))
    else if String.eqb t "boolean" then Some (VBool true)
    else None
  | _ => None
  end.

(** What one property contributes: nothing, a value, or no usable arguments. *)
Inductive prop_value : Type := PropSkip | PropValue (v : pyval) | PropUnusable.

Definition prop_of_opt (v : pyval) : prop_value :=
  match v with VNone => PropSkip | _ => PropValue v end.

Definition property_value (required : list pyval) (query : string) (metadata : pydict)
  (pages : Z) (prop : string) (definition : pyval) : prop_value :=
  let prop_lower := lower prop in
  let definition := match definition with VDict d => d | _ => [] end in
  if bool_decide (prop_lower ∈ ["query"; "q"; "search_query"; "search"; "text"; "prompt"])
  then PropValue (VStr query)
  else if bool_decide (prop_lower ∈ ["pages"; "limit"; "count"; "max_results"; "num_results"])
  then PropValue (VInt pages)
  else if bool_decide (prop_lower ∈ ["prefer_official"; "official_only"])
  then PropValue (VBool true)
  else if bool_decide (prop_lower ∈ ["location"; "city"; "place"])
  then PropValue (VStr (opt_str_or (_extract_location query) query))
  else match dict_get prop_lower metadata with
  | Some v => prop_of_opt v
  | None =>
    match dict_get prop metadata with
    | Some v => prop_of_opt v
    | None =>
        if dict_has "default" definition then PropSkip
        else if bool_decide (VStr prop ∈ required) then
          match _fallback_required_value definition query pages with
          | Some v => PropValue v
          | None => PropUnusable
          end
        else PropSkip
    end
  end.

Fixpoint arguments_loop (required : list pyval) (query : string) (metadata : pydict)
  (pages : Z) (arguments : pydict) (properties : pydict) : option pydict :=
  match properties with
  | [] => Some arguments
  | (prop, definition) :: properties' =>
    match property_value required query metadata pages prop definition with
    | PropSkip => arguments_loop required query metadata pages arguments properties'
    | PropValue v =>
        arguments_loop required query metadata pages (dict_set prop v arguments) properties'
    | PropUnusable => None
    end
  end.

Definition py_or (a b : pyval) : pyval := if truthy a then a else b.

Definition _arguments_for_tool (tool : pydict) (query : string) (metadata : pydict) :
  outcome (option pydict) :=
  match py_or (py_or (get_or_none "inputSchema" tool) (get_or_none "input_schema" tool))
        (VDict []) with
  | VDict schema =>
    let properties := match py_or (get_or_none "properties" schema) (VDict []) with
                      | VDict d => d
                      | _ => []
                      end in
    let required := match py_or (get_or_none "required" schema) (VList []) with
                    | VList l => l
                    | _ => []
                    end in
    match _safe_int (get_or_none "pages" metadata) 3 1 10 with
    | Raise e => Raise e
    | Ret pages =>
        Ret (match properties with
             | [] => Some [("query", VStr query); ("pages", VInt pages);
                           ("prefer_official", VBool true)]
             | _ => arguments_loop required query metadata pages [] properties
             end)
    end
  | _ => Ret None
  end.

(** [str(tool.get(k) or default)] with an empty default. *)
Definition str_field (k : string) (tool : pydict) : string :=
  py_str env (py_or (get_or_none k tool) (VStr "")).

(** One iteration of the loop over the live tools. *)
Definition tool_decision (query normalized : string) (metadata : pydict) (tool : pydict) :
  outcome (option ToolRoutingDecision) :=
  let name := strip (str_field "name" tool) in
  if negb (nonempty name) || negb (_read_only_candidate name) then Ret None
  else
  let '(score, reasons) := _tool_score name (str_field "description" tool) normalized in
  match _arguments_for_tool tool query metadata with
  | Raise e => Raise e
  | Ret None => Ret None
  | Ret (Some arguments) =>
      if score <=? 0 then Ret None
      else Ret (Some (MkToolRouting name arguments score
             (str_or (join ", " reasons) "generic read-only research tool")))
  end.

Fixpoint tool_decisions (query normalized : string) (metadata : pydict) (tools : list pydict) :
  outcome (list ToolRoutingDecision) :=
  match tools with
  | [] => Ret []
  | tool :: tools' =>
    match tool_decision query normalized metadata tool with
    | Raise e => Raise e
    | Ret d =>
        match tool_decisions query normalized metadata tools' with
        | Raise e => Raise e
        | Ret ds => Ret (match d with Some d => d :: ds | None => ds end)
        end
    end
  end.

(** [(-item.score, item.name)], ascending. *)
Definition ranks_before (a b : ToolRoutingDecision) : bool :=
  (td_score b <? td_score a) ||
  ((td_score a =? td_score b) && String.leb (td_name a) (td_name b)).

(** [list.sort] with that key: a stable insertion sort. *)
Fixpoint insert_decision (d : ToolRoutingDecision) (l : list ToolRoutingDecision) :
  list ToolRoutingDecision :=
  match l with
  | [] => [d]
  | e :: l' => if ranks_before d e then d :: l else e :: insert_decision d l'
  end.
Definition sort_decisions (l : list ToolRoutingDecision) : list ToolRoutingDecision :=
  foldr insert_decision [] l.

Definition resolved_query (user_request : string) (task : option PlanTask)
  (required_actions : list string) (query : option string) : string :=
  let action_text := join " " (List.filter nonempty required_actions) in
  let objective := match task with Some t => pt_objective t | None => "" end in
  str_or (strip (opt_str_or query ""))
  (strip (join " " (List.filter nonempty [objective; action_text; user_request]))).

Definition select_tools (user_request : string) (task : option PlanTask)
  (required_actions : list string) (inventory : RuntimeInventory) (metadata : pydict)
  (limit : Z) (query : option string) : outcome (list ToolRoutingDecision) :=
  let resolved := resolved_query user_request task required_actions query in
  match tool_decisions resolved (_normalize resolved) metadata (ri_tools inventory) with
  | Raise e => Raise e
  | Ret decisions => Ret (take (Z.to_nat (Z.max 1 limit)) (sort_decisions decisions))
  end.

(** *** What selection guarantees *)

Lemma insert_decision_Permutation d l : insert_decision d l ≡ₚ d :: l.
Proof.
  induction l as [|e l IH]; [done|]. simpl. destruct (ranks_before d e); [done|].
  rewrite IH. apply Permutation_swap.
Qed.

Lemma sort_decisions_Permutation l : sort_decisions l ≡ₚ l.
Proof.
  induction l as [|d l IH]; [done|]. simpl. by rewrite insert_decision_Permutation, IH.
Qed.

Lemma String_leb_total a b : String.leb a b = false → String.leb b a = true.
Proof. destruct (String.leb_total a b) as [E|E]; [congruence|done]. Qed.

Lemma String_leb_trans a b c :
  String.leb a b = true → String.leb b c = true → String.leb a c = true.
Proof.
  revert b c. induction a as [|x a IH]; intros [|y b] [|z c]; try done.
  unfold String.leb. simpl.
  pose proof (Ascii.compare_antisym x y) as Hxy. pose proof (Ascii.compare_antisym y z) as Hyz.
  specialize (IH b c). unfold String.leb in IH.
  unfold Ascii.compare in *.
  destruct (N.compare_spec (Ascii.N_of_ascii x) (Ascii.N_of_ascii y)),
  (N.compare_spec (Ascii.N_of_ascii y) (Ascii.N_of_ascii z)),
  (N.compare_spec (Ascii.N_of_ascii x) (Ascii.N_of_ascii z)); try done; try lia.
Qed.

Lemma ranks_before_total a b : ranks_before a b = false → ranks_before b a = true.
Proof.
  unfold ranks_before. intros [H1 H2]%orb_false_iff. apply Z.ltb_ge in H1.
  destruct (Z.ltb_spec (td_score a) (td_score b)); [done|].
  assert (td_score a = td_score b) as E by lia. rewrite E, Z.eqb_refl in *. simpl in *.
  by apply String_leb_total.
Qed.

Lemma ranks_before_trans a b c :
  ranks_before a b = true → ranks_before b c = true → ranks_before a c = true.
Proof.
  unfold ranks_before. rewrite !orb_true_iff, !andb_true_iff, !Z.ltb_lt, !Z.eqb_eq.
  intros [?|[? ?]] [?|[? ?]]; [left; lia..|right].
  split; [lia|by eapply String_leb_trans].
Qed.

Lemma insert_decision_sorted d l :
  StronglySorted (λ a b, ranks_before a b = true) l →
  StronglySorted (λ a b, ranks_before a b = true) (insert_decision d l).
Proof.
  induction 1 as [|e l' Hs IH He]; simpl; [by repeat constructor|].
  destruct (ranks_before d e) eqn:E.
  - constructor; [by constructor|]. constructor; [done|].
  eapply Forall_impl; [done|]. intros f. by apply ranks_before_trans.
  - constructor; [done|]. rewrite insert_decision_Permutation. constructor; [|done].
  by apply ranks_before_total.
Qed.

Lemma sort_decisions_sorted l :
  StronglySorted (λ a b, ranks_before a b = true) (sort_decisions l).
Proof. induction l as [|d l IH]; simpl; [constructor|]. by apply insert_decision_sorted. Qed.

Lemma sorted_take_drop {A} (R : A → A → Prop) n (l : list A) :
  StronglySorted R l →
  StronglySorted R (take n l) ∧ ∀ a b, a ∈ take n l → b ∈ drop n l → R a b.
Proof.
  intros H. revert n. induction H as [|e l' Hs IH He]; intros [|n]; simpl.
  1,2: split; [constructor|by intros ? ? ?%not_elem_of_nil].
  - split; [constructor|by intros ? ? ?%not_elem_of_nil].
  - destruct (IH n) as [H1 H2]. rewrite Forall_forall in He. split.
  + constructor; [done|]. apply Forall_forall. intros x Hx. apply He.
    rewrite <-(take_drop n l'). apply elem_of_app. by left.
  + intros a b [->|Ha]%elem_of_cons Hb; [|by apply H2].
    apply He. rewrite <-(take_drop n l'). apply elem_of_app. by right.
Qed.

(** A decision the loop makes for a tool. *)
Definition decides (query : string) (metadata : pydict) (inventory : RuntimeInventory)
  (d : ToolRoutingDecision) : Prop :=
  ∃ tool, tool ∈ ri_tools inventory ∧
  tool_decision query (_normalize query) metadata tool = Ret (Some d).

Lemma tool_decisions_spec query normalized metadata tools ds :
  tool_decisions query normalized metadata tools = Ret ds →
  ∀ d, d ∈ ds ↔ ∃ tool, tool ∈ tools ∧
  tool_decision query normalized metadata tool = Ret (Some d).
Proof.
  revert ds. induction tools as [|t ts IH]; intros ds; simpl.
  { intros [= <-] d. split; [by intros ?%not_elem_of_nil|].
  by intros (t & ?%not_elem_of_nil & _). }
  destruct (tool_decision _ _ _ t) as [o|e] eqn:Et; [|done].
  destruct (tool_decisions _ _ _ ts) as [ds'|e]; [|done]. intros [= <-] d.
  specialize (IH ds' eq_refl d). setoid_rewrite elem_of_cons.
  destruct o as [d'|]; [rewrite elem_of_cons|]; rewrite IH; split.
  - intros [->|(t' & ? & ?)]; [by exists t; auto|exists t'; auto].
  - intros (t' & [->|?] & Hd); [left; congruence|right; by exists t'].
  - intros (t' & ? & ?); exists t'; auto.
  - intros (t' & [->|?] & Hd); [congruence|by exists t'].
Qed.

Lemma tool_decision_inv query normalized metadata tool d :
  tool_decision query normalized metadata tool = Ret (Some d) →
  td_name d = strip (str_field "name" tool) ∧ nonempty (td_name d) = true ∧
  _read_only_candidate (td_name d) = true ∧ 0 < td_score d.
Proof.
  unfold tool_decision. destruct (nonempty _) eqn:E1; [|done].
  destruct (_read_only_candidate _) eqn:E2; [|done].
  cbn [negb orb]. destruct (_tool_score _ _ normalized) as [score reasons].
  destruct (_arguments_for_tool tool query metadata) as [[a|]|e]; try done.
  destruct (Z.leb_spec score 0); [done|]. by intros [= <-].
Qed.

(** Tool selection is safe and best-first.  Every selected tool is listed
by the live inventory, carries no write marker in its name and scores
above zero; at most [max 1 limit] are selected, sorted by descending score
and then name, and no usable tool that was left out ranks before a selected
one. *)
Theorem select_tools_spec user_request task required_actions inventory metadata limit query out
  (Hout : select_tools user_request task required_actions inventory metadata limit query
          = Ret out) :
  let resolved := resolved_query user_request task required_actions query in
  Forall (λ d, decides resolved metadata inventory d ∧
             _read_only_candidate (td_name d) = true ∧ 0 < td_score d) out ∧
  (length out ≤ Z.to_nat (Z.max 1 limit))%nat ∧
  StronglySorted (λ a b, ranks_before a b = true) out ∧
  (∀ d, decides resolved metadata inventory d →
  d ∈ out ∨ (length out = Z.to_nat (Z.max 1 limit) ∧ Forall (λ c, ranks_before c d = true) out)).
Proof.
  intros resolved. unfold select_tools in Hout. fold resolved in Hout.
  destruct (tool_decisions _ _ _ _) as [ds|e] eqn:Eds; [|done]. injection Hout as <-.
  pose proof (tool_decisions_spec _ _ _ _ _ Eds) as Hds.
  destruct (sorted_take_drop _ (Z.to_nat (Z.max 1 limit)) _ (sort_decisions_sorted ds)) as [H1 H2].
  split; [|split; [|split]]; [|by rewrite length_take; lia|done|].
  - apply Forall_forall. intros d Hd.
  assert (Hin : d ∈ ds).
  { rewrite <-(sort_decisions_Permutation ds), <-(take_drop (Z.to_nat (Z.max 1 limit)) (sort_decisions ds)).
    apply elem_of_app. by left. }
  apply Hds in Hin as (t & Ht & Hd'). split; [by exists t|].
  by destruct (tool_decision_inv _ _ _ _ _ Hd') as (_ & _ & ? & ?).
  - intros d Hd%Hds.
  rewrite <-(sort_decisions_Permutation ds), <-(take_drop (Z.to_nat (Z.max 1 limit)) (sort_decisions ds)) in Hd.
  apply elem_of_app in Hd as [Hd|Hd]; [by left|right]. split.
  + rewrite length_take. apply Nat.min_l.
    assert (0 < length (drop (Z.to_nat (Z.max 1 limit)) (sort_decisions ds)))%nat as Hl.
    { destruct (drop _ _); [by apply not_elem_of_nil in Hd|simpl; lia]. }
    rewrite length_drop in Hl. lia.
  + apply Forall_forall. intros c Hc. by apply H2.
Qed.
End tools.

(** ** The legacy first-pass classifier

    [ModelRouter.plan]: the first rule whose phrases occur in the message. *)

Record QueryPlan : Type := MkQueryPlan {
  qp_intent : string;
  qp_tools : list string;
  qp_model_key : string;
  qp_needs_query_rewrite : bool
}.

(** [re.search(r"https?://\S+", message, IGNORECASE)]. *)
Definition url_at (s : string) : bool :=
  existsb (λ scheme, match strip_prefix scheme s with
                     | Some (String c _) => negb (is_space c)
                     | _ => false
                     end) ["http://"; "https://"].
Fixpoint has_url (s : string) : bool :=
  url_at s || match s with String _ s' => has_url s' | EmptyString => false end.

Definition plan_rules : list (list string * QueryPlan) := [
  (["send draft"; "send email"; "email draft"],
   MkQueryPlan "mail_send_draft" ["mail_send_draft"] "writer" false);
  (["check tools health"; "tool health"; "mcp health"],
   MkQueryPlan "tool_health" ["health_check"] "simple" false);
  (["weather"; "forecast"; "temperature"; "rain"; "snow"; "humidity"],
   MkQueryPlan "weather" ["weather_lookup"] "search" true);
  (["stock"; "shares"; "ticker"; "market price"],
   MkQueryPlan "stock" ["stock_quote"] "search" true);
  (["world cup"; "fifa"; "football"; "soccer"; "match result"; "match results"; "final score";
    "game result"; "game results"],
   MkQueryPlan "sports_or_match_results" ["sports_search"] "search" true);
  (["road condition"; "road closure"; "traffic closure"; "construction traffic"],
   MkQueryPlan "road_condition" ["road_conditions"] "search" true);
  (["search email"; "find email"; "mail search"],
   MkQueryPlan "mail_search" ["mail_search"] "search" true);
  (["latest news"; "breaking news"; "recent news"],
   MkQueryPlan "news" ["news_search"] "search" true);
  (["quick search"; "web search"; "search for"],
   MkQueryPlan "web_search" ["web_search"] "search" true);
  (["research"; "authoritative sources"; "official documentation"; "find sources"],
   MkQueryPlan "web_research" ["web_search_and_scrape"] "search" true)].

Definition ModelRouter_plan (message : string) : QueryPlan :=
  let text := _normalize message in
  if has_url (lower message) then MkQueryPlan "url_scrape" ["scrape_url"] "general" false
  else
    match List.find (λ rule, _contains_any text rule.1) plan_rules with
    | Some rule => rule.2
    | None => MkQueryPlan "general" [] "general" false
    end.

(** ** Witnesses *)

Definition sample_env : EvidenceEnv :=
  MkEvidenceEnv (λ s, s) (λ _, "{}") (λ _, "[]")
    (λ u, Some (MkSplit "https" u "/" "" (Some u) (Ret None))) (λ _, []) (λ _, "")
    (λ scheme host path _, scheme +:+ "://" +:+ host +:+ path) (λ _, None).

Definition sample_tools_inventory : RuntimeInventory := MkInventory []
  [[("name", VStr "web_search"); ("description", VStr "search the web")];
   [("name", VStr "mail_send_draft"); ("description", VStr "send news")];
   [("name", VStr "news_search"); ("description", VStr "search the news")]] [] false 0.

Lemma select_tools_spec_witness :
  let sel := select_tools sample_env (λ _, Ret 0) "latest news on Mars" None []
    sample_tools_inventory [] 3 None in
  ∃ out, sel = Ret out ∧ td_name <$> out = ["news_search"; "web_search"] ∧
    (length out ≤ 3)%nat ∧ StronglySorted (λ a b, ranks_before a b = true) out.
Proof.
  assert (∃ out, select_tools sample_env (λ _, Ret 0) "latest news on Mars" None []
    sample_tools_inventory [] 3 None = Ret out ∧
    td_name <$> out = ["news_search"; "web_search"]) as (out & Hout & Hnames).
  { eexists. split; [vm_compute; reflexivity|reflexivity]. }
  destruct (select_tools_spec sample_env (λ _, Ret 0) "latest news on Mars" None []
    sample_tools_inventory [] 3 None out Hout) as (_ & Hlen & Hsort & _).
  by exists out.
Defined.
