(* ===== verification/ToolPolicy.v ===== *)
(** * Tool policy and the tool executor

    [app/tools/policies.py] and [app/tools/executor.py]: the classification of a
    tool by its name, and the guarded, metered, time-limited call.  The
    executor's surroundings are parameters: the wait for a semaphore slot, the
    MCP call, and whether the [asyncio.timeout] timer fired. *)

From S2P Require Import Prelude PyData RunTypes Schemas Evidence Meter.

Inductive SideEffectLevel : Type :=
  | READ_ONLY | EXTERNAL_READ | REVERSIBLE_WRITE | EXTERNAL_COMMUNICATION | RESTRICTED.
#[export] Instance SideEffectLevel_eq_dec : EqDecision SideEffectLevel.
Proof. solve_decision. Defined.

Record ToolPolicy : Type := MkToolPolicy {
  tp_level : SideEffectLevel;
  tp_known : bool;
  tp_cacheable : bool
}.

Definition read_only (p : ToolPolicy) : bool :=
  bool_decide (tp_level p ∈ [READ_ONLY; EXTERNAL_READ]).

Definition POLICIES : list (string * ToolPolicy) := [
  ("mail_search", MkToolPolicy EXTERNAL_READ true false);
  ("mail_create_draft", MkToolPolicy REVERSIBLE_WRITE true false);
  ("mail_send_draft", MkToolPolicy EXTERNAL_COMMUNICATION true false)].

Module Policies.
Definition _WRITE_TOKENS : list string :=
  ["create"; "update"; "delete"; "remove"; "send"; "publish"; "post"; "write"; "modify";
   "forward"; "reply"; "book"; "purchase"; "order"; "upload"; "put"; "patch"].
Definition _READ_TOKENS : list string :=
  ["search"; "read"; "get"; "list"; "find"; "lookup"; "query"; "fetch"; "scrape"; "news";
   "weather"; "status"; "inventory"; "inspect"; "describe"].
End Policies.

(** The runs of [a-z0-9] in the lower-cased name; [re.sub] and [strip] join
    them with single underscores. *)
Definition name_parts (tool : string) : list string :=
  words_by is_lower_or_digit EmptyString (lower (strip tool)).
Definition normalized_name (tool : string) : string := join "_" (name_parts tool).

(** [tokens & markers]. *)
Definition meets (tokens markers : list string) : bool :=
  existsb (λ t, bool_decide (t ∈ markers)) tokens.

Definition policy_for (tool : string) : ToolPolicy :=
  match dict_get (normalized_name tool) POLICIES with
  | Some explicit => explicit
  | None =>
      let tokens := name_parts tool in
      if meets tokens Policies._WRITE_TOKENS then MkToolPolicy RESTRICTED false false
      else if meets tokens Policies._READ_TOKENS then MkToolPolicy EXTERNAL_READ false false
      else MkToolPolicy RESTRICTED false false
  end.

(** ** The executor's own classification *)

Definition _READ_ONLY_MARKERS : list string :=
  ["calculate"; "convert"; "explain"; "extract"; "fetch"; "get"; "health"; "list"; "lookup";
   "news"; "query"; "quote"; "read"; "scrape"; "search"; "status"; "time"; "weather"].
Definition _WRITE_MARKERS : list string :=
  ["approve"; "create"; "delete"; "draft"; "execute"; "modify"; "patch"; "post"; "publish";
   "remove"; "run"; "send"; "trigger"; "update"; "upload"; "write"].

Definition _tool_name_tokens (name : string) : list string :=
  List.filter nonempty
    (split_on (Ascii.ascii_of_N 95)
      (replace_char (Ascii.ascii_of_N 45) (Ascii.ascii_of_N 95) (lower name))).

(** [getattr(policy, "confirmation_required", False)]: [ToolPolicy] has no such
    attribute, so it is the default. *)
Definition confirmation_required (policy : ToolPolicy) : bool := false.

Definition _is_explicitly_safe_read (name : string) (policy : ToolPolicy) : bool :=
  if confirmation_required policy then false
  else
    let tokens := _tool_name_tokens name in
    if meets tokens _WRITE_MARKERS then false else meets tokens _READ_ONLY_MARKERS.

(** ** [ToolExecutor.execute] *)

(** The meter of the running task and everything outside the program. *)
Record World (X : Type) : Type := MkWorld {
  w_task : MeterTask;
  w_ext : X
}.
Arguments MkWorld {X}. Arguments w_task {X}. Arguments w_ext {X}.

#[export] Instance eta_World {X} : Eta (World X) := λ w, MkWorld (w_task w) (w_ext w).

(** A meter action of the task; a reading or an effect outside. *)
Definition metered {X A} (m : M MeterTask A) : M (World X) A :=
  zoom w_task (λ t w, w <| w_task := t |>) m.
Definition outside {X A} (m : M X A) : M (World X) A :=
  zoom w_ext (λ x w, w <| w_ext := x |>) m.

Class ToolHost (X : Type) : Type := {
  th_wall : X → Z * X;              (** [datetime.now(UTC)] *)
  th_monotonic : X → Z * X;         (** [time.monotonic()] *)
  th_acquire_slot : X → outcome unit * X;
  th_timer_fired : Z → X → bool;    (** a timer armed with this delay has fired *)
  th_physical_attempts_metered : bool;
  th_call_tool : string → pydict → M (World X) ToolResult
}.

Section executor.
Context {X : Type} `{ToolHost X}.

Definition wall : M (World X) Z := outside (λ x, let '(t, x') := th_wall x in (Ret t, x')).
Definition monotonic : M (World X) Z :=
  outside (λ x, let '(t, x') := th_monotonic x in (Ret t, x')).

Definition is_cancelled (e : exn) : bool := bool_decide (e = CancelledError).
Definition is_timeout (e : exn) : bool :=
  match e with PyExn TimeoutError _ => true | _ => false end.

(** [async with asyncio.timeout(delay): body]: a cancellation caused by the
timer leaves the block as [TimeoutError]. *)
Definition asyncio_timeout {A} (delay : Z) (body : M (World X) A) : M (World X) A :=
  try_except body (λ e,
  if is_cancelled e then
    Some (let! fired := gets (λ w, th_timer_fired delay (w_ext w)) in
          if fired then raise (PyExn TimeoutError "") else raise CancelledError)
  else None).

(** [if manual_metering: await budget.finish_tool_attempt(...)]. *)
Definition finish_manual (success timed_out : bool) : M (World X) unit :=
  if th_physical_attempts_metered then ret tt
  else metered (finish_tool_attempt success timed_out).

Definition call_and_meter (name : string) (arguments : pydict) : M (World X) ToolResult :=
  let! result := try_except (th_call_tool name arguments) (λ e, Some (
  if is_cancelled e then
    metered record_cancellation ;;; finish_manual false false ;;; raise e
  else if is_timeout e then finish_manual false true ;;; raise e
  else finish_manual false false ;;; raise e)) in
  finish_manual (tr_ok result) false ;;;
  ret result.

Definition execute (name : string) (arguments : pydict) : M (World X) ToolResult :=
  let policy := policy_for name in
  if confirmation_required policy then
  raise (ToolApprovalRequired
    (name +:+ " is write-capable and server-issued approval is not implemented"))
  else if negb (_is_explicitly_safe_read name policy) then
  raise (ToolExecutionDenied (name +:+ " is not classified as an approved read-only tool"))
  else
  let! wait_started := monotonic in
  let! now := wall in
  let! remaining := gets (λ w, remaining_seconds (mt_meter (w_task w)) now) in
  asyncio_timeout (Z.max 1000 remaining) (
    outside th_acquire_slot ;;;
    let! slot_at := monotonic in
    metered (add_queue_wait (slot_at - wait_started)) ;;;
    (if th_physical_attempts_metered then ret tt
     else let! now := wall in metered (begin_tool_attempt now)) ;;;
    call_and_meter name arguments).

(** *** Properties *)

(** Attempts begun and not yet finished. *)
Definition open_tool_attempts (w : World X) : Z :=
  let m := eb_state (mt_meter (w_task w)) in
  ms_tool_attempts m - ms_tool_successes m - ms_tool_failures m.

(** What every part of a metered call keeps: with [d] more attempts open. *)
Definition meter_step (d : Z) (w w' : World X) : Prop :=
  open_tool_attempts w' = open_tool_attempts w + d ∧
  eb_max_tool_calls (mt_meter (w_task w')) = eb_max_tool_calls (mt_meter (w_task w)) ∧
  (ms_tool_attempts (eb_state (mt_meter (w_task w))) ≤ eb_max_tool_calls (mt_meter (w_task w)) →
   ms_tool_attempts (eb_state (mt_meter (w_task w'))) ≤ eb_max_tool_calls (mt_meter (w_task w))).

Lemma meter_step_refl w : meter_step 0 w w.
Proof. unfold meter_step. split; [lia|done]. Qed.
Lemma meter_step_trans d d' d'' w1 w2 w3 :
  meter_step d w1 w2 → meter_step d' w2 w3 → d'' = d + d' → meter_step d'' w1 w3.
Proof. unfold meter_step. intros (H1 & H2 & H3) (H4 & H5 & H6) ->. rewrite H2 in *. lia. Qed.

Lemma same_task_step w w' : w_task w' = w_task w → meter_step 0 w w'.
Proof. unfold meter_step, open_tool_attempts. intros ->. split; [lia|done]. Qed.

Lemma finish_manual_step success timed_out w :
  th_physical_attempts_metered = false →
  ∃ w', finish_manual success timed_out w = (Ret tt, w') ∧ meter_step (-1) w w'.
Proof.
  intros Hm. unfold finish_manual. rewrite Hm.
  destruct success, timed_out; (eexists; split; [reflexivity|]);
  unfold meter_step, open_tool_attempts; cbn; lia.
Qed.

Lemma record_cancellation_step w :
  ∃ w', metered record_cancellation w = (Ret tt, w') ∧ meter_step 0 w w'.
Proof. eexists. split; [done|]. unfold meter_step, open_tool_attempts; cbn; lia. Qed.

Lemma begin_tool_step now w :
  match metered (begin_tool_attempt now) w with
  | (Ret _, w') => meter_step 1 w w'
  | (Raise _, w') => meter_step 0 w w'
  end.
Proof.
  unfold metered, zoom, begin_tool_attempt, check, bind, gets, upd_state, modify, ret, raise.
  cbn. destruct (check_error _ now); cbn; [by apply same_task_step; destruct w|].
  destruct (Z.leb_spec (eb_max_tool_calls (mt_meter (w_task w)))
  (ms_tool_attempts (eb_state (mt_meter (w_task w))))); cbn.
  - by apply same_task_step; destruct w.
  - unfold meter_step, open_tool_attempts. cbn. lia.
Qed.

(** The attempts the executor meters itself: none when the client does. *)
Definition own_attempts : Z := if th_physical_attempts_metered then 0 else 1.

Lemma finish_own_step success timed_out w :
  ∃ w', finish_manual success timed_out w = (Ret tt, w') ∧ meter_step (- own_attempts) w w'.
Proof.
  unfold own_attempts. destruct th_physical_attempts_metered eqn:Hm; [|by apply finish_manual_step].
  unfold finish_manual. rewrite Hm. exists w. split; [done|apply meter_step_refl].
Qed.

Lemma call_and_meter_step name arguments w o w' :
  (∀ w0 o0 w1, th_call_tool name arguments w0 = (o0, w1) → meter_step 0 w0 w1) →
  call_and_meter name arguments w = (o, w') → meter_step (- own_attempts) w w'.
Proof.
  intros Hcall. unfold call_and_meter, bind, try_except.
  destruct (th_call_tool name arguments w) as [[r|e] w1] eqn:Ec;
  apply Hcall in Ec.
  - destruct (finish_own_step (tr_ok r) false w1) as (w2 & -> & Hs). cbn.
  intros [= <- <-]. by eapply meter_step_trans.
  - assert (Hfin : ∀ w2 s t, meter_step 0 w1 w2 →
    (let (o0, s') := finish_manual s t w2 in
     match o0 with Ret _ => raise (A:=ToolResult) e s' | Raise e0 => (Raise e0, s') end) = (o, w') →
    meter_step (- own_attempts) w w').
  { intros w2 su ti Hs2. destruct (finish_own_step su ti w2) as (w3 & -> & Hs3).
    cbn. intros [= _ <-]. eapply meter_step_trans; [exact Ec| |symmetry; apply Z.add_0_l].
    by eapply meter_step_trans. }
  destruct (is_cancelled e); [|destruct (is_timeout e)].
  + destruct (record_cancellation_step w1) as (w2 & -> & Hs2). intros Heq.
    apply (Hfin w2 false false Hs2).
    destruct (finish_manual false false w2) as [[] ?]; exact Heq.
  + intros Heq. apply (Hfin w1 false true (meter_step_refl w1)).
    destruct (finish_manual false true w1) as [[] ?]; exact Heq.
  + intros Heq. apply (Hfin w1 false false (meter_step_refl w1)).
    destruct (finish_manual false false w1) as [[] ?]; exact Heq.
Qed.

(** [d] more attempts are open after [m] when it returns, none when it raises. *)
Definition steps {A} (d : Z) (m : M (World X) A) : Prop :=
  ∀ w, match m w with
     | (Ret _, w') => meter_step d w w'
     | (Raise _, w') => meter_step 0 w w'
     end.

Lemma steps_outside {A} (m : M X A) : steps 0 (outside m).
Proof.
  intros w. unfold outside, zoom. destruct (m (w_ext w)) as [[] x]; by apply same_task_step.
Qed.

Lemma steps_metered_queue d : steps 0 (metered (X:=X) (add_queue_wait d)).
Proof. intros w. cbn. unfold meter_step, open_tool_attempts. cbn. lia. Qed.

(** A part that opens [d] attempts, followed by one that closes them even
when it raises. *)
Lemma steps_bind {A B} d (m : M (World X) A) (k : A → M (World X) B) :
  steps d m →
  (∀ a w, meter_step (- d) w (k a w).2) →
  ∀ w, meter_step 0 w (bind m k w).2.
Proof.
  intros Hm Hk w. specialize (Hm w). unfold bind. destruct (m w) as [[a|e] w1]; [|done].
  eapply meter_step_trans; [exact Hm|apply Hk|lia].
Qed.

Lemma asyncio_timeout_state {A} delay (body : M (World X) A) w :
  (asyncio_timeout delay body w).2 = (body w).2.
Proof.
  unfold asyncio_timeout, try_except. destruct (body w) as [[a|e] w1]; [done|].
  destruct (is_cancelled e); [|done]. unfold bind, gets. by destruct (th_timer_fired _ _).
Qed.

Lemma metered_call_step name arguments w0 w :
  (∀ w0 o0 w1, th_call_tool name arguments w0 = (o0, w1) → meter_step 0 w0 w1) →
  meter_step 0 w ((outside th_acquire_slot ;;;
  let! slot_at := monotonic in
  metered (add_queue_wait (slot_at - w0)) ;;;
  (if th_physical_attempts_metered then ret tt
   else let! now := wall in metered (begin_tool_attempt now)) ;;;
  call_and_meter name arguments) w).2.
Proof.
  intros Hcall. revert w.
  apply (steps_bind 0); [apply steps_outside|intros _].
  apply (steps_bind 0); [apply steps_outside|intros slot_at].
  apply (steps_bind 0); [apply steps_metered_queue|intros _].
  apply (steps_bind own_attempts).
  - unfold own_attempts. destruct th_physical_attempts_metered; [intros w; apply meter_step_refl|].
    intros w. unfold bind at 1. pose proof (steps_outside (λ x, let '(t, x') := th_wall x in (Ret t, x')) w) as Hw.
    fold wall in Hw. destruct (wall w) as [[now|e] w1]; [|done].
    pose proof (begin_tool_step now w1) as Hb. destruct (metered _ w1) as [[] w2];
      by eapply meter_step_trans.
  - intros _ w. destruct (call_and_meter name arguments w) as [o w'] eqn:E.
    by eapply call_and_meter_step.
Qed.

(** The condition on a name, on the words it is made of. *)
Definition names_a_read (name : string) : Prop :=
  let words := List.filter nonempty (split_on (Ascii.ascii_of_N 95)
    (replace_char (Ascii.ascii_of_N 45) (Ascii.ascii_of_N 95) (lower name))) in
  (∃ t, t ∈ words ∧ t ∈ _READ_ONLY_MARKERS) ∧ ∀ t, t ∈ words → t ∉ _WRITE_MARKERS.

Lemma meets_iff tokens markers : meets tokens markers = true ↔ ∃ t, t ∈ tokens ∧ t ∈ markers.
Proof.
  unfold meets. rewrite existsb_exists. setoid_rewrite <- list_elem_of_In.
  by setoid_rewrite bool_decide_eq_true.
Qed.

Lemma safe_read_iff name policy : _is_explicitly_safe_read name policy = true ↔ names_a_read name.
Proof.
  unfold _is_explicitly_safe_read, names_a_read. cbn [confirmation_required]. cbv zeta.
  fold (_tool_name_tokens name). destruct (meets _ _WRITE_MARKERS) eqn:Ew.
  - apply meets_iff in Ew as (t & Ht & Hw). split; [done|]. intros [_ Hn]. by destruct (Hn t).
  - rewrite meets_iff. split; [|by intros [? _]]. intros Hr. split; [done|]. intros t Ht Hw.
    apply not_true_iff_false in Ew. apply Ew, meets_iff. eauto.
Qed.

(** A value the executor returns is what the client returned. *)
Lemma call_and_meter_Ret name arguments w r w' :
  call_and_meter name arguments w = (Ret r, w') → ∃ w0, th_call_tool name arguments w = (Ret r, w0).
Proof.
  unfold call_and_meter. intros (r0 & w1 & E & Hf)%bind_Ret_inv.
  apply bind_Ret_inv in Hf as (_ & w2 & _ & [= -> _]). unfold try_except in E.
  destruct (th_call_tool name arguments w) as [[r1|e] w3]; [by injection E as -> _; exists w3|].
  destruct (is_cancelled e); [|destruct (is_timeout e)];
    repeat (apply bind_Ret_inv in E as (? & ? & _ & E)); done.
Qed.

Lemma timeout_Ret {A} delay (body : M (World X) A) w a w' :
  asyncio_timeout delay body w = (Ret a, w') → body w = (Ret a, w').
Proof.
  unfold asyncio_timeout, try_except. destruct (body w) as [[b|e] w1]; [done|].
  destruct (is_cancelled e); [|done]. unfold bind, gets. by destruct (th_timer_fired _ _).
Qed.

(** C36. Guarded and metered tool calls.  A tool is refused before anything happens
    unless one of the words of its name is a read marker and none is a write
    marker; the result of any other is what the client returned for that name and
    those arguments.  Whoever meters the physical attempts, the executor or, as in
    this program, the MCP client, no attempt is left open when the call returns,
    raises, times out or is cancelled, and the attempts never exceed the request's
    limit -- given that the client's own call closes the attempts it opens and
    keeps the limit, as [call_tool_contained] shows of [MCPClient]. *)
Theorem execute_guarded_and_metered name arguments w o w'
  (Hrun : execute name arguments w = (o, w')) :
  (¬ names_a_read name → w' = w ∧
    o = Raise (ToolExecutionDenied (name +:+ " is not classified as an approved read-only tool"))) ∧
  (∀ r, o = Ret r → ∃ w0 w1, th_call_tool name arguments w0 = (Ret r, w1)) ∧
  ((∀ w0 o0 w1, th_call_tool name arguments w0 = (o0, w1) → meter_step 0 w0 w1) →
   ms_tool_attempts (eb_state (mt_meter (w_task w))) ≤ eb_max_tool_calls (mt_meter (w_task w)) →
   open_tool_attempts w' = open_tool_attempts w ∧
   ms_tool_attempts (eb_state (mt_meter (w_task w'))) ≤ eb_max_tool_calls (mt_meter (w_task w'))).
Proof.
  unfold execute in Hrun. cbn [confirmation_required] in Hrun. rewrite <- (safe_read_iff name (policy_for name)).
  destruct (_is_explicitly_safe_read _ _) eqn:Es; cbn [negb] in Hrun; last first.
  { injection Hrun as <- <-. by repeat (split; eauto). }
  split; [by intros []|]. split.
  - intros r ->. apply bind_Ret_inv in Hrun as (t & w1 & _ & E). apply bind_Ret_inv in E as (now & w2 & _ & E).
    apply bind_Ret_inv in E as (d & w3 & _ & E). apply timeout_Ret in E.
    do 4 apply bind_Ret_inv in E as (? & ? & _ & E). apply call_and_meter_Ret in E as [w5 E]. eauto.
  - intros Hcall Hlimit. assert (Hs : meter_step 0 w w').
    { change w' with (o, w').2. rewrite <-Hrun.
      apply (steps_bind 0); [apply steps_outside|intros started w1]. cbn [Z.opp].
      apply (steps_bind 0); [apply steps_outside|intros now w2]. cbn [Z.opp].
      apply (steps_bind 0); [intros ?; apply meter_step_refl|intros remaining w3].
      rewrite asyncio_timeout_state. by apply metered_call_step. }
    destruct Hs as (H1 & H2 & H3). rewrite H2. split; [lia|auto].
Qed.
End executor.

(** The policy table does not decide.  [policy_for] classifies
    [order_search] as restricted, yet the executor, which reads an attribute
    the policy does not have and keeps its own word lists, hands it to the MCP
    client and returns the client's result. *)
Theorem restricted_yet_executed {X} `{ToolHost X} arguments w
    (Hmetered : th_physical_attempts_metered = true)
    (Hslot : ∀ x, ∃ x', th_acquire_slot x = (Ret tt, x')) :
  read_only (policy_for "order_search") = false ∧
  tp_level (policy_for "order_search") = RESTRICTED ∧
  ∃ w1, ∀ r w2, th_call_tool "order_search" arguments w1 = (Ret r, w2) →
    execute "order_search" arguments w = (Ret r, w2).
Proof.
  split; [reflexivity|]. split; [reflexivity|].
  unfold execute. change (_is_explicitly_safe_read "order_search" _) with true.
  unfold asyncio_timeout, call_and_meter, finish_manual, bind, monotonic, wall, outside, zoom,
    gets, try_except, ret. rewrite Hmetered. cbn.
  destruct (th_monotonic (w_ext w)) as [t x1]; cbn. destruct (th_wall x1) as [now x2]; cbn.
  destruct (Hslot x2) as [x3 ->]; cbn. destruct (th_monotonic x3) as [t2 x4]; cbn.
  eexists. intros r w2 Hr. by rewrite Hr.
Qed.

(** ** Witnesses *)

(** A host whose calls are all [call], metered by the client or not. *)
Definition host_with (metered_by_client : bool) (call : M (World unit) ToolResult) : ToolHost unit := {|
  th_wall := λ x, (1, x);
  th_monotonic := λ x, (1, x);
  th_acquire_slot := λ x, (Ret tt, x);
  th_timer_fired := λ _ _, false;
  th_physical_attempts_metered := metered_by_client;
  th_call_tool := λ _ _, call
|}.

Definition found : ToolResult := MkToolResult true (VStr "found") None.

(** Every call succeeds, and is counted by whoever meters it. *)
Definition sample_host (metered_by_client : bool) : ToolHost unit :=
  host_with metered_by_client
    ((if metered_by_client then metered (begin_tool_attempt 1) ;;; metered (finish_tool_attempt true false)
      else ret tt) ;;; ret found).

Definition sample_world : World unit :=
  MkWorld (MkMeterTask (init_budget 1000 5 2 3 None 0 0) None) tt.

Lemma sample_call_step b w0 o0 w1 :
  th_call_tool (ToolHost := sample_host b) "web_search" [] w0 = (o0, w1) → meter_step 0 w0 w1.
Proof.
  destruct b; [|intros [= _ <-]; apply meter_step_refl]. cbn [th_call_tool sample_host host_with].
  unfold bind. pose proof (begin_tool_step 1 w0) as Hb.
  destruct (metered (begin_tool_attempt 1) w0) as [[[]|e] w2]; cbn -[meter_step];
    [|by intros [= _ <-]].
  intros [= _ <-]. eapply meter_step_trans; [exact Hb| |instantiate (1 := -1); done].
  unfold meter_step, open_tool_attempts. cbn. lia.
Qed.

Lemma execute_guarded_and_metered_witness : Forall (λ b,
  let '(o, w') := @execute unit (sample_host b) "web_search" [] sample_world in
  o = Ret (MkToolResult true (VStr "found") None) ∧
  ms_tool_attempts (eb_state (mt_meter (w_task w'))) = 1 ∧ open_tool_attempts w' = 0 ∧
  (@execute unit (sample_host b) "order" [] sample_world).1 =
    Raise (ToolExecutionDenied "order is not classified as an approved read-only tool")) [true; false].
Proof.
  apply Forall_forall. intros b _. destruct (@execute unit (sample_host b) "web_search" [] sample_world) as [o w'] eqn:E.
  assert (Hacc : open_tool_attempts w' = open_tool_attempts sample_world).
  { refine (proj1 (proj2 (proj2 (@execute_guarded_and_metered unit (sample_host b) "web_search" []
      sample_world o w' E)) _ _)); [exact (sample_call_step b)|vm_compute; discriminate]. }
  destruct (@execute unit (sample_host b) "order" [] sample_world) as [o1 w1] eqn:E1.
  destruct (proj1 (@execute_guarded_and_metered unit (sample_host b) "order" [] sample_world o1 w1 E1)) as [_ Ho].
  { intros [(t & Ht & Hr) _]. vm_compute in Ht, Hr. set_solver. }
  destruct b; vm_compute in E; injection E as <- <-; repeat split; exact Ho.
Defined.

Lemma restricted_yet_executed_witness :
  ∃ w2, @execute unit (host_with true (ret found)) "order_search" [] sample_world =
    (Ret (MkToolResult true (VStr "found") None), w2).
Proof.
  destruct (@restricted_yet_executed unit (host_with true (ret found)) [] sample_world eq_refl
    (λ x, ex_intro _ x eq_refl)) as (_ & _ & w1 & Hrun).
  exists w1. apply Hrun. reflexivity.
Defined.
