(* ===== verification/Ollama.v ===== *)
(** * The Ollama client

    [OllamaClient] of [app/llm/ollama.py]: the model list with its shared cache,
    and the three metered calls [chat], [stream_chat] and [embed].

    A call runs in the task of a request ([World]): its meter, and outside it
    the process ([Process]): the shared runtime, the metrics and the rest of the
    world, which only the operations of [OllamaHost] touch.  A host operation is
    a point where the coroutine is suspended; it may change the shared runtime
    (other requests use it) and may end with a cancellation.  Admission is the
    subject of [ResourceManager]; here it is the host's [oh_admit].  Durations
    are in microseconds. *)

From S2P Require Import Prelude PyData Json RunTypes Metrics Settings Meter PyNum ToolPolicy.

(** [_SharedOllamaRuntime]; of the HTTP client it matters whether there is one. *)
Record OllamaRuntime : Type := MkRuntime {
  rt_client : bool;
  rt_models_cache : option (list pydict);
  rt_models_cached_at : Z
}.

#[export] Instance eta_OllamaRuntime : Eta OllamaRuntime := λ r,
  MkRuntime (rt_client r) (rt_models_cache r) (rt_models_cached_at r).

Definition runtime_init : OllamaRuntime := MkRuntime false None 0.

Record Process (Y : Type) : Type := MkProcess {
  pr_ollama : OllamaRuntime;
  pr_metrics : MetricsRegistry;
  pr_ext : Y
}.
Arguments MkProcess {Y}. Arguments pr_ollama {Y}. Arguments pr_metrics {Y}.
Arguments pr_ext {Y}.

#[export] Instance eta_Process {Y} : Eta (Process Y) := λ p,
  MkProcess (pr_ollama p) (pr_metrics p) (pr_ext p).

(** What the client takes from [httpx], the admission control, and conversions of
    floats. *)
Class OllamaHost (Y : Type) : Type := {
  oh_clock : Y → Z * Y;                  (** [monotonic()] *)
  oh_wall : Y → Z * Y;                   (** [datetime.now(UTC)] *)
  oh_root : M (OllamaRuntime * Y) string;              (** [get("/")], its status checked, its text *)
  oh_tags : M (OllamaRuntime * Y) pyval;               (** [get("/api/tags")], checked, parsed *)
  oh_post : string → pydict → M (OllamaRuntime * Y) pyval;
  oh_stream : pydict → M (OllamaRuntime * Y) (list (outcome string));
    (** opening the stream, its status checked; its lines up to its end or failure *)
  oh_admit : string → M (OllamaRuntime * Y) unit;
  oh_release : Y → Y;
  oh_client_lock : M (OllamaRuntime * Y) unit;         (** waiting for [client_lock] *)
  oh_models_lock : M (OllamaRuntime * Y) unit;         (** waiting for [models_lock] *)
  oh_close : M (OllamaRuntime * Y) unit;               (** [client.aclose()] *)
  oh_metered : bool;                                   (** [get_current_execution_meter() is not None] *)
  oh_status : exn → option (Z * string);               (** status and body of an [HTTPStatusError] *)
  oh_type_name : exn → string;                         (** [type(exc).__name__] *)
  oh_float : pyval → outcome pyval;                    (** [float(v)] *)
  oh_micros : string → option Z;                       (** a float of nanoseconds, [None] when negative or NaN *)
  oh_float_repr : string → string;                     (** [repr(float(s))] of a JSON number *)
  oh_str_container : pyval → string                    (** [str] of a list or a dictionary *)
}.

Section ollama.
Context {Y : Type} `{!OllamaHost Y} (settings : Settings).

Abbreviation OM := (M (World (Process Y))) (only parsing).

(** ** Effects *)

Definition suspended {A} (m : M (OllamaRuntime * Y) A) : OM A :=
  outside (zoom (λ p, (pr_ollama p, pr_ext p))
  (λ w p, p <| pr_ollama := w.1 |> <| pr_ext := w.2 |>) m).

Definition reading (read : Y → Z * Y) : OM Z :=
  outside (zoom pr_ext (λ y p, p <| pr_ext := y |>) (λ y, let '(t, y') := read y in (Ret t, y'))).

Definition on_runtime (f : OllamaRuntime → OllamaRuntime) : OM unit :=
  outside (modify (λ p, p <| pr_ollama := f (pr_ollama p) |>)).

Definition runtime : OM OllamaRuntime := outside (gets pr_ollama).

Definition measured (m : M MetricsRegistry unit) : OM unit :=
  outside (zoom pr_metrics (λ mx p, p <| pr_metrics := mx |>) m).

(** Run [m] and hand its outcome on as a value. *)
Definition capture {A} (m : OM A) : OM (outcome A) := λ s, let '(o, s') := m s in (Ret o, s').

Definition is_http_error (e : exn) : bool := match e with HttpError _ => true | _ => false end.
Definition is_value_error (e : exn) : bool :=
  match e with PyExn (ValueError | JSONDecodeError | UnicodeError) _ => true | _ => false end.
Definition is_type_error (e : exn) : bool :=
  match e with PyExn TypeError _ => true | _ => false end.
Definition is_ollama_error (e : exn) : bool :=
  match e with OllamaError _ => true | _ => false end.

Definition _http_error_message (e : exn) : string :=
  match oh_status e with
  | Some (code, text) =>
    let body := stake_Z 500 (replace_char (Ascii.ascii_of_N 10) (Ascii.ascii_of_N 32) (strip text)) in
    "Ollama HTTP " +:+ Z_to_string code +:+ ": " +:+ exn_text e
    +:+ (if nonempty body then "; response=" +:+ body else "")
  | None =>
    let text := strip (exn_text e) in
    if nonempty text then oh_type_name e +:+ ": " +:+ text else oh_type_name e
  end.

(** [if isinstance(exc, OllamaError): raise] / [raise OllamaError(...) from exc]. *)
Definition as_ollama_error (e : exn) : exn :=
  if is_ollama_error e then e else OllamaError (_http_error_message e).

(** ** The shared runtime *)

Definition get_client : OM unit :=
  let! r := runtime in
  if rt_client r then ret tt
  else
  suspended oh_client_lock ;;;
  let! r := runtime in
  if rt_client r then ret tt else on_runtime (λ r, r <| rt_client := true |>).

Definition close : OM unit :=
  suspended oh_client_lock ;;;
  let! r := runtime in
  on_runtime (λ r, r <| rt_client := false |>) ;;;
  (if rt_client r then suspended oh_close else ret tt).

Definition invalidate_models : OM unit :=
  on_runtime (λ r, r <| rt_models_cache := None |> <| rt_models_cached_at := 0 |>).

(** ** The model list *)

Definition fresh_models (force_refresh : bool) (now : Z) (r : OllamaRuntime) :
  option (list pydict) :=
  match rt_models_cache r with
  | Some cached =>
    if negb force_refresh
       && (now - rt_models_cached_at r <=? seconds (inventory_cache_ttl_seconds settings))
    then Some cached else None
  | None => None
  end.

Definition stale_models (allow_stale : bool) (cached : option (list pydict)) (now : Z)
  (r : OllamaRuntime) : option (list pydict) :=
  match cached with
  | Some cached =>
    if allow_stale
       && (now - rt_models_cached_at r <=? seconds (inventory_stale_if_error_seconds settings))
    then Some cached else None
  | None => None
  end.

(** [[dict(item) for item in (payload.get("models") or []) if isinstance(item, dict)]]. *)
Definition models_of (payload : pyval) : outcome (list pydict) :=
  match payload with
  | VDict d =>
    let models := get_or_none "models" d in
    if truthy models then
      match models with
      | VList items => Ret (omap (λ v, match v with VDict i => Some i | _ => None end) items)
      | VStr _ | VDict _ => Ret []  (** characters and keys are not dictionaries *)
      | _ => Raise (PyExn TypeError "object is not iterable")
      end
    else Ret []
  | _ => Raise (OllamaError "Ollama /api/tags returned a non-object payload.")
  end.

Definition fetch_models : OM (list pydict) :=
  let! payload := suspended oh_tags in of_outcome (models_of payload).

(** [try: ... except (HTTPError, ValueError, OllamaError)] of the refresh. *)
Definition refresh_failed (allow_stale : bool) (cached : option (list pydict)) (now : Z)
  (e : exn) : option (OM (list pydict)) :=
  if is_http_error e || is_value_error e || is_ollama_error e then Some (
  measured (inc "ollama.models_error" 1) ;;;
  let! r := runtime in
  match stale_models allow_stale cached now r with
  | Some l => measured (inc "ollama.models_stale_cache_used" 1) ;;; ret l
  | None => raise (as_ollama_error e)
  end)
  else None.

(** A value computed in [try]: return it from the function ([inl]), or go on. *)
Definition refresh (allow_stale : bool) (cached : option (list pydict)) (now : Z) :
  OM (list pydict) :=
  get_client ;;;
  let! started := reading oh_clock in
  let! fetched :=
  try_finally
    (let! r := capture fetch_models in
     match r with
     | Ret models => ret (inr models)
     | Raise e =>
         match refresh_failed allow_stale cached now e with
         | Some h => let! l := h in ret (inl l)
         | None => raise e
         end
     end)
    (let! ended := reading oh_clock in
     measured (observe "ollama.models_seconds" (ended - started))) in
  match fetched with
  | inl stale => ret stale
  | inr models =>
    let! cached_at := reading oh_clock in
    on_runtime (λ r, r <| rt_models_cache := Some models |> <| rt_models_cached_at := cached_at |>) ;;;
    measured (inc "ollama.models_refresh" 1) ;;;
    ret models
  end.

Definition list_models (force_refresh allow_stale : bool) : OM (list pydict) :=
  let! now := reading oh_clock in
  let! r := runtime in
  match fresh_models force_refresh now r with
  | Some cached => measured (inc "ollama.models_cache_hit" 1) ;;; ret cached
  | None =>
    suspended oh_models_lock ;;;
    let! now := reading oh_clock in
    let! r := runtime in
    match fresh_models force_refresh now r with
    | Some cached => measured (inc "ollama.models_cache_hit" 1) ;;; ret cached
    | None => refresh allow_stale (rt_models_cache r) now
    end
  end.

Definition model_entry_name (item : pydict) : pyval :=
  let name := get_or_none "name" item in
  if truthy name then name else get_or_none "model" item.

Definition health : OM pydict :=
  get_client ;;;
  let! started := reading oh_clock in
  try_finally
  (try_except
    (let! root := suspended oh_root in
     let! models := list_models true false in
     ret [("status", VStr "available"); ("root", VStr (strip root));
          ("models", VList (map model_entry_name models))])
    (λ e, if is_http_error e then Some (
       measured (inc "ollama.health_error" 1) ;;; raise (OllamaError (_http_error_message e)))
     else None))
  (let! ended := reading oh_clock in
   measured (observe "ollama.health_seconds" (ended - started))).

(** ** Requests *)

Definition or_default (v : option pyval) (d : pyval) : pyval := default d v.

Definition _payload (model : string) (messages : list pydict) (stream : bool)
  (temperature num_predict response_format think : option pyval) (options : option pydict) : pydict :=
  let merged_options := [
  ("temperature", or_default temperature (VFloat (ollama_temperature settings)));
  ("num_predict", or_default num_predict (VInt (ollama_num_predict settings)));
  ("num_ctx", VInt (ollama_num_ctx settings))] in
  let merged_options :=
  match options with
  | Some options => dict_merge merged_options options
  | None => merged_options
  end in
  let payload := [
  ("model", VStr model); ("stream", VBool stream);
  ("think", or_default think (VBool (ollama_think settings)));
  ("messages", VList (map VDict messages));
  ("keep_alive", VStr (ollama_keep_alive settings));
  ("options", VDict merged_options)] in
  match response_format with
  | Some format => payload ++ [("format", format)]
  | None => payload
  end.

(** ** Usage and telemetry *)

(** [isinstance(value, int)] holds for a boolean. *)
Definition _nonnegative_int (value : pyval) : Z :=
  match value with
  | VInt n => if 0 <=? n then n else 0
  | VBool b => if b then 1 else 0
  | _ => 0
  end.

(** A nonnegative number of nanoseconds, in microseconds. *)
Definition nanoseconds (value : pyval) : option Z :=
  match value with
  | VInt n => if 0 <=? n then Some (n / 1000) else None
  | VBool _ => Some 0
  | VFloat r => oh_micros r
  | _ => None
  end.

Definition _nanoseconds_to_seconds (value : pyval) : Z := default 0 (nanoseconds value).

Definition telemetry_durations : list (string * string) := [
  ("total_duration", "ollama.total_duration_seconds");
  ("load_duration", "ollama.load_duration_seconds");
  ("prompt_eval_duration", "ollama.prompt_eval_duration_seconds");
  ("eval_duration", "ollama.eval_duration_seconds")].
Definition telemetry_counts : list (string * string) := [
  ("prompt_eval_count", "ollama.prompt_tokens"); ("eval_count", "ollama.generated_tokens")].

Fixpoint each {A} (f : A → OM unit) (l : list A) : OM unit :=
  match l with [] => ret tt | a :: l => f a ;;; each f l end.

Definition observe_duration (data : pydict) (entry : string * string) : OM unit :=
  match nanoseconds (get_or_none entry.1 data) with
  | Some t => measured (observe entry.2 t)
  | None => ret tt
  end.

(** A count [n] is observed as the number [n], in the unit of the registry. *)
Definition observe_count (data : pydict) (entry : string * string) : OM unit :=
  match get_or_none entry.1 data with
  | VInt n => if 0 <=? n then measured (observe entry.2 (seconds n)) else ret tt
  | VBool b => measured (observe entry.2 (seconds (if b then 1 else 0)))
  | _ => ret tt
  end.

Definition _record_ollama_telemetry (data : pydict) : OM unit :=
  each (observe_duration data) telemetry_durations ;;;
  each (observe_count data) telemetry_counts.

(** ** The metered exchange

  The frame the three calls share: the attempt is begun before anything is
  sent, the [try] holds an admission slot around the exchange, the [except]
  clause turns the [caught] errors into [OllamaError], and the [finally]
  clause finishes the attempt with the usage found in [data], the last answer
  the exchange kept. *)

Definition begin_attempt : OM unit :=
  if oh_metered then let! now := reading oh_wall in metered (begin_model_attempt now None)
  else ret tt.

Definition finish_attempt (success : bool) (data : pydict) : OM unit :=
  if oh_metered then
  metered (finish_model_attempt success
    (_nonnegative_int (get_or_none "prompt_eval_count" data))
    (_nonnegative_int (get_or_none "eval_count" data))
    (_nanoseconds_to_seconds (get_or_none "load_duration" data)) None)
  else ret tt.

(** [async with self.resources.acquire(model): body]. *)
Definition admitted {A} (model : string) (body : OM A) : OM A :=
  suspended (oh_admit model) ;;;
  try_finally body
  (outside (modify (λ p, p <| pr_ext := oh_release (pr_ext p) |>))).

(** What an exchange leaves behind: the locals [data] and [success], and its
  result or the error that ended it. *)
Record Exchange (A : Type) : Type := MkExchange {
  xc_data : pydict;
  xc_success : bool;
  xc_result : outcome A
}.
#[global] Arguments MkExchange {A} _ _ _.
#[global] Arguments xc_data {A} _.
#[global] Arguments xc_success {A} _.
#[global] Arguments xc_result {A} _.

Definition failed {A} (e : exn) : Exchange A := MkExchange [] false (Raise e).

Definition exchange {A} (kind : string) (caught : exn → bool) (body : OM (Exchange A)) :
  OM (pydict * A) :=
  let! started := reading oh_clock in
  begin_attempt ;;;
  measured (inc ("ollama." +:+ kind +:+ "_requests") 1) ;;;
  let! r := capture body in
  let x := match r with Ret x => x | Raise e => failed e end in
  try_finally
  (match xc_result x with
   | Ret a => ret (xc_data x, a)
   | Raise e =>
       if caught e then
         measured (inc ("ollama." +:+ kind +:+ "_errors") 1) ;;; raise (as_ollama_error e)
       else raise e
   end)
  (let! now := reading oh_clock in
   measured (observe ("ollama." +:+ kind +:+ "_seconds") (now - started)) ;;;
   finish_attempt (xc_success x) (xc_data x)).

(** ** [chat] *)

Record LLMResponse : Type := MkLLMResponse {
  llm_content : string;
  llm_model : string;
  llm_raw : pydict
}.

Definition to_str : pyval → string := str_value oh_str_container.

(** [str(v or default)]. *)
Definition str_or_default (v : pyval) (d : string) : string :=
  if truthy v then to_str v else d.

Definition chat_exchange (model : string) (payload : pydict) : OM (Exchange unit) :=
  admitted model (
  let! r := capture (suspended (oh_post "/api/chat" payload)) in
  ret (match r with
       | Raise e => failed e
       | Ret (VDict data) =>
           let error := get_or_none "error" data in
           if truthy error then MkExchange data false (Raise (OllamaError (to_str error)))
           else MkExchange data true (Ret tt)
       | Ret _ => failed (OllamaError "Ollama /api/chat returned a non-object payload.")
       end)).

Definition chat_caught (e : exn) : bool :=
  is_http_error e || is_value_error e || is_ollama_error e.

(** The reply's message, once the attempt is metered. *)
Definition chat_response (model : string) (data : pydict) : outcome LLMResponse :=
  let message := get_or_none "message" data in
  match (if truthy message then message else VDict []) with
  | VDict message =>
    Ret {| llm_content := str_or_default (get_or_none "content" message) "";
           llm_model := str_or_default (get_or_none "model" data) model;
           llm_raw := data |}
  | _ => Raise (OllamaError "Ollama /api/chat returned an invalid message object.")
  end.

Definition chat (model : string) (messages : list pydict)
  (temperature num_predict response_format think : option pyval) (options : option pydict) :
  OM LLMResponse :=
  let payload := _payload model messages false temperature num_predict response_format think options in
  get_client ;;;
  let* (data, _) := exchange "chat" chat_caught (chat_exchange model payload) in
  _record_ollama_telemetry data ;;;
  of_outcome (chat_response model data).

(** ** [stream_chat]

  The generator hands each piece to its consumer, [emit]; an error of [emit]
  is what the consumer throws into the generator at the [yield], closing it
  included.  The stream is what the host delivers up to its end or failure. *)

Definition emit_content (emit : string → OM unit) (content : string) : OM unit :=
  if nonempty content then emit content else ret tt.

(** [str((data.get("message") or {}).get("content") or "")]. *)
Definition stream_content (data : pydict) : outcome string :=
  let message := get_or_none "message" data in
  match (if truthy message then message else VDict []) with
  | VDict message => Ret (str_or_default (get_or_none "content" message) "")
  | _ => Raise (PyExn AttributeError "get")
  end.

(** One non-blank line. *)
Definition stream_item (line : string) : outcome pydict :=
  match loads oh_float_repr line with
  | None => Raise (OllamaError ("Invalid Ollama stream line: " +:+ stake_Z 200 line))
  | Some (VDict data) =>
    let error := get_or_none "error" data in
    if truthy error then Raise (OllamaError (to_str error)) else Ret data
  | Some _ => Raise (OllamaError "Ollama stream item was not a JSON object.")
  end.

Fixpoint stream_lines (emit : string → OM unit) (lines : list (outcome string)) :
  OM (Exchange unit) :=
  match lines with
  | [] => ret (MkExchange [] false (Ret tt))
  | Raise e :: _ => ret (failed e)
  | Ret line :: lines =>
    if negb (nonempty (strip line)) then stream_lines emit lines
    else
      let! r := capture (
        let! data := of_outcome (stream_item line) in
        let! content := of_outcome (stream_content data) in
        emit_content emit content ;;;
        ret data) in
      match r with
      | Raise e => ret (failed e)
      | Ret data =>
          if truthy (get_or_none "done" data) then ret (MkExchange data true (Ret tt))
          else stream_lines emit lines
      end
  end.

Definition stream_exchange (emit : string → OM unit) (model : string) (payload : pydict) :
  OM (Exchange unit) :=
  admitted model (
  let! lines := suspended (oh_stream payload) in stream_lines emit lines).

Definition stream_caught (e : exn) : bool := is_http_error e || is_ollama_error e.

Definition stream_chat (emit : string → OM unit) (model : string) (messages : list pydict)
  (temperature num_predict response_format think : option pyval) (options : option pydict) : OM unit :=
  let payload := _payload model messages true temperature num_predict response_format think options in
  get_client ;;;
  let* (data, _) := exchange "stream" stream_caught (stream_exchange emit model payload) in
  match data with [] => ret tt | _ => _record_ollama_telemetry data end.

(** ** [embed] *)

Fixpoint floats (vector : list pyval) : outcome (list pyval) :=
  match vector with
  | [] => Ret []
  | v :: vector =>
    match oh_float v with
    | Ret f => match floats vector with Ret fs => Ret (f :: fs) | Raise e => Raise e end
    | Raise e => Raise e
    end
  end.

(** The first vector of the answer. *)
Definition embedding_of (payload : pyval) : outcome (list pyval) :=
  match payload with
  | VDict data =>
    let embeddings := get_or_none "embeddings" data in
    match (if truthy embeddings then embeddings else VList []) with
    | VList (VList vector :: _) => Ret vector
    | VList (_ :: _) => Raise (OllamaError "Ollama returned an invalid embedding vector.")
    | _ => Raise (OllamaError "Ollama returned no embeddings.")
    end
  | _ => Raise (OllamaError "Ollama /api/embed returned a non-object payload.")
  end.

Definition embed_exchange (model text : string) : OM (Exchange (list pyval)) :=
  admitted model (
  let! r := capture (suspended (oh_post "/api/embed" [
    ("model", VStr model); ("input", VStr text);
    ("keep_alive", VStr (ollama_keep_alive settings))])) in
  ret (match r with
       | Raise e => failed e
       | Ret payload =>
           match embedding_of payload with
           | Raise e => failed e
           | Ret vector => MkExchange [] true (floats vector)
           end
       end)).

Definition embed_caught (e : exn) : bool :=
  is_http_error e || is_value_error e || is_type_error e || is_ollama_error e.

Definition embed (model text : string) : OM (list pyval) :=
  get_client ;;;
  let* (_, vector) := exchange "embed" embed_caught (embed_exchange model text) in ret vector.
End ollama.

(** ** Accounting *)

(** The task of [w], its meter included, is left alone. *)
Definition same_task {X} (w w' : World X) : Prop := w_task w' = w_task w.

#[export] Instance same_task_refl {X} : Reflexive (@same_task X).
Proof. by intros w. Qed.
#[export] Instance same_task_trans {X} : Transitive (@same_task X).
Proof. unfold same_task. intros w1 w2 w3 -> ->. done. Qed.

Lemma outside_same {X A} (m : M X A) : preserves same_task (outside m).
Proof. intros w. unfold outside, zoom. by destruct (m (w_ext w)) as [o x]. Qed.
#[export] Hint Resolve outside_same : preserve.

(** What one attempt adds to the meter, finished with [success] and the usage
    reported in [data]. *)
Record attempt_closed (success : bool) (data : pydict) (t t' : MeterTask) : Prop :=
  MkAttemptClosed {
  ac_attempts : ms_physical_model_attempts (eb_state (mt_meter t')) =
                ms_physical_model_attempts (eb_state (mt_meter t)) + 1;
  ac_limit : ms_physical_model_attempts (eb_state (mt_meter t')) ≤ eb_max_model_calls (mt_meter t);
  ac_successes : ms_model_successes (eb_state (mt_meter t')) =
                 ms_model_successes (eb_state (mt_meter t)) + (if success then 1 else 0);
  ac_failures : ms_model_failures (eb_state (mt_meter t')) =
                ms_model_failures (eb_state (mt_meter t)) + (if success then 0 else 1);
  ac_prompt : ms_prompt_tokens (eb_state (mt_meter t')) =
              ms_prompt_tokens (eb_state (mt_meter t))
              + _nonnegative_int (get_or_none "prompt_eval_count" data);
  ac_generated : ms_generated_tokens (eb_state (mt_meter t')) =
                 ms_generated_tokens (eb_state (mt_meter t))
                 + _nonnegative_int (get_or_none "eval_count" data);
  ac_rounds : ms_verifier_rounds (eb_state (mt_meter t')) = ms_verifier_rounds (eb_state (mt_meter t));
  ac_limits : eb_max_model_calls (mt_meter t') = eb_max_model_calls (mt_meter t) ∧
              eb_max_verifier_rounds (mt_meter t') = eb_max_verifier_rounds (mt_meter t)
}.

Lemma nonnegative_int_nonneg v : 0 ≤ _nonnegative_int v.
Proof. destruct v as [|[]|z| | | |]; simpl; try lia. destruct (Z.leb_spec 0 z); lia. Qed.

Lemma begin_finish now t t1 success data load :
  begin_model_attempt now None t = (Ret tt, t1) →
  attempt_closed success data t
    (finish_model_attempt success (_nonnegative_int (get_or_none "prompt_eval_count" data))
       (_nonnegative_int (get_or_none "eval_count" data)) load None t1).2.
Proof.
  pose proof (nonnegative_int_nonneg (get_or_none "prompt_eval_count" data)).
  pose proof (nonnegative_int_nonneg (get_or_none "eval_count" data)).
  destruct t as [b attempts]. meter_run. destruct (check_error b now); cbn; [done|].
  destruct (Z.leb_spec (eb_max_model_calls b) (ms_physical_model_attempts (eb_state b)));
    cbn; [done|].
  destruct attempts as [n|]; cbn; [destruct (0 <? n); cbn|]; intros [= <-];
    (destruct success; constructor; cbn; split_and?; lia).
Qed.

Section accounting.
Context {Y : Type} `{!OllamaHost Y} (settings : Settings).

Abbreviation OM := (M (World (Process Y))) (only parsing).

Lemma reading_same read : preserves same_task (reading (Y:=Y) read).
Proof. apply outside_same. Qed.
Lemma suspended_same {A} (m : M (OllamaRuntime * Y) A) : preserves same_task (suspended m).
Proof. apply outside_same. Qed.
Lemma measured_same m : preserves same_task (measured (Y:=Y) m).
Proof. apply outside_same. Qed.
Lemma on_runtime_same f : preserves same_task (on_runtime (Y:=Y) f).
Proof. apply outside_same. Qed.
Lemma runtime_same : preserves same_task (runtime (Y:=Y)).
Proof. apply outside_same. Qed.
Lemma capture_same {A} (m : OM A) : preserves same_task m → preserves same_task (capture m).
Proof. intros H w. specialize (H w). unfold capture. by destruct (m w). Qed.
Hint Resolve reading_same suspended_same measured_same on_runtime_same runtime_same
  capture_same : preserve.

Lemma each_same {A} (f : A → OM unit) l :
  (∀ a, preserves same_task (f a)) → preserves same_task (each f l).
Proof. intros Hf. induction l; simpl; eauto with preserve typeclass_instances. Qed.

Lemma admitted_same {A} model (body : OM A) :
  preserves same_task body → preserves same_task (admitted model body).
Proof. unfold admitted. eauto with preserve typeclass_instances. Qed.

Lemma get_client_same : preserves same_task get_client.
Proof.
  unfold get_client. apply preserves_bind; [apply _|auto with preserve|]. intros r.
  destruct (rt_client r); eauto 6 with preserve typeclass_instances.
  apply preserves_bind; [apply _|auto with preserve|]. intros _.
  apply preserves_bind; [apply _|auto with preserve|]. intros r'.
  destruct (rt_client r'); eauto with preserve typeclass_instances.
Qed.

Lemma telemetry_same data : preserves same_task (_record_ollama_telemetry data).
Proof.
  unfold _record_ollama_telemetry.
  apply preserves_bind; [apply _|apply each_same|intros _; apply each_same]; intros entry.
  - unfold observe_duration. destruct (nanoseconds _); auto with preserve typeclass_instances.
  - unfold observe_count.
    destruct (get_or_none _ data) as [| |z| | | |]; try destruct (0 <=? z);
      auto with preserve typeclass_instances.
Qed.

Lemma chat_exchange_same model payload : preserves same_task (chat_exchange model payload).
Proof.
  unfold chat_exchange. apply admitted_same.
  eauto with preserve typeclass_instances.
Qed.

Lemma embed_exchange_same model text : preserves same_task (embed_exchange settings model text).
Proof.
  unfold embed_exchange. apply admitted_same. eauto with preserve typeclass_instances.
Qed.

Lemma stream_lines_same emit lines :
  (∀ s, preserves same_task (emit s)) → preserves same_task (stream_lines emit lines).
Proof.
  intros He. induction lines as [|[line|e] lines IH]; simpl;
    try (apply preserves_ret; apply _).
  destruct (negb _); [done|]. apply preserves_bind; [apply _| |].
  - apply capture_same.
    apply preserves_bind; [apply _|auto with preserve typeclass_instances|intros data].
    apply preserves_bind; [apply _|auto with preserve typeclass_instances|intros content].
    unfold emit_content. destruct (nonempty content); eauto with preserve typeclass_instances.
  - intros [data|e]; [|auto with preserve typeclass_instances].
    destruct (truthy _); [auto with preserve typeclass_instances|done].
Qed.

Lemma stream_exchange_same emit model payload :
  (∀ s, preserves same_task (emit s)) → preserves same_task (stream_exchange emit model payload).
Proof.
  intros He. unfold stream_exchange. apply admitted_same.
  apply preserves_bind; [apply _|auto with preserve|]. intros lines. by apply stream_lines_same.
Qed.

Lemma reading_ret read (w : World (Process Y)) :
  ∃ t w1, reading read w = (Ret t, w1) ∧ same_task w w1.
Proof.
  pose proof (reading_same read w) as Hs. unfold reading, outside, zoom in *. cbn in *.
  destruct (read _) as [t y]. cbn in *. eauto.
Qed.

Lemma measured_ret m (w : World (Process Y)) :
  (m (pr_metrics (w_ext w))).1 = Ret tt → ∃ w1, measured m w = (Ret tt, w1) ∧ same_task w w1.
Proof.
  intros Hm. pose proof (measured_same m w) as Hs. unfold measured, outside, zoom in *. cbn in *.
  destruct (m _) as [o mx]. cbn in *. subst o. eauto.
Qed.

Lemma inc_ret name n mx : nonempty name = true → (inc name n mx).1 = Ret tt.
Proof. intros H. unfold inc. by rewrite H. Qed.
Lemma observe_ret name n mx : nonempty name = true → (observe name n mx).1 = Ret tt.
Proof. intros H. unfold observe. by rewrite H. Qed.

(** How an exchange ends: its attempt is refused and nothing happens, or the
  attempt is closed with what the exchange left and its error, if any, is
  translated. *)
Lemma exchange_spec {A} kind caught (body : OM (Exchange A)) w o w' :
  oh_metered = true → preserves same_task body →
  exchange kind caught body w = (o, w') →
  (∃ msg, o = Raise (BudgetExceeded msg) ∧ same_task w w') ∨
  ∃ x wb, attempt_closed (xc_success x) (xc_data x) (w_task w) (w_task w') ∧
    x = match (body wb).1 with Ret x => x | Raise e => failed e end ∧
    o = match xc_result x with
        | Ret a => Ret (xc_data x, a)
        | Raise e => Raise (if caught e then as_ollama_error e else e)
        end.
Proof.
  intros Hm Hbody. unfold exchange, begin_attempt, finish_attempt. rewrite Hm.
  destruct (reading_ret oh_clock w) as (t & w1 & E1 & S1). rewrite (bind_run _ _ _ _ _ E1).
  destruct (reading_ret oh_wall w1) as (now & w2 & E2 & S2). rewrite bind_assoc, (bind_run _ _ _ _ _ E2).
  assert (w_task w2 = w_task w) as ET by congruence.
  destruct (begin_model_attempt now None (w_task w2)) as [ob t3] eqn:EB.
  assert (metered (begin_model_attempt now None) w2 = (ob, w2 <| w_task := t3 |>)) as EM.
  { unfold metered, zoom. by rewrite EB. }
  destruct ob as [[]|eb].
  2:{ unfold bind at 1. rewrite EM. intros [= <- <-].
      apply begin_model_refused in EB as [-> [msg ->]]. left. exists msg. split; [done|].
      unfold same_task. cbn. done. }
  rewrite (bind_run _ _ _ _ _ EM). clear EM.
  set (w3 := w2 <| w_task := t3 |>). assert (w_task w3 = t3) as E3 by done. clearbody w3.
  destruct (measured_ret (inc ("ollama." +:+ kind +:+ "_requests") 1) w3) as (w4 & E4 & S4);
    [by apply inc_ret|]. rewrite (bind_run _ _ _ _ _ E4).
  pose proof (Hbody w4) as Hb. unfold capture, bind at 1.
  destruct (body w4) as [r w5] eqn:EBody. cbn in Hb.
  set (x := match r with Ret x => x | Raise e => failed e end).
  intros Hrun. right. exists x, w4. rewrite EBody. cbn [fst].
  set (m := match xc_result x with Ret a => _ | Raise e => _ end) in Hrun.
  assert (∃ w6, m w5 = (match xc_result x with
        | Ret a => Ret (xc_data x, a)
        | Raise e => Raise (if caught e then as_ollama_error e else e)
        end, w6) ∧ same_task w5 w6) as (w6 & E6 & S6).
  { subst m. destruct (xc_result x) as [a|e]; [by eexists|]. destruct (caught e); [|by eexists].
    destruct (measured_ret (inc ("ollama." +:+ kind +:+ "_errors") 1) w5) as (w6 & E6 & S6);
      [by apply inc_ret|]. rewrite (bind_run _ _ _ _ _ E6). by eexists. }
  clearbody m. unfold try_finally in Hrun. rewrite E6 in Hrun.
  destruct (reading_ret oh_clock w6) as (t7 & w7 & E7 & S7). rewrite (bind_run _ _ _ _ _ E7) in Hrun.
  destruct (measured_ret (observe ("ollama." +:+ kind +:+ "_seconds") (t7 - t)) w7) as (w8 & E8 & S8);
    [by apply observe_ret|]. rewrite (bind_run _ _ _ _ _ E8) in Hrun.
  assert (w_task w8 = t3) as ET8 by congruence.
  unfold metered, zoom in Hrun. cbn in Hrun. rewrite ET8 in Hrun. injection Hrun as <- <-.
  split; [|done]. rewrite ET in EB. cbn [w_task].
  apply (begin_finish now _ t3 (xc_success x) (xc_data x)
    (_nanoseconds_to_seconds (get_or_none "load_duration" (xc_data x))) EB).
Qed.

Lemma get_client_task w o w1 : get_client w = (o, w1) → w_task w1 = w_task w.
Proof. intros E. pose proof (get_client_same w) as H. rewrite E in H. apply H. Qed.

Lemma suspended_Ret {A} (m : M (OllamaRuntime * Y) A) w a w' :
  suspended m w = (Ret a, w') → ∃ s s', m s = (Ret a, s').
Proof.
  unfold suspended, outside, zoom. destruct (m _) as [o s'] eqn:E. intros [= -> _]. eauto.
Qed.

(** A successful exchange of [chat] or [embed] is counted as one. *)
Definition honest {A} (x : Exchange A) : Prop := is_ret (xc_result x) = true → xc_success x = true.

Lemma failed_honest {A} e : honest (A:=A) (failed e).
Proof. intros H. discriminate H. Qed.

Lemma admitted_result {A} model (body : OM (Exchange A)) (P : Exchange A → Prop) w :
  (∀ e, P (failed e)) →
  (∀ w, match (body w).1 with Ret x => P x | Raise _ => True end) →
  P (match (admitted model body w).1 with Ret x => x | Raise e => failed e end).
Proof.
  intros Hf Hb. unfold admitted, bind. destruct (suspended _ w) as [[[]|e] w1]; [|apply Hf].
  unfold try_finally. specialize (Hb w1). destruct (body w1) as [[x|e] w2]; simpl in *; auto.
Qed.

Lemma chat_exchange_honest model payload w :
  honest (match (chat_exchange model payload w).1 with Ret x => x | Raise e => failed e end).
Proof.
  unfold chat_exchange. apply admitted_result; [apply failed_honest|]. intros w1.
  unfold bind, capture. destruct (suspended _ w1) as [[v|e] w2]; cbn; [|apply failed_honest].
  destruct v as [| | | | | |d]; try apply failed_honest.
  by destruct (truthy _).
Qed.

(** The exchange that ended without an answer, and the one the service answered. *)
Definition unanswered {A} (x : Exchange A) : Prop :=
  xc_data x = [] ∧ xc_success x = false ∧ ∃ e, xc_result x = Raise e.

Lemma failed_unanswered {A} e : unanswered (A:=A) (failed e).
Proof. by repeat split; eexists. Qed.

(** The service answered the request with [answer]. *)
Definition service_answered (path : string) (payload : pydict) (answer : pyval) : Prop :=
  ∃ s s', oh_post path payload s = (Ret answer, s').

Lemma chat_exchange_cases model payload w :
  let x := match (chat_exchange model payload w).1 with Ret x => x | Raise e => failed e end in
  unanswered x ∨
  service_answered "/api/chat" payload (VDict (xc_data x)) ∧
  if truthy (get_or_none "error" (xc_data x)) then xc_success x = false ∧ ∃ e, xc_result x = Raise e
  else xc_success x = true ∧ xc_result x = Ret tt.
Proof.
  cbv zeta. unfold chat_exchange.
  apply (admitted_result model _ (λ x, unanswered x ∨ service_answered "/api/chat" payload (VDict (xc_data x)) ∧
    if truthy (get_or_none "error" (xc_data x)) then xc_success x = false ∧ ∃ e, xc_result x = Raise e
    else xc_success x = true ∧ xc_result x = Ret tt)); [left; apply failed_unanswered|].
  intros w1. unfold bind, capture. destruct (suspended _ w1) as [[v|e] w2] eqn:E; cbn -[truthy];
    [|left; apply failed_unanswered].
  destruct v as [| | | | | |d]; try (left; apply failed_unanswered).
  apply suspended_Ret in E. destruct (truthy _) eqn:Et; right; (split; [exact E|]);
    cbn [xc_data xc_success xc_result]; rewrite Et; [split; [done|by eexists]|done].
Qed.

Lemma floats_raise vector e : floats vector = Raise e → ∃ v, v ∈ vector ∧ oh_float v = Raise e.
Proof.
  induction vector as [|v vector IH]; [done|]. cbn [floats].
  destruct (oh_float v) as [f|e'] eqn:Ev.
  - destruct (floats vector) as [fs|e']; [done|]. intros [= ->].
    destruct (IH eq_refl) as (v' & Hin & Hv). exists v'. split; [by right|done].
  - intros [= ->]. exists v. split; [by left|done].
Qed.

Lemma embed_exchange_cases model text w :
  let x := match (embed_exchange settings model text w).1 with Ret x => x | Raise e => failed e end in
  unanswered x ∨
  xc_data x = [] ∧ xc_success x = true ∧
  ∃ answer vector, service_answered "/api/embed" [("model", VStr model); ("input", VStr text);
      ("keep_alive", VStr (ollama_keep_alive settings))] answer ∧
    embedding_of answer = Ret vector ∧ xc_result x = floats vector.
Proof.
  cbv zeta. unfold embed_exchange.
  apply (admitted_result model _ (λ x, unanswered x ∨ xc_data x = [] ∧ xc_success x = true ∧
    ∃ answer vector, service_answered "/api/embed" [("model", VStr model); ("input", VStr text);
      ("keep_alive", VStr (ollama_keep_alive settings))] answer ∧
    embedding_of answer = Ret vector ∧ xc_result x = floats vector)); [left; apply failed_unanswered|].
  intros w1. unfold bind, capture. destruct (suspended _ w1) as [[v|e] w2] eqn:E; cbn;
    [|left; apply failed_unanswered].
  destruct (embedding_of v) as [vector|e] eqn:Ev; [|left; apply failed_unanswered].
  apply suspended_Ret in E. right. by repeat split; exists v, vector.
Qed.

(** What a line of a stream holds: nothing, or a record. *)
Definition blank_line (line : string) : Prop := nonempty (strip line) = false.
Definition record_line (line : string) (data : pydict) : Prop :=
  nonempty (strip line) = true ∧ loads oh_float_repr line = Some (VDict data) ∧
  truthy (get_or_none "error" data) = false.

(** A line the stream goes on after. *)
Definition passed_line (l : outcome string) : Prop :=
  ∃ line, l = Ret line ∧ (blank_line line ∨
    ∃ data, record_line line data ∧ truthy (get_or_none "done" data) = false).

(** How a stream that was read to its end is closed: at its first record marked
done, with the usage of that record, or, when it has none, as no success. *)
Definition stream_closed (lines : list (outcome string)) (success : bool) (data : pydict) : Prop :=
  (success = true ∧ ∃ before line after, lines = before ++ Ret line :: after ∧ Forall passed_line before ∧
    record_line line data ∧ truthy (get_or_none "done" data) = true) ∨
  (success = false ∧ data = [] ∧ Forall passed_line lines).

Definition stream_end (lines : list (outcome string)) (x : Exchange unit) : Prop :=
  unanswered x ∨ xc_result x = Ret tt ∧ stream_closed lines (xc_success x) (xc_data x).

Lemma stream_end_later l lines x : passed_line l → stream_end lines x → stream_end (l :: lines) x.
Proof.
  intros Hl [H|[Hr [(Hs & before & line & after & -> & Hb & Hd)|(Hs & Hd & Hf)]]]; [by left| |];
    right; (split; [done|]); [left|right].
  - split; [done|]. exists (l :: before), line, after. split_and!; [done|by constructor|apply Hd..].
  - split_and!; [done..|by constructor].
Qed.

Lemma stream_item_Ret line data : nonempty (strip line) = true →
  stream_item line = Ret data → record_line line data.
Proof.
  unfold stream_item, record_line. intros Hn. destruct (loads oh_float_repr line) as [[]|]; try done.
  destruct (truthy _) eqn:Et; [done|]. by intros [= ->].
Qed.

Lemma stream_lines_end emit lines w :
  ∃ x w', stream_lines emit lines w = (Ret x, w') ∧ stream_end lines x.
Proof.
  revert w. induction lines as [|[line|e] lines IH]; intros w.
  - eexists _, _. split; [done|]. right. split; [done|]. by right.
  - cbn [stream_lines]. destruct (nonempty (strip line)) eqn:En; cbn [negb].
    + unfold bind at 1. unfold capture. destruct (bind _ _ w) as [[data|e] w1] eqn:E.
      2:{ eexists _, _. split; [done|]. left. apply failed_unanswered. }
      apply bind_Ret_inv in E as (d & w2 & Hi & E). injection Hi as Hi _.
      apply stream_item_Ret in Hi; [|done].
      apply bind_Ret_inv in E as (c & w3 & _ & E). apply bind_Ret_inv in E as (u & w4 & _ & E).
      injection E as -> _. destruct (truthy (get_or_none "done" data)) eqn:Et.
      * eexists _, _. split; [done|]. right. split; [done|]. left. split; [done|].
        by exists [], line, lines.
      * destruct (IH w1) as (x & w5 & Ex & Hx). exists x, w5. split; [done|].
        apply stream_end_later; [|done]. exists line. split; [done|]. right. by exists data.
    + destruct (IH w) as (x & w1 & Ex & Hx). exists x, w1. split; [done|].
      apply stream_end_later; [|done]. exists line. split; [done|]. by left.
  - eexists _, _. split; [done|]. left. apply failed_unanswered.
Qed.

Lemma stream_exchange_cases emit model payload w :
  let x := match (stream_exchange emit model payload w).1 with Ret x => x | Raise e => failed e end in
  unanswered x ∨
  xc_result x = Ret tt ∧
  ∃ lines s s', oh_stream payload s = (Ret lines, s') ∧ stream_closed lines (xc_success x) (xc_data x).
Proof.
  cbv zeta. unfold stream_exchange.
  apply (admitted_result model _ (λ x, unanswered x ∨ xc_result x = Ret tt ∧
    ∃ lines s s', oh_stream payload s = (Ret lines, s') ∧ stream_closed lines (xc_success x) (xc_data x)));
    [left; apply failed_unanswered|].
  intros w1. unfold bind. destruct (suspended _ w1) as [[lines|e] w2] eqn:E; [|done].
  destruct (stream_lines_end emit lines w2) as (x & w3 & -> & [H|[Hr Hc]]); cbn; [by left|right].
  apply suspended_Ret in E as (s & s' & E). split; [done|]. by exists lines, s, s'.
Qed.

Lemma each_ret {A} (f : A → OM unit) l w :
  (∀ a, a ∈ l → ∀ w, ∃ w', f a w = (Ret tt, w')) → ∃ w', each f l w = (Ret tt, w').
Proof.
  revert w. induction l as [|a l IH]; intros w Hf; [by eexists|]. simpl.
  destruct (Hf a ltac:(left) w) as [w1 E1]. rewrite (bind_run _ _ _ _ _ E1).
  apply IH. intros b Hb. apply Hf. by right.
Qed.

Lemma observed name t (w : World (Process Y)) :
  nonempty name = true → ∃ w', measured (observe name t) w = (Ret tt, w').
Proof.
  intros Hn. destruct (measured_ret (observe name t) w) as (w1 & E & _); [|eauto].
  by apply observe_ret.
Qed.

Lemma telemetry_ret data (w : World (Process Y)) :
  ∃ w', _record_ollama_telemetry data w = (Ret tt, w').
Proof.
  assert (∀ e l, e ∈ l → Forall (λ e : string * string, nonempty e.2 = true) l →
    nonempty e.2 = true) as Hn by (intros e l Hin Hl; by eapply Forall_forall in Hl).
  unfold _record_ollama_telemetry.
  destruct (each_ret (observe_duration data) telemetry_durations w) as [w1 E1].
  - intros entry Hin w0. unfold observe_duration. destruct (nanoseconds _); [|by eexists].
    apply observed, (Hn _ _ Hin). by repeat constructor.
  - rewrite (bind_run _ _ _ _ _ E1). apply each_ret. intros entry Hin w0. unfold observe_count.
    assert (nonempty entry.2 = true) by (apply (Hn _ _ Hin); by repeat constructor).
    destruct (get_or_none _ data) as [| |z| | | |]; try destruct (0 <=? z);
      first [by eexists|by apply observed].
Qed.

Lemma chat_response_raw model data r : chat_response model data = Ret r → llm_raw r = data.
Proof. unfold chat_response. intros H. destruct (if truthy _ then _ else _); by simplify_eq. Qed.

(** The frame of the three calls, [k] being what follows the exchange. *)
Lemma call_spec {A B} kind caught (body : OM (Exchange A)) (k : pydict * A → OM B) w o w' :
  oh_metered = true → preserves same_task body → (∀ r, preserves same_task (k r)) →
  (get_client ;;; bind (exchange kind caught body) k) w = (o, w') →
  (same_task w w' ∧ ∃ e, o = Raise e) ∨
  ∃ x wb, attempt_closed (xc_success x) (xc_data x) (w_task w) (w_task w') ∧
    x = match (body wb).1 with Ret x => x | Raise e => failed e end ∧
    match xc_result x with
    | Ret a => ∃ w2, k (xc_data x, a) w2 = (o, w')
    | Raise e => o = Raise (if caught e then as_ollama_error e else e)
    end.
Proof.
  intros Hm Hbody Hk. unfold bind at 1. destruct (get_client w) as [[[]|e] w1] eqn:E1;
    apply get_client_task in E1; [|intros [= <- <-]; eauto].
  unfold bind. destruct (exchange kind caught body w1) as [o2 w2] eqn:E2.
  destruct (exchange_spec _ _ _ _ _ _ Hm Hbody E2) as [(msg & -> & Hs)|(x & wb & Hc & Hx & ->)].
  { intros [= <- <-]. left. unfold same_task in *. split; [congruence|eauto]. }
  rewrite E1 in Hc. intros Hrun. right. exists x, wb.
  destruct (xc_result x) as [a|e]; [|by injection Hrun as <- <-].
  pose proof (Hk (xc_data x, a) w2) as Ht. rewrite Hrun in Ht. cbn in Ht. rewrite Ht. eauto.
Qed.

Lemma chat_sent model messages temperature num_predict format think options w o w' :
  oh_metered = true →
  chat settings model messages temperature num_predict format think options w = (o, w') →
  (same_task w w' ∧ ∃ e, o = Raise e) ∨
  ∃ x wb, attempt_closed (xc_success x) (xc_data x) (w_task w) (w_task w') ∧
    x = match (chat_exchange model
                 (_payload settings model messages false temperature num_predict format think options) wb).1
        with Ret x => x | Raise e => failed e end ∧
    match xc_result x with
    | Ret _ => (o = chat_response model (xc_data x))
    | Raise e => o = Raise (if chat_caught e then as_ollama_error e else e)
    end.
Proof.
  intros Hm. unfold chat. set (payload := _payload _ _ _ _ _ _ _ _ _). clearbody payload.
  intros Hrun. apply call_spec in Hrun; [|done|apply chat_exchange_same|].
  2:{ intros [data a]. apply preserves_bind; [apply _|apply telemetry_same|].
      intros _. apply preserves_of_outcome, _. }
  destruct Hrun as [?|(x & wb & Hc & Hx & Ho)]; [by left|]. right. exists x, wb.
  split_and!; [done..|]. destruct (xc_result x) as [a|e]; [|done].
  destruct Ho as [w2 Ho]. unfold bind in Ho.
  destruct (telemetry_ret (xc_data x) w2) as [w3 E3]. rewrite E3 in Ho.
  by injection Ho as <- <-.
Qed.

Lemma chat_spec model messages temperature num_predict format think options w o w' :
  oh_metered = true →
  chat settings model messages temperature num_predict format think options w = (o, w') →
  (same_task w w' ∧ ∃ e, o = Raise e) ∨
  ∃ x wb payload, attempt_closed (xc_success x) (xc_data x) (w_task w) (w_task w') ∧
    x = match (chat_exchange model payload wb).1 with Ret x => x | Raise e => failed e end ∧
    match xc_result x with
    | Ret _ => (o = chat_response model (xc_data x))
    | Raise e => o = Raise (if chat_caught e then as_ollama_error e else e)
    end.
Proof.
  intros Hm E. destruct (chat_sent _ _ _ _ _ _ _ _ _ _ Hm E) as [?|(x & wb & H)]; [by left|right].
  eauto.
Qed.

(** The message of an answer is neither missing nor an object. *)
Definition bad_message (data : pydict) : Prop :=
  truthy (get_or_none "message" data) = true ∧ ∀ d, get_or_none "message" data ≠ VDict d.

Lemma chat_response_raise model data e : chat_response model data = Raise e → bad_message data.
Proof.
  unfold chat_response, bad_message. destruct (truthy (get_or_none "message" data)); [|done].
  destruct (get_or_none "message" data); try done; intros _; (split; [done|by intros ? [=]]).
Qed.

(** C20. Every model call is accounted for exactly once, and as what it was.  When
  a meter is bound, whatever the network, the admission control, the consumer of
  the stream and cancellations do, a call of [chat], [stream_chat] or [embed] that
  leaves the meter untouched raises, and any other adds exactly one attempt within
  the limit.  A [chat] that returns is a success with the usage of the answer the
  service gave to this request; a stream that returns is a success with the usage
  of its first record marked done, or a failure without usage when it ended without
  one; an [embed] that returns is a success.  A call that raises is a failure
  without usage, except when the service answered: an answer of [chat] that reports
  an error is a failure with its usage, one whose message is no object a success
  with it, and an embedding with an entry that is no number a success. *)
Theorem model_calls_accounted (Hmetered : oh_metered = true) model w :
  (∀ messages temperature num_predict format think options,
   let '(o, w') := chat settings model messages temperature num_predict format think options w in
   let answered data := service_answered "/api/chat"
     (_payload settings model messages false temperature num_predict format think options) (VDict data) in
   match o with
   | Ret r => answered (llm_raw r) ∧ truthy (get_or_none "error" (llm_raw r)) = false ∧
       attempt_closed true (llm_raw r) (w_task w) (w_task w')
   | Raise _ => same_task w w' ∨ attempt_closed false [] (w_task w) (w_task w') ∨
       ∃ data, answered data ∧
         if truthy (get_or_none "error" data) then attempt_closed false data (w_task w) (w_task w')
         else bad_message data ∧ attempt_closed true data (w_task w) (w_task w')
   end) ∧
  (∀ emit messages temperature num_predict format think options,
   (∀ s, preserves same_task (emit s)) →
   let '(o, w') :=
     stream_chat settings emit model messages temperature num_predict format think options w in
   match o with
   | Ret _ => ∃ lines s s' success data,
       oh_stream (_payload settings model messages true temperature num_predict format think options) s =
         (Ret lines, s') ∧
       stream_closed lines success data ∧ attempt_closed success data (w_task w) (w_task w')
   | Raise _ => same_task w w' ∨ attempt_closed false [] (w_task w) (w_task w')
   end) ∧
  (∀ text,
   let '(o, w') := embed settings model text w in
   match o with
   | Ret _ => attempt_closed true [] (w_task w) (w_task w')
   | Raise _ => same_task w w' ∨ attempt_closed false [] (w_task w) (w_task w') ∨
       ∃ answer vector v e, service_answered "/api/embed" [("model", VStr model); ("input", VStr text);
           ("keep_alive", VStr (ollama_keep_alive settings))] answer ∧
         embedding_of answer = Ret vector ∧ v ∈ vector ∧ oh_float v = Raise e ∧
         attempt_closed true [] (w_task w) (w_task w')
   end).
Proof.
  split_and!.
  - intros messages temperature num_predict format think options.
    destruct (chat settings _ _ _ _ _ _ _ w) as [o w'] eqn:E. cbv zeta.
    destruct (chat_sent _ _ _ _ _ _ _ _ _ _ Hmetered E)
      as [[Hs [e ->]]|(x & wb & Hc & Hx & Ho)]; [by left|].
    pose proof (chat_exchange_cases model
      (_payload settings model messages false temperature num_predict format think options) wb) as Hh.
    cbv zeta in Hh. rewrite <- Hx in Hh. destruct Hh as [(Hd & Hs & e & He)|[Ha Hh]].
    { rewrite He in Ho. rewrite Hd, Hs in Hc. subst o. auto. }
    destruct (truthy (get_or_none "error" (xc_data x))) eqn:Et.
    + destruct Hh as [Hs [e He]]. rewrite He in Ho. rewrite Hs in Hc. subst o. right. right.
      exists (xc_data x). by rewrite Et.
    + destruct Hh as [Hs He]. rewrite He in Ho. rewrite Hs in Hc. subst o.
      destruct (chat_response model (xc_data x)) as [r|e] eqn:Er.
      * by rewrite (chat_response_raw _ _ _ Er).
      * right. right. exists (xc_data x). rewrite Et. split_and!; [done| |done].
        by eapply chat_response_raise.
  - intros emit messages temperature num_predict format think options Hemit.
    destruct (stream_chat settings _ _ _ _ _ _ _ _ w) as [o w'] eqn:E. unfold stream_chat in E.
    set (payload := _payload _ _ _ _ _ _ _ _ _) in *. clearbody payload.
    apply call_spec in E; [|done|by apply stream_exchange_same|].
    2:{ intros [[|] []]; [by apply preserves_ret, _|apply telemetry_same]. }
    destruct E as [[Hs [e ->]]|(x & wb & Hc & Hx & Ho)]; [by left|].
    pose proof (stream_exchange_cases emit model payload wb) as Hh. cbv zeta in Hh. rewrite <- Hx in Hh.
    destruct Hh as [(Hd & Hs & e & He)|[He (lines & s & s' & Hl & Hend)]]; rewrite He in Ho.
    + rewrite Hd, Hs in Hc. subst o. auto.
    + assert (o = Ret tt) as ->.
      { destruct Ho as [w2 Ho]. destruct (xc_data x) as [|kv data]; [by injection Ho as <- _|].
        destruct (telemetry_ret (kv :: data) w2) as [w3 E3]. rewrite E3 in Ho. by injection Ho as <- _. }
      by exists lines, s, s', (xc_success x), (xc_data x).
  - intros text. destruct (embed settings model text w) as [o w'] eqn:E. unfold embed in E.
    apply call_spec in E; [|done|by apply embed_exchange_same|].
    2:{ intros [data v]. apply preserves_ret, _. }
    destruct E as [[Hs [e ->]]|(x & wb & Hc & Hx & Ho)]; [by left|].
    pose proof (embed_exchange_cases model text wb) as Hh. cbv zeta in Hh. rewrite <- Hx in Hh.
    destruct Hh as [(Hd & Hs & e & He)|(Hd & Hs & answer & vector & Ha & Hv & He)]; rewrite Hd, Hs in Hc.
    + rewrite He in Ho. subst o. auto.
    + rewrite He in Ho. destruct (floats vector) as [fs|e] eqn:Ef.
      { destruct Ho as [w2 [= <- <-]]. done. }
      subst o. right. right. destruct (floats_raise vector e Ef) as (v & Hin & Hf).
      by exists answer, vector, v, e.
Qed.

(** ** Errors *)

(** What the calls rely on from the network and the admission control: a request
  fails with an error of [httpx], of decoding, or a cancellation, and waiting
  ends with a cancellation only. *)
Class OllamaLaws : Prop := {
  ol_post path payload w e w' :
    oh_post path payload w = (Raise e, w') → chat_caught e = true ∨ e = CancelledError;
  ol_admit model w e w' : oh_admit model w = (Raise e, w') → e = CancelledError;
  ol_client_lock w e w' : oh_client_lock w = (Raise e, w') → e = CancelledError
}.

Lemma suspended_raise {A} (m : M (OllamaRuntime * Y) A) w e w' :
  suspended m w = (Raise e, w') → ∃ s s', m s = (Raise e, s').
Proof.
  unfold suspended, outside, zoom. destruct (m _) as [o s'] eqn:E.
  intros [= -> _]. eauto.
Qed.

Lemma get_client_raise `{!OllamaLaws} w e w' : get_client w = (Raise e, w') → e = CancelledError.
Proof.
  unfold get_client, bind at 1. destruct (runtime w) as [[r|er] w1] eqn:E1; [|by unfold runtime in E1].
  destruct (rt_client r); [done|]. unfold bind at 1.
  destruct (suspended oh_client_lock w1) as [[[]|er] w2] eqn:E2.
  - unfold bind. destruct (runtime w2) as [[r2|er] w3] eqn:E3; [|by unfold runtime in E3].
    by destruct (rt_client r2).
  - intros [= <- _]. apply suspended_raise in E2 as (s & s' & E2). by eapply ol_client_lock.
Qed.

Lemma chat_exchange_errors `{!OllamaLaws} model payload w e :
  xc_result (match (chat_exchange model payload w).1 with Ret x => x | Raise e => failed e end)
  = Raise e → chat_caught e = true ∨ e = CancelledError.
Proof.
  unfold chat_exchange, admitted, bind at 1.
  destruct (suspended (oh_admit model) w) as [[[]|er] w1] eqn:E1.
  2:{ intros [= <-]. apply suspended_raise in E1 as (s & s' & E1). right. by eapply ol_admit. }
  unfold try_finally, bind, capture.
  destruct (suspended (oh_post "/api/chat" payload) w1) as [[v|er] w2] eqn:E2; cbn.
  - destruct v; try (intros [= <-]; by left). destruct (truthy _); [|done].
    intros [= <-]. by left.
  - intros [= <-]. apply suspended_raise in E2 as (s & s' & E2). by eapply ol_post.
Qed.

(** What [chat] raises.  When requests fail only with errors of the HTTP
  library, of decoding, or cancellations, a [chat] that raises was cancelled,
  exceeded the budget without sending anything, or raises [OllamaError]. *)
Theorem chat_errors `{!OllamaLaws} (Hmetered : oh_metered = true)
    model messages temperature num_predict format think options w e w'
    (Hrun : chat settings model messages temperature num_predict format think options w = (Raise e, w')) :
  e = CancelledError ∨ (∃ msg, e = OllamaError msg) ∨
  (∃ msg, e = BudgetExceeded msg ∧ same_task w w').
Proof.
  unfold chat in Hrun. set (payload := _payload _ _ _ _ _ _ _ _ _) in Hrun. clearbody payload.
  unfold bind at 1 in Hrun. destruct (get_client w) as [[[]|eg] w1] eqn:E1.
  2:{ injection Hrun as <- _. left. by eapply get_client_raise. }
  apply get_client_task in E1. unfold bind at 1 in Hrun.
  destruct (exchange "chat" _ _ w1) as [o2 w2] eqn:E2.
  destruct (exchange_spec _ _ _ _ _ _ Hmetered (chat_exchange_same _ _) E2)
    as [(msg & -> & Hs)|(x & wb & Hc & Hx & ->)].
  { injection Hrun as <- <-. right. right. unfold same_task in *. exists msg. split; congruence. }
  destruct (xc_result x) as [a|ex] eqn:Ex.
  - destruct (telemetry_ret (xc_data x) w2) as [w3 E3].
    rewrite (bind_run _ _ _ _ _ E3) in Hrun. injection Hrun as Hrun _. right. left.
    unfold chat_response in Hrun. destruct (if truthy _ then _ else _); simplify_eq; eauto.
  - injection Hrun as <- <-. rewrite Hx in Ex. apply chat_exchange_errors in Ex as [Ex| ->].
    + rewrite Ex. right. left. unfold as_ollama_error. destruct (is_ollama_error ex) eqn:Eo; eauto.
      destruct ex; try discriminate Eo. eauto.
    + by left.
Qed.
End accounting.

(** ** A concrete process *)

(** A process whose model answers with the next of the texts its state holds. *)
Definition scripted_post {Y} (get : Y → list string) (put : list string → Y → Y) (payload : pydict) :
    M (OllamaRuntime * Y) pyval := λ s,
  match get s.2 with
  | [] => (Raise (HttpError "connection refused"), s)
  | reply :: replies =>
      (Ret (VDict [("message", VDict [("content", VStr reply)]); ("prompt_eval_count", VInt 100);
                   ("eval_count", VInt 20)]), (s.1, put replies s.2))
  end.

(** Every stream is one piece and a final record. *)
Definition scripted_stream : list (outcome string) :=
  Ret <$> [
    dumps default_separators (VDict [("message", VDict [("content", VStr "hi")])]);
    dumps default_separators (VDict [("done", VBool true); ("prompt_eval_count", VInt 7)])].

Definition scripted_host {Y} (get : Y → list string) (put : list string → Y → Y) : OllamaHost Y := {|
  oh_clock := λ y, (0, y);
  oh_wall := λ y, (1, y);
  oh_root := ret "Ollama is running";
  oh_tags := ret (VDict []);
  oh_post := λ _, scripted_post get put;
  oh_stream := λ _, ret scripted_stream;
  oh_admit := λ _, ret tt;
  oh_release := λ y, y;
  oh_client_lock := ret tt;
  oh_models_lock := ret tt;
  oh_close := ret tt;
  oh_metered := true;
  oh_status := λ _, None;
  oh_type_name := λ _, "ConnectError";
  oh_float := λ v, Ret v;
  oh_micros := λ _, None;
  oh_float_repr := λ r, r;
  oh_str_container := λ _, "{}"
|}.

#[export] Instance sample_ollama_host : OllamaHost (list string) := scripted_host (λ y, y) (λ r _, r).

#[export] Instance sample_ollama_laws : OllamaLaws (Y:=list string).
Proof.
  split; cbn; [|done..]. intros path payload [r [|reply replies]] e w'; [|done].
  intros [= <- _]. by left.
Qed.

Definition sample_meter : MeterTask := MkMeterTask (init_budget 1000 2 2 3 None 0 0) None.

Definition sample_process (replies : list string) : World (Process (list string)) :=
  MkWorld sample_meter (MkProcess runtime_init (MkMetrics 16 ∅ ∅) replies).

Definition hello : list pydict := [[("role", VStr "user"); ("content", VStr "hello")]].

Lemma model_calls_accounted_witness :
  (let '(o, w') := chat sample_settings "m" hello None None None None None
                     (sample_process ["hi there"]) in
   llm_content <$> (match o with Ret r => Some r | Raise _ => None end) = Some "hi there" ∧
   ms_model_successes (eb_state (mt_meter (w_task w'))) = 1 ∧
   ms_prompt_tokens (eb_state (mt_meter (w_task w'))) = 100) ∧
  (let '(o, w') := stream_chat sample_settings (λ _, ret tt) "m" hello None None None None None
                     (sample_process []) in
   o = Ret tt ∧ ms_model_successes (eb_state (mt_meter (w_task w'))) = 1 ∧
   ms_prompt_tokens (eb_state (mt_meter (w_task w'))) = 7).
Proof.
  split.
  - pose proof (proj1 (model_calls_accounted sample_settings eq_refl "m" (sample_process ["hi there"]))
      hello None None None None None) as H.
    destruct (chat sample_settings "m" hello None None None None None (sample_process ["hi there"]))
      as [o w'] eqn:E.
    assert (Ho : llm_content <$> (match o with Ret r => Some r | Raise _ => None end) = Some "hi there"
                 ∧ (match o with Ret r => get_or_none "prompt_eval_count" (llm_raw r)
                               | Raise _ => VNone end) = VInt 100).
    { apply (f_equal fst) in E. cbn [fst] in E. subst o. vm_compute. by split. }
    destruct o as [r|e]; [|by destruct Ho]. destruct Ho as [Hc Hp]. split; [exact Hc|].
    destruct H as (_ & _ & [_ _ Hs _ Hprompt _ _ _]). rewrite Hs, Hprompt, Hp. split; reflexivity.
  - pose proof (proj1 (proj2 (model_calls_accounted sample_settings eq_refl "m" (sample_process [])))
      (λ _, ret tt) hello None None None None None ltac:(intros ?; by apply preserves_ret, _)) as H.
    destruct (stream_chat sample_settings (λ _, ret tt) "m" hello None None None None None
      (sample_process [])) as [o w'] eqn:E.
    assert (Ho : o = Ret tt) by (apply (f_equal fst) in E; cbn [fst] in E; subst o; vm_compute; reflexivity).
    subst o. split; [reflexivity|]. destruct H as (lines & s & s' & success & data & [= <- _] & Hend & Hc).
    assert (Hd : success = true ∧ get_or_none "prompt_eval_count" data = VInt 7).
    { destruct Hend as [(-> & before & line & after & Hl & Hb & (_ & Hload & _) & Hdone)|(_ & _ & Hf)].
      - split; [reflexivity|]. destruct before as [|l0 [|l1 before]].
        + injection Hl as <- _. exfalso. vm_compute in Hload. injection Hload as <-. by vm_compute in Hdone.
        + injection Hl as _ <- _. vm_compute in Hload. injection Hload as <-. reflexivity.
        + apply (f_equal length) in Hl. cbn in Hl. rewrite length_app in Hl. cbn in Hl. lia.
      - exfalso. apply Forall_cons in Hf as [_ Hf]. apply Forall_cons in Hf as [(line & [= <-] & Hline) _].
        destruct Hline as [Hb|(d & (_ & Hload & _) & Hd)]; [by vm_compute in Hb|].
        vm_compute in Hload. injection Hload as <-. by vm_compute in Hd. }
    destruct Hd as [-> Hd]. destruct Hc as [_ _ Hs _ Hprompt _ _ _]. rewrite Hs, Hprompt, Hd.
    split; reflexivity.
Defined.

Lemma chat_errors_witness :
  ∃ e w', chat sample_settings "m" hello None None None None None (sample_process []) = (Raise e, w')
    ∧ (e = CancelledError ∨ (∃ msg, e = OllamaError msg) ∨
       (∃ msg, e = BudgetExceeded msg ∧ same_task (sample_process []) w')).
Proof.
  destruct (chat sample_settings "m" hello None None None None None (sample_process []))
    as [[r|e] w'] eqn:E.
  - exfalso. apply (f_equal (λ x, is_ret x.1)) in E. vm_compute in E. discriminate E.
  - exists e, w'. split; [reflexivity|].
    exact (chat_errors sample_settings eq_refl "m" hello None None None None None _ e w' E).
Defined.
