(* ===== verification/OllamaShared.v ===== *)
(** * Runtimes shared between Ollama clients

    The process-wide registry of [app/llm/ollama.py]: [_runtime_key],
    [_get_shared_runtime] and the constructor of [OllamaClient].  A runtime holds
    the HTTP pool, the admission control and the model cache ([Ollama]); it is an
    object with an identity, its index in [rh_runtimes].
    [clients_share_runtimes]: two clients share one exactly when their settings
    agree on the server, the timeouts, the pool and the concurrency. *)

From stdpp Require Import relations.
From S2P Require Import Prelude PyData.

(** The settings of the connection; a float is carried as its [repr]. *)
Record OllamaSettings : Type := MkOllamaSettings {
  ollama_base_url : string;
  ollama_connect_timeout_seconds : string;
  ollama_timeout_seconds : string;
  ollama_pool_timeout_seconds : string;
  ollama_max_connections : Z;
  ollama_max_keepalive_connections : Z;
  http_keepalive_expiry_seconds : string;
  ollama_max_concurrency : Z;
  ollama_heavy_max_concurrency : Z
}.

Record _RuntimeKey : Type := MkRuntimeKey {
  rk_base_url : string;
  rk_connect_timeout : string;
  rk_request_timeout : string;
  rk_pool_timeout : string;
  rk_max_connections : Z;
  rk_max_keepalive_connections : Z;
  rk_keepalive_expiry : string;
  rk_max_concurrency : Z;
  rk_heavy_max_concurrency : Z
}.
#[export] Instance RuntimeKey_eq_dec : EqDecision _RuntimeKey.
Proof. solve_decision. Defined.

Definition _runtime_key (s : OllamaSettings) : _RuntimeKey := {|
  rk_base_url := rstrip_by (λ c, mem_char c "/") (ollama_base_url s);
  rk_connect_timeout := ollama_connect_timeout_seconds s;
  rk_request_timeout := ollama_timeout_seconds s;
  rk_pool_timeout := ollama_pool_timeout_seconds s;
  rk_max_connections := ollama_max_connections s;
  rk_max_keepalive_connections := ollama_max_keepalive_connections s;
  rk_keepalive_expiry := http_keepalive_expiry_seconds s;
  rk_max_concurrency := ollama_max_concurrency s;
  rk_heavy_max_concurrency := ollama_heavy_max_concurrency s
|}.

(** The admission control of a runtime: one handed to it, or its own. *)
Inductive Resources : Type := Given (manager : nat) | Own (settings : OllamaSettings).

Record _SharedOllamaRuntime : Type := MkSharedRuntime {
  shr_settings : OllamaSettings;
  shr_transport : option nat;
  shr_resources : Resources
}.

(** The runtimes of the process, and [_SHARED_RUNTIMES]. *)
Record RuntimeHeap : Type := MkRuntimeHeap {
  rh_runtimes : list _SharedOllamaRuntime;
  rh_shared : list (_RuntimeKey * nat)
}.

Definition new_runtime (s : OllamaSettings) (transport manager : option nat) : _SharedOllamaRuntime :=
  MkSharedRuntime s transport (match manager with Some m => Given m | None => Own s end).

Fixpoint shared_runtime (k : _RuntimeKey) (d : list (_RuntimeKey * nat)) : option nat :=
  match d with
  | [] => None
  | (k', id) :: d' => if decide (k = k') then Some id else shared_runtime k d'
  end.

(** Under the registry's lock, so one step. *)
Definition _get_shared_runtime (s : OllamaSettings) : M RuntimeHeap nat := λ h,
  let key := _runtime_key s in
  match shared_runtime key (rh_shared h) with
  | Some id => (Ret id, h)
  | None =>
      let id := length (rh_runtimes h) in
      (Ret id, MkRuntimeHeap (rh_runtimes h ++ [new_runtime s None None]) ((key, id) :: rh_shared h))
  end.

(** [OllamaClient(settings, transport=..., resource_manager=...)]: the identity of
    its runtime. *)
Definition new_client (s : OllamaSettings) (transport manager : option nat) : M RuntimeHeap nat :=
  match transport, manager with
  | None, None => _get_shared_runtime s
  | _, _ => λ h,
      (Ret (length (rh_runtimes h)),
       MkRuntimeHeap (rh_runtimes h ++ [new_runtime s transport manager]) (rh_shared h))
  end.

(** ** Any number of clients *)

Record Client : Type := MkClient {
  cl_settings : OllamaSettings;
  cl_transport : option nat;
  cl_manager : option nat;
  cl_runtime : nat
}.

Inductive client_step : RuntimeHeap * list Client → RuntimeHeap * list Client → Prop :=
  | step_client s transport manager id h h' clients :
      new_client s transport manager h = (Ret id, h') →
      client_step (h, clients) (h', MkClient s transport manager id :: clients).

(** Whether a client uses the registry. *)
Definition shares (c : Client) : bool :=
  match cl_transport c, cl_manager c with None, None => true | _, _ => false end.

Definition client_ok (h : RuntimeHeap) (c : Client) : Prop :=
  (cl_runtime c < length (rh_runtimes h))%nat ∧
  if shares c then shared_runtime (_runtime_key (cl_settings c)) (rh_shared h) = Some (cl_runtime c)
  else cl_runtime c ∉ (rh_shared h).*2 ∧
       rh_runtimes h !! cl_runtime c = Some (new_runtime (cl_settings c) (cl_transport c) (cl_manager c)).

Record heap_inv (h : RuntimeHeap) (clients : list Client) : Prop := {
  hi_ids : NoDup (rh_shared h).*2;
  hi_bound k id : (k, id) ∈ rh_shared h →
    ∃ s, rh_runtimes h !! id = Some (new_runtime s None None) ∧ _runtime_key s = k;
  hi_clients : Forall (client_ok h) clients;
  hi_private : NoDup (cl_runtime <$> filter (λ c, shares c = false) clients)
}.

Lemma shared_runtime_elem k d id : shared_runtime k d = Some id → (k, id) ∈ d.
Proof.
  induction d as [|[k' id'] d IH]; simpl; [done|]. destruct (decide (k = k')) as [->|].
  - intros [= ->]. left.
  - intros H. right. auto.
Qed.

Lemma bound_lt h clients k id : heap_inv h clients → (k, id) ∈ rh_shared h → (id < length (rh_runtimes h))%nat.
Proof. intros H Hin. destruct (hi_bound _ _ H _ _ Hin) as (s&Hs&_). by eapply lookup_lt_Some. Qed.

Lemma client_ok_grow h h' c r :
  client_ok h c → rh_runtimes h' = rh_runtimes h ++ [r] →
  (rh_shared h' = rh_shared h ∨
   ∃ k, rh_shared h' = (k, length (rh_runtimes h)) :: rh_shared h ∧ shared_runtime k (rh_shared h) = None) →
  client_ok h' c.
Proof.
  intros [Hl Hc] Hr Hs. split; [rewrite Hr, length_app; simpl; lia|].
  destruct (shares c).
  - destruct Hs as [->|(k&->&Hk)]; [done|]. simpl.
    destruct (decide (_ = k)) as [<-|]; [congruence|done].
  - destruct Hc as [Hni Hlk]. split.
    + destruct Hs as [->|(k&->&_)]; [done|]. rewrite fmap_cons, not_elem_of_cons. simpl. split; [lia|done].
    + rewrite Hr, lookup_app_l by done. done.
Qed.

Lemma heap_inv_step x y : heap_inv x.1 x.2 → client_step x y → heap_inv y.1 y.2.
Proof.
  intros Hinv Hstep. destruct Hstep as [s transport manager id h h' clients H]. simpl in *.
  pose proof Hinv as [Hids Hb Hc Hp].
  assert (∀ r, rh_runtimes h' = rh_runtimes h ++ [r] → rh_shared h' = rh_shared h →
    id = length (rh_runtimes h) → r = new_runtime s transport manager →
    shares (MkClient s transport manager id) = false →
    heap_inv h' (MkClient s transport manager id :: clients)) as Hprivate.
  { intros r Hr Hs -> -> Hsh. split.
    - by rewrite Hs.
    - rewrite Hs, Hr. intros k id' Hin. destruct (Hb k id' Hin) as (s'&Hs'&?). exists s'.
      by rewrite lookup_app_l by (by eapply lookup_lt_Some).
    - constructor.
      + split; simpl; [rewrite Hr, length_app; simpl; lia|]. rewrite Hsh. simpl. split.
        * rewrite Hs. intros ([k id']&Hid&Hin)%list_elem_of_fmap. simpl in Hid.
          pose proof (bound_lt _ _ _ _ Hinv Hin). lia.
        * by rewrite Hr, lookup_app_r, Nat.sub_diag by lia.
      + eapply Forall_impl; [exact Hc|]. intros c Hc'. eapply client_ok_grow; [done..|by left].
    - rewrite filter_cons_True by done. rewrite fmap_cons. apply NoDup_cons. split; [|done]. simpl.
      intros (c&Hid&[_ Hin]%list_elem_of_filter)%list_elem_of_fmap.
      rewrite Forall_forall in Hc. destruct (Hc c Hin) as [? _]. lia. }
  unfold new_client in H. destruct transport as [t|];
    [simpl in H; simplify_eq; by eapply Hprivate|].
  destruct manager as [m|]; [simpl in H; simplify_eq; by eapply Hprivate|]. clear Hprivate.
  unfold _get_shared_runtime in H. destruct (shared_runtime _ _) as [id'|] eqn:E; simplify_eq.
  - split; [done..| |].
    + constructor; [|done]. split; simpl; [|done].
      apply shared_runtime_elem in E. by eapply bound_lt.
    + by rewrite filter_cons_False.
  - split; simpl.
    + apply NoDup_cons. split; [|done].
      intros ([k id']&Hid&Hin)%list_elem_of_fmap. simpl in Hid. pose proof (bound_lt _ _ _ _ Hinv Hin). lia.
    + intros k id' [[= -> ->]|Hin]%elem_of_cons.
      * exists s. by rewrite lookup_app_r, Nat.sub_diag by lia.
      * destruct (Hb k id' Hin) as (s'&Hs'&?). exists s'.
        by rewrite lookup_app_l by (by eapply lookup_lt_Some).
    + constructor.
      * split; simpl; [rewrite length_app; simpl; lia|]. by rewrite decide_True.
      * eapply Forall_impl; [exact Hc|]. intros c Hc'. eapply client_ok_grow; [done..|right]. by eexists.
    + by rewrite filter_cons_False.
Qed.

(** Clients share a runtime, hence the HTTP pool, the admission control and the
    model cache, exactly when their settings agree on the server, the timeouts,
    the pool and the concurrency, and neither was given a transport or an
    admission control of its own; a client that was has its runtime to itself. *)
Theorem clients_share_runtimes h clients a b
    (Hreach : rtc client_step (MkRuntimeHeap [] [], []) (h, clients))
    (Ha : a ∈ clients) (Hb : b ∈ clients) :
  (shares a = true → shares b = true →
    (cl_runtime a = cl_runtime b ↔ _runtime_key (cl_settings a) = _runtime_key (cl_settings b))) ∧
  (shares a = false → cl_runtime a = cl_runtime b → a = b).
Proof.
  assert (heap_inv h clients) as [Hids Hbound Hc Hp].
  { change (heap_inv (h, clients).1 (h, clients).2). revert Hreach. generalize (h, clients). intros x Hr.
    assert (heap_inv (MkRuntimeHeap [] [], @nil Client).1 (MkRuntimeHeap [] [], @nil Client).2) as H0.
    { split; simpl; [constructor| |constructor|constructor]. by intros k id ?%not_elem_of_nil. }
    revert H0. induction Hr as [|x y z Hs _ IH]; [done|]. intros H0. eapply IH, heap_inv_step; eauto. }
  rewrite Forall_forall in Hc. destruct (Hc a Ha) as [_ Hoka], (Hc b Hb) as [_ Hokb]. split.
  - intros Hsa Hsb. rewrite Hsa in Hoka. rewrite Hsb in Hokb. split; [|congruence].
    intros Heq. apply shared_runtime_elem, Hbound in Hoka as (s&Hs&<-).
    apply shared_runtime_elem, Hbound in Hokb as (s'&Hs'&<-). rewrite Heq in Hs. by simplify_eq.
  - intros Hsa Heq. rewrite Hsa in Hoka. destruct Hoka as [Hni _].
    destruct (shares b) eqn:Hsb.
    + destruct Hni. rewrite Heq. apply list_elem_of_fmap. eexists. split; [|by apply shared_runtime_elem]. done.
    + assert (∀ c, c ∈ clients → shares c = false →
        ∃ i, filter (λ c, shares c = false) clients !! i = Some c) as Hidx.
      { intros c Hin Hs. apply list_elem_of_lookup, list_elem_of_filter. done. }
      destruct (Hidx a Ha Hsa) as [i Hi], (Hidx b Hb Hsb) as [j Hj].
      assert (i = j) as <-; [|congruence].
      eapply NoDup_lookup; [exact Hp|rewrite list_lookup_fmap, Hi; done|].
      by rewrite list_lookup_fmap, Hj, Heq.
Qed.

Definition sample_ollama_settings (url : string) : OllamaSettings :=
  MkOllamaSettings url "10.0" "180.0" "30.0" 20 10 "30.0" 2 1.

(** The two spellings of one server, and a client with a transport of its own. *)
Lemma clients_share_runtimes_witness :
  let a := MkClient (sample_ollama_settings "http://ollama:11434") None None 0 in
  let b := MkClient (sample_ollama_settings "http://ollama:11434/") None None 0 in
  let c := MkClient (sample_ollama_settings "http://ollama:11434") (Some 7%nat) None 1 in
  (cl_runtime a = cl_runtime b ↔ _runtime_key (cl_settings a) = _runtime_key (cl_settings b)) ∧
  (cl_runtime c = cl_runtime a → c = a).
Proof.
  intros a b c.
  assert (rtc client_step (MkRuntimeHeap [] [], [])
    (MkRuntimeHeap [new_runtime (cl_settings a) None None; new_runtime (cl_settings c) (Some 7%nat) None]
       [(_runtime_key (cl_settings a), 0%nat)], [c; b; a])) as Hreach.
  { eapply rtc_l; [by apply (step_client (cl_settings a) None None 0%nat)|].
    eapply rtc_l; [by apply (step_client (cl_settings b) None None 0%nat)|].
    eapply rtc_l; [by apply (step_client (cl_settings c) (Some 7%nat) None 1%nat)|]. apply rtc_refl. }
  split.
  - apply (proj1 (clients_share_runtimes _ _ a b Hreach ltac:(by do 2 right; left) ltac:(by right; left)));
      reflexivity.
  - apply (proj2 (clients_share_runtimes _ _ c a Hreach ltac:(by left) ltac:(by do 2 right; left))). reflexivity.
Defined.
