(* ===== verification/McpProtocol.v ===== *)
(** * MCP messages

    The pure part of [app/mcp/]: JSON-RPC envelopes and responses
    ([protocol.py]), server-sent events ([sse.py]) and tool results
    ([result_parser.py]).  Strings are UTF-8 bytes. *)

From S2P Require Import Prelude PyData Json Base64 PyNum.

Definition protocol_error (msg : string) : exn := McpExn MCPProtocolError None msg.
Definition mismatch_error (msg : string) : exn := McpExn MCPResponseMismatchError None msg.

Section protocol.
(** [repr(v)], the [repr] of a JSON number's float, and [str] of a list or a dictionary. *)
Context (py_repr : pyval → string) (float_repr : string → string) (str_container : pyval → string).

(** ** Envelopes *)

Definition request_envelope (request_id : Z) (method : string) (params : pydict) : outcome pydict :=
  if nonempty method then
    Ret [("jsonrpc", VStr "2.0"); ("id", VInt request_id); ("method", VStr method);
         ("params", VDict params)]
  else Raise (PyExn ValueError "JSON-RPC method must not be empty.").

Definition notification_envelope (method : string) (params : pydict) : outcome pydict :=
  if nonempty method then
    Ret [("jsonrpc", VStr "2.0"); ("method", VStr method); ("params", VDict params)]
  else Raise (PyExn ValueError "JSON-RPC method must not be empty.").

Definition response_envelope (request_id result : pyval) : pydict :=
  [("jsonrpc", VStr "2.0"); ("id", request_id); ("result", result)].

Definition error_envelope (request_id : pyval) (code : Z) (message : string) (data : pyval) : pydict :=
  let error := [("code", VInt code); ("message", VStr message)] in
  let error := match data with VNone => error | _ => error ++ [("data", data)] end in
  [("jsonrpc", VStr "2.0"); ("id", request_id); ("error", VDict error)].

(** ** Responses *)

Record JSONRPCResponse : Type := MkResponse {
  rpc_request_id : pyval;
  rpc_result : pyval;
  rpc_error : pyval
}.

(** [v == n] for a request id [n]: Python compares numbers by value. *)
Definition id_matches (v : pyval) (n : Z) : bool :=
  match v with
  | VInt m => m =? n
  | VBool b => (if b then 1 else 0) =? n
  | VFloat r => String.eqb r (Z_to_string n +:+ ".0")
  | _ => false
  end.

Definition validate_response (payload : pyval) (expected_id : option Z) : outcome JSONRPCResponse :=
  match payload with
  | VDict d =>
      if negb (pyval_eqb (get_or_none "jsonrpc" d) (VStr "2.0")) then
        Raise (protocol_error "MCP response has an invalid or missing jsonrpc version.")
      else if dict_has "method" d then
        Raise (protocol_error "A JSON-RPC request/notification is not a response.")
      else if negb (dict_has "id" d) then
        Raise (protocol_error "MCP response is missing its JSON-RPC id.")
      else
        let response_id := get_or_none "id" d in
        if match expected_id with Some n => negb (id_matches response_id n) | None => false end then
          Raise (mismatch_error ("MCP response id " +:+ py_repr response_id
            +:+ " did not match request id "
            +:+ match expected_id with Some n => Z_to_string n | None => "None" end +:+ "."))
        else
          let error := get_or_none "error" d in
          let has_result := dict_has "result" d in
          let has_error := negb (pyval_eqb error VNone) in
          if Bool.eqb has_result has_error then
            Raise (protocol_error "MCP response must contain exactly one of result or error.")
          else if has_error && negb (match error with VDict _ => true | _ => false end) then
            Raise (protocol_error "MCP JSON-RPC error must be a JSON object.")
          else Ret (MkResponse response_id (get_or_none "result" d) error)
  | _ => Raise (protocol_error "MCP response must be a JSON object.")
  end.

(** What one message of the stream is to the request waiting for [expected_id]. *)
Inductive message_kind : Type :=
  | Ignored              (** not for this request: a notification, a server request, noise *)
  | Malformed            (** resembles a response, without the version *)
  | Other (id : pyval)   (** the response to another request *)
  | Matching.

Definition classify (payload : pyval) (expected_id : Z) : message_kind :=
  match payload with
  | VDict d =>
      let answers := dict_has "result" d || dict_has "error" d in
      if negb (pyval_eqb (get_or_none "jsonrpc" d) (VStr "2.0")) then
        if dict_has "id" d && answers then Malformed else Ignored
      else if dict_has "method" d then Ignored
      else if negb answers then Ignored
      else
        let id := get_or_none "id" d in
        if id_matches id expected_id then Matching else Other id
  | _ => Ignored
  end.

Fixpoint select_from (messages : list pyval) (expected_id : Z) (response_ids : list pyval) :
    outcome JSONRPCResponse :=
  match messages with
  | [] =>
      match response_ids with
      | [] => Raise (protocol_error
          ("MCP stream contained no JSON-RPC response for request id "
           +:+ Z_to_string expected_id +:+ "."))
      | _ => Raise (mismatch_error
          ("MCP response ids " +:+ py_repr (VList response_ids)
           +:+ " did not include request id " +:+ Z_to_string expected_id +:+ "."))
      end
  | payload :: messages =>
      match classify payload expected_id with
      | Ignored => select_from messages expected_id response_ids
      | Malformed =>
          match validate_response payload (Some expected_id) with
          | Raise e => Raise e
          | Ret _ => select_from messages expected_id response_ids
          end
      | Matching => validate_response payload (Some expected_id)
      | Other id => select_from messages expected_id (response_ids ++ [id])
      end
  end.

Definition select_response (messages : list pyval) (expected_id : Z) : outcome JSONRPCResponse :=
  select_from messages expected_id [].

(** ** Server-sent events *)

Record SSEEvent : Type := MkEvent {
  ev_event : option string;
  ev_data : string;
  ev_event_id : option string
}.

(** The byte at an index, 256 past the end. *)
Definition byte_at (n : nat) (s : string) : N :=
  match String.get n s with Some c => code c | None => 256%N end.

Definition one_byte_break (a : N) : bool :=
  ((a =? 10) || (a =? 11) || (a =? 12) || (a =? 13) || ((28 <=? a) && (a <=? 30)))%N.

(** The length of the line boundary [s] starts with, as [str.splitlines] sees
  it: besides the newlines, the separators U+000B, U+000C, U+001C to U+001E,
  U+0085, U+2028 and U+2029. *)
Definition line_break (s : string) : option nat :=
  let a := byte_at 0 s in
  let b := byte_at 1 s in
  let c := byte_at 2 s in
  if ((a =? 13) && (b =? 10))%N then Some 2%nat
  else if one_byte_break a then Some 1%nat
  else if ((a =? 194) && (b =? 133))%N then Some 2%nat
  else if ((a =? 226) && (b =? 128) && ((c =? 168) || (c =? 169)))%N then Some 3%nat
  else None.

(** [s.splitlines()]; [fuel] is the length of [s]. *)
Fixpoint splitlines_from (fuel : nat) (cur s : string) : list string :=
  match s, fuel with
  | EmptyString, _ => if nonempty cur then [srev cur] else []
  | _, O => []
  | String c s', S fuel =>
      match line_break s with
      | Some n => srev cur :: splitlines_from fuel EmptyString (sdrop n s)
      | None => splitlines_from fuel (String c cur) s'
      end
  end.

Definition splitlines (s : string) : list string :=
  splitlines_from (String.length s) EmptyString s.

(** [s.partition(":")]: [None] without a separator. *)
Fixpoint partition_colon (s : string) : string * option string :=
  match s with
  | EmptyString => (EmptyString, None)
  | String c s' =>
      if (code c =? 58)%N then (EmptyString, Some s')
      else let '(field, value) := partition_colon s' in (String c field, value)
  end.

Record SSEState : Type := MkSSE {
  sse_event : option string;
  sse_id : option string;
  sse_data : list string;
  sse_events : list SSEEvent
}.

Definition sse_flush (st : SSEState) : SSEState :=
  MkSSE None None []
    (match sse_data st with
     | [] => sse_events st
     | lines => sse_events st ++ [MkEvent (sse_event st) (join nl lines) (sse_id st)]
     end).

(** [value[1:]] when it starts with a space. *)
Definition drop_space (value : string) : string :=
  match value with
  | String c v => if (code c =? 32)%N then v else value
  | EmptyString => EmptyString
  end.

Definition has_nul (s : string) : bool := mem_char (Ascii.ascii_of_N 0) s.

Definition sse_line (st : SSEState) (raw_line : string) : SSEState :=
  let line := rstrip_by (λ c, code c =? 13)%N raw_line in
  if negb (nonempty line) then sse_flush st
  else if startswith ":" line then st
  else
    let '(field, value) := partition_colon line in
    let value := match value with Some v => drop_space v | None => EmptyString end in
    if String.eqb field "event" then MkSSE (Some value) (sse_id st) (sse_data st) (sse_events st)
    else if String.eqb field "id" then
      if has_nul value then st else MkSSE (sse_event st) (Some value) (sse_data st) (sse_events st)
    else if String.eqb field "data" then
      MkSSE (sse_event st) (sse_id st) (sse_data st ++ [value]) (sse_events st)
    else st.

Definition parse_sse (text : string) : list SSEEvent :=
  sse_events (sse_flush (foldl sse_line (MkSSE None None [] []) (splitlines text))).

(** ** Message bodies *)

Definition items_of (payload : pyval) : list pyval :=
  match payload with VList l => l | v => [v] end.

Fixpoint objects_of (values : list pyval) : outcome (list pydict) :=
  match values with
  | [] => Ret []
  | VDict d :: values => match objects_of values with Ret ds => Ret (d :: ds) | Raise e => Raise e end
  | _ :: _ => Raise (protocol_error "MCP JSON response items must be JSON objects.")
  end.

Fixpoint decode_candidates (candidates : list string) : outcome (list pydict) :=
  match candidates with
  | [] => Ret []
  | candidate :: candidates =>
      match loads float_repr candidate with
      | None => Raise (protocol_error
          ("MCP response contained invalid JSON: " +:+ stake_Z 300 candidate))
      | Some payload =>
          match objects_of (items_of payload) with
          | Raise e => Raise e
          | Ret ds =>
              match decode_candidates candidates with Ret ds' => Ret (ds ++ ds') | Raise e => Raise e end
          end
      end
  end.

Definition is_sse (stripped content_type : string) : bool :=
  contains "text/event-stream" (lower content_type)
  || startswith "event:" stripped || startswith "data:" stripped || startswith ":" stripped.

Definition decode_json_messages (text content_type : string) : outcome (list pydict) :=
  let stripped := strip text in
  if negb (nonempty stripped) then Raise (protocol_error "MCP response body was empty.")
  else
    let candidates :=
      if is_sse stripped content_type then
        List.filter (λ d, negb (String.eqb d "[DONE]")) (map ev_data (parse_sse stripped))
      else [stripped] in
    match candidates with
    | [] => Raise (protocol_error "MCP SSE response contained no JSON data events.")
    | _ =>
        match decode_candidates candidates with
        | Raise e => Raise e
        | Ret [] => Raise (protocol_error "MCP response contained no JSON-RPC objects.")
        | Ret messages => Ret messages
        end
    end.

(** [decode_json_messages(text, content_type)[-1]]. *)
Definition decode_json_response (text content_type : string) : outcome pydict :=
  match decode_json_messages text content_type with
  | Raise e => Raise e
  | Ret messages =>
      match List.rev messages with
      | [] => Raise (PyExn IndexError "list index out of range")
      | message :: _ => Ret message
      end
  end.

(** ** Tool results *)

Record ParsedToolResult : Type := MkParsed {
  pt_ok : bool;
  pt_data : pyval;
  pt_error : option string;
  pt_raw : option pydict
}.

Definition to_text : pyval → string := str_value str_container.

Definition _maybe_json (text : string) : pyval :=
  let stripped := strip text in
  match stripped with
  | EmptyString => VStr EmptyString
  | String c _ =>
      if ((code c =? 91) || (code c =? 123) || (code c =? 34))%N then
        match loads float_repr stripped with Some v => v | None => VStr text end
      else VStr text
  end.

Definition content_item (item : pyval) : pyval :=
  match item with
  | VDict d =>
      if pyval_eqb (get_or_none "type" d) (VStr "text") then
        let text := get_or_none "text" d in
        _maybe_json (if truthy text then to_text text else EmptyString)
      else item
  | _ => item
  end.

Definition _normalize (result : pydict) : pyval :=
  match dict_get "structuredContent" result with
  | Some v => v
  | None =>
      match get_or_none "content" result with
      | VList content =>
          match map content_item content with [item] => item | items => VList items end
      | _ => VDict result
      end
  end.

Definition no_error_text : string := "MCP tool returned isError=true.".

Definition str_or_no_error (data : pyval) : string :=
  if truthy data then to_text data else no_error_text.

Definition _extract_error (data : pyval) : string :=
  match data with
  | VDict d =>
      match List.filter truthy (map (λ k, get_or_none k d) ["error"; "message"; "detail"]) with
      | value :: _ => to_text value
      | [] => str_or_no_error data
      end
  | VList items =>
      str_or (join "; " (map to_text (List.filter truthy items))) no_error_text
  | _ => str_or_no_error data
  end.

Definition parse_tool_result (result : pyval) : ParsedToolResult :=
  match result with
  | VDict d =>
      let is_error := pyval_eqb (get_or_none "isError" d) (VBool true) in
      let data := _normalize d in
      MkParsed (negb is_error) data (if is_error then Some (_extract_error data) else None) (Some d)
  | _ => MkParsed true result None None
  end.
End protocol.

(** [encode_sse] of [app/graph.py]. *)
Definition encode_sse (event_name : string) (data : pyval) : string :=
  "event: " +:+ event_name +:+ nl +:+ "data: " +:+ dumps default_separators data +:+ nl +:+ nl.

(** ** Selecting the response *)

Section selection.
Context (py_repr : pyval → string).

(** [v == n] in Python, where [True == 1] and [1.0 == 1]. *)
Definition same_id (v : pyval) (n : Z) : Prop :=
  v = VInt n ∨ (v = VBool true ∧ n = 1) ∨ (v = VBool false ∧ n = 0) ∨ v = VFloat (Z_to_string n +:+ ".0").

Lemma id_matches_iff v n : id_matches v n = true ↔ same_id v n.
Proof.
  unfold id_matches, same_id. destruct v as [|[]|m|r|s|l|d]; try naive_solver.
  - rewrite Z.eqb_eq. naive_solver.
  - rewrite Z.eqb_eq. naive_solver.
  - rewrite Z.eqb_eq. naive_solver.
  - rewrite String.eqb_eq. naive_solver.
Qed.

(** A well-formed response to the request [n]: the version, no method, the
request's id, and exactly one of a result and an error, which is an object; a
[null] error is none. *)
Record response_to (n : Z) (d : pydict) (r : JSONRPCResponse) : Prop := MkResponseTo {
  rt_version : dict_get "jsonrpc" d = Some (VStr "2.0");
  rt_not_request : dict_get "method" d = None;
  rt_id : ∃ v, dict_get "id" d = Some v ∧ same_id v n ∧ rpc_request_id r = v;
  rt_one :
    (∃ v, dict_get "result" d = Some v ∧ default VNone (dict_get "error" d) = VNone ∧
      rpc_result r = v ∧ rpc_error r = VNone) ∨
    (∃ e, dict_get "result" d = None ∧ dict_get "error" d = Some (VDict e) ∧
      rpc_result r = VNone ∧ rpc_error r = VDict e)
}.

Lemma dict_has_iff {A} k (d : list (string * A)) : dict_has k d = true ↔ is_Some (dict_get k d).
Proof. unfold dict_has. destruct (dict_get k d); (split; [by eauto|by intros [? [=]]]). Qed.

Lemma dict_has_not {A} k (d : list (string * A)) : dict_has k d = false ↔ dict_get k d = None.
Proof. unfold dict_has. by destruct (dict_get k d). Qed.

Lemma version_iff (d : pydict) : pyval_eqb (get_or_none "jsonrpc" d) (VStr "2.0") = true ↔ dict_get "jsonrpc" d = Some (VStr "2.0").
Proof. rewrite pyval_eqb_eq. unfold get_or_none. destruct (dict_get "jsonrpc" d); naive_solver. Qed.

Lemma validate_response_spec d n r :
  validate_response py_repr (VDict d) (Some n) = Ret r ↔ response_to n d r.
Proof.
  unfold validate_response. split.
  - destruct (pyval_eqb (get_or_none "jsonrpc" d) (VStr "2.0")) eqn:Hv; [|done].
    apply version_iff in Hv. cbn [negb]. destruct (dict_has "method" d) eqn:Hm; [done|].
    apply dict_has_not in Hm. unfold dict_has, get_or_none.
    destruct (dict_get "id" d) as [v|] eqn:Hi; [|done]. cbn [negb from_option id].
    destruct (id_matches v n) eqn:Hid; [|done]. apply id_matches_iff in Hid. cbn [negb].
    destruct (dict_get "result" d) as [x|] eqn:Hr, (dict_get "error" d) as [[]|] eqn:He; try done;
      cbn; intros [= <-]; (constructor; [done..|by exists v|]); cbn; rewrite ?Hr, ?He; eauto 10.
  - intros [Hv Hm (v&Hi&Hid&Hrid) Ho]. rewrite (proj2 (version_iff d) Hv).
    apply id_matches_iff in Hid. apply dict_has_not in Hm. rewrite Hm. unfold dict_has, get_or_none.
    rewrite Hi. cbn [negb from_option id]. rewrite Hid. cbn [negb]. destruct r as [rid rres rerr]. cbn in *. subst rid.
    destruct Ho as [(x&Hr&He&->&->)|(e&Hr&He&->&->)]; rewrite Hr; [|by rewrite He].
    destruct (dict_get "error" d) as [[]|]; by try discriminate He.
Qed.

(** A message that looks like a response: an id, and a result or an error. *)
Definition like_response (d : pydict) : Prop :=
  is_Some (dict_get "id" d) ∧ (is_Some (dict_get "result" d) ∨ is_Some (dict_get "error" d)).

(** A message that is not for the request [n]: no object; without the version, and
not like a response either; a request or a notification of the server; neither a
result nor an error; or a response with another id, or without one. *)
Definition not_for (n : Z) (m : pyval) : Prop :=
  ∀ d, m = VDict d →
    if bool_decide (dict_get "jsonrpc" d = Some (VStr "2.0"))
    then is_Some (dict_get "method" d) ∨ (dict_get "result" d = None ∧ dict_get "error" d = None) ∨
      ¬ ∃ v, dict_get "id" d = Some v ∧ same_id v n
    else ¬ like_response d.

Lemma answers_iff (d : pydict) : dict_has "result" d || dict_has "error" d = false ↔
  dict_get "result" d = None ∧ dict_get "error" d = None.
Proof. by rewrite orb_false_iff, !dict_has_not. Qed.

Lemma not_for_iff n m : not_for n m ↔ match classify m n with Matching | Malformed => False | _ => True end.
Proof.
  destruct m as [| | | | | |d]; try done. unfold not_for, classify.
  transitivity (if bool_decide (dict_get "jsonrpc" d = Some (VStr "2.0"))
    then is_Some (dict_get "method" d) ∨ (dict_get "result" d = None ∧ dict_get "error" d = None) ∨
      ¬ ∃ v, dict_get "id" d = Some v ∧ same_id v n
    else ¬ like_response d).
  { split; [by intros H; apply H|]. by intros H ? [= <-]. }
  case_bool_decide as Hv.
  - rewrite (proj2 (version_iff d) Hv). cbn [negb]. rewrite <- dict_has_iff, <- answers_iff.
    destruct (dict_has "method" d); [split; auto|].
    destruct (dict_has "result" d || dict_has "error" d); cbn [negb]; [|split; auto].
    destruct (id_matches (get_or_none "id" d) n) eqn:E; split; try done.
    + intros [?|[?|H]]; [done..|]. apply H. apply id_matches_iff in E. unfold get_or_none in E.
      destruct (dict_get "id" d) as [v|]; [by exists v|]. by destruct E as [?|[[? _]|[[? _]|?]]].
    + intros _. right. right. intros (v&Hi&Hv'). unfold get_or_none in E. rewrite Hi in E.
      apply id_matches_iff in Hv'. cbn in E. by rewrite Hv' in E.
  - destruct (pyval_eqb _ _) eqn:E; [by apply version_iff in E|]. cbn [negb]. unfold like_response.
    rewrite <- !dict_has_iff, <- orb_true_iff, <- andb_true_iff.
    by destruct (dict_has "id" d && _).
Qed.

Lemma classify_for d n : ¬ not_for n (VDict d) →
  classify (VDict d) n = (if bool_decide (dict_get "jsonrpc" d = Some (VStr "2.0")) then Matching else Malformed).
Proof.
  rewrite not_for_iff. unfold classify. case_bool_decide as Hv.
  - rewrite (proj2 (version_iff d) Hv). cbn [negb]. repeat case_match; naive_solver.
  - destruct (pyval_eqb _ _) eqn:E; [by apply version_iff in E|]. cbn [negb]. destruct (dict_has "id" d && _); naive_solver.
Qed.

Lemma response_for n d r : response_to n d r → ¬ not_for n (VDict d).
Proof.
  intros [Hv Hm (v&Hi&Hid&_) Ho] H. specialize (H d eq_refl). rewrite bool_decide_eq_true_2 in H by done.
  destruct H as [[? ?]|[[Hr He]|H]]; [congruence| |by apply H; exists v].
  destruct Ho as [(?&?&_)|(?&_&?&_)]; congruence.
Qed.

(** The search stops at the first message for the request. *)
Lemma select_from_skip n before rest ids :
  Forall (not_for n) before → ∃ ids', select_from py_repr (before ++ rest) n ids = select_from py_repr rest n ids'.
Proof.
  intros Hb. revert ids. induction Hb as [|m before Hm _ IH]; intros ids; [by exists ids|].
  apply not_for_iff in Hm. cbn [app select_from]. destruct (classify m n); [apply IH|done|apply IH|done].
Qed.

Lemma select_from_for n d rest ids : ¬ not_for n (VDict d) →
  select_from py_repr (VDict d :: rest) n ids = validate_response py_repr (VDict d) (Some n).
Proof.
  intros Hn. cbn [select_from]. rewrite (classify_for d n Hn). case_bool_decide as Hv; [done|].
  destruct (validate_response _ _ _) as [r|e] eqn:E; [|done].
  apply validate_response_spec in E. by destruct (Hv (rt_version _ _ _ E)).
Qed.

Lemma select_from_none n messages ids r :
  Forall (not_for n) messages → select_from py_repr messages n ids ≠ Ret r.
Proof.
  intros H. destruct (select_from_skip n messages [] ids H) as [ids' E]. rewrite app_nil_r in E.
  rewrite E. by destruct ids'.
Qed.

#[local] Instance same_id_dec v n : Decision (same_id v n).
Proof. destruct (id_matches v n) eqn:E; [left; by apply id_matches_iff|right]. rewrite <- id_matches_iff. congruence. Defined.

Lemma first_for n messages : Forall (not_for n) messages ∨
  ∃ before d after, messages = before ++ VDict d :: after ∧ Forall (not_for n) before ∧ ¬ not_for n (VDict d).
Proof.
  induction messages as [|m messages IH]; [by left|].
  assert (not_for n m ∨ ¬ not_for n m) as [Hm|Hm] by (rewrite not_for_iff; destruct (classify m n); auto).
  - destruct IH as [H|(before&d&after&->&Hb&Hd)]; [left; by constructor|right].
    exists (m :: before), d, after. split_and!; [done|by constructor|done].
  - right. destruct m as [| | | | | |d]; try (destruct Hm; by intros ? [=]). by exists [], d, messages.
Qed.

(** C27. A reply is never mistaken for another's.  [select_response] returns [r]
    exactly when the messages hold a well-formed response to the request [n] with
    the fields of [r], and every message before it is not for this request: a
    notification, a request of the server, a response to another request, or no
    JSON-RPC message at all.  And it fails, rather than pass over it, at the first
    message with an id and a result or an error that lacks the version, whatever
    comes later. *)
Theorem select_response_spec messages n :
  (∀ r, select_response py_repr messages n = Ret r ↔
    ∃ before d after, messages = before ++ VDict d :: after ∧
      Forall (not_for n) before ∧ response_to n d r) ∧
  (∀ before d after, messages = before ++ VDict d :: after → Forall (not_for n) before →
    like_response d → dict_get "jsonrpc" d ≠ Some (VStr "2.0") →
    select_response py_repr messages n =
      Raise (McpExn MCPProtocolError None "MCP response has an invalid or missing jsonrpc version.")).
Proof.
  unfold select_response. split.
  - intros r. split.
    + intros E. destruct (first_for n messages) as [H|(before&d&after&->&Hb&Hd)].
      { by apply select_from_none with (ids := []) (r := r) in H. }
      destruct (select_from_skip n before (VDict d :: after) [] Hb) as [ids Es].
      rewrite Es, select_from_for in E by done. apply validate_response_spec in E. by exists before, d, after.
    + intros (before&d&after&->&Hb&Hr). destruct (select_from_skip n before (VDict d :: after) [] Hb) as [ids ->].
      rewrite select_from_for by (by eapply response_for). by apply validate_response_spec.
  - intros before d after -> Hb Hl Hv. destruct (select_from_skip n before (VDict d :: after) [] Hb) as [ids ->].
    assert (¬ not_for n (VDict d)) as Hn.
    { intros H. specialize (H d eq_refl). rewrite bool_decide_eq_false_2 in H by done. by apply H. }
    rewrite select_from_for by done. unfold validate_response.
    destruct (pyval_eqb _ _) eqn:E; [by apply version_iff in E|done].
Qed.
End selection.

(** A stream with a notification and a reply without the version before the reply. *)
Definition sample_notification : pydict := [("jsonrpc", VStr "2.0"); ("method", VStr "progress")].
Definition sample_unversioned : pydict := [("id", VInt 8); ("result", VNone)].
Definition sample_reply : pydict := [("jsonrpc", VStr "2.0"); ("id", VInt 7); ("result", VStr "done")].

Lemma sample_notification_not_for : not_for 7 (VDict sample_notification).
Proof. intros ? [= <-]. left. by eexists. Qed.

Lemma select_response_spec_witness :
  select_response (λ _, "") [VDict sample_notification; VDict sample_reply] 7 =
    Ret (MkResponse (VInt 7) (VStr "done") VNone) ∧
  select_response (λ _, "") [VDict sample_notification; VDict sample_unversioned; VDict sample_reply] 7 =
    Raise (McpExn MCPProtocolError None "MCP response has an invalid or missing jsonrpc version.").
Proof.
  split.
  - apply (proj1 (select_response_spec (λ _, "") [VDict sample_notification; VDict sample_reply] 7)).
    exists [VDict sample_notification], sample_reply, []. split; [reflexivity|].
    split; [constructor; [apply sample_notification_not_for|constructor]|].
    constructor; [reflexivity|reflexivity| |].
    + exists (VInt 7). split; [reflexivity|]. split; [left; reflexivity|reflexivity].
    + left. exists (VStr "done"). repeat split; reflexivity.
  - apply (proj2 (select_response_spec (λ _, "")
      [VDict sample_notification; VDict sample_unversioned; VDict sample_reply] 7)
      [VDict sample_notification] sample_unversioned [VDict sample_reply]).
    + reflexivity.
    + constructor; [apply sample_notification_not_for|constructor].
    + split; [|left]; eexists; reflexivity.
    + intros H. discriminate H.
Defined.

(** ** Events round trip *)

(** No line boundary anywhere. *)
Fixpoint no_break (s : string) : bool :=
  match s with
  | EmptyString => true
  | String _ s' => match line_break s with Some _ => false | None => no_break s' end
  end.

Lemma line_break_nl s : line_break (nl +:+ s) = Some 1%nat.
Proof. done. Qed.

(** A boundary is decided by three bytes, and no boundary but a newline ends
    with one. *)
Lemma line_break_app c a b :
  line_break (String c a) = None → line_break (String c a +:+ nl +:+ b) = None.
Proof.
  rewrite sapp_cons. unfold line_break, byte_at.
  destruct a as [|c2 [|c3 a]]; rewrite ?sapp_cons, ?sapp_nil; cbn [String.get nl]; [| |done];
    change (code (Ascii.ascii_of_N 10)) with 10%N.
  - intros H. destruct (one_byte_break (code c)) eqn:E1; [by rewrite andb_false_r in H|].
    assert ((code c =? 13)%N = false) as E2.
    { unfold one_byte_break in E1. by repeat apply orb_false_iff in E1 as [E1 ?]. }
    rewrite E2. simpl. rewrite !andb_false_r. simpl. done.
  - destruct ((code c =? 13)%N && _); [done|]. destruct (one_byte_break (code c)); [done|].
    destruct ((code c =? 194)%N && _); [done|]. intros _. simpl. by rewrite andb_false_r.
Qed.

Lemma splitlines_fuel fuel fuel' cur s :
  (String.length s ≤ fuel)%nat → (String.length s ≤ fuel')%nat →
  splitlines_from fuel cur s = splitlines_from fuel' cur s.
Proof.
  assert (∀ n s, (String.length (sdrop n s) ≤ String.length s)%nat) as Hd.
  { intros n. induction n as [|n IH]; intros [|c s0]; simpl; try lia. specialize (IH s0). lia. }
  assert (∀ s n, line_break s = Some n → (0 < n)%nat) as Hpos.
  { intros s0 n. unfold line_break. intros H. cbv zeta in H. repeat case_match; simplify_eq; lia. }
  revert fuel' cur s. induction fuel as [|fuel IH]; intros [|fuel'] cur [|c s]; simpl; try done; try lia.
  intros H1 H2. destruct (line_break (String c s)) as [n|] eqn:E.
  - f_equal. apply Hpos in E. destruct n as [|n]; [lia|]. simpl. specialize (Hd n s). apply IH; lia.
  - apply IH; lia.
Qed.

Lemma splitlines_line a b cur fuel :
  no_break a = true → (String.length (a +:+ nl +:+ b) ≤ fuel)%nat →
  splitlines_from fuel cur (a +:+ nl +:+ b) = (srev cur +:+ a) :: splitlines b.
Proof.
  revert cur fuel. induction a as [|c a IH]; intros cur fuel Ha Hf.
  - rewrite sapp_nil in *. rewrite sapp_nil_r. destruct fuel as [|fuel]; [simpl in Hf; lia|].
    change (nl +:+ b) with (String (Ascii.ascii_of_N 10) b) in *. cbn [splitlines_from].
    pose proof (line_break_nl b) as E. change (nl +:+ b) with (String (Ascii.ascii_of_N 10) b) in E.
    rewrite E. simpl. f_equal. apply splitlines_fuel; simpl in Hf; lia.
  - simpl in Ha. destruct (line_break (String c a)) eqn:E; [done|].
    destruct fuel as [|fuel]; [simpl in Hf; lia|]. rewrite sapp_cons in *. cbn [splitlines_from].
    pose proof (line_break_app c a b E) as E'. rewrite sapp_cons in E'. rewrite E'.
    rewrite IH; [|done|simpl in Hf; lia]. by rewrite srev_cons, sapp_assoc, sapp_cons, sapp_nil.
Qed.

Lemma splitlines_last a cur fuel :
  no_break a = true → nonempty (srev cur +:+ a) = true → (String.length a ≤ fuel)%nat →
  splitlines_from fuel cur a = [srev cur +:+ a].
Proof.
  revert cur fuel. induction a as [|c a IH]; intros cur fuel Ha Hn Hf.
  - rewrite sapp_nil_r in *. destruct cur as [|x cur]; [done|]. by destruct fuel.
  - simpl in Ha. destruct (line_break (String c a)) eqn:E; [done|].
    destruct fuel as [|fuel]; [simpl in Hf; lia|]. cbn [splitlines_from]. rewrite E.
    assert (srev (String c cur) +:+ a = srev cur +:+ String c a) as Es
      by (by rewrite srev_cons, sapp_assoc, sapp_cons, sapp_nil).
    rewrite IH; [by rewrite Es|done|by rewrite Es|simpl in Hf; lia].
Qed.

(** The body [encode_sse] writes, without the white space at its end. *)
Definition sse_text (name json : string) : string :=
  ("event: " +:+ name) +:+ nl +:+ "data: " +:+ json.

(** A boundary does not reach into an ASCII prefix. *)
Lemma no_break_prefix p a :
  sforall (λ c, is_ascii c && negb (one_byte_break (code c))) p = true → no_break a = true →
  no_break (p +:+ a) = true.
Proof.
  intros Hp Ha. induction p as [|c p IH]; [done|]. rewrite sapp_cons. simpl in Hp.
  apply andb_true_iff in Hp as [Hc Hp]. apply andb_true_iff in Hc as [Hc Hs].
  apply negb_true_iff in Hs. unfold is_ascii in Hc. apply N.ltb_lt in Hc.
  cbn [no_break]. assert (line_break (String c (p +:+ a)) = None) as ->; [|by apply IH].
  unfold line_break. change (byte_at 0 _) with (code c). rewrite Hs.
  assert ((code c =? 13)%N = false) as ->.
  { unfold one_byte_break in Hs. by repeat apply orb_false_iff in Hs as [Hs ?]. }
  assert ((code c =? 194)%N = false) as -> by (apply N.eqb_neq; lia).
  by assert ((code c =? 226)%N = false) as -> by (apply N.eqb_neq; lia).
Qed.

Lemma no_break_no_cr s : no_break s = true → sforall (λ c, negb (code c =? 13)%N) s = true.
Proof.
  induction s as [|c s IH]; [done|]. simpl. destruct (line_break (String c s)) eqn:E; [done|].
  intros Hs. rewrite (IH Hs), andb_true_r. unfold line_break in E. change (byte_at 0 _) with (code c) in E.
  destruct (one_byte_break (code c)) eqn:E1; [by destruct (_ && _) in E|].
  unfold one_byte_break in E1. repeat apply orb_false_iff in E1 as [E1 ?]. by apply negb_true_iff.
Qed.

Lemma rstrip_no_break s : no_break s = true → rstrip_by (λ c, code c =? 13)%N s = s.
Proof.
  intros Hs%no_break_no_cr. unfold rstrip_by.
  rewrite <-(sforall_srev (λ c, negb (code c =? 13)%N)) in Hs.
  replace (drop_while _ (srev s)) with (srev s); [apply srev_involutive|].
  destruct (srev s) as [|c r]; [done|]. simpl in *. by destruct (code c =? 13)%N.
Qed.

Lemma parse_event name json :
  no_break name = true → no_break json = true →
  parse_sse (sse_text name json) = [MkEvent (Some name) json None].
Proof.
  intros Hn Hj. unfold parse_sse, sse_text, splitlines.
  assert (no_break ("event: " +:+ name) = true) as Hn' by by apply no_break_prefix.
  assert (no_break ("data: " +:+ json) = true) as Hj' by by apply no_break_prefix.
  rewrite splitlines_line, sapp_nil by done. unfold splitlines.
  rewrite splitlines_last, sapp_nil by done. cbn [foldl].
  unfold sse_line at 2. rewrite rstrip_no_break by done.
  unfold sse_line. rewrite rstrip_no_break by done. reflexivity.
Qed.

Lemma strip_body a c :
  is_space c = false → nonempty a = true →
  match a with String x _ => is_space x = false | EmptyString => True end →
  strip (a +:+ String c (nl +:+ nl)) = a +:+ String c EmptyString.
Proof.
  intros Hc Hn Ha. unfold strip, strip_by, lstrip_by, rstrip_by.
  destruct a as [|x a]; [done|]. rewrite sapp_cons. cbn [drop_while]. rewrite Ha.
  rewrite <-sapp_cons. change (String c (nl +:+ nl)) with (String c EmptyString +:+ (nl +:+ nl)).
  rewrite srev_app_distr, srev_app_distr.
  change (srev (nl +:+ nl)) with (nl +:+ nl).
  change (srev (String c EmptyString)) with (String c EmptyString).
  rewrite sapp_assoc, sapp_cons, sapp_nil.
  change ((nl +:+ nl) +:+ String c (srev (String x a))) with
    (String (Ascii.ascii_of_N 10) (String (Ascii.ascii_of_N 10) (String c (srev (String x a))))).
  cbn [drop_while]. change (is_space (Ascii.ascii_of_N 10)) with true. cbn iota. rewrite Hc.
  by rewrite srev_cons, srev_involutive.
Qed.

Lemma strip_encoded name (d : pydict) :
  strip (encode_sse name (VDict d)) = sse_text name (dumps default_separators (VDict d)).
Proof.
  unfold encode_sse, sse_text. cbn [dumps]. set (pairs := join _ _). clearbody pairs.
  pose proof (strip_body ("event: " +:+ name +:+ nl +:+ "data: " +:+ "{" +:+ pairs) (Ascii.ascii_of_N 125)
    eq_refl eq_refl eq_refl) as E.
  rewrite !sapp_assoc in *. exact E.
Qed.

(** Events round trip.  What the service streams is what its MCP side would
    read: for an event without line boundaries in its name and in its JSON, the
    body [encode_sse] writes is decoded to the one event, with the same name,
    and to the one JSON object that was encoded. *)
Theorem sse_round_trip float_repr name d content_type
    (Hplain : json_plain (VDict d) = true)
    (Hname : no_break name = true)
    (Hjson : no_break (dumps default_separators (VDict d)) = true) :
  parse_sse (strip (encode_sse name (VDict d))) =
    [MkEvent (Some name) (dumps default_separators (VDict d)) None] ∧
  decode_json_messages float_repr (encode_sse name (VDict d)) content_type = Ret [d].
Proof.
  rewrite strip_encoded, parse_event by done. split; [done|].
  unfold decode_json_messages. rewrite strip_encoded.
  assert (is_sse (sse_text name (dumps default_separators (VDict d))) content_type = true) as ->.
  { unfold is_sse. apply orb_true_iff. left. apply orb_true_iff. left. apply orb_true_iff. by right. }
  rewrite parse_event by done. change (nonempty (sse_text _ _)) with true. cbn [negb map].
  assert (String.eqb (dumps default_separators (VDict d)) "[DONE]" = false) as Hd by done.
  cbn [List.filter ev_data]. rewrite Hd. cbn [negb decode_candidates].
  by rewrite loads_dumps by (first [done|by left]).
Qed.

Lemma sse_round_trip_witness :
  decode_json_messages (λ r, r) (encode_sse "final_answer" (VDict [("response", VStr ("a" +:+ nl +:+ "data: b"))]))
    "text/event-stream" = Ret [[("response", VStr ("a" +:+ nl +:+ "data: b"))]].
Proof. apply sse_round_trip; vm_compute; reflexivity. Defined.

(** A line separator inside a JSON string, which JSON and [dumps] leave as it
    is, ends the line for [splitlines], though not for the format of events. *)
Definition separator_2028 : string :=
  String (Ascii.ascii_of_N 226) (String (Ascii.ascii_of_N 128) (String (Ascii.ascii_of_N 168) EmptyString)).

Theorem separator_breaks_event :
  let d := [("text", VStr ("one" +:+ separator_2028 +:+ "two"))] in
  loads (λ r, r) (dumps default_separators (VDict d)) = Some (VDict d) ∧
  match decode_json_messages (λ r, r) (encode_sse "message" (VDict d)) "text/event-stream" with
  | Raise (McpExn MCPProtocolError None _) => True
  | _ => False
  end.
Proof. vm_compute. split; [reflexivity|exact I]. Qed.
