(* ===== verification/McpClient.v ===== *)
(** * The MCP client

    [MCPHTTPTransport], [MCPSessionManager] and [MCPClient] of [app/mcp/]: the
    session handshake and its recovery, metered posts, the tool list with its
    cache, and tool calls.  The client is part of the process of [Ollama]; as
    there, a host operation is a suspension, during which other requests may use
    the client. *)

From S2P Require Import Prelude PyData Json RunTypes Metrics Settings Evidence Meter PyNum ToolPolicy.
From S2P Require Import Ollama McpProtocol.

Record MCPSessionState : Type := MkSession {
  ss_initialized : bool;
  ss_session_id : option string;
  ss_protocol_version : option string;
  ss_server_info : option pydict;
  ss_capabilities : option pydict
}.

#[export] Instance eta_MCPSessionState : Eta MCPSessionState := λ s,
  MkSession (ss_initialized s) (ss_session_id s) (ss_protocol_version s) (ss_server_info s)
    (ss_capabilities s).

Definition fresh_session : MCPSessionState := MkSession false None None None None.

(** The client, its session manager and its transport. *)
Record McpState : Type := MkMcp {
  mc_client : bool;
  mc_request_id : Z;
  mc_session : MCPSessionState;
  mc_generation : Z;
  mc_tools_cache : option (list pydict);
  mc_tools_cached_at : Z
}.

#[export] Instance eta_McpState : Eta McpState := λ s,
  MkMcp (mc_client s) (mc_request_id s) (mc_session s) (mc_generation s) (mc_tools_cache s)
    (mc_tools_cached_at s).

Definition mcp_init : McpState := MkMcp false 0 fresh_session 0 None 0.

Record McpProcess (Z0 : Type) : Type := MkMcpProcess {
  mp_mcp : McpState;
  mp_ext : Z0
}.
Arguments MkMcpProcess {Z0}. Arguments mp_mcp {Z0}. Arguments mp_ext {Z0}.

#[export] Instance eta_McpProcess {Z0} : Eta (McpProcess Z0) := λ p,
  MkMcpProcess (mp_mcp p) (mp_ext p).

(** Header names in lower case, as [httpx] yields them. *)
Abbreviation headers := (list (string * string)) (only parsing).

Record HttpReply : Type := MkReply {
  hr_status : Z;
  hr_text : string;
  hr_headers : headers
}.

Class McpHost (Z0 : Type) : Type := {
  mh_clock : McpProcess Z0 → Z * McpProcess Z0;
  mh_wall : McpProcess Z0 → Z * McpProcess Z0;
  mh_post : pydict → headers → M (OllamaRuntime * McpProcess Z0) HttpReply;
    (** the request, its status checked *)
  mh_delete : headers → M (OllamaRuntime * McpProcess Z0) Z;
  mh_slot : M (OllamaRuntime * McpProcess Z0) unit;   (** waiting for the transport's semaphore *)
  mh_release : McpProcess Z0 → McpProcess Z0;
  mh_lock : string → M (OllamaRuntime * McpProcess Z0) unit;   (** waiting for a lock *)
  mh_close : M (OllamaRuntime * McpProcess Z0) unit;
  mh_metered : bool;
  mh_status : exn → option (Z * string);   (** status and body of an [HTTPStatusError] *)
  mh_is_timeout : exn → bool;              (** [httpx.TimeoutException] *)
  mh_type_name : exn → string;
  mh_version : string;                     (** [app.__version__] *)
  mh_repr : pyval → string;
  mh_float_repr : string → string;
  mh_str_container : pyval → string
}.

Section mcp.
Context {Z0 : Type} `{!McpHost Z0} (settings : Settings).

Abbreviation PM := (M (World (Process (McpProcess Z0)))) (only parsing).

(** ** Effects *)

Definition mcp_state : PM McpState := outside (gets (λ p, mp_mcp (pr_ext p))).
Definition on_mcp (f : McpState → McpState) : PM unit :=
  outside (modify (λ p, p <| pr_ext := (pr_ext p) <| mp_mcp := f (mp_mcp (pr_ext p)) |> |>)).
Definition count_ (name : string) : PM unit := measured (inc name 1).

(** [except Exception]. *)
Definition except_exn {A} (m : PM A) (h : exn → PM A) : PM A :=
  try_except m (λ e, if is_cancelled e then None else Some (h e)).

(** ** [MCPHTTPTransport] *)

Definition transport_client : PM unit :=
  let! s := mcp_state in
  if mc_client s then ret tt
  else
    suspended (mh_lock "client") ;;;
    on_mcp (λ s, s <| mc_client := true |>).

Definition transport_close : PM unit :=
  suspended (mh_lock "client") ;;;
  let! s := mcp_state in
  on_mcp (λ s, s <| mc_client := false |>) ;;;
  (if mc_client s then suspended mh_close else ret tt).

(** The error a failed request leaves the transport as. *)
Definition transport_error (e : exn) : option (string * exn) :=
  if is_http_error e then
    match mh_status e with
    | Some (code, text) =>
        let body := stake_Z 500
          (replace_char (Ascii.ascii_of_N 10) (Ascii.ascii_of_N 32) (strip text)) in
        Some ("mcp.http_status_error",
          McpExn MCPHTTPStatusError (Some code)
            (mh_type_name e +:+ ": " +:+ exn_text e
             +:+ (if nonempty body then "; response=" +:+ body else "")))
    | None =>
        if mh_is_timeout e then
          Some ("mcp.http_timeout",
            McpExn MCPTransportError None
              ("MCP HTTP timeout (" +:+ mh_type_name e +:+ "): " +:+ exn_text e))
        else
          Some ("mcp.http_transport_error",
            McpExn MCPTransportError None (mh_type_name e +:+ ": " +:+ exn_text e))
    end
  else None.

(** [async with self._concurrency: body]. *)
Definition with_slot {A} (body : PM A) : PM A :=
  suspended mh_slot ;;;
  try_finally body (outside (modify (λ p, p <| pr_ext := mh_release (pr_ext p) |>))).

Definition send_request (payload : pydict) (hs : headers) (started : Z) : PM HttpReply :=
  try_finally
    (try_except (suspended (mh_post payload hs)) (λ e,
       match transport_error e with
       | Some (name, e') => Some (count_ name ;;; raise e')
       | None => None
       end))
    (let! now := reading mh_clock in measured (observe "mcp.http_post_seconds" (now - started))).

(** [not response.content.strip()]: bytes are stripped of ASCII white space. *)
Definition blank_content (s : string) : bool :=
  negb (nonempty (strip_by (λ c, ((9 <=? code c) && (code c <=? 13) || (code c =? 32))%N) s)).

(** The messages of the reply, [None] for an accepted notification. *)
Definition reply_messages (reply : HttpReply) (allow_empty : bool) :
    outcome (option (list pydict) * headers) :=
  let empty := blank_content (hr_text reply) in
  if allow_empty && ((hr_status reply =? 202) || empty) then Ret (None, hr_headers reply)
  else if empty then Raise (protocol_error "MCP request returned an empty response body.")
  else
    match decode_json_messages mh_float_repr (hr_text reply)
            (default "" (dict_get "content-type" (hr_headers reply))) with
    | Ret messages => Ret (Some messages, hr_headers reply)
    | Raise e => Raise e
    end.

Definition transport_post (payload : pydict) (hs : headers) (allow_empty : bool) :
    PM (option (list pydict) * headers) :=
  transport_client ;;;
  let! started := reading mh_clock in
  count_ "mcp.http_post_requests" ;;;
  let! reply := with_slot (send_request payload hs started) in
  of_outcome (reply_messages reply allow_empty).

Definition transport_delete (hs : headers) : PM bool :=
  transport_client ;;;
  let! started := reading mh_clock in
  count_ "mcp.http_delete_requests" ;;;
  let! status := with_slot (
    try_finally
      (try_except (let! status := suspended (mh_delete hs) in ret (Some status)) (λ e,
         if is_http_error e then Some (count_ "mcp.http_delete_error" ;;; ret None) else None))
      (let! now := reading mh_clock in
       measured (observe "mcp.http_delete_seconds" (now - started)))) in
  ret (match status with
       | Some status => bool_decide (status ∈ [200; 202; 204])
       | None => false
       end).

(** ** [MCPClient], sending *)

Definition invalidate_tools_cache : PM unit :=
  on_mcp (λ s, s <| mc_tools_cache := None |> <| mc_tools_cached_at := 0 |>).

Definition _headers : PM headers :=
  let! s := mcp_state in
  let session := mc_session s in
  ret ([("Accept", "application/json, text/event-stream"); ("Content-Type", "application/json");
        ("MCP-Protocol-Version",
           opt_str_or (ss_protocol_version session) (mcp_protocol_version settings))]
       ++ (if opt_truthy (ss_session_id session)
           then [("Mcp-Session-Id", opt_str_or (ss_session_id session) "")] else [])).

Definition _next_id : PM Z :=
  on_mcp (λ s, s <| mc_request_id := mc_request_id s + 1 |>) ;;;
  let! s := mcp_state in ret (mc_request_id s).

Definition begin_post : PM unit :=
  if mh_metered then let! now := reading mh_wall in metered (begin_tool_attempt now) else ret tt.

Definition finish_post (success timed_out : bool) : PM unit :=
  if mh_metered then metered (finish_tool_attempt success timed_out) else ret tt.

(** One counted request. [_post] sees a timeout only as the transport raises it. *)
Definition _post (payload : pydict) (hs : headers) (allow_empty : bool) :
    PM (list pydict * headers) :=
  begin_post ;;;
  let! r := capture (
    let* (messages, response_headers) := transport_post payload hs allow_empty in
    match messages with
    | None => ret ([], response_headers)
    | Some messages => ret (messages, response_headers)
    end) in
  match r with
  | Ret x => finish_post true false ;;; ret x
  | Raise e =>
      finish_post false (is_timeout e || is_http_error e && mh_is_timeout e) ;;; raise e
  end.

(** The answer to a request of the server, and the counter it is counted by. *)
Definition server_reply (request_id : pyval) (method : string) : string * pydict :=
  if String.eqb method "ping" then
    ("mcp.server_ping_requests", response_envelope request_id (VDict []))
  else
    ("mcp.unsupported_server_requests",
     error_envelope request_id (-32601)
       ("Client does not support server method " +:+ mh_repr (VStr method) +:+ ".") VNone).

Definition _respond_to_server_request (message : pydict) : PM unit :=
  let request_id := get_or_none "id" message in
  match request_id, get_or_none "method" message with
  | (VInt _ | VBool _ | VStr _), VStr method =>
      let '(name, payload) := server_reply request_id method in
      count_ name ;;;
      let! hs := _headers in
      _post payload hs true ;;; ret tt
  | _, _ => ret tt
  end.

(** What the messages before the response ask for. *)
Fixpoint serve_messages (messages : list pydict) : PM unit :=
  match messages with
  | [] => ret tt
  | message :: messages =>
      let method_name := get_or_none "method" message in
      (if pyval_eqb method_name (VStr "notifications/tools/list_changed") then
         invalidate_tools_cache ;;; count_ "mcp.tools_list_changed"
       else ret tt) ;;;
      (match method_name with
       | VStr _ => if dict_has "id" message then _respond_to_server_request message else ret tt
       | _ => ret tt
       end) ;;;
      serve_messages messages
  end.

Definition _send_for_session (method : string) (params : pydict) (notification : bool) :
    PM (pyval * headers) :=
  if notification then
    let! payload := of_outcome (notification_envelope method params) in
    let! hs := _headers in
    let* (_, response_headers) := _post payload hs true in
    ret (VNone, response_headers)
  else
    let! request_id := _next_id in
    let! payload := of_outcome (request_envelope request_id method params) in
    let! hs := _headers in
    let* (messages, response_headers) := _post payload hs false in
    match messages with
    | [] => raise (protocol_error ("MCP method " +:+ method +:+ " returned an empty response."))
    | _ =>
        serve_messages messages ;;;
        let! response := of_outcome (select_response mh_repr (map VDict messages) request_id) in
        match rpc_error response with
        | VNone => ret (rpc_result response, response_headers)
        | error => raise (McpExn MCPClientError None
            ("MCP JSON-RPC error for " +:+ method +:+ ": " +:+ mh_str_container error))
        end
    end.

(** ** [MCPSessionManager] *)

Definition SUPPORTED_PROTOCOL_VERSIONS : list string := ["2025-06-18"; "2025-03-26"; "2024-11-05"].

Definition supported_versions : list string :=
  SUPPORTED_PROTOCOL_VERSIONS ++ [mcp_protocol_version settings].

Definition reset_session : PM unit :=
  on_mcp (λ s, s <| mc_session := fresh_session |> <| mc_generation := mc_generation s + 1 |>).

Definition session_error (msg : string) : exn := McpExn MCPSessionError None msg.

Definition opt_dict (v : pyval) : option pydict := match v with VDict d => Some d | _ => None end.

(** The session an [initialize] result opens. *)
Definition negotiated_session (result : pyval) (response_headers : headers) : outcome MCPSessionState :=
  match result with
  | VDict result =>
      match get_or_none "protocolVersion" result with
      | VStr negotiated =>
          if negb (nonempty negotiated) then
            Raise (session_error "MCP initialize result is missing protocolVersion.")
          else if negb (bool_decide (negotiated ∈ supported_versions)) then
            Raise (session_error ("MCP server selected unsupported protocol version "
              +:+ mh_repr (VStr negotiated) +:+ "."))
          else
            let session_id := dict_get "mcp-session-id" response_headers in
            Ret (MkSession false (if opt_truthy session_id then session_id else None)
              (Some negotiated) (opt_dict (get_or_none "serverInfo" result))
              (opt_dict (get_or_none "capabilities" result)))
      | _ => Raise (session_error "MCP initialize result is missing protocolVersion.")
      end
  | _ => Raise (session_error "MCP initialize returned an invalid result.")
  end.

Definition initialize_params : pydict := [
  ("protocolVersion", VStr (mcp_protocol_version settings)); ("capabilities", VDict []);
  ("clientInfo", VDict [("name", VStr (mcp_client_name settings)); ("version", VStr mh_version)])].

Definition _initialize_locked : PM unit :=
  except_exn
    (let* (result, response_headers) := _send_for_session "initialize" initialize_params false in
     let! session := of_outcome (negotiated_session result response_headers) in
     on_mcp (λ s, s <| mc_session := session |>) ;;;
     _send_for_session "notifications/initialized" [] true ;;;
     on_mcp (λ s, s <| mc_session := (mc_session s) <| ss_initialized := true |> |>
                    <| mc_generation := mc_generation s + 1 |>))
    (λ e, reset_session ;;; raise e).

Definition ensure_initialized : PM unit :=
  let! s := mcp_state in
  if ss_initialized (mc_session s) then ret tt
  else
    suspended (mh_lock "session") ;;;
    let! s := mcp_state in
    if ss_initialized (mc_session s) then ret tt else _initialize_locked.

Definition recover_expired (observed_generation : Z) : PM unit :=
  suspended (mh_lock "session") ;;;
  let! s := mcp_state in
  if ss_initialized (mc_session s) && negb (mc_generation s =? observed_generation) then ret tt
  else reset_session ;;; _initialize_locked.

(** ** [MCPClient] *)

Definition initialize : PM unit :=
  if mcp_session_enabled settings then ensure_initialized else ret tt.

Definition expired_status (e : exn) : bool :=
  match e with
  | McpExn MCPHTTPStatusError (Some code) _ => bool_decide (code ∈ [404; 410])
  | _ => false
  end.

Definition _rpc (method : string) (params : pydict) (retry_on_expiry : bool) : PM pyval :=
  (if mcp_session_enabled settings && negb (String.eqb method "initialize")
   then initialize else ret tt) ;;;
  let! s := mcp_state in
  let observed_generation := mc_generation s in
  let! r := capture (_send_for_session method params false) in
  match r with
  | Ret (result, _) => ret result
  | Raise e =>
      let! s := mcp_state in
      if mcp_session_enabled settings && bool_decide (ss_session_id (mc_session s) ≠ None)
         && expired_status e
      then
        count_ "mcp.session_expired" ;;;
        invalidate_tools_cache ;;;
        recover_expired observed_generation ;;;
        if retry_on_expiry then
          count_ "mcp.session_safe_retries" ;;;
          let* (result, _) := _send_for_session method params false in ret result
        else
          raise (McpExn MCPSessionExpiredError None
            ("MCP session expired during " +:+ method +:+ "; the operation was not "
             +:+ "automatically replayed because its completion is ambiguous."))
      else raise e
  end.

Definition start : PM unit :=
  if mcp_enabled settings then
    transport_client ;;;
    (if mcp_session_enabled settings && mcp_initialize_on_startup settings then initialize
     else ret tt)
  else ret tt.

Definition aclose : PM unit :=
  let! s := mcp_state in
  (if opt_truthy (ss_session_id (mc_session s)) then
     let! hs := _headers in transport_delete hs ;;; ret tt
   else ret tt) ;;;
  transport_close ;;;
  reset_session ;;;
  invalidate_tools_cache.

(** *** The tool list *)

Definition _tools_fresh (now : Z) (force_refresh : bool) (s : McpState) : option (list pydict) :=
  match mc_tools_cache s with
  | Some cached =>
      if negb force_refresh
         && (now - mc_tools_cached_at s <=? seconds (inventory_cache_ttl_seconds settings))
      then Some cached else None
  | None => None
  end.

Definition _validate_tool_definition (value : pyval) : outcome pydict :=
  match value with
  | VDict d =>
      match get_or_none "name" d with
      | VStr name =>
          if negb (nonempty (strip name)) then
            Raise (protocol_error "Each MCP tool definition requires a non-empty name.")
          else
            match List.filter (λ key, match get_or_none key d with VNone | VDict _ => false | _ => true end)
                    ["inputSchema"; "outputSchema"] with
            | key :: _ => Raise (protocol_error
                ("MCP tool " +:+ mh_repr (VStr name) +:+ " has an invalid " +:+ key +:+ "."))
            | [] => Ret d
            end
      | _ => Raise (protocol_error "Each MCP tool definition requires a non-empty name.")
      end
  | _ => Raise (protocol_error "Each MCP tool definition must be a JSON object.")
  end.

Fixpoint validate_tools (items : list pyval) : outcome (list pydict) :=
  match items with
  | [] => Ret []
  | item :: items =>
      match _validate_tool_definition item with
      | Ret d => match validate_tools items with Ret ds => Ret (d :: ds) | Raise e => Raise e end
      | Raise e => Raise e
      end
  end.

Definition tools_of (data : pyval) : outcome (list pydict) :=
  match data with
  | VDict d =>
      match get_or_none "tools" d with
      | VNone => Ret []
      | VList tools => validate_tools tools
      | _ => Raise (protocol_error "MCP tools/list result.tools must be a list.")
      end
  | _ => Ret []
  end.

Definition refresh_tools (allow_stale : bool) (now : Z) : PM (list pydict) :=
  let! s := mcp_state in
  let old_cache := mc_tools_cache s in
  let old_cached_at := mc_tools_cached_at s in
  let! fetched := except_exn
    (let! data := _rpc "tools/list" [] true in
     let! tools := of_outcome (tools_of data) in ret (inr tools))
    (λ e,
      match old_cache with
      | Some cached =>
          if allow_stale
             && (now - old_cached_at <=? seconds (inventory_stale_if_error_seconds settings))
          then count_ "mcp.tools_stale_cache_used" ;;; ret (inl cached)
          else raise e
      | None => raise e
      end) in
  match fetched with
  | inl stale => ret stale
  | inr tools =>
      let! cached_at := reading mh_clock in
      on_mcp (λ s, s <| mc_tools_cache := Some tools |> <| mc_tools_cached_at := cached_at |>) ;;;
      count_ "mcp.tools_refresh" ;;;
      ret tools
  end.

Definition list_tools (force_refresh allow_stale : bool) : PM (list pydict) :=
  let! now := reading mh_clock in
  let! s := mcp_state in
  match _tools_fresh now force_refresh s with
  | Some cached => count_ "mcp.tools_cache_hit" ;;; ret cached
  | None =>
      suspended (mh_lock "tools") ;;;
      let! now := reading mh_clock in
      let! s := mcp_state in
      match _tools_fresh now force_refresh s with
      | Some cached => count_ "mcp.tools_cache_hit" ;;; ret cached
      | None => refresh_tools allow_stale now
      end
  end.

(** *** Tool calls *)

Definition _format_exception (e : exn) : string :=
  let text := strip (exn_text e) in
  if nonempty text then mh_type_name e +:+ ": " +:+ text else mh_type_name e.

Definition call_params (name : string) (arguments : pydict) : pydict :=
  [("name", VStr name); ("arguments", VDict arguments)].

Definition call_tool (name : string) (arguments : pydict) : PM ToolResult :=
  if negb (nonempty (strip name)) then
    ret (MkToolResult false VNone (Some "MCP tool name must be a non-empty string."))
  else
    count_ "mcp.tool_calls" ;;;
    except_exn
      (let! result := _rpc "tools/call" (call_params name arguments) false in
       let parsed := parse_tool_result mh_float_repr mh_str_container result in
       (if pt_ok parsed then ret tt else count_ "mcp.tool_reported_errors") ;;;
       ret (MkToolResult (pt_ok parsed) (pt_data parsed) (pt_error parsed)))
      (λ e,
        count_ "mcp.tool_call_errors" ;;;
        ret (MkToolResult false VNone (Some (_format_exception e)))).

Definition health_check : PM ToolResult := call_tool "health_check" [].
End mcp.

(** ** A concrete server

    It accepts sessions and answers tool calls with the texts of [sv_answers]; an
    absent text answers that the session is gone. *)

Record Server : Type := MkServer {
  sv_models : list string;             (** what the models answer *)
  sv_answers : list (option string);
  sv_sent : list pydict                (** the requests received, the last first *)
}.

Definition server_json (request : pydict) (result : pyval) : string :=
  dumps default_separators (VDict
    [("jsonrpc", VStr "2.0"); ("id", get_or_none "id" request); ("result", result)]).

Definition server_answer (request : pydict) (answers : list (option string)) :
    outcome HttpReply * list (option string) :=
  if negb (dict_has "id" request) then (Ret (MkReply 202 "" []), answers)
  else if pyval_eqb (get_or_none "method" request) (VStr "tools/call") then
    match answers with
    | Some text :: answers =>
        (Ret (MkReply 200
           (server_json request (VDict [("content",
              VList [VDict [("type", VStr "text"); ("text", VStr text)]])]))
           [("content-type", "application/json")]), answers)
    | _ :: answers => (Raise (HttpError "404"), answers)
    | [] => (Raise (HttpError "connection refused"), [])
    end
  else
    (Ret (MkReply 200 (server_json request (VDict [("protocolVersion", VStr "2025-06-18")]))
       [("content-type", "application/json"); ("mcp-session-id", "s1")]), answers).

Definition server_post (request : pydict) (hs : headers) : M (OllamaRuntime * McpProcess Server) HttpReply :=
  λ s,
    let server := mp_ext s.2 in
    let '(o, answers) := server_answer request (sv_answers server) in
    (o, (s.1, MkMcpProcess (mp_mcp s.2) (MkServer (sv_models server) answers (request :: sv_sent server)))).

#[export] Instance sample_mcp_host : McpHost Server := {|
  mh_clock := λ p, (0, p);
  mh_wall := λ p, (1, p);
  mh_post := server_post;
  mh_delete := λ _, ret 200;
  mh_slot := ret tt;
  mh_release := λ p, p;
  mh_lock := λ _, ret tt;
  mh_close := ret tt;
  mh_metered := true;
  mh_status := λ e, match e with HttpError "404" => Some (404, "") | _ => None end;
  mh_is_timeout := λ _, false;
  mh_type_name := λ _, "HTTPStatusError";
  mh_version := "1";
  mh_repr := λ _, "'...'";
  mh_float_repr := λ r, r;
  mh_str_container := λ _, "{}"
|}.

Definition sample_mcp_world (models : list string) (answers : list (option string)) :
    World (Process (McpProcess Server)) :=
  MkWorld (MkMeterTask (init_budget 1000 8 9 3 None 0 0) None)
    (MkProcess runtime_init (MkMetrics 16 ∅ ∅) (MkMcpProcess mcp_init (MkServer models answers []))).
