(* ===== verification/Dates.v ===== *)
(** * Dates

    [datetime] in UTC as microseconds since 1970-01-01: the calendar date, the
    [isoformat] texts of the standard library, and pydantic's JSON form. *)

From S2P Require Import Prelude PyData.

Definition micros_per_day : Z := 86400000000.

(** The proleptic Gregorian (year, month, day) of a day number. *)
Definition civil_from_days (days : Z) : Z * Z * Z :=
  let z := days + 719468 in
  let era := z / 146097 in
  let doe := z mod 146097 in
  let yoe := (doe - doe / 1460 + doe / 36524 - doe / 146096) / 365 in
  let doy := doe - (365 * yoe + yoe / 4 - yoe / 100) in
  let mp := (5 * doy + 2) / 153 in
  let d := doy - (153 * mp + 2) / 5 + 1 in
  let m := if mp <? 10 then mp + 3 else mp - 9 in
  (yoe + era * 400 + (if m <=? 2 then 1 else 0), m, d).

(** [n] in decimal, padded with zeros to [width] digits. *)
Fixpoint zeros (n : nat) : string :=
  match n with O => EmptyString | S n' => "0" +:+ zeros n' end.
Definition padded (width : nat) (n : Z) : string :=
  let s := Z_to_string n in zeros (width - String.length s) +:+ s.

Definition date_isoformat (micros : Z) : string :=
  let '(y, m, d) := civil_from_days (micros / micros_per_day) in
  padded 4 y +:+ "-" +:+ padded 2 m +:+ "-" +:+ padded 2 d.

(** The date and time without an offset; the fraction only when not zero. *)
Definition naive_isoformat (micros : Z) : string :=
  let r := micros mod micros_per_day in
  let fraction := r mod 1000000 in
  date_isoformat micros +:+ "T" +:+ padded 2 (r / 3600000000) +:+ ":" +:+
  padded 2 (r / 60000000 mod 60) +:+ ":" +:+ padded 2 (r / 1000000 mod 60) +:+
  (if fraction =? 0 then "" else "." +:+ padded 6 fraction).

(** [dt.isoformat()] of an aware UTC datetime; its [model_dump(mode="json")]. *)
Definition isoformat (micros : Z) : string := naive_isoformat micros +:+ "+00:00".
Definition json_datetime (micros : Z) : string := naive_isoformat micros +:+ "Z".

Example isoformat_leap_day : isoformat 1709210096000001 = "2024-02-29T12:34:56.000001+00:00".
Proof. vm_compute. reflexivity. Qed.
Example date_before_epoch : date_isoformat (-1) = "1969-12-31".
Proof. vm_compute. reflexivity. Qed.
