(* ===== verification/Queries.v ===== *)
(** * Search queries

    [extract_ticker], [extract_location] and [extract_road] of
    [app/services/routing.py] and [QueryRewriter] of
    [app/services/query_rewriter.py], which turns a message and its plan into the
    text of a search.  [local_now] is the wall clock of America/Indiana/Indianapolis
    in microseconds. *)

From S2P Require Import Prelude PyData Json PyNum PyRegex Dates Routing.

(** ** Tokens of a message *)

Definition is_ticker_char (c : Ascii.ascii) : bool :=
  is_upper c || is_digit_char c || one_of ".-" c.

(** [([A-Z][A-Z0-9.\-]{0,9})]. *)
Definition ticker : regex :=
  RGroup 1 (RSeq (RChar is_upper) (RUpTo 9 (RChar is_ticker_char))).

Definition dollar_ticker_re : regex := RSeqs [RText "$"; ticker; RBoundary].
Definition contextual_ticker_re : regex :=
  RSeqs [RBoundary; ticker; RBoundary;
    RAhead (RSeqs [RSpaces; RAlts [RText "stock"; RText "shares"; RText "ticker"]; RBoundary])].

Definition extract_ticker (message : string) : option string :=
  match search dollar_ticker_re message with
  | Some m => group 1 m
  | None =>
      match search contextual_ticker_re message with
      | Some m => group 1 m
      | None => None
      end
  end.

Definition location_re : regex :=
  let name_char c := is_letter c || one_of " .,'-" c in
  RSeqs [
    RBoundary; RAlts [RText "in"; RText "for"; RText "at"; RText "near"]; RSpaces;
    RGroup 1 (RSeqs [RChar is_upper; RChar name_char; RStar false (RChar name_char)]);
    RAhead (RAlts [
      RChar (one_of "?.!,");
      RSeqs [RSpaces; RAlts [RText "today"; RText "tomorrow"; RText "yesterday"; RText "now"]; RBoundary];
      REnd])].

Section metadata.
Context (str_container : pyval → string).

(** The first of the keys whose value is not blank. *)
Definition metadata_location (metadata : pydict) : option string :=
  first_success (λ key,
    let v := get_or_none key metadata in
    let value := strip (if truthy v then str_value str_container v else "") in
    if nonempty value then Some value else None) ["location"; "city"; "place"].

Definition extract_location (message : string) (metadata : pydict) : string :=
  match metadata_location metadata with
  | Some value => value
  | None =>
      match search location_re message with
      | Some m => strip_chars " ," (default "" (group 1 m))
      | None => "current location"
      end
  end.

Definition digits_1_3 : regex :=
  RSeq (RChar is_digit_char) (RUpTo 2 (RChar is_digit_char)).

Definition numbered_road_re : regex :=
  let prefix text := RSeqs [RTextI text; ROpt (RChar (one_of "- ")); digits_1_3] in
  RSeqs [RBoundary; RAlts [prefix "i"; prefix "us"; prefix "sr"; prefix "in"]; RBoundary].

Definition named_road_re : regex :=
  RSeqs [RBoundary;
    RGroup 1 (RSeqs [RChar is_upper; RPlus (RChar (λ c, is_letter c || is_digit_char c || one_of "'- " c));
      RChar is_space;
      RAlts [RText "Road"; RText "Rd"; RText "Street"; RText "St"; RText "Avenue"; RText "Ave";
             RText "Boulevard"; RText "Blvd"; RText "Highway"; RText "Hwy"]]);
    RBoundary].

Definition upper_char (c : Ascii.ascii) : Ascii.ascii :=
  if is_letter c && negb (is_upper c) then Ascii.ascii_of_N (code c - 32)%N else c.

Definition extract_road (message : string) : option string :=
  match search numbered_road_re message with
  | Some m => Some (sub RSpaces "-" (smap upper_char (mt_text m)))
  | None =>
      match search named_road_re message with
      | Some m => Some (strip (default "" (group 1 m)))
      | None => None
      end
  end.

(** ** The rewriter *)

(** [s.rsplit(" ", 1)[0]]: on the reversed text, what follows the first space. *)
Fixpoint after_space (r : string) : option string :=
  match r with
  | EmptyString => None
  | String c r' => if (code c =? 32)%N then Some r' else after_space r'
  end.
Definition before_last_space (s : string) : string :=
  match after_space (srev s) with Some r => srev r | None => s end.

Definition clean (text : string) : string :=
  let text := strip_chars "?.! " (strip (sub RSpaces " " text)) in
  if 350 <? slen text then before_last_space (stake_Z 350 text) else text.

Record RewriteSettings : Type := MkRewriteSettings {
  default_forecast_days : Z;
  default_news_lookback_days : Z
}.

Definition rewrite (settings : RewriteSettings) (local_now : Z) (message : string) (plan : QueryPlan)
    (metadata : pydict) : string :=
  let base := clean message in
  let today := date_isoformat local_now in
  let yesterday := date_isoformat (local_now - micros_per_day) in
  let tomorrow := date_isoformat (local_now + micros_per_day) in
  let days n := Z_to_string n +:+ " days " in
  let intent := qp_intent plan in
  if String.eqb intent "weather" then
    extract_location message metadata +:+ " weather forecast current conditions next "
      +:+ days (default_forecast_days settings) +:+ today
  else if String.eqb intent "stock" then
    default base (extract_ticker message)
      +:+ " stock quote latest news earnings analyst guidance price movement last "
      +:+ days (default_news_lookback_days settings) +:+ today
  else if String.eqb intent "sports_or_match_results" then
    let lowered := lower message in
    let date_phrase :=
      if _contains_any lowered ["yesterday"; "yesterdays"; "yesterday's"] then "yesterday " +:+ yesterday
      else if _contains_any lowered ["today"; "todays"; "today's"] then "today " +:+ today
      else if _contains_any lowered ["tomorrow"; "tomorrows"; "tomorrow's"] then "tomorrow " +:+ tomorrow
      else "latest " +:+ today in
    base +:+ " " +:+ date_phrase
      +:+ (" match results final score highlights schedule official match centre "
           +:+ "ESPN FIFA ICC reliable sources")
  else if String.eqb intent "news" then
    base +:+ " latest news recent developments authoritative sources published within last "
      +:+ days (default_news_lookback_days settings) +:+ today
  else if String.eqb intent "road_condition" then
    "official road conditions " +:+ default "road" (extract_road message) +:+ " "
      +:+ extract_location message metadata +:+ " closures traffic construction " +:+ today
  else if String.eqb intent "mail_search" then base
  else if String.eqb intent "web_search" then
    base +:+ " concise search results current authoritative sources"
  else if String.eqb intent "web_research" then
    base +:+ " authoritative sources official documentation recent reliable references"
  else base.

(** Values checked against the interpreter's. *)
Example ticker_contextual : extract_ticker "Why did TSLA stock move?" = Some "TSLA".
Proof. vm_compute. reflexivity. Qed.
Example ticker_dollar : extract_ticker "is $BRK.B a buy" = Some "BRK.B".
Proof. vm_compute. reflexivity. Qed.
Example location_text : extract_location "weather in New York today?" [] = "New York".
Proof. vm_compute. reflexivity. Qed.
Example road_text : extract_road "traffic on i 465 now" = Some "I-465".
Proof. vm_compute. reflexivity. Qed.
Example road_named : extract_road "Is Keystone Ave closed" = Some "Is Keystone Ave".
Proof. vm_compute. reflexivity. Qed.

(** Searches for what changes carry the date: whenever the first-pass router
    takes a message for a question about the weather, a stock, a match, the news
    or a road, the query it is rewritten to holds the date of today, or, for a
    match, of the day the message names. *)
Theorem fresh_queries_dated settings local_now message metadata :
  let plan := ModelRouter_plan message in
  qp_intent plan ∈ ["weather"; "stock"; "sports_or_match_results"; "news"; "road_condition"] →
  ∃ day, day ∈ [0; -1; 1] ∧
    (day ≠ 0 → qp_intent plan = "sports_or_match_results") ∧
    contains (date_isoformat (local_now + day * micros_per_day))
      (rewrite settings local_now message plan metadata) = true.
Proof.
  intros plan. generalize plan. clear plan. intros [intent tools key rewritten]. unfold rewrite. cbv zeta.
  cbn [qp_intent].
  assert (local_now + 0 * micros_per_day = local_now) as H0 by lia.
  assert (local_now + -1 * micros_per_day = local_now - micros_per_day) as H1 by lia.
  assert (local_now + 1 * micros_per_day = local_now + micros_per_day) as H2 by lia.
  assert (0 ∈ [0; -1; 1] ∧ -1 ∈ [0; -1; 1] ∧ 1 ∈ [0; -1; 1]) as (Hd0&Hd1&Hd2)
    by (split_and!; [left|right; left|do 2 right; left]).
  assert (∀ day text, day ∈ [0; -1; 1] → (day ≠ 0 → intent = "sports_or_match_results") →
    contains (date_isoformat (local_now + day * micros_per_day)) text = true →
    ∃ day, day ∈ [0; -1; 1] ∧ (day ≠ 0 → intent = "sports_or_match_results") ∧
      contains (date_isoformat (local_now + day * micros_per_day)) text = true) as Hex by eauto.
  intros Hin. rewrite !elem_of_cons in Hin. destruct Hin as [->|[->|[->|[->|[->|Hin]]]]];
    [| | | | |destruct (not_elem_of_nil _ Hin)]; cbv beta iota delta [String.eqb Ascii.eqb Bool.eqb].
  1, 2, 4, 5: apply (Hex 0 _ Hd0); [by intros []|]; rewrite H0; find_text.
  destruct (_contains_any _ _); [|destruct (_contains_any _ _); [|destruct (_contains_any _ _)]].
  - apply (Hex (-1) _ Hd1); [by intros _|]. rewrite H1, !sapp_assoc.
    find_text.
  - apply (Hex 0 _ Hd0); [by intros []|]. rewrite H0, !sapp_assoc.
    find_text.
  - apply (Hex 1 _ Hd2); [by intros _|]. rewrite H2, !sapp_assoc.
    find_text.
  - apply (Hex 0 _ Hd0); [by intros []|]. rewrite H0, !sapp_assoc.
    find_text.
Qed.
End metadata.
