(* ===== verification/Decompose.v ===== *)
(** * Query decomposition

    [QueryDecomposer] of [app/services/decomposition.py]: a request is split into
    standalone queries, by the caller's own list, by its numbered items, by a
    planning model or by separators, and the omissions of the split are repaired.
    [decompose_spec] bounds what it returns.  [build_tasks_raises] and
    [newlines_never_split] record two things the code does not do. *)

From S2P Require Import Prelude PyData Json Base64 PyNum PyRegex RunTypes Settings Inventory Meter Routing ToolPolicy.
From S2P Require Import Ollama Queries.

Record DecomposeSettings : Type := MkDecomposeSettings {
  ds_settings : Settings;
  enable_llm_query_planning : bool;
  max_subqueries : Z
}.

(** ** Cleaning *)

(** [s.strip(" \t\r\n-•")]: the last mark is three bytes long, [a], [b] and [d]. *)
Definition is_mark (c : Ascii.ascii) : bool :=
  let n := code c in ((n =? 32) || (n =? 9) || (n =? 13) || (n =? 10) || (n =? 45))%N.
Fixpoint drop_marks (a b d : N) (s : string) : string :=
  match s with
  | String c s' =>
      if is_mark c then drop_marks a b d s'
      else match s' with
           | String c' (String c'' s'') =>
               if ((code c =? a) && (code c' =? b) && (code c'' =? d))%N then drop_marks a b d s'' else s
           | _ => s
           end
  | EmptyString => s
  end.
Definition strip_marks (s : string) : string :=
  srev (drop_marks 162 128 226 (srev (drop_marks 226 128 162 s))).

Definition _clean_query (text : string) : string :=
  strip (stake_Z 600 (strip_marks (sub RSpaces " " text))).

(** ** The caller's numbered items *)

(** [(?:^|\s)(\d{1,2})[\).]\s+]. *)
Definition numbered_re : regex :=
  RSeqs [RAlt RBegin (RChar is_space); RGroup 1 (RSeq (RChar is_digit_char) (ROpt (RChar is_digit_char)));
         RChar (one_of ").") ; RSpaces].

Definition self_contained : list string :=
  ["explain"; "compare"; "search"; "choose"; "give"; "based"].

(** [output.append(item)] unless it is there. *)
Definition add_new (output : list string) (item : string) : list string :=
  if bool_decide (item ∈ output) then output else output ++ [item].

Definition numbered_item (preamble text : string) : string :=
  let item := _clean_query text in
  if nonempty preamble && (slen preamble <? 240)
     && negb (existsb (λ p, startswith p (lower item)) self_contained)
  then preamble +:+ ": " +:+ item else item.

(** The text of an item lies between its match and the next one. *)
Definition item_texts (ms : list re_match) (tail : string) : list string :=
  match map mt_before ms with [] => [] | _ :: rest => rest ++ [tail] end.

Definition _extract_numbered_items (message : string) : list string :=
  let text := _clean_query message in
  if nonempty text then
    let '(ms, tail) := finditer numbered_re text in
    match ms with
    | first :: _ :: _ =>
        let preamble := strip_chars " :-" (mt_before first) in
        foldl (λ items t, if nonempty (_clean_query t) then add_new items (numbered_item preamble t) else items)
          [] (item_texts ms tail)
    | _ => []
    end
  else [].

(** ** Separators *)

Definition newline_re : regex := RPlus (RChar (λ c, (code c =? 10)%N)).
Definition semicolon_re : regex := RSeqs [RSpaces0; RChar (λ c, (code c =? 59)%N); RSpaces0].
Definition also_then_re : regex :=
  RSeqs [RSpaces; RBoundary; RAlts [RTextI "also"; RTextI "then"]; RBoundary; RSpaces].
Definition and_question_re : regex :=
  RSeqs [RSpaces; RTextI "and"; RSpaces;
    RAhead (RSeq (RAlts (map RTextI ["what"; "why"; "how"; "when"; "where"; "who"; "can"; "do"; "does";
      "is"; "are"; "should"; "please"])) RBoundary)].

Definition blank_free (pieces : list string) : list string :=
  filter (λ p, nonempty p = true) (map strip pieces).

Definition _split_by_patterns (text : string) (patterns : list regex) : list string :=
  foldl (λ pieces pattern, blank_free (flat_map (split pattern) pieces)) [text] patterns.

Definition _safe_to_split_on_and (text : string) : bool :=
  let lowered := lower text in
  contains " and " lowered
  && negb (existsb (λ b, contains b lowered)
       ["pros and cons"; "bread and butter"; "quality and speed"; "fast and easy"]).

(** The loop over the pieces stops at [max_items]. *)
Fixpoint take_pieces (max_items : Z) (output pieces : list string) : list string :=
  match pieces with
  | [] => output
  | piece :: pieces' =>
      let item := _clean_query piece in
      let output := if nonempty item then add_new output item else output in
      if max_items <=? Z.of_nat (length output) then output else take_pieces max_items output pieces'
  end.

Definition question_mark : Ascii.ascii := Ascii.ascii_of_N 63.

Definition _heuristic_decompose (message : string) (max_items : Z) : list string :=
  let cleaned := _clean_query message in
  if nonempty cleaned then
    let pieces := _split_by_patterns cleaned [newline_re; semicolon_re; also_then_re] in
    let pieces :=
      if (length pieces =? 1)%nat && (2 <=? scount "?" cleaned)%nat then
        map (λ part, part +:+ "?")
          (filter (λ part, nonempty (strip part) = true) (split_on question_mark cleaned))
      else pieces in
    let pieces :=
      if (length pieces =? 1)%nat && _safe_to_split_on_and cleaned then split and_question_re cleaned
      else pieces in
    match take_pieces max_items [] pieces with
    | [] => [cleaned]
    | output => output
    end
  else [].

(** ** Repairing omissions *)

Definition _is_complex_coverage_case (lower_message : string) : bool :=
  (2 <=? length (filter (λ signal, contains signal lower_message = true)
    ["compare"; "aws"; "home server"; "home-server"; "deployment"; "model list"; "live model";
     "available model"; "choose which model"; "recommended architecture"; "final recommended";
     "references"; "official documentation"; "latest technical"; "subqueries"; "stress test";
     "1)"; "2)"; "1."; "2."]))%nat.

(** The calls of [add_if_needed]: condition, terms and query. *)
Definition coverage_rules (m : string) : list (bool * list string * string) :=
  let any_of := existsb (λ t, contains t m) in [
  (contains "mcp" m, ["mcp"], "Explain what MCP servers do in this app in simple words.");
  (contains "langgraph" m || contains "orchestration" m, ["langgraph"; "orchestration"],
   "Explain how LangGraph-style orchestration works in this app in simple words.");
  (contains "ollama" m, ["ollama"], "Explain what Ollama models do in this app in simple words.");
  (any_of ["external search"; "search tools"; "internet"; "latest"; "unknown"],
   ["search tool"; "external search"; "latest"; "unknown"],
   "Explain why external search tools are needed for latest or unknown facts.");
  ((contains "home" m && contains "aws" m) || contains "deployment" m,
   ["aws"; "home-server"; "home server"; "deployment"],
   "Compare a small home-server Docker deployment with an AWS-native serverless/container deployment, including pros, cons, cost, load, and when each makes sense.");
  (any_of ["model list"; "live model"; "available model"; "choose which model"; "based on the live model"],
   ["model"; "role"],
   "Choose the best live model role for simple, general, search-heavy, reasoning, synthesis, vision, embedding, and fallback tasks, using only the available inventory.");
  (any_of ["recommended architecture"; "final recommended"; "recommend architecture"; "architecture"],
   ["recommended architecture"; "final architecture"],
   "Give a final recommended architecture that balances quality, speed, reliability, and cost.");
  (any_of ["reference"; "references"; "cite"; "official documentation"; "latest technical"],
   ["reference"; "official"; "citation"],
   "Find or verify the most useful official/high-quality references needed to support the answer.")].

(** [joined] is the text before any repair. *)
Definition add_if_needed (max_items : Z) (joined : string) (output : list string)
    (rule : bool * list string * string) : list string :=
  let '(condition, must_contain, query) := rule in
  if (max_items <=? Z.of_nat (length output)) || negb condition then output
  else if existsb (λ t, contains t joined) must_contain then output
  else
    let cleaned := _clean_query query in
    if nonempty cleaned then add_new output cleaned else output.

Definition or_message (message : string) (queries : list string) : list string :=
  match queries with [] => [_clean_query message] | _ => queries end.

Definition _ensure_request_coverage (message : string) (queries : list string) (max_items : Z) :
    list string :=
  let output :=
    foldl (λ output q, let item := _clean_query q in
             if nonempty item then add_new output item else output) [] queries in
  let m := lower message in
  let joined := lower (join " " output) in
  if (length output <=? 1)%nat && negb (_is_complex_coverage_case m) then
    or_message message (take (Z.to_nat max_items) output)
  else
    or_message message
      (take (Z.to_nat max_items) (foldl (add_if_needed max_items joined) output (coverage_rules m))).

(** ** The planning model *)

Definition backquotes : string := "```".

Fixpoint index_of (c : N) (s : string) : option nat :=
  match s with
  | EmptyString => None
  | String d s' => if (code d =? c)%N then Some O else S <$> index_of c s'
  end.
Fixpoint rindex_of (c : N) (s : string) : option nat :=
  match s with
  | EmptyString => None
  | String d s' =>
      match rindex_of c s' with
      | Some n => Some (S n)
      | None => if (code d =? c)%N then Some O else None
      end
  end.

Definition fence_open_re : regex := RSeqs [RBegin; RText backquotes; ROpt (RTextI "json")].
Definition fence_close_re : regex := RSeq (RText backquotes) REnd.

Definition _extract_json_object (float_repr : string → string) (text : string) : outcome pydict :=
  let stripped := strip text in
  let stripped :=
    if startswith backquotes stripped
    then strip (sub fence_close_re "" (strip (sub fence_open_re "" stripped)))
    else stripped in
  match index_of 123 stripped, rindex_of 125 stripped with
  | Some start, Some stop =>
      if (stop <=? start)%nat then Raise (PyExn ValueError "No JSON object found")
      else
        match loads float_repr (stake (S stop - start) (sdrop start stripped)) with
        | Some (VDict data) => Ret data
        | Some _ => Raise (PyExn ValueError "JSON payload is not an object")
        | None => Raise (PyExn JSONDecodeError "invalid JSON")
        end
  | _, _ => Raise (PyExn ValueError "No JSON object found")
  end.

(** [[_clean_query(str(item)) for item in items if _clean_query(str(item))]]. *)
Definition clean_items (str_container : pyval → string) (items : list pyval) : list string :=
  filter (λ q, nonempty q = true) (map (λ item, _clean_query (str_value str_container item)) items).

(** The queries the metadata lists: [metadata.get("subqueries") or metadata.get("queries")]. *)
Definition explicit_queries (str_container : pyval → string) (metadata : pydict) : list string :=
  let a := get_or_none "subqueries" metadata in
  match (if truthy a then a else get_or_none "queries" metadata) with
  | VList items => clean_items str_container items
  | _ => []
  end.

Section decompose.
Context {Y : Type} `{!OllamaHost Y} (ds : DecomposeSettings).

Definition planning_prompt (tool_list message : string) : string :=
  "Split the user's request into the smallest useful standalone tasks. "
  +:+ "Preserve every major requirement from the original request. "
  +:+ "Do not drop comparison, latest-fact-checking, model-selection, architecture, reference, or output-format requirements. "
  +:+ "If the request contains numbered items, keep each numbered item as its own task unless it must be split. "
  +:+ "Return only valid JSON." +:+ nl
  +:+ "JSON schema: {" +:+ quote +:+ "queries" +:+ quote +:+ ": [" +:+ quote +:+ "simple standalone task 1"
  +:+ quote +:+ ", " +:+ quote +:+ "simple standalone task 2" +:+ quote +:+ "]}" +:+ nl
  +:+ "Available tools: " +:+ tool_list +:+ nl
  +:+ "User request: " +:+ message.

Definition chat_message (role content : string) : pydict :=
  [("role", VStr role); ("content", VStr content)].

Definition _llm_decompose (message : string) (inventory : RuntimeInventory) :
    M (World (Process Y)) (list string) :=
  let! model := of_outcome (resolve (ds_settings ds) (Some "planner") (Some inventory)) in
  let prompt := planning_prompt (oh_str_container (VList (map VStr (tool_names inventory)))) message in
  let! response := try_except
    (let! r := chat (ds_settings ds) model
       [chat_message "system" "You are a query planning service. Return JSON only.";
        chat_message "user" prompt]
       (Some (VInt 0)) (Some (VInt (Z.min 512 (ollama_num_predict (ds_settings ds))))) None None None in
     ret (Some (llm_content r)))
    (λ e, if is_cancelled e then None else Some (ret None)) in
  match response with
  | None => ret []
  | Some content =>
      match _extract_json_object oh_float_repr content with
      | Raise e => if is_value_error e then ret [] else raise e
      | Ret payload =>
          match dict_get "queries" payload with
          | Some (VList queries) => ret (clean_items oh_str_container queries)
          | _ => ret []
          end
      end
  end.

Definition decompose (message : string) (metadata : pydict) (inventory : RuntimeInventory) :
    M (World (Process Y)) (list string) :=
  let limit := Z.to_nat (max_subqueries ds) in
  let by_separators :=
    _ensure_request_coverage message (_heuristic_decompose message (max_subqueries ds)) (max_subqueries ds) in
  match explicit_queries oh_str_container metadata with
  | (_ :: _) as cleaned => ret (take limit cleaned)
  | [] =>
      match _extract_numbered_items message with
      | (_ :: _) as numbered => ret (_ensure_request_coverage message numbered (max_subqueries ds))
      | [] =>
          if bool_decide (llm_backend (ds_settings ds) = Ollama) && enable_llm_query_planning ds then
            let! planned := _llm_decompose message inventory in
            match planned with
            | [] => ret by_separators
            | _ => ret (take limit (_ensure_request_coverage message planned (max_subqueries ds)))
            end
          else ret by_separators
      end
  end.
End decompose.

(** ** Tasks *)

Record QueryTask : Type := MkQueryTask {
  qt_id : string;
  qt_query : string;
  qt_plan : QueryPlan;
  qt_model : string;
  qt_tools : list string;
  qt_rewritten_query : option string
}.

Definition no_attribute (owner name : string) : exn :=
  PyExn AttributeError ("'" +:+ owner +:+ "' object has no attribute '" +:+ name +:+ "'").

(** [as_metadata] reads [plan.reason], which [QueryPlan] does not have. *)
Definition as_metadata (task : QueryTask) : outcome pydict :=
  Raise (no_attribute "QueryPlan" "reason").

Definition fallback_map : list (string * list string) := [
  ("web_search_and_scrape", ["web_search_and_scrape"; "web_search"; "news_search"]);
  ("news_search", ["news_search"; "web_search_and_scrape"; "web_search"]);
  ("weather_lookup", ["weather_lookup"; "web_search_and_scrape"; "web_search"]);
  ("road_condition_search", ["road_condition_search"; "web_search_and_scrape"; "web_search"]);
  ("stock_quote", ["stock_quote"; "explain_stock_move"; "web_search_and_scrape"; "web_search"]);
  ("stock_news", ["stock_news"; "news_search"; "web_search_and_scrape"; "web_search"]);
  ("explain_stock_move", ["explain_stock_move"; "stock_news"; "stock_quote"; "web_search_and_scrape"; "web_search"])].

Definition _append_with_fallbacks (available selected : list string) (tool : string) : list string :=
  match List.find (λ c, bool_decide (c ∈ available) && negb (bool_decide (c ∈ selected)))
          (default [tool] (dict_get tool fallback_map)) with
  | Some candidate => selected ++ [candidate]
  | None => selected
  end.

(** [Settings] has neither [search_unknown_or_fresh] nor [max_tool_calls]. *)
Definition select_available_tools (plan : QueryPlan) (inventory : RuntimeInventory) (settings : Settings) :
    outcome (list string) :=
  let available := tool_names inventory in
  if negb (mcp_enabled settings) || bool_decide (available = []) then Ret []
  else
    match foldl (_append_with_fallbacks available) [] (qp_tools plan) with
    | [] => Raise (no_attribute "Settings" "search_unknown_or_fresh")
    | _ => Raise (no_attribute "Settings" "max_tool_calls")
    end.

(** The loop's first iteration calls [self.router.plan(query, metadata)]; [plan]
    takes the message only. *)
Definition build_tasks (queries : list string) : outcome (list QueryTask) :=
  match queries with
  | [] => Ret []
  | _ =>
      Raise (PyExn TypeError "ModelRouter.plan() takes 2 positional arguments but 3 were given")
  end.

(** ** Bounds *)

Lemma drop_while_length p s : (String.length (drop_while p s) ≤ String.length s)%nat.
Proof. induction s as [|c s IH]; simpl; [lia|]. destruct (p c); simpl; lia. Qed.

Lemma srev_size s : String.length (srev s) = String.length s.
Proof.
  induction s as [|c s IH]; [done|]. unfold srev. simpl. rewrite srev_app_text, sapp_length, IH. simpl. lia.
Qed.

Lemma strip_size s : slen (strip s) ≤ slen s.
Proof.
  unfold slen, strip, strip_by, rstrip_by, lstrip_by. rewrite srev_size.
  pose proof (drop_while_length is_space (srev (drop_while is_space s))) as H1.
  pose proof (drop_while_length is_space s) as H2. rewrite srev_size in H1. lia.
Qed.

Lemma clean_query_size t : slen (_clean_query t) ≤ 600.
Proof. unfold _clean_query. etrans; [apply strip_size|]. by apply stake_Z_length. Qed.

(** A cleaned query: not empty, and of bounded size. *)
Definition cleaned (q : string) : Prop := nonempty q = true ∧ slen q ≤ 600.

Lemma add_new_spec output q :
  NoDup output → Forall cleaned output → cleaned q →
  NoDup (add_new output q) ∧ Forall cleaned (add_new output q).
Proof.
  intros Hd Hf Hq. unfold add_new. case_bool_decide; [done|]. rewrite Forall_app, NoDup_app.
  split; [|by split; [|constructor]]. split; [done|]. split; [|apply NoDup_singleton].
  by intros x Hx ->%list_elem_of_singleton.
Qed.

Lemma add_clean_spec output t :
  NoDup output → Forall cleaned output →
  let out := if nonempty (_clean_query t) then add_new output (_clean_query t) else output in
  NoDup out ∧ Forall cleaned out.
Proof.
  intros Hd Hf. destruct (nonempty _) eqn:E; simpl; [|done].
  apply add_new_spec; [done..|]. split; [done|apply clean_query_size].
Qed.

Lemma add_if_needed_spec max_items joined output rule :
  NoDup output → Forall cleaned output →
  NoDup (add_if_needed max_items joined output rule) ∧ Forall cleaned (add_if_needed max_items joined output rule).
Proof.
  intros Hd Hf. destruct rule as [[condition terms] query]. unfold add_if_needed.
  destruct (_ || _); [done|]. destruct (existsb _ _); [done|]. by apply add_clean_spec.
Qed.

Lemma foldl_inv {A B} (P : A → Prop) (f : A → B → A) l a :
  (∀ a b, P a → P (f a b)) → P a → P (foldl f a l).
Proof. intros Hf. revert a. induction l as [|b l IH]; intros a Ha; simpl; auto. Qed.

(** What a list of queries has to be: within the limit, without repetitions, each
    cleaned; or the message alone. *)
Definition queries_ok (message : string) (max_items : Z) (qs : list string) : Prop :=
  qs = [_clean_query message] ∨
  (qs ≠ [] ∧ Z.of_nat (length qs) ≤ max_items ∧ NoDup qs ∧ Forall cleaned qs).

Lemma or_message_ok message max_items output :
  1 ≤ max_items → NoDup output → Forall cleaned output →
  queries_ok message max_items (or_message message (take (Z.to_nat max_items) output)).
Proof.
  intros Hm Hd Hf. unfold or_message. destruct (take _ _) as [|q qs] eqn:E; [by left|]. right.
  split; [done|]. rewrite <-E. split; [rewrite length_take; lia|].
  split; [by eapply sublist_NoDup, sublist_take|by apply Forall_take].
Qed.

Lemma coverage_ok message queries max_items :
  1 ≤ max_items → queries_ok message max_items (_ensure_request_coverage message queries max_items).
Proof.
  intros Hm. unfold _ensure_request_coverage. cbv zeta.
  set (output := foldl _ [] queries).
  assert (NoDup output ∧ Forall cleaned output) as [Hd Hf].
  { unfold output. apply foldl_inv; [|split; constructor]. intros a b [? ?]. by apply add_clean_spec. }
  destruct (_ && _); [by apply or_message_ok|].
  destruct (foldl_inv (λ out, NoDup out ∧ Forall cleaned out)
    (add_if_needed max_items (lower (join " " output))) (coverage_rules (lower message)) output) as [? ?].
  - intros a b [? ?]. by apply add_if_needed_spec.
  - done.
  - by apply or_message_ok.
Qed.

Lemma clean_items_cleaned str_container items : Forall cleaned (clean_items str_container items).
Proof.
  unfold clean_items. rewrite Forall_forall. intros q [Hq Hin]%list_elem_of_filter. split; [done|].
  rewrite list_elem_of_In in Hin. apply in_map_iff in Hin as (item&<-&_). apply clean_query_size.
Qed.

Lemma explicit_cleaned str_container metadata : Forall cleaned (explicit_queries str_container metadata).
Proof.
  unfold explicit_queries. destruct (if truthy _ then _ else _); try constructor. apply clean_items_cleaned.
Qed.

(** Whatever the request, its metadata, the models installed and what the
    planning model answers: a decomposition that returns has at least one query,
    at most [max_subqueries], and each is a cleaned text of at most 600
    characters; an empty query occurs only when the message itself cleans to
    nothing and stands alone. *)
Theorem decompose_spec {Y} `{!OllamaHost Y} ds message metadata inventory
    (w w' : World (Process Y)) qs
    (Hmax : 1 ≤ max_subqueries ds)
    (Hrun : decompose ds message metadata inventory w = (Ret qs, w')) :
  qs ≠ [] ∧ Z.of_nat (length qs) ≤ max_subqueries ds ∧
  Forall (λ q, slen q ≤ 600) qs ∧ (Forall (λ q, nonempty q = true) qs ∨ qs = [_clean_query message]).
Proof.
  assert (∀ l, queries_ok message (max_subqueries ds) l → l ≠ [] ∧ Z.of_nat (length l) ≤ max_subqueries ds ∧
    Forall (λ q, slen q ≤ 600) l ∧ (Forall (λ q, nonempty q = true) l ∨ l = [_clean_query message])) as Hok.
  { intros l [->|(Hne&Hl&_&Hf)].
    - split; [done|]. split; [simpl; lia|]. split; [|by right]. constructor; [|done]. apply clean_query_size.
    - split; [done|]. split; [done|]. split; [|left]; (eapply Forall_impl; [exact Hf|]); by intros q []. }
  unfold decompose in Hrun. cbv zeta in Hrun.
  pose proof (explicit_cleaned oh_str_container metadata) as Hitems.
  destruct (explicit_queries oh_str_container metadata) as [|q items].
  - apply Hok. destruct (_extract_numbered_items message) as [|n ns].
    + destruct (_ && _).
      * apply bind_Ret_inv in Hrun as (planned&w1&_&Hrun). destruct planned as [|p ps].
        -- injection Hrun as <- _. by apply coverage_ok.
        -- injection Hrun as <- _. destruct (coverage_ok message (p :: ps) (max_subqueries ds) Hmax)
             as [Hq|(Hne&Hl&Hd&Hf)].
           ++ rewrite Hq. left. destruct (Z.to_nat (max_subqueries ds)) eqn:E; [lia|]. simpl. by rewrite take_nil.
           ++ right. rewrite take_ge by lia. done.
      * injection Hrun as <- _. by apply coverage_ok.
    + injection Hrun as <- _. by apply coverage_ok.
  - injection Hrun as <- _. split; [by destruct (Z.to_nat (max_subqueries ds)) eqn:E; [lia|]|].
    split; [rewrite length_take; lia|].
    apply (Forall_take _ (Z.to_nat (max_subqueries ds))) in Hitems.
    split; [|left]; (eapply Forall_impl; [exact Hitems|]); by intros ? [].
Qed.

(** ** Newlines *)

Lemma sforall_prefix (p : Ascii.ascii → bool) s :
  (∀ a c b, s = a +:+ String c b → p c = true) → sforall p s = true.
Proof.
  induction s as [|c s IH]; intros H; [done|]. cbn [sforall]. rewrite (H "" c s) by done. simpl.
  apply IH. intros a d b ->. by apply (H (String c a) d b).
Qed.

Lemma spaces_match x c s :
  at_rest x = String c s → is_space c = true → runs RSpaces x ≠ [].
Proof.
  intros Hx Hc. unfold RSpaces, RPlus. cbn [runs]. unfold step_char. rewrite Hx, Hc. simpl.
  rewrite app_nil_r. destruct (String.length s); simpl; [done|]. by destruct (flat_map _ _).
Qed.

Lemma spaces_advance x y : derives RSpaces x y → (String.length (at_rest y) < String.length (at_rest x))%nat.
Proof.
  unfold RSpaces, RPlus. inversion 1 as [| |? ? ? z ? Hc Hs| | | | | | | | |]; subst.
  inversion Hc as [? ? ? Hstep| | | | | | | | | | |]; subst.
  unfold step_char in Hstep. destruct (at_rest x) as [|c s]; [done|]. destruct (is_space c); [|done].
  simplify_eq. apply derives_suffix in Hs. simpl in *. rewrite Hs, sapp_length. lia.
Qed.

Definition space_free (s : string) : bool := sforall (λ c, negb (is_space c)) s.

(** Between the runs of whitespace, and after the last, there is none. *)
Lemma spaces_pieces fuel prev s :
  (String.length s ≤ fuel)%nat →
  let '(ms, tail) := matches_from fuel RSpaces prev s in
  Forall (λ m, space_free (mt_before m) = true) ms ∧ space_free tail = true.
Proof.
  revert prev s. induction fuel as [|fuel IH]; intros prev s Hl; cbn [matches_from].
  { split; [constructor|]. by destruct s; simpl in *; [|lia]. }
  pose proof (search_from_spec RSpaces "" prev s) as H. destruct (search_from _ _ _ _) as [m|].
  - destruct H as (skipped&Hb&Hs&Hh&Hno). change (mt_before m = skipped) in Hb.
    assert (derives RSpaces (At (last_of prev skipped) (mt_text m +:+ at_rest (mt_end m)) []) (mt_end m)) as Hd.
    { apply runs_derives. destruct (runs _ _); simplify_eq/=; left. }
    apply spaces_advance in Hd. simpl in Hd. rewrite sapp_length in Hd.
    assert (nonempty (mt_text m) = true) as -> by (destruct (mt_text m); simpl in *; [lia|done]).
    specialize (IH (at_prev (mt_end m)) (at_rest (mt_end m))).
    destruct (matches_from _ _ _ _) as [ms tail]. destruct IH as [Hms Ht].
    { apply (f_equal String.length) in Hs. rewrite !sapp_length in Hs. lia. }
    split; [|done]. constructor; [|done]. rewrite Hb. apply sforall_prefix. intros a c b Hab.
    destruct (is_space c) eqn:Ec; [|done]. exfalso.
    eapply (spaces_match (At (last_of prev a) (String c b +:+ (mt_text m +:+ at_rest (mt_end m))) []));
      [done|exact Ec|]. apply Hno; [by rewrite Hs, Hab, sapp_assoc|rewrite Hab, sapp_length; simpl; lia].
  - split; [constructor|]. apply sforall_prefix. intros a c b Hab.
    destruct (is_space c) eqn:Ec; [|done]. exfalso.
    by eapply (spaces_match (At (last_of prev a) (String c b) [])); [done|exact Ec|apply H].
Qed.

Definition not_newline (c : Ascii.ascii) : bool := negb (code c =? 10)%N.

Lemma not_space_not_newline c : negb (is_space c) = true → not_newline c = true.
Proof. unfold is_space, not_newline. destruct (N.eqb_spec (code c) 10) as [->|]; done. Qed.

Lemma sub_spaces_newline s : sforall not_newline (sub RSpaces " " s) = true.
Proof.
  unfold sub, finditer. pose proof (spaces_pieces (String.length s) None s (Nat.le_refl _)) as H.
  destruct (matches_from _ _ _ _) as [ms tail]. destruct H as [Hms Ht].
  induction Hms as [|m ms Hm _ IH]; simpl.
  - eapply sforall_weaken, Ht. apply not_space_not_newline.
  - rewrite !sforall_app, IH. simpl. rewrite andb_true_r. eapply sforall_weaken, Hm. apply not_space_not_newline.
Qed.

Lemma sforall_drop_marks q a b d s : sforall q s = true → sforall q (drop_marks a b d s) = true.
Proof.
  remember (String.length s) as n eqn:Hn. revert s Hn. induction n as [n IH] using lt_wf_ind. intros [|c s] Hn H; [done|].
  cbn [drop_marks]. simpl in H. pose proof H as [Hc Hs]%andb_prop.
  destruct (is_mark c); [eapply IH; [|done..]; simpl in *; lia|].
  destruct s as [|c' [|c'' s]]; [done..|].
  match goal with |- sforall q (if ?e then _ else _) = true => destruct e end; [|done].
  simpl in Hs, Hn. repeat apply andb_prop in Hs as [_ Hs]. eapply IH; [|done..]. lia.
Qed.

Lemma clean_query_newline t : sforall not_newline (_clean_query t) = true.
Proof.
  unfold _clean_query, strip_marks, stake_Z. apply sforall_strip, sforall_stake. rewrite sforall_srev.
  apply sforall_drop_marks. rewrite sforall_srev. apply sforall_drop_marks, sub_spaces_newline.
Qed.

Lemma newline_unmatched before prev s :
  sforall not_newline s = true → search_from newline_re before prev s = None.
Proof.
  revert before prev. induction s as [|c s IH]; intros before prev H; [done|].
  simpl in H. apply andb_prop in H as [Hc Hs]. cbn [search_from].
  replace (matchk newline_re _ _) with (@None position); [by apply IH|].
  unfold newline_re, RPlus. cbn [matchk]. unfold step_char. simpl.
  unfold not_newline in Hc. by destruct (code c =? 10)%N.
Qed.

(** Lines are not separate tasks: the message is cleaned before it is split, and
    cleaning turns every newline into a space, so the newline pattern never
    splits anything. *)
Theorem newlines_never_split message :
  sforall not_newline (_clean_query message) = true ∧
  split newline_re (_clean_query message) = [_clean_query message].
Proof.
  split; [apply clean_query_newline|]. unfold split, finditer.
  destruct (String.length _); [done|]. cbn [matches_from].
  by rewrite newline_unmatched by apply clean_query_newline.
Qed.

(** No list of queries becomes tasks, and no task has metadata: [build_tasks]
    raises as soon as there is a query, since it calls the router with an
    argument the router does not take, and [as_metadata] reads a field plans do
    not have. *)
Theorem build_tasks_raises queries task :
  (queries ≠ [] → ∃ m, build_tasks queries = Raise (PyExn TypeError m)) ∧
  ∃ m, as_metadata task = Raise (PyExn AttributeError m).
Proof. split; [destruct queries; [done|]; by eexists|by eexists]. Qed.

(** ** A planning model's answer *)

Definition sample_decompose_settings : DecomposeSettings :=
  MkDecomposeSettings (settings_with Ollama true) true 3.

Definition sample_plan_reply : string :=
  "Here it is: {" +:+ quote +:+ "queries" +:+ quote +:+ ": [" +:+ quote +:+ "first plan" +:+ quote
  +:+ ", " +:+ quote +:+ " second   plan- " +:+ quote +:+ ", " +:+ quote +:+ "first plan" +:+ quote +:+ "]}".

Definition sample_message : string := "Set the two plans side by side".

Lemma sample_decomposition : ∃ w',
  decompose sample_decompose_settings sample_message [] (MkInventory [] [] [] false 0)
    (sample_process [sample_plan_reply]) = (Ret ["first plan"; "second plan"], w').
Proof.
  match goal with |- ∃ w', ?run = _ => assert (run.1 = Ret ["first plan"; "second plan"]) as H end.
  { vm_compute. reflexivity. }
  match type of H with ?run.1 = _ => destruct run as [o w'] end. exists w'. by f_equal.
Qed.

Lemma decompose_spec_witness :
  (length ["first plan"; "second plan"] ≤ 3)%nat ∧
  Forall (λ q, slen q ≤ 600) ["first plan"; "second plan"].
Proof.
  destruct sample_decomposition as [w' E].
  destruct (decompose_spec sample_decompose_settings sample_message [] (MkInventory [] [] [] false 0)
    (sample_process [sample_plan_reply]) w' ["first plan"; "second plan"] ltac:(done) E) as (_ & Hl & Hf & _).
  split; [simpl in *; lia|exact Hf].
Defined.
