(* ===== verification/SessionMemory.v ===== *)
(** * Session memory of the prompt services

    [InMemoryConversationStore] of [app/services/memory.py]: sessions with a
    time-to-live and an LRU bound, a bounded queue of trimmed messages each, and
    their rendering for a prompt.  The coroutines hold the store's lock and await
    nothing inside it; [cleanup_now] and [now] are their readings of
    [monotonic()].  [session_memory_bounded] is the invariant. *)

From stdpp Require Import relations.
From S2P Require Import Prelude PyData RunTypes Metrics PyRegex Decompose.

Record MemorySettings : Type := MkMemorySettings {
  session_history_messages : Z;
  max_conversation_sessions : Z;
  conversation_session_ttl_seconds : Z;
  conversation_cleanup_interval_seconds : Z;
  max_history_message_chars : Z
}.

Record ConversationTurn : Type := MkTurn { ct_role : string; ct_content : string }.

Record _Session : Type := Mk_Session { ss_messages : list ConversationTurn; ss_touched_at : Z }.

Record SessionStore : Type := MkSessionStore {
  sm_sessions : list (string * _Session);
  sm_last_cleanup : Z
}.

#[export] Instance eta_SessionStore : Eta SessionStore := λ s,
  MkSessionStore (sm_sessions s) (sm_last_cleanup s).

Definition session_store_init : SessionStore := MkSessionStore [] 0.

Section memory.
Context (settings : MemorySettings).

Definition trimmed_mark : string := " …[trimmed]".

Definition _trim (text : string) : string :=
  let compact := join " " (split_ws text) in
  let limit := max_history_message_chars settings in
  if slen compact <=? limit then compact
  else rstrip (stake_Z (Z.max 0 (limit - 20)) compact) +:+ trimmed_mark.

Definition _cleanup_locked (now : Z) : M SessionStore unit := λ s,
  if now - sm_last_cleanup s <? seconds (conversation_cleanup_interval_seconds settings) then (Ret tt, s)
  else
    let cutoff := now - seconds (conversation_session_ttl_seconds settings) in
    (Ret tt, MkSessionStore (filter (λ kv, ¬ ss_touched_at kv.2 < cutoff) (sm_sessions s)) now).

Definition session_get (thread_id : string) (cleanup_now now : Z) :
    M SessionStore (list ConversationTurn) :=
  _cleanup_locked cleanup_now ;;;
  let! session := gets (λ s, dict_get thread_id (sm_sessions s)) in
  match session with
  | None => ret []
  | Some session =>
      modify (λ s, s <| sm_sessions :=
        od_touch thread_id (Mk_Session (ss_messages session) now) (sm_sessions s) |>) ;;;
      ret (ss_messages session)
  end.

(** [while len(sessions) > max: sessions.popitem(last=False)]. *)
Definition evict_oldest (d : list (string * _Session)) : list (string * _Session) :=
  drop (length d - Z.to_nat (max_conversation_sessions settings)) d.

(** [deque(maxlen=n).append]. *)
Definition append_turn (turns : list ConversationTurn) (turn : ConversationTurn) : list ConversationTurn :=
  keep_last (Z.to_nat (session_history_messages settings)) (turns ++ [turn]).

Definition add_pair (thread_id user assistant : string) (cleanup_now now : Z) : M SessionStore unit :=
  _cleanup_locked cleanup_now ;;;
  let! session := gets (λ s, dict_get thread_id (sm_sessions s)) in
  let turns := match session with Some s => ss_messages s | None => [] end in
  let turns := append_turn (append_turn turns (MkTurn "user" (_trim user))) (MkTurn "assistant" (_trim assistant)) in
  modify (λ s, s <| sm_sessions :=
    evict_oldest (od_touch thread_id (Mk_Session turns now) (sm_sessions s)) |>).

Definition session_clear (thread_id : string) : M SessionStore unit :=
  modify (λ s, s <| sm_sessions := od_pop thread_id (sm_sessions s) |>).

Definition render (history : list ConversationTurn) : string :=
  match history with
  | [] => "No prior messages in this session."
  | _ =>
      join nl (map (λ item,
        (if String.eqb (ct_role item) "user" then "User" else "Assistant") +:+ ": " +:+ _trim (ct_content item))
        (keep_last (Z.to_nat (session_history_messages settings)) history))
  end.

(** ** The bounds *)

(** The bounds of the fields in [Settings]. *)
Definition memory_settings_valid : Prop :=
  2 ≤ session_history_messages settings ∧ 1 ≤ max_conversation_sessions settings ∧
  100 ≤ max_history_message_chars settings.

Definition turn_bounded (t : ConversationTurn) : Prop :=
  slen (ct_content t) ≤ max_history_message_chars settings.

Definition session_bounded (s : _Session) : Prop :=
  Z.of_nat (length (ss_messages s)) ≤ session_history_messages settings ∧
  Forall turn_bounded (ss_messages s).

Record session_inv (s : SessionStore) : Prop := {
  sv_keys : NoDup (sm_sessions s).*1;
  sv_count : Z.of_nat (length (sm_sessions s)) ≤ max_conversation_sessions settings;
  sv_sessions : Forall (λ kv, session_bounded kv.2) (sm_sessions s)
}.

(** One call of the store, at any readings of the clock. *)
Inductive memory_step : SessionStore → SessionStore → Prop :=
  | ms_get k t1 t2 s : memory_step s (session_get k t1 t2 s).2
  | ms_add k user assistant t1 t2 s : memory_step s (add_pair k user assistant t1 t2 s).2
  | ms_clear k s : memory_step s (session_clear k s).2.

Lemma rstrip_size s : slen (rstrip s) ≤ slen s.
Proof.
  unfold slen, rstrip, rstrip_by. rewrite srev_size.
  pose proof (drop_while_length is_space (srev s)) as H. rewrite srev_size in H. lia.
Qed.

Lemma trim_size text :
  100 ≤ max_history_message_chars settings → slen (_trim text) ≤ max_history_message_chars settings.
Proof.
  intros Hl. unfold _trim. cbv zeta. destruct (Z.leb_spec (slen (join " " (split_ws text)))
    (max_history_message_chars settings)); [done|].
  rewrite slen_app. set (compact := join _ _).
  pose proof (rstrip_size (stake_Z (Z.max 0 (max_history_message_chars settings - 20)) compact)).
  pose proof (stake_Z_length (Z.max 0 (max_history_message_chars settings - 20)) compact).
  assert (slen trimmed_mark = 13) as -> by reflexivity. lia.
Qed.

Lemma append_turn_bounded turns turn :
  2 ≤ session_history_messages settings →
  Forall turn_bounded turns → turn_bounded turn →
  Z.of_nat (length (append_turn turns turn)) ≤ session_history_messages settings ∧
  Forall turn_bounded (append_turn turns turn).
Proof.
  intros Hn Hf Ht. unfold append_turn. split.
  - pose proof (keep_last_length (Z.to_nat (session_history_messages settings)) (turns ++ [turn])). lia.
  - destruct (keep_last_suffix (Z.to_nat (session_history_messages settings)) (turns ++ [turn])) as [l' E].
    assert (Forall turn_bounded (turns ++ [turn])) as H by (apply Forall_app; by repeat constructor).
    rewrite E in H. by apply Forall_app in H as [_ ?].
Qed.

Lemma cleanup_inv now s : session_inv s → session_inv (_cleanup_locked now s).2.
Proof.
  intros [Hk Hc Hs]. unfold _cleanup_locked. destruct (_ <? _); [done|]. split; simpl.
  - eapply sublist_NoDup; [exact Hk|]. f_equiv. apply sublist_filter.
  - pose proof (length_filter (λ kv : string * _Session, ¬ ss_touched_at kv.2 <
      now - seconds (conversation_session_ttl_seconds settings)) (sm_sessions s)). lia.
  - rewrite Forall_forall in *. intros kv [_ Hkv]%list_elem_of_filter. auto.
Qed.

Lemma od_pop_Forall {A} (P : string * A → Prop) k (d : list (string * A)) :
  Forall P d → Forall P (od_pop k d).
Proof. unfold od_pop. rewrite !Forall_forall. intros H x [_ Hx]%list_elem_of_filter. auto. Qed.

Lemma od_pop_length {A} k (d : list (string * A)) :
  (length (od_pop k d) ≤ length d)%nat ∧ (k ∈ d.*1 → (length (od_pop k d) < length d)%nat).
Proof.
  unfold od_pop. induction d as [|[k' v] d [IH1 IH2]]; [split; [simpl; lia|by intros ?%not_elem_of_nil]|].
  rewrite filter_cons, fmap_cons, elem_of_cons. simpl. destruct (decide (k' ≠ k)); simpl; split; try lia.
  intros [->|Hin%IH2]; [done|lia].
Qed.

(** The store stays within its bounds: whatever the calls and the clock, it holds
    at most [max_conversation_sessions] sessions, no conversation twice, at most
    [session_history_messages] messages in each, and no message longer than
    [max_history_message_chars]. *)
Theorem session_memory_bounded s
    (Hvalid : memory_settings_valid) (Hreach : rtc memory_step session_store_init s) :
  session_inv s.
Proof.
  destruct Hvalid as (Hn&Hm&Hl).
  assert (session_inv session_store_init) as H0 by (split; simpl; [constructor|lia|constructor]).
  revert H0. induction Hreach as [|x y z Hstep _ IH]; [done|]. intros Hx. apply IH. clear IH.
  destruct Hstep as [k t1 t2 s|k user assistant t1 t2 s|k s].
  - apply (cleanup_inv t1) in Hx. unfold session_get, bind, gets, modify.
    destruct (_cleanup_locked t1 s) as [[[]|e] s1]; [|done]. simpl in Hx. destruct Hx as [Hk Hc Hs].
    destruct (dict_get k (sm_sessions s1)) as [ss|] eqn:E; [|done]. simpl. apply dict_get_elem_of in E.
    split; simpl; [by apply od_touch_NoDup| |].
    + unfold od_touch. rewrite length_app. simpl.
      destruct (od_pop_length k (sm_sessions s1)) as [_ Hp].
      assert (k ∈ (sm_sessions s1).*1) as Hin by (apply list_elem_of_fmap; by exists (k, ss)).
      specialize (Hp Hin). lia.
    + unfold od_touch. apply Forall_app. split; [by apply od_pop_Forall|]. constructor; [|done].
      rewrite Forall_forall in Hs. exact (Hs _ E).
  - apply (cleanup_inv t1) in Hx. unfold add_pair, bind, gets, modify.
    destruct (_cleanup_locked t1 s) as [[[]|e] s1]; [|done]. simpl in Hx. destruct Hx as [Hk Hc Hs].
    set (turns := match dict_get k (sm_sessions s1) with Some s => ss_messages s | None => [] end).
    assert (Forall turn_bounded turns) as Ht.
    { unfold turns. destruct (dict_get k (sm_sessions s1)) as [ss|] eqn:E; [|constructor].
      apply dict_get_elem_of in E. rewrite Forall_forall in Hs. by apply (Hs _ E). }
    simpl. fold turns.
    destruct (append_turn_bounded turns (MkTurn "user" (_trim user))) as [_ H1]; [done..|by apply trim_size|].
    destruct (append_turn_bounded (append_turn turns (MkTurn "user" (_trim user)))
      (MkTurn "assistant" (_trim assistant))) as [H2 H3]; [done..|by apply trim_size|].
    split; simpl; unfold evict_oldest.
    + eapply sublist_NoDup; [|f_equiv; apply sublist_drop]. by apply od_touch_NoDup.
    + rewrite length_drop. lia.
    + apply Forall_drop. unfold od_touch. apply Forall_app. split; [by apply od_pop_Forall|].
      by constructor.
  - destruct Hx as [Hk Hc Hs]. split; simpl; [by apply od_pop_NoDup| |by apply od_pop_Forall].
    destruct (od_pop_length k (sm_sessions s)) as [? _]. lia.
Qed.
End memory.
