(* ===== verification/PromptFormat.v ===== *)
(** * Prompts and references

    [app/services/formatting.py]: tool evidence rendered within a budget, the
    references read off tool results, the prompt of the synthesis, and the
    cleaning of a model's answer.  Parameters: [json_indent] is
    [json.dumps(v, ensure_ascii=False, indent=2, default=str)], [urlparse] that of
    [urllib.parse] (it raises [ValueError] on a malformed host), and
    [prompt_invoke] LangChain's prompt template, giving the types and contents of
    its messages. *)

From stdpp Require Import sorting.
From S2P Require Import Prelude PyData PyNum PyRegex Evidence Routing Decompose SessionMemory.

(** [MCPToolResult]: the tool and what it returned. *)
Record NamedResult : Type := MkNamedResult { nr_tool : string; nr_result : ToolResult }.

(** What the code reads of [urlparse]'s result. *)
Record ParsedUrl : Type := MkParsedUrl { pu_scheme : string; pu_netloc : string; pu_path : string }.

Record Reference : Type := MkReference {
  rf_title : string;
  rf_url : string;
  rf_source : string;
  rf_quality : Z
}.

(** ** The model's answer *)

(** [<think>.*?</think>] and [^\s*(Thinking Process|Thought Process)\s*:.*?(?=\n\s*\S|$)],
    ignoring case, the dot matching newlines. *)
Definition THINK_RE : regex :=
  RSeqs [RTextI "<think>"; RStar false (RChar any_char); RTextI "</think>"].
Definition THINKING_PROCESS_RE : regex :=
  RSeqs [RBegin; RSpaces0; RGroup 1 (RAlts [RTextI "thinking process"; RTextI "thought process"]);
    RSpaces0; RChar (one_of ":"); RStar false (RChar any_char);
    RAhead (RAlt (RSeqs [RChar (λ c, (code c =? 10)%N); RSpaces0; RChar (λ c, negb (is_space c))]) REnd)].

Definition clean_model_output (text : string) : string :=
  strip (sub THINKING_PROCESS_RE "" (sub THINK_RE "" text)).

Section formatting.
Context (json_indent : pyval → string) (urlparse : string → outcome ParsedUrl).
Context (prompt_invoke : string → string → list (string * string)).

(** ** Tool evidence *)

Definition evidence_block (r : NamedResult) : string * string :=
  if tr_ok (nr_result r) then
    ("TOOL " +:+ nr_tool r +:+ " OK:" +:+ nl, json_indent (tr_data (nr_result r)))
  else
    ("TOOL " +:+ nr_tool r +:+ " ERROR:" +:+ nl, opt_str_or (tr_error (nr_result r)) "Unknown tool error").

Fixpoint evidence_blocks (max_chars used : Z) (results : list NamedResult) : list string :=
  match results with
  | [] => []
  | r :: results' =>
      let '(prefix, text) := evidence_block r in
      let remaining := max_chars - used - slen prefix in
      if remaining <=? 0 then []
      else
        let block := prefix +:+ stake_Z remaining text in
        block :: evidence_blocks max_chars (used + slen block) results'
  end.

Definition render_tool_evidence (results : list NamedResult) (max_chars : Z) : string :=
  match results with
  | [] => "No tool evidence was used."
  | _ => join (nl +:+ nl) (evidence_blocks max_chars 0 results)
  end.

(** ** References *)

Definition rstrip_chars (chars s : string) : string := rstrip_by (λ c, mem_char c chars) s.

Definition _normalize_url (url : string) : outcome string :=
  try! parsed := urlparse (strip url) in
  Ret (pu_scheme parsed +:+ "://" +:+ lower (pu_netloc parsed) +:+ rstrip_chars "/" (pu_path parsed)).

Definition removeprefix (p s : string) : string := if startswith p s then sdrop (String.length p) s else s.

Definition _reference_quality (url title : string) : outcome Z :=
  try! parsed := urlparse url in
  let host := removeprefix "www." (lower (pu_netloc parsed)) in
  let text := lower (host +:+ " " +:+ title) in
  let has s := existsb (λ m, contains m s) in
  Ret (10
    + (if has host ["docs."; "developer."; "developers."; "github.com"; "langchain.com";
                    "modelcontextprotocol.io"; "ollama.com"; "aws.amazon.com"; "docs.aws.amazon.com";
                    "fastapi.tiangolo.com"; "python.org"]
          || has text ["official"; "documentation"; "docs"] then 50 else 0)
    + (if endswith ".gov" host || endswith ".edu" host then 25 else 0)
    - (if has host ["reddit.com"; "medium.com"; "geeksforgeeks.org"; "udemy.com"; "quora.com"] then 35 else 0)
    - (if contains "blog" host || contains "blog" text then 10 else 0)).

(** The two accumulators of [extract_references]. *)
Record RefState : Type := MkRefState { rs_refs : list Reference; rs_seen : list string }.

(** [add]. *)
Definition add_reference (title url : option string) (source : string) : M RefState unit :=
  match url with
  | Some u =>
      if existsb (λ p, startswith p u) ["http://"; "https://"] then
        let! normalized := of_outcome (_normalize_url u) in
        let! seen := gets rs_seen in
        if bool_decide (normalized ∈ seen) then ret tt
        else
          modify (λ s, MkRefState (rs_refs s) (normalized :: rs_seen s)) ;;;
          let! quality := of_outcome (_reference_quality u (opt_str_or title "")) in
          modify (λ s, MkRefState
            (rs_refs s ++ [MkReference (stake 180 (strip (opt_str_or title u))) (strip u) source quality])
            (rs_seen s))
      else ret tt
  | None => ret tt
  end.

Definition text_or_None (v : pyval) : option string := match v with VStr s => Some s | _ => None end.

(** [d.get(a) or d.get(b) or d.get(c)]. *)
Definition get_first (a b c : string) (d : pydict) : pyval :=
  let x := get_or_none a d in
  let y := get_or_none b d in
  if truthy x then x else if truthy y then y else get_or_none c d.

Definition dict_reference (d : pydict) (source : string) : M RefState unit :=
  add_reference (text_or_None (get_first "title" "name" "source" d))
    (text_or_None (get_first "url" "link" "href" d)) source.

Definition reference_cap (limit : Z) : Z := Z.max (limit * 3) limit.

Fixpoint walk (limit : Z) (source : string) (obj : pyval) : M RefState unit := λ s,
  if reference_cap limit <=? Z.of_nat (length (rs_refs s)) then (Ret tt, s)
  else
    match obj with
    | VDict d =>
        bind (dict_reference d source)
          (λ _, (fix go (d : list (string * pyval)) : M RefState unit :=
             match d with
             | [] => ret tt
             | (_, x) :: d' => bind (walk limit source x) (λ _, go d')
             end) d) s
    | VList l =>
        (fix go (l : list pyval) : M RefState unit :=
           match l with
           | [] => ret tt
           | x :: l' => bind (walk limit source x) (λ _, go l')
           end) l s
    | _ => (Ret tt, s)
    end.

Fixpoint walk_results (limit : Z) (results : list NamedResult) : M RefState unit :=
  match results with
  | [] => ret tt
  | r :: results' => walk limit (nr_tool r) (tr_data (nr_result r)) ;;; walk_results limit results'
  end.

(** The stable sort by descending quality. *)
Fixpoint insert_ref (x : Reference) (l : list Reference) : list Reference :=
  match l with
  | [] => [x]
  | y :: l' => if rf_quality y <=? rf_quality x then x :: l else y :: insert_ref x l'
  end.
Definition sort_refs (l : list Reference) : list Reference := foldr insert_ref [] l.

(** The dictionaries returned have the fields of [Reference] but the quality. *)
Definition extract_references (results : list NamedResult) (limit : nat) : outcome (list Reference) :=
  match walk_results (Z.of_nat limit) results (MkRefState [] []) with
  | (Ret _, s) => Ret (take limit (sort_refs (rs_refs s)))
  | (Raise e, _) => Raise e
  end.

Definition numbered {A} (l : list A) : list (nat * A) := imap (λ k x, (S k, x)) l.

Definition render_reference_instruction (references : list Reference) : string :=
  match references with
  | [] => "No reference URLs were found in tool output."
  | _ =>
      join nl ("Use these references when relevant:" ::
        map (λ '(k, r), "[" +:+ nat_to_string k +:+ "] " +:+ rf_title r +:+ " - " +:+ rf_url r
               +:+ " (" +:+ rf_source r +:+ ")") (numbered references))
  end.

Definition append_references (answer : string) (references : list Reference) (limit : nat) : string :=
  let answer := clean_model_output answer in
  match references with
  | [] => answer
  | _ =>
      if contains "references:" (lower answer) || contains "sources:" (lower answer) then answer
      else
        join nl ([rstrip answer; ""; "References:"] ++
          map (λ '(k, r), nat_to_string k +:+ ". " +:+ rf_title r +:+ " — " +:+ rf_url r)
            (numbered (take limit references)))
  end.

(** ** Prompts *)

Definition message_role (type : string) : string :=
  if String.eqb type "human" then "user" else if String.eqb type "ai" then "assistant" else type.

Definition prompt_messages (system user : string) : list pydict :=
  map (λ '(type, content), [("role", VStr (message_role type)); ("content", VStr content)])
    (prompt_invoke system user).

Definition build_synthesis_messages (settings : MemorySettings) (original_message system_prompt : string)
    (history : list ConversationTurn) (task_answers : list pyval) (references : list Reference) :
    list pydict :=
  let system :=
    system_prompt +:+ nl +:+ nl
    +:+ "You are combining answers from several smaller questions into one final answer." +:+ nl
    +:+ "Use simple words, keep it broad and useful, and avoid repeating the same point." +:+ nl
    +:+ "Start with the final answer, then give helpful details or steps." +:+ nl
    +:+ "Put references in a separate References section when references are available." +:+ nl
    +:+ "Never expose hidden reasoning." +:+ nl in
  let user :=
    "Current session context:" +:+ nl +:+ render settings history +:+ nl +:+ nl
    +:+ "Original user message:" +:+ nl +:+ original_message +:+ nl +:+ nl
    +:+ "Individual answers:" +:+ nl +:+ json_indent (VList task_answers) +:+ nl +:+ nl
    +:+ "Reference guidance:" +:+ nl +:+ render_reference_instruction references +:+ nl +:+ nl
    +:+ "Create one clean final answer that covers all parts." in
  prompt_messages system user.

(** [plan.reason]: [QueryPlan] has no such attribute. *)
Definition plan_reason (plan : QueryPlan) : outcome string := Raise (no_attribute "QueryPlan" "reason").

(** [tools_repr] is the [repr] of a list of names. *)
Definition build_messages (settings : MemorySettings) (max_tool_chars : Z)
    (tools_repr : list string → string) (user_message system_prompt : string)
    (history : list ConversationTurn) (plan : QueryPlan) (rewritten_query : option string)
    (tool_results : list NamedResult) (references : list Reference) : outcome (list pydict) :=
  let evidence := render_tool_evidence tool_results max_tool_chars in
  let ref_text := render_reference_instruction references in
  let history_text := render settings history in
  let system :=
    system_prompt +:+ nl +:+ nl
    +:+ "Operational rules:" +:+ nl
    +:+ "- Answer the user's latest message, using concise session context only when relevant." +:+ nl
    +:+ "- If tool evidence is present, base factual/current claims on that evidence." +:+ nl
    +:+ "- If evidence is missing or weak, say what is missing; do not invent sources." +:+ nl
    +:+ "- Never expose chain-of-thought, hidden reasoning, or fields named thinking." +:+ nl
    +:+ "- Prefer a direct answer first, then useful context, tradeoffs, and next steps." +:+ nl
    +:+ "- Be broad enough to answer the real need, not only the narrow literal words." +:+ nl
    +:+ "- Use very simple language. A young student should understand the main answer." +:+ nl
    +:+ "- For current information, mention the freshness/limits of the evidence when useful." +:+ nl
    +:+ "- Put references in a separate References section when source URLs/titles are available." +:+ nl in
  try! reason := plan_reason plan in
  let user :=
    "Current session context:" +:+ nl +:+ history_text +:+ nl +:+ nl
    +:+ "Routing decision: intent=" +:+ qp_intent plan +:+ "; model_key=" +:+ qp_model_key plan
    +:+ "; tools=" +:+ tools_repr (qp_tools plan) +:+ "; reason=" +:+ reason +:+ nl
    +:+ "Optimized search query: " +:+ opt_str_or rewritten_query "not needed" +:+ nl +:+ nl
    +:+ "Tool evidence:" +:+ nl +:+ evidence +:+ nl +:+ nl
    +:+ "Reference guidance:" +:+ nl +:+ ref_text +:+ nl +:+ nl
    +:+ "Answer format:" +:+ nl
    +:+ "1. Start with the clear answer." +:+ nl
    +:+ "2. Add the important details that help the user act correctly." +:+ nl
    +:+ "3. Keep the wording clean and easy." +:+ nl
    +:+ "4. Do not include hidden reasoning." +:+ nl +:+ nl
    +:+ "User message:" +:+ nl +:+ user_message in
  Ret (prompt_messages system user).

(** ** The evidence budget *)

Lemma evidence_blocks_size max_chars used results :
  used ≤ max_chars →
  foldr (λ b n, slen b + n) 0 (evidence_blocks max_chars used results) ≤ max_chars - used.
Proof.
  revert used. induction results as [|r results IH]; intros used Hu; simpl; [lia|].
  destruct (evidence_block r) as [prefix text]. destruct (Z.leb_spec (max_chars - used - slen prefix) 0); simpl; [lia|].
  pose proof (slen_nonneg prefix). pose proof (slen_nonneg text).
  pose proof (stake_Z_length (max_chars - used - slen prefix) text).
  rewrite slen_app in *. specialize (IH (used + (slen prefix + slen (stake_Z (max_chars - used - slen prefix) text)))). lia.
Qed.

(** The tool evidence of a prompt fits its budget, its separators not counted:
    whatever the tools returned, the blocks together have at most [max_chars]
    characters. *)
Theorem evidence_within_budget results max_chars :
  0 ≤ max_chars →
  foldr (λ b n, slen b + n) 0 (evidence_blocks max_chars 0 results) ≤ max_chars.
Proof. intros H. pose proof (evidence_blocks_size max_chars 0 results H). lia. Qed.

(** ** What is cited *)

(** The key by which two URLs, stripped, are one source. *)
Definition url_key (url : string) : outcome string :=
  try! parsed := urlparse url in
  Ret (pu_scheme parsed +:+ "://" +:+ lower (pu_netloc parsed) +:+ rstrip_chars "/" (pu_path parsed)).

(** A reference comes from an http(s) URL, and has the quality of that URL. *)
Definition reference_ok (r : Reference) : Prop :=
  ∃ u title, existsb (λ p, startswith p u) ["http://"; "https://"] = true ∧
    rf_url r = strip u ∧ _reference_quality u title = Ret (rf_quality r) ∧ slen (rf_title r) ≤ 180.

Record ref_inv (s : RefState) : Prop := {
  ri_distinct : NoDup (url_key ∘ rf_url <$> rs_refs s);
  ri_seen r : r ∈ rs_refs s → ∃ n, url_key (rf_url r) = Ret n ∧ n ∈ rs_seen s;
  ri_ok : Forall reference_ok (rs_refs s)
}.

(** Actions keep the invariant when they return; an exception ends the walk. *)
Definition kept (m : M RefState unit) : Prop :=
  ∀ s s', ref_inv s → m s = (Ret tt, s') → ref_inv s'.

Lemma kept_ret : kept (ret tt).
Proof. intros s s' H [= <-]. done. Qed.

Lemma kept_bind m k : kept m → kept k → kept (bind m (λ _, k)).
Proof.
  intros Hm Hk s s' Hs Hr. apply bind_Ret_inv in Hr as ([]&s1&H1&H2). eauto.
Qed.

Lemma kept_add title url source : kept (add_reference title url source).
Proof.
  intros s s' Hs Hr. unfold add_reference in Hr. destruct url as [u|]; [|by injection Hr as <-].
  destruct (existsb _ _) eqn:Eh; [|by injection Hr as <-].
  unfold bind, of_outcome, gets, modify, ret in Hr.
  destruct (_normalize_url u) as [n|] eqn:Hn; [|done]. cbv beta iota in Hr.
  case_bool_decide as Hin; [by injection Hr as <-|]. cbv beta iota in Hr.
  destruct (_reference_quality u (opt_str_or title "")) as [quality|] eqn:Hq; [|done].
  injection Hr as <-.
  destruct Hs as [Hd Hseen Hok]. unfold _normalize_url in Hn.
  split; simpl.
  - rewrite fmap_app, NoDup_app. split; [done|]. split; [|apply NoDup_singleton].
    intros k (r&->&Hr)%list_elem_of_fmap Hk. apply list_elem_of_singleton in Hk. simpl in Hk.
    destruct (Hseen r Hr) as (n'&Hn'&Hin'). unfold url_key in Hk at 2. rewrite Hn in Hk. congruence.
  - intros r [Hr|Hr]%elem_of_app.
    + destruct (Hseen r Hr) as (n'&Hn'&Hin'). exists n'. split; [done|by right].
    + apply list_elem_of_singleton in Hr as ->. exists n. simpl. split; [exact Hn|left].
  - apply Forall_app. split; [done|]. repeat constructor. exists u, (opt_str_or title ""). simpl.
    split; [done|]. split; [done|]. split; [done|]. by apply (stake_Z_length 180).
Qed.

Lemma kept_walk limit source obj : kept (walk limit source obj).
Proof.
  assert (∀ k, kept k → kept (λ s, if reference_cap limit <=? Z.of_nat (length (rs_refs s))
    then (Ret tt, s) else k s)) as Hcap.
  { intros k Hk s s' Hs Hr. destruct (_ <=? _); [by injection Hr as <-|]. by eapply Hk. }
  induction obj as [| | | | |l IH|d IH] using pyval_strong_ind; simpl;
    try (apply (Hcap (ret tt)), kept_ret).
  - match goal with |- kept (λ s, if _ then _ else ?go l s) => apply (Hcap (go l)) end.
    induction IH as [|x l Hx _ IHl]; [apply kept_ret|]. by apply kept_bind.
  - match goal with |- kept (λ s, if _ then _ else bind ?m ?k s) => apply (Hcap (bind m k)) end.
    apply kept_bind; [apply kept_add|].
    induction IH as [|[k x] d Hx _ IHd]; [apply kept_ret|]. by apply kept_bind.
Qed.

Lemma kept_walk_results limit results : kept (walk_results limit results).
Proof. induction results as [|r results IH]; [apply kept_ret|]. apply kept_bind; [apply kept_walk|done]. Qed.

Definition better (a b : Reference) : Prop := rf_quality b ≤ rf_quality a.

Lemma insert_ref_perm x l : insert_ref x l ≡ₚ x :: l.
Proof.
  induction l as [|y l IH]; simpl; [done|]. destruct (_ <=? _); [done|].
  rewrite IH. apply Permutation_swap.
Qed.
Lemma sort_refs_perm l : sort_refs l ≡ₚ l.
Proof. induction l as [|x l IH]; simpl; [done|]. by rewrite insert_ref_perm, IH. Qed.

Lemma insert_ref_sorted x l : StronglySorted better l → StronglySorted better (insert_ref x l).
Proof.
  induction 1 as [|y l Hl IH Hy]; simpl; [repeat constructor|]. destruct (Z.leb_spec (rf_quality y) (rf_quality x)).
  - constructor; [by constructor|]. constructor; [done|]. eapply Forall_impl; [exact Hy|].
    unfold better. intros. lia.
  - constructor; [done|]. rewrite insert_ref_perm. constructor; [unfold better; lia|done].
Qed.
Lemma sort_refs_sorted l : StronglySorted better (sort_refs l).
Proof. induction l as [|x l IH]; simpl; [constructor|]. by apply insert_ref_sorted. Qed.

(** The references of an answer: at most [limit]; no source twice, the scheme,
    host (whatever its case) and path (up to a final slash) of its URL telling
    sources apart; each read off an http(s) URL of a tool result, with a title of
    at most 180 characters; best first, and none that was found and left out is
    better than one that is cited. *)
Theorem references_spec results limit out
    (Hout : extract_references results limit = Ret out) :
  (length out ≤ limit)%nat ∧
  NoDup (url_key ∘ rf_url <$> out) ∧
  Forall reference_ok out ∧
  StronglySorted better out ∧
  ∀ r, r ∈ rs_refs (walk_results (Z.of_nat limit) results (MkRefState [] [])).2 →
    r ∈ out ∨ Forall (λ c, better c r) out.
Proof.
  unfold extract_references in Hout.
  destruct (walk_results (Z.of_nat limit) results (MkRefState [] [])) as [[[]|e] s] eqn:E; [|done].
  injection Hout as <-.
  assert (ref_inv s) as [Hd _ Hok].
  { eapply kept_walk_results, E. split; simpl; [constructor|by intros r ?%not_elem_of_nil|constructor]. }
  destruct (sorted_take_drop better limit _ (sort_refs_sorted (rs_refs s))) as [Hs Hbest].
  split; [rewrite length_take; lia|]. split; [|split; [|split; [done|]]].
  - eapply sublist_NoDup; [|f_equiv; apply sublist_take]. by rewrite sort_refs_perm.
  - apply Forall_take. by rewrite sort_refs_perm.
  - intros r Hr. simpl in Hr. rewrite <-sort_refs_perm, <-(take_drop limit (sort_refs (rs_refs s))) in Hr.
    apply elem_of_app in Hr as [Hr|Hr]; [by left|]. right. rewrite Forall_forall. intros c Hc. by apply Hbest.
Qed.
End formatting.

(** ** What cleaning leaves *)

(** Hidden reasoning can survive the cleaning: the pattern is removed in one pass,
    and removing a block can leave a new one behind. *)
Theorem nested_think_survives :
  clean_model_output "<thi<think>a</think>nk>hidden</think>done" = "<think>hidden</think>done".
Proof. vm_compute. reflexivity. Qed.

Example think_removed :
  clean_model_output ("<THINK>a" +:+ nl +:+ "b</think> The answer <think>c</think>is 4.") = "The answer is 4.".
Proof. vm_compute. reflexivity. Qed.
