(* ===== verification/GraphState.v ===== *)
(** * The state of the agent graph

    [app/graphs/state.py] and the helpers of [ChatAgent] ([app/graph.py]) that
    read and update the state.  The dictionaries of the state are typed: an
    empty one ([{}]) is [None] where the code stores a [model_dump].  The
    request-scoped meter is in the [World]; the state carries its snapshot. *)

From S2P Require Import Prelude PyData RunTypes Dates Settings Schemas Grounding Context.
From S2P Require Import Evidence Inventory Routing Meter ToolPolicy.

(** An entry of [task_results]. *)
Record TaskResult : Type := MkTaskResult {
  tk_task : PlanTask;
  tk_worker_result : option WorkerResult;
  tk_verification : option VerificationReport;
  tk_grounding : list ClaimGroundingResult;
  tk_evidence : list EvidenceItem
}.

Record GState : Type := MkGState {
  gs_message : string;
  gs_system_prompt : string;
  gs_system_prompt_source : string;
  gs_request_domain : string;
  gs_metadata : pydict;
  gs_history : list pyval;
  gs_request_id : string;
  gs_run_id : option string;
  gs_execution_meter_state : ExecutionMeterState;
  gs_inventory : RuntimeInventory;
  gs_routing : option (TaskRoutingDecision * string);
  gs_selected_models : list (string * string);
  gs_selected_tool : option string;
  gs_selected_tools : pydict;
  gs_researched_task_ids : list string;
  gs_research_queries : list (string * list string);
  gs_plan : option ExecutionPlan;
  gs_task_index : nat;
  gs_task_results : list TaskResult;
  gs_worker_result : option WorkerResult;
  gs_verification : option VerificationReport;
  gs_grounding : list ClaimGroundingResult;
  gs_evidence : list EvidenceItem;
  gs_iterations : Z;
  gs_research_rounds : Z;
  gs_replans : Z;
  gs_next_action : string;
  gs_response : string;
  gs_backend : string;
  gs_model : option string;
  gs_termination_reason : option string;
  gs_final_verification_required : bool;
  gs_final_verification : option FinalVerificationReport;
  gs_final_revision_rounds : Z
}.

#[export] Instance eta_GState : Eta GState := λ s,
  MkGState (gs_message s) (gs_system_prompt s) (gs_system_prompt_source s) (gs_request_domain s)
    (gs_metadata s) (gs_history s) (gs_request_id s) (gs_run_id s) (gs_execution_meter_state s)
    (gs_inventory s) (gs_routing s) (gs_selected_models s) (gs_selected_tool s)
    (gs_selected_tools s) (gs_researched_task_ids s) (gs_research_queries s) (gs_plan s)
    (gs_task_index s) (gs_task_results s) (gs_worker_result s) (gs_verification s)
    (gs_grounding s) (gs_evidence s) (gs_iterations s) (gs_research_rounds s) (gs_replans s)
    (gs_next_action s) (gs_response s) (gs_backend s) (gs_model s) (gs_termination_reason s)
    (gs_final_verification_required s) (gs_final_verification s) (gs_final_revision_rounds s).

(** [build_fresh_run_state]; [run_id] and the meter snapshot are what the
    caller adds to it.  [grounding] is absent from it: the graph starts with
    whatever the checkpoint of the thread holds. *)
Definition build_fresh_run_state (message system_prompt system_prompt_source request_domain : string)
    (metadata : pydict) (history : list pyval) (request_id : string) (inventory : RuntimeInventory)
    (backend : string) (run_id : option string) (meter : ExecutionMeterState)
    (checkpoint_grounding : list ClaimGroundingResult) : GState := {|
  gs_message := message;
  gs_system_prompt := system_prompt;
  gs_system_prompt_source := system_prompt_source;
  gs_request_domain := request_domain;
  gs_metadata := metadata;
  gs_history := history;
  gs_request_id := request_id;
  gs_run_id := run_id;
  gs_execution_meter_state := meter;
  gs_inventory := inventory;
  gs_routing := None;
  gs_selected_models := [];
  gs_selected_tool := None;
  gs_selected_tools := [];
  gs_researched_task_ids := [];
  gs_research_queries := [];
  gs_plan := None;
  gs_task_index := 0;
  gs_task_results := [];
  gs_worker_result := None;
  gs_verification := None;
  gs_grounding := checkpoint_grounding;
  gs_evidence := [];
  gs_iterations := 0;
  gs_research_rounds := 0;
  gs_replans := 0;
  gs_next_action := "";
  gs_response := "";
  gs_backend := backend;
  gs_model := None;
  gs_termination_reason := None;
  gs_final_verification_required := false;
  gs_final_verification := None;
  gs_final_revision_rounds := 0
|}.

(** ** Values handed to the models *)

Definition scan_name (i : InjectionScanStatus) : string :=
  match i with
  | NotScanned => "not_scanned" | Clean => "clean" | Suspicious => "suspicious"
  | Blocked => "blocked"
  end.

(** [item.model_dump(mode="json")]. *)
Definition EvidenceItem_dump (e : EvidenceItem) : pyval := VDict [
  ("evidence_id", VStr (ev_evidence_id e)); ("run_id", VStr (ev_run_id e));
  ("task_id", VStr (ev_task_id e)); ("query_id", opt_str (ev_query_id e));
  ("tool_name", opt_str (ev_tool_name e)); ("source_uri", opt_str (ev_source_uri e));
  ("canonical_uri", opt_str (ev_canonical_uri e)); ("source_title", opt_str (ev_source_title e));
  ("retrieved_at", VStr (json_datetime (ev_retrieved_at e)));
  ("published_at", match ev_published_at e with
                   | Some t => VStr (json_datetime t) | None => VNone end);
  ("content_type", VStr (ev_content_type e)); ("raw_artifact_uri", opt_str (ev_raw_artifact_uri e));
  ("normalized_text", VStr (ev_normalized_text e)); ("summary", VStr (ev_summary e));
  ("content_hash", VStr (ev_content_hash e)); ("trust_class", VStr (trust_name (ev_trust_class e)));
  ("freshness_status", VStr (freshness_name (ev_freshness_status e)));
  ("source_quality", VStr (quality_name (ev_source_quality e)));
  ("injection_scan_status", VStr (scan_name (ev_injection_scan_status e)));
  ("truncated", VBool (ev_truncated e)); ("tool_status", VStr (tool_status_name (ev_tool_status e)));
  ("eligible_for_claim_support", VBool (ev_eligible_for_claim_support e));
  ("metadata", VDict (ev_metadata e))].

Definition dump_list {A} (f : A → pyval) (l : list A) : pyval := VList (map f l).
(** The stored dump of an optional value, [{}] for none. *)
Definition dump_opt {A} (f : A → pyval) (o : option A) : pyval :=
  match o with Some a => f a | None => VDict [] end.

Definition TaskResult_dump (r : TaskResult) : pyval := VDict [
  ("task", PlanTask_dump (tk_task r));
  ("worker_result", dump_opt WorkerResult_dump (tk_worker_result r));
  ("verification", dump_opt Report_dump (tk_verification r));
  ("grounding", dump_list Grounding_dump (tk_grounding r));
  ("evidence", dump_list EvidenceItem_dump (tk_evidence r))].

(** [RuntimeRouter.execution_context], at the reading [now]. *)
Definition relative_date_rule : string :=
  "Resolve relative dates such as today/yesterday from execution_time_utc; " +:+
  "do not invent a calendar date when external evidence is required.".
Definition execution_date_utc (now : Z) : string := date_isoformat now.
Definition yesterday_date_utc (now : Z) : string := date_isoformat (now - micros_per_day).
Definition execution_context (now : Z) : pydict := [
  ("execution_time_utc", VStr (isoformat now));
  ("execution_date_utc", VStr (execution_date_utc now));
  ("yesterday_date_utc", VStr (yesterday_date_utc now));
  ("relative_date_rule", VStr relative_date_rule)].

(** ** Readers of the state *)

Definition plan_tasks (s : GState) : list PlanTask :=
  match gs_plan s with Some p => ep_tasks p | None => [] end.

(** [state["plan"]["tasks"][index]]. *)
Definition _current_task (s : GState) : outcome PlanTask :=
  match gs_plan s with
  | None => Raise (PyExn KeyError "'tasks'")
  | Some p =>
      match ep_tasks p !! gs_task_index s with
      | Some t => Ret t
      | None => Raise (PyExn IndexError "list index out of range")
      end
  end.

Definition _route_current_task (s : GState) : outcome TaskRoutingDecision :=
  match _current_task s with
  | Ret t => Ret (classify_task (gs_message s) t)
  | Raise e => Raise e
  end.

Definition _with_selected_model (s : GState) (node model : string) : list (string * string) :=
  let selected := dict_set node model (gs_selected_models s) in
  match plan_tasks s !! gs_task_index s with
  | Some t =>
      if nonempty (pt_id t) then dict_set (node +:+ ":" +:+ pt_id t) model selected else selected
  | None => selected
  end.

Definition _termination_report (msg : string) : VerificationReport :=
  MkReport VTerminate false [mk_issue "budget_exhausted" msg "high"] [] "0.0".

(** [f"task {i}:"] for the results with an answer, numbered from 1. *)
Definition completed_sections (results : list TaskResult) : list string :=
  somes (imap (λ i r,
    let answer := strip (match tk_worker_result r with Some w => wr_answer w | None => "" end) in
    if nonempty answer then
      Some ("Completed task " +:+ nat_to_string (S i) +:+ ":" +:+ nl +:+ answer)
    else None) results).

Definition _partial_response (s : GState) : string :=
  let reason := opt_str_or (gs_termination_reason s) "execution stopped" in
  let sections := completed_sections (gs_task_results s) in
  let candidate := strip (gs_response s) in
  let sections := if nonempty candidate then
    sections ++ ["Candidate final answer (not fully verified):" +:+ nl +:+ candidate]
    else sections in
  let current_answer :=
    strip (match gs_worker_result s with Some w => wr_answer w | None => "" end) in
  let sections :=
    if nonempty current_answer && forallb (λ x, negb (contains current_answer x)) sections then
      sections ++ ["In-progress task output (not fully verified):" +:+ nl +:+ current_answer]
    else sections in
  match sections with
  | [] => "Execution stopped safely before a verified answer could be produced: " +:+ reason +:+ "."
  | _ => join (nl +:+ nl) sections +:+ nl +:+ nl +:+
      "Execution stopped safely before all work was completed: " +:+ reason +:+
      ". Treat any in-progress output as unverified."
  end.
