(* ===== verification/GraphNodes.v ===== *)
(** * The nodes of the agent graph

    The node coroutines of [ChatAgent] ([app/graph.py]), each a whole handler:
    budget check, model selection, agent or tool calls, state update.  The role
    agents and the tool host are the interface [GraphHost]; [GraphLaws] states
    what the graph relies on from them.  Logging and metrics are left out. *)

From S2P Require Import Prelude PyData RunTypes Dates Settings Schemas Grounding Context.
From S2P Require Import Evidence Inventory Routing Meter ToolPolicy GraphState.

(** The agents take the model's name and the payload. *)
Class GraphHost (X : Type) : Type := {
  gh_tools :: ToolHost X;
  gh_env : EvidenceEnv;
  gh_int_of_float : string → outcome Z;
  gh_type_name : exn → string;
  gh_planner : string → pydict → M (World X) ExecutionPlan;
  gh_worker_execute : string → pydict → M (World X) WorkerResult;
  gh_worker_revise : string → pydict → M (World X) WorkerResult;
  gh_verify : string → pydict → M (World X) VerificationReport;
  gh_synthesize : string → pydict → M (World X) string;
  gh_verify_final : string → pydict → M (World X) FinalVerificationReport
}.

Section nodes.
Context {X : Type} `{GraphHost X} (settings : Settings).

(** [budget.snapshot()]: two wall readings and a monotonic one. *)
Definition take_snapshot : M (World X) ExecutionMeterState :=
  let! now := wall in
  let! mono := monotonic in
  let! now' := wall in
  gets (λ w, snapshot (mt_meter (w_task w)) now now' mono).

(** [_state_update(state, **updates)]. *)
Definition _state_update (updates : GState → GState) (state : GState) : M (World X) GState :=
  let! snap := take_snapshot in
  ret ((updates state) <| gs_execution_meter_state := snap |>).

(** [model_operation_scope] around [operation]. *)
Definition _invoke_model {A} (operation : M (World X) A) : M (World X) A :=
  let! now := wall in
  metered (record_logical_model_operation now) ;;;
  let! saved := gets (λ w, mt_operation_attempts (w_task w)) in
  metered (modify (λ t, t <| mt_operation_attempts := Some 0 |>)) ;;;
  try_finally operation (metered (modify (λ t, t <| mt_operation_attempts := saved |>))).

Definition budget_check : M (World X) unit :=
  let! now := wall in metered (check now).

Definition on_budget {A} (h : string → M (World X) A) (e : exn) : option (M (World X) A) :=
  match e with BudgetExceeded msg => Some (h msg) | _ => None end.
Definition on_structured {A} (h : nat → M (World X) A) (e : exn) : option (M (World X) A) :=
  match e with StructuredOutputError _ models _ => Some (h (length models)) | _ => None end.
(** [except Exception]: everything but a cancellation. *)
Definition on_exception {A} (h : exn → M (World X) A) (e : exn) : option (M (World X) A) :=
  if is_cancelled e then None else Some (h e).

Definition _budget_termination (state : GState) (msg : string)
  (verification : option VerificationReport) : M (World X) GState :=
  _state_update (λ s,
  let s := s <| gs_termination_reason := Some msg |> in
  match verification with Some r => s <| gs_verification := Some r |> | None => s end) state.

(** [_check_budget]: the terminated state, if the budget is exceeded. *)
Definition _check_budget (state : GState) : M (World X) (option GState) :=
  try_except (budget_check ;;; ret None)
  (on_budget (λ msg, let! s := _budget_termination state msg None in ret (Some s))).

(** [_, terminated = _check_budget(state); if terminated: return terminated]. *)
Definition unless_terminated (state : GState) (k : M (World X) GState) : M (World X) GState :=
  let! terminated := _check_budget state in
  match terminated with Some s => ret s | None => k end.

Definition _select_model (state : GState) (role : string) : M (World X) string :=
  of_outcome (select_model settings role (gs_inventory state)).

Definition is_ollama : bool := bool_decide (llm_backend settings = Ollama).

Definition structured_reason (who : string) (attempts : nat) : string :=
  who +:+ " could not produce valid structured output after " +:+ nat_to_string attempts +:+
  " bounded attempt(s)".

Definition run_id_of (state : GState) : string := opt_str_or (gs_run_id state) "request".

Definition _set_next_action (state : GState) : M (World X) GState :=
  let! decision := of_outcome (_route_current_task state) in
  let! task := of_outcome (_current_task state) in
  let action :=
  if tr_requires_external_evidence decision
     && negb (bool_decide (pt_id task ∈ gs_researched_task_ids state))
  then "research" else "worker" in
  _state_update (λ s, s <| gs_next_action := action |>
                      <| gs_routing := Some (decision, action) |>) state.

(** *** [_plan] *)

Definition echo_plan (state : GState) : ExecutionPlan :=
  MkExecutionPlan (gs_message state)
  [MkPlanTask "t1" (gs_message state) [] ["Answer directly and completely"] []].

(** The plan and the planner's model, or the reason to stop. *)
Definition make_plan (state : GState) : M (World X) (ExecutionPlan * string + string) :=
  if negb is_ollama then ret (inl (echo_plan state, "echo"))
  else
  let! planner_model := _select_model state "planner" in
  try_except
    (let! plan := _invoke_model (let! now := wall in gh_planner planner_model
       [("request", VStr (gs_message state)); ("runtime_context", VDict (execution_context now))]) in
     ret (inl (plan, planner_model)))
    (on_structured (λ n, ret (inr (structured_reason "plan" n)))).

Definition reset_for_plan (plan : ExecutionPlan) (evidence : list EvidenceItem)
  (selected : list (string * string)) (s : GState) : GState :=
  s <| gs_plan := Some plan |> <| gs_task_index := 0%nat |> <| gs_task_results := [] |>
  <| gs_worker_result := None |> <| gs_verification := None |> <| gs_evidence := evidence |>
  <| gs_iterations := 0 |> <| gs_research_rounds := 0 |> <| gs_replans := 0 |>
  <| gs_termination_reason := None |> <| gs_response := "" |>
  <| gs_selected_models := selected |> <| gs_selected_tool := None |>
  <| gs_selected_tools := [] |> <| gs_researched_task_ids := [] |>
  <| gs_research_queries := [] |>.

Definition _plan (state : GState) : M (World X) GState :=
  unless_terminated state (
  let! made := make_plan state in
  match made with
  | inr reason => _state_update (λ s, s <| gs_termination_reason := Some reason |>) state
  | inl (plan, planner_model) =>
      let! now := wall in
      let evidence := evidence_from_metadata gh_env (gs_metadata state) (run_id_of state)
        "request" now in
      let! updated := _state_update
        (reset_for_plan plan evidence (_with_selected_model state "plan" planner_model)) state in
      _set_next_action updated
  end).

(** *** [_worker] *)

Definition worker_payload (state : GState) (task : PlanTask) (context : list pydict) : pydict := [
  ("user_request", VStr (gs_message state));
  ("system_instruction", VStr (gs_system_prompt state));
  ("task", PlanTask_dump task);
  ("evidence", VList (map VDict context));
  ("history", VList (gs_history state));
  ("previous_verification", dump_opt Report_dump (gs_verification state))].

Definition worker_context (state : GState) : list pydict :=
  let context_limit := agent_max_context_chars settings in
  build_context (gs_evidence state) context_limit
  (Some (Z.min (research_max_evidence_chars_per_query settings) context_limit)).

Definition echo_worker_result (state : GState) : WorkerResult :=
  MkWorkerResult ("Echo mode is active." +:+ nl +:+ nl +:+ "Message received: " +:+ gs_message state)
  [] [] [] "0.5".

Definition do_work (state : GState) (task : PlanTask) (role : string) :
  M (World X) (WorkerResult * string + string) :=
  if negb is_ollama then ret (inl (echo_worker_result state, "echo"))
  else
  let! worker_model := _select_model state role in
  try_except
    (let! result := _invoke_model
       (gh_worker_execute worker_model (worker_payload state task (worker_context state))) in
     ret (inl (result, worker_model)))
    (on_structured (λ n, ret (inr (structured_reason "worker" n)))).

Definition _worker (state : GState) : M (World X) GState :=
  unless_terminated state (
  let! task := of_outcome (_current_task state) in
  let! routing := of_outcome (_route_current_task state) in
  let! worked := do_work state task (tr_worker_role routing) in
  match worked with
  | inr reason => _state_update (λ s, s <| gs_termination_reason := Some reason |>) state
  | inl (result, worker_model) =>
      _state_update (λ s,
        s <| gs_worker_result := Some result |>
          <| gs_iterations := gs_iterations state + 1 |>
          <| gs_selected_models := _with_selected_model state "worker" worker_model |>
          <| gs_model := Some worker_model |>) state
  end).

(** *** [_verify] *)

(** [state["worker_result"]] validated: [{}] is not a [WorkerResult]. *)
Definition stored_worker_result (state : GState) : outcome WorkerResult :=
  match gs_worker_result state with
  | Some r => Ret r
  | None => Raise (validation_error "Field required: answer")
  end.

Definition echo_report (issues : list string) : VerificationReport :=
  MkReport (match issues with [] => VPass | _ => VRevise end)
  (match issues with [] => true | _ => false end)
  (map (λ i, mk_issue i i "medium") issues) [] "0.5".

Definition verify_payload (state : GState) (task : PlanTask) (result : WorkerResult)
  (grounding : list ClaimGroundingResult) (issues : list string) : pydict := [
  ("user_request", VStr (gs_message state));
  ("task", PlanTask_dump task);
  ("worker_result", WorkerResult_dump result);
  ("evidence", dump_list EvidenceItem_dump (gs_evidence state));
  ("grounding", dump_list Grounding_dump grounding);
  ("deterministic_issues", VList (map VStr issues))].

(** A passing verdict does not survive an ungrounded claim. *)
Definition fail_ungrounded (issues : list string) (report : VerificationReport) :
  VerificationReport :=
  match issues with
  | [] => report
  | _ =>
    if bool_decide (vr_verdict report = VPass) then
      report <| vr_verdict := VRevise |> <| vr_task_complete := false |>
             <| vr_issues := vr_issues report ++ map (λ i, mk_issue i i "high") issues |>
    else report
  end.

(** The verifier's report and model, or the message of an exceeded budget. *)
Definition make_report (state : GState) (result : WorkerResult)
  (grounding : list ClaimGroundingResult) (issues : list string) (role : string) :
  M (World X) (VerificationReport * string + string) :=
  if negb is_ollama then ret (inl (echo_report issues, "echo"))
  else
  let! verifier_model := _select_model state role in
  try_except
    (let! report := _invoke_model (
       let! task := of_outcome (_current_task state) in
       gh_verify verifier_model (verify_payload state task result grounding issues)) in
     ret (inl (report, verifier_model)))
    (on_budget (λ msg, ret (inr msg))).

Definition verify_body (state : GState) : M (World X) GState :=
  let! worker_result := of_outcome (stored_worker_result state) in
  let! task := of_outcome (_current_task state) in
  let grounding := ground_claims (wr_claims worker_result) (gs_evidence state)
  (run_id_of state) (str_or (pt_id task) "task") in
  let deterministic := deterministic_output_issues (wr_answer worker_result) 20 in
  let ungrounded := grounding_issues grounding in
  let issues := deterministic ++ ungrounded in
  let! routing := of_outcome (_route_current_task state) in
  let! made := make_report state worker_result grounding issues (tr_verifier_role routing) in
  match made with
  | inr msg => _budget_termination state msg (Some (_termination_report msg))
  | inl (report, verifier_model) =>
    _state_update (λ s,
      s <| gs_verification := Some (fail_ungrounded ungrounded report) |>
        <| gs_grounding := grounding |>
        <| gs_selected_models := _with_selected_model state "verify" verifier_model |>) state
  end.

Definition _verify (state : GState) : M (World X) GState :=
  metered (upd_state (λ m, m <| ms_verifier_rounds := ms_verifier_rounds m + 1 |>)) ;;;
  let! exceeded := try_except (budget_check ;;; ret None) (on_budget (λ msg, ret (Some msg))) in
  match exceeded with
  | Some msg => _budget_termination state msg (Some (_termination_report msg))
  | None => verify_body state
  end.

(** *** [_revise] *)

Definition revise_payload (state : GState) (task : PlanTask) : pydict := [
  ("user_request", VStr (gs_message state));
  ("task", PlanTask_dump task);
  ("worker_result", dump_opt WorkerResult_dump (gs_worker_result state));
  ("verification", dump_opt Report_dump (gs_verification state));
  ("evidence", dump_list EvidenceItem_dump (gs_evidence state))].

Definition _revise (state : GState) : M (World X) GState :=
  metered (upd_state (λ m, m <| ms_revision_rounds := ms_revision_rounds m + 1 |>)) ;;;
  unless_terminated state (
  let! routing := of_outcome (_route_current_task state) in
  let! model := if is_ollama then _select_model state (tr_worker_role routing) else ret "echo" in
  let! task := of_outcome (_current_task state) in
  let! result :=
    if is_ollama then _invoke_model (gh_worker_revise model (revise_payload state task))
    else of_outcome (stored_worker_result state) in
  _state_update (λ s,
    s <| gs_worker_result := Some result |>
      <| gs_iterations := gs_iterations state + 1 |>
      <| gs_selected_models := _with_selected_model state "revise" model |>
      <| gs_model := Some model |>) state).

(** *** [_research] *)

Record Findings : Type := MkFindings {
  fi_evidence : list EvidenceItem;
  fi_failures : list pyval;
  fi_successful_tools : list string
}.

Definition add_failure (tool error : string) (f : Findings) : Findings :=
  MkFindings (fi_evidence f)
  (fi_failures f ++ [VDict [("tool", VStr tool); ("error", VStr error)]])
  (fi_successful_tools f).

Definition add_evidence (tool : string) (record : EvidenceItem) (f : Findings) : Findings :=
  MkFindings (fi_evidence f ++ [record]) (fi_failures f) (fi_successful_tools f ++ [tool]).

(** What one tool call gave: a result, a refusal, or an exceeded budget. *)
Inductive attempt : Type :=
  | Called (result : ToolResult)
  | Denied (msg : string)
  | Exceeded (msg : string).

Definition call_candidate (candidate : ToolRoutingDecision) : M (World X) attempt :=
  try_except
  (let! result := execute (td_name candidate) (td_arguments candidate) in ret (Called result))
  (λ e, match e with
        | ToolApprovalRequired msg | ToolExecutionDenied msg => Some (ret (Denied msg))
        | BudgetExceeded msg => Some (ret (Exceeded msg))
        | _ => None
        end).

Definition research_record (state : GState) (task_id query : string) (rounds : Z)
  (query_index : nat) (candidate : ToolRoutingDecision) (result : ToolResult) (now : Z) :
  outcome EvidenceItem :=
  evidence_from_tool_result gh_env result
  ("research-" +:+ task_id +:+ "-" +:+ Z_to_string rounds +:+ "-" +:+ nat_to_string query_index)
  (run_id_of state) task_id (Some (query_fingerprint (env_sha256_hex gh_env) query))
  (td_name candidate) query now.

(** The candidates of one query, until one yields eligible evidence. *)
Fixpoint try_candidates (state : GState) (task_id query : string) (rounds : Z) (query_index : nat)
  (candidates : list ToolRoutingDecision) (f : Findings) : M (World X) (Findings + string) :=
  match candidates with
  | [] => ret (inl f)
  | candidate :: candidates' =>
    let next := try_candidates state task_id query rounds query_index candidates' in
    let! called := call_candidate candidate in
    match called with
    | Denied msg => next (add_failure (td_name candidate) msg f)
    | Exceeded msg => ret (inr msg)
    | Called result =>
        let! now := wall in
        let! record := of_outcome
          (research_record state task_id query rounds query_index candidate result now) in
        if ev_eligible_for_claim_support record then
          ret (inl (add_evidence (td_name candidate) record f))
        else next (add_failure (td_name candidate) (opt_str_or (tr_error result) "tool failed") f)
    end
  end.

Fixpoint run_queries (state : GState) (task : PlanTask) (task_id : string)
  (required_actions : list string) (metadata : pydict) (rounds : Z) (query_index : nat)
  (queries : list string) (f : Findings) : M (World X) (Findings + string) :=
  match queries with
  | [] => ret (inl f)
  | query :: queries' =>
    let! candidates := of_outcome (select_tools gh_env gh_int_of_float (gs_message state)
      (Some task) required_actions (gs_inventory state) metadata 3 (Some query)) in
    let! done := try_candidates state task_id query rounds query_index candidates f in
    match done with
    | inr msg => ret (inr msg)
    | inl f' => run_queries state task task_id required_actions metadata rounds
                  (S query_index) queries' f'
    end
  end.

(** [metadata.setdefault("research_failures", []).extend(failures)]. *)
Definition record_failures (metadata : pydict) (failures : list pyval) : outcome pydict :=
  match default (VList []) (dict_get "research_failures" metadata) with
  | VList old => Ret (dict_set "research_failures" (VList (old ++ failures)) metadata)
  | _ => Raise (PyExn AttributeError "extend")
  end.

(** [list(dict.fromkeys(l))]. *)
Definition unique (l : list string) : list string :=
  foldl (λ acc x, if bool_decide (x ∈ acc) then acc else acc ++ [x]) [] l.

Definition no_evidence_reason : string :=
  "all compatible read-only MCP research attempts failed; no current evidence was retrieved".

Definition required_actions_of (state : GState) : list string :=
  match gs_verification state with Some r => vr_required_actions r | None => [] end.

Definition research_update (state : GState) (task_id : string) (metadata : pydict) (rounds : Z)
  (queries : list string) (f : Findings) (s : GState) : GState :=
  let s := s <| gs_metadata := metadata |> <| gs_research_rounds := rounds |>
           <| gs_research_queries := dict_set task_id queries (gs_research_queries state) |> in
  match unique (fi_successful_tools f) with
  | [] => s <| gs_evidence := fi_evidence f |>
          <| gs_termination_reason := Some no_evidence_reason |>
  | first :: others =>
    s <| gs_researched_task_ids := unique (gs_researched_task_ids state ++ [task_id]) |>
      <| gs_selected_tool := Some first |>
      <| gs_selected_tools := dict_set task_id
           (match others with [] => VStr first | _ => VList (map VStr (first :: others)) end)
           (gs_selected_tools state) |>
      <| gs_evidence := deduplicate_evidence (fi_evidence f) |>
      <| gs_next_action := "worker" |>
  end.

Definition research_body (state : GState) (rounds : Z) : M (World X) GState :=
  let metadata := gs_metadata state in
  let required_actions := required_actions_of state in
  let! task := of_outcome (_current_task state) in
  let task_id := str_or (pt_id task) ("task-" +:+ nat_to_string (gs_task_index state)) in
  let! now := wall in
  let queries := build_research_queries (execution_date_utc now) (yesterday_date_utc now)
  settings (gs_message state) task required_actions
  (Some (research_max_queries_per_task settings)) in
  let! found := run_queries state task task_id required_actions metadata rounds 1 queries
  (MkFindings (gs_evidence state) [] []) in
  match found with
  | inr msg => _budget_termination state msg None
  | inl f =>
    let! metadata := of_outcome (record_failures metadata (fi_failures f)) in
    _state_update (research_update state task_id metadata rounds queries f) state
  end.

Definition _research (state : GState) : M (World X) GState :=
  let rounds := gs_research_rounds state + 1 in
  metered (upd_state (λ m, m <| ms_research_rounds := rounds |>)) ;;;
  if negb (mcp_enabled settings) then
  _state_update (λ s, s <| gs_research_rounds := rounds |>
    <| gs_termination_reason := Some "external evidence is required but MCP is disabled" |>) state
  else if agent_max_research_rounds settings <? rounds then
  _budget_termination state "maximum research rounds exceeded" None
  else research_body state rounds.

(** *** [_replan] *)

(** [ExecutionPlan.model_validate(state["plan"])]. *)
Definition stored_plan (state : GState) : outcome ExecutionPlan :=
  match gs_plan state with
  | Some p => Ret p
  | None => Raise (validation_error "Field required: goal")
  end.

Definition reset_for_replan (plan : ExecutionPlan) (replans : Z)
  (selected : list (string * string)) (s : GState) : GState :=
  s <| gs_plan := Some plan |> <| gs_task_index := 0%nat |> <| gs_task_results := [] |>
  <| gs_worker_result := None |> <| gs_verification := None |> <| gs_evidence := [] |>
  <| gs_research_rounds := 0 |> <| gs_replans := replans |>
  <| gs_researched_task_ids := [] |> <| gs_research_queries := [] |>
  <| gs_selected_models := selected |>.

Definition _replan (state : GState) : M (World X) GState :=
  let replans := gs_replans state + 1 in
  metered (upd_state (λ m, m <| ms_replans := replans |>)) ;;;
  if agent_max_replans settings <? replans then
  _state_update (λ s, s <| gs_replans := replans |>
    <| gs_termination_reason := Some "maximum replans exceeded" |>) state
  else
  let! model := if is_ollama then _select_model state "planner" else ret "echo" in
  let! plan :=
    if is_ollama then
      _invoke_model (gh_planner model [("request", VStr (gs_message state))])
    else of_outcome (stored_plan state) in
  let! updated := _state_update
    (reset_for_replan plan replans (_with_selected_model state "replan" model)) state in
  _set_next_action updated.

(** *** [_advance] *)

Definition task_result (state : GState) (task : PlanTask) : TaskResult :=
  MkTaskResult task (gs_worker_result state) (gs_verification state) (gs_grounding state)
  (gs_evidence state).

Definition reset_for_next (results : list TaskResult) (s : GState) : GState :=
  s <| gs_task_results := results |> <| gs_task_index := S (gs_task_index s) |>
  <| gs_verification := None |> <| gs_worker_result := None |> <| gs_grounding := [] |>
  <| gs_evidence := [] |> <| gs_research_rounds := 0 |> <| gs_selected_tool := None |>
  <| gs_next_action := "worker" |>.

Definition _advance (state : GState) : M (World X) GState :=
  let! task := of_outcome (_current_task state) in
  let! updated := _state_update
  (reset_for_next (gs_task_results state ++ [task_result state task])) state in
  if (gs_task_index updated <? length (plan_tasks updated))%nat
  then _set_next_action updated else ret updated.

(** *** [_terminate] and [_finalize] *)

Definition backend_text : string := backend_name (llm_backend settings).

Definition _terminate (state : GState) : M (World X) GState :=
  _state_update (λ s,
  s <| gs_response := _partial_response state |> <| gs_backend := backend_text |>
    <| gs_model := Some (model_general settings) |>) state.

(** [results[-1]["worker_result"]["answer"]], or the current answer. *)
Definition direct_answer (state : GState) : outcome string :=
  match last (gs_task_results state) with
  | Some r =>
    match tk_worker_result r with
    | Some w => Ret (wr_answer w)
    | None => Raise (PyExn KeyError "'answer'")
    end
  | None => Ret (match gs_worker_result state with Some w => wr_answer w | None => "" end)
  end.

(** The response, the model and whether to verify it, or a failed synthesis. *)
Definition make_response (state : GState) : M (World X) (string * string * bool + string) :=
  let results := gs_task_results state in
  if is_ollama && (1 <? length results)%nat then
  let! model := _select_model state "synthesis" in
  try_except
    (let! response := _invoke_model (gh_synthesize model
       [("user_request", VStr (gs_message state));
        ("verified_results", dump_list TaskResult_dump results)]) in
     ret (inl (response, model, final_verification_enabled settings)))
    (on_exception (λ e, ret (inr ("final synthesis failed: " +:+ gh_type_name e))))
  else
  let! response := of_outcome (direct_answer state) in
  ret (inl (response, opt_str_or (gs_model state) (model_general settings), false)).

Definition _finalize (state : GState) : M (World X) GState :=
  if opt_truthy (gs_termination_reason state) then _terminate state
  else
  let! made := make_response state in
  match made with
  | inr reason =>
      let! s := _state_update (λ s, s <| gs_termination_reason := Some reason |>) state in
      _terminate s
  | inl (response, model, verification_required) =>
      _state_update (λ s,
        s <| gs_response := response |> <| gs_backend := backend_text |>
          <| gs_model := Some model |>
          <| gs_final_verification_required := verification_required |>
          <| gs_final_verification := None |> <| gs_final_revision_rounds := 0 |>
          <| gs_selected_models := _with_selected_model state "finalize" model |>) state
  end.

(** *** [_verify_final] and [_revise_final] *)

Definition unverified_reason : string := "final answer could not be independently verified".

Definition _verify_final (state : GState) : M (World X) GState :=
  unless_terminated state (
  let! model := _select_model state "reasoning" in
  let! made := try_except
    (let! report := _invoke_model (gh_verify_final model
       [("user_request", VStr (gs_message state));
        ("verified_results", dump_list TaskResult_dump (gs_task_results state));
        ("candidate_final_answer", VStr (gs_response state))]) in
     ret (inl report))
    (on_structured (λ n, ret (inr (
      "final verification could not produce valid structured output after " +:+
      nat_to_string n +:+ " bounded attempt(s)")))) in
  match made with
  | inr reason => _state_update (λ s, s <| gs_termination_reason := Some reason |>) state
  | inl report =>
      let! updated := _state_update (λ s,
        s <| gs_final_verification := Some report |>
          <| gs_selected_models := _with_selected_model state "verify_final" model |>) state in
      ret (if negb (bool_decide (fr_verdict report = FPass))
              && (final_max_revision_rounds settings <=? gs_final_revision_rounds state)
           then updated <| gs_termination_reason := Some unverified_reason |>
           else updated)
  end).

Definition revise_final_instruction : string :=
  "Revise only as required; do not introduce new facts.".

Definition _revise_final (state : GState) : M (World X) GState :=
  let rounds := gs_final_revision_rounds state + 1 in
  metered (upd_state (λ m, m <| ms_final_revision_rounds := rounds |>)) ;;;
  unless_terminated state (
  let! model := _select_model state "synthesis" in
  let! made := try_except
    (let! response := _invoke_model (gh_synthesize model
       [("user_request", VStr (gs_message state));
        ("verified_results", dump_list TaskResult_dump (gs_task_results state));
        ("previous_answer", VStr (gs_response state));
        ("final_verification", dump_opt FinalReport_dump (gs_final_verification state));
        ("instruction", VStr revise_final_instruction)]) in
     ret (inl response))
    (on_exception (λ e, ret (inr ("final answer revision failed: " +:+ gh_type_name e)))) in
  match made with
  | inr reason => _state_update (λ s,
      s <| gs_termination_reason := Some reason |> <| gs_final_revision_rounds := rounds |>) state
  | inl response => _state_update (λ s,
      s <| gs_response := response |> <| gs_final_revision_rounds := rounds |>
        <| gs_final_verification := None |>
        <| gs_selected_models := _with_selected_model state "revise_final" model |>) state
  end).
End nodes.
