(* ===== verification/GraphRun.v ===== *)
(** * Routes, edges and the run of the agent graph

    [app/graphs/routes.py] and [_build_graph] ([app/graph.py]): the conditional
    edges as the code writes them, a route name and a map from names to nodes.
    The LangGraph runtime is read as: run the node's coroutine, then follow its
    edge; a route name missing from the map is an error. *)

From S2P Require Import Prelude PyData RunTypes Dates Settings Schemas Grounding Context.
From S2P Require Import Evidence Inventory Routing Meter ToolPolicy GraphState GraphNodes.

Definition after_budgeted_step (s : GState) : string :=
  if opt_truthy (gs_termination_reason s) then "terminate" else "continue".

Definition after_plan (s : GState) : string :=
  if opt_truthy (gs_termination_reason s) then "terminate"
  else if String.eqb (gs_next_action s) "research" then "research" else "worker".

Definition after_verification (s : GState) : string :=
  if opt_truthy (gs_termination_reason s) then "terminate"
  else
    match gs_verification s with
    | None => "terminate"
    | Some r =>
        match vr_verdict r with
        | VPass => if vr_task_complete r then "advance" else "revise"
        | v => verdict_name v
        end
    end.

Definition after_advance (s : GState) : string :=
  if opt_truthy (gs_termination_reason s) then "terminate"
  else if (length (plan_tasks s) <=? gs_task_index s)%nat then "finalize"
  else if String.eqb (gs_next_action s) "research" then "research" else "worker".

Definition _after_finalize (s : GState) : string :=
  if opt_truthy (gs_termination_reason s) then "terminate"
  else if gs_final_verification_required s then "verify_final" else "complete".

Definition _after_final_verification (settings : Settings) (s : GState) : string :=
  if opt_truthy (gs_termination_reason s) then "terminate"
  else if match gs_final_verification s with
          | Some r => bool_decide (fr_verdict r = FPass) && fr_answer_complete r
          | None => false
          end then "complete"
  else if gs_final_revision_rounds s <? final_max_revision_rounds settings then "revise_final"
  else "terminate".

Inductive node : Type :=
  | NPlan | NResearch | NWorker | NVerify | NRevise | NReplan | NAdvance | NFinalize
  | NVerifyFinal | NReviseFinal | NTerminate | NEnd.
#[export] Instance node_eq_dec : EqDecision node.
Proof. solve_decision. Defined.

Section run.
Context {X : Type} `{GraphHost X} (settings : Settings).

(** [builder.add_node(name, handler)]. *)
Definition run_node (n : node) (s : GState) : M (World X) GState :=
  match n with
  | NPlan => _plan settings s
  | NResearch => _research settings s
  | NWorker => _worker settings s
  | NVerify => _verify settings s
  | NRevise => _revise settings s
  | NReplan => _replan settings s
  | NAdvance => _advance s
  | NFinalize => _finalize settings s
  | NVerifyFinal => _verify_final settings s
  | NReviseFinal => _revise_final settings s
  | NTerminate => _terminate settings s
  | NEnd => ret s
  end.

Definition budgeted (next : node) : GState → option node := λ s,
  dict_get (after_budgeted_step s) [("continue", next); ("terminate", NTerminate)].

(** [builder.add_edge] and [builder.add_conditional_edges]. *)
Definition edge (n : node) (s : GState) : option node :=
  match n with
  | NPlan => dict_get (after_plan s)
    [("research", NResearch); ("worker", NWorker); ("terminate", NTerminate)]
  | NResearch => budgeted NWorker s
  | NWorker => budgeted NVerify s
  | NRevise => budgeted NVerify s
  | NReplan => budgeted NWorker s
  | NVerify => dict_get (after_verification s)
    [("advance", NAdvance); ("revise", NRevise); ("research", NResearch);
     ("replan", NReplan); ("terminate", NTerminate)]
  | NAdvance => dict_get (after_advance s)
    [("research", NResearch); ("worker", NWorker); ("finalize", NFinalize)]
  | NFinalize => dict_get (_after_finalize s)
    [("complete", NEnd); ("verify_final", NVerifyFinal); ("terminate", NTerminate)]
  | NVerifyFinal => dict_get (_after_final_verification settings s)
    [("complete", NEnd); ("revise_final", NReviseFinal); ("terminate", NTerminate)]
  | NReviseFinal => Some NVerifyFinal
  | NTerminate => Some NEnd
  | NEnd => None
  end.

(** One super-step: the node, then its edge. *)
Definition graph_step (n : node) (s : GState) : M (World X) (node * GState) :=
  let! s' := run_node n s in
  match edge n s' with
  | Some n' => ret (n', s')
  | None => raise (PyExn KeyError "unmapped route")
  end.

(** The run from node [n] to [END]: the last node executed and the final
state; [None] when [fuel] super-steps are not enough. *)
Fixpoint run_graph (fuel : nat) (n : node) (s : GState) (w : World X) :
  option (outcome (node * GState) * World X) :=
  match fuel with
  | O => None
  | S fuel' =>
    match graph_step n s w with
    | (Raise e, w') => Some (Raise e, w')
    | (Ret (NEnd, s'), w') => Some (Ret (n, s'), w')
    | (Ret (n', s'), w') => run_graph fuel' n' s' w'
    end
  end.
End run.

(** The verifier's counter and its limit. *)
Definition same_rounds {X} (w w' : World X) : Prop :=
  ms_verifier_rounds (eb_state (mt_meter (w_task w'))) =
    ms_verifier_rounds (eb_state (mt_meter (w_task w))) ∧
  eb_max_verifier_rounds (mt_meter (w_task w')) = eb_max_verifier_rounds (mt_meter (w_task w)).

(** What the graph relies on from the agents and the tool host: they leave the
    verifier's counter and limit alone, plans have at least one task, and a
    passing final report is complete (the validators of the two schemas). *)
Class GraphLaws (X : Type) `{GraphHost X} : Prop := {
  gl_planner model payload w o w' :
    gh_planner model payload w = (o, w') →
    same_rounds w w' ∧ (∀ p, o = Ret p → ep_valid p = true);
  gl_call_tool name arguments w o w' : th_call_tool name arguments w = (o, w') → same_rounds w w';
  gl_worker_execute model payload w o w' :
    gh_worker_execute model payload w = (o, w') → same_rounds w w';
  gl_worker_revise model payload w o w' :
    gh_worker_revise model payload w = (o, w') → same_rounds w w';
  gl_verify model payload w o w' : gh_verify model payload w = (o, w') → same_rounds w w';
  gl_synthesize model payload w o w' : gh_synthesize model payload w = (o, w') → same_rounds w w';
  gl_verify_final model payload w o w' :
    gh_verify_final model payload w = (o, w') →
    same_rounds w w' ∧ (∀ r, o = Ret r → pass_requires_complete r = Ret r)
}.
