(* ===== verification/GraphBalance.v ===== *)
(** * Accounting across the agent graph

    Whatever a run of the agent graph does, it leaves no model attempt open,
    provided its agents and tools do not: the relation [balanced] is kept by
    every node, on every path. *)

From S2P Require Import Prelude PyData RunTypes Settings Schemas Evidence Inventory Routing.
From S2P Require Import Meter ToolPolicy GraphState GraphNodes GraphRun.

(** Model attempts begun and not yet closed. *)
Definition open_model_attempts {X} (w : World X) : Z :=
  let m := eb_state (mt_meter (w_task w)) in
  ms_physical_model_attempts m - ms_model_successes m - ms_model_failures m.

Definition balanced {X} (w w' : World X) : Prop :=
  open_model_attempts w' = open_model_attempts w.

#[export] Instance balanced_refl {X} : Reflexive (@balanced X).
Proof. by intros w. Qed.
#[export] Instance balanced_trans {X} : Transitive (@balanced X).
Proof. unfold balanced. intros w1 w2 w3 H1 H2. congruence. Qed.

(** What the agents leave alone of the meter: the rounds, and the balance of
attempts begun and closed. *)
Definition rounds_and_balance {X} (w w' : World X) : Prop := same_rounds w w' ∧ balanced w w'.

#[export] Instance rounds_and_balance_refl {X} : Reflexive (@rounds_and_balance X).
Proof. by intros w. Qed.
#[export] Instance rounds_and_balance_trans {X} : Transitive (@rounds_and_balance X).
Proof. intros w1 w2 w3 [[H1 H2] H3] [[H4 H5] H6]. split; [split|etrans; eauto]; congruence. Qed.

(** What the graph relies on from the agents and the tool host. *)
Class BalanceLaws (X : Type) `{GraphHost X} : Prop := {
  bl_planner model payload : preserves balanced (gh_planner model payload);
  bl_call_tool name arguments : preserves balanced (th_call_tool name arguments);
  bl_worker_execute model payload : preserves balanced (gh_worker_execute model payload);
  bl_worker_revise model payload : preserves balanced (gh_worker_revise model payload);
  bl_verify model payload : preserves balanced (gh_verify model payload);
  bl_synthesize model payload : preserves balanced (gh_synthesize model payload);
  bl_verify_final model payload : preserves balanced (gh_verify_final model payload)
}.

Section balance.
Context {X : Type} `{BalanceLaws X} (settings : Settings).

Lemma outside_balanced {A} (m : M X A) : preserves (@balanced X) (outside m).
Proof. intros w. unfold outside, zoom. by destruct (m (w_ext w)) as [o x]. Qed.

Lemma wall_balanced : preserves (@balanced X) wall.
Proof. apply outside_balanced. Qed.
Lemma monotonic_balanced : preserves (@balanced X) monotonic.
Proof. apply outside_balanced. Qed.

(** A meter action that leaves the three counters alone. *)
Definition meter_balance (t : MeterTask) : Z :=
  let m := eb_state (mt_meter t) in
  ms_physical_model_attempts m - ms_model_successes m - ms_model_failures m.

Lemma metered_balanced {A} (m : M MeterTask A) :
  (∀ t, meter_balance (m t).2 = meter_balance t) → preserves (@balanced X) (metered m).
Proof.
  intros Hm w. unfold metered, zoom. specialize (Hm (w_task w)).
  destruct (m (w_task w)) as [o t]. exact Hm.
Qed.

Lemma check_balance now t : meter_balance (check now t).2 = meter_balance t.
Proof. unfold check, bind, gets. simpl. by destruct (check_error (mt_meter t) now). Qed.

Lemma upd_balance f t :
  (∀ m, ms_physical_model_attempts (f m) - ms_model_successes (f m) - ms_model_failures (f m) =
        ms_physical_model_attempts m - ms_model_successes m - ms_model_failures m) →
  meter_balance (upd_state f t).2 = meter_balance t.
Proof. intros Hf. apply Hf. Qed.

Lemma record_logical_balanced now : preserves (@balanced X) (metered (record_logical_model_operation now)).
Proof.
  apply metered_balanced. intros t. unfold record_logical_model_operation, bind.
  pose proof (check_balance now t). by destruct (check now t) as [[[]|e] t1].
Qed.
Lemma begin_tool_balanced now : preserves (@balanced X) (metered (begin_tool_attempt now)).
Proof.
  apply metered_balanced. intros t. unfold begin_tool_attempt, bind.
  pose proof (check_balance now t). destruct (check now t) as [[[]|e] t1]; [|done].
  cbn. by destruct (_ <=? _).
Qed.
Lemma finish_tool_balanced success timed_out :
  preserves (@balanced X) (metered (finish_tool_attempt success timed_out)).
Proof. apply metered_balanced. intros t. by destruct success, timed_out. Qed.
Lemma check_balanced now : preserves (@balanced X) (metered (check now)).
Proof. apply metered_balanced, check_balance. Qed.
Lemma queue_balanced d : preserves (@balanced X) (metered (add_queue_wait d)).
Proof. by apply metered_balanced. Qed.
Lemma cancellation_balanced : preserves (@balanced X) (metered record_cancellation).
Proof. by apply metered_balanced. Qed.
Lemma gets_balanced {A} (f : World X → A) : preserves balanced (gets f).
Proof. apply preserves_gets, _. Qed.
Lemma ret_balanced {A} (a : A) : preserves (@balanced X) (ret a).
Proof. apply preserves_ret, _. Qed.
Lemma raise_balanced {A} e : preserves (@balanced X) (raise (A:=A) e).
Proof. apply preserves_raise, _. Qed.
Lemma of_outcome_balanced {A} (o : outcome A) : preserves (@balanced X) (of_outcome o).
Proof. apply preserves_of_outcome, _. Qed.

Hint Resolve wall_balanced monotonic_balanced outside_balanced record_logical_balanced
  begin_tool_balanced finish_tool_balanced check_balanced queue_balanced cancellation_balanced
  gets_balanced ret_balanced raise_balanced of_outcome_balanced bl_planner bl_call_tool bl_worker_execute
  bl_worker_revise bl_verify bl_synthesize bl_verify_final : balanced.

(** Updates of the counters of rounds, and of the task's context variable. *)
Hint Extern 1 (preserves balanced (metered (upd_state _))) =>
  (apply metered_balanced; done) : balanced.
Hint Extern 1 (preserves balanced (metered (modify _))) =>
  (apply metered_balanced; done) : balanced.

Lemma on_budget_balanced {A} (m : M (World X) A) h :
  preserves balanced m → (∀ msg, preserves balanced (h msg)) →
  preserves balanced (try_except m (on_budget h)).
Proof.
  intros Hm Hh. apply preserves_try_except; [apply _|done|]. intros e m' He.
  destruct e; try discriminate He. by injection He as <-.
Qed.
Lemma on_structured_balanced {A} (m : M (World X) A) h :
  preserves balanced m → (∀ n, preserves balanced (h n)) →
  preserves balanced (try_except m (on_structured h)).
Proof.
  intros Hm Hh. apply preserves_try_except; [apply _|done|]. intros e m' He.
  destruct e; try discriminate He. by injection He as <-.
Qed.
Lemma on_exception_balanced {A} (m : M (World X) A) h :
  preserves balanced m → (∀ e, preserves balanced (h e)) →
  preserves balanced (try_except m (on_exception h)).
Proof.
  intros Hm Hh. apply preserves_try_except; [apply _|done|]. intros e m' He.
  unfold on_exception in He. destruct (is_cancelled e); [discriminate He|]. by injection He as <-.
Qed.

(** Follows the structure of a program to its actions. *)
Ltac balance :=
  repeat first
    [ solve [eauto with balanced]
    | match goal with
      | |- preserves _ (try_except _ (on_budget _)) => apply on_budget_balanced; [|intros ?]
      | |- preserves _ (try_except _ (on_structured _)) => apply on_structured_balanced; [|intros ?]
      | |- preserves _ (try_except _ (on_exception _)) => apply on_exception_balanced; [|intros ?]
      | |- preserves _ (try_finally _ _) => apply preserves_try_finally; [apply _| |]
      | |- preserves _ (bind _ _) => apply preserves_bind; [apply _| |intros ?]
      | |- preserves _ (match ?x with _ => _ end) => destruct x
      end ].

Lemma state_update_balanced f s : preserves balanced (_state_update (X:=X) f s).
Proof. unfold _state_update, take_snapshot. balance. Qed.
Hint Resolve state_update_balanced : balanced.

Lemma invoke_model_balanced {A} (m : M (World X) A) :
  preserves balanced m → preserves balanced (_invoke_model m).
Proof. intros Hm. unfold _invoke_model. balance. Qed.
Hint Resolve invoke_model_balanced : balanced.

Lemma budget_termination_balanced s msg r : preserves balanced (_budget_termination (X:=X) s msg r).
Proof. unfold _budget_termination. balance. Qed.
Hint Resolve budget_termination_balanced : balanced.

Lemma unless_terminated_balanced s k :
  preserves balanced k → preserves balanced (unless_terminated (X:=X) s k).
Proof. intros Hk. unfold unless_terminated, _check_budget, budget_check. balance. Qed.
Hint Resolve unless_terminated_balanced : balanced.

Lemma set_next_action_balanced s : preserves balanced (_set_next_action (X:=X) s).
Proof. unfold _set_next_action. balance. Qed.
Lemma select_model_balanced s role : preserves balanced (_select_model (X:=X) settings s role).
Proof. unfold _select_model. balance. Qed.
Hint Resolve set_next_action_balanced select_model_balanced : balanced.

(** A tool call: the executor's own frame. *)
Lemma execute_balanced name arguments : preserves balanced (execute (X:=X) name arguments).
Proof.
  unfold execute, asyncio_timeout, call_and_meter, finish_manual. balance.
  - apply preserves_try_except; [apply _| |].
    + apply preserves_bind; [apply _|balance|intros _].
      apply preserves_bind; [apply _|balance|intros slot_at].
      apply preserves_bind; [apply _|balance|intros _].
      apply preserves_bind; [apply _|balance|intros _].
      apply preserves_bind; [apply _| |intros result; balance].
      apply preserves_try_except; [apply _|balance|]. intros e m'.
      destruct (is_cancelled e); [|destruct (is_timeout e)]; intros [= <-]; balance.
    + intros e m'. destruct (is_cancelled e); [|done]. intros [= <-]. balance.
Qed.
Hint Resolve execute_balanced : balanced.

Lemma call_candidate_balanced candidate : preserves balanced (call_candidate (X:=X) candidate).
Proof.
  unfold call_candidate. apply preserves_try_except; [apply _|balance|].
  intros e m' He. destruct e; simplify_eq; balance.
Qed.
Hint Resolve call_candidate_balanced : balanced.

Lemma try_candidates_balanced s id query rounds i candidates f :
  preserves balanced (try_candidates (X:=X) s id query rounds i candidates f).
Proof. revert f. induction candidates as [|c cs IH]; intros f; simpl; balance; apply IH. Qed.
Hint Resolve try_candidates_balanced : balanced.

Lemma run_queries_balanced s task id actions metadata rounds i queries f :
  preserves balanced (run_queries (X:=X) s task id actions metadata rounds i queries f).
Proof. revert i f. induction queries as [|q qs IH]; intros i f; simpl; balance; apply IH. Qed.
Hint Resolve run_queries_balanced : balanced.

Lemma terminate_balanced s : preserves balanced (_terminate (X:=X) settings s).
Proof. unfold _terminate. balance. Qed.
Hint Resolve terminate_balanced : balanced.

(** The same, through the frames of the nodes. *)
Ltac balance_node :=
  repeat first
    [ progress balance
    | progress cbv zeta
    | match goal with
      | |- preserves _ (_invoke_model _) => apply invoke_model_balanced
      | |- preserves _ (unless_terminated _ _) => apply unless_terminated_balanced
      end ].

Lemma node_balanced n s : preserves balanced (run_node (X:=X) settings n s).
Proof.
  destruct n; simpl.
  - unfold _plan, make_plan. balance_node.
  - unfold _research, research_body. balance_node.
  - unfold _worker, do_work. balance_node.
  - unfold _verify, budget_check, verify_body, make_report. balance_node.
  - unfold _revise. balance_node.
  - unfold _replan. balance_node.
  - unfold _advance. balance_node.
  - unfold _finalize, make_response. balance_node.
  - unfold _verify_final. balance_node.
  - unfold _revise_final. balance_node.
  - balance_node.
  - balance_node.
Qed.

Lemma graph_balanced fuel n s w r w' :
  run_graph settings fuel n s w = Some (r, w') → balanced w w'.
Proof.
  revert n s w. induction fuel as [|fuel IH]; intros n s w; simpl; [done|].
  assert (preserves balanced (graph_step (X:=X) settings n s)) as Hg.
  { unfold graph_step. apply preserves_bind; [apply _|apply node_balanced|]. intros s'. balance. }
  specialize (Hg w). destruct (graph_step settings n s w) as [[[n1 s1]|e] w1]; simpl in Hg.
  - destruct n1; intros Hr; first [by injection Hr as <- <-|by etrans; [exact Hg|eapply IH]].
  - by intros [= <- <-].
Qed.
End balance.
