(* ===== verification/Agents.v ===== *)
(** * The role agents

    [StructuredAgent] of [app/agents/base.py] and the role agents over it: the
    bounded structured-output attempts, the compaction of the payload, and the
    prompts.  The calls go through the Ollama client of [Ollama]; the pydantic
    schema a reply is validated with is a parameter.  Logging is left out.
    The lengths the compaction measures are in characters, as [len] counts them. *)

From S2P Require Import Prelude PyData Json RunTypes Settings Schemas Meter Metrics PyNum.
From S2P Require Import ToolPolicy.
From S2P Require Import GraphNodes GraphRun Ollama Prompts.

(** What the agents take from pydantic, and conversions of the language. *)
Record Schema (A : Type) : Type := MkSchema {
  sc_name : string;                             (** [schema.__name__] *)
  sc_json : pydict;                             (** [schema.model_json_schema()] *)
  sc_validate : string → string + A             (** [model_validate_json], or [str] of the [ValidationError] *)
}.
Arguments MkSchema {A} _ _ _. Arguments sc_name {A} _. Arguments sc_json {A} _.
Arguments sc_validate {A} _ _.

Record AgentEnv : Type := MkAgentEnv {
  ae_chars_of : Z → Z;        (** [int(n * structured_prompt_chars_per_token)] *)
  ae_repr : pyval → string    (** [repr(v)] *)
}.

(** ** Payload compaction *)

(** [len(json.dumps(value, ensure_ascii=False, default=str))]. *)
Definition _json_chars (value : pyval) : Z := ulen (dumps default_separators value).

Definition truncation_mark : string := "…[truncated]".

(** [value[-n:]] for [n] positive and shorter than the list, else the list. *)
Definition last_items {A} (n : nat) (l : list A) : list A := keep_last n l.

(** The items are truncated before the last ones are selected. *)
Fixpoint _truncate_value (max_string_chars : nat) (max_items : nat) (value : pyval) : pyval :=
  match value with
  | VStr s =>
      if (chars s <=? max_string_chars)%nat then VStr s
      else VStr (take_chars max_string_chars s +:+ truncation_mark)
  | VList items => VList (last_items max_items (map (_truncate_value max_string_chars max_items) items))
  | VDict d => VDict (map (λ kv, (kv.1, _truncate_value max_string_chars max_items kv.2)) d)
  | v => v
  end.

Definition truncate_dict (max_string_chars max_items : nat) (d : pydict) : pydict :=
  map (λ kv, (kv.1, _truncate_value max_string_chars max_items kv.2)) d.

Definition compaction_levels : list (nat * nat) :=
  [(4000, 12); (2500, 8); (1500, 6); (800, 5); (400, 4); (200, 3)]%nat.

(** [original["history"] = history[-4:]]. *)
Definition trim_history (original : pydict) : pydict :=
  match get_or_none "history" original with
  | VList history => dict_set "history" (VList (keep_last 4 history)) original
  | _ => original
  end.

Fixpoint first_fitting (levels : list (nat * nat)) (original : pydict) (max_chars : Z) : pydict :=
  match levels with
  | [] => truncate_dict 120 2 original
  | (chars, items) :: levels =>
      let candidate := truncate_dict chars items original in
      if _json_chars (VDict candidate) <=? max_chars then candidate
      else first_fitting levels original max_chars
  end.

Definition _compact_payload (payload : pydict) (max_chars : Z) : pydict * bool :=
  if _json_chars (VDict payload) <=? max_chars then (payload, false)
  else (first_fitting compaction_levels (trim_history payload) max_chars, true).

(** ** Messages *)

Definition chat_message (role content : string) : pydict :=
  [("role", VStr role); ("content", VStr content)].

Definition retry_instruction : string :=
  "The previous structured attempt was empty, truncated, or invalid. "
  +:+ "Use the compact input and return only the final valid JSON object.".

Definition _structured_messages (system : string) (payload json_schema : pydict) (retry : bool) :
    list pydict :=
  let request := [
    ("input", VDict payload); ("output_schema", VDict json_schema);
    ("response_rules", VList [
      VStr "Return exactly one JSON object that validates against output_schema.";
      VStr "Do not include markdown, commentary, or a reasoning trace."])] in
  let request := if retry then request ++ [("retry_instruction", VStr retry_instruction)]
                 else request in
  [chat_message "system" system;
   chat_message "user" (dumps default_separators (VDict request))].

Definition _messages (system : string) (payload : pydict) : list pydict :=
  [chat_message "system" system;
   chat_message "user" (dumps default_separators (VDict payload))].

(** ** The agent *)

Section agent.
Context {Y : Type} `{!OllamaHost Y} (settings : Settings) (env : AgentEnv).

Abbreviation OM := (M (World (Process Y))) (only parsing).

(** [self.model = model or settings.ollama_model]. *)
Definition agent_model (model : string) : string := str_or model (ollama_model settings).

(** The first of the two fallback settings that is set and new is added. *)
Fixpoint add_fallback (model : string) (candidates : list string) : list string :=
  match candidates with
  | [] => [model]
  | c :: candidates =>
    let candidate := strip c in
    if nonempty candidate && negb (String.eqb candidate model) then [model; candidate]
    else add_fallback model candidates
  end.

Definition _structured_models (model : string) : list string :=
  add_fallback model [model_general settings; model_fallback settings].

Definition _structured_payload_budget_chars (system : string) (json_schema : pydict) : Z :=
  let num_ctx := ollama_num_ctx settings in
  let reserve := Z.min (Z.max 256 (structured_output_reserve_tokens settings))
                     (Z.max 256 (num_ctx / 2)) in
  let usable_chars := ae_chars_of env (Z.max 512 (num_ctx - reserve)) in
  let fixed_chars := ulen system + _json_chars (VDict json_schema) + 1800 in
  Z.max 2000 (usable_chars - fixed_chars).

(** [int(base_payload_budget * 0.40)] is [2/5] of it, rounded down. *)
Definition attempt_budget (base : Z) (attempt : nat) : Z :=
  if (attempt =? 1)%nat then base else Z.max 1200 (Z.min 3000 (2 * base / 5)).

(** [len(thinking) if isinstance(thinking, str) else 0]. *)
Definition thinking_chars (raw : pydict) : Z :=
  let message := get_or_none "message" raw in
  match (if truthy message then message else VDict []) with
  | VDict message => match get_or_none "thinking" message with VStr t => ulen t | _ => 0 end
  | _ => 0
  end.

Definition _empty_response_detail (raw : pydict) : string :=
  "done_reason=" +:+ ae_repr env (get_or_none "done_reason" raw)
  +:+ ", prompt_eval_count=" +:+ ae_repr env (get_or_none "prompt_eval_count" raw)
  +:+ ", eval_count=" +:+ ae_repr env (get_or_none "eval_count" raw)
  +:+ ", thinking_chars=" +:+ Z_to_string (thinking_chars raw).

(** One attempt: the validated reply, or why it was rejected. *)
Definition structured_attempt {A} (system : string) (payload : pydict) (schema : Schema A)
  (base : Z) (attempt : nat) (model : string) : OM (string + A) :=
  let '(prepared_payload, _) := _compact_payload payload (attempt_budget base attempt) in
  let messages := _structured_messages system prepared_payload (sc_json schema) (1 <? attempt)%nat in
  let! response := chat settings model messages (Some (VFloat "0.0")) None
  (Some (VDict (sc_json schema))) (Some (VBool false)) None in
  let content := strip (llm_content response) in
  if negb (nonempty content) then
  ret (inl (ae_repr env (VStr model) +:+ ": empty final content ("
            +:+ _empty_response_detail (llm_raw response) +:+ ")"))
  else
  match sc_validate schema content with
  | inl exc => ret (inl (ae_repr env (VStr model) +:+ ": " +:+ exc))
  | inr result => ret (inr result)
  end.

(** [for attempt, model in enumerate(models, start=1)]. *)
Fixpoint structured_attempts {A} (system : string) (payload : pydict) (schema : Schema A)
  (base : Z) (attempt : nat) (models failures : list string) : OM (list string + A) :=
  match models with
  | [] => ret (inl failures)
  | model :: models =>
    let! r := structured_attempt system payload schema base attempt model in
    match r with
    | inr result => ret (inr result)
    | inl failure =>
        structured_attempts system payload schema base (S attempt) models (failures ++ [failure])
    end
  end.

Definition invoke_json {A} (model system : string) (payload : pydict) (schema : Schema A) : OM A :=
  if bool_decide (llm_backend settings = Ollama) then
  let models := _structured_models (agent_model model) in
  let base := _structured_payload_budget_chars system (sc_json schema) in
  let! r := structured_attempts system payload schema base 1 models [] in
  match r with
  | inr result => ret result
  | inl failures => raise (StructuredOutputError (sc_name schema) models failures)
  end
  else raise (PyExn RuntimeError "Structured LLM execution requires LLM_BACKEND=ollama").

Definition invoke_text (model system : string) (payload : pydict) : OM string :=
  if bool_decide (llm_backend settings = Ollama) then
  let payload_budget :=
    Z.max 2000 (ae_chars_of env (ollama_num_ctx settings - structured_output_reserve_tokens settings)
                - ulen system - 1000) in
  let '(prepared_payload, _) := _compact_payload payload payload_budget in
  let! response := chat settings (agent_model model) (_messages system prepared_payload)
    (Some (VFloat (ollama_temperature settings))) None None None None in
  ret (llm_content response)
  else raise (PyExn RuntimeError "LLM execution requires LLM_BACKEND=ollama").

(** ** The role agents *)

Record AgentSchemas : Type := MkAgentSchemas {
  as_plan : Schema ExecutionPlan;
  as_worker : Schema WorkerResult;
  as_report : Schema VerificationReport;
  as_final : Schema FinalVerificationReport
}.
Context (schemas : AgentSchemas).

(** [planner.invoke_json(system=PLANNER_PROMPT, ...)], as the graph calls it. *)
Definition planner_invoke (model : string) (payload : pydict) : OM ExecutionPlan :=
  invoke_json model PLANNER_PROMPT payload (as_plan schemas).
Definition plan (model message : string) : OM ExecutionPlan :=
  planner_invoke model [("request", VStr message)].
Definition worker_execute (model : string) (payload : pydict) : OM WorkerResult :=
  invoke_json model WORKER_PROMPT payload (as_worker schemas).
Definition worker_revise (model : string) (payload : pydict) : OM WorkerResult :=
  invoke_json model REVISER_PROMPT payload (as_worker schemas).
Definition verify (model : string) (payload : pydict) : OM VerificationReport :=
  invoke_json model VERIFIER_PROMPT payload (as_report schemas).
Definition synthesize (model : string) (payload : pydict) : OM string :=
  invoke_text model FINALIZER_PROMPT payload.
Definition verify_final (model : string) (payload : pydict) : OM FinalVerificationReport :=
  invoke_json model FINAL_VERIFIER_PROMPT payload (as_final schemas).
End agent.

(** ** Compaction *)

(** Every string is at most [c] characters and the mark, every list has at most [k]
    items. *)
Fixpoint within (c k : nat) (v : pyval) : bool :=
  match v with
  | VStr s => (chars s <=? c + chars truncation_mark)%nat
  | VList l => (length l <=? k)%nat && forallb (within c k) l
  | VDict d => forallb (λ kv, within c k kv.2) d
  | _ => true
  end.

(** The truncation of a value to [c] characters and [k] items: a longer string is
its first [c] characters and the mark, a longer list its last [k] items, truncated. *)
Inductive truncated (c k : nat) : pyval → pyval → Prop :=
  | trunc_short s : (chars s ≤ c)%nat → truncated c k (VStr s) (VStr s)
  | trunc_long pre rest : chars pre = c → at_boundary rest = true → (c < chars (pre +:+ rest))%nat →
      truncated c k (VStr (pre +:+ rest)) (VStr (pre +:+ truncation_mark))
  | trunc_list l l' : Forall2 (truncated c k) (drop (length l - k) l) l' → truncated c k (VList l) (VList l')
  | trunc_dict d d' : Forall2 (λ a b, a.1 = b.1 ∧ truncated c k a.2 b.2) d d' →
      truncated c k (VDict d) (VDict d')
  | trunc_other v : match v with VStr _ | VList _ | VDict _ => False | _ => True end → truncated c k v v.

Lemma forallb_keep_last {A} (f : A → bool) n l :
  forallb f l = true → forallb f (keep_last n l) = true.
Proof.
  destruct (keep_last_suffix n l) as [l' E]. rewrite E at 1. rewrite forallb_app.
  by intros [_ ?]%andb_true_iff.
Qed.

Lemma truncate_within c k v : within c k (_truncate_value c k v) = true.
Proof.
  induction v as [| | | |s|l IH|d IH] using pyval_strong_ind; simpl; try done.
  - destruct (Nat.leb_spec (chars s) c) as [H|H]; cbn [within]; apply Nat.leb_le; [lia|].
    destruct (take_chars_split c s) as (rest & _ & _ & Hl & _). rewrite chars_app. lia.
  - apply andb_true_iff. split; [apply Nat.leb_le, keep_last_length|].
    apply forallb_keep_last, forallb_Forall, Forall_map. done.
  - apply forallb_Forall, Forall_map. by eapply Forall_impl.
Qed.

Lemma within_mono c k c' k' v :
  (c ≤ c')%nat → (k ≤ k')%nat → within c k v = true → within c' k' v = true.
Proof.
  intros Hc Hk. induction v as [| | | |s|l IH|d IH] using pyval_strong_ind; simpl; try done.
  - rewrite !Nat.leb_le. lia.
  - rewrite !andb_true_iff, !Nat.leb_le, !forallb_Forall. intros [? Hl]. split; [lia|].
    rewrite Forall_forall in *. auto.
  - rewrite !forallb_Forall, !Forall_forall. rewrite Forall_forall in IH. auto.
Qed.

Lemma truncate_truncated c k v : truncated c k v (_truncate_value c k v).
Proof.
  induction v as [| | | |s|l IH|d IH] using pyval_strong_ind; try by constructor.
  - simpl. destruct (Nat.leb_spec (chars s) c) as [H|H]; [by constructor|].
    destruct (take_chars_split c s) as (rest & Hs & Hb & _ & Hn). rewrite Hs at 1.
    constructor; [by apply Hn|done|by rewrite <- Hs].
  - constructor. unfold last_items. rewrite <- keep_last_map. apply Forall2_fmap_r.
    apply (Forall_drop _ (length l - k)) in IH. fold (keep_last k l) in *. by induction IH; constructor.
  - constructor. apply Forall2_fmap_r. by induction IH; constructor.
Qed.

Lemma truncated_unique c k v w : truncated c k v w → w = _truncate_value c k v.
Proof.
  revert w. induction v as [| | | |s|l IH|d IH] using pyval_strong_ind; intros w Ht;
    inversion Ht as [s0 Hs|pre rest Hc Hb Hlen|l0 l' HF|d0 d' HF|v0 Hv]; subst; try done; simpl.
  - by rewrite (proj2 (Nat.leb_le _ _) Hs).
  - rewrite (proj2 (Nat.leb_gt _ _) Hlen). by rewrite take_chars_unique.
  - f_equal. unfold last_items. rewrite <- keep_last_map.
    apply (Forall_drop _ (length l - k)) in IH. fold (keep_last k l) in *.
    clear Ht. induction HF as [|x y xs ys Hxy _ IHl]; [done|]. apply Forall_cons in IH as [Hx IH].
    simpl. f_equal; [by apply Hx|by apply IHl].
  - f_equal. clear Ht. induction HF as [|[a x] [b y] xs ys [Hk Hxy] _ IHl]; [done|].
    apply Forall_cons in IH as [Hx IH]. simpl in *. f_equal; [|by apply IHl]. f_equal; [done|by apply Hx].
Qed.

Lemma truncate_dict_eq c k d : VDict (truncate_dict c k d) = _truncate_value c k (VDict d).
Proof. done. Qed.

Lemma truncate_dict_keys c k d : (truncate_dict c k d).*1 = d.*1.
Proof. unfold truncate_dict. rewrite <- list_fmap_compose. by apply list_fmap_ext. Qed.

Lemma dict_set_same_keys {A} k (v : A) d : dict_get k d ≠ None → (dict_set k v d).*1 = d.*1.
Proof.
  induction d as [|[k' w] d IH]; simpl; [done|].
  destruct (String.eqb_spec k k') as [->|]; simpl; [done|]. intros H. f_equal. by apply IH.
Qed.

Lemma trim_history_keys d : (trim_history d).*1 = d.*1.
Proof.
  unfold trim_history, get_or_none. destruct (dict_get "history" d) as [v|] eqn:E; [|done].
  destruct v; try done. apply dict_set_same_keys. by rewrite E.
Qed.

(** The truncation a list of levels settles on: the first that fits, or [last]. *)
Definition chosen (levels : list (nat * nat)) (last : nat * nat) (original : pydict) (max_chars : Z)
    (p : pydict) : Prop :=
  let fits q := ulen (dumps default_separators q) <= max_chars in
  let too_long '(c, k) := ∀ q, truncated c k (VDict original) q → ¬ fits q in
  (∃ before c k after, levels = before ++ (c, k) :: after ∧
     truncated c k (VDict original) (VDict p) ∧ fits (VDict p) ∧ Forall too_long before) ∨
  (truncated last.1 last.2 (VDict original) (VDict p) ∧ Forall too_long levels).

Lemma first_fitting_chosen levels original max_chars :
  chosen levels (120, 2)%nat original max_chars (first_fitting levels original max_chars).
Proof.
  induction levels as [|[c k] levels IH]; simpl.
  { right. split; [|constructor]. apply truncate_truncated. }
  destruct (Z.leb_spec (_json_chars (VDict (truncate_dict c k original))) max_chars) as [Hfit|Hfit].
  - left. exists [], c, k, levels. split_and!; [done| |done|constructor]. apply truncate_truncated.
  - assert (∀ q, truncated c k (VDict original) q → ¬ ulen (dumps default_separators q) <= max_chars) as Hlong.
    { intros q ->%truncated_unique. unfold _json_chars in Hfit. rewrite truncate_dict_eq in Hfit. lia. }
    destruct IH as [(before & c' & k' & after & -> & Hp & Hf & Hb)|[Hp Hb]].
    + left. exists ((c, k) :: before), c', k', after. split_and!; [done..|]. by constructor.
    + right. split; [done|]. by constructor.
Qed.

Lemma truncated_dict_keys c k d d' : truncated c k (VDict d) (VDict d') → d'.*1 = d.*1.
Proof. intros [= ->]%truncated_unique. apply truncate_dict_keys. Qed.

Lemma truncated_within c k v w : truncated c k v w → within c k w = true.
Proof. intros ->%truncated_unique. apply truncate_within. Qed.

(** C40. Compaction of a payload.  Lengths are numbers of characters.  A payload
    whose JSON fits is passed on unchanged.  Otherwise a history that is a list is
    cut to its last four elements, the keys stay, and the result is the truncation
    of that at the first of the six levels that fits, or at 120 characters and two
    items when none does: each longer string is cut to the level's number of
    characters and marked, each longer list to its last items.  So no string of it
    exceeds 4000 characters and the mark, no list twelve items, and it fits unless
    its strings are cut to 120 and its lists to two. *)
Theorem compact_payload_spec payload max_chars :
  let '(p, compacted) := _compact_payload payload max_chars in
  (compacted = true ↔ max_chars < ulen (dumps default_separators (VDict payload))) ∧
  (compacted = false → p = payload) ∧
  (compacted = true →
    p.*1 = payload.*1 ∧
    (∃ original,
      match dict_get "history" payload with
      | Some (VList history) =>
          original = dict_set "history" (VList (drop (length history - 4) history)) payload
      | _ => original = payload
      end ∧
      chosen [(4000, 12); (2500, 8); (1500, 6); (800, 5); (400, 4); (200, 3)]%nat (120, 2)%nat
        original max_chars p) ∧
    within 4000 12 (VDict p) = true ∧
    (ulen (dumps default_separators (VDict p)) ≤ max_chars ∨ within 120 2 (VDict p) = true)).
Proof.
  unfold _compact_payload, _json_chars.
  destruct (Z.leb_spec (ulen (dumps default_separators (VDict payload))) max_chars) as [H|H].
  - split_and!; [split; [done|lia]|done|done].
  - split_and!; [done|done|]. intros _.
    pose proof (first_fitting_chosen compaction_levels (trim_history payload) max_chars) as Hc.
    set (p := first_fitting _ _ _) in *. clearbody p. split_and!.
    + rewrite <- (trim_history_keys payload).
      destruct Hc as [(before & c & k & after & _ & Ht & _)|[Ht _]]; by eapply truncated_dict_keys.
    + exists (trim_history payload). split; [|done]. unfold trim_history, get_or_none.
      destruct (dict_get "history" payload) as [[]|]; done.
    + destruct Hc as [(before & c & k & after & El & Ht & _)|[Ht _]];
        (eapply within_mono; [| |by eapply truncated_within]); simpl; try lia;
        assert (((c, k) : nat * nat) ∈ compaction_levels) as Hin by (rewrite El; set_solver);
        unfold compaction_levels in Hin;
        repeat (apply elem_of_cons in Hin as [[= -> ->]|Hin]; [lia|]); by apply elem_of_nil in Hin.
    + destruct Hc as [(before & c & k & after & _ & _ & Hf & _)|[Ht _]]; [by left|].
      right. by apply truncated_within in Ht.
Qed.

(** ** Bounded attempts *)

(** Between two states of the meter [n] attempts were begun and closed,
    [s] of them as successes. *)
Record attempts_made (n s : Z) (t t' : MeterTask) : Prop := MkAttemptsMade {
  am_attempts : ms_physical_model_attempts (eb_state (mt_meter t')) =
                ms_physical_model_attempts (eb_state (mt_meter t)) + n;
  am_successes : ms_model_successes (eb_state (mt_meter t')) =
                 ms_model_successes (eb_state (mt_meter t)) + s;
  am_failures : ms_model_failures (eb_state (mt_meter t')) =
                ms_model_failures (eb_state (mt_meter t)) + (n - s);
  am_limits : eb_max_model_calls (mt_meter t') = eb_max_model_calls (mt_meter t)
}.

Lemma attempts_none t : attempts_made 0 0 t t.
Proof. constructor; lia. Qed.

Lemma attempts_trans n s n' s' n2 s2 t1 t2 t3 :
  attempts_made n s t1 t2 → attempts_made n' s' t2 t3 → n2 = n + n' → s2 = s + s' →
  attempts_made n2 s2 t1 t3.
Proof. intros [] [] -> ->. constructor; lia. Qed.

Lemma closed_made success data t t' :
  attempt_closed success data t t' → attempts_made 1 (if success then 1 else 0) t t'.
Proof. intros []. constructor; destruct success; try lia; tauto. Qed.

Section bounded.
Context {Y : Type} `{!OllamaHost Y} (settings : Settings) (env : AgentEnv).
Context (Hmetered : oh_metered = true).

Lemma chat_made model messages temperature num_predict format think options w :
  let '(o, w') := chat settings model messages temperature num_predict format think options w in
  match o with
  | Ret _ => attempts_made 1 1 (w_task w) (w_task w')
  | Raise _ => ∃ n s, 0 ≤ s ≤ n ≤ 1 ∧ attempts_made n s (w_task w) (w_task w')
  end.
Proof.
  destruct (chat settings _ _ _ _ _ _ _ w) as [o w'] eqn:E.
  destruct (chat_spec _ _ _ _ _ _ _ _ _ _ _ Hmetered E)
    as [[Hs [e ->]]|(x & wb & payload & Hc & Hx & Ho)].
  - exists 0, 0. split; [lia|]. rewrite Hs. apply attempts_none.
  - pose proof (chat_exchange_honest model payload wb) as Hh. rewrite <- Hx in Hh.
    unfold honest in Hh. apply closed_made in Hc.
    destruct (xc_result x) as [a|e]; subst o; [rewrite (Hh eq_refl) in Hc|].
    + destruct (chat_response _ _); [done|]. exists 1, 1. split; [lia|done].
    + exists 1, (if xc_success x then 1 else 0). split; [destruct (xc_success x); lia|done].
Qed.

Context `{!OllamaLaws}.

(** What a model call raises ([chat_errors] of [Ollama]). *)
Definition call_error (e : exn) : Prop :=
  e = CancelledError ∨ (∃ msg, e = OllamaError msg) ∨ (∃ msg, e = BudgetExceeded msg).

Section attempts.
Context {A : Type} (system : string) (payload : pydict) (schema : Schema A).

(** The request of one attempt: the payload compacted to some budget, and the
instruction to retry from the second attempt on. *)
Definition attempt_messages (budget : Z) (retry : bool) : list pydict :=
  _structured_messages system (_compact_payload payload budget).1 (sc_json schema) retry.

(** One model is asked for an object of the schema. *)
Definition asked (model : string) (retry : bool) (w : World (Process Y)) (o : outcome LLMResponse)
    (w' : World (Process Y)) : Prop :=
  ∃ budget, chat settings model (attempt_messages budget retry) (Some (VFloat "0.0")) None
    (Some (VDict (sc_json schema))) (Some (VBool false)) None w = (o, w').

(** Its reply, without the white space around it, is empty or invalid; or valid. *)
Definition rejected (response : LLMResponse) : Prop :=
  strip (llm_content response) = EmptyString ∨
  ∃ exc, sc_validate schema (strip (llm_content response)) = inl exc.
Definition accepted (response : LLMResponse) (result : A) : Prop :=
  strip (llm_content response) ≠ EmptyString ∧
  sc_validate schema (strip (llm_content response)) = inr result.

(** The models asked one after the other, each answering and each rejected. *)
Inductive all_rejected : bool → list string → World (Process Y) → World (Process Y) → Prop :=
  | rejected_none retry w : all_rejected retry [] w w
  | rejected_next retry model models response w w1 w2 :
      asked model retry w (Ret response) w1 → rejected response →
      all_rejected true models w1 w2 → all_rejected retry (model :: models) w w2.

(** A model that follows others is asked again. *)
Definition after_some (before : list string) : bool := match before with [] => false | _ => true end.

(** How a list of models is asked: each but the last one asked is rejected; the last
one is accepted, or its call raises, or all of them are rejected. *)
Definition asked_in_order (retry : bool) (models : list string) (w : World (Process Y))
    (o : outcome (option A)) (w' : World (Process Y)) : Prop :=
  match o with
  | Ret None => all_rejected retry models w w'
  | Ret (Some result) => ∃ before model after w1 response,
      models = before ++ model :: after ∧ all_rejected retry before w w1 ∧
      asked model (retry || after_some before) w1 (Ret response) w' ∧ accepted response result
  | Raise e => ∃ before model after w1,
      models = before ++ model :: after ∧ all_rejected retry before w w1 ∧
      asked model (retry || after_some before) w1 (Raise e) w'
  end.

Lemma asked_later retry model models response w w1 o w2 :
  asked model retry w (Ret response) w1 → rejected response →
  asked_in_order true models w1 o w2 → asked_in_order retry (model :: models) w o w2.
Proof.
  intros Ha Hr. destruct o as [[result|]|e]; cbn [asked_in_order].
  - intros (before & m & after & w3 & resp & -> & Hb & Hm & Hacc).
    exists (model :: before), m, after, w3, resp. split_and!; [done|by econstructor| |done].
    by rewrite orb_true_r.
  - intros Hb. by econstructor.
  - intros (before & m & after & w3 & -> & Hb & Hm).
    exists (model :: before), m, after, w3. split_and!; [done|by econstructor|]. by rewrite orb_true_r.
Qed.

Lemma structured_attempt_spec base attempt model w :
  let '(o, w') := structured_attempt settings env system payload schema base attempt model w in
  match o with
  | Ret r => attempts_made 1 1 (w_task w) (w_task w') ∧
      ∃ response, asked model (1 <? attempt)%nat w (Ret response) w' ∧
        match r with inr result => accepted response result | inl _ => rejected response end
  | Raise e => call_error e ∧ asked model (1 <? attempt)%nat w (Raise e) w' ∧
      ∃ n s, 0 ≤ s ≤ n ≤ 1 ∧ attempts_made n s (w_task w) (w_task w')
  end.
Proof.
  unfold structured_attempt, asked, attempt_messages.
  destruct (_compact_payload payload (attempt_budget base attempt)) as [prepared compacted] eqn:Ep.
  assert (prepared = (_compact_payload payload (attempt_budget base attempt)).1) as Hp by by rewrite Ep.
  unfold bind. set (messages := _structured_messages system prepared _ _).
  pose proof (chat_made model messages (Some (VFloat "0.0")) None (Some (VDict (sc_json schema)))
    (Some (VBool false)) None w) as Hm.
  destruct (chat settings model messages _ _ _ _ _ w) as [[response|e] w1] eqn:E.
  - assert (∃ budget, chat settings model
      (_structured_messages system (_compact_payload payload budget).1 (sc_json schema) (1 <? attempt)%nat)
      (Some (VFloat "0.0")) None (Some (VDict (sc_json schema))) (Some (VBool false)) None w =
      (Ret response, w1)) as Hasked by (exists (attempt_budget base attempt); by rewrite <- Hp).
    destruct (nonempty (strip (llm_content response))) eqn:En; cbn [negb].
    + destruct (sc_validate schema _) as [exc|result] eqn:Ev; (split; [done|]); exists response;
        (split; [done|]); [right; by eexists|]. split; [|done]. intros Hs. by rewrite Hs in En.
    + split; [done|]. exists response. split; [done|]. left. by destruct (strip _).
  - split_and!; [|exists (attempt_budget base attempt); by rewrite <- Hp|done].
    apply chat_errors in E; [|done..]. unfold call_error. naive_solver.
Qed.

(** The outcome of the attempts, without the texts of the failures. *)
Definition found (r : list string + A) : option A :=
  match r with inl _ => None | inr result => Some result end.

Lemma structured_attempts_spec base attempt models failures w :
  let '(o, w') := structured_attempts settings env system payload schema base (S attempt) models failures w in
  match o with
  | Ret r => asked_in_order (0 <? attempt)%nat models w (Ret (found r)) w' ∧
      match r with inl fs => length fs = (length failures + length models)%nat | inr _ => True end ∧
      ∃ n, 0 ≤ n ≤ Z.of_nat (length models) ∧ attempts_made n n (w_task w) (w_task w') ∧
        match r with inl _ => n = Z.of_nat (length models) | inr _ => True end
  | Raise e =>
      call_error e ∧ asked_in_order (0 <? attempt)%nat models w (Raise e) w' ∧
      ∃ n s, 0 ≤ s ≤ n ∧ n ≤ Z.of_nat (length models) ∧ attempts_made n s (w_task w) (w_task w')
  end.
Proof.
  revert attempt failures w. induction models as [|model models IH]; intros attempt failures w;
    cbn [structured_attempts].
  { split; [constructor|]. cbn [length]. split; [lia|]. exists 0. split_and!; [lia|lia|apply attempts_none|done]. }
  pose proof (structured_attempt_spec base (S attempt) model w) as Ha.
  change (1 <? S attempt)%nat with (0 <? attempt)%nat in Ha. cbn [length].
  unfold bind. destruct (structured_attempt _ _ _ _ _ _ _ _ w) as [[[failure|result]|e] w1].
  - destruct Ha as (Hm & response & Hask & Hrej). specialize (IH (S attempt) (failures ++ [failure]) w1).
    change (0 <? S attempt)%nat with true in IH.
    destruct (structured_attempts _ _ _ _ _ _ _ _ _ w1) as [[r|e] w2].
    + destruct IH as (Ho & Hl & n & Hn & Hi & Hr). split; [by eapply asked_later|].
      split; [destruct r; [|done]; rewrite length_app in Hl; simpl in Hl; lia|].
      exists (1 + n). split_and!; [lia|lia| |destruct r; lia]. eapply attempts_trans; [exact Hm|exact Hi|lia|lia].
    + destruct IH as (He & Ho & n & s & Hs & Hn & Hi). split; [done|]. split; [by eapply asked_later|].
      exists (1 + n), (1 + s). split_and!; [lia|lia|lia|]. eapply attempts_trans; [exact Hm|exact Hi|lia|lia].
  - destruct Ha as (Hm & response & Hask & Hacc). split; [|split; [done|]].
    + exists [], model, models, w, response. split_and!; [done|constructor| |done]. by rewrite orb_false_r.
    + exists 1. split_and!; [lia|lia|done|done].
  - destruct Ha as (He & Hask & n & s & Hs & Hm). split; [done|]. split.
    + exists [], model, models, w. split_and!; [done|constructor|]. by rewrite orb_false_r.
    + exists n, s. split_and!; [lia|lia|lia|done].
Qed.
End attempts.

Lemma structured_models_spec model :
  NoDup (_structured_models settings model) ∧
  (1 ≤ length (_structured_models settings model) ≤ 2)%nat ∧
  head (_structured_models settings model) = Some model ∧
  ∀ m, m ∈ _structured_models settings model → m = model ∨
    m ∈ [strip (model_general settings); strip (model_fallback settings)].
Proof.
  assert (∀ cs, NoDup (add_fallback model cs) ∧ (1 ≤ length (add_fallback model cs) ≤ 2)%nat ∧
    head (add_fallback model cs) = Some model ∧
    ∀ m, m ∈ add_fallback model cs → m = model ∨ m ∈ map strip cs) as Hall; [|apply Hall].
  induction cs as [|c cs IH]; simpl.
  { split_and!; [apply NoDup_singleton|lia..|done|]. intros m Hm. left. set_solver. }
  assert (NoDup (add_fallback model cs) ∧ (1 ≤ length (add_fallback model cs) ≤ 2)%nat ∧
    head (add_fallback model cs) = Some model ∧
    ∀ m, m ∈ add_fallback model cs → m = model ∨ m ∈ strip c :: map strip cs) as IH'.
  { destruct IH as (?&?&?&Hm). split_and!; [done|lia|lia|done|]. intros m [?|?]%Hm; [by left|right; by right]. }
  destruct (nonempty (strip c)); simpl; [|done].
  destruct (String.eqb_spec (strip c) model) as [|Hne]; simpl; [done|].
  split_and!; [|lia..|done|].
  - apply NoDup_cons. split; [set_solver|apply NoDup_singleton].
  - intros m [->|Hm]%elem_of_cons; [by left|right]. apply list_elem_of_singleton in Hm as ->. by left.
Qed.

(** C21. Structured output is bounded and validated.  [invoke_json] asks at most two
  different models, in order: the agent's own and one of the two fallbacks; the
  second is asked only when the reply of the first was empty or invalid, and told
  so.  It returns the value the schema made of the nonempty reply of the last model
  asked; it raises [StructuredOutputError] when every model of the list, which the
  error names, was asked, answered and was rejected, each counted as one successful
  attempt with one recorded failure; anything else it raises is what the call of
  the last model asked raised, or the refusal of another backend. *)
Theorem structured_output_bounded {A} model system payload (schema : Schema A) w o w'
    (Hrun : invoke_json settings env model system payload schema w = (o, w')) :
  ∃ models,
  (NoDup models ∧ (length models ≤ 2)%nat ∧
   head models = Some (if nonempty model then model else ollama_model settings) ∧
   ∀ m, m ∈ tail models → m ∈ [strip (model_general settings); strip (model_fallback settings)]) ∧
  (∃ n s, 0 ≤ s ≤ n ∧ n ≤ 2 ∧ attempts_made n s (w_task w) (w_task w')) ∧
  match o with
  | Ret result => asked_in_order system payload schema false models w (Ret (Some result)) w'
  | Raise (StructuredOutputError name attempted failures) =>
      name = sc_name schema ∧ attempted = models ∧ length failures = length models ∧
      all_rejected system payload schema false models w w' ∧
      attempts_made (Z.of_nat (length models)) (Z.of_nat (length models)) (w_task w) (w_task w')
  | Raise e =>
      asked_in_order system payload schema false models w (Raise e) w' ∧ call_error e ∨
      llm_backend settings ≠ Ollama ∧ w' = w
  end.
Proof.
  set (models := _structured_models settings (agent_model settings model)). exists models.
  destruct (structured_models_spec (agent_model settings model)) as (Hnd & Hl & Hh & Hm).
  fold models in Hnd, Hl, Hh, Hm. split.
  { split_and!; [done|lia| |].
    - rewrite Hh. unfold agent_model, str_or. by destruct model.
    - destruct models as [|m0 models']; [done|]. injection Hh as ->. intros m Hin. cbn [tail] in Hin.
      destruct (Hm m) as [->|?]; [by right| |done]. by apply NoDup_cons in Hnd as [? _]. }
  unfold invoke_json in Hrun. case_bool_decide as Hb.
  2:{ injection Hrun as <- <-. split; [|by right]. exists 0, 0. split_and!; try lia.
      apply attempts_none. }
  fold models in Hrun. unfold bind in Hrun.
  pose proof (structured_attempts_spec system payload schema
    (_structured_payload_budget_chars settings env system (sc_json schema)) 0 models [] w) as Ha.
  destruct (structured_attempts _ _ _ _ _ _ _ _ _ w) as [[[fs|result]|e] w1];
    injection Hrun as <- <-.
  - destruct Ha as (Ho & Hf & n & Hn & Ha & ->). split.
    + exists (Z.of_nat (length models)), (Z.of_nat (length models)). split_and!; [lia..|done].
    + by split_and!.
  - destruct Ha as (Ho & _ & n & Hn & Ha & _). split; [|done]. exists n, n. split_and!; [lia..|done].
  - destruct Ha as (He & Ho & n & s & Hs & Hn & Ha). split; [exists n, s; split_and!; [lia..|done]|].
    by destruct He as [->|[[msg ->]|[msg ->]]]; left; (split; [done|]); unfold call_error; eauto.
Qed.
End bounded.

(** ** Concrete runs *)

Definition sample_agent_env : AgentEnv := MkAgentEnv (λ n, 3 * n) (λ _, "'...'").

(** Schemas that accept one text each. *)
Definition only {A} (text : string) (a : A) (content : string) : string + A :=
  if String.eqb content text then inr a else inl "1 validation error".

Definition sample_schema : Schema string := MkSchema "Answer" [] (only "yes" "accepted").

(** Both models answer, and neither answer is accepted. *)
Lemma structured_output_bounded_witness :
  ∃ failures w',
    invoke_json sample_settings sample_agent_env "m" "system" [] sample_schema
      (sample_process ["no"; " "]) =
      (Raise (StructuredOutputError "Answer" ["m"; "qwen3.5:4b"] failures), w') ∧
    length failures = 2%nat ∧
    ms_model_successes (eb_state (mt_meter (w_task w'))) = 2.
Proof.
  destruct (invoke_json sample_settings sample_agent_env "m" "system" [] sample_schema
    (sample_process ["no"; " "])) as [o w'] eqn:E.
  destruct (structured_output_bounded (OllamaHost0:=sample_ollama_host) sample_settings sample_agent_env eq_refl "m" "system" []
    sample_schema _ o w' E) as (models & (_ & Hlen & Hh & _) & _ & Ho).
  assert (Hr : match o with
    | Raise (StructuredOutputError _ attempted _) => bool_decide (attempted = ["m"; "qwen3.5:4b"])
    | _ => false
    end = true).
  { apply (f_equal fst) in E. cbn [fst] in E. subst o. vm_compute. reflexivity. }
  destruct o as [r|[]]; try discriminate Hr. apply bool_decide_eq_true in Hr as ->.
  destruct Ho as (-> & <- & Hl & _ & Hm).
  exists failures, w'. split; [reflexivity|]. split; [exact Hl|].
  destruct Hm as [_ Hs _ _]. rewrite Hs. reflexivity.
Defined.

Definition long_text : string := String.concat "" (replicate 500 "0123456789").

Definition long_payload : pydict :=
  [("request", VStr long_text); ("history", VList (VInt <$> [1; 2; 3; 4; 5]))].

Lemma compact_payload_spec_witness :
  let p := _compact_payload long_payload 3000 in
  p.2 = true ∧ p.1.*1 = ["request"; "history"] ∧
  dict_get "history" p.1 = Some (VList (VInt <$> [2; 3; 4; 5])) ∧
  ulen (dumps default_separators (VDict p.1)) ≤ 3000 ∧ within 4000 12 (VDict p.1) = true.
Proof.
  pose proof (compact_payload_spec long_payload 3000) as H.
  assert (Ht : (λ x, x.2 && (ulen (dumps default_separators (VDict x.1)) <=? 3000)
      && bool_decide (dict_get "history" x.1 = Some (VList (VInt <$> [2; 3; 4; 5]))))
    (_compact_payload long_payload 3000) = true) by (vm_compute; reflexivity).
  destruct (_compact_payload long_payload 3000) as [p compacted]. cbn [fst snd] in *.
  apply andb_true_iff in Ht as [[-> Hn]%andb_true_iff Hh]. destruct H as (_ & _ & Hp).
  destruct (Hp eq_refl) as (Hk & _ & Hw & _).
  split; [reflexivity|]. split; [exact Hk|]. split; [by apply bool_decide_eq_true in Hh|].
  split; [by apply Z.leb_le|exact Hw].
Defined.
