(* ===== verification/GraphLogic.v ===== *)
(** * What every node of the agent graph keeps

    A small program logic over the graph's monad: [keeps m Q E] says that [m]
    leaves the verifier's counter and limit alone, returns a value satisfying
    [Q] or raises an exception satisfying [E].  One lemma per helper and node
    of [GraphNodes] gives the part of the state it determines. *)

From S2P Require Import Prelude PyData RunTypes Dates Settings Schemas Grounding Context.
From S2P Require Import Evidence Inventory Routing Meter ToolPolicy GraphState GraphNodes.
From S2P Require Import GraphRun.

Lemma same_rounds_refl {X} (w : World X) : same_rounds w w.
Proof. done. Qed.
Lemma same_rounds_trans {X} (w1 w2 w3 : World X) :
  same_rounds w1 w2 → same_rounds w2 w3 → same_rounds w1 w3.
Proof. unfold same_rounds. intuition congruence. Qed.

Definition any {A} : A → Prop := λ _, True.

Definition keeps {X A} (m : M (World X) A) (Q : A → Prop) (E : exn → Prop) : Prop :=
  ∀ w o w', m w = (o, w') →
    same_rounds w w' ∧ match o with Ret a => Q a | Raise e => E e end.

Section rules.
Context {X : Type}.

Lemma keeps_ret {A} (a : A) (Q : A → Prop) E : Q a → keeps (X:=X) (ret a) Q E.
Proof. intros Hq w o w' [= <- <-]. split; [apply same_rounds_refl|done]. Qed.

Lemma keeps_raise {A} e (Q : A → Prop) (E : exn → Prop) : E e → keeps (X:=X) (raise e) Q E.
Proof. intros He w o w' [= <- <-]. split; [apply same_rounds_refl|done]. Qed.

Lemma keeps_gets {A} (f : World X → A) E : keeps (gets f) any E.
Proof. intros w o w' [= <- <-]. split; [apply same_rounds_refl|done]. Qed.

Lemma keeps_of_outcome {A} (o : outcome A) : keeps (X:=X) (of_outcome o) (λ a, o = Ret a) any.
Proof. intros w o' w' [= <- <-]. split; [apply same_rounds_refl|by destruct o]. Qed.

Lemma keeps_mono {A} (m : M (World X) A) (P Q : A → Prop) (E F : exn → Prop) :
  keeps m P E → (∀ a, P a → Q a) → (∀ e, E e → F e) → keeps m Q F.
Proof. intros Hm HQ HE w o w' Hw. destruct (Hm w o w' Hw) as [? Ho]. split; [done|].
  destruct o; auto. Qed.

Lemma keeps_bind {A B} (m : M (World X) A) (k : A → M (World X) B) P Q E :
  keeps m P E → (∀ a, P a → keeps (k a) Q E) → keeps (bind m k) Q E.
Proof.
  intros Hm Hk w o w'. unfold bind. destruct (m w) as [[a|e] w1] eqn:Em;
  destruct (Hm _ _ _ Em) as [Hr Ha].
  - intros Hw. destruct (Hk a Ha _ _ _ Hw) as [Hr' ?]. split; [|done].
  by eapply same_rounds_trans.
  - by intros [= <- <-].
Qed.

Lemma keeps_try {A} (m : M (World X) A) h Q E F :
  keeps m Q E →
  (∀ e, E e → match h e with Some m' => keeps m' Q F | None => F e end) →
  keeps (try_except m h) Q F.
Proof.
  intros Hm Hh w o w'. unfold try_except. destruct (m w) as [[a|e] w1] eqn:Em;
  destruct (Hm _ _ _ Em) as [Hr Ha].
  - by intros [= <- <-].
  - specialize (Hh e Ha). destruct (h e) as [m'|]; [|by intros [= <- <-]].
  intros Hw. destruct (Hh _ _ _ Hw) as [Hr' ?]. split; [|done].
  by eapply same_rounds_trans.
Qed.

Lemma keeps_finally {A} (m : M (World X) A) f Q E :
  keeps m Q E → keeps f any E → keeps (try_finally m f) Q E.
Proof.
  intros Hm Hf w o w'. unfold try_finally. destruct (m w) as [o1 w1] eqn:Em.
  destruct (Hm _ _ _ Em) as [Hr Ha]. destruct (f w1) as [[[]|e] w2] eqn:Ef;
  destruct (Hf _ _ _ Ef) as [Hr' He]; intros [= <- <-];
  (split; [by eapply same_rounds_trans|done]).
Qed.

Lemma keeps_outside {A} (m : M X A) : keeps (outside m) any any.
Proof.
  intros w o w'. unfold outside, zoom. destruct (m (w_ext w)) as [o1 x]. intros [= <- <-].
  split; [done|by destruct o1].
Qed.

(** A meter action that leaves the counter and the limit alone. *)
Lemma keeps_metered {A} (m : M MeterTask A) E :
  (∀ t o t', m t = (o, t') →
  ms_verifier_rounds (eb_state (mt_meter t')) = ms_verifier_rounds (eb_state (mt_meter t)) ∧
  eb_max_verifier_rounds (mt_meter t') = eb_max_verifier_rounds (mt_meter t) ∧
  match o with Ret _ => True | Raise e => E e end) →
  keeps (X:=X) (metered m) any E.
Proof.
  intros Hm w o w'. unfold metered, zoom. destruct (m (w_task w)) as [o1 t] eqn:Et.
  destruct (Hm _ _ _ Et) as (H1 & H2 & H3). intros [= <- <-]. split; [done|by destruct o1].
Qed.

Lemma keeps_upd f E :
  (∀ m, ms_verifier_rounds (f m) = ms_verifier_rounds m) →
  keeps (X:=X) (metered (upd_state f)) any E.
Proof. intros Hf. apply keeps_metered. intros t o t' [= <- <-]. cbn. by rewrite Hf. Qed.

Lemma keeps_modify f E : (∀ t, mt_meter (f t) = mt_meter t) →
  keeps (X:=X) (metered (modify f)) any E.
Proof. intros Hf. apply keeps_metered. intros t o t' [= <- <-]. by rewrite Hf. Qed.

(** The exceptions of [check]: a budget with a reason. *)
Definition budget_exn (e : exn) : Prop := ∃ msg, e = BudgetExceeded msg ∧ nonempty msg = true.

Lemma check_error_budget b now e : check_error b now = Some e → budget_exn e.
Proof. unfold check_error, budget_exn. intros. repeat case_match; simplify_eq; eauto. Qed.

Lemma keeps_check now : keeps (X:=X) (metered (check now)) any budget_exn.
Proof.
  apply keeps_metered. intros t o t'. unfold check, bind, gets, raise, ret.
  destruct (check_error (mt_meter t) now) as [e|] eqn:Ee; intros [= <- <-]; [|done].
  split; [done|]. split; [done|]. by eapply check_error_budget.
Qed.

Lemma keeps_any {A} (m : M (World X) A) Q E : keeps m Q E → keeps m Q any.
Proof. intros Hm. by eapply keeps_mono. Qed.

Lemma keeps_of_rounds {A} (m : M (World X) A) :
  (∀ w o w', m w = (o, w') → same_rounds w w') → keeps m any any.
Proof. intros Hm w o w' Hw. split; [by eapply Hm|by destruct o]. Qed.
End rules.

Section nodes.
Context {X : Type} `{GraphHost X} (settings : Settings).

Lemma keeps_wall E : keeps (X:=X) wall any E.
Proof.
  intros w o w'. unfold wall, outside, zoom. destruct (th_wall (w_ext w)). by intros [= <- <-].
Qed.
Lemma keeps_monotonic E : keeps (X:=X) monotonic any E.
Proof.
  intros w o w'. unfold monotonic, outside, zoom. destruct (th_monotonic (w_ext w)).
  by intros [= <- <-].
Qed.

(** The state is updated as asked, with a new snapshot. *)
Lemma keeps_state_update updates s E :
  keeps (X:=X) (_state_update updates s)
  (λ s', ∃ m, s' = (updates s) <| gs_execution_meter_state := m |>) E.
Proof.
  unfold _state_update, take_snapshot.
  apply (keeps_bind _ _ any); [|intros m _; apply keeps_ret; by exists m].
  apply (keeps_bind _ _ any); [apply keeps_wall|intros now _].
  apply (keeps_bind _ _ any); [apply keeps_monotonic|intros mono _].
  apply (keeps_bind _ _ any); [apply keeps_wall|intros now' _]. apply keeps_gets.
Qed.

Lemma keeps_update updates s (Q : GState → Prop) E :
  (∀ m, Q ((updates s) <| gs_execution_meter_state := m |>)) →
  keeps (X:=X) (_state_update updates s) Q E.
Proof.
  intros Hq. eapply keeps_mono; [apply keeps_state_update|intros s' [m ->]; apply Hq|done].
Qed.

Lemma keeps_invoke {A} (m : M (World X) A) Q :
  keeps m Q any → keeps (_invoke_model m) Q any.
Proof.
  intros Hm. unfold _invoke_model.
  apply (keeps_bind _ _ any); [apply keeps_wall|intros now _].
  apply (keeps_bind _ _ any).
  { unfold record_logical_model_operation. apply keeps_metered. intros t o t'.
  unfold check, bind, gets, raise, ret, upd_state, modify.
  destruct (check_error (mt_meter t) now); intros [= <- <-]; done. }
  intros _ _. apply (keeps_bind _ _ any); [apply keeps_gets|intros saved _].
  apply (keeps_bind _ _ any); [by apply keeps_modify|intros _ _].
  apply keeps_finally; [done|by apply keeps_modify].
Qed.

Lemma keeps_budget_check : keeps (X:=X) budget_check any budget_exn.
Proof.
  unfold budget_check. apply (keeps_bind _ _ any); [apply keeps_wall|intros now _].
  apply keeps_check.
Qed.

(** A state stopped with a reason, otherwise as before. *)
Definition stopped (s s' : GState) : Prop :=
  ∃ msg m v, nonempty msg = true ∧
  s' = s <| gs_termination_reason := Some msg |> <| gs_verification := v |>
         <| gs_execution_meter_state := m |>.

Lemma stopped_truthy s s' : stopped s s' → opt_truthy (gs_termination_reason s') = true.
Proof. by intros (msg & m & v & Hmsg & ->). Qed.

Lemma keeps_budget_termination s msg v E :
  nonempty msg = true → keeps (X:=X) (_budget_termination s msg v) (stopped s) E.
Proof.
  intros Hmsg. unfold _budget_termination. apply keeps_update. intros m.
  exists msg, m, (match v with Some r => Some r | None => gs_verification s end).
  split; [done|]. destruct v; [done|]. by destruct s.
Qed.

Lemma keeps_unless_terminated s k Q :
  keeps (X:=X) k Q any → (∀ s', stopped s s' → Q s') →
  keeps (unless_terminated s k) Q any.
Proof.
  intros Hk Hs. unfold unless_terminated, _check_budget.
  apply (keeps_bind _ _ (λ o, match o with Some s' => stopped s s' | None => True end)).
  - eapply keeps_try.
  + apply (keeps_bind _ _ any); [apply keeps_budget_check|intros _ _].
    by apply keeps_ret.
  + intros e (msg & -> & Hmsg). simpl.
    eapply keeps_bind; [by apply keeps_budget_termination|]. intros s' Hs'. by apply keeps_ret.
  - intros [s'|] Ho; [by apply keeps_ret, Hs|done].
Qed.

(** *** The nodes *)

Context `{!GraphLaws X}.

(** The parts of the state the run's progress is recorded in. *)
Definition same_progress (s s' : GState) : Prop :=
  gs_plan s' = gs_plan s ∧ gs_task_index s' = gs_task_index s ∧
  gs_task_results s' = gs_task_results s ∧ gs_run_id s' = gs_run_id s.

Lemma stopped_progress s s' : stopped s s' → same_progress s s'.
Proof. by intros (msg & m & v & _ & ->). Qed.

Lemma keeps_select_model s role E' :
  (∀ e, E' e) → keeps (X:=X) (_select_model settings s role) any E'.
Proof. intros He. eapply keeps_mono; [apply keeps_of_outcome|done|auto]. Qed.

Ltac kbind := eapply keeps_bind; [|intros ? ?].
Ltac kupdate := apply keeps_update; intros ?.

Lemma keeps_set_next_action s :
  keeps (X:=X) (_set_next_action s)
  (λ s', same_progress s s' ∧ gs_termination_reason s' = gs_termination_reason s) any.
Proof.
  unfold _set_next_action. kbind; [apply keeps_of_outcome|].
  kbind; [apply keeps_of_outcome|]. by kupdate.
Qed.

(** A plan to be started from its first task. *)
Definition restarted (s' : GState) : Prop :=
  ∃ p, gs_plan s' = Some p ∧ ep_valid p = true ∧ gs_task_index s' = 0%nat ∧
  gs_task_results s' = [].

Lemma restarted_progress s s' : same_progress s s' → restarted s → restarted s'.
Proof. intros (H1 & H2 & H3 & _) (p & ? & ? & ? & ?). exists p. by rewrite H1, H2, H3. Qed.

Lemma keeps_make_plan s :
  keeps (X:=X) (make_plan settings s)
  (λ r, match r with inl (p, _) => ep_valid p = true | inr msg => nonempty msg = true end) any.
Proof.
  unfold make_plan. destruct (negb _); [by apply keeps_ret|].
  kbind; [by apply (keeps_select_model _ _ any)|].
  eapply keeps_try.
  - eapply (keeps_bind _ _ (λ p, ep_valid p = true)); [|intros p Hp; by apply keeps_ret].
  apply keeps_invoke. kbind; [apply (keeps_wall any)|].
  intros w o w' Hw. destruct (gl_planner _ _ _ _ _ Hw) as [? Hp]. split; [done|].
  destruct o; [by apply Hp|done].
  - intros e _. destruct e; try done. simpl. by apply keeps_ret.
Qed.

Lemma keeps_plan s :
  keeps (_plan settings s)
  (λ s', gs_run_id s' = gs_run_id s ∧
    (opt_truthy (gs_termination_reason s') = true ∨ restarted s')) any.
Proof.
  unfold _plan. apply keeps_unless_terminated; last first.
  { intros s' Hs. split; [apply (stopped_progress _ _ Hs)|left; by eapply stopped_truthy]. }
  kbind; [apply keeps_make_plan|]. case_match.
  - case_match. subst. kbind; [apply (keeps_wall any)|].
  eapply (keeps_bind _ _ (λ s1, gs_run_id s1 = gs_run_id s ∧ restarted s1)).
  + kupdate. split; [done|]. eexists. by repeat split.
  + intros s1 [Hrun Hs1]. eapply keeps_mono; [apply keeps_set_next_action| |done].
    intros s' [Hp _]. split; [by rewrite (proj2 (proj2 (proj2 Hp)))|right].
    by eapply restarted_progress.
  - kupdate. split; [done|by left].
Qed.

Lemma keeps_do_work s task role :
  keeps (do_work settings s task role) any any.
Proof.
  unfold do_work. destruct (negb _); [by apply keeps_ret|].
  kbind; [by apply (keeps_select_model _ _ any)|]. eapply keeps_try.
  - eapply (keeps_bind _ _ any); [|intros; by apply keeps_ret].
  apply keeps_invoke, keeps_of_rounds, gl_worker_execute.
  - intros e _. destruct e; try done. by apply keeps_ret.
Qed.

Lemma keeps_worker s : keeps (_worker settings s) (same_progress s) any.
Proof.
  unfold _worker. apply keeps_unless_terminated; [|apply stopped_progress].
  kbind; [apply keeps_of_outcome|]. kbind; [apply keeps_of_outcome|].
  kbind; [apply keeps_do_work|]. case_match; [case_match|]; by kupdate.
Qed.

Lemma keeps_revise s : keeps (_revise settings s) (same_progress s) any.
Proof.
  unfold _revise. kbind; [by apply (keeps_upd _ any)|].
  apply keeps_unless_terminated; [|apply stopped_progress].
  kbind; [apply keeps_of_outcome|].
  eapply (keeps_bind _ _ any).
  { destruct (is_ollama settings); [by apply keeps_select_model|by apply keeps_ret]. }
  intros model _. kbind; [apply keeps_of_outcome|].
  eapply (keeps_bind _ _ any); [|intros r _; by kupdate].
  destruct (is_ollama settings).
  - apply keeps_invoke, keeps_of_rounds, gl_worker_revise.
  - eapply keeps_mono; [apply keeps_of_outcome|done|done].
Qed.

(** *** Tool calls and research *)

Lemma keeps_finish_manual success timed_out :
  keeps (X:=X) (finish_manual success timed_out) any any.
Proof.
  unfold finish_manual. destruct th_physical_attempts_metered; [by apply keeps_ret|].
  apply keeps_metered. intros t o t'. by destruct success, timed_out; intros [= <- <-].
Qed.

Lemma keeps_execute name arguments : keeps (execute name arguments) any any.
Proof.
  unfold execute. destruct (confirmation_required _); [by apply keeps_raise|].
  destruct (negb _); [by apply keeps_raise|].
  kbind; [apply (keeps_monotonic any)|]. kbind; [apply (keeps_wall any)|].
  kbind; [apply (keeps_gets _ any)|]. unfold asyncio_timeout. eapply keeps_try; last first.
  { intros e _. destruct (is_cancelled e); [|done].
  eapply (keeps_bind _ _ any); [apply keeps_gets|]. intros [] _; by apply keeps_raise. }
  kbind; [apply keeps_outside|]. kbind; [apply (keeps_monotonic any)|].
  kbind; [by apply (keeps_upd _ any)|].
  eapply (keeps_bind _ _ any).
  { destruct th_physical_attempts_metered; [by apply keeps_ret|].
  kbind; [apply (keeps_wall any)|]. unfold begin_tool_attempt. apply keeps_metered.
  intros t o t'. unfold check, bind, gets, raise, ret, upd_state, modify.
  destruct (check_error _ _); [by intros [= <- <-]|].
  destruct (_ <=? _); by intros [= <- <-]. }
  intros _ _. unfold call_and_meter. eapply (keeps_bind _ _ any).
  - eapply keeps_try; [apply keeps_of_rounds, gl_call_tool|]. intros e _.
  destruct (is_cancelled e); [|destruct (is_timeout e)].
  1: kbind; [by apply (keeps_upd _ any)|].
  all: kbind; [apply keeps_finish_manual|by apply keeps_raise].
  - intros r _. kbind; [apply keeps_finish_manual|by apply keeps_ret].
Qed.

Lemma keeps_call_candidate c : keeps (call_candidate c) any any.
Proof.
  unfold call_candidate. eapply keeps_try.
  - kbind; [apply keeps_execute|by apply keeps_ret].
  - intros e _. destruct e; try done; by apply keeps_ret.
Qed.

Lemma keeps_try_candidates s task_id query rounds k cs f :
  keeps (try_candidates s task_id query rounds k cs f) any any.
Proof.
  revert f. induction cs as [|c cs IH]; intros f; simpl; [by apply keeps_ret|].
  kbind; [apply keeps_call_candidate|]. case_match; [|apply IH|by apply keeps_ret].
  kbind; [apply (keeps_wall any)|]. kbind; [apply keeps_of_outcome|].
  case_match; [by apply keeps_ret|apply IH].
Qed.

Lemma keeps_run_queries s task task_id actions metadata rounds k queries f :
  keeps (run_queries s task task_id actions metadata rounds k queries f) any any.
Proof.
  revert k f. induction queries as [|q qs IH]; intros k f; simpl; [by apply keeps_ret|].
  kbind; [apply keeps_of_outcome|]. kbind; [apply keeps_try_candidates|].
  case_match; [apply IH|by apply keeps_ret].
Qed.

Lemma research_update_progress s task_id metadata rounds queries f m :
  same_progress s ((research_update s task_id metadata rounds queries f s)
                   <| gs_execution_meter_state := m |>).
Proof. unfold research_update. by destruct (unique _) as [|? []]. Qed.

(** [_budget_termination] keeps the progress whatever the message. *)
Lemma keeps_budget_termination_progress s msg v :
  keeps (X:=X) (_budget_termination s msg v) (same_progress s) any.
Proof. unfold _budget_termination. kupdate. by destruct v. Qed.

Lemma keeps_budget_termination_report s msg r :
  keeps (X:=X) (_budget_termination s msg (Some r)) (λ s', gs_verification s' = Some r) any.
Proof. unfold _budget_termination. by kupdate. Qed.

Lemma keeps_research s : keeps (_research settings s) (same_progress s) any.
Proof.
  unfold _research. kbind; [by apply (keeps_upd _ any)|].
  destruct (negb _); [by kupdate|].
  destruct (_ <? _); [apply keeps_budget_termination_progress|].
  unfold research_body. kbind; [apply keeps_of_outcome|]. kbind; [apply (keeps_wall any)|].
  kbind; [apply keeps_run_queries|]. case_match; [|apply keeps_budget_termination_progress].
  kbind; [apply keeps_of_outcome|]. kupdate. apply research_update_progress.
Qed.

(** *** Replanning and advancing *)

Lemma keeps_replan s :
  (∀ p, gs_plan s = Some p → ep_valid p = true) →
  keeps (_replan settings s)
  (λ s', gs_run_id s' = gs_run_id s ∧
    (opt_truthy (gs_termination_reason s') = true ∨ restarted s')) any.
Proof.
  intros Hvalid. unfold _replan. kbind; [by apply (keeps_upd _ any)|].
  destruct (_ <? _); [kupdate; split; [done|by left]|].
  eapply (keeps_bind _ _ any).
  { destruct (is_ollama settings); [by apply keeps_select_model|by apply keeps_ret]. }
  intros model _. eapply (keeps_bind _ _ (λ p, ep_valid p = true)).
  { destruct (is_ollama settings).
  - apply keeps_invoke. intros w o w' Hw. destruct (gl_planner _ _ _ _ _ Hw) as [? Hp].
    split; [done|]. destruct o; [by apply Hp|done].
  - eapply keeps_mono; [apply keeps_of_outcome| |done]. intros p.
    unfold stored_plan. destruct (gs_plan s) as [q|]; [intros [= <-]; by apply Hvalid|done]. }
  intros p Hp. eapply (keeps_bind _ _ (λ s1, gs_run_id s1 = gs_run_id s ∧ restarted s1)).
  - kupdate. split; [done|]. exists p. by repeat split.
  - intros s1 [Hrun Hs1]. eapply keeps_mono; [apply keeps_set_next_action| |done].
  intros s' [Hpr _]. split; [by rewrite (proj2 (proj2 (proj2 Hpr)))|right].
  by eapply restarted_progress.
Qed.

Lemma keeps_advance s :
  keeps (X:=X) (_advance s)
  (λ s', ∃ task, _current_task s = Ret task ∧ gs_plan s' = gs_plan s ∧
    gs_run_id s' = gs_run_id s ∧ gs_task_index s' = S (gs_task_index s) ∧
    gs_task_results s' = gs_task_results s ++ [task_result s task] ∧
    gs_termination_reason s' = gs_termination_reason s) any.
Proof.
  unfold _advance. kbind; [apply keeps_of_outcome|]. rename a into task.
  eapply keeps_bind; [apply (keeps_state_update _ _ any)|]. intros s1 [m ->].
  destruct (_ <? _)%nat; [|apply keeps_ret; by exists task].
  eapply keeps_mono; [apply keeps_set_next_action| |done].
  intros s' [(H1 & H2 & H3 & H4) H5]. exists task. by rewrite H1, H2, H3, H4, H5.
Qed.

(** *** Verification *)

(** The claims of the worker's result grounded in the evidence of the state. *)
Definition grounded (s : GState) (task : PlanTask) (result : WorkerResult) : Prop :=
  gs_grounding s = ground_claims (wr_claims result) (gs_evidence s) (run_id_of s)
  (str_or (pt_id task) "task").

(** The report of a verification that was carried out, or a termination. *)
Definition verified_as (s s' : GState) : Prop :=
  (∃ msg, gs_verification s' = Some (_termination_report msg)) ∨
  (∃ task result report, _current_task s = Ret task ∧ gs_worker_result s' = Some result ∧
  grounded s' task result ∧
  gs_verification s' = Some (fail_ungrounded (grounding_issues (gs_grounding s')) report)).

Lemma keeps_make_report s r g issues role :
  keeps (make_report settings s r g issues role) any any.
Proof.
  unfold make_report. destruct (negb _); [by apply keeps_ret|].
  kbind; [by apply (keeps_select_model _ _ any)|]. eapply keeps_try.
  - eapply (keeps_bind _ _ any); [|intros; by apply keeps_ret].
  apply keeps_invoke. kbind; [apply keeps_of_outcome|].
  apply keeps_of_rounds, gl_verify.
  - intros e _. destruct e; try done. by apply keeps_ret.
Qed.

Lemma keeps_verify_body s :
  keeps (verify_body settings s) (λ s', same_progress s s' ∧ verified_as s s') any.
Proof.
  unfold verify_body. eapply keeps_bind; [apply keeps_of_outcome|intros result Hresult].
  eapply keeps_bind; [apply keeps_of_outcome|intros task Htask].
  kbind; [apply keeps_of_outcome|].
  eapply keeps_bind; [apply keeps_make_report|intros [[report model]|msg] _].
  - kupdate. split; [done|right]. exists task, result, report. split; [done|]. split; [|done].
  unfold stored_worker_result in Hresult. cbn.
  destruct (gs_worker_result s); [congruence|done].
  - unfold _budget_termination. kupdate. split; [done|left; by eexists].
Qed.

(** [_verify] counts the round first; past the limit it stops. *)
Lemma verify_spec s w o w' :
  _verify settings s w = (o, w') →
  ms_verifier_rounds (eb_state (mt_meter (w_task w'))) =
  ms_verifier_rounds (eb_state (mt_meter (w_task w))) + 1 ∧
  eb_max_verifier_rounds (mt_meter (w_task w')) = eb_max_verifier_rounds (mt_meter (w_task w)) ∧
  ∀ s', o = Ret s' →
  same_progress s s' ∧ verified_as s s' ∧
  (opt_truthy (gs_termination_reason s') = true ∨
   ms_verifier_rounds (eb_state (mt_meter (w_task w'))) ≤
     eb_max_verifier_rounds (mt_meter (w_task w'))).
Proof.
  unfold _verify. unfold bind at 1. unfold metered at 1, zoom, upd_state, modify. cbn [fst snd].
  set (w1 := w <| w_task := _ |>). intros Hw.
  assert (Hr1 : ms_verifier_rounds (eb_state (mt_meter (w_task w1))) =
  ms_verifier_rounds (eb_state (mt_meter (w_task w))) + 1) by done.
  assert (Hm1 : eb_max_verifier_rounds (mt_meter (w_task w1)) =
  eb_max_verifier_rounds (mt_meter (w_task w))) by done.
  clearbody w1. unfold bind in Hw at 1.
  unfold try_except, budget_check, metered, zoom, bind, check, gets, wall, outside, zoom in Hw.
  destruct (th_wall (w_ext w1)) as [now x1]. cbn in Hw.
  destruct (check_error (mt_meter (w_task w1)) now) as [e|] eqn:Ec.
  - destruct (check_error_budget _ _ _ Ec) as (msg & -> & Hmsg). cbn in Hw.
  pose proof (keeps_budget_termination s msg (Some (_termination_report msg)) any Hmsg _ _ _ Hw)
    as [[Hr2 Hm2] Ho]. rewrite Hr2, Hm2. cbn. rewrite Hr1, Hm1. split; [done|]. split; [done|].
  intros s' ->. split; [by apply stopped_progress|]. split; [|left; by eapply stopped_truthy].
  left. exists msg.
  exact (proj2 (keeps_budget_termination_report s msg (_termination_report msg) _ _ _ Hw)).
  - cbn in Hw. pose proof (keeps_verify_body s _ _ _ Hw) as [[Hr2 Hm2] Ho].
  rewrite Hr2, Hm2. cbn. rewrite Hr1, Hm1. split; [done|]. split; [done|].
  intros s' ->. destruct Ho as [Hp Hv]. split; [done|]. split; [done|right].
  unfold check_error in Ec. repeat case_match; try done. cbn in *. lia.
Qed.

(** *** Finalization *)

Lemma keeps_terminate s :
  keeps (X:=X) (_terminate settings s)
  (λ s', same_progress s s' ∧ gs_termination_reason s' = gs_termination_reason s ∧
    gs_response s' = _partial_response s) any.
Proof. unfold _terminate. by kupdate. Qed.

(** The finalized answer: the last task's own answer, or a synthesis that is
to be verified when final verification is enabled. *)
Definition finalized (s' : GState) : Prop :=
  gs_final_revision_rounds s' = 0 ∧
  if is_ollama settings && (1 <? length (gs_task_results s'))%nat
  then gs_final_verification_required s' = final_verification_enabled settings
  else gs_final_verification_required s' = false ∧ direct_answer s' = Ret (gs_response s').

Lemma keeps_make_response s :
  keeps (make_response settings s)
  (λ r, match r with
        | inr reason => nonempty reason = true
        | inl (response, _, required) =>
            if is_ollama settings && (1 <? length (gs_task_results s))%nat
            then required = final_verification_enabled settings
            else required = false ∧ direct_answer s = Ret response
        end) any.
Proof.
  unfold make_response. destruct (is_ollama settings && _).
  - kbind; [by apply (keeps_select_model _ _ any)|]. eapply keeps_try.
  + eapply (keeps_bind _ _ any); [|intros; by apply keeps_ret].
    apply keeps_invoke, keeps_of_rounds, gl_synthesize.
  + intros e _. unfold on_exception. destruct (is_cancelled e); [done|]. by apply keeps_ret.
  - eapply keeps_bind; [apply keeps_of_outcome|]. intros r Hr. by apply keeps_ret.
Qed.

Lemma keeps_finalize s :
  keeps (_finalize settings s)
  (λ s', same_progress s s' ∧
    (opt_truthy (gs_termination_reason s') = true ∨ finalized s')) any.
Proof.
  unfold _finalize. destruct (opt_truthy _) eqn:Et.
  { eapply keeps_mono; [apply keeps_terminate| |done]. intros s' (Hp & -> & _). by split; [|left]. }
  eapply keeps_bind; [apply keeps_make_response|]. intros [[[response model] required]|reason] Hr.
  - kupdate. split; [done|right]. split; [done|]. cbn.
  by destruct (is_ollama settings && _).
  - eapply keeps_bind; [apply (keeps_state_update _ _ any)|]. intros s1 [m ->].
  eapply keeps_mono; [apply keeps_terminate| |done].
  intros s' (Hp & -> & _). split; [done|left; exact Hr].
Qed.

Lemma keeps_verify_final s :
  keeps (_verify_final settings s)
  (λ s', same_progress s s' ∧ gs_final_revision_rounds s' = gs_final_revision_rounds s ∧
    (opt_truthy (gs_termination_reason s) = true →
     opt_truthy (gs_termination_reason s') = true)) any.
Proof.
  unfold _verify_final. apply keeps_unless_terminated; last first.
  { intros s' Hs. split; [by apply stopped_progress|]. split; [|by intros _; eapply stopped_truthy].
  by destruct Hs as (? & ? & ? & _ & ->). }
  kbind; [by apply (keeps_select_model _ _ any)|].
  eapply (keeps_bind _ _ (λ r, match r with inr reason => nonempty reason = true | _ => True end)).
  - eapply keeps_try.
  + eapply (keeps_bind _ _ any); [|intros; by apply keeps_ret].
    apply keeps_invoke. intros w o w' Hw. destruct (gl_verify_final _ _ _ _ _ Hw) as [? _].
    split; [done|by destruct o].
  + intros e _. destruct e; try done. by apply keeps_ret.
  - intros [report|reason] Hreason.
  + eapply keeps_bind; [apply (keeps_state_update _ _ any)|]. intros s1 [m ->].
    apply keeps_ret. by destruct (negb _ && _).
  + kupdate. split; [done|]. split; [done|]. intros _. exact Hreason.
Qed.

Lemma keeps_revise_final s :
  keeps (_revise_final settings s)
  (λ s', same_progress s s' ∧
    (opt_truthy (gs_termination_reason s') = true ∨
     gs_final_revision_rounds s' = gs_final_revision_rounds s + 1)) any.
Proof.
  unfold _revise_final. kbind; [by apply (keeps_upd _ any)|].
  apply keeps_unless_terminated; last first.
  { intros s' Hs. split; [by apply stopped_progress|left; by eapply stopped_truthy]. }
  kbind; [by apply (keeps_select_model _ _ any)|].
  eapply (keeps_bind _ _ any).
  - eapply keeps_try.
  + eapply (keeps_bind _ _ any); [|intros; by apply keeps_ret].
    apply keeps_invoke, keeps_of_rounds, gl_synthesize.
  + intros e _. unfold on_exception. destruct (is_cancelled e); [done|]. by apply keeps_ret.
  - intros [response|reason] _; kupdate; (split; [done|right; done]).
Qed.
End nodes.
