(* ===== verification/GraphCorrect.v ===== *)
(** * Correctness of the agent graph

    Over any agents and tool host that satisfy [GraphLaws]: every run ends
    within a bound computed from the settings, never leaves its plan, and
    reaches [END] without terminating only with every task verified. *)

From stdpp Require Import relations.
From S2P Require Import Prelude PyData RunTypes Dates Settings Schemas Grounding Context.
From S2P Require Import Evidence Inventory Routing Meter ToolPolicy GraphState GraphNodes.
From S2P Require Import GraphRun GraphLogic.

(** ** The invariant *)

(** A recorded result that passed: complete, grounded in the evidence recorded
    with it, and without an unsupported claim. *)
Definition verified_result (run_id : string) (r : TaskResult) : Prop :=
  ∃ result report,
    tk_worker_result r = Some result ∧ tk_verification r = Some report ∧
    vr_verdict report = VPass ∧ vr_task_complete report = true ∧
    tk_grounding r = ground_claims (wr_claims result) (tk_evidence r) run_id
      (str_or (pt_id (tk_task r)) "task") ∧
    Forall (λ g, gr_status g = Supported) (tk_grounding r).

(** The tasks before the current one have been verified, in the plan's order. *)
Definition progressed (s : GState) : Prop :=
  ∃ p, gs_plan s = Some p ∧ ep_valid p = true ∧
    (gs_task_index s ≤ length (ep_tasks p))%nat ∧
    tk_task <$> gs_task_results s = take (gs_task_index s) (ep_tasks p) ∧
    Forall (verified_result (run_id_of s)) (gs_task_results s).

Definition working (s : GState) : Prop :=
  progressed s ∧ (gs_task_index s < length (plan_tasks s))%nat.

Definition all_done (s : GState) : Prop :=
  progressed s ∧ gs_task_index s = length (plan_tasks s).

(** What [verify] leaves for [advance]. *)
Definition current_verified (s : GState) : Prop :=
  ∃ task, _current_task s = Ret task ∧ verified_result (run_id_of s) (task_result s task).

Definition Inv (settings : Settings) (n : node) (s : GState) : Prop :=
  match n with
  | NPlan | NTerminate | NEnd => True
  | NResearch | NWorker | NVerify | NRevise | NReplan => working s
  | NAdvance => working s ∧ current_verified s ∧ opt_truthy (gs_termination_reason s) = false
  | NFinalize | NVerifyFinal => all_done s
  | NReviseFinal => all_done s ∧ gs_final_revision_rounds s < final_max_revision_rounds settings
  end.

(** The state a run ends in when its last node is [n], unless it terminated. *)
Definition Completed (settings : Settings) (n : node) (s : GState) : Prop :=
  all_done s ∧ opt_truthy (gs_termination_reason s) = false ∧
  match n with
  | NFinalize => finalized settings s ∧ gs_final_verification_required s = false
  | NVerifyFinal => ∃ r, gs_final_verification s = Some r ∧ fr_verdict r = FPass ∧
      fr_answer_complete r = true
  | _ => False
  end.

Lemma run_id_of_progress s s' : same_progress s s' → run_id_of s' = run_id_of s.
Proof. intros (_ & _ & _ & Hr). unfold run_id_of. by rewrite Hr. Qed.

Lemma plan_tasks_progress s s' : same_progress s s' → plan_tasks s' = plan_tasks s.
Proof. intros (Hp & _). unfold plan_tasks. by rewrite Hp. Qed.

Lemma progressed_progress s s' : same_progress s s' → progressed s → progressed s'.
Proof.
  intros Hs (p & H1 & H2 & H3 & H4 & H5). pose proof (run_id_of_progress _ _ Hs) as Hr.
  destruct Hs as (E1 & E2 & E3 & E4). exists p. by rewrite E1, E2, E3, Hr.
Qed.

Lemma working_progress s s' : same_progress s s' → working s → working s'.
Proof.
  intros Hs [Hp Hlt]. split; [by eapply progressed_progress|].
  rewrite (plan_tasks_progress _ _ Hs). destruct Hs as (_ & -> & _). done.
Qed.

Lemma all_done_progress s s' : same_progress s s' → all_done s → all_done s'.
Proof.
  intros Hs [Hp Heq]. split; [by eapply progressed_progress|].
  rewrite (plan_tasks_progress _ _ Hs). destruct Hs as (_ & -> & _). done.
Qed.

Lemma restarted_working s : restarted s → working s.
Proof.
  intros (p & H1 & H2 & H3 & H4). split.
  - exists p. rewrite H3, H4. repeat split; [done|done|lia|constructor].
  - unfold plan_tasks. rewrite H1, H3. unfold ep_valid in H2. destruct (ep_tasks p); [done|simpl; lia].
Qed.

(** The current task exists while the graph works on its plan. *)
Lemma working_current_task s : working s → ∃ t, _current_task s = Ret t ∧
  plan_tasks s !! gs_task_index s = Some t.
Proof.
  intros [(p & H1 & _) Hlt]. unfold _current_task, plan_tasks in *. rewrite H1 in *.
  destruct (lookup_lt_is_Some_2 _ _ Hlt) as [t Ht]. exists t. by rewrite Ht.
Qed.

Lemma current_task_progress s s' : same_progress s s' → _current_task s' = _current_task s.
Proof. intros (H1 & H2 & _). unfold _current_task. by rewrite H1, H2. Qed.

(** A pass that survived [fail_ungrounded] leaves no claim unsupported. *)
Lemma grounding_issues_nil g : grounding_issues g = [] → Forall (λ x, gr_status x = Supported) g.
Proof.
  unfold grounding_issues. intros Hm%map_eq_nil. induction g as [|x g IH]; [done|].
  simpl in Hm. case_bool_decide as Hx; [|done]. constructor; [done|by apply IH].
Qed.

Lemma fail_ungrounded_pass issues r :
  vr_verdict (fail_ungrounded issues r) = VPass → issues = [].
Proof.
  unfold fail_ungrounded. destruct issues; [done|]. by case_bool_decide.
Qed.

(** Routing to [advance] means that the current task is verified. *)
Lemma verified_as_advance s s' :
  same_progress s s' → verified_as s s' → after_verification s' = "advance" →
  current_verified s' ∧ opt_truthy (gs_termination_reason s') = false.
Proof.
  intros Hs Hv. unfold after_verification. destruct (opt_truthy _); [done|].
  destruct Hv as [[msg ->]|(task & result & report & H1 & H2 & H3 & H4)]; [done|].
  rewrite H4. destruct (vr_verdict _) eqn:Ev; try done.
  destruct (vr_task_complete _) eqn:Ec; [|done]. intros _. split; [|done].
  exists task. split; [by rewrite (current_task_progress _ _ Hs)|].
  exists result, (fail_ungrounded (grounding_issues (gs_grounding s')) report).
  repeat (split; [done|]). by apply grounding_issues_nil, (fail_ungrounded_pass _ report).
Qed.

Lemma advance_progressed s s' task :
  working s → current_verified s → _current_task s = Ret task →
  gs_plan s' = gs_plan s → gs_run_id s' = gs_run_id s →
  gs_task_index s' = S (gs_task_index s) →
  gs_task_results s' = gs_task_results s ++ [task_result s task] →
  progressed s'.
Proof.
  intros Hw (task' & Ht' & Hv) Ht E1 E2 E3 E4. assert (task' = task) as -> by congruence.
  destruct (working_current_task s Hw) as (t & Ht2 & Hlook). assert (t = task) as -> by congruence.
  destruct Hw as [(p & H1 & H2 & H3 & H4 & H5) Hlt].
  unfold plan_tasks in Hlook, Hlt. rewrite H1 in Hlook, Hlt.
  exists p. rewrite E1, E3, E4. split; [done|]. split; [done|]. split; [lia|]. split.
  - rewrite fmap_app, H4. simpl. by rewrite <-(take_S_r _ _ _ Hlook).
  - unfold run_id_of in *. rewrite E2. apply Forall_app. split; [done|by constructor].
Qed.

(** ** Steps preserve the invariant *)

Section steps.
Context {X : Type} `{GraphHost X} `{!GraphLaws X} (settings : Settings).

Lemma keeps_value {A} (m : M (World X) A) Q E w a w' :
  keeps m Q E → m w = (Ret a, w') → Q a.
Proof. intros Hm Hw. by destruct (Hm _ _ _ Hw). Qed.

(** What follows node [n] when it leaves the state [s']. *)
Definition good_edge (n : node) (s' : GState) : Prop :=
  ∃ n', edge settings n s' = Some n' ∧
  (n' = NEnd → n = NTerminate ∨ Completed settings n s') ∧
  (n' ≠ NEnd → Inv settings n' s').

Lemma good_target n s' n' :
  edge settings n s' = Some n' → n' ≠ NEnd → Inv settings n' s' → good_edge n s'.
Proof. intros He Hn Hi. exists n'. done. Qed.

Lemma good_budgeted n next s' :
  edge settings n s' = budgeted next s' → next ≠ NEnd → working s' →
  (working s' → Inv settings next s') → good_edge n s'.
Proof.
  intros He Hn Hw Hi. unfold budgeted, after_budgeted_step in He.
  destruct (opt_truthy _); cbn in He; [by apply (good_target _ _ NTerminate)|].
  apply (good_target _ _ next); auto.
Qed.

Lemma good_research s w s' w' :
  working s → _research settings s w = (Ret s', w') → good_edge NResearch s'.
Proof.
  intros Hw Hr. apply (keeps_value _ _ _ _ _ _ (keeps_research settings s)) in Hr.
  apply (good_budgeted _ NWorker); [done..|by eapply working_progress|done].
Qed.
Lemma good_worker s w s' w' :
  working s → _worker settings s w = (Ret s', w') → good_edge NWorker s'.
Proof.
  intros Hw Hr. apply (keeps_value _ _ _ _ _ _ (keeps_worker settings s)) in Hr.
  apply (good_budgeted _ NVerify); [done..|by eapply working_progress|done].
Qed.
Lemma good_revise s w s' w' :
  working s → _revise settings s w = (Ret s', w') → good_edge NRevise s'.
Proof.
  intros Hw Hr. apply (keeps_value _ _ _ _ _ _ (keeps_revise settings s)) in Hr.
  apply (good_budgeted _ NVerify); [done..|by eapply working_progress|done].
Qed.

Lemma good_plan s w s' w' : _plan settings s w = (Ret s', w') → good_edge NPlan s'.
Proof.
  intros Hr. apply (keeps_value _ _ _ _ _ _ (keeps_plan settings s)) in Hr as [_ Hr].
  assert (He : edge settings NPlan s' = dict_get (after_plan s')
  [("research", NResearch); ("worker", NWorker); ("terminate", NTerminate)]) by done.
  unfold after_plan in He. destruct (opt_truthy _); [by apply (good_target _ _ NTerminate)|].
  destruct Hr as [Hr|Hr%restarted_working]; [done|].
  destruct (String.eqb _ _);
  [by apply (good_target _ _ NResearch)|by apply (good_target _ _ NWorker)].
Qed.

Lemma good_replan s w s' w' :
  working s → _replan settings s w = (Ret s', w') → good_edge NReplan s'.
Proof.
  intros [(p & Hp & Hv & _) _] Hr.
  apply (keeps_value _ _ _ _ _ _ (keeps_replan settings s ltac:(by intros ? [= <-]%(eq_trans (eq_sym Hp))))) in Hr as [_ Hr].
  assert (He : edge settings NReplan s' = budgeted NWorker s') by done.
  unfold budgeted, after_budgeted_step in He.
  destruct (opt_truthy _); cbn in He; [by apply (good_target _ _ NTerminate)|].
  destruct Hr as [Hr|Hr%restarted_working]; [done|]. by apply (good_target _ _ NWorker).
Qed.

Lemma good_verify s w s' w' :
  working s → _verify settings s w = (Ret s', w') → good_edge NVerify s'.
Proof.
  intros Hw Hr. destruct (verify_spec _ _ _ _ _ Hr) as (_ & _ & Hs).
  destruct (Hs s' eq_refl) as (Hp & Hv & _). pose proof (working_progress _ _ Hp Hw) as Hw'.
  pose proof (verified_as_advance _ _ Hp Hv) as Hadv.
  assert (He : edge settings NVerify s' = dict_get (after_verification s')
    [("advance", NAdvance); ("revise", NRevise); ("research", NResearch);
     ("replan", NReplan); ("terminate", NTerminate)]) by done.
  revert Hadv He. unfold after_verification. destruct (opt_truthy _) eqn:Et.
  { intros _ He. by apply (good_target _ _ NTerminate). }
  destruct (gs_verification s') as [r|]; [|by intros _ He; apply (good_target _ _ NTerminate)].
  destruct (vr_verdict r); [destruct (vr_task_complete r)|..]; intros Hadv He.
  - apply (good_target _ _ NAdvance); [done..|]. by destruct (Hadv eq_refl).
  - by apply (good_target _ _ NRevise).
  - by apply (good_target _ _ NRevise).
  - by apply (good_target _ _ NResearch).
  - by apply (good_target _ _ NReplan).
  - by apply (good_target _ _ NTerminate).
Qed.

Lemma good_advance s w s' w' :
  Inv settings NAdvance s → _advance s w = (Ret s', w') → good_edge NAdvance s'.
Proof.
  intros (Hw & Hv & Ht) Hr.
  apply (keeps_value _ _ _ _ _ _ (keeps_advance s)) in Hr as (task & H1 & H2 & H3 & H4 & H5 & H6).
  assert (Hp : progressed s') by (by eapply advance_progressed).
  assert (He : edge settings NAdvance s' = dict_get (after_advance s')
    [("research", NResearch); ("worker", NWorker); ("finalize", NFinalize)]) by done.
  revert He. unfold after_advance. rewrite H6, Ht.
  destruct (Nat.leb_spec (length (plan_tasks s')) (gs_task_index s')); intros He.
  - apply (good_target _ _ NFinalize); [done..|]. split; [done|].
  destruct Hw as [_ Hlt]. assert (plan_tasks s' = plan_tasks s) as E by (unfold plan_tasks; by rewrite H2).
  rewrite E in *. lia.
  - destruct (String.eqb _ _);
    [apply (good_target _ _ NResearch)|apply (good_target _ _ NWorker)]; by try split.
Qed.

Lemma good_finalize s w s' w' :
  all_done s → _finalize settings s w = (Ret s', w') → good_edge NFinalize s'.
Proof.
  intros Hd Hr. apply (keeps_value _ _ _ _ _ _ (keeps_finalize settings s)) in Hr as [Hp Hf].
  pose proof (all_done_progress _ _ Hp Hd) as Hd'.
  assert (He : edge settings NFinalize s' = dict_get (_after_finalize s')
    [("complete", NEnd); ("verify_final", NVerifyFinal); ("terminate", NTerminate)]) by done.
  revert He. unfold _after_finalize. destruct (opt_truthy _) eqn:Et; intros He.
  { by apply (good_target _ _ NTerminate). }
  destruct Hf as [Hf|Hf]; [done|].
  destruct (gs_final_verification_required s') eqn:Eq;
  [by apply (good_target _ _ NVerifyFinal)|].
  exists NEnd. split; [done|]. split; [|done]. intros _. right. by repeat (split; [done|]).
Qed.

Lemma good_verify_final s w s' w' :
  all_done s → _verify_final settings s w = (Ret s', w') → good_edge NVerifyFinal s'.
Proof.
  intros Hd Hr. apply (keeps_value _ _ _ _ _ _ (keeps_verify_final settings s)) in Hr as (Hp & _).
  pose proof (all_done_progress _ _ Hp Hd) as Hd'.
  assert (He : edge settings NVerifyFinal s' = dict_get (_after_final_verification settings s')
    [("complete", NEnd); ("revise_final", NReviseFinal); ("terminate", NTerminate)]) by done.
  revert He. unfold _after_final_verification. destruct (opt_truthy _) eqn:Et; intros He.
  { by apply (good_target _ _ NTerminate). }
  destruct (match gs_final_verification s' with Some r => _ | None => false end) eqn:Ef.
  - exists NEnd. split; [done|]. split; [|done]. intros _. right. split; [done|]. split; [done|].
  destruct (gs_final_verification s') as [r|]; [|done].
  apply andb_true_iff in Ef as [E1 E2]. apply bool_decide_eq_true in E1. by exists r.
  - destruct (Z.ltb_spec (gs_final_revision_rounds s') (final_max_revision_rounds settings)).
  + by apply (good_target _ _ NReviseFinal).
  + by apply (good_target _ _ NTerminate).
Qed.

Lemma good_revise_final s w s' w' :
  all_done s → _revise_final settings s w = (Ret s', w') → good_edge NReviseFinal s'.
Proof.
  intros Hd Hr. apply (keeps_value _ _ _ _ _ _ (keeps_revise_final settings s)) in Hr as (Hp & _).
  apply (good_target _ _ NVerifyFinal); [done..|]. by eapply all_done_progress.
Qed.

Lemma inv_step n s w s' w' :
  n ≠ NEnd → Inv settings n s → run_node settings n s w = (Ret s', w') → good_edge n s'.
Proof.
  destruct n; intros Hn Hi Hr; cbn [run_node Inv] in *.
  - by eapply good_plan.
  - by eapply good_research.
  - by eapply good_worker.
  - by eapply good_verify.
  - by eapply good_revise.
  - by eapply good_replan.
  - by eapply good_advance.
  - by eapply good_finalize.
  - by eapply good_verify_final.
  - destruct Hi. by eapply good_revise_final.
  - exists NEnd. split; [done|]. split; [by left|done].
  - done.
Qed.
End steps.

(** ** Termination *)

Section termination.
Context {X : Type} `{GraphHost X} `{!GraphLaws X} (settings : Settings).

(** Verifier rounds left, and final revisions left. *)
Definition rounds_left (w : World X) : nat :=
  Z.to_nat (eb_max_verifier_rounds (mt_meter (w_task w))
          - ms_verifier_rounds (eb_state (mt_meter (w_task w)))).
Definition revisions_left (s : GState) : nat :=
  Z.to_nat (final_max_revision_rounds settings - gs_final_revision_rounds s).
Definition final_steps : nat := 2 * Z.to_nat (final_max_revision_rounds settings) + 3.

(** A bound on the super-steps from a node, without its own state. *)
Definition measure (n : node) (s : GState) (w : World X) : nat :=
  match n with
  | NEnd => 0
  | NTerminate => 1
  | NVerifyFinal => if opt_truthy (gs_termination_reason s) then 2 else 2 * revisions_left s + 2
  | NReviseFinal => 2 * revisions_left s + 1
  | NFinalize => final_steps
  | NVerify => 4 * rounds_left w + final_steps + 1
  | NWorker | NRevise => 4 * rounds_left w + final_steps + 2
  | NResearch | NReplan => 4 * rounds_left w + final_steps + 3
  | NPlan | NAdvance => 4 * rounds_left w + final_steps + 4
  end.

Definition graph_fuel (w : World X) : nat := 4 * rounds_left w + final_steps + 4.

Lemma rounds_left_same w w' : same_rounds w w' → rounds_left w' = rounds_left w.
Proof. unfold rounds_left. by intros [-> ->]. Qed.

(** A node other than [verify] keeps the rounds. *)
Lemma run_node_rounds n s w o w' :
  n ≠ NVerify → (n = NReplan → working s) →
  run_node settings n s w = (o, w') → same_rounds w w'.
Proof.
  intros Hn Hw. destruct n; cbn [run_node]; intros Hr; try done.
  - by destruct (keeps_plan settings s _ _ _ Hr).
  - by destruct (keeps_research settings s _ _ _ Hr).
  - by destruct (keeps_worker settings s _ _ _ Hr).
  - by destruct (keeps_revise settings s _ _ _ Hr).
  - destruct (Hw eq_refl) as [(p & Hp & Hv & _) _].
  by destruct (keeps_replan settings s ltac:(by intros ? [= <-]%(eq_trans (eq_sym Hp))) _ _ _ Hr).
  - by destruct (keeps_advance s _ _ _ Hr).
  - by destruct (keeps_finalize settings s _ _ _ Hr).
  - by destruct (keeps_verify_final settings s _ _ _ Hr).
  - by destruct (keeps_revise_final settings s _ _ _ Hr).
  - by destruct (keeps_terminate settings s _ _ _ Hr).
  - by injection Hr as _ <-.
Qed.

(** Following an edge of [n] other than [verify] costs less than [measure n]
when the target is one of the task nodes below it. *)
Lemma edge_targets n s' n' :
  edge settings n s' = Some n' →
  match n with
  | NPlan => n' ∈ [NResearch; NWorker; NTerminate]
  | NResearch | NReplan => n' ∈ [NWorker; NTerminate]
  | NWorker | NRevise => n' ∈ [NVerify; NTerminate]
  | NAdvance => n' ∈ [NResearch; NWorker; NFinalize]
  | NVerify => n' = NTerminate ∨
    (opt_truthy (gs_termination_reason s') = false ∧
     n' ∈ [NAdvance; NRevise; NResearch; NReplan])
  | NFinalize => n' ∈ [NEnd; NTerminate; NVerifyFinal]
  | NVerifyFinal => n' ∈ [NEnd; NTerminate] ∨
    (n' = NReviseFinal ∧ opt_truthy (gs_termination_reason s') = false)
  | NReviseFinal => n' = NVerifyFinal
  | NTerminate => n' = NEnd
  | NEnd => False
  end.
Proof.
  destruct n; simpl; unfold budgeted, after_budgeted_step, after_plan, after_verification,
  after_advance, _after_finalize, _after_final_verification;
  repeat case_match; intros He; simplify_eq/=; auto; set_solver.
Qed.

Ltac msolve := cbn [measure]; unfold final_steps; lia.

Lemma measure_verify s w s' w' n' :
  _verify settings s w = (Ret s', w') → edge settings NVerify s' = Some n' →
  (measure n' s' w' < measure NVerify s w)%nat.
Proof.
  intros Hr He. destruct (verify_spec _ _ _ _ _ Hr) as (H1 & H2 & Hs).
  destruct (Hs s' eq_refl) as (_ & _ & Ht).
  apply edge_targets in He as [->|[Hf He]]; [msolve|].
  destruct Ht as [Ht|Ht]; [congruence|].
  assert (rounds_left w = S (rounds_left w')) as E by (unfold rounds_left; lia).
  assert (measure n' s' w' ≤ 4 * rounds_left w' + final_steps + 4)%nat; [|simpl; lia].
  repeat (apply elem_of_cons in He as [->|He]; [msolve|]). by apply not_elem_of_nil in He.
Qed.

Lemma measure_final s w s' w' n' :
  _verify_final settings s w = (Ret s', w') → edge settings NVerifyFinal s' = Some n' →
  (measure n' s' w' < measure NVerifyFinal s w)%nat.
Proof.
  intros Hr He. apply (keeps_value _ _ _ _ _ _ (keeps_verify_final settings s)) in Hr as (_ & Hf & Ht).
  apply edge_targets in He as [He|[-> He]].
  - assert (measure n' s' w' ≤ 1)%nat.
  { repeat (apply elem_of_cons in He as [->|He]; [msolve|]). by apply not_elem_of_nil in He. }
  simpl. destruct (opt_truthy _); lia.
  - simpl. unfold revisions_left. rewrite Hf.
  destruct (opt_truthy (gs_termination_reason s)); [by rewrite Ht in He|lia].
Qed.

Lemma measure_revise_final s w s' w' n' :
  gs_final_revision_rounds s < final_max_revision_rounds settings →
  _revise_final settings s w = (Ret s', w') → edge settings NReviseFinal s' = Some n' →
  (measure n' s' w' < measure NReviseFinal s w)%nat.
Proof.
  intros Hlt Hr He.
  apply (keeps_value _ _ _ _ _ _ (keeps_revise_final settings s)) in Hr as (_ & Hf).
  apply edge_targets in He as ->. cbn [measure]. unfold revisions_left in *.
  destruct Hf as [->|Hf]; [lia|]. rewrite Hf. destruct (opt_truthy _); lia.
Qed.

Lemma measure_finalize s w s' w' n' :
  all_done s → _finalize settings s w = (Ret s', w') → edge settings NFinalize s' = Some n' →
  (measure n' s' w' < measure NFinalize s w)%nat.
Proof.
  intros Hd Hr He. apply (keeps_value _ _ _ _ _ _ (keeps_finalize settings s)) in Hr as [_ Hf].
  apply edge_targets in He. cbn [measure]. unfold final_steps.
  repeat (apply elem_of_cons in He as [->|He]; [try msolve|]); [|by apply not_elem_of_nil in He].
  cbn [measure]. destruct (opt_truthy _) eqn:Et; [lia|]. destruct Hf as [Hf|[Hf _]]; [done|].
  unfold revisions_left. rewrite Hf, Z.sub_0_r. lia.
Qed.

(** Every super-step uses up part of the bound. *)
Lemma measure_step n s w s' w' n' :
  Inv settings n s → run_node settings n s w = (Ret s', w') → n ≠ NEnd →
  edge settings n s' = Some n' → (measure n' s' w' < measure n s w)%nat.
Proof.
  intros Hi Hr Hn He. destruct (decide (n = NVerify)) as [->|Hv]; [by eapply measure_verify|].
  assert (Hw : rounds_left w' = rounds_left w).
  { apply rounds_left_same. eapply run_node_rounds; [done| |done]. by intros ->. }
  destruct n; try done; cbn [run_node Inv] in Hi, Hr.
  7: by eapply measure_finalize.
  7: by eapply measure_final.
  7: by destruct Hi; eapply measure_revise_final.
  all: apply edge_targets in He; cbn [measure]; rewrite <-?Hw.
  all: first [subst; msolve
           |repeat (apply elem_of_cons in He as [->|He]; [msolve|]);
            by apply not_elem_of_nil in He].
Qed.

Lemma graph_step_ret n s w n' s' w' :
  graph_step settings n s w = (Ret (n', s'), w') →
  run_node settings n s w = (Ret s', w') ∧ edge settings n s' = Some n'.
Proof.
  unfold graph_step, bind, ret, raise. destruct (run_node settings n s w) as [[s1|e] w1]; [|done].
  destruct (edge settings n s1) eqn:He; intros [=]; subst. done.
Qed.

Lemma inv_graph_step n s w n' s' w' :
  n ≠ NEnd → Inv settings n s → graph_step settings n s w = (Ret (n', s'), w') →
  Inv settings n' s' ∧ (n' = NEnd → n = NTerminate ∨ Completed settings n s') ∧
  (measure n' s' w' < measure n s w)%nat.
Proof.
  intros Hn Hi Hg. apply graph_step_ret in Hg as [Hr He].
  destruct (inv_step _ _ _ _ _ _ Hn Hi Hr) as (n1 & He1 & Hend & Hinv).
  assert (n1 = n') as -> by congruence. split; [|split; [done|by eapply measure_step]].
  destruct (decide (n' = NEnd)) as [->|]; [done|auto].
Qed.

Lemma run_graph_ends fuel n s w :
  n ≠ NEnd → Inv settings n s → (measure n s w ≤ fuel)%nat →
  ∃ r, run_graph settings fuel n s w = Some r ∧
  (∀ last s', r.1 = Ret (last, s') → last = NTerminate ∨ Completed settings last s').
Proof.
  revert n s w. induction fuel as [|fuel IH]; intros n s w Hn Hi Hf.
  { destruct n; cbn [measure] in Hf; unfold final_steps in Hf; try done; try lia.
  destruct (opt_truthy (gs_termination_reason s)); lia. }
  cbn [run_graph]. destruct (graph_step settings n s w) as [[[n' s']|e] w'] eqn:Hg;
  [|by eexists; split; [done|]].
  destruct (inv_graph_step _ _ _ _ _ _ Hn Hi Hg) as (Hi' & Hend & Hm).
  destruct (decide (n' = NEnd)) as [->|Hn'].
  - eexists. split; [done|]. intros last s1 [= <- <-]. auto.
  - destruct (IH n' s' w' Hn' Hi' ltac:(lia)) as (r & Hr & Hend').
  exists r. split; [|done]. by destruct n'.
Qed.
End termination.

(** ** The theorems *)

Section theorems.
Context {X : Type} `{GraphHost X} `{!GraphLaws X} (settings : Settings).

(** One super-step of a run. *)
Definition steps_to (c c' : node * GState * World X) : Prop :=
  c.1.1 ≠ NEnd ∧ graph_step settings c.1.1 c.1.2 c.2 = (Ret (c'.1.1, c'.1.2), c'.2).

Lemma reachable_inv s0 w0 n s w :
  rtc steps_to (NPlan, s0, w0) (n, s, w) → Inv settings n s.
Proof.
  intros Hr. change (Inv settings (n, s, w).1.1 (n, s, w).1.2).
  assert (Hi : Inv settings (NPlan, s0, w0).1.1 (NPlan, s0, w0).1.2) by done.
  revert Hi. induction Hr as [c|c1 c2 c3 [Hn Hg] _ IH]; [done|]. intros Hi. apply IH.
  by apply (inv_graph_step settings _ _ _ _ _ _ Hn Hi) in Hg as [? _].
Qed.

(** What holds of the final state of a run that completed. *)
Definition verified_run (s' : GState) : Prop :=
  opt_truthy (gs_termination_reason s') = false ∧
  (∃ p, gs_plan s' = Some p ∧ tk_task <$> gs_task_results s' = ep_tasks p ∧
  Forall (verified_result (run_id_of s')) (gs_task_results s')) ∧
  (direct_answer s' = Ret (gs_response s') ∨ final_verification_enabled settings = false ∨
   ∃ r, gs_final_verification s' = Some r ∧ fr_verdict r = FPass ∧ fr_answer_complete r = true).

Lemma completed_verified last s' :
  last ≠ NTerminate → Completed settings last s' → verified_run s'.
Proof.
  intros Hlast ([(p & H1 & _ & _ & H4 & H5) Hidx] & Ht & Hn'). split; [done|]. split.
  - exists p. split; [done|]. split; [|done]. rewrite H4, Hidx. unfold plan_tasks. rewrite H1.
  by rewrite firstn_all.
  - destruct last; try done; [|by right; right].
  destruct Hn' as [[_ Hf] Hreq]. destruct (_ && _); [right; left; congruence|left; apply Hf].
Qed.

(** The last super-step of a run ends it, from a state that satisfies the
invariant. *)
Lemma run_graph_last fuel n s w last s' w' :
  n ≠ NEnd → Inv settings n s → run_graph settings fuel n s w = Some (Ret (last, s'), w') →
  ∃ s1 w1, last ≠ NEnd ∧ Inv settings last s1 ∧ graph_step settings last s1 w1 = (Ret (NEnd, s'), w').
Proof.
  revert n s w. induction fuel as [|fuel IH]; intros n s w Hn Hi; [done|]. cbn [run_graph].
  destruct (graph_step settings n s w) as [[[n1 s1]|e] w1] eqn:Hg; [|done].
  destruct (inv_graph_step settings _ _ _ _ _ _ Hn Hi Hg) as (Hi' & _ & _).
  destruct (decide (n1 = NEnd)) as [->|Hn1].
  - intros [= <- <- <-]. eauto.
  - intros Hrun. apply (IH n1 s1 w1); [done..|]. by destruct n1.
Qed.

(** C6. Every run of the agent graph ends.  Whatever the agents, the tools
and the clock do, the run reaches [END] or raises within [graph_fuel]
super-steps: four per verifier round left, two per final revision and
seven more. *)
Theorem graph_terminates s w fuel
  (Hfuel : (graph_fuel settings w ≤ fuel)%nat) :
  ∃ r, run_graph settings fuel NPlan s w = Some r.
Proof.
  destruct (run_graph_ends settings fuel NPlan s w) as (r & Hr & _); [done..|]. by exists r.
Qed.

(** C2. An answer that does not terminate the run is verified.  When a run
ends otherwise than through [terminate], it carries no termination
reason, every task of its final plan has, in order, a recorded result
whose report passed as complete and whose claims are all supported by the
evidence recorded with it, and the response is the last task's own
answer, a synthesis whose final verification passed as complete, or a
synthesis with final verification disabled. *)
Theorem completed_is_verified fuel s w last s' w'
  (Hrun : run_graph settings fuel NPlan s w = Some (Ret (last, s'), w'))
  (Hlast : last ≠ NTerminate) :
  opt_truthy (gs_termination_reason s') = false ∧
  (∃ p, gs_plan s' = Some p ∧ tk_task <$> gs_task_results s' = ep_tasks p ∧
  Forall (verified_result (run_id_of s')) (gs_task_results s')) ∧
  (direct_answer s' = Ret (gs_response s') ∨ final_verification_enabled settings = false ∨
   ∃ r, gs_final_verification s' = Some r ∧ fr_verdict r = FPass ∧ fr_answer_complete r = true).
Proof.
  apply run_graph_last in Hrun as (s1 & w1 & Hn & Hi & Hg); [|done..].
  destruct (inv_graph_step settings _ _ _ _ _ _ Hn Hi Hg) as (_ & Hend & _).
  destruct (Hend eq_refl); [done|]. by apply (completed_verified last).
Qed.

(** C23. The graph stays within its plan.  At every reachable node that works
on a task, the current task exists and the tasks before it are recorded
as verified; and whatever a node returns, its routing function names an
edge of the graph, although [after_advance] can return a name that the
edge map of [advance] does not have. *)
Theorem routes_are_mapped s0 w0 n s w
  (Hreach : rtc steps_to (NPlan, s0, w0) (n, s, w)) :
  (n ∈ [NResearch; NWorker; NVerify; NRevise; NReplan; NAdvance] →
  ∃ t, _current_task s = Ret t ∧
    tk_task <$> gs_task_results s = take (gs_task_index s) (plan_tasks s) ∧
    Forall (verified_result (run_id_of s)) (gs_task_results s)) ∧
  (∀ s' w', n ≠ NEnd → run_node settings n s w = (Ret s', w') → is_Some (edge settings n s')).
Proof.
  apply reachable_inv in Hreach. split.
  - intros Hin. assert (Hw : working s).
  { repeat (apply elem_of_cons in Hin as [->|Hin]; [first [exact Hreach|exact (proj1 Hreach)]|]).
    by apply not_elem_of_nil in Hin. }
  destruct (working_current_task s Hw) as (t & Ht & _). exists t. split; [done|].
  destruct Hw as [(p & H1 & _ & _ & H4 & H5) _]. unfold plan_tasks. by rewrite H1.
  - intros s' w' Hn Hr. destruct (inv_step _ _ _ _ _ _ Hn Hreach Hr) as (n' & He & _). by exists n'.
Qed.
End theorems.

(** ** Witnesses: a two-task run with research, synthesis and final verification *)

Section sample.
Let task_of (i o : string) : PlanTask := MkPlanTask i o [] [] [].

(** The worker cites the first research record of its task. *)
Definition cited_task (payload : pydict) : string :=
  match dict_get "task" payload with
  | Some (VDict t) => match dict_get "id" t with Some (VStr i) => i | _ => "" end
  | _ => ""
  end.

Definition sample_result (payload : pydict) : WorkerResult :=
  let i := cited_task payload in
  MkWorkerResult ("The findings for " +:+ i +:+ " are in the cited record.")
  [MkClaim None "It was reported." ["research-" +:+ i +:+ "-1-1"] None false] [] [] "0.9".

#[local] Instance sample_graph_host : GraphHost unit := {|
  gh_tools := host_with true (ret found);
  gh_env := sample_env;
  gh_int_of_float := λ _, Ret 0;
  gh_type_name := λ _, "RuntimeError";
  gh_planner := λ _ _, ret (MkExecutionPlan "news"
  [task_of "t1" "find the latest news"; task_of "t2" "search the latest reaction"]);
  gh_worker_execute := λ _ payload, ret (sample_result payload);
  gh_worker_revise := λ _ payload, ret (sample_result payload);
  gh_verify := λ _ _, ret (MkReport VPass true [] [] "0.9");
  gh_synthesize := λ _ _, ret "Both findings.";
  gh_verify_final := λ _ _, ret (MkFinalReport FPass true [] [] "0.9")
|}.

#[local] Instance sample_graph_laws : GraphLaws unit.
Proof.
  split; intros; simplify_eq/=;
  repeat match goal with Hr : ret _ _ = _ |- _ => injection Hr as <- <- end;
  repeat split; intros; simplify_eq; done.
Qed.

Definition sample_state : GState :=
  build_fresh_run_state "latest news on Mars" "prompt" "request" "general" [] [] "q1"
  sample_tools_inventory "ollama" (Some "r1") (fresh_meter_state 0 1000) [].

#[local] Notation sample_run := (run_graph sample_settings 40 NPlan sample_state sample_world).

Definition sample_check : bool :=
  match sample_run with
  | Some (Ret (NVerifyFinal, s'), _) =>
    bool_decide (gs_response s' = "Both findings.") &&
    bool_decide (length (gs_task_results s') = 2%nat) && bool_decide (run_id_of s' = "r1")
  | _ => false
  end.

Lemma graph_terminates_witness :
  ∃ r, run_graph sample_settings (graph_fuel sample_settings sample_world) NPlan sample_state
       sample_world = Some r.
Proof. exact (graph_terminates sample_settings sample_state sample_world _ (le_n _)). Defined.

Lemma completed_is_verified_witness :
  ∃ s' w', sample_run = Some (Ret (NVerifyFinal, s'), w') ∧ gs_response s' = "Both findings." ∧
  length (gs_task_results s') = 2%nat ∧
  Forall (verified_result "r1") (gs_task_results s').
Proof.
  assert (Hrun : ∃ s' w', sample_run = Some (Ret (NVerifyFinal, s'), w') ∧
  gs_response s' = "Both findings." ∧ length (gs_task_results s') = 2%nat ∧ run_id_of s' = "r1").
  { assert (Hc : sample_check = true) by (vm_compute; reflexivity). revert Hc.
  unfold sample_check. destruct sample_run as [[[[[] s']|] w']|]; try discriminate.
  intros Hc%Is_true_eq_left. apply andb_True in Hc as [Hc H3]. apply andb_True in Hc as [H1 H2].
  exists s', w'. split; [done|].
  apply bool_decide_unpack in H1, H2, H3. done. }
  destruct Hrun as (s' & w' & Hrun & Hr & Hl & Hid). exists s', w'.
  assert (Hv : Forall (verified_result (run_id_of s')) (gs_task_results s')).
  { apply completed_is_verified in Hrun; [|discriminate].
  by destruct Hrun as (_ & (p & _ & _ & Hv) & _). }
  rewrite <-Hid. exact (conj Hrun (conj Hr (conj Hl Hv))).
Defined.

Lemma routes_are_mapped_witness :
  ∃ s w t, rtc (steps_to sample_settings) (NPlan, sample_state, sample_world) (NResearch, s, w) ∧
  _current_task s = Ret t.
Proof.
  assert (Hc : match graph_step sample_settings NPlan sample_state sample_world with
             | (Ret (NResearch, _), _) => true | _ => false end = true)
  by (vm_compute; reflexivity).
  destruct (graph_step sample_settings NPlan sample_state sample_world)
  as [[[[] s]|e] w] eqn:Hg; try discriminate Hc.
  assert (Hreach : rtc (steps_to sample_settings) (NPlan, sample_state, sample_world)
  (NResearch, s, w)) by (apply rtc_once; split; [discriminate|exact Hg]).
  destruct (routes_are_mapped sample_settings _ _ _ _ _ Hreach) as [Hwork _].
  destruct Hwork as (t & Ht & _); [by left|]. by exists s, w, t.
Defined.
End sample.
