(* ===== verification/McpProps.v ===== *)
(** * The MCP client: accounting, replay and recovery

    What [MCPClient] guarantees over any server, network and interleaving: a tool
    call is contained and its HTTP requests are the tool attempts of the meter
    ([call_tool_contained]), the call itself is sent once ([tool_call_sent_once]),
    and an expired session is recovered by one handshake ([recovery_single_flight]).
    What was sent is read off a log of the requests handed to the HTTP client, which
    [Journal] says every post appends to and nothing else changes. *)

From stdpp Require Import relations.
From S2P Require Import Prelude PyData Json RunTypes Metrics Settings Evidence Meter PyNum ToolPolicy.
From S2P Require Import GraphNodes GraphRun GraphBalance Ollama McpProtocol McpClient.

(** ** Counted requests

    What the meter sees of the client: model attempts and rounds are left alone,
    no tool attempt stays open, and the limit of tool attempts holds. *)

Record meter_kept {X} (w w' : World X) : Prop := MkPostsCounted {
  pc_rounds : rounds_and_balance w w';
  pc_open : open_tool_attempts w' = open_tool_attempts w;
  pc_max : eb_max_tool_calls (mt_meter (w_task w')) = eb_max_tool_calls (mt_meter (w_task w));
  pc_limit : ms_tool_attempts (eb_state (mt_meter (w_task w))) ≤ eb_max_tool_calls (mt_meter (w_task w)) →
    ms_tool_attempts (eb_state (mt_meter (w_task w'))) ≤ eb_max_tool_calls (mt_meter (w_task w))
}.

#[export] Instance meter_kept_refl {X} : Reflexive (@meter_kept X).
Proof. intros w. by constructor. Qed.
#[export] Instance meter_kept_trans {X} : Transitive (@meter_kept X).
Proof.
  intros w1 w2 w3 [R1 O1 M1 L1] [R2 O2 M2 L2]. constructor; [by etrans|congruence|congruence|].
  intros H. rewrite <- M1. apply L2. rewrite M1. auto.
Qed.

Lemma task_counted {X} (w w' : World X) : same_task w w' → meter_kept w w'.
Proof.
  intros H. constructor; unfold rounds_and_balance, same_rounds, balanced, open_model_attempts,
    open_tool_attempts; rewrite H; auto.
Qed.

Lemma preserves_except_exn {Z0 A} `{!McpHost Z0} (R : World (Process (McpProcess Z0)) → _ → Prop)
    `{!Transitive R} (m : M _ A) h :
  preserves R m → (∀ e, preserves R (h e)) → preserves R (except_exn (Z0:=Z0) m h).
Proof.
  intros Hm Hh. apply preserves_try_except; [apply _|done|]. intros e m'.
  destruct (is_cancelled e); [done|]. by intros [= <-].
Qed.

Lemma preserves_capture {Y A} (R : World (Process Y) → _ → Prop) (m : M _ A) :
  preserves R m → preserves R (capture m).
Proof. intros H w. specialize (H w). unfold capture. by destruct (m w). Qed.

(** Follows the structure of a program to its actions, which [atom] solves. *)
Ltac walk atom :=
  repeat first
    [ solve [atom]
    | progress cbv zeta
    | match goal with
      | |- preserves _ (except_exn _ _) => apply preserves_except_exn; [apply _| |intros ?]
      | |- preserves _ (capture _) => apply preserves_capture
      | |- preserves _ (try_finally _ _) => apply preserves_try_finally; [apply _| |]
      | |- preserves _ (bind _ _) => apply preserves_bind; [apply _| |intros ?]
      | |- preserves _ (match ?x with _ => _ end) => destruct x
      end ].

(** ** What the client keeps

    A relation between states that every request and every other action keeps is kept
    by the operations of the client. *)

Section keeps.
Context {Z0 : Type} `{!McpHost Z0} (settings : Settings).
Context (R : World (Process (McpProcess Z0)) → World (Process (McpProcess Z0)) → Prop).
Context `{!Reflexive R} `{!Transitive R}.
Hypothesis Hpost : ∀ payload hs allow_empty, preserves R (_post payload hs allow_empty).
Hypothesis Hmcp : ∀ f, preserves R (on_mcp f).
Hypothesis Hstate : preserves R mcp_state.
Hypothesis Hcount : ∀ name, preserves R (count_ name).
Hypothesis Hclock : preserves R (reading mh_clock).
Hypothesis Hlock : ∀ l, preserves R (suspended (mh_lock l)).

Create HintDb keeps.
Hint Resolve Hpost Hmcp Hstate Hcount Hclock Hlock preserves_ret preserves_raise
  preserves_of_outcome : keeps.
Ltac keeps := walk ltac:(eauto with keeps).

Lemma respond_keeps message : preserves R (_respond_to_server_request settings message).
Proof. unfold _respond_to_server_request, _headers. keeps. Qed.
Hint Resolve respond_keeps : keeps.

Lemma serve_keeps messages : preserves R (serve_messages settings messages).
Proof. induction messages as [|m ms IH]; simpl; unfold invalidate_tools_cache; keeps. Qed.
Hint Resolve serve_keeps : keeps.

Lemma send_keeps method params notification :
  preserves R (_send_for_session settings method params notification).
Proof. unfold _send_for_session, _headers, _next_id. keeps. Qed.
Hint Resolve send_keeps : keeps.

Lemma initialize_locked_keeps : preserves R (_initialize_locked settings).
Proof. unfold _initialize_locked, reset_session. keeps. Qed.
Hint Resolve initialize_locked_keeps : keeps.

Lemma recover_keeps g : preserves R (recover_expired settings g).
Proof. unfold recover_expired, reset_session. keeps. Qed.
Lemma initialize_keeps : preserves R (initialize settings).
Proof. unfold initialize, ensure_initialized. keeps. Qed.
Hint Resolve recover_keeps initialize_keeps : keeps.

Lemma rpc_keeps method params retry : preserves R (_rpc settings method params retry).
Proof. unfold _rpc, invalidate_tools_cache. keeps. Qed.
Hint Resolve rpc_keeps : keeps.

Lemma client_keeps :
  (∀ name arguments, preserves R (call_tool settings name arguments)) ∧
  (∀ force_refresh allow_stale, preserves R (list_tools settings force_refresh allow_stale)).
Proof. split; intros; [unfold call_tool|unfold list_tools, refresh_tools]; keeps. Qed.
End keeps.

Section props.
Context {Z0 : Type} `{!McpHost Z0} (settings : Settings).

Abbreviation PM := (M (World (Process (McpProcess Z0)))) (only parsing).

Lemma outside_counted {A} (m : M (Process (McpProcess Z0)) A) : preserves meter_kept (outside m).
Proof. intros w. apply task_counted, outside_same. Qed.

Lemma suspended_counted {A} (m : M (OllamaRuntime * McpProcess Z0) A) :
  preserves meter_kept (suspended m).
Proof. apply outside_counted. Qed.
Lemma reading_counted read : preserves meter_kept (reading (Y:=McpProcess Z0) read).
Proof. apply outside_counted. Qed.
Lemma measured_counted m : preserves meter_kept (measured (Y:=McpProcess Z0) m).
Proof. apply outside_counted. Qed.
Lemma ret_counted {A} (a : A) : preserves meter_kept (ret (S:=World (Process (McpProcess Z0))) a).
Proof. apply preserves_ret, _. Qed.
Lemma raise_counted {A} e : preserves meter_kept (raise (S:=World (Process (McpProcess Z0))) (A:=A) e).
Proof. apply preserves_raise, _. Qed.
Lemma of_outcome_counted {A} (o : outcome A) :
  preserves meter_kept (of_outcome (S:=World (Process (McpProcess Z0))) o).
Proof. apply preserves_of_outcome, _. Qed.
Create HintDb counted.
Hint Resolve outside_counted suspended_counted reading_counted measured_counted
  ret_counted raise_counted of_outcome_counted : counted.

Ltac counted := walk ltac:(eauto with counted).

Lemma on_mcp_counted f : preserves meter_kept (on_mcp (Z0:=Z0) f).
Proof. apply outside_counted. Qed.
Lemma mcp_state_counted : preserves meter_kept (mcp_state (Z0:=Z0)).
Proof. apply outside_counted. Qed.
Lemma count_counted name : preserves meter_kept (count_ (Z0:=Z0) name).
Proof. apply outside_counted. Qed.
Hint Resolve on_mcp_counted mcp_state_counted count_counted : counted.

Lemma transport_client_counted : preserves meter_kept (transport_client (Z0:=Z0)).
Proof. unfold transport_client. counted. Qed.
Lemma with_slot_counted {A} (m : PM A) :
  preserves meter_kept m → preserves meter_kept (with_slot m).
Proof. intros Hm. unfold with_slot. counted. Qed.
Hint Resolve transport_client_counted with_slot_counted : counted.

Lemma send_request_counted payload hs started :
  preserves meter_kept (send_request (Z0:=Z0) payload hs started).
Proof.
  unfold send_request. apply preserves_try_finally; [apply _| |counted].
  apply preserves_try_except; [apply _|counted|]. intros e m'.
  destruct (transport_error e) as [[name e']|]; [|done]. intros [= <-]. counted.
Qed.
Hint Resolve send_request_counted : counted.

Lemma transport_post_counted payload hs allow_empty :
  preserves meter_kept (transport_post (Z0:=Z0) payload hs allow_empty).
Proof. unfold transport_post. counted. Qed.
Hint Resolve transport_post_counted : counted.

(** A tool attempt begun and finished around a part that is counted. *)
Lemma begin_tool_cases now t :
  match begin_tool_attempt now t with
  | (Raise e, t') => t' = t ∧ ∃ msg, e = BudgetExceeded msg
  | (Ret _, t') => t' = t <| mt_meter := (mt_meter t) <| eb_state :=
      (eb_state (mt_meter t)) <| ms_tool_attempts := ms_tool_attempts (eb_state (mt_meter t)) + 1 |> |> |> ∧
      ms_tool_attempts (eb_state (mt_meter t)) < eb_max_tool_calls (mt_meter t)
  end.
Proof.
  unfold begin_tool_attempt, check, bind, gets. cbn.
  destruct (check_error (mt_meter t) now) as [e|] eqn:Hc; cbn.
  - split; [done|]. unfold check_error in Hc. repeat case_match; simplify_eq; eauto.
  - destruct (Z.leb_spec (eb_max_tool_calls (mt_meter t)) (ms_tool_attempts (eb_state (mt_meter t))));
      cbn; [eauto|]. split; [done|lia].
Qed.

Lemma finish_tool_counted now (w w1 w2 : World (Process (McpProcess Z0))) t success timed_out :
  begin_tool_attempt now (w_task w) = (Ret tt, t) → w_task w1 = t → meter_kept w1 w2 →
  meter_kept w (metered (finish_tool_attempt success timed_out) w2).2.
Proof.
  intros Hb Ht [[[R1 R2] B] O M L]. pose proof (begin_tool_cases now (w_task w)) as Hc. rewrite Hb in Hc.
  destruct Hc as [-> Hlt].
  unfold rounds_and_balance, same_rounds, balanced, open_model_attempts, open_tool_attempts in *.
  rewrite Ht in *. destruct (w_task w) as [b v] eqn:Ew; cbn in *. specialize (L ltac:(lia)).
  destruct success, timed_out; constructor; unfold rounds_and_balance, same_rounds, balanced,
    open_model_attempts, open_tool_attempts; rewrite ?Ew; cbn; split_and?; lia.
Qed.

(** Every request is one attempt, finished on every path. *)
Lemma _post_counted payload hs allow_empty : preserves meter_kept (_post (Z0:=Z0) payload hs allow_empty).
Proof.
  intros w. unfold _post, begin_post, finish_post. destruct mh_metered.
  - unfold bind at 1 2. destruct (reading mh_wall w) as [[now|e] w0] eqn:E0.
    2:{ pose proof (reading_counted mh_wall w) as H. by rewrite E0 in H. }
    pose proof (reading_same mh_wall w) as H0. rewrite E0 in H0. cbn in H0. unfold same_task in H0.
    unfold metered at 1, zoom at 1. rewrite H0.
    destruct (begin_tool_attempt now (w_task w)) as [[[]|e] t] eqn:Eb.
    2:{ pose proof (begin_tool_cases now (w_task w)) as Hc. rewrite Eb in Hc. destruct Hc as [-> _].
        apply task_counted. unfold same_task. cbn. done. }
    set (w1 := w0 <| w_task := t |>).
    assert (w_task w1 = t) as Et by done. clearbody w1.
    set (body := capture _). unfold bind at 1.
    assert (preserves meter_kept body) as Hbody by (subst body; counted).
    pose proof (Hbody w1) as Hb. destruct (body w1) as [[[x|e]|e] w2] eqn:E2; cbn in Hb.
    + pose proof (finish_tool_counted now w w1 w2 t true false Eb Et Hb) as Hf.
      unfold bind. destruct (metered (finish_tool_attempt true false) w2) as [[[]|e] w3]; exact Hf.
    + set (timed := is_timeout e || _).
      pose proof (finish_tool_counted now w w1 w2 t false timed Eb Et Hb) as Hf.
      unfold bind. destruct (metered (finish_tool_attempt false timed) w2) as [[[]|e'] w3]; exact Hf.
    + subst body. unfold capture in E2. by destruct (bind _ _ w1).
  - revert w. change (preserves meter_kept (ret tt ;;;
      let! r := capture (let* (messages, response_headers) := transport_post payload hs allow_empty in
        match messages with None => ret ([], response_headers)
        | Some messages => ret (messages, response_headers) end) in
      match r with Ret x => ret tt ;;; ret x | Raise e => ret tt ;;; raise e end)).
    counted.
Qed.
Hint Resolve _post_counted : counted.

Lemma call_tool_counted name arguments : preserves meter_kept (call_tool settings name arguments).
Proof. apply client_keeps; eauto with counted typeclass_instances. Qed.

Lemma list_tools_counted force_refresh allow_stale :
  preserves meter_kept (list_tools settings force_refresh allow_stale).
Proof. apply client_keeps; eauto with counted typeclass_instances. Qed.

Lemma count_mcp name (w : World (Process (McpProcess Z0))) :
  nonempty name = true → ∃ w1, count_ name w = (Ret tt, w1).
Proof.
  intros Hn. destruct (measured_ret (inc name 1) w) as (w1 & E & _); [by apply inc_ret|eauto].
Qed.

(** Whatever happens, [call_tool] returns a result or was cancelled. *)
Lemma call_tool_returns name arguments w :
  let '(o, _) := call_tool settings name arguments w in o = Raise CancelledError ∨ ∃ r, o = Ret r.
Proof.
  destruct (call_tool settings name arguments w) as [o w'] eqn:E.
  unfold call_tool in E. destruct (negb _); [injection E as <- _; eauto|].
  destruct (count_mcp "mcp.tool_calls" w eq_refl) as [w1 E1]. rewrite (bind_run _ _ _ _ _ E1) in E.
  unfold except_exn, try_except in E. destruct (bind (_rpc _ _ _ _) _ w1) as [[r|e] w2];
    [injection E as <- _; eauto|].
  destruct (is_cancelled e) eqn:Ec.
  - injection E as <- _. apply bool_decide_eq_true in Ec. left. by f_equal.
  - destruct (count_mcp "mcp.tool_call_errors" w2 eq_refl) as [w3 E3].
    rewrite (bind_run _ _ _ _ _ E3) in E. injection E as <- _. eauto.
Qed.
End props.

(** ** The requests handed to the host

    [log] is the list of the requests posted so far, in order: a post adds its payload,
    and nothing else the client does adds one. *)

Class Journal {Z0 : Type} `{McpHost Z0} (log : Z0 → list pydict) : Prop := {
  jn_post payload hs s : log (mp_ext (mh_post payload hs s).2.2) = log (mp_ext s.2) ++ [payload];
  jn_slot s : log (mp_ext (mh_slot s).2.2) = log (mp_ext s.2);
  jn_lock l s : log (mp_ext (mh_lock l s).2.2) = log (mp_ext s.2);
  jn_clock p : log (mp_ext (mh_clock p).2) = log (mp_ext p);
  jn_wall p : log (mp_ext (mh_wall p).2) = log (mp_ext p);
  jn_release p : log (mp_ext (mh_release p)) = log (mp_ext p)
}.

Section requests.
Context {Z0 : Type} `{!McpHost Z0} (log : Z0 → list pydict) `{!Journal log} (settings : Settings).

Abbreviation PM := (M (World (Process (McpProcess Z0)))) (only parsing).

Definition log_of (w : World (Process (McpProcess Z0))) : list pydict := log (mp_ext (pr_ext (w_ext w))).

(** Neither the meter nor the requests change. *)
Definition silent (w w' : World (Process (McpProcess Z0))) : Prop :=
  same_task w w' ∧ log_of w' = log_of w.

#[local] Instance silent_refl : Reflexive silent.
Proof. by intros w. Qed.
#[local] Instance silent_trans : Transitive silent.
Proof. intros w1 w2 w3 [S1 L1] [S2 L2]. split; [by etrans|congruence]. Qed.

Lemma suspended_silent {A} (m : M (OllamaRuntime * McpProcess Z0) A) :
  (∀ s, log (mp_ext (m s).2.2) = log (mp_ext s.2)) → preserves silent (suspended m).
Proof.
  intros Hm w. split; [apply suspended_same|]. unfold suspended, outside, zoom, log_of.
  specialize (Hm (pr_ollama (w_ext w), pr_ext (w_ext w))). destruct (m _) as [o s]. exact Hm.
Qed.
Lemma reading_silent read :
  (∀ p, log (mp_ext (read p).2) = log (mp_ext p)) → preserves silent (reading read).
Proof.
  intros Hr w. split; [apply reading_same|]. unfold reading, outside, zoom, log_of.
  specialize (Hr (pr_ext (w_ext w))). by destruct (read _) as [t p].
Qed.
Lemma lock_silent l : preserves silent (suspended (mh_lock l)).
Proof. apply suspended_silent, jn_lock. Qed.
Lemma slot_silent : preserves silent (suspended mh_slot).
Proof. apply suspended_silent, jn_slot. Qed.
Lemma clock_silent : preserves silent (reading mh_clock).
Proof. apply reading_silent, jn_clock. Qed.
Lemma wall_silent : preserves silent (reading mh_wall).
Proof. apply reading_silent, jn_wall. Qed.
Lemma measured_silent m : preserves silent (measured m).
Proof. intros w. split; [apply measured_same|]. unfold measured, outside, zoom, log_of. by destruct (m _). Qed.
Lemma on_mcp_silent f : preserves silent (on_mcp f).
Proof. by intros w. Qed.
Lemma mcp_state_silent : preserves silent mcp_state.
Proof. by intros w. Qed.
Lemma release_silent : preserves silent
  (outside (modify (λ p : Process (McpProcess Z0), p <| pr_ext := mh_release (pr_ext p) |>))).
Proof. intros w. split; [done|]. unfold log_of. cbn. apply jn_release. Qed.
Lemma count_silent name : preserves silent (count_ name).
Proof. apply measured_silent. Qed.

Create HintDb silent.
Hint Resolve lock_silent slot_silent clock_silent wall_silent measured_silent on_mcp_silent
  mcp_state_silent release_silent count_silent preserves_ret preserves_raise preserves_of_outcome : silent.
Ltac silent := walk ltac:(eauto with silent typeclass_instances).

(** The waits for the locks and for the transport's slot are granted: none of them
is cancelled. *)
Definition waits_granted : Prop :=
  (∀ l s, ∃ s', mh_lock l s = (Ret tt, s')) ∧ ∀ s, ∃ s', mh_slot s = (Ret tt, s').

(** [m] posts [payload], at most once: surely when it returns, and when no wait is
cancelled. *)
Definition posts {A} (payload : pydict) (m : PM A) : Prop := ∀ w,
  same_task w (m w).2 ∧
  (log_of (m w).2 = log_of w ∨ log_of (m w).2 = log_of w ++ [payload]) ∧
  (waits_granted ∨ is_ret (m w).1 = true → log_of (m w).2 = log_of w ++ [payload]).

Lemma posts_after {A B} payload (m : PM A) (k : A → PM B) :
  preserves silent m → (waits_granted → ∀ w, is_ret (m w).1 = true) → (∀ a, posts payload (k a)) →
  posts payload (bind m k).
Proof.
  intros Hm Hr Hk w. unfold bind. destruct (Hm w) as [Hs Hl]. specialize (λ H, Hr H w).
  destruct (m w) as [[a|e] w1]; cbn in *.
  - specialize (Hk a w1). rewrite Hl in Hk. destruct Hk as (S & L & R).
    split; [unfold same_task in *; congruence|done].
  - split; [done|]. split; [by left|]. intros [H%Hr|?]; done.
Qed.

Lemma posts_before {A B} payload (m : PM A) (k : A → PM B) :
  posts payload m → (∀ a, preserves silent (k a)) → posts payload (bind m k).
Proof.
  intros Hm Hk w. unfold bind. destruct (Hm w) as (S & L & R). destruct (m w) as [[a|e] w1]; cbn in *.
  - destruct (Hk a w1) as [Sk Lk]. rewrite Lk. split; [unfold same_task in *; congruence|].
    split; [done|]. intros _. apply R. by right.
  - split; [done|]. split; [done|]. intros [H|?]; [|done]. apply R. by left.
Qed.

Lemma posts_finally {A} payload (m : PM A) (f : PM unit) :
  posts payload m → preserves silent f → posts payload (try_finally m f).
Proof.
  intros Hm Hf w. unfold try_finally. destruct (Hm w) as (S & L & R). destruct (m w) as [o w1]; cbn in *.
  destruct (Hf w1) as [Sf Lf]. destruct (f w1) as [[[]|e] w2]; cbn in *; rewrite Lf;
    (split; [unfold same_task in *; congruence|]; split; [done|]); [done|].
  intros [H|?]; [|done]. apply R. by left.
Qed.

Lemma send_request_posts payload hs started : posts payload (send_request payload hs started).
Proof.
  unfold send_request. apply posts_finally; [|silent]. intros w. unfold try_except.
  assert (same_task w (suspended (mh_post payload hs) w).2 ∧
    log_of (suspended (mh_post payload hs) w).2 = log_of w ++ [payload]) as [Hs Hl].
  { split; [apply suspended_same|]. unfold suspended, outside, zoom, log_of.
    pose proof (jn_post payload hs (pr_ollama (w_ext w), pr_ext (w_ext w))) as Hj.
    destruct (mh_post payload hs _) as [o s]. exact Hj. }
  destruct (suspended (mh_post payload hs) w) as [[a|e] w1]; cbn in Hs, Hl; [by auto|].
  destruct (transport_error e) as [[name e']|]; [|by auto].
  assert (preserves silent (count_ name ;;; raise (A:=HttpReply) e')) as Hc by silent.
  destruct (Hc w1) as [Sc Lc]. destruct (bind _ _ w1) as [o w2]. cbn in *. rewrite Lc.
  split; [unfold same_task in *; congruence|auto].
Qed.

Lemma suspended_returns {A} (m : M (OllamaRuntime * McpProcess Z0) A) a w :
  (∀ s, ∃ s', m s = (Ret a, s')) → ∃ w1, suspended m w = (Ret a, w1).
Proof.
  intros Hm. unfold suspended, outside, zoom.
  destruct (Hm (pr_ollama (w_ext w), pr_ext (w_ext w))) as [s ->]. by eexists.
Qed.

Lemma transport_client_returns : waits_granted → ∀ w, is_ret (transport_client (Z0:=Z0) w).1 = true.
Proof.
  intros [Hlock _] w. unfold transport_client. destruct (mcp_state w) as [[s|e] w1] eqn:E; [|done].
  rewrite (bind_run _ _ _ _ _ E). destruct (mc_client s); [done|].
  destruct (suspended_returns (mh_lock "client") tt w1 (Hlock "client")) as [w2 E2].
  by rewrite (bind_run _ _ _ _ _ E2).
Qed.

Lemma count_returns name (w : World (Process (McpProcess Z0))) :
  nonempty name = true → is_ret (count_ name w).1 = true.
Proof. intros Hn. destruct (count_mcp name w Hn) as [w1 E]. by rewrite E. Qed.

Lemma reading_returns read (w : World (Process (McpProcess Z0))) : is_ret (reading read w).1 = true.
Proof. destruct (reading_ret read w) as (t & w1 & E & _). by rewrite E. Qed.

Lemma transport_post_posts payload hs allow_empty : posts payload (transport_post payload hs allow_empty).
Proof.
  unfold transport_post. apply posts_after; [unfold transport_client; silent|apply transport_client_returns|intros _].
  apply posts_after; [silent|intros _ w; apply reading_returns|intros started].
  apply posts_after; [silent|intros _ w; by apply count_returns|intros _].
  apply posts_before; [|intros reply; silent].
  unfold with_slot. apply posts_after; [silent| |intros _; apply posts_finally; [apply send_request_posts|silent]].
  intros [_ Hslot] w. by destruct (suspended_returns mh_slot tt w Hslot) as [w1 ->].
Qed.

Definition attempts_of (w : World (Process (McpProcess Z0))) : Z :=
  ms_tool_attempts (eb_state (mt_meter (w_task w))).

Lemma finish_post_keeps success timed_out w :
  attempts_of (finish_post success timed_out w).2 = attempts_of w ∧
  log_of (finish_post success timed_out w).2 = log_of w.
Proof.
  unfold finish_post. destruct mh_metered; [|done].
  unfold metered, zoom, finish_tool_attempt, attempts_of, log_of. by destruct success, timed_out.
Qed.

(** One [_post]: refused by the budget with nothing sent, or one attempt with the
request posted, at most once. *)
Lemma _post_requests payload hs allow_empty w :
  let '(o, w') := _post payload hs allow_empty w in
  (is_ret o = false ∧ attempts_of w' = attempts_of w ∧ log_of w' = log_of w) ∨
  attempts_of w' = attempts_of w + (if mh_metered then 1 else 0) ∧
  (log_of w' = log_of w ∨ log_of w' = log_of w ++ [payload]) ∧
  (waits_granted ∨ is_ret o = true → log_of w' = log_of w ++ [payload]).
Proof.
  set (send := let* (messages, response_headers) := transport_post payload hs allow_empty in
    match messages with
    | None => ret ([], response_headers)
    | Some messages => ret (messages, response_headers)
    end).
  assert (posts payload send) as Hsend.
  { apply posts_before; [apply transport_post_posts|]. intros [[messages|] rh]; silent. }
  unfold _post. fold send. unfold bind at 1.
  assert (∀ w1, attempts_of w1 = attempts_of w + (if mh_metered then 1 else 0) → log_of w1 = log_of w →
    let '(o, w') := (let! r := capture send in
      match r with
      | Ret x => finish_post true false ;;; ret x
      | Raise e => finish_post false (is_timeout e || is_http_error e && mh_is_timeout e) ;;; raise e
      end) w1 in
    attempts_of w' = attempts_of w + (if mh_metered then 1 else 0) ∧
    (log_of w' = log_of w ∨ log_of w' = log_of w ++ [payload]) ∧
    (waits_granted ∨ is_ret o = true → log_of w' = log_of w ++ [payload])) as Hrest.
  { intros w1 Ha Hl. unfold bind, capture. destruct (Hsend w1) as (S & L & R). rewrite Hl in L, R.
    assert (attempts_of (send w1).2 = attempts_of w1) as Sa by (unfold attempts_of; by rewrite S).
    destruct (send w1) as [[x|e] w2]; cbn in *.
    - destruct (finish_post_keeps true false w2) as [Fa Fl].
      destruct (finish_post true false w2) as [[[]|e] w3]; cbn in *; rewrite Fl, Fa, Sa; auto.
    - set (timed := is_timeout e || _). destruct (finish_post_keeps false timed w2) as [Fa Fl].
      destruct (finish_post false timed w2) as [[[]|e'] w3]; cbn in *; rewrite Fl, Fa, Sa;
        (split_and!; [lia|done|]); (intros [H|?]; [|done]; apply R; by left). }
  unfold begin_post. destruct mh_metered.
  - unfold bind at 1. destruct (reading_ret mh_wall w) as (now & w0 & E0 & S0). rewrite E0.
    pose proof (wall_silent w) as [_ L0]. rewrite E0 in L0. cbn in L0.
    unfold metered, zoom. rewrite S0. pose proof (begin_tool_cases now (w_task w)) as Hb.
    destruct (begin_tool_attempt now (w_task w)) as [[[]|e] t].
    + destruct Hb as [-> _]. match goal with |- context [bind (capture send) _ ?w1] =>
        pose proof (Hrest w1 eq_refl L0) as Hp end.
      destruct (bind (capture send) _ _) as [o w']. by right.
    + left. destruct Hb as [-> _]. split; [done|]. split; [done|exact L0].
  - cbn. assert (attempts_of w = attempts_of w + 0) as Ha by lia. pose proof (Hrest w Ha eq_refl) as Hp.
    destruct (bind (capture send) _ w) as [o w']. by right.
Qed.

(** Every request handed to the host is a tool attempt of the meter; and every attempt
is such a request, when no wait before the sending is cancelled. *)
Record requests_metered (w w' : World (Process (McpProcess Z0))) : Prop := MkRequestsMetered {
  rm_each : mh_metered = true →
    Z.of_nat (length (log_of w')) - Z.of_nat (length (log_of w)) ≤ attempts_of w' - attempts_of w;
  rm_exact : mh_metered = true → waits_granted →
    Z.of_nat (length (log_of w')) - Z.of_nat (length (log_of w)) = attempts_of w' - attempts_of w;
  rm_later : ∃ l, log_of w' = log_of w ++ l
}.

#[local] Instance requests_metered_refl : Reflexive requests_metered.
Proof. intros w. constructor; [lia|lia|]. exists []. by rewrite app_nil_r. Qed.
#[local] Instance requests_metered_trans : Transitive requests_metered.
Proof.
  intros w1 w2 w3 [E1 X1 [l1 L1]] [E2 X2 [l2 L2]]. constructor.
  - intros H. specialize (E1 H). specialize (E2 H). lia.
  - intros H H'. specialize (X1 H H'). specialize (X2 H H'). lia.
  - exists (l1 ++ l2). by rewrite L2, L1, app_assoc.
Qed.

Lemma silent_metered w w' : silent w w' → requests_metered w w'.
Proof.
  intros [S L]. constructor; unfold attempts_of; rewrite ?S, ?L; [lia|lia|].
  exists []. by rewrite app_nil_r.
Qed.

Lemma preserves_silent {A} (m : PM A) : preserves silent m → preserves requests_metered m.
Proof. intros H w. apply silent_metered, H. Qed.

Lemma _post_metered payload hs allow_empty : preserves requests_metered (_post payload hs allow_empty).
Proof.
  intros w. pose proof (_post_requests payload hs allow_empty w) as Hp.
  destruct (_post payload hs allow_empty w) as [o w']. cbn [snd].
  destruct Hp as [(_ & Ha & Hl)|(Ha & Hl & Hx)].
  - constructor; rewrite ?Ha, ?Hl; [lia|lia|]. exists []. by rewrite app_nil_r.
  - constructor.
    + intros Hm. rewrite Hm in Ha. destruct Hl as [-> | ->]; rewrite ?length_app; cbn; lia.
    + intros Hm Hw. rewrite Hm in Ha. rewrite (Hx (or_introl Hw)), length_app. cbn. lia.
    + destruct Hl as [-> | ->]; [exists []; by rewrite app_nil_r|by eexists].
Qed.

(** What a part posts beside the requests of the client: answers to the server. *)
Definition answers_only (w w' : World (Process (McpProcess Z0))) : Prop :=
  ∃ l, log_of w' = log_of w ++ l ∧ Forall (λ m : pydict, dict_get "method" m = None) l.

#[local] Instance answers_only_refl : Reflexive answers_only.
Proof. intros w. exists []. rewrite app_nil_r. split; [done|constructor]. Qed.
#[local] Instance answers_only_trans : Transitive answers_only.
Proof.
  intros w1 w2 w3 (l1 & L1 & F1) (l2 & L2 & F2). exists (l1 ++ l2). rewrite L2, L1, app_assoc.
  split; [done|by apply Forall_app].
Qed.

Lemma silent_answers {A} (m : PM A) : preserves silent m → preserves answers_only m.
Proof. intros H w. destruct (H w) as [_ L]. exists []. rewrite app_nil_r. split; [done|constructor]. Qed.

Lemma respond_answers message : preserves answers_only (_respond_to_server_request settings message).
Proof.
  unfold _respond_to_server_request.
  assert (∀ id method, preserves answers_only (let '(name, payload) := server_reply id method in
    count_ name ;;; let! hs := _headers settings in _post payload hs true ;;; ret tt)) as Hreply.
  { intros id method. assert (dict_get "method" (server_reply id method).2 = None) as Hn
      by (unfold server_reply; by destruct (String.eqb method "ping")).
    destruct (server_reply id method) as [name payload]. cbn [snd] in Hn.
    apply preserves_bind; [apply _|apply silent_answers; silent|intros _].
    apply preserves_bind; [apply _|apply silent_answers; unfold _headers; silent|intros hs].
    apply preserves_bind; [apply _| |intros _; apply silent_answers; silent].
    intros w. pose proof (_post_requests payload hs true w) as Hp.
    destruct (_post payload hs true w) as [o w']. cbn [snd].
    assert (log_of w' = log_of w ∨ log_of w' = log_of w ++ [payload]) as [L|L]
      by (destruct Hp as [(_ & _ & ?)|(_ & ? & _)]; auto).
    - exists []. rewrite app_nil_r. split; [done|constructor].
    - exists [payload]. split; [done|by constructor]. }
  destruct (get_or_none "id" message); try (apply silent_answers; silent; fail);
    (destruct (get_or_none "method" message); try apply Hreply; apply silent_answers; silent).
Qed.

Lemma serve_answers messages : preserves answers_only (serve_messages settings messages).
Proof.
  induction messages as [|m ms IH]; simpl; [apply silent_answers; silent|].
  apply preserves_bind; [apply _| |intros _].
  { apply silent_answers. unfold invalidate_tools_cache. silent. }
  apply preserves_bind; [apply _| |intros _; exact IH].
  destruct (get_or_none "method" m); try (apply silent_answers; silent; fail).
  destruct (dict_has "id" m); [apply respond_answers|apply silent_answers; silent].
Qed.

(** A request of the client that returns: its payload is posted, then answers. *)
Lemma send_logged method params w x w' :
  _send_for_session settings method params false w = (Ret x, w') →
  ∃ id answers, log_of w' = log_of w ++ [("jsonrpc", VStr "2.0"); ("id", VInt id);
      ("method", VStr method); ("params", VDict params)] :: answers ∧
    Forall (λ m : pydict, dict_get "method" m = None) answers.
Proof.
  unfold _send_for_session. intros E.
  apply bind_Ret_inv in E as (id & w1 & E1 & E).
  assert (preserves silent (_next_id (Z0:=Z0))) as Hid by (unfold _next_id; silent).
  destruct (Hid w) as [_ L1]. rewrite E1 in L1. cbn in L1.
  apply bind_Ret_inv in E as (payload & w2 & E2 & E). injection E2 as Hp <-.
  unfold request_envelope in Hp. destruct (nonempty method); [|done]. injection Hp as <-.
  apply bind_Ret_inv in E as (hs & w3 & E3 & E). injection E3 as <- <-.
  apply bind_Ret_inv in E as ([messages rh] & w4 & E4 & E).
  match type of E4 with _post ?payload ?hs ?b ?w0 = _ =>
    pose proof (_post_requests payload hs b w0) as Hpost end.
  rewrite E4 in Hpost. destruct Hpost as [(Hf & _)|(_ & _ & L4)]; [done|]. specialize (L4 (or_intror eq_refl)).
  destruct messages as [|m ms]; [done|].
  apply bind_Ret_inv in E as ([] & w5 & E5 & E).
  destruct (serve_answers (m :: ms) w4) as (answers & L5 & F5). rewrite E5 in L5. cbn [snd] in L5.
  apply bind_Ret_inv in E as (response & w6 & E6 & E). injection E6 as _ <-.
  assert (w' = w5) as -> by (destruct (rpc_error response); [by injection E|done..]).
  exists id, answers. split; [|done].
  pose proof (eq_trans L4 (f_equal (λ l, l ++ _) L1)) as L. cbv beta in L. by rewrite L5, L, <- app_assoc.
Qed.

Lemma notify_logged method params w x w' :
  _send_for_session settings method params true w = (Ret x, w') →
  log_of w' = log_of w ++ [[("jsonrpc", VStr "2.0"); ("method", VStr method); ("params", VDict params)]].
Proof.
  unfold _send_for_session. intros E.
  apply bind_Ret_inv in E as (payload & w2 & E2 & E). injection E2 as Hp <-.
  unfold notification_envelope in Hp. destruct (nonempty method); [|done]. injection Hp as <-.
  apply bind_Ret_inv in E as (hs & w3 & E3 & E). injection E3 as <- <-.
  apply bind_Ret_inv in E as ([messages rh] & w4 & E4 & E). injection E as _ <-.
  match type of E4 with _post ?payload ?hs ?b ?w0 = _ =>
    pose proof (_post_requests payload hs b w0) as Hpost end.
  rewrite E4 in Hpost. destruct Hpost as [(Hf & _)|(_ & _ & L4)]; [done|]. exact (L4 (or_intror eq_refl)).
Qed.

(** The requests of a handshake: [initialize], answers to the server, and the
notification that the client is ready. *)
Definition handshake (requests : list pydict) : Prop :=
  ∃ id answers,
    requests = [("jsonrpc", VStr "2.0"); ("id", VInt id); ("method", VStr "initialize");
        ("params", VDict (initialize_params settings))] ::
      answers ++ [[("jsonrpc", VStr "2.0"); ("method", VStr "notifications/initialized");
        ("params", VDict [])]] ∧
    Forall (λ m : pydict, dict_get "method" m = None) answers.

Lemma initialize_locked_logged w w' :
  _initialize_locked settings w = (Ret tt, w') → ∃ l, log_of w' = log_of w ++ l ∧ handshake l.
Proof.
  unfold _initialize_locked, except_exn, try_except.
  destruct (bind _ _ w) as [[[]|e] w1] eqn:E; [|by destruct (is_cancelled e)].
  intros [= <-].
  apply bind_Ret_inv in E as ([result rh] & w2 & E2 & E).
  apply bind_Ret_inv in E as (session & w3 & E3 & E). injection E3 as _ <-.
  apply bind_Ret_inv in E as ([] & w4 & E4 & E).
  apply bind_Ret_inv in E as ([v rh'] & w5 & E5 & E).
  apply send_logged in E2 as (id & answers & L2 & F2). apply notify_logged in E5.
  injection E4 as <-. injection E as <-. change (log_of _) with (log_of w5) at 1. rewrite E5.
  change (log_of _) with (log_of w2) at 1. rewrite L2, <- app_assoc. eexists. split; [done|].
  by exists id, answers.
Qed.

Lemma call_tool_metered name arguments : preserves requests_metered (call_tool settings name arguments).
Proof.
  apply client_keeps; eauto using _post_metered, preserves_silent with silent typeclass_instances.
Qed.

(** C29. A tool call is contained.  Whatever the server, the network and the
    budget do, [call_tool] returns a result or was cancelled.  Every HTTP request it
    hands to the client -- the call, a handshake, answers to the server -- is one tool
    attempt of the meter bound to the request, and every attempt is such a request,
    those apart whose wait for a lock or for a slot was cancelled before the sending;
    no attempt stays open on any path, the attempts stay within the limit, and the
    model attempts and the rounds are left alone. *)
Theorem call_tool_contained name arguments w :
  let '(o, w') := call_tool settings name arguments w in
  (o = Raise CancelledError ∨ ∃ r, o = Ret r) ∧
  (mh_metered = true →
    Z.of_nat (length (log_of w')) - Z.of_nat (length (log_of w)) ≤ attempts_of w' - attempts_of w ∧
    (waits_granted →
      Z.of_nat (length (log_of w')) - Z.of_nat (length (log_of w)) = attempts_of w' - attempts_of w)) ∧
  open_tool_attempts w' = open_tool_attempts w ∧
  (attempts_of w ≤ eb_max_tool_calls (mt_meter (w_task w)) →
   attempts_of w' ≤ eb_max_tool_calls (mt_meter (w_task w'))) ∧
  rounds_and_balance w w'.
Proof.
  pose proof (call_tool_counted settings name arguments w) as Hk.
  pose proof (call_tool_metered name arguments w) as Hm.
  pose proof (call_tool_returns settings name arguments w) as Hr.
  destruct (call_tool settings name arguments w) as [o w']. cbn [snd] in *.
  destruct Hk as [Hb Ho Hmax Hlim], Hm as [He Hx _]. split_and!; [done|auto|done| |done].
  unfold attempts_of in *. rewrite Hmax. done.
Qed.
End requests.

(** ** A call is not replayed

    [sent] counts the [tools/call] requests among those the host was handed. *)

Definition is_call (payload : pydict) : bool :=
  pyval_eqb (get_or_none "method" payload) (VStr "tools/call").

Class CountsCalls {Z0 : Type} `{McpHost Z0} (sent : Z0 → Z) : Prop := {
  cc_post payload hs s :
    sent (mp_ext (mh_post payload hs s).2.2) ≤ sent (mp_ext s.2) + (if is_call payload then 1 else 0);
  cc_delete hs s : sent (mp_ext (mh_delete hs s).2.2) ≤ sent (mp_ext s.2);
  cc_slot s : sent (mp_ext (mh_slot s).2.2) ≤ sent (mp_ext s.2);
  cc_lock l s : sent (mp_ext (mh_lock l s).2.2) ≤ sent (mp_ext s.2);
  cc_clock p : sent (mp_ext (mh_clock p).2) ≤ sent (mp_ext p);
  cc_wall p : sent (mp_ext (mh_wall p).2) ≤ sent (mp_ext p);
  cc_release p : sent (mp_ext (mh_release p)) ≤ sent (mp_ext p)
}.

Section replay.
Context {Z0 : Type} `{!McpHost Z0} (sent : Z0 → Z) `{!CountsCalls sent} (settings : Settings).

Abbreviation PM := (M (World (Process (McpProcess Z0)))) (only parsing).

Definition sent_in (w : World (Process (McpProcess Z0))) : Z := sent (mp_ext (pr_ext (w_ext w))).

(** [m] hands the host at most [d] such requests. *)
Definition sends {A} (d : Z) (m : PM A) : Prop := ∀ w, sent_in (m w).2 ≤ sent_in w + d.

Lemma sends_bind {A B} d1 d2 (m : PM A) (k : A → PM B) d :
  sends d1 m → (∀ a, sends d2 (k a)) → d1 + d2 ≤ d → 0 ≤ d2 → sends d (bind m k).
Proof.
  intros Hm Hk Hd H2 w. unfold bind. specialize (Hm w). destruct (m w) as [[a|e] w1]; cbn in *; [|lia].
  specialize (Hk a w1). lia.
Qed.

Lemma sends_bind0 {A B} d (m : PM A) (k : A → PM B) :
  sends 0 m → (∀ a, sends d (k a)) → 0 ≤ d → sends d (bind m k).
Proof. intros. eapply sends_bind; eauto; lia. Qed.

Lemma sends_capture {A} d (m : PM A) : sends d m → sends d (capture m).
Proof. intros Hm w. specialize (Hm w). unfold capture. by destruct (m w). Qed.

Lemma sends_finally {A} d (m : PM A) f : sends d m → sends 0 f → sends d (try_finally m f).
Proof.
  intros Hm Hf w. unfold try_finally. specialize (Hm w). destruct (m w) as [o w1].
  specialize (Hf w1). destruct (f w1) as [[?|?] w2]; cbn in *; lia.
Qed.

Lemma sends_except {A} d (m : PM A) h :
  sends d m → (∀ e m', h e = Some m' → sends 0 m') → sends d (try_except m h).
Proof.
  intros Hm Hh w. unfold try_except. specialize (Hm w). destruct (m w) as [[a|e] w1]; [done|].
  destruct (h e) as [m'|] eqn:He; [|done]. specialize (Hh e m' He w1). cbn in *. lia.
Qed.

Lemma sends_except_exn {A} d (m : PM A) h :
  sends d m → (∀ e, sends 0 (h e)) → sends d (except_exn m h).
Proof.
  intros Hm Hh. apply sends_except; [done|]. intros e m'. destruct (is_cancelled e); [done|].
  by intros [= <-].
Qed.

Lemma sends_ret {A} (a : A) : sends 0 (ret a).
Proof. intros w. cbn. lia. Qed.
Lemma sends_raise {A} e : sends 0 (raise (A:=A) e).
Proof. intros w. cbn. lia. Qed.
Lemma sends_of_outcome {A} (o : outcome A) : sends 0 (of_outcome o).
Proof. intros w. cbn. lia. Qed.
Lemma sends_metered {A} (m : M MeterTask A) : sends 0 (metered m).
Proof. intros w. unfold metered, zoom. destruct (m (w_task w)). unfold sent_in. cbn. lia. Qed.
Lemma sends_measured m : sends 0 (measured m).
Proof.
  intros w. unfold measured, outside, zoom, sent_in. destruct (m _). cbn. lia.
Qed.
Lemma sends_on_mcp f : sends 0 (on_mcp f).
Proof. intros w. unfold sent_in. cbn. lia. Qed.
Lemma sends_mcp_state : sends 0 mcp_state.
Proof. intros w. unfold sent_in. cbn. lia. Qed.

Lemma sends_suspended {A} d (m : M (OllamaRuntime * McpProcess Z0) A) :
  (∀ s, sent (mp_ext (m s).2.2) ≤ sent (mp_ext s.2) + d) → sends d (suspended m).
Proof.
  intros Hm w. unfold suspended, outside, zoom, sent_in.
  specialize (Hm (pr_ollama (w_ext w), pr_ext (w_ext w))). destruct (m _) as [o s]. exact Hm.
Qed.

Lemma sends_reading read :
  (∀ p, sent (mp_ext (read p).2) ≤ sent (mp_ext p)) → sends 0 (reading read).
Proof.
  intros Hr w. unfold reading, outside, zoom, sent_in. specialize (Hr (pr_ext (w_ext w))).
  destruct (read _) as [t p]. cbn in *. lia.
Qed.

Lemma sends_clock : sends 0 (reading mh_clock).
Proof. apply sends_reading. intros p. apply cc_clock. Qed.
Lemma sends_wall : sends 0 (reading mh_wall).
Proof. apply sends_reading. intros p. apply cc_wall. Qed.
Lemma sends_lock l : sends 0 (suspended (mh_lock l)).
Proof. apply sends_suspended. intros s. pose proof (cc_lock l s). lia. Qed.
Lemma sends_slot : sends 0 (suspended mh_slot).
Proof. apply sends_suspended. intros s. pose proof (cc_slot s). lia. Qed.

Lemma sends_outcome {A B} d (o : outcome A) (k : A → PM B) :
  (∀ a, o = Ret a → sends d (k a)) → 0 ≤ d → sends d (bind (of_outcome o) k).
Proof. intros Hk Hd w. unfold bind, of_outcome. destruct o as [a|e]; [by apply Hk|cbn; lia]. Qed.

Create HintDb sends.
Hint Resolve sends_ret sends_raise sends_of_outcome sends_metered sends_measured sends_on_mcp
  sends_mcp_state sends_clock sends_wall sends_lock sends_slot : sends.

(** Everything but the request itself sends nothing. *)
Ltac sends :=
  repeat first
    [ solve [eauto with sends]
    | lia
    | progress cbv zeta
    | match goal with
      | |- sends _ (except_exn _ _) => apply sends_except_exn; [|intros ?]
      | |- sends _ (capture _) => apply sends_capture
      | |- sends _ (try_finally _ _) => apply sends_finally
      | |- sends _ (bind _ _) => apply sends_bind0; [|intros ?|]
      | |- sends _ (match ?x with _ => _ end) => destruct x
      end ].

Definition cost (payload : pydict) : Z := if is_call payload then 1 else 0.

Lemma cost_nonneg payload : 0 ≤ cost payload.
Proof. unfold cost. destruct (is_call payload); lia. Qed.

Lemma sends_weaken {A} d d' (m : PM A) : sends d m → d ≤ d' → sends d' m.
Proof. intros Hm Hd w. specialize (Hm w). lia. Qed.

Lemma sends_count name : sends 0 (count_ name).
Proof. apply sends_measured. Qed.
Hint Resolve sends_count : sends.

Lemma transport_client_sends : sends 0 transport_client.
Proof. unfold transport_client. sends. Qed.
Hint Resolve transport_client_sends : sends.

Lemma transport_post_sends payload hs allow_empty :
  sends (cost payload) (transport_post payload hs allow_empty).
Proof.
  pose proof (cost_nonneg payload). unfold transport_post.
  apply sends_bind0; [sends|intros _|done]. apply sends_bind0; [sends|intros started|done].
  apply sends_bind0; [sends|intros _|done].
  eapply (sends_bind (cost payload) 0); [|intros reply; sends|lia|lia].
  unfold with_slot. apply sends_bind0; [sends|intros _|done]. apply sends_finally.
  - unfold send_request. apply sends_finally; [|sends]. apply sends_except.
    + apply sends_suspended. intros s. apply cc_post.
    + intros e m'. destruct (transport_error e) as [[name e']|]; [|done]. intros [= <-]. sends.
  - intros w. unfold sent_in. cbn. pose proof (cc_release (pr_ext (w_ext w))). lia.
Qed.

Lemma _post_sends payload hs allow_empty : sends (cost payload) (_post payload hs allow_empty).
Proof.
  pose proof (cost_nonneg payload). unfold _post, begin_post, finish_post.
  apply sends_bind0; [destruct mh_metered; sends|intros _|done].
  eapply (sends_bind (cost payload) 0); [|intros [x|e]; destruct mh_metered; sends|lia|lia].
  apply sends_capture. eapply (sends_bind (cost payload) 0); [apply transport_post_sends| |lia|lia].
  intros [[messages|] rh]; sends.
Qed.

Lemma reply_not_call id method : is_call (server_reply id method).2 = false.
Proof. unfold server_reply. by destruct (String.eqb method "ping"). Qed.

Lemma respond_sends message : sends 0 (_respond_to_server_request settings message).
Proof.
  unfold _respond_to_server_request, _headers.
  assert (∀ id method, sends 0 (let '(name, payload) := server_reply id method in
    count_ name ;;; let! hs := _headers settings in _post payload hs true ;;; ret tt)) as Hreply.
  { intros id method. pose proof (reply_not_call id method) as Hc.
    destruct (server_reply id method) as [name payload]. cbn [snd] in Hc. unfold _headers.
    apply sends_bind0; [sends|intros _|done]. apply sends_bind0; [sends|intros hs|done].
    eapply (sends_bind 0 0); [|intros ?; sends|lia|lia].
    eapply sends_weaken; [apply _post_sends|]. unfold cost. by rewrite Hc. }
  destruct (get_or_none "id" message); try (sends; fail);
    (destruct (get_or_none "method" message); [sends..|apply Hreply|sends|sends]).
Qed.
Hint Resolve respond_sends : sends.

Lemma serve_sends messages : sends 0 (serve_messages settings messages).
Proof.
  induction messages as [|m ms IH]; simpl; [sends|]. unfold invalidate_tools_cache. sends.
Qed.
Hint Resolve serve_sends : sends.

(** A request costs what its method says. *)
Definition method_cost (method : string) : Z := if String.eqb method "tools/call" then 1 else 0.

Lemma method_cost_nonneg method : 0 ≤ method_cost method.
Proof. unfold method_cost. destruct (String.eqb _ _); lia. Qed.

Lemma send_sends method params notification :
  sends (method_cost method) (_send_for_session settings method params notification).
Proof.
  pose proof (method_cost_nonneg method). unfold _send_for_session.
  assert (∀ payload hs b, get_or_none "method" payload = VStr method →
    sends (method_cost method) (_post payload hs b)) as Hpost.
  { intros payload hs b Hm. eapply sends_weaken; [apply _post_sends|]. unfold cost, is_call, method_cost.
    rewrite Hm. simpl. done. }
  destruct notification.
  - apply sends_outcome; [|done]. intros payload Hp.
    apply sends_bind0; [unfold _headers; sends|intros hs|done].
    eapply (sends_bind (method_cost method) 0); [|intros [? ?]; sends|lia|lia]. apply Hpost.
    unfold notification_envelope in Hp. destruct (nonempty method); by simplify_eq.
  - apply sends_bind0; [unfold _next_id; sends|intros id|done].
    apply sends_outcome; [|done]. intros payload Hp.
    apply sends_bind0; [unfold _headers; sends|intros hs|done].
    eapply (sends_bind (method_cost method) 0); [|intros [[|m ms] rh]; sends|lia|lia]. apply Hpost.
    unfold request_envelope in Hp. destruct (nonempty method); by simplify_eq.
Qed.

Lemma initialize_locked_sends : sends 0 (_initialize_locked settings).
Proof.
  assert (∀ params b, sends 0 (_send_for_session settings "initialize" params b)) as H1
    by (intros; apply send_sends).
  assert (∀ params b, sends 0 (_send_for_session settings "notifications/initialized" params b)) as H2
    by (intros; apply send_sends).
  unfold _initialize_locked, reset_session. sends.
Qed.
Hint Resolve initialize_locked_sends : sends.

Lemma recover_sends g : sends 0 (recover_expired settings g).
Proof. unfold recover_expired, reset_session. sends. Qed.
Lemma initialize_sends : sends 0 (initialize settings).
Proof. unfold initialize, ensure_initialized. sends. Qed.
Hint Resolve recover_sends initialize_sends : sends.

(** C13. A tool call is never replayed.  However the server answers, the session
    expires and cancellations fall, one [call_tool] hands the HTTP client at most
    one [tools/call] request: after an expiry the session is recovered, but the
    call, which may have been carried out, is not sent again. *)
Theorem tool_call_sent_once name arguments w o w'
    (Hrun : call_tool settings name arguments w = (o, w')) :
  sent_in w' ≤ sent_in w + 1.
Proof.
  assert (sends 1 (call_tool settings name arguments)) as H.
  { unfold call_tool. destruct (negb _); [eapply sends_weaken; [sends|lia]|].
    apply sends_bind0; [sends|intros _|lia]. apply sends_except_exn; [|intros e; sends].
    eapply (sends_bind 1 0); [|intros result; sends|lia|lia].
    unfold _rpc. apply sends_bind0; [sends|intros _|lia].
    apply sends_bind0; [sends|intros s|lia]. cbv zeta.
    eapply (sends_bind 1 0); [|intros [[result rh]|e]; unfold invalidate_tools_cache; sends|lia|lia].
    apply sends_capture, (send_sends "tools/call"). }
  specialize (H w). by rewrite Hrun in H.
Qed.
End replay.

(** ** Recovery is single-flight *)

(** Host operations that leave the client alone: nobody else uses it meanwhile. *)
Class QuietMcp (Z0 : Type) `{McpHost Z0} : Prop := {
  qm_post payload hs s : mp_mcp (mh_post payload hs s).2.2 = mp_mcp s.2;
  qm_slot s : mp_mcp (mh_slot s).2.2 = mp_mcp s.2;
  qm_lock l s : mp_mcp (mh_lock l s).2.2 = mp_mcp s.2;
  qm_clock p : mp_mcp (mh_clock p).2 = mp_mcp p;
  qm_wall p : mp_mcp (mh_wall p).2 = mp_mcp p;
  qm_release p : mp_mcp (mh_release p) = mp_mcp p
}.

Section recovery.
Context {Z0 : Type} `{!McpHost Z0} `{!QuietMcp Z0} (log : Z0 → list pydict) (settings : Settings).

Abbreviation PM := (M (World (Process (McpProcess Z0)))) (only parsing).

Definition mcp_of (w : World (Process (McpProcess Z0))) : McpState := mp_mcp (pr_ext (w_ext w)).

(** The session and its generation are the same. *)
Definition same_session (w w' : World (Process (McpProcess Z0))) : Prop :=
  mc_session (mcp_of w') = mc_session (mcp_of w) ∧
  mc_generation (mcp_of w') = mc_generation (mcp_of w).

#[local] Instance same_session_refl : Reflexive same_session.
Proof. by intros w. Qed.
#[local] Instance same_session_trans : Transitive same_session.
Proof. intros w1 w2 w3 [H1 H2] [H3 H4]. split; congruence. Qed.

Lemma on_mcp_session f :
  (∀ s, mc_session (f s) = mc_session s ∧ mc_generation (f s) = mc_generation s) →
  preserves same_session (on_mcp f).
Proof. intros Hf w. unfold same_session, mcp_of. cbn. apply Hf. Qed.
Lemma suspended_session {A} (m : M (OllamaRuntime * McpProcess Z0) A) :
  (∀ s, mp_mcp (m s).2.2 = mp_mcp s.2) → preserves same_session (suspended m).
Proof.
  intros Hm w. unfold suspended, outside, zoom, same_session, mcp_of.
  specialize (Hm (pr_ollama (w_ext w), pr_ext (w_ext w))). destruct (m _) as [o s]. cbn in *.
  by rewrite Hm.
Qed.
Lemma reading_session read :
  (∀ p, mp_mcp (read p).2 = mp_mcp p) → preserves same_session (reading read).
Proof.
  intros Hr w. unfold reading, outside, zoom, same_session, mcp_of. specialize (Hr (pr_ext (w_ext w))).
  destruct (read _) as [t p]. cbn in *. by rewrite Hr.
Qed.
Lemma metered_session {A} (m : M MeterTask A) : preserves same_session (metered m).
Proof. intros w. unfold metered, zoom. by destruct (m (w_task w)). Qed.
Lemma measured_session m : preserves same_session (measured m).
Proof. intros w. unfold measured, outside, zoom. by destruct (m _). Qed.
Lemma mcp_state_session : preserves same_session mcp_state.
Proof. by intros w. Qed.
Lemma release_session : preserves same_session
  (outside (modify (λ p : Process (McpProcess Z0), p <| pr_ext := mh_release (pr_ext p) |>))).
Proof. intros w. unfold same_session, mcp_of. cbn. by rewrite qm_release. Qed.
Lemma clock_session : preserves same_session (reading mh_clock).
Proof. apply reading_session. intros p. apply qm_clock. Qed.
Lemma wall_session : preserves same_session (reading mh_wall).
Proof. apply reading_session. intros p. apply qm_wall. Qed.
Lemma lock_session l : preserves same_session (suspended (mh_lock l)).
Proof. apply suspended_session. intros s. apply qm_lock. Qed.
Lemma slot_session : preserves same_session (suspended mh_slot).
Proof. apply suspended_session. intros s. apply qm_slot. Qed.
Lemma post_session payload hs : preserves same_session (suspended (mh_post payload hs)).
Proof. apply suspended_session. intros s. apply qm_post. Qed.
Lemma count_session name : preserves same_session (count_ (Z0:=Z0) name).
Proof. apply measured_session. Qed.

Create HintDb session.
Hint Resolve metered_session measured_session mcp_state_session release_session clock_session
  wall_session lock_session slot_session post_session count_session preserves_ret preserves_raise
  preserves_of_outcome : session.
Hint Extern 1 (preserves same_session (on_mcp _)) => (apply on_mcp_session; done) : session.
Ltac session := walk ltac:(eauto with session typeclass_instances).

Lemma send_request_session payload hs started :
  preserves same_session (send_request payload hs started).
Proof.
  unfold send_request. apply preserves_try_finally; [apply _| |session].
  apply preserves_try_except; [apply _|session|]. intros e m'.
  destruct (transport_error e) as [[name e']|]; [|done]. intros [= <-]. session.
Qed.
Hint Resolve send_request_session : session.

Lemma _post_session payload hs allow_empty : preserves same_session (_post payload hs allow_empty).
Proof.
  unfold _post, begin_post, finish_post, transport_post, transport_client, with_slot. session.
Qed.
Hint Resolve _post_session : session.

Lemma serve_session messages : preserves same_session (serve_messages settings messages).
Proof.
  induction messages as [|m ms IH]; simpl; [session|].
  unfold invalidate_tools_cache, _respond_to_server_request, _headers. session.
Qed.
Hint Resolve serve_session : session.

Lemma send_session method params notification :
  preserves same_session (_send_for_session settings method params notification).
Proof. unfold _send_for_session, _next_id, _headers. session. Qed.

Lemma initialize_locked_done w w' :
  _initialize_locked settings w = (Ret tt, w') →
  ss_initialized (mc_session (mcp_of w')) = true ∧
  mc_generation (mcp_of w') = mc_generation (mcp_of w) + 1.
Proof.
  unfold _initialize_locked, except_exn, try_except.
  destruct (bind _ _ w) as [[[]|e] w1] eqn:E; [|by destruct (is_cancelled e)].
  intros [= <-].
  apply bind_Ret_inv in E as ([result rh] & w2 & E2 & E).
  apply bind_Ret_inv in E as (session & w3 & E3 & E). injection E3 as _ <-.
  apply bind_Ret_inv in E as ([] & w4 & E4 & E).
  apply bind_Ret_inv in E as ([v rh'] & w5 & E5 & E).
  pose proof (send_session "initialize" (initialize_params settings) false w) as [_ S2].
  rewrite E2 in S2. cbn in S2.
  pose proof (send_session "notifications/initialized" [] true w4) as [_ S5].
  rewrite E5 in S5. cbn in S5.
  injection E4 as <-. injection E as <-. unfold mcp_of in *. cbn in *. split; [done|congruence].
Qed.

Lemma recover_handshakes `{!Journal log} g w w1 :
  ss_initialized (mc_session (mcp_of w)) = false ∨ mc_generation (mcp_of w) = g →
  recover_expired settings g w = (Ret tt, w1) → ∃ l, log_of log w1 = log_of log w ++ l ∧ handshake settings l.
Proof.
  intros Hseen Hr. unfold recover_expired in Hr.
  apply bind_Ret_inv in Hr as ([] & w2 & E2 & Hr).
  pose proof (lock_session "session" w) as [S1 S2]. rewrite E2 in S1, S2. cbn in S1, S2.
  pose proof (lock_silent log "session" w) as [_ L2]. rewrite E2 in L2. cbn in L2.
  apply bind_Ret_inv in Hr as (s & w3 & E3 & Hr). injection E3 as <- <-. fold (mcp_of w2) in Hr.
  assert (ss_initialized (mc_session (mcp_of w2)) && negb (mc_generation (mcp_of w2) =? g) = false) as Ht.
  { rewrite S1, S2. destruct Hseen as [-> | ->]; [done|]. by rewrite Z.eqb_refl, andb_false_r. }
  rewrite Ht in Hr. apply bind_Ret_inv in Hr as ([] & w4 & E4 & Hr). injection E4 as <-.
  apply initialize_locked_logged with (log := log) in Hr as (l & Hl & Hh); [|done].
  exists l. split; [|done]. rewrite Hl, <- L2. done.
Qed.

Lemma recover_done g w w1 :
  g ≤ mc_generation (mcp_of w) → recover_expired settings g w = (Ret tt, w1) →
  ss_initialized (mc_session (mcp_of w1)) = true ∧ mc_generation (mcp_of w1) ≠ g.
Proof.
  intros Hg Hr. unfold recover_expired in Hr.
  apply bind_Ret_inv in Hr as ([] & w2 & E2 & Hr).
  pose proof (lock_session "session" w) as [_ S2]. rewrite E2 in S2. cbn in S2.
  apply bind_Ret_inv in Hr as (s & w3 & E3 & Hr). injection E3 as <- <-. fold (mcp_of w2) in Hr.
  destruct (ss_initialized (mc_session (mcp_of w2))) eqn:Hi; cbn [andb] in Hr.
  - destruct (Z.eqb_spec (mc_generation (mcp_of w2)) g) as [Heq|Hne]; cbn [negb] in Hr;
      [|by injection Hr as <-].
    apply bind_Ret_inv in Hr as ([] & w4 & E4 & Hr). apply initialize_locked_done in Hr as [H1 H2].
    split; [done|]. injection E4 as <-. rewrite H2. unfold mcp_of in *. cbn. lia.
  - apply bind_Ret_inv in Hr as ([] & w4 & E4 & Hr). apply initialize_locked_done in Hr as [H1 H2].
    split; [done|]. injection E4 as <-. rewrite H2. unfold mcp_of in *. cbn. lia.
Qed.

Lemma recover_waits g w2 :
  ss_initialized (mc_session (mcp_of w2)) = true → mc_generation (mcp_of w2) ≠ g →
  recover_expired settings g w2 = suspended (mh_lock "session") w2.
Proof.
  intros Hi Hg. unfold recover_expired, bind at 1.
  pose proof (lock_session "session" w2) as [S1 S2].
  destruct (suspended (mh_lock "session") w2) as [[[]|e] w3] eqn:E; [|done]. cbn in S1, S2.
  unfold bind, mcp_state, outside, zoom, gets. cbn. fold (mcp_of w3).
  rewrite S1, Hi, S2. destruct (Z.eqb_spec (mc_generation (mcp_of w2)) g); [done|].
  cbn. unfold ret. f_equal. destruct w3 as [t p]. done.
Qed.

(** C28. Recovery is single-flight.  Of the callers that saw the session of one
    generation expire, the first to hold the lock -- while that session is the
    client's, or none is -- performs one handshake: the requests it posts are
    [initialize], what the server asks meanwhile, and the notification of the client.
    When it succeeded, a session of another generation stands, and every other caller,
    arriving with the old generation while it stands, only waits for the lock: it
    resets nothing, sends nothing and keeps the session.  The other tasks of the
    process are quiet: they wait for the lock, and do not use this client otherwise.
    A caller that finds no session, as after a handshake that failed, performs its
    own. *)
Theorem recovery_single_flight `{!Journal log} g w w1
    (Hnewest : g ≤ mc_generation (mcp_of w))
    (Hseen : ss_initialized (mc_session (mcp_of w)) = false ∨ mc_generation (mcp_of w) = g)
    (Hfirst : recover_expired settings g w = (Ret tt, w1)) :
  (∃ requests, log_of log w1 = log_of log w ++ requests ∧ handshake settings requests) ∧
  ss_initialized (mc_session (mcp_of w1)) = true ∧ mc_generation (mcp_of w1) ≠ g ∧
  ∀ w2, same_session w1 w2 →
    recover_expired settings g w2 = suspended (mh_lock "session") w2 ∧
    log_of log (recover_expired settings g w2).2 = log_of log w2 ∧
    same_session w1 (recover_expired settings g w2).2.
Proof.
  destruct (recover_done g w w1 Hnewest Hfirst) as [Hi Hg].
  split; [by eapply recover_handshakes|]. split; [done|]. split; [done|].
  intros w2 Hlater. assert (recover_expired settings g w2 = suspended (mh_lock "session") w2) as ->.
  { destruct Hlater as [Hs Hn]. apply recover_waits; [by rewrite Hs|by rewrite Hn]. }
  split; [done|]. split; [apply (lock_silent log "session" w2)|].
  etrans; [exact Hlater|apply lock_session].
Qed.
End recovery.

(** ** The concrete server *)

Definition calls_received (server : Server) : Z := Z.of_nat (length (List.filter is_call (sv_sent server))).

#[export] Instance sample_counts_calls : CountsCalls calls_received.
Proof.
  split; [|cbn; intros; lia..]. intros payload hs [r [s server]]. cbn. unfold server_post. cbn.
  destruct (server_answer _ _) as [o answers]. unfold calls_received. cbn.
  destruct (is_call payload); cbn [length]; lia.
Qed.

#[export] Instance sample_quiet : QuietMcp Server.
Proof.
  split; [|done..]. intros payload hs [r [s server]]. cbn. unfold server_post. cbn.
  by destruct (server_answer _ _).
Qed.

(** The session expires under the call: it is recovered, the call fails, and it
    was sent once, between the two handshakes. *)
Definition sample_expiry : World (Process (McpProcess Server)) :=
  sample_mcp_world [] [None; Some "never asked"].
#[local] Notation sample_call := (call_tool (Z0:=Server) sample_settings "search" [] sample_expiry).

Definition expired_once (r : outcome ToolResult * World (Process (McpProcess Server))) : bool :=
  negb (match r.1 with Ret r => tr_ok r | Raise _ => true end)
  && bool_decide (length (sv_sent (mp_ext (pr_ext (w_ext r.2)))) = 5%nat).

Lemma sample_expired_once : expired_once sample_call = true.
Proof. vm_compute. reflexivity. Qed.

Lemma tool_call_sent_once_witness :
  expired_once sample_call = true ∧
  sent_in calls_received sample_call.2 ≤ sent_in calls_received sample_expiry + 1.
Proof.
  split; [exact sample_expired_once|].
  refine (tool_call_sent_once calls_received sample_settings "search" [] sample_expiry
    sample_call.1 _ _). apply surjective_pairing.
Defined.

#[local] Notation sample_recover := (recover_expired (Z0:=Server) sample_settings 0).

#[export] Instance sample_journal : Journal (λ server, rev (sv_sent server)).
Proof.
  split; [|done..]. intros payload hs [r [s server]]. cbn. unfold server_post. cbn.
  destruct (server_answer _ _) as [o answers]. done.
Qed.

Lemma recovery_single_flight_witness :
  let '(o, w1) := sample_recover (sample_mcp_world [] []) in
  o = Ret tt ∧ mc_generation (mcp_of w1) = 2 ∧ length (sv_sent (mp_ext (pr_ext (w_ext w1)))) = 2%nat ∧
  sample_recover w1 = suspended (mh_lock "session") w1.
Proof.
  destruct (sample_recover (sample_mcp_world [] [])) as [o w1] eqn:E.
  assert (o = Ret tt ∧ mc_generation (mcp_of w1) = 2 ∧
    length (sv_sent (mp_ext (pr_ext (w_ext w1)))) = 2%nat) as (Ho & Hg & Hl).
  { pose proof (f_equal fst E) as E1. pose proof (f_equal snd E) as E2. cbn [fst snd] in E1, E2.
    subst o w1. vm_compute. by repeat split. }
  subst o. split; [reflexivity|]. split; [exact Hg|]. split; [exact Hl|].
  assert (0 ≤ mc_generation (mcp_of (sample_mcp_world [] []))) as Hnew by (vm_compute; discriminate).
  destruct (recovery_single_flight (λ server, rev (sv_sent server)) sample_settings 0
    (sample_mcp_world [] []) w1 Hnew (or_introl eq_refl) E) as (_ & _ & _ & Hlater).
  apply Hlater. by split.
Defined.

(** The five requests of the run above are the five attempts its meter counts. *)
Lemma call_tool_contained_witness :
  expired_once sample_call = true ∧ attempts_of sample_call.2 = 5 ∧
  open_tool_attempts sample_call.2 = open_tool_attempts sample_expiry.
Proof.
  split; [exact sample_expired_once|].
  pose proof (call_tool_contained (λ server, rev (sv_sent server)) sample_settings "search" [] sample_expiry) as H.
  pose proof sample_expired_once as Hs. unfold expired_once in Hs.
  destruct sample_call as [o w'] eqn:E. cbn [fst snd] in *. destruct H as (_ & Hm & Ho & _ & _).
  split; [|exact Ho]. destruct (Hm eq_refl) as [_ Hx]. specialize (Hx ltac:(split; intros; by eexists)).
  apply andb_true_iff in Hs as [_ Hl%bool_decide_eq_true]. unfold log_of in Hx. rewrite length_rev, Hl in Hx.
  change (attempts_of sample_expiry) with 0 in Hx. cbn in Hx. lia.
Defined.
