(* ===== verification/AgentHost.v ===== *)
(** * The graph over its agents

    The interface the graph is verified against ([GraphHost], with [GraphLaws])
    is implemented by the role agents of [Agents] over the Ollama client: what
    the graph relies on is discharged here, so that the theorems of
    [GraphCorrect] hold of the composed program. *)

From S2P Require Import Prelude PyData Json RunTypes Settings Schemas Evidence Inventory.
From S2P Require Import Routing Meter Metrics PyNum ToolPolicy.
From S2P Require Import GraphState GraphNodes GraphRun GraphCorrect GraphBalance Ollama.
From S2P Require Import McpProtocol McpClient McpProps Prompts Agents.

(** [FinalVerificationReport] is validated by pydantic ([parse]) and then by its
    own validator. *)
Definition final_report_schema (json : pydict)
    (parse : string → string + FinalVerificationReport) : Schema FinalVerificationReport := {|
  sc_name := "FinalVerificationReport";
  sc_json := json;
  sc_validate := λ content,
    match parse content with
    | inl exc => inl exc
    | inr r =>
        match pass_requires_complete r with
        | Ret r => inr r
        | Raise e => inl (exn_text e)
        end
    end
|}.

Section host.
Context {Y : Type} `{!OllamaHost Y} `{TH : !ToolHost (Process Y)}.
Context (settings : Settings) (env : AgentEnv) (schemas : AgentSchemas).
Context (eenv : EvidenceEnv) (int_of_float : string → outcome Z).

#[local] Instance agents_host : GraphHost (Process Y) := {|
  gh_tools := TH;
  gh_env := eenv;
  gh_int_of_float := int_of_float;
  gh_type_name := oh_type_name;
  gh_planner := planner_invoke settings env schemas;
  gh_worker_execute := worker_execute settings env schemas;
  gh_worker_revise := worker_revise settings env schemas;
  gh_verify := verify settings env schemas;
  gh_synthesize := synthesize settings env;
  gh_verify_final := verify_final settings env schemas
|}.

Lemma task_rounds {X} (w w' : World X) : same_task w w' → rounds_and_balance w w'.
Proof. intros H. unfold rounds_and_balance, same_rounds, balanced, open_model_attempts. by rewrite H. Qed.

Lemma closed_rounds {X} success data (w w' : World X) :
  attempt_closed success data (w_task w) (w_task w') → rounds_and_balance w w'.
Proof.
  intros [? ? ? ? ? ? ? [? ?]]. unfold rounds_and_balance, same_rounds, balanced, open_model_attempts.
  destruct success; split_and!; lia.
Qed.

Context (Hmetered : oh_metered = true).

Lemma chat_rounds model messages temperature num_predict format think options :
  preserves rounds_and_balance
  (chat settings model messages temperature num_predict format think options).
Proof.
  intros w. destruct (chat settings _ _ _ _ _ _ _ w) as [o w'] eqn:E.
  destruct (chat_spec _ _ _ _ _ _ _ _ _ _ _ Hmetered E)
  as [[Hs _]|(x & wb & payload & Hc & _)]; [by apply task_rounds|by eapply closed_rounds].
Qed.

Lemma invoke_json_rounds {A} model system payload (schema : Schema A) :
  preserves rounds_and_balance (invoke_json settings env model system payload schema).
Proof.
  unfold invoke_json. case_bool_decide; [|apply preserves_raise, _].
  apply preserves_bind; [apply _| |intros [fs|r]; auto with preserve typeclass_instances].
  generalize (@nil string) as fs. generalize 1%nat as attempt.
  induction (_structured_models settings (agent_model settings model)) as [|m models IH];
  intros attempt fs; simpl; [apply preserves_ret, _|].
  apply preserves_bind; [apply _| |intros [f|r]; [apply IH|apply preserves_ret, _]].
  unfold structured_attempt. destruct (_compact_payload _ _).
  apply preserves_bind; [apply _|apply chat_rounds|]. intros response.
  destruct (negb _); [apply preserves_ret, _|].
  destruct (sc_validate schema _); apply preserves_ret, _.
Qed.

Lemma invoke_text_rounds model system payload :
  preserves rounds_and_balance (invoke_text settings env model system payload).
Proof.
  unfold invoke_text. case_bool_decide; [|apply preserves_raise, _].
  destruct (_compact_payload _ _).
  apply preserves_bind; [apply _|apply chat_rounds|]. intros response. apply preserves_ret, _.
Qed.

Lemma invoke_json_validated {A} model system payload (schema : Schema A) w r w' :
  invoke_json settings env model system payload schema w = (Ret r, w') →
  ∃ content, sc_validate schema content = inr r.
Proof.
  unfold invoke_json. case_bool_decide; [|done]. intros Hrun.
  apply bind_Ret_inv in Hrun as ([fs|r'] & w1 & Hrun & Hr); [done|]. injection Hr as <- <-.
  revert Hrun. generalize (@nil string) as fs. generalize 1%nat as attempt.
  revert w. induction (_structured_models settings (agent_model settings model)) as [|m models IH];
  intros w attempt fs; simpl; [done|]. intros Hrun.
  apply bind_Ret_inv in Hrun as ([f|r] & w2 & Ha & Hr); [by eapply IH|]. injection Hr as <- <-.
  unfold structured_attempt in Ha. destruct (_compact_payload _ _).
  apply bind_Ret_inv in Ha as (response & w3 & _ & Ha).
  destruct (negb _); [done|]. destruct (sc_validate schema _) eqn:Ev; [done|].
  injection Ha as <- <-. by eexists.
Qed.

(** *** The laws *)

(** [ExecutionPlan.tasks] is declared with [min_length=1]. *)
Context (Hplan : ∀ content p, sc_validate (as_plan schemas) content = inr p → ep_valid p = true).
Context (json : pydict) (parse : string → string + FinalVerificationReport).
Context (Hfinal : as_final schemas = final_report_schema json parse).
Context (Htools : ∀ name arguments, preserves rounds_and_balance (th_call_tool (X:=Process Y) name arguments)).

Lemma final_report_validated content r :
  sc_validate (as_final schemas) content = inr r → pass_requires_complete r = Ret r.
Proof.
  rewrite Hfinal. cbn. destruct (parse content) as [exc|r']; [done|].
  unfold pass_requires_complete. intros H.
  destruct (fr_verdict r') eqn:Hv, (fr_answer_complete r') eqn:Hc; simplify_eq; by rewrite Hv, ?Hc.
Qed.

#[local] Instance agents_laws : GraphLaws (Process Y).
Proof.
  assert (∀ A (m : M (World (Process Y)) A) w o w', preserves rounds_and_balance m →
  m w = (o, w') → same_rounds w w') as Hp.
  { intros A m w o w' H E. specialize (H w). rewrite E in H. apply H. }
  split; cbn; intros.
  - split; [by eapply Hp, H; apply invoke_json_rounds|]. intros p ->.
  by apply invoke_json_validated in H as [content Hc]; eapply Hplan.
  - by eapply Hp, H; apply Htools.
  - by eapply Hp, H; apply invoke_json_rounds.
  - by eapply Hp, H; apply invoke_json_rounds.
  - by eapply Hp, H; apply invoke_json_rounds.
  - by eapply Hp, H; apply invoke_text_rounds.
  - split; [by eapply Hp, H; apply invoke_json_rounds|]. intros r ->.
  by apply invoke_json_validated in H as [content Hc]; eapply final_report_validated.
Qed.

#[local] Instance agents_balance : BalanceLaws (Process Y).
Proof.
  assert (∀ A (m : M (World (Process Y)) A), preserves rounds_and_balance m → preserves balanced m)
  as Hp by (intros A m H w; apply H).
  split; cbn; intros; apply Hp;
  first [apply invoke_json_rounds|apply invoke_text_rounds|apply Htools].
Qed.

End host.

(** ** The service

    The tool host of the graph is the MCP client: it counts its own attempts
    ([physical_attempts_metered]), and its [call_tool] is the one of [McpClient]. *)

Section service.
Context {Z0 : Type} `{!OllamaHost (McpProcess Z0)} `{!McpHost Z0}.
Context (settings : Settings) (env : AgentEnv) (schemas : AgentSchemas).
Context (eenv : EvidenceEnv) (int_of_float : string → outcome Z).
(** The executor's semaphore, and its timer. *)
Context (acquire_slot : Process (McpProcess Z0) → outcome unit * Process (McpProcess Z0)).
Context (timer_fired : Z → Process (McpProcess Z0) → bool).

Definition lift_clock (read : McpProcess Z0 → Z * McpProcess Z0) (p : Process (McpProcess Z0)) :
    Z * Process (McpProcess Z0) :=
  let '(t, y) := read (pr_ext p) in (t, p <| pr_ext := y |>).

Definition service_tools : ToolHost (Process (McpProcess Z0)) := {|
  th_wall := lift_clock mh_wall;
  th_monotonic := lift_clock mh_clock;
  th_acquire_slot := acquire_slot;
  th_timer_fired := timer_fired;
  th_physical_attempts_metered := true;
  th_call_tool := call_tool settings
|}.

Definition service_host : GraphHost (Process (McpProcess Z0)) :=
  agents_host (TH:=service_tools) settings env schemas eenv int_of_float.

(** C4. The composed program implements what the graph is verified against.  The
    role agents over the Ollama client and the tool executor over the MCP client,
    with the request's meter bound, satisfy every law [GraphLaws] states of them,
    provided the schema of plans enforces its minimum length; so a run of the
    graph over them ends within [graph_fuel] super-steps, whatever the models and
    the tools answer, and closes every model attempt it begins. *)
Theorem service_implements_graph (json : pydict) (parse : string → string + FinalVerificationReport)
    (Hmetered : oh_metered = true)
    (Hplan : ∀ content p, sc_validate (as_plan schemas) content = inr p → ep_valid p = true)
    (Hfinal : as_final schemas = final_report_schema json parse) :
  @GraphLaws _ service_host ∧
  ∀ s w, ∃ r w', @run_graph _ service_host settings (graph_fuel settings w) NPlan s w = Some (r, w') ∧
    open_model_attempts w' = open_model_attempts w.
Proof.
  assert (∀ name arguments, preserves rounds_and_balance
    (@th_call_tool _ service_tools name arguments)) as Htools.
  { intros name arguments w. apply pc_rounds, call_tool_counted. }
  assert (@GraphLaws _ service_host) as Hlaws.
  { unfold service_host. by eapply agents_laws. }
  assert (@BalanceLaws _ service_host) as Hbalance.
  { unfold service_host. by apply agents_balance. }
  split; [exact Hlaws|]. intros s w.
  destruct (@run_graph_ends _ service_host Hlaws settings (graph_fuel settings w) NPlan s w)
    as ([r w'] & Hr & _); [done..|]. exists r, w'. split; [done|].
  by eapply (@graph_balanced _ service_host Hbalance).
Qed.
End service.

(** ** A concrete service *)

Section sample.

Definition sample_parse : string → string + FinalVerificationReport :=
  only "final" (MkFinalReport FPass true [] [] "0.9").

Definition sample_schemas : AgentSchemas := {|
  as_plan := MkSchema "ExecutionPlan" [] (only "plan"
  (MkExecutionPlan "recursion" [MkPlanTask "t1" "explain recursion" [] ["clear"] []]));
  as_worker := MkSchema "WorkerResult" [] (only "result"
  (MkWorkerResult "A recursive function is defined in terms of itself." [] [] [] "0.9"));
  as_report := MkSchema "VerificationReport" [] (only "report" (MkReport VPass true [] [] "0.9"));
  as_final := final_report_schema [] sample_parse
|}.

Definition sample_service_state : GState :=
  build_fresh_run_state "explain recursion" "prompt" "request" "general" [] [] "q1"
  (MkInventory [] [] [] false 0) "ollama" (Some "r1") (fresh_meter_state 0 1000) [].

(** The models answer with what the server holds for them. *)
#[local] Instance sample_models : OllamaHost (McpProcess Server) :=
  scripted_host (λ p, sv_models (mp_ext p))
    (λ r p, MkMcpProcess (mp_mcp p) (MkServer r (sv_answers (mp_ext p)) (sv_sent (mp_ext p)))).

(** The first answer of the planner is empty: its second model is asked. *)
Definition sample_service_world : World (Process (McpProcess Server)) :=
  sample_mcp_world [" "; "plan"; "result"; "report"] [].

Definition sample_service : GraphHost (Process (McpProcess Server)) :=
  service_host sample_settings sample_agent_env sample_schemas sample_env (λ _, Ret 0)
    (λ x, (Ret tt, x)) (λ _ _, false).

#[local] Notation sample_service_run :=
  (@run_graph _ sample_service sample_settings (graph_fuel sample_settings sample_service_world) NPlan
     sample_service_state sample_service_world).

Definition sample_service_check : bool :=
  match sample_service_run with
  | Some (Ret (NFinalize, s'), w') =>
      bool_decide (gs_response s' = "A recursive function is defined in terms of itself.")
      && bool_decide (ms_physical_model_attempts (eb_state (mt_meter (w_task w'))) = 4)
      && bool_decide (sv_models (mp_ext (pr_ext (w_ext w'))) = [])
  | _ => false
  end.

Lemma sample_service_run_check : sample_service_check = true.
Proof. vm_compute. reflexivity. Qed.

Lemma service_implements_graph_witness :
  sample_service_check = true ∧
  ∃ r w', sample_service_run = Some (r, w') ∧
    open_model_attempts w' = open_model_attempts sample_service_world.
Proof.
  split; [exact sample_service_run_check|].
  destruct (service_implements_graph (OllamaHost0:=sample_models) sample_settings sample_agent_env
    sample_schemas sample_env (λ _, Ret 0) (λ x, (Ret tt, x)) (λ _ _, false) [] sample_parse)
    as [_ Hrun].
  - reflexivity.
  - intros content p H. cbn in H. unfold only in H. destruct (String.eqb content "plan"); by simplify_eq.
  - reflexivity.
  - exact (Hrun sample_service_state sample_service_world).
Defined.
End sample.
