(* ===== verification/ChatRuntime.v ===== *)
(** * The chat runtime

    [ChatRuntimeAgent] of [app/orchestration/chat_runtime.py]: what surrounds a
    run of the agent graph.  A request enters the conversation gate, finds or
    creates its durable record, is replayed, refused or admitted by
    [_preflight_existing_run], acquires the lease, executes under a heartbeat,
    stores its outcome, then the conversation history, and releases the lease
    on the way out.

    The state of the process ([ChatState]) is the run repository, the gate, the
    metrics and the rest of the world, which only the operations of [ChatHost]
    touch: the conversation store, the checkpointer, the inventory, the graph,
    clocks and [uuid4].  Every [await] first asks the host what happens there
    ([h_delivery]): the call proceeds, or a cancellation is delivered before or
    after it.  A host operation sees the repository too, so that other workers
    may act on it while this request is suspended. *)

From S2P Require Import Prelude.
From S2P Require Import PyData.
From S2P Require Import RunTypes.
From S2P Require Import RunRepo.
From S2P Require Import Metrics.
From S2P Require Import Dates.
From S2P Require Import Settings.
From S2P Require Import Meter.
From S2P Require Import Inventory.
From S2P Require Import Routing.
From S2P Require Import GraphState.
From S2P Require Import PyNum.
From S2P Require Import ChatSchema.
From S2P Require Import Identity.
From S2P Require Import Gate.

(** ** State and host *)

Record ChatState (St H : Type) : Type := MkChat {
  cs_runs : St;
  cs_owners : list (string * string);
  cs_metrics : MetricsRegistry;
  cs_host : H
}.
Arguments MkChat {St H} _ _ _ _.
Arguments cs_runs {St H} _.
Arguments cs_owners {St H} _.
Arguments cs_metrics {St H} _.
Arguments cs_host {St H} _.

#[export] Instance eta_ChatState St H : Eta (ChatState St H) := λ s,
  MkChat (cs_runs s) (cs_owners s) (cs_metrics s) (cs_host s).

(** What the fresh run state is extended with before the graph runs. *)
Record GraphInput : Type := MkGraphInput {
  gi_state : GState;
  gi_conversation_id : string;
  gi_execution_thread_id : string;
  gi_state_schema_version : Z;
  gi_resume_requested : bool;
  gi_resumed : bool
}.

(** The channels of the graph's result and the meter it carries, if any. *)
Record GraphResult : Type := MkGraphResult {
  gr_values : pydict;
  gr_budget : option ExecutionBudget
}.

(** [cp_config] is the checkpoint's [config] when that is a dictionary. *)
Record Checkpoint : Type := MkCheckpoint { cp_config : option pydict }.

(** How the configured checkpointer can be asked. *)
Inductive lookup_kind : Type := AsyncGet | SyncGet | NoGet.

Class ChatHost (St H : Type) : Type := {
  h_delivery : M (St * H) delivery;
  h_clock : M (St * H) clock;
  h_now : M (St * H) Z;                      (** [datetime.now(UTC)] *)
  h_time : M (St * H) Z;                     (** [int(time())] *)
  h_mono : M (St * H) (Z * Z);               (** wall and monotonic clock, in microseconds *)
  h_uuid4 : M (St * H) string;
  h_lookup : lookup_kind;
  h_get_tuple : pyval → M (St * H) (option Checkpoint);
  h_append_turn : string → string → pydict → pydict → M (St * H) unit;
  h_memory_get : string → M (St * H) (list pyval);
  h_inventory_load : M (St * H) RuntimeInventory;
  h_checkpoint_grounding : pyval → M (St * H) (list Grounding.ClaimGroundingResult);
  h_graph_ainvoke : option GraphInput → pyval → ExecutionBudget → M (St * H) (option GraphResult);
  h_meter_after : ExecutionBudget → M (St * H) ExecutionBudget;
  h_beats : M (St * H) nat;                  (** heartbeats before the execution ends *)
  h_stop_execution : M (St * H) unit;
  h_type_name : exn → string;                (** [type(exc).__name__] *)
  h_float : Z → pyval;                       (** the float of a number of microseconds *)
  h_str : pyval → string                     (** [str(v)] *)
}.

(** [_RunExecution]. *)
Record RunExecution : Type := MkExecution {
  ex_response : ChatResponse;
  ex_status : OutcomeStatus;
  ex_termination_reason : option string;
  ex_error_code : option string
}.

Section runtime.
Context {St H : Type} `{RunRepository St} `{!ChatHost St H}.
Context (env : IdentityEnv) (settings : Settings) (svc : RunIdentityService).

Abbreviation CM := (M (ChatState St H)) (only parsing).

(** ** Effects *)

Definition world {A} (m : M (St * H) A) : CM A :=
  zoom (λ s, (cs_runs s, cs_host s)) (λ w s, s <| cs_runs := w.1 |> <| cs_host := w.2 |>) m.

Definition repo {A} (m : M St A) : CM A :=
  zoom cs_runs (λ r s, s <| cs_runs := r |>) m.

Definition count (name : string) : CM unit :=
  zoom cs_metrics (λ m s, s <| cs_metrics := m |>) (inc name 1).

(** [await m]. *)
Definition await_ {A} (m : CM A) : CM A :=
  let! d := world h_delivery in
  match d with
  | Proceed => m
  | CancelBefore => raise CancelledError
  | CancelAfter => m ;;; raise CancelledError
  end.

(** [await self.run_repository.op(...)], which reads the clock. *)
Definition await_repo {A} (op : clock → M St A) : CM A :=
  await_ (let! clk := world h_clock in repo (op clk)).

(** [except Exception]: everything but a cancellation. *)
Definition except_exception {A} (h : exn → CM A) (e : exn) : option (CM A) :=
  match e with CancelledError => None | _ => Some (h e) end.

(** ** Checkpoints and history *)

Definition lookup_checkpoint (config : pyval) : CM (option Checkpoint) :=
  await_ (world (h_get_tuple config)).

Definition _checkpoint_exists_safely (config : pyval) (required : bool) : CM bool :=
  try_except
  (match h_lookup (St:=St) (H:=H) with
   | AsyncGet | SyncGet =>
       let! found := lookup_checkpoint config in
       ret (match found with Some _ => true | None => false end)
   | NoGet => raise (PyExn RuntimeError "The configured checkpointer cannot inspect run identity")
   end)
  (except_exception (λ e,
    if required then raise e
    else count "chat.checkpoint_lookup_degraded" ;;; ret false)).

(** [configurable.get('checkpoint_id')] of the checkpoint's configuration;
without an asynchronous lookup the synchronous one is called untested. *)
Definition checkpoint_id_of (found : option Checkpoint) : outcome (option string) :=
  match found with
  | None | Some (MkCheckpoint None) => Ret None
  | Some (MkCheckpoint (Some config)) =>
    let configurable := get_or_none "configurable" config in
    if truthy configurable then
      match configurable with
      | VDict d =>
          let value := get_or_none "checkpoint_id" d in
          Ret (if truthy value then Some (h_str (St:=St) (H:=H) value) else None)
      | _ => Raise (PyExn AttributeError "get")
      end
    else Ret None
  end.

Definition _checkpoint_id_safely (config : pyval) : CM (option string) :=
  try_except
  (let! found :=
     match h_lookup (St:=St) (H:=H) with
     | AsyncGet | SyncGet => lookup_checkpoint config
     | NoGet => raise (PyExn AttributeError "get_tuple")
     end in
   of_outcome (checkpoint_id_of found))
  (except_exception (λ _, count "chat.checkpoint_id_lookup_degraded" ;;; ret None)).

Definition history_message (identity : RunIdentity) (role content : string) : pydict := [
  ("role", VStr role); ("content", VStr content);
  ("metadata", VDict [("conversation_id", VStr (id_conversation_id identity));
                    ("run_id", VStr (id_run_id identity))])].

Definition _append_history_safely (identity : RunIdentity) (user_message assistant_message : string) :
  CM bool :=
  try_except
  (await_ (world (h_append_turn (id_conversation_id identity) (id_run_id identity)
     (history_message identity "user" user_message)
     (history_message identity "assistant" assistant_message))) ;;;
   ret true)
  (except_exception (λ _, count "chat.history_append_error" ;;; ret false)).

(** [response.metadata.setdefault('persistence', {})['history_persisted'] = b]. *)
Definition set_history_persisted (b : bool) (response : ChatResponse) : outcome ChatResponse :=
  let persistence := default (VDict []) (dict_get "persistence" (resp_metadata response)) in
  match persistence with
  | VDict d =>
    Ret (response <| resp_metadata :=
      dict_set "persistence" (VDict (dict_set "history_persisted" (VBool b) d)) (resp_metadata response) |>)
  | _ => Raise (PyExn TypeError "object does not support item assignment")
  end.

(** ** Admission *)

Definition replayable (record : RunRecord) : option pydict :=
  match rec_response_payload record with
  | Some payload =>
    if bool_decide (rec_status record = Completed ∨ rec_status record = Failed
                    ∨ rec_status record = Cancelled) then Some payload else None
  | None => None
  end.

Definition lease_expired (record : RunRecord) (now : Z) : bool :=
  match rec_lease_expires_at record with Some t => t <=? now | None => false end.

Definition validated_response (payload : pydict) : CM ChatResponse :=
  let! fresh := world h_uuid4 in of_outcome (response_validate fresh payload).

Definition replay_response (request : ChatRequest) (identity : RunIdentity) (record : RunRecord)
  (payload : pydict) : CM ChatResponse :=
  let! response := validated_response payload in
  let! response :=
  match rec_history_committed_at record with
  | Some _ => ret response
  | None =>
      let! committed := _append_history_safely identity (cr_message request) (resp_response response) in
      let! response := of_outcome (set_history_persisted committed response) in
      (if committed then
         await_repo (λ clk, reconcile_history_committed clk (id_run_id identity)
           (Some (response_dump response))) ;;; ret tt
       else ret tt) ;;;
      ret response
  end in
  count "chat.idempotent_durable_replay" ;;;
  ret response.

Definition _preflight_existing_run (request : ChatRequest) (identity : RunIdentity)
  (record : RunRecord) (created resume_migrated : bool) : CM (option ChatResponse) :=
  if id_resumed identity
   && negb (id_resume_token_version identity =? rec_resume_token_version record) then
  raise (IdentityExn ResumeTokenRevokedError "The resume token has been revoked")
  else match replayable record with
  | Some payload => let! response := replay_response request identity record payload in ret (Some response)
  | None =>
  if id_resumed identity && resume_migrated && bool_decide (rec_status record = Pending) then ret None
  else if created then
    if id_resumed identity then
      raise (IdentityExn ResumeRunNotFoundError
        "No durable run record exists for the requested resumable run")
    else ret None
  else
    let! now := world h_now in
    if id_resumed identity then
      if bool_decide (rec_status record = Interrupted) then ret None
      else if bool_decide (rec_status record = Running) && lease_expired record now then ret None
      else raise (IdentityExn RunNotResumableError
        ("Run status '" +:+ status_name (rec_status record) +:+ "' cannot be resumed"))
    else if bool_decide (rec_status record = Running) then
      if lease_expired record now then
        raise (conflict "The previous owner lease expired; resume with the server-issued token")
      else raise (busy "The run is already active")
    else if bool_decide (rec_status record = Pending) then ret None
    else raise (conflict "The run already exists; use its resume token only when it is interrupted")
  end.

(** ** One execution *)

Definition _fallback_message (reason : string) : string :=
  "Execution stopped safely before a verified answer could be produced: " +:+ reason +:+ ".".

Definition _safe_failure_result (reason error_code : string) : pydict := [
  ("response", VStr (_fallback_message reason));
  ("backend", VStr (backend_name (llm_backend settings)));
  ("model", VNone);
  ("termination_reason", VStr reason);
  ("plan", VNone);
  ("task_results", VList []);
  ("iterations", VInt 0);
  ("selected_models", VDict []);
  ("selected_tool", VNone);
  ("selected_tools", VDict []);
  ("research_queries", VDict []);
  ("_run_status", VStr "failed");
  ("_run_error_code", VStr error_code)].

Definition failure (reason error_code metric : string) : CM GraphResult :=
  count metric ;;; ret (MkGraphResult (_safe_failure_result reason error_code) None).

(** The clauses in the order of the code: a cancellation passes. *)
Definition graph_failure (e : exn) : option (CM GraphResult) :=
  match e with
  | BudgetExceeded reason =>
    Some (failure reason "budget_exhausted" "graph.unhandled_budget_exhausted")
  | StructuredOutputError schema_name attempted_models _ =>
    Some (failure
      ("structured output failed for " +:+ schema_name +:+ " after " +:+
       nat_to_string (length attempted_models) +:+ " bounded attempt(s)")
      "structured_output_failed" "graph.unhandled_structured_output_error")
  | CancelledError => None
  | _ =>
    Some (failure ("agent execution failed: " +:+ h_type_name (St:=St) (H:=H) e)
      "agent_execution_failed" "graph.unhandled_runtime_error")
  end.

Definition _invoke_graph_safely (graph_input : option GraphInput) (config : pyval)
  (budget : ExecutionBudget) : CM GraphResult :=
  try_except
  (let! result := await_ (world (h_graph_ainvoke graph_input config budget)) in
   match result with
   | Some r => ret r
   | None => raise (PyExn RuntimeError "The graph returned a non-object result")
   end)
  graph_failure.

(** [usage_metadata]; instants and durations are in microseconds. *)
Definition opt_float (o : option Z) : pyval :=
  match o with Some v => h_float (St:=St) (H:=H) v | None => VNone end.

Definition meter_dump (m : ExecutionMeterState) : pydict :=
  let float := h_float (St:=St) (H:=H) in [
  ("schema_version", VInt (ms_schema_version m));
  ("logical_model_operations", VInt (ms_logical_model_operations m));
  ("physical_model_attempts", VInt (ms_physical_model_attempts m));
  ("model_successes", VInt (ms_model_successes m));
  ("model_failures", VInt (ms_model_failures m));
  ("fallback_attempts", VInt (ms_fallback_attempts m));
  ("tool_attempts", VInt (ms_tool_attempts m));
  ("tool_successes", VInt (ms_tool_successes m));
  ("tool_failures", VInt (ms_tool_failures m));
  ("tool_timeouts", VInt (ms_tool_timeouts m));
  ("verifier_rounds", VInt (ms_verifier_rounds m));
  ("revision_rounds", VInt (ms_revision_rounds m));
  ("final_revision_rounds", VInt (ms_final_revision_rounds m));
  ("research_rounds", VInt (ms_research_rounds m));
  ("replans", VInt (ms_replans m));
  ("prompt_tokens", VInt (ms_prompt_tokens m));
  ("generated_tokens", VInt (ms_generated_tokens m));
  ("context_utilization", opt_float (ms_context_utilization m));
  ("queue_wait_seconds", float (ms_queue_wait_seconds m));
  ("model_load_seconds", float (ms_model_load_seconds m));
  ("time_to_first_token", opt_float (ms_time_to_first_token m));
  ("checkpoint_reads", VInt (ms_checkpoint_reads m));
  ("checkpoint_writes", VInt (ms_checkpoint_writes m));
  ("checkpoint_bytes", VInt (ms_checkpoint_bytes m));
  ("artifact_reads", VInt (ms_artifact_reads m));
  ("artifact_writes", VInt (ms_artifact_writes m));
  ("started_at", VStr (json_datetime (ms_started_at m)));
  ("deadline_at", VStr (json_datetime (ms_deadline_at m)));
  ("elapsed_wall_seconds", float (ms_elapsed_wall_seconds m));
  ("active_execution_seconds", float (ms_active_execution_seconds m));
  ("cancellation_count", VInt (ms_cancellation_count m))].

Definition usage_metadata (b : ExecutionBudget) (now mono : Z) : pydict :=
  let m := snapshot b now now mono in
  dict_merge (meter_dump m) [
  ("model_calls", VInt (ms_physical_model_attempts m));
  ("tool_calls", VInt (ms_tool_attempts m));
  ("elapsed_seconds", h_float (St:=St) (H:=H) (elapsed_seconds b now mono))].

Definition run_metadata (request : ChatRequest) (identity : RunIdentity) : pydict :=
  dict_merge (sanitized_metadata request) [
  ("conversation_id", VStr (id_conversation_id identity));
  ("run_id", VStr (id_run_id identity));
  ("execution_thread_id", VStr (id_execution_thread_id identity));
  ("state_schema_version", VInt (id_state_schema_version identity));
  ("request_hash_version", VInt (id_request_hash_version identity));
  ("resume_requested", VBool (id_resume_requested identity))].

Definition names_value (l : list string) : pyval := VList (map VStr l).

Definition response_metadata (request : ChatRequest) (identity : RunIdentity) (resume_token : string)
  (status : OutcomeStatus) (result : pydict) (decision : SystemPromptDecision)
  (inventory : RuntimeInventory) (usage : pydict) : pydict :=
  dict_merge (sanitized_metadata request) [
  ("runtime_contract", VStr "run-identity-v1");
  ("run_repository_contract", VStr "durable-run-v1");
  ("identity", VDict [
    ("conversation_id", VStr (id_conversation_id identity));
    ("run_id", VStr (id_run_id identity));
    ("execution_thread_id", VStr (id_execution_thread_id identity));
    ("checkpoint_namespace", VStr (id_checkpoint_namespace identity));
    ("state_schema_version", VInt (id_state_schema_version identity));
    ("request_hash_version", VInt (id_request_hash_version identity));
    ("resumed", VBool (id_resumed identity));
    ("resume_token", VStr resume_token);
    ("resume_token_key_id", VStr (_active_key_id svc));
    ("resume_token_version", VInt (id_resume_token_version identity));
    ("resume_token_expires_in_seconds", VInt (_ttl_seconds svc));
    ("resume_token_persistent_across_restart", VBool (_persistent_secret svc))]);
  ("persistence", VDict [
    ("state_backend", VStr (state_backend settings));
    ("run_repository_backend", VStr (run_repository_backend settings));
    ("checkpoint_backend", VStr (checkpoint_backend settings));
    ("artifact_backend", VStr (artifact_backend settings));
    ("history_persisted", VBool false)]);
  ("run_status", VStr (status_name (outcome_status status)));
  ("plan", get_or_none "plan" result);
  ("verification", get_or_none "task_results" result);
  ("final_verification", get_or_none "final_verification" result);
  ("final_revision_rounds", default (VInt 0) (dict_get "final_revision_rounds" result));
  ("iterations", get_or_none "iterations" result);
  ("termination_reason", get_or_none "termination_reason" result);
  ("routing", get_or_none "routing" result);
  ("selected_models", get_or_none "selected_models" result);
  ("selected_tool", get_or_none "selected_tool" result);
  ("selected_tools", get_or_none "selected_tools" result);
  ("research_queries", get_or_none "research_queries" result);
  ("system_prompt", VDict [
    ("source", VStr (sp_source decision));
    ("domain", VStr (sp_domain decision));
    ("generated", VBool (String.eqb (sp_source decision) "derived"))]);
  ("inventory", VDict [
    ("models", names_value (model_names inventory));
    ("tools", names_value (tool_names inventory));
    ("errors", VDict (map (λ kv, (kv.1, VStr kv.2)) (ri_errors inventory)));
    ("cached", VBool (ri_cached inventory))]);
  ("usage", VDict usage)].

(** A channel that holds a string or [None]. *)
Definition text_channel (key : string) (result : pydict) : option string :=
  match dict_get key result with Some (VStr s) => Some s | _ => None end.

(** [str(result.get(key) or dflt)]. *)
Definition str_channel (key dflt : string) (result : pydict) : string :=
  let v := get_or_none key result in
  if truthy v then h_str (St:=St) (H:=H) v else dflt.

Definition fresh_input (request : ChatRequest) (identity : RunIdentity) (request_id : string)
  (history : list pyval) (inventory : RuntimeInventory) (decision : SystemPromptDecision)
  (budget : ExecutionBudget) (grounding : list Grounding.ClaimGroundingResult) : GraphInput := {|
  gi_state := build_fresh_run_state (cr_message request) (sp_prompt decision) (sp_source decision)
  (sp_domain decision) (run_metadata request identity) history request_id inventory
  (backend_name (llm_backend settings)) (Some (id_run_id identity)) (eb_state budget) grounding;
  gi_conversation_id := id_conversation_id identity;
  gi_execution_thread_id := id_execution_thread_id identity;
  gi_state_schema_version := id_state_schema_version identity;
  gi_resume_requested := id_resume_requested identity;
  gi_resumed := id_resumed identity |}.

Definition _execute_run (request : ChatRequest) (identity : RunIdentity) (config : pyval) :
  CM RunExecution :=
  let! request_id := world h_uuid4 in
  let! clocks := world h_mono in
  let budget := init_budget (seconds (execution_max_duration_seconds settings))
  (execution_max_model_calls settings) (execution_max_tool_calls settings)
  (execution_max_verifier_rounds settings) None clocks.1 clocks.2 in
  let! history := await_ (world (h_memory_get (id_conversation_id identity))) in
  let! inventory := await_ (world h_inventory_load) in
  let decision := prepare_system_prompt (cr_message request) (cr_system_prompt request) in
  count "chat.requests" ;;;
  let! grounding := world (h_checkpoint_grounding config) in
  let graph_input :=
  if id_resumed identity then None
  else Some (fresh_input request identity request_id history inventory decision budget grounding) in
  let! result := _invoke_graph_safely graph_input config budget in
  let! effective_budget :=
  match gr_budget result with Some b => ret b | None => world (h_meter_after budget) end in
  let values := gr_values result in
  let! now := world h_time in
  let! resume_token := of_outcome (issue_resume_token svc now identity) in
  let status := match dict_get "_run_status" values with
              | Some (VStr "failed") => OutFailed | _ => OutCompleted end in
  let! clocks' := world h_mono in
  let! fresh := world h_uuid4 in
  let! model := of_outcome (opt_str_field (dict_get "model" values)) in
  let response := from_result fresh fresh fresh
  (Some (id_conversation_id identity)) (Some (id_conversation_id identity))
  (Some (id_run_id identity)) None
  (str_channel "response" (_fallback_message "empty response") values)
  (str_channel "backend" (backend_name (llm_backend settings)) values)
  model
  (response_metadata request identity resume_token status values decision inventory
     (usage_metadata effective_budget clocks'.1 clocks'.2)) in
  ret (MkExecution response status (text_channel "termination_reason" values)
  (text_channel "_run_error_code" values)).

(** ** Heartbeat *)

(** [n] renewals, each of the lease the previous one returned. *)
Fixpoint _lease_heartbeat (n : nat) (lease : RunLease) : CM RunLease :=
  match n with
  | O => ret lease
  | S n' =>
    let! current := await_repo (λ clk, renew clk lease (run_lease_ttl_seconds settings)) in
    count "chat.lease_renewed" ;;;
    _lease_heartbeat n' current
  end.

(** The execution and the heartbeat run side by side and touch different parts
of the state; [h_beats] renewals happen before the execution ends.  A
renewal that fails stops the execution, and its exception is raised. *)
Definition _execute_with_heartbeat (request : ChatRequest) (identity : RunIdentity) (config : pyval)
  (lease : RunLease) : CM RunExecution :=
  let! beats := world h_beats in
  try_except (_lease_heartbeat beats lease)
  (λ e, Some (world h_stop_execution ;;; raise e)) ;;;
  await_ (_execute_run request identity config).

(** ** The whole request *)

Definition _mark_interrupted_safely (lease : RunLease) (termination_reason error_code : string) : CM unit :=
  try_except
  (await_repo (λ clk, mark_terminal clk lease OutInterrupted None (Some termination_reason)
     (Some error_code) None) ;;; ret tt)
  (λ e, if is_stale e then Some (count "chat.interrupt_stale_lease")
        else except_exception (λ _, ret tt) e).

(** The [except] clauses around an admitted run; all raise again. *)
Definition run_raised {A} (lease : RunLease) (terminal_persisted : bool) (e : exn) : CM A :=
  match e with
  | CancelledError =>
    _mark_interrupted_safely lease "request_cancelled" "request_cancelled" ;;;
    count "chat.run_interrupted" ;;;
    raise e
  | _ =>
    if is_stale e then count "chat.stale_lease" ;;; raise e
    else
      (if terminal_persisted then ret tt
       else _mark_interrupted_safely lease "runtime_interrupted" "runtime_interrupted") ;;;
      count "chat.run_failed" ;;;
      raise e
  end.

(** Up to [terminal_persisted = True]. *)
Definition execute_and_store (request : ChatRequest) (identity : RunIdentity) (config : pyval)
  (lease : RunLease) : CM RunExecution :=
  let! execution := _execute_with_heartbeat request identity config lease in
  let! checkpoint_id := _checkpoint_id_safely config in
  await_repo (λ clk, mark_terminal clk lease (ex_status execution)
  (Some (response_dump (ex_response execution))) (ex_termination_reason execution)
  (ex_error_code execution) checkpoint_id) ;;;
  ret execution.

(** After it. *)
Definition commit_history (request : ChatRequest) (identity : RunIdentity) (lease : RunLease)
  (execution : RunExecution) : CM ChatResponse :=
  let! history_persisted := _append_history_safely identity (cr_message request)
  (resp_response (ex_response execution)) in
  let! response := of_outcome (set_history_persisted history_persisted (ex_response execution)) in
  (if history_persisted then
   await_repo (λ clk, mark_history_committed clk lease (Some (response_dump response))) ;;; ret tt
   else ret tt) ;;;
  ret response.

(** The [try] statement: [terminal_persisted] is false in its first part and
true in its second, and every clause raises again. *)
Definition run_admitted (request : ChatRequest) (identity : RunIdentity) (config : pyval)
  (lease : RunLease) : CM ChatResponse :=
  try_finally
  (let! execution := try_except (execute_and_store request identity config lease)
     (λ e, Some (run_raised lease false e)) in
   try_except (commit_history request identity lease execution)
     (λ e, Some (run_raised lease true e)))
  (await_repo (λ clk, release clk lease)).

Definition resumable_mismatch (record : RunRecord) (identity : RunIdentity) : bool :=
  negb (String.eqb (rec_conversation_id record) (id_conversation_id identity))
  || negb (String.eqb (rec_execution_thread_id record) (id_execution_thread_id identity))
  || negb (String.eqb (rec_request_hash record) (id_request_hash identity))
  || negb (rec_request_hash_version record =? id_request_hash_version identity)
  || negb (rec_state_schema_version record =? id_state_schema_version identity).

(** The record of the request: [(record, created, resume_migrated,
checkpoint_exists)]. *)
Definition locate_run (identity : RunIdentity) (config : pyval) :
  CM (RunRecord * bool * bool * option bool) :=
  if id_resumed identity then
  let! found := await_ (repo (get (id_run_id identity))) in
  match found with
  | None =>
      let! exists_ := _checkpoint_exists_safely config true in
      if exists_ then
        let! rc := await_repo (λ clk, create_or_get clk identity) in
        ret (rc.1, rc.2, true, Some true)
      else raise (IdentityExn ResumeRunNotFoundError
        "No checkpoint exists for the requested resumable run")
  | Some record =>
      if resumable_mismatch record identity then
        raise (conflict "The resumable run identity does not match the durable record")
      else ret (record, false, false, None)
  end
  else
  let! rc := await_repo (λ clk, create_or_get clk identity) in
  ret (rc.1, rc.2, false, None).

(** The checks between admission and the lease. *)
Definition check_checkpoint (identity : RunIdentity) (config : pyval) (created : bool)
  (known : option bool) : CM unit :=
  let! checkpoint_exists :=
  match known with
  | Some b => ret b
  | None => _checkpoint_exists_safely config
      (id_resumed identity || (id_client_supplied_run_id identity && negb created))
  end in
  if id_resumed identity && negb checkpoint_exists then
  raise (IdentityExn ResumeRunNotFoundError "No checkpoint exists for the requested resumable run")
  else if negb (id_resumed identity) && id_client_supplied_run_id identity && created
        && checkpoint_exists then
  raise (conflict ("The supplied run_id already has checkpoint state; use resume=true " +:+
    "with its server-issued resume token"))
  else ret tt.

Definition _ainvoke_with_identity (request : ChatRequest) (identity : RunIdentity) : CM ChatResponse :=
  hold cs_owners (λ o s, s <| cs_owners := o |>) identity (
  let config := langgraph_config identity in
  let! located := locate_run identity config in
  let* (record, created, resume_migrated, known) := ret located in
  let! replay := _preflight_existing_run request identity record created resume_migrated in
  match replay with
  | Some response => ret response
  | None =>
      check_checkpoint identity config created known ;;;
      let! owner_id := world h_uuid4 in
      let! lease := await_repo (λ clk, acquire clk identity owner_id (run_lease_ttl_seconds settings)) in
      run_admitted request identity config lease
  end).

Definition ainvoke (request : ChatRequest) : CM ChatResponse :=
  let! now := world h_time in
  let! c := world h_uuid4 in
  let! r := world h_uuid4 in
  let! identity := of_outcome (normalize env svc now c r request) in
  _ainvoke_with_identity request identity.
End runtime.
