(* ===== verification/ChatProps.v ===== *)
(** * What the chat runtime guarantees

    The gate is left as it was found, whatever happens ([gate_restored]); a run
    is admitted only when it was never started, or with a valid token when it
    was interrupted or abandoned ([admission_sound]); a response that is
    returned is the stored outcome of the run ([outcome_durable]), and asking
    again returns it without another execution ([replay_exact]).  Two runs of
    the model show what is not guaranteed: a cancellation after the outcome was
    stored replaces it ([cancellation_loses_outcome]), and a request admitted
    before another worker finishes the same run executes it a second time
    ([stale_admission_reexecutes]). *)

From stdpp Require Import relations.
From S2P Require Import Prelude.
From S2P Require Import PyData.
From S2P Require Import RunTypes.
From S2P Require Import RunRepo.
From S2P Require Import MemoryRepo.
From S2P Require Import PostgresRepo.
From S2P Require Import RunOutcome.
From S2P Require Import Metrics.
From S2P Require Import Settings.
From S2P Require Import Meter.
From S2P Require Import Inventory.
From S2P Require Import Routing.
From S2P Require Import PyNum.
From S2P Require Import ChatSchema.
From S2P Require Import Identity.
From S2P Require Import Gate.
From S2P Require Import ChatRuntime.

(** ** Effects *)

Lemma preserves_zoom {S T A} (R : S → S → Prop) (get : S → T) (set : T → S → S) (m : M T A) :
  (∀ s, R s (set (m (get s)).2 s)) → preserves R (zoom get set m).
Proof. intros H s. unfold zoom. specialize (H s). by destruct (m (get s)). Qed.

(** Two computations that leave the same state keep the same relations. *)
Lemma repo_effect {St H A B} (R : ChatState St H → ChatState St H → Prop) (m : M St A) (m' : M St B) :
  (∀ s, (m s).2 = (m' s).2) → preserves R (repo (H:=H) m') → preserves R (repo (H:=H) m).
Proof.
  intros E Hm s. specialize (Hm s). unfold repo, zoom in *.
  specialize (E (cs_runs s)). destruct (m (cs_runs s)), (m' (cs_runs s)). simpl in *. by subst.
Qed.

Lemma bind_ret_effect {S A B} (m : M S A) (f : A → B) s : (m s).2 = ((let! x := m in ret (f x)) s).2.
Proof. unfold bind. by destruct (m s) as [[a|e] s']. Qed.

(** The structure of the code, whatever the relation. *)
Ltac chat_step :=
  lazymatch goal with
  | |- preserves _ (bind _ _) => apply preserves_bind; [apply _| |intros ?]
  | |- preserves _ (try_except _ _) => apply preserves_try_except; [apply _| |intros ? ? ?]
  | |- preserves _ (try_finally _ _) => apply preserves_try_finally; [apply _| |]
  | |- preserves _ (ret _) => apply preserves_ret, _
  | |- preserves _ (raise _) => apply preserves_raise, _
  | |- preserves _ (of_outcome _) => apply preserves_of_outcome, _
  | |- preserves _ (if ?b then _ else _) => destruct b
  | |- preserves _ (match ?x with _ => _ end) => destruct x
  | H : Some _ = Some _ |- _ => injection H as <-
  | H : except_exception _ ?e = Some _ |- _ =>
      destruct e; simpl in H; try discriminate H; injection H as <-
  end.

Section effects.
Context {St H : Type} `{RunRepository St} `{!ChatHost St H}.
Context (env : IdentityEnv) (settings : Settings) (svc : RunIdentityService).
Context (R : ChatState St H → ChatState St H → Prop) `{!PreOrder R}.

(** Every elementary effect keeps [R]. *)
Record effects_keep : Prop := {
  ek_delivery : preserves R (world h_delivery);
  ek_clock : preserves R (world h_clock);
  ek_now : preserves R (world h_now);
  ek_time : preserves R (world h_time);
  ek_mono : preserves R (world h_mono);
  ek_uuid4 : preserves R (world h_uuid4);
  ek_get_tuple : ∀ c, preserves R (world (h_get_tuple c));
  ek_append : ∀ c r u a, preserves R (world (h_append_turn c r u a));
  ek_memory : ∀ c, preserves R (world (h_memory_get c));
  ek_inventory : preserves R (world h_inventory_load);
  ek_grounding : ∀ c, preserves R (world (h_checkpoint_grounding c));
  ek_graph : ∀ i c b, preserves R (world (h_graph_ainvoke i c b));
  ek_meter : ∀ b, preserves R (world (h_meter_after b));
  ek_beats : preserves R (world h_beats);
  ek_stop : preserves R (world h_stop_execution);
  ek_count : ∀ n, preserves R (count n);
  ek_repo : ∀ clk op, preserves R (repo (exec clk op))
}.

Context (K : effects_keep).

Ltac chat_op := first
  [ apply (ek_delivery K) | apply (ek_clock K) | apply (ek_now K) | apply (ek_time K)
  | apply (ek_mono K) | apply (ek_uuid4 K) | apply (ek_get_tuple K) | apply (ek_append K)
  | apply (ek_memory K) | apply (ek_inventory K) | apply (ek_grounding K) | apply (ek_graph K)
  | apply (ek_meter K) | apply (ek_beats K) | apply (ek_stop K) | apply (ek_count K) ].

Lemma keep_await {A} (m : M (ChatState St H) A) : preserves R m → preserves R (await_ m).
Proof. intros Hm. unfold await_. repeat (assumption || chat_op || chat_step). Qed.

Lemma keep_await_repo {A} (op : clock → M St A) :
  (∀ clk, preserves R (repo (op clk))) → preserves R (await_repo op).
Proof. intros Hm. apply keep_await. repeat (chat_op || chat_step). apply Hm. Qed.

Lemma keep_op {A} (m : M St A) clk op (f : A → repo_reply) :
  (∀ s, exec clk op s = (let! x := m in ret (f x)) s) → preserves R (repo m).
Proof.
  intros E. apply (repo_effect _ m (exec clk op)); [|apply (ek_repo K)].
  intros s. rewrite E. apply bind_ret_effect.
Qed.

Lemma keep_create clk i : preserves R (repo (create_or_get clk i)).
Proof.
  apply (keep_op _ clk (OpCreate i) (λ rb, RepCreated rb.1 rb.2)). intros s. simpl. unfold bind.
  by destruct (create_or_get clk i s) as [[[r b]|e] s'].
Qed.
Lemma keep_get id : preserves R (repo (get id)).
Proof. by apply (keep_op _ (λ _, 0) (OpGet id) RepMaybe). Qed.
Lemma keep_acquire clk i owner ttl : preserves R (repo (acquire clk i owner ttl)).
Proof. by apply (keep_op _ clk (OpAcquire i owner ttl) RepLease). Qed.
Lemma keep_renew clk l ttl : preserves R (repo (renew clk l ttl)).
Proof. by apply (keep_op _ clk (OpRenew l ttl) RepLease). Qed.
Lemma keep_release clk l : preserves R (repo (release clk l)).
Proof. by apply (keep_op _ clk (OpRelease l) (λ _, RepUnit)). Qed.
Lemma keep_terminal clk l st p a b c : preserves R (repo (mark_terminal clk l st p a b c)).
Proof. by apply (keep_op _ clk (OpMarkTerminal l st p a b c) RepRecord). Qed.
Lemma keep_history clk l p : preserves R (repo (mark_history_committed clk l p)).
Proof. by apply (keep_op _ clk (OpMarkHistory l p) RepRecord). Qed.
Lemma keep_reconcile clk id p : preserves R (repo (reconcile_history_committed clk id p)).
Proof. by apply (keep_op _ clk (OpReconcile id p) RepRecord). Qed.

Ltac chat_repo := first
  [ apply keep_create | apply keep_get | apply keep_acquire | apply keep_renew | apply keep_release
  | apply keep_terminal | apply keep_history | apply keep_reconcile ].
Ltac chat := repeat first
  [ assumption | chat_op | chat_repo | apply keep_await_repo; intros ? | apply keep_await | chat_step ].

Lemma keep_exists config required : preserves R (_checkpoint_exists_safely config required).
Proof. unfold _checkpoint_exists_safely, lookup_checkpoint. chat. Qed.
Lemma keep_checkpoint_id config : preserves R (_checkpoint_id_safely config).
Proof. unfold _checkpoint_id_safely, lookup_checkpoint. chat. Qed.
Lemma keep_append_history i u a : preserves R (_append_history_safely i u a).
Proof. unfold _append_history_safely. chat. Qed.

Lemma keep_preflight request i r created migrated :
  preserves R (_preflight_existing_run request i r created migrated).
Proof.
  unfold _preflight_existing_run, replay_response, validated_response.
  repeat first [apply keep_append_history | progress chat].
Qed.

Lemma keep_invoke_graph input config budget : preserves R (_invoke_graph_safely settings input config budget).
Proof.
  unfold _invoke_graph_safely. chat. unfold graph_failure, failure in *. case_match; simplify_eq; chat.
Qed.

Lemma keep_execute request i config : preserves R (_execute_run settings svc request i config).
Proof. unfold _execute_run. cbv zeta. repeat first [apply keep_invoke_graph | progress chat]. Qed.

Lemma keep_heartbeat n l : preserves R (_lease_heartbeat settings n l).
Proof. revert l. induction n as [|n IH]; intros l; simpl; chat. apply IH. Qed.

Lemma keep_with_heartbeat request i config l :
  preserves R (_execute_with_heartbeat settings svc request i config l).
Proof.
  unfold _execute_with_heartbeat. repeat first [apply keep_heartbeat | apply keep_execute | progress chat].
Qed.

Lemma keep_mark_interrupted l a b : preserves R (_mark_interrupted_safely l a b).
Proof.
  unfold _mark_interrupted_safely. chat. destruct (is_stale _); chat.
Qed.

Lemma keep_run_raised {A} l b e : preserves R (run_raised (A:=A) l b e).
Proof.
  unfold run_raised. repeat first [apply keep_mark_interrupted | progress chat].
Qed.

Lemma keep_execute_and_store request i config l :
  preserves R (execute_and_store settings svc request i config l).
Proof.
  unfold execute_and_store.
  repeat first [apply keep_with_heartbeat | apply keep_checkpoint_id | progress chat].
Qed.

Lemma keep_commit_history request i l ex : preserves R (commit_history request i l ex).
Proof. unfold commit_history. repeat first [apply keep_append_history | progress chat]. Qed.

Lemma keep_run_admitted request i config l : preserves R (run_admitted settings svc request i config l).
Proof.
  unfold run_admitted.
  repeat first [apply keep_execute_and_store | apply keep_commit_history | apply keep_run_raised | progress chat].
Qed.

Lemma keep_locate i config : preserves R (locate_run i config).
Proof. unfold locate_run. repeat first [apply keep_exists | progress chat]. Qed.

Lemma keep_check_checkpoint i config created known : preserves R (check_checkpoint i config created known).
Proof. unfold check_checkpoint. repeat first [apply keep_exists | progress chat]. Qed.

(** What runs inside the gate. *)
Definition admitted_body (request : ChatRequest) (identity : RunIdentity) : M (ChatState St H) ChatResponse :=
  let config := langgraph_config identity in
  let! located := locate_run identity config in
  let* (record, created, resume_migrated, known) := ret located in
  let! replay := _preflight_existing_run request identity record created resume_migrated in
  match replay with
  | Some response => ret response
  | None =>
    check_checkpoint identity config created known ;;;
    let! owner_id := world h_uuid4 in
    let! lease := await_repo (λ clk, acquire clk identity owner_id (run_lease_ttl_seconds settings)) in
    run_admitted settings svc request identity config lease
  end.

Lemma keep_body request i : preserves R (admitted_body request i).
Proof.
  unfold admitted_body. cbv zeta.
  repeat first [apply keep_locate | apply keep_preflight | apply keep_check_checkpoint
  | apply keep_run_admitted | progress chat].
Qed.
End effects.

Lemma invoke_body {St H} `{RunRepository St} `{!ChatHost St H} settings svc request identity :
  _ainvoke_with_identity (St:=St) (H:=H) settings svc request identity =
  hold cs_owners (λ o s, s <| cs_owners := o |>) identity (admitted_body settings svc request identity).
Proof. done. Qed.

(** ** The gate *)

Section gate.
Context {St H : Type} `{RunRepository St} `{!ChatHost St H}.
Context (env : IdentityEnv) (settings : Settings) (svc : RunIdentityService).

Definition same_owners (s s' : ChatState St H) : Prop := cs_owners s' = cs_owners s.

#[export] Instance same_owners_preorder : PreOrder same_owners.
Proof. split; [done|]. intros x y z Hxy Hyz. unfold same_owners in *. congruence. Qed.

Lemma owners_keep : effects_keep same_owners.
Proof. split; intros; by apply preserves_zoom. Qed.

Lemma od_pop_fresh {A} k (d : list (string * A)) v :
  dict_has k d = false → od_pop k (dict_set k v d) = d.
Proof.
  unfold dict_has. destruct (dict_get k d) eqn:E; [done|]. intros _.
  unfold od_pop. induction d as [|[k1 v1] d IH]; simpl in *.
  - rewrite filter_cons_False by (simpl; tauto). done.
  - destruct (String.eqb_spec k k1); [done|].
  rewrite filter_cons_True by (simpl; congruence). f_equal. by apply IH.
Qed.

(** C24. Whatever happens to a request -- an answer, a refusal, an error, a
cancellation delivered at any [await], a failure of any service -- the gate
is left as it was found. *)
Theorem gate_restored request identity (s : ChatState St H) :
  cs_owners (_ainvoke_with_identity settings svc request identity s).2 = cs_owners s.
Proof.
  pose proof (keep_body settings svc same_owners owners_keep request identity) as Hb.
  rewrite invoke_body. revert Hb. generalize (admitted_body settings svc request identity).
  intros body Hb. unfold hold, bind, zoom at 1, gate_enter.
  destruct (dict_has _ (cs_owners s)) eqn:Hh; [done|].
  unfold try_finally. specialize (Hb (s <| cs_owners := dict_set (id_conversation_id identity) (id_run_id identity) (cs_owners s) |>)).
  destruct (body _) as [o s2]. unfold same_owners in Hb. simpl in Hb.
  unfold zoom, gate_exit. rewrite Hb, dict_get_set_eq, String.eqb_refl. simpl. by apply od_pop_fresh.
Qed.
End gate.

(** ** Hosts and the repository *)

Section hosts.
Context {St H : Type} `{RunRepository St} `{!ChatHost St H}.

(** What every operation of the host does to the repository: [P]. *)
Record host_keeps (P : St → St → Prop) : Prop := {
  hk_delivery : ∀ w, P w.1 (h_delivery w).2.1;
  hk_clock : ∀ w, P w.1 (h_clock w).2.1;
  hk_now : ∀ w, P w.1 (h_now w).2.1;
  hk_time : ∀ w, P w.1 (h_time w).2.1;
  hk_mono : ∀ w, P w.1 (h_mono w).2.1;
  hk_uuid4 : ∀ w, P w.1 (h_uuid4 w).2.1;
  hk_get_tuple : ∀ c w, P w.1 (h_get_tuple c w).2.1;
  hk_append : ∀ c r u a w, P w.1 (h_append_turn c r u a w).2.1;
  hk_memory : ∀ c w, P w.1 (h_memory_get c w).2.1;
  hk_inventory : ∀ w, P w.1 (h_inventory_load w).2.1;
  hk_grounding : ∀ c w, P w.1 (h_checkpoint_grounding c w).2.1;
  hk_graph : ∀ i c b w, P w.1 (h_graph_ainvoke i c b w).2.1;
  hk_meter : ∀ b w, P w.1 (h_meter_after b w).2.1;
  hk_beats : ∀ w, P w.1 (h_beats w).2.1;
  hk_stop : ∀ w, P w.1 (h_stop_execution w).2.1
}.

(** The same on the state of the process. *)
Definition on_runs (P : St → St → Prop) (s s' : ChatState St H) : Prop := P (cs_runs s) (cs_runs s').

#[export] Instance on_runs_preorder P `{!PreOrder P} : PreOrder (on_runs P).
Proof. split; [by intros s; unfold on_runs|]. intros x y z. unfold on_runs. by etrans. Qed.

Lemma world_keeps P {A} (m : M (St * H) A) :
  (∀ w, P w.1 (m w).2.1) → preserves (on_runs P) (world m).
Proof. intros Hm. apply preserves_zoom. intros s. apply (Hm (cs_runs s, cs_host s)). Qed.

Lemma count_keeps P `{!Reflexive P} name : preserves (on_runs P) (count name).
Proof. apply preserves_zoom. intros s. unfold on_runs. by simpl. Qed.

Lemma keeps_steps P `{!PreOrder P} :
  host_keeps P → (∀ clk op s, P s (exec clk op s).2) → effects_keep (on_runs P).
Proof.
  intros K Hop. split; intros; try (apply world_keeps; intros; by apply K).
  - apply count_keeps, _.
  - apply preserves_zoom. intros s. apply Hop.
Qed.

(** A repository call that returned was made in the state the host left. *)
Lemma await_Ret {A} (m : M (ChatState St H) A) s a s' :
  await_ m s = (Ret a, s') → m (world h_delivery s).2 = (Ret a, s').
Proof.
  unfold await_. intros (d&s1&Hd&Hm)%bind_Ret_inv. rewrite Hd. simpl.
  destruct d; [done|done|]. by apply bind_Ret_inv in Hm as (x&s2&_&Hm).
Qed.

Lemma repo_inv_call {A} (m : M St A) (s : ChatState St H) o s' :
  repo m s = (o, s') → m (cs_runs s) = (o, cs_runs s').
Proof. unfold repo, zoom. destruct (m (cs_runs s)) as [o1 r1] eqn:E. by intros [= <- <-]. Qed.

Lemma await_repo_Ret P `{!PreOrder P} {A} (op : clock → M St A) s a s' :
  host_keeps P → await_repo op s = (Ret a, s') →
  ∃ clk r, P (cs_runs s) r ∧ op clk r = (Ret a, cs_runs s').
Proof.
  intros K Ha. unfold await_repo in Ha. apply await_Ret in Ha.
  apply bind_Ret_inv in Ha as (clk&s1&Hc&Ha). apply repo_inv_call in Ha.
  exists clk, (cs_runs s1). split; [|done].
  pose proof (world_keeps P _ (hk_delivery P K) s) as H1.
  pose proof (world_keeps P _ (hk_clock P K) (world h_delivery s).2) as H2.
  rewrite Hc in H2. unfold on_runs in *. simpl in *. by etrans.
Qed.
End hosts.

(** Other workers act on the repository only through its operations. *)
Abbreviation through_repository := (host_keeps (rtc repo_step)) (only parsing).
(** Other workers do what they like, but leave the record of the run alone. *)
Definition leaves_run {St} `{RunRepositoryLaws St} (run_id : string) (st st' : St) : Prop :=
  rtc repo_step st st' ∧ record_of st' run_id = record_of st run_id.

#[export] Instance leaves_run_preorder {St} `{RunRepositoryLaws St} run_id : PreOrder (leaves_run run_id).
Proof.
  split; [done|]. intros x y z [H1 E1] [H2 E2]. split; [by etrans|congruence].
Qed.

Lemma leaves_run_eq {St} `{RunRepositoryLaws St} run_id (x y : St) : x = y → leaves_run run_id x y.
Proof. by intros ->. Qed.

(** No other worker acts while the request is served. *)
Abbreviation undisturbed := (host_keeps eq) (only parsing).

(** ** Admission *)

Section admission.
Context {St H : Type} `{RunRepositoryLaws St} `{!RunOutcomeLaws St} `{!ChatHost St H}.

Lemma exec_step clk op (s : St) : rtc repo_step s (exec clk op s).2.
Proof. apply rtc_once. by exists clk, op. Qed.

Lemma mismatch_identity r i : resumable_mismatch r i = false → record_identity_error r i = None.
Proof.
  unfold resumable_mismatch, record_identity_error. rewrite !orb_false_iff.
  intros [[[[E1 E2] E3] E4] E5]. by rewrite E1, E2, E3, E4, E5.
Qed.

Lemma create_pending clk i s r s' :
  repo_inv s → create_or_get clk i s = (Ret (r, true), s') → rec_status r = Pending.
Proof.
  intros Hi E. destruct (record_of s (id_run_id i)) as [r0|] eqn:Hr.
  - rewrite (create_existing _ _ _ _ Hi Hr) in E. by destruct (record_identity_error r0 i).
  - by destruct (create_fresh _ _ _ _ _ _ Hi Hr E) as (_&_&_&?).
Qed.

Lemma located_spec identity config s r created migrated known s1 :
  through_repository → repo_inv (cs_runs s) →
  locate_run identity config s = (Ret (r, created, migrated, known), s1) →
  record_identity_error r identity = None ∧ (created = true → rec_status r = Pending) ∧
  (migrated = true → id_resumed identity = true).
Proof.
  intros K Hi Hl. unfold locate_run in Hl.
  assert (∀ s2 rc s3, repo_inv (cs_runs s2) →
  await_repo (λ clk, create_or_get clk identity) s2 = (Ret rc, s3) →
  record_identity_error rc.1 identity = None ∧ (rc.2 = true → rec_status rc.1 = Pending)) as Hcreate.
  { intros s2 [r' b] s3 Hi2 E. apply (await_repo_Ret (rtc repo_step)) in E as (clk&st&Hst&E); [|done].
  pose proof (steps_inv _ _ Hst Hi2) as Hi3.
  split; [by apply (create_record _ _ _ _ _ _ Hi3 E)|]. simpl. intros ->. by eapply create_pending. }
  destruct (id_resumed identity) eqn:Hres.
  - apply bind_Ret_inv in Hl as (found&s2&Hg&Hl). destruct found as [record|].
  + destruct (resumable_mismatch record identity) eqn:Hm; [done|]. injection Hl as <- <- <- <- <-.
    split; [by apply mismatch_identity|done].
  + apply bind_Ret_inv in Hl as (b&s3&He&Hl). destruct b; [|done].
    apply bind_Ret_inv in Hl as (rc&s4&Hc&Hl). injection Hl as <- <- <- <- <-.
    destruct (Hcreate s3 rc s4) as [? ?]; [|done|done].
    assert (rtc repo_step (cs_runs s) (cs_runs s3)) as Hst; [|by eapply steps_inv].
    pose proof (keeps_steps (rtc repo_step) K exec_step) as Ke.
    assert (preserves (on_runs (rtc repo_step)) (await_ (repo (H:=H) (get (id_run_id identity))))) as Hs1
      by (apply keep_await; [apply _|done|apply keep_get; [done..]]).
    specialize (Hs1 s). rewrite Hg in Hs1.
    pose proof (keep_exists _ Ke config true s2) as Hs2. rewrite He in Hs2.
    unfold on_runs in *. simpl in *. by etrans.
  - apply bind_Ret_inv in Hl as (rc&s4&Hc&Hl). injection Hl as <- <- <- <- <-.
  destruct (Hcreate s rc s4) as [? ?]; [done..|]. done.
Qed.

(** What [_preflight_existing_run] admits to execution. *)
Lemma preflight_None request identity r created migrated s s' :
  _preflight_existing_run (H:=H) request identity r created migrated s = (Ret None, s') →
  (id_resumed identity = true → id_resume_token_version identity = rec_resume_token_version r) ∧
  replayable r = None ∧
  ((id_resumed identity = true ∧ migrated = true ∧ rec_status r = Pending) ∨
   (id_resumed identity = false ∧ created = true) ∨
   (id_resumed identity = true ∧ rec_status r = Interrupted) ∨
   (id_resumed identity = true ∧ rec_status r = Running ∧
  ∃ now, world h_now s = (Ret now, s') ∧ lease_expired r now = true) ∨
   (id_resumed identity = false ∧ rec_status r = Pending)).
Proof.
  unfold _preflight_existing_run. intros Hp.
  destruct (id_resumed identity && negb _) eqn:Hv; [done|].
  assert (id_resumed identity = true → id_resume_token_version identity = rec_resume_token_version r) as Hver.
  { intros Hr. rewrite Hr in Hv. simpl in Hv. apply negb_false_iff in Hv. by apply Z.eqb_eq. }
  split; [done|]. destruct (replayable r) as [payload|].
  { apply bind_Ret_inv in Hp as (resp&s1&_&Hp). done. }
  split; [done|].
  destruct (id_resumed identity && migrated && bool_decide (rec_status r = Pending)) eqn:Hm.
  { left. rewrite !andb_true_iff, bool_decide_eq_true in Hm. tauto. }
  destruct created.
  { right; left. by destruct (id_resumed identity). }
  right; right. apply bind_Ret_inv in Hp as (now&s1&Hnow&Hp).
  destruct (id_resumed identity).
  - case_bool_decide; [by left|]. right; left.
  destruct (bool_decide (rec_status r = Running) && lease_expired r now) eqn:Hl; [|done].
  rewrite andb_true_iff, bool_decide_eq_true in Hl. injection Hp as <-. naive_solver.
  - right; right. case_bool_decide; [by destruct (lease_expired r now)|].
  case_bool_decide; [done|done].
Qed.

(** C7. A request is admitted to execution only for a run bound to this very
request that has no outcome to replay, and which was never started -- or,
with a token that was not revoked, which was interrupted, or whose owner let
its lease expire.  A run whose owner is alive is never admitted, whatever
other workers do to the repository meanwhile. *)
Theorem admission_sound request identity config s r created migrated known s1 s2 :
  host_keeps (H:=H) (rtc repo_step) → repo_inv (cs_runs s) →
  locate_run identity config s = (Ret (r, created, migrated, known), s1) →
  _preflight_existing_run request identity r created migrated s1 = (Ret None, s2) →
  record_identity_error r identity = None ∧ replayable r = None ∧
  ((rec_status r = Pending ∧ (id_resumed identity = true → migrated = true ∧
    id_resume_token_version identity = rec_resume_token_version r)) ∨
   (id_resumed identity = true ∧ id_resume_token_version identity = rec_resume_token_version r ∧
  (rec_status r = Interrupted ∨
   rec_status r = Running ∧ ∃ now t, world h_now s1 = (Ret now, s2) ∧
     rec_lease_expires_at r = Some t ∧ t ≤ now))).
Proof.
  intros K Hi Hl Hp. destruct (located_spec _ _ _ _ _ _ _ _ K Hi Hl) as (Hid&Hc&Hm).
  destruct (preflight_None _ _ _ _ _ _ _ Hp) as (Hv&Hr&Hcase). split; [done|]. split; [done|].
  destruct Hcase as [(Hres&Hmig&Hst)|[(Hres&Hcr)|[(Hres&Hst)|[(Hres&Hst&now&Hn&He)|(Hres&Hst)]]]].
  - left. auto.
  - left. split; [auto|congruence].
  - right. auto.
  - right. split; [done|]. split; [auto|]. right. split; [done|].
  unfold lease_expired in He. destruct (rec_lease_expires_at r) as [t|]; [|done].
  apply Z.leb_le in He. eauto 10.
  - left. split; [done|congruence].
Qed.
End admission.

(** ** Outcomes *)

Lemma try_except_raises {S A} (m : M S A) (h : exn → option (M S A)) s a s' :
  (∀ e k s1 b s2, h e = Some k → k s1 ≠ (Ret b, s2)) →
  try_except m h s = (Ret a, s') → m s = (Ret a, s').
Proof.
  intros Hh E. unfold try_except in E. destruct (m s) as [[x|e] s1]; [done|].
  destruct (h e) as [k|] eqn:Hk; [|done]. by destruct (Hh e k s1 a s').
Qed.

Lemma try_finally_Ret {S A} (m : M S A) (f : M S unit) s a s' :
  try_finally m f s = (Ret a, s') → ∃ s1 u, m s = (Ret a, s1) ∧ f s1 = (Ret u, s').
Proof.
  unfold try_finally. destruct (m s) as [o s1]. destruct (f s1) as [[u|e] s2] eqn:E; [|done].
  intros [= -> <-]. eauto.
Qed.

(** The flag a response carries about the conversation history. *)
Definition history_flag (response : ChatResponse) : option pyval :=
  match dict_get "persistence" (resp_metadata response) with
  | Some (VDict d) => dict_get "history_persisted" d
  | _ => None
  end.

Lemma set_history_flag b response response' :
  set_history_persisted b response = Ret response' →
  history_flag response' = Some (VBool b) ∧
  (response_filled response → response_filled response') ∧
  (history_flag response = Some (VBool b) → response' = response).
Proof.
  unfold set_history_persisted, history_flag. destruct response as [th c u t resp bk md meta]. simpl.
  destruct (dict_get "persistence" meta) as [v|] eqn:E; simpl; [destruct v as [| | | | | |d]; try done|].
  - intros [= <-]. simpl. rewrite dict_get_set_eq. split; [by rewrite dict_get_set_eq|]. split; [done|].
    intros Hf. rewrite (dict_set_same _ _ _ Hf), dict_set_same by done. done.
  - intros [= <-]. simpl. rewrite dict_get_set_eq. by split.
Qed.

Section outcome.
Context {St H : Type} `{RunOutcomeLaws St} `{!ChatHost St H}.
Context (settings : Settings) (svc : RunIdentityService).

Lemma run_raised_never {A} l b e (s : ChatState St H) (a : A) s' : run_raised l b e s ≠ (Ret a, s').
Proof.
  unfold run_raised. intros E.
  destruct e; repeat (destruct (is_stale _) in E);
  repeat (apply bind_Ret_inv in E as (?&?&_&E)); done.
Qed.

(** What a finished execution looks like. *)
Record execution_shape (identity : RunIdentity) (ex : RunExecution) : Prop := {
  es_status : ex_status ex = OutCompleted ∨ ex_status ex = OutFailed;
  es_flag : history_flag (ex_response ex) = Some (VBool false);
  es_filled : nonempty (id_conversation_id identity) = true → nonempty (id_run_id identity) = true →
  response_filled (ex_response ex)
}.

Lemma from_result_filled f1 f2 f3 c u resp b m md :
  nonempty c = true → nonempty u = true →
  response_filled (from_result f1 f2 f3 (Some c) (Some c) (Some u) None resp b m md).
Proof.
  intros Hc Hu. destruct c as [|x c]; [done|]. destruct u as [|y u]; [done|].
  eexists _, _, _. by repeat split.
Qed.

Lemma execute_run_shape request identity config (s : ChatState St H) ex s' :
  _execute_run settings svc request identity config s = (Ret ex, s') → execution_shape identity ex.
Proof.
  unfold _execute_run. cbv zeta. intros E.
  repeat (apply bind_Ret_inv in E as (?&?&_&E)). injection E as <- _.
  split; cbn [ex_status ex_response].
  - repeat case_match; auto.
  - unfold history_flag, response_metadata. cbn [from_result fill_compatibility_identity resp_metadata].
  rewrite dict_get_merge; [done|]. by apply (bool_decide_unpack _).
  - intros Hc Hu. by apply from_result_filled.
Qed.

Lemma execution_shape_of request identity config lease (s : ChatState St H) ex s' :
  _execute_with_heartbeat settings svc request identity config lease s = (Ret ex, s') →
  execution_shape identity ex.
Proof.
  unfold _execute_with_heartbeat. intros E.
  apply bind_Ret_inv in E as (n&s1&_&E). apply bind_Ret_inv in E as (l&s2&_&E).
  apply await_Ret in E. by eapply execute_run_shape.
Qed.

Lemma host_keeps_impl (P Q : St → St → Prop) :
  (∀ x y, P x y → Q x y) → host_keeps (H:=H) P → host_keeps (H:=H) Q.
Proof. intros HPQ K. split; intros; apply HPQ; by apply K. Qed.

Lemma undisturbed_steps : host_keeps (H:=H) (@eq St) → host_keeps (H:=H) (rtc repo_step).
Proof. apply host_keeps_impl. by intros x y ->. Qed.

Lemma keeps_inv {A} (m : M (ChatState St H) A) s :
  preserves (on_runs (rtc repo_step)) m → repo_inv (cs_runs s) → repo_inv (cs_runs (m s).2).
Proof. intros Hm Hi. eapply steps_inv; [|exact Hi]. apply Hm. Qed.

Context (lease : RunLease) (K : host_keeps (H:=H) (leaves_run (lease_run_id lease))).

Let Ksteps : effects_keep (on_runs (H:=H) (rtc repo_step)) :=
keeps_steps (rtc repo_step) (host_keeps_impl _ _ (λ x y Hxy, proj1 Hxy) K) (λ clk op s, exec_step clk op s).

(** A call that is not one of the repository's leaves the record alone. *)
Lemma leaves_append i u a : preserves (on_runs (H:=H) (leaves_run (lease_run_id lease))) (_append_history_safely i u a).
Proof.
  unfold _append_history_safely, await_.
  assert (preserves (on_runs (leaves_run (lease_run_id lease))) (world (H:=H) h_delivery)) as Hd
    by (apply world_keeps, K).
  assert (preserves (on_runs (leaves_run (lease_run_id lease))) (world (h_append_turn (id_conversation_id i) (id_run_id i)
  (history_message i "user" u) (history_message i "assistant" a)))) as Ha
  by (apply world_keeps; intros; apply K).
  assert (∀ n, preserves (on_runs (H:=H) (leaves_run (lease_run_id lease))) (count n)) as Hn
    by (intros; apply count_keeps, _).
  repeat first [assumption | apply Hn | chat_step].
Qed.

(** What the record of a run holds once its response has been returned. *)
Record outcome_stored (run_id : string) (response : ChatResponse) (runs : St) (r : RunRecord) : Prop := {
  os_record : record_of runs run_id = Some r;
  os_payload : rec_response_payload r = Some (stored (response_dump response));
  os_status : rec_status r = Completed ∨ rec_status r = Failed;
  os_history : history_flag response = Some (VBool true) → is_Some (rec_history_committed_at r)
}.

Lemma execute_and_store_spec request identity config (s : ChatState St H) ex s' :
  repo_inv (cs_runs s) →
  execute_and_store settings svc request identity config lease s = (Ret ex, s') →
  execution_shape identity ex ∧ repo_inv (cs_runs s') ∧
  ∃ r, outcome_stored (lease_run_id lease) (ex_response ex) (cs_runs s') r.
Proof.
  intros Hi E. pose proof (keeps_inv _ s (keep_execute_and_store settings svc _ Ksteps request identity config lease) Hi) as Hi'.
  rewrite E in Hi'. unfold execute_and_store in E.
  apply bind_Ret_inv in E as (ex'&s1&Hx&E). apply bind_Ret_inv in E as (cp&s2&Hcp&E).
  apply bind_Ret_inv in E as (r&s3&Hm&E). injection E as -> ->.
  pose proof (execution_shape_of _ _ _ _ _ _ _ Hx) as Hshape.
  split; [done|]. split; [done|]. exists r.
  apply (await_repo_Ret _ _ _ _ _ K) in Hm as (clk&st&[Est _]&Hm).
  assert (repo_inv st) as Hst.
  { apply (steps_inv _ _ Est). pose proof (keep_checkpoint_id _ Ksteps config s1) as E1. rewrite Hcp in E1.
  apply (steps_inv _ _ E1).
  pose proof (keeps_inv _ s (keep_with_heartbeat settings svc _ Ksteps request identity config lease) Hi) as H1'.
  by rewrite Hx in H1'. }
  apply mark_terminal_record in Hm as (Hr&Hs&Hp); [|done|done].
  split; [done|done|..].
  - rewrite Hs. destruct (es_status _ _ Hshape) as [-> | ->]; auto.
  - rewrite (es_flag _ _ Hshape). done.
Qed.

Lemma commit_history_spec request identity ex (s : ChatState St H) response s' :
  repo_inv (cs_runs s) → execution_shape identity ex →
  (∃ r, outcome_stored (lease_run_id lease) (ex_response ex) (cs_runs s) r) →
  commit_history request identity lease ex s = (Ret response, s') →
  (∃ r, outcome_stored (lease_run_id lease) response (cs_runs s') r) ∧
  (response_filled (ex_response ex) → response_filled response) ∧ ∃ b, history_flag response = Some (VBool b).
Proof.
  intros Hi Hshape (r&Hr) E. unfold commit_history in E.
  apply bind_Ret_inv in E as (b&s1&Ha&E). apply bind_Ret_inv in E as (resp&s2&Hset&E).
  pose proof (leaves_append identity (cr_message request) (resp_response (ex_response ex)) s) as [E1 E2].
  rewrite Ha in E1, E2. simpl in E1, E2. injection Hset as Hset <-.
  destruct (set_history_flag _ _ _ Hset) as (Hflag&Hfill&Hsame).
  apply bind_Ret_inv in E as (u&s3&Hc&E). injection E as -> ->. split; [|eauto].
  destruct b.
  - apply bind_Ret_inv in Hc as (r'&s4&Hm&Hc). injection Hc as _ ->.
  apply (await_repo_Ret _ _ _ _ _ K) in Hm as (clk&st&[Est1 Est2]&Hm).
  apply mark_history_record in Hm as (Hr'&Hp&Hh&r0&Hr0&Hst);
    [|apply (steps_inv _ _ Est1); by apply (steps_inv _ _ E1)|done].
  rewrite Est2, E2, (os_record _ _ _ _ Hr) in Hr0. injection Hr0 as <-.
  exists r'. split; [done|done| |done]. rewrite Hst. apply Hr.
  - injection Hc as _ ->. rewrite (Hsame (es_flag _ _ Hshape)) in *.
  exists r. destruct Hr. split; [by rewrite E2|done..].
Qed.
End outcome.

(** C5. A response that an admitted run returns is the stored outcome, whatever
the graph, the services, the heartbeat and the cancellations did, and whatever
other workers did to the repository meanwhile, as long as they left the record
of this run alone: the record is completed or failed, its payload is that very
response, and when the response says the history was persisted the record says
so too.  (That the hypothesis is needed, [ChatSample.stale_admission_reexecutes]
shows.) *)
Theorem outcome_durable {St H} `{RunOutcomeLaws St} `{!ChatHost St H} (settings : Settings)
    (svc : RunIdentityService) request identity config lease (s : ChatState St H) response s'
    (Hothers : host_keeps (H:=H) (leaves_run (lease_run_id lease)))
    (Hinv : repo_inv (cs_runs s))
    (Hrun : run_admitted settings svc request identity config lease s = (Ret response, s')) :
  (∃ r, outcome_stored (lease_run_id lease) response (cs_runs s') r) ∧
  (∃ b, history_flag response = Some (VBool b)) ∧
  (nonempty (id_conversation_id identity) = true → nonempty (id_run_id identity) = true →
   response_filled response).
Proof.
  unfold run_admitted in Hrun. apply try_finally_Ret in Hrun as (s1&u&E&Hrel).
  apply bind_Ret_inv in E as (ex&s2&Hx&E).
  apply try_except_raises in Hx; [|intros e k ? ? ? [= <-]; apply run_raised_never].
  apply try_except_raises in E; [|intros e k ? ? ? [= <-]; apply run_raised_never].
  destruct (execute_and_store_spec settings svc lease Hothers _ _ _ _ _ _ Hinv Hx) as (Hshape&Hi2&Hst).
  destruct (commit_history_spec lease Hothers _ _ _ _ _ _ Hi2 Hshape Hst E) as ((r&Hr)&Hfill&Hb).
  split; [|split; [done|intros; by apply Hfill, Hshape]].
  apply (await_repo_Ret _ _ _ _ _ Hothers) in Hrel as (clk&st&[_ Est]&Hrel).
  exists r. destruct Hr as [Hr1 Hr2 Hr3 Hr4]. split; [|done..].
  pose proof (release_record clk lease st (lease_run_id lease)) as Hrec. rewrite Hrel in Hrec.
  simpl in Hrec. rewrite Hrec, Est. exact Hr1.
Qed.

(** ** Replay *)

Section replay.
Context {St H : Type} `{RunOutcomeLaws St} `{!ChatHost St H}.
Context (settings : Settings) (svc : RunIdentityService).

(** No cancellation is delivered, and clocks and [uuid4] return. *)
Record calm : Prop := {
  calm_delivery : ∀ w, (h_delivery (H:=H) w).1 = Ret Proceed;
  calm_clock : ∀ w, ∃ clk, (h_clock (H:=H) w).1 = Ret clk;
  calm_uuid4 : ∀ w, ∃ u, (h_uuid4 (H:=H) w).1 = Ret u
}.

(** The operations of the host that are not part of an execution: deliveries,
clocks and [uuid4].  An execution needs the others: the graph, the inventory, the
history and the checkpointer. *)
Inductive idle_step : H → H → Prop :=
  | idle_delivery runs h : idle_step h (h_delivery (St:=St) (runs, h)).2.2
  | idle_clock runs h : idle_step h (h_clock (St:=St) (runs, h)).2.2
  | idle_uuid4 runs h : idle_step h (h_uuid4 (St:=St) (runs, h)).2.2.

Lemma count_run name (s : ChatState St H) : nonempty name = true →
  ∃ s1, count name s = (Ret tt, s1) ∧ cs_runs s1 = cs_runs s ∧ cs_owners s1 = cs_owners s ∧ cs_host s1 = cs_host s.
Proof. intros Hn. unfold count, zoom, inc. rewrite Hn. by eexists. Qed.

(** Other workers do [P] to the repository, and leave the record of the run alone. *)
Context (run_id : string) (P : St → St → Prop) `{!PreOrder P} (HP : ∀ x y, P x y → leaves_run run_id x y).
Context (K : host_keeps (H:=H) P) (C : calm).

Definition idles (s s' : ChatState St H) : Prop :=
  P (cs_runs s) (cs_runs s') ∧ cs_owners s' = cs_owners s ∧ rtc idle_step (cs_host s) (cs_host s').

#[local] Instance idles_preorder : PreOrder idles.
Proof.
  split; [by intros s|]. intros x y z (Hx1&Hx2&Hx3) (Hy1&Hy2&Hy3). split; [by etrans|]. split; [congruence|by etrans].
Qed.

Lemma world_run {A} (m : M (St * H) A) (s : ChatState St H) :
  (∀ w, P w.1 (m w).2.1) → idle_step (cs_host s) (m (cs_runs s, cs_host s)).2.2 →
  ∃ s1, world m s = ((m (cs_runs s, cs_host s)).1, s1) ∧ idles s s1.
Proof.
  intros Hm Hi. specialize (Hm (cs_runs s, cs_host s)). unfold world, zoom.
  destruct (m (cs_runs s, cs_host s)) as [o w]. simpl in *. eexists. split; [done|].
  split; [done|]. split; [done|by apply rtc_once].
Qed.

Lemma await_calm {A} (m : M (ChatState St H) A) s : ∃ s1, await_ m s = m s1 ∧ idles s s1.
Proof.
  destruct (world_run h_delivery s) as (s1&E&Hs); [apply K|constructor|].
  exists s1. unfold await_, bind. rewrite E, (calm_delivery C). done.
Qed.

Lemma await_repo_calm {A} (op : clock → M St A) (s : ChatState St H) :
  ∃ clk s1, idles s s1 ∧ await_repo op s = repo (op clk) s1.
Proof.
  unfold await_repo. destruct (await_calm (let! clk := world h_clock in repo (op clk)) s) as (s1&E&Hs).
  destruct (world_run h_clock s1) as (s2&E2&Hs2); [apply K|constructor|].
  destruct (calm_clock C (cs_runs s1, cs_host s1)) as [clk Hclk].
  exists clk, s2. split; [by etrans|]. rewrite E. unfold bind. by rewrite E2, Hclk.
Qed.

Lemma locate_existing identity config (s : ChatState St H) r :
  repo_inv (cs_runs s) → id_resumed identity = false → id_run_id identity = run_id →
  record_of (cs_runs s) run_id = Some r → record_identity_error r identity = None →
  ∃ s1, locate_run identity config s = (Ret (r, false, false, None), s1) ∧ idles s s1.
Proof.
  intros Hi Hres Hrun Hr Hid. unfold locate_run. rewrite Hres.
  destruct (await_repo_calm (λ clk, create_or_get clk identity) s) as (clk&s3&Hs3&E3).
  pose proof Hs3 as (Hruns&_&_). apply HP in Hruns as [Hsteps Hrec]. rewrite Hr, <-Hrun in Hrec.
  unfold bind. rewrite E3. unfold repo, zoom.
  rewrite (create_existing _ _ _ _ (steps_inv _ _ Hsteps Hi) Hrec), Hid.
  eexists. split; [done|]. by destruct s3.
Qed.

Lemma preflight_replay request identity r created migrated (s : ChatState St H) payload response :
  id_resumed identity = false → replayable r = Some payload →
  (∀ fresh, response_validate fresh payload = Ret response) → is_Some (rec_history_committed_at r) →
  ∃ s1, _preflight_existing_run request identity r created migrated s = (Ret (Some response), s1) ∧ idles s s1.
Proof.
  intros Hres Hrep Hv [t Hh]. unfold _preflight_existing_run. rewrite Hres, Hrep. cbn [andb].
  destruct (world_run h_uuid4 s) as (s5&E5&Hs5); [apply K|constructor|].
  destruct (calm_uuid4 C (cs_runs s, cs_host s)) as [u Hu]. rewrite Hu in E5.
  destruct (count_run "chat.idempotent_durable_replay" s5 eq_refl) as (s6&E6&Er&Eo&Eh).
  exists s6. split; [|etrans; [exact Hs5|split; [by rewrite Er|by rewrite Eh]]]. unfold replay_response, validated_response.
  rewrite !bind_assoc. rewrite (bind_run _ _ _ _ _ E5). unfold of_outcome at 1, bind at 1. rewrite Hv, Hh.
  unfold bind, ret at 1. by rewrite E6.
Qed.
End replay.

(** C14. A retry of a finished run -- same [run_id], same request, the
conversation free, its history committed -- that is not cancelled returns exactly
the stored response and executes nothing: of the host it uses deliveries, clocks
and [uuid4] only, never the graph, the inventory, the history or the checkpointer;
the gate is left as it was, and what becomes of the repository meanwhile is what
other workers, who leave the record of the run alone, make of it. *)
Theorem replay_exact {St H} `{RunOutcomeLaws St} `{!ChatHost St H} (settings : Settings)
    (svc : RunIdentityService) (P : St → St → Prop) `{!PreOrder P} request identity
    (s : ChatState St H) r payload response
    (Hcalm : calm (St:=St) (H:=H)) (Hothers : host_keeps (H:=H) P)
    (Hleave : ∀ x y, P x y → leaves_run (id_run_id identity) x y)
    (Hinv : repo_inv (cs_runs s)) (Hfresh : id_resumed identity = false)
    (Hfree : dict_has (id_conversation_id identity) (cs_owners s) = false)
    (Hrecord : record_of (cs_runs s) (id_run_id identity) = Some r)
    (Hsame : record_identity_error r identity = None)
    (Hdone : rec_status r = Completed ∨ rec_status r = Failed ∨ rec_status r = Cancelled)
    (Hpayload : rec_response_payload r = Some payload)
    (Hresponse : ∀ fresh, response_validate fresh payload = Ret response)
    (Hhistory : is_Some (rec_history_committed_at r)) :
  ∃ s', _ainvoke_with_identity settings svc request identity s = (Ret response, s') ∧
    rtc (idle_step (St:=St)) (cs_host s) (cs_host s') ∧
    P (cs_runs s) (cs_runs s') ∧ cs_owners s' = cs_owners s.
Proof.
  rewrite invoke_body. unfold hold, bind at 1, zoom at 1, gate_enter. rewrite Hfree.
  set (s1 := s <| cs_owners := _ |>).
  assert (∃ s2, admitted_body settings svc request identity s1 = (Ret response, s2) ∧ idles P s1 s2)
    as (s2&E&Hruns&Ho&Hhost).
  { destruct (locate_existing _ P Hleave Hothers Hcalm identity (langgraph_config identity) s1 r) as (s2&E2&Hs2);
      [done..|].
    assert (replayable r = Some payload) as Hrep.
    { unfold replayable. by rewrite Hpayload, bool_decide_eq_true_2. }
    destruct (preflight_replay P Hothers Hcalm request identity r false false s2 payload response)
      as (s3&E3&Hs3); [done..|].
    exists s3. unfold admitted_body. cbv zeta. rewrite (bind_run _ _ _ _ _ E2).
    unfold bind at 1, ret at 1. rewrite (bind_run _ _ _ _ _ E3). split; [done|by eapply idles_preorder]. }
  change (∃ s3, try_finally (admitted_body settings svc request identity) (zoom cs_owners
    (λ o s0, s0 <| cs_owners := o |>) (gate_exit identity)) s1 = (Ret response, s3) ∧ rtc idle_step (cs_host s) (cs_host s3) ∧
    P (cs_runs s) (cs_runs s3) ∧ cs_owners s3 = cs_owners s).
  unfold try_finally. rewrite E. unfold zoom, gate_exit. rewrite Ho. unfold s1. simpl.
  rewrite dict_get_set_eq, String.eqb_refl.
  eexists. split; [done|]. simpl. split; [done|]. split; [done|]. by apply od_pop_fresh.
Qed.
