(* ===== verification/ChatSample.v ===== *)
(** * Two runs of the chat runtime that lose an outcome

    A scripted host: at each [await] it may let other workers act on the
    repository, and proceeds or delivers a cancellation.
    [cancellation_loses_outcome]: a cancellation that arrives after the outcome
    was stored replaces it by an interruption without a response.
    [stale_admission_reexecutes]: a request that was admitted while its run was
    pending executes the run again after another worker has finished it. *)

From stdpp Require Import relations.
From S2P Require Import Prelude.
From S2P Require Import PyData.
From S2P Require Import RunTypes.
From S2P Require Import RunRepo.
From S2P Require Import MemoryRepo.
From S2P Require Import PostgresRepo.
From S2P Require Import RunOutcome.
From S2P Require Import Metrics.
From S2P Require Import Settings.
From S2P Require Import Meter.
From S2P Require Import Inventory.
From S2P Require Import PyNum.
From S2P Require Import ChatSchema.
From S2P Require Import Identity.
From S2P Require Import Gate.
From S2P Require Import ChatRuntime.
From S2P Require Import ChatProps.

(** ** A scripted host *)

Record Script (St : Type) : Type := MkScript {
  sc_deliveries : list ((St → St) * delivery);
  sc_now : Z;                          (** microseconds *)
  sc_turns : list (string * string);   (** the turns appended: conversation, run *)
  sc_graph_runs : nat;
  sc_answer : string
}.
Arguments MkScript {St} _ _ _ _ _.
Arguments sc_deliveries {St} _.
Arguments sc_now {St} _.
Arguments sc_turns {St} _.
Arguments sc_graph_runs {St} _.
Arguments sc_answer {St} _.

Definition next_delivery {St} : M (St * Script St) delivery := λ w,
  match sc_deliveries w.2 with
  | [] => (Ret Proceed, w)
  | (f, d) :: rest =>
      (Ret d, (f w.1, MkScript rest (sc_now w.2) (sc_turns w.2) (sc_graph_runs w.2) (sc_answer w.2)))
  end.

Definition scripted_graph {St} : M (St * Script St) (option GraphResult) := λ w,
  (Ret (Some (MkGraphResult [("response", VStr (sc_answer w.2)); ("backend", VStr "echo")] None)),
   (w.1, MkScript (sc_deliveries w.2) (sc_now w.2) (sc_turns w.2) (S (sc_graph_runs w.2)) (sc_answer w.2))).

Definition scripted_append {St} (conversation_id run_id : string) : M (St * Script St) unit := λ w,
  (Ret tt,
   (w.1, MkScript (sc_deliveries w.2) (sc_now w.2) (sc_turns w.2 ++ [(conversation_id, run_id)])
     (sc_graph_runs w.2) (sc_answer w.2))).

#[export] Instance scripted_host St : ChatHost St (Script St) := {
  h_delivery := next_delivery;
  h_clock := gets (λ w, λ _, sc_now w.2);
  h_now := gets (λ w, sc_now w.2);
  h_time := gets (λ w, sc_now w.2 / 1000000);
  h_mono := gets (λ w, (sc_now w.2, sc_now w.2));
  h_uuid4 := ret "9b2d6a3e-0000-4000-8000-000000000000";
  h_lookup := AsyncGet;
  h_get_tuple _ := ret None;
  h_append_turn c r _ _ := scripted_append c r;
  h_memory_get _ := ret [];
  h_inventory_load := ret (MkInventory [] [] [] false 0);
  h_checkpoint_grounding _ := ret [];
  h_graph_ainvoke _ _ _ := scripted_graph;
  h_meter_after b := ret b;
  h_beats := ret 0%nat;
  h_stop_execution := ret tt;
  h_type_name _ := "RuntimeError";
  h_float z := VFloat (Z_to_string z);
  h_str v := match v with VStr s => s | _ => "" end
}.

Definition chat_service : RunIdentityService :=
  MkRunIdentityService 3600 "execution-state-v1" 1 1 "primary" [("primary", "test-secret")] true.

Definition chat_request : ChatRequest := {|
  cr_message := "hello"; cr_thread_id := None; cr_conversation_id := Some "conversation";
  cr_run_id := None; cr_resume := false; cr_resume_token := None; cr_system_prompt := None;
  cr_metadata := [] |}.

Definition chat_identity : RunIdentity :=
  MkRunIdentity "conversation" "run" "conversation:run" "execution-state-v1" 1 "hash" 1 1
    (Some "primary") false false true.

Definition empty_metrics : MetricsRegistry := MkMetrics 10 ∅ ∅.

Definition invoke {St} `{RunRepository St} (runs : St) (deliveries : list ((St → St) * delivery))
    (answer : string) : outcome ChatResponse * ChatState St (Script St) :=
  _ainvoke_with_identity default_settings chat_service chat_request chat_identity
    (MkChat runs [] empty_metrics (MkScript deliveries 1000000 [] 0 answer)).

Definition proceeds {St} (n : nat) : list ((St → St) * delivery) := replicate n (λ s, s, Proceed).

(** What the record of the run says: its status and the stored answer. *)
Definition recorded {St} `{RunRepositoryLaws St} (runs : St) : option (RunStatus * option pyval) :=
  match record_of runs "run" with
  | Some r => Some (rec_status r, match rec_response_payload r with
                                  | Some p => dict_get "response" p | None => None end)
  | None => None
  end.

Definition answer_of (o : outcome ChatResponse) : outcome string :=
  match o with Ret r => Ret (resp_response r) | Raise e => Raise e end.

Example undisturbed_run :
  let '(o, s) := invoke memory_init [] "answer" in
  (answer_of o, recorded (cs_runs s), sc_turns (cs_host s), sc_graph_runs (cs_host s)) =
  (Ret "answer", Some (Completed, Some (VStr "answer")), [("conversation", "run")], 1%nat).
Proof. vm_compute. reflexivity. Qed.

(** ** A cancellation after the outcome *)

Section cancelled.
Context {H : Type} `{!ChatHost MemoryRunRepository H}.

(** The clause for a cancellation does not look at whether the outcome was
stored: while the lease is live, it replaces whatever the record of the run
holds -- a completed response included -- by an interruption without a
payload, so that no retry replays the response. *)
Theorem cancellation_loses_outcome (s s1 s2 : ChatState MemoryRunRepository H) lease clk r
  (terminal_persisted : bool) :
  world h_delivery s = (Ret Proceed, s1) → world h_clock s1 = (Ret clk, s2) →
  _records (cs_runs s2) !! lease_run_id lease = Some r →
  lease_ok (cs_runs s2) lease (clk 0%nat) = true →
  ∃ s' r', run_raised (A:=ChatResponse) lease terminal_persisted CancelledError s = (Raise CancelledError, s') ∧
  _records (cs_runs s') !! lease_run_id lease = Some r' ∧
  rec_status r' = Interrupted ∧ rec_response_payload r' = None ∧ replayable r' = None.
Proof.
  intros Hd Hc Hr Hl. unfold run_raised, _mark_interrupted_safely.
  set (updated := outcome_record OutInterrupted None (Some "request_cancelled") (Some "request_cancelled")
  None (clk 1%nat) r).
  assert (await_repo (λ clk, mark_terminal clk lease OutInterrupted None (Some "request_cancelled")
    (Some "request_cancelled") None) s =
  (Ret updated, s2 <| cs_runs := (cs_runs s2) <| _records :=
    <[lease_run_id lease := updated]> (_records (cs_runs s2)) |> |>)) as E.
  { unfold await_repo, await_. rewrite (bind_run _ _ _ _ _ Hd), (bind_run _ _ _ _ _ Hc).
  unfold repo, zoom. cbn [mark_terminal memory_repository].
  by rewrite (memory_mark_terminal_spec _ _ _ _ _ _ _ _ r Hr), Hl. }
  set (s3 := s2 <| cs_runs := _ |>) in E.
  destruct (count_run (H:=H) "chat.run_interrupted" s3 eq_refl) as (s4&E4&Hr4&_).
  exists s4, updated. split; [|split; [by rewrite Hr4; simpl; rewrite lookup_insert_eq|done]].
  unfold bind at 1, try_except. rewrite (bind_run _ _ _ _ _ E). unfold ret at 1.
  by rewrite (bind_run _ _ _ _ _ E4).
Qed.
End cancelled.

(** The same in a whole request: cancelled while the history is appended. *)
Example cancelled_at_history :
  let '(o, s) := invoke memory_init (proceeds 9 ++ [(λ s, s, CancelBefore)]) "answer" in
  (answer_of o, recorded (cs_runs s), sc_turns (cs_host s)) =
  (Raise CancelledError, Some (Interrupted, None), []).
Proof. vm_compute. reflexivity. Qed.

Definition sample_lease : RunLease := MkRunLease "conversation" "run" "owner" 1 31000000.

(** A repository in which [sample_lease] has stored a completed outcome. *)
Definition completed_runs : MemoryRunRepository :=
  let clk : clock := λ _, 1000000 in
  let s1 := (create_or_get clk chat_identity memory_init).2 in
  let s2 := (acquire clk chat_identity "owner" 30 s1).2 in
  (mark_terminal clk sample_lease OutCompleted (Some [("response", VStr "answer")]) None None None s2).2.

Definition completed_state : ChatState MemoryRunRepository (Script MemoryRunRepository) :=
  MkChat completed_runs [] empty_metrics (MkScript [] 1000000 [] 1 "answer").

Lemma cancellation_loses_outcome_witness :
  recorded (cs_runs completed_state) = Some (Completed, Some (VStr "answer")) ∧
  ∃ s' r', run_raised (A:=ChatResponse) sample_lease true CancelledError completed_state =
      (Raise CancelledError, s') ∧
    _records (cs_runs s') !! "run" = Some r' ∧
    rec_status r' = Interrupted ∧ rec_response_payload r' = None ∧ replayable r' = None.
Proof.
  split; [vm_compute; reflexivity|].
  eapply (cancellation_loses_outcome completed_state completed_state completed_state sample_lease
    (λ _, 1000000) _ true); [reflexivity|reflexivity|vm_compute; reflexivity|vm_compute; reflexivity].
Defined.

(** ** A late admission *)

Definition stored_response (answer : string) : ChatResponse :=
  MkChatResponse "conversation" (Some "conversation") (Some "run") (Some "conversation:run") answer "echo" None [].

(** The other worker's part of the story on the shared PostgreSQL repository:
    it acquires the lease of the run, stores its outcome, commits the history
    and releases. *)
Definition postgres_backend : RunRepository PostgresRunRepository := postgres_repository (λ p, p).
#[local] Existing Instance postgres_backend.
#[local] Instance postgres_backend_laws : RunRepositoryLaws PostgresRunRepository :=
  postgres_laws (λ p, p).

Definition other_worker_finishes (s : PostgresRunRepository) : PostgresRunRepository :=
  let clk : clock := λ _, 1000000 in
  let lease := MkRunLease "conversation" "run" "other-worker" 1 31000000 in
  let s1 := (acquire clk chat_identity "other-worker" 30 s).2 in
  let s2 := (mark_terminal clk lease OutCompleted (Some (response_dump (stored_response "first answer"))) None None None s1).2 in
  let s3 := (mark_history_committed clk lease None s2).2 in
  (release clk lease s3).2.

Definition pending_runs : PostgresRunRepository :=
  (create_or_get (λ _, 1000000) chat_identity (postgres_init true)).2.

(** Admission is not checked again under the lease: when another worker
    finishes the run between the admission of a retry and its [acquire], the
    finished run is executed a second time and its stored outcome is replaced. *)
Theorem stale_admission_reexecutes :
  recorded (other_worker_finishes pending_runs) = Some (Completed, Some (VStr "first answer")) ∧
  let '(o, s) := invoke pending_runs [(λ s, s, Proceed); (other_worker_finishes, Proceed)] "second answer" in
  answer_of o = Ret "second answer" ∧ sc_graph_runs (cs_host s) = 1%nat ∧
  recorded (cs_runs s) = Some (Completed, Some (VStr "second answer")).
Proof. vm_compute. auto. Qed.

(** The same retry, admitted after the other worker, replays its outcome. *)
Example late_retry_replays :
  let '(o, s) := invoke (other_worker_finishes pending_runs) [] "second answer" in
  (answer_of o, sc_graph_runs (cs_host s)) = (Ret "first answer", 0%nat).
Proof. vm_compute. reflexivity. Qed.

(** ** Witnesses of the guarantees *)

(** A host that never interferes: its clock and the graph runs so far. *)
#[export] Instance calm_host St : ChatHost St (Z * nat) := {
  h_delivery := ret Proceed;
  h_clock := gets (λ w, λ _, w.2.1);
  h_now := gets (λ w, w.2.1);
  h_time := gets (λ w, w.2.1 / 1000000);
  h_mono := gets (λ w, (w.2.1, w.2.1));
  h_uuid4 := ret "9b2d6a3e-0000-4000-8000-000000000000";
  h_lookup := AsyncGet;
  h_get_tuple _ := ret None;
  h_append_turn _ _ _ _ := ret tt;
  h_memory_get _ := ret [];
  h_inventory_load := ret (MkInventory [] [] [] false 0);
  h_checkpoint_grounding _ := ret [];
  h_graph_ainvoke _ _ _ := λ w, (Ret (Some (MkGraphResult [("response", VStr "answer")] None)), (w.1, (w.2.1, S w.2.2)));
  h_meter_after b := ret b;
  h_beats := ret 2%nat;
  h_stop_execution := ret tt;
  h_type_name _ := "RuntimeError";
  h_float z := VFloat (Z_to_string z);
  h_str v := match v with VStr s => s | _ => "" end
}.

Lemma calm_host_undisturbed St : host_keeps (H:=Z * nat) (@eq St).
Proof. by split. Qed.

Lemma calm_host_calm St : calm (St:=St) (H:=Z * nat).
Proof. split; [done|by eexists|by eexists]. Qed.

Definition calm_state (runs : MemoryRunRepository) : ChatState MemoryRunRepository (Z * nat) :=
  MkChat runs [] empty_metrics (1000000, 0%nat).

Definition leased_runs : MemoryRunRepository :=
  let clk : clock := λ _, 1000000 in
  (acquire clk chat_identity "owner" 30 (create_or_get clk chat_identity memory_init).2).2.

Lemma leased_inv : repo_inv leased_runs.
Proof.
  change leased_runs with (exec (λ _, 1000000) (OpAcquire chat_identity "owner" 30)
    (exec (λ _, 1000000) (OpCreate chat_identity) memory_init).2).2.
  apply exec_inv, exec_inv, memory_inv_init.
Qed.

Lemma completed_inv : repo_inv completed_runs.
Proof.
  change completed_runs with (exec (λ _, 1000000)
    (OpMarkTerminal sample_lease OutCompleted (Some [("response", VStr "answer")]) None None None) leased_runs).2.
  apply exec_inv, leased_inv.
Qed.

#[local] Notation sample_admitted :=
  (run_admitted default_settings chat_service chat_request chat_identity
    (langgraph_config chat_identity) sample_lease (calm_state leased_runs)).

Lemma sample_admitted_returns : is_ret sample_admitted.1 = true.
Proof. vm_compute. reflexivity. Qed.

Lemma outcome_durable_witness :
  match sample_admitted with
  | (Ret response, s') =>
      (∃ r, outcome_stored "run" response (cs_runs s') r) ∧
      (∃ b, history_flag response = Some (VBool b)) ∧
      (nonempty "conversation" = true → nonempty "run" = true → response_filled response)
  | (Raise _, _) => False
  end.
Proof.
  pose proof sample_admitted_returns as Hok. destruct sample_admitted as [[response|e] s'] eqn:E.
  - exact (outcome_durable default_settings chat_service chat_request chat_identity
      (langgraph_config chat_identity) sample_lease (calm_state leased_runs) response s'
      (host_keeps_impl _ _ (leaves_run_eq _) (calm_host_undisturbed _)) leased_inv E).
  - discriminate Hok.
Defined.

Lemma admission_sound_witness :
  match locate_run chat_identity (VDict []) (calm_state memory_init) with
  | (Ret (r, created, migrated, _), s1) =>
      match _preflight_existing_run chat_request chat_identity r created migrated s1 with
      | (Ret None, s2) => record_identity_error r chat_identity = None ∧ replayable r = None ∧
          ((rec_status r = Pending ∧ (id_resumed chat_identity = true → migrated = true ∧
              id_resume_token_version chat_identity = rec_resume_token_version r)) ∨
           (id_resumed chat_identity = true ∧
            id_resume_token_version chat_identity = rec_resume_token_version r ∧
            (rec_status r = Interrupted ∨
             rec_status r = Running ∧ ∃ now t, world h_now s1 = (Ret now, s2) ∧
               rec_lease_expires_at r = Some t ∧ t ≤ now)))
      | _ => False
      end
  | _ => False
  end.
Proof.
  destruct (locate_run chat_identity (VDict []) (calm_state memory_init))
    as [[[[[r created] migrated] known]|e] s1] eqn:E1; [|vm_compute in E1; discriminate E1].
  destruct (_preflight_existing_run chat_request chat_identity r created migrated s1)
    as [[[response|]|e] s2] eqn:E2.
  1,3: vm_compute in E1; injection E1 as <- <- <- <- <-; vm_compute in E2; discriminate E2.
  exact (admission_sound chat_request chat_identity (VDict []) (calm_state memory_init) r created migrated
    known s1 s2 (undisturbed_steps (calm_host_undisturbed _)) memory_inv_init E1 E2).
Defined.

(** The outcome of [sample_lease] with its history committed. *)
Definition finished_runs : MemoryRunRepository :=
  let clk : clock := λ _, 1000000 in
  (mark_history_committed clk sample_lease (Some (response_dump (stored_response "answer"))) completed_runs).2.

Lemma finished_inv : repo_inv finished_runs.
Proof.
  change finished_runs with (exec (λ _, 1000000)
    (OpMarkHistory sample_lease (Some (response_dump (stored_response "answer")))) completed_runs).2.
  apply exec_inv, completed_inv.
Qed.

Lemma stored_response_filled answer : response_filled (stored_response answer).
Proof. by exists "conversation", "run", "conversation:run". Qed.

(** Nothing of the calm host counts a run of the graph but the graph. *)
Lemma idle_counts x y : rtc (idle_step (St:=MemoryRunRepository) (H:=Z * nat)) x y → x.2 = y.2.
Proof. induction 1 as [|x y z [] _ IH]; [done|..]; exact IH. Qed.

Lemma replay_exact_witness : ∃ s',
  _ainvoke_with_identity default_settings chat_service chat_request chat_identity (calm_state finished_runs) =
    (Ret (stored_response "answer"), s') ∧
  (cs_host s').2 = 0%nat ∧ cs_runs s' = finished_runs ∧ cs_owners s' = [].
Proof.
  destruct (_records finished_runs !! "run") as [r|] eqn:Hr; [|vm_compute in Hr; discriminate Hr].
  destruct (replay_exact default_settings chat_service eq
    chat_request chat_identity (calm_state finished_runs) r (response_dump (stored_response "answer"))
    (stored_response "answer")) as (s'&E&Hidle&Hruns&Howners).
  - exact (calm_host_calm _).
  - exact (calm_host_undisturbed _).
  - intros x y. apply leaves_run_eq.
  - apply finished_inv.
  - reflexivity.
  - reflexivity.
  - exact Hr.
  - vm_compute in Hr. injection Hr as <-. reflexivity.
  - vm_compute in Hr. injection Hr as <-. left. reflexivity.
  - vm_compute in Hr. injection Hr as <-. reflexivity.
  - intros fresh. apply response_validate_dump, stored_response_filled.
  - vm_compute in Hr. injection Hr as <-. by eexists.
  - exists s'. split; [exact E|]. split; [symmetry; exact (idle_counts _ _ Hidle)|]. split; [symmetry; exact Hruns|].
    exact Howners.
Defined.
