(* ===== verification/Service.v ===== *)
(** * The whole service

    The chat runtime over the program's own graph: [program_host] is a [ChatHost]
    whose graph is [run_graph] inside the request's execution meter, as
    [_MeteredChatRuntimeAgent] of [app/factory.py] runs it, over any [GraphHost]
    that satisfies the graph's laws -- the role agents over Ollama and the executor
    over MCP are one ([AgentHost.service_implements_graph]).  Everything else, the
    checkpointer that continues a resumed run included, is the base host's.
    [answers_are_verified]: an answer the service returns is verified, or says that
    it is not. *)

From S2P Require Import Prelude PyData Json PyNum RunTypes RunRepo MemoryRepo RunOutcome Metrics Settings Schemas Grounding.
From S2P Require Import Inventory Routing Meter ToolPolicy GraphState GraphNodes GraphRun GraphCorrect.
From S2P Require Import ChatSchema Identity Gate ChatRuntime ChatProps ChatSample.

(** ** What the graph returns *)

Definition ExecutionPlan_dump (p : ExecutionPlan) : pyval :=
  VDict [("goal", VStr (ep_goal p)); ("tasks", VList (map PlanTask_dump (ep_tasks p)))].

(** The [routing] channel: the decision and the next action. *)
Definition routing_dump (r : TaskRoutingDecision * string) : pyval := VDict [
  ("requires_external_evidence", VBool (tr_requires_external_evidence r.1));
  ("worker_role", VStr (tr_worker_role r.1)); ("verifier_role", VStr (tr_verifier_role r.1));
  ("reason", VStr (tr_reason r.1)); ("next_action", VStr r.2)].

Definition optional_text (o : option string) : pyval :=
  match o with Some t => VStr t | None => VNone end.

(** The channels of the final state that the runtime reads. *)
Definition state_values (s : GState) : pydict := [
  ("response", VStr (gs_response s)); ("backend", VStr (gs_backend s));
  ("model", optional_text (gs_model s));
  ("termination_reason", optional_text (gs_termination_reason s));
  ("plan", dump_opt ExecutionPlan_dump (gs_plan s));
  ("task_results", dump_list TaskResult_dump (gs_task_results s));
  ("final_verification", dump_opt FinalReport_dump (gs_final_verification s));
  ("final_revision_rounds", VInt (gs_final_revision_rounds s));
  ("iterations", VInt (gs_iterations s));
  ("routing", dump_opt routing_dump (gs_routing s));
  ("selected_models", VDict (map (λ kv, (kv.1, VStr kv.2)) (gs_selected_models s)));
  ("selected_tool", optional_text (gs_selected_tool s));
  ("selected_tools", VDict (gs_selected_tools s));
  ("research_queries", VDict (map (λ kv, (kv.1, VList (map VStr kv.2))) (gs_research_queries s)))].

(** ** The graph inside the request's meter *)

Section program.
Context {X : Type} `{GraphHost X} (settings : Settings).

(** [_checkpoint_safe_state]: a snapshot of the meter takes the place of the meter. *)
Definition _checkpoint_safe_state (state : GState) : M (World X) GState :=
  let! meter := take_snapshot in ret (state <| gs_execution_meter_state := meter |>).

(** [graph_fuel] super-steps are enough ([run_program_ends]). *)
Definition run_program (state : GState) : M (World X) (option GraphResult) :=
  let! state := _checkpoint_safe_state state in
  λ w, match run_graph settings (graph_fuel settings w) NPlan state w with
       | Some (Ret (_, s'), w') => (Ret (Some (MkGraphResult (state_values s') None)), w')
       | Some (Raise e, w') => (Raise e, w')
       | None => (Raise (PyExn RuntimeError "the graph does not end"), w)
       end.
End program.

(** The state of the base host, that of the agents and tools, and the meter of the
    request as its graph left it. *)
Record Hosted (H X : Type) : Type := MkHosted {
  hd_host : H;
  hd_ext : X;
  hd_meter : option ExecutionBudget
}.
Arguments MkHosted {H X} _ _ _.
Arguments hd_host {H X} _.
Arguments hd_ext {H X} _.
Arguments hd_meter {H X} _.

Section host.
Context {St H X : Type} `{RunRepository St} `{base : !ChatHost St H} `{GraphHost X} (settings : Settings).

Definition hosted {A} (m : M (St * H) A) : M (St * Hosted H X) A :=
  zoom (λ w, (w.1, hd_host w.2))
    (λ v w, (v.1, MkHosted v.2 (hd_ext w.2) (hd_meter w.2))) m.

(** [with execution_meter_scope(budget): m]. *)
Definition in_meter {A} (m : M (World X) A) (budget : ExecutionBudget) : M (St * Hosted H X) A := λ w,
  let '(o, v) := m (MkWorld (MkMeterTask budget None) (hd_ext w.2)) in
  (o, (w.1, MkHosted (hd_host w.2) (w_ext v) (Some (mt_meter (w_task v))))).

(** [with execution_meter_scope(budget): self.graph.ainvoke(...)]. *)
Definition program_graph (graph_input : option GraphInput) (config : pyval) (budget : ExecutionBudget) :
    M (St * Hosted H X) (option GraphResult) :=
  match graph_input with
  | None => hosted (h_graph_ainvoke None config budget)
  | Some input => in_meter (run_program settings (gi_state input)) budget
  end.

Definition program_host : ChatHost St (Hosted H X) := {|
  h_delivery := hosted h_delivery;
  h_clock := hosted h_clock;
  h_now := hosted h_now;
  h_time := hosted h_time;
  h_mono := hosted h_mono;
  h_uuid4 := hosted h_uuid4;
  h_lookup := h_lookup (St:=St) (H:=H);
  h_get_tuple config := hosted (h_get_tuple config);
  h_append_turn c r user assistant := hosted (h_append_turn c r user assistant);
  h_memory_get c := hosted (h_memory_get c);
  h_inventory_load := hosted h_inventory_load;
  h_checkpoint_grounding config := hosted (h_checkpoint_grounding config);
  h_graph_ainvoke := program_graph;
  h_meter_after budget := gets (λ w, default budget (hd_meter w.2));
  h_beats := hosted h_beats;
  h_stop_execution := hosted h_stop_execution;
  h_type_name := h_type_name (St:=St) (H:=H);
  h_float := h_float (St:=St) (H:=H);
  h_str := h_str (St:=St) (H:=H)
|}.
End host.

(** ** What an answer says *)

(** The words of every text that is not a verified answer. *)
Definition stopped_text : string := "Execution stopped safely before ".

Definition says_stopped (text : string) : Prop := contains stopped_text text = true.

Lemma says_stopped_app_l a b : says_stopped b → says_stopped (a +:+ b).
Proof. apply contains_app_r. Qed.

Lemma partial_says_stopped s : says_stopped (_partial_response s).
Proof.
  unfold _partial_response. cbv zeta. set (sections := if _ && _ then _ else _).
  destruct sections as [|x l].
  - apply (contains_here stopped_text).
  - set (reason := opt_str_or _ _). set (text := join _ _).
    do 3 apply says_stopped_app_l. apply (contains_here stopped_text).
Qed.

Lemma fallback_says_stopped reason : says_stopped (_fallback_message reason).
Proof. apply (contains_here stopped_text). Qed.

(** ** The run the answer comes from *)

Section verified.
Context {X : Type} `{GraphHost X} `{!GraphLaws X} (settings : Settings).

(** A run that returned is verified, or its answer says that it stopped. *)
Lemma run_graph_answer fuel s w last s' w' :
  run_graph settings fuel NPlan s w = Some (Ret (last, s'), w') →
  verified_run settings s' ∨ says_stopped (gs_response s').
Proof.
  intros Hrun. apply run_graph_last in Hrun as (s1 & w1 & Hn & Hi & Hg); [|done..].
  destruct (inv_graph_step settings _ _ _ _ _ _ Hn Hi Hg) as (_ & Hend & _).
  destruct (decide (last = NTerminate)) as [->|Hlast].
  - right. apply graph_step_ret in Hg as [Hr _]. cbn [run_node] in Hr. unfold _terminate, _state_update in Hr.
    apply bind_Ret_inv in Hr as (snap & w2 & _ & Hr). injection Hr as <- _. apply partial_says_stopped.
  - left. destruct (Hend eq_refl); [done|]. by apply (completed_verified _ last).
Qed.

Lemma outside_reads {A} (f : X → A * X) (w : World X) : ∃ a w',
  outside (λ x, let '(t, x') := f x in (Ret t, x')) w = (Ret a, w').
Proof. unfold outside, zoom. destruct (f (w_ext w)). by eexists _, _. Qed.

(** The super-steps of [run_program] are enough. *)
Lemma run_program_ends s w : ∃ s1 w1 r,
  _checkpoint_safe_state s w = (Ret s1, w1) ∧ run_graph settings (graph_fuel settings w1) NPlan s1 w1 = Some r.
Proof.
  assert (∃ s1 w1, _checkpoint_safe_state s w = (Ret s1, w1)) as (s1&w1&E).
  { unfold _checkpoint_safe_state, take_snapshot. rewrite bind_assoc.
    destruct (outside_reads th_wall w) as (a&w2&E2). rewrite (bind_run _ _ _ _ _ E2), bind_assoc.
    destruct (outside_reads th_monotonic w2) as (b&w3&E3). rewrite (bind_run _ _ _ _ _ E3), bind_assoc.
    destruct (outside_reads th_wall w3) as (c&w4&E4). rewrite (bind_run _ _ _ _ _ E4). by eexists _, _. }
  destruct (run_graph_ends settings (graph_fuel settings w1) NPlan s1 w1) as (r&Hr&_); [done..|].
  by exists s1, w1, r.
Qed.
End verified.

Section answers.
Context {St H X : Type} `{RunRepository St} `{base : !ChatHost St H} `{GraphHost X} `{!GraphLaws X}.
Context (env : IdentityEnv) (settings : Settings) (svc : RunIdentityService).
#[local] Hint Extern 0 (ChatHost St (Hosted H X)) => exact (program_host settings) : typeclass_instances.

(** A run of the graph on the request itself, and its final state. *)
Definition ran (request : ChatRequest) (run_id : string) (s' : GState) : Prop :=
  ∃ s w last w', gs_message s = cr_message request ∧ gs_run_id s = Some run_id ∧
    run_graph settings (graph_fuel settings w) NPlan s w = Some (Ret (last, s'), w').

Lemma run_program_ran s w r w' :
  run_program settings s w = (Ret r, w') →
  ∃ s1 w1 last sf, gs_message s1 = gs_message s ∧ gs_run_id s1 = gs_run_id s ∧
    run_graph settings (graph_fuel settings w1) NPlan s1 w1 = Some (Ret (last, sf), w') ∧
    r = Some (MkGraphResult (state_values sf) None).
Proof.
  unfold run_program, _checkpoint_safe_state. intros E.
  apply bind_Ret_inv in E as (s1&w1&Hs&E). apply bind_Ret_inv in Hs as (m&w2&_&Hs). injection Hs as <- <-.
  destruct (run_graph _ _ _ _ _) as [[[[last sf]|e] w3]|] eqn:Hr; [|done..]. injection E as <- <-.
  eexists _, _, last, sf. split; [|split; [|split; [exact Hr|done]]]; done.
Qed.

(** What the response shows of a final state. *)
Record shows (s' : GState) (response : ChatResponse) : Prop := {
  sh_text : resp_response response = gs_response s';
  sh_plan : get_or_none "plan" (resp_metadata response) = dump_opt ExecutionPlan_dump (gs_plan s');
  sh_results : get_or_none "verification" (resp_metadata response) =
    dump_list TaskResult_dump (gs_task_results s');
  sh_reason : get_or_none "termination_reason" (resp_metadata response) =
    optional_text (gs_termination_reason s')
}.

Definition honest_answer (request : ChatRequest) (run_id : string) (response : ChatResponse) : Prop :=
  says_stopped (resp_response response) ∨
  ∃ s', ran request run_id s' ∧ verified_run settings s' ∧ shows s' response.

(** The two ends of the graph's call. *)
Lemma invoke_graph_values input config budget (s : ChatState St (Hosted H X)) result s1 :
  _invoke_graph_safely settings (Some input) config budget s = (Ret result, s1) →
  (∃ reason code, gr_values result = _safe_failure_result settings reason code) ∨
  ∃ g w last sf w', gs_message g = gs_message (gi_state input) ∧ gs_run_id g = gs_run_id (gi_state input) ∧
    run_graph settings (graph_fuel settings w) NPlan g w = Some (Ret (last, sf), w') ∧
    gr_values result = state_values sf.
Proof.
  unfold _invoke_graph_safely, try_except. intros E.
  destruct (bind _ _ s) as [[r|e] s2] eqn:Hb.
  - injection E as -> ->. right. apply bind_Ret_inv in Hb as (r&s3&Ha&Hr). apply await_Ret in Ha.
    unfold world, zoom in Ha. cbn [h_graph_ainvoke program_host program_graph] in Ha. unfold in_meter in Ha.
    destruct (run_program _ _ _) as [o v] eqn:Hp. injection Ha as -> _.
    apply run_program_ran in Hp as (g&w&last&sf&Hm&Hi&Hrun&->). injection Hr as <- _.
    exists g, w, last, sf, v. auto.
  - left. destruct (graph_failure settings e) as [k|] eqn:Hk; [|done].
    assert (∃ reason code metric, k = failure settings reason code metric) as (reason&code&metric&->).
    { destruct e; simpl in Hk; try discriminate Hk; injection Hk as <-; by do 3 eexists. }
    unfold failure in E. apply bind_Ret_inv in E as (u&s3&_&E). injection E as <- _. by exists reason, code.
Qed.

Lemma execute_run_honest request identity config (s : ChatState St (Hosted H X)) ex s' :
  (∀ t, h_str (St:=St) (H:=H) (VStr t) = t) → id_resumed identity = false →
  _execute_run settings svc request identity config s = (Ret ex, s') →
  honest_answer request (id_run_id identity) (ex_response ex).
Proof.
  intros Hstr Hfresh E. unfold _execute_run in E. cbv zeta in E. rewrite Hfresh in E.
  do 6 apply bind_Ret_inv in E as (?&?&_&E). apply bind_Ret_inv in E as (result&s1&Hg&E).
  repeat (apply bind_Ret_inv in E as (?&?&_&E)). injection E as <- _. cbn [ex_response].
  unfold honest_answer, from_result, fill_compatibility_identity. cbn [resp_response resp_metadata].
  unfold str_channel. cbn [h_str program_host].
  apply invoke_graph_values in Hg as [(reason&code&->)|(g&w&last&sf&w'&Hm&Hi&Hrun&->)].
  - left. cbn. rewrite Hstr. apply fallback_says_stopped.
  - destruct (nonempty (gs_response sf)) eqn:Hne.
    + assert (∀ dflt, (let v := get_or_none "response" (state_values sf) in
        if truthy v then h_str (St:=St) (H:=H) v else dflt) = gs_response sf) as Htext.
      { intros. cbn. by rewrite Hne, Hstr. }
      rewrite Htext. destruct (run_graph_answer _ _ _ _ _ _ _ Hrun) as [Hv|Hs]; [|by left].
      right. exists sf. split; [by exists g, w, last, w'|]. split; [done|].
      split; [done|..]; cbn [resp_metadata]; unfold response_metadata, get_or_none at 1;
        (rewrite dict_get_merge; [done|by apply (bool_decide_unpack _)]).
    + left. cbn. rewrite Hne. apply fallback_says_stopped.
Qed.

Lemma set_history_text b response response' :
  set_history_persisted b response = Ret response' →
  resp_response response' = resp_response response ∧
  ∀ k, k ≠ "persistence" → get_or_none k (resp_metadata response') = get_or_none k (resp_metadata response).
Proof.
  unfold set_history_persisted. cbv zeta. intros E. destruct (default _ _) as [| | | | | |d]; try done.
  injection E as <-. split; [done|]. intros k Hk. unfold get_or_none. simpl. by rewrite dict_get_set_ne.
Qed.

Lemma set_history_honest request run_id b response response' :
  set_history_persisted b response = Ret response' →
  honest_answer request run_id response → honest_answer request run_id response'.
Proof.
  intros [Htext Hkeys]%set_history_text Hh.
  unfold honest_answer. rewrite Htext. destruct Hh as [Hs|(s'&Hr&Hv&[]) ]; [by left|].
  right. exists s'. split; [done|]. split; [done|]. by split; rewrite ?Htext, ?Hkeys.
Qed.

(** An admitted, fresh run. *)
Lemma run_admitted_honest request identity config lease (s : ChatState St (Hosted H X)) response s'
    (Hstr : ∀ t, h_str (St:=St) (H:=H) (VStr t) = t) (Hfresh : id_resumed identity = false)
    (Hrun : run_admitted settings svc request identity config lease s = (Ret response, s')) :
  honest_answer request (id_run_id identity) response.
Proof.
  unfold run_admitted in Hrun. apply try_finally_Ret in Hrun as (s1&u&E&_).
  apply bind_Ret_inv in E as (ex&s2&Hx&E).
  apply try_except_raises in Hx; [|intros e k ? ? ? [= <-]; apply run_raised_never].
  apply try_except_raises in E; [|intros e k ? ? ? [= <-]; apply run_raised_never].
  unfold execute_and_store in Hx. apply bind_Ret_inv in Hx as (ex'&s3&Hx&Hst).
  do 2 apply bind_Ret_inv in Hst as (?&?&_&Hst). injection Hst as -> _.
  unfold _execute_with_heartbeat in Hx. do 2 apply bind_Ret_inv in Hx as (?&?&_&Hx).
  apply await_Ret, execute_run_honest in Hx; [|done..].
  unfold commit_history in E. apply bind_Ret_inv in E as (b&s4&_&E).
  apply bind_Ret_inv in E as (r&s5&Hset&E). injection Hset as Hset _.
  apply bind_Ret_inv in E as (?&?&_&E). injection E as <- _. by eapply set_history_honest.
Qed.
(** The gate held by the request. *)
Definition held (identity : RunIdentity) (s : ChatState St (Hosted H X)) : ChatState St (Hosted H X) :=
  s <| cs_owners := dict_set (id_conversation_id identity) (id_run_id identity) (cs_owners s) |>.

(** The stored answer of the run that the request was found to name: its record is
bound to the same conversation, thread and request hash and has an outcome. *)
Definition stored_answer (s : ChatState St (Hosted H X)) (identity : RunIdentity) (response : ChatResponse) :
    Prop :=
  ∃ record created migrated known s1 payload,
    locate_run identity (langgraph_config identity) (held identity s) =
      (Ret (record, created, migrated, known), s1) ∧
    record_identity_error record identity = None ∧ replayable record = Some payload ∧
    dict_get "response" payload = Some (VStr (resp_response response)).

Lemma response_validate_text fresh payload response :
  response_validate fresh payload = Ret response →
  dict_get "response" payload = Some (VStr (resp_response response)).
Proof.
  unfold response_validate. intros E.
  repeat match type of E with obind ?o _ = _ => destruct o eqn:?; cbn [obind] in E; [|done] end.
  injection E as <-. cbn [resp_response fill_compatibility_identity].
  match goal with H : str_field (dict_get "response" _) = _ |- _ => rename H into Ht end.
  destruct (dict_get "response" payload) as [[]|]; try done. by injection Ht as ->.
Qed.

Lemma preflight_stored request identity r created migrated (s : ChatState St (Hosted H X)) response s' :
  _preflight_existing_run request identity r created migrated s = (Ret (Some response), s') →
  ∃ payload, replayable r = Some payload ∧ dict_get "response" payload = Some (VStr (resp_response response)).
Proof.
  unfold _preflight_existing_run. intros E. destruct (id_resumed identity && negb _); [done|].
  destruct (replayable r) as [payload|].
  - exists payload. split; [done|]. apply bind_Ret_inv in E as (r1&s1&E&Hq). injection Hq as -> ->.
    unfold replay_response, validated_response in E. apply bind_Ret_inv in E as (r2&s2&E2&E).
    apply bind_Ret_inv in E2 as (fresh&s3&_&E2). injection E2 as E2 _. apply response_validate_text in E2.
    apply bind_Ret_inv in E as (r3&s4&E3&E). apply bind_Ret_inv in E as ([]&s5&_&E). injection E as -> ->.
    destruct (rec_history_committed_at r); [by injection E3 as -> _|].
    apply bind_Ret_inv in E3 as (b&s6&_&E3). apply bind_Ret_inv in E3 as (r4&s7&Hset&E3).
    apply bind_Ret_inv in E3 as (?&s8&_&E3). injection E3 as -> ->. injection Hset as Hset _.
    apply set_history_text in Hset as [-> _]. done.
  - exfalso. revert E. repeat case_match; unfold bind, world, zoom; repeat case_match; done.
Qed.

End answers.

(** ** The whole request *)

Section requests.
Context {St H X : Type} `{RunRepositoryLaws St} `{base : !ChatHost St H} `{GraphHost X} `{!GraphLaws X}.
Context (settings : Settings) (svc : RunIdentityService).
#[local] Hint Extern 0 (ChatHost St (Hosted H X)) => exact (program_host settings) : typeclass_instances.

Lemma hosted_keeps (P : St → St → Prop) {A} (m : M (St * H) A) :
  (∀ w, P w.1 (m w).2.1) → ∀ w : St * Hosted H X, P w.1 (hosted m w).2.1.
Proof. intros Hm w. unfold hosted, zoom. pose proof (Hm (w.1, hd_host w.2)) as Hw. by destruct (m _). Qed.

(** The graph does not touch the repository: what the base host does to it is all. *)
Lemma program_keeps (P : St → St → Prop) `{!Reflexive P} :
  host_keeps (H:=H) P → host_keeps (H:=Hosted H X) P.
Proof.
  intros [???????????????]. split; intros; cbn [h_delivery h_clock h_now h_time h_mono h_uuid4 h_get_tuple
    h_append_turn h_memory_get h_inventory_load h_checkpoint_grounding h_graph_ainvoke h_meter_after h_beats
    h_stop_execution program_host]; try (by apply hosted_keeps); [|done].
  unfold program_graph. destruct i as [input|]; [|by apply hosted_keeps]. unfold in_meter.
  by destruct (run_program _ _ _).
Qed.

(** C1. Every answer is verified or says that it is not.  When a request that does
    not resume a run returns a response, over any agents and tools that satisfy the
    graph's laws, whatever raised, was cancelled, ran out of budget or was done by
    other workers on the way: its text says that execution stopped safely; or it is
    the answer of a run of the graph on this very request in which every task of the
    final plan has a result that passed verification with every claim supported by
    recorded evidence, and a synthesized answer passed its own verification unless
    that is disabled, and the plan and the results that the response's metadata
    shows are those; or it is the stored answer of the record that the request was
    found to name, which has an outcome and is bound to this request. *)
Theorem answers_are_verified request identity (s : ChatState St (Hosted H X)) response s'
    (Hstr : ∀ t, h_str (St:=St) (H:=H) (VStr t) = t) (Hfresh : id_resumed identity = false)
    (Hothers : host_keeps (H:=H) (rtc repo_step)) (Hinv : repo_inv (cs_runs s))
    (Hrun : _ainvoke_with_identity settings svc request identity s = (Ret response, s')) :
  honest_answer settings request (id_run_id identity) response ∨ stored_answer settings s identity response.
Proof.
  rewrite invoke_body in Hrun. unfold hold in Hrun. apply bind_Ret_inv in Hrun as ([]&s1&Hgate&E).
  apply try_finally_Ret in E as (s2&u&E&_). unfold admitted_body in E. cbv zeta in E.
  assert (s1 = held identity s) as ->.
  { unfold zoom, gate_enter in Hgate. destruct (dict_has _ _); [done|]. by injection Hgate as <-. }
  apply bind_Ret_inv in E as ([[[record created] migrated] known]&s3&Hl&E).
  pose proof Hl as Hfound.
  apply located_spec in Hl as (Hid&_&_); [|apply program_keeps; [apply _|apply Hothers]|done].
  apply bind_Ret_inv in E as (?&s4&Hr&E). injection Hr as <- <-. cbn beta iota in E.
  apply bind_Ret_inv in E as ([r|]&s5&Hp&E).
  - right. injection E as -> _. apply preflight_stored in Hp as (payload&?&?). by exists record, created, migrated, known, s3, payload.
  - left. do 3 apply bind_Ret_inv in E as (?&?&_&E). by eapply run_admitted_honest.
Qed.
End requests.

(** ** A run of the whole service *)

(** What a computed outcome returned. *)
Lemma returned_value {S A B} (f : A → B) (r : outcome A * S) b :
  match r.1 with Ret a => Some (f a) | Raise _ => None end = Some b →
  ∃ a s', r = (Ret a, s') ∧ f a = b.
Proof. destruct r as [[a|e] s']; intros [= <-]. by exists a, s'. Qed.

Section sample.

(** The calm host of [ChatSample] with a tool inventory. *)
#[local] Instance news_host : ChatHost MemoryRunRepository (Z * nat) := {|
  h_delivery := h_delivery; h_clock := h_clock; h_now := h_now; h_time := h_time; h_mono := h_mono;
  h_uuid4 := h_uuid4; h_lookup := AsyncGet; h_get_tuple := h_get_tuple; h_append_turn := h_append_turn;
  h_memory_get := h_memory_get; h_inventory_load := ret sample_tools_inventory;
  h_checkpoint_grounding := h_checkpoint_grounding; h_graph_ainvoke := h_graph_ainvoke;
  h_meter_after := h_meter_after; h_beats := h_beats; h_stop_execution := h_stop_execution;
  h_type_name := h_type_name (ChatHost := calm_host MemoryRunRepository);
  h_float := h_float (ChatHost := calm_host MemoryRunRepository);
  h_str := h_str (ChatHost := calm_host MemoryRunRepository)
|}.
#[local] Existing Instance sample_graph_host.
#[local] Existing Instance sample_graph_laws.

Definition news_request : ChatRequest := chat_request <| cr_message := "latest news on Mars" |>.
Definition news_start : ChatState MemoryRunRepository (Hosted (Z * nat) unit) :=
  MkChat memory_init [] empty_metrics (MkHosted (1000000, 0%nat) tt None).

#[local] Abbreviation news_run :=
  (_ainvoke_with_identity (ChatHost0 := program_host sample_settings) sample_settings chat_service news_request
    chat_identity news_start).

Lemma news_run_returns : ∃ response s',
  news_run = (Ret response, s') ∧ resp_response response = "Both findings.".
Proof. apply (returned_value resp_response). vm_compute. reflexivity. Qed.

Lemma answers_are_verified_witness : ∃ response s',
  news_run = (Ret response, s') ∧
  ∃ sf, ran sample_settings news_request (id_run_id chat_identity) sf ∧ verified_run sample_settings sf ∧
    gs_response sf = "Both findings.".
Proof.
  assert (∀ t, h_str (ChatHost := news_host) (VStr t) = t) as Hstr by reflexivity.
  assert (host_keeps (ChatHost0 := news_host) (rtc (repo_step (St := MemoryRunRepository)))) as Hothers
    by (apply undisturbed_steps; by split).
  assert (repo_inv (cs_runs news_start)) as Hinv by exact memory_inv_init.
  destruct news_run_returns as (response&s'&E&Hr). exists response, s'. split; [exact E|].
  destruct (answers_are_verified sample_settings chat_service news_request chat_identity news_start response s'
    Hstr eq_refl Hothers Hinv E) as [[Hs|(sf&Hran&Hv&[Htext _ _ _])]|Hst].
  - unfold says_stopped in Hs. rewrite Hr in Hs. discriminate Hs.
  - exists sf. split; [exact Hran|]. split; [exact Hv|]. rewrite <-Htext. exact Hr.
  - destruct Hst as (record&c&m&k&s1&payload&Hl&_&Hrep&_). vm_compute in Hl. injection Hl as <- _ _ _ _.
    discriminate Hrep.
Defined.

(** The agents of the sample, but the verifier asks to terminate. *)
#[local] Instance terminating_host : GraphHost unit := {|
  gh_tools := gh_tools (GraphHost := sample_graph_host); gh_env := gh_env;
  gh_int_of_float := gh_int_of_float; gh_type_name := gh_type_name; gh_planner := gh_planner;
  gh_worker_execute := gh_worker_execute; gh_worker_revise := gh_worker_revise;
  gh_verify := λ _ _, ret (MkReport VTerminate false [] [] "0.9");
  gh_synthesize := gh_synthesize; gh_verify_final := gh_verify_final
|}.

(** A run that its verifier terminates is stored as completed, and its metadata
    names no reason: only the text says that it stopped. *)
Theorem silent_termination : ∃ response s',
  _ainvoke_with_identity (ChatHost0 := program_host sample_settings) sample_settings chat_service news_request
    chat_identity news_start = (Ret response, s') ∧
  says_stopped (resp_response response) ∧
  get_or_none "termination_reason" (resp_metadata response) = VNone ∧
  get_or_none "run_status" (resp_metadata response) = VStr "completed".
Proof.
  destruct (returned_value (λ r, (contains stopped_text (resp_response r),
      get_or_none "termination_reason" (resp_metadata r), get_or_none "run_status" (resp_metadata r)))
    (_ainvoke_with_identity (ChatHost0 := program_host sample_settings) sample_settings chat_service
      news_request chat_identity news_start)
    (true, VNone, VStr "completed")) as (response&s'&E&H).
  - vm_compute. reflexivity.
  - injection H as H1 H2 H3. exists response, s'. split; [exact E|]. exact (conj H1 (conj H2 H3)).
Qed.
End sample.
