(* ===== verification/Api.v ===== *)
(** * The chat endpoints

    [app/api/routes/chat.py] over the chat runtime: the reply of [/api/chat], and
    the event stream of [/api/chat/stream] with [ChatRuntimeAgent.astream_events],
    an asynchronous generator whose consumer is the endpoint's own generator.
    [chat_reply_typed] and [chat_stream_protocol] say what a client can be
    sent, [stream_decodes] that a stream is read back event by event. *)

From S2P Require Import Prelude PyData Json Base64 Sha256 PyNum RunTypes RunRepo Metrics Settings ChatSchema.
From S2P Require Import Identity Tokens Gate McpProtocol ChatRuntime ChatProps.
From S2P Require Import MemoryRepo ChatSample.

(** ** Items and frames *)

(** [ExecutionEvent]; the timestamp is not sent. *)
Record StreamItem : Type := MkStreamItem { se_event : string; se_data : pydict; se_timestamp : Z }.

Definition frame (name : string) (data : pydict) : string := encode_sse name (VDict data).

Definition started_data (svc : RunIdentityService) (identity : RunIdentity) (resume_token : string) : pydict := [
  ("thread_id", VStr (id_conversation_id identity));
  ("conversation_id", VStr (id_conversation_id identity));
  ("run_id", VStr (id_run_id identity));
  ("execution_thread_id", VStr (id_execution_thread_id identity));
  ("resumed", VBool (id_resumed identity));
  ("resume_token", VStr resume_token);
  ("resume_token_expires_in_seconds", VInt (_ttl_seconds svc))].

Definition planning_data (identity : RunIdentity) : pydict := [
  ("conversation_id", VStr (id_conversation_id identity)); ("run_id", VStr (id_run_id identity))].

Definition working_data (identity : RunIdentity) : pydict :=
  ("stage", VStr "agent_graph") :: planning_data identity.

Definition completed_data (response : ChatResponse) : pydict := [("response", VDict (response_dump response))].

(** The data of the [error] event: [exc.error_code], [exc.status_code] and the
    text for an error of the request's identity, a constant for any other. *)
Definition error_data (e : exn) : pydict :=
  match e with
  | IdentityExn c msg =>
      [("code", VStr (error_code c)); ("status_code", VInt (status_code c)); ("message", VStr msg)]
  | _ => [("message", VStr "Dependency unavailable.")]
  end.

(** ** The connection *)

Record Connection (St H : Type) : Type := MkConnection {
  cn_chat : ChatState St H;
  cn_sent : list string         (** the frames sent so far *)
}.
Arguments MkConnection {St H} _ _.
Arguments cn_chat {St H} _.
Arguments cn_sent {St H} _.

#[export] Instance eta_Connection St H : Eta (Connection St H) := λ s, MkConnection (cn_chat s) (cn_sent s).

(** [request.is_disconnected()]; whether the server asks for the next frame after
    one was sent, or closes the generator; and how often the task is found running. *)
Class StreamHost (St H : Type) : Type := {
  h_disconnected : M (St * H) bool;
  h_taken : St * H → bool * (St * H);
  h_ticks : M (St * H) nat
}.

Record HttpResponse : Type := MkHttpResponse { hr_status : Z; hr_content : pyval }.

(** [require_api_key]; a missing header is [None]. *)
Definition require_api_key (settings : Settings) (x_api_key : option string) : option HttpResponse :=
  if nonempty (api_key settings) && negb (bool_decide (x_api_key = Some (api_key settings)))
  then Some (MkHttpResponse 401 (VDict [("detail", VStr "Invalid or missing API key.")]))
  else None.

Section api.
Context {St H : Type} `{RunRepository St} `{!ChatHost St H} `{!StreamHost St H}.
Context (env : IdentityEnv) (settings : Settings) (svc : RunIdentityService).

Abbreviation CM := (M (ChatState St H)) (only parsing).
Abbreviation SM := (M (Connection St H)) (only parsing).

(** ** [/api/chat] *)

Definition unhandled_exception_handler : CM HttpResponse :=
  count "api.unhandled_error" ;;;
  ret (MkHttpResponse 500 (VDict [("detail", VStr "Internal server error.")])).

(** The exceptions left after the [except] clauses of the endpoint go to the
    application's handler; a cancellation goes to the server. *)
Definition chat_failed (e : exn) : CM HttpResponse :=
  match e with
  | IdentityExn c msg =>
      count ("api.chat." +:+ error_code c) ;;;
      let '(status, detail) := request_error_to_http_exception c msg in
      ret (MkHttpResponse status (VDict [("detail", detail)]))
  | CancelledError => count "api.chat.cancelled" ;;; raise e
  | _ => unhandled_exception_handler
  end.

Definition chat (x_api_key : option string) (request : ChatRequest) : CM HttpResponse :=
  match require_api_key settings x_api_key with
  | Some refused => ret refused
  | None =>
      count "api.chat.requests" ;;;
      try_except
        (let! response := ainvoke env settings svc request in
         ret (MkHttpResponse 200 (VDict (response_dump response))))
        (λ e, Some (chat_failed e))
  end.

(** ** [astream_events] *)

Definition on_chat {A} (m : CM A) : SM A := zoom cn_chat (λ c s, s <| cn_chat := c |>) m.

Definition event (name : string) (data : pydict) : SM StreamItem :=
  let! now := on_chat (world h_time) in ret (MkStreamItem name data now).

(** The outcome of the task, once it is done. *)
Definition outcome_of (task : CM ChatResponse) : SM (outcome ChatResponse) := λ s,
  let '(o, s') := on_chat task s in (Ret o, s').

Definition task_outcome (request : ChatRequest) (identity : RunIdentity) : SM (outcome ChatResponse) :=
  outcome_of (_ainvoke_with_identity settings svc request identity).

(** The consumer says whether it asks for another item.  [n] times the task is
    found running; the sleep may be cancelled. *)
Fixpoint working (consumer : StreamItem → SM bool) (data : pydict) (n : nat) : SM bool :=
  match n with
  | O => ret true
  | S n' =>
      on_chat (await_ (ret tt)) ;;;
      let! item := event "working" data in
      let! more := consumer item in
      if more then working consumer data n' else ret false
  end.

(** From [asyncio.create_task] on.  The task and the generator touch different
    parts of the state, and are run here one after the other; a generator that
    is left early cancels the task, which sees it as a delivery at one of its
    awaits, and waits for it. *)
Definition stream_task (consumer : StreamItem → SM bool) (task : SM (outcome ChatResponse)) (data : pydict) :
    SM unit :=
  let! ticks := on_chat (world h_ticks) in
  let! through := try_except (working consumer data ticks)
    (λ e, Some (task ;;; raise e)) in
  let! result := task in
  if through then
    let! response := of_outcome result in
    let! item := event "completed" (completed_data response) in
    consumer item ;;; ret tt
  else ret tt.

Definition astream_events (consumer : StreamItem → SM bool) (request : ChatRequest) : SM unit :=
  let! now := on_chat (world h_time) in
  let! c := on_chat (world h_uuid4) in
  let! r := on_chat (world h_uuid4) in
  let! identity := of_outcome (normalize env svc now c r request) in
  let! issued := on_chat (world h_time) in
  let! resume_token := of_outcome (issue_resume_token svc issued identity) in
  let! item := event "request_started" (started_data svc identity resume_token) in
  let! more := consumer item in
  if more then
    let! item := event "planning_started" (planning_data identity) in
    let! more := consumer item in
    if more then stream_task consumer (task_outcome request identity) (working_data identity) else ret tt
  else ret tt.

(** ** [/api/chat/stream] *)

Definition yield_frame (name : string) (data : pydict) : SM bool :=
  modify (λ s, s <| cn_sent := cn_sent s ++ [frame name data] |>) ;;;
  on_chat (world (λ w, let '(more, w') := h_taken w in (Ret more, w'))).

(** The body of [async for]. *)
Definition send_item (item : StreamItem) : SM bool :=
  let! gone := on_chat (await_ (world h_disconnected)) in
  if gone then on_chat (count "api.chat_stream.disconnected") ;;; ret false
  else yield_frame (se_event item) (se_data item).

Definition stream_failed (e : exn) : SM unit :=
  match e with
  | IdentityExn c _ =>
      on_chat (count ("api.chat_stream." +:+ error_code c)) ;;;
      yield_frame "error" (error_data e) ;;; ret tt
  | CancelledError => on_chat (count "api.chat_stream.cancelled") ;;; raise e
  | _ =>
      on_chat (count "api.chat_stream.error") ;;;
      yield_frame "error" (error_data e) ;;; ret tt
  end.

Definition events (request : ChatRequest) : SM unit :=
  try_except (astream_events send_item request) (λ e, Some (stream_failed e)).

(** The streaming response begins; its body is [events]. *)
Definition chat_stream (x_api_key : option string) (request : ChatRequest) : SM (option HttpResponse) :=
  match require_api_key settings x_api_key with
  | Some refused => ret (Some refused)
  | None => on_chat (count "api.chat_stream.requests") ;;; events request ;;; ret None
  end.
End api.

(** ** What a response is *)

(** The schema accepts the response's own dump and gives it back. *)
Definition response_typed (r : ChatResponse) : Prop :=
  ∀ fresh, response_validate fresh (response_dump r) = Ret r.

Lemma validate_dump fresh r :
  response_validate fresh (response_dump r) = Ret (fill_compatibility_identity fresh r).
Proof. by destruct r as [th [c|] [u|] [t|] resp b [m|] md]. Qed.

Lemma typed_fill r : response_typed r ↔ ∀ fresh, fill_compatibility_identity fresh r = r.
Proof.
  split; intros Hr fresh; specialize (Hr fresh); rewrite validate_dump in *; congruence.
Qed.

Lemma filled_typed r : response_filled r → response_typed r.
Proof. intros Hr. apply typed_fill. intros fresh. by apply fill_filled. Qed.

Lemma opt_str_or_idem o s : opt_str_or (Some (opt_str_or o s)) s = opt_str_or o s.
Proof. destruct o as [[|c o]|]; simpl; try done; by destruct s. Qed.

(** Validation fills every field it could fill again. *)
Lemma validated_typed fresh d r :
  nonempty fresh = true → response_validate fresh d = Ret r → response_typed r.
Proof.
  intros Hf Hv. assert (∃ r0, r = fill_compatibility_identity fresh r0) as (r0 & ->).
  { unfold response_validate in Hv.
    repeat match type of Hv with obind ?m _ = _ => destruct m; [cbn [obind] in Hv|done] end.
    injection Hv as <-. by eexists. }
  apply typed_fill. intros fresh'. unfold fill_compatibility_identity.
  destruct r0 as [th c u t resp b m md]. cbn -[opt_str_or].
  pose proof (opt_str_or_nonempty u fresh Hf) as Hu.
  rewrite opt_str_or_idem, (opt_str_or_Some (opt_str_or u fresh)) by done.
  assert (nonempty (opt_str_or t ((opt_str_or c th) +:+ ":" +:+ opt_str_or u fresh)) = true) as Ht.
  { apply opt_str_or_nonempty. by destruct (opt_str_or c th). }
  by rewrite (opt_str_or_Some _ _ Ht).
Qed.

Lemma set_history_typed b r r' :
  set_history_persisted b r = Ret r' → response_typed r → response_typed r'.
Proof.
  rewrite !typed_fill. unfold set_history_persisted. destruct r as [th c u t resp bk md meta]. cbn.
  intros E Hr fresh. specialize (Hr fresh).
  assert (∃ m, r' = MkChatResponse th c u t resp bk md m) as (m & ->) by (repeat case_match; simplify_eq; eauto).
  unfold fill_compatibility_identity in *. cbn -[opt_str_or] in *. injection Hr as H1 H2 H3. by rewrite H1, H2, H3.
Qed.

Section typed.
Context {St H : Type} `{RunRepository St} `{!ChatHost St H}.
Context (env : IdentityEnv) (settings : Settings) (svc : RunIdentityService).

(** [str(uuid4())] is not empty. *)
Definition uuids_nonempty : Prop := ∀ w u w', h_uuid4 (St:=St) (H:=H) w = (Ret u, w') → nonempty u = true.
Hypothesis Huuid : uuids_nonempty.

Lemma world_Ret {A} (m : M (St * H) A) s a s' :
  world m s = (Ret a, s') → ∃ w', m (cs_runs s, cs_host s) = (Ret a, w').
Proof. unfold world, zoom. destruct (m _) as [o w]. intros [= -> _]. by eexists. Qed.

Lemma validated_response_typed payload s r s' :
  validated_response payload s = (Ret r, s') → response_typed r.
Proof.
  intros (fresh & s1 & Hf & E)%bind_Ret_inv. apply world_Ret in Hf as [w' Hf].
  injection E as E _. eapply validated_typed; [|exact E]. by eapply Huuid.
Qed.

Lemma replay_typed request identity record payload s r s' :
  replay_response request identity record payload s = (Ret r, s') → response_typed r.
Proof.
  intros (r0 & s1 & Hr0 & E)%bind_Ret_inv. apply validated_response_typed in Hr0.
  apply bind_Ret_inv in E as (r1 & s2 & Hr1 & E). apply bind_Ret_inv in E as (? & s3 & _ & E).
  injection E as <- _. destruct (rec_history_committed_at record); [by injection Hr1 as <- _|].
  apply bind_Ret_inv in Hr1 as (b & s4 & _ & E). apply bind_Ret_inv in E as (r2 & s5 & Hset & E).
  apply bind_Ret_inv in E as (? & s6 & _ & E). injection E as <- _. injection Hset as Hset _.
  by eapply set_history_typed.
Qed.

Lemma preflight_typed request identity record created migrated s r s' :
  _preflight_existing_run request identity record created migrated s = (Ret (Some r), s') →
  response_typed r.
Proof.
  unfold _preflight_existing_run. case_match; [done|]. destruct (replayable record).
  - intros (r0 & s1 & Hr0 & E)%bind_Ret_inv. injection E as <- _. by eapply replay_typed.
  - repeat (case_match; try done). all: intros (? & ? & _ & E)%bind_Ret_inv; revert E.
    all: repeat (case_match; try done); intros E; by injection E.
Qed.

Lemma admitted_typed request identity config lease s r s' :
  nonempty (id_conversation_id identity) = true → nonempty (id_run_id identity) = true →
  run_admitted settings svc request identity config lease s = (Ret r, s') → response_typed r.
Proof.
  intros Hc Hu E. unfold run_admitted in E. apply try_finally_Ret in E as (s1 & u & E & _).
  apply bind_Ret_inv in E as (ex & s2 & Hx & E).
  apply try_except_raises in Hx; [|intros e k ? ? ? [= <-]; apply run_raised_never].
  apply try_except_raises in E; [|intros e k ? ? ? [= <-]; apply run_raised_never].
  apply bind_Ret_inv in Hx as (ex' & s3 & Hx & Hret).
  apply execution_shape_of in Hx. apply bind_Ret_inv in Hret as (? & ? & _ & Hret).
  apply bind_Ret_inv in Hret as (? & ? & _ & Hret). injection Hret as <- _.
  apply bind_Ret_inv in E as (b & s4 & _ & E). apply bind_Ret_inv in E as (r1 & s5 & Hset & E).
  apply bind_Ret_inv in E as (? & s6 & _ & E). injection E as <- _. injection Hset as Hset _.
  eapply set_history_typed; [exact Hset|]. by apply filled_typed, Hx.
Qed.

Lemma invoke_typed request identity s r s' :
  nonempty (id_conversation_id identity) = true → nonempty (id_run_id identity) = true →
  _ainvoke_with_identity settings svc request identity s = (Ret r, s') → response_typed r.
Proof.
  intros Hc Hu E. unfold _ainvoke_with_identity, hold in E.
  apply bind_Ret_inv in E as (? & s1 & _ & E). apply try_finally_Ret in E as (s2 & ? & E & _).
  apply bind_Ret_inv in E as (located & s3 & _ & E). apply bind_Ret_inv in E as ([[[record created] migrated] known] & s4 & _ & E).
  apply bind_Ret_inv in E as (replay & s5 & Hp & E). destruct replay as [r0|].
  - injection E as <- _. by eapply preflight_typed.
  - do 3 apply bind_Ret_inv in E as (? & ? & _ & E). by eapply admitted_typed.
Qed.

Lemma identity_named now c r request identity :
  normalize env svc now c r request = Ret identity →
  nonempty (id_conversation_id identity) = true ∧ nonempty (id_run_id identity) = true.
Proof.
  intros [Hv _]%normalize_thread. unfold RunIdentity_valid, len_between in Hv.
  repeat (apply andb_true_iff in Hv as [Hv ?]).
  by destruct (id_conversation_id identity), (id_run_id identity).
Qed.

Lemma ainvoke_typed request s r s' :
  ainvoke env settings svc request s = (Ret r, s') → response_typed r.
Proof.
  intros E. unfold ainvoke in E. do 3 apply bind_Ret_inv in E as (? & ? & _ & E).
  apply bind_Ret_inv in E as (identity & s1 & Hn & E). injection Hn as Hn _.
  destruct (identity_named _ _ _ _ _ Hn). by eapply invoke_typed.
Qed.
End typed.

(** ** What [/api/chat] answers *)

(** The content of a reply by its kind: a validated response, the refusal of a
    key, an error of the request's identity with the status of its class, or
    the constant of an unhandled error. *)
Inductive chat_reply (settings : Settings) (x_api_key : option string) : HttpResponse → Prop :=
  | reply_response r :
      require_api_key settings x_api_key = None → response_typed r →
      chat_reply settings x_api_key (MkHttpResponse 200 (VDict (response_dump r)))
  | reply_refused :
      nonempty (api_key settings) = true → x_api_key ≠ Some (api_key settings) →
      chat_reply settings x_api_key
        (MkHttpResponse 401 (VDict [("detail", VStr "Invalid or missing API key.")]))
  | reply_identity c msg :
      require_api_key settings x_api_key = None →
      chat_reply settings x_api_key (MkHttpResponse (status_code c)
        (VDict [("detail", VDict [("code", VStr (error_code c)); ("message", VStr msg)])]))
  | reply_unhandled :
      require_api_key settings x_api_key = None →
      chat_reply settings x_api_key
        (MkHttpResponse 500 (VDict [("detail", VStr "Internal server error.")])).

(** C22. Every reply of the handler of [/api/chat] to a request whose body passed
    its schema -- the framework answers another with 422 before it gets here --
    is the dump of a response that the schema accepts as it is, the refusal of a
    wrong key before anything happens, an error of the request's identity with
    its class' status and code, or a constant for any other error; only a
    cancellation leaves it as an exception. *)
Theorem chat_reply_typed {St H} `{RunRepository St} `{!ChatHost St H} env settings svc x_api_key
    request (s : ChatState St H)
    (Huuid : uuids_nonempty (St:=St) (H:=H)) :
  match chat env settings svc x_api_key request s with
  | (Ret reply, s') => chat_reply settings x_api_key reply ∧ (is_Some (require_api_key settings x_api_key) → s' = s)
  | (Raise e, _) => e = CancelledError
  end.
Proof.
  unfold chat. destruct (require_api_key settings x_api_key) as [refused|] eqn:Hk.
  { unfold require_api_key in Hk. destruct (nonempty (api_key settings)) eqn:Hn; [|done].
    case_bool_decide; [done|]. injection Hk as <-. split; [by constructor|done]. }
  destruct (count_run "api.chat.requests" s eq_refl) as (s1 & E1 & _). rewrite (bind_run _ _ _ _ _ E1).
  unfold try_except. unfold bind at 1. destruct (ainvoke env settings svc request s1) as [[r|e] s2] eqn:E.
  { split; [constructor; [done|]; by eapply ainvoke_typed|by intros [? ?]]. }
  assert (is_Some (None (A:=HttpResponse)) → ∀ s' : ChatState St H, s' = s) as Hno by by intros [? ?].
  assert (chat_reply settings x_api_key (MkHttpResponse 500 (VDict [("detail", VStr "Internal server error.")])))
    as Hunhandled by by apply reply_unhandled.
  destruct (count_run "api.unhandled_error" s2 eq_refl) as (s3 & E3 & _).
  destruct e as [| | |c msg| | | | | |]; cbn [chat_failed]; try unfold unhandled_exception_handler;
    try (rewrite (bind_run _ _ _ _ _ E3); split; [done|by intros ?; apply Hno]).
  - destruct (count_run "api.chat.cancelled" s2 eq_refl) as (s4 & E4 & _).
    by rewrite (bind_run _ _ _ _ _ E4).
  - destruct (count_run ("api.chat." +:+ error_code c) s2 eq_refl) as (s4 & E4 & _).
    rewrite (bind_run _ _ _ _ _ E4). split; [by apply reply_identity|by intros ?; apply Hno].
Qed.

(** ** What [/api/chat/stream] sends *)

Section stream.
Context {St H : Type} `{RunRepository St} `{!ChatHost St H} `{!StreamHost St H}.
Context (env : IdentityEnv) (settings : Settings) (svc : RunIdentityService).

Abbreviation SM := (M (Connection St H)) (only parsing).

(** The client stays: the server asks for every frame. *)
Definition stays : Prop :=
  (∀ w b w', h_disconnected (St:=St) (H:=H) w = (Ret b, w') → b = false) ∧
  (∀ w, (h_taken (St:=St) (H:=H) w).1 = true).

Lemma on_chat_sent {A} (m : M (ChatState St H) A) s : cn_sent (on_chat m s).2 = cn_sent s.
Proof. unfold on_chat, zoom. by destruct (m (cn_chat s)). Qed.

Lemma event_sent name data s :
  cn_sent (event name data s).2 = cn_sent s ∧
  ∀ item s', event name data s = (Ret item, s') → se_event item = name ∧ se_data item = data.
Proof.
  unfold event, bind. pose proof (on_chat_sent (world h_time) s) as E.
  destruct (on_chat (world h_time) s) as [[now|e] s1]; cbn in *; split; [done|..|done|]; by intros ? ? [= <- _].
Qed.

(** An item is sent or it is not; only after it was is another asked for. *)
Lemma send_item_sent item s :
  let '(o, s') := send_item (St:=St) (H:=H) item s in
  (cn_sent s' = cn_sent s ++ [frame (se_event item) (se_data item)] ∧ is_ret o = true ∨
   cn_sent s' = cn_sent s ∧ o ≠ Ret true) ∧
  (∀ b, stays → o = Ret b → b = true).
Proof.
  unfold send_item, yield_frame. unfold bind at 1.
  pose proof (on_chat_sent (await_ (world h_disconnected)) s) as E1.
  destruct (on_chat (await_ (world h_disconnected)) s) as [[gone|e] s1] eqn:E; cbn in E1; [|by split; [right|]].
  destruct gone.
  - unfold bind. pose proof (on_chat_sent (count "api.chat_stream.disconnected") s1) as E2.
    assert (¬ stays) as Hn.
    { intros [Hs _]. unfold on_chat, zoom in E. destruct (await_ _ _) as [o2 s2] eqn:E3. injection E as -> _.
      apply await_Ret, world_Ret in E3 as [w' E3]. by specialize (Hs _ _ _ E3). }
    destruct (on_chat (count _) s1) as [[]]; cbn in *; (split; [right; split; [congruence|done]|naive_solver]).
  - unfold bind, modify, on_chat, world, zoom. cbn.
    destruct (h_taken _) as [more w'] eqn:Et. split; [left; split; [by rewrite <- E1|done]|].
    intros b [_ Hs] [= <-]. specialize (Hs (cs_runs (cn_chat s1), cs_host (cn_chat s1))). by rewrite Et in Hs.
Qed.

(** Make an item and hand it to the endpoint. *)
Definition offer (name : string) (data : pydict) : SM bool :=
  let! item := event name data in send_item item.

Lemma offer_sent name data s :
  let '(o, s') := offer name data s in
  (cn_sent s' = cn_sent s ++ [frame name data] ∧ is_ret o = true ∨ cn_sent s' = cn_sent s ∧ o ≠ Ret true) ∧
  (∀ b, stays → o = Ret b → b = true).
Proof.
  unfold offer, bind. destruct (event_sent name data s) as [E1 Hi].
  destruct (event name data s) as [[item|e] s1]; cbn in *; [|by split; [right|]].
  destruct (Hi _ _ eq_refl) as [<- <-]. pose proof (send_item_sent item s1) as Hs.
  destruct (send_item item s1). by rewrite <- E1.
Qed.

(** An item made for the consumer and handed to it, as the generator does. *)
Lemma offered {A} name data (k : bool → SM A) s :
  (let! item := event name data in let! more := send_item item in k more) s = bind (offer name data) k s.
Proof. symmetry. apply bind_assoc. Qed.

Definition working_frame (identity : RunIdentity) : string := frame "working" (working_data identity).

Lemma working_sent identity n s :
  let '(o, s') := working (St:=St) (H:=H) send_item (working_data identity) n s in
  (∃ k, cn_sent s' = cn_sent s ++ replicate k (working_frame identity)) ∧
  (∀ b, stays → o = Ret b → b = true).
Proof.
  revert s. induction n as [|n IH]; intros s.
  { split; [|by intros b _ [= <-]]. exists 0%nat. cbn. by rewrite app_nil_r. }
  cbn [working]. unfold bind at 1.
  pose proof (on_chat_sent (await_ (ret tt)) s) as E1.
  destruct (on_chat (await_ (ret tt)) s) as [[[]|e] s1]; cbn in E1.
  2:{ split; [|done]. exists 0%nat. by rewrite app_nil_r. }
  rewrite offered. unfold bind. pose proof (offer_sent "working" (working_data identity) s1) as Ho.
  destruct (offer "working" _ s1) as [[more|e] s2]; destruct Ho as [Ho Hm].
  2:{ split; [|done]. destruct Ho as [[? ?]|[Ho _]]; [done|]. exists 0%nat. rewrite app_nil_r. congruence. }
  destruct more.
  - destruct Ho as [[Ho _]|[_ Ho]]; [|done]. specialize (IH s2).
    destruct (working send_item (working_data identity) n s2) as [o s3]. destruct IH as [[k Hk] Hb]. split; [|done].
    exists (S k). cbn. by rewrite Hk, Ho, E1, <- app_assoc.
  - split; [|intros b Hst [= <-]; by apply (Hm false Hst)].
    destruct Ho as [[Ho _]|[Ho _]]; [exists 1%nat|exists 0%nat]; cbn; by rewrite ?app_nil_r, Ho, E1.
Qed.

Hypothesis Huuid : uuids_nonempty (St:=St) (H:=H).

(** The task ends the way the run does; it sends nothing. *)
Lemma task_outcome_sent request identity s :
  nonempty (id_conversation_id identity) = true → nonempty (id_run_id identity) = true →
  ∃ result s', task_outcome settings svc request identity s = (Ret result, s') ∧
    cn_sent s' = cn_sent s ∧ ∀ r, result = Ret r → response_typed r.
Proof.
  intros Hc Hu. unfold task_outcome, outcome_of.
  pose proof (on_chat_sent (_ainvoke_with_identity settings svc request identity) s) as E.
  destruct (on_chat _ s) as [o s'] eqn:Eo. eexists _, _. split_and!; [done|done|]. intros r ->.
  unfold on_chat, zoom in Eo. destruct (_ainvoke_with_identity _ _ _ _ _) as [o c] eqn:Ei.
  injection Eo as -> _. by eapply invoke_typed.
Qed.

Lemma stream_task_sent request identity s :
  nonempty (id_conversation_id identity) = true → nonempty (id_run_id identity) = true →
  let '(o, s') := stream_task send_item (task_outcome settings svc request identity) (working_data identity) s in
  ∃ k q, cn_sent s' = cn_sent s ++ replicate k (working_frame identity) ++ q ∧
    (q = [] ∨ is_ret o = true ∧ ∃ r, response_typed r ∧ q = [frame "completed" (completed_data r)]) ∧
    (stays → o = Ret tt → q ≠ []).
Proof.
  intros Hc Hu. unfold stream_task. unfold bind at 1.
  pose proof (on_chat_sent (world h_ticks) s) as E1.
  destruct (on_chat (world h_ticks) s) as [[ticks|e] s1]; cbn in E1.
  2:{ exists 0%nat, []. rewrite !app_nil_r. by split_and!; [|left|]. }
  unfold bind at 1, try_except. pose proof (working_sent identity ticks s1) as Hw.
  destruct (working send_item (working_data identity) ticks s1) as [[through|e] s2]; destruct Hw as [[k Hk] Hb].
  2:{ unfold bind. destruct (task_outcome_sent request identity s2 Hc Hu) as (result & s3 & -> & Hs3 & _).
      exists k, []. rewrite app_nil_r. split_and!; [cbn; congruence|by left|done]. }
  destruct (task_outcome_sent request identity s2 Hc Hu) as (result & s3 & Et & Hs3 & Hr).
  rewrite (bind_run _ _ _ _ _ Et). destruct through.
  2:{ exists k, []. rewrite app_nil_r. split_and!; [cbn; congruence|by left|].
      intros Hst _. by specialize (Hb false Hst eq_refl). }
  destruct result as [r|e]; unfold bind at 1, of_outcome.
  2:{ exists k, []. rewrite app_nil_r. split_and!; [cbn; congruence|by left|done]. }
  rewrite offered. unfold bind. pose proof (offer_sent "completed" (completed_data r) s3) as Ho.
  destruct (offer "completed" (completed_data r) s3) as [o s4]. destruct Ho as [Ho Hm].
  destruct Ho as [[Ho Hret]|[Ho Hn]].
  - destruct o; [|done]. exists k, [frame "completed" (completed_data r)]. cbn.
    split_and!; [by rewrite Ho, Hs3, Hk, E1, app_assoc|right; split; [done|]; exists r; split; [by apply Hr|done]|done].
  - destruct o as [b|e]; exists k, []; rewrite app_nil_r; (split_and!; [cbn; congruence|by left|]); [|done].
    intros Hst _. by rewrite (Hm b Hst eq_refl) in Hn.
Qed.

(** The frames before the end: the two that open the stream, then the ticks. *)
Definition stream_opening (identity : RunIdentity) (resume_token : string) : list string :=
  [frame "request_started" (started_data svc identity resume_token);
   frame "planning_started" (planning_data identity)].

(** What has been sent before the end of a stream. *)
Inductive opened : list string → Prop :=
  | opened_not : opened []
  | opened_by identity resume_token n p :
      p `prefix_of` stream_opening identity resume_token ++ replicate n (working_frame identity) → opened p.

(** What an [error] event may tell: an error of the request's identity, or a
    constant. *)
Inductive told : pydict → Prop :=
  | told_identity c msg :
      told [("code", VStr (error_code c)); ("status_code", VInt (status_code c)); ("message", VStr msg)]
  | told_nothing : told [("message", VStr "Dependency unavailable.")].

(** The frames a client may have received, and whether the stream was ended
    by its closing event. *)
Inductive streamed : bool → list string → Prop :=
  | streamed_open p : opened p → streamed false p
  | streamed_completed identity resume_token n r :
      response_typed r →
      streamed true (stream_opening identity resume_token ++ replicate n (working_frame identity) ++
        [frame "completed" (completed_data r)])
  | streamed_error p data : opened p → told data → streamed true (p ++ [frame "error" data]).

(** The generator left the stream open only when it raised or the client left. *)
Definition streaming (o : outcome unit) (s : Connection St H) : Prop :=
  (opened (cn_sent s) ∧ (stays → o ≠ Ret tt)) ∨ (streamed true (cn_sent s) ∧ is_ret o = true).

Lemma silent_triple {A} (m : M (ChatState St H) A) l :
  triple (λ s, cn_sent s = l) (on_chat m) (λ _ s, cn_sent s = l).
Proof. intros s <-. apply on_chat_sent. Qed.

Lemma offer_triple name data l :
  triple (λ s, cn_sent s = l) (offer name data)
    (λ o s, (cn_sent s = l ++ [frame name data] ∧ is_ret o = true ∨ cn_sent s = l ∧ o ≠ Ret true) ∧
      (∀ b, stays → o = Ret b → b = true)).
Proof. intros s <-. pose proof (offer_sent name data s). by destruct (offer name data s). Qed.

Lemma opened_again o l s : opened l → cn_sent s = l → (stays → o ≠ Ret tt) → streaming o s.
Proof. intros Hl Hs Hn. left. by rewrite Hs. Qed.

(** An item that keeps the stream open, and what follows it. *)
Lemma offer_then name data l (k : bool → SM unit) :
  opened l → opened (l ++ [frame name data]) →
  triple (λ s, cn_sent s = l ++ [frame name data]) (k true) streaming →
  (∀ s, k false s = (Ret tt, s)) →
  triple (λ s, cn_sent s = l) (bind (offer name data) k) streaming.
Proof.
  intros Hl Hl' Hk Hf. eapply triple_bind; [apply offer_triple|..].
  - intros [] s [[[Hs _]|[Hs Hn]] Hb]; [by apply Hk|done|..]; rewrite Hf.
    + apply (opened_again _ _ _ Hl' Hs). intros Hst. by specialize (Hb false Hst eq_refl).
    + apply (opened_again _ _ _ Hl Hs). intros Hst. by specialize (Hb false Hst eq_refl).
  - intros e s [[[_ ?]|[Hs _]] _]; [done|]. by apply (opened_again _ _ _ Hl Hs).
Qed.

Lemma astream_sent request :
  triple (λ s, cn_sent s = []) (astream_events env settings svc send_item request) streaming.
Proof.
  unfold astream_events.
  assert (∀ e s, cn_sent s = [] → streaming (Raise e) s) as Hfail.
  { intros e s Hs. by apply (opened_again _ [] _ opened_not Hs). }
  do 3 (eapply triple_bind; [apply silent_triple|intros ?|exact Hfail]).
  eapply triple_bind with (Q1 := λ o s, cn_sent s = [] ∧ o = normalize env svc a a0 a1 request);
    [by intros s Hs|intros identity|intros e s [Hs _]; by apply Hfail].
  apply triple_pure. intros Hid. destruct (identity_named env svc _ _ _ _ _ (eq_sym Hid)) as [Hc Hu].
  eapply triple_bind; [apply silent_triple|intros issued|exact Hfail].
  eapply triple_bind with (Q1 := λ _ s, cn_sent s = []);
    [by intros s Hs|intros resume_token|exact Hfail].
  intros s Hs. rewrite offered. revert s Hs.
  assert (∀ p n, p `prefix_of` stream_opening identity resume_token ++ replicate n (working_frame identity) →
    opened p) as Hopened by (intros; by eapply opened_by).
  apply offer_then; [by constructor|apply (Hopened _ 0%nat); by eexists [_]|..|done].
  intros s Hs. rewrite offered. revert s Hs.
  apply offer_then; [apply (Hopened _ 0%nat); by eexists [_]|apply (Hopened _ 0%nat); by eexists []|..|done].
  intros s Hs. pose proof (stream_task_sent request identity s Hc Hu) as Ht.
  destruct (stream_task send_item (task_outcome settings svc request identity) (working_data identity) s) as [o s'].
  destruct Ht as (k & q & Hsent & Hq & Hst). cbn [fst snd]. rewrite Hs in Hsent.
  destruct Hq as [->|(Hret & r & Hr & ->)].
  - left. split; [|by intros Hstays ->; apply (Hst Hstays)]. rewrite Hsent, app_nil_r.
    by apply (Hopened _ k).
  - right. split; [|done]. rewrite Hsent. by apply (streamed_completed identity resume_token).
Qed.
End stream.

(** C11. The event stream follows its protocol.  Whatever the run, the host and
    the client do, the frames sent are a prefix of [request_started],
    [planning_started] and any number of [working], all of one run, closed at
    most once and last: by a [completed] event with a response the schema
    accepts, after the whole opening, or by an [error] event that tells an
    error of the request's identity or a constant.  When the client stays, a stream that is not
    cancelled is closed by one of them; nothing but a cancellation leaves it. *)
Theorem chat_stream_protocol {St H} `{RunRepository St} `{!ChatHost St H} `{!StreamHost St H}
    env settings svc request (s : Connection St H)
    (Huuid : uuids_nonempty (St:=St) (H:=H)) (Hnew : cn_sent s = []) :
  let '(o, s') := events env settings svc request s in
  ∃ ended, streamed svc ended (cn_sent s') ∧
    (∀ e, o = Raise e → e = CancelledError ∧ ended = false) ∧
    (stays (St:=St) (H:=H) → o = Ret tt → ended = true).
Proof.
  unfold events, try_except. pose proof (astream_sent env settings svc Huuid request s Hnew) as Ha.
  destruct (astream_events env settings svc send_item request s) as [[[]|e] s1]; cbn [fst snd] in Ha.
  { destruct Ha as [[Ho Hst]|[Ho _]].
    - exists false. split_and!; [by constructor|done|]. intros Hstays _. by destruct (Hst Hstays).
    - by exists true. }
  destruct Ha as [[Ho _]|[_ ?]]; [|done].
  assert (∀ name, nonempty name = true →
    let '(o, s') := (on_chat (count name) ;;; yield_frame "error" (error_data e) ;;; ret tt) s1 in
    ∃ ended, streamed svc ended (cn_sent s') ∧
      (∀ e', o = Raise e' → e' = CancelledError ∧ ended = false) ∧
      (stays (St:=St) (H:=H) → o = Ret tt → ended = true)) as Hreport.
  { intros name Hn. destruct (count_run name (cn_chat s1) Hn) as (c & Ec & _).
    unfold on_chat at 1, bind, zoom. rewrite Ec. unfold yield_frame, bind, modify, on_chat, world, zoom. cbn.
    destruct (h_taken _) as [more w']. exists true. split_and!; [|done|done].
    apply streamed_error; [done|]. destruct e; by constructor. }
  destruct e as [| | |c msg| | | | | |]; cbn [stream_failed]; try by apply Hreport.
  destruct (count_run "api.chat_stream.cancelled" (cn_chat s1) eq_refl) as (c & Ec & _).
  unfold on_chat, bind, zoom. rewrite Ec. exists false.
  split_and!; [by constructor|by intros e' [= <-]|done].
Qed.

(** ** Reading a stream back *)

Definition stream_body (frames : list string) : string := foldr (λ f body, f +:+ body) EmptyString frames.

(** An event whose lines no character of its own breaks, with data as the
    program builds them: distinct keys, and floats spelled as their [repr]. *)
Definition readable (float_repr : string → string) (item : string * pydict) : bool :=
  no_break item.1 && no_break (dumps default_separators (VDict item.2)) &&
  json_text float_repr (VDict item.2).

Lemma read_frame name data rest events :
  no_break name = true → no_break (dumps default_separators (VDict data)) = true →
  foldl sse_line (MkSSE None None [] events) (splitlines (frame name data +:+ rest)) =
  foldl sse_line (MkSSE None None [] (events ++ [MkEvent (Some name) (dumps default_separators (VDict data)) None]))
    (splitlines rest).
Proof.
  intros Hn Hj. unfold frame, encode_sse. set (json := dumps default_separators (VDict data)) in *.
  assert (no_break ("event: " +:+ name) = true) as Hn' by by apply no_break_prefix.
  assert (no_break ("data: " +:+ json) = true) as Hj' by by apply no_break_prefix.
  replace (("event: " +:+ name +:+ nl +:+ "data: " +:+ json +:+ nl +:+ nl) +:+ rest)
    with (("event: " +:+ name) +:+ nl +:+ ("data: " +:+ json) +:+ nl +:+ "" +:+ nl +:+ rest)
    by (by rewrite !sapp_assoc).
  unfold splitlines at 1. rewrite splitlines_line by done. cbn [foldl].
  unfold splitlines at 1. rewrite splitlines_line by done. cbn [foldl].
  unfold splitlines at 1. rewrite splitlines_line by done. cbn [foldl].
  f_equal. rewrite !sapp_nil. unfold sse_line at 3. rewrite rstrip_no_break by done.
  unfold sse_line at 2. rewrite rstrip_no_break by done. reflexivity.
Qed.

(** C37. A stream is read back event by event.  The body of frames is parsed by
    the event-stream reader of the program into exactly the events sent, in
    order, and the data of each is loaded as the object that was encoded,
    floats included.  It is about [readable] frames: no character of a name or
    of a string inside may be one that str.splitlines breaks a line at, which
    [separator_breaks_event] shows is needed; a dictionary has distinct keys;
    a float is spelled as its [repr], which float() reads back. *)
Theorem stream_decodes float_repr items
    (Hreadable : forallb (readable float_repr) items = true) :
  parse_sse (stream_body ((λ i, frame i.1 i.2) <$> items)) =
    (λ i, MkEvent (Some i.1) (dumps default_separators (VDict i.2)) None) <$> items ∧
  Forall (λ i, loads float_repr (dumps default_separators (VDict i.2)) = Some (VDict i.2)) items.
Proof.
  split.
  - unfold parse_sse.
    enough (∀ events, foldl sse_line (MkSSE None None [] events)
        (splitlines (stream_body ((λ i, frame i.1 i.2) <$> items))) =
      MkSSE None None [] (events ++ ((λ i, MkEvent (Some i.1) (dumps default_separators (VDict i.2)) None) <$> items)))
      as E by (by rewrite E).
    induction items as [|[name data] items IH]; intros events; [by rewrite app_nil_r|].
    cbn in Hreadable. apply andb_true_iff in Hreadable as [[[Hn Hj]%andb_true_iff _]%andb_true_iff Hr].
    cbn [fmap list_fmap stream_body foldr fst snd]. rewrite (read_frame name data _ events Hn Hj).
    etrans; [exact (IH Hr _)|]. by rewrite <- app_assoc.
  - apply forallb_Forall in Hreadable. eapply Forall_impl; [exact Hreadable|]. intros [name data] H.
    apply andb_true_iff in H as [_ H]. apply loads_text; [by left|done].
Qed.

(** ** A client that stays *)

#[export] Instance staying_client : StreamHost MemoryRunRepository (Z * nat) := {
  h_disconnected := ret false;
  h_taken w := (true, w);
  h_ticks := ret 2%nat
}.

Lemma calm_uuids : uuids_nonempty (St:=MemoryRunRepository) (H:=Z * nat).
Proof. by intros w u w' [= <- _]. Qed.

Definition new_connection : Connection MemoryRunRepository (Z * nat) :=
  MkConnection (calm_state memory_init) [].

(** The run is answered, and its stream sends the two opening events, two ticks
    and the response. *)
Example sample_replies :
  let reply := (chat ascii_env default_settings chat_service None chat_request (calm_state memory_init)).1 in
  let sent := cn_sent (events ascii_env default_settings chat_service chat_request new_connection).2 in
  match reply with Ret r => hr_status r = 200 | Raise _ => False end ∧
  (ev_event <$> parse_sse (stream_body sent)) =
    Some <$> ["request_started"; "planning_started"; "working"; "working"; "completed"].
Proof. vm_compute. by split. Qed.

Lemma chat_reply_typed_witness :
  match chat ascii_env default_settings chat_service None chat_request (calm_state memory_init) with
  | (Ret reply, s') => chat_reply default_settings None reply ∧
      (is_Some (require_api_key default_settings None) → s' = calm_state memory_init)
  | (Raise e, _) => e = CancelledError
  end.
Proof.
  pose proof (chat_reply_typed ascii_env default_settings chat_service None chat_request
    (calm_state memory_init) calm_uuids) as Hreply. exact Hreply.
Defined.

Lemma chat_stream_protocol_witness :
  let '(o, s') := events ascii_env default_settings chat_service chat_request new_connection in
  ∃ ended, streamed chat_service ended (cn_sent s') ∧
    (∀ e, o = Raise e → e = CancelledError ∧ ended = false) ∧
    (stays (St:=MemoryRunRepository) (H:=Z * nat) → o = Ret tt → ended = true).
Proof.
  pose proof (chat_stream_protocol ascii_env default_settings chat_service chat_request new_connection
    calm_uuids eq_refl) as Hstream. exact Hstream.
Defined.

Definition sample_items : list (string * pydict) :=
  [("working", [("stage", VStr "agent_graph")]); ("completed", [("response", VStr ("a" +:+ nl +:+ "b"));
     ("usage", VDict [("elapsed_seconds", VFloat "1.25"); ("model_attempts", VInt 3)])])].

Lemma stream_decodes_witness :
  parse_sse (stream_body ((λ i, frame i.1 i.2) <$> sample_items)) =
    (λ i, MkEvent (Some i.1) (dumps default_separators (VDict i.2)) None) <$> sample_items ∧
  Forall (λ i, loads (λ r, r) (dumps default_separators (VDict i.2)) = Some (VDict i.2)) sample_items.
Proof. apply stream_decodes. vm_compute. reflexivity. Defined.
