(* ===== verification/BaseAgent.v ===== *)
(** * The agent without durable runs

    [ChatAgent.ainvoke] and [ChatAgent.astream_events] of [app/graph.py], which
    [ChatRuntimeAgent] overrides with the durable versions of [ChatRuntime] and
    [Api]: no identity, lease or stored outcome; the history and the inventory are
    read, the graph runs inside the request's meter, an exceeded budget becomes an
    answer, the turn is appended, and the response is built.  The host is that of
    [Service].  [base_answers_are_committed]: an answer is verified or says that it
    stopped, and it is the one appended. *)

From S2P Require Import Prelude PyData Json PyNum RunTypes RunRepo MemoryRepo RunOutcome Metrics Settings Schemas.
From S2P Require Import Inventory Routing Meter ToolPolicy GraphState GraphNodes GraphRun GraphCorrect.
From S2P Require Import ChatSchema Identity Gate ChatRuntime ChatProps ChatSample Service Api.

Section base.
Context {St H X : Type} `{RunRepository St} `{base : !ChatHost St H} `{GraphHost X} (settings : Settings).
#[local] Hint Extern 0 (ChatHost St (Hosted H X)) => exact (program_host settings) : typeclass_instances.
(** [self.memory.append]. *)
Context (memory_append : string → pydict → pydict → M (St * Hosted H X) unit).

Abbreviation BM := (M (ChatState St (Hosted H X))) (only parsing).

(** [o or str(uuid4())]. *)
Definition or_uuid4 (o : option string) : BM string :=
  match o with
  | Some s => if nonempty s then ret s else world h_uuid4
  | None => world h_uuid4
  end.

Definition stopped_response (reason : string) : string :=
  "Execution stopped safely before a verified answer could be produced: " +:+ reason +:+ ".".

(** What an exceeded budget makes of the initial state. *)
Definition stopped_state (msg : string) (s : GState) : GState := s
  <| gs_response := stopped_response msg |>
  <| gs_backend := backend_name (llm_backend settings) |>
  <| gs_model := None |>
  <| gs_termination_reason := Some msg |>
  <| gs_task_results := [] |>.

(** The graph, and [except BudgetExceeded]. *)
Definition base_graph (initial_state : GState) : M (World X) pydict :=
  try_except
    (let! result := run_program settings initial_state in
     match result with
     | Some r => ret (gr_values r)
     | None => raise (PyExn TypeError "'NoneType' object is not subscriptable")
     end)
    (λ e, match e with
          | BudgetExceeded msg => Some (
              let! s := _state_update (stopped_state msg) initial_state in
              ret (state_values s))
          | _ => None
          end).

(** [result[key]], which has to be a string. *)
Definition text_item (key : string) (values : pydict) : outcome string :=
  try! v := of_option (PyExn KeyError key) (dict_get key values) in str_field (Some v).

Definition turn_message (role content run_id : string) : pydict :=
  [("role", VStr role); ("content", VStr content); ("run_id", VStr run_id)].

Definition base_metadata (request : ChatRequest) (values : pydict) (decision : SystemPromptDecision)
    (inventory : RuntimeInventory) (usage : pydict) : pydict :=
  dict_merge (cr_metadata request) [
  ("runtime_contract", VStr "agent-graph-v1");
  ("plan", get_or_none "plan" values);
  ("verification", get_or_none "task_results" values);
  ("final_verification", get_or_none "final_verification" values);
  ("final_revision_rounds", default (VInt 0) (dict_get "final_revision_rounds" values));
  ("iterations", get_or_none "iterations" values);
  ("termination_reason", get_or_none "termination_reason" values);
  ("routing", get_or_none "routing" values);
  ("selected_models", get_or_none "selected_models" values);
  ("selected_tool", get_or_none "selected_tool" values);
  ("selected_tools", get_or_none "selected_tools" values);
  ("research_queries", get_or_none "research_queries" values);
  ("system_prompt", VDict [
    ("source", VStr (sp_source decision));
    ("domain", VStr (sp_domain decision));
    ("generated", VBool (String.eqb (sp_source decision) "derived"))]);
  ("inventory", VDict [
    ("models", names_value (model_names inventory));
    ("tools", names_value (tool_names inventory));
    ("errors", VDict (map (λ kv, (kv.1, VStr kv.2)) (ri_errors inventory)));
    ("cached", VBool (ri_cached inventory))]);
  ("usage", VDict usage)].

Definition base_config (execution_thread_id : string) : pyval :=
  VDict [("configurable", VDict [("thread_id", VStr execution_thread_id)])].

(** The state the graph starts from. *)
Definition base_state (request : ChatRequest) (conversation_id run_id execution_thread_id request_id : string)
    (history : list pyval) (inventory : RuntimeInventory) (decision : SystemPromptDecision)
    (budget : ExecutionBudget) (grounding : list Grounding.ClaimGroundingResult) : GState :=
  build_fresh_run_state (cr_message request) (sp_prompt decision) (sp_source decision) (sp_domain decision)
    (dict_merge (cr_metadata request) [
       ("conversation_id", VStr conversation_id); ("run_id", VStr run_id);
       ("execution_thread_id", VStr execution_thread_id)])
    history request_id inventory (backend_name (llm_backend settings)) (Some run_id) (eb_state budget) grounding.

(** The local variables of [ainvoke] once the graph has run; [bt_values] is the
[result]. *)
Record BaseTurn : Type := MkBaseTurn {
  bt_conversation_id : string;
  bt_run_id : string;
  bt_decision : SystemPromptDecision;
  bt_inventory : RuntimeInventory;
  bt_budget : ExecutionBudget;
  bt_values : pydict
}.

Definition execution_thread (conversation_id run_id : string) : string := conversation_id +:+ ":" +:+ run_id.

(** Up to the graph's result. *)
Definition base_execute (request : ChatRequest) : BM BaseTurn :=
  let! conversation_id := or_uuid4 (opt_or (cr_conversation_id request) (cr_thread_id request)) in
  let! run_id := or_uuid4 (cr_run_id request) in
  let thread := execution_thread conversation_id run_id in
  let! request_id := world h_uuid4 in
  let! clocks := world h_mono in
  let budget := init_budget (seconds (execution_max_duration_seconds settings))
    (execution_max_model_calls settings) (execution_max_tool_calls settings)
    (execution_max_verifier_rounds settings) None clocks.1 clocks.2 in
  let! history := await_ (world (h_memory_get conversation_id)) in
  let! inventory := await_ (world h_inventory_load) in
  let decision := prepare_system_prompt (cr_message request) (cr_system_prompt request) in
  let! grounding := world (h_checkpoint_grounding (base_config thread)) in
  let initial_state := base_state request conversation_id run_id thread request_id
    history inventory decision budget grounding in
  let! values := await_ (world (in_meter (base_graph initial_state) budget)) in
  ret (MkBaseTurn conversation_id run_id decision inventory budget values).

(** [self.memory.append(...)]. *)
Definition base_commit (request : ChatRequest) (turn : BaseTurn) (answer : string) : BM unit :=
  await_ (world (memory_append (bt_conversation_id turn)
    (turn_message "user" (cr_message request) (bt_run_id turn))
    (turn_message "assistant" answer (bt_run_id turn)))).

(** [ChatResponse.from_result(...)]. *)
Definition base_response (request : ChatRequest) (turn : BaseTurn) (answer : string) : BM ChatResponse :=
  let! backend := of_outcome (text_item "backend" (bt_values turn)) in
  let! model := of_outcome (opt_str_field (dict_get "model" (bt_values turn))) in
  let! spent := world (h_meter_after (bt_budget turn)) in
  let! clocks := world h_mono in
  let! fresh := world h_uuid4 in
  ret (from_result fresh fresh fresh None (Some (bt_conversation_id turn)) (Some (bt_run_id turn))
    (Some (execution_thread (bt_conversation_id turn) (bt_run_id turn))) answer backend model
    (base_metadata request (bt_values turn) (bt_decision turn) (bt_inventory turn)
      (usage_metadata spent clocks.1 clocks.2))).

Definition base_ainvoke (request : ChatRequest) : BM ChatResponse :=
  let! turn := base_execute request in
  let! answer := of_outcome (text_item "response" (bt_values turn)) in
  base_commit request turn answer ;;;
  base_response request turn answer.

(** ** [astream_events] *)

Context `{!StreamHost St (Hosted H X)}.

Definition base_astream_events (consumer : StreamItem → M (Connection St (Hosted H X)) bool)
    (request : ChatRequest) : M (Connection St (Hosted H X)) unit :=
  let! item := event "request_started" [
    ("thread_id", opt_value (opt_or (cr_conversation_id request) (cr_thread_id request)));
    ("run_id", opt_value (cr_run_id request))] in
  let! more := consumer item in
  if more then
    let! item := event "planning_started" [] in
    let! more := consumer item in
    if more then stream_task consumer (outcome_of (base_ainvoke request)) [("stage", VStr "agent_graph")]
    else ret tt
  else ret tt.

(** ** What is answered *)

Context `{!GraphLaws X}.

Lemma base_graph_values initial w values w' :
  base_graph initial w = (Ret values, w') →
  (∃ msg, values = state_values (stopped_state msg initial)) ∨
  ∃ g w1 last sf w2, gs_message g = gs_message initial ∧ gs_run_id g = gs_run_id initial ∧
    run_graph settings (graph_fuel settings w1) NPlan g w1 = Some (Ret (last, sf), w2) ∧
    values = state_values sf.
Proof.
  unfold base_graph, try_except. intros E. destruct (bind _ _ w) as [[r|e] w1] eqn:Hb.
  - injection E as -> ->. right. apply bind_Ret_inv in Hb as (r&w2&Hr&Hb).
    apply run_program_ran in Hr as (g&w3&last&sf&Hm&Hi&Hrun&->). injection Hb as <- _.
    by exists g, w3, last, sf, w2.
  - left. destruct e; try done. apply bind_Ret_inv in E as (s1&w2&Hs&E). injection E as <- _.
    apply bind_Ret_inv in Hs as (snap&w3&_&Hs). injection Hs as <- _. by exists msg.
Qed.

Lemma base_graph_honest request run_id initial w values w' response :
  base_graph initial w = (Ret values, w') →
  gs_message initial = cr_message request → gs_run_id initial = Some run_id →
  text_item "response" values = Ret (resp_response response) →
  (∀ k, In k ["plan"; "verification"; "termination_reason"] → get_or_none k (resp_metadata response) =
    get_or_none (if String.eqb k "verification" then "task_results" else k) values) →
  honest_answer settings request run_id response.
Proof.
  intros Eg Hm Hi Ht Hk. apply base_graph_values in Eg as [[msg ->]|(g&w1&last&sf&w2&Hgm&Hgi&Hrun&->)];
    cbn in Ht; injection Ht as Ht.
  - left. rewrite <- Ht. apply (contains_here stopped_text).
  - destruct (run_graph_answer settings _ _ _ _ _ _ Hrun) as [Hv|Hs]; [right|left; by rewrite <- Ht].
    exists sf. split; [exists g, w1, last, w2; by rewrite Hgm, Hgi|]. split; [done|].
    split; [done|..]; rewrite Hk by (cbn; tauto); done.
Qed.

(** C32. Without durable runs too, every answer is verified or says that it is not,
    and it is the one committed.  When [ainvoke] of the base agent returns, exactly
    one turn was appended, between the graph and the building of the response: to
    the conversation of the request, if it names one, the message of the request as
    the user's and the text of the response as the assistant's, both under one run
    id -- the request's, if it names one.  The text either says that execution
    stopped safely or is the answer of a verified run of the graph on this message
    and run id, whose plan and results the metadata shows. *)
Theorem base_answers_are_committed request (s : ChatState St (Hosted H X)) response s'
    (Hrun : base_ainvoke request s = (Ret response, s')) :
  ∃ turn s1 s2,
    base_execute request s = (Ret turn, s1) ∧
    await_ (world (memory_append (bt_conversation_id turn)
      [("role", VStr "user"); ("content", VStr (cr_message request)); ("run_id", VStr (bt_run_id turn))]
      [("role", VStr "assistant"); ("content", VStr (resp_response response)); ("run_id", VStr (bt_run_id turn))]))
      s1 = (Ret tt, s2) ∧
    base_response request turn (resp_response response) s2 = (Ret response, s') ∧
    (∀ c, opt_or (cr_conversation_id request) (cr_thread_id request) = Some c → nonempty c = true →
      bt_conversation_id turn = c) ∧
    (∀ r, cr_run_id request = Some r → nonempty r = true → bt_run_id turn = r) ∧
    honest_answer settings request (bt_run_id turn) response.
Proof.
  unfold base_ainvoke in Hrun. apply bind_Ret_inv in Hrun as (turn&s1&Hx&E).
  apply bind_Ret_inv in E as (answer&s2&Ha&E). injection Ha as Ha <-.
  apply bind_Ret_inv in E as ([]&s3&Hc&E). pose proof E as Er.
  unfold base_response in Er. do 5 apply bind_Ret_inv in Er as (?&?&_&Er). injection Er as Er _.
  assert (resp_response response = answer) as Htext by (by rewrite <- Er).
  exists turn, s1, s3. rewrite Htext. split_and!; [done|exact Hc|done|..].
  - intros c Hr Hn. unfold base_execute in Hx. apply bind_Ret_inv in Hx as (conv&s4&Hid&Hx).
    do 7 apply bind_Ret_inv in Hx as (?&?&_&Hx). injection Hx as <- _.
    unfold or_uuid4 in Hid. rewrite Hr, Hn in Hid. by injection Hid as <- _.
  - intros r Hr Hn. unfold base_execute in Hx. apply bind_Ret_inv in Hx as (c&s4&_&Hx).
    apply bind_Ret_inv in Hx as (run_id&s5&Hid&Hx). do 6 apply bind_Ret_inv in Hx as (?&?&_&Hx).
    injection Hx as <- _. unfold or_uuid4 in Hid. rewrite Hr, Hn in Hid. by injection Hid as <- _.
  - unfold base_execute in Hx. do 7 apply bind_Ret_inv in Hx as (?&?&_&Hx).
    apply bind_Ret_inv in Hx as (values&s4&Hg&Hx). injection Hx as <- _. cbn [bt_values bt_run_id] in *.
    apply await_Ret in Hg. unfold world, zoom, in_meter in Hg.
    destruct (base_graph _ _) as [o v] eqn:Eg. injection Hg as -> _.
    eapply base_graph_honest; [exact Eg|done..|by rewrite Htext|].
    intros k Hk. rewrite <- Er. cbn [from_result fill_compatibility_identity resp_metadata].
    unfold base_metadata, get_or_none at 1.
    rewrite dict_get_merge by (by apply (bool_decide_unpack _)). cbn in Hk.
    destruct Hk as [<-|[<-|[<-|[]]]]; reflexivity.
Qed.
End base.

(** ** A run *)

Section base_sample.
#[local] Existing Instance news_host.
#[local] Existing Instance sample_graph_host.
#[local] Existing Instance sample_graph_laws.

(** A conversation memory that takes only the turn this run should append. *)
Definition expecting : string → pydict → pydict → M (MemoryRunRepository * Hosted (Z * nat) unit) unit :=
  λ _ user assistant,
  if bool_decide (dict_get "content" user = Some (VStr (cr_message news_request)))
     && bool_decide (dict_get "content" assistant = Some (VStr "Both findings."))
     && bool_decide (dict_get "run_id" user = dict_get "run_id" assistant)
  then ret tt else raise (PyExn RuntimeError "another turn").

#[local] Abbreviation base_run settings := (base_ainvoke settings expecting news_request news_start) (only parsing).

Lemma base_run_returns : ∃ response s',
  base_run sample_settings = (Ret response, s') ∧
  resp_response response = "Both findings.".
Proof. apply (returned_value resp_response). vm_compute. reflexivity. Qed.

Lemma base_answers_are_committed_witness : ∃ response s' run_id sf,
  base_run sample_settings = (Ret response, s') ∧
  ran sample_settings news_request run_id sf ∧ verified_run sample_settings sf ∧
  gs_response sf = "Both findings.".
Proof.
  destruct base_run_returns as (response&s'&E&Hr).
  destruct (base_answers_are_committed sample_settings expecting news_request news_start response s' E)
    as (turn&s1&s2&_&_&_&_&_&[Hs|(sf&Hran&Hv&[Htext _ _ _])]).
  - unfold says_stopped in Hs. rewrite Hr in Hs. discriminate Hs.
  - exists response, s', (bt_run_id turn), sf. split; [exact E|]. split; [exact Hran|]. split; [exact Hv|].
    rewrite <- Htext. exact Hr.
Defined.

(** An agent's own call can exceed the budget outside every handler of the graph: the
    answer names the limit. *)
#[local] Instance exhausted_host : GraphHost unit := {|
  gh_tools := gh_tools (GraphHost := sample_graph_host); gh_env := gh_env;
  gh_int_of_float := gh_int_of_float; gh_type_name := gh_type_name;
  gh_planner := λ _ _, raise (BudgetExceeded "model-call limit reached");
  gh_worker_execute := gh_worker_execute; gh_worker_revise := gh_worker_revise;
  gh_verify := gh_verify; gh_synthesize := gh_synthesize; gh_verify_final := gh_verify_final
|}.

Example base_stopped :
  match (base_ainvoke sample_settings (λ _ _ _, ret tt) news_request news_start).1 with
  | Ret response => resp_response response
  | Raise _ => ""
  end = "Execution stopped safely before a verified answer could be produced: model-call limit reached.".
Proof. vm_compute. reflexivity. Qed.
End base_sample.
